(* ===== verification/_CoqProject ===== *)
-Q . S2P
Prelude.v
Text.v
Options.v
Effect.v
Double.v
Wire.v
CatalogDefs.v
CatalogData.v
Catalog.v
SourceSession.v
Sampler.v
PosixClock.v
ServerDefs.v
ServerOps.v
ServerQueue.v
ServerClient.v
Replica.v
ServerCatchup.v
ServerInput.v
Framing.v
Host.v
ServerTheorems.v
DaemonOps.v
Distribute.v
Broadcast.v
Daemon.v
Heartbeat.v
Events.v
DaemonTheorems.v
Harmless.v
ClientDefs.v
ClientOps.v
ClientIo.v
ClientCache.v
ClientSync.v
ClientLive.v
ClientConnect.v
ClientFollows.v
ClientPace.v
ClientHost.v
ClientTheorems.v
ClientSteady.v
SmokeOps.v
SmokeTheorems.v
SetupDefs.v
SetupOps.v
SourceHeld.v
Streams.v
SetupStart.v
Lifecycle.v
DaemonArgs.v
SetupHost.v
SetupTheorems.v
CtlDefs.v
CtlOps.v
CtlIo.v
CtlPace.v
CtlSession.v
CtlFollows.v
CtlTheorems.v
VhalElf.v
VhalDefs.v
VhalOps.v
VhalOs.v
VhalProc.v
VhalOpen.v
VhalRead.v
VhalInterface.v
VhalSession.v
VhalHost.v
VhalTheorems.v
