(* ===== verification/Prelude.v ===== *)
(** * Roadcast: a verification library

    Roadcast is a daemon, [roadcastd], that samples the CAN frames a vehicle's
    HAL process holds in memory, decodes them into signals with a generated
    catalog, and publishes frames and signals over a Unix socket to clients that
    download a snapshot and then follow updates; a C client library and a
    command line tool consume the protocol.  This library models the C code of
    the daemon, its memory reader, the protocol, the client library and the tool,
    and proves that they are safe and correct.

    ** The program's parts and where they are modelled

    - Wire protocol (src/protocol.c, include/roadcast_protocol.h): [Wire].  One
      definition per encoder and decoder, on byte buffers, with the writes and
      reads at the offsets of the source.
    - Signal catalog (src/catalog.c, src/catalog_generated.c,
      include/roadcast_catalog.h, include/roadcast_frames.h and the hash
      functions of scripts/generate-catalog.py): [CatalogDefs], [CatalogData]
      (the generated tables, literal by literal) and [Catalog].  Physical values
      are IEEE doubles, modelled by their bit patterns in [Double].  The rest of
      the library is generic in the catalog (class [Catalog], laws [CatalogOk]);
      [generated_catalog] is the instance the program is compiled with.
    - Source session (src/source_session.c): [SourceSession], against the
      interface [VhalSource] of the memory reader with its laws [VhalSourceOk].
    - VHAL source (src/vhal_source.c): the state in [VhalDefs], the parser of the
      executable's symbols in [VhalElf], one definition per function in [VhalOps]
      ([vhal_open], [vhal_read] and [vhal_close] are the functions
      [roadcast_vhal_open] etc.).  /proc, memory of other processes, allocation and
      [errno] are the class [Os], laws [OsOk]: what is open and allocated, a
      history of what was opened under which name, in which directory, and of what
      each descriptor, link and mapping delivered, and a budget that bounds how often
      a call is interrupted and how many entries a file has.  [VhalInterface] makes the source an instance
      [linux_vhal] of [VhalSource] and proves its laws, so that the theorems on
      the session, the sampler and the daemon hold for it ([linux_vhal_ok],
      [linux_vhal_apart]).
    - Sampler (src/roadcastd.c, [merge_sampled_frames] to
      [sampler_read_latest]): [Sampler].  One iteration of the thread is one
      function; the lock makes publication and reading atomic, so the thread and
      the event loop interleave at that granularity.
    - Clock (src/roadcastd.c, [monotonic_ns] and [sleep_until]): [PosixClock],
      an instance of the class [Clock] of [Sampler] on [clock_gettime] and
      [nanosleep].
    - Connections (src/roadcastd.c, one client: output queue, snapshots,
      catch-up, commands, framing, callbacks): the state in [ServerDefs], the
      handlers in [ServerOps], in a state monad over one client, the server and
      the outside world.  libuv and the system calls of the handlers are the class
      [Uv]; [UvOk] states what the code relies on: a stream carries the successful
      writes in order, and a ghost counter ([failures]) counts the writes that failed.
    - Event loop (src/roadcastd.c, the whole client array: accepting,
      distributing samples, heartbeats, statistics, shutdown):
      [DaemonOps]; the events and runs of the process are in [Events].
    - Process of the daemon (src/roadcastd.c, the options, the listening socket,
      the handles of libuv, the thread and [main]): the interface [Process] in
      [SetupDefs], whose laws [ProcessOk] say what each call acquires and
      releases, [StreamsOk] that only [uv_pipe_init] makes a stream and [uv_close]
      closes it, [SourceOk] that the VHAL source is held from a successful open to
      its close; the loop can be left when every handle and every stream on it has
      been closed; the functions in [SetupOps].  [daemon_main] is [main] up to the
      event loop, [daemon_exit] what follows it; the events of [Events] are what
      happens in between.  [daemon_fill_unix_address] is the daemon's own
      [fill_unix_address].
    - Client library (src/client.c): the state in [ClientDefs], one definition
      per function in [ClientOps], against the class [Socket] of one connection;
      [SocketOk] states what the code relies on: bytes are read once and in
      order, and a budget bounds the calls that move bytes in either direction, are
      interrupted or would block.  The budget is a hypothesis on the peer too: one
      that sends for ever is excluded wherever a theorem says that a call returns,
      because the code has no bound on it (it looks at its deadlines only when a call
      would block).  [TicksOk] records the readings of the clock, the waits and the
      sends in order, for what is said about deadlines.
      The cache lock makes the reader's commits and the application's reads
      atomic, so they interleave at that granularity.
    - Command line tool (src/roadcastctl.c): the state, the printed lines and the
      world in [CtlDefs], one definition per function in [CtlOps] (those that share
      their name with a function of the library have the prefix [ctl_]), and [main]
      cut into the option parser [ctl_options], the session and the loop
      [stream_loop].  It runs against the same class [Socket] as the library.  A
      printed line is recorded with the values it shows.
    - Smoke test of the library (src/roadcast_client_smoke.c): [SmokeOps].  The
      library's reader thread takes any number of turns ([reader_turn], one message
      each) between two calls of the interface.  A resynchronization is one turn,
      although the code rebuilds the lookup table outside of the cache lock.
    - C strings and numerals (the parts of libc the parsers use): [Text]; the
      numbers of the command lines: [Options].  [Effect] is the monad of the tool
      and of the VHAL source, functions over an outside world, with its weakest
      preconditions.

    ** What the theorems show

    - [Wire], [Catalog]: decoders accept exactly the encodings of well-formed
      values, batches and schema pages round-trip, decoding a signal gives the
      value of its bit field, and the generated catalog is consistent with its
      generator.
    - [SourceSession], [Sampler]: what a failing source leaves behind, the
      doubling backoff, the history a frame's time stamps record, and that every
      iteration publishes a well-formed sample.
    - [ServerQueue], [ServerClient], [Replica], [ServerCatchup], [ServerInput],
      [Framing], with the properties in [ServerTheorems]: the output queue's
      contract and budget; commands as a refinement of the protocol given as a
      function ([answer_to]); the byte stream is cut into the same commands
      however it arrives; the catch-up loop terminates and brings a replica,
      built by decoding the bytes on the stream, into agreement with the server.
    - [Distribute], [Broadcast], [Daemon], [Heartbeat], [Events], with the
      properties in [DaemonTheorems]: incremental decoding equals full decoding;
      distribution keeps every subscriber's replica in agreement or cuts the
      subscriber off; no event that can happen is undefined and the invariant of
      the whole process holds in every reachable state; limits per user,
      deadlines and shutdown.
    - [Harmless], [SourceHeld], [Streams], [SetupStart], [Lifecycle] and
      [DaemonArgs], with the properties in [SetupTheorems]: the parser reads a
      command line as its words say, a start that fails leaves nothing behind, in
      every reachable state the marks of the process say what it holds, an open
      source is the sampler's, and every stream is an open client's or has been
      closed; and the end of [main] releases all of it.
    - [ClientIo], [ClientCache], [ClientSync], [ClientLive], [ClientConnect],
      [ClientFollows] and [ClientPace], with the properties in [ClientTheorems]:
      every call returns as long as the peer does not send for ever, no wait of a
      connection is asked to end after the setup deadline, and every call is defined
      behaviour on any bytes the peer sends; the cache stays well-formed; the messages of a
      synchronized connection make the client's cache the replica that
      [DaemonTheorems] shows in step with the daemon.
    - [ClientSteady], with the property in [SmokeTheorems]: the reader never touches
      the descriptor and the schema, and every call of the interface is safe
      whenever it falls between two turns of the reader, even after a
      resynchronization has failed.
    - [PosixClock]: a sleep ends at its deadline or after it however often it is
      interrupted, and the sampling thread is never faster than its rate.
    - [CtlIo], [CtlPace], [CtlSession] and [CtlFollows], with the properties in
      [CtlTheorems]: the tool exits as long as the peer does not send for ever, waits
      no longer than its timeout and --seconds say, is defined behaviour on any bytes
      the peer sends, accepts
      exactly the documented options, and on the stream of the daemon refuses no
      message, counts no gap and keeps the signals of the daemon.
    - [VhalProc], [VhalOpen], [VhalRead], [VhalSession], with the properties in
      [VhalTheorems]: the ELF parser is safe on any file and finds the symbols,
      the texts of /proc are parsed back, what opening reads is of the process
      that was found, what a read returns was read at the frame's address from the
      process that was opened (but for a symbol that was moved to the address 0), and no descriptor and no
      memory is leaked.

    [Host], [SetupHost], [ClientHost] and [VhalHost] are concrete outside worlds
    that satisfy the interfaces; the witnesses evaluate the theorems on them.

    ** Conventions

    A machine integer is a [Z] with its wrap-around written out ([u8], [u16],
    [u32], [u64], [sz]).  A call that can go wrong returns [res]: [Ok], [Fail]
    for the failure code (in the handlers' monad: a loop out of fuel) and [UB]
    for undefined behaviour, so that safety is part of every theorem that says
    a call returns [Ok].  Loops that are not structural take fuel: the framing
    loop the number of headers a full buffer can hold, the catch-up loop twice
    the number of slots and more, the chunk loops the number of changed items;
    the loops that wait for the outside world (of the client, of the tool and of
    the VHAL source) one fuel for all, larger than the budget of the world; the theorems
    prove that the fuel is enough.

    ** Not modelled

    Interleavings of threads finer than the critical sections and the messages named
    above; the wake-up [uv_async_send] of [sampler_publish], in whose place the event
    [SampleNotification] may happen at any time; the contraction of
    [numeric * scale + offset] to one rounding that a compiler may choose where the
    target has a fused multiply-add (the model rounds twice, as the C text says); the
    reads of a session whose initialization has failed, which the sampler does not
    make (a missing process name reads as the empty one); log output, the null pointer checks of the client's functions and the
    freeing of its memory and the tool's, the text that [printf] makes of values,
    and the language bindings, scripts, tests and packaging of the repository. *)
From Stdlib Require Export ZArith Lia Bool.
From stdpp Require Export base numbers list option.

#[global] Open Scope Z_scope.

(** ** Results of C calls

    [Ok a] is a call that returns its success code together with what it wrote
    through its out-parameters, [Fail] is a call that returns its failure code,
    and [UB] is undefined behaviour: an access outside an array, or a shift by
    the width of its operand or more.  Keeping [UB] apart from [Fail] makes
    memory safety a statement about the model. *)

Inductive res (A : Type) : Type :=
  | Ok (a : A)
  | Fail
  | UB.
Arguments Ok {A} _.
Arguments Fail {A}.
Arguments UB {A}.

#[export] Instance res_ret : MRet res := fun A a => Ok a.

#[export] Instance res_bind : MBind res := fun A B f m =>
  match m with
  | Ok a => f a
  | Fail => Fail
  | UB => UB
  end.

(** A guard of the code: [if (b) return -1;]. *)
Definition reject_if (b : bool) : res unit := if b then Fail else Ok tt.

(** The call has defined behaviour. *)
Definition no_ub {A} (m : res A) : Prop := m <> UB.

Definition is_ok {A} (m : res A) : bool :=
  match m with Ok _ => true | _ => false end.

(** ** Fixed-width integers *)

Definition u8 (x : Z) : Z := x mod 2 ^ 8.
Definition u16 (x : Z) : Z := x mod 2 ^ 16.
Definition u32 (x : Z) : Z := x mod 2 ^ 32.
Definition u64 (x : Z) : Z := x mod 2 ^ 64.

(** [size_t] is 64 bits wide on both supported targets. *)
Definition sz (x : Z) : Z := x mod 2 ^ 64.

Definition UINT16_MAX : Z := 2 ^ 16 - 1.
Definition UINT32_MAX : Z := 2 ^ 32 - 1.
Definition UINT64_MAX : Z := 2 ^ 64 - 1.
Definition SIZE_MAX : Z := 2 ^ 64 - 1.

Definition is_u8 (x : Z) : Prop := 0 <= x < 2 ^ 8.
Definition is_u16 (x : Z) : Prop := 0 <= x < 2 ^ 16.
Definition is_u32 (x : Z) : Prop := 0 <= x < 2 ^ 32.
Definition is_u64 (x : Z) : Prop := 0 <= x < 2 ^ 64.

(** A buffer of [uint8_t]. *)
Definition bytes_ok (l : list Z) : Prop := Forall is_u8 l.

Definition zlen {A} (l : list A) : Z := Z.of_nat (length l).

(** ** Record updates

    [r <| f := v |>] is the C assignment [r.f = v].  A record type declares its
    eta expansion once; the setter of each projection is found from it. *)

Class Eta (R : Type) := eta : R -> R.

Class Setter {R T} (proj : R -> T) := set : (T -> T) -> R -> R.
Arguments set {R T} proj {_} _ _.

Ltac find_setter proj :=
  lazymatch type of proj with
  | ?R -> _ =>
      let e := constr:(@eta R _) in
      let body := eval hnf in e in
      lazymatch eval pattern proj in body with
      | ?F _ => exact (fun f r => F (fun x => f (proj x)) r)
      end
  end.

#[export] Hint Extern 1 (Setter ?proj) => find_setter proj : typeclass_instances.

Notation "r <| proj := v |>" := (set proj (fun _ => v) r)
  (at level 1, left associativity, proj at level 0, v at level 200,
   format "r  <| proj  :=  v |>").

(** ** Automation

    [lia] unfolds the width predicates, so the range side conditions of the
    lemmas below need no preparation. *)

Ltac widths :=
  unfold is_u8, is_u16, is_u32, is_u64, u8, u16, u32, u64, sz, zlen,
    UINT16_MAX, UINT32_MAX, UINT64_MAX, SIZE_MAX in *.

Ltac width_lia := widths; lia.

(** Arithmetic with [/] and [mod] by constants. *)
Ltac div_lia := widths; Z.div_mod_to_equations; lia.

(** Peels the binds and guards of a hypothesis [m = Ok _]. *)
Ltac inv_res :=
  repeat match goal with
  | H : Ok _ = Ok _ |- _ => injection H; clear H; intros; subst
  | H : Fail = Ok _ |- _ => discriminate H
  | H : UB = Ok _ |- _ => discriminate H
  | H : mret _ = Ok _ |- _ => unfold mret, res_ret in H
  | H : (Ok _ ≫= _) = Ok _ |- _ => cbn beta iota delta [mbind res_bind] in H
  | H : (_ ≫= _) = Ok _ |- _ =>
      let E := fresh "E" in
      unfold mbind at 1, res_bind at 1 in H;
      lazymatch type of H with
      | match ?m with _ => _ end = _ => destruct m eqn:E; [|discriminate H..]
      end
  | H : reject_if ?b = Ok _ |- _ =>
      let E := fresh "G" in
      unfold reject_if in H; destruct b eqn:E; [discriminate H|clear H]
  end.

Ltac split_bools :=
  repeat match goal with
  | H : _ || _ = false |- _ => apply orb_false_iff in H as [? ?]
  | H : _ && _ = true |- _ => apply andb_true_iff in H as [? ?]
  | H : negb _ = false |- _ => apply negb_false_iff in H
  | H : negb _ = true |- _ => apply negb_true_iff in H
  | H : (_ =? _) = true |- _ => apply Z.eqb_eq in H
  | H : (_ =? _) = false |- _ => apply Z.eqb_neq in H
  | H : (_ <? _) = true |- _ => apply Z.ltb_lt in H
  | H : (_ <? _) = false |- _ => apply Z.ltb_ge in H
  | H : (_ <=? _) = true |- _ => apply Z.leb_le in H
  | H : (_ <=? _) = false |- _ => apply Z.leb_gt in H
  end.

(** Well-formedness of a concrete value: a conjunction of ranges and [Forall]s. *)
Ltac concrete :=
  cbn; widths;
  repeat match goal with
  | |- Forall _ [] => apply Forall_nil_2
  | |- Forall _ (_ :: _) => apply Forall_cons_2; cbn
  | |- _ /\ _ => split
  | |- _ \/ _ => first [left; reflexivity | right]
  | |- _ <= _ => vm_compute; discriminate
  | |- _ => reflexivity
  | |- _ => lia
  end.

Create HintDb roadcast.

(** ** Lemmas on results *)

Lemma bind_ok {A B} (a : A) (f : A -> res B) : (Ok a ≫= f) = f a.
Proof. done. Qed.

Lemma bind_assoc {A B C} (m : res A) (f : A -> res B) (g : B -> res C) :
  ((m ≫= f) ≫= g) = (m ≫= fun a => f a ≫= g).
Proof. by destruct m. Qed.

Lemma reject_false {A} (k : unit -> res A) : (reject_if false ≫= k) = k tt.
Proof. done. Qed.

Lemma reject_true {A} (k : unit -> res A) : (reject_if true ≫= k) = Fail.
Proof. done. Qed.

Lemma no_ub_ok {A} (a : A) : no_ub (Ok a).
Proof. done. Qed.

Lemma no_ub_fail {A} : no_ub (@Fail A).
Proof. done. Qed.

Lemma no_ub_bind {A B} (m : res A) (f : A -> res B) :
  no_ub m -> (forall a, m = Ok a -> no_ub (f a)) -> no_ub (m ≫= f).
Proof. intros Hm Hf. destruct m; try done. by apply Hf. Qed.

Lemma no_ub_reject {A} (b : bool) (k : unit -> res A) :
  (b = false -> no_ub (k tt)) -> no_ub (reject_if b ≫= k).
Proof. intros Hk. destruct b; [done|by apply Hk]. Qed.

#[export] Hint Resolve no_ub_ok no_ub_fail : roadcast.

(** ** Lemmas on fixed-width integers *)

Lemma u8_id x : is_u8 x -> u8 x = x.
Proof. intros H. by apply Z.mod_small. Qed.
Lemma u16_id x : is_u16 x -> u16 x = x.
Proof. intros H. by apply Z.mod_small. Qed.
Lemma u32_id x : is_u32 x -> u32 x = x.
Proof. intros H. by apply Z.mod_small. Qed.
Lemma u64_id x : is_u64 x -> u64 x = x.
Proof. intros H. by apply Z.mod_small. Qed.
Lemma sz_id x : 0 <= x < 2 ^ 64 -> sz x = x.
Proof. intros H. by apply Z.mod_small. Qed.

Lemma u8_range x : is_u8 (u8 x).
Proof. apply Z.mod_pos_bound. lia. Qed.
Lemma u16_range x : is_u16 (u16 x).
Proof. apply Z.mod_pos_bound. lia. Qed.
Lemma u32_range x : is_u32 (u32 x).
Proof. apply Z.mod_pos_bound. lia. Qed.
Lemma u64_range x : is_u64 (u64 x).
Proof. apply Z.mod_pos_bound. lia. Qed.

#[export] Hint Resolve u8_range u16_range u32_range u64_range : roadcast.

(** Disjoint bit fields: [|] is [+]. *)
Lemma lor_shiftl_add a b n :
  0 <= n -> 0 <= b < 2 ^ n -> Z.lor (Z.shiftl a n) b = a * 2 ^ n + b.
Proof.
  intros Hn Hb.
  rewrite <- Z.shiftl_mul_pow2 by done.
  rewrite Z.add_nocarry_lxor, <- Z.lxor_lor; [done|..];
    (apply Z.bits_inj'; intros i Hi; rewrite Z.land_spec, Z.bits_0;
     destruct (Z.lt_ge_cases i n);
     [rewrite Z.shiftl_spec_low by done; done
     |rewrite <- (Z.mod_small b (2 ^ n)) by done;
      rewrite Z.mod_pow2_bits_high by lia; apply andb_false_r]).
Qed.

(** A bit field below bit [n] does not see the bits above. *)
Lemma field_mod x n s b :
  0 <= s -> 0 <= b -> s + b <= n ->
  ((x mod 2 ^ n) / 2 ^ s) mod 2 ^ b = (x / 2 ^ s) mod 2 ^ b.
Proof.
  intros Hs Hb Hn. apply Z.bits_inj'. intros i Hi.
  destruct (Z.lt_ge_cases i b).
  - rewrite !Z.mod_pow2_bits_low by lia. rewrite !Z.div_pow2_bits by lia.
    apply Z.mod_pow2_bits_low. lia.
  - by rewrite !Z.mod_pow2_bits_high by lia.
Qed.

Lemma shiftr_div x n : 0 <= n -> Z.shiftr x n = x / 2 ^ n.
Proof. apply Z.shiftr_div_pow2. Qed.

(** ** Buffers

    A C array of bytes is a list; offsets and lengths are [size_t] values in
    [Z].  [rd] and [wr] are one array access, [blit] is [memcpy] into the
    array, [slice] is [memcpy] out of it. *)

Definition rd {A} (buf : list A) (off : Z) : res A :=
  if off <? 0 then UB
  else match buf !! Z.to_nat off with
       | Some b => Ok b
       | None => UB
       end.

Definition wr {A} (buf : list A) (off : Z) (v : A) : res (list A) :=
  if (off <? 0) || (zlen buf <=? off) then UB
  else Ok (<[Z.to_nat off := v]> buf).

Definition blit {A} (buf : list A) (off : Z) (bs : list A) : res (list A) :=
  if (off <? 0) || (zlen buf <? off + zlen bs) then UB
  else Ok (take (Z.to_nat off) buf ++ bs
             ++ drop (Z.to_nat off + length bs) buf).

Definition slice {A} (buf : list A) (off len : Z) : res (list A) :=
  if (off <? 0) || (len <? 0) || (zlen buf <? off + len) then UB
  else Ok (take (Z.to_nat len) (drop (Z.to_nat off) buf)).

Lemma zlen_nonneg {A} (l : list A) : 0 <= zlen l.
Proof. unfold zlen. lia. Qed.

Lemma zlen_app {A} (l k : list A) : zlen (l ++ k) = zlen l + zlen k.
Proof. unfold zlen. rewrite length_app. lia. Qed.

Lemma zlen_cons {A} (x : A) l : zlen (x :: l) = 1 + zlen l.
Proof. unfold zlen. cbn [length]. lia. Qed.

Lemma rd_ok {A} (buf : list A) off :
  0 <= off < zlen buf -> exists b, rd buf off = Ok b /\ buf !! Z.to_nat off = Some b.
Proof.
  intros H. unfold rd. destruct (Z.ltb_spec off 0); [lia|].
  destruct (lookup_lt_is_Some_2 buf (Z.to_nat off)) as [b Hb]; [width_lia|].
  rewrite Hb. by exists b.
Qed.

Lemma rd_Some {A} (buf : list A) (i : nat) b :
  buf !! i = Some b -> rd buf (Z.of_nat i) = Ok b.
Proof.
  intros H. unfold rd. destruct (Z.ltb_spec (Z.of_nat i) 0); [lia|].
  by rewrite Nat2Z.id, H.
Qed.

Lemma rd_inv {A} (buf : list A) off b :
  rd buf off = Ok b -> 0 <= off < zlen buf /\ buf !! Z.to_nat off = Some b.
Proof.
  unfold rd. destruct (Z.ltb_spec off 0); [done|].
  destruct (buf !! Z.to_nat off) as [b'|] eqn:E; [|done].
  intros [= ->]. split; [|done]. apply lookup_lt_Some in E. width_lia.
Qed.

Lemma rd_no_ub {A} (buf : list A) off :
  0 <= off < zlen buf -> no_ub (rd buf off).
Proof. intros H. destruct (rd_ok buf off H) as (b & -> & _). done. Qed.

(** Reading past a prefix. *)
Lemma rd_app_r {A} (p r : list A) off k :
  off = zlen p + k -> 0 <= k -> rd (p ++ r) off = rd r k.
Proof.
  intros -> Hk. unfold rd, zlen.
  destruct (Z.ltb_spec (Z.of_nat (length p) + k) 0); [lia|].
  destruct (Z.ltb_spec k 0); [lia|].
  rewrite lookup_app_r by lia.
  by replace (Z.to_nat (Z.of_nat (length p) + k) - length p)%nat
    with (Z.to_nat k) by lia.
Qed.

Lemma rd_app_l {A} (p r : list A) k :
  k < zlen p -> rd (p ++ r) k = rd p k.
Proof.
  intros Hk. unfold rd. destruct (Z.ltb_spec k 0); [done|].
  rewrite lookup_app_l by width_lia. done.
Qed.

Lemma slice_app {A} (p m r : list A) off len :
  off = zlen p -> len = zlen m -> slice (p ++ m ++ r) off len = Ok m.
Proof.
  intros -> ->. unfold slice. rewrite !zlen_app.
  pose proof (zlen_nonneg p). pose proof (zlen_nonneg m). pose proof (zlen_nonneg r).
  destruct (Z.ltb_spec (zlen p) 0); [lia|].
  destruct (Z.ltb_spec (zlen m) 0); [lia|].
  destruct (Z.ltb_spec (zlen p + (zlen m + zlen r)) (zlen p + zlen m)); [lia|].
  cbn [orb]. unfold zlen. rewrite !Nat2Z.id.
  by rewrite drop_app_length, take_app_length.
Qed.

Lemma slice_no_ub {A} (buf : list A) off len :
  0 <= off -> 0 <= len -> off + len <= zlen buf ->
  exists m, slice buf off len = Ok m /\ zlen m = len.
Proof.
  intros H1 H2 H3. unfold slice.
  destruct (Z.ltb_spec off 0); [lia|]. destruct (Z.ltb_spec len 0); [lia|].
  destruct (Z.ltb_spec (zlen buf) (off + len)); [lia|].
  eexists. split; [done|]. unfold zlen in *.
  rewrite length_take, length_drop. lia.
Qed.

(** ** Writes fuse

    A run of writes at increasing offsets is one [blit], which turns an encoder
    into the byte string it produces. *)

Lemma blit_ok {A} (buf : list A) off bs :
  0 <= off -> off + zlen bs <= zlen buf ->
  blit buf off bs = Ok (take (Z.to_nat off) buf ++ bs
                          ++ drop (Z.to_nat off + length bs) buf).
Proof.
  intros H1 H2. unfold blit.
  destruct (Z.ltb_spec off 0); [lia|].
  destruct (Z.ltb_spec (zlen buf) (off + zlen bs)); [lia|]. done.
Qed.

Lemma wr_blit {A} (buf : list A) off v : wr buf off v = blit buf off [v].
Proof.
  unfold wr, blit. unfold zlen at 3. cbn [length].
  destruct (Z.ltb_spec off 0); [done|].
  destruct (Z.leb_spec (zlen buf) off), (Z.ltb_spec (zlen buf) (off + Z.of_nat 1));
    try lia; [done|].
  cbn [orb]. f_equal. rewrite insert_take_drop by width_lia.
  replace (Z.to_nat off + 1)%nat with (S (Z.to_nat off)) by lia. done.
Qed.

Lemma blit_nil {A} (buf : list A) off :
  0 <= off <= zlen buf -> blit buf off [] = Ok buf.
Proof.
  intros H. rewrite blit_ok by (unfold zlen in *; cbn [length]; lia).
  cbn [length app]. rewrite Nat.add_0_r. by rewrite take_drop.
Qed.

Lemma blit_blit {A} (buf : list A) off a b :
  (blit buf off a ≫= fun buf' => blit buf' (off + zlen a) b) = blit buf off (a ++ b).
Proof.
  destruct (decide (0 <= off /\ off + zlen a <= zlen buf)) as [[H1 H2]|Hn]; cycle 1.
  { unfold blit at 2 3.
    rewrite zlen_app. pose proof (zlen_nonneg b).
    destruct (Z.ltb_spec off 0); [done|].
    destruct (Z.ltb_spec (zlen buf) (off + zlen a)); [|lia].
    destruct (Z.ltb_spec (zlen buf) (off + (zlen a + zlen b))); [done|lia]. }
  rewrite (blit_ok buf off a) by done. rewrite bind_ok.
  set (buf' := take _ _ ++ _).
  assert (zlen buf' = zlen buf) as Hl.
  { unfold buf', zlen in *. rewrite !length_app, length_take, length_drop. lia. }
  pose proof (zlen_nonneg a).
  unfold blit. rewrite Hl, zlen_app.
  destruct (Z.ltb_spec (off + zlen a) 0); [lia|].
  destruct (Z.ltb_spec off 0); [lia|].
  destruct (Z.ltb_spec (zlen buf) (off + zlen a + zlen b)),
    (Z.ltb_spec (zlen buf) (off + (zlen a + zlen b))); try lia; [done|].
  cbn [orb]. f_equal. unfold buf'. unfold zlen in *.
  replace (Z.to_nat (off + Z.of_nat (length a))) with (Z.to_nat off + length a)%nat by lia.
  rewrite (assoc_L (++) (take (Z.to_nat off) buf) a (drop _ _)).
  rewrite take_app_length' by (rewrite length_app, length_take; lia).
  rewrite drop_app_ge by (rewrite length_app, length_take; lia).
  rewrite drop_drop, !length_app, length_take.
  rewrite <- !(assoc_L (++)). do 4 f_equal. lia.
Qed.

Lemma blit_length {A} (buf buf' : list A) off bs :
  blit buf off bs = Ok buf' -> length buf' = length buf.
Proof.
  unfold blit. destruct (Z.ltb_spec off 0); [done|].
  destruct (Z.ltb_spec (zlen buf) (off + zlen bs)); [done|].
  intros [= <-]. unfold zlen in *.
  rewrite !length_app, length_take, length_drop. lia.
Qed.

Lemma blit_app {A} (p m r bs : list A) off :
  off = zlen p -> length bs = length m ->
  blit (p ++ m ++ r) off bs = Ok (p ++ bs ++ r).
Proof.
  intros -> Hl. rewrite blit_ok; cycle 1.
  { apply zlen_nonneg. }
  { unfold zlen. rewrite !length_app. lia. }
  unfold zlen. rewrite Nat2Z.id, take_app_length.
  rewrite (assoc_L (++) p m r), drop_app_ge by (rewrite length_app; lia).
  rewrite length_app. replace (length p + length bs - (length p + length m))%nat with 0%nat by lia.
  done.
Qed.

(** ** Counted loops

    [for (i = 0; i < n; i++) body] over a state, stopping at the first
    failure. *)

Fixpoint loop {S} (n : nat) (i : Z) (body : Z -> S -> res S) (s : S) : res S :=
  match n with
  | O => Ok s
  | S n' => s' ← body i s; loop n' (i + 1) body s'
  end.

(** The rule for counted loops: an invariant indexed by the loop counter. *)
Lemma loop_inv {S} (I : Z -> S -> Prop) body n : forall i s s',
  I i s ->
  (forall j t t', i <= j < i + Z.of_nat n -> I j t -> body j t = Ok t' -> I (j + 1) t') ->
  loop n i body s = Ok s' -> I (i + Z.of_nat n) s'.
Proof.
  induction n as [|n IH]; intros i s s' Hs Hb Hl; cbn [loop] in Hl.
  { inv_res. by replace (i + Z.of_nat 0) with i by lia. }
  inv_res. replace (i + Z.of_nat (Datatypes.S n)) with ((i + 1) + Z.of_nat n) by lia.
  eapply IH; [|intros; eapply Hb; eauto; lia|done].
  eapply Hb; eauto; lia.
Qed.

Lemma loop_no_ub {S} (I : Z -> S -> Prop) body n : forall i s,
  I i s ->
  (forall j t, i <= j < i + Z.of_nat n -> I j t ->
     no_ub (body j t) /\ forall t', body j t = Ok t' -> I (j + 1) t') ->
  no_ub (loop n i body s).
Proof.
  induction n as [|n IH]; intros i s Hs Hb; cbn [loop]; [done|].
  destruct (Hb i s ltac:(lia) Hs) as [H1 H2].
  apply no_ub_bind; [done|]. intros s' Hs'.
  apply IH; [by apply H2|]. intros j t Hj. apply Hb. lia.
Qed.

(** A loop every iteration of which succeeds. *)
Lemma loop_total {S} (I : Z -> S -> Prop) body n : forall i s,
  I i s ->
  (forall j t, i <= j < i + Z.of_nat n -> I j t ->
     exists t', body j t = Ok t' /\ I (j + 1) t') ->
  exists s', loop n i body s = Ok s' /\ I (i + Z.of_nat n) s'.
Proof.
  induction n as [|n IH]; intros i s Hs Hb; cbn [loop].
  { exists s. split; [done|]. by replace (i + Z.of_nat 0) with i by lia. }
  destruct (Hb i s ltac:(lia) Hs) as (t & Ht & HI). rewrite Ht, bind_ok.
  destruct (IH (i + 1) t HI) as (s' & Hs' & HI').
  { intros j t' Hj. apply Hb. lia. }
  exists s'. split; [done|].
  by replace (i + Z.of_nat (Datatypes.S n)) with ((i + 1) + Z.of_nat n) by lia.
Qed.

(** ** Bytes at an offset

    [has buf off bs]: the bytes [bs] are in [buf] from [off] on. *)

Definition has {A} (buf : list A) (off : Z) (bs : list A) : Prop :=
  exists p r, buf = p ++ bs ++ r /\ zlen p = off.

Lemma has_app {A} (buf : list A) off a b :
  has buf off (a ++ b) <-> has buf off a /\ has buf (off + zlen a) b.
Proof.
  split.
  - intros (p & r & -> & <-). split.
    + exists p, (b ++ r). by rewrite <- (assoc_L (++)).
    + exists (p ++ a), r. by rewrite zlen_app, <- !(assoc_L (++)).
  - intros [(p & r & E1 & <-) (p' & r' & E2 & Hl)]. exists p, r'. split; [|done].
    assert (p' = p ++ a) as ->; [|by rewrite <- !(assoc_L (++)) in *].
    rewrite E1, (assoc_L (++)) in E2. apply app_inj_1 in E2 as [-> _]; [done|].
    unfold zlen in Hl. rewrite length_app. lia.
Qed.

Lemma has_cons {A} (buf : list A) off x l :
  has buf off (x :: l) <-> rd buf off = Ok x /\ has buf (off + 1) l.
Proof.
  change (x :: l) with ([x] ++ l). rewrite has_app. change (zlen [x]) with 1.
  split; (intros [H1 H2]; split; [|done]).
  - destruct H1 as (p & r & -> & <-). rewrite rd_app_r with (k := 0); [done|lia..].
  - apply rd_inv in H1 as [H1 H3]. exists (take (Z.to_nat off) buf), (drop (S (Z.to_nat off)) buf).
    split; [symmetry; by apply take_drop_middle|].
    unfold zlen in *. rewrite length_take. lia.
Qed.

Lemma has_slice {A} (buf : list A) off bs len :
  has buf off bs -> len = zlen bs -> slice buf off len = Ok bs.
Proof. intros (p & r & -> & <-) ->. by apply slice_app. Qed.

Lemma has_prefix {A} (buf : list A) bs r : buf = bs ++ r -> has buf 0 bs.
Proof. intros ->. by exists [], r. Qed.

Lemma has_self {A} (bs : list A) : has bs 0 bs.
Proof. apply has_prefix with []. by rewrite app_nil_r. Qed.

Lemma blit_has {A} (buf buf' : list A) off bs :
  blit buf off bs = Ok buf' -> has buf' off bs.
Proof.
  unfold blit. destruct (Z.ltb_spec off 0); [done|].
  destruct (Z.ltb_spec (zlen buf) (off + zlen bs)); [done|].
  intros [= <-]. exists (take (Z.to_nat off) buf), (drop (Z.to_nat off + length bs) buf).
  split; [done|]. unfold zlen in *. rewrite length_take. lia.
Qed.

(** [memcpy] fills a buffer of exactly its length. *)
Lemma blit_full {A} (buf : list A) bs :
  length buf = length bs -> blit buf 0 bs = Ok bs.
Proof.
  intros H. rewrite blit_ok by (unfold zlen; lia).
  change (Z.to_nat 0) with 0%nat. rewrite take_0, drop_ge by lia.
  by rewrite app_nil_r.
Qed.

Lemma blit_start {A} (buf : list A) bs :
  zlen bs <= zlen buf -> blit buf 0 bs = Ok (bs ++ drop (length bs) buf).
Proof. intros H. by rewrite blit_ok by (unfold zlen in *; lia). Qed.

(** ** Loops over records *)

(** A loop that appends one decoded item per iteration. *)
Lemma loop_collect {A} (dec : Z -> res A) (items : list A) : forall i acc,
  (forall k x, items !! k = Some x -> dec (i + Z.of_nat k) = Ok x) ->
  loop (length items) i (fun j acc => x ← dec j; mret (acc ++ [x])) acc
  = Ok (acc ++ items).
Proof.
  induction items as [|x items IH]; intros i acc Hd; cbn [length loop].
  { by rewrite app_nil_r. }
  pose proof (Hd 0%nat x eq_refl) as H0.
  replace (i + Z.of_nat 0) with i in H0 by lia. rewrite H0, !bind_ok.
  unfold mret, res_ret. rewrite ?bind_ok, IH.
  - by rewrite <- (assoc_L (++)).
  - intros k y Hk. rewrite <- (Hd (S k) y Hk). f_equal. lia.
Qed.

(** A loop that writes one record of [size] bytes per iteration at
    [base + i * size]. *)
Lemma loop_blit {A} (body : Z -> list A -> res (list A)) base size
    (recs : list (list A)) : forall i out pre,
  (forall k r o, recs !! k = Some r ->
     body (i + Z.of_nat k) o = blit o (base + (i + Z.of_nat k) * size) r) ->
  Forall (fun r => zlen r = size) recs ->
  zlen pre = base + i * size ->
  (blit out 0 pre ≫= loop (length recs) i body) = blit out 0 (pre ++ concat recs).
Proof.
  induction recs as [|r recs IH]; intros i out pre Hb Hs Hp; cbn [length loop concat].
  { rewrite app_nil_r. by destruct (blit out 0 pre). }
  inversion_clear Hs.
  transitivity (blit out 0 (pre ++ r) ≫= loop (length recs) (i + 1) body).
  - rewrite <- blit_blit, bind_assoc.
    destruct (blit out 0 pre) as [o| |]; [|done..]. rewrite !bind_ok.
    pose proof (Hb 0%nat r o eq_refl) as H'.
    replace (i + Z.of_nat 0) with i in H' by lia.
    rewrite H', Hp, Z.add_0_l. done.
  - rewrite IH.
    + by rewrite <- (assoc_L (++)).
    + intros k r' o Hk. specialize (Hb (S k) r' o Hk).
      replace (i + 1 + Z.of_nat k) with (i + Z.of_nat (S k)) by lia. done.
    + done.
    + rewrite zlen_app. lia.
Qed.

(** The [k]-th record of a concatenation of equally long records. *)
Lemma has_concat {A} (recs : list (list A)) size : forall buf base k r,
  Forall (fun r => zlen r = size) recs ->
  has buf base (concat recs) -> recs !! k = Some r ->
  has buf (base + Z.of_nat k * size) r.
Proof.
  induction recs as [|r0 recs IH]; intros buf base k r Hs Hh Hk; [done|].
  inversion_clear Hs. cbn [concat] in Hh. rewrite has_app in Hh. destruct Hh as [H1 H2].
  destruct k as [|k]; cbn in Hk.
  - injection Hk as <-. by replace (base + Z.of_nat 0 * size) with base by lia.
  - replace (base + Z.of_nat (S k) * size) with (base + zlen r0 + Z.of_nat k * size) by lia.
    by apply IH.
Qed.

Lemma zlen_concat {A} (recs : list (list A)) size :
  Forall (fun r => zlen r = size) recs -> zlen (concat recs) = zlen recs * size.
Proof.
  induction 1 as [|r recs Hr _ IH]; [done|]. cbn [concat].
  rewrite zlen_app, zlen_cons, IH. lia.
Qed.

Lemma zlen_map {A B} (f : A -> B) l : zlen (map f l) = zlen l.
Proof. unfold zlen. by rewrite length_map. Qed.

Lemma bytes_ok_rd buf off b : bytes_ok buf -> rd buf off = Ok b -> is_u8 b.
Proof. intros H Hr. apply rd_inv in Hr as [_ Hr]. by eapply Forall_lookup_1 in Hr. Qed.

Lemma rd_has_one {A} (buf : list A) off b : rd buf off = Ok b -> has buf off [b].
Proof.
  intros H. rewrite has_cons. split; [done|].
  apply rd_inv in H as [H _].
  exists (take (Z.to_nat (off + 1)) buf), (drop (Z.to_nat (off + 1)) buf).
  split; [by rewrite app_nil_l, take_drop|]. unfold zlen in *. rewrite length_take. lia.
Qed.

Lemma slice_inv {A} (buf : list A) off len m :
  slice buf off len = Ok m -> has buf off m /\ zlen m = len.
Proof.
  unfold slice. destruct (Z.ltb_spec off 0); [done|].
  destruct (Z.ltb_spec len 0); [done|].
  destruct (Z.ltb_spec (zlen buf) (off + len)); [done|]. intros [= <-].
  unfold zlen in *. split.
  - exists (take (Z.to_nat off) buf), (drop (Z.to_nat len) (drop (Z.to_nat off) buf)).
    split; [by rewrite take_drop, take_drop|].
    unfold zlen. rewrite length_take. lia.
  - rewrite length_take, length_drop. lia.
Qed.

Lemma has_bytes_ok buf off bs : bytes_ok buf -> has buf off bs -> bytes_ok bs.
Proof. intros H (p & r & -> & _). by apply Forall_app in H as [_ [H _]%Forall_app]. Qed.

(** A buffer that holds bytes of its own length is those bytes. *)
Lemma has_all {A} (buf bs : list A) : has buf 0 bs -> zlen bs = zlen buf -> buf = bs.
Proof.
  intros (p & r & -> & Hp) Hl. rewrite !zlen_app in Hl.
  pose proof (zlen_nonneg r). pose proof (zlen_nonneg p).
  destruct p; [|unfold zlen in Hp; cbn in Hp; lia].
  destruct r; [|unfold zlen in *; cbn in *; lia]. by rewrite app_nil_r.
Qed.

(** Assembles the records a collecting loop read. *)
Lemma loop_collect_inv {A} (dec : Z -> res A) n : forall i acc out,
  loop n i (fun j acc => x ← dec j; mret (acc ++ [x])) acc = Ok out ->
  exists items, out = acc ++ items /\ length items = n
    /\ forall k x, items !! k = Some x -> dec (i + Z.of_nat k) = Ok x.
Proof.
  induction n as [|n IH]; intros i acc out Hl; cbn [loop] in Hl.
  { injection Hl as <-. exists []. by rewrite app_nil_r. }
  inv_res. apply IH in Hl as (items & -> & Hlen & Hd).
  exists (a0 :: items). rewrite <- (assoc_L (++)). split; [done|].
  split; [cbn; lia|]. intros [|k] y Hk; cbn in Hk.
  - injection Hk as <-. by replace (i + Z.of_nat 0) with i by lia.
  - replace (i + Z.of_nat (S k)) with (i + 1 + Z.of_nat k) by lia. by apply Hd.
Qed.

Lemma concat_has {A} (recs : list (list A)) size buf : forall base,
  0 <= base <= zlen buf ->
  Forall (fun r => zlen r = size) recs ->
  (forall k r, recs !! k = Some r -> has buf (base + Z.of_nat k * size) r) ->
  has buf base (concat recs).
Proof.
  induction recs as [|r recs IH]; intros base Hb Hs Hh; cbn [concat].
  { exists (take (Z.to_nat base) buf), (drop (Z.to_nat base) buf).
    split; [by rewrite app_nil_l, take_drop|]. unfold zlen in *. rewrite length_take. lia. }
  inversion_clear Hs. rewrite has_app.
  pose proof (Hh 0%nat r eq_refl) as Hr0.
  replace (base + Z.of_nat 0 * size) with base in Hr0 by lia.
  split; [done|]. apply IH; [|done|].
  - destruct Hr0 as (p & s & -> & <-). rewrite !zlen_app.
    pose proof (zlen_nonneg p). pose proof (zlen_nonneg r). pose proof (zlen_nonneg s). lia.
  - intros k r' Hk. specialize (Hh (S k) r' Hk).
    by replace (base + zlen r + Z.of_nat k * size) with (base + Z.of_nat (S k) * size) by lia.
Qed.

(** ** Mapping a fallible function over an array *)

Fixpoint mapr {A B} (f : A -> res B) (l : list A) : res (list B) :=
  match l with
  | [] => Ok []
  | x :: l' => y ← f x; ys ← mapr f l'; mret (y :: ys)
  end.

Lemma mapr_inv {A B} (f : A -> res B) l : forall ys,
  mapr f l = Ok ys ->
  length ys = length l
  /\ forall k x, l !! k = Some x -> exists y, ys !! k = Some y /\ f x = Ok y.
Proof.
  induction l as [|x l IH]; intros ys H; cbn [mapr] in H.
  { injection H as <-. split; [done|]. by intros k x Hk. }
  inv_res. destruct (IH _ eq_refl) as [Hl Hk]. split; [cbn; lia|].
  intros [|k] y Hy; cbn in Hy |- *; [|by apply Hk].
  injection Hy as <-. eauto.
Qed.

Lemma mapr_total {A B} (f : A -> res B) (g : A -> B) l :
  (forall x, x ∈ l -> f x = Ok (g x)) -> mapr f l = Ok (map g l).
Proof.
  induction l as [|x l IH]; intros H; cbn [mapr map]; [done|].
  rewrite (H x) by (by left). rewrite bind_ok, IH; [done|].
  intros y Hy. apply H. by right.
Qed.

(** ** Sums over arrays *)

Definition sumZ {A} (f : A -> Z) (l : list A) : Z := fold_right (fun x n => f x + n) 0 l.

#[global] Arguments sumZ : simpl never.

Lemma sumZ_cons {A} (f : A -> Z) x l : sumZ f (x :: l) = f x + sumZ f l.
Proof. done. Qed.

Lemma sumZ_insert {A} (f : A -> Z) l : forall i x y,
  l !! i = Some x -> sumZ f (<[i := y]> l) = sumZ f l - f x + f y.
Proof.
  induction l as [|z l IH]; intros i x y Hi; [done|].
  destruct i as [|i]; cbn in Hi.
  - injection Hi as ->. change (<[0%nat := y]> (x :: l)) with (y :: l). rewrite !sumZ_cons. lia.
  - change (<[S i := y]> (z :: l)) with (z :: <[i := y]> l).
    rewrite !sumZ_cons, (IH i x y Hi). lia.
Qed.

Lemma sumZ_bounds {A} (f : A -> Z) l lo hi :
  Forall (fun x => lo <= f x <= hi) l -> lo * zlen l <= sumZ f l <= hi * zlen l.
Proof.
  induction 1 as [|x l Hx _ IH]; [unfold zlen, sumZ; cbn; lia|].
  rewrite sumZ_cons, zlen_cons. lia.
Qed.

Lemma sumZ_lookup {A} (f : A -> Z) l i x :
  Forall (fun x => 0 <= f x) l -> l !! i = Some x -> f x <= sumZ f l.
Proof.
  intros Hl. revert i. induction Hl as [|y l Hy Hl IH]; intros i Hi; [done|].
  assert (0 <= sumZ f l).
  { clear -Hl. induction Hl; [done|]. rewrite sumZ_cons. lia. }
  destruct i as [|i]; cbn in Hi.
  - injection Hi as ->. rewrite sumZ_cons. lia.
  - rewrite sumZ_cons. specialize (IH i Hi). lia.
Qed.

Lemma sumZ_repeat {A} (f : A -> Z) x n : sumZ f (repeat x n) = f x * Z.of_nat n.
Proof. induction n as [|n IH]; cbn [repeat]; [unfold sumZ; cbn; lia|].
  rewrite sumZ_cons, IH. lia.
Qed.

Lemma wr_ok {A} (l : list A) i x :
  0 <= i < zlen l -> wr l i x = Ok (<[Z.to_nat i := x]> l).
Proof.
  intros H. unfold wr. destruct (Z.ltb_spec i 0); [lia|].
  by destruct (Z.leb_spec (zlen l) i); [lia|].
Qed.

Lemma slice_start {A} (l : list A) n :
  0 <= n <= zlen l -> slice l 0 n = Ok (take (Z.to_nat n) l).
Proof.
  intros H. unfold slice. destruct (Z.ltb_spec n 0); [lia|].
  destruct (Z.ltb_spec (zlen l) (0 + n)); [lia|]. done.
Qed.

Lemma zlen_take {A} (l : list A) n : 0 <= n <= zlen l -> zlen (take (Z.to_nat n) l) = n.
Proof. unfold zlen. rewrite length_take. lia. Qed.

Lemma zlen_insert {A} (l : list A) i x : zlen (<[i := x]> l) = zlen l.
Proof. unfold zlen. by rewrite length_insert. Qed.

Lemma zlen_repeat {A} (x : A) n : zlen (repeat x n) = Z.of_nat n.
Proof. unfold zlen. by rewrite repeat_length. Qed.

(** A loop that rewrites an array element by element, each from its old value. *)
Lemma loop_pointwise {A} (f : nat -> A -> A) (body : Z -> list A -> res (list A)) (l : list A) :
  (forall k v l', l !! k = Some v -> length l' = length l ->
     (forall j, (k <= j)%nat -> l' !! j = l !! j) ->
     (forall j, (j < k)%nat -> l' !! j = f j <$> l !! j) ->
     body (Z.of_nat k) l' = Ok (<[k := f k v]> l')) ->
  loop (length l) 0 body l = Ok (imap f l).
Proof.
  intros Hb.
  destruct (loop_total (fun i l' => length l' = length l
      /\ (forall j, (Z.to_nat i <= j)%nat -> l' !! j = l !! j)
      /\ (forall j, (j < Z.to_nat i)%nat -> l' !! j = f j <$> l !! j))
      body (length l) 0 l) as (l' & -> & Hl & _ & Hf).
  - split; [done|]. split; [done|]. intros j Hj. lia.
  - intros i l' Hi (Hl & H1 & H2).
    destruct (lookup_lt_is_Some_2 l (Z.to_nat i)) as [v Hv]; [lia|].
    pose proof (Hb _ _ _ Hv Hl H1 H2) as E. rewrite Z2Nat.id in E by lia.
    eexists. split; [exact E|]. replace (Z.to_nat (i + 1)) with (S (Z.to_nat i)) by lia.
    apply lookup_lt_Some in Hv as Hlt. rewrite length_insert. split; [done|]. split.
    + intros j Hj. rewrite list_lookup_insert_ne by lia. apply H1. lia.
    + intros j Hj. destruct (decide (j = Z.to_nat i)) as [->|Hne].
      * rewrite list_lookup_insert_eq, Hv by lia. done.
      * rewrite list_lookup_insert_ne by lia. apply H2. lia.
  - f_equal. apply list_eq. intros k. rewrite list_lookup_imap.
    destruct (decide (k < length l)%nat); [apply Hf; lia|].
    rewrite !lookup_ge_None_2 by lia. done.
Qed.

(** ** [struct sockaddr_un] *)

Definition SUN_PATH_SIZE : Z := 108.
Definition SUN_PATH_OFFSET : Z := 2.

(** [errno] of a call that a signal interrupted. *)
Definition EINTR : Z := 4.

(** ** [fcntl] *)

Definition F_GETFD : Z := 1.
Definition F_SETFD : Z := 2.
Definition F_GETFL : Z := 3.
Definition F_SETFL : Z := 4.
Definition FD_CLOEXEC : Z := 1.
Definition O_NONBLOCK : Z := 2048.
