(* ===== verification/Text.v ===== *)
(** * C strings and numerals

    The functions of the C library that the text handling of src/vhal_source.c
    uses, on byte lists: [c_string], [strstr], [strrchr], [atoi], [strtoull], the
    conversions of [printf] and [sscanf], and the round trips between printing a
    number and scanning it.  A pointer into a string is the rest of the string
    from there on, without the terminator. *)

From S2P Require Import Prelude.

(** The bytes of an array up to its first terminator. *)
Fixpoint c_string (bytes : list Z) : list Z :=
  match bytes with
  | [] => []
  | b :: bytes => if b =? 0 then [] else b :: c_string bytes
  end.

Definition isspace (c : Z) : bool := (c =? 32) || ((9 <=? c) && (c <=? 13)).

Fixpoint skip_while (test : Z -> bool) (s : list Z) : list Z :=
  match s with
  | [] => []
  | c :: s' => if test c then skip_while test s' else s
  end.

Fixpoint take_until (test : Z -> bool) (s : list Z) : list Z :=
  match s with
  | [] => []
  | c :: s' => if test c then [] else c :: take_until test s'
  end.

Fixpoint is_prefix (needle s : list Z) : bool :=
  match needle, s with
  | [], _ => true
  | _, [] => false
  | n :: needle, c :: s => (n =? c) && is_prefix needle s
  end.

(** Whether [needle] occurs in [s]: [strstr(s, needle) != NULL]. *)
Fixpoint strstr (s needle : list Z) : bool :=
  is_prefix needle s || match s with [] => false | _ :: s => strstr s needle end.

(** The rest of [s] from the last [c] on. *)
Fixpoint strrchr (s : list Z) (c : Z) : option (list Z) :=
  match s with
  | [] => None
  | b :: s' =>
      match strrchr s' c with
      | Some r => Some r
      | None => if b =? c then Some s else None
      end
  end.

(** ** Digits *)

Definition digit_value (c : Z) : option Z :=
  if (48 <=? c) && (c <=? 57) then Some (c - 48)
  else if (97 <=? c) && (c <=? 102) then Some (c - 87)
  else if (65 <=? c) && (c <=? 70) then Some (c - 55)
  else None.

(** The digit of [%d] and [%x], and that of [%X]. *)
Definition digit_char (d : Z) : Z := if d <? 10 then 48 + d else 87 + d.
Definition upper_digit_char (d : Z) : Z := if d <? 10 then 48 + d else 55 + d.

(** The digits of [x], the most significant one first, before [acc]. *)
Fixpoint digits (fuel : nat) (base x : Z) (acc : list Z) : list Z :=
  match fuel with
  | O => acc
  | S fuel =>
      let acc := x mod base :: acc in
      if x / base =? 0 then acc else digits fuel base (x / base) acc
  end.

(** Every value of at most 64 bits has at most 64 digits. *)
Definition digits_of (base x : Z) : list Z := digits 64 base x [].

Definition digits_value (base : Z) (ds : list Z) : Z :=
  fold_left (fun v d => v * base + d) ds 0.

(** [%d] of a non-negative value. *)
Definition decimal (x : Z) : list Z := map digit_char (digits_of 10 x).

(** [%0<width>x]: at least [width] digits. *)
Definition pad (width : nat) (ds : list Z) : list Z := repeat 0 (width - length ds) ++ ds.
Definition hex (width : nat) (x : Z) : list Z := map digit_char (pad width (digits_of 16 x)).
Definition upper_hex (width : nat) (x : Z) : list Z :=
  map upper_digit_char (pad width (digits_of 16 x)).

(** The longest run of digits at the start of [s], and the rest. *)
Fixpoint scan_digits (base : Z) (s : list Z) : list Z * list Z :=
  match s with
  | [] => ([], [])
  | c :: s' =>
      match digit_value c with
      | Some d => if d <? base then let '(ds, r) := scan_digits base s' in (d :: ds, r) else ([], s)
      | None => ([], s)
      end
  end.

Definition scan_sign (s : list Z) : bool * list Z :=
  match s with
  | c :: s' => if c =? 45 then (true, s') else if c =? 43 then (false, s') else (false, s)
  | [] => (false, s)
  end.

(** The value of a scanned [unsigned long long]: saturated, and negated modulo
    2^64 after a minus sign. *)
Definition ull_value (negative : bool) (v : Z) : Z :=
  if UINT64_MAX <? v then UINT64_MAX else if negative then u64 (- v) else v.

(** [strtoull(s, &end, 10)]: the value, [end], and whether [errno] is set to
    [ERANGE].  Without digits [end] is [s]. *)
Definition strtoull (s : list Z) : Z * list Z * bool :=
  let '(negative, r) := scan_sign (skip_while isspace s) in
  match scan_digits 10 r with
  | ([], _) => (0, s, false)
  | (ds, rest) =>
      let v := digits_value 10 ds in (ull_value negative v, rest, UINT64_MAX <? v)
  end.

(** [atoi]: undefined when the value does not fit an [int]. *)
Definition atoi (s : list Z) : res Z :=
  let '(negative, r) := scan_sign (skip_while isspace s) in
  let v := digits_value 10 (scan_digits 10 r).1 in
  let v := if negative then - v else v in
  if (v <? - 2 ^ 31) || (2 ^ 31 <=? v) then UB else Ok v.

(** ** Conversions of [sscanf]: the value and the rest, or a mismatch *)

(** [%lx]. *)
Definition scan_hex (s : list Z) : option (Z * list Z) :=
  let '(negative, r) := scan_sign (skip_while isspace s) in
  let r := match r with
           | z :: x :: r' => if (z =? 48) && ((x =? 120) || (x =? 88)) then r' else r
           | _ => r
           end in
  match scan_digits 16 r with
  | ([], _) => None
  | (ds, rest) => Some (ull_value negative (digits_value 16 ds), rest)
  end.

(** [%<width>s]; the field width of [%s] is unlimited. *)
Definition scan_word (width : option nat) (s : list Z) : option (list Z * list Z) :=
  let s := skip_while isspace s in
  let w := take_until isspace s in
  let w := match width with Some n => take n w | None => w end in
  match w with
  | [] => None
  | _ => Some (w, drop (length w) s)
  end.

(** A literal character of the format. *)
Definition scan_char (c : Z) (s : list Z) : option (list Z) :=
  match s with
  | b :: s' => if b =? c then Some s' else None
  | [] => None
  end.

(** ** Facts on strings *)

Lemma c_string_no_nul s : Forall (fun c => c <> 0) (c_string s).
Proof.
  induction s as [|c s IH]; cbn [c_string]; [constructor|].
  destruct (Z.eqb_spec c 0); [constructor|]. by constructor.
Qed.

Lemma c_string_id s : Forall (fun c => c <> 0) s -> c_string s = s.
Proof.
  induction 1 as [|c s Hc _ IH]; cbn [c_string]; [done|].
  destruct (Z.eqb_spec c 0); [done|]. by rewrite IH.
Qed.

Lemma c_string_app s r : Forall (fun c => c <> 0) s -> c_string (s ++ 0 :: r) = s.
Proof.
  induction 1 as [|c s Hc _ IH]; cbn [c_string app]; [done|].
  destruct (Z.eqb_spec c 0); [done|]. by rewrite IH.
Qed.

Lemma skip_while_app test a b :
  Forall (fun c => test c = true) a -> skip_while test (a ++ b) = skip_while test b.
Proof. induction 1 as [|c a Hc _ IH]; cbn; [done|]. by rewrite Hc. Qed.

Lemma skip_while_stop test c s : test c = false -> skip_while test (c :: s) = c :: s.
Proof. intros H. cbn. by rewrite H. Qed.

Lemma take_until_app test a b :
  Forall (fun c => test c = false) a ->
  match b with [] => True | c :: _ => test c = true end ->
  take_until test (a ++ b) = a.
Proof.
  induction 1 as [|c a Hc _ IH]; cbn; intros Hb.
  - destruct b as [|c b]; [done|]. cbn. by rewrite Hb.
  - by rewrite Hc, IH.
Qed.

Lemma strstr_spec s needle :
  strstr s needle = true <-> exists p r, s = p ++ needle ++ r.
Proof.
  assert (Hp : forall n s, is_prefix n s = true <-> exists r, s = n ++ r).
  { induction n as [|x n IH]; intros [|c t]; cbn; try (split; [eauto|done]).
    - split; [done|]. by intros [r Hr].
    - rewrite andb_true_iff, IH, Z.eqb_eq. split.
      + intros [-> [r ->]]. by exists r.
      + intros [r [= -> ->]]. eauto. }
  induction s as [|c s IH]; cbn [strstr]; rewrite orb_true_iff, Hp.
  - split; [|by intros ([|] & r & H); [left; exists r|]].
    intros [[r H]|]; [|done]. by exists [], r.
  - rewrite IH. split.
    + intros [[r H]|(p & r & ->)]; [by exists [], r|by exists (c :: p), r].
    + intros ([|c' p] & r & H); [by left; exists r|].
      injection H as -> ->. right. by exists p, r.
Qed.

(** The last occurrence: nothing after it is [c]. *)
Lemma strrchr_last p c r : Forall (fun b => b <> c) r -> strrchr (p ++ c :: r) c = Some (c :: r).
Proof.
  intros Hr. assert (Hn : strrchr r c = None).
  { induction Hr as [|b r Hb _ IH]; cbn; [done|]. rewrite IH. by destruct (Z.eqb_spec b c). }
  induction p as [|b p IH]; cbn [strrchr app]; [|by rewrite IH].
  by rewrite Hn, Z.eqb_refl.
Qed.

(** ** Facts on numerals *)

Lemma digits_range fuel base : 0 < base -> forall x acc,
  Forall (fun d => 0 <= d < base) acc -> Forall (fun d => 0 <= d < base) (digits fuel base x acc).
Proof.
  intros Hb. induction fuel as [|fuel IH]; intros x acc Ha; cbn [digits]; [done|].
  pose proof (Z.mod_pos_bound x base Hb). destruct (x / base =? 0); [|apply IH]; by constructor.
Qed.

Lemma digits_fold fuel base : 2 <= base -> forall x acc,
  0 <= x < base ^ Z.of_nat fuel ->
  digits_value base (digits fuel base x acc) = fold_left (fun v d => v * base + d) acc x.
Proof.
  intros Hb. induction fuel as [|fuel IH]; intros x acc Hx; cbn [digits].
  { change (base ^ Z.of_nat 0) with 1 in Hx. by replace x with 0 by lia. }
  assert (Hdm : x = x / base * base + x mod base) by (pose proof (Z.div_mod x base); lia).
  destruct (Z.eqb_spec (x / base) 0) as [E|].
  - unfold digits_value. cbn [fold_left]. f_equal. rewrite E in Hdm. lia.
  - rewrite IH.
    + cbn [fold_left]. f_equal. lia.
    + rewrite Nat2Z.inj_succ, Z.pow_succ_r in Hx by lia. split.
      * apply Z.div_pos; lia.
      * apply Z.div_lt_upper_bound; lia.
Qed.

Lemma digits_nonempty fuel base x acc : digits (S fuel) base x acc <> [].
Proof.
  revert x acc. induction fuel as [|fuel IH]; intros x acc; cbn [digits].
  - by destruct (x / base =? 0).
  - destruct (x / base =? 0); [done|]. apply IH.
Qed.

Lemma digits_of_value base x : 2 <= base -> is_u64 x -> digits_value base (digits_of base x) = x.
Proof.
  intros Hb Hx. unfold digits_of. rewrite digits_fold; [done|done|].
  unfold is_u64 in Hx. pose proof (Z.pow_le_mono_l 2 base (Z.of_nat 64) ltac:(lia)). 
  change (Z.of_nat 64) with 64 in *. lia.
Qed.

Lemma digits_of_ok base x :
  0 < base -> Forall (fun d => 0 <= d < base) (digits_of base x) /\ digits_of base x <> [].
Proof. intros Hb. split; [by apply digits_range|apply digits_nonempty]. Qed.

Lemma digits_value_pad base n ds : digits_value base (repeat 0 n ++ ds) = digits_value base ds.
Proof. unfold digits_value. induction n as [|n IH]; [done|]. exact IH. Qed.

Lemma pad_ok base width ds :
  0 < base -> Forall (fun d => 0 <= d < base) ds -> ds <> [] ->
  Forall (fun d => 0 <= d < base) (pad width ds) /\ pad width ds <> [].
Proof.
  intros Hb Hd Hn. unfold pad. split; [|by destruct ds, (repeat 0 _)].
  apply Forall_app. split; [|done]. apply Forall_forall. intros d Hin.
  apply repeat_spec in Hin as ->. lia.
Qed.

Lemma hex_digit_cases (P : Z -> Prop) :
  Forall P (map Z.of_nat (seq 0 16)) -> forall d, 0 <= d < 16 -> P d.
Proof.
  intros H d Hd. rewrite Forall_forall in H. apply H, in_map_iff.
  exists (Z.to_nat d). split; [lia|]. apply in_seq. lia.
Qed.

Lemma digit_char_value d : 0 <= d < 16 -> digit_value (digit_char d) = Some d.
Proof. revert d. apply hex_digit_cases. by repeat constructor. Qed.

Lemma upper_digit_char_value d : 0 <= d < 16 -> digit_value (upper_digit_char d) = Some d.
Proof. revert d. apply hex_digit_cases. by repeat constructor. Qed.

(** A digit is neither white space nor a sign nor the [x] of a prefix. *)
Lemma digit_char_plain d : 0 <= d < 16 ->
  isspace (digit_char d) = false /\ (digit_char d =? 45) = false /\ (digit_char d =? 43) = false
  /\ (digit_char d =? 120) = false /\ (digit_char d =? 88) = false.
Proof. revert d. apply hex_digit_cases. by repeat constructor. Qed.

(** The rest of the text does not continue the number. *)
Definition stops (base : Z) (s : list Z) : Prop :=
  match s with
  | [] => True
  | c :: _ => match digit_value c with Some d => base <= d | None => True end
  end.

Lemma scan_digits_printed (print : Z -> Z) base ds rest :
  base <= 16 -> (forall d, 0 <= d < 16 -> digit_value (print d) = Some d) ->
  Forall (fun d => 0 <= d < base) ds -> stops base rest ->
  scan_digits base (map print ds ++ rest) = (ds, rest).
Proof.
  intros Hb Hp Hd Hs. induction Hd as [|d ds Hd _ IH]; cbn [map app scan_digits].
  - destruct rest as [|c rest]; [done|]. cbn. cbn in Hs.
    destruct (digit_value c) as [d|]; [|done]. by destruct (Z.ltb_spec d base); [lia|].
  - rewrite Hp by lia. destruct (Z.ltb_spec d base); [|lia]. by rewrite IH.
Qed.

Lemma scan_sign_digit d s : 0 <= d < 16 -> scan_sign (digit_char d :: s) = (false, digit_char d :: s).
Proof.
  intros Hd. destruct (digit_char_plain d Hd) as (_ & H1 & H2 & _). unfold scan_sign. by rewrite H1, H2.
Qed.

Lemma skip_space_digit d s :
  0 <= d < 16 -> skip_while isspace (digit_char d :: s) = digit_char d :: s.
Proof. intros Hd. apply skip_while_stop, digit_char_plain, Hd. Qed.

Lemma ull_value_small v : is_u64 v -> ull_value false v = v.
Proof. intros H. unfold ull_value. destruct (Z.ltb_spec UINT64_MAX v); [width_lia|done]. Qed.

Lemma strtoull_decimal x rest :
  is_u64 x -> stops 10 rest -> strtoull (decimal x ++ rest) = (x, rest, false).
Proof.
  intros Hx Hr. destruct (digits_of_ok 10 x ltac:(lia)) as [Hd Hn].
  pose proof (digits_of_value 10 x ltac:(lia) Hx) as Hv.
  unfold strtoull, decimal. destruct (digits_of 10 x) as [|d ds]; [done|].
  pose proof (Forall_inv Hd) as Hd0; cbn beta in Hd0. cbn [map app].
  rewrite skip_space_digit, scan_sign_digit by lia.
  change (digit_char d :: map digit_char ds ++ rest) with (map digit_char (d :: ds) ++ rest).
  rewrite scan_digits_printed by (auto using digit_char_value; lia).
  rewrite Hv, ull_value_small by done. do 2 f_equal. apply Z.ltb_ge. width_lia.
Qed.

Lemma atoi_decimal x : 0 <= x < 2 ^ 31 -> atoi (decimal x) = Ok x.
Proof.
  intros Hx. destruct (digits_of_ok 10 x ltac:(lia)) as [Hd Hn].
  assert (Hx64 : is_u64 x) by (unfold is_u64; lia).
  pose proof (digits_of_value 10 x ltac:(lia) Hx64) as Hv.
  unfold atoi, decimal. destruct (digits_of 10 x) as [|d ds] eqn:E; [done|].
  pose proof (Forall_inv Hd) as Hd0; cbn beta in Hd0. cbn [map].
  rewrite skip_space_digit, scan_sign_digit by lia.
  change (digit_char d :: map digit_char ds) with (map digit_char (d :: ds)).
  rewrite <- (app_nil_r (map digit_char (d :: ds))).
  rewrite scan_digits_printed by (auto using digit_char_value; done || lia).
  cbn [fst]. rewrite Hv. destruct (Z.ltb_spec x (- 2 ^ 31)), (Z.leb_spec (2 ^ 31) x); try lia. done.
Qed.

(** What follows a hexadecimal number: not a digit, and not the [x] of a prefix. *)
Definition hex_stops (s : list Z) : Prop :=
  stops 16 s /\ match s with [] => True | c :: _ => c <> 120 /\ c <> 88 end.

Lemma scan_hex_printed width x rest :
  is_u64 x -> hex_stops rest -> scan_hex (hex width x ++ rest) = Some (x, rest).
Proof.
  intros Hx [Hr Hx']. destruct (digits_of_ok 16 x ltac:(lia)) as [Hd Hn].
  destruct (pad_ok 16 width (digits_of 16 x) ltac:(lia) Hd Hn) as [Hpd Hpn].
  assert (Hv : digits_value 16 (pad width (digits_of 16 x)) = x).
  { unfold pad. rewrite digits_value_pad. by apply digits_of_value. }
  unfold scan_hex, hex. destruct (pad width (digits_of 16 x)) as [|d ds]; [done|].
  pose proof (Forall_inv Hpd) as Hd0; cbn beta in Hd0. pose proof (Forall_inv_tail Hpd) as Hds; cbn [map app].
  rewrite skip_space_digit, scan_sign_digit by lia.
  assert (E : match digit_char d :: map digit_char ds ++ rest with
              | z :: x0 :: r' => if (z =? 48) && ((x0 =? 120) || (x0 =? 88)) then r'
                                 else digit_char d :: map digit_char ds ++ rest
              | _ => digit_char d :: map digit_char ds ++ rest
              end = map digit_char (d :: ds) ++ rest).
  { destruct ds as [|d1 ds]; cbn [map app].
    - destruct rest as [|c rest]; [done|]. destruct Hx' as [H1 H2].
      by rewrite (proj2 (Z.eqb_neq c 120) H1), (proj2 (Z.eqb_neq c 88) H2), andb_false_r.
    - destruct (digit_char_plain d1) as (_ & _ & _ & -> & ->); [by inversion Hds|].
      by rewrite andb_false_r. }
  rewrite E, scan_digits_printed by (auto using digit_char_value; lia).
  cbn [list_rect]. by rewrite Hv, ull_value_small.
Qed.

Lemma upper_hex_inj width x y :
  is_u64 x -> is_u64 y -> upper_hex width x = upper_hex width y -> x = y.
Proof.
  intros Hx Hy E.
  assert (H : forall z, is_u64 z ->
    digits_value 16 (scan_digits 16 (upper_hex width z ++ [])).1 = z).
  { intros z Hz. destruct (digits_of_ok 16 z ltac:(lia)) as [Hd Hn].
    destruct (pad_ok 16 width (digits_of 16 z) ltac:(lia) Hd Hn) as [Hpd _].
    unfold upper_hex. rewrite scan_digits_printed by (auto using upper_digit_char_value; done || lia).
    cbn [fst]. unfold pad. rewrite digits_value_pad. by apply digits_of_value. }
  rewrite <- (H x Hx), <- (H y Hy). by rewrite E.
Qed.

(** ** Facts on words *)

Lemma scan_word_app spaces w rest :
  Forall (fun c => isspace c = true) spaces -> Forall (fun c => isspace c = false) w -> w <> [] ->
  match rest with [] => True | c :: _ => isspace c = true end ->
  scan_word None (spaces ++ w ++ rest) = Some (w, rest).
Proof.
  intros Hs Hw Hn Hr. unfold scan_word. rewrite skip_while_app by done.
  destruct w as [|c w]; [done|].
  pose proof (Forall_inv Hw) as Hc. cbn [app]. rewrite skip_while_stop by done.
  change (c :: w ++ rest) with ((c :: w) ++ rest). rewrite take_until_app by done.
  by rewrite drop_app_length.
Qed.

Lemma scan_word_width n spaces w rest :
  Forall (fun c => isspace c = true) spaces -> Forall (fun c => isspace c = false) w -> w <> [] ->
  match rest with [] => True | c :: _ => isspace c = true end -> (length w <= n)%nat ->
  scan_word (Some n) (spaces ++ w ++ rest) = Some (w, rest).
Proof.
  intros Hs Hw Hn Hr Hl. pose proof (scan_word_app spaces w rest Hs Hw Hn Hr) as H.
  unfold scan_word in *. rewrite skip_while_app in * by done.
  destruct w as [|c w]; [done|]. pose proof (Forall_inv Hw) as Hc. cbn [app] in *.
  rewrite skip_while_stop in * by done.
  change (c :: w ++ rest) with ((c :: w) ++ rest) in *. rewrite take_until_app in * by done.
  rewrite take_ge by done. exact H.
Qed.
