(* ===== verification/Options.v ===== *)
(** * Numbers on the command line: [parse_positive_int] of src/roadcastd.c and
      src/roadcastctl.c

    [strtol], the bounded parser both programs use, and what it accepts. *)

From S2P Require Import Prelude Text.

Definition LONG_MIN : Z := - 2 ^ 63.
Definition LONG_MAX : Z := 2 ^ 63 - 1.

(** [strtol(s, &end, 10)]: the value, saturated, and [end]; without digits [end]
    is [s]. *)
Definition strtol (s : list Z) : Z * list Z :=
  let '(negative, r) := scan_sign (skip_while isspace s) in
  match scan_digits 10 r with
  | ([], _) => (0, s)
  | (ds, rest) =>
      let v := digits_value 10 ds in
      let v := if negative : bool then - v else v in
      (if v <? LONG_MIN then LONG_MIN else if LONG_MAX <? v then LONG_MAX else v, rest)
  end.

(** [None] is -1; [min] and [max] are of type [int]. *)
Definition parse_positive_int (value : list Z) (min max : Z) : option Z :=
  let '(parsed, end_) := strtol value in
  if bool_decide (value = []) || negb (bool_decide (end_ = [])) || (parsed <? min) || (max <? parsed)
  then None else Some parsed.

(** ** What is accepted *)

(** [s] is a decimal numeral for [n], as [strtol] reads it: white space, a sign or
    none, and digits. *)
Definition numeral (s : list Z) (n : Z) : Prop :=
  exists spaces sign ds, s = spaces ++ sign ++ map digit_char ds
    /\ Forall (fun c => isspace c = true) spaces
    /\ Forall (fun d => 0 <= d < 10) ds /\ ds <> []
    /\ (sign = [] /\ n = digits_value 10 ds \/ sign = [43] /\ n = digits_value 10 ds
        \/ sign = [45] /\ n = - digits_value 10 ds).

Lemma skip_while_split test s :
  exists p, s = p ++ skip_while test s /\ Forall (fun c => test c = true) p.
Proof.
  induction s as [|c s (p & E & Hp)]; cbn [skip_while]; [by exists []|].
  destruct (test c) eqn:Ec; [|by exists []]. exists (c :: p). split; [by rewrite E at 1|by constructor].
Qed.

Lemma digit_value_char c d : digit_value c = Some d -> d < 10 -> c = digit_char d /\ 0 <= d.
Proof.
  unfold digit_value, digit_char. intros H Hd.
  destruct ((48 <=? c) && (c <=? 57)) eqn:E1.
  { injection H as <-. split_bools. destruct (Z.ltb_spec (c - 48) 10); lia. }
  destruct ((97 <=? c) && (c <=? 102)) eqn:E2; [injection H as <-; split_bools; lia|].
  destruct ((65 <=? c) && (c <=? 70)) eqn:E3; [injection H as <-; split_bools; lia|done].
Qed.

Lemma scan_digits_split s : forall ds rest, scan_digits 10 s = (ds, rest) ->
  s = map digit_char ds ++ rest /\ Forall (fun d => 0 <= d < 10) ds.
Proof.
  induction s as [|c s IH]; intros ds rest H; cbn [scan_digits] in H; [by injection H as <- <-|].
  destruct (digit_value c) as [d|] eqn:Ed; [|by injection H as <- <-].
  destruct (Z.ltb_spec d 10) as [Hd|]; [|by injection H as <- <-].
  destruct (scan_digits 10 s) as [ds' rest'] eqn:E. injection H as <- <-.
  destruct (IH _ _ eq_refl) as [-> Hds]. destruct (digit_value_char c d Ed Hd) as [-> H0].
  split; [done|]. by constructor.
Qed.

Lemma digits_value_nonneg ds : Forall (fun d => 0 <= d < 10) ds -> 0 <= digits_value 10 ds.
Proof.
  unfold digits_value. assert (H : forall v, 0 <= v -> Forall (fun d => 0 <= d < 10) ds ->
    0 <= fold_left (fun v d => v * 10 + d) ds v).
  { induction ds as [|d ds IH]; intros v Hv Hd; cbn [fold_left]; [done|].
    inversion_clear Hd as [|? ? Hd0 Hds]. apply IH; [lia|done]. }
  intros Hd. by apply H.
Qed.

Lemma scan_sign_split s : exists sign, s = sign ++ (scan_sign s).2
  /\ (sign = [] /\ (scan_sign s).1 = false \/ sign = [43] /\ (scan_sign s).1 = false
      \/ sign = [45] /\ (scan_sign s).1 = true).
Proof.
  destruct s as [|c s]; cbn [scan_sign]; [exists []; tauto|].
  destruct (Z.eqb_spec c 45) as [->|]; [exists [45]; cbn; tauto|].
  destruct (Z.eqb_spec c 43) as [->|]; [exists [43]; cbn; tauto|]. exists []. cbn. tauto.
Qed.

Lemma strtol_numeral s n : numeral s n -> LONG_MIN <= n <= LONG_MAX -> strtol s = (n, []).
Proof.
  intros (spaces & sign & ds & -> & Hsp & Hds & Hne & Hn) Hr. unfold strtol.
  rewrite skip_while_app by done. destruct ds as [|d ds]; [done|].
  pose proof (Forall_inv Hds) as Hd0. cbn beta in Hd0.
  destruct (digit_char_plain d ltac:(lia)) as (Hspace & _).
  assert (Hscan : scan_digits 10 (map digit_char (d :: ds)) = (d :: ds, [])).
  { rewrite <- (app_nil_r (map digit_char (d :: ds))).
    apply scan_digits_printed; [lia|apply digit_char_value|done|done]. }
  assert (Hclamp : forall v, v = n ->
    (if v <? LONG_MIN then LONG_MIN else if LONG_MAX <? v then LONG_MAX else v, []) = (n, @nil Z)).
  { intros v ->. destruct (Z.ltb_spec n LONG_MIN); [lia|]. by destruct (Z.ltb_spec LONG_MAX n); [lia|]. }
  destruct Hn as [[-> ->]|[[-> ->]|[-> ->]]]; cbn [app].
  - cbn [map]. rewrite skip_space_digit, scan_sign_digit by lia.
    change (digit_char d :: map digit_char ds) with (map digit_char (d :: ds)). rewrite Hscan. by apply Hclamp.
  - rewrite skip_while_stop by done. cbn [scan_sign Z.eqb Pos.eqb]. rewrite Hscan. by apply Hclamp.
  - rewrite skip_while_stop by done. cbn [scan_sign Z.eqb Pos.eqb]. rewrite Hscan. by apply Hclamp.
Qed.

Lemma numeral_strtol s v : strtol s = (v, []) -> s <> [] -> LONG_MIN < v < LONG_MAX -> numeral s v.
Proof.
  unfold strtol. intros H Hne Hv. destruct (skip_while_split isspace s) as (p & E & Hp).
  destruct (scan_sign_split (skip_while isspace s)) as (sign & E1 & Hsign).
  destruct (scan_sign (skip_while isspace s)) as [negative r]. cbn [fst snd] in *.
  destruct (scan_digits 10 r) as [ds rest] eqn:Ed. destruct (scan_digits_split r ds rest Ed) as [Er Hds].
  destruct ds as [|d ds]; [by injection H as _ ->|]. injection H as Hval ->. rewrite app_nil_r in Er.
  exists p, sign, (d :: ds). split; [by rewrite <- Er, <- E1|]. split_and!; try done.
  assert (Hvn : v = if negative then - digits_value 10 (d :: ds) else digits_value 10 (d :: ds)).
  { revert Hval. generalize (digits_value 10 (d :: ds)). intros x Hval.
    revert Hval. destruct (Z.ltb_spec (if negative then - x else x) LONG_MIN); [lia|].
    destruct (Z.ltb_spec LONG_MAX (if negative then - x else x)); [lia|]. done. }
  destruct Hsign as [[-> ->]|[[-> ->]|[-> ->]]]; tauto.
Qed.

(** The parser accepts exactly the numerals of the numbers in the range. *)
Lemma parse_positive_int_exact s min max n :
  LONG_MIN < min -> max < LONG_MAX ->
  parse_positive_int s min max = Some n <-> numeral s n /\ min <= n <= max.
Proof.
  intros Hmin Hmax. unfold parse_positive_int. split.
  - destruct (strtol s) as [v e] eqn:E. destruct (_ || _) eqn:Eb; [done|]. intros [= ->].
    split_bools. repeat match goal with
    | H : bool_decide _ = true |- _ => apply bool_decide_eq_true in H
    | H : bool_decide _ = false |- _ => apply bool_decide_eq_false in H
    end. subst e. split; [|lia]. apply numeral_strtol; [done|done|lia].
  - intros [Hn Hr]. rewrite (strtol_numeral s n Hn) by lia.
    assert (Hne : s <> []).
    { destruct Hn as (sp & sg & ds & -> & _ & _ & Hds & _). destruct ds; [done|]. by destruct sp, sg. }
    rewrite (bool_decide_eq_false_2 _ Hne), (bool_decide_eq_true_2 _ eq_refl). cbn [negb orb].
    destruct (Z.ltb_spec n min); [lia|]. by destruct (Z.ltb_spec max n); [lia|].
Qed.

Lemma parse_positive_int_range s min max n :
  parse_positive_int s min max = Some n -> min <= n <= max.
Proof.
  unfold parse_positive_int. destruct (strtol s) as [v e]. destruct (_ || _) eqn:Eb; [done|].
  intros [= ->]. split_bools. lia.
Qed.

(** Printing a number in the range and parsing it gives it back. *)
Lemma parse_positive_int_decimal n min max :
  LONG_MIN < min -> max < LONG_MAX -> 0 <= n -> min <= n <= max ->
  parse_positive_int (decimal n) min max = Some n.
Proof.
  intros Hmin Hmax Hn Hr. apply parse_positive_int_exact; [done..|]. split; [|done].
  destruct (digits_of_ok 10 n ltac:(lia)) as [Hd Hne].
  exists [], [], (digits_of 10 n). split_and!; try done. left. split; [done|].
  symmetry. apply digits_of_value; [lia|]. unfold is_u64, LONG_MAX in *. lia.
Qed.
