(* ===== verification/Effect.v ===== *)
(** * The monad of code that calls the operating system

    A computation takes the world and returns its result and the world after it;
    [owp] is its weakest precondition.  The models of src/vhal_source.c and
    src/roadcastctl.c are written in it. *)

From S2P Require Import Prelude.

(** [Fail] is a loop that ran out of fuel, [UB] undefined behaviour. *)
Definition OM (W A : Type) : Type := W -> res (A * W).

#[export] Instance OM_ret {W} : MRet (OM W) := fun A a w => Ok (a, w).
#[export] Instance OM_bind {W} : MBind (OM W) := fun A B f m w =>
  match m w with
  | Ok (a, w') => f a w'
  | Fail => Fail
  | UB => UB
  end.

Section Monad.
Context {W : Type}.

Definition osys {A} (f : W -> A * W) : OM W A := fun w => Ok (f w).
Definition osys_ (f : W -> W) : OM W unit := fun w => Ok (tt, f w).
Definition oget {A} (f : W -> A) : OM W A := fun w => Ok (f w, w).
(** A computation on memory that cannot fail but may be undefined. *)
Definition omem {A} (m : res A) : OM W A := fun w =>
  match m with Ok a => Ok (a, w) | Fail => Fail | UB => UB end.
(** A function that returns -1 or its results. *)
Definition odec {A} (m : res A) : OM W (option A) := fun w =>
  match m with Ok a => Ok (Some a, w) | Fail => Ok (None, w) | UB => UB end.
Definition out_of_fuel {A} : OM W A := fun _ => Fail.
End Monad.

(** ** Weakest preconditions: the function returns, and then [Q] holds *)

Definition owp {W A} (m : OM W A) (Q : A -> W -> Prop) (w : W) : Prop :=
  match m w with Ok (a, w') => Q a w' | _ => False end.

Section Wp.
Context {W : Type}.
Implicit Types w : W.

Lemma owp_ret {A} (a : A) Q w : Q a w -> owp (mret a) Q w.
Proof. done. Qed.
Lemma owp_bind {A B} (m : OM W A) (f : A -> OM W B) Q w :
  owp m (fun a w' => owp (f a) Q w') w -> owp (m ≫= f) Q w.
Proof. unfold owp, mbind, OM_bind. destruct (m w) as [[a w']| |]; done. Qed.
Lemma owp_mono {A} (m : OM W A) (P Q : A -> W -> Prop) w :
  owp m P w -> (forall a w', P a w' -> Q a w') -> owp m Q w.
Proof. unfold owp. destruct (m w) as [[a w']| |]; auto. Qed.
Lemma owp_sys {A} (f : W -> A * W) Q w : Q (f w).1 (f w).2 -> owp (osys f) Q w.
Proof. unfold owp, osys. by destruct (f w). Qed.
Lemma owp_sys_ (f : W -> W) Q w : Q tt (f w) -> owp (osys_ f) Q w.
Proof. done. Qed.
Lemma owp_get {A} (f : W -> A) Q w : Q (f w) w -> owp (oget f) Q w.
Proof. done. Qed.
Lemma owp_mem {A} (m : res A) (a : A) Q w : m = Ok a -> Q a w -> owp (omem m) Q w.
Proof. by intros ->. Qed.
Lemma owp_run {A} (m : OM W A) Q w : owp m Q w -> exists a w', m w = Ok (a, w') /\ Q a w'.
Proof. unfold owp. destruct (m w) as [[a w']| |]; [|done..]. eauto. Qed.
End Wp.

Ltac owp_step :=
  lazymatch goal with
  | |- owp (_ ≫= _) _ _ => apply owp_bind
  | |- owp (mret _) _ _ => apply owp_ret
  | |- owp (osys _) _ _ => apply owp_sys
  | |- owp (osys_ _) _ _ => apply owp_sys_
  | |- owp (oget _) _ _ => apply owp_get
  end.
Ltac owp_steps := cbv beta iota zeta; repeat (owp_step; cbv beta iota zeta).
