(* ===== verification/Double.v ===== *)
(** * IEEE-754 binary64, the C [double]

    The code copies doubles with [memcpy] between [double] and [uint64_t]
    (protocol.c [put_double], [get_double]) and computes with them only in
    catalog.c [roadcast_decode_signal_physical].  A [double] is therefore its
    64-bit pattern, a [Z] below [2 ^ 64]; the arithmetic decodes the pattern to
    the Standard Library's executable [spec_float], rounds to nearest-even
    there and encodes the result back. *)

From Corelib Require Import SpecFloat.
From S2P Require Import Prelude.

Abbreviation double := Z (only parsing).

Definition prec : Z := 53.
Definition emax : Z := 1024.

Definition DOUBLE_NAN : double := 0x7ff8000000000000.

(** The value of a bit pattern. *)
Definition sf_of_bits (b : double) : spec_float :=
  let s := Z.testbit b 63 in
  let biased := Z.land (Z.shiftr b 52) (Z.ones 11) in
  let frac := Z.land b (Z.ones 52) in
  if biased =? 2047 then
    if frac =? 0 then S754_infinity s else S754_nan
  else if biased =? 0 then
    match frac with
    | Zpos m => S754_finite s m (-1074)
    | _ => S754_zero s
    end
  else
    match frac + 2 ^ 52 with
    | Zpos m => S754_finite s m (biased - 1075)
    | _ => S754_nan
    end.

(** The bit pattern of a value; every NaN is the default quiet NaN. *)
Definition bits_of_sf (f : spec_float) : double :=
  let sign (s : bool) := if s then 2 ^ 63 else 0 in
  u64
  match f with
  | S754_zero s => sign s
  | S754_infinity s => sign s + 2047 * 2 ^ 52
  | S754_nan => DOUBLE_NAN
  | S754_finite s m e =>
      if Zpos m <? 2 ^ 52 then sign s + Zpos m
      else sign s + (e + 1075) * 2 ^ 52 + (Zpos m - 2 ^ 52)
  end.

(** [(double)x] for an unsigned 64-bit [x]. *)
Definition double_of_Z (x : Z) : double :=
  bits_of_sf (binary_normalize prec emax x 0 false).

Definition dmul (x y : double) : double :=
  bits_of_sf (SFmul prec emax (sf_of_bits x) (sf_of_bits y)).

Definition dadd (x y : double) : double :=
  bits_of_sf (SFadd prec emax (sf_of_bits x) (sf_of_bits y)).

Definition dopp (x : double) : double :=
  bits_of_sf (SFopp (sf_of_bits x)).

(** The decimal literal [m / 10^k], correctly rounded, as the compiler reads it.
    [SFdiv] rounds the exact quotient of its two significands once. *)
Definition dlit (m : Z) (k : Z) : double :=
  bits_of_sf
    match m, 10 ^ k with
    | Zpos p, Zpos q => SFdiv prec emax (S754_finite false p 0) (S754_finite false q 0)
    | Zneg p, Zpos q => SFdiv prec emax (S754_finite true p 0) (S754_finite false q 0)
    | _, _ => S754_zero false
    end.

Lemma bits_of_sf_range f : is_u64 (bits_of_sf f).
Proof. apply u64_range. Qed.

Lemma dadd_range x y : is_u64 (dadd x y).
Proof. apply bits_of_sf_range. Qed.

#[export] Hint Resolve bits_of_sf_range dadd_range : roadcast.
