(* ===== verification/Wire.v ===== *)
(** * The wire protocol: src/protocol.c and include/roadcast_protocol.h

    Big-endian primitives, the message header, and every fixed and variable
    payload.  An encoder writes through its [out] buffer exactly where the C
    code does; a decoder reads the [len] bytes of its payload.  What a failing
    decoder leaves in its out-parameters is not represented: no caller reads
    them after a failure. *)

From S2P Require Import Prelude Double.

(** ** include/roadcast_protocol.h *)

Definition ROADCAST_MAGIC : Z := 0x52444354.
Definition ROADCAST_PROTOCOL_VERSION : Z := 3.
Definition ROADCAST_HEADER_SIZE : Z := 32.
Definition ROADCAST_FRAME_WIRE_SIZE : Z := 28.
Definition ROADCAST_BATCH_PREFIX_SIZE : Z := 20.
Definition ROADCAST_SIGNAL_WIRE_SIZE : Z := 40.
Definition ROADCAST_WELCOME_SIZE : Z := 36.
Definition ROADCAST_HEARTBEAT_SIZE : Z := 40.
Definition ROADCAST_SCHEMA_REQUEST_SIZE : Z := 4.
Definition ROADCAST_SCHEMA_CHUNK_PREFIX_SIZE : Z := 24.
Definition ROADCAST_SCHEMA_ENTRY_FIXED_SIZE : Z := 44.
Definition ROADCAST_SCHEMA_NAME_MAX : Z := 63.
Definition ROADCAST_SCHEMA_UNIT_MAX : Z := 15.
Definition ROADCAST_MAX_PAYLOAD : Z := 65536.

(** [enum roadcast_message_type] *)
Definition ROADCAST_MSG_HELLO : Z := 1.
Definition ROADCAST_MSG_WELCOME : Z := 2.
Definition ROADCAST_MSG_GET_SNAPSHOT : Z := 3.
Definition ROADCAST_MSG_SNAPSHOT : Z := 4.
Definition ROADCAST_MSG_SUBSCRIBE_ALL : Z := 5.
Definition ROADCAST_MSG_UPDATE_BATCH : Z := 6.
Definition ROADCAST_MSG_HEARTBEAT : Z := 7.
Definition ROADCAST_MSG_RESYNC_REQUIRED : Z := 8.
Definition ROADCAST_MSG_SUBSCRIBED : Z := 9.
Definition ROADCAST_MSG_PING : Z := 10.
Definition ROADCAST_MSG_PONG : Z := 11.
Definition ROADCAST_MSG_GET_SCHEMA : Z := 12.
Definition ROADCAST_MSG_SCHEMA_CHUNK : Z := 13.
Definition ROADCAST_MSG_GET_SIGNAL_SNAPSHOT : Z := 14.
Definition ROADCAST_MSG_SIGNAL_SNAPSHOT_CHUNK : Z := 15.
Definition ROADCAST_MSG_SIGNAL_UPDATE_BATCH : Z := 16.

(** [enum roadcast_capability] *)
Definition ROADCAST_CAP_RAW_CAN : Z := Z.shiftl 1 0.
Definition ROADCAST_CAP_DECODED_CAN : Z := Z.shiftl 1 1.

(** [enum roadcast_item_kind], [enum roadcast_source_kind] *)
Definition ROADCAST_ITEM_CAN_SIGNAL : Z := 2.
Definition ROADCAST_SOURCE_RAW_CAN : Z := 1.

(** [enum roadcast_schema_flags] *)
Definition ROADCAST_SCHEMA_FLAG_SIGNED : Z := Z.shiftl 1 0.
Definition ROADCAST_SCHEMA_FLAG_CALIBRATED : Z := Z.shiftl 1 1.

(** [enum roadcast_observation_state] *)
Definition ROADCAST_OBSERVATION_UNAVAILABLE : Z := 0.
Definition ROADCAST_OBSERVATION_NEVER_OBSERVED : Z := 1.
Definition ROADCAST_OBSERVATION_VALID : Z := 2.
Definition ROADCAST_OBSERVATION_INVALID : Z := 3.

(** [enum roadcast_source_state] *)
Definition ROADCAST_SOURCE_STATE_UNAVAILABLE : Z := 0.
Definition ROADCAST_SOURCE_STATE_AVAILABLE : Z := 1.
Definition ROADCAST_SOURCE_STATE_DEGRADED : Z := 2.

Record roadcast_frame_t := mk_frame {
  can_id : Z;
  state : Z;
  data : list Z;
  first_observed_ns : Z;
  last_change_ns : Z;
}.

Record roadcast_header_t := mk_header {
  version : Z;
  type : Z;
  flags : Z;
  payload_bytes : Z;
  sequence : Z;
  timestamp_ns : Z;
}.

Record roadcast_signal_value_t := mk_value {
  raw : Z;
  physical : double;
  sig_first_observed_ns : Z;
  sig_last_change_ns : Z;
  sig_state : Z;
  calibrated : Z;
}.

Record roadcast_signal_update_t := mk_update {
  upd_index : Z;
  upd_value : roadcast_signal_value_t;
}.

Record roadcast_schema_entry_t := mk_entry {
  stable_id : Z;
  index : Z;
  invalid_signal_index : Z;
  entry_can_id : Z;
  kind : Z;
  source : Z;
  width : Z;
  entry_flags : Z;
  scale : double;
  offset : double;
  name : list Z;
  unit_ : list Z;
}.

#[export] Instance frame_eq_dec : EqDecision roadcast_frame_t.
Proof. solve_decision. Defined.
#[export] Instance header_eq_dec : EqDecision roadcast_header_t.
Proof. solve_decision. Defined.
#[export] Instance value_eq_dec : EqDecision roadcast_signal_value_t.
Proof. solve_decision. Defined.
#[export] Instance update_eq_dec : EqDecision roadcast_signal_update_t.
Proof. solve_decision. Defined.
#[export] Instance entry_eq_dec : EqDecision roadcast_schema_entry_t.
Proof. solve_decision. Defined.

(** ** Big-endian primitives *)

Definition put_u16 (out : list Z) (off : Z) (value : Z) : res (list Z) :=
  out ← wr out off (u8 (Z.shiftr value 8));
  wr out (off + 1) (u8 value).

Definition put_u32 (out : list Z) (off : Z) (value : Z) : res (list Z) :=
  out ← wr out off (u8 (Z.shiftr value 24));
  out ← wr out (off + 1) (u8 (Z.shiftr value 16));
  out ← wr out (off + 2) (u8 (Z.shiftr value 8));
  wr out (off + 3) (u8 value).

Definition put_u64 (out : list Z) (off : Z) (value : Z) : res (list Z) :=
  out ← put_u32 out off (u32 (Z.shiftr value 32));
  put_u32 out (off + 4) (u32 value).

Definition get_u16 (inp : list Z) (off : Z) : res Z :=
  b0 ← rd inp off;
  b1 ← rd inp (off + 1);
  mret (u16 (Z.lor (Z.shiftl b0 8) b1)).

Definition get_u32 (inp : list Z) (off : Z) : res Z :=
  b0 ← rd inp off;
  b1 ← rd inp (off + 1);
  b2 ← rd inp (off + 2);
  b3 ← rd inp (off + 3);
  mret (Z.lor (Z.lor (Z.lor (u32 (Z.shiftl b0 24)) (u32 (Z.shiftl b1 16)))
                     (u32 (Z.shiftl b2 8))) b3).

Definition get_u64 (inp : list Z) (off : Z) : res Z :=
  hi ← get_u32 inp off;
  lo ← get_u32 inp (off + 4);
  mret (Z.lor (u64 (Z.shiftl hi 32)) lo).

Definition put_double (out : list Z) (off : Z) (value : double) : res (list Z) :=
  put_u64 out off value.

Definition get_double (inp : list Z) (off : Z) : res double :=
  get_u64 inp off.

(** ** Message header *)

Definition roadcast_encode_header (out : list Z) (header : roadcast_header_t)
  : res (list Z) :=
  out ← put_u32 out 0 ROADCAST_MAGIC;
  out ← put_u16 out 4 (version header);
  out ← put_u16 out 6 (type header);
  out ← put_u32 out 8 (flags header);
  out ← put_u32 out 12 (payload_bytes header);
  out ← put_u64 out 16 (sequence header);
  put_u64 out 24 (timestamp_ns header).

Definition roadcast_decode_header (inp : list Z) : res roadcast_header_t :=
  magic ← get_u32 inp 0;
  reject_if (negb (magic =? ROADCAST_MAGIC));;
  version ← get_u16 inp 4;
  type ← get_u16 inp 6;
  flags ← get_u32 inp 8;
  payload_bytes ← get_u32 inp 12;
  sequence ← get_u64 inp 16;
  timestamp_ns ← get_u64 inp 24;
  reject_if (ROADCAST_MAX_PAYLOAD <? payload_bytes);;
  mret (mk_header version type flags payload_bytes sequence timestamp_ns).

(** ** HELLO, WELCOME and index requests *)

Definition roadcast_encode_hello (out : list Z) : res (Z * list Z) :=
  out ← put_u16 out 0 ROADCAST_PROTOCOL_VERSION;
  out ← put_u16 out 2 ROADCAST_PROTOCOL_VERSION;
  out ← put_u32 out 4 (Z.lor ROADCAST_CAP_RAW_CAN ROADCAST_CAP_DECODED_CAN);
  mret (8, out).

(** [min_version], [max_version], [capabilities] *)
Definition roadcast_decode_hello (payload : list Z) (len : Z) : res (Z * Z * Z) :=
  reject_if (negb (len =? 8));;
  min_version ← get_u16 payload 0;
  max_version ← get_u16 payload 2;
  capabilities ← get_u32 payload 4;
  mret (min_version, max_version, capabilities).

(** The parameters of [roadcast_encode_welcome], in its order. *)
Record welcome_t := mk_welcome {
  wel_hz : Z;
  wel_frame_count : Z;
  wel_signal_count : Z;
  wel_max_request_payload : Z;
  wel_max_response_payload : Z;
  wel_capabilities : Z;
  wel_schema_version : Z;
  wel_schema_hash : Z;
}.

Definition roadcast_encode_welcome (out : list Z) (w : welcome_t)
  : res (Z * list Z) :=
  out ← put_u32 out 0 (wel_hz w);
  out ← put_u32 out 4 (wel_frame_count w);
  out ← put_u32 out 8 (wel_signal_count w);
  out ← put_u32 out 12 (wel_max_request_payload w);
  out ← put_u32 out 16 (wel_max_response_payload w);
  out ← put_u32 out 20 (wel_capabilities w);
  out ← put_u32 out 24 (wel_schema_version w);
  out ← put_u64 out 28 (wel_schema_hash w);
  mret (ROADCAST_WELCOME_SIZE, out).

Definition roadcast_decode_welcome (payload : list Z) (len : Z) : res welcome_t :=
  reject_if (negb (len =? ROADCAST_WELCOME_SIZE));;
  hz ← get_u32 payload 0;
  frame_count ← get_u32 payload 4;
  signal_count ← get_u32 payload 8;
  max_request_payload ← get_u32 payload 12;
  max_response_payload ← get_u32 payload 16;
  capabilities ← get_u32 payload 20;
  schema_version ← get_u32 payload 24;
  schema_hash ← get_u64 payload 28;
  mret (mk_welcome hz frame_count signal_count max_request_payload
          max_response_payload capabilities schema_version schema_hash).

Definition roadcast_encode_index_request (out : list Z) (start_index : Z)
  : res (Z * list Z) :=
  out ← put_u32 out 0 start_index;
  mret (ROADCAST_SCHEMA_REQUEST_SIZE, out).

Definition roadcast_decode_index_request (payload : list Z) (len : Z) : res Z :=
  reject_if (negb (len =? ROADCAST_SCHEMA_REQUEST_SIZE));;
  get_u32 payload 0.

(** ** Schema chunks *)

(** One iteration of the entry loop: the entry and the next offset.  The bytes
    of [entry->name] up to its terminator are the list [name]. *)
Definition decode_schema_entry (payload : list Z) (len total_count start_index : Z)
    (i offset : Z) : res (roadcast_schema_entry_t * Z) :=
  reject_if (sz (len - offset) <? ROADCAST_SCHEMA_ENTRY_FIXED_SIZE);;
  name_length ← get_u16 payload (offset + 22);
  unit_length ← get_u16 payload (offset + 24);
  reserved ← get_u16 payload (offset + 26);
  reject_if (negb (reserved =? 0)
             || (ROADCAST_SCHEMA_NAME_MAX <? name_length)
             || (ROADCAST_SCHEMA_UNIT_MAX <? unit_length)
             || (sz (len - offset - ROADCAST_SCHEMA_ENTRY_FIXED_SIZE)
                   <? name_length + unit_length));;
  stable_id ← get_u64 payload offset;
  index ← get_u32 payload (offset + 8);
  invalid_signal_index ← get_u32 payload (offset + 12);
  can_id ← get_u16 payload (offset + 16);
  kind ← rd payload (offset + 18);
  source ← rd payload (offset + 19);
  width ← rd payload (offset + 20);
  flags ← rd payload (offset + 21);
  scale ← get_double payload (offset + 28);
  off ← get_double payload (offset + 36);
  name ← slice payload (offset + ROADCAST_SCHEMA_ENTRY_FIXED_SIZE) name_length;
  unit_ ← slice payload (offset + ROADCAST_SCHEMA_ENTRY_FIXED_SIZE + name_length)
            unit_length;
  reject_if (negb (index =? u32 (start_index + i))
             || negb (kind =? ROADCAST_ITEM_CAN_SIGNAL)
             || negb (source =? ROADCAST_SOURCE_RAW_CAN)
             || (width =? 0) || (64 <? width)
             || ((total_count <=? invalid_signal_index)
                 && negb (invalid_signal_index =? UINT32_MAX)));;
  mret (mk_entry stable_id index invalid_signal_index can_id kind source width
          flags scale off name unit_,
        offset + (ROADCAST_SCHEMA_ENTRY_FIXED_SIZE + name_length + unit_length)).

Record schema_chunk_t := mk_schema_chunk {
  chunk_schema_version : Z;
  chunk_total_count : Z;
  chunk_start_index : Z;
  chunk_schema_hash : Z;
  chunk_entries : list roadcast_schema_entry_t;
}.

Definition roadcast_decode_schema_chunk (payload : list Z) (len entry_capacity : Z)
  : res schema_chunk_t :=
  reject_if (len <? ROADCAST_SCHEMA_CHUNK_PREFIX_SIZE);;
  schema_version ← get_u32 payload 0;
  total_count ← get_u32 payload 4;
  start_index ← get_u32 payload 8;
  count ← get_u32 payload 12;
  schema_hash ← get_u64 payload 16;
  reject_if ((entry_capacity <? count) || (total_count <? start_index)
             || (total_count - start_index <? count));;
  '(entries, offset) ←
    loop (Z.to_nat count) 0
      (fun i '(entries, offset) =>
         '(entry, offset) ← decode_schema_entry payload len total_count
                              start_index i offset;
         mret (entries ++ [entry], offset))
      ([], ROADCAST_SCHEMA_CHUNK_PREFIX_SIZE);
  reject_if (negb (offset =? len));;
  mret (mk_schema_chunk schema_version total_count start_index schema_hash entries).

(** ** Raw frame batches *)

Definition encode_batch_prefix (out : list Z) (sample_sequence total_count
    start_index count : Z) : res (list Z) :=
  out ← put_u64 out 0 sample_sequence;
  out ← put_u32 out 8 total_count;
  out ← put_u32 out 12 start_index;
  out ← put_u16 out 16 (u16 count);
  put_u16 out 18 0.

Definition encode_frame_record (out : list Z) (record : Z) (frame : roadcast_frame_t)
  : res (list Z) :=
  out ← put_u16 out record (can_id frame);
  out ← wr out (record + 2) (state frame);
  out ← wr out (record + 3) 0;
  out ← blit out (record + 4) (data frame);
  out ← put_u64 out (record + 12) (first_observed_ns frame);
  put_u64 out (record + 20) (last_change_ns frame).

(** [indices] is [None] for a null pointer. *)
Definition roadcast_encode_frame_batch (out : list Z)
    (cap sample_sequence total_count start_index : Z)
    (frames : list roadcast_frame_t) (indices : option (list Z)) (count : Z)
  : res (Z * list Z) :=
  reject_if (UINT16_MAX <? count);;
  reject_if ((SIZE_MAX - ROADCAST_BATCH_PREFIX_SIZE) / ROADCAST_FRAME_WIRE_SIZE
               <? count);;
  let needed := ROADCAST_BATCH_PREFIX_SIZE + count * ROADCAST_FRAME_WIRE_SIZE in
  reject_if (cap <? needed);;
  out ← encode_batch_prefix out sample_sequence total_count start_index count;
  out ← loop (Z.to_nat count) 0
    (fun i out =>
       j ← match indices with Some ix => rd ix i | None => mret i end;
       frame ← rd frames j;
       encode_frame_record out
         (ROADCAST_BATCH_PREFIX_SIZE + i * ROADCAST_FRAME_WIRE_SIZE) frame) out;
  mret (needed, out).

Record batch_t (A : Type) := mk_batch {
  batch_sample_sequence : Z;
  batch_total_count : Z;
  batch_start_index : Z;
  batch_items : list A;
}.
Arguments mk_batch {A}.
Arguments batch_sample_sequence {A}.
Arguments batch_total_count {A}.
Arguments batch_start_index {A}.
Arguments batch_items {A}.

Definition decode_frame_record (payload : list Z) (record : Z)
  : res roadcast_frame_t :=
  st ← rd payload (record + 2);
  reserved ← rd payload (record + 3);
  reject_if ((ROADCAST_OBSERVATION_VALID <? st) || negb (reserved =? 0));;
  can_id ← get_u16 payload record;
  data ← slice payload (record + 4) 8;
  first_observed_ns ← get_u64 payload (record + 12);
  last_change_ns ← get_u64 payload (record + 20);
  mret (mk_frame can_id st data first_observed_ns last_change_ns).

Definition roadcast_decode_frame_batch (payload : list Z) (len frame_cap : Z)
  : res (batch_t roadcast_frame_t) :=
  reject_if (len <? ROADCAST_BATCH_PREFIX_SIZE);;
  r18 ← rd payload 18;
  r19 ← rd payload 19;
  reject_if (negb (r18 =? 0) || negb (r19 =? 0));;
  count ← get_u16 payload 16;
  reject_if ((SIZE_MAX - ROADCAST_BATCH_PREFIX_SIZE) / ROADCAST_FRAME_WIRE_SIZE
               <? count);;
  let expected := ROADCAST_BATCH_PREFIX_SIZE + count * ROADCAST_FRAME_WIRE_SIZE in
  reject_if (negb (expected =? len) || (frame_cap <? count));;
  sample_sequence ← get_u64 payload 0;
  total_count ← get_u32 payload 8;
  start_index ← get_u32 payload 12;
  reject_if (negb (start_index =? UINT32_MAX)
             && ((total_count <? start_index)
                 || (total_count - start_index <? count)));;
  frames ← loop (Z.to_nat count) 0
    (fun i frames =>
       frame ← decode_frame_record payload
                 (ROADCAST_BATCH_PREFIX_SIZE + i * ROADCAST_FRAME_WIRE_SIZE);
       mret (frames ++ [frame])) [];
  mret (mk_batch sample_sequence total_count start_index frames).

(** ** Decoded signal batches *)

Definition encode_signal_record (out : list Z) (record index : Z)
    (value : roadcast_signal_value_t) : res (list Z) :=
  out ← put_u32 out record index;
  out ← wr out (record + 4) (sig_state value);
  out ← wr out (record + 5) (if calibrated value =? 0 then 0 else 1);
  out ← put_u16 out (record + 6) 0;
  out ← put_u64 out (record + 8) (raw value);
  out ← put_double out (record + 16) (physical value);
  out ← put_u64 out (record + 24) (sig_first_observed_ns value);
  put_u64 out (record + 32) (sig_last_change_ns value).

Definition roadcast_encode_signal_batch (out : list Z)
    (capacity sample_sequence total_count start_index : Z)
    (signals : list roadcast_signal_value_t) (indices : option (list Z)) (count : Z)
  : res (Z * list Z) :=
  reject_if ((UINT16_MAX <? count)
             || ((SIZE_MAX - ROADCAST_BATCH_PREFIX_SIZE) / ROADCAST_SIGNAL_WIRE_SIZE
                   <? count));;
  let needed := ROADCAST_BATCH_PREFIX_SIZE + count * ROADCAST_SIGNAL_WIRE_SIZE in
  reject_if (capacity <? needed);;
  out ← encode_batch_prefix out sample_sequence total_count start_index count;
  out ← loop (Z.to_nat count) 0
    (fun i out =>
       index ← match indices with Some ix => rd ix i | None => mret (u32 i) end;
       value ← rd signals index;
       encode_signal_record out
         (ROADCAST_BATCH_PREFIX_SIZE + i * ROADCAST_SIGNAL_WIRE_SIZE) index value) out;
  mret (needed, out).

Definition decode_signal_record (payload : list Z) (record : Z)
  : res roadcast_signal_update_t :=
  st ← rd payload (record + 4);
  cal ← rd payload (record + 5);
  reserved ← get_u16 payload (record + 6);
  reject_if ((ROADCAST_OBSERVATION_INVALID <? st) || (1 <? cal)
             || negb (reserved =? 0));;
  index ← get_u32 payload record;
  raw ← get_u64 payload (record + 8);
  physical ← get_double payload (record + 16);
  first_observed_ns ← get_u64 payload (record + 24);
  last_change_ns ← get_u64 payload (record + 32);
  mret (mk_update index
          (mk_value raw physical first_observed_ns last_change_ns st cal)).

Definition roadcast_decode_signal_batch (payload : list Z) (len update_capacity : Z)
  : res (batch_t roadcast_signal_update_t) :=
  reject_if (len <? ROADCAST_BATCH_PREFIX_SIZE);;
  r18 ← rd payload 18;
  reject_if (negb (r18 =? 0));;
  r19 ← rd payload 19;
  reject_if (negb (r19 =? 0));;
  count ← get_u16 payload 16;
  reject_if ((SIZE_MAX - ROADCAST_BATCH_PREFIX_SIZE) / ROADCAST_SIGNAL_WIRE_SIZE
               <? count);;
  let expected := ROADCAST_BATCH_PREFIX_SIZE + count * ROADCAST_SIGNAL_WIRE_SIZE in
  reject_if (negb (expected =? len) || (update_capacity <? count));;
  sample_sequence ← get_u64 payload 0;
  total_count ← get_u32 payload 8;
  start_index ← get_u32 payload 12;
  reject_if (negb (start_index =? UINT32_MAX)
             && ((total_count <? start_index)
                 || (total_count - start_index <? count)));;
  updates ← loop (Z.to_nat count) 0
    (fun i updates =>
       update ← decode_signal_record payload
                  (ROADCAST_BATCH_PREFIX_SIZE + i * ROADCAST_SIGNAL_WIRE_SIZE);
       mret (updates ++ [update])) [];
  mret (mk_batch sample_sequence total_count start_index updates).

(** ** Heartbeats *)

Record heartbeat_t := mk_heartbeat {
  hb_sample_sequence : Z;
  hb_change_sequence : Z;
  hb_dropped_batches : Z;
  hb_coalesced_samples : Z;
  hb_effective_hz_millihz : Z;
  hb_source_state : Z;
}.

Definition roadcast_encode_heartbeat (out : list Z) (h : heartbeat_t)
  : res (Z * list Z) :=
  out ← put_u64 out 0 (hb_sample_sequence h);
  out ← put_u64 out 8 (hb_change_sequence h);
  out ← put_u64 out 16 (hb_dropped_batches h);
  out ← put_u64 out 24 (hb_coalesced_samples h);
  out ← put_u32 out 32 (hb_effective_hz_millihz h);
  out ← wr out 36 (hb_source_state h);
  out ← blit out 37 [0; 0; 0];
  mret (ROADCAST_HEARTBEAT_SIZE, out).

Definition roadcast_decode_heartbeat (payload : list Z) (len : Z) : res heartbeat_t :=
  reject_if (negb (len =? ROADCAST_HEARTBEAT_SIZE));;
  b36 ← rd payload 36;
  b37 ← rd payload 37;
  b38 ← rd payload 38;
  b39 ← rd payload 39;
  reject_if ((ROADCAST_SOURCE_STATE_DEGRADED <? b36) || negb (b37 =? 0)
             || negb (b38 =? 0) || negb (b39 =? 0));;
  sample_sequence ← get_u64 payload 0;
  change_sequence ← get_u64 payload 8;
  dropped_batches ← get_u64 payload 16;
  coalesced_samples ← get_u64 payload 24;
  effective_hz_millihz ← get_u32 payload 32;
  source_state ← rd payload 36;
  mret (mk_heartbeat sample_sequence change_sequence dropped_batches
          coalesced_samples effective_hz_millihz source_state).

(** ** Encoders as byte strings

    [be16], [be32] and [be64] are the bytes the primitives write; every encoder
    below is one [blit] of such bytes. *)

Definition be16 (v : Z) : list Z := [u8 (Z.shiftr v 8); u8 v].
Definition be32 (v : Z) : list Z :=
  [u8 (Z.shiftr v 24); u8 (Z.shiftr v 16); u8 (Z.shiftr v 8); u8 v].
Definition be64 (v : Z) : list Z := be32 (u32 (Z.shiftr v 32)) ++ be32 (u32 v).

Lemma put_u16_blit out off v : put_u16 out off v = blit out off (be16 v).
Proof.
  unfold put_u16, be16. rewrite wr_blit.
  change [u8 (Z.shiftr v 8); u8 v] with ([u8 (Z.shiftr v 8)] ++ [u8 v]).
  rewrite <- blit_blit.
  destruct (blit out off [_]); try done. rewrite !bind_ok, wr_blit. done.
Qed.

Lemma put_u32_blit out off v : put_u32 out off v = blit out off (be32 v).
Proof.
  unfold put_u32, be32.
  rewrite wr_blit.
  change [u8 (Z.shiftr v 24); u8 (Z.shiftr v 16); u8 (Z.shiftr v 8); u8 v]
    with ((([u8 (Z.shiftr v 24)] ++ [u8 (Z.shiftr v 16)])
             ++ [u8 (Z.shiftr v 8)]) ++ [u8 v]).
  rewrite <- !blit_blit.
  destruct (blit out off [_]) as [o| |]; try done. rewrite !bind_ok, wr_blit.
  change (zlen [u8 (Z.shiftr v 24)]) with 1.
  destruct (blit o (off + 1) [_]) as [o'| |]; try done. rewrite !bind_ok, wr_blit.
  change (zlen ([u8 (Z.shiftr v 24)] ++ [u8 (Z.shiftr v 16)])) with 2.
  destruct (blit o' (off + 2) [_]) as [o''| |]; try done. rewrite !bind_ok, wr_blit.
  done.
Qed.

Lemma put_u64_blit out off v : put_u64 out off v = blit out off (be64 v).
Proof.
  unfold put_u64, be64. rewrite put_u32_blit, <- blit_blit.
  destruct (blit out off _) as [o| |]; try done. by rewrite !bind_ok, put_u32_blit.
Qed.

(** One more write at the end of the bytes already written. *)
Lemma fuse {B} (put : list Z -> res (list Z)) out off a b (k : list Z -> res B) :
  (forall o, put o = blit o (off + zlen a) b) ->
  (blit out off a ≫= fun o => put o ≫= k) = (blit out off (a ++ b) ≫= k).
Proof.
  intros Hput. rewrite <- blit_blit. destruct (blit out off a); [|done..].
  by rewrite !bind_ok, Hput.
Qed.

Lemma fuse_last (put : list Z -> res (list Z)) out off a b :
  (forall o, put o = blit o (off + zlen a) b) ->
  (blit out off a ≫= put) = blit out off (a ++ b).
Proof.
  intros Hput. rewrite <- blit_blit. destruct (blit out off a); [|done..].
  by rewrite !bind_ok, Hput.
Qed.

Ltac put_blit :=
  first [ apply put_u16_blit | apply put_u32_blit | apply put_u64_blit
        | apply wr_blit | reflexivity ].

(** Side condition of [fuse]: the next write starts where the last one ended. *)
Ltac fuse_side :=
  let o := fresh "o" in
  intros o; unfold put_double; etransitivity; [put_blit|];
  f_equal; unfold zlen; rewrite ?length_app; cbn [length be16 be32 be64 app]; lia.

(** Turns an encoder that starts with a [blit] into a single [blit]. *)
Ltac fuse_all :=
  repeat first [ erewrite fuse by fuse_side | erewrite fuse_last by fuse_side ].

Definition header_bytes (h : roadcast_header_t) : list Z :=
  be32 ROADCAST_MAGIC ++ be16 (version h) ++ be16 (type h) ++ be32 (flags h)
    ++ be32 (payload_bytes h) ++ be64 (sequence h) ++ be64 (timestamp_ns h).

Lemma encode_header_blit out h :
  roadcast_encode_header out h = blit out 0 (header_bytes h).
Proof.
  unfold roadcast_encode_header. rewrite put_u32_blit. fuse_all.
  unfold header_bytes. by rewrite <- !(assoc_L (++)).
Qed.

(** ** Decoders read back what the primitives wrote *)

Lemma get_u16_has inp off v : has inp off (be16 v) -> get_u16 inp off = Ok (u16 v).
Proof.
  unfold be16. rewrite !has_cons. intros (H0 & H1 & _).
  unfold get_u16. rewrite H0, bind_ok, H1, bind_ok. unfold mret, res_ret. f_equal.
  rewrite lor_shiftl_add by (try apply u8_range; lia).
  rewrite shiftr_div by lia. unfold u8, u16.
  change (2 ^ 16) with (2 ^ 8 * 2 ^ 8).
  rewrite (Z.rem_mul_r v (2 ^ 8) (2 ^ 8)) by lia.
  pose proof (Z.mod_pos_bound v (2 ^ 8)). pose proof (Z.mod_pos_bound (v / 2 ^ 8) (2 ^ 8)).
  rewrite Z.mod_small; lia.
Qed.

Lemma get_u32_has inp off v : has inp off (be32 v) -> get_u32 inp off = Ok (u32 v).
Proof.
  unfold be32. rewrite !has_cons. intros (H0 & H1 & H2 & H3 & _).
  replace (off + 1 + 1) with (off + 2) in H2, H3 by lia.
  replace (off + 2 + 1) with (off + 3) in H3 by lia.
  unfold get_u32. rewrite H0, bind_ok, H1, bind_ok, H2, bind_ok, H3, bind_ok.
  unfold mret, res_ret. f_equal.
  rewrite !shiftr_div by lia.
  set (a := v / 2 ^ 24). set (b := v / 2 ^ 16). set (c := v / 2 ^ 8).
  rewrite !Z.shiftl_mul_pow2 by lia.
  pose proof (u8_range a). pose proof (u8_range b). pose proof (u8_range c).
  pose proof (u8_range v). unfold is_u8 in *.
  rewrite !(u32_id (_ * _)) by (unfold is_u32; lia).
  replace (u8 a * 2 ^ 24) with (Z.shiftl (u8 a) 24) by (rewrite Z.shiftl_mul_pow2; lia).
  rewrite lor_shiftl_add by lia.
  replace (u8 a * 2 ^ 24 + u8 b * 2 ^ 16) with (Z.shiftl (u8 a * 2 ^ 8 + u8 b) 16)
    by (rewrite Z.shiftl_mul_pow2; lia).
  rewrite lor_shiftl_add by lia.
  replace ((u8 a * 2 ^ 8 + u8 b) * 2 ^ 16 + u8 c * 2 ^ 8)
    with (Z.shiftl ((u8 a * 2 ^ 8 + u8 b) * 2 ^ 8 + u8 c) 8)
    by (rewrite Z.shiftl_mul_pow2; lia).
  rewrite lor_shiftl_add by lia.
  subst a b c. div_lia.
Qed.

Lemma get_u64_has inp off v : has inp off (be64 v) -> get_u64 inp off = Ok (u64 v).
Proof.
  unfold be64. rewrite has_app. change (zlen (be32 _)) with 4. intros [H0 H1].
  unfold get_u64.
  rewrite (get_u32_has _ _ _ H0), bind_ok, (get_u32_has _ _ _ H1), bind_ok.
  unfold mret, res_ret. f_equal. rewrite shiftr_div by lia.
  set (h := u32 (u32 (v / 2 ^ 32))).
  pose proof (u32_range (v / 2 ^ 32)). pose proof (u32_range v).
  assert (h = u32 (v / 2 ^ 32)) as -> by (apply u32_id; done).
  rewrite (u32_id (u32 v)) by done. unfold is_u32 in *.
  rewrite Z.shiftl_mul_pow2 by lia. rewrite (u64_id (_ * _)) by (unfold is_u64; lia).
  rewrite <- Z.shiftl_mul_pow2 by lia. rewrite lor_shiftl_add by lia.
  div_lia.
Qed.

Lemma get_double_has inp off v : has inp off (be64 v) -> get_double inp off = Ok (u64 v).
Proof. apply get_u64_has. Qed.

Lemma rd_has inp off (v : Z) : has inp off [v] -> rd inp off = Ok v.
Proof. rewrite has_cons. by intros [H _]. Qed.

Lemma be16_u8 v : bytes_ok (be16 v).
Proof. repeat constructor; apply u8_range. Qed.
Lemma be32_u8 v : bytes_ok (be32 v).
Proof. repeat constructor; apply u8_range. Qed.
Lemma be64_u8 v : bytes_ok (be64 v).
Proof. apply Forall_app; split; apply be32_u8. Qed.
#[export] Hint Resolve be16_u8 be32_u8 be64_u8 : roadcast.

Lemma zlen_be16 v : zlen (be16 v) = 2. Proof. done. Qed.
Lemma zlen_be32 v : zlen (be32 v) = 4. Proof. done. Qed.
Lemma zlen_be64 v : zlen (be64 v) = 8. Proof. done. Qed.
Lemma zlen_one (v : Z) : zlen [v] = 1. Proof. done. Qed.

(** Splits [has] over the pieces of a byte string and computes the lengths of
    the fixed-size ones. *)
Ltac split_has H :=
  rewrite ?has_app in H; rewrite ?zlen_be16, ?zlen_be32, ?zlen_be64, ?zlen_one in H;
  repeat match type of H with
  | _ /\ _ => let H' := fresh "Hat" in destruct H as [H' H]
  end.

(** Evaluates the reads of a decoder against the [has] hypotheses. *)
Ltac read_by lem H o o' :=
  rewrite lem by (replace o with o' by lia; exact H).

Ltac reads :=
  repeat (rewrite ?bind_ok;
    match goal with
    | |- context [get_u16 ?i ?o] =>
        match goal with H : has i ?o' (be16 ?v) |- _ =>
          rewrite (get_u16_has i o v) by (replace o with o' by lia; exact H) end
    | |- context [get_u32 ?i ?o] =>
        match goal with H : has i ?o' (be32 ?v) |- _ =>
          rewrite (get_u32_has i o v) by (replace o with o' by lia; exact H) end
    | |- context [get_u64 ?i ?o] =>
        match goal with H : has i ?o' (be64 ?v) |- _ =>
          rewrite (get_u64_has i o v) by (replace o with o' by lia; exact H) end
    | |- context [get_double ?i ?o] =>
        match goal with H : has i ?o' (be64 ?v) |- _ =>
          rewrite (get_double_has i o v) by (replace o with o' by lia; exact H) end
    | |- context [rd ?i ?o] =>
        match goal with H : has i ?o' [?v] |- _ =>
          rewrite (rd_has i o v) by (replace o with o' by lia; exact H) end
    | |- context [slice ?i ?o ?n] =>
        match goal with H : has i ?o' ?bs |- _ =>
          rewrite (has_slice i o bs n) by
            first [replace o with o' by lia; exact H | unfold zlen in *; lia] end
    end); rewrite ?bind_ok.

(** ** Message header *)

Definition header_ok (h : roadcast_header_t) : Prop :=
  is_u16 (version h) /\ is_u16 (type h) /\ is_u32 (flags h)
  /\ is_u32 (payload_bytes h) /\ is_u64 (sequence h) /\ is_u64 (timestamp_ns h).

Lemma decode_header_has inp h :
  header_ok h -> has inp 0 (header_bytes h) ->
  roadcast_decode_header inp =
    if ROADCAST_MAX_PAYLOAD <? payload_bytes h then Fail else Ok h.
Proof.
  intros (? & ? & ? & ? & ? & ?) Hin. unfold header_bytes in Hin. split_has Hin.
  unfold roadcast_decode_header. reads.
  rewrite !u16_id, !u32_id, !u64_id by done.
  rewrite reject_false. destruct (_ <? _); [done|]. by destruct h.
Qed.

(** ** Batches as byte strings *)

Definition batch_prefix_bytes (sample_sequence total_count start_index count : Z)
  : list Z :=
  be64 sample_sequence ++ be32 total_count ++ be32 start_index
    ++ be16 (u16 count) ++ be16 0.

Definition frame_bytes (f : roadcast_frame_t) : list Z :=
  be16 (can_id f) ++ [state f] ++ [0] ++ data f
    ++ be64 (first_observed_ns f) ++ be64 (last_change_ns f).

Definition frame_batch_bytes (b : batch_t roadcast_frame_t) : list Z :=
  batch_prefix_bytes (batch_sample_sequence b) (batch_total_count b)
    (batch_start_index b) (zlen (batch_items b))
    ++ concat (map frame_bytes (batch_items b)).

Definition signal_bytes (u : roadcast_signal_update_t) : list Z :=
  let v := upd_value u in
  be32 (upd_index u) ++ [sig_state v] ++ [if calibrated v =? 0 then 0 else 1]
    ++ be16 0 ++ be64 (raw v) ++ be64 (physical v)
    ++ be64 (sig_first_observed_ns v) ++ be64 (sig_last_change_ns v).

Definition signal_batch_bytes (b : batch_t roadcast_signal_update_t) : list Z :=
  batch_prefix_bytes (batch_sample_sequence b) (batch_total_count b)
    (batch_start_index b) (zlen (batch_items b))
    ++ concat (map signal_bytes (batch_items b)).

(** A frame the decoder accepts: C field widths and a state of the enum. *)
Definition frame_ok (f : roadcast_frame_t) : Prop :=
  is_u16 (can_id f) /\ 0 <= state f <= ROADCAST_OBSERVATION_VALID
  /\ zlen (data f) = 8 /\ bytes_ok (data f)
  /\ is_u64 (first_observed_ns f) /\ is_u64 (last_change_ns f).

Definition value_ok (v : roadcast_signal_value_t) : Prop :=
  is_u64 (raw v) /\ is_u64 (physical v) /\ is_u64 (sig_first_observed_ns v)
  /\ is_u64 (sig_last_change_ns v)
  /\ 0 <= sig_state v <= ROADCAST_OBSERVATION_INVALID /\ 0 <= calibrated v <= 1.

Definition update_ok (u : roadcast_signal_update_t) : Prop :=
  is_u32 (upd_index u) /\ value_ok (upd_value u).

(** The page metadata the decoder accepts: a delta batch, or a page inside the
    catalog. *)
Definition page_ok (total_count start_index count : Z) : Prop :=
  start_index = UINT32_MAX \/ (start_index <= total_count
                               /\ count <= total_count - start_index).

Definition batch_ok {A} (item_ok : A -> Prop) (b : batch_t A) : Prop :=
  is_u64 (batch_sample_sequence b) /\ is_u32 (batch_total_count b)
  /\ is_u32 (batch_start_index b) /\ zlen (batch_items b) <= UINT16_MAX
  /\ page_ok (batch_total_count b) (batch_start_index b) (zlen (batch_items b))
  /\ Forall item_ok (batch_items b).

Lemma encode_batch_prefix_blit out seq total start count :
  encode_batch_prefix out seq total start count
  = blit out 0 (batch_prefix_bytes seq total start count).
Proof.
  unfold encode_batch_prefix. rewrite put_u64_blit. fuse_all.
  unfold batch_prefix_bytes. by rewrite <- !(assoc_L (++)).
Qed.

Lemma encode_frame_record_blit out record f :
  zlen (data f) = 8 -> encode_frame_record out record f = blit out record (frame_bytes f).
Proof.
  intros Hd. unfold encode_frame_record. rewrite put_u16_blit.
  unfold zlen in Hd. fuse_all. unfold frame_bytes. by rewrite <- !(assoc_L (++)).
Qed.

Lemma encode_signal_record_blit out record u :
  encode_signal_record out record (upd_index u) (upd_value u)
  = blit out record (signal_bytes u).
Proof.
  unfold encode_signal_record. rewrite put_u32_blit. fuse_all.
  unfold signal_bytes. by rewrite <- !(assoc_L (++)).
Qed.

Lemma zlen_frame_bytes f : zlen (data f) = 8 -> zlen (frame_bytes f) = ROADCAST_FRAME_WIRE_SIZE.
Proof.
  intros Hd. unfold frame_bytes.
  rewrite !zlen_app, Hd, ?zlen_be16, ?zlen_be64, ?zlen_one. done.
Qed.

Lemma zlen_signal_bytes u : zlen (signal_bytes u) = ROADCAST_SIGNAL_WIRE_SIZE.
Proof. done. Qed.

Lemma frame_records_size items :
  Forall (fun f => zlen (data f) = 8) items ->
  Forall (fun r => zlen r = ROADCAST_FRAME_WIRE_SIZE) (map frame_bytes items).
Proof. intros H. apply Forall_map. revert H. apply Forall_impl, zlen_frame_bytes. Qed.

Lemma signal_records_size items :
  Forall (fun r => zlen r = ROADCAST_SIGNAL_WIRE_SIZE) (map signal_bytes items).
Proof. apply Forall_map, Forall_true. done. Qed.

Lemma zlen_batch_prefix s t i c : zlen (batch_prefix_bytes s t i c) = ROADCAST_BATCH_PREFIX_SIZE.
Proof. done. Qed.

Lemma count_fits_frames count :
  count <= UINT16_MAX ->
  ((SIZE_MAX - ROADCAST_BATCH_PREFIX_SIZE) / ROADCAST_FRAME_WIRE_SIZE <? count) = false.
Proof.
  intros H. apply Z.ltb_ge. transitivity UINT16_MAX; [done|].
  apply Z.div_le_lower_bound; done.
Qed.

Lemma count_fits_signals count :
  count <= UINT16_MAX ->
  ((SIZE_MAX - ROADCAST_BATCH_PREFIX_SIZE) / ROADCAST_SIGNAL_WIRE_SIZE <? count) = false.
Proof.
  intros H. apply Z.ltb_ge. transitivity UINT16_MAX; [done|].
  apply Z.div_le_lower_bound; done.
Qed.

Lemma zlen_frame_batch b :
  Forall (fun f => zlen (data f) = 8) (batch_items b) ->
  zlen (frame_batch_bytes b)
  = ROADCAST_BATCH_PREFIX_SIZE + zlen (batch_items b) * ROADCAST_FRAME_WIRE_SIZE.
Proof.
  intros Hd. unfold frame_batch_bytes. rewrite zlen_app, zlen_batch_prefix.
  rewrite (zlen_concat _ ROADCAST_FRAME_WIRE_SIZE), zlen_map; [done|].
  by apply frame_records_size.
Qed.

Lemma zlen_signal_batch b :
  zlen (signal_batch_bytes b)
  = ROADCAST_BATCH_PREFIX_SIZE + zlen (batch_items b) * ROADCAST_SIGNAL_WIRE_SIZE.
Proof.
  unfold signal_batch_bytes. rewrite zlen_app, zlen_batch_prefix.
  rewrite (zlen_concat _ ROADCAST_SIGNAL_WIRE_SIZE), zlen_map; [done|].
  apply signal_records_size.
Qed.

(** The frames an encoder call picks: [frames[indices ? indices[k] : k]]. *)
Definition selects_frames (frames : list roadcast_frame_t) (indices : option (list Z))
    (sel : list roadcast_frame_t) : Prop :=
  forall k f, sel !! k = Some f ->
    (j ← match indices with Some ix => rd ix (Z.of_nat k) | None => mret (Z.of_nat k) end;
     rd frames j) = Ok f.

Definition selects_signals (signals : list roadcast_signal_value_t)
    (indices : option (list Z)) (sel : list roadcast_signal_update_t) : Prop :=
  forall k u, sel !! k = Some u ->
    (j ← match indices with Some ix => rd ix (Z.of_nat k) | None => mret (u32 (Z.of_nat k)) end;
     v ← rd signals j; mret (mk_update j v)) = Ok u.

Lemma encode_frame_batch_blit out cap frames indices (b : batch_t roadcast_frame_t) :
  selects_frames frames indices (batch_items b) ->
  Forall (fun f => zlen (data f) = 8) (batch_items b) ->
  zlen (batch_items b) <= UINT16_MAX ->
  roadcast_encode_frame_batch out cap (batch_sample_sequence b) (batch_total_count b)
    (batch_start_index b) frames indices (zlen (batch_items b))
  = let needed := zlen (frame_batch_bytes b) in
    if cap <? needed then Fail
    else out ← blit out 0 (frame_batch_bytes b); mret (needed, out).
Proof.
  intros Hsel Hd Hc. destruct b as [seq total start items].
  cbn [batch_sample_sequence batch_total_count batch_start_index batch_items] in *.
  assert (Hlen : zlen (frame_batch_bytes (mk_batch seq total start items))
    = ROADCAST_BATCH_PREFIX_SIZE + zlen items * ROADCAST_FRAME_WIRE_SIZE).
  { by apply zlen_frame_batch. }
  unfold roadcast_encode_frame_batch. rewrite Hlen.
  destruct (Z.ltb_spec UINT16_MAX (zlen items)); [lia|]. rewrite reject_false.
  rewrite count_fits_frames by done.
  rewrite reject_false. cbn zeta.
  destruct (_ <? _); [done|]. rewrite reject_false, encode_batch_prefix_blit.
  rewrite <- bind_assoc. f_equal.
  unfold frame_batch_bytes; cbn [batch_sample_sequence batch_total_count batch_start_index batch_items].
  replace (Z.to_nat (zlen items)) with (length (map frame_bytes items))
    by (rewrite length_map; unfold zlen; lia).
  apply loop_blit with (base := ROADCAST_BATCH_PREFIX_SIZE) (size := ROADCAST_FRAME_WIRE_SIZE).
  - intros k r o Hk. rewrite list_lookup_fmap in Hk.
    destruct (items !! k) as [f|] eqn:Hf; cbn in Hk; [|done]. injection Hk as <-.
    rewrite Z.add_0_l. specialize (Hsel k f Hf). cbn beta in Hsel |- *.
    destruct (match indices with Some ix => _ | None => _ end) as [j| |]; [|done..].
    cbn [mbind res_bind] in Hsel |- *. rewrite Hsel.
    apply encode_frame_record_blit. eapply Forall_lookup_1 in Hf; [|done]. done.
  - by apply frame_records_size.
  - by rewrite zlen_batch_prefix.
Qed.

Lemma encode_signal_batch_blit out cap signals indices
    (b : batch_t roadcast_signal_update_t) :
  selects_signals signals indices (batch_items b) ->
  zlen (batch_items b) <= UINT16_MAX ->
  roadcast_encode_signal_batch out cap (batch_sample_sequence b) (batch_total_count b)
    (batch_start_index b) signals indices (zlen (batch_items b))
  = let needed := zlen (signal_batch_bytes b) in
    if cap <? needed then Fail
    else out ← blit out 0 (signal_batch_bytes b); mret (needed, out).
Proof.
  intros Hsel Hc. destruct b as [seq total start items].
  cbn [batch_sample_sequence batch_total_count batch_start_index batch_items] in *.
  assert (Hlen : zlen (signal_batch_bytes (mk_batch seq total start items))
    = ROADCAST_BATCH_PREFIX_SIZE + zlen items * ROADCAST_SIGNAL_WIRE_SIZE).
  { by apply zlen_signal_batch. }
  unfold roadcast_encode_signal_batch. rewrite Hlen.
  destruct (Z.ltb_spec UINT16_MAX (zlen items)); [lia|].
  rewrite count_fits_signals by done.
  cbn [orb]. rewrite reject_false. cbn zeta.
  destruct (_ <? _); [done|]. rewrite reject_false, encode_batch_prefix_blit.
  rewrite <- bind_assoc. f_equal.
  unfold signal_batch_bytes; cbn [batch_sample_sequence batch_total_count batch_start_index batch_items].
  replace (Z.to_nat (zlen items)) with (length (map signal_bytes items))
    by (rewrite length_map; unfold zlen; lia).
  apply loop_blit with (base := ROADCAST_BATCH_PREFIX_SIZE) (size := ROADCAST_SIGNAL_WIRE_SIZE).
  - intros k r o Hk. rewrite list_lookup_fmap in Hk.
    destruct (items !! k) as [u|] eqn:Hu; cbn in Hk; [|done]. injection Hk as <-.
    rewrite Z.add_0_l. specialize (Hsel k u Hu). cbn beta in Hsel |- *.
    destruct (match indices with Some ix => _ | None => _ end) as [j| |]; [|done..].
    cbn [mbind res_bind] in Hsel |- *. destruct (rd signals j) as [v| |]; [|done..].
    injection Hsel as <-.
    apply (encode_signal_record_blit o _ (mk_update j v)).
  - apply signal_records_size.
  - by rewrite zlen_batch_prefix.
Qed.

(** ** Decoding a batch *)

Lemma decode_frame_record_has payload record f :
  frame_ok f -> has payload record (frame_bytes f) ->
  decode_frame_record payload record = Ok f.
Proof.
  intros (? & Hst & Hd & _ & ? & ?) Hin. unfold frame_bytes in Hin.
  split_has Hin. rewrite Hd in *. unfold decode_frame_record. reads.
  destruct (Z.ltb_spec ROADCAST_OBSERVATION_VALID (state f)); [lia|].
  cbn [orb negb Z.eqb]. rewrite reject_false. reads.
  rewrite u16_id, !u64_id by done. by destruct f.
Qed.

Lemma decode_signal_record_has payload record u :
  update_ok u -> has payload record (signal_bytes u) ->
  decode_signal_record payload record = Ok u.
Proof.
  intros [? (? & ? & ? & ? & Hst & Hcal)] Hin. unfold signal_bytes in Hin.
  cbn zeta in Hin. split_has Hin. unfold decode_signal_record. reads.
  destruct (Z.ltb_spec ROADCAST_OBSERVATION_INVALID (sig_state (upd_value u))); [lia|].
  replace (if calibrated (upd_value u) =? 0 then 0 else 1) with (calibrated (upd_value u))
    by (destruct (Z.eqb_spec (calibrated (upd_value u)) 0); lia).
  destruct (Z.ltb_spec 1 (calibrated (upd_value u))); [lia|].
  cbn [orb negb Z.eqb]. rewrite u16_id by done. rewrite reject_false. reads.
  rewrite u32_id, !u64_id by done. by destruct u as [? []].
Qed.

Lemma page_ok_check total start count :
  page_ok total start count ->
  negb (start =? UINT32_MAX) && ((total <? start) || (total - start <? count)) = false.
Proof.
  intros [->|[H1 H2]]; [by rewrite Z.eqb_refl|].
  destruct (Z.ltb_spec total start); [lia|].
  destruct (Z.ltb_spec (total - start) count); [lia|]. apply andb_false_r.
Qed.

Lemma decode_frame_batch_has payload len cap b :
  batch_ok frame_ok b -> has payload 0 (frame_batch_bytes b) ->
  len = zlen (frame_batch_bytes b) ->
  roadcast_decode_frame_batch payload len cap
  = if cap <? zlen (batch_items b) then Fail else Ok b.
Proof.
  destruct b as [seq total start items]. intros (? & ? & ? & Hc & Hpage & Hf) Hin Hlen.
  unfold frame_batch_bytes in *.
  cbn [batch_sample_sequence batch_total_count batch_start_index batch_items] in *.
  assert (Forall (fun f => zlen (data f) = 8) items) as Hd
    by (revert Hf; apply Forall_impl; by intros ? (? & ? & ? & _)).
  rewrite zlen_app, zlen_batch_prefix, (zlen_concat _ ROADCAST_FRAME_WIRE_SIZE),
    zlen_map in Hlen by by apply frame_records_size.
  pose proof (zlen_nonneg items).
  rewrite has_app in Hin. destruct Hin as [Hpre Hrec]. rewrite zlen_batch_prefix in Hrec.
  unfold batch_prefix_bytes in Hpre. split_has Hpre.
  pose proof Hpre as Hpre'. unfold be16 in Hpre'. rewrite !has_cons in Hpre'. destruct Hpre' as (R18 & R19 & _).
  replace (0 + 8 + 4 + 4 + 2) with 18 in R18, R19 by lia.
  change (u8 (Z.shiftr 0 8)) with 0 in R18. change (u8 0) with 0 in R19.
  change (18 + 1) with 19 in R19.
  unfold roadcast_decode_frame_batch.
  destruct (Z.ltb_spec len ROADCAST_BATCH_PREFIX_SIZE); [unfold ROADCAST_BATCH_PREFIX_SIZE, ROADCAST_FRAME_WIRE_SIZE in *; lia|].
  rewrite reject_false, R18, bind_ok, R19, bind_ok, reject_false. reads.
  assert (is_u16 (zlen items)) by (unfold is_u16, UINT16_MAX in *; lia).
  rewrite !(u16_id (zlen items)), count_fits_frames, reject_false by done.
  rewrite Hlen, Z.eqb_refl. cbn [negb orb].
  destruct (cap <? zlen items); [done|]. rewrite reject_false. reads.
  rewrite !u32_id, !u64_id, page_ok_check, reject_false by done.
  replace (Z.to_nat (zlen items)) with (length items) by (unfold zlen; lia).
  rewrite (loop_collect (fun i => decode_frame_record payload
    (ROADCAST_BATCH_PREFIX_SIZE + i * ROADCAST_FRAME_WIRE_SIZE)) items); [done|].
  intros k f Hk. apply decode_frame_record_has; [by eapply Forall_lookup_1 in Hk|].
  rewrite Z.add_0_l. eapply has_concat; [by apply frame_records_size|exact Hrec|].
  by rewrite list_lookup_fmap, Hk.
Qed.

Lemma decode_signal_batch_has payload len cap b :
  batch_ok update_ok b -> has payload 0 (signal_batch_bytes b) ->
  len = zlen (signal_batch_bytes b) ->
  roadcast_decode_signal_batch payload len cap
  = if cap <? zlen (batch_items b) then Fail else Ok b.
Proof.
  destruct b as [seq total start items]. intros (? & ? & ? & Hc & Hpage & Hf) Hin Hlen.
  unfold signal_batch_bytes in *.
  cbn [batch_sample_sequence batch_total_count batch_start_index batch_items] in *.
  rewrite zlen_app, zlen_batch_prefix, (zlen_concat _ ROADCAST_SIGNAL_WIRE_SIZE),
    zlen_map in Hlen by apply signal_records_size.
  pose proof (zlen_nonneg items).
  rewrite has_app in Hin. destruct Hin as [Hpre Hrec]. rewrite zlen_batch_prefix in Hrec.
  unfold batch_prefix_bytes in Hpre. split_has Hpre.
  pose proof Hpre as Hpre'. unfold be16 in Hpre'.
  rewrite !has_cons in Hpre'. destruct Hpre' as (R18 & R19 & _).
  replace (0 + 8 + 4 + 4 + 2) with 18 in R18, R19 by lia.
  change (u8 (Z.shiftr 0 8)) with 0 in R18. change (u8 0) with 0 in R19.
  change (18 + 1) with 19 in R19.
  unfold roadcast_decode_signal_batch.
  destruct (Z.ltb_spec len ROADCAST_BATCH_PREFIX_SIZE); [unfold ROADCAST_BATCH_PREFIX_SIZE, ROADCAST_SIGNAL_WIRE_SIZE in *; lia|].
  rewrite reject_false, R18, bind_ok, reject_false, R19, bind_ok, reject_false. reads.
  assert (is_u16 (zlen items)) by (unfold is_u16, UINT16_MAX in *; lia).
  rewrite !(u16_id (zlen items)), count_fits_signals, reject_false by done.
  rewrite Hlen, Z.eqb_refl. cbn [negb orb].
  destruct (cap <? zlen items); [done|]. rewrite reject_false. reads.
  rewrite !u32_id, !u64_id, page_ok_check, reject_false by done.
  replace (Z.to_nat (zlen items)) with (length items) by (unfold zlen; lia).
  rewrite (loop_collect (fun i => decode_signal_record payload
    (ROADCAST_BATCH_PREFIX_SIZE + i * ROADCAST_SIGNAL_WIRE_SIZE)) items); [done|].
  intros k f Hk. apply decode_signal_record_has; [by eapply Forall_lookup_1 in Hk|].
  rewrite Z.add_0_l. eapply has_concat; [apply signal_records_size|exact Hrec|].
  by rewrite list_lookup_fmap, Hk.
Qed.

(** ** What a decoder accepts is what an encoder produces *)

Lemma get_u16_inv inp off v :
  bytes_ok inp -> get_u16 inp off = Ok v -> has inp off (be16 v) /\ is_u16 v.
Proof.
  intros Hb H. unfold get_u16 in H. inv_res. split; [|apply u16_range].
  pose proof (bytes_ok_rd _ _ _ Hb E). pose proof (bytes_ok_rd _ _ _ Hb E0).
  unfold is_u8 in *. rewrite lor_shiftl_add, u16_id by (unfold is_u16; lia).
  unfold be16. rewrite !has_cons, shiftr_div by lia.
  replace (u8 ((a * 2 ^ 8 + a0) / 2 ^ 8)) with a by div_lia.
  replace (u8 (a * 2 ^ 8 + a0)) with a0 by div_lia.
  split; [done|]. rewrite <- has_cons. by apply rd_has_one.
Qed.

Lemma get_u32_inv inp off v :
  bytes_ok inp -> get_u32 inp off = Ok v -> has inp off (be32 v) /\ is_u32 v.
Proof.
  intros Hb H. unfold get_u32 in H. inv_res.
  pose proof (bytes_ok_rd _ _ _ Hb E). pose proof (bytes_ok_rd _ _ _ Hb E0).
  pose proof (bytes_ok_rd _ _ _ Hb E1). pose proof (bytes_ok_rd _ _ _ Hb E2).
  set (w := a * 2 ^ 24 + a0 * 2 ^ 16 + a1 * 2 ^ 8 + a2).
  assert (Hw : has inp off (be32 w)).
  { unfold be32. rewrite !shiftr_div by lia. unfold is_u8 in *.
    replace (u8 (w / 2 ^ 24)) with a by (subst w; div_lia).
    replace (u8 (w / 2 ^ 16)) with a0 by (subst w; div_lia).
    replace (u8 (w / 2 ^ 8)) with a1 by (subst w; div_lia).
    replace (u8 w) with a2 by (subst w; div_lia).
    rewrite has_cons. split; [done|]. rewrite has_cons. split; [done|].
    replace (off + 1 + 1) with (off + 2) by lia.
    rewrite has_cons. split; [done|].
    replace (off + 2 + 1) with (off + 3) by lia. by apply rd_has_one. }
  assert (is_u32 w) by (unfold is_u8, is_u32 in *; subst w; lia).
  pose proof (get_u32_has inp off w Hw) as Hg. unfold get_u32 in Hg.
  rewrite E, bind_ok, E0, bind_ok, E1, bind_ok, E2, bind_ok in Hg.
  unfold mret, res_ret in Hg. rewrite (u32_id w) in Hg by done. injection Hg as ->. done.
Qed.

Lemma get_u64_inv inp off v :
  bytes_ok inp -> get_u64 inp off = Ok v -> has inp off (be64 v) /\ is_u64 v.
Proof.
  intros Hb H. unfold get_u64 in H. inv_res.
  apply (get_u32_inv _ _ _ Hb) in E as [H1 R1]. apply (get_u32_inv _ _ _ Hb) in E0 as [H2 R2].
  unfold is_u32 in *.
  rewrite Z.shiftl_mul_pow2 by lia. rewrite (u64_id (_ * _)) by (unfold is_u64; lia).
  rewrite <- Z.shiftl_mul_pow2 by lia. rewrite lor_shiftl_add by lia.
  split; [|unfold is_u64; lia]. unfold be64. rewrite has_app, zlen_be32, shiftr_div by lia.
  replace (u32 ((a * 2 ^ 32 + a0) / 2 ^ 32)) with a by div_lia.
  by replace (u32 (a * 2 ^ 32 + a0)) with a0 by div_lia.
Qed.

Lemma get_u16_no_ub inp off :
  0 <= off -> off + 2 <= zlen inp -> no_ub (get_u16 inp off).
Proof.
  intros H1 H2. unfold get_u16.
  repeat (apply no_ub_bind; [apply rd_no_ub; lia|intros ? _]). done.
Qed.
Lemma get_u32_no_ub inp off :
  0 <= off -> off + 4 <= zlen inp -> no_ub (get_u32 inp off).
Proof.
  intros H1 H2. unfold get_u32.
  repeat (apply no_ub_bind; [apply rd_no_ub; lia|intros ? _]). done.
Qed.
Lemma get_u64_no_ub inp off :
  0 <= off -> off + 8 <= zlen inp -> no_ub (get_u64 inp off).
Proof.
  intros H1 H2. unfold get_u64.
  repeat (apply no_ub_bind; [apply get_u32_no_ub; lia|intros ? _]). done.
Qed.

(** The contract of a decoder run on the whole of [payload]: it accepts exactly
    the encodings of well-formed values, returns the value that was encoded, and
    never reads outside the payload. *)
Definition decodes_exactly {A} (dec : res A) (ok : A -> Prop) (enc : A -> list Z)
    (payload : list Z) : Prop :=
  match dec with
  | Ok a => ok a /\ payload = enc a
  | Fail => forall a, ok a -> payload <> enc a
  | UB => False
  end.

Lemma decodes_exactly_intro {A} (dec : res A) ok enc payload :
  no_ub dec ->
  (forall a, dec = Ok a -> ok a /\ payload = enc a) ->
  (forall a, ok a -> payload = enc a -> dec = Ok a) ->
  decodes_exactly dec ok enc payload.
Proof.
  intros Hb Hok Henc. destruct dec; [by apply Hok| |done].
  intros a Ha He. discriminate (Henc a Ha He).
Qed.

(** Solves [no_ub] goals whose reads are at offsets [lia] can place. *)
Ltac read_no_ub :=
  first [ apply get_u16_no_ub | apply get_u32_no_ub | apply get_u64_no_ub
        | apply rd_no_ub ]; lia.

Ltac no_ub_step :=
  first
    [ apply no_ub_ok | apply no_ub_fail
    | solve [read_no_ub]
    | apply no_ub_reject; let G := fresh "G" in intros G; split_bools
    | apply no_ub_bind; [solve [read_no_ub]|intros ? ?] ].

Ltac no_ub := repeat no_ub_step.

(** Turns the reads recorded by [inv_res] into [has] facts. *)
Ltac reads_inv Hb :=
  repeat match goal with
  | H : get_u16 _ _ = Ok _ |- _ => apply (get_u16_inv _ _ _ Hb) in H as [? ?]
  | H : get_u32 _ _ = Ok _ |- _ => apply (get_u32_inv _ _ _ Hb) in H as [? ?]
  | H : get_u64 _ _ = Ok _ |- _ => apply (get_u64_inv _ _ _ Hb) in H as [? ?]
  | H : get_double _ _ = Ok _ |- _ => apply (get_u64_inv _ _ _ Hb) in H as [? ?]
  | H : rd _ _ = Ok _ |- _ =>
      pose proof (bytes_ok_rd _ _ _ Hb H); apply rd_has_one in H
  | H : slice _ _ _ = Ok _ |- _ =>
      apply slice_inv in H as [? ?]
  end; subst.

(** Joins [has] facts back into one byte string. *)
Ltac join_has :=
  rewrite ?has_app, ?zlen_be16, ?zlen_be32, ?zlen_be64, ?zlen_one;
  repeat split;
  match goal with
  | H : has ?i ?o ?b |- has ?i ?o' ?b => replace o' with o by lia; exact H
  end.

Lemma decode_header_exact inp :
  bytes_ok inp -> zlen inp = ROADCAST_HEADER_SIZE ->
  decodes_exactly (roadcast_decode_header inp)
    (fun h => header_ok h /\ payload_bytes h <= ROADCAST_MAX_PAYLOAD) header_bytes inp.
Proof.
  intros Hb Hl. unfold ROADCAST_HEADER_SIZE in Hl. apply decodes_exactly_intro.
  - unfold roadcast_decode_header. no_ub.
  - intros h H. unfold roadcast_decode_header in H. inv_res. split_bools.
    reads_inv Hb. split.
    + unfold header_ok. cbn. by split_and!.
    + apply has_all; [|done]. unfold header_bytes.
      cbn [version type flags payload_bytes sequence timestamp_ns]. join_has.
  - intros h [Hok Hp] ->. rewrite (decode_header_has _ h); [|done|apply has_self].
    destruct (Z.ltb_spec ROADCAST_MAX_PAYLOAD (payload_bytes h)); [lia|done].
Qed.

(** ** HELLO, WELCOME, index requests and heartbeats *)

Definition hello_bytes (h : Z * Z * Z) : list Z :=
  be16 (h.1.1) ++ be16 (h.1.2) ++ be32 (h.2).

Definition welcome_bytes (w : welcome_t) : list Z :=
  be32 (wel_hz w) ++ be32 (wel_frame_count w) ++ be32 (wel_signal_count w)
    ++ be32 (wel_max_request_payload w) ++ be32 (wel_max_response_payload w)
    ++ be32 (wel_capabilities w) ++ be32 (wel_schema_version w)
    ++ be64 (wel_schema_hash w).

Definition heartbeat_bytes (h : heartbeat_t) : list Z :=
  be64 (hb_sample_sequence h) ++ be64 (hb_change_sequence h)
    ++ be64 (hb_dropped_batches h) ++ be64 (hb_coalesced_samples h)
    ++ be32 (hb_effective_hz_millihz h) ++ [hb_source_state h] ++ [0; 0; 0].

Definition hello_ok (h : Z * Z * Z) : Prop :=
  is_u16 (h.1.1) /\ is_u16 (h.1.2) /\ is_u32 (h.2).

Definition welcome_ok (w : welcome_t) : Prop :=
  is_u32 (wel_hz w) /\ is_u32 (wel_frame_count w) /\ is_u32 (wel_signal_count w)
  /\ is_u32 (wel_max_request_payload w) /\ is_u32 (wel_max_response_payload w)
  /\ is_u32 (wel_capabilities w) /\ is_u32 (wel_schema_version w)
  /\ is_u64 (wel_schema_hash w).

Definition heartbeat_ok (h : heartbeat_t) : Prop :=
  is_u64 (hb_sample_sequence h) /\ is_u64 (hb_change_sequence h)
  /\ is_u64 (hb_dropped_batches h) /\ is_u64 (hb_coalesced_samples h)
  /\ is_u32 (hb_effective_hz_millihz h)
  /\ 0 <= hb_source_state h <= ROADCAST_SOURCE_STATE_DEGRADED.

Lemma encode_hello_blit out :
  roadcast_encode_hello out
  = out ← blit out 0 (hello_bytes (ROADCAST_PROTOCOL_VERSION, ROADCAST_PROTOCOL_VERSION,
                                   Z.lor ROADCAST_CAP_RAW_CAN ROADCAST_CAP_DECODED_CAN));
    mret (8, out).
Proof. unfold roadcast_encode_hello. rewrite put_u16_blit. fuse_all. done. Qed.

Lemma encode_welcome_blit out w :
  roadcast_encode_welcome out w
  = out ← blit out 0 (welcome_bytes w); mret (ROADCAST_WELCOME_SIZE, out).
Proof. unfold roadcast_encode_welcome. rewrite put_u32_blit. fuse_all. done. Qed.

Lemma encode_index_request_blit out i :
  roadcast_encode_index_request out i
  = out ← blit out 0 (be32 i); mret (ROADCAST_SCHEMA_REQUEST_SIZE, out).
Proof. unfold roadcast_encode_index_request. by rewrite put_u32_blit. Qed.

Lemma encode_heartbeat_blit out h :
  roadcast_encode_heartbeat out h
  = out ← blit out 0 (heartbeat_bytes h); mret (ROADCAST_HEARTBEAT_SIZE, out).
Proof. unfold roadcast_encode_heartbeat. rewrite put_u64_blit. fuse_all. done. Qed.

Lemma decode_hello_exact payload :
  bytes_ok payload ->
  decodes_exactly (roadcast_decode_hello payload (zlen payload)) hello_ok hello_bytes payload.
Proof.
  intros Hb. apply decodes_exactly_intro.
  - unfold roadcast_decode_hello. no_ub.
  - intros h H. unfold roadcast_decode_hello in H. inv_res. split_bools. reads_inv Hb.
    split; [by split_and!|]. apply has_all; [|done]. unfold hello_bytes. cbn [fst snd]. join_has.
  - intros [[a b] c] (H1 & H2 & H3) ->. cbn in H1, H2, H3.
    pose proof (has_self (hello_bytes (a, b, c))) as Hin. unfold hello_bytes in Hin at 2.
    cbn [fst snd] in Hin. split_has Hin. unfold roadcast_decode_hello.
    change (zlen (hello_bytes (a, b, c))) with 8. rewrite Z.eqb_refl, reject_false. reads.
    by rewrite !u16_id, !u32_id.
Qed.

Lemma decode_welcome_exact payload :
  bytes_ok payload ->
  decodes_exactly (roadcast_decode_welcome payload (zlen payload)) welcome_ok
    welcome_bytes payload.
Proof.
  intros Hb. apply decodes_exactly_intro.
  - unfold roadcast_decode_welcome, ROADCAST_WELCOME_SIZE. no_ub.
  - intros w H. unfold roadcast_decode_welcome in H. inv_res. split_bools. reads_inv Hb.
    split; [by split_and!|]. apply has_all; [|done]. unfold welcome_bytes.
    cbn [wel_hz wel_frame_count wel_signal_count wel_max_request_payload
         wel_max_response_payload wel_capabilities wel_schema_version wel_schema_hash].
    join_has.
  - intros w (? & ? & ? & ? & ? & ? & ? & ?) ->.
    pose proof (has_self (welcome_bytes w)) as Hin. unfold welcome_bytes in Hin at 2.
    split_has Hin. unfold roadcast_decode_welcome.
    change (zlen (welcome_bytes w)) with ROADCAST_WELCOME_SIZE.
    rewrite Z.eqb_refl, reject_false. reads.
    rewrite !u32_id, u64_id by done. by destruct w.
Qed.

Lemma decode_index_request_exact payload :
  bytes_ok payload ->
  decodes_exactly (roadcast_decode_index_request payload (zlen payload)) is_u32 be32 payload.
Proof.
  intros Hb. apply decodes_exactly_intro.
  - unfold roadcast_decode_index_request, ROADCAST_SCHEMA_REQUEST_SIZE. no_ub.
  - intros i H. unfold roadcast_decode_index_request in H. inv_res. split_bools.
    apply (get_u32_inv _ _ _ Hb) in H as [H1 H2]. split; [done|]. by apply has_all.
  - intros i Hi ->. unfold roadcast_decode_index_request. rewrite zlen_be32.
    cbn [Z.eqb negb]. rewrite reject_false, (get_u32_has _ _ i), u32_id; [done..|].
    apply has_self.
Qed.

Lemma decode_heartbeat_bytes h :
  heartbeat_ok h ->
  roadcast_decode_heartbeat (heartbeat_bytes h) (zlen (heartbeat_bytes h)) = Ok h.
Proof.
  intros (? & ? & ? & ? & ? & ?).
  pose proof (has_self (heartbeat_bytes h)) as Hin. unfold heartbeat_bytes in Hin at 2.
  change [0; 0; 0] with ([0] ++ [0] ++ [0]) in Hin.
  split_has Hin. unfold roadcast_decode_heartbeat.
  change (zlen (heartbeat_bytes h)) with ROADCAST_HEARTBEAT_SIZE.
  rewrite Z.eqb_refl, reject_false. reads.
  destruct (Z.ltb_spec ROADCAST_SOURCE_STATE_DEGRADED (hb_source_state h)); [lia|].
  cbn [Z.eqb negb orb]. rewrite reject_false. reads.
  rewrite u32_id, !u64_id by done. by destruct h.
Qed.

Lemma decode_heartbeat_exact payload :
  bytes_ok payload ->
  decodes_exactly (roadcast_decode_heartbeat payload (zlen payload)) heartbeat_ok
    heartbeat_bytes payload.
Proof.
  intros Hb. apply decodes_exactly_intro.
  - unfold roadcast_decode_heartbeat, ROADCAST_HEARTBEAT_SIZE. no_ub.
  - intros h H. unfold roadcast_decode_heartbeat in H. inv_res. split_bools.
    reads_inv Hb. split; [|apply has_all; [|done]].
    + unfold heartbeat_ok. cbn. unfold is_u8 in *. by split_and!; try lia.
    + unfold heartbeat_bytes.
      cbn [hb_sample_sequence hb_change_sequence hb_dropped_batches hb_coalesced_samples
           hb_effective_hz_millihz hb_source_state].
      change [0; 0; 0] with ([0] ++ [0] ++ [0]). join_has.
  - intros h Hh ->. by apply decode_heartbeat_bytes.
Qed.

(** ** Batches *)

Lemma decode_frame_record_inv payload record f :
  bytes_ok payload -> decode_frame_record payload record = Ok f ->
  frame_ok f /\ has payload record (frame_bytes f).
Proof.
  intros Hb H. unfold decode_frame_record in H. inv_res. split_bools. reads_inv Hb.
  split.
  - unfold frame_ok, is_u8 in *. cbn. split_and!; try done; [lia|].
    by eapply has_bytes_ok.
  - unfold frame_bytes. cbn [can_id state data first_observed_ns last_change_ns].
    rewrite !has_app, ?zlen_be16, ?zlen_be64, ?zlen_one.
    match goal with H : zlen _ = 8 |- _ => rewrite H end. join_has.
Qed.

Lemma decode_signal_record_inv payload record u :
  bytes_ok payload -> decode_signal_record payload record = Ok u ->
  update_ok u /\ has payload record (signal_bytes u).
Proof.
  intros Hb H. unfold decode_signal_record in H. inv_res. split_bools. reads_inv Hb.
  split.
  - unfold update_ok, value_ok, is_u8 in *. cbn. split_and!; try done; lia.
  - unfold signal_bytes.
    cbn [upd_index upd_value sig_state calibrated raw physical sig_first_observed_ns
         sig_last_change_ns].
    match goal with |- context [if ?c =? 0 then 0 else 1] =>
      replace (if c =? 0 then 0 else 1) with c
        by (unfold is_u8 in *; destruct (Z.eqb_spec c 0); lia) end.
    join_has.
Qed.

Lemma decode_frame_record_no_ub payload record :
  0 <= record -> record + ROADCAST_FRAME_WIRE_SIZE <= zlen payload ->
  no_ub (decode_frame_record payload record).
Proof.
  unfold ROADCAST_FRAME_WIRE_SIZE. intros H1 H2. unfold decode_frame_record. no_ub.
  apply no_ub_bind; [|intros ? _; no_ub].
  destruct (slice_no_ub payload (record + 4) 8) as (m & -> & _); [lia..|done].
Qed.

Lemma decode_signal_record_no_ub payload record :
  0 <= record -> record + ROADCAST_SIGNAL_WIRE_SIZE <= zlen payload ->
  no_ub (decode_signal_record payload record).
Proof.
  unfold ROADCAST_SIGNAL_WIRE_SIZE. intros H1 H2. unfold decode_signal_record, get_double.
  no_ub.
Qed.

(** The two bytes the decoders test for zero are the reserved field. *)
Lemma reserved_has payload off :
  has payload off [0] -> has payload (off + 1) [0] -> has payload off (be16 0).
Proof.
  intros H1 H2. change (be16 0) with ([0] ++ [0]). rewrite has_app. done.
Qed.

Lemma page_check_ok total start count :
  negb (start =? UINT32_MAX) && ((total <? start) || (total - start <? count)) = false ->
  page_ok total start count.
Proof.
  intros H. unfold page_ok. apply andb_false_iff in H as [H|H]; split_bools; [by left|].
  right. lia.
Qed.

(** The prefix and the records read from a payload are all of it. *)
Lemma batch_assemble {A} (item_bytes : A -> list Z) size payload seq total start
    (items : list A) :
  has payload 0 (be64 seq) -> has payload 8 (be32 total) -> has payload 12 (be32 start) ->
  has payload 16 (be16 (zlen items)) -> has payload 18 [0] -> has payload 19 [0] ->
  is_u16 (zlen items) ->
  ROADCAST_BATCH_PREFIX_SIZE + zlen items * size = zlen payload -> 0 <= size ->
  (forall k x, items !! k = Some x ->
     zlen (item_bytes x) = size
     /\ has payload (ROADCAST_BATCH_PREFIX_SIZE + Z.of_nat k * size) (item_bytes x)) ->
  payload = batch_prefix_bytes seq total start (zlen items) ++ concat (map item_bytes items).
Proof.
  intros H0 H8 H12 H16 H18 H19 Hu Hlen Hs Hrec.
  assert (Forall (fun r => zlen r = size) (map item_bytes items)) as Hsz.
  { apply Forall_map, Forall_lookup. intros k x Hk. by apply Hrec in Hk as [? _]. }
  apply has_all; cycle 1.
  { rewrite zlen_app, zlen_batch_prefix, (zlen_concat _ size), zlen_map; done. }
  rewrite has_app, zlen_batch_prefix. split.
  - unfold batch_prefix_bytes. rewrite u16_id by done.
    pose proof (reserved_has payload 18 H18 H19). join_has.
  - apply concat_has with size; [|done|].
    + pose proof (zlen_nonneg items). unfold ROADCAST_BATCH_PREFIX_SIZE in *. lia.
    + intros k r Hk. rewrite list_lookup_fmap in Hk.
      destruct (items !! k) as [x|] eqn:Hx; [|done]. cbn in Hk. injection Hk as <-.
      by apply Hrec.
Qed.

Lemma decode_frame_batch_exact payload cap :
  bytes_ok payload ->
  decodes_exactly (roadcast_decode_frame_batch payload (zlen payload) cap)
    (fun b => batch_ok frame_ok b /\ zlen (batch_items b) <= cap) frame_batch_bytes payload.
Proof.
  intros Hb. apply decodes_exactly_intro.
  - unfold roadcast_decode_frame_batch, ROADCAST_BATCH_PREFIX_SIZE, ROADCAST_FRAME_WIRE_SIZE.
    no_ub. apply no_ub_bind; [|intros ? _; no_ub].
    apply loop_no_ub with (I := fun _ _ => True); [done|].
    intros j t Hj _. split; [|done].
    apply no_ub_bind; [|intros ? _; no_ub].
    match goal with H : get_u16 payload 16 = Ok ?c |- _ =>
      pose proof (proj2 (get_u16_inv _ _ _ Hb H)) end. unfold is_u16 in *.
    apply decode_frame_record_no_ub; unfold ROADCAST_FRAME_WIRE_SIZE; lia.
  - intros b H. unfold roadcast_decode_frame_batch in H. inv_res.
    match goal with H : context [loop] |- _ => apply (loop_collect_inv (fun i => _)) in H
      as (items & -> & Hlen & Hitems) end.
    match goal with H : _ && _ = false |- _ => apply page_check_ok in H end.
    match goal with H : (_ / _ <? _) = false |- _ => clear H end.
    split_bools. reads_inv Hb. cbn [app] in *.
    assert (Hrec : forall k x, items !! k = Some x ->
      frame_ok x /\ has payload (ROADCAST_BATCH_PREFIX_SIZE + Z.of_nat k * ROADCAST_FRAME_WIRE_SIZE)
                      (frame_bytes x)).
    { intros k x Hk. by apply decode_frame_record_inv, Hitems. }
    match goal with H : is_u16 ?c |- _ =>
      assert (c = zlen items) as -> by (unfold zlen, is_u16 in *; lia) end.
    split; [split; [|done]|].
    + unfold batch_ok. cbn. unfold is_u16, UINT16_MAX in *.
      split_and!; try done; [lia|]. apply Forall_lookup. intros k x Hk. apply (Hrec k x Hk).
    + unfold frame_batch_bytes.
      cbn [batch_sample_sequence batch_total_count batch_start_index batch_items].
      apply (batch_assemble frame_bytes ROADCAST_FRAME_WIRE_SIZE); try assumption; [by vm_compute|].
      intros k x Hk. apply Hrec in Hk as [(? & ? & ? & _) ?].
      split; [by apply zlen_frame_bytes|done].
  - intros b [Hok Hc] ->. rewrite (decode_frame_batch_has _ _ _ b Hok (has_self _) eq_refl).
    destruct (Z.ltb_spec cap (zlen (batch_items b))); [lia|done].
Qed.

Lemma decode_signal_batch_exact payload cap :
  bytes_ok payload ->
  decodes_exactly (roadcast_decode_signal_batch payload (zlen payload) cap)
    (fun b => batch_ok update_ok b /\ zlen (batch_items b) <= cap) signal_batch_bytes payload.
Proof.
  intros Hb. apply decodes_exactly_intro.
  - unfold roadcast_decode_signal_batch, ROADCAST_BATCH_PREFIX_SIZE, ROADCAST_SIGNAL_WIRE_SIZE.
    no_ub. apply no_ub_bind; [|intros ? _; no_ub].
    apply loop_no_ub with (I := fun _ _ => True); [done|].
    intros j t Hj _. split; [|done].
    apply no_ub_bind; [|intros ? _; no_ub].
    match goal with H : get_u16 payload 16 = Ok ?c |- _ =>
      pose proof (proj2 (get_u16_inv _ _ _ Hb H)) end. unfold is_u16 in *.
    apply decode_signal_record_no_ub; unfold ROADCAST_SIGNAL_WIRE_SIZE; lia.
  - intros b H. unfold roadcast_decode_signal_batch in H. inv_res.
    match goal with H : context [loop] |- _ => apply (loop_collect_inv (fun i => _)) in H
      as (items & -> & Hlen & Hitems) end.
    match goal with H : _ && _ = false |- _ => apply page_check_ok in H end.
    match goal with H : (_ / _ <? _) = false |- _ => clear H end.
    split_bools. reads_inv Hb. cbn [app] in *.
    assert (Hrec : forall k x, items !! k = Some x ->
      update_ok x /\ has payload (ROADCAST_BATCH_PREFIX_SIZE + Z.of_nat k * ROADCAST_SIGNAL_WIRE_SIZE)
                      (signal_bytes x)).
    { intros k x Hk. by apply decode_signal_record_inv, Hitems. }
    match goal with H : is_u16 ?c |- _ =>
      assert (c = zlen items) as -> by (unfold zlen, is_u16 in *; lia) end.
    split; [split; [|done]|].
    + unfold batch_ok. cbn. unfold is_u16, UINT16_MAX in *.
      split_and!; try done; [lia|]. apply Forall_lookup. intros k x Hk. apply (Hrec k x Hk).
    + unfold signal_batch_bytes.
      cbn [batch_sample_sequence batch_total_count batch_start_index batch_items].
      apply (batch_assemble signal_bytes ROADCAST_SIGNAL_WIRE_SIZE); try assumption; [by vm_compute|].
      intros k x Hk. apply Hrec in Hk as [_ ?]. done.
  - intros b [Hok Hc] ->. rewrite (decode_signal_batch_has _ _ _ b Hok (has_self _) eq_refl).
    destruct (Z.ltb_spec cap (zlen (batch_items b))); [lia|done].
Qed.

(** ** Schema chunks *)

Definition schema_entry_bytes (e : roadcast_schema_entry_t) : list Z :=
  be64 (stable_id e) ++ be32 (index e) ++ be32 (invalid_signal_index e)
    ++ be16 (entry_can_id e) ++ [kind e] ++ [source e] ++ [width e] ++ [entry_flags e]
    ++ be16 (zlen (name e)) ++ be16 (zlen (unit_ e)) ++ be16 0
    ++ be64 (scale e) ++ be64 (offset e) ++ name e ++ unit_ e.

Definition schema_chunk_bytes (c : schema_chunk_t) : list Z :=
  be32 (chunk_schema_version c) ++ be32 (chunk_total_count c)
    ++ be32 (chunk_start_index c) ++ be32 (zlen (chunk_entries c))
    ++ be64 (chunk_schema_hash c) ++ concat (map schema_entry_bytes (chunk_entries c)).

(** The [i]-th entry of a chunk that the decoder accepts. *)
Definition schema_entry_ok (total_count start_index i : Z) (e : roadcast_schema_entry_t)
  : Prop :=
  is_u64 (stable_id e) /\ index e = u32 (start_index + i)
  /\ is_u32 (invalid_signal_index e)
  /\ (invalid_signal_index e < total_count \/ invalid_signal_index e = UINT32_MAX)
  /\ is_u16 (entry_can_id e) /\ kind e = ROADCAST_ITEM_CAN_SIGNAL
  /\ source e = ROADCAST_SOURCE_RAW_CAN /\ 0 < width e <= 64 /\ is_u8 (entry_flags e)
  /\ is_u64 (scale e) /\ is_u64 (offset e)
  /\ bytes_ok (name e) /\ zlen (name e) <= ROADCAST_SCHEMA_NAME_MAX
  /\ bytes_ok (unit_ e) /\ zlen (unit_ e) <= ROADCAST_SCHEMA_UNIT_MAX.

Definition schema_chunk_ok (c : schema_chunk_t) : Prop :=
  is_u32 (chunk_schema_version c) /\ is_u32 (chunk_total_count c)
  /\ is_u32 (chunk_start_index c) /\ is_u64 (chunk_schema_hash c)
  /\ chunk_start_index c <= chunk_total_count c
  /\ zlen (chunk_entries c) <= chunk_total_count c - chunk_start_index c
  /\ forall k e, chunk_entries c !! k = Some e ->
       schema_entry_ok (chunk_total_count c) (chunk_start_index c) (Z.of_nat k) e.

Lemma zlen_schema_entry_bytes e :
  zlen (schema_entry_bytes e)
  = ROADCAST_SCHEMA_ENTRY_FIXED_SIZE + zlen (name e) + zlen (unit_ e).
Proof.
  unfold schema_entry_bytes, ROADCAST_SCHEMA_ENTRY_FIXED_SIZE.
  rewrite !zlen_app, ?zlen_be16, ?zlen_be32, ?zlen_be64, ?zlen_one. lia.
Qed.

Section SchemaEntry.
Context (payload : list Z) (total_count start_index : Z).
Context (Hb : bytes_ok payload) (Hlen : zlen payload < 2 ^ 64).

Lemma decode_schema_entry_no_ub i off :
  0 <= off <= zlen payload ->
  no_ub (decode_schema_entry payload (zlen payload) total_count start_index i off).
Proof.
  intros Ho. unfold decode_schema_entry, get_double.
  rewrite (sz_id (zlen payload - off)) by lia. apply no_ub_reject. intros G. split_bools.
  unfold ROADCAST_SCHEMA_ENTRY_FIXED_SIZE in *. rewrite sz_id by lia.
  apply no_ub_bind; [read_no_ub|intros nl Hnl].
  apply no_ub_bind; [read_no_ub|intros ul Hul].
  apply (get_u16_inv _ _ _ Hb) in Hnl as [_ Hnl], Hul as [_ Hul]. unfold is_u16 in *.
  no_ub.
  destruct (slice_no_ub payload (off + 44) nl) as (m & -> & _); [lia..|].
  destruct (slice_no_ub payload (off + 44 + nl) ul) as (m' & -> & _); [lia..|].
  rewrite !bind_ok. no_ub.
Qed.

Lemma decode_schema_entry_inv i off e off' :
  0 <= off <= zlen payload ->
  decode_schema_entry payload (zlen payload) total_count start_index i off = Ok (e, off') ->
  schema_entry_ok total_count start_index i e
  /\ has payload off (schema_entry_bytes e)
  /\ off' = off + zlen (schema_entry_bytes e) /\ off' <= zlen payload.
Proof.
  intros Ho H. unfold decode_schema_entry in H.
  rewrite (sz_id (zlen payload - off)) in H by lia.
  inv_res. rename G0 into Gidx. split_bools.
  unfold ROADCAST_SCHEMA_ENTRY_FIXED_SIZE in *. rewrite sz_id in * by lia.
  reads_inv Hb. rewrite zlen_schema_entry_bytes. cbn [name unit_].
  split_and!; [| |done|lia].
  - unfold schema_entry_ok, is_u8 in *. cbn.
    match goal with H : _ && _ = false |- _ => apply andb_false_iff in H; rename H into Hinv end.
    split_and!; try done; try lia; try (by eapply has_bytes_ok).
  - unfold schema_entry_bytes.
    cbn [stable_id index invalid_signal_index entry_can_id kind source width entry_flags
         scale offset name unit_]. join_has.
Qed.

Lemma decode_schema_entry_has i off e :
  schema_entry_ok total_count start_index i e ->
  has payload off (schema_entry_bytes e) ->
  decode_schema_entry payload (zlen payload) total_count start_index i off
  = Ok (e, off + zlen (schema_entry_bytes e)).
Proof.
  intros (? & Hidx & ? & Hinv & ? & Hk & Hs & Hw & ? & ? & ? & ? & Hn & ? & Hu) Hin.
  assert (off + zlen (schema_entry_bytes e) <= zlen payload /\ 0 <= off) as [Hend Hoff0].
  { destruct Hin as (p & r & -> & <-). rewrite !zlen_app.
    pose proof (zlen_nonneg p). pose proof (zlen_nonneg r). lia. }
  rewrite zlen_schema_entry_bytes in *. unfold ROADCAST_SCHEMA_ENTRY_FIXED_SIZE in *.
  pose proof (zlen_nonneg (name e)). pose proof (zlen_nonneg (unit_ e)).
  unfold ROADCAST_SCHEMA_NAME_MAX, ROADCAST_SCHEMA_UNIT_MAX in *.
  unfold schema_entry_bytes in Hin. split_has Hin.
  unfold decode_schema_entry, ROADCAST_SCHEMA_ENTRY_FIXED_SIZE.
  rewrite !sz_id by lia.
  destruct (Z.ltb_spec (zlen payload - off) 44); [lia|]. rewrite reject_false. reads.
  rewrite !(u16_id (zlen _)) by (unfold is_u16; lia). rewrite (u16_id 0) by done.
  unfold ROADCAST_SCHEMA_NAME_MAX, ROADCAST_SCHEMA_UNIT_MAX.
  destruct (Z.ltb_spec 63 (zlen (name e))); [lia|].
  destruct (Z.ltb_spec 15 (zlen (unit_ e))); [lia|].
  destruct (Z.ltb_spec (zlen payload - off - 44) (zlen (name e) + zlen (unit_ e))); [lia|].
  cbn [Z.eqb negb orb]. rewrite reject_false. reads.
  rewrite !u64_id, (u32_id (index e)), (u32_id (invalid_signal_index e)), u16_id
    by (done || (rewrite Hidx; apply u32_range)).
  rewrite Hidx, Hk, Hs, !Z.eqb_refl. cbn [negb orb].
  destruct (Z.eqb_spec (width e) 0); [lia|]. destruct (Z.ltb_spec 64 (width e)); [lia|].
  replace ((total_count <=? invalid_signal_index e)
           && negb (invalid_signal_index e =? UINT32_MAX)) with false by lia.
  cbn [orb]. rewrite reject_false. unfold mret, res_ret. rewrite <- Hidx.
  destruct e; cbn in *. subst. done.
Qed.
End SchemaEntry.

(** The entry loop, run forwards on encoded entries and inverted. *)
Section SchemaEntries.
Context (payload : list Z) (total_count start_index : Z).
Context (Hb : bytes_ok payload) (Hlen : zlen payload < 2 ^ 64).

Let body (i : Z) '(entries, off) : res (list roadcast_schema_entry_t * Z) :=
  '(entry, off) ← decode_schema_entry payload (zlen payload) total_count
                    start_index i off;
  mret (entries ++ [entry], off).

Lemma schema_entries_inv n : forall i acc off out off',
  0 <= off <= zlen payload ->
  loop n i body (acc, off) = Ok (out, off') ->
  exists es, out = acc ++ es /\ length es = n
    /\ has payload off (concat (map schema_entry_bytes es))
    /\ off' = off + zlen (concat (map schema_entry_bytes es)) /\ off' <= zlen payload
    /\ forall k e, es !! k = Some e ->
         schema_entry_ok total_count start_index (i + Z.of_nat k) e.
Proof.
  induction n as [|n IH]; intros i acc off out off' Ho H; cbn [loop] in H.
  { inv_res. exists []. rewrite app_nil_r. cbn [map concat].
    change (zlen (@nil Z)) with 0. split_and!; try done; try lia.
    exists (take (Z.to_nat off') payload), (drop (Z.to_nat off') payload).
    split; [by rewrite app_nil_l, take_drop|]. unfold zlen in *. rewrite length_take. lia. }
  inv_res. destruct a as [acc' off1]. unfold body in E. inv_res. destruct a as [e off2].
  inv_res.
  apply decode_schema_entry_inv in E0 as (Hok & Hhas & Hoff & Hend); [|done..].
  pose proof (zlen_nonneg (schema_entry_bytes e)).
  apply IH in H as (es & -> & Hn & Hh & -> & Hl & Hes); [|lia].
  exists (e :: es). cbn [map concat]. rewrite has_app, zlen_app, <- (assoc_L (++)), <- Hoff.
  split_and!; try done; try lia; [cbn; lia|].
  intros [|k] e' Hk; cbn in Hk.
  - injection Hk as <-. by replace (i + Z.of_nat 0) with i by lia.
  - replace (i + Z.of_nat (S k)) with (i + 1 + Z.of_nat k) by lia. by apply Hes.
Qed.

Lemma schema_entries_has es : forall i acc off,
  has payload off (concat (map schema_entry_bytes es)) ->
  (forall k e, es !! k = Some e ->
     schema_entry_ok total_count start_index (i + Z.of_nat k) e) ->
  loop (length es) i body (acc, off)
  = Ok (acc ++ es, off + zlen (concat (map schema_entry_bytes es))).
Proof.
  induction es as [|e es IH]; intros i acc off Hin Hes; cbn [loop length].
  { cbn. rewrite app_nil_r. do 2 f_equal. change (zlen []) with 0. lia. }
  cbn [map concat] in *. rewrite has_app in Hin. destruct Hin as [H1 H2].
  pose proof (Hes 0%nat e eq_refl) as He.
  replace (i + Z.of_nat 0) with i in He by lia.
  assert (body i (acc, off) = Ok (acc ++ [e], off + zlen (schema_entry_bytes e))) as ->
    by (unfold body; by rewrite (decode_schema_entry_has _ _ _ Hb Hlen i off e He H1)).
  rewrite bind_ok, IH, <- (assoc_L (++)), zlen_app, Z.add_assoc; [done|done|].
  intros k e' Hk. replace (i + 1 + Z.of_nat k) with (i + Z.of_nat (S k)) by lia.
  by apply Hes.
Qed.

Lemma schema_entries_no_ub n : forall i acc off,
  0 <= off <= zlen payload -> no_ub (loop n i body (acc, off)).
Proof.
  intros i acc off Ho.
  apply loop_no_ub with (I := fun _ s => 0 <= s.2 <= zlen payload); [done|].
  intros j [acc' off'] _ Hs. cbn in Hs. split.
  - apply no_ub_bind; [by apply decode_schema_entry_no_ub|].
    intros [e o] _. done.
  - intros [acc2 off2] H2. unfold body in H2. inv_res. destruct a as [e o]. inv_res.
    apply decode_schema_entry_inv in E as (_ & _ & -> & ?); [|done..].
    pose proof (zlen_nonneg (schema_entry_bytes e)). cbn [snd]. lia.
Qed.
End SchemaEntries.

Lemma zlen_schema_chunk_bytes c :
  zlen (schema_chunk_bytes c)
  = ROADCAST_SCHEMA_CHUNK_PREFIX_SIZE + zlen (concat (map schema_entry_bytes (chunk_entries c))).
Proof.
  unfold schema_chunk_bytes, ROADCAST_SCHEMA_CHUNK_PREFIX_SIZE.
  rewrite !zlen_app, ?zlen_be32, ?zlen_be64. lia.
Qed.

Lemma schema_chunk_bytes_ok c : schema_chunk_ok c -> bytes_ok (schema_chunk_bytes c).
Proof.
  intros (_ & _ & _ & _ & _ & _ & Hes). unfold bytes_ok, schema_chunk_bytes.
  rewrite !Forall_app. split_and!; try apply be32_u8; try apply be64_u8.
  apply Forall_concat, Forall_map, Forall_lookup_2. intros k e Hk.
  destruct (Hes k e Hk) as (? & ? & ? & ? & ? & Hk1 & Hk2 & ? & ? & ? & ? & ? & ? & ? & ?).
  unfold schema_entry_bytes. rewrite Hk1, Hk2, !Forall_app, !Forall_singleton.
  split_and!; try apply be16_u8; try apply be32_u8; try apply be64_u8; try done;
    unfold is_u8 in *; unfold ROADCAST_ITEM_CAN_SIGNAL, ROADCAST_SOURCE_RAW_CAN; lia.
Qed.

Lemma decode_schema_chunk_bytes c cap :
  schema_chunk_ok c -> zlen (chunk_entries c) <= cap -> zlen (schema_chunk_bytes c) < 2 ^ 64 ->
  roadcast_decode_schema_chunk (schema_chunk_bytes c) (zlen (schema_chunk_bytes c)) cap = Ok c.
Proof.
  intros Hok Hcap Hlen. pose proof (schema_chunk_bytes_ok c Hok) as Hb.
  destruct Hok as (? & ? & ? & ? & ? & Hc & Hes).
  pose proof (has_self (schema_chunk_bytes c)) as Hin. unfold schema_chunk_bytes in Hin at 2.
  split_has Hin. set (payload := schema_chunk_bytes c) in *.
  assert (zlen payload = 24 + zlen (concat (map schema_entry_bytes (chunk_entries c)))) as Hl.
  { apply zlen_schema_chunk_bytes. }
  pose proof (zlen_nonneg (concat (map schema_entry_bytes (chunk_entries c)))).
  pose proof (zlen_nonneg (chunk_entries c)).
  assert (is_u32 (zlen (chunk_entries c))) by (unfold is_u32 in *; lia).
  unfold roadcast_decode_schema_chunk, ROADCAST_SCHEMA_CHUNK_PREFIX_SIZE.
  destruct (Z.ltb_spec (zlen payload) 24); [lia|]. rewrite reject_false. reads.
  rewrite !u32_id, !u64_id by done.
  destruct (Z.ltb_spec cap (zlen (chunk_entries c))); [lia|].
  destruct (Z.ltb_spec (chunk_total_count c) (chunk_start_index c)); [lia|].
  destruct (Z.ltb_spec (chunk_total_count c - chunk_start_index c) (zlen (chunk_entries c))); [lia|].
  cbn [orb]. rewrite reject_false.
  replace (Z.to_nat (zlen (chunk_entries c))) with (length (chunk_entries c))
    by (unfold zlen; lia).
  rewrite schema_entries_has; [|done|done|done|done].
  cbn [mbind res_bind app]. rewrite <- Hl, Z.eqb_refl. by destruct c.
Qed.

Lemma decode_schema_chunk_exact payload cap :
  bytes_ok payload -> zlen payload < 2 ^ 64 ->
  decodes_exactly (roadcast_decode_schema_chunk payload (zlen payload) cap)
    (fun c => schema_chunk_ok c /\ zlen (chunk_entries c) <= cap) schema_chunk_bytes payload.
Proof.
  intros Hb Hlen. apply decodes_exactly_intro.
  - unfold roadcast_decode_schema_chunk, ROADCAST_SCHEMA_CHUNK_PREFIX_SIZE. no_ub.
    apply no_ub_bind; [apply schema_entries_no_ub; [done..|lia]|].
    intros [es off] _. no_ub.
  - intros c H. unfold roadcast_decode_schema_chunk in H. inv_res.
    match goal with x : _ * Z |- _ => destruct x as [es off] end. inv_res. split_bools.
    unfold ROADCAST_SCHEMA_CHUNK_PREFIX_SIZE in *.
    match goal with H : context [loop] |- _ =>
      apply schema_entries_inv in H as (es' & -> & Hn & Hh & Hoff & Hend & Hes); [|done..|lia] end.
    reads_inv Hb. cbn [app] in *.
    match goal with H : length es' = Z.to_nat ?n |- _ =>
      assert (n = zlen es') as -> by (unfold zlen, is_u32 in *; lia) end.
    split; [split; [|done]|].
    + unfold schema_chunk_ok. cbn. split_and!; done.
    + unfold schema_chunk_bytes.
      cbn [chunk_schema_version chunk_total_count chunk_start_index chunk_schema_hash chunk_entries].
      apply has_all; [join_has|].
      rewrite !zlen_app, ?zlen_be32, ?zlen_be64. lia.
  - intros c [Hok Hcap] ->. by apply decode_schema_chunk_bytes.
Qed.

(** ** Properties of the protocol codec *)

(** C22: every decoder of protocol.c, run on a payload of any content and any
    length, reads only inside the payload, accepts exactly the byte strings that
    encode a well-formed value, and returns that value. *)
Theorem decoders_exact (payload : list Z) (cap : Z) :
  bytes_ok payload -> zlen payload < 2 ^ 64 ->
  (zlen payload = ROADCAST_HEADER_SIZE ->
   decodes_exactly (roadcast_decode_header payload)
     (fun h => header_ok h /\ payload_bytes h <= ROADCAST_MAX_PAYLOAD) header_bytes payload)
  /\ decodes_exactly (roadcast_decode_hello payload (zlen payload)) hello_ok hello_bytes payload
  /\ decodes_exactly (roadcast_decode_welcome payload (zlen payload))
       welcome_ok welcome_bytes payload
  /\ decodes_exactly (roadcast_decode_index_request payload (zlen payload)) is_u32 be32 payload
  /\ decodes_exactly (roadcast_decode_heartbeat payload (zlen payload))
       heartbeat_ok heartbeat_bytes payload
  /\ decodes_exactly (roadcast_decode_frame_batch payload (zlen payload) cap)
       (fun b => batch_ok frame_ok b /\ zlen (batch_items b) <= cap) frame_batch_bytes payload
  /\ decodes_exactly (roadcast_decode_signal_batch payload (zlen payload) cap)
       (fun b => batch_ok update_ok b /\ zlen (batch_items b) <= cap) signal_batch_bytes payload
  /\ decodes_exactly (roadcast_decode_schema_chunk payload (zlen payload) cap)
       (fun c => schema_chunk_ok c /\ zlen (chunk_entries c) <= cap) schema_chunk_bytes payload.
Proof.
  intros Hb Hl. split_and!.
  - by apply decode_header_exact.
  - by apply decode_hello_exact.
  - by apply decode_welcome_exact.
  - by apply decode_index_request_exact.
  - by apply decode_heartbeat_exact.
  - by apply decode_frame_batch_exact.
  - by apply decode_signal_batch_exact.
  - by apply decode_schema_chunk_exact.
Qed.

Lemma decoders_exact_witness :
  match roadcast_decode_index_request [0; 0; 1; 2] 4 with
  | Ok i => i = 258
  | _ => False
  end.
Proof.
  destruct (decoders_exact [0; 0; 1; 2] 10) as (_ & _ & _ & H & _).
  - repeat constructor; vm_compute; discriminate || reflexivity.
  - vm_compute. reflexivity.
  - revert H. vm_compute. intros _. reflexivity.
Defined.

(** C36: a batch of raw frames, all of them or those an index list selects,
    encoded into a buffer with room for it and decoded again is the batch that
    was encoded; without room the encoder refuses. *)
Theorem frame_batch_roundtrip out cap frames indices (b : batch_t roadcast_frame_t) fcap :
  batch_ok frame_ok b -> selects_frames frames indices (batch_items b) ->
  cap <= zlen out -> zlen (batch_items b) <= fcap ->
  match roadcast_encode_frame_batch out cap (batch_sample_sequence b) (batch_total_count b)
          (batch_start_index b) frames indices (zlen (batch_items b)) with
  | Ok (n, out') =>
      n = ROADCAST_BATCH_PREFIX_SIZE + zlen (batch_items b) * ROADCAST_FRAME_WIRE_SIZE
      /\ n <= cap /\ zlen out' = zlen out /\ roadcast_decode_frame_batch out' n fcap = Ok b
  | Fail => cap < ROADCAST_BATCH_PREFIX_SIZE + zlen (batch_items b) * ROADCAST_FRAME_WIRE_SIZE
  | UB => False
  end.
Proof.
  intros Hb Hsel Hcap Hf. pose proof Hb as (_ & _ & _ & Hn & _ & Hok).
  assert (Hd : Forall (fun f => zlen (data f) = 8) (batch_items b))
    by (revert Hok; apply Forall_impl; by intros f (_ & _ & ? & _)).
  rewrite encode_frame_batch_blit by done. rewrite <- zlen_frame_batch by done. cbn zeta.
  destruct (Z.ltb_spec cap (zlen (frame_batch_bytes b))); [lia|].
  rewrite blit_start by lia. cbv beta iota delta [mbind res_bind mret res_ret].
  split_and!; try done.
  - unfold zlen in *. rewrite length_app, length_drop. lia.
  - rewrite (decode_frame_batch_has _ _ _ b) by (done || by eapply has_prefix).
    by destruct (Z.ltb_spec fcap (zlen (batch_items b))); [lia|].
Qed.

Definition zero_bytes_frame : roadcast_frame_t := mk_frame 0x85 0 (repeat 0 8) 0 0.

Definition demo_frame : roadcast_frame_t :=
  mk_frame 0x123 ROADCAST_OBSERVATION_VALID [1; 2; 3; 4; 5; 6; 7; 255] 10 20.

Lemma frame_batch_roundtrip_witness :
  match roadcast_encode_frame_batch (repeat 0 64) 64 7 111 UINT32_MAX
          [zero_bytes_frame; demo_frame] (Some [1]) 1 with
  | Ok (n, out') => n = 48 /\ roadcast_decode_frame_batch out' n 1
                             = Ok (mk_batch 7 111 UINT32_MAX [demo_frame])
  | _ => False
  end.
Proof.
  pose proof (frame_batch_roundtrip (repeat 0 64) 64 [zero_bytes_frame; demo_frame] (Some [1])
    (mk_batch 7 111 UINT32_MAX [demo_frame]) 1) as H.
  assert (Hok : batch_ok frame_ok (mk_batch 7 111 UINT32_MAX [demo_frame])).
  { unfold batch_ok, page_ok, frame_ok, bytes_ok. concrete. }
  assert (Hs : selects_frames [zero_bytes_frame; demo_frame] (Some [1]) [demo_frame]).
  { intros [|[|k]] f Hk; cbn in Hk; [|done..]. by injection Hk as <-. }
  specialize (H Hok Hs ltac:(done) ltac:(done)). revert H. vm_compute. tauto.
Defined.

(** The same for decoded signals: state, raw and physical value, timestamps
    and catalog index all survive the wire. *)
Theorem signal_batch_roundtrip out cap signals indices
    (b : batch_t roadcast_signal_update_t) ucap :
  batch_ok update_ok b -> selects_signals signals indices (batch_items b) ->
  cap <= zlen out -> zlen (batch_items b) <= ucap ->
  match roadcast_encode_signal_batch out cap (batch_sample_sequence b) (batch_total_count b)
          (batch_start_index b) signals indices (zlen (batch_items b)) with
  | Ok (n, out') =>
      n = ROADCAST_BATCH_PREFIX_SIZE + zlen (batch_items b) * ROADCAST_SIGNAL_WIRE_SIZE
      /\ n <= cap /\ zlen out' = zlen out /\ roadcast_decode_signal_batch out' n ucap = Ok b
  | Fail => cap < ROADCAST_BATCH_PREFIX_SIZE + zlen (batch_items b) * ROADCAST_SIGNAL_WIRE_SIZE
  | UB => False
  end.
Proof.
  intros Hb Hsel Hcap Hf. pose proof Hb as (_ & _ & _ & Hn & _).
  rewrite encode_signal_batch_blit by done. rewrite <- zlen_signal_batch. cbn zeta.
  destruct (Z.ltb_spec cap (zlen (signal_batch_bytes b))); [lia|].
  rewrite blit_start by lia. cbv beta iota delta [mbind res_bind mret res_ret].
  split_and!; try done.
  - unfold zlen in *. rewrite length_app, length_drop. lia.
  - rewrite (decode_signal_batch_has _ _ _ b) by (done || by eapply has_prefix).
    by destruct (Z.ltb_spec ucap (zlen (batch_items b))); [lia|].
Qed.

Definition demo_value : roadcast_signal_value_t :=
  mk_value 300 0x4072c00000000000 10 20 ROADCAST_OBSERVATION_VALID 1.

Lemma signal_batch_roundtrip_witness :
  match roadcast_encode_signal_batch (repeat 0 64) 64 7 815 0 [demo_value] None 1 with
  | Ok (n, out') => n = 60 /\ roadcast_decode_signal_batch out' n 1
                             = Ok (mk_batch 7 815 0 [mk_update 0 demo_value])
  | _ => False
  end.
Proof.
  pose proof (signal_batch_roundtrip (repeat 0 64) 64 [demo_value] None
    (mk_batch 7 815 0 [mk_update 0 demo_value]) 1) as H.
  assert (Hok : batch_ok update_ok (mk_batch 7 815 0 [mk_update 0 demo_value])).
  { unfold batch_ok, page_ok, update_ok, value_ok. concrete. }
  assert (Hs : selects_signals [demo_value] None [mk_update 0 demo_value]).
  { intros [|[|k]] f Hk; cbn in Hk; [|done..]. by injection Hk as <-. }
  specialize (H Hok Hs ltac:(done) ltac:(done)). revert H. vm_compute. tauto.
Defined.
