(* ===== verification/CatalogDefs.v ===== *)
(** * Catalog data types: include/roadcast_catalog.h, include/roadcast_frames.h *)

From Stdlib Require Import String Ascii.
From S2P Require Import Prelude Double.

Definition ROADCAST_SCHEMA_VERSION : Z := 1.
Definition ROADCAST_STABLE_ID_NAMESPACE : string := "roadcast.can.signal.v1".
Definition ROADCAST_SIGNAL_COUNT : Z := 815.

Record roadcast_signal_part_t := mk_part {
  word : Z;
  part_offset : Z;
  bits : Z;
}.

Record roadcast_signal_definition_t := mk_def {
  def_stable_id : Z;
  def_name : string;
  def_unit : string;
  parts : list roadcast_signal_part_t;
  def_invalid_signal_index : Z;
  def_can_id : Z;
  frame_index : Z;
  part_count : Z;
  def_width : Z;
  is_signed : Z;
  def_calibrated : Z;
  def_scale : double;
  def_offset : double;
}.

(** The bytes of a C string literal, without its terminator. *)
Definition c_bytes (s : string) : list Z :=
  List.map (fun a => Z.of_N (N_of_ascii a)) (list_ascii_of_string s).

Definition ROADCAST_CAN_IDS : list Z := [
  0x085; 0x0A6; 0x0B7; 0x0BA; 0x0E0; 0x114; 0x122; 0x123; 0x124; 0x125; 0x128; 0x12F;
  0x139; 0x150; 0x160; 0x161; 0x162; 0x165; 0x169; 0x176; 0x178; 0x17A; 0x17B; 0x191;
  0x1A1; 0x1A2; 0x1A3; 0x1A5; 0x1A6; 0x1B0; 0x1E2; 0x1EB; 0x1F0; 0x1FB; 0x211; 0x212;
  0x214; 0x218; 0x220; 0x221; 0x225; 0x226; 0x250; 0x255; 0x260; 0x26D; 0x26F; 0x272;
  0x274; 0x27F; 0x281; 0x283; 0x284; 0x285; 0x286; 0x287; 0x288; 0x28B; 0x290; 0x292;
  0x294; 0x295; 0x297; 0x299; 0x29A; 0x29B; 0x29F; 0x2AB; 0x2B1; 0x2C1; 0x2C2; 0x2C3;
  0x2C4; 0x2C5; 0x2C6; 0x2C8; 0x2C9; 0x2CA; 0x2CD; 0x2D2; 0x2D8; 0x2DF; 0x2E0; 0x2E2;
  0x2E4; 0x2EA; 0x2F1; 0x2F2; 0x2F4; 0x2FC; 0x2FD; 0x2FE; 0x2FF; 0x315; 0x339; 0x354;
  0x359; 0x374; 0x380; 0x390; 0x392; 0x3A2; 0x3F0; 0x3F1; 0x3F6; 0x3F7; 0x3FD; 0x3FE;
  0x680; 0x7C1; 0x7DF
].

Definition ROADCAST_FRAME_COUNT : Z := zlen ROADCAST_CAN_IDS.

(** ** The catalog interface

    The tables a component is compiled with: the raw frames, the signals and the
    schema hash.  The components are written against this interface, with the
    laws the generator guarantees in [CatalogOk]; CatalogData.v supplies the
    generated tables and Catalog.v proves the laws for them. *)

Class Catalog := {
  CAN_IDS : list Z;
  SIGNALS : list roadcast_signal_definition_t;
  SCHEMA_HASH : Z;
}.

Definition FRAME_COUNT `{Catalog} : Z := zlen CAN_IDS.
Definition SIGNAL_COUNT `{Catalog} : Z := zlen SIGNALS.

(** A bit field that lies inside the eight bytes of a frame and inside one of
    its little-endian words. *)
Definition part_ok (p : roadcast_signal_part_t) : bool :=
  (0 <=? word p) && (word p <=? 4) && (0 <=? part_offset p)
  && (0 <? bits p) && (part_offset p + bits p <=? 32).

Definition parts_width (ps : list roadcast_signal_part_t) : Z :=
  fold_right (fun p n => bits p + n) 0 ps.

Definition definition_ok `{Catalog} (d : roadcast_signal_definition_t) : bool :=
  forallb part_ok (parts d)
  && (part_count d =? zlen (parts d)) && (part_count d <? 2 ^ 8)
  && (def_width d =? parts_width (parts d)) && (0 <? def_width d) && (def_width d <=? 64)
  && (0 <=? def_stable_id d) && (def_stable_id d <? 2 ^ 64)
  && (0 <=? def_can_id d) && (def_can_id d <? 2 ^ 16)
  && (0 <=? frame_index d)
  && match CAN_IDS !! Z.to_nat (frame_index d) with
     | Some id => id =? def_can_id d
     | None => false
     end
  && (0 <=? def_calibrated d) && (def_calibrated d <=? 1)
  && (0 <=? def_scale d) && (def_scale d <? 2 ^ 64)
  && (0 <=? def_offset d) && (def_offset d <? 2 ^ 64)
  && (zlen (c_bytes (def_name d)) <=? 63) && (zlen (c_bytes (def_unit d)) <=? 15)
  && (if def_invalid_signal_index d =? UINT32_MAX then true
      else (0 <=? def_invalid_signal_index d)
           && match SIGNALS !! Z.to_nat (def_invalid_signal_index d) with
              | Some i => frame_index i =? frame_index d
              | None => false
              end).

(** The laws of a catalog.  Every validity flag lives in the frame of the
    signals it guards ([definition_ok]). *)
Class CatalogOk (C : Catalog) : Prop := {
  catalog_definitions : forallb definition_ok SIGNALS = true;
  catalog_can_ids : forallb (fun id => (0 <=? id) && (id <? 2 ^ 16)) CAN_IDS = true;
  catalog_can_ids_distinct : NoDup CAN_IDS;
  catalog_frames_bound : FRAME_COUNT <= UINT16_MAX;
  catalog_signals_bound : SIGNAL_COUNT <= UINT16_MAX;
  catalog_nonempty : 0 < FRAME_COUNT /\ 0 < SIGNAL_COUNT;
  catalog_hash : is_u64 SCHEMA_HASH;
}.
