(* ===== verification/CatalogData.v ===== *)
(** * The generated catalog: src/catalog_generated.c

    The 815 signal definitions of [ROADCAST_SIGNALS] and their bit layouts, in
    the order and with the literals of the generated C tables: [SIGNAL_PARTS k]
    is the array [SIGNAL_PARTS_k], and each row of a [ROADCAST_SIGNALS_n] block
    is one initializer (stable id, name, unit, parts, invalid signal index, CAN
    id, frame index, part count, width, signedness, calibration, scale and
    offset).  A decimal literal [a.b] of the C source is [dlit ab k], with [k]
    the number of its decimals. *)

From Stdlib Require Import String.
From S2P Require Import Prelude Double CatalogDefs.

#[local] Open Scope string_scope.
#[local] Open Scope Z_scope.

Definition SIGNAL_PARTS_block_0 : list (list roadcast_signal_part_t) := [
  [mk_part 0 31 1];
  [mk_part 0 30 1];
  [mk_part 0 24 1];
  [mk_part 0 16 8];
  [mk_part 0 8 8; mk_part 0 0 4];
  [mk_part 0 4 4; mk_part 4 24 8];
  [mk_part 4 21 3];
  [mk_part 4 18 3];
  [mk_part 4 16 2];
  [mk_part 4 8 8];
  [mk_part 4 6 2];
  [mk_part 4 4 2];
  [mk_part 4 2 2];
  [mk_part 4 0 1];
  [mk_part 0 31 1];
  [mk_part 0 30 1];
  [mk_part 0 29 1];
  [mk_part 0 28 1];
  [mk_part 0 26 2];
  [mk_part 0 25 1];
  [mk_part 0 24 1];
  [mk_part 0 20 4];
  [mk_part 0 19 1];
  [mk_part 0 18 1];
  [mk_part 0 16 2];
  [mk_part 0 13 3];
  [mk_part 0 12 1];
  [mk_part 0 11 1];
  [mk_part 0 10 1];
  [mk_part 0 9 1];
  [mk_part 0 8 1];
  [mk_part 0 3 5];
  [mk_part 0 2 1];
  [mk_part 0 1 1];
  [mk_part 4 27 5];
  [mk_part 4 26 1];
  [mk_part 4 25 1];
  [mk_part 4 24 1];
  [mk_part 4 22 2];
  [mk_part 4 15 1];
  [mk_part 4 14 1];
  [mk_part 4 10 4];
  [mk_part 4 9 1];
  [mk_part 4 3 5];
  [mk_part 4 1 2];
  [mk_part 4 0 1];
  [mk_part 0 30 2];
  [mk_part 0 24 3];
  [mk_part 0 22 2];
  [mk_part 0 21 1];
  [mk_part 0 20 1];
  [mk_part 0 18 2];
  [mk_part 0 16 2];
  [mk_part 0 9 2];
  [mk_part 0 8 1];
  [mk_part 0 3 1];
  [mk_part 0 0 3];
  [mk_part 4 29 1];
  [mk_part 4 28 1];
  [mk_part 4 24 2];
  [mk_part 4 22 1];
  [mk_part 4 21 1];
  [mk_part 4 19 2];
  [mk_part 4 18 1];
  [mk_part 4 17 1];
  [mk_part 4 16 1];
  [mk_part 4 13 3];
  [mk_part 4 12 1];
  [mk_part 4 7 1];
  [mk_part 4 5 2];
  [mk_part 4 4 1];
  [mk_part 4 1 1];
  [mk_part 4 0 1];
  [mk_part 0 28 1];
  [mk_part 0 16 8];
  [mk_part 0 8 8];
  [mk_part 0 6 1];
  [mk_part 0 2 4];
  [mk_part 4 31 1];
  [mk_part 4 24 5];
  [mk_part 4 16 8; mk_part 4 8 5];
  [mk_part 4 15 1];
  [mk_part 4 6 1];
  [mk_part 4 2 2];
  [mk_part 0 30 1];
  [mk_part 0 24 1];
  [mk_part 0 16 8; mk_part 0 8 5];
  [mk_part 0 15 1];
  [mk_part 0 13 1];
  [mk_part 0 5 2];
  [mk_part 0 3 2];
  [mk_part 0 2 1];
  [mk_part 0 1 1];
  [mk_part 4 22 1];
  [mk_part 4 19 2];
  [mk_part 4 11 1];
  [mk_part 0 25 1];
  [mk_part 0 14 2];
  [mk_part 0 12 2];
  [mk_part 0 11 1];
  [mk_part 0 10 1];
  [mk_part 0 8 2];
  [mk_part 0 6 2];
  [mk_part 0 3 3];
  [mk_part 4 20 4];
  [mk_part 4 17 1];
  [mk_part 4 16 1];
  [mk_part 4 15 1];
  [mk_part 4 8 7];
  [mk_part 4 7 1];
  [mk_part 4 6 1];
  [mk_part 4 3 3];
  [mk_part 4 0 3];
  [mk_part 0 29 1];
  [mk_part 0 28 1];
  [mk_part 0 27 1];
  [mk_part 0 25 2];
  [mk_part 0 24 1];
  [mk_part 0 12 4];
  [mk_part 0 10 2];
  [mk_part 0 9 1];
  [mk_part 0 7 1];
  [mk_part 0 6 1];
  [mk_part 0 3 3];
  [mk_part 0 0 3];
  [mk_part 4 30 2];
  [mk_part 4 28 2];
  [mk_part 4 26 2];
  [mk_part 4 24 2];
  [mk_part 4 16 8];
  [mk_part 4 8 8];
  [mk_part 4 0 8];
  [mk_part 0 31 1];
  [mk_part 0 30 1];
  [mk_part 0 29 1];
  [mk_part 0 28 1];
  [mk_part 0 26 2];
  [mk_part 0 25 1];
  [mk_part 0 24 1];
  [mk_part 0 23 1];
  [mk_part 0 22 1];
  [mk_part 0 21 1];
  [mk_part 0 20 1];
  [mk_part 0 17 1];
  [mk_part 0 16 1];
  [mk_part 0 15 1];
  [mk_part 0 12 2];
  [mk_part 0 10 1];
  [mk_part 0 9 1];
  [mk_part 0 8 1]
].

Definition SIGNAL_PARTS_block_1 : list (list roadcast_signal_part_t) := [
  [mk_part 4 10 2];
  [mk_part 4 9 1];
  [mk_part 0 31 1];
  [mk_part 0 24 7];
  [mk_part 0 23 1];
  [mk_part 0 22 1];
  [mk_part 0 19 3];
  [mk_part 0 17 2];
  [mk_part 0 16 1];
  [mk_part 0 15 1];
  [mk_part 0 8 7];
  [mk_part 0 7 1];
  [mk_part 0 6 1];
  [mk_part 0 3 3];
  [mk_part 0 1 2];
  [mk_part 0 0 1];
  [mk_part 4 31 1];
  [mk_part 4 30 1];
  [mk_part 4 28 2];
  [mk_part 4 26 2];
  [mk_part 4 25 1];
  [mk_part 4 20 2];
  [mk_part 4 15 1];
  [mk_part 4 9 4];
  [mk_part 4 6 2];
  [mk_part 0 31 1];
  [mk_part 0 24 7];
  [mk_part 0 23 1];
  [mk_part 0 22 1];
  [mk_part 0 19 3];
  [mk_part 0 17 2];
  [mk_part 0 16 1];
  [mk_part 0 15 1];
  [mk_part 0 8 7];
  [mk_part 0 7 1];
  [mk_part 0 6 1];
  [mk_part 0 3 3];
  [mk_part 0 1 2];
  [mk_part 0 0 1];
  [mk_part 4 31 1];
  [mk_part 4 30 1];
  [mk_part 4 28 2];
  [mk_part 4 26 2];
  [mk_part 0 30 2];
  [mk_part 0 28 1];
  [mk_part 0 27 1];
  [mk_part 0 26 1];
  [mk_part 0 25 1];
  [mk_part 0 24 1];
  [mk_part 0 22 2];
  [mk_part 0 20 1];
  [mk_part 0 19 1];
  [mk_part 0 18 1];
  [mk_part 0 14 2];
  [mk_part 0 12 1];
  [mk_part 0 11 1];
  [mk_part 0 10 1];
  [mk_part 0 6 2];
  [mk_part 0 5 1];
  [mk_part 0 4 1];
  [mk_part 0 3 1];
  [mk_part 0 2 1];
  [mk_part 0 0 2];
  [mk_part 4 30 2];
  [mk_part 4 22 2];
  [mk_part 4 12 1];
  [mk_part 4 8 2];
  [mk_part 0 24 8; mk_part 0 16 8];
  [mk_part 0 8 8];
  [mk_part 0 1 1];
  [mk_part 0 0 1];
  [mk_part 4 24 4];
  [mk_part 4 16 8];
  [mk_part 4 21 3];
  [mk_part 4 16 3];
  [mk_part 4 8 8];
  [mk_part 4 4 1];
  [mk_part 0 24 8; mk_part 0 16 8; mk_part 0 8 8];
  [mk_part 0 0 8; mk_part 4 24 4];
  [mk_part 4 16 8; mk_part 4 8 8];
  [mk_part 0 24 8];
  [mk_part 0 21 1];
  [mk_part 4 14 2];
  [mk_part 0 30 2];
  [mk_part 0 28 2];
  [mk_part 0 26 2];
  [mk_part 0 24 2];
  [mk_part 0 20 4];
  [mk_part 0 17 3];
  [mk_part 0 16 1];
  [mk_part 0 15 1];
  [mk_part 0 13 2];
  [mk_part 0 11 1];
  [mk_part 0 10 1];
  [mk_part 0 9 1];
  [mk_part 0 8 1];
  [mk_part 0 3 5];
  [mk_part 0 2 1];
  [mk_part 0 1 1];
  [mk_part 0 0 1];
  [mk_part 4 27 5];
  [mk_part 4 19 5];
  [mk_part 4 17 2];
  [mk_part 4 16 1];
  [mk_part 4 11 5; mk_part 4 0 4];
  [mk_part 4 10 1];
  [mk_part 4 8 2];
  [mk_part 4 7 1];
  [mk_part 4 4 3];
  [mk_part 0 29 3];
  [mk_part 0 26 3];
  [mk_part 0 25 1];
  [mk_part 0 24 1];
  [mk_part 0 21 3];
  [mk_part 0 19 2];
  [mk_part 0 16 3];
  [mk_part 0 13 3];
  [mk_part 0 8 3];
  [mk_part 0 5 3];
  [mk_part 0 0 3];
  [mk_part 4 29 3];
  [mk_part 4 24 3];
  [mk_part 4 21 3];
  [mk_part 4 18 3];
  [mk_part 4 13 3];
  [mk_part 4 10 3];
  [mk_part 0 24 8; mk_part 0 16 5];
  [mk_part 0 23 1];
  [mk_part 0 21 2];
  [mk_part 0 8 8; mk_part 0 0 5];
  [mk_part 0 7 1];
  [mk_part 0 5 2];
  [mk_part 4 12 4];
  [mk_part 4 11 1];
  [mk_part 4 10 1];
  [mk_part 4 9 1];
  [mk_part 4 0 8];
  [mk_part 0 24 8; mk_part 0 16 4];
  [mk_part 0 20 4; mk_part 0 8 8];
  [mk_part 0 0 8; mk_part 4 24 4];
  [mk_part 4 28 4; mk_part 4 16 8];
  [mk_part 4 15 1];
  [mk_part 4 14 1];
  [mk_part 4 13 1];
  [mk_part 4 12 1];
  [mk_part 4 8 4];
  [mk_part 4 0 8];
  [mk_part 0 23 1; mk_part 0 8 8];
  [mk_part 4 24 8; mk_part 4 16 1];
  [mk_part 0 31 1]
].

Definition SIGNAL_PARTS_block_2 : list (list roadcast_signal_part_t) := [
  [mk_part 0 29 2];
  [mk_part 0 28 1];
  [mk_part 0 27 1];
  [mk_part 0 26 1];
  [mk_part 0 25 1];
  [mk_part 0 24 1];
  [mk_part 0 7 1];
  [mk_part 4 29 1];
  [mk_part 0 18 1];
  [mk_part 0 10 3];
  [mk_part 0 4 4];
  [mk_part 4 30 2];
  [mk_part 0 27 1];
  [mk_part 0 26 1];
  [mk_part 0 25 1];
  [mk_part 0 16 8; mk_part 0 8 1];
  [mk_part 0 0 8; mk_part 4 24 1];
  [mk_part 0 29 3];
  [mk_part 0 26 2];
  [mk_part 0 24 2];
  [mk_part 0 16 8];
  [mk_part 0 8 3];
  [mk_part 0 6 2];
  [mk_part 0 5 1];
  [mk_part 0 3 2];
  [mk_part 4 9 3];
  [mk_part 4 8 1];
  [mk_part 0 30 2];
  [mk_part 0 28 2];
  [mk_part 0 26 2];
  [mk_part 0 24 2];
  [mk_part 0 22 2];
  [mk_part 0 20 2];
  [mk_part 0 19 1];
  [mk_part 0 18 1];
  [mk_part 0 14 2];
  [mk_part 0 12 2];
  [mk_part 0 10 2];
  [mk_part 0 9 1];
  [mk_part 0 31 1];
  [mk_part 0 27 3];
  [mk_part 0 0 2];
  [mk_part 4 22 2];
  [mk_part 4 19 3];
  [mk_part 4 14 2];
  [mk_part 0 16 1];
  [mk_part 0 12 4];
  [mk_part 0 9 3];
  [mk_part 0 5 3];
  [mk_part 4 27 5];
  [mk_part 0 27 4];
  [mk_part 0 24 3];
  [mk_part 0 21 3];
  [mk_part 0 9 1];
  [mk_part 0 8 1];
  [mk_part 0 29 3];
  [mk_part 0 24 3];
  [mk_part 0 13 3];
  [mk_part 0 8 3];
  [mk_part 0 3 2];
  [mk_part 4 29 3];
  [mk_part 4 14 2];
  [mk_part 4 12 2];
  [mk_part 4 7 1];
  [mk_part 0 31 1];
  [mk_part 0 30 1];
  [mk_part 0 29 1];
  [mk_part 0 25 2];
  [mk_part 0 23 1];
  [mk_part 0 16 4];
  [mk_part 0 8 8];
  [mk_part 0 0 8];
  [mk_part 0 15 1];
  [mk_part 0 31 1; mk_part 0 16 8; mk_part 0 8 8];
  [mk_part 0 30 1];
  [mk_part 0 26 4];
  [mk_part 0 0 8; mk_part 4 24 8];
  [mk_part 0 31 1; mk_part 0 16 8; mk_part 0 8 8];
  [mk_part 0 27 4];
  [mk_part 0 26 1];
  [mk_part 0 0 8; mk_part 4 24 8];
  [mk_part 4 16 8];
  [mk_part 0 24 8; mk_part 0 16 4];
  [mk_part 0 21 1];
  [mk_part 0 8 8];
  [mk_part 4 30 2];
  [mk_part 4 22 2];
  [mk_part 4 21 1];
  [mk_part 4 16 4];
  [mk_part 4 15 1];
  [mk_part 4 14 1];
  [mk_part 4 26 6; mk_part 4 16 4];
  [mk_part 0 24 8; mk_part 0 16 2];
  [mk_part 0 22 2];
  [mk_part 0 21 1];
  [mk_part 0 18 3];
  [mk_part 0 8 8; mk_part 0 0 4];
  [mk_part 4 24 8];
  [mk_part 4 16 8; mk_part 4 8 4];
  [mk_part 0 24 8; mk_part 0 16 4];
  [mk_part 0 20 4; mk_part 0 8 8];
  [mk_part 0 0 8];
  [mk_part 4 24 8];
  [mk_part 4 16 8; mk_part 4 8 3];
  [mk_part 4 11 1];
  [mk_part 0 31 1];
  [mk_part 0 24 7];
  [mk_part 0 28 4];
  [mk_part 0 26 2];
  [mk_part 0 24 2];
  [mk_part 4 16 2];
  [mk_part 4 9 3];
  [mk_part 0 24 8; mk_part 0 16 6];
  [mk_part 0 22 2; mk_part 0 8 8];
  [mk_part 4 19 5];
  [mk_part 4 14 2];
  [mk_part 4 8 2];
  [mk_part 4 4 4];
  [mk_part 4 3 1];
  [mk_part 4 2 1];
  [mk_part 4 18 6; mk_part 4 8 8];
  [mk_part 4 28 4; mk_part 4 16 7];
  [mk_part 4 23 1];
  [mk_part 0 24 8; mk_part 0 16 2];
  [mk_part 0 22 2];
  [mk_part 0 20 2];
  [mk_part 0 16 8; mk_part 0 8 4];
  [mk_part 0 12 2];
  [mk_part 4 24 8; mk_part 4 16 2];
  [mk_part 4 19 5; mk_part 4 8 8];
  [mk_part 0 16 8; mk_part 0 8 5];
  [mk_part 0 14 2];
  [mk_part 0 11 1];
  [mk_part 0 8 3];
  [mk_part 0 4 1];
  [mk_part 0 0 1];
  [mk_part 4 19 3];
  [mk_part 4 10 1];
  [mk_part 0 30 2];
  [mk_part 0 28 2];
  [mk_part 0 26 2];
  [mk_part 0 16 4];
  [mk_part 0 13 3];
  [mk_part 0 10 3];
  [mk_part 4 18 3];
  [mk_part 0 26 2];
  [mk_part 0 23 1];
  [mk_part 0 22 1];
  [mk_part 0 21 1];
  [mk_part 0 16 4]
].

Definition SIGNAL_PARTS_block_3 : list (list roadcast_signal_part_t) := [
  [mk_part 0 12 1];
  [mk_part 0 11 1];
  [mk_part 0 9 1];
  [mk_part 0 8 1];
  [mk_part 0 6 1];
  [mk_part 0 4 2];
  [mk_part 0 2 2];
  [mk_part 0 1 1];
  [mk_part 4 24 8; mk_part 4 16 3];
  [mk_part 4 12 4];
  [mk_part 4 11 1];
  [mk_part 4 10 1];
  [mk_part 4 0 8];
  [mk_part 0 19 5];
  [mk_part 0 1 2];
  [mk_part 4 24 7];
  [mk_part 0 30 2];
  [mk_part 0 27 3];
  [mk_part 0 24 1];
  [mk_part 0 30 1];
  [mk_part 0 26 1];
  [mk_part 0 13 1];
  [mk_part 4 30 2];
  [mk_part 4 10 2];
  [mk_part 4 31 1];
  [mk_part 4 25 3];
  [mk_part 4 24 1];
  [mk_part 0 14 1];
  [mk_part 0 5 1];
  [mk_part 4 9 1];
  [mk_part 4 7 1];
  [mk_part 4 6 1];
  [mk_part 4 5 1];
  [mk_part 4 4 1];
  [mk_part 4 3 1];
  [mk_part 4 2 1];
  [mk_part 4 1 1];
  [mk_part 4 0 1];
  [mk_part 0 30 2];
  [mk_part 0 28 2];
  [mk_part 0 26 2];
  [mk_part 0 24 2];
  [mk_part 0 22 2];
  [mk_part 0 20 2];
  [mk_part 0 19 1];
  [mk_part 0 16 3];
  [mk_part 0 24 8];
  [mk_part 0 23 1];
  [mk_part 0 21 2];
  [mk_part 0 13 3];
  [mk_part 0 7 1];
  [mk_part 0 25 7];
  [mk_part 0 23 1];
  [mk_part 0 22 1];
  [mk_part 0 19 1];
  [mk_part 0 16 3];
  [mk_part 0 19 2];
  [mk_part 0 15 1];
  [mk_part 0 14 1];
  [mk_part 0 11 3];
  [mk_part 0 8 3];
  [mk_part 4 27 5; mk_part 4 16 8];
  [mk_part 4 24 4];
  [mk_part 0 24 8];
  [mk_part 0 16 8];
  [mk_part 0 8 8];
  [mk_part 0 0 8];
  [mk_part 4 24 8];
  [mk_part 4 16 8];
  [mk_part 4 8 8];
  [mk_part 4 0 8];
  [mk_part 0 24 8];
  [mk_part 0 16 8];
  [mk_part 0 8 8];
  [mk_part 0 0 8];
  [mk_part 4 24 8];
  [mk_part 4 16 8];
  [mk_part 4 8 8];
  [mk_part 4 0 8];
  [mk_part 0 24 8];
  [mk_part 0 16 8];
  [mk_part 0 8 8];
  [mk_part 0 0 8];
  [mk_part 4 24 8];
  [mk_part 4 16 8];
  [mk_part 4 8 8];
  [mk_part 4 6 2];
  [mk_part 0 24 8; mk_part 0 16 4];
  [mk_part 0 26 6];
  [mk_part 0 18 6];
  [mk_part 0 11 5];
  [mk_part 0 10 1];
  [mk_part 0 3 5];
  [mk_part 4 28 4];
  [mk_part 4 18 6];
  [mk_part 0 29 3];
  [mk_part 0 28 1];
  [mk_part 0 27 1];
  [mk_part 0 26 1];
  [mk_part 0 25 1];
  [mk_part 0 24 1];
  [mk_part 0 23 1];
  [mk_part 0 22 1];
  [mk_part 0 21 1];
  [mk_part 0 20 1];
  [mk_part 0 19 1];
  [mk_part 0 18 1];
  [mk_part 0 17 1];
  [mk_part 0 16 1];
  [mk_part 0 15 1];
  [mk_part 0 14 1];
  [mk_part 0 13 1];
  [mk_part 0 11 2];
  [mk_part 0 9 2];
  [mk_part 0 6 2];
  [mk_part 0 4 2];
  [mk_part 0 2 2];
  [mk_part 0 0 2];
  [mk_part 4 30 2];
  [mk_part 4 28 2];
  [mk_part 4 23 1];
  [mk_part 4 22 1];
  [mk_part 4 21 1];
  [mk_part 4 20 1];
  [mk_part 4 19 1];
  [mk_part 4 18 1];
  [mk_part 4 17 1];
  [mk_part 4 16 1];
  [mk_part 4 14 2];
  [mk_part 4 12 2];
  [mk_part 4 10 2];
  [mk_part 4 8 2];
  [mk_part 0 8 8; mk_part 0 0 3];
  [mk_part 0 31 1];
  [mk_part 0 30 1];
  [mk_part 0 29 1];
  [mk_part 0 28 1];
  [mk_part 0 27 1];
  [mk_part 0 26 1];
  [mk_part 0 24 2];
  [mk_part 0 17 1];
  [mk_part 0 16 1];
  [mk_part 4 12 4];
  [mk_part 4 8 4];
  [mk_part 4 4 4];
  [mk_part 4 0 4];
  [mk_part 0 11 1];
  [mk_part 4 16 1];
  [mk_part 4 14 1];
  [mk_part 4 10 1]
].

Definition SIGNAL_PARTS_block_4 : list (list roadcast_signal_part_t) := [
  [mk_part 0 16 8; mk_part 0 8 2];
  [mk_part 0 22 2];
  [mk_part 0 14 2];
  [mk_part 0 0 5];
  [mk_part 4 24 5];
  [mk_part 4 16 5];
  [mk_part 0 24 8];
  [mk_part 0 16 8];
  [mk_part 0 8 8];
  [mk_part 0 0 8];
  [mk_part 4 30 2];
  [mk_part 4 28 2];
  [mk_part 4 26 2];
  [mk_part 4 24 2];
  [mk_part 4 22 2];
  [mk_part 4 20 2];
  [mk_part 4 18 2];
  [mk_part 4 16 2];
  [mk_part 4 8 2];
  [mk_part 0 31 1];
  [mk_part 0 30 1];
  [mk_part 0 29 1];
  [mk_part 0 24 2];
  [mk_part 0 22 2];
  [mk_part 0 18 3];
  [mk_part 0 17 1];
  [mk_part 0 16 1];
  [mk_part 0 15 1];
  [mk_part 0 14 1];
  [mk_part 0 13 1];
  [mk_part 0 10 3];
  [mk_part 0 8 2];
  [mk_part 0 4 4];
  [mk_part 0 2 2];
  [mk_part 4 28 4];
  [mk_part 4 19 5];
  [mk_part 4 17 2];
  [mk_part 4 16 1];
  [mk_part 4 11 5];
  [mk_part 4 9 2];
  [mk_part 4 6 2];
  [mk_part 4 4 2];
  [mk_part 4 2 2];
  [mk_part 4 0 2];
  [mk_part 0 25 1];
  [mk_part 0 20 2];
  [mk_part 0 19 1];
  [mk_part 0 31 1];
  [mk_part 0 30 1];
  [mk_part 0 29 1];
  [mk_part 0 27 2];
  [mk_part 0 26 1];
  [mk_part 0 13 3];
  [mk_part 0 8 3];
  [mk_part 0 28 4];
  [mk_part 0 26 2];
  [mk_part 0 24 2];
  [mk_part 0 21 3];
  [mk_part 0 19 2];
  [mk_part 0 16 3];
  [mk_part 0 8 8; mk_part 0 0 4];
  [mk_part 0 6 2];
  [mk_part 0 4 2];
  [mk_part 4 27 5];
  [mk_part 4 24 3];
  [mk_part 4 20 4];
  [mk_part 4 19 1];
  [mk_part 4 16 3];
  [mk_part 4 10 6; mk_part 4 0 8];
  [mk_part 4 8 2];
  [mk_part 0 31 1];
  [mk_part 0 30 1];
  [mk_part 0 29 1];
  [mk_part 0 24 4];
  [mk_part 0 17 3];
  [mk_part 0 16 1];
  [mk_part 0 13 3];
  [mk_part 0 12 1];
  [mk_part 0 11 1];
  [mk_part 0 9 1];
  [mk_part 0 8 1];
  [mk_part 0 6 2];
  [mk_part 0 4 2];
  [mk_part 4 23 1];
  [mk_part 4 22 1];
  [mk_part 4 21 1];
  [mk_part 4 20 1];
  [mk_part 4 19 1];
  [mk_part 4 18 1];
  [mk_part 4 16 2];
  [mk_part 4 15 1];
  [mk_part 4 10 4];
  [mk_part 4 8 2];
  [mk_part 4 4 4];
  [mk_part 4 3 1];
  [mk_part 0 31 1];
  [mk_part 0 30 1];
  [mk_part 0 29 1];
  [mk_part 0 28 1];
  [mk_part 0 27 1];
  [mk_part 0 16 8; mk_part 0 8 8; mk_part 0 0 8; mk_part 4 24 8];
  [mk_part 0 24 8; mk_part 0 16 3];
  [mk_part 0 19 5; mk_part 0 8 5];
  [mk_part 0 13 3; mk_part 0 0 8];
  [mk_part 4 24 8; mk_part 4 16 3];
  [mk_part 4 19 5; mk_part 4 8 5];
  [mk_part 4 13 3; mk_part 4 0 7];
  [mk_part 0 24 8; mk_part 0 16 1];
  [mk_part 0 17 7; mk_part 0 8 4];
  [mk_part 0 12 4; mk_part 0 0 7];
  [mk_part 0 7 1; mk_part 4 24 8];
  [mk_part 4 16 8; mk_part 4 8 1];
  [mk_part 4 9 7; mk_part 4 0 4];
  [mk_part 4 4 1];
  [mk_part 0 24 2];
  [mk_part 0 16 7];
  [mk_part 0 29 3];
  [mk_part 0 25 3];
  [mk_part 0 24 1];
  [mk_part 0 20 4];
  [mk_part 0 16 4];
  [mk_part 0 13 3];
  [mk_part 0 8 5];
  [mk_part 0 5 3];
  [mk_part 0 2 3];
  [mk_part 0 0 2];
  [mk_part 4 28 4];
  [mk_part 4 26 2];
  [mk_part 4 25 1];
  [mk_part 4 20 4];
  [mk_part 4 18 2];
  [mk_part 4 8 3];
  [mk_part 0 26 1];
  [mk_part 0 25 1];
  [mk_part 0 24 1];
  [mk_part 4 14 2];
  [mk_part 4 12 2];
  [mk_part 0 14 2];
  [mk_part 0 0 2];
  [mk_part 4 12 4];
  [mk_part 4 0 8];
  [mk_part 0 31 1];
  [mk_part 0 30 1];
  [mk_part 0 29 1];
  [mk_part 0 28 1];
  [mk_part 0 27 1];
  [mk_part 0 26 1];
  [mk_part 0 25 1];
  [mk_part 0 24 1];
  [mk_part 0 23 1]
].

Definition SIGNAL_PARTS_block_5 : list (list roadcast_signal_part_t) := [
  [mk_part 0 22 1];
  [mk_part 0 12 1];
  [mk_part 4 8 8; mk_part 4 0 5];
  [mk_part 0 27 3];
  [mk_part 4 24 8; mk_part 4 16 2];
  [mk_part 4 18 6; mk_part 4 8 4];
  [mk_part 0 28 4];
  [mk_part 0 26 2];
  [mk_part 0 24 2];
  [mk_part 0 29 3];
  [mk_part 0 22 1];
  [mk_part 0 21 1];
  [mk_part 0 17 4];
  [mk_part 0 16 1];
  [mk_part 0 7 1];
  [mk_part 0 2 2];
  [mk_part 0 12 1];
  [mk_part 0 8 4];
  [mk_part 0 28 4];
  [mk_part 0 16 8; mk_part 0 8 1];
  [mk_part 0 9 7; mk_part 0 0 2];
  [mk_part 0 2 6; mk_part 4 24 8];
  [mk_part 4 11 1];
  [mk_part 0 31 1];
  [mk_part 0 30 1];
  [mk_part 0 27 5];
  [mk_part 0 24 3];
  [mk_part 0 19 5];
  [mk_part 0 17 2];
  [mk_part 0 16 1];
  [mk_part 0 13 3];
  [mk_part 0 8 1];
  [mk_part 0 6 2];
  [mk_part 0 3 3];
  [mk_part 0 0 3];
  [mk_part 4 30 1];
  [mk_part 4 17 7];
  [mk_part 4 16 1];
  [mk_part 4 12 4];
  [mk_part 4 0 8];
  [mk_part 4 31 1];
  [mk_part 0 30 2];
  [mk_part 0 28 1];
  [mk_part 0 26 2];
  [mk_part 4 4 4];
  [mk_part 4 26 1];
  [mk_part 0 5 1];
  [mk_part 0 1 1];
  [mk_part 4 14 2];
  [mk_part 0 24 8; mk_part 0 16 5];
  [mk_part 0 23 1];
  [mk_part 0 21 2];
  [mk_part 0 8 8; mk_part 0 0 5];
  [mk_part 0 7 1];
  [mk_part 0 5 2];
  [mk_part 4 12 4];
  [mk_part 4 0 8];
  [mk_part 0 6 1];
  [mk_part 0 5 1];
  [mk_part 0 20 4; mk_part 0 8 8];
  [mk_part 0 2 1];
  [mk_part 0 0 1];
  [mk_part 4 24 8];
  [mk_part 0 24 8; mk_part 0 16 8; mk_part 0 8 8; mk_part 0 0 8; mk_part 4 24 8; mk_part 4 16 8; mk_part 4 8 8; mk_part 4 0 8];
  [mk_part 0 24 8; mk_part 0 16 8; mk_part 0 8 8; mk_part 0 0 8; mk_part 4 24 8; mk_part 4 16 8; mk_part 4 8 8; mk_part 4 0 8]
].

Definition SIGNAL_PARTS_table : list (list roadcast_signal_part_t) :=
  SIGNAL_PARTS_block_0 ++ SIGNAL_PARTS_block_1 ++ SIGNAL_PARTS_block_2 ++ SIGNAL_PARTS_block_3 ++ SIGNAL_PARTS_block_4 ++ SIGNAL_PARTS_block_5.

Definition SIGNAL_PARTS (k : nat) : list roadcast_signal_part_t :=
  nth k SIGNAL_PARTS_table [].

Definition ROADCAST_CAN_SCHEMA_HASH : Z := 0x01f4aa2d759cf647.

Definition ROADCAST_SIGNALS_0 : list roadcast_signal_definition_t := [
  mk_def 0x35bcb28678e8e5b8 "AC_ACCompReq" "" (SIGNAL_PARTS 0) 4294967295
    0x2F1 86 1 1 0 1 (dlit 1 0) (dlit 0 0);
  mk_def 0x225f40cd316c8bd4 "AC_AmbientTemperatureInvalid" "" (SIGNAL_PARTS 1) 4294967295
    0x2F1 86 1 1 0 0 (dlit 1 0) (dlit 0 0);
  mk_def 0xf1a28fbe51d37442 "AC_InsideTemperatureInvalid" "" (SIGNAL_PARTS 2) 4294967295
    0x2F1 86 1 1 0 0 (dlit 1 0) (dlit 0 0);
  mk_def 0x16b577fc690d42d1 "AC_AmbientTemperature" "" (SIGNAL_PARTS 3) 1
    0x2F1 86 1 8 0 0 (dlit 1 0) (dlit 0 0);
  mk_def 0xbeb88bfebf6e5c11 "AC_PM25InDen" "" (SIGNAL_PARTS 4) 4294967295
    0x2F1 86 2 12 0 0 (dlit 1 0) (dlit 0 0);
  mk_def 0x47e0c637a5a25132 "AC_PM25OutDen" "" (SIGNAL_PARTS 5) 4294967295
    0x2F1 86 2 12 0 0 (dlit 1 0) (dlit 0 0);
  mk_def 0x684e482bc0c5bd39 "AC_AirInQLevel" "" (SIGNAL_PARTS 6) 4294967295
    0x2F1 86 1 3 0 0 (dlit 1 0) (dlit 0 0);
  mk_def 0x43f3fae5a0ab2614 "AC_AirOutQLevel" "" (SIGNAL_PARTS 7) 4294967295
    0x2F1 86 1 3 0 0 (dlit 1 0) (dlit 0 0);
  mk_def 0x8b7115e69c808a7f "AC_PM25Sts" "" (SIGNAL_PARTS 8) 4294967295
    0x2F1 86 1 2 0 0 (dlit 1 0) (dlit 0 0);
  mk_def 0xc73977972c3670f3 "AC_InsideTemperature" "" (SIGNAL_PARTS 9) 2
    0x2F1 86 1 8 0 0 (dlit 1 0) (dlit 0 0)
].

Definition ROADCAST_SIGNALS_1 : list roadcast_signal_definition_t := [
  mk_def 0x155edc354fe928ce "AC_ParkingClimateStatus" "" (SIGNAL_PARTS 10) 4294967295
    0x2F1 86 1 2 0 0 (dlit 1 0) (dlit 0 0);
  mk_def 0x2ec7d55fe5f32c5a "AC_ParkingClimateFailStatus" "" (SIGNAL_PARTS 11) 4294967295
    0x2F1 86 1 2 0 0 (dlit 1 0) (dlit 0 0);
  mk_def 0xff26e7f81d9c49bf "AC_PM25PopupReq" "" (SIGNAL_PARTS 12) 4294967295
    0x2F1 86 1 2 0 0 (dlit 1 0) (dlit 0 0);
  mk_def 0x7920719e96f5fb27 "AC_PTCHeatIndicator" "" (SIGNAL_PARTS 13) 4294967295
    0x2F1 86 1 1 0 0 (dlit 1 0) (dlit 0 0);
  mk_def 0xd6d89e98425f6ff8 "AC_AutoState" "" (SIGNAL_PARTS 14) 4294967295
    0x2F2 87 1 1 0 0 (dlit 1 0) (dlit 0 0);
  mk_def 0x9a7d39f2eef3b373 "AC_DisplayRequest" "" (SIGNAL_PARTS 15) 4294967295
    0x2F2 87 1 1 0 0 (dlit 1 0) (dlit 0 0);
  mk_def 0xf4d65686f031207f "AC_MaxAcState" "" (SIGNAL_PARTS 16) 4294967295
    0x2F2 87 1 1 0 0 (dlit 1 0) (dlit 0 0);
  mk_def 0x224cec993171ead3 "AC_FrontDefrostState" "" (SIGNAL_PARTS 17) 4294967295
    0x2F2 87 1 1 0 0 (dlit 1 0) (dlit 0 0);
  mk_def 0x026ad48f40d34e8d "AC_IntakeAirState" "" (SIGNAL_PARTS 18) 4294967295
    0x2F2 87 1 2 0 0 (dlit 1 0) (dlit 0 0);
  mk_def 0x2776e31f69951c90 "AC_AqsState" "" (SIGNAL_PARTS 19) 4294967295
    0x2F2 87 1 1 0 0 (dlit 1 0) (dlit 0 0)
].

Definition ROADCAST_SIGNALS_2 : list roadcast_signal_definition_t := [
  mk_def 0x747b2bb1e499503e "AC_RCPState" "" (SIGNAL_PARTS 20) 4294967295
    0x2F2 87 1 1 0 0 (dlit 1 0) (dlit 0 0);
  mk_def 0xd7aa5ae8917379fb "AC_BlowerLevel" "" (SIGNAL_PARTS 21) 4294967295
    0x2F2 87 1 4 0 1 (dlit 1 0) (dlit 0 0);
  mk_def 0x03d4f18b295d2b4c "AC_SYNCState" "" (SIGNAL_PARTS 22) 4294967295
    0x2F2 87 1 1 0 0 (dlit 1 0) (dlit 0 0);
  mk_def 0xa3800a6fed46c14b "AC_DualState" "" (SIGNAL_PARTS 23) 4294967295
    0x2F2 87 1 1 0 0 (dlit 1 0) (dlit 0 0);
  mk_def 0xe9ebc6f25c94e63b "AC_IONIZERState" "" (SIGNAL_PARTS 24) 4294967295
    0x2F2 87 1 2 0 0 (dlit 1 0) (dlit 0 0);
  mk_def 0x7b4cc8931d7889bd "AC_AirDistributionMode" "" (SIGNAL_PARTS 25) 4294967295
    0x2F2 87 1 3 0 0 (dlit 1 0) (dlit 0 0);
  mk_def 0xae131cd933b219e6 "AC_PressSoundReq" "" (SIGNAL_PARTS 26) 4294967295
    0x2F2 87 1 1 0 0 (dlit 1 0) (dlit 0 0);
  mk_def 0x1a2735c9ddc6e8fa "AC_OnState" "" (SIGNAL_PARTS 27) 4294967295
    0x2F2 87 1 1 0 1 (dlit 1 0) (dlit 0 0);
  mk_def 0xb9331b2976ccc189 "AC_SeatHeatDispReq" "" (SIGNAL_PARTS 28) 4294967295
    0x2F2 87 1 1 0 0 (dlit 1 0) (dlit 0 0);
  mk_def 0x543305caa777f162 "AC_RearKeyLockSts" "" (SIGNAL_PARTS 29) 4294967295
    0x2F2 87 1 1 0 0 (dlit 1 0) (dlit 0 0)
].

Definition ROADCAST_SIGNALS_3 : list roadcast_signal_definition_t := [
  mk_def 0xef39b91d5066e06a "AC_ThirdPanelState" "" (SIGNAL_PARTS 30) 4294967295
    0x2F2 87 1 1 0 0 (dlit 1 0) (dlit 0 0);
  mk_def 0xc56628076750c2b3 "AC_LeftSetTemperature" "degC" (SIGNAL_PARTS 31) 4294967295
    0x2F2 87 1 5 0 1 (dlit 5 1) (dlit 155 1);
  mk_def 0x4839fe0c6c9f6494 "AC_VentilaDryResp" "" (SIGNAL_PARTS 32) 4294967295
    0x2F2 87 1 1 0 0 (dlit 1 0) (dlit 0 0);
  mk_def 0x0b470a0c5db26253 "AC_AirCleanResp" "" (SIGNAL_PARTS 33) 4294967295
    0x2F2 87 1 1 0 0 (dlit 1 0) (dlit 0 0);
  mk_def 0x5e53bd83d14353c8 "AC_RightSetTemperature" "" (SIGNAL_PARTS 34) 4294967295
    0x2F2 87 1 5 0 0 (dlit 1 0) (dlit 0 0);
  mk_def 0xd218f27102bab692 "AC_ACSwToneSetSts" "" (SIGNAL_PARTS 35) 4294967295
    0x2F2 87 1 1 0 0 (dlit 1 0) (dlit 0 0);
  mk_def 0xf035ba9d22971484 "AC_RCPLockReminder" "" (SIGNAL_PARTS 36) 4294967295
    0x2F2 87 1 1 0 0 (dlit 1 0) (dlit 0 0);
  mk_def 0x9deed899fbe032b4 "AC_RemoteControlSt" "" (SIGNAL_PARTS 37) 4294967295
    0x2F2 87 1 1 0 0 (dlit 1 0) (dlit 0 0);
  mk_def 0x41e09e372d1853b5 "AC_ADSResponse" "" (SIGNAL_PARTS 38) 4294967295
    0x2F2 87 1 2 0 0 (dlit 1 0) (dlit 0 0);
  mk_def 0xd2c475a61291d626 "AC_DrvHeatSts" "" (SIGNAL_PARTS 39) 4294967295
    0x2F2 87 1 1 0 0 (dlit 1 0) (dlit 0 0)
].

Definition ROADCAST_SIGNALS_4 : list roadcast_signal_definition_t := [
  mk_def 0xa911457974bbffef "AC_PassHeatingSts" "" (SIGNAL_PARTS 40) 4294967295
    0x2F2 87 1 1 0 0 (dlit 1 0) (dlit 0 0);
  mk_def 0x6038b41d42e89821 "AC_KeyTouchst" "" (SIGNAL_PARTS 41) 4294967295
    0x2F2 87 1 4 0 0 (dlit 1 0) (dlit 0 0);
  mk_def 0x3978e482491a0c34 "AC_ECOClimateSts" "" (SIGNAL_PARTS 42) 4294967295
    0x2F2 87 1 1 0 0 (dlit 1 0) (dlit 0 0);
  mk_def 0x94a6d96b7c0c23c0 "AC_keystate" "" (SIGNAL_PARTS 43) 4294967295
    0x2F2 87 1 5 0 0 (dlit 1 0) (dlit 0 0);
  mk_def 0x7d7c00b6301928c6 "AC_ACComfortResp" "" (SIGNAL_PARTS 44) 4294967295
    0x2F2 87 1 2 0 0 (dlit 1 0) (dlit 0 0);
  mk_def 0x48587cd49c2174db "AC_CZISOpenResp" "" (SIGNAL_PARTS 45) 4294967295
    0x2F2 87 1 1 0 0 (dlit 1 0) (dlit 0 0);
  mk_def 0x22efa008db68fa14 "BCM_RearDefrosterSts" "" (SIGNAL_PARTS 46) 4294967295
    0x284 52 1 2 0 1 (dlit 1 0) (dlit 0 0);
  mk_def 0xf46968161c5bffcb "BCM_WiperSts" "" (SIGNAL_PARTS 47) 4294967295
    0x284 52 1 3 0 0 (dlit 1 0) (dlit 0 0);
  mk_def 0x05d323678b479f52 "BCM_HoodAjarStatus" "" (SIGNAL_PARTS 48) 4294967295
    0x284 52 1 2 0 0 (dlit 1 0) (dlit 0 0);
  mk_def 0xbdcaa03f970e3142 "BCM_TrunkAjarStatus" "" (SIGNAL_PARTS 49) 4294967295
    0x284 52 1 1 0 0 (dlit 1 0) (dlit 0 0)
].

Definition ROADCAST_SIGNALS_5 : list roadcast_signal_definition_t := [
  mk_def 0xfe40dcaa32be4e9b "BCM_RearDefrostSwitch" "" (SIGNAL_PARTS 50) 4294967295
    0x284 52 1 1 0 0 (dlit 1 0) (dlit 0 0);
  mk_def 0xe365810b044fb9ff "BCM_IGNOFFUnlockDoorSelectResp" "" (SIGNAL_PARTS 51) 4294967295
    0x284 52 1 2 0 0 (dlit 1 0) (dlit 0 0);
  mk_def 0x8dc450acc17cd38d "BCM_FollowMeHomeTimeSelectResp" "" (SIGNAL_PARTS 52) 4294967295
    0x284 52 1 2 0 0 (dlit 1 0) (dlit 0 0);
  mk_def 0x574c86d2f2ddfa83 "BCM_AutoCloseWindowSetResp" "" (SIGNAL_PARTS 53) 4294967295
    0x284 52 1 2 0 0 (dlit 1 0) (dlit 0 0);
  mk_def 0xee0f7174b5c38d56 "BCM_RKEUnlockSetResp" "" (SIGNAL_PARTS 54) 4294967295
    0x284 52 1 1 0 0 (dlit 1 0) (dlit 0 0);
  mk_def 0xc1c4713be06fe3cb "BCM_FlasherAnimControlSetResp" "" (SIGNAL_PARTS 55) 4294967295
    0x284 52 1 1 0 0 (dlit 1 0) (dlit 0 0);
  mk_def 0xad84530d74e0c2a1 "BCM_ATWS_St" "" (SIGNAL_PARTS 56) 4294967295
    0x284 52 1 3 0 0 (dlit 1 0) (dlit 0 0);
  mk_def 0x91f4f630e5b081a8 "BCM_VehicleSearchWarningSetResp" "" (SIGNAL_PARTS 57) 4294967295
    0x284 52 1 1 0 0 (dlit 1 0) (dlit 0 0);
  mk_def 0xd3ea10cc4181bd1d "BCM_FrontWiperIdleModeSetResp" "" (SIGNAL_PARTS 58) 4294967295
    0x284 52 1 1 0 0 (dlit 1 0) (dlit 0 0);
  mk_def 0x2f226ef6bc4745c6 "BCM_RLSModeSts" "" (SIGNAL_PARTS 59) 4294967295
    0x284 52 1 2 0 0 (dlit 1 0) (dlit 0 0)
].

Definition ROADCAST_SIGNALS_6 : list roadcast_signal_definition_t := [
  mk_def 0xfa954d5753b0fc14 "BCM_RearCurtainConnectReverseSetResp" "" (SIGNAL_PARTS 60) 4294967295
    0x284 52 1 1 0 0 (dlit 1 0) (dlit 0 0);
  mk_def 0x540830b390053601 "BCM_CornerLampSetResp" "" (SIGNAL_PARTS 61) 4294967295
    0x284 52 1 1 0 0 (dlit 1 0) (dlit 0 0);
  mk_def 0xad168dd42f5e9c37 "BCM_ATWarnTypeSetResp" "" (SIGNAL_PARTS 62) 4294967295
    0x284 52 1 2 0 0 (dlit 1 0) (dlit 0 0);
  mk_def 0xf8c3f001f955ad27 "BCM_DayRunLightSetResp" "" (SIGNAL_PARTS 63) 4294967295
    0x284 52 1 1 0 0 (dlit 1 0) (dlit 0 0);
  mk_def 0xfc59315a965a7cd5 "BCM_RearWiperAutoActiveAtReverseResp" "" (SIGNAL_PARTS 64) 4294967295
    0x284 52 1 1 0 0 (dlit 1 0) (dlit 0 0);
  mk_def 0xeb65e8459958ccef "BCM_ReverseGearInfo" "" (SIGNAL_PARTS 65) 4294967295
    0x284 52 1 1 0 0 (dlit 1 0) (dlit 0 0);
  mk_def 0xbbca6d7516ace770 "BCM_PowerMode" "" (SIGNAL_PARTS 66) 4294967295
    0x284 52 1 3 0 0 (dlit 1 0) (dlit 0 0);
  mk_def 0xc7e017c2d2de67c4 "BCM_ClutchPedalBottomPosSwitch" "" (SIGNAL_PARTS 67) 4294967295
    0x284 52 1 1 0 0 (dlit 1 0) (dlit 0 0);
  mk_def 0x9db8beeae69976c6 "BCM_WindowVentilateSetResp" "" (SIGNAL_PARTS 68) 4294967295
    0x284 52 1 1 0 0 (dlit 1 0) (dlit 0 0);
  mk_def 0x2a6f4dc22be8cecf "BCM_HeadLightDelaySetResp" "" (SIGNAL_PARTS 69) 4294967295
    0x284 52 1 2 0 0 (dlit 1 0) (dlit 0 0)
].

Definition ROADCAST_SIGNALS_7 : list roadcast_signal_definition_t := [
  mk_def 0xbe5fa5d4a2900f66 "BCM_RoofLightConnectLightSensorSetResp" "" (SIGNAL_PARTS 70) 4294967295
    0x284 52 1 1 0 0 (dlit 1 0) (dlit 0 0);
  mk_def 0xe8f8fda23997ac00 "BCM_SVC_ButtonPress" "" (SIGNAL_PARTS 71) 4294967295
    0x284 52 1 1 0 0 (dlit 1 0) (dlit 0 0);
  mk_def 0x086f477d3eeed0db "BCM_SunroofRollCloseSetResp" "" (SIGNAL_PARTS 72) 4294967295
    0x284 52 1 1 0 0 (dlit 1 0) (dlit 0 0);
  mk_def 0x911d8bcb63ffc42b "IPK_FuelLowLevelWarning" "" (SIGNAL_PARTS 73) 4294967295
    0x26D 45 1 1 0 0 (dlit 1 0) (dlit 0 0);
  mk_def 0x27d5c6fc6ae43adb "IPK_FuelLevelSts" "" (SIGNAL_PARTS 74) 4294967295
    0x26D 45 1 8 0 0 (dlit 1 0) (dlit 0 0);
  mk_def 0xa0078de50344e34b "IPK_AverageVehicleSpeed" "" (SIGNAL_PARTS 75) 4294967295
    0x26D 45 1 8 0 0 (dlit 1 0) (dlit 0 0);
  mk_def 0x3050f548c25e3e7f "IPK_MaintanceWarningSts" "" (SIGNAL_PARTS 76) 4294967295
    0x26D 45 1 1 0 0 (dlit 1 0) (dlit 0 0);
  mk_def 0xf8eb23506a5e481c "IPK_LanguageMode" "" (SIGNAL_PARTS 77) 4294967295
    0x26D 45 1 4 0 0 (dlit 1 0) (dlit 0 0);
  mk_def 0x086b7af3c3fa4628 "IPK_HUDSwitchStatus" "" (SIGNAL_PARTS 78) 4294967295
    0x26D 45 1 1 0 0 (dlit 1 0) (dlit 0 0);
  mk_def 0x1fb0f43494cba295 "IPK_Backlightadjust" "" (SIGNAL_PARTS 79) 4294967295
    0x26D 45 1 5 0 0 (dlit 1 0) (dlit 0 0)
].

Definition ROADCAST_SIGNALS_8 : list roadcast_signal_definition_t := [
  mk_def 0x9c12c1568786e769 "IPK_vDisplay" "" (SIGNAL_PARTS 80) 4294967295
    0x26D 45 2 13 0 0 (dlit 1 0) (dlit 0 0);
  mk_def 0xa2a3124890d36d88 "IPK_OilLowPressure" "" (SIGNAL_PARTS 81) 4294967295
    0x26D 45 1 1 0 0 (dlit 1 0) (dlit 0 0);
  mk_def 0xc8b75ef4e4b840d2 "IPK_NaviHomeSwitch" "" (SIGNAL_PARTS 82) 4294967295
    0x26D 45 1 1 0 0 (dlit 1 0) (dlit 0 0);
  mk_def 0x215f3139ac866446 "IPK_SWOccupy" "" (SIGNAL_PARTS 83) 4294967295
    0x26D 45 1 2 0 0 (dlit 1 0) (dlit 0 0);
  mk_def 0xc776ce80bb92fd14 "ESC_BrakePedalSwitchStatus" "" (SIGNAL_PARTS 84) 4294967295
    0x125 9 1 1 0 0 (dlit 1 0) (dlit 0 0);
  mk_def 0xa1b11e3e9b412b4c "ESC_ESPFailed" "" (SIGNAL_PARTS 85) 4294967295
    0x125 9 1 1 0 0 (dlit 1 0) (dlit 0 0);
  mk_def 0xcb230ca06ce15d68 "ESC_VehicleSpeed" "km/h" (SIGNAL_PARTS 86) 88
    0x125 9 2 13 0 1 (dlit 1 0) (dlit 0 0);
  mk_def 0xb8f2a2250c8c53f8 "ESC_PATAResponse" "" (SIGNAL_PARTS 87) 4294967295
    0x125 9 1 1 0 0 (dlit 1 0) (dlit 0 0);
  mk_def 0x3c159d3534ec5203 "ESC_VehicleSpeedInvalid" "" (SIGNAL_PARTS 88) 4294967295
    0x125 9 1 1 0 0 (dlit 1 0) (dlit 0 0);
  mk_def 0xf327440f018e5006 "ESC_AVHStatus" "" (SIGNAL_PARTS 89) 4294967295
    0x125 9 1 2 0 0 (dlit 1 0) (dlit 0 0)
].

Definition ROADCAST_SIGNALS_9 : list roadcast_signal_definition_t := [
  mk_def 0xe59caf4e4fb85ff2 "ESC_EPBStatus" "" (SIGNAL_PARTS 90) 4294967295
    0x125 9 1 2 0 0 (dlit 1 0) (dlit 0 0);
  mk_def 0x876c2529dbbc2c58 "ESC_EPBErrorStatus" "" (SIGNAL_PARTS 91) 4294967295
    0x125 9 1 1 0 0 (dlit 1 0) (dlit 0 0);
  mk_def 0x27478bea9b2d8781 "ESC_BrakePedalSwitchInvalid" "" (SIGNAL_PARTS 92) 4294967295
    0x125 9 1 1 0 0 (dlit 1 0) (dlit 0 0);
  mk_def 0x3c7b9abbf05fd95f "ESC_HHC_ErrorStatus" "" (SIGNAL_PARTS 93) 4294967295
    0x125 9 1 1 0 0 (dlit 1 0) (dlit 0 0);
  mk_def 0x9fa41f6f14d8778f "ESC_HDC_Active" "" (SIGNAL_PARTS 94) 4294967295
    0x125 9 1 2 0 0 (dlit 1 0) (dlit 0 0);
  mk_def 0x09cee238148660ec "ESC_HAZActive" "" (SIGNAL_PARTS 95) 4294967295
    0x125 9 1 1 0 0 (dlit 1 0) (dlit 0 0);
  mk_def 0xac296500a043b13f "BCM_DoorControlLight_Resp" "" (SIGNAL_PARTS 96) 4294967295
    0x287 55 1 1 0 0 (dlit 1 0) (dlit 0 0);
  mk_def 0x7f09a281d88f4fd4 "BCM_RoofControlStatus" "" (SIGNAL_PARTS 97) 4294967295
    0x287 55 1 2 0 0 (dlit 1 0) (dlit 0 0);
  mk_def 0xe2a7a54f45d2a6f6 "BCM_CurtainControlStatus" "" (SIGNAL_PARTS 98) 4294967295
    0x287 55 1 2 0 0 (dlit 1 0) (dlit 0 0);
  mk_def 0x7425dac06cf8e719 "BCM_CPDswback" "" (SIGNAL_PARTS 99) 4294967295
    0x287 55 1 1 0 0 (dlit 1 0) (dlit 0 0)
].

Definition ROADCAST_SIGNALS_10 : list roadcast_signal_definition_t := [
  mk_def 0xae7b0940d98601d8 "BCM_CPDsecswback" "" (SIGNAL_PARTS 100) 4294967295
    0x287 55 1 1 0 0 (dlit 1 0) (dlit 0 0);
  mk_def 0x16218d9135ace619 "BCM_WashingStsRespond" "" (SIGNAL_PARTS 101) 4294967295
    0x287 55 1 2 0 0 (dlit 1 0) (dlit 0 0);
  mk_def 0x2eff6cb086edcc22 "BCM_VehicleSpeedAutoLockSetResp" "" (SIGNAL_PARTS 102) 4294967295
    0x287 55 1 2 0 0 (dlit 1 0) (dlit 0 0);
  mk_def 0xcd57a060dafe2bcc "BCM_AnimLightTypeSetResp" "" (SIGNAL_PARTS 103) 4294967295
    0x287 55 1 3 0 0 (dlit 1 0) (dlit 0 0);
  mk_def 0xdb28d05acb92f073 "L_Sunroof_Operation_State" "" (SIGNAL_PARTS 104) 4294967295
    0x287 55 1 4 0 0 (dlit 1 0) (dlit 0 0);
  mk_def 0x63a43df4e06b13f7 "BCM_SceneModeState" "" (SIGNAL_PARTS 105) 4294967295
    0x287 55 1 1 0 0 (dlit 1 0) (dlit 0 0);
  mk_def 0x3c666b25c6698977 "BCM_AVM_ButtonPress" "" (SIGNAL_PARTS 106) 4294967295
    0x287 55 1 1 0 0 (dlit 1 0) (dlit 0 0);
  mk_def 0x190195997b52b574 "BCM_sunroof_valid" "" (SIGNAL_PARTS 107) 4294967295
    0x287 55 1 1 0 0 (dlit 1 0) (dlit 0 0);
  mk_def 0x690da8ff9485d635 "L_sunroof_Val_Opened" "" (SIGNAL_PARTS 108) 4294967295
    0x287 55 1 7 0 0 (dlit 1 0) (dlit 0 0);
  mk_def 0x2a0232b3a22a180a "L_sunroof_ap_event" "" (SIGNAL_PARTS 109) 4294967295
    0x287 55 1 1 0 0 (dlit 1 0) (dlit 0 0)
].

Definition ROADCAST_SIGNALS_11 : list roadcast_signal_definition_t := [
  mk_def 0xb9e2b87e1b81fdb4 "BCM_sunroof_Error" "" (SIGNAL_PARTS 110) 4294967295
    0x287 55 1 1 0 0 (dlit 1 0) (dlit 0 0);
  mk_def 0x74f8b32af60b6f15 "L_Rollo_Action_Status" "" (SIGNAL_PARTS 111) 4294967295
    0x287 55 1 3 0 0 (dlit 1 0) (dlit 0 0);
  mk_def 0x374cabacdafb983f "L_Sunroof_Position" "" (SIGNAL_PARTS 112) 4294967295
    0x287 55 1 3 0 0 (dlit 1 0) (dlit 0 0);
  mk_def 0x810acc4d72f9118f "DSCU_UserIDSavingPopUp" "" (SIGNAL_PARTS 113) 4294967295
    0x2D2 79 1 1 0 0 (dlit 1 0) (dlit 0 0);
  mk_def 0x438baff8f65fca37 "DSCU_SceneModeState" "" (SIGNAL_PARTS 114) 4294967295
    0x2D2 79 1 1 0 0 (dlit 1 0) (dlit 0 0);
  mk_def 0x2b26610b79710d07 "DSCU_SeatMemorySts" "" (SIGNAL_PARTS 115) 4294967295
    0x2D2 79 1 1 0 0 (dlit 1 0) (dlit 0 0);
  mk_def 0xb6d0e661597d1002 "DSCU_RearMirrorReverseInclineSts" "" (SIGNAL_PARTS 116) 4294967295
    0x2D2 79 1 2 0 0 (dlit 1 0) (dlit 0 0);
  mk_def 0x03e4d472f029f338 "DSCU_MmryScsIndReq" "" (SIGNAL_PARTS 117) 4294967295
    0x2D2 79 1 1 0 0 (dlit 1 0) (dlit 0 0);
  mk_def 0xe9bb8abe63911674 "DSCU_PosnSt" "" (SIGNAL_PARTS 118) 4294967295
    0x2D2 79 1 4 0 0 (dlit 1 0) (dlit 0 0);
  mk_def 0x8787062424a7e50d "DSCU_EasyAccessResp" "" (SIGNAL_PARTS 119) 4294967295
    0x2D2 79 1 2 0 0 (dlit 1 0) (dlit 0 0)
].

Definition ROADCAST_SIGNALS_12 : list roadcast_signal_definition_t := [
  mk_def 0xc202c917ebf7e430 "DSCU_MemorySet" "" (SIGNAL_PARTS 120) 4294967295
    0x2D2 79 1 1 0 0 (dlit 1 0) (dlit 0 0);
  mk_def 0x8be8f0b0744f209b "DSCU_DrvSeatAutoHeatResp" "" (SIGNAL_PARTS 121) 4294967295
    0x2D2 79 1 1 0 0 (dlit 1 0) (dlit 0 0);
  mk_def 0xcd739e45c9ac5c80 "DSCU_PassSeatAutoHeatResp" "" (SIGNAL_PARTS 122) 4294967295
    0x2D2 79 1 1 0 0 (dlit 1 0) (dlit 0 0);
  mk_def 0x984a9a3e8cd5f91d "DSCU_DrvSeatTimeHeatResp" "" (SIGNAL_PARTS 123) 4294967295
    0x2D2 79 1 3 0 0 (dlit 1 0) (dlit 0 0);
  mk_def 0xa3e2ec791c964982 "DSCU_PassSeatTimeHeatResp" "" (SIGNAL_PARTS 124) 4294967295
    0x2D2 79 1 3 0 0 (dlit 1 0) (dlit 0 0);
  mk_def 0x5c3ceb576b6d2c93 "DSCU_DrvSeatAutoHeatLevelResp" "" (SIGNAL_PARTS 125) 4294967295
    0x2D2 79 1 2 0 0 (dlit 1 0) (dlit 0 0);
  mk_def 0xc08087bceea0bd37 "DSCU_PassSeatAutoeHeatLevelResp" "" (SIGNAL_PARTS 126) 4294967295
    0x2D2 79 1 2 0 0 (dlit 1 0) (dlit 0 0);
  mk_def 0xad1463fb02bc41f9 "DSCU_UserIDPopUp" "" (SIGNAL_PARTS 127) 4294967295
    0x2D2 79 1 2 0 0 (dlit 1 0) (dlit 0 0);
  mk_def 0x88302e13331b19fb "DSCU_FaceIDPopUp" "" (SIGNAL_PARTS 128) 4294967295
    0x2D2 79 1 2 0 0 (dlit 1 0) (dlit 0 0);
  mk_def 0xb2af82bc08d8d127 "DSCU_DrvrSeatLenPosPerc" "" (SIGNAL_PARTS 129) 4294967295
    0x2D2 79 1 8 0 0 (dlit 1 0) (dlit 0 0)
].

Definition ROADCAST_SIGNALS_13 : list roadcast_signal_definition_t := [
  mk_def 0x7894851141f13e83 "DSCU_DrvrSeatBackrPosPerc" "" (SIGNAL_PARTS 130) 4294967295
    0x2D2 79 1 8 0 0 (dlit 1 0) (dlit 0 0);
  mk_def 0x2e13bcf53a248f54 "DSCU_DrvrSeatHeiPosPerc" "" (SIGNAL_PARTS 131) 4294967295
    0x2D2 79 1 8 0 0 (dlit 1 0) (dlit 0 0);
  mk_def 0x71f9bd0a55872e5a "BCM_TurnIndicatorLeft" "" (SIGNAL_PARTS 132) 4294967295
    0x1F0 32 1 1 0 0 (dlit 1 0) (dlit 0 0);
  mk_def 0x2033e4e038a69507 "BCM_GloveBoxSwReq" "" (SIGNAL_PARTS 133) 4294967295
    0x1F0 32 1 1 0 0 (dlit 1 0) (dlit 0 0);
  mk_def 0x017aa4f026425b5f "BCM_AntiPinchWarnSetResp" "" (SIGNAL_PARTS 134) 4294967295
    0x1F0 32 1 1 0 0 (dlit 1 0) (dlit 0 0);
  mk_def 0xeccfec4bd2feb847 "BCM_TurnIndicatorRight" "" (SIGNAL_PARTS 135) 4294967295
    0x1F0 32 1 1 0 0 (dlit 1 0) (dlit 0 0);
  mk_def 0x69e730d7c812d006 "BCM_TurnLeverSts" "" (SIGNAL_PARTS 136) 4294967295
    0x1F0 32 1 2 0 0 (dlit 1 0) (dlit 0 0);
  mk_def 0xbf37b2bfe6a1eb1e "BCM_HighBeamLeverSts" "" (SIGNAL_PARTS 137) 4294967295
    0x1F0 32 1 1 0 0 (dlit 1 0) (dlit 0 0);
  mk_def 0x601e4811b69bf93d "BCM_HighBeamRelayFailSts" "" (SIGNAL_PARTS 138) 4294967295
    0x1F0 32 1 1 0 0 (dlit 1 0) (dlit 0 0);
  mk_def 0xe3e913cf3203f1ea "BCM_LowBeamSts" "" (SIGNAL_PARTS 139) 4294967295
    0x1F0 32 1 1 0 0 (dlit 1 0) (dlit 0 0)
].

Definition ROADCAST_SIGNALS_14 : list roadcast_signal_definition_t := [
  mk_def 0x11c0f8bcd0faaf06 "BCM_AutoLightSts" "" (SIGNAL_PARTS 140) 4294967295
    0x1F0 32 1 1 0 0 (dlit 1 0) (dlit 0 0);
  mk_def 0x35da9fae134ad1de "BCM_HighBeamSts" "" (SIGNAL_PARTS 141) 4294967295
    0x1F0 32 1 1 0 0 (dlit 1 0) (dlit 0 0);
  mk_def 0x7ee75d2bedb94d22 "BCM_PositionLightSts" "" (SIGNAL_PARTS 142) 4294967295
    0x1F0 32 1 1 0 0 (dlit 1 0) (dlit 0 0);
  mk_def 0xa0c9afaa24c3cad4 "BCM_FrontFogLightSts" "" (SIGNAL_PARTS 143) 4294967295
    0x1F0 32 1 1 0 0 (dlit 1 0) (dlit 0 0);
  mk_def 0x56860abd547b2a35 "BCM_RearFogLightSts" "" (SIGNAL_PARTS 144) 4294967295
    0x1F0 32 1 1 0 0 (dlit 1 0) (dlit 0 0);
  mk_def 0x46a5c5ebc41893d3 "BCM_LightLeftOn" "" (SIGNAL_PARTS 145) 4294967295
    0x1F0 32 1 1 0 0 (dlit 1 0) (dlit 0 0);
  mk_def 0x9910131096972fd0 "BCM_FrontWinHeatSts" "" (SIGNAL_PARTS 146) 4294967295
    0x1F0 32 1 2 0 0 (dlit 1 0) (dlit 0 0);
  mk_def 0x834d034d2a34571b "BCM_GreatRainfallwarning" "" (SIGNAL_PARTS 147) 4294967295
    0x1F0 32 1 1 0 0 (dlit 1 0) (dlit 0 0);
  mk_def 0xaf7c7038ded68e90 "BCM_HeadlightOnwarning" "" (SIGNAL_PARTS 148) 4294967295
    0x1F0 32 1 1 0 0 (dlit 1 0) (dlit 0 0);
  mk_def 0x7a3119b6d8e35237 "BCM_HazardSts" "" (SIGNAL_PARTS 149) 4294967295
    0x1F0 32 1 1 0 0 (dlit 1 0) (dlit 0 0)
].

Definition ROADCAST_SIGNALS_15 : list roadcast_signal_definition_t := [
  mk_def 0x86548fa663ca6999 "BCM_SWHeatingSts" "" (SIGNAL_PARTS 150) 4294967295
    0x1F0 32 1 2 0 0 (dlit 1 0) (dlit 0 0);
  mk_def 0xda7e199cb5f993a2 "BCM_FwashheatStatus" "" (SIGNAL_PARTS 151) 4294967295
    0x1F0 32 1 1 0 0 (dlit 1 0) (dlit 0 0);
  mk_def 0x8634de65667aa831 "BCM_Drv_Wdw_valid" "" (SIGNAL_PARTS 152) 4294967295
    0x285 53 1 1 0 0 (dlit 1 0) (dlit 0 0);
  mk_def 0xde47fb779e308d58 "BCM_Drv_Val_Wdw_Opened" "" (SIGNAL_PARTS 153) 4294967295
    0x285 53 1 7 0 0 (dlit 1 0) (dlit 0 0);
  mk_def 0x6d39f929f516244d "BCM_Drv_Wdw_OD_Sts" "" (SIGNAL_PARTS 154) 4294967295
    0x285 53 1 1 0 0 (dlit 1 0) (dlit 0 0);
  mk_def 0xcde32629a55fa00f "BCM_Drv_Wdw_Obs_InhibitSts" "" (SIGNAL_PARTS 155) 4294967295
    0x285 53 1 1 0 0 (dlit 1 0) (dlit 0 0);
  mk_def 0x421ecd3ac46683e7 "BCM_Drv_Wdw_Running_Sts" "" (SIGNAL_PARTS 156) 4294967295
    0x285 53 1 3 0 0 (dlit 1 0) (dlit 0 0);
  mk_def 0xf7de5598e50e8b6a "BCM_Drv_Wdw_PositionSts" "" (SIGNAL_PARTS 157) 4294967295
    0x285 53 1 2 0 0 (dlit 1 0) (dlit 0 0);
  mk_def 0x685c1a151d5be711 "BCM_Drv_Wdw_Error" "" (SIGNAL_PARTS 158) 4294967295
    0x285 53 1 1 0 0 (dlit 1 0) (dlit 0 0);
  mk_def 0x084bf368ee9533c3 "BCM_RLD_Wdw_valid" "" (SIGNAL_PARTS 159) 4294967295
    0x285 53 1 1 0 0 (dlit 1 0) (dlit 0 0)
].

Definition ROADCAST_SIGNALS_16 : list roadcast_signal_definition_t := [
  mk_def 0x6b51efa5917feb02 "BCM_RLD_Val_Wdw_Opened" "" (SIGNAL_PARTS 160) 4294967295
    0x285 53 1 7 0 0 (dlit 1 0) (dlit 0 0);
  mk_def 0xaf2a2fa14bed9b9f "BCM_RLD_Wdw_OD_Sts" "" (SIGNAL_PARTS 161) 4294967295
    0x285 53 1 1 0 0 (dlit 1 0) (dlit 0 0);
  mk_def 0x6a2f58f23e379f51 "BCM_RLD_Wdw_Obs_InhibitSts" "" (SIGNAL_PARTS 162) 4294967295
    0x285 53 1 1 0 0 (dlit 1 0) (dlit 0 0);
  mk_def 0x7e37684a9da29a05 "BCM_RLD_Wdw_Running_Sts" "" (SIGNAL_PARTS 163) 4294967295
    0x285 53 1 3 0 0 (dlit 1 0) (dlit 0 0);
  mk_def 0xae0cbff8ba12d210 "BCM_RLD_Wdw_PositionSts" "" (SIGNAL_PARTS 164) 4294967295
    0x285 53 1 2 0 0 (dlit 1 0) (dlit 0 0);
  mk_def 0xcb0bb7cebbb3e517 "BCM_RLD_Wdw_Error" "" (SIGNAL_PARTS 165) 4294967295
    0x285 53 1 1 0 0 (dlit 1 0) (dlit 0 0);
  mk_def 0xe80bf1742006916f "BCM_FrontLeftDoorAjarStatus" "" (SIGNAL_PARTS 166) 4294967295
    0x285 53 1 1 0 0 (dlit 1 0) (dlit 0 0);
  mk_def 0x3f2627586a4f8308 "BCM_RearLeftDoorAjarStatus" "" (SIGNAL_PARTS 167) 4294967295
    0x285 53 1 1 0 0 (dlit 1 0) (dlit 0 0);
  mk_def 0x0b76556414d78dc2 "BCM_DoorLockStatusRL" "" (SIGNAL_PARTS 168) 4294967295
    0x285 53 1 2 0 0 (dlit 1 0) (dlit 0 0);
  mk_def 0x950e570f000795b8 "BCM_DoorLockStatusDrv" "" (SIGNAL_PARTS 169) 4294967295
    0x285 53 1 2 0 0 (dlit 1 0) (dlit 0 0)
].

Definition ROADCAST_SIGNALS_17 : list roadcast_signal_definition_t := [
  mk_def 0xe94abadbd4041b52 "BCM_MechaKey_LockAction" "" (SIGNAL_PARTS 170) 4294967295
    0x285 53 1 1 0 0 (dlit 1 0) (dlit 0 0);
  mk_def 0xb378fc9dcf51e0ec "BCM_RearMirrorReverseInclineSts" "" (SIGNAL_PARTS 171) 4294967295
    0x285 53 1 2 0 0 (dlit 1 0) (dlit 0 0);
  mk_def 0xe64166509121f8a7 "BCM_RearMirrorFoldSetResp" "" (SIGNAL_PARTS 172) 4294967295
    0x285 53 1 1 0 0 (dlit 1 0) (dlit 0 0);
  mk_def 0x541891d08c4af732 "BCM_HeadlightAdjustmentSts" "" (SIGNAL_PARTS 173) 4294967295
    0x285 53 1 4 0 0 (dlit 1 0) (dlit 0 0);
  mk_def 0xabfc17799134ba2a "BCM_ExternalLockingReimnd" "" (SIGNAL_PARTS 174) 4294967295
    0x285 53 1 2 0 0 (dlit 1 0) (dlit 0 0);
  mk_def 0x46306dab4fc098ea "BCM_Pas_Wdw_valid" "" (SIGNAL_PARTS 175) 4294967295
    0x286 54 1 1 0 0 (dlit 1 0) (dlit 0 0);
  mk_def 0x1ff7d0b8b7c41c55 "BCM_Pas_Val_Wdw_Opened" "" (SIGNAL_PARTS 176) 4294967295
    0x286 54 1 7 0 0 (dlit 1 0) (dlit 0 0);
  mk_def 0xb2305ba6fd304630 "BCM_Pas_Wdw_OD_Sts" "" (SIGNAL_PARTS 177) 4294967295
    0x286 54 1 1 0 0 (dlit 1 0) (dlit 0 0);
  mk_def 0x13175ee969d0c6ea "BCM_Pas_Wdw_Obs_InhibitSts" "" (SIGNAL_PARTS 178) 4294967295
    0x286 54 1 1 0 0 (dlit 1 0) (dlit 0 0);
  mk_def 0x2814d3c6cc700554 "BCM_Pas_Wdw_Running_Sts" "" (SIGNAL_PARTS 179) 4294967295
    0x286 54 1 3 0 0 (dlit 1 0) (dlit 0 0)
].

Definition ROADCAST_SIGNALS_18 : list roadcast_signal_definition_t := [
  mk_def 0x4c101058b70b9c65 "BCM_Pas_Wdw_PositionSts" "" (SIGNAL_PARTS 180) 4294967295
    0x286 54 1 2 0 0 (dlit 1 0) (dlit 0 0);
  mk_def 0xfa7c58a54e38dbbe "BCM_Pas_Wdw_Error" "" (SIGNAL_PARTS 181) 4294967295
    0x286 54 1 1 0 0 (dlit 1 0) (dlit 0 0);
  mk_def 0x72f967debf3cf4ca "BCM_RRD_Wdw_valid" "" (SIGNAL_PARTS 182) 4294967295
    0x286 54 1 1 0 0 (dlit 1 0) (dlit 0 0);
  mk_def 0xfbb5f2ecc8ef3e75 "BCM_RRD_Val_Wdw_Opened" "" (SIGNAL_PARTS 183) 4294967295
    0x286 54 1 7 0 0 (dlit 1 0) (dlit 0 0);
  mk_def 0x2b3398af657fec90 "BCM_RRD_Wdw_OD_Sts" "" (SIGNAL_PARTS 184) 4294967295
    0x286 54 1 1 0 0 (dlit 1 0) (dlit 0 0);
  mk_def 0xf8496ec9a3e3694a "BCM_RRD_Wdw_Obs_InhibitSts" "" (SIGNAL_PARTS 185) 4294967295
    0x286 54 1 1 0 0 (dlit 1 0) (dlit 0 0);
  mk_def 0x508eb3fb15676bf4 "BCM_RRD_Wdw_Running_Sts" "" (SIGNAL_PARTS 186) 4294967295
    0x286 54 1 3 0 0 (dlit 1 0) (dlit 0 0);
  mk_def 0xd4d3995ff1afc345 "BCM_RRD_Wdw_PositionSts" "" (SIGNAL_PARTS 187) 4294967295
    0x286 54 1 2 0 0 (dlit 1 0) (dlit 0 0);
  mk_def 0x9d1e94b8450567de "BCM_RRD_Wdw_Error" "" (SIGNAL_PARTS 188) 4294967295
    0x286 54 1 1 0 0 (dlit 1 0) (dlit 0 0);
  mk_def 0x37abb1ee664ae925 "BCM_FrontRightDoorAjarStatus" "" (SIGNAL_PARTS 189) 4294967295
    0x286 54 1 1 0 0 (dlit 1 0) (dlit 0 0)
].

Definition ROADCAST_SIGNALS_19 : list roadcast_signal_definition_t := [
  mk_def 0x32a226886d997f36 "BCM_RearRightDoorAjarStatus" "" (SIGNAL_PARTS 190) 4294967295
    0x286 54 1 1 0 0 (dlit 1 0) (dlit 0 0);
  mk_def 0xb2fca7fd4bb25fc5 "BCM_DoorLockStatusRR" "" (SIGNAL_PARTS 191) 4294967295
    0x286 54 1 2 0 0 (dlit 1 0) (dlit 0 0);
  mk_def 0xce5da507ad780298 "BCM_DoorLockStatusPass" "" (SIGNAL_PARTS 192) 4294967295
    0x286 54 1 2 0 0 (dlit 1 0) (dlit 0 0);
  mk_def 0x7d8bebba18c0ec57 "TPMS_FLTyreWarn" "" (SIGNAL_PARTS 193) 4294967295
    0x2FD 90 1 2 0 0 (dlit 1 0) (dlit 0 0);
  mk_def 0x79289396b2443b02 "TPMS_FLTyre_Temperature" "" (SIGNAL_PARTS 194) 4294967295
    0x2FD 90 1 1 0 0 (dlit 1 0) (dlit 0 0);
  mk_def 0xc30175ebf3503588 "TPMS_FLTyre_Fast_Leak" "" (SIGNAL_PARTS 195) 4294967295
    0x2FD 90 1 1 0 0 (dlit 1 0) (dlit 0 0);
  mk_def 0x9043ce3605cfd40b "TPMS_FLTyre_Sensor_Failure" "" (SIGNAL_PARTS 196) 4294967295
    0x2FD 90 1 1 0 0 (dlit 1 0) (dlit 0 0);
  mk_def 0x897933d4f77b81a1 "BCM_PearlightResp" "" (SIGNAL_PARTS 197) 4294967295
    0x2FD 90 1 1 0 0 (dlit 1 0) (dlit 0 0);
  mk_def 0xe9f68a48d3d68ac1 "TPMS_0x1F1_TimeoutFlag" "" (SIGNAL_PARTS 198) 4294967295
    0x2FD 90 1 1 0 0 (dlit 1 0) (dlit 0 0);
  mk_def 0x01a0da0fe223bd25 "TPMS_FRTyreWarn" "" (SIGNAL_PARTS 199) 4294967295
    0x2FD 90 1 2 0 0 (dlit 1 0) (dlit 0 0)
].

Definition ROADCAST_SIGNALS_20 : list roadcast_signal_definition_t := [
  mk_def 0xdcfebbc256deda88 "TPMS_FRTyre_Temperature" "" (SIGNAL_PARTS 200) 4294967295
    0x2FD 90 1 1 0 0 (dlit 1 0) (dlit 0 0);
  mk_def 0x998d3e6304a6321e "TPMS_FRTyre_Fast_Leak" "" (SIGNAL_PARTS 201) 4294967295
    0x2FD 90 1 1 0 0 (dlit 1 0) (dlit 0 0);
  mk_def 0x167b560431072d15 "TPMS_FRTyre_Sensor_Failure" "" (SIGNAL_PARTS 202) 4294967295
    0x2FD 90 1 1 0 0 (dlit 1 0) (dlit 0 0);
  mk_def 0x6529a18721dbd14b "TPMS_RLTyreWarn" "" (SIGNAL_PARTS 203) 4294967295
    0x2FD 90 1 2 0 0 (dlit 1 0) (dlit 0 0);
  mk_def 0x590f259fe95366c6 "TPMS_RLTyre_Temperature" "" (SIGNAL_PARTS 204) 4294967295
    0x2FD 90 1 1 0 0 (dlit 1 0) (dlit 0 0);
  mk_def 0x308e121ab17c5f1c "TPMS_RLTyre_Fast_Leak" "" (SIGNAL_PARTS 205) 4294967295
    0x2FD 90 1 1 0 0 (dlit 1 0) (dlit 0 0);
  mk_def 0x4fb826aa0ff02d2f "TPMS_RLTyre_Sensor_Failure" "" (SIGNAL_PARTS 206) 4294967295
    0x2FD 90 1 1 0 0 (dlit 1 0) (dlit 0 0);
  mk_def 0xaa5c9e13879eb9d1 "TPMS_RRTyreWarn" "" (SIGNAL_PARTS 207) 4294967295
    0x2FD 90 1 2 0 0 (dlit 1 0) (dlit 0 0);
  mk_def 0xf0c1ddd073fa77c9 "BCM_EnergyLevel" "" (SIGNAL_PARTS 208) 4294967295
    0x2FD 90 1 1 0 0 (dlit 1 0) (dlit 0 0);
  mk_def 0x38e7643239f22e64 "TPMS_RRTyre_Temperature" "" (SIGNAL_PARTS 209) 4294967295
    0x2FD 90 1 1 0 0 (dlit 1 0) (dlit 0 0)
].

Definition ROADCAST_SIGNALS_21 : list roadcast_signal_definition_t := [
  mk_def 0x32e665ea58ea1c5a "TPMS_RRTyre_Fast_Leak" "" (SIGNAL_PARTS 210) 4294967295
    0x2FD 90 1 1 0 0 (dlit 1 0) (dlit 0 0);
  mk_def 0x9b7c5ccd6fad6671 "TPMS_RRTyre_Sensor_Failure" "" (SIGNAL_PARTS 211) 4294967295
    0x2FD 90 1 1 0 0 (dlit 1 0) (dlit 0 0);
  mk_def 0x129c1099ca6d7117 "BCM_DM_SwitchModeStsDispExt" "" (SIGNAL_PARTS 212) 4294967295
    0x2FD 90 1 2 0 0 (dlit 1 0) (dlit 0 0);
  mk_def 0x2e62c09ce209257d "TPMS_SystemSt" "" (SIGNAL_PARTS 213) 4294967295
    0x2FD 90 1 2 0 0 (dlit 1 0) (dlit 0 0);
  mk_def 0x8acfae0735c26d12 "BCM_DMSVehicleMode" "" (SIGNAL_PARTS 214) 4294967295
    0x2FD 90 1 2 0 0 (dlit 1 0) (dlit 0 0);
  mk_def 0x038c7b99c93af612 "BCM_0x283_TimeoutFlag" "" (SIGNAL_PARTS 215) 4294967295
    0x2FD 90 1 1 0 0 (dlit 1 0) (dlit 0 0);
  mk_def 0x1efc50bbd3ec6647 "BCM_MMICustomSwitchSts" "" (SIGNAL_PARTS 216) 4294967295
    0x2FD 90 1 2 0 0 (dlit 1 0) (dlit 0 0);
  mk_def 0xae4ff20c4ee0a458 "SAS_SteerWheelAngle" "" (SIGNAL_PARTS 217) 4294967295
    0x0E0 4 2 16 0 0 (dlit 1 0) (dlit 0 0);
  mk_def 0xa78c447ec620be43 "SAS_SteerWheelRotSpd" "" (SIGNAL_PARTS 218) 4294967295
    0x0E0 4 1 8 0 0 (dlit 1 0) (dlit 0 0);
  mk_def 0x208afb745563d1f1 "SAS_CalibrationSts" "" (SIGNAL_PARTS 219) 4294967295
    0x0E0 4 1 1 0 0 (dlit 1 0) (dlit 0 0)
].

Definition ROADCAST_SIGNALS_22 : list roadcast_signal_definition_t := [
  mk_def 0x58615932bccca07f "SAS_FailureSts" "" (SIGNAL_PARTS 220) 4294967295
    0x0E0 4 1 1 0 0 (dlit 1 0) (dlit 0 0);
  mk_def 0x4c701908b046080f "SAS_Status_AliveCounter" "" (SIGNAL_PARTS 221) 4294967295
    0x0E0 4 1 4 0 0 (dlit 1 0) (dlit 0 0);
  mk_def 0xc10affce69703583 "SAS_Status_Checksum" "" (SIGNAL_PARTS 222) 4294967295
    0x0E0 4 1 8 0 0 (dlit 1 0) (dlit 0 0);
  mk_def 0x7f9d6733b543a3ff "EMS_SSMStatus" "" (SIGNAL_PARTS 223) 4294967295
    0x085 0 1 3 0 0 (dlit 1 0) (dlit 0 0);
  mk_def 0x68ac4d2691abd2aa "EMS_EngStatus" "" (SIGNAL_PARTS 224) 4294967295
    0x085 0 1 3 0 0 (dlit 1 0) (dlit 0 0);
  mk_def 0x7b68529699e46173 "EMS_AccelPedalPosition" "" (SIGNAL_PARTS 225) 226
    0x085 0 1 8 0 0 (dlit 1 0) (dlit 0 0);
  mk_def 0x12ea04af8e6931c2 "EMS_AccelPedalPositionInvalid" "" (SIGNAL_PARTS 226) 4294967295
    0x085 0 1 1 0 0 (dlit 1 0) (dlit 0 0);
  mk_def 0x2da04e5e8028c791 "IPK_IPKTotalOdometer" "" (SIGNAL_PARTS 227) 4294967295
    0x3F1 103 3 24 0 0 (dlit 1 0) (dlit 0 0);
  mk_def 0xc92119ddfb8d4902 "IPK_DTEodometer" "" (SIGNAL_PARTS 228) 4294967295
    0x3F1 103 2 12 0 0 (dlit 1 0) (dlit 0 0);
  mk_def 0x9af1b63a7e13e39b "IPK_ServiceMaintainInterval" "" (SIGNAL_PARTS 229) 4294967295
    0x3F1 103 2 16 0 0 (dlit 1 0) (dlit 0 0)
].

Definition ROADCAST_SIGNALS_23 : list roadcast_signal_definition_t := [
  mk_def 0x1f623d7bd6186f93 "EMS_EngineCoolantTemperature" "" (SIGNAL_PARTS 230) 4294967295
    0x288 56 1 8 0 0 (dlit 1 0) (dlit 0 0);
  mk_def 0xc20d21d517682ef8 "EMS_EngineMILTelltale" "" (SIGNAL_PARTS 231) 4294967295
    0x288 56 1 1 0 0 (dlit 1 0) (dlit 0 0);
  mk_def 0xe1666b1181ed764a "L_RS_RainfallLevel" "" (SIGNAL_PARTS 232) 4294967295
    0x28B 57 1 2 0 0 (dlit 1 0) (dlit 0 0);
  mk_def 0xcd0564f8f6852b56 "L_AFU_AFUSwitchResp" "" (SIGNAL_PARTS 233) 4294967295
    0x374 97 1 2 0 0 (dlit 1 0) (dlit 0 0);
  mk_def 0xa76c3f0cd5787b8c "L_AFU_FraganceTaste" "" (SIGNAL_PARTS 234) 4294967295
    0x374 97 1 2 0 0 (dlit 1 0) (dlit 0 0);
  mk_def 0xbc6e7171eb7cf1b6 "L_AFU_FraganceConcentration" "" (SIGNAL_PARTS 235) 4294967295
    0x374 97 1 2 0 0 (dlit 1 0) (dlit 0 0);
  mk_def 0x97085995369ce6bf "L_AFU_FraganceBoxID" "" (SIGNAL_PARTS 236) 4294967295
    0x374 97 1 2 0 0 (dlit 1 0) (dlit 0 0);
  mk_def 0x3f367b4f6fb2c3a4 "L_AFU_FraganceRatio" "" (SIGNAL_PARTS 237) 4294967295
    0x374 97 1 4 0 0 (dlit 1 0) (dlit 0 0);
  mk_def 0xc5945cb6bfe1a449 "AC_KeySoundSts" "" (SIGNAL_PARTS 238) 4294967295
    0x374 97 1 3 0 0 (dlit 1 0) (dlit 0 0);
  mk_def 0x1676eaff69d0c226 "AC_AQSReciInd" "" (SIGNAL_PARTS 239) 4294967295
    0x374 97 1 1 0 0 (dlit 1 0) (dlit 0 0)
].

Definition ROADCAST_SIGNALS_24 : list roadcast_signal_definition_t := [
  mk_def 0x0cdda91da42bfdc7 "AC_AirFilterWarnResp" "" (SIGNAL_PARTS 240) 4294967295
    0x374 97 1 1 0 0 (dlit 1 0) (dlit 0 0);
  mk_def 0xb383bd5f6ed4dec7 "AC_AirFilterWarnPopupReq" "" (SIGNAL_PARTS 241) 4294967295
    0x374 97 1 2 0 0 (dlit 1 0) (dlit 0 0);
  mk_def 0x20d80f2254ef3a65 "AC_SceneModeState" "" (SIGNAL_PARTS 242) 4294967295
    0x374 97 1 1 0 0 (dlit 1 0) (dlit 0 0);
  mk_def 0xc6cab2793e708fa8 "AC_GcleanState" "" (SIGNAL_PARTS 243) 4294967295
    0x374 97 1 1 0 0 (dlit 1 0) (dlit 0 0);
  mk_def 0x3a1afe48554df349 "AC_VentilationOntimeState" "" (SIGNAL_PARTS 244) 4294967295
    0x374 97 1 1 0 0 (dlit 1 0) (dlit 0 0);
  mk_def 0x07550d9379c91c5f "AC_VentilationInvalid" "" (SIGNAL_PARTS 245) 4294967295
    0x374 97 1 1 0 0 (dlit 1 0) (dlit 0 0);
  mk_def 0x022bc7d8249ba864 "L_AFU_AirFragCh1Type" "" (SIGNAL_PARTS 246) 4294967295
    0x374 97 1 5 0 0 (dlit 1 0) (dlit 0 0);
  mk_def 0xd611a31355fba2d0 "AC_DeodorizeResp" "" (SIGNAL_PARTS 247) 4294967295
    0x374 97 1 1 0 0 (dlit 1 0) (dlit 0 0);
  mk_def 0xc976eb40d5b9b868 "AC_ActiveACState" "" (SIGNAL_PARTS 248) 4294967295
    0x374 97 1 1 0 0 (dlit 1 0) (dlit 0 0);
  mk_def 0xcdc49763d0b309a7 "AC_HEATMAX_St" "" (SIGNAL_PARTS 249) 4294967295
    0x374 97 1 1 0 0 (dlit 1 0) (dlit 0 0)
].

Definition ROADCAST_SIGNALS_25 : list roadcast_signal_definition_t := [
  mk_def 0x9fca6d57dfc8b08d "L_AFU_AirFragCh2Type" "" (SIGNAL_PARTS 250) 4294967295
    0x374 97 1 5 0 0 (dlit 1 0) (dlit 0 0);
  mk_def 0x91fcb9399f05e902 "L_AFU_AirFragCh3Type" "" (SIGNAL_PARTS 251) 4294967295
    0x374 97 1 5 0 0 (dlit 1 0) (dlit 0 0);
  mk_def 0x818c75bd43184ade "L_AFU_FraganceChChgSts" "" (SIGNAL_PARTS 252) 4294967295
    0x374 97 1 2 0 0 (dlit 1 0) (dlit 0 0);
  mk_def 0xb5d6ba08815e276a "AC_ACForbiddenrReminder" "" (SIGNAL_PARTS 253) 4294967295
    0x374 97 1 1 0 0 (dlit 1 0) (dlit 0 0);
  mk_def 0xee68999a6e900fd9 "AC_AQM_CO2_Den" "" (SIGNAL_PARTS 254) 4294967295
    0x374 97 2 9 0 0 (dlit 1 0) (dlit 0 0);
  mk_def 0xfcae31654857cb52 "AC_ION_POP_Req" "" (SIGNAL_PARTS 255) 4294967295
    0x374 97 1 1 0 0 (dlit 1 0) (dlit 0 0);
  mk_def 0x65b893eb975a9228 "L_AFU_AirFragInitSts" "" (SIGNAL_PARTS 256) 4294967295
    0x374 97 1 2 0 0 (dlit 1 0) (dlit 0 0);
  mk_def 0x6b9cbba1ddc0f7a7 "AC_AQM_CO2_Alarm" "" (SIGNAL_PARTS 257) 4294967295
    0x374 97 1 1 0 0 (dlit 1 0) (dlit 0 0);
  mk_def 0xcd51218fa9c340f8 "AC_AQM_CO2_Level" "" (SIGNAL_PARTS 258) 4294967295
    0x374 97 1 3 0 0 (dlit 1 0) (dlit 0 0);
  mk_def 0xefc2363d18642c38 "PAS_Buzzer_Alarm_Pattern" "" (SIGNAL_PARTS 259) 4294967295
    0x390 99 1 3 0 0 (dlit 1 0) (dlit 0 0)
].

Definition ROADCAST_SIGNALS_26 : list roadcast_signal_definition_t := [
  mk_def 0xa38472dbe1a1480c "PAS_PDC_MODE" "" (SIGNAL_PARTS 260) 4294967295
    0x390 99 1 3 0 0 (dlit 1 0) (dlit 0 0);
  mk_def 0xfe7f40fc3e094d12 "PAS_PDC_ButtonPress" "" (SIGNAL_PARTS 261) 4294967295
    0x390 99 1 1 0 0 (dlit 1 0) (dlit 0 0);
  mk_def 0x5bb0f9c1dc5ee767 "PAS_ParkingWarningBeef" "" (SIGNAL_PARTS 262) 4294967295
    0x390 99 1 1 0 0 (dlit 1 0) (dlit 0 0);
  mk_def 0x999ad511961310b3 "PAS_PDC_DISTANCE_FL" "" (SIGNAL_PARTS 263) 4294967295
    0x390 99 1 3 0 0 (dlit 1 0) (dlit 0 0);
  mk_def 0x82d0aef9c2643f53 "PAS_PDC_Failure" "" (SIGNAL_PARTS 264) 4294967295
    0x390 99 1 2 0 0 (dlit 1 0) (dlit 0 0);
  mk_def 0x1525a5e20262fe24 "PAS_PDC_DISTANCE_FML" "" (SIGNAL_PARTS 265) 4294967295
    0x390 99 1 3 0 0 (dlit 1 0) (dlit 0 0);
  mk_def 0x1525abe202630856 "PAS_PDC_DISTANCE_FMR" "" (SIGNAL_PARTS 266) 4294967295
    0x390 99 1 3 0 0 (dlit 1 0) (dlit 0 0);
  mk_def 0x999af311961343ad "PAS_PDC_DISTANCE_FR" "" (SIGNAL_PARTS 267) 4294967295
    0x390 99 1 3 0 0 (dlit 1 0) (dlit 0 0);
  mk_def 0x9956f51195d97a47 "PAS_PDC_DISTANCE_RL" "" (SIGNAL_PARTS 268) 4294967295
    0x390 99 1 3 0 0 (dlit 1 0) (dlit 0 0);
  mk_def 0x683991e1a0885708 "PAS_PDC_DISTANCE_RML" "" (SIGNAL_PARTS 269) 4294967295
    0x390 99 1 3 0 0 (dlit 1 0) (dlit 0 0)
].

Definition ROADCAST_SIGNALS_27 : list roadcast_signal_definition_t := [
  mk_def 0x68397fe1a0883872 "PAS_PDC_DISTANCE_RMR" "" (SIGNAL_PARTS 270) 4294967295
    0x390 99 1 3 0 0 (dlit 1 0) (dlit 0 0);
  mk_def 0x9956db1195d94e19 "PAS_PDC_DISTANCE_RR" "" (SIGNAL_PARTS 271) 4294967295
    0x390 99 1 3 0 0 (dlit 1 0) (dlit 0 0);
  mk_def 0xbedf25e1d19e05d6 "PAS_PDC_DISTANCE_LSF" "" (SIGNAL_PARTS 272) 4294967295
    0x390 99 1 3 0 0 (dlit 1 0) (dlit 0 0);
  mk_def 0x67e0abe1a03c5a60 "PAS_PDC_DISTANCE_RSF" "" (SIGNAL_PARTS 273) 4294967295
    0x390 99 1 3 0 0 (dlit 1 0) (dlit 0 0);
  mk_def 0xbedf19e1d19df172 "PAS_PDC_DISTANCE_LSR" "" (SIGNAL_PARTS 274) 4294967295
    0x390 99 1 3 0 0 (dlit 1 0) (dlit 0 0);
  mk_def 0x67e0bfe1a03c7c5c "PAS_PDC_DISTANCE_RSR" "" (SIGNAL_PARTS 275) 4294967295
    0x390 99 1 3 0 0 (dlit 1 0) (dlit 0 0);
  mk_def 0x355ac90c72dffd66 "ESC_RLWheelSpeedKPH" "km/h" (SIGNAL_PARTS 276) 4294967295
    0x123 7 2 13 0 1 (dlit 1 0) (dlit 0 0);
  mk_def 0xee958c5874674f64 "ESC_RLWheelSpeedInvalid" "" (SIGNAL_PARTS 277) 4294967295
    0x123 7 1 1 0 0 (dlit 1 0) (dlit 0 0);
  mk_def 0x2986e54cbf063563 "ESC_RLWheelDirection" "" (SIGNAL_PARTS 278) 4294967295
    0x123 7 1 2 0 0 (dlit 1 0) (dlit 0 0);
  mk_def 0xa100bb18c6b1d920 "ESC_RRWheelSpeedKPH" "km/h" (SIGNAL_PARTS 279) 4294967295
    0x123 7 2 13 0 1 (dlit 1 0) (dlit 0 0)
].

Definition ROADCAST_SIGNALS_28 : list roadcast_signal_definition_t := [
  mk_def 0xf7bb24867bff7b02 "ESC_RRWheelSpeedInvalid" "" (SIGNAL_PARTS 280) 4294967295
    0x123 7 1 1 0 0 (dlit 1 0) (dlit 0 0);
  mk_def 0xece0b7e2a8055269 "ESC_RRWheelDirection" "" (SIGNAL_PARTS 281) 4294967295
    0x123 7 1 2 0 0 (dlit 1 0) (dlit 0 0);
  mk_def 0xe73f0ea95232af0f "ESC_RearWheelSpeedsKPH_AliveCounter" "" (SIGNAL_PARTS 282) 4294967295
    0x123 7 1 4 0 0 (dlit 1 0) (dlit 0 0);
  mk_def 0xbdf3d74c6e9daf33 "ESC_HDC_Switch_Available" "" (SIGNAL_PARTS 283) 4294967295
    0x123 7 1 1 0 0 (dlit 1 0) (dlit 0 0);
  mk_def 0x5b1372b62454a93f "ESC_AVH_Switch_available" "" (SIGNAL_PARTS 284) 4294967295
    0x123 7 1 1 0 0 (dlit 1 0) (dlit 0 0);
  mk_def 0xb0177b144d7dcb3a "ESC_Autohold_SwitchSta" "" (SIGNAL_PARTS 285) 4294967295
    0x123 7 1 1 0 0 (dlit 1 0) (dlit 0 0);
  mk_def 0x434af3353401ec83 "ESC_RearWheelSpeedsKPH_Checksum" "" (SIGNAL_PARTS 286) 4294967295
    0x123 7 1 8 0 0 (dlit 1 0) (dlit 0 0);
  mk_def 0xf23babad9199ce93 "ESC_FLWheelSpeedRC" "" (SIGNAL_PARTS 287) 4294967295
    0x124 8 2 12 0 0 (dlit 1 0) (dlit 0 0);
  mk_def 0x1cdd6b2b3eade8d9 "ESC_FRWheelSpeedRC" "" (SIGNAL_PARTS 288) 4294967295
    0x124 8 2 12 0 0 (dlit 1 0) (dlit 0 0);
  mk_def 0x3a0cff69ae319a9f "ESC_RLWheelSpeedRC" "" (SIGNAL_PARTS 289) 4294967295
    0x124 8 2 12 0 0 (dlit 1 0) (dlit 0 0)
].

Definition ROADCAST_SIGNALS_29 : list roadcast_signal_definition_t := [
  mk_def 0x356109d9176a1e2d "ESC_RRWheelSpeedRC" "" (SIGNAL_PARTS 290) 4294967295
    0x124 8 2 12 0 0 (dlit 1 0) (dlit 0 0);
  mk_def 0x0503f76b6bfca7dd "ESC_FLWheelSpeedRCSts" "" (SIGNAL_PARTS 291) 4294967295
    0x124 8 1 1 0 0 (dlit 1 0) (dlit 0 0);
  mk_def 0xb98569a266199197 "ESC_FRWheelSpeedRCSts" "" (SIGNAL_PARTS 292) 4294967295
    0x124 8 1 1 0 0 (dlit 1 0) (dlit 0 0);
  mk_def 0x31cf8a9a714b2019 "ESC_RLWheelSpeedRCSts" "" (SIGNAL_PARTS 293) 4294967295
    0x124 8 1 1 0 0 (dlit 1 0) (dlit 0 0);
  mk_def 0x45ca73796ac761fb "ESC_RRWheelSpeedRCSts" "" (SIGNAL_PARTS 294) 4294967295
    0x124 8 1 1 0 0 (dlit 1 0) (dlit 0 0);
  mk_def 0x2e0120f0b1ff97de "ESC_WheelSpeedsRC_AliveCounter" "" (SIGNAL_PARTS 295) 4294967295
    0x124 8 1 4 0 0 (dlit 1 0) (dlit 0 0);
  mk_def 0x2f3c49759eda7dba "ESC_WheelSpeedsRC_Checksum" "" (SIGNAL_PARTS 296) 4294967295
    0x124 8 1 8 0 0 (dlit 1 0) (dlit 0 0);
  mk_def 0xdce641139bfb4963 "IPK_AverageFuelConsumptionOneCycel" "" (SIGNAL_PARTS 297) 4294967295
    0x3F6 104 2 9 0 0 (dlit 1 0) (dlit 0 0);
  mk_def 0xebb18a918f345211 "IPK_DayToSrv" "" (SIGNAL_PARTS 298) 4294967295
    0x3F6 104 2 9 0 0 (dlit 1 0) (dlit 0 0);
  mk_def 0x9b89a6b0cf671362 "HUD_HUDAciveResp" "" (SIGNAL_PARTS 299) 4294967295
    0x2CA 77 1 1 0 0 (dlit 1 0) (dlit 0 0)
].

Definition ROADCAST_SIGNALS_30 : list roadcast_signal_definition_t := [
  mk_def 0x3264f790e04ac9de "HUD_SystemStatus" "" (SIGNAL_PARTS 300) 4294967295
    0x2CA 77 1 2 0 0 (dlit 1 0) (dlit 0 0);
  mk_def 0x7970b5da07401969 "HUD_SnowingModeActResp" "" (SIGNAL_PARTS 301) 4294967295
    0x2CA 77 1 1 0 0 (dlit 1 0) (dlit 0 0);
  mk_def 0x528499ef7ffe2c25 "HUD_SafetyInfoDispResp" "" (SIGNAL_PARTS 302) 4294967295
    0x2CA 77 1 1 0 0 (dlit 1 0) (dlit 0 0);
  mk_def 0x1b40e50b93ff1ba7 "HUD_NaviInfoDispResp" "" (SIGNAL_PARTS 303) 4294967295
    0x2CA 77 1 1 0 0 (dlit 1 0) (dlit 0 0);
  mk_def 0x56a93503006dd8a9 "HUD_BTInfoDispResp" "" (SIGNAL_PARTS 304) 4294967295
    0x2CA 77 1 1 0 0 (dlit 1 0) (dlit 0 0);
  mk_def 0xd0f6c701ecc32505 "HUD_SetButtonStatus" "" (SIGNAL_PARTS 305) 4294967295
    0x2CA 77 1 1 0 0 (dlit 1 0) (dlit 0 0);
  mk_def 0xd5124c783cf5c80d "HUD_UserIDSavingPopUp" "" (SIGNAL_PARTS 306) 4294967295
    0x2CA 77 1 1 0 0 (dlit 1 0) (dlit 0 0);
  mk_def 0x872b29ae516e510e "HUD_HUDVehDrvgDispResp" "" (SIGNAL_PARTS 307) 4294967295
    0x2CA 77 1 1 0 0 (dlit 1 0) (dlit 0 0);
  mk_def 0x5569282d2428648e "FCS_ALAD_SwitchStatus" "" (SIGNAL_PARTS 308) 4294967295
    0x1B0 29 1 1 0 0 (dlit 1 0) (dlit 0 0);
  mk_def 0x2805913a71ba7150 "FCS_ALAD_Type" "" (SIGNAL_PARTS 309) 4294967295
    0x1B0 29 1 3 0 0 (dlit 1 0) (dlit 0 0)
].

Definition ROADCAST_SIGNALS_31 : list roadcast_signal_definition_t := [
  mk_def 0xdd409198f7f3917a "FCS_ALAD_Status" "" (SIGNAL_PARTS 310) 4294967295
    0x1B0 29 1 4 0 0 (dlit 1 0) (dlit 0 0);
  mk_def 0x15af77e1ccf9ef74 "FCS_FCS_Status" "" (SIGNAL_PARTS 311) 4294967295
    0x1B0 29 1 2 0 0 (dlit 1 0) (dlit 0 0);
  mk_def 0xa9dfa4649e440625 "PAS_AVP_RP_VideoTranCtrlReq" "" (SIGNAL_PARTS 312) 4294967295
    0x299 63 1 1 0 0 (dlit 1 0) (dlit 0 0);
  mk_def 0x55fa6b69f8d023f6 "PDC_StopDisplayRequest_Rear" "" (SIGNAL_PARTS 313) 4294967295
    0x299 63 1 1 0 0 (dlit 1 0) (dlit 0 0);
  mk_def 0x5b40d1e54bdfc22f "PDC_StopDisplayRequest_Front" "" (SIGNAL_PARTS 314) 4294967295
    0x299 63 1 1 0 0 (dlit 1 0) (dlit 0 0);
  mk_def 0xf36bb6de72700784 "PDC_NearestDistance_Rear" "" (SIGNAL_PARTS 315) 4294967295
    0x299 63 2 9 0 0 (dlit 1 0) (dlit 0 0);
  mk_def 0xe76943b43ecd48b1 "PDC_NearestDistance_Front" "" (SIGNAL_PARTS 316) 4294967295
    0x299 63 2 9 0 0 (dlit 1 0) (dlit 0 0);
  mk_def 0xca33819a21ed5921 "FCS_IHBC_Status" "" (SIGNAL_PARTS 317) 4294967295
    0x2E0 82 1 3 0 0 (dlit 1 0) (dlit 0 0);
  mk_def 0x1c345631c5df3a17 "FCS_IHBC_Switch" "" (SIGNAL_PARTS 318) 4294967295
    0x2E0 82 1 2 0 0 (dlit 1 0) (dlit 0 0);
  mk_def 0xdef2afad235e71c1 "FCS_SLIF_Switch" "" (SIGNAL_PARTS 319) 4294967295
    0x2E0 82 1 2 0 0 (dlit 1 0) (dlit 0 0)
].

Definition ROADCAST_SIGNALS_32 : list roadcast_signal_definition_t := [
  mk_def 0x0a2a1abc1e98e648 "FCS_Sign_Speedlimit" "" (SIGNAL_PARTS 320) 4294967295
    0x2E0 82 1 8 0 0 (dlit 1 0) (dlit 0 0);
  mk_def 0x03e075feaa0c2ebf "FCS_SLIF_Status" "" (SIGNAL_PARTS 321) 4294967295
    0x2E0 82 1 3 0 0 (dlit 1 0) (dlit 0 0);
  mk_def 0x30b12976a52a4db8 "FCS_SLIF_WarningMode" "" (SIGNAL_PARTS 322) 4294967295
    0x2E0 82 1 2 0 0 (dlit 1 0) (dlit 0 0);
  mk_def 0xef9aa7df8785569f "FCS_SLIF_Warning" "" (SIGNAL_PARTS 323) 4294967295
    0x2E0 82 1 1 0 0 (dlit 1 0) (dlit 0 0);
  mk_def 0x1fd59ef32d39d17f "FCS_SLIF_WarningSwitch" "" (SIGNAL_PARTS 324) 4294967295
    0x2E0 82 1 2 0 0 (dlit 1 0) (dlit 0 0);
  mk_def 0x7a128d1ba33d8324 "FCS_SLIF_WarningOffset" "" (SIGNAL_PARTS 325) 4294967295
    0x2E0 82 1 3 0 0 (dlit 1 0) (dlit 0 0);
  mk_def 0xebc7a14d76cf3d37 "FCS_SLIF_MiscSts" "" (SIGNAL_PARTS 326) 4294967295
    0x2E0 82 1 1 0 0 (dlit 1 0) (dlit 0 0);
  mk_def 0x4a3a9a72d4b6a24d "RSRS_SystemStatus" "" (SIGNAL_PARTS 327) 4294967295
    0x2E4 84 1 2 0 0 (dlit 1 0) (dlit 0 0);
  mk_def 0xa7db4156dffa4295 "RSRS_LCA_Status" "" (SIGNAL_PARTS 328) 4294967295
    0x2E4 84 1 2 0 0 (dlit 1 0) (dlit 0 0);
  mk_def 0xefdbdf0fbb3ca671 "RSRS_RCTA_Status" "" (SIGNAL_PARTS 329) 4294967295
    0x2E4 84 1 2 0 0 (dlit 1 0) (dlit 0 0)
].

Definition ROADCAST_SIGNALS_33 : list roadcast_signal_definition_t := [
  mk_def 0xc8fa38cea224c359 "RSRS_RCW_Status" "" (SIGNAL_PARTS 330) 4294967295
    0x2E4 84 1 2 0 0 (dlit 1 0) (dlit 0 0);
  mk_def 0x52b7815e4ff825f0 "RSRS_LCA_WarningLeft" "" (SIGNAL_PARTS 331) 4294967295
    0x2E4 84 1 2 0 0 (dlit 1 0) (dlit 0 0);
  mk_def 0x9b60cee1227c4745 "RSRS_LCA_WarningRight" "" (SIGNAL_PARTS 332) 4294967295
    0x2E4 84 1 2 0 0 (dlit 1 0) (dlit 0 0);
  mk_def 0x205190a4b51f41cc "RSRS_RCTA_WarningLeft" "" (SIGNAL_PARTS 333) 4294967295
    0x2E4 84 1 1 0 0 (dlit 1 0) (dlit 0 0);
  mk_def 0xf4d535900c46eab9 "RSRS_RCTA_WarningRight" "" (SIGNAL_PARTS 334) 4294967295
    0x2E4 84 1 1 0 0 (dlit 1 0) (dlit 0 0);
  mk_def 0xc9044734f44bc6d7 "RSRS_DOW_Status" "" (SIGNAL_PARTS 335) 4294967295
    0x2E4 84 1 2 0 0 (dlit 1 0) (dlit 0 0);
  mk_def 0x9fce1269c965485e "RSRS_DOW_WarningLeft" "" (SIGNAL_PARTS 336) 4294967295
    0x2E4 84 1 2 0 0 (dlit 1 0) (dlit 0 0);
  mk_def 0x59ea4cb545b4a7d3 "RSRS_DOW_WarningRight" "" (SIGNAL_PARTS 337) 4294967295
    0x2E4 84 1 2 0 0 (dlit 1 0) (dlit 0 0);
  mk_def 0x362d72ebb44e400f "RSRS_LCA_AudioSwitch" "" (SIGNAL_PARTS 338) 4294967295
    0x2E4 84 1 1 0 0 (dlit 1 0) (dlit 0 0);
  mk_def 0x8413086be5919e62 "FCS_ELK_SwitchStatus" "" (SIGNAL_PARTS 339) 4294967295
    0x114 5 1 1 0 0 (dlit 1 0) (dlit 0 0)
].

Definition ROADCAST_SIGNALS_34 : list roadcast_signal_definition_t := [
  mk_def 0x7e23a7673144617e "FCS_ELK_Status" "" (SIGNAL_PARTS 340) 4294967295
    0x114 5 1 3 0 0 (dlit 1 0) (dlit 0 0);
  mk_def 0xa22aa37abd1b9dad "FRS_AEB_WarningType" "" (SIGNAL_PARTS 341) 4294967295
    0x1A2 25 1 2 0 0 (dlit 1 0) (dlit 0 0);
  mk_def 0xba960eae497303f3 "FRS_AEB_Switch" "" (SIGNAL_PARTS 342) 4294967295
    0x1A2 25 1 2 0 0 (dlit 1 0) (dlit 0 0);
  mk_def 0xc41c31bb877fdcd5 "FRS_AEB_Status" "" (SIGNAL_PARTS 343) 4294967295
    0x1A2 25 1 3 0 0 (dlit 1 0) (dlit 0 0);
  mk_def 0x17065e6340b15a65 "FRS_AEB_FCWSenlevel" "" (SIGNAL_PARTS 344) 4294967295
    0x1A2 25 1 2 0 0 (dlit 1 0) (dlit 0 0);
  mk_def 0xbf27e5e84a528dce "FRS_ALOD_SLIF_Response" "" (SIGNAL_PARTS 345) 4294967295
    0x1A3 26 1 1 0 0 (dlit 1 0) (dlit 0 0);
  mk_def 0x016795478f5f18a6 "FRS_ALOD_Status" "" (SIGNAL_PARTS 346) 4294967295
    0x1A3 26 1 4 0 0 (dlit 1 0) (dlit 0 0);
  mk_def 0x055275544c0431e9 "FRS_ALOD_ControlType" "" (SIGNAL_PARTS 347) 4294967295
    0x1A3 26 1 3 0 0 (dlit 1 0) (dlit 0 0);
  mk_def 0x17a16f7065f06710 "FRS_ALOD_Warning" "" (SIGNAL_PARTS 348) 4294967295
    0x1A3 26 1 3 0 0 (dlit 1 0) (dlit 0 0);
  mk_def 0xb8335928e8741ce0 "FRS_ALOD_Info" "" (SIGNAL_PARTS 349) 4294967295
    0x1A3 26 1 5 0 0 (dlit 1 0) (dlit 0 0)
].

Definition ROADCAST_SIGNALS_35 : list roadcast_signal_definition_t := [
  mk_def 0xee9376bc9c914afc "PEPS_RKECommand" "" (SIGNAL_PARTS 350) 4294967295
    0x27F 49 1 4 0 0 (dlit 1 0) (dlit 0 0);
  mk_def 0xcce67f30f9c2d67f "PEPS_LOCK_CMD" "" (SIGNAL_PARTS 351) 4294967295
    0x27F 49 1 3 0 0 (dlit 1 0) (dlit 0 0);
  mk_def 0xa1a60140370dc0b1 "PEPS_FOB_NUM" "" (SIGNAL_PARTS 352) 4294967295
    0x27F 49 1 3 0 0 (dlit 1 0) (dlit 0 0);
  mk_def 0x0d6e42dfe69f29bc "PEPS_Warning_Stop_Emergency" "" (SIGNAL_PARTS 353) 4294967295
    0x27F 49 1 1 0 0 (dlit 1 0) (dlit 0 0);
  mk_def 0x7c21f96443c4c3ed "PEPS_Warning_Stop_Moving" "" (SIGNAL_PARTS 354) 4294967295
    0x27F 49 1 1 0 0 (dlit 1 0) (dlit 0 0);
  mk_def 0xf8377f1b20dd2462 "DSCU_DrvHeatSts" "" (SIGNAL_PARTS 355) 4294967295
    0x2C1 69 1 3 0 0 (dlit 1 0) (dlit 0 0);
  mk_def 0x830c550ea37f4e6b "DSCU_PassHeatingSts" "" (SIGNAL_PARTS 356) 4294967295
    0x2C1 69 1 3 0 0 (dlit 1 0) (dlit 0 0);
  mk_def 0xdb5cff8e0686c2d9 "DSCU_DrvVentSts" "" (SIGNAL_PARTS 357) 4294967295
    0x2C1 69 1 3 0 0 (dlit 1 0) (dlit 0 0);
  mk_def 0x2e45ad898e25558b "DSCU_PassVentSts_Reserved" "" (SIGNAL_PARTS 358) 4294967295
    0x2C1 69 1 3 0 0 (dlit 1 0) (dlit 0 0);
  mk_def 0x6005719bc0dc6aa0 "HVSM_FwashheatSts" "" (SIGNAL_PARTS 359) 4294967295
    0x2C1 69 1 2 0 0 (dlit 1 0) (dlit 0 0)
].

Definition ROADCAST_SIGNALS_36 : list roadcast_signal_definition_t := [
  mk_def 0x8440da74e0096b05 "DSCU_DrvMassageSts" "" (SIGNAL_PARTS 360) 4294967295
    0x2C1 69 1 3 0 0 (dlit 1 0) (dlit 0 0);
  mk_def 0x0c70881c3f579873 "HVSM_SwHeatSts" "" (SIGNAL_PARTS 361) 4294967295
    0x2C1 69 1 2 0 0 (dlit 1 0) (dlit 0 0);
  mk_def 0x8404e8ade4a17fcf "HVSM_FrntWinHeatSts" "" (SIGNAL_PARTS 362) 4294967295
    0x2C1 69 1 2 0 0 (dlit 1 0) (dlit 0 0);
  mk_def 0x45c5fb3c90242c68 "DSCU_RemoteControlSt" "" (SIGNAL_PARTS 363) 4294967295
    0x2C1 69 1 1 0 0 (dlit 1 0) (dlit 0 0);
  mk_def 0x8fd62fd25a21cd5e "ACU_DrvSeatbeltBucklestatus" "" (SIGNAL_PARTS 364) 4294967295
    0x380 98 1 1 0 0 (dlit 1 0) (dlit 0 0);
  mk_def 0xf6fdc1f48227c1cf "ACU_PassSeatbeltWarning" "" (SIGNAL_PARTS 365) 4294967295
    0x380 98 1 1 0 0 (dlit 1 0) (dlit 0 0);
  mk_def 0xdc6584eb81473faf "ACU_PassSeatOccupantSensorStat" "" (SIGNAL_PARTS 366) 4294967295
    0x380 98 1 1 0 0 (dlit 1 0) (dlit 0 0);
  mk_def 0xd7203475b0d01388 "ACU_AirbagWarningStatus" "" (SIGNAL_PARTS 367) 4294967295
    0x380 98 1 2 0 0 (dlit 1 0) (dlit 0 0);
  mk_def 0xc11a17be5313ce17 "ACU_DrvSeatbeltBuckleInvalid" "" (SIGNAL_PARTS 368) 4294967295
    0x380 98 1 1 0 0 (dlit 1 0) (dlit 0 0);
  mk_def 0xd01763d0e91b644d "ACU_ChimeTelltaleReq_AliveCounter" "" (SIGNAL_PARTS 369) 4294967295
    0x380 98 1 4 0 0 (dlit 1 0) (dlit 0 0)
].

Definition ROADCAST_SIGNALS_37 : list roadcast_signal_definition_t := [
  mk_def 0x7f57a57d8d9db27d "ACU_ChimeTelltaleReq_Checksum" "" (SIGNAL_PARTS 370) 4294967295
    0x380 98 1 8 0 0 (dlit 1 0) (dlit 0 0);
  mk_def 0x760fd35cb56fb5de "ACU_CrashOutputSts" "" (SIGNAL_PARTS 371) 4294967295
    0x380 98 1 8 0 0 (dlit 1 0) (dlit 0 0);
  mk_def 0x625b8fc301107379 "EPS_EpasFailed" "" (SIGNAL_PARTS 372) 4294967295
    0x150 13 1 1 0 0 (dlit 1 0) (dlit 0 0);
  mk_def 0x8ce3cda3b816c05a "IPK_Trip1_km" "" (SIGNAL_PARTS 373) 4294967295
    0x2C5 73 3 17 0 0 (dlit 1 0) (dlit 0 0);
  mk_def 0xd6f3f9a3bfd1c494 "IPK_OdometerSts" "" (SIGNAL_PARTS 374) 4294967295
    0x2C5 73 1 1 0 0 (dlit 1 0) (dlit 0 0);
  mk_def 0x84beb6123eec1ec0 "IPK_RstTrip1" "" (SIGNAL_PARTS 375) 4294967295
    0x2C5 73 1 4 0 0 (dlit 1 0) (dlit 0 0);
  mk_def 0x092bf84bb3a00676 "IPK_Trip1_Duration" "" (SIGNAL_PARTS 376) 4294967295
    0x2C5 73 2 16 0 0 (dlit 1 0) (dlit 0 0);
  mk_def 0x61da0116de70cff0 "IPK_Trip2_km" "" (SIGNAL_PARTS 377) 4294967295
    0x2C6 74 3 17 0 0 (dlit 1 0) (dlit 0 0);
  mk_def 0xa74bf50b947d834c "IPK_RstTrip2" "" (SIGNAL_PARTS 378) 4294967295
    0x2C6 74 1 4 0 0 (dlit 1 0) (dlit 0 0);
  mk_def 0xa6b1f940a612eb27 "IPK_Rst_Trip2Sts" "" (SIGNAL_PARTS 379) 4294967295
    0x2C6 74 1 1 0 0 (dlit 1 0) (dlit 0 0)
].

Definition ROADCAST_SIGNALS_38 : list roadcast_signal_definition_t := [
  mk_def 0xe26450a1caccf30c "IPK_Trip2_Duration" "" (SIGNAL_PARTS 380) 4294967295
    0x2C6 74 2 16 0 0 (dlit 1 0) (dlit 0 0);
  mk_def 0x919110bc1968f99c "IPK_Trip2_AverageVehicleSpeed" "" (SIGNAL_PARTS 381) 4294967295
    0x2C6 74 1 8 0 0 (dlit 1 0) (dlit 0 0);
  mk_def 0xde8329499aead429 "VCU_EVDTEodometer" "" (SIGNAL_PARTS 382) 4294967295
    0x214 36 2 12 0 0 (dlit 1 0) (dlit 0 0);
  mk_def 0xf13d4031d9599117 "VCU_ShowModeEnable" "" (SIGNAL_PARTS 383) 4294967295
    0x214 36 1 1 0 0 (dlit 1 0) (dlit 0 0);
  mk_def 0xefd1b2f8a6ca9514 "VCU_Discharge_SOC_value" "" (SIGNAL_PARTS 384) 4294967295
    0x214 36 1 8 0 0 (dlit 1 0) (dlit 0 0);
  mk_def 0x4f23c45adf8424dd "VCU_HVMaintenanceSwtichStsResp" "" (SIGNAL_PARTS 385) 4294967295
    0x214 36 1 2 0 0 (dlit 1 0) (dlit 0 0);
  mk_def 0x7d8923d5791e4b1e "VCU_PtModAct" "" (SIGNAL_PARTS 386) 4294967295
    0x214 36 1 2 0 0 (dlit 1 0) (dlit 0 0);
  mk_def 0x6ef83ca0542aa42b "VCU_PtModBlkd" "" (SIGNAL_PARTS 387) 4294967295
    0x214 36 1 1 0 0 (dlit 1 0) (dlit 0 0);
  mk_def 0x43d2303ca3ce8d4c "VCU_EngFltIndcn" "" (SIGNAL_PARTS 388) 4294967295
    0x214 36 1 4 0 0 (dlit 1 0) (dlit 0 0);
  mk_def 0xe5b2bfc56a6cc9ee "VCU_SaveElecSwitchModeFctSts" "" (SIGNAL_PARTS 389) 4294967295
    0x214 36 1 1 0 0 (dlit 1 0) (dlit 0 0)
].

Definition ROADCAST_SIGNALS_39 : list roadcast_signal_definition_t := [
  mk_def 0x6a03c662d37de6db "VCU_SaveElecModeReq" "" (SIGNAL_PARTS 390) 4294967295
    0x214 36 1 1 0 0 (dlit 1 0) (dlit 0 0);
  mk_def 0x8fa84c96c0dbec21 "BMSH_BattSOC" "%" (SIGNAL_PARTS 391) 4294967295
    0x17A 21 2 10 0 1 (dlit 10000000000000001 17) (dlit 0 0);
  mk_def 0x124cd6f775baf9bf "VCU_PwrCnsAvg1" "" (SIGNAL_PARTS 392) 4294967295
    0x3A2 101 2 10 0 0 (dlit 1 0) (dlit 0 0);
  mk_def 0x08680022f548c20e "VCU_TrlrModPrpsnSts" "" (SIGNAL_PARTS 393) 4294967295
    0x3A2 101 1 2 0 0 (dlit 1 0) (dlit 0 0);
  mk_def 0xfa1910a6171848ea "VCU_TrlrModRemind" "" (SIGNAL_PARTS 394) 4294967295
    0x3A2 101 1 1 0 0 (dlit 1 0) (dlit 0 0);
  mk_def 0xcefa0060a1a7173f "VCU_GearRemind" "" (SIGNAL_PARTS 395) 4294967295
    0x3A2 101 1 3 0 0 (dlit 1 0) (dlit 0 0);
  mk_def 0x768a1b3acd9aab2f "VCU_EVDTEodometerDynDisChg" "" (SIGNAL_PARTS 396) 4294967295
    0x3A2 101 2 12 0 0 (dlit 1 0) (dlit 0 0);
  mk_def 0x15c2b95385c674c0 "VCU_ChrgDischrgPwrAct" "kW" (SIGNAL_PARTS 397) 4294967295
    0x3A2 101 1 8 0 1 (dlit 10000000000000001 17) (dlit (-12800000000000001) 15);
  mk_def 0xacc70e9d88102cdc "VCU_EVDTEodometerDisChg" "" (SIGNAL_PARTS 398) 4294967295
    0x3A2 101 2 12 0 0 (dlit 1 0) (dlit 0 0);
  mk_def 0xc27f1ec4cc44a87e "VCU_EVDTEodometerDyn" "" (SIGNAL_PARTS 399) 4294967295
    0x315 93 2 12 0 0 (dlit 1 0) (dlit 0 0)
].

Definition ROADCAST_SIGNALS_40 : list roadcast_signal_definition_t := [
  mk_def 0x5559faa9ef77df17 "VCU_DrvPwrAct" "kW" (SIGNAL_PARTS 400) 4294967295
    0x315 93 2 12 0 1 (dlit 10000000000000001 17) (dlit (-204) 0);
  mk_def 0x6f1c21ed383fcec8 "VCU_ThermalPwrAct" "kW" (SIGNAL_PARTS 401) 4294967295
    0x315 93 1 8 0 1 (dlit 80000000000000002 18) (dlit 0 0);
  mk_def 0xde0ea26337a2742b "VCU_DCDCPwrAct" "" (SIGNAL_PARTS 402) 4294967295
    0x315 93 1 8 0 0 (dlit 1 0) (dlit 0 0);
  mk_def 0xe3837551e3419003 "VCU_PwrCnsAvg" "" (SIGNAL_PARTS 403) 4294967295
    0x315 93 2 11 0 0 (dlit 1 0) (dlit 0 0);
  mk_def 0xbc99bf27eb6f4d2f "VCU_AvgCnsDstSg" "" (SIGNAL_PARTS 404) 4294967295
    0x315 93 1 1 0 0 (dlit 1 0) (dlit 0 0);
  mk_def 0x777e1f894e7a3635 "OBC_DischrgPwrExceedWarn" "" (SIGNAL_PARTS 405) 4294967295
    0x2EA 85 1 1 0 0 (dlit 1 0) (dlit 0 0);
  mk_def 0x1c13df5696ac8192 "OBC_MaxACInpISetFdb" "" (SIGNAL_PARTS 406) 4294967295
    0x2EA 85 1 7 0 0 (dlit 1 0) (dlit 0 0);
  mk_def 0x7fc23d317942a62f "OBC_ChrgrSt" "" (SIGNAL_PARTS 407) 4294967295
    0x220 38 1 4 0 0 (dlit 1 0) (dlit 0 0);
  mk_def 0xc69284e8ee442fd2 "OBC_OnBdFailSt" "" (SIGNAL_PARTS 408) 4294967295
    0x220 38 1 2 0 0 (dlit 1 0) (dlit 0 0);
  mk_def 0xdb13e21da108bdd3 "OBC_OnBdDisChrgrCCline_PHEV" "" (SIGNAL_PARTS 409) 4294967295
    0x220 38 1 2 0 0 (dlit 1 0) (dlit 0 0)
].

Definition ROADCAST_SIGNALS_41 : list roadcast_signal_definition_t := [
  mk_def 0xdcd6fdaf1bd9cb61 "OBC_OnBdCCline" "" (SIGNAL_PARTS 410) 4294967295
    0x220 38 1 2 0 0 (dlit 1 0) (dlit 0 0);
  mk_def 0xef9f11558e3c3f24 "OBC_OnBdCPline" "" (SIGNAL_PARTS 411) 4294967295
    0x220 38 1 3 0 0 (dlit 1 0) (dlit 0 0);
  mk_def 0xdf1e12df281bbe5d "BMSH_BattCurr" "A" (SIGNAL_PARTS 412) 4294967295
    0x250 42 2 14 0 1 (dlit 10000000000000001 17) (dlit (-50019999999999999) 14);
  mk_def 0x190456d466e1a843 "BMSH_HVBusVolt" "V" (SIGNAL_PARTS 413) 4294967295
    0x250 42 2 10 0 1 (dlit 1 0) (dlit 0 0);
  mk_def 0xe219c18aa7103428 "BMSH_stMode" "" (SIGNAL_PARTS 414) 4294967295
    0x250 42 1 5 0 0 (dlit 1 0) (dlit 0 0);
  mk_def 0x1ade5e292f5b3611 "BMSH_FastChgCC2ConntState" "" (SIGNAL_PARTS 415) 4294967295
    0x250 42 1 2 0 0 (dlit 1 0) (dlit 0 0);
  mk_def 0x5a8802c9b84b0096 "BMSH_BattFaultLampState" "" (SIGNAL_PARTS 416) 4294967295
    0x250 42 1 2 0 0 (dlit 1 0) (dlit 0 0);
  mk_def 0x07aeb2bd7b9b7cc8 "BMSH_ChargeLEDCtrl" "" (SIGNAL_PARTS 417) 4294967295
    0x250 42 1 4 0 0 (dlit 1 0) (dlit 0 0);
  mk_def 0xdd813255bc1167ee "BMSH_0x178_TimeoutFlag" "" (SIGNAL_PARTS 418) 4294967295
    0x250 42 1 1 0 0 (dlit 1 0) (dlit 0 0);
  mk_def 0x5f109bf5c077dbbe "BMSH_0x211_TimeoutFlag" "" (SIGNAL_PARTS 419) 4294967295
    0x250 42 1 1 0 0 (dlit 1 0) (dlit 0 0)
].

Definition ROADCAST_SIGNALS_42 : list roadcast_signal_definition_t := [
  mk_def 0x54353bf2a203e22b "BMSH_DCDispCurr" "" (SIGNAL_PARTS 420) 4294967295
    0x359 96 2 14 0 0 (dlit 1 0) (dlit 0 0);
  mk_def 0x47f999229a1169e3 "BMSH_ACChgTimeRemain" "min" (SIGNAL_PARTS 421) 4294967295
    0x17B 22 2 11 0 1 (dlit 1 0) (dlit 0 0);
  mk_def 0x48c647ad2cfe56f7 "BMSH_ThermalOutofControl" "" (SIGNAL_PARTS 422) 4294967295
    0x17B 22 1 1 0 0 (dlit 1 0) (dlit 0 0);
  mk_def 0xc2b71d8ccc25d3e5 "BMSH_DCChgPwr" "" (SIGNAL_PARTS 423) 4294967295
    0x0B7 2 2 10 0 0 (dlit 1 0) (dlit 0 0);
  mk_def 0xa4399b05416e5809 "BMSH_V2XdchaSwtFb" "" (SIGNAL_PARTS 424) 4294967295
    0x0B7 2 1 2 0 0 (dlit 1 0) (dlit 0 0);
  mk_def 0xd1942a310fed2e89 "BMSH_DchaStopReasonIndcn" "" (SIGNAL_PARTS 425) 4294967295
    0x0B7 2 1 2 0 0 (dlit 1 0) (dlit 0 0);
  mk_def 0x7203092430237524 "OBC_OnBdDisChrgrEnergy" "" (SIGNAL_PARTS 426) 4294967295
    0x221 39 2 12 0 0 (dlit 1 0) (dlit 0 0);
  mk_def 0x3360740302c90b5e "OBC_OnBdDisChrgrCCline_EV" "" (SIGNAL_PARTS 427) 4294967295
    0x221 39 1 2 0 0 (dlit 1 0) (dlit 0 0);
  mk_def 0xfac0a4257f62ffc9 "OBC_iInAct" "A" (SIGNAL_PARTS 428) 4294967295
    0x221 39 2 10 0 1 (dlit 10000000000000001 17) (dlit 0 0);
  mk_def 0x832e364e51198ffd "OBC_uInAct" "V" (SIGNAL_PARTS 429) 4294967295
    0x221 39 2 13 0 1 (dlit 10000000000000001 17) (dlit 0 0)
].

Definition ROADCAST_SIGNALS_43 : list roadcast_signal_definition_t := [
  mk_def 0x89a8ce65fa964797 "OBC_TotDischTime" "" (SIGNAL_PARTS 430) 4294967295
    0x339 94 2 13 0 0 (dlit 1 0) (dlit 0 0);
  mk_def 0x1fff42632efd9b4d "VCU_ePTModeSelect" "" (SIGNAL_PARTS 431) 4294967295
    0x162 16 1 2 0 0 (dlit 1 0) (dlit 0 0);
  mk_def 0xf7772148a9dfe1d3 "VCU_NoPluginModStatus" "" (SIGNAL_PARTS 432) 4294967295
    0x162 16 1 1 0 0 (dlit 1 0) (dlit 0 0);
  mk_def 0x63ef1067ce23c757 "VCU_ePTModeActual" "" (SIGNAL_PARTS 433) 4294967295
    0x162 16 1 3 0 0 (dlit 1 0) (dlit 0 0);
  mk_def 0xa2fabed392ac0f1c "VCU_DriverRemind" "" (SIGNAL_PARTS 434) 4294967295
    0x162 16 1 1 0 0 (dlit 1 0) (dlit 0 0);
  mk_def 0x4eefe906483c04bd "VCU_ePTReady" "" (SIGNAL_PARTS 435) 4294967295
    0x162 16 1 1 0 0 (dlit 1 0) (dlit 0 0);
  mk_def 0xef30b5a46a93617f "VCU_ePTRegencyLevInd" "" (SIGNAL_PARTS 436) 4294967295
    0x162 16 1 3 0 1 (dlit 1 0) (dlit 0 0);
  mk_def 0x438fecd7fc11dd22 "VCU_LimpHomeSts" "" (SIGNAL_PARTS 437) 4294967295
    0x162 16 1 1 0 0 (dlit 1 0) (dlit 0 0);
  mk_def 0xea53ed9fa6b23256 "CHM_FwashheatSts" "" (SIGNAL_PARTS 438) 4294967295
    0x2C3 71 1 2 0 0 (dlit 1 0) (dlit 0 0);
  mk_def 0xe8dc32031d0b5981 "CHM_SwHeatSts" "" (SIGNAL_PARTS 439) 4294967295
    0x2C3 71 1 2 0 0 (dlit 1 0) (dlit 0 0)
].

Definition ROADCAST_SIGNALS_44 : list roadcast_signal_definition_t := [
  mk_def 0xb43806a0c5c02fc5 "CHM_FwindheatSts" "" (SIGNAL_PARTS 440) 4294967295
    0x2C3 71 1 2 0 0 (dlit 1 0) (dlit 0 0);
  mk_def 0x5c937ddeed521815 "TCM_SwHeat_ErrorState" "" (SIGNAL_PARTS 441) 4294967295
    0x2C3 71 1 4 0 0 (dlit 1 0) (dlit 0 0);
  mk_def 0xe5e848195ca09539 "BCM_DM_TargetModeReq" "" (SIGNAL_PARTS 442) 4294967295
    0x283 51 1 3 0 1 (dlit 1 0) (dlit 0 0);
  mk_def 0x606b33cbdc62a486 "BCM_DM_SwitchModeSts" "" (SIGNAL_PARTS 443) 4294967295
    0x283 51 1 3 0 0 (dlit 1 0) (dlit 0 0);
  mk_def 0x7c9a37265661674e "BCM_DM_SwitchModeStsDisp" "" (SIGNAL_PARTS 444) 4294967295
    0x283 51 1 3 0 0 (dlit 1 0) (dlit 0 0);
  mk_def 0xdd82197443d7d3da "PEPS_WarnEmergencyOFF" "" (SIGNAL_PARTS 445) 4294967295
    0x274 48 1 2 0 0 (dlit 1 0) (dlit 0 0);
  mk_def 0xd1bf69cf18016875 "PEPS_AutoPoweroffSetResp" "" (SIGNAL_PARTS 446) 4294967295
    0x274 48 1 1 0 0 (dlit 1 0) (dlit 0 0);
  mk_def 0xd91341b5fedbc9a2 "PEPS_PoweroffCancelResp" "" (SIGNAL_PARTS 447) 4294967295
    0x274 48 1 1 0 0 (dlit 1 0) (dlit 0 0);
  mk_def 0x35ee9896ca0361c6 "PEPS_PoweroffWarning" "" (SIGNAL_PARTS 448) 4294967295
    0x274 48 1 1 0 0 (dlit 1 0) (dlit 0 0);
  mk_def 0xbbf5ee4f4f8210f5 "PEPS_PowerKeepTimeSetResp" "" (SIGNAL_PARTS 449) 4294967295
    0x274 48 1 4 0 0 (dlit 1 0) (dlit 0 0)
].

Definition ROADCAST_SIGNALS_45 : list roadcast_signal_definition_t := [
  mk_def 0xcff29850cb6676d9 "ESC_cst_status" "" (SIGNAL_PARTS 450) 4294967295
    0x128 10 1 1 0 0 (dlit 1 0) (dlit 0 0);
  mk_def 0xd5b164be8cf9673b "ESC_CST_Switch_available" "" (SIGNAL_PARTS 451) 4294967295
    0x128 10 1 1 0 0 (dlit 1 0) (dlit 0 0);
  mk_def 0x393810e6631b49d9 "ESC_EPB_ApplyAvailable" "" (SIGNAL_PARTS 452) 4294967295
    0x128 10 1 1 0 0 (dlit 1 0) (dlit 0 0);
  mk_def 0x6ad982a14466a05a "ESC_EPB_ReleaseAvailable" "" (SIGNAL_PARTS 453) 4294967295
    0x128 10 1 1 0 0 (dlit 1 0) (dlit 0 0);
  mk_def 0xfa8fc63202676825 "ESC_EPB_AutoApplyStatus" "" (SIGNAL_PARTS 454) 4294967295
    0x128 10 1 1 0 0 (dlit 1 0) (dlit 0 0);
  mk_def 0x3be0d74f30544b35 "ESC_EPB_SoftSwitchAvailable" "" (SIGNAL_PARTS 455) 4294967295
    0x128 10 1 2 0 0 (dlit 1 0) (dlit 0 0);
  mk_def 0x7cbf7686a9484979 "ESC_ISAStatus" "" (SIGNAL_PARTS 456) 4294967295
    0x128 10 1 2 0 0 (dlit 1 0) (dlit 0 0);
  mk_def 0x6335f463cd669d44 "ESC_ISA_Switch_Available" "" (SIGNAL_PARTS 457) 4294967295
    0x128 10 1 1 0 0 (dlit 1 0) (dlit 0 0);
  mk_def 0x1730ebe5a7a1117c "ESC_RoadInclnRoadIncln" "%" (SIGNAL_PARTS 458) 4294967295
    0x128 10 2 11 0 1 (dlit (-10000000000000001) 17) (dlit 100 0);
  mk_def 0x0ffcd765f362d331 "ESC_Regen_AliveCounter" "" (SIGNAL_PARTS 459) 4294967295
    0x128 10 1 4 0 0 (dlit 1 0) (dlit 0 0)
].

Definition ROADCAST_SIGNALS_46 : list roadcast_signal_definition_t := [
  mk_def 0x89b8499119d514af "ESC_VBF_Switch_available" "" (SIGNAL_PARTS 460) 4294967295
    0x128 10 1 1 0 0 (dlit 1 0) (dlit 0 0);
  mk_def 0xdaa26e773949929d "ESC_VBF_status" "" (SIGNAL_PARTS 461) 4294967295
    0x128 10 1 1 0 0 (dlit 1 0) (dlit 0 0);
  mk_def 0xa30d8dbd1a7d10c9 "ESC_Regen_Checksum" "" (SIGNAL_PARTS 462) 4294967295
    0x128 10 1 8 0 0 (dlit 1 0) (dlit 0 0);
  mk_def 0x69736532cc630200 "VCU_ModeGearDisplaySts" "" (SIGNAL_PARTS 463) 4294967295
    0x165 17 1 5 0 0 (dlit 1 0) (dlit 0 0);
  mk_def 0xbc90dd3782ffd4fa "VCU_SmartTravelingRejt" "" (SIGNAL_PARTS 464) 4294967295
    0x165 17 1 2 0 0 (dlit 1 0) (dlit 0 0);
  mk_def 0x893f8af9c0bf199d "VCU_SOCpointSetsts" "" (SIGNAL_PARTS 465) 4294967295
    0x165 17 1 7 0 0 (dlit 1 0) (dlit 0 0);
  mk_def 0xdc28db8bd63ef7f5 "PEPS_PowerModeValidity" "" (SIGNAL_PARTS 466) 4294967295
    0x1E2 30 1 2 0 0 (dlit 1 0) (dlit 0 0);
  mk_def 0x39b7346d02c1d3d7 "PEPS_PowerMode" "" (SIGNAL_PARTS 467) 4294967295
    0x1E2 30 1 3 0 0 (dlit 1 0) (dlit 0 0);
  mk_def 0x02c9db6b6de8ea95 "PEPS_RemoteControlSt" "" (SIGNAL_PARTS 468) 4294967295
    0x1E2 30 1 1 0 0 (dlit 1 0) (dlit 0 0);
  mk_def 0x760f149f6aeb97da "ESC_ParkingBrakeFail" "" (SIGNAL_PARTS 469) 4294967295
    0x12F 11 1 1 0 0 (dlit 1 0) (dlit 0 0)
].

Definition ROADCAST_SIGNALS_47 : list roadcast_signal_definition_t := [
  mk_def 0x3390ab93c2e936ee "ESC_ISA_Disp_WithoutSeatbelt" "" (SIGNAL_PARTS 470) 4294967295
    0x12F 11 1 1 0 0 (dlit 1 0) (dlit 0 0);
  mk_def 0xbcc1d9daa48ef498 "ESC_ShowModeEnable" "" (SIGNAL_PARTS 471) 4294967295
    0x12F 11 1 1 0 0 (dlit 1 0) (dlit 0 0);
  mk_def 0x77961782d2df3554 "ESC_TrlrModBCSts" "" (SIGNAL_PARTS 472) 4294967295
    0x12F 11 1 2 0 0 (dlit 1 0) (dlit 0 0);
  mk_def 0x8fd4ecd7f6425be5 "FCS_Driveoff_Switch" "" (SIGNAL_PARTS 473) 4294967295
    0x1A6 28 1 2 0 0 (dlit 1 0) (dlit 0 0);
  mk_def 0x86110b3aa9abac90 "VCU_StartActive" "" (SIGNAL_PARTS 474) 4294967295
    0x1A5 27 1 1 0 0 (dlit 1 0) (dlit 0 0);
  mk_def 0xc4446bc1be182716 "VCU_CruiseControlSts" "" (SIGNAL_PARTS 475) 4294967295
    0x1A5 27 1 3 0 0 (dlit 1 0) (dlit 0 0);
  mk_def 0x92d30e2c5ce999e7 "VCU_CruiseSwitchSts" "" (SIGNAL_PARTS 476) 4294967295
    0x1A5 27 1 1 0 0 (dlit 1 0) (dlit 0 0);
  mk_def 0x90fd9118fcd89eb6 "BCM_Warning_LOW_BATTU" "" (SIGNAL_PARTS 477) 4294967295
    0x272 47 1 1 0 0 (dlit 1 0) (dlit 0 0);
  mk_def 0x28e73dcf9e48c9b2 "PEPS_Warning_BatterySaving" "" (SIGNAL_PARTS 478) 4294967295
    0x272 47 1 1 0 0 (dlit 1 0) (dlit 0 0);
  mk_def 0xfcb05a15449cd710 "PEPS_WelcomeLightSetResp" "" (SIGNAL_PARTS 479) 4294967295
    0x272 47 1 1 0 0 (dlit 1 0) (dlit 0 0)
].

Definition ROADCAST_SIGNALS_48 : list roadcast_signal_definition_t := [
  mk_def 0x1b247bb37299bf3f "PEPS_KeyInReminderCfgResult" "" (SIGNAL_PARTS 480) 4294967295
    0x272 47 1 1 0 0 (dlit 1 0) (dlit 0 0);
  mk_def 0x0183db47e9a73e86 "PEPS_TrunkUnlockWithoutKeyCfgResult" "" (SIGNAL_PARTS 481) 4294967295
    0x272 47 1 1 0 0 (dlit 1 0) (dlit 0 0);
  mk_def 0x4f2430133a614d86 "PEPS_TrunkUnlockDistanceCfgResult" "" (SIGNAL_PARTS 482) 4294967295
    0x272 47 1 1 0 0 (dlit 1 0) (dlit 0 0);
  mk_def 0xe5da775a05ddfb2b "PEPS_TerminalNotOFFWarnCfgResult" "" (SIGNAL_PARTS 483) 4294967295
    0x272 47 1 1 0 0 (dlit 1 0) (dlit 0 0);
  mk_def 0xe83aec5149fa52ab "PEPS_AnyDoorOpenWarnCfgResult" "" (SIGNAL_PARTS 484) 4294967295
    0x272 47 1 1 0 0 (dlit 1 0) (dlit 0 0);
  mk_def 0xeb186897a9827bc5 "PEPS_APUCfgResult" "" (SIGNAL_PARTS 485) 4294967295
    0x272 47 1 1 0 0 (dlit 1 0) (dlit 0 0);
  mk_def 0xb7cad1cb16c48b55 "PEPS_WALCfgResult" "" (SIGNAL_PARTS 486) 4294967295
    0x272 47 1 1 0 0 (dlit 1 0) (dlit 0 0);
  mk_def 0x4c64222d11ced3aa "PEPS_SATOCfgResult" "" (SIGNAL_PARTS 487) 4294967295
    0x272 47 1 1 0 0 (dlit 1 0) (dlit 0 0);
  mk_def 0x11b08547b83f8fa7 "iTPMS_FLTyreWarn" "" (SIGNAL_PARTS 488) 4294967295
    0x1EB 31 1 2 0 0 (dlit 1 0) (dlit 0 0);
  mk_def 0xa5e6b50f92df9515 "iTPMS_FRTyreWarn" "" (SIGNAL_PARTS 489) 4294967295
    0x1EB 31 1 2 0 0 (dlit 1 0) (dlit 0 0)
].

Definition ROADCAST_SIGNALS_49 : list roadcast_signal_definition_t := [
  mk_def 0x8d056cde21b4ca7b "iTPMS_RLTyreWarn" "" (SIGNAL_PARTS 490) 4294967295
    0x1EB 31 1 2 0 0 (dlit 1 0) (dlit 0 0);
  mk_def 0xc09bad6f5d9e78e1 "iTPMS_RRTyreWarn" "" (SIGNAL_PARTS 491) 4294967295
    0x1EB 31 1 2 0 0 (dlit 1 0) (dlit 0 0);
  mk_def 0x9a0a1edb19cc9ae6 "iTPMS_comTyreWarn" "" (SIGNAL_PARTS 492) 4294967295
    0x1EB 31 1 2 0 0 (dlit 1 0) (dlit 0 0);
  mk_def 0xdc38613894b9d4ed "iTPMS_SystemSt" "" (SIGNAL_PARTS 493) 4294967295
    0x1EB 31 1 2 0 0 (dlit 1 0) (dlit 0 0);
  mk_def 0xa0ed5f3ec113ed99 "iTPMSCalPsbl" "" (SIGNAL_PARTS 494) 4294967295
    0x1EB 31 1 1 0 0 (dlit 1 0) (dlit 0 0);
  mk_def 0xf716b717a465ea5a "iTPMSCalsts" "" (SIGNAL_PARTS 495) 4294967295
    0x1EB 31 1 3 0 0 (dlit 1 0) (dlit 0 0);
  mk_def 0xd2ff9a5aca56a821 "PTG_OpenSts" "" (SIGNAL_PARTS 496) 4294967295
    0x2C8 75 1 8 0 0 (dlit 1 0) (dlit 0 0);
  mk_def 0xc88565aab80c01db "PTG_PinchEvent" "" (SIGNAL_PARTS 497) 4294967295
    0x2C8 75 1 1 0 0 (dlit 1 0) (dlit 0 0);
  mk_def 0x62aae7e4846f6e67 "PTG_OperateSts" "" (SIGNAL_PARTS 498) 4294967295
    0x2C8 75 1 2 0 0 (dlit 1 0) (dlit 0 0);
  mk_def 0xd65bcf8eaf0d2a9d "PTG_TrunkUpBasicPositionResp" "" (SIGNAL_PARTS 499) 4294967295
    0x2C8 75 1 3 0 0 (dlit 1 0) (dlit 0 0)
].

Definition ROADCAST_SIGNALS_50 : list roadcast_signal_definition_t := [
  mk_def 0xfdb2e6b629f9b56e "PTG_SystemFault" "" (SIGNAL_PARTS 500) 4294967295
    0x2C8 75 1 1 0 0 (dlit 1 0) (dlit 0 0);
  mk_def 0x756190e65f4a4d55 "L_Roll_Val_Opened" "" (SIGNAL_PARTS 501) 4294967295
    0x290 58 1 7 0 0 (dlit 1 0) (dlit 0 0);
  mk_def 0x6f1d995e8a644ba3 "BCM_MusicRhythmSts" "" (SIGNAL_PARTS 502) 4294967295
    0x290 58 1 1 0 0 (dlit 1 0) (dlit 0 0);
  mk_def 0x9bd286f4f38a3446 "BCM_ExtLightOutput" "" (SIGNAL_PARTS 503) 4294967295
    0x290 58 1 1 0 0 (dlit 1 0) (dlit 0 0);
  mk_def 0x9944b055ca9d3a74 "BCM_FrontWiperServiceModeReqSts" "" (SIGNAL_PARTS 504) 4294967295
    0x290 58 1 1 0 0 (dlit 1 0) (dlit 0 0);
  mk_def 0x37689a4355d89241 "BCM_FailReason2MMI" "" (SIGNAL_PARTS 505) 4294967295
    0x290 58 1 3 0 0 (dlit 1 0) (dlit 0 0);
  mk_def 0x3ab1added3cdbeda "TBOX_MMI_RemoteViewModeReq" "" (SIGNAL_PARTS 506) 4294967295
    0x295 61 1 2 0 0 (dlit 1 0) (dlit 0 0);
  mk_def 0xd5d1418baf823097 "TBOX_RVSSts" "" (SIGNAL_PARTS 507) 4294967295
    0x295 61 1 1 0 0 (dlit 1 0) (dlit 0 0);
  mk_def 0xbd81644a102b318a "TBOX_VLSupdateSts" "" (SIGNAL_PARTS 508) 4294967295
    0x295 61 1 1 0 0 (dlit 1 0) (dlit 0 0);
  mk_def 0xd12eb08456cd0d8b "TBOX_MMI_RemoteViewChangeReq" "" (SIGNAL_PARTS 509) 4294967295
    0x295 61 1 3 0 0 (dlit 1 0) (dlit 0 0)
].

Definition ROADCAST_SIGNALS_51 : list roadcast_signal_definition_t := [
  mk_def 0xdce8a4b1b5f39be6 "TBOX_MMI_TransmissionReq" "" (SIGNAL_PARTS 510) 4294967295
    0x295 61 1 3 0 0 (dlit 1 0) (dlit 0 0);
  mk_def 0xb83ed7b04b0e06ef "BMSH_BattVolt" "V" (SIGNAL_PARTS 511) 4294967295
    0x178 20 2 13 0 1 (dlit 10000000000000001 17) (dlit 0 0);
  mk_def 0x5ff49601e1b9ae0d "FRS_ALOD_Mode" "" (SIGNAL_PARTS 512) 4294967295
    0x1A1 24 1 4 0 0 (dlit 1 0) (dlit 0 0);
  mk_def 0xeacf9e688bb3e400 "Byte0_680" "" (SIGNAL_PARTS 513) 4294967295
    0x680 108 1 8 0 0 (dlit 1 0) (dlit 0 0);
  mk_def 0x5c3cc68e909fe8b3 "Byte1_680" "" (SIGNAL_PARTS 514) 4294967295
    0x680 108 1 8 0 0 (dlit 1 0) (dlit 0 0);
  mk_def 0x90506a610f396ffa "Byte2_680" "" (SIGNAL_PARTS 515) 4294967295
    0x680 108 1 8 0 0 (dlit 1 0) (dlit 0 0);
  mk_def 0x6dd93074986eb24d "Byte3_680" "" (SIGNAL_PARTS 516) 4294967295
    0x680 108 1 8 0 0 (dlit 1 0) (dlit 0 0);
  mk_def 0xbcd6ac9a89e8b884 "Byte4_680" "" (SIGNAL_PARTS 517) 4294967295
    0x680 108 1 8 0 0 (dlit 1 0) (dlit 0 0);
  mk_def 0x9b55ee82f6cd4457 "Byte5_680" "" (SIGNAL_PARTS 518) 4294967295
    0x680 108 1 8 0 0 (dlit 1 0) (dlit 0 0);
  mk_def 0x3f116aab5c47798e "Byte6_680" "" (SIGNAL_PARTS 519) 4294967295
    0x680 108 1 8 0 0 (dlit 1 0) (dlit 0 0)
].

Definition ROADCAST_SIGNALS_52 : list roadcast_signal_definition_t := [
  mk_def 0xc7a5b0bc714e23f1 "Byte7_680" "" (SIGNAL_PARTS 520) 4294967295
    0x680 108 1 8 0 0 (dlit 1 0) (dlit 0 0);
  mk_def 0x96f100288049369b "DVR_WIFI_password_Byte0" "" (SIGNAL_PARTS 521) 4294967295
    0x3FE 107 1 8 0 0 (dlit 1 0) (dlit 0 0);
  mk_def 0x96f0ff28804934e8 "DVR_WIFI_password_Byte1" "" (SIGNAL_PARTS 522) 4294967295
    0x3FE 107 1 8 0 0 (dlit 1 0) (dlit 0 0);
  mk_def 0x96f1022880493a01 "DVR_WIFI_password_Byte2" "" (SIGNAL_PARTS 523) 4294967295
    0x3FE 107 1 8 0 0 (dlit 1 0) (dlit 0 0);
  mk_def 0x96f101288049384e "DVR_WIFI_password_Byte3" "" (SIGNAL_PARTS 524) 4294967295
    0x3FE 107 1 8 0 0 (dlit 1 0) (dlit 0 0);
  mk_def 0x96f1042880493d67 "DVR_WIFI_password_Byte4" "" (SIGNAL_PARTS 525) 4294967295
    0x3FE 107 1 8 0 0 (dlit 1 0) (dlit 0 0);
  mk_def 0x96f1032880493bb4 "DVR_WIFI_password_Byte5" "" (SIGNAL_PARTS 526) 4294967295
    0x3FE 107 1 8 0 0 (dlit 1 0) (dlit 0 0);
  mk_def 0x96f10628804940cd "DVR_WIFI_password_Byte6" "" (SIGNAL_PARTS 527) 4294967295
    0x3FE 107 1 8 0 0 (dlit 1 0) (dlit 0 0);
  mk_def 0x96f1052880493f1a "DVR_WIFI_password_Byte7" "" (SIGNAL_PARTS 528) 4294967295
    0x3FE 107 1 8 0 0 (dlit 1 0) (dlit 0 0);
  mk_def 0x5ff5ae5b4ebb8c52 "DVR_WIFI_Account_Byte0" "" (SIGNAL_PARTS 529) 4294967295
    0x3FD 106 1 8 0 0 (dlit 1 0) (dlit 0 0)
].

Definition ROADCAST_SIGNALS_53 : list roadcast_signal_definition_t := [
  mk_def 0x5ff5af5b4ebb8e05 "DVR_WIFI_Account_Byte1" "" (SIGNAL_PARTS 530) 4294967295
    0x3FD 106 1 8 0 0 (dlit 1 0) (dlit 0 0);
  mk_def 0x5ff5ac5b4ebb88ec "DVR_WIFI_Account_Byte2" "" (SIGNAL_PARTS 531) 4294967295
    0x3FD 106 1 8 0 0 (dlit 1 0) (dlit 0 0);
  mk_def 0x5ff5ad5b4ebb8a9f "DVR_WIFI_Account_Byte3" "" (SIGNAL_PARTS 532) 4294967295
    0x3FD 106 1 8 0 0 (dlit 1 0) (dlit 0 0);
  mk_def 0x5ff5aa5b4ebb8586 "DVR_WIFI_Account_Byte4" "" (SIGNAL_PARTS 533) 4294967295
    0x3FD 106 1 8 0 0 (dlit 1 0) (dlit 0 0);
  mk_def 0x5ff5ab5b4ebb8739 "DVR_WIFI_Account_Byte5" "" (SIGNAL_PARTS 534) 4294967295
    0x3FD 106 1 8 0 0 (dlit 1 0) (dlit 0 0);
  mk_def 0x5ff5a85b4ebb8220 "DVR_WIFI_Account_Byte6" "" (SIGNAL_PARTS 535) 4294967295
    0x3FD 106 1 8 0 0 (dlit 1 0) (dlit 0 0);
  mk_def 0x3c717c272f739aa4 "DVR_WIFI_ConnectStatus" "" (SIGNAL_PARTS 536) 4294967295
    0x3FD 106 1 2 0 0 (dlit 1 0) (dlit 0 0);
  mk_def 0x1476dad98e7d2e65 "IPK_EVDTEodometer" "" (SIGNAL_PARTS 537) 4294967295
    0x3F7 105 2 12 0 0 (dlit 1 0) (dlit 0 0);
  mk_def 0x5959b9aa23ffa16b "IPK_Second" "" (SIGNAL_PARTS 538) 4294967295
    0x3F0 102 1 6 0 0 (dlit 1 0) (dlit 0 0);
  mk_def 0x5f67ddada76f31db "IPK_Minute" "" (SIGNAL_PARTS 539) 4294967295
    0x3F0 102 1 6 0 0 (dlit 1 0) (dlit 0 0)
].

Definition ROADCAST_SIGNALS_54 : list roadcast_signal_definition_t := [
  mk_def 0x9421a29b0e1b89dd "IPK_Hour" "" (SIGNAL_PARTS 540) 4294967295
    0x3F0 102 1 5 0 0 (dlit 1 0) (dlit 0 0);
  mk_def 0xe5561f9a16d59eb3 "IPK_TimeDisplayMode" "" (SIGNAL_PARTS 541) 4294967295
    0x3F0 102 1 1 0 0 (dlit 1 0) (dlit 0 0);
  mk_def 0xe23dff85497fc12f "IPK_Day" "" (SIGNAL_PARTS 542) 4294967295
    0x3F0 102 1 5 0 0 (dlit 1 0) (dlit 0 0);
  mk_def 0x73b1fc4b8a758667 "IPK_Month" "" (SIGNAL_PARTS 543) 4294967295
    0x3F0 102 1 4 0 0 (dlit 1 0) (dlit 0 0);
  mk_def 0x6b0f0317ce501fc6 "IPK_Year" "" (SIGNAL_PARTS 544) 4294967295
    0x3F0 102 1 6 0 0 (dlit 1 0) (dlit 0 0);
  mk_def 0xae1637d2931978f1 "PAS_SDW_MODE" "" (SIGNAL_PARTS 545) 4294967295
    0x392 100 1 3 0 0 (dlit 1 0) (dlit 0 0);
  mk_def 0xe6818a6fa701a7d1 "PAS_SDW_Hatch_FR" "" (SIGNAL_PARTS 546) 4294967295
    0x392 100 1 1 0 0 (dlit 1 0) (dlit 0 0);
  mk_def 0xe681946fa701b8cf "PAS_SDW_Hatch_FL" "" (SIGNAL_PARTS 547) 4294967295
    0x392 100 1 1 0 0 (dlit 1 0) (dlit 0 0);
  mk_def 0xafe4d4b8c7ea798a "PAS_SDW_Hatch_FMR" "" (SIGNAL_PARTS 548) 4294967295
    0x392 100 1 1 0 0 (dlit 1 0) (dlit 0 0);
  mk_def 0xafe4d6b8c7ea7cf0 "PAS_SDW_Hatch_FML" "" (SIGNAL_PARTS 549) 4294967295
    0x392 100 1 1 0 0 (dlit 1 0) (dlit 0 0)
].

Definition ROADCAST_SIGNALS_55 : list roadcast_signal_definition_t := [
  mk_def 0x5d3d40b92a20d50e "PAS_SDW_Hatch_RMR" "" (SIGNAL_PARTS 550) 4294967295
    0x392 100 1 1 0 0 (dlit 1 0) (dlit 0 0);
  mk_def 0x5d3d2ab92a20afac "PAS_SDW_Hatch_RML" "" (SIGNAL_PARTS 551) 4294967295
    0x392 100 1 1 0 0 (dlit 1 0) (dlit 0 0);
  mk_def 0xe6c5826fa73b6705 "PAS_SDW_Hatch_RR" "" (SIGNAL_PARTS 552) 4294967295
    0x392 100 1 1 0 0 (dlit 1 0) (dlit 0 0);
  mk_def 0xe6c5946fa73b859b "PAS_SDW_Hatch_RL" "" (SIGNAL_PARTS 553) 4294967295
    0x392 100 1 1 0 0 (dlit 1 0) (dlit 0 0);
  mk_def 0x651d42b152b55020 "PAS_SDW_Scan_FR" "" (SIGNAL_PARTS 554) 4294967295
    0x392 100 1 1 0 0 (dlit 1 0) (dlit 0 0);
  mk_def 0x651d60b152b5831a "PAS_SDW_Scan_FL" "" (SIGNAL_PARTS 555) 4294967295
    0x392 100 1 1 0 0 (dlit 1 0) (dlit 0 0);
  mk_def 0x86719f4f8a705a2d "PAS_SDW_Scan_FMR" "" (SIGNAL_PARTS 556) 4294967295
    0x392 100 1 1 0 0 (dlit 1 0) (dlit 0 0);
  mk_def 0x8671814f8a702733 "PAS_SDW_Scan_FML" "" (SIGNAL_PARTS 557) 4294967295
    0x392 100 1 1 0 0 (dlit 1 0) (dlit 0 0);
  mk_def 0xee48b34fc53a0a69 "PAS_SDW_Scan_RMR" "" (SIGNAL_PARTS 558) 4294967295
    0x392 100 1 1 0 0 (dlit 1 0) (dlit 0 0);
  mk_def 0xee48ad4fc53a0037 "PAS_SDW_Scan_RML" "" (SIGNAL_PARTS 559) 4294967295
    0x392 100 1 1 0 0 (dlit 1 0) (dlit 0 0)
].

Definition ROADCAST_SIGNALS_56 : list roadcast_signal_definition_t := [
  mk_def 0x65460ab152d7f60c "PAS_SDW_Scan_RR" "" (SIGNAL_PARTS 560) 4294967295
    0x392 100 1 1 0 0 (dlit 1 0) (dlit 0 0);
  mk_def 0x654620b152d81b6e "PAS_SDW_Scan_RL" "" (SIGNAL_PARTS 561) 4294967295
    0x392 100 1 1 0 0 (dlit 1 0) (dlit 0 0);
  mk_def 0x174e3389b10ebb02 "PAS_SDW_DISTANCE_FR" "" (SIGNAL_PARTS 562) 4294967295
    0x392 100 1 2 0 0 (dlit 1 0) (dlit 0 0);
  mk_def 0x174e2589b10ea338 "PAS_SDW_DISTANCE_FL" "" (SIGNAL_PARTS 563) 4294967295
    0x392 100 1 2 0 0 (dlit 1 0) (dlit 0 0);
  mk_def 0xa87034f7dbe1e65b "PAS_SDW_DISTANCE_FMR" "" (SIGNAL_PARTS 564) 4294967295
    0x392 100 1 2 0 0 (dlit 1 0) (dlit 0 0);
  mk_def 0xa87022f7dbe1c7c5 "PAS_SDW_DISTANCE_FML" "" (SIGNAL_PARTS 565) 4294967295
    0x392 100 1 2 0 0 (dlit 1 0) (dlit 0 0);
  mk_def 0x104728f816ab6037 "PAS_SDW_DISTANCE_RMR" "" (SIGNAL_PARTS 566) 4294967295
    0x392 100 1 2 0 0 (dlit 1 0) (dlit 0 0);
  mk_def 0x10472ef816ab6a69 "PAS_SDW_DISTANCE_RML" "" (SIGNAL_PARTS 567) 4294967295
    0x392 100 1 2 0 0 (dlit 1 0) (dlit 0 0);
  mk_def 0x1776fb89b13160ee "PAS_SDW_DISTANCE_RR" "" (SIGNAL_PARTS 568) 4294967295
    0x392 100 1 2 0 0 (dlit 1 0) (dlit 0 0);
  mk_def 0x1776e589b1313b8c "PAS_SDW_DISTANCE_RL" "" (SIGNAL_PARTS 569) 4294967295
    0x392 100 1 2 0 0 (dlit 1 0) (dlit 0 0)
].

Definition ROADCAST_SIGNALS_57 : list roadcast_signal_definition_t := [
  mk_def 0xc3c9cd04dbb4ca3e "PAS_PDC_Hatch_FR" "" (SIGNAL_PARTS 570) 4294967295
    0x392 100 1 1 0 0 (dlit 1 0) (dlit 0 0);
  mk_def 0xc3c9d704dbb4db3c "PAS_PDC_Hatch_FL" "" (SIGNAL_PARTS 571) 4294967295
    0x392 100 1 1 0 0 (dlit 1 0) (dlit 0 0);
  mk_def 0x64d6cd4154531527 "PAS_PDC_Hatch_FMR" "" (SIGNAL_PARTS 572) 4294967295
    0x392 100 1 1 0 0 (dlit 1 0) (dlit 0 0);
  mk_def 0x64d6b3415452e8f9 "PAS_PDC_Hatch_FML" "" (SIGNAL_PARTS 573) 4294967295
    0x392 100 1 1 0 0 (dlit 1 0) (dlit 0 0);
  mk_def 0x122ff941b68ab6eb "PAS_PDC_Hatch_RMR" "" (SIGNAL_PARTS 574) 4294967295
    0x392 100 1 1 0 0 (dlit 1 0) (dlit 0 0);
  mk_def 0x12300741b68aceb5 "PAS_PDC_Hatch_RML" "" (SIGNAL_PARTS 575) 4294967295
    0x392 100 1 1 0 0 (dlit 1 0) (dlit 0 0);
  mk_def 0xc40dc504dbee8972 "PAS_PDC_Hatch_RR" "" (SIGNAL_PARTS 576) 4294967295
    0x392 100 1 1 0 0 (dlit 1 0) (dlit 0 0);
  mk_def 0xc40dd704dbeea808 "PAS_PDC_Hatch_RL" "" (SIGNAL_PARTS 577) 4294967295
    0x392 100 1 1 0 0 (dlit 1 0) (dlit 0 0);
  mk_def 0x84476e7431856f4d "PAS_SoundZone_FR" "" (SIGNAL_PARTS 578) 4294967295
    0x392 100 1 2 0 0 (dlit 1 0) (dlit 0 0);
  mk_def 0x8447507431853c53 "PAS_SoundZone_FL" "" (SIGNAL_PARTS 579) 4294967295
    0x392 100 1 2 0 0 (dlit 1 0) (dlit 0 0)
].

Definition ROADCAST_SIGNALS_58 : list roadcast_signal_definition_t := [
  mk_def 0x84035674314b79b9 "PAS_SoundZone_RR" "" (SIGNAL_PARTS 580) 4294967295
    0x392 100 1 2 0 0 (dlit 1 0) (dlit 0 0);
  mk_def 0x84037074314ba5e7 "PAS_SoundZone_RL" "" (SIGNAL_PARTS 581) 4294967295
    0x392 100 1 2 0 0 (dlit 1 0) (dlit 0 0);
  mk_def 0x3a705f9a4ec480e0 "BMSH_ChgTimeRemain" "" (SIGNAL_PARTS 582) 4294967295
    0x354 95 2 11 0 0 (dlit 1 0) (dlit 0 0);
  mk_def 0xb4fcab15fda014e0 "VIMS_MMI_GestureMuteResp" "" (SIGNAL_PARTS 583) 4294967295
    0x2FF 92 1 1 0 0 (dlit 1 0) (dlit 0 0);
  mk_def 0xe2db9bcc66115832 "VIMS_MMI_CameraSoundReq" "" (SIGNAL_PARTS 584) 4294967295
    0x2FF 92 1 1 0 0 (dlit 1 0) (dlit 0 0);
  mk_def 0xc5935a0438acf27c "VIMS_MMI_MusicLikeReq" "" (SIGNAL_PARTS 585) 4294967295
    0x2FF 92 1 1 0 0 (dlit 1 0) (dlit 0 0);
  mk_def 0x644f60ef3e8de172 "VIMS_MMI_RacingReq" "" (SIGNAL_PARTS 586) 4294967295
    0x2FF 92 1 1 0 0 (dlit 1 0) (dlit 0 0);
  mk_def 0x1951c5e3d21d9423 "VIMS_MMI_MuteReq" "" (SIGNAL_PARTS 587) 4294967295
    0x2FF 92 1 1 0 0 (dlit 1 0) (dlit 0 0);
  mk_def 0xafde08ebbd89616c "VIMS_MMISystemStatus" "" (SIGNAL_PARTS 588) 4294967295
    0x2FF 92 1 1 0 0 (dlit 1 0) (dlit 0 0);
  mk_def 0x9b9d25cf9d2d3ef8 "VIMS_MMI_CameraVideoResp" "" (SIGNAL_PARTS 589) 4294967295
    0x2FF 92 1 2 0 0 (dlit 1 0) (dlit 0 0)
].

Definition ROADCAST_SIGNALS_59 : list roadcast_signal_definition_t := [
  mk_def 0x5af0d47c0fe1efcf "VIMS_MMI_GestureMusicLikeResp" "" (SIGNAL_PARTS 590) 4294967295
    0x2FF 92 1 1 0 0 (dlit 1 0) (dlit 0 0);
  mk_def 0x96ffe95dd0cff073 "VIMS_MMI_GestureRacingResp" "" (SIGNAL_PARTS 591) 4294967295
    0x2FF 92 1 1 0 0 (dlit 1 0) (dlit 0 0);
  mk_def 0x40445b33da542165 "L_AFU_FraganceRatioCh1" "" (SIGNAL_PARTS 592) 4294967295
    0x2FE 91 1 4 0 0 (dlit 1 0) (dlit 0 0);
  mk_def 0x50718cc79f9ed88f "AC_LeftSetTemperatureLevel" "" (SIGNAL_PARTS 593) 4294967295
    0x2FE 91 1 4 0 0 (dlit 1 0) (dlit 0 0);
  mk_def 0x40445933da541dff "L_AFU_FraganceRatioCh3" "" (SIGNAL_PARTS 594) 4294967295
    0x2FE 91 1 4 0 0 (dlit 1 0) (dlit 0 0);
  mk_def 0x40445833da541c4c "L_AFU_FraganceRatioCh2" "" (SIGNAL_PARTS 595) 4294967295
    0x2FE 91 1 4 0 0 (dlit 1 0) (dlit 0 0);
  mk_def 0xa79949ebc49f46bd "PEPS_TrunkUnlockCfgResult" "" (SIGNAL_PARTS 596) 4294967295
    0x2FC 89 1 1 0 0 (dlit 1 0) (dlit 0 0);
  mk_def 0x8f9e81342c0cccae "PEPS_0x1E2_TimeoutFlag" "" (SIGNAL_PARTS 597) 4294967295
    0x2FC 89 1 1 0 0 (dlit 1 0) (dlit 0 0);
  mk_def 0x09960f94c6d95b3d "PEPS_0x272_TimeoutFlag" "" (SIGNAL_PARTS 598) 4294967295
    0x2FC 89 1 1 0 0 (dlit 1 0) (dlit 0 0);
  mk_def 0xd668be0d1a85ce10 "PEPS_FMDMSetResp" "" (SIGNAL_PARTS 599) 4294967295
    0x2FC 89 1 1 0 0 (dlit 1 0) (dlit 0 0)
].

Definition ROADCAST_SIGNALS_60 : list roadcast_signal_definition_t := [
  mk_def 0x78bf564a4d94b324 "BMSH_BattSOCDisp" "" (SIGNAL_PARTS 600) 4294967295
    0x2F4 88 2 10 0 0 (dlit 1 0) (dlit 0 0);
  mk_def 0x74b2b290dbcc85a2 "VCU_InteEnergyMngStatus" "" (SIGNAL_PARTS 601) 4294967295
    0x2E2 83 1 2 0 0 (dlit 1 0) (dlit 0 0);
  mk_def 0x46cd22d0b7546f56 "VCU_SaveModeSelect" "" (SIGNAL_PARTS 602) 4294967295
    0x2E2 83 1 2 0 0 (dlit 1 0) (dlit 0 0);
  mk_def 0xfb79c8242b5f16be "VCU_DivCourteously_Type" "" (SIGNAL_PARTS 603) 4294967295
    0x2E2 83 1 5 0 0 (dlit 1 0) (dlit 0 0);
  mk_def 0x71379dcc03d1e410 "VCU_DivCourteously_Point" "" (SIGNAL_PARTS 604) 4294967295
    0x2E2 83 1 5 0 0 (dlit 1 0) (dlit 0 0);
  mk_def 0x7c227a5202df291a "VCU_DivCourteously_Reason" "" (SIGNAL_PARTS 605) 4294967295
    0x2E2 83 1 5 0 0 (dlit 1 0) (dlit 0 0);
  mk_def 0x1493cc5f3d6d6f8d "DSCU_SLV_Position" "" (SIGNAL_PARTS 606) 4294967295
    0x2DF 81 1 8 0 0 (dlit 1 0) (dlit 0 0);
  mk_def 0xdc96789d81541ea1 "DSCU_SHV_Position" "" (SIGNAL_PARTS 607) 4294967295
    0x2DF 81 1 8 0 0 (dlit 1 0) (dlit 0 0);
  mk_def 0x995d1087c12d640f "DSCU_SNV_Position" "" (SIGNAL_PARTS 608) 4294967295
    0x2DF 81 1 8 0 0 (dlit 1 0) (dlit 0 0);
  mk_def 0xed247eba384b1a18 "DSCU_LNV_Position" "" (SIGNAL_PARTS 609) 4294967295
    0x2DF 81 1 8 0 0 (dlit 1 0) (dlit 0 0)
].

Definition ROADCAST_SIGNALS_61 : list roadcast_signal_definition_t := [
  mk_def 0xf524cf046678538e "DSCU_SLV_CalibrationSts" "" (SIGNAL_PARTS 610) 4294967295
    0x2DF 81 1 2 0 0 (dlit 1 0) (dlit 0 0);
  mk_def 0x9218e29f017ea3ba "DSCU_SHV_CalibrationSts" "" (SIGNAL_PARTS 611) 4294967295
    0x2DF 81 1 2 0 0 (dlit 1 0) (dlit 0 0);
  mk_def 0xcd068cb9631f5284 "DSCU_SNV_CalibrationSts" "" (SIGNAL_PARTS 612) 4294967295
    0x2DF 81 1 2 0 0 (dlit 1 0) (dlit 0 0);
  mk_def 0xd880036a8a4c01db "DSCU_LNV_CalibrationSts" "" (SIGNAL_PARTS 613) 4294967295
    0x2DF 81 1 2 0 0 (dlit 1 0) (dlit 0 0);
  mk_def 0x017b311de641a347 "DSCU_SLV_Direction" "" (SIGNAL_PARTS 614) 4294967295
    0x2DF 81 1 2 0 0 (dlit 1 0) (dlit 0 0);
  mk_def 0x0df58ac99c94428b "DSCU_SHV_Direction" "" (SIGNAL_PARTS 615) 4294967295
    0x2DF 81 1 2 0 0 (dlit 1 0) (dlit 0 0);
  mk_def 0x2cb561499457f0dd "DSCU_SNV_Direction" "" (SIGNAL_PARTS 616) 4294967295
    0x2DF 81 1 2 0 0 (dlit 1 0) (dlit 0 0);
  mk_def 0xf0ad24892f370374 "DSCU_LNV_Direction" "" (SIGNAL_PARTS 617) 4294967295
    0x2DF 81 1 2 0 0 (dlit 1 0) (dlit 0 0);
  mk_def 0xa413a27cb1419556 "DSCU_AdjustMode" "" (SIGNAL_PARTS 618) 4294967295
    0x2DF 81 1 2 0 0 (dlit 1 0) (dlit 0 0);
  mk_def 0x16f774b9e6d0087d "DMM_SetrecognitionStsResp" "" (SIGNAL_PARTS 619) 4294967295
    0x2D8 80 1 1 0 0 (dlit 1 0) (dlit 0 0)
].

Definition ROADCAST_SIGNALS_62 : list roadcast_signal_definition_t := [
  mk_def 0x6a6e1c5aa50e6608 "DMM_SetFatiguedetectionStsResp" "" (SIGNAL_PARTS 620) 4294967295
    0x2D8 80 1 1 0 0 (dlit 1 0) (dlit 0 0);
  mk_def 0x81be5a7c0579b6c6 "DMM_SetUnsafeActStsResp" "" (SIGNAL_PARTS 621) 4294967295
    0x2D8 80 1 1 0 0 (dlit 1 0) (dlit 0 0);
  mk_def 0x7ccb724eebf26a0a "VIMS_FaceRecoPenReq" "" (SIGNAL_PARTS 622) 4294967295
    0x2D8 80 1 2 0 0 (dlit 1 0) (dlit 0 0);
  mk_def 0xb6181c67d4c1d402 "DMM_RestoreFactorySettingsResult" "" (SIGNAL_PARTS 623) 4294967295
    0x2D8 80 1 2 0 0 (dlit 1 0) (dlit 0 0);
  mk_def 0xe079bde0121b510c "DMM_FrStatus" "" (SIGNAL_PARTS 624) 4294967295
    0x2D8 80 1 3 0 0 (dlit 1 0) (dlit 0 0);
  mk_def 0x1f3ef9ddf4a56906 "DMM_SyncDriver1" "" (SIGNAL_PARTS 625) 4294967295
    0x2D8 80 1 1 0 0 (dlit 1 0) (dlit 0 0);
  mk_def 0x1f3ef8ddf4a56753 "DMM_SyncDriver2" "" (SIGNAL_PARTS 626) 4294967295
    0x2D8 80 1 1 0 0 (dlit 1 0) (dlit 0 0);
  mk_def 0x1f3ef7ddf4a565a0 "DMM_SyncDriver3" "" (SIGNAL_PARTS 627) 4294967295
    0x2D8 80 1 1 0 0 (dlit 1 0) (dlit 0 0);
  mk_def 0x1f3efeddf4a57185 "DMM_SyncDriver4" "" (SIGNAL_PARTS 628) 4294967295
    0x2D8 80 1 1 0 0 (dlit 1 0) (dlit 0 0);
  mk_def 0x1f3efdddf4a56fd2 "DMM_SyncDriver5" "" (SIGNAL_PARTS 629) 4294967295
    0x2D8 80 1 1 0 0 (dlit 1 0) (dlit 0 0)
].

Definition ROADCAST_SIGNALS_63 : list roadcast_signal_definition_t := [
  mk_def 0x3e090701a6059e60 "DMM_FrUserID" "" (SIGNAL_PARTS 630) 4294967295
    0x2D8 80 1 3 0 0 (dlit 1 0) (dlit 0 0);
  mk_def 0xeae78abbfcf02e24 "DMM_FrOprCode" "" (SIGNAL_PARTS 631) 4294967295
    0x2D8 80 1 2 0 0 (dlit 1 0) (dlit 0 0);
  mk_def 0x3722f8ecdaa7b340 "DMM_FrRegisterProgressSts" "" (SIGNAL_PARTS 632) 4294967295
    0x2D8 80 1 4 0 0 (dlit 1 0) (dlit 0 0);
  mk_def 0x28bf2999450c8ef3 "DMM_fatigue_Warning_status" "" (SIGNAL_PARTS 633) 4294967295
    0x2D8 80 1 2 0 0 (dlit 1 0) (dlit 0 0);
  mk_def 0x322aa2bb29f63e70 "DMM_AtmosphereLamp_color" "" (SIGNAL_PARTS 634) 4294967295
    0x2D8 80 1 4 0 0 (dlit 1 0) (dlit 0 0);
  mk_def 0x01e55e71f16f69b2 "DMM_AtmosphereLamp_brightness" "" (SIGNAL_PARTS 635) 4294967295
    0x2D8 80 1 5 0 0 (dlit 1 0) (dlit 0 0);
  mk_def 0x4e39736f2d928270 "DMM_AtmosphereLamp_Randompattern" "" (SIGNAL_PARTS 636) 4294967295
    0x2D8 80 1 2 0 0 (dlit 1 0) (dlit 0 0);
  mk_def 0x96874a0ada811377 "VIMS_DriverMoniterOpenReq" "" (SIGNAL_PARTS 637) 4294967295
    0x2D8 80 1 1 0 0 (dlit 1 0) (dlit 0 0);
  mk_def 0xb5408dbe4f60be66 "DMM_BackLightad" "" (SIGNAL_PARTS 638) 4294967295
    0x2D8 80 1 5 0 0 (dlit 1 0) (dlit 0 0);
  mk_def 0x153f46cd721d6aca "DMM_IPK_theme" "" (SIGNAL_PARTS 639) 4294967295
    0x2D8 80 1 2 0 0 (dlit 1 0) (dlit 0 0)
].

Definition ROADCAST_SIGNALS_64 : list roadcast_signal_definition_t := [
  mk_def 0x31a6fd636990debb "DMM_IPK_Drivingmode" "" (SIGNAL_PARTS 640) 4294967295
    0x2D8 80 1 2 0 0 (dlit 1 0) (dlit 0 0);
  mk_def 0xc25e045708bdf4ff "DMM_FragranceSpecies" "" (SIGNAL_PARTS 641) 4294967295
    0x2D8 80 1 2 0 0 (dlit 1 0) (dlit 0 0);
  mk_def 0x254562b2743e8340 "DMM_FragranceConcentration" "" (SIGNAL_PARTS 642) 4294967295
    0x2D8 80 1 2 0 0 (dlit 1 0) (dlit 0 0);
  mk_def 0x2913141ed56db2ac "DMM_FragranceSwitchEnable" "" (SIGNAL_PARTS 643) 4294967295
    0x2D8 80 1 2 0 0 (dlit 1 0) (dlit 0 0);
  mk_def 0x8a7d84c46cae1bd0 "ADB_AFSActiveResp" "" (SIGNAL_PARTS 644) 4294967295
    0x2CD 78 1 1 0 0 (dlit 1 0) (dlit 0 0);
  mk_def 0xc33e6a55131af698 "AirPtcModeReq" "" (SIGNAL_PARTS 645) 4294967295
    0x2C9 76 1 2 0 0 (dlit 1 0) (dlit 0 0);
  mk_def 0xb32f796df751167d "AirPtcEnad" "" (SIGNAL_PARTS 646) 4294967295
    0x2C9 76 1 1 0 0 (dlit 1 0) (dlit 0 0);
  mk_def 0xae95d38810ccf3c5 "AVM_View_RGearModeResponse" "" (SIGNAL_PARTS 647) 4294967295
    0x2C4 72 1 1 0 0 (dlit 1 0) (dlit 0 0);
  mk_def 0x936cf5f3ec559923 "AVM_View_DGearModeResponse" "" (SIGNAL_PARTS 648) 4294967295
    0x2C4 72 1 1 0 0 (dlit 1 0) (dlit 0 0);
  mk_def 0x70a8d32af2a2f926 "AVM_PAS_TopViewSettingResponse" "" (SIGNAL_PARTS 649) 4294967295
    0x2C4 72 1 1 0 0 (dlit 1 0) (dlit 0 0)
].

Definition ROADCAST_SIGNALS_65 : list roadcast_signal_definition_t := [
  mk_def 0xca1a0910d198f60e "AVM_PAS_VolumeLevelRequest" "" (SIGNAL_PARTS 650) 4294967295
    0x2C4 72 1 2 0 0 (dlit 1 0) (dlit 0 0);
  mk_def 0x37d0b007c95bf1ea "PAS_PDC_warning_mute" "" (SIGNAL_PARTS 651) 4294967295
    0x2C4 72 1 1 0 0 (dlit 1 0) (dlit 0 0);
  mk_def 0x9f0da90c67e7031b "RHVSM_DrvVentSts" "" (SIGNAL_PARTS 652) 4294967295
    0x2C2 70 1 3 0 0 (dlit 1 0) (dlit 0 0);
  mk_def 0xfb4ecfb3c935e22c "RHVSM_PassVentSts" "" (SIGNAL_PARTS 653) 4294967295
    0x2C2 70 1 3 0 0 (dlit 1 0) (dlit 0 0);
  mk_def 0x1c6edbd07d40e872 "DVR_SystemSts" "" (SIGNAL_PARTS 654) 4294967295
    0x2B1 68 1 4 0 0 (dlit 1 0) (dlit 0 0);
  mk_def 0xfe8e0bc8e4fa7bd4 "DVR_RecordingCycleSts" "" (SIGNAL_PARTS 655) 4294967295
    0x2B1 68 1 2 0 0 (dlit 1 0) (dlit 0 0);
  mk_def 0xd6ec833303ce52a5 "DVR_TapeSts" "" (SIGNAL_PARTS 656) 4294967295
    0x2B1 68 1 2 0 0 (dlit 1 0) (dlit 0 0);
  mk_def 0x1a6329e3870ec92a "DVR_SDcardSts" "" (SIGNAL_PARTS 657) 4294967295
    0x2B1 68 1 3 0 0 (dlit 1 0) (dlit 0 0);
  mk_def 0x88c16969f3497b5f "DVR_ResolutionSts" "" (SIGNAL_PARTS 658) 4294967295
    0x2B1 68 1 2 0 0 (dlit 1 0) (dlit 0 0);
  mk_def 0x318df96d5f7dcb7e "DVR_SDFormatResult" "" (SIGNAL_PARTS 659) 4294967295
    0x2B1 68 1 3 0 0 (dlit 1 0) (dlit 0 0)
].

Definition ROADCAST_SIGNALS_66 : list roadcast_signal_definition_t := [
  mk_def 0x6e61e27252556f4e "DVR_SystemVersionSts" "" (SIGNAL_PARTS 660) 4294967295
    0x2B1 68 2 12 0 0 (dlit 1 0) (dlit 0 0);
  mk_def 0x6b335c6f0d5dfd81 "DVR_HomeResult" "" (SIGNAL_PARTS 661) 4294967295
    0x2B1 68 1 2 0 0 (dlit 1 0) (dlit 0 0);
  mk_def 0x7f67a2182c5774c3 "DVR_RestoreFactorySettingsResult" "" (SIGNAL_PARTS 662) 4294967295
    0x2B1 68 1 2 0 0 (dlit 1 0) (dlit 0 0);
  mk_def 0xb8dfdb3e6afcf34e "DVR_CommandRespList" "" (SIGNAL_PARTS 663) 4294967295
    0x2B1 68 1 5 0 0 (dlit 1 0) (dlit 0 0);
  mk_def 0x06f7ec1fb7939b44 "DVR_EnterUpdateModeResult" "" (SIGNAL_PARTS 664) 4294967295
    0x2B1 68 1 3 0 0 (dlit 1 0) (dlit 0 0);
  mk_def 0x201e661e3d24a3d4 "DVR_CurrentVideo_counts" "" (SIGNAL_PARTS 665) 4294967295
    0x2B1 68 1 4 0 0 (dlit 1 0) (dlit 0 0);
  mk_def 0x10565c57e4ec0770 "DVR_ParkingCrashWarning" "" (SIGNAL_PARTS 666) 4294967295
    0x2B1 68 1 1 0 0 (dlit 1 0) (dlit 0 0);
  mk_def 0xaa1025719f0ed1e1 "DVR_CommandResult" "" (SIGNAL_PARTS 667) 4294967295
    0x2B1 68 1 3 0 0 (dlit 1 0) (dlit 0 0);
  mk_def 0x288e191835206d5a "DVR_CurrentVideoLockStatus" "" (SIGNAL_PARTS 668) 4294967295
    0x2B1 68 2 14 0 0 (dlit 1 0) (dlit 0 0);
  mk_def 0xf5e6a70408f6f8d5 "DVR_ControlRequest" "" (SIGNAL_PARTS 669) 4294967295
    0x2B1 68 1 2 0 0 (dlit 1 0) (dlit 0 0)
].

Definition ROADCAST_SIGNALS_67 : list roadcast_signal_definition_t := [
  mk_def 0x9769d6e544ba5c65 "AVM_status" "" (SIGNAL_PARTS 670) 4294967295
    0x2AB 67 1 1 0 0 (dlit 1 0) (dlit 0 0);
  mk_def 0x69fb1f1e3b7a3b05 "AVM_MMI_Failure" "" (SIGNAL_PARTS 671) 4294967295
    0x2AB 67 1 1 0 0 (dlit 1 0) (dlit 0 0);
  mk_def 0xea66a3a5b89a1540 "AVM_APA_Failure" "" (SIGNAL_PARTS 672) 4294967295
    0x2AB 67 1 1 0 0 (dlit 1 0) (dlit 0 0);
  mk_def 0x566ebd87e6866303 "AVM_ViewModeResp" "" (SIGNAL_PARTS 673) 4294967295
    0x2AB 67 1 4 0 0 (dlit 1 0) (dlit 0 0);
  mk_def 0xc8888aaf92acbedb "AVM_CarIconColorResp" "" (SIGNAL_PARTS 674) 4294967295
    0x2AB 67 1 3 0 0 (dlit 1 0) (dlit 0 0);
  mk_def 0xf42abc35e926ef50 "AVM_TrunningEnterAVMFuncResp" "" (SIGNAL_PARTS 675) 4294967295
    0x2AB 67 1 1 0 0 (dlit 1 0) (dlit 0 0);
  mk_def 0xa1d2a5cfaa6e722d "AVM_ControlRequest" "" (SIGNAL_PARTS 676) 4294967295
    0x2AB 67 1 3 0 0 (dlit 1 0) (dlit 0 0);
  mk_def 0xb128e0c037bcd836 "AVM_CarIconTransparentResp" "" (SIGNAL_PARTS 677) 4294967295
    0x2AB 67 1 1 0 0 (dlit 1 0) (dlit 0 0);
  mk_def 0x5cacdb655530c239 "AVM_OnroadCalibResp" "" (SIGNAL_PARTS 678) 4294967295
    0x2AB 67 1 1 0 0 (dlit 1 0) (dlit 0 0);
  mk_def 0x292e1b36ca57ca3c "AVM_HighTrunningEnterAVMFuncResp" "" (SIGNAL_PARTS 679) 4294967295
    0x2AB 67 1 1 0 0 (dlit 1 0) (dlit 0 0)
].

Definition ROADCAST_SIGNALS_68 : list roadcast_signal_definition_t := [
  mk_def 0xa47f13bb77440cb8 "AVM_PAS_ParkingWarningBeef" "" (SIGNAL_PARTS 680) 4294967295
    0x2AB 67 1 1 0 0 (dlit 1 0) (dlit 0 0);
  mk_def 0xc24eef5a17f87eeb "AVM_APA_Function_Select" "" (SIGNAL_PARTS 681) 4294967295
    0x2AB 67 1 2 0 0 (dlit 1 0) (dlit 0 0);
  mk_def 0x2a1cbfe8c4d34c35 "AVM_PSC_Function_Select" "" (SIGNAL_PARTS 682) 4294967295
    0x2AB 67 1 2 0 0 (dlit 1 0) (dlit 0 0);
  mk_def 0xf5ae678628eee91d "AVM_DynamicPGS_Resp" "" (SIGNAL_PARTS 683) 4294967295
    0x2AB 67 1 1 0 0 (dlit 1 0) (dlit 0 0);
  mk_def 0x0697e1e77c81f1b9 "AVM_SoftKeyResponse" "" (SIGNAL_PARTS 684) 4294967295
    0x2AB 67 1 1 0 0 (dlit 1 0) (dlit 0 0);
  mk_def 0x83a025515b36e2b8 "AVM_FactoryMode" "" (SIGNAL_PARTS 685) 4294967295
    0x2AB 67 1 1 0 0 (dlit 1 0) (dlit 0 0);
  mk_def 0x5f197c88c2bbf784 "AVM_BSD_StateResp" "" (SIGNAL_PARTS 686) 4294967295
    0x2AB 67 1 1 0 0 (dlit 1 0) (dlit 0 0);
  mk_def 0xe6c73b96729c3264 "AVM_MODEnableResp" "" (SIGNAL_PARTS 687) 4294967295
    0x2AB 67 1 1 0 0 (dlit 1 0) (dlit 0 0);
  mk_def 0xb052ec0a65aca82a "AVM_PDEnableResp" "" (SIGNAL_PARTS 688) 4294967295
    0x2AB 67 1 1 0 0 (dlit 1 0) (dlit 0 0);
  mk_def 0xd0fcccc03fdc38f6 "AVM_TurnONRequest" "" (SIGNAL_PARTS 689) 4294967295
    0x2AB 67 1 2 0 0 (dlit 1 0) (dlit 0 0)
].

Definition ROADCAST_SIGNALS_69 : list roadcast_signal_definition_t := [
  mk_def 0xf10133f74b97edad "AVM_3DTouringViewKeyResponse" "" (SIGNAL_PARTS 690) 4294967295
    0x2AB 67 1 1 0 0 (dlit 1 0) (dlit 0 0);
  mk_def 0xf789516599a1946e "AVM_CameraFltSts" "" (SIGNAL_PARTS 691) 4294967295
    0x2AB 67 1 4 0 0 (dlit 1 0) (dlit 0 0);
  mk_def 0x0cc0833c0f4ec4b9 "AVM_RestoreFactorySettingsFeedback" "" (SIGNAL_PARTS 692) 4294967295
    0x2AB 67 1 2 0 0 (dlit 1 0) (dlit 0 0);
  mk_def 0xfb609b99a858ab7b "AVM_ViewModeRespExtend" "" (SIGNAL_PARTS 693) 4294967295
    0x2AB 67 1 4 0 0 (dlit 1 0) (dlit 0 0);
  mk_def 0x11028e8cea6a9ec7 "AVM_ViewTouchBeef" "" (SIGNAL_PARTS 694) 4294967295
    0x2AB 67 1 1 0 0 (dlit 1 0) (dlit 0 0);
  mk_def 0xfe6e2802b44d5105 "ETC_SelfCheckSts" "" (SIGNAL_PARTS 695) 4294967295
    0x29F 66 1 1 0 0 (dlit 1 0) (dlit 0 0);
  mk_def 0x53316d16285a0b6e "ETC_TamperSts" "" (SIGNAL_PARTS 696) 4294967295
    0x29F 66 1 1 0 0 (dlit 1 0) (dlit 0 0);
  mk_def 0x3c2f33e01b65b7ad "ETC_DealFailure" "" (SIGNAL_PARTS 697) 4294967295
    0x29F 66 1 1 0 0 (dlit 1 0) (dlit 0 0);
  mk_def 0x2056edf609d98130 "ETC_TrafficSts" "" (SIGNAL_PARTS 698) 4294967295
    0x29F 66 1 1 0 0 (dlit 1 0) (dlit 0 0);
  mk_def 0x7cf32d9b272f1027 "ETC_ActiveSts" "" (SIGNAL_PARTS 699) 4294967295
    0x29F 66 1 1 0 0 (dlit 1 0) (dlit 0 0)
].

Definition ROADCAST_SIGNALS_70 : list roadcast_signal_definition_t := [
  mk_def 0xeda11f6ee33682fa "ETC_DealSucAmount" "" (SIGNAL_PARTS 700) 4294967295
    0x29F 66 4 32 0 0 (dlit 1 0) (dlit 0 0);
  mk_def 0x771cfc891b1d3f17 "DstToEmptyIndcdDstToEmpty1" "" (SIGNAL_PARTS 701) 4294967295
    0x29B 65 2 11 0 0 (dlit 1 0) (dlit 0 0);
  mk_def 0x4089fb3ab0b32c9f "AcEgyDistbn" "" (SIGNAL_PARTS 702) 4294967295
    0x29B 65 2 10 0 0 (dlit 1 0) (dlit 0 0);
  mk_def 0x771cfd891b1d40ca "DstToEmptyIndcdDstToEmpty2" "" (SIGNAL_PARTS 703) 4294967295
    0x29B 65 2 11 0 0 (dlit 1 0) (dlit 0 0);
  mk_def 0x4fbc20309efa4852 "TotDrvPwrAct" "kW" (SIGNAL_PARTS 704) 4294967295
    0x29B 65 2 11 0 0 (dlit 10000000000000001 17) (dlit (-10240000000000001) 14);
  mk_def 0x37865eeceefa3c0e "ThmEgyDistbn" "" (SIGNAL_PARTS 705) 4294967295
    0x29B 65 2 10 0 0 (dlit 1 0) (dlit 0 0);
  mk_def 0x2ac031eeae5d2913 "HvConvPwrAct" "" (SIGNAL_PARTS 706) 4294967295
    0x29B 65 2 10 0 0 (dlit 1 0) (dlit 0 0);
  mk_def 0x0794832e6b25e9dd "FuCnsAvgIndcdFuCnsIndcdVal1" "" (SIGNAL_PARTS 707) 4294967295
    0x29A 64 2 9 0 0 (dlit 1 0) (dlit 0 0);
  mk_def 0xc4624f823829d50c "PwrCnsAvgIndcdPwrCns1" "" (SIGNAL_PARTS 708) 4294967295
    0x29A 64 2 11 0 0 (dlit 1 0) (dlit 0 0);
  mk_def 0xc46252823829da25 "PwrCnsAvgIndcdPwrCns2" "" (SIGNAL_PARTS 709) 4294967295
    0x29A 64 2 11 0 0 (dlit 1 0) (dlit 0 0)
].

Definition ROADCAST_SIGNALS_71 : list roadcast_signal_definition_t := [
  mk_def 0x0794802e6b25e4c4 "FuCnsAvgIndcdFuCnsIndcdVal2" "" (SIGNAL_PARTS 710) 4294967295
    0x29A 64 2 9 0 0 (dlit 1 0) (dlit 0 0);
  mk_def 0x0794812e6b25e677 "FuCnsAvgIndcdFuCnsIndcdVal3" "" (SIGNAL_PARTS 711) 4294967295
    0x29A 64 2 9 0 0 (dlit 1 0) (dlit 0 0);
  mk_def 0xc46251823829d872 "PwrCnsAvgIndcdPwrCns3" "" (SIGNAL_PARTS 712) 4294967295
    0x29A 64 2 11 0 0 (dlit 1 0) (dlit 0 0);
  mk_def 0xeff3d152a220a9dd "EgyAvgCnsDstSg" "" (SIGNAL_PARTS 713) 4294967295
    0x29A 64 1 1 0 0 (dlit 1 0) (dlit 0 0);
  mk_def 0x0eb1681b49f5c4cd "TBOX_ALSwitchSet" "" (SIGNAL_PARTS 714) 4294967295
    0x297 62 1 2 0 0 (dlit 1 0) (dlit 0 0);
  mk_def 0xee99722bf785fb2d "TBOX_ALColourSet" "" (SIGNAL_PARTS 715) 4294967295
    0x297 62 1 7 0 0 (dlit 1 0) (dlit 0 0);
  mk_def 0xc1f7aa7bc97af4aa "AVM_APA_SystemSts" "" (SIGNAL_PARTS 716) 4294967295
    0x294 60 1 3 0 0 (dlit 1 0) (dlit 0 0);
  mk_def 0x8ab2c96072b16be0 "AVM_APA_AutoSearchSts" "" (SIGNAL_PARTS 717) 4294967295
    0x294 60 1 3 0 0 (dlit 1 0) (dlit 0 0);
  mk_def 0xa3debbaba4b31ffa "AVM_APA_ParkOutChkResult" "" (SIGNAL_PARTS 718) 4294967295
    0x294 60 1 1 0 0 (dlit 1 0) (dlit 0 0);
  mk_def 0x325a4f3188e9d429 "AVM_APA_CurrentPathNum" "" (SIGNAL_PARTS 719) 4294967295
    0x294 60 1 4 0 0 (dlit 1 0) (dlit 0 0)
].

Definition ROADCAST_SIGNALS_72 : list roadcast_signal_definition_t := [
  mk_def 0x6f18a91563786df4 "AVM_APA_TotalPathNum" "" (SIGNAL_PARTS 720) 4294967295
    0x294 60 1 4 0 0 (dlit 1 0) (dlit 0 0);
  mk_def 0xee6d0ed3a090c484 "AVM_APA_SuspendedReason" "" (SIGNAL_PARTS 721) 4294967295
    0x294 60 1 3 0 0 (dlit 1 0) (dlit 0 0);
  mk_def 0xc3af8a9b195bc06b "AVM_APA_AbortReason" "" (SIGNAL_PARTS 722) 4294967295
    0x294 60 1 5 0 0 (dlit 1 0) (dlit 0 0);
  mk_def 0x9662b0ccd5c416cc "AVM_APA_CurrentParkType" "" (SIGNAL_PARTS 723) 4294967295
    0x294 60 1 3 0 0 (dlit 1 0) (dlit 0 0);
  mk_def 0x2a9e43a1f800396f "AVM_APA_OverrideReason" "" (SIGNAL_PARTS 724) 4294967295
    0x294 60 1 3 0 0 (dlit 1 0) (dlit 0 0);
  mk_def 0xfe8a86ddb5e33646 "AVM_APA_VehicleDirection" "" (SIGNAL_PARTS 725) 4294967295
    0x294 60 1 2 0 0 (dlit 1 0) (dlit 0 0);
  mk_def 0xa2e721dff4f4f5b6 "AVM_APA_CurrentStepNum" "" (SIGNAL_PARTS 726) 4294967295
    0x294 60 1 4 0 0 (dlit 1 0) (dlit 0 0);
  mk_def 0xa11881b779414736 "AVM_APA_TerminatedType" "" (SIGNAL_PARTS 727) 4294967295
    0x294 60 1 2 0 0 (dlit 1 0) (dlit 0 0);
  mk_def 0x5bb00951c9a81942 "AVM_APA_ParkOutSystemStatus" "" (SIGNAL_PARTS 728) 4294967295
    0x294 60 1 1 0 0 (dlit 1 0) (dlit 0 0);
  mk_def 0xb17fab7b33d886ea "AVM_APA_VoicePrompts" "" (SIGNAL_PARTS 729) 4294967295
    0x294 60 1 4 0 0 (dlit 1 0) (dlit 0 0)
].

Definition ROADCAST_SIGNALS_73 : list roadcast_signal_definition_t := [
  mk_def 0x149873c9f3eeeff3 "PAS_PrkgDockDisReq" "" (SIGNAL_PARTS 730) 4294967295
    0x294 60 1 2 0 0 (dlit 1 0) (dlit 0 0);
  mk_def 0xadbbe42a4be03b27 "AVM_HalfScrnDispReq" "" (SIGNAL_PARTS 731) 4294967295
    0x294 60 1 3 0 0 (dlit 1 0) (dlit 0 0);
  mk_def 0x9b70d27ad91e17b3 "TBOX_ShareModeSts" "" (SIGNAL_PARTS 732) 4294967295
    0x292 59 1 1 0 0 (dlit 1 0) (dlit 0 0);
  mk_def 0x76b78ff0574aa353 "TBOX_Inquire_GPS" "" (SIGNAL_PARTS 733) 4294967295
    0x292 59 1 1 0 0 (dlit 1 0) (dlit 0 0);
  mk_def 0xae85c2736a46ed26 "TBOX_SystemSts" "" (SIGNAL_PARTS 734) 4294967295
    0x292 59 1 1 0 0 (dlit 1 0) (dlit 0 0);
  mk_def 0x933f8b376222e9d6 "TBOX_GloveBoxPermission" "" (SIGNAL_PARTS 735) 4294967295
    0x292 59 1 2 0 0 (dlit 1 0) (dlit 0 0);
  mk_def 0xee14c777784fadaa "TBOX_TrailerReminderStatus" "" (SIGNAL_PARTS 736) 4294967295
    0x292 59 1 2 0 0 (dlit 1 0) (dlit 0 0);
  mk_def 0x55bb9a2e64cee3bd "TCM_Req_TurnIndicationAct" "" (SIGNAL_PARTS 737) 4294967295
    0x281 50 1 2 0 0 (dlit 1 0) (dlit 0 0);
  mk_def 0x289425fcb7e5b20d "TCM_SW_Trip" "" (SIGNAL_PARTS 738) 4294967295
    0x281 50 1 2 0 0 (dlit 1 0) (dlit 0 0);
  mk_def 0x4fa5bf7fabbdf234 "TCM_IntegrationSwtCtrl_AliveCounter" "" (SIGNAL_PARTS 739) 4294967295
    0x281 50 1 4 0 0 (dlit 1 0) (dlit 0 0)
].

Definition ROADCAST_SIGNALS_74 : list roadcast_signal_definition_t := [
  mk_def 0xe5abd2631942031c "TCM_IntegrationSwtCtrl_Checksum" "" (SIGNAL_PARTS 740) 4294967295
    0x281 50 1 8 0 0 (dlit 1 0) (dlit 0 0);
  mk_def 0x3df203c32e6923a3 "SWSM_Right_Bt_00" "" (SIGNAL_PARTS 741) 4294967295
    0x26F 46 1 1 0 0 (dlit 1 0) (dlit 0 0);
  mk_def 0x3df202c32e6921f0 "SWSM_Right_Bt_01" "" (SIGNAL_PARTS 742) 4294967295
    0x26F 46 1 1 0 0 (dlit 1 0) (dlit 0 0);
  mk_def 0x3df205c32e692709 "SWSM_Right_Bt_02" "" (SIGNAL_PARTS 743) 4294967295
    0x26F 46 1 1 0 0 (dlit 1 0) (dlit 0 0);
  mk_def 0x3df204c32e692556 "SWSM_Right_Bt_03" "" (SIGNAL_PARTS 744) 4294967295
    0x26F 46 1 1 0 0 (dlit 1 0) (dlit 0 0);
  mk_def 0x3df207c32e692a6f "SWSM_Right_Bt_04" "" (SIGNAL_PARTS 745) 4294967295
    0x26F 46 1 1 0 0 (dlit 1 0) (dlit 0 0);
  mk_def 0x3df206c32e6928bc "SWSM_Right_Bt_05" "" (SIGNAL_PARTS 746) 4294967295
    0x26F 46 1 1 0 0 (dlit 1 0) (dlit 0 0);
  mk_def 0x3df209c32e692dd5 "SWSM_Right_Bt_06" "" (SIGNAL_PARTS 747) 4294967295
    0x26F 46 1 1 0 0 (dlit 1 0) (dlit 0 0);
  mk_def 0x3df208c32e692c22 "SWSM_Right_Bt_07" "" (SIGNAL_PARTS 748) 4294967295
    0x26F 46 1 1 0 0 (dlit 1 0) (dlit 0 0);
  mk_def 0x94362cdd5878c318 "SWSM_Left_Bt_06" "" (SIGNAL_PARTS 749) 4294967295
    0x26F 46 1 1 0 0 (dlit 1 0) (dlit 0 0)
].

Definition ROADCAST_SIGNALS_75 : list roadcast_signal_definition_t := [
  mk_def 0x94362fdd5878c831 "SWSM_Left_Bt_05" "" (SIGNAL_PARTS 750) 4294967295
    0x26F 46 1 1 0 0 (dlit 1 0) (dlit 0 0);
  mk_def 0x5cf9322c91af0e29 "IPK_ThemeLinkSwitchStatus" "" (SIGNAL_PARTS 751) 4294967295
    0x260 44 1 1 0 0 (dlit 1 0) (dlit 0 0);
  mk_def 0x693e5e34ced8a59d "IPK_EngSpeedDisp" "" (SIGNAL_PARTS 752) 4294967295
    0x260 44 2 13 0 0 (dlit 1 0) (dlit 0 0);
  mk_def 0xc7eeb79aadec57fb "IdleChrgFctSts" "" (SIGNAL_PARTS 753) 4294967295
    0x255 43 1 3 0 0 (dlit 1 0) (dlit 0 0);
  mk_def 0x5171c9f8c393d892 "DstEstimdToEmptyForDrvgElec" "" (SIGNAL_PARTS 754) 4294967295
    0x255 43 2 10 0 0 (dlit 1 0) (dlit 0 0);
  mk_def 0xafaab3d190b36cd0 "DstEstimdToEmptyForDrvgElecPredTyp2" "" (SIGNAL_PARTS 755) 4294967295
    0x255 43 2 10 0 0 (dlit 1 0) (dlit 0 0);
  mk_def 0x007486a554a7ab5b "HP_BacklightLevelSts" "" (SIGNAL_PARTS 756) 4294967295
    0x226 41 1 4 0 0 (dlit 1 0) (dlit 0 0);
  mk_def 0x67c742cb4a408cb6 "HP_AciveSts" "" (SIGNAL_PARTS 757) 4294967295
    0x226 41 1 2 0 0 (dlit 1 0) (dlit 0 0);
  mk_def 0x2e265e4b1f165de2 "HP_BacklightMode" "" (SIGNAL_PARTS 758) 4294967295
    0x226 41 1 2 0 0 (dlit 1 0) (dlit 0 0);
  mk_def 0x00fe11f189eca2cd "IB_BrakeModeSetResponse" "" (SIGNAL_PARTS 759) 4294967295
    0x225 40 1 3 0 0 (dlit 1 0) (dlit 0 0)
].

Definition ROADCAST_SIGNALS_76 : list roadcast_signal_definition_t := [
  mk_def 0x8af45e0c81919218 "TCU_WarningMsgRed" "" (SIGNAL_PARTS 760) 4294967295
    0x218 37 1 1 0 0 (dlit 1 0) (dlit 0 0);
  mk_def 0xad962d70c71e3335 "TCU_WarningMsgYellow" "" (SIGNAL_PARTS 761) 4294967295
    0x218 37 1 1 0 0 (dlit 1 0) (dlit 0 0);
  mk_def 0x75d35f16661076df "TCU_DriverRemind" "" (SIGNAL_PARTS 762) 4294967295
    0x218 37 1 4 0 0 (dlit 1 0) (dlit 0 0);
  mk_def 0x1748e46252f55057 "TCU_WarningMsgGearboxOvertemp" "" (SIGNAL_PARTS 763) 4294967295
    0x218 37 1 1 0 0 (dlit 1 0) (dlit 0 0);
  mk_def 0x0e95d7c76b768c24 "TCU_ParkFailureReport" "" (SIGNAL_PARTS 764) 4294967295
    0x218 37 1 1 0 0 (dlit 1 0) (dlit 0 0);
  mk_def 0x5a7fa1520de6d5ba "TCU_OvertempLevel" "" (SIGNAL_PARTS 765) 4294967295
    0x218 37 1 2 0 0 (dlit 1 0) (dlit 0 0);
  mk_def 0x66f7e4009843ec42 "BMSH_RemindChargeFull" "" (SIGNAL_PARTS 766) 4294967295
    0x212 35 1 1 0 0 (dlit 1 0) (dlit 0 0);
  mk_def 0x30fc366ca0b4445a "BMSH_BookChargeRemind" "" (SIGNAL_PARTS 767) 4294967295
    0x212 35 1 4 0 0 (dlit 1 0) (dlit 0 0);
  mk_def 0x3f681b0afeed9cda "BMSH_ChargeEnable" "" (SIGNAL_PARTS 768) 4294967295
    0x211 34 1 4 0 0 (dlit 1 0) (dlit 0 0);
  mk_def 0x5cc04351a4428b63 "BMSH_OBC_CellMaxChgVolt" "V" (SIGNAL_PARTS 769) 4294967295
    0x211 34 2 9 0 1 (dlit 1 2) (dlit 0 0)
].

Definition ROADCAST_SIGNALS_77 : list roadcast_signal_definition_t := [
  mk_def 0x381ec6de989702a5 "BMSH_OBC_CellMinDischgVolt" "V" (SIGNAL_PARTS 770) 4294967295
    0x211 34 2 9 0 1 (dlit 1 2) (dlit 0 0);
  mk_def 0x5293d1454c2c004c "BMSH_ChargeOutVolSetP" "V" (SIGNAL_PARTS 771) 4294967295
    0x211 34 2 14 0 1 (dlit 10000000000000001 17) (dlit 0 0);
  mk_def 0x46aedd66935a4078 "BMSH_BookTrvlReq" "" (SIGNAL_PARTS 772) 4294967295
    0x211 34 1 1 0 0 (dlit 1 0) (dlit 0 0);
  mk_def 0x03421e9c66ac51a3 "LOGOWorkSts" "" (SIGNAL_PARTS 773) 4294967295
    0x1FB 33 1 1 0 0 (dlit 1 0) (dlit 0 0);
  mk_def 0x8302ed550ca4bede "LOGOErrorSts" "" (SIGNAL_PARTS 774) 4294967295
    0x1FB 33 1 1 0 0 (dlit 1 0) (dlit 0 0);
  mk_def 0xf498df6bd9fe3495 "PAS_APA_Quit_Indication" "" (SIGNAL_PARTS 775) 4294967295
    0x191 23 1 5 0 0 (dlit 1 0) (dlit 0 0);
  mk_def 0x501a1f88e7ddb904 "PAS_APA_Recover_INT_Indication" "" (SIGNAL_PARTS 776) 4294967295
    0x191 23 1 3 0 0 (dlit 1 0) (dlit 0 0);
  mk_def 0x241b398bd1a89bb5 "PAS_APA_DrRqst" "" (SIGNAL_PARTS 777) 4294967295
    0x191 23 1 5 0 0 (dlit 1 0) (dlit 0 0);
  mk_def 0x2aa46ef041ebcc47 "PAS_APA_Parkslot_State" "" (SIGNAL_PARTS 778) 4294967295
    0x191 23 1 2 0 0 (dlit 1 0) (dlit 0 0);
  mk_def 0x440302e56ab651cc "PAS_APA_ButtonPress" "" (SIGNAL_PARTS 779) 4294967295
    0x191 23 1 1 0 0 (dlit 1 0) (dlit 0 0)
].

Definition ROADCAST_SIGNALS_78 : list roadcast_signal_definition_t := [
  mk_def 0x659d8f9614dc260a "PAS_SVA_Mode" "" (SIGNAL_PARTS 780) 4294967295
    0x191 23 1 3 0 0 (dlit 1 0) (dlit 0 0);
  mk_def 0x5035f04faace8407 "PAS_SVA_Status" "" (SIGNAL_PARTS 781) 4294967295
    0x191 23 1 1 0 0 (dlit 1 0) (dlit 0 0);
  mk_def 0x2d2ad9b5eebf3933 "PAS_APA_SelectedSide" "" (SIGNAL_PARTS 782) 4294967295
    0x191 23 1 2 0 0 (dlit 1 0) (dlit 0 0);
  mk_def 0xf9e15fb4fa0d712f "PAS_APA_Indication" "" (SIGNAL_PARTS 783) 4294967295
    0x191 23 1 3 0 0 (dlit 1 0) (dlit 0 0);
  mk_def 0x8804b3dca43e6b9b "PAS_APA_Status" "" (SIGNAL_PARTS 784) 4294967295
    0x191 23 1 3 0 0 (dlit 1 0) (dlit 0 0);
  mk_def 0xc03d6d1e071c9b11 "PAS_APA_EndCurrentVoiceReq" "" (SIGNAL_PARTS 785) 4294967295
    0x191 23 1 1 0 0 (dlit 1 0) (dlit 0 0);
  mk_def 0x98234a8b2453c434 "PAS_APA_Process_bar" "" (SIGNAL_PARTS 786) 4294967295
    0x191 23 1 7 0 0 (dlit 1 0) (dlit 0 0);
  mk_def 0xdc7d4bd323542aa7 "PAS_SVA_AudibleWarning" "" (SIGNAL_PARTS 787) 4294967295
    0x191 23 1 1 0 0 (dlit 1 0) (dlit 0 0);
  mk_def 0xa0f6b9f48f5f98e4 "PAS_SVA_APA_Status_AliveCounter" "" (SIGNAL_PARTS 788) 4294967295
    0x191 23 1 4 0 0 (dlit 1 0) (dlit 0 0);
  mk_def 0xc8cf5c197750544c "PAS_SVA_APA_Status_Checksum" "" (SIGNAL_PARTS 789) 4294967295
    0x191 23 1 8 0 0 (dlit 1 0) (dlit 0 0)
].

Definition ROADCAST_SIGNALS_79 : list roadcast_signal_definition_t := [
  mk_def 0x17a9c2ef069d6765 "IPU_DcDcActvd" "" (SIGNAL_PARTS 790) 4294967295
    0x176 19 1 1 0 0 (dlit 1 0) (dlit 0 0);
  mk_def 0x73a39e476a9dfe2a "VCU_EPedlModSts" "" (SIGNAL_PARTS 791) 4294967295
    0x169 18 1 2 0 0 (dlit 1 0) (dlit 0 0);
  mk_def 0x424579f5641f2f51 "VCU_EpedlInhbnSts" "" (SIGNAL_PARTS 792) 4294967295
    0x169 18 1 1 0 0 (dlit 1 0) (dlit 0 0);
  mk_def 0xbb6f182947e14c35 "VCU_EPedlDrvrIndcnMsg" "" (SIGNAL_PARTS 793) 4294967295
    0x169 18 1 2 0 0 (dlit 1 0) (dlit 0 0);
  mk_def 0xd8fa49a2b30613dd "DispOfPrpsnMod" "" (SIGNAL_PARTS 794) 4294967295
    0x161 15 1 4 0 0 (dlit 1 0) (dlit 0 0);
  mk_def 0xa29762d481feeaae "VCU_RegencyLevelSwReq" "" (SIGNAL_PARTS 795) 4294967295
    0x160 14 1 1 0 0 (dlit 1 0) (dlit 0 0);
  mk_def 0xdad7dd0423e63ab2 "DDM_MmryScsIndReq" "" (SIGNAL_PARTS 796) 4294967295
    0x139 12 1 1 0 0 (dlit 1 0) (dlit 0 0);
  mk_def 0x1e2b4afdc362c7b1 "DDM_MmryFailIndReq" "" (SIGNAL_PARTS 797) 4294967295
    0x139 12 1 1 0 0 (dlit 1 0) (dlit 0 0);
  mk_def 0x15a8ddb10c005115 "DDM_RMirrorPlayBackStopCmd" "" (SIGNAL_PARTS 798) 4294967295
    0x139 12 1 2 0 0 (dlit 1 0) (dlit 0 0);
  mk_def 0x2acd1412750e96eb "ESC_FLWheelSpeedKPH" "km/h" (SIGNAL_PARTS 799) 4294967295
    0x122 6 2 13 0 1 (dlit 1 0) (dlit 0 0)
].

Definition ROADCAST_SIGNALS_80 : list roadcast_signal_definition_t := [
  mk_def 0x5be8d20699755449 "ESC_FLWheelSpeedInvalid" "" (SIGNAL_PARTS 800) 4294967295
    0x122 6 1 1 0 0 (dlit 1 0) (dlit 0 0);
  mk_def 0xe0915fa05ca1c740 "ESC_FLWheelDirection" "" (SIGNAL_PARTS 801) 4294967295
    0x122 6 1 2 0 0 (dlit 1 0) (dlit 0 0);
  mk_def 0x769bedba4cf1821d "ESC_FRWheelSpeedKPH" "km/h" (SIGNAL_PARTS 802) 4294967295
    0x122 6 2 13 0 1 (dlit 1 0) (dlit 0 0);
  mk_def 0x1a9ff7a537fe8d97 "ESC_FRWheelSpeedInvalid" "" (SIGNAL_PARTS 803) 4294967295
    0x122 6 1 1 0 0 (dlit 1 0) (dlit 0 0);
  mk_def 0x9d60c8c0214f7c4e "ESC_FRWheelDirection" "" (SIGNAL_PARTS 804) 4294967295
    0x122 6 1 2 0 0 (dlit 1 0) (dlit 0 0);
  mk_def 0x0168b6b0933ae401 "ESC_FrontWheelSpeedsKPH_AliveCounter" "" (SIGNAL_PARTS 805) 4294967295
    0x122 6 1 4 0 0 (dlit 1 0) (dlit 0 0);
  mk_def 0xd1d520f6c440aa59 "ESC_FrontWheelSpeedsKPH_Checksum" "" (SIGNAL_PARTS 806) 4294967295
    0x122 6 1 8 0 0 (dlit 1 0) (dlit 0 0);
  mk_def 0xe34fdededd52391c "VCU_GWRCSwtAvl" "" (SIGNAL_PARTS 807) 4294967295
    0x0BA 3 1 1 0 0 (dlit 1 0) (dlit 0 0);
  mk_def 0xae040bb467a20628 "VCU_GWRCResponse" "" (SIGNAL_PARTS 808) 4294967295
    0x0BA 3 1 1 0 0 (dlit 1 0) (dlit 0 0);
  mk_def 0x97f2da24e51c04f0 "VCU_RegenTrqAct" "" (SIGNAL_PARTS 809) 4294967295
    0x0A6 1 2 12 0 0 (dlit 1 0) (dlit 0 0)
].

Definition ROADCAST_SIGNALS_81 : list roadcast_signal_definition_t := [
  mk_def 0xc7938a99deb500f4 "VCU_RegenTrqActQualifier" "" (SIGNAL_PARTS 810) 4294967295
    0x0A6 1 1 1 0 0 (dlit 1 0) (dlit 0 0);
  mk_def 0x0b834869bdf49864 "VCU_AccelPedalPositionInvalid" "" (SIGNAL_PARTS 811) 4294967295
    0x0A6 1 1 1 0 0 (dlit 1 0) (dlit 0 0);
  mk_def 0xb0475b9e69ecb0e1 "VCU_AccelPedalPosition" "%" (SIGNAL_PARTS 812) 811
    0x0A6 1 1 8 0 1 (dlit 40000000000000002 17) (dlit 0 0);
  mk_def 0xec9d0189074261ad "Diag_req" "" (SIGNAL_PARTS 813) 4294967295
    0x7DF 110 8 64 0 0 (dlit 1 0) (dlit 0 0);
  mk_def 0xe1a80046d86ceff7 "Diag_req" "" (SIGNAL_PARTS 814) 4294967295
    0x7C1 109 8 64 0 0 (dlit 1 0) (dlit 0 0)
].

Definition ROADCAST_SIGNALS : list roadcast_signal_definition_t :=
  ROADCAST_SIGNALS_0 ++ ROADCAST_SIGNALS_1 ++ ROADCAST_SIGNALS_2 ++ ROADCAST_SIGNALS_3 ++
  ROADCAST_SIGNALS_4 ++ ROADCAST_SIGNALS_5 ++ ROADCAST_SIGNALS_6 ++ ROADCAST_SIGNALS_7 ++
  ROADCAST_SIGNALS_8 ++ ROADCAST_SIGNALS_9 ++ ROADCAST_SIGNALS_10 ++ ROADCAST_SIGNALS_11 ++
  ROADCAST_SIGNALS_12 ++ ROADCAST_SIGNALS_13 ++ ROADCAST_SIGNALS_14 ++
  ROADCAST_SIGNALS_15 ++ ROADCAST_SIGNALS_16 ++ ROADCAST_SIGNALS_17 ++
  ROADCAST_SIGNALS_18 ++ ROADCAST_SIGNALS_19 ++ ROADCAST_SIGNALS_20 ++
  ROADCAST_SIGNALS_21 ++ ROADCAST_SIGNALS_22 ++ ROADCAST_SIGNALS_23 ++
  ROADCAST_SIGNALS_24 ++ ROADCAST_SIGNALS_25 ++ ROADCAST_SIGNALS_26 ++
  ROADCAST_SIGNALS_27 ++ ROADCAST_SIGNALS_28 ++ ROADCAST_SIGNALS_29 ++
  ROADCAST_SIGNALS_30 ++ ROADCAST_SIGNALS_31 ++ ROADCAST_SIGNALS_32 ++
  ROADCAST_SIGNALS_33 ++ ROADCAST_SIGNALS_34 ++ ROADCAST_SIGNALS_35 ++
  ROADCAST_SIGNALS_36 ++ ROADCAST_SIGNALS_37 ++ ROADCAST_SIGNALS_38 ++
  ROADCAST_SIGNALS_39 ++ ROADCAST_SIGNALS_40 ++ ROADCAST_SIGNALS_41 ++
  ROADCAST_SIGNALS_42 ++ ROADCAST_SIGNALS_43 ++ ROADCAST_SIGNALS_44 ++
  ROADCAST_SIGNALS_45 ++ ROADCAST_SIGNALS_46 ++ ROADCAST_SIGNALS_47 ++
  ROADCAST_SIGNALS_48 ++ ROADCAST_SIGNALS_49 ++ ROADCAST_SIGNALS_50 ++
  ROADCAST_SIGNALS_51 ++ ROADCAST_SIGNALS_52 ++ ROADCAST_SIGNALS_53 ++
  ROADCAST_SIGNALS_54 ++ ROADCAST_SIGNALS_55 ++ ROADCAST_SIGNALS_56 ++
  ROADCAST_SIGNALS_57 ++ ROADCAST_SIGNALS_58 ++ ROADCAST_SIGNALS_59 ++
  ROADCAST_SIGNALS_60 ++ ROADCAST_SIGNALS_61 ++ ROADCAST_SIGNALS_62 ++
  ROADCAST_SIGNALS_63 ++ ROADCAST_SIGNALS_64 ++ ROADCAST_SIGNALS_65 ++
  ROADCAST_SIGNALS_66 ++ ROADCAST_SIGNALS_67 ++ ROADCAST_SIGNALS_68 ++
  ROADCAST_SIGNALS_69 ++ ROADCAST_SIGNALS_70 ++ ROADCAST_SIGNALS_71 ++
  ROADCAST_SIGNALS_72 ++ ROADCAST_SIGNALS_73 ++ ROADCAST_SIGNALS_74 ++
  ROADCAST_SIGNALS_75 ++ ROADCAST_SIGNALS_76 ++ ROADCAST_SIGNALS_77 ++
  ROADCAST_SIGNALS_78 ++ ROADCAST_SIGNALS_79 ++ ROADCAST_SIGNALS_80 ++ ROADCAST_SIGNALS_81.
