(* ===== verification/Catalog.v ===== *)
(** * Catalog decoding and schema pages: src/catalog.c

    Bit extraction, physical conversion, the full decode of a frame set and the
    schema pages.  [generated_catalog] is the catalog the daemon is compiled
    with; its laws, stable ids and schema hash are checked against
    scripts/generate-catalog.py by computation. *)

From Stdlib Require Import String.
From S2P Require Import Prelude Double Wire CatalogDefs CatalogData.

#[export] Instance eta_value : Eta roadcast_signal_value_t := fun v =>
  mk_value (raw v) (physical v) (sig_first_observed_ns v) (sig_last_change_ns v)
    (sig_state v) (calibrated v).

#[export] Instance generated_catalog : Catalog := {|
  CAN_IDS := ROADCAST_CAN_IDS;
  SIGNALS := ROADCAST_SIGNALS;
  SCHEMA_HASH := ROADCAST_CAN_SCHEMA_HASH;
|}.

(** ** scripts/generate-catalog.py *)

Definition fnv1a (data : list Z) (initial : Z) : Z :=
  fold_left (fun value byte =>
    Z.land (0x100000001b3 * Z.lxor value byte) 0xffffffffffffffff) data initial.

Definition FNV_OFFSET : Z := 0xcbf29ce484222325.

Definition stable_id_of (can_id : Z) (name : string) : Z :=
  fnv1a (c_bytes ROADCAST_STABLE_ID_NAMESPACE ++ [0] ++ be16 can_id ++ c_bytes name)
    FNV_OFFSET.

(** The canonical bytes one signal contributes to the schema hash. *)
Definition schema_hash_bytes (index : Z) (d : roadcast_signal_definition_t) : list Z :=
  be64 (def_stable_id d) ++ be32 index ++ be32 (def_invalid_signal_index d)
    ++ be16 (def_can_id d)
    ++ [def_width d; is_signed d; def_calibrated d; zlen (parts d)]
    ++ be64 (def_scale d) ++ be64 (def_offset d)
    ++ be16 (zlen (c_bytes (def_name d))) ++ c_bytes (def_name d)
    ++ be16 (zlen (c_bytes (def_unit d))) ++ c_bytes (def_unit d)
    ++ concat (map (fun p => [word p; part_offset p; bits p]) (parts d)).

Definition schema_hash (signals : list roadcast_signal_definition_t) : Z :=
  (fold_left
     (fun '(index, value) d => (index + 1, fnv1a (schema_hash_bytes index d) value))
     signals (0, fnv1a (c_bytes "roadcast.schema.can.v1" ++ [0]) FNV_OFFSET)).2.

(** ** Bit extraction *)

Definition read_le32 (input : list Z) (off : Z) : res Z :=
  b0 ← rd input off;
  b1 ← rd input (off + 1);
  b2 ← rd input (off + 2);
  b3 ← rd input (off + 3);
  mret (Z.lor (Z.lor (Z.lor b0 (u32 (Z.shiftl b1 8))) (u32 (Z.shiftl b2 16)))
              (u32 (Z.shiftl b3 24))).

(** A shift by 32 or more of a [uint32_t] is undefined. *)
Definition extract_part (frame : list Z) (part : roadcast_signal_part_t) : res Z :=
  w ← read_le32 frame (word part);
  let shift := u32 (32 - part_offset part - bits part) in
  if 32 <=? shift then UB
  else
    let mask := if 32 <=? bits part then UINT32_MAX else u32 (Z.shiftl 1 (bits part) - 1) in
    mret (Z.land (Z.shiftr w shift) mask).

Definition roadcast_decode_signal_raw (definition : roadcast_signal_definition_t)
    (frame : list Z) : res Z :=
  loop (Z.to_nat (part_count definition)) 0
    (fun i value =>
       part ← rd (parts definition) i;
       if 64 <=? bits part then UB
       else
         x ← extract_part frame part;
         mret (Z.lor (u64 (Z.shiftl value (bits part))) x)) 0.

(** ** Physical values *)

Definition roadcast_decode_signal_physical (definition : roadcast_signal_definition_t)
    (raw : Z) : res double :=
  numeric ←
    (if negb (is_signed definition =? 0) && (0 <? def_width definition) then
       if 64 <=? def_width definition - 1 then UB
       else
         let sign := Z.shiftl 1 (def_width definition - 1) in
         if negb (Z.land raw sign =? 0) then
           if def_width definition =? 64 then
             mret (dopp (dadd (double_of_Z (u64 (UINT64_MAX - raw))) (double_of_Z 1)))
           else
             let modulus := u64 (Z.shiftl 1 (def_width definition)) in
             mret (dopp (double_of_Z (u64 (modulus - raw))))
         else mret (double_of_Z raw)
     else mret (double_of_Z raw));
  mret (dadd (dmul numeric (def_scale definition)) (def_offset definition)).

(** ** Decoding every signal *)

Section Decode.
Context `{Catalog}.

Definition decode_one (frames : list roadcast_frame_t)
    (definition : roadcast_signal_definition_t) : res roadcast_signal_value_t :=
  frame ← rd frames (frame_index definition);
  raw ← roadcast_decode_signal_raw definition (data frame);
  physical ← roadcast_decode_signal_physical definition raw;
  mret (mk_value raw physical (first_observed_ns frame) (last_change_ns frame)
          (state frame) (def_calibrated definition)).

(** The second loop: a valid signal whose validity flag is raised is invalid. *)
Definition apply_invalid (i : Z) (values : list roadcast_signal_value_t)
  : res (list roadcast_signal_value_t) :=
  definition ← rd SIGNALS i;
  let invalid_index := def_invalid_signal_index definition in
  v ← rd values i;
  if (sig_state v =? ROADCAST_OBSERVATION_VALID)
     && negb (invalid_index =? UINT32_MAX) then
    flag ← rd values invalid_index;
    if negb (raw flag =? 0)
    then wr values i (v <| sig_state := ROADCAST_OBSERVATION_INVALID |>)
    else mret values
  else mret values.

Definition roadcast_decode_signals (frames : list roadcast_frame_t)
  : res (list roadcast_signal_value_t) :=
  values ← mapr (decode_one frames) SIGNALS;
  loop (length SIGNALS) 0 apply_invalid values.

(** ** Schema pages *)

Definition encode_schema_entry (out : list Z) (entry i : Z)
    (definition : roadcast_signal_definition_t) : res (list Z) :=
  let name := c_bytes (def_name definition) in
  let unit_ := c_bytes (def_unit definition) in
  out ← put_u64 out entry (def_stable_id definition);
  out ← put_u32 out (entry + 8) i;
  out ← put_u32 out (entry + 12) (def_invalid_signal_index definition);
  out ← put_u16 out (entry + 16) (def_can_id definition);
  out ← wr out (entry + 18) ROADCAST_ITEM_CAN_SIGNAL;
  out ← wr out (entry + 19) ROADCAST_SOURCE_RAW_CAN;
  out ← wr out (entry + 20) (def_width definition);
  out ← wr out (entry + 21)
          (Z.lor (if negb (is_signed definition =? 0) then ROADCAST_SCHEMA_FLAG_SIGNED else 0)
                 (if negb (def_calibrated definition =? 0)
                  then ROADCAST_SCHEMA_FLAG_CALIBRATED else 0));
  out ← put_u16 out (entry + 22) (u16 (zlen name));
  out ← put_u16 out (entry + 24) (u16 (zlen unit_));
  out ← put_u16 out (entry + 26) 0;
  out ← put_double out (entry + 28) (def_scale definition);
  out ← put_double out (entry + 36) (def_offset definition);
  out ← blit out (entry + ROADCAST_SCHEMA_ENTRY_FIXED_SIZE) name;
  blit out (entry + ROADCAST_SCHEMA_ENTRY_FIXED_SIZE + zlen name) unit_.

(** The entry loop from signal [i] on: it stops at the first entry that does
    not fit.  [defs] are the signals from [i]. *)
Fixpoint encode_schema_entries (out : list Z) (capacity length_ count i : Z)
    (defs : list roadcast_signal_definition_t) : res (list Z * Z * Z) :=
  match defs with
  | [] => mret (out, length_, count)
  | definition :: defs' =>
      let entry_length := ROADCAST_SCHEMA_ENTRY_FIXED_SIZE
                          + zlen (c_bytes (def_name definition))
                          + zlen (c_bytes (def_unit definition)) in
      if sz (capacity - length_) <? entry_length then mret (out, length_, count)
      else
        out ← encode_schema_entry out length_ i definition;
        encode_schema_entries out capacity (length_ + entry_length) (count + 1) (i + 1) defs'
  end.

(** Returns the length, the encoded count and the buffer; [Fail] is a return
    of 0 with [*encoded_count = 0]. *)
Definition roadcast_encode_schema_chunk (out : list Z) (capacity start_index : Z)
  : res (Z * Z * list Z) :=
  reject_if ((capacity <? ROADCAST_SCHEMA_CHUNK_PREFIX_SIZE)
             || (SIGNAL_COUNT <=? start_index));;
  out ← put_u32 out 0 ROADCAST_SCHEMA_VERSION;
  out ← put_u32 out 4 SIGNAL_COUNT;
  out ← put_u32 out 8 start_index;
  out ← put_u32 out 12 0;
  out ← put_u64 out 16 SCHEMA_HASH;
  '(out, length_, count) ←
    encode_schema_entries out capacity ROADCAST_SCHEMA_CHUNK_PREFIX_SIZE 0 start_index
      (drop (Z.to_nat start_index) SIGNALS);
  out ← put_u32 out 12 count;
  reject_if (count =? 0);;
  mret (length_, count, out).
End Decode.

(** ** The generated catalog *)

#[export] Instance generated_catalog_ok : CatalogOk generated_catalog.
Proof.
  split.
  - vm_compute. reflexivity.
  - vm_compute. reflexivity.
  - apply (bool_decide_eq_true_1 (NoDup CAN_IDS)). vm_compute. reflexivity.
  - vm_compute. discriminate.
  - vm_compute. discriminate.
  - split; vm_compute; reflexivity.
  - split; vm_compute; [discriminate|reflexivity].
Qed.

Lemma definition_ok_facts `{CatalogOk} d : d ∈ SIGNALS -> definition_ok d = true.
Proof.
  intros Hd. pose proof catalog_definitions as Hall.
  rewrite forallb_forall in Hall. apply Hall. by apply list_elem_of_In.
Qed.

(** ** Extraction against the frame as one 64-bit little-endian integer *)

Fixpoint le_int (bytes : list Z) : Z :=
  match bytes with
  | [] => 0
  | b :: bytes' => b + 2 ^ 8 * le_int bytes'
  end.

(** The bits of [frame] from bit [pos] up, [n] of them. *)
Definition bit_field (frame : list Z) (pos n : Z) : Z :=
  (le_int frame / 2 ^ pos) mod 2 ^ n.

(** The value of a part list: its fields, the first one most significant. *)
Definition parts_value (frame : list Z) (ps : list roadcast_signal_part_t) : Z :=
  fold_left (fun value p =>
    value * 2 ^ bits p
    + bit_field frame (8 * word p + (32 - part_offset p - bits p)) (bits p)) ps 0.

Lemma le_int_drop bytes k :
  bytes_ok bytes -> (k <= length bytes)%nat ->
  le_int (drop k bytes) = le_int bytes / 2 ^ (8 * Z.of_nat k).
Proof.
  revert bytes. induction k as [|k IH]; intros bytes Hb Hk.
  { by rewrite Z.mul_0_r, Z.div_1_r. }
  destruct bytes as [|b bytes]; [cbn in Hk; lia|]. inversion_clear Hb. cbn [drop le_int].
  rewrite IH by (done || cbn in Hk; lia).
  replace (8 * Z.of_nat (S k)) with (8 + 8 * Z.of_nat k) by lia.
  rewrite Z.pow_add_r, <- Z.div_div by lia. f_equal.
  unfold is_u8 in *. rewrite Z.add_comm, Z.mul_comm, Z.div_add_l, Z.div_small; lia.
Qed.

Lemma read_le32_value frame w :
  bytes_ok frame -> 0 <= w -> w + 4 <= zlen frame ->
  read_le32 frame w = Ok ((le_int frame / 2 ^ (8 * w)) mod 2 ^ 32).
Proof.
  intros Hb Hw Hl. unfold read_le32.
  destruct (rd_ok frame w) as (b0 & R0 & L0); [lia|].
  destruct (rd_ok frame (w + 1)) as (b1 & R1 & L1); [lia|].
  destruct (rd_ok frame (w + 2)) as (b2 & R2 & L2); [lia|].
  destruct (rd_ok frame (w + 3)) as (b3 & R3 & L3); [lia|].
  pose proof (bytes_ok_rd _ _ _ Hb R0). pose proof (bytes_ok_rd _ _ _ Hb R1).
  pose proof (bytes_ok_rd _ _ _ Hb R2). pose proof (bytes_ok_rd _ _ _ Hb R3).
  rewrite R0, bind_ok, R1, bind_ok, R2, bind_ok, R3, bind_ok.
  unfold mret, res_ret. f_equal. unfold is_u8 in *.
  set (k := Z.to_nat w) in *. replace (8 * w) with (8 * Z.of_nat k) by (subst k; lia).
  rewrite <- le_int_drop by (done || unfold zlen in Hl; subst k; lia).
  replace (Z.to_nat (w + 1)) with (S k) in L1 by (subst k; lia).
  replace (Z.to_nat (w + 2)) with (S (S k)) in L2 by (subst k; lia).
  replace (Z.to_nat (w + 3)) with (S (S (S k))) in L3 by (subst k; lia).
  rewrite (drop_S _ _ _ L0), (drop_S _ _ _ L1), (drop_S _ _ _ L2), (drop_S _ _ _ L3).
  cbn [le_int]. set (r := le_int _).
  rewrite !Z.shiftl_mul_pow2, !u32_id by (unfold is_u32; lia).
  rewrite (Z.lor_comm b0), <- (Z.shiftl_mul_pow2 b1), lor_shiftl_add by lia.
  rewrite (Z.lor_comm _ (b2 * _)), <- (Z.shiftl_mul_pow2 b2), lor_shiftl_add by lia.
  rewrite (Z.lor_comm _ (b3 * _)), <- (Z.shiftl_mul_pow2 b3), lor_shiftl_add by lia.
  replace (b0 + 2 ^ 8 * (b1 + 2 ^ 8 * (b2 + 2 ^ 8 * (b3 + 2 ^ 8 * r))))
    with ((b3 * 2 ^ 24 + (b2 * 2 ^ 16 + (b1 * 2 ^ 8 + b0))) + r * 2 ^ 32) by lia.
  rewrite Z.mod_add, Z.mod_small; lia.
Qed.

Lemma extract_part_value frame p :
  bytes_ok frame -> zlen frame = 8 -> part_ok p = true ->
  extract_part frame p
  = Ok (bit_field frame (8 * word p + (32 - part_offset p - bits p)) (bits p)).
Proof.
  intros Hb Hl Hp. unfold part_ok in Hp. split_bools. unfold extract_part.
  rewrite read_le32_value, bind_ok by (done || lia). cbn zeta.
  rewrite u32_id by (unfold is_u32; lia).
  destruct (Z.leb_spec 32 (32 - part_offset p - bits p)); [lia|].
  unfold mret, res_ret. f_equal. unfold bit_field.
  set (f := le_int frame). set (s := 32 - part_offset p - bits p).
  assert (Hmask : (if 32 <=? bits p then UINT32_MAX else u32 (Z.shiftl 1 (bits p) - 1))
                  = Z.ones (bits p)).
  { rewrite Z.ones_equiv. destruct (Z.leb_spec 32 (bits p)).
    - by replace (bits p) with 32 by lia.
    - rewrite Z.shiftl_mul_pow2, Z.mul_1_l by lia.
      pose proof (Z.pow_lt_mono_r 2 (bits p) 32).
      pose proof (Z.pow_pos_nonneg 2 (bits p)). rewrite u32_id; unfold is_u32; lia. }
  rewrite Hmask, Z.land_ones, shiftr_div by lia.
  rewrite Z.pow_add_r, <- Z.div_div by (lia || apply Z.pow_nonzero; lia).
  apply field_mod; lia.
Qed.

Lemma bit_field_range frame pos n : 0 <= n -> 0 <= bit_field frame pos n < 2 ^ n.
Proof. intros H. apply Z.mod_pos_bound, Z.pow_pos_nonneg; lia. Qed.

Lemma parts_value_snoc frame ps p :
  parts_value frame (ps ++ [p])
  = parts_value frame ps * 2 ^ bits p
    + bit_field frame (8 * word p + (32 - part_offset p - bits p)) (bits p).
Proof. unfold parts_value. by rewrite fold_left_app. Qed.

Lemma parts_width_snoc ps p : parts_width (ps ++ [p]) = parts_width ps + bits p.
Proof.
  unfold parts_width. induction ps as [|q ps IH]; cbn [app fold_right]; lia.
Qed.

Lemma parts_width_app ps qs : parts_width (ps ++ qs) = parts_width ps + parts_width qs.
Proof.
  unfold parts_width. induction ps as [|q ps IH]; cbn [app fold_right]; lia.
Qed.

Lemma parts_width_nonneg ps : forallb part_ok ps = true -> 0 <= parts_width ps.
Proof.
  induction ps as [|p ps IH]; [done|]. cbn [forallb]. intros H. split_bools.
  specialize (IH ltac:(done)). unfold part_ok in *. split_bools.
  change (parts_width (p :: ps)) with (bits p + parts_width ps). lia.
Qed.

Lemma parts_value_range frame ps :
  forallb part_ok ps = true -> 0 <= parts_value frame ps < 2 ^ parts_width ps.
Proof.
  induction ps as [|p ps IH] using rev_ind; intros Hp; [cbn; lia|].
  rewrite forallb_app in Hp. cbn in Hp. rewrite andb_true_r in Hp. split_bools.
  specialize (IH ltac:(done)). pose proof (parts_width_nonneg ps ltac:(done)).
  unfold part_ok in *. split_bools.
  rewrite parts_value_snoc, parts_width_snoc, Z.pow_add_r by lia.
  pose proof (bit_field_range frame (8 * word p + (32 - part_offset p - bits p)) (bits p)).
  nia.
Qed.

(** The loop of [roadcast_decode_signal_raw] over the first [n] parts. *)
Lemma decode_raw_loop d frame :
  bytes_ok frame -> zlen frame = 8 -> forallb part_ok (parts d) = true ->
  parts_width (parts d) <= 64 -> part_count d = zlen (parts d) ->
  roadcast_decode_signal_raw d frame = Ok (parts_value frame (parts d)).
Proof.
  intros Hb Hl Hp Hw Hc. unfold roadcast_decode_signal_raw. rewrite Hc.
  assert (Hloop : exists v, loop (Z.to_nat (zlen (parts d))) 0
    (fun i value => part ← rd (parts d) i;
       if 64 <=? bits part then UB
       else x ← extract_part frame part;
            mret (Z.lor (u64 (Z.shiftl value (bits part))) x)) 0 = Ok v
    /\ v = parts_value frame (take (Z.to_nat (0 + Z.of_nat (Z.to_nat (zlen (parts d))))) (parts d))).
  { apply loop_total with (I := fun i v => v = parts_value frame (take (Z.to_nat i) (parts d))).
    { done. }
    intros j v Hj ->. destruct (rd_ok (parts d) j) as (p & -> & Hpj); [lia|].
    rewrite bind_ok.
    assert (part_ok p = true) as Hpok.
    { rewrite forallb_forall in Hp. apply Hp, list_elem_of_In. by eapply list_elem_of_lookup_2. }
    pose proof Hpok as Hpok'. unfold part_ok in Hpok'. split_bools.
    destruct (Z.leb_spec 64 (bits p)); [lia|].
    rewrite extract_part_value, bind_ok by done. eexists. split; [done|].
    replace (Z.to_nat (j + 1)) with (S (Z.to_nat j)) by lia.
    rewrite (take_S_r _ _ _ Hpj), parts_value_snoc.
    assert (forallb part_ok (take (Z.to_nat j) (parts d)) = true
            /\ parts_width (take (Z.to_nat j) (parts d)) + bits p <= 64) as [Ht Htw].
    { rewrite <- (take_drop_middle _ _ _ Hpj) in Hp, Hw. rewrite forallb_app in Hp.
      split_bools. split; [done|].
      replace (take (Z.to_nat j) (parts d) ++ p :: drop (S (Z.to_nat j)) (parts d))
        with ((take (Z.to_nat j) (parts d) ++ [p]) ++ drop (S (Z.to_nat j)) (parts d)) in Hw
        by (by rewrite <- (assoc_L (++))).
      rewrite parts_width_app, parts_width_snoc in Hw.
      match goal with H : forallb part_ok (_ :: _) = true |- _ => cbn in H end.
      split_bools.
      pose proof (parts_width_nonneg (drop (S (Z.to_nat j)) (parts d)) ltac:(done)). lia. }
    pose proof (parts_value_range frame _ Ht).
    pose proof (parts_width_nonneg _ Ht).
    pose proof (bit_field_range frame (8 * word p + (32 - part_offset p - bits p)) (bits p)
                  ltac:(lia)).
    rewrite Z.shiftl_mul_pow2 by lia.
    rewrite u64_id; [by rewrite <- (lor_shiftl_add _ _ (bits p)), Z.shiftl_mul_pow2 by lia|].
    split; [nia|].
    apply Z.lt_le_trans with (2 ^ (parts_width (take (Z.to_nat j) (parts d)) + bits p)).
    - rewrite Z.pow_add_r by lia. nia.
    - apply Z.pow_le_mono_r; lia. }
  destruct Hloop as (v & -> & ->). do 2 f_equal. apply take_ge. unfold zlen. lia.
Qed.

(** ** Decoding every signal, specified *)

(** The fields of a lawful definition. *)
Ltac definition_facts H := unfold definition_ok in H; split_bools.

Lemma decode_raw_value `{Catalog} d frame :
  definition_ok d = true -> bytes_ok frame -> zlen frame = 8 ->
  roadcast_decode_signal_raw d frame = Ok (parts_value frame (parts d))
  /\ 0 <= parts_value frame (parts d) < 2 ^ def_width d.
Proof.
  intros Hd Hb Hl. definition_facts Hd.
  assert (Hw : def_width d = parts_width (parts d)) by done. rewrite Hw in *.
  split; [by apply decode_raw_loop|by apply parts_value_range].
Qed.

(** The value converted: two's complement of the signal's width. *)
Definition numeric_value (d : roadcast_signal_definition_t) (raw : Z) : double :=
  if negb (is_signed d =? 0) && Z.testbit raw (def_width d - 1)
  then if def_width d =? 64
       then dopp (dadd (double_of_Z (2 ^ 64 - 1 - raw)) (double_of_Z 1))
       else dopp (double_of_Z (2 ^ def_width d - raw))
  else double_of_Z raw.

Definition physical_value (d : roadcast_signal_definition_t) (raw : Z) : double :=
  dadd (dmul (numeric_value d raw) (def_scale d)) (def_offset d).

Lemma land_pow2_testbit x n :
  0 <= n -> negb (Z.land x (Z.shiftl 1 n) =? 0) = Z.testbit x n.
Proof.
  intros Hn. rewrite Z.shiftl_1_l. destruct (Z.testbit x n) eqn:E.
  - apply negb_true_iff, Z.eqb_neq. intros H0.
    apply (f_equal (fun z => Z.testbit z n)) in H0.
    rewrite Z.land_spec, E, Z.pow2_bits_true, Z.bits_0 in H0 by lia. done.
  - apply negb_false_iff, Z.eqb_eq. apply Z.bits_inj'. intros i Hi.
    rewrite Z.land_spec, Z.bits_0. destruct (decide (i = n)) as [->|Hne].
    + by rewrite E.
    + rewrite Z.pow2_bits_false by lia. apply andb_false_r.
Qed.

Lemma decode_physical_value d raw :
  0 < def_width d <= 64 -> 0 <= raw < 2 ^ def_width d ->
  roadcast_decode_signal_physical d raw = Ok (physical_value d raw).
Proof.
  intros Hw Hr. unfold roadcast_decode_signal_physical, physical_value, numeric_value.
  destruct (is_signed d =? 0); [done|]. cbn [negb andb].
  destruct (Z.ltb_spec 0 (def_width d)); [|lia].
  destruct (Z.leb_spec 64 (def_width d - 1)); [lia|]. cbn zeta.
  rewrite land_pow2_testbit by lia.
  destruct (Z.testbit raw (def_width d - 1)); [|done].
  destruct (Z.eqb_spec (def_width d) 64) as [E|]; unfold UINT64_MAX.
  - rewrite E in Hr. rewrite u64_id by (unfold is_u64; lia). done.
  - pose proof (Z.pow_lt_mono_r 2 (def_width d) 64).
    pose proof (Z.pow_pos_nonneg 2 (def_width d)).
    assert (0 < 2 ^ def_width d < 2 ^ 64) by lia.
    rewrite Z.shiftl_1_l, (u64_id (2 ^ _)) by (unfold is_u64; lia).
    destruct (decide (raw = 0)) as [->|].
    { rewrite Z.sub_0_r, u64_id by (unfold is_u64; lia). done. }
    rewrite u64_id by (unfold is_u64; lia). done.
Qed.

(** A frame set as the daemon keeps it: one well-formed frame per catalog slot. *)
Definition frames_ok `{Catalog} (frames : list roadcast_frame_t) : Prop :=
  zlen frames = FRAME_COUNT /\ Forall frame_ok frames.

Definition zero_frame : roadcast_frame_t := mk_frame 0 0 (repeat 0 8) 0 0.

(** A frame set built from the catalog ids. *)
Lemma catalog_map_ok `{CatalogOk} (g : Z -> roadcast_frame_t) :
  (forall id, is_u16 id -> frame_ok (g id)) -> frames_ok (map g CAN_IDS).
Proof.
  intros Hg. split; [unfold FRAME_COUNT; apply zlen_map|].
  apply Forall_map, Forall_forall. intros id Hid. apply Hg.
  pose proof catalog_can_ids as Hall. rewrite forallb_forall in Hall.
  specialize (Hall id Hid). split_bools. done.
Qed.

Section SignalSpec.
Context `{HC : CatalogOk}.

Definition frame_of (frames : list roadcast_frame_t) (d : roadcast_signal_definition_t)
  : roadcast_frame_t :=
  default zero_frame (frames !! Z.to_nat (frame_index d)).

Definition raw_of (frames : list roadcast_frame_t) (d : roadcast_signal_definition_t) : Z :=
  parts_value (data (frame_of frames d)) (parts d).

(** The value of a signal before its validity flag is looked at. *)
Definition base_value (frames : list roadcast_frame_t) (d : roadcast_signal_definition_t)
  : roadcast_signal_value_t :=
  let f := frame_of frames d in
  mk_value (raw_of frames d) (physical_value d (raw_of frames d))
    (first_observed_ns f) (last_change_ns f) (state f) (def_calibrated d).

(** The validity flag that guards the signal is raised. *)
Definition flagged (frames : list roadcast_frame_t) (d : roadcast_signal_definition_t) : bool :=
  if def_invalid_signal_index d =? UINT32_MAX then false
  else match SIGNALS !! Z.to_nat (def_invalid_signal_index d) with
       | Some flag => negb (raw_of frames flag =? 0)
       | None => false
       end.

Definition signal_spec (frames : list roadcast_frame_t) (d : roadcast_signal_definition_t)
  : roadcast_signal_value_t :=
  let v := base_value frames d in
  if (sig_state v =? ROADCAST_OBSERVATION_VALID) && flagged frames d
  then v <| sig_state := ROADCAST_OBSERVATION_INVALID |>
  else v.

Lemma definition_index d :
  definition_ok d = true ->
  def_invalid_signal_index d <> UINT32_MAX ->
  exists flag, SIGNALS !! Z.to_nat (def_invalid_signal_index d) = Some flag
    /\ 0 <= def_invalid_signal_index d < SIGNAL_COUNT
    /\ frame_index flag = frame_index d.
Proof.
  intros Hd Hi. definition_facts Hd.
  destruct (Z.eqb_spec (def_invalid_signal_index d) UINT32_MAX); [done|].
  split_bools. destruct (SIGNALS !! _) as [flag|] eqn:E; [|done]. split_bools.
  exists flag. split_and!; try done. apply lookup_lt_Some in E. unfold SIGNAL_COUNT, zlen. lia.
Qed.

Lemma definition_frame d :
  definition_ok d = true -> 0 <= frame_index d < FRAME_COUNT
  /\ CAN_IDS !! Z.to_nat (frame_index d) = Some (def_can_id d).
Proof.
  intros Hd. definition_facts Hd.
  destruct (CAN_IDS !! _) as [id|] eqn:E; [|done]. split_bools. subst.
  apply lookup_lt_Some in E as E'. unfold FRAME_COUNT, zlen. split; [lia|done].
Qed.

Context (frames : list roadcast_frame_t) (Hf : frames_ok frames).

Lemma frame_of_ok d :
  d ∈ SIGNALS -> rd frames (frame_index d) = Ok (frame_of frames d)
                 /\ frame_ok (frame_of frames d).
Proof.
  intros Hd. destruct (definition_frame d) as [Hi _]; [by apply definition_ok_facts|].
  destruct Hf as [Hl Hall]. destruct (rd_ok frames (frame_index d)) as (f & -> & Hk); [lia|].
  unfold frame_of. rewrite Hk. split; [done|]. by eapply Forall_lookup_1 in Hk.
Qed.

Lemma raw_of_range d : d ∈ SIGNALS -> 0 <= raw_of frames d < 2 ^ def_width d.
Proof.
  intros Hd. destruct (frame_of_ok d Hd) as [_ (_ & _ & Hl & Hb & _)].
  by apply decode_raw_value; [apply definition_ok_facts|..].
Qed.

Lemma decode_one_value d : d ∈ SIGNALS -> decode_one frames d = Ok (base_value frames d).
Proof.
  intros Hd. pose proof (definition_ok_facts d Hd) as Hok.
  destruct (frame_of_ok d Hd) as [Hr (_ & _ & Hl & Hb & _)].
  unfold decode_one. rewrite Hr, bind_ok.
  destruct (decode_raw_value d (data (frame_of frames d))) as [-> Hrange]; [done..|].
  rewrite bind_ok, decode_physical_value; [done| |done].
  definition_facts Hok. done.
Qed.

Lemma flagged_frame_only d :
  d ∈ SIGNALS -> forall frames',
  frames !! Z.to_nat (frame_index d) = frames' !! Z.to_nat (frame_index d) ->
  signal_spec frames d = signal_spec frames' d.
Proof.
  intros Hd frames' Heq.
  assert (frame_of frames d = frame_of frames' d) as Hfr by (unfold frame_of; by rewrite Heq).
  unfold signal_spec, base_value, flagged, raw_of. rewrite Hfr.
  destruct (Z.eqb_spec (def_invalid_signal_index d) UINT32_MAX) as [|Hne]; [done|].
  destruct (definition_index d) as (flag & -> & _ & Hfi); [by apply definition_ok_facts|done|].
  unfold frame_of. by rewrite Hfi, Heq.
Qed.

(** The state of the second loop after the first [i] signals. *)
Definition half_flagged (i : Z) : list roadcast_signal_value_t :=
  map (signal_spec frames) (take (Z.to_nat i) SIGNALS)
    ++ map (base_value frames) (drop (Z.to_nat i) SIGNALS).

Lemma half_flagged_lookup i k d :
  SIGNALS !! k = Some d ->
  half_flagged i !! k = Some (if (k <? Z.to_nat i)%nat then signal_spec frames d
                              else base_value frames d).
Proof.
  intros Hk. unfold half_flagged. apply lookup_lt_Some in Hk as Hl.
  destruct (Nat.ltb_spec k (Z.to_nat i)).
  - rewrite lookup_app_l by (rewrite length_map, length_take; lia).
    rewrite list_lookup_fmap, lookup_take_lt, Hk by lia. done.
  - rewrite lookup_app_r; rewrite length_map, length_take; [|lia].
    rewrite list_lookup_fmap, lookup_drop.
    replace (Z.to_nat i + (k - Z.to_nat i `min` length SIGNALS))%nat with k by lia.
    by rewrite Hk.
Qed.

Lemma raw_signal_spec d : raw (signal_spec frames d) = raw_of frames d.
Proof. unfold signal_spec. cbn zeta. by destruct (_ && _). Qed.

Lemma half_flagged_flag i d :
  d ∈ SIGNALS -> def_invalid_signal_index d <> UINT32_MAX ->
  exists v, rd (half_flagged i) (def_invalid_signal_index d) = Ok v
    /\ negb (raw v =? 0) = flagged frames d.
Proof.
  intros Hd Hne. pose proof (definition_ok_facts d Hd) as Hok.
  destruct (definition_index d Hok Hne) as (flag & Hflag & Hi & _).
  unfold flagged. destruct (Z.eqb_spec (def_invalid_signal_index d) UINT32_MAX); [done|].
  rewrite Hflag. pose proof (half_flagged_lookup i _ _ Hflag) as Hh.
  apply rd_Some in Hh. rewrite Z2Nat.id in Hh by lia. rewrite Hh. eexists. split; [done|].
  destruct (_ <? _)%nat; [by rewrite raw_signal_spec|done].
Qed.

Lemma apply_invalid_step i d :
  SIGNALS !! Z.to_nat i = Some d -> 0 <= i ->
  apply_invalid i (half_flagged i) = Ok (half_flagged (i + 1)).
Proof.
  intros Hi Hi0. assert (d ∈ SIGNALS) as Hd by (by eapply list_elem_of_lookup_2).
  assert (Hnext : half_flagged (i + 1)
                  = <[Z.to_nat i := signal_spec frames d]> (half_flagged i)).
  { unfold half_flagged. replace (Z.to_nat (i + 1)) with (S (Z.to_nat i)) by lia.
    apply lookup_lt_Some in Hi as Hl.
    rewrite (take_S_r _ _ _ Hi), (drop_S _ _ _ Hi), map_app, <- (assoc_L (++)). cbn [map app].
    rewrite insert_app_r_alt; rewrite length_map, length_take; [|lia].
    by replace (Z.to_nat i - Z.to_nat i `min` length SIGNALS)%nat with 0%nat by lia. }
  pose proof (half_flagged_lookup i _ _ Hi) as Hv. rewrite Nat.ltb_irrefl in Hv.
  unfold apply_invalid. pose proof (rd_Some _ _ _ Hi) as R1. pose proof (rd_Some _ _ _ Hv) as R2.
  rewrite Z2Nat.id in R1, R2 by done. rewrite R1, bind_ok, R2, bind_ok. cbn zeta.
  rewrite Hnext. unfold signal_spec. cbn zeta.
  assert (Hsame : Ok (half_flagged i)
                  = Ok (<[Z.to_nat i := base_value frames d]> (half_flagged i)))
    by (by rewrite list_insert_id).
  destruct (sig_state (base_value frames d) =? ROADCAST_OBSERVATION_VALID); [|done].
  destruct (Z.eqb_spec (def_invalid_signal_index d) UINT32_MAX) as [E|Hne]; cbn [andb negb].
  - unfold flagged. rewrite E, Z.eqb_refl. done.
  - destruct (half_flagged_flag i d Hd Hne) as (v & -> & Hfl). rewrite bind_ok, Hfl.
    destruct (flagged frames d); [|done]. unfold wr. apply lookup_lt_Some in Hv.
    destruct (Z.ltb_spec i 0); [lia|].
    destruct (Z.leb_spec (zlen (half_flagged i)) i); [unfold zlen in *; lia|]. done.
Qed.

Lemma decode_signals_spec :
  roadcast_decode_signals frames = Ok (map (signal_spec frames) SIGNALS).
Proof.
  unfold roadcast_decode_signals.
  rewrite (mapr_total _ (base_value frames)) by apply decode_one_value. rewrite bind_ok.
  destruct (loop_total (fun i vs => vs = half_flagged i) apply_invalid (length SIGNALS) 0
              (map (base_value frames) SIGNALS)) as (vs & -> & ->).
  - done.
  - intros j vs Hj ->. destruct (lookup_lt_is_Some_2 SIGNALS (Z.to_nat j)) as [d Hd]; [lia|].
    exists (half_flagged (j + 1)). split; [|done]. by apply (apply_invalid_step j d); [|lia].
  - unfold half_flagged. rewrite Z.add_0_l, Nat2Z.id, take_ge, drop_ge by lia.
    by rewrite app_nil_r.
Qed.

(** Every decoded value is one the signal codec accepts. *)
Lemma signal_spec_ok d : d ∈ SIGNALS -> value_ok (signal_spec frames d).
Proof.
  intros Hd. pose proof (raw_of_range d Hd) as Hr.
  destruct (frame_of_ok d Hd) as [_ (_ & Hs & _ & _ & Hfo & Hlc)].
  pose proof (definition_ok_facts d Hd) as Hok. definition_facts Hok.
  assert (2 ^ def_width d <= 2 ^ 64) by (apply Z.pow_le_mono_r; lia).
  assert (is_u64 (physical_value d (raw_of frames d))) by apply dadd_range.
  unfold ROADCAST_OBSERVATION_VALID in *.
  unfold value_ok, signal_spec, base_value. cbn zeta. set (p := physical_value _ _) in *.
  clearbody p. destruct (_ && flagged _ _); cbn; unfold is_u64, ROADCAST_OBSERVATION_INVALID in *; split_and!; lia.
Qed.
End SignalSpec.

(** ** Schema pages, specified *)

Definition entry_of (i : Z) (d : roadcast_signal_definition_t) : roadcast_schema_entry_t :=
  mk_entry (def_stable_id d) i (def_invalid_signal_index d) (def_can_id d)
    ROADCAST_ITEM_CAN_SIGNAL ROADCAST_SOURCE_RAW_CAN (def_width d)
    (Z.lor (if negb (is_signed d =? 0) then ROADCAST_SCHEMA_FLAG_SIGNED else 0)
           (if negb (def_calibrated d =? 0) then ROADCAST_SCHEMA_FLAG_CALIBRATED else 0))
    (def_scale d) (def_offset d) (c_bytes (def_name d)) (c_bytes (def_unit d)).

Fixpoint entries_from (i : Z) (defs : list roadcast_signal_definition_t)
  : list roadcast_schema_entry_t :=
  match defs with
  | [] => []
  | d :: defs' => entry_of i d :: entries_from (i + 1) defs'
  end.

(** The longest prefix whose encoding fits in [room] bytes. *)
Fixpoint fitting (room : Z) (es : list roadcast_schema_entry_t)
  : list roadcast_schema_entry_t :=
  match es with
  | [] => []
  | e :: es' =>
      let n := zlen (schema_entry_bytes e) in
      if room <? n then [] else e :: fitting (room - n) es'
  end.

Definition schema_page `{Catalog} (capacity start_index : Z) : schema_chunk_t :=
  mk_schema_chunk ROADCAST_SCHEMA_VERSION SIGNAL_COUNT start_index SCHEMA_HASH
    (fitting (capacity - ROADCAST_SCHEMA_CHUNK_PREFIX_SIZE)
       (entries_from start_index (drop (Z.to_nat start_index) SIGNALS))).

Lemma c_bytes_ok s : bytes_ok (c_bytes s).
Proof.
  apply Forall_map, Forall_true. intros a. pose proof (Ascii.N_ascii_bounded a).
  unfold is_u8. lia.
Qed.

Lemma entries_from_lookup defs : forall i k e,
  entries_from i defs !! k = Some e ->
  exists d, defs !! k = Some d /\ e = entry_of (i + Z.of_nat k) d.
Proof.
  induction defs as [|d defs IH]; intros i k e Hk; [done|]. destruct k as [|k]; cbn in Hk.
  - injection Hk as <-. exists d. split; [done|]. by rewrite Z.add_0_r.
  - apply IH in Hk as (d' & Hd & ->). exists d'. split; [done|]. f_equal. lia.
Qed.

Lemma entries_from_length defs : forall i, length (entries_from i defs) = length defs.
Proof. induction defs; intros i; cbn; auto. Qed.

Lemma fitting_prefix es : forall room, fitting room es `prefix_of` es.
Proof.
  induction es as [|e es IH]; intros room; cbn [fitting]; [done|].
  destruct (_ <? _); [apply prefix_nil|]. apply prefix_cons, IH.
Qed.

Lemma fitting_room es : forall room,
  0 <= room -> zlen (concat (map schema_entry_bytes (fitting room es))) <= room.
Proof.
  induction es as [|e es IH]; intros room Hr; cbn [fitting map concat]; [done|].
  destruct (Z.ltb_spec room (zlen (schema_entry_bytes e))); [done|]. cbn [map concat].
  rewrite zlen_app. specialize (IH (room - zlen (schema_entry_bytes e))). lia.
Qed.

Lemma take_prefix {A} (p l : list A) : p `prefix_of` l -> take (length p) l = p.
Proof. intros [r ->]. apply take_app_length. Qed.

Section SchemaPages.
Context `{HC : CatalogOk}.

(** The largest entry: a 63-byte name and a 15-byte unit. *)
Definition MAX_SCHEMA_ENTRY : Z :=
  ROADCAST_SCHEMA_ENTRY_FIXED_SIZE + ROADCAST_SCHEMA_NAME_MAX + ROADCAST_SCHEMA_UNIT_MAX.

Lemma entry_size i d :
  d ∈ SIGNALS -> 0 < zlen (schema_entry_bytes (entry_of i d)) <= MAX_SCHEMA_ENTRY.
Proof.
  intros Hd. apply definition_ok_facts in Hd. definition_facts Hd.
  rewrite zlen_schema_entry_bytes. cbn [name unit_ entry_of].
  pose proof (zlen_nonneg (c_bytes (def_name d))). pose proof (zlen_nonneg (c_bytes (def_unit d))).
  unfold MAX_SCHEMA_ENTRY, ROADCAST_SCHEMA_ENTRY_FIXED_SIZE, ROADCAST_SCHEMA_NAME_MAX,
    ROADCAST_SCHEMA_UNIT_MAX. lia.
Qed.

Lemma encode_schema_entry_blit out off i d :
  d ∈ SIGNALS ->
  encode_schema_entry out off i d = blit out off (schema_entry_bytes (entry_of i d)).
Proof.
  intros Hd. apply definition_ok_facts in Hd. definition_facts Hd.
  pose proof (zlen_nonneg (c_bytes (def_name d))). pose proof (zlen_nonneg (c_bytes (def_unit d))).
  unfold encode_schema_entry, ROADCAST_SCHEMA_ENTRY_FIXED_SIZE. cbn zeta. rewrite put_u64_blit.
  rewrite !u16_id by (unfold is_u16; lia). fuse_all.
  unfold schema_entry_bytes, entry_of.
  cbn [stable_id index invalid_signal_index entry_can_id kind source width entry_flags
       scale offset name unit_].
  by rewrite <- !(assoc_L (++)).
Qed.

Lemma encode_schema_entries_spec defs : forall out bytes capacity count i,
  Forall (fun d => d ∈ SIGNALS) defs ->
  zlen bytes <= capacity -> capacity <= zlen out -> capacity < 2 ^ 64 ->
  let es := fitting (capacity - zlen bytes) (entries_from i defs) in
  let all := bytes ++ concat (map schema_entry_bytes es) in
  (out ← blit out 0 bytes; encode_schema_entries out capacity (zlen bytes) count i defs)
  = (out ← blit out 0 all; mret (out, zlen all, count + zlen es)).
Proof.
  induction defs as [|d defs IH]; intros out bytes capacity count i Hds Hb Hc Hcap es all.
  { subst es all. cbn. rewrite app_nil_r, Z.add_0_r. by destruct (blit out 0 bytes). }
  inversion_clear Hds as [|? ? Hd Hds']. pose proof (zlen_nonneg bytes).
  assert (Hsize : ROADCAST_SCHEMA_ENTRY_FIXED_SIZE + zlen (c_bytes (def_name d))
                  + zlen (c_bytes (def_unit d)) = zlen (schema_entry_bytes (entry_of i d)))
    by (rewrite zlen_schema_entry_bytes; done).
  subst all es. cbn [encode_schema_entries entries_from fitting]. cbn zeta. rewrite Hsize.
  set (eb := schema_entry_bytes (entry_of i d)) in *.
  rewrite sz_id by lia.
  destruct (Z.ltb_spec (capacity - zlen bytes) (zlen eb)).
  { cbn. rewrite app_nil_r, Z.add_0_r. by destruct (blit out 0 bytes). }
  pose proof (zlen_nonneg eb).
  transitivity (out ← blit out 0 (bytes ++ eb);
                encode_schema_entries out capacity (zlen (bytes ++ eb)) (count + 1) (i + 1) defs).
  { rewrite <- blit_blit, bind_assoc, Z.add_0_l, zlen_app.
    destruct (blit out 0 bytes) as [o| |]; [|done..]. rewrite !bind_ok.
    by rewrite encode_schema_entry_blit. }
  rewrite IH by (done || (rewrite ?zlen_app; lia)). cbn zeta.
  replace (capacity - zlen (bytes ++ eb)) with (capacity - zlen bytes - zlen eb)
    by (rewrite zlen_app; lia).
  cbn [map concat]. fold eb. by rewrite !zlen_cons, <- !(assoc_L (++)), Z.add_assoc.
Qed.

Lemma encode_schema_chunk_spec out capacity start_index :
  capacity <= zlen out -> capacity < 2 ^ 64 -> 0 <= start_index ->
  roadcast_encode_schema_chunk out capacity start_index
  = let page := schema_page capacity start_index in
    if (capacity <? ROADCAST_SCHEMA_CHUNK_PREFIX_SIZE) || (SIGNAL_COUNT <=? start_index)
       || (zlen (chunk_entries page) =? 0)
    then Fail
    else out ← blit out 0 (schema_chunk_bytes page);
         mret (zlen (schema_chunk_bytes page), zlen (chunk_entries page), out).
Proof.
  intros Hc Hcap Hs. unfold roadcast_encode_schema_chunk.
  destruct (Z.ltb_spec capacity ROADCAST_SCHEMA_CHUNK_PREFIX_SIZE); [done|].
  destruct (SIGNAL_COUNT <=? start_index); [done|]. cbn [orb]. rewrite reject_false.
  unfold ROADCAST_SCHEMA_CHUNK_PREFIX_SIZE in *.
  rewrite put_u32_blit. fuse_all.
  set (head := be32 ROADCAST_SCHEMA_VERSION ++ be32 SIGNAL_COUNT ++ be32 start_index).
  set (page := schema_page capacity start_index).
  match goal with |- context [blit out 0 ?b] =>
    replace b with (head ++ be32 0 ++ be64 SCHEMA_HASH)
      by (unfold head; by rewrite <- !(assoc_L (++))) end.
  assert (zlen (head ++ be32 0 ++ be64 SCHEMA_HASH) = 24) as Hp by done.
  pose proof (encode_schema_entries_spec (drop (Z.to_nat start_index) SIGNALS) out
    (head ++ be32 0 ++ be64 SCHEMA_HASH) capacity 0 start_index) as Hent.
  rewrite Hp in Hent. cbn zeta in Hent.
  rewrite <- bind_assoc, Hent; clear Hent; [|apply Forall_drop, Forall_forall; intros ?; apply list_elem_of_In|done..].
  change (fitting (capacity - 24) (entries_from start_index (drop (Z.to_nat start_index) SIGNALS)))
    with (chunk_entries page).
  assert (Hlen : 24 + zlen (concat (map schema_entry_bytes (chunk_entries page))) <= capacity).
  { pose proof (fitting_room (entries_from start_index (drop (Z.to_nat start_index) SIGNALS))
      (capacity - 24)). unfold page, schema_page. cbn [chunk_entries].
    unfold ROADCAST_SCHEMA_CHUNK_PREFIX_SIZE. lia. }
  set (body := concat (map schema_entry_bytes (chunk_entries page))) in *.
  rewrite blit_start by (rewrite zlen_app, Hp; lia). rewrite !bind_ok.
  rewrite put_u32_blit, Z.add_0_l.
  rewrite <- !(assoc_L (++)), (assoc_L (++) (be64 _) body).
  rewrite blit_app by done. rewrite bind_ok.
  destruct (zlen (chunk_entries page) =? 0); [done|]. rewrite reject_false.
  assert (Hbytes : schema_chunk_bytes page
            = head ++ be32 (zlen (chunk_entries page)) ++ be64 SCHEMA_HASH ++ body).
  { unfold schema_chunk_bytes, head. by rewrite <- !(assoc_L (++)). }
  rewrite Hbytes. cbn zeta.
  assert (Hl2 : zlen (head ++ be32 (zlen (chunk_entries page)) ++ be64 SCHEMA_HASH ++ body)
                = 24 + zlen body)
    by (rewrite !zlen_app, zlen_be32, zlen_be64; change (zlen head) with 12; lia).
  rewrite blit_start by lia. rewrite bind_ok.
  unfold mret, res_ret. do 3 f_equal.
Qed.

(** The prefix is the longest: the next entry does not fit any more. *)
Lemma fitting_maximal es : forall room,
  fitting room es = es
  \/ exists e, es !! length (fitting room es) = Some e
       /\ room < zlen (concat (map schema_entry_bytes (fitting room es))) + zlen (schema_entry_bytes e).
Proof.
  induction es as [|e es IH]; intros room; cbn [fitting]; [by left|]. cbn zeta.
  destruct (Z.ltb_spec room (zlen (schema_entry_bytes e))) as [Hlt|].
  { right. exists e. split; [done|]. change (room < 0 + zlen (schema_entry_bytes e)). lia. }
  destruct (IH (room - zlen (schema_entry_bytes e))) as [E|(e' & He & Hroom)]; [left; by rewrite E|].
  right. exists e'. split; [done|]. cbn [map concat]. rewrite zlen_app. lia.
Qed.

Lemma schema_page_lookup capacity start_index k e :
  0 <= start_index ->
  chunk_entries (schema_page capacity start_index) !! k = Some e ->
  exists d, SIGNALS !! (Z.to_nat start_index + k)%nat = Some d
    /\ e = entry_of (start_index + Z.of_nat k) d.
Proof.
  intros Hs Hk. eapply prefix_lookup_Some in Hk; [|apply fitting_prefix].
  apply entries_from_lookup in Hk as (d & Hd & ->). exists d. by rewrite lookup_drop in Hd.
Qed.

Lemma schema_page_ok capacity start_index :
  0 <= start_index < SIGNAL_COUNT -> schema_chunk_ok (schema_page capacity start_index).
Proof.
  intros Hs. pose proof catalog_signals_bound as Hc. pose proof catalog_hash as Hh.
  unfold UINT16_MAX in Hc.
  unfold schema_chunk_ok. cbn [schema_page chunk_schema_version chunk_total_count
    chunk_start_index chunk_schema_hash]. unfold is_u32. split_and!; try lia; try done.
  - pose proof (fitting_prefix (entries_from start_index (drop (Z.to_nat start_index) SIGNALS))
      (capacity - ROADCAST_SCHEMA_CHUNK_PREFIX_SIZE)) as Hp%prefix_length.
    rewrite entries_from_length, length_drop in Hp. unfold schema_page, SIGNAL_COUNT, zlen in *.
    cbn [chunk_entries]. lia.
  - intros k e Hk. apply schema_page_lookup in Hk as (d & Hd & ->); [|lia].
    apply lookup_lt_Some in Hd as Hl. apply list_elem_of_lookup_2, definition_ok_facts in Hd.
    unfold schema_entry_ok, entry_of. cbn [stable_id index invalid_signal_index entry_can_id kind
      source width entry_flags scale offset name unit_].
    assert (def_invalid_signal_index d = UINT32_MAX
            \/ 0 <= def_invalid_signal_index d < SIGNAL_COUNT) as Hinv.
    { destruct (decide (def_invalid_signal_index d = UINT32_MAX)); [by left|right].
      by destruct (definition_index d) as (? & _ & ? & _). }
    definition_facts Hd. pose proof (c_bytes_ok (def_name d)). pose proof (c_bytes_ok (def_unit d)).
    unfold SIGNAL_COUNT, zlen, UINT32_MAX in *. unfold is_u32, is_u64, is_u16.
    rewrite u32_id by (unfold is_u32; lia).
    split_and!; try done; try lia.
    all: destruct (is_signed d =? 0), (def_calibrated d =? 0); done.
Qed.

(** A page buffer that holds one entry of the largest size makes progress. *)
Lemma schema_page_progress capacity start_index :
  0 <= start_index < SIGNAL_COUNT ->
  ROADCAST_SCHEMA_CHUNK_PREFIX_SIZE + MAX_SCHEMA_ENTRY <= capacity ->
  0 < zlen (chunk_entries (schema_page capacity start_index)).
Proof.
  intros Hs Hc. unfold schema_page. cbn [chunk_entries].
  destruct (lookup_lt_is_Some_2 SIGNALS (Z.to_nat start_index)) as [d Hd];
    [unfold SIGNAL_COUNT, zlen in *; lia|].
  rewrite (drop_S _ _ _ Hd). cbn [entries_from fitting].
  apply list_elem_of_lookup_2 in Hd. pose proof (entry_size start_index d Hd).
  destruct (Z.ltb_spec (capacity - ROADCAST_SCHEMA_CHUNK_PREFIX_SIZE)
    (zlen (schema_entry_bytes (entry_of start_index d)))); [lia|].
  rewrite zlen_cons. pose proof (zlen_nonneg (fitting
    (capacity - ROADCAST_SCHEMA_CHUNK_PREFIX_SIZE
     - zlen (schema_entry_bytes (entry_of start_index d)))
    (entries_from (start_index + 1) (drop (S (Z.to_nat start_index)) SIGNALS)))). lia.
Qed.
End SchemaPages.

(** ** Properties of the catalog *)

(** What generate-catalog.py computes from the signals is what it wrote into
    the tables. *)
Definition stable_ids_match (signals : list roadcast_signal_definition_t) : bool :=
  forallb (fun d => def_stable_id d =? stable_id_of (def_can_id d) (def_name d)) signals.

Lemma generated_stable_ids : stable_ids_match ROADCAST_SIGNALS = true.
Proof. vm_compute. reflexivity. Qed.

Lemma generated_schema_hash : schema_hash ROADCAST_SIGNALS = ROADCAST_CAN_SCHEMA_HASH.
Proof. vm_compute. reflexivity. Qed.

Lemma generated_ids_distinct :
  bool_decide (NoDup (map def_stable_id ROADCAST_SIGNALS)) = true.
Proof. vm_compute. reflexivity. Qed.

Lemma stable_ids_match_elem signals d :
  stable_ids_match signals = true -> d ∈ signals ->
  def_stable_id d = stable_id_of (def_can_id d) (def_name d).
Proof.
  intros H Hd. unfold stable_ids_match in H. rewrite forallb_forall in H.
  apply Z.eqb_eq, H. by apply list_elem_of_In.
Qed.

(** C34: the generated catalog is lawful (every bit field lies inside its frame,
    widths add up to at most 64 bits, every validity flag exists and lives in the
    frame of the signal it guards, names and units fit their wire fields), every
    stable id is the FNV-1a hash of its namespace, CAN id and name, no two signals
    share one, and the schema hash in the table is the hash of the table. *)
Theorem generated_catalog_consistent :
  CatalogOk generated_catalog
  /\ SIGNAL_COUNT = ROADCAST_SIGNAL_COUNT /\ FRAME_COUNT = ROADCAST_FRAME_COUNT
  /\ NoDup (map def_stable_id ROADCAST_SIGNALS)
  /\ (forall d, d ∈ ROADCAST_SIGNALS ->
        def_stable_id d = stable_id_of (def_can_id d) (def_name d))
  /\ schema_hash ROADCAST_SIGNALS = ROADCAST_CAN_SCHEMA_HASH.
Proof.
  split_and!.
  - apply generated_catalog_ok.
  - vm_compute. reflexivity.
  - reflexivity.
  - apply (bool_decide_eq_true_1 _ generated_ids_distinct).
  - intros d. apply stable_ids_match_elem, generated_stable_ids.
  - apply generated_schema_hash.
Qed.

(** C25: decoding a frame set gives, for every signal of the catalog, the bit
    fields of its frame read as one little-endian integer and concatenated most
    significant first, below [2 ^ width]; its physical value; the state and times
    of its frame, except that a valid signal whose validity flag is raised is
    INVALID.  Nothing is read out of bounds and every result is encodable. *)
Theorem decode_signals_correct `{CatalogOk} frames :
  frames_ok frames ->
  exists values, roadcast_decode_signals frames = Ok values
    /\ zlen values = SIGNAL_COUNT
    /\ forall i d, SIGNALS !! i = Some d ->
       exists v, values !! i = Some v /\ value_ok v
         /\ let f := frame_of frames d in
            raw v = parts_value (data f) (parts d) /\ raw v < 2 ^ def_width d
            /\ physical v = physical_value d (raw v)
            /\ sig_first_observed_ns v = first_observed_ns f
            /\ sig_last_change_ns v = last_change_ns f
            /\ sig_state v = (if (state f =? ROADCAST_OBSERVATION_VALID) && flagged frames d
                              then ROADCAST_OBSERVATION_INVALID else state f).
Proof.
  intros Hf. exists (map (signal_spec frames) SIGNALS).
  rewrite decode_signals_spec by done. split; [done|]. split; [apply zlen_map|].
  intros i d Hi. assert (d ∈ SIGNALS) as Hd by (by eapply list_elem_of_lookup_2).
  exists (signal_spec frames d). split; [by rewrite list_lookup_fmap, Hi|].
  split; [by apply signal_spec_ok|]. cbn zeta.
  pose proof (raw_of_range frames Hf d Hd).
  rewrite raw_signal_spec. unfold raw_of in *. unfold signal_spec, base_value. cbn zeta.
  cbn [sig_state]. destruct (_ && flagged _ _); split_and!; done || lia.
Qed.

(** A frame set: every frame valid with the same bytes. *)
Definition uniform_frames (bytes : list Z) : list roadcast_frame_t :=
  map (fun id => mk_frame id ROADCAST_OBSERVATION_VALID bytes 5 9) ROADCAST_CAN_IDS.

Lemma uniform_frames_ok bytes :
  bytes_ok bytes -> zlen bytes = 8 -> frames_ok (uniform_frames bytes).
Proof.
  intros Hb Hl. apply (catalog_map_ok (C := generated_catalog)). intros id Hid.
  unfold frame_ok, is_u64. cbn. split_and!; done || lia.
Qed.

Lemma decode_signals_correct_witness :
  exists values, roadcast_decode_signals (uniform_frames [1; 2; 3; 4; 5; 6; 7; 8]) = Ok values
    /\ zlen values = 815.
Proof.
  destruct (decode_signals_correct (uniform_frames [1; 2; 3; 4; 5; 6; 7; 8])) as (vs & H & Hl & _).
  - apply uniform_frames_ok; [unfold bytes_ok; concrete|reflexivity].
  - exists vs. split; [exact H|]. rewrite Hl. vm_compute. reflexivity.
Defined.

(** C33: a schema page starting at any signal of the catalog, written into a
    buffer that holds at least one entry of the largest size, is decoded by the
    client's decoder to the entries of the next signals in catalog order: at
    least one of them, and as many as fit, that is up to the end of the catalog or
    until one more entry would exceed the buffer.  So repeating the request at
    the end of the previous page reads the whole catalog. *)
Theorem schema_page_roundtrip `{CatalogOk} out capacity start_index entry_capacity :
  capacity <= zlen out -> capacity < 2 ^ 64 ->
  ROADCAST_SCHEMA_CHUNK_PREFIX_SIZE + MAX_SCHEMA_ENTRY <= capacity ->
  0 <= start_index < SIGNAL_COUNT -> SIGNAL_COUNT <= entry_capacity ->
  exists n count out',
    roadcast_encode_schema_chunk out capacity start_index = Ok (n, count, out')
    /\ 0 < count /\ start_index + count <= SIGNAL_COUNT /\ n <= capacity
    /\ roadcast_decode_schema_chunk (take (Z.to_nat n) out') n entry_capacity
       = Ok (mk_schema_chunk ROADCAST_SCHEMA_VERSION SIGNAL_COUNT start_index SCHEMA_HASH
               (take (Z.to_nat count)
                  (entries_from start_index (drop (Z.to_nat start_index) SIGNALS))))
    /\ (start_index + count = SIGNAL_COUNT
        \/ exists e,
             entries_from start_index (drop (Z.to_nat start_index) SIGNALS) !! Z.to_nat count = Some e
             /\ capacity < n + zlen (schema_entry_bytes e)).
Proof.
  intros Hout Hc Hroom Hs He.
  pose proof (schema_page_progress capacity start_index Hs Hroom) as Hp.
  pose proof (schema_page_ok capacity start_index Hs) as Hok.
  assert (Hsz : zlen (schema_chunk_bytes (schema_page capacity start_index)) <= capacity).
  { rewrite zlen_schema_chunk_bytes.
    pose proof (fitting_room (entries_from start_index (drop (Z.to_nat start_index) SIGNALS))
      (capacity - ROADCAST_SCHEMA_CHUNK_PREFIX_SIZE)).
    unfold schema_page, MAX_SCHEMA_ENTRY in *. cbn [chunk_entries].
    unfold ROADCAST_SCHEMA_CHUNK_PREFIX_SIZE, ROADCAST_SCHEMA_ENTRY_FIXED_SIZE,
      ROADCAST_SCHEMA_NAME_MAX, ROADCAST_SCHEMA_UNIT_MAX in *. lia. }
  set (page := schema_page capacity start_index) in *.
  exists (zlen (schema_chunk_bytes page)), (zlen (chunk_entries page)),
    (schema_chunk_bytes page ++ drop (length (schema_chunk_bytes page)) out).
  pose proof Hok as (_ & _ & _ & _ & _ & Hcount & _).
  change (chunk_total_count page) with SIGNAL_COUNT in Hcount.
  change (chunk_start_index page) with start_index in Hcount.
  split_and!; try lia.
  - rewrite encode_schema_chunk_spec by lia. cbn zeta. fold page.
    destruct (Z.ltb_spec capacity ROADCAST_SCHEMA_CHUNK_PREFIX_SIZE).
    { unfold MAX_SCHEMA_ENTRY, ROADCAST_SCHEMA_ENTRY_FIXED_SIZE,
        ROADCAST_SCHEMA_NAME_MAX, ROADCAST_SCHEMA_UNIT_MAX in *. lia. }
    destruct (Z.leb_spec SIGNAL_COUNT start_index); [lia|].
    destruct (Z.eqb_spec (zlen (chunk_entries page)) 0); [lia|]. cbn [orb].
    by rewrite blit_start by lia.
  - unfold zlen at 1. rewrite Nat2Z.id, take_app_length.
    rewrite (decode_schema_chunk_bytes page) by (done || lia).
    unfold page, schema_page. do 2 f_equal. unfold zlen. rewrite Nat2Z.id. cbn [chunk_entries].
    symmetry. apply take_prefix, fitting_prefix.
  - rewrite zlen_schema_chunk_bytes. unfold page, schema_page. cbn [chunk_entries].
    set (es := entries_from _ _). set (room := capacity - _).
    assert (Hes : start_index + zlen es = SIGNAL_COUNT).
    { unfold zlen, es. rewrite entries_from_length, length_drop. unfold SIGNAL_COUNT, zlen in *. lia. }
    destruct (fitting_maximal es room) as [E|(e & Hnext & Hmax)]; [left; by rewrite E|right].
    exists e. unfold zlen at 1. rewrite Nat2Z.id. split; [done|].
    unfold room, ROADCAST_SCHEMA_CHUNK_PREFIX_SIZE in *. lia.
Qed.

Lemma schema_page_roundtrip_witness :
  exists n count out',
    roadcast_encode_schema_chunk (repeat 0 200) 200 800 = Ok (n, count, out')
    /\ 0 < count /\ 800 + count <= 815 /\ n <= 200.
Proof.
  destruct (schema_page_roundtrip (repeat 0 200) 200 800 815) as (n & c & o & H1 & H2 & H3 & H4 & _);
    [vm_compute; first [reflexivity | discriminate | split; [discriminate|reflexivity]]..|].
  exists n, c, o. auto.
Defined.
