(* ===== verification/SourceSession.v ===== *)
(** * The reconnecting source session: src/source_session.c

    The session owns the VHAL source and decides when it is opened, read and
    closed.  The source itself (vhal_source.c) is the interface [VhalSource];
    the session's theorems use only its contract [VhalSourceOk].  [errno], which
    the session only preserves for a log line, is not part of the state. *)

From Stdlib Require Import String.
From S2P Require Import Prelude Wire CatalogDefs Catalog.

Definition RETRY_INITIAL_NS : Z := 250000000.
Definition RETRY_MAX_NS : Z := 30000000000.
Definition ROADCAST_SOURCE_WAITING : Z := -2.

(** The operations of roadcast_vhal.h over the state [V] of a
    [roadcast_vhal_source_t] and the outside world [W].  [vhal_zero] is the
    zeroed source with both descriptors at -1. *)
Class VhalSource (V W : Type) := {
  vhal_zero : V;
  roadcast_vhal_open : V -> string -> W -> Z * V * W;
  roadcast_vhal_read : V -> list roadcast_frame_t -> W -> Z * V * list roadcast_frame_t * W;
  roadcast_vhal_close : V -> W -> V * W;
}.

(** A sample as the source delivers it: the frames of the catalog, each
    UNAVAILABLE or NEVER_OBSERVED (whether it has been observed is decided by
    the sampler). *)
Definition sample_ok `{Catalog} (frames : list roadcast_frame_t) : Prop :=
  frames_ok frames /\ map can_id frames = CAN_IDS
  /\ Forall (fun f => state f <= ROADCAST_OBSERVATION_NEVER_OBSERVED) frames.

(** What vhal_source.c promises: an invariant of its state that every operation
    keeps; results are -1, or 0 and 1 for a read, and a read fills the array it is
    given. *)
Class VhalSourceOk {V W} `{Catalog} (S : VhalSource V W) := {
  vhal_ok : V -> Prop;
  vhal_zero_ok : vhal_ok vhal_zero;
  vhal_open_ok v p w : vhal_ok v ->
    -1 <= (roadcast_vhal_open v p w).1.1 <= 0 /\ vhal_ok (roadcast_vhal_open v p w).1.2;
  vhal_read_ok v fs w : vhal_ok v -> frames_ok fs ->
    let '(r, v', fs', _) := roadcast_vhal_read v fs w in
    -1 <= r <= 1 /\ vhal_ok v' /\ sample_ok fs';
  vhal_close_ok v w : vhal_ok v -> vhal_ok (roadcast_vhal_close v w).1;
}.

Record roadcast_source_session_t (V : Type) := mk_session {
  vhal : V;
  process_name : option string;
  retry_at_ns : Z;
  retry_delay_ns : Z;
  generation : Z;
  connected : Z;
}.
Arguments mk_session {V}.
Arguments vhal {V}.
Arguments process_name {V}.
Arguments retry_at_ns {V}.
Arguments retry_delay_ns {V}.
Arguments generation {V}.
Arguments connected {V}.

#[export] Instance eta_session {V} : Eta (roadcast_source_session_t V) := fun s =>
  mk_session (vhal s) (process_name s) (retry_at_ns s) (retry_delay_ns s) (generation s)
    (connected s).

Section Session.
Context `{Catalog} {V W : Type} `{S : !VhalSource V W}.
Implicit Types (session : roadcast_source_session_t V) (w : W).

Definition mark_unavailable (frames : list roadcast_frame_t) : list roadcast_frame_t :=
  map (fun id => mk_frame id ROADCAST_OBSERVATION_UNAVAILABLE (repeat 0 8) 0 0) CAN_IDS.

Definition schedule_retry session (now_ns : Z) w : roadcast_source_session_t V * W :=
  let '(v, w) := roadcast_vhal_close (vhal session) w in
  let session := session <| vhal := v |> in
  let session := session <| connected := 0 |> in
  let session := session <| retry_at_ns := u64 (now_ns + retry_delay_ns session) |> in
  let session :=
    if retry_delay_ns session <? RETRY_MAX_NS / 2
    then session <| retry_delay_ns := u64 (retry_delay_ns session * 2) |>
    else session <| retry_delay_ns := RETRY_MAX_NS |> in
  (session, w).

(** [strdup] may fail: [alloc] is its result. *)
Definition roadcast_source_session_init (alloc : option string)
  : Z * roadcast_source_session_t V :=
  let session := mk_session vhal_zero None 0 0 0 0 in
  let session := session <| retry_delay_ns := RETRY_INITIAL_NS |> in
  let session := session <| process_name := alloc |> in
  (match alloc with Some _ => 0 | None => -1 end, session).

(** The part of the read after the session is connected. *)
Definition read_connected session (frames : list roadcast_frame_t) (now_ns : Z) w
  : Z * roadcast_source_session_t V * list roadcast_frame_t * W :=
  let '(result, v, frames, w) := roadcast_vhal_read (vhal session) frames w in
  let session := session <| vhal := v |> in
  if result <? 0 then
    let frames := mark_unavailable frames in
    let '(session, w) := schedule_retry session now_ns w in
    (result, session, frames, w)
  else
    (result, session <| retry_delay_ns := RETRY_INITIAL_NS |>, frames, w).

Definition roadcast_source_session_read session (frames : list roadcast_frame_t)
    (now_ns : Z) w : Z * roadcast_source_session_t V * list roadcast_frame_t * W :=
  if connected session =? 0 then
    let frames := mark_unavailable frames in
    if now_ns <? retry_at_ns session then (ROADCAST_SOURCE_WAITING, session, frames, w)
    else
      let '(rc, v, w) :=
        roadcast_vhal_open (vhal session) (default EmptyString (process_name session)) w in
      let session := session <| vhal := v |> in
      if rc <? 0 then
        let '(session, w) := schedule_retry session now_ns w in (-1, session, frames, w)
      else
        let session := session <| connected := 1 |> in
        let session := session <| generation := u64 (generation session + 1) |> in
        read_connected session frames now_ns w
  else read_connected session frames now_ns w.

Definition roadcast_source_session_close session w : roadcast_source_session_t V * W :=
  let '(v, w) := roadcast_vhal_close (vhal session) w in
  let session := session <| vhal := v |> in
  let session := session <| process_name := None |> in
  (session <| connected := 0 |>, w).
End Session.

(** ** The backoff

    The delay of the [n]-th retry in a row, and the delays a session can hold. *)

Fixpoint backoff (n : nat) : Z :=
  match n with
  | O => RETRY_INITIAL_NS
  | S n => Z.min RETRY_MAX_NS (2 * backoff n)
  end.

Definition session_ok {V W} `{Catalog} `{S : !VhalSource V W} `{HS : !VhalSourceOk S}
    (s : roadcast_source_session_t V) : Prop :=
  vhal_ok (vhal s) /\
  RETRY_INITIAL_NS <= retry_delay_ns s <= RETRY_MAX_NS /\ 0 <= connected s <= 1
  /\ is_u64 (generation s) /\ is_u64 (retry_at_ns s).

Lemma backoff_range n : RETRY_INITIAL_NS <= backoff n <= RETRY_MAX_NS.
Proof.
  induction n as [|n IH]; cbn [backoff]; unfold RETRY_INITIAL_NS, RETRY_MAX_NS in *; lia.
Qed.

Lemma backoff_closed n : backoff n = Z.min RETRY_MAX_NS (RETRY_INITIAL_NS * 2 ^ Z.of_nat n).
Proof.
  induction n as [|n IH]; [done|]. cbn [backoff]. rewrite IH, Nat2Z.inj_succ, Z.pow_succ_r by lia.
  unfold RETRY_INITIAL_NS, RETRY_MAX_NS in *. lia.
Qed.

Section SessionFacts.
Context `{HC : CatalogOk} {V W : Type} `{S : !VhalSource V W} `{HS : !VhalSourceOk S}.
Implicit Types (s : roadcast_source_session_t V) (w : W).

Lemma session_init_ok name : session_ok (roadcast_source_session_init name).2.
Proof. split; [apply vhal_zero_ok|]. concrete. Qed.

Lemma unavailable_frames fs :
  sample_ok (mark_unavailable fs)
  /\ Forall (fun f => state f = ROADCAST_OBSERVATION_UNAVAILABLE) (mark_unavailable fs).
Proof.
  unfold mark_unavailable, sample_ok. split_and!.
  - apply catalog_map_ok. intros id Hid. unfold frame_ok, bytes_ok. concrete.
  - rewrite map_map. cbn. apply map_id.
  - by apply Forall_map, Forall_true.
  - by apply Forall_map, Forall_true.
Qed.

(** A retry waits for the current delay and doubles it up to the limit. *)
Lemma schedule_retry_spec s now w :
  session_ok s ->
  let s' := (schedule_retry s now w).1 in
  session_ok s' /\ connected s' = 0 /\ generation s' = generation s
  /\ retry_at_ns s' = u64 (now + retry_delay_ns s)
  /\ retry_delay_ns s' = Z.min RETRY_MAX_NS (2 * retry_delay_ns s)
  /\ roadcast_vhal_close (vhal s) w = (vhal s', (schedule_retry s now w).2).
Proof.
  intros (Hv & Hd & Hc & Hg & Hr). unfold schedule_retry.
  pose proof (vhal_close_ok (vhal s) w Hv) as Hv'.
  destruct (roadcast_vhal_close (vhal s) w) as [v w']. cbn in Hv'. cbn.
  assert (RETRY_MAX_NS / 2 = 15000000000) as -> by done.
  pose proof (u64_range (now + retry_delay_ns s)).
  destruct (Z.ltb_spec (retry_delay_ns s) 15000000000); cbn;
    unfold session_ok, RETRY_INITIAL_NS, RETRY_MAX_NS in *; cbn; split_and!; try done; try lia;
    try (by destruct s);
    rewrite u64_id by (unfold is_u64; lia); lia.
Qed.

(** The source a read of the session reads: the one it holds, or the one it opens now. *)
Inductive opened s w : V -> W -> Prop :=
  | opened_before : connected s <> 0 -> opened s w (vhal s) w
  | opened_now rc v1 w1 :
      connected s = 0 ->
      roadcast_vhal_open (vhal s) (default EmptyString (process_name s)) w = (rc, v1, w1) ->
      0 <= rc -> opened s w v1 w1.

(** The source after an open or a read that failed. *)
Inductive source_failed s w : V -> W -> Prop :=
  | failed_open rc v1 w1 :
      connected s = 0 ->
      roadcast_vhal_open (vhal s) (default EmptyString (process_name s)) w = (rc, v1, w1) ->
      rc < 0 -> source_failed s w v1 w1
  | failed_read v0 w0 buffer rc v1 fs w1 :
      opened s w v0 w0 -> roadcast_vhal_read v0 buffer w0 = (rc, v1, fs, w1) ->
      rc < 0 -> source_failed s w v1 w1.

(** What one read of the session promises. *)
Definition session_read_post s (now : Z) w (r : Z) s' (fs : list roadcast_frame_t) w' : Prop :=
  session_ok s' /\ sample_ok fs /\ -2 <= r <= 1
  (* a failure publishes nothing fresh and disconnects *)
  /\ (r < 0 -> Forall (fun f => state f = ROADCAST_OBSERVATION_UNAVAILABLE) fs
               /\ connected s' = 0)
  (* success resets the backoff *)
  /\ (0 <= r -> connected s' = 1 /\ retry_delay_ns s' = RETRY_INITIAL_NS)
  (* before the retry time nothing is touched *)
  /\ (r = ROADCAST_SOURCE_WAITING <-> connected s = 0 /\ now < retry_at_ns s)
  /\ (r = ROADCAST_SOURCE_WAITING -> s' = s /\ w' = w)
  (* an attempt that fails doubles the backoff *)
  /\ (r = -1 -> retry_at_ns s' = u64 (now + retry_delay_ns s)
               /\ retry_delay_ns s' = Z.min RETRY_MAX_NS (2 * retry_delay_ns s))
  (* the generation counts the connections *)
  /\ (connected s = 1 -> generation s' = generation s)
  /\ (connected s = 0 -> 0 <= r -> generation s' = u64 (generation s + 1))
  (* success delivers what the source read *)
  /\ (0 <= r -> exists v0 w0 buffer, opened s w v0 w0
               /\ roadcast_vhal_read v0 buffer w0 = (r, vhal s', fs, w'))
  (* a failed attempt closes the source *)
  /\ (r = -1 -> exists v1 w1, source_failed s w v1 w1
               /\ roadcast_vhal_close v1 w1 = (vhal s', w')).

Lemma read_connected_spec s fs now w :
  session_ok s -> frames_ok fs -> connected s = 1 ->
  let '(r, s', fs', w') := read_connected s fs now w in
  session_read_post s now w r s' fs' w'.
Proof.
  intros Hs Hf Hc. unfold read_connected.
  pose proof (vhal_read_ok (vhal s) fs w (proj1 Hs) Hf) as Hread.
  assert (Hop : opened s w (vhal s) w) by (constructor; lia).
  destruct (roadcast_vhal_read (vhal s) fs w) as [[[r v] fs'] w1] eqn:Eread. destruct Hread as (Hr & Hv & Hfs).
  cbn zeta. set (s1 := s <| vhal := v |>).
  assert (Hs1 : session_ok s1) by (split; [exact Hv|apply Hs]).
  destruct (Z.ltb_spec r 0).
  - pose proof (schedule_retry_spec s1 now w1 Hs1) as Hsr. cbn zeta in Hsr.
    destruct (schedule_retry s1 now w1) as [s2 w2]. cbn [fst snd] in Hsr.
    destruct Hsr as (Hok & Hcon & Hg & Hat & Hdel & Hcl).
    destruct (unavailable_frames fs') as [Hu1 Hu2].
    unfold session_read_post, ROADCAST_SOURCE_WAITING. split_and!; try done; try lia.
    intros _. exists v, w1. split; [|exact Hcl]. by eapply failed_read.
  - unfold session_read_post, ROADCAST_SOURCE_WAITING.
    destruct Hs as (? & ? & ? & ? & ?). split_and!; try done; try (cbn; lia).
    intros _. by exists (vhal s), w, fs.
Qed.

Lemma session_read_spec s fs now w :
  session_ok s -> frames_ok fs ->
  let '(r, s', fs', w') := roadcast_source_session_read s fs now w in
  session_read_post s now w r s' fs' w'.
Proof.
  intros Hs Hf. unfold roadcast_source_session_read.
  pose proof Hs as (Hv & Hdel & Hcon & Hgen & Hat).
  destruct (Z.eqb_spec (connected s) 0) as [E|]; [|apply read_connected_spec; auto; lia].
  destruct (unavailable_frames fs) as [Hu1 Hu2]. cbn zeta.
  destruct (Z.ltb_spec now (retry_at_ns s)).
  { unfold session_read_post, ROADCAST_SOURCE_WAITING. split_and!; try done; lia. }
  destruct (vhal_open_ok (vhal s) (default EmptyString (process_name s)) w Hv) as [Hr Hv1].
  destruct (roadcast_vhal_open _ _ w) as [[rc v] w1] eqn:Eopen. cbn in Hr, Hv1. cbn zeta.
  destruct (Z.ltb_spec rc 0).
  - set (s1 := s <| vhal := v |>).
    assert (Hs1 : session_ok s1) by (split; [exact Hv1|apply Hs]).
    pose proof (schedule_retry_spec s1 now w1 Hs1) as Hsr. cbn zeta in Hsr.
    destruct (schedule_retry s1 now w1) as [s2 w2]. cbn [fst snd] in Hsr.
    destruct Hsr as (Hok & Hc2 & Hg & Hat2 & Hdel2 & Hcl).
    unfold session_read_post, ROADCAST_SOURCE_WAITING. split_and!; try done; try lia.
    intros _. exists v, w1. split; [|exact Hcl]. by eapply failed_open.
  - set (s1 := _ <| generation := _ |>).
    assert (Hs1 : session_ok s1).
    { unfold session_ok, s1. cbn. pose proof (u64_range (generation s + 1)). split_and!; done || lia. }
    pose proof (read_connected_spec s1 (mark_unavailable fs) now w1 Hs1 (proj1 Hu1) eq_refl) as Hp.
    destruct (read_connected s1 _ now w1) as [[[r s2] fs2] w2].
    destruct Hp as (P1 & P2 & P3 & P4 & P5 & P6 & P7 & P8 & P9 & _ & P11 & P12).
    assert (Hop : forall v0 w0, opened s1 w1 v0 w0 -> opened s w v0 w0).
    { intros v0 w0 Ho. destruct Ho as [|rc2 v0 w0 Hne]; [by eapply opened_now|discriminate Hne]. }
    unfold session_read_post, ROADCAST_SOURCE_WAITING in *.
    assert (Hnw : r <> -2) by (intros Hw; apply P6 in Hw; cbn in Hw; lia).
    split_and!; try done; try lia; intros Hx.
    + intros _. by apply P9.
    + destruct (P11 Hx) as (v0 & w0 & buffer & Ho & Hrd). exists v0, w0, buffer. by split; [apply Hop|].
    + destruct (P12 Hx) as (v1 & w3 & Hf1 & Hcl). exists v1, w3. split; [|exact Hcl].
      destruct Hf1 as [? ? ? Hne|v0 w0 buffer ? ? ? ? Ho]; [discriminate Hne|].
      by eapply failed_read; [apply Hop|..].
Qed.

(** The reads of a session at the given times, each into a zeroed array. *)
Fixpoint session_polls s (nows : list Z) w : list Z * roadcast_source_session_t V * W :=
  match nows with
  | [] => ([], s, w)
  | now :: nows' =>
      let '(r, s, _, w) :=
        roadcast_source_session_read s (repeat zero_frame (length CAN_IDS)) now w in
      let '(rs, s, w) := session_polls s nows' w in
      (r :: rs, s, w)
  end.

(** The failed attempts since the last success; waiting is not an attempt. *)
Definition failures_after (n : nat) (rs : list Z) : nat :=
  fold_left (fun n r => if 0 <=? r then 0%nat
                        else if r =? ROADCAST_SOURCE_WAITING then n else Datatypes.S n) rs n.

Lemma zero_frames_ok : frames_ok (repeat zero_frame (length CAN_IDS)).
Proof.
  split; [unfold FRAME_COUNT, zlen; by rewrite repeat_length|].
  apply Forall_forall. intros f Hf. apply repeat_spec in Hf as ->.
  unfold frame_ok, bytes_ok. concrete.
Qed.

Lemma session_polls_backoff nows : forall s w n,
  session_ok s -> retry_delay_ns s = backoff n ->
  let '(rs, s', _) := session_polls s nows w in
  session_ok s' /\ retry_delay_ns s' = backoff (failures_after n rs).
Proof.
  induction nows as [|now nows IH]; intros s w n Hs Hd; cbn [session_polls]; [done|].
  pose proof (session_read_spec s (repeat zero_frame (length CAN_IDS)) now w Hs zero_frames_ok) as Hp.
  destruct (roadcast_source_session_read s _ now w) as [[[r s1] fs] w1].
  destruct Hp as (P1 & _ & P3 & _ & P5 & _ & P7 & P8 & _).
  set (n1 := if 0 <=? r then 0%nat else if r =? ROADCAST_SOURCE_WAITING then n else Datatypes.S n).
  assert (Hd1 : retry_delay_ns s1 = backoff n1).
  { unfold n1. destruct (Z.leb_spec 0 r); [by apply P5|].
    destruct (Z.eqb_spec r ROADCAST_SOURCE_WAITING) as [Hw|Hw]; [by destruct (P7 Hw) as [-> _]|].
    unfold ROADCAST_SOURCE_WAITING in Hw. destruct (P8 ltac:(lia)) as [_ ->]. by rewrite Hd. }
  specialize (IH s1 w1 n1 P1 Hd1). destruct (session_polls s1 nows w1) as [[rs s2] w2]. done.
Qed.
End SessionFacts.

(** ** A scripted source, for the examples

    The world is the list of results of the coming operations. *)

#[export] Instance scripted_vhal : VhalSource unit (list Z) := {|
  vhal_zero := tt;
  roadcast_vhal_open v _ w := (match w with r :: _ => Z.min 0 (Z.max (-1) r) | [] => 0 end, v, tl w);
  roadcast_vhal_read v fs w :=
    (match w with r :: _ => Z.min 1 (Z.max (-1) r) | [] => 0 end, v,
     map (fun id => mk_frame id ROADCAST_OBSERVATION_NEVER_OBSERVED [1; 2; 3; 4; 5; 6; 7; 8] 0 0)
       ROADCAST_CAN_IDS, tl w);
  roadcast_vhal_close v w := (v, w);
|}.

Lemma scripted_sample_ok :
  sample_ok (map (fun id => mk_frame id ROADCAST_OBSERVATION_NEVER_OBSERVED [1; 2; 3; 4; 5; 6; 7; 8] 0 0)
    ROADCAST_CAN_IDS).
Proof.
  split_and!; [|reflexivity|by apply Forall_map, Forall_true].
  apply (catalog_map_ok (C := generated_catalog)). intros id Hid. unfold frame_ok, bytes_ok. concrete.
Qed.

#[export, program] Instance scripted_vhal_ok : VhalSourceOk scripted_vhal := {
  vhal_ok := fun _ => True;
}.
Next Obligation. done. Qed.
Next Obligation. intros v p [|r w] _; cbn; lia. Qed.
Next Obligation.
  intros v fs w _ _. split; [destruct w; lia|]. split; [done|]. exact scripted_sample_ok.
Qed.
Next Obligation. done. Qed.

(** ** Properties of the source session *)

(** C31: one read of the session, whatever the source answers, delivers a
    well-formed sample; a read that fails delivers only UNAVAILABLE frames and
    leaves the session disconnected with the retry one delay away and the delay
    doubled up to 30 s, having closed the source that the failed open or read left;
    a read that succeeds delivers what the source it holds, or has just opened,
    read; before the retry time the source is not touched; success
    resets the delay to 250 ms; the generation counts the connections. *)
Theorem session_read_correct `{CatalogOk} {V W} `{S : !VhalSource V W} `{!VhalSourceOk S}
    (s : roadcast_source_session_t V) fs now (w : W) :
  session_ok s -> frames_ok fs ->
  let '(r, s', fs', w') := roadcast_source_session_read s fs now w in
  session_read_post s now w r s' fs' w'.
Proof. apply session_read_spec. Qed.

Lemma session_read_correct_witness :
  let s := (roadcast_source_session_init (Some EmptyString)).2 in
  let '(r, s', fs, w') :=
    roadcast_source_session_read s (repeat zero_frame 111) 5 [-1; 0; 0] in
  r = -1 /\ retry_at_ns s' = 250000005 /\ retry_delay_ns s' = 500000000 /\ w' = [0; 0]
  /\ session_read_post s 5 [-1; 0; 0] r s' fs w'.
Proof.
  cbn zeta.
  pose proof (session_read_correct (roadcast_source_session_init (Some EmptyString)).2
    (repeat zero_frame 111) 5 [-1; 0; 0]) as H.
  assert (H1 : session_ok (@roadcast_source_session_init unit (list Z) _ (Some EmptyString)).2)
    by apply session_init_ok.
  specialize (H H1 zero_frames_ok).
  destruct (roadcast_source_session_read _ _ _ _) as [[[r s'] fs] w'] eqn:E.
  vm_compute in E. injection E as <- <- _ <-. repeat (split; [reflexivity|]). exact H.
Defined.

(** C32: after any sequence of reads the retry delay is [250 ms * 2^n], at most
    30 s, where [n] is the number of failed attempts since the last success. *)
Theorem session_backoff `{CatalogOk} {V W} `{S : !VhalSource V W} `{!VhalSourceOk S}
    (name : option string) (nows : list Z) (w : W) :
  let '(rs, s', _) := session_polls (roadcast_source_session_init name).2 nows w in
  let n := failures_after 0 rs in
  retry_delay_ns s' = Z.min RETRY_MAX_NS (RETRY_INITIAL_NS * 2 ^ Z.of_nat n).
Proof.
  pose proof (session_polls_backoff nows (roadcast_source_session_init name).2 w 0) as Hp.
  destruct (session_polls _ nows w) as [[rs s'] w']. cbn zeta.
  rewrite <- backoff_closed. apply Hp; [apply session_init_ok|done].
Qed.

(** Two failed attempts, a wait and a third failed attempt: two seconds. *)
Lemma session_backoff_witness :
  let '(rs, s', _) := session_polls (V := unit) (roadcast_source_session_init (Some EmptyString)).2
    [1; 1000000000; 1000000001; 9000000000] [-1; -1; -1] in
  rs = [-1; -1; -2; -1] /\ retry_delay_ns s' = 2000000000.
Proof.
  pose proof (session_backoff (V := unit) (Some EmptyString)
    [1; 1000000000; 1000000001; 9000000000] [-1; -1; -1]) as H.
  destruct (session_polls _ _ _) as [[rs s'] w'] eqn:E.
  vm_compute in E. injection E as <- _ _. split; [reflexivity|].
  cbn zeta in H. rewrite H. vm_compute. reflexivity.
Defined.
