(* ===== verification/Sampler.v ===== *)
(** * The sampler: src/roadcastd.c, [merge_sampled_frames] to [sampler_read_latest]

    The sampling thread reads the source once per period, merges the sample into
    its working frames, and publishes a copy under a lock; the event loop copies
    the latest publication under the same lock.  The critical sections make
    publication and reading atomic, so the thread and the loop interleave at the
    granularity of [sampler_publish] and [sampler_read_latest]. *)

From Stdlib Require Import String.
From S2P Require Import Prelude Wire CatalogDefs Catalog SourceSession.

(** What the daemon uses of the operating system's clock: [clock_gettime] on
    CLOCK_MONOTONIC and [nanosleep] until a deadline. *)
Class Clock (W : Type) := {
  monotonic_ns : W -> Z * W;
  sleep_until : Z -> W -> W;
}.

#[export] Instance eta_frame : Eta roadcast_frame_t := fun f =>
  mk_frame (can_id f) (state f) (data f) (first_observed_ns f) (last_change_ns f).

(** ** Fake frames *)

(** The eight bytes [memcpy] copies from a [uint64_t] on a little-endian machine. *)
Fixpoint le_bytes (n : nat) (v : Z) : list Z :=
  match n with
  | O => []
  | S n => u8 v :: le_bytes n (Z.shiftr v 8)
  end.

Section FakeFrames.
Context `{Catalog}.

Definition initialize_fake_frames : list roadcast_frame_t :=
  map (fun id => mk_frame id ROADCAST_OBSERVATION_NEVER_OBSERVED (repeat 0 8) 0 0) CAN_IDS.

Definition update_fake_frames (frames : list roadcast_frame_t) (sequence : Z) (dense : bool)
  : list roadcast_frame_t :=
  imap (fun i f =>
    let value := if dense then (if Z.odd sequence then UINT64_MAX else 0)
                 else u64 (sequence + Z.of_nat i) in
    f <| data := le_bytes 8 value |>) frames.
End FakeFrames.

(** ** Merging a sample *)

Definition merge_frame (destination sampled : roadcast_frame_t) (timestamp_ns : Z)
    (initialize : bool) : roadcast_frame_t :=
  if initialize then
    sampled <| first_observed_ns := 0 |> <| last_change_ns := 0 |>
  else if state sampled =? ROADCAST_OBSERVATION_UNAVAILABLE then
    destination <| state := ROADCAST_OBSERVATION_UNAVAILABLE |>
  else
    let destination :=
      if bool_decide (data destination = data sampled) then destination
      else
        let destination := destination <| data := data sampled |> in
        let destination :=
          if first_observed_ns destination =? 0
          then destination <| first_observed_ns := timestamp_ns |> else destination in
        destination <| last_change_ns := timestamp_ns |> in
    let destination := destination <| can_id := can_id sampled |> in
    destination <| state := if first_observed_ns destination =? 0
                            then ROADCAST_OBSERVATION_NEVER_OBSERVED
                            else ROADCAST_OBSERVATION_VALID |>.

Definition merge_sampled_frames (destination sampled : list roadcast_frame_t)
    (timestamp_ns : Z) (initialize : bool) : list roadcast_frame_t :=
  zip_with (fun d s => merge_frame d s timestamp_ns initialize) destination sampled.

(** ** The sampler *)

Record sampler_t (V : Type) := mk_sampler {
  source_errors : Z;
  fallback_batches : Z;
  source_state : Z;
  sampler_source : roadcast_source_session_t V;
  working : list roadcast_frame_t;
  published : list roadcast_frame_t;
  published_sequence : Z;
  published_timestamp_ns : Z;
  period_ns : Z;
  fake : Z;
}.
Arguments mk_sampler {V}.
Arguments source_errors {V}.
Arguments fallback_batches {V}.
Arguments source_state {V}.
Arguments sampler_source {V}.
Arguments working {V}.
Arguments published {V}.
Arguments published_sequence {V}.
Arguments published_timestamp_ns {V}.
Arguments period_ns {V}.
Arguments fake {V}.

#[export] Instance eta_sampler {V} : Eta (sampler_t V) := fun s =>
  mk_sampler (source_errors s) (fallback_batches s) (source_state s) (sampler_source s) (working s)
    (published s) (published_sequence s) (published_timestamp_ns s) (period_ns s) (fake s).

Section Sampler.
Context `{Catalog} {V W : Type} `{S : !VhalSource V W} `{K : !Clock W}.
Implicit Types (sampler : sampler_t V) (w : W).

Definition sampler_publish sampler (sequence timestamp_ns : Z) : sampler_t V :=
  sampler <| published := working sampler |> <| published_sequence := sequence |>
    <| published_timestamp_ns := timestamp_ns |>.

Definition source_state_of (read_result : Z) : Z :=
  if read_result <? 0 then ROADCAST_SOURCE_STATE_UNAVAILABLE
  else if 0 <? read_result then ROADCAST_SOURCE_STATE_DEGRADED
  else ROADCAST_SOURCE_STATE_AVAILABLE.

(** The counters of source errors and fallback reads. *)
Definition count_result sampler (read_result : Z) : sampler_t V :=
  if read_result =? -1 then sampler <| source_errors := u64 (source_errors sampler + 1) |>
  else if 0 <? read_result
  then sampler <| fallback_batches := u64 (fallback_batches sampler + 1) |>
  else sampler.

Definition zero_frames : list roadcast_frame_t := repeat zero_frame (length CAN_IDS).

(** One sample: the read, or the fake frames; the sampled frames, whether the
    source is a new one, and the result. *)
Definition take_sample sampler (sequence : Z) w
  : list roadcast_frame_t * bool * Z * sampler_t V * W :=
  if negb (fake sampler =? 0) then
    (update_fake_frames initialize_fake_frames sequence (fake sampler =? 2), false, 0, sampler, w)
  else
    let generation_before := generation (sampler_source sampler) in
    let '(now, w) := monotonic_ns w in
    let '(read_result, session, sampled, w) :=
      roadcast_source_session_read (sampler_source sampler) zero_frames now w in
    let sampler := sampler <| sampler_source := session |> in
    let new_source := (0 <=? read_result) && negb (generation_before =? generation session) in
    (sampled, new_source, read_result, count_result sampler read_result, w).

(** One iteration of [sampler_thread_main]: [stop1] and [stop2] are the two
    loads of [stop_requested]; [None] leaves the loop.  [sequence] and
    [next_tick] are the thread's locals. *)
Definition sampler_iteration (stop1 stop2 : bool) sampler (sequence next_tick : Z) w
  : option (sampler_t V * Z * Z) * W :=
  if stop1 then (None, w)
  else
    let next_tick := u64 (next_tick + period_ns sampler) in
    let w := sleep_until next_tick w in
    if stop2 then (None, w)
    else
      let sequence := u64 (sequence + 1) in
      let '(sampled, new_source, read_result, sampler, w) := take_sample sampler sequence w in
      let '(timestamp_ns, w) := monotonic_ns w in
      let sampler := sampler <| working :=
        merge_sampled_frames (working sampler) sampled timestamp_ns new_source |> in
      let sampler := sampler <| source_state := source_state_of read_result |> in
      let sampler := sampler_publish sampler sequence timestamp_ns in
      let '(now, w) := monotonic_ns w in
      let next_tick := if u64 (next_tick + period_ns sampler) <? now then now else next_tick in
      (Some (sampler, sequence, next_tick), w).

(** [alloc] is the result of [strdup] in the session's initialization. *)
Definition sampler_init (hz fake_ : Z) (alloc : option string) w : option (sampler_t V) * W :=
  let sampler := mk_sampler 0 0 ROADCAST_SOURCE_STATE_AVAILABLE
    (mk_session vhal_zero None 0 0 0 0) zero_frames zero_frames 0 0
    (1000000000 / hz) fake_ in
  let finish sampler sampled read_result w :=
    let '(now, w) := monotonic_ns w in
    let sampler := sampler <| working :=
      merge_sampled_frames (working sampler) sampled now true |> in
    let sampler := sampler <| source_state := source_state_of read_result |> in
    let '(now, w) := monotonic_ns w in
    (Some (sampler <| published := working sampler |> <| published_sequence := 0 |>
             <| published_timestamp_ns := now |>), w) in
  if negb (fake_ =? 0) then finish sampler initialize_fake_frames 0 w
  else
    let '(rc, session) := roadcast_source_session_init alloc in
    let sampler := sampler <| sampler_source := session |> in
    if rc <? 0 then (None, w)
    else
      let '(now, w) := monotonic_ns w in
      let '(read_result, session, sampled, w) :=
        roadcast_source_session_read (sampler_source sampler) zero_frames now w in
      let sampler := sampler <| sampler_source := session |> in
      finish (count_result sampler read_result) sampled read_result w.

Definition sampler_read_latest sampler : list roadcast_frame_t * Z * Z :=
  (published sampler, published_sequence sampler, published_timestamp_ns sampler).
End Sampler.

(** ** Facts *)

(** CLOCK_MONOTONIC counts nanoseconds from an unspecified start and does not
    read zero after boot. *)
Class ClockOk {W} (K : Clock W) : Prop := {
  clock_range w : 0 < (monotonic_ns w).1 < 2 ^ 64;
}.

Lemma le_bytes_ok n : forall v, bytes_ok (le_bytes n v).
Proof.
  induction n as [|n IH]; intros v; cbn [le_bytes]; constructor; [apply u8_range|apply IH].
Qed.

Lemma le_bytes_length n : forall v, length (le_bytes n v) = n.
Proof. induction n; intros v; cbn; auto. Qed.

Lemma last_cons_default {A} (l : list A) x y d d' :
  List.last (x :: y :: l) d = List.last (y :: l) d'.
Proof. revert y. induction l as [|z l IH]; intros y; [done|]. cbn in *. apply IH. Qed.

Section MergeFacts.
Context `{HC : CatalogOk}.

Lemma merge_frame_ok d s t init :
  frame_ok d -> frame_ok s -> is_u64 t -> frame_ok (merge_frame d s t init).
Proof.
  unfold frame_ok, merge_frame. intros (? & ? & ? & ? & ? & ?) (? & ? & ? & ? & ? & ?) Ht.
  destruct init; [cbn; split_and!; try done; concrete|].
  destruct (_ =? _); [cbn; split_and!; try done; concrete|].
  destruct (bool_decide _), (first_observed_ns d =? 0); cbn; split_and!; try done;
    match goal with |- context [if ?b then _ else _] => destruct b end;
    unfold ROADCAST_OBSERVATION_VALID, ROADCAST_OBSERVATION_NEVER_OBSERVED; first [done | lia].
Qed.

Lemma merge_sampled_ok ds ss t init :
  frames_ok ds -> sample_ok ss -> is_u64 t -> frames_ok (merge_sampled_frames ds ss t init).
Proof.
  intros [Hl Hd] [[Hl' Hs] _] Ht. unfold merge_sampled_frames. split.
  - unfold zlen in *. rewrite length_zip_with. lia.
  - apply Forall_lookup_2. intros i f Hi. apply lookup_zip_with_Some in Hi as (d & s & -> & H1 & H2).
    eapply Forall_lookup_1 in H1, H2; [|done..]. by apply merge_frame_ok.
Qed.

Lemma merge_ids ds ss t init :
  map can_id ds = CAN_IDS -> map can_id ss = CAN_IDS ->
  map can_id (merge_sampled_frames ds ss t init) = CAN_IDS.
Proof.
  intros Hd Hs. unfold merge_sampled_frames.
  assert (Heq : map can_id ds = map can_id ss) by congruence. rewrite <- Hs. clear Hd Hs.
  revert ss Heq. induction ds as [|d ds IH]; intros [|s ss] Heq; cbn in *; try done.
  injection Heq as H1 H2. f_equal; [|by apply IH].
  unfold merge_frame. destruct init; [done|]. destruct (_ =? _); [done|].
  by destruct (bool_decide _), (first_observed_ns d =? 0).
Qed.

(** A sample without a single available frame leaves every frame unavailable. *)
Lemma merge_unavailable ds ss t :
  Forall (fun f => state f = ROADCAST_OBSERVATION_UNAVAILABLE) ss ->
  Forall (fun f => state f = ROADCAST_OBSERVATION_UNAVAILABLE)
    (merge_sampled_frames ds ss t false).
Proof.
  intros H. apply Forall_lookup_2. intros i f Hi.
  apply lookup_zip_with_Some in Hi as (d & s & -> & H1 & H2).
  eapply Forall_lookup_1 in H2; [|done]. unfold merge_frame. by rewrite H2.
Qed.

Lemma initial_fake_ok : sample_ok initialize_fake_frames.
Proof.
  unfold initialize_fake_frames. split_and!.
  - apply catalog_map_ok. intros id Hid. unfold frame_ok, bytes_ok. concrete.
  - rewrite map_map. apply map_id.
  - by apply Forall_map, Forall_true.
Qed.

Lemma fake_sample_ok sequence dense :
  sample_ok (update_fake_frames initialize_fake_frames sequence dense).
Proof.
  destruct initial_fake_ok as [[Hl Hf] _]. unfold update_fake_frames. split_and!.
  - split; [unfold zlen in *; by rewrite length_imap|].
    apply Forall_lookup_2. intros i f Hi. rewrite list_lookup_imap in Hi.
    destruct (initialize_fake_frames !! i) as [g|] eqn:E; [|done]. injection Hi as <-.
    destruct (Forall_lookup_1 _ _ _ _ Hf E) as (? & ? & ? & ? & ? & ?).
    unfold frame_ok. cbn -[le_bytes].
    split_and!; try done; try lia. exact (le_bytes_ok 8 _).
  - unfold initialize_fake_frames. rewrite <- (map_id CAN_IDS) at 2. apply list_eq. intros i.
    rewrite !list_lookup_fmap, list_lookup_imap, list_lookup_fmap.
    by destruct (CAN_IDS !! i).
  - apply Forall_lookup_2. intros i f Hi. unfold initialize_fake_frames in Hi.
    rewrite list_lookup_imap, list_lookup_fmap in Hi.
    destruct (CAN_IDS !! i); [|done]. by injection Hi as <-.
Qed.
End MergeFacts.

(** ** The history of one frame

    Merging the samples of one frame, in order. *)

Definition merge_history (f : roadcast_frame_t) (samples : list (roadcast_frame_t * Z))
  : roadcast_frame_t :=
  fold_left (fun d '(s, t) => merge_frame d s t false) samples f.

(** The times at which an available sample differed from the one before. *)
Fixpoint change_times (prev : list Z) (samples : list (roadcast_frame_t * Z)) : list Z :=
  match samples with
  | [] => []
  | (s, t) :: rest =>
      if state s =? ROADCAST_OBSERVATION_UNAVAILABLE then change_times prev rest
      else if bool_decide (prev = data s) then change_times prev rest
      else t :: change_times (data s) rest
  end.

(** The bytes of the last available sample. *)
Definition last_bytes (prev : list Z) (samples : list (roadcast_frame_t * Z)) : list Z :=
  fold_left (fun prev '(s, _) =>
    if state s =? ROADCAST_OBSERVATION_UNAVAILABLE then prev else data s) samples prev.

(** The bytes and times one merge leaves. *)
Lemma merge_frame_fields d s t :
  let m := merge_frame d s t false in
  if state s =? ROADCAST_OBSERVATION_UNAVAILABLE then
    state m = ROADCAST_OBSERVATION_UNAVAILABLE /\ data m = data d
    /\ first_observed_ns m = first_observed_ns d /\ last_change_ns m = last_change_ns d
  else
    data m = data s
    /\ first_observed_ns m = (if bool_decide (data d = data s) then first_observed_ns d
                              else if first_observed_ns d =? 0 then t else first_observed_ns d)
    /\ last_change_ns m = (if bool_decide (data d = data s) then last_change_ns d else t)
    /\ state m = (if first_observed_ns m =? 0 then ROADCAST_OBSERVATION_NEVER_OBSERVED
                  else ROADCAST_OBSERVATION_VALID).
Proof.
  unfold merge_frame. destruct (state s =? _); [done|].
  destruct (bool_decide (data d = data s)) eqn:E; cbn; [|by destruct (first_observed_ns d =? 0)].
  apply bool_decide_eq_true_1 in E. done.
Qed.

Lemma merge_history_facts samples : forall f,
  Forall (fun x => x.2 <> 0) samples ->
  let f' := merge_history f samples in
  let times := change_times (data f) samples in
  data f' = last_bytes (data f) samples
  /\ first_observed_ns f' = (if first_observed_ns f =? 0 then hd 0 times
                             else first_observed_ns f)
  /\ last_change_ns f' = List.last times (last_change_ns f).
Proof.
  induction samples as [|[s t] samples IH]; intros f Ht.
  { cbn. by destruct (Z.eqb_spec (first_observed_ns f) 0). }
  inversion_clear Ht as [|? ? Ht0 Ht']. cbn in Ht0.
  specialize (IH (merge_frame f s t false) Ht'). cbn zeta in IH |- *.
  pose proof (merge_frame_fields f s t) as Hm. cbn zeta in Hm.
  change (merge_history f ((s, t) :: samples))
    with (merge_history (merge_frame f s t false) samples).
  cbn [change_times last_bytes fold_left]. fold (last_bytes (data f) samples).
  unfold last_bytes in *. cbn [fold_left].
  destruct (state s =? ROADCAST_OBSERVATION_UNAVAILABLE).
  { destruct Hm as (_ & -> & -> & ->) in IH. exact IH. }
  destruct Hm as (Hd & Hfo & Hlc & _). rewrite Hd, Hfo, Hlc in IH.
  destruct (bool_decide (data f = data s)) eqn:E.
  { apply bool_decide_eq_true_1 in E. by rewrite E. }
  destruct IH as (-> & -> & ->). cbn [hd]. split; [done|]. split.
  - destruct (Z.eqb_spec (first_observed_ns f) 0) as [|Hne].
    + by destruct (Z.eqb_spec t 0).
    + by destruct (Z.eqb_spec (first_observed_ns f) 0).
  - destruct (change_times (data s) samples) eqn:Ec; [done|].
    symmetry. apply last_cons_default.
Qed.

Lemma change_times_nonzero samples : forall prev,
  Forall (fun x => x.2 <> 0) samples -> Forall (fun t => t <> 0) (change_times prev samples).
Proof.
  induction samples as [|[s t] samples IH]; intros prev Ht; cbn [change_times]; [constructor|].
  inversion_clear Ht. repeat case_match; auto.
Qed.

(** ** The sampler's invariant

    The session is used only when the frames are not fake. *)

Definition sampler_ok `{Catalog} {V W} `{S : !VhalSource V W} `{HS : !VhalSourceOk S} (s : sampler_t V)
  : Prop :=
  (fake s = 0 -> session_ok (sampler_source s)) /\ frames_ok (working s) /\ map can_id (working s) = CAN_IDS
  /\ frames_ok (published s) /\ map can_id (published s) = CAN_IDS.

Section SamplerFacts.
Context `{HC : CatalogOk} {V W : Type} `{S : !VhalSource V W} `{HS : !VhalSourceOk S}
  `{K : !Clock W} `{HK : !ClockOk K}.
Implicit Types (s : sampler_t V) (w : W).

Lemma count_result_frame s r :
  sampler_source (count_result s r) = sampler_source s /\ working (count_result s r) = working s
  /\ published (count_result s r) = published s /\ fake (count_result s r) = fake s.
Proof. unfold count_result. by destruct (r =? -1), (0 <? r). Qed.

Lemma take_sample_spec s sequence w :
  sampler_ok s ->
  let '(sampled, new_source, r, s', w') := take_sample s sequence w in
  sampler_ok s' /\ sample_ok sampled /\ -2 <= r <= 1 /\ working s' = working s
  /\ (r < 0 -> new_source = false
               /\ Forall (fun f => state f = ROADCAST_OBSERVATION_UNAVAILABLE) sampled)
  /\ (fake s <> 0 -> r = 0).
Proof.
  intros (Hs & Hw & Hwi & Hp & Hpi). unfold take_sample.
  destruct (Z.eqb_spec (fake s) 0); cbn [negb].
  - destruct (monotonic_ns w) as [now w1].
    pose proof (session_read_spec (sampler_source s) zero_frames now w1 (Hs e) zero_frames_ok) as Hr.
    destruct (roadcast_source_session_read _ _ _ _) as [[[r se] fs] w2].
    destruct Hr as (R1 & R2 & R3 & R4 & _).
    destruct (count_result_frame (s <| sampler_source := se |>) r) as (C1 & C2 & C3 & C4).
    unfold sampler_ok. rewrite C1, C2, C3. cbn. split_and!; try done; try lia.
    intros Hneg. split; [|by apply R4]. by destruct (Z.leb_spec 0 r); [lia|].
  - split_and!; try done; try lia. apply fake_sample_ok.
Qed.

Lemma sampler_iteration_spec s sequence next_tick w :
  sampler_ok s ->
  exists s' next_tick' w',
    sampler_iteration false false s sequence next_tick w
    = (Some (s', u64 (sequence + 1), next_tick'), w')
    /\ sampler_ok s' /\ published s' = working s'
    /\ published_sequence s' = u64 (sequence + 1)
    /\ (source_state s' = ROADCAST_SOURCE_STATE_UNAVAILABLE ->
        Forall (fun f => state f = ROADCAST_OBSERVATION_UNAVAILABLE) (published s'))
    /\ 0 < published_timestamp_ns s' < 2 ^ 64
    /\ 0 <= source_state s' <= ROADCAST_SOURCE_STATE_DEGRADED.
Proof.
  intros Hok. unfold sampler_iteration. cbn zeta.
  set (w0 := sleep_until _ w).
  pose proof (take_sample_spec s (u64 (sequence + 1)) w0 Hok) as Ht.
  destruct (take_sample s _ w0) as [[[[fs ns] r] s1] w1].
  destruct Ht as ((Hs & Hw & Hwi & Hp & Hpi) & Hf & Hr & Hwk & Hneg & _).
  pose proof (clock_range w1) as Hc. destruct (monotonic_ns w1) as [t w2]. cbn in Hc.
  destruct (monotonic_ns w2) as [now w3].
  eexists _, _, _. split; [reflexivity|]. cbn.
  assert (frames_ok (merge_sampled_frames (working s1) fs t ns))
    by (apply merge_sampled_ok; [done..|unfold is_u64; lia]).
  assert (map can_id (merge_sampled_frames (working s1) fs t ns) = CAN_IDS)
    by (apply merge_ids; [done|apply Hf]).
  split; [done|]. split; [done|]. split; [done|]. split; [|split; [done|]]; unfold source_state_of.
  - destruct (Z.ltb_spec r 0).
    + intros _. destruct (Hneg ltac:(done)) as [-> ?]. by apply merge_unavailable.
    + by destruct (0 <? r).
  - by destruct (r <? 0), (0 <? r).
Qed.

Lemma merge_init_ids ds ss t :
  length ds = length ss -> map can_id (merge_sampled_frames ds ss t true) = map can_id ss.
Proof.
  unfold merge_sampled_frames. revert ss. induction ds as [|d ds IH]; intros [|s0 ss] Hl; try done.
  cbn in *. f_equal. apply IH. lia.
Qed.

Lemma source_state_range r : 0 <= source_state_of r <= ROADCAST_SOURCE_STATE_DEGRADED.
Proof. unfold source_state_of. by destruct (r <? 0), (0 <? r). Qed.

(** The sampler starts with one publication, under sequence number 0. *)
Lemma sampler_init_spec hz fake_ alloc w :
  match (sampler_init hz fake_ alloc w : option (sampler_t V) * W) with
  | (Some s, _) => sampler_ok s /\ published_sequence s = 0 /\ 0 < published_timestamp_ns s < 2 ^ 64
                   /\ 0 <= source_state s <= ROADCAST_SOURCE_STATE_DEGRADED
  | (None, _) => fake_ = 0 /\ alloc = None
  end.
Proof.
  assert (Hfin : forall (s0 : sampler_t V) sampled r w,
    (fake s0 = 0 -> session_ok (sampler_source s0)) -> working s0 = zero_frames -> sample_ok sampled ->
    let '(now, w) := monotonic_ns w in
    let s1 := s0 <| working := merge_sampled_frames (working s0) sampled now true |> in
    let s1 := s1 <| source_state := source_state_of r |> in
    let '(now, _) := monotonic_ns w in
    let s := s1 <| published := working s1 |> <| published_sequence := 0 |>
                <| published_timestamp_ns := now |> in
    sampler_ok s /\ published_sequence s = 0 /\ 0 < published_timestamp_ns s < 2 ^ 64
    /\ 0 <= source_state s <= ROADCAST_SOURCE_STATE_DEGRADED).
  { intros s0 sampled r w0 Hse Hw Hsa. pose proof (clock_range w0) as H1.
    destruct (monotonic_ns w0) as [t1 w1]. pose proof (clock_range w1) as H2.
    destruct (monotonic_ns w1) as [t2 w2]. cbn in H1, H2 |- *. rewrite Hw.
    assert (Hf : frames_ok (merge_sampled_frames zero_frames sampled t1 true)).
    { apply merge_sampled_ok; [apply zero_frames_ok|done|unfold is_u64; lia]. }
    assert (Hi : map can_id (merge_sampled_frames zero_frames sampled t1 true) = CAN_IDS).
    { destruct Hsa as ([Hl _] & Hi & _). rewrite merge_init_ids; [done|].
      pose proof zero_frames_ok as [Hz _]. unfold zlen in *. unfold zero_frames. lia. }
    split; [by split_and!|]. split; [done|]. split; [lia|]. apply source_state_range. }
  unfold sampler_init. destruct (Z.eqb_spec fake_ 0) as [Hz|Hz]; cbn [negb].
  - destruct alloc as [name|]; [|done]. cbn -[monotonic_ns roadcast_source_session_read count_result merge_sampled_frames source_state_of].
    destruct (monotonic_ns w) as [t0 w0].
    match goal with |- context [roadcast_source_session_read ?x _ t0 w0] =>
      assert (Hx : session_ok x) by apply session_init_ok;
      pose proof (session_read_spec x zero_frames t0 w0 Hx zero_frames_ok) as Hr;
      destruct (roadcast_source_session_read x zero_frames t0 w0) as [[[r se] fs] w1] end.
    destruct Hr as (R1 & R2 & _).
    match goal with |- context [count_result ?x r] =>
      destruct (count_result_frame x r) as (C1 & C2 & _);
      specialize (Hfin (count_result x r) fs r w1) end.
    rewrite C1, C2 in Hfin. specialize (Hfin (fun _ => R1) eq_refl R2). rewrite C2.
    destruct (monotonic_ns w1) as [t1 w2]. by destruct (monotonic_ns w2).
  - specialize (Hfin (mk_sampler 0 0 ROADCAST_SOURCE_STATE_AVAILABLE
      (mk_session vhal_zero None 0 0 0 0) zero_frames zero_frames 0 0 (1000000000 / hz) fake_)
      initialize_fake_frames 0 w).
    assert (Hf : sample_ok initialize_fake_frames) by apply initial_fake_ok.
    cbn -[monotonic_ns merge_sampled_frames source_state_of] in Hfin |- *.
    specialize (Hfin ltac:(done) eq_refl Hf).
    destruct (monotonic_ns w) as [t1 w1]. by destruct (monotonic_ns w1).
Qed.
End SamplerFacts.

(** ** What the sampling thread does to the outside world

    A relation on worlds that every call of the thread respects holds across the
    whole of its operations. *)

Class Transparent {V W} `{S : VhalSource V W} `{K : Clock W} (R : W -> W -> Prop) : Prop := {
  transparent_preorder :: PreOrder R;
  transparent_clock w : R w (monotonic_ns w).2;
  transparent_sleep t w : R w (sleep_until t w);
  transparent_open v p w : R w (roadcast_vhal_open v p w).2;
  transparent_read v fs w : R w (roadcast_vhal_read v fs w).2;
  transparent_close v w : R w (roadcast_vhal_close v w).2;
}.

Section Transparency.
Context `{Catalog} {V W : Type} `{S : !VhalSource V W} `{K : !Clock W} {R : W -> W -> Prop}
  `{T : !Transparent R}.
Implicit Types (session : roadcast_source_session_t V) (w : W).

Lemma schedule_retry_related session now w0 w : R w0 w -> R w0 (schedule_retry session now w).2.
Proof.
  intros H0. unfold schedule_retry. pose proof (transparent_close (vhal session) w) as H1.
  destruct (roadcast_vhal_close _ _). cbn in *. by etrans.
Qed.

Lemma read_connected_related session fs now w0 w : R w0 w -> R w0 (read_connected session fs now w).2.
Proof.
  intros H0. unfold read_connected. pose proof (transparent_read (vhal session) fs w) as H1.
  destruct (roadcast_vhal_read _ _ _) as [[[r v] fs'] w']. cbn [snd] in *.
  assert (H2 : R w0 w') by (by etrans). destruct (r <? 0); [|done].
  match goal with |- context [schedule_retry ?x now w'] =>
    pose proof (schedule_retry_related x now w0 w' H2); by destruct (schedule_retry x now w') end.
Qed.

Lemma session_read_related session fs now w0 w :
  R w0 w -> R w0 (roadcast_source_session_read session fs now w).2.
Proof.
  intros H0. unfold roadcast_source_session_read.
  destruct (_ =? 0); [|by apply read_connected_related]. destruct (_ <? _); [done|].
  pose proof (transparent_open (vhal session) (default EmptyString (process_name session)) w) as H1.
  destruct (roadcast_vhal_open _ _ _) as [[rc v] w']. cbn [snd] in *.
  assert (H2 : R w0 w') by (by etrans). destruct (rc <? 0); [|by apply read_connected_related].
  match goal with |- context [schedule_retry ?x now w'] =>
    pose proof (schedule_retry_related x now w0 w' H2); by destruct (schedule_retry x now w') end.
Qed.

Lemma session_close_related session w0 w :
  R w0 w -> R w0 (roadcast_source_session_close session w).2.
Proof.
  intros H0. unfold roadcast_source_session_close.
  pose proof (transparent_close (vhal session) w) as H1.
  destruct (roadcast_vhal_close _ _). cbn in *. by etrans.
Qed.

Lemma clock_related w0 w t w' : R w0 w -> monotonic_ns w = (t, w') -> R w0 w'.
Proof. intros H0 E. pose proof (transparent_clock w) as H1. rewrite E in H1. by etrans. Qed.

Lemma take_sample_related (s : sampler_t V) sequence w0 w :
  R w0 w -> R w0 (take_sample s sequence w).2.
Proof.
  intros H0. unfold take_sample. destruct (negb _); [done|].
  destruct (monotonic_ns w) as [t w1] eqn:E1. pose proof (clock_related _ _ _ _ H0 E1) as H1.
  pose proof (session_read_related (sampler_source s) zero_frames t w0 w1 H1) as H2.
  by destruct (roadcast_source_session_read _ _ _ _) as [[[r se] fs] w2].
Qed.

Lemma sampler_iteration_related stop1 stop2 (s : sampler_t V) sequence next_tick w :
  R w (sampler_iteration stop1 stop2 s sequence next_tick w).2.
Proof.
  unfold sampler_iteration. destruct stop1; [done|]. cbv zeta.
  pose proof (transparent_sleep (u64 (next_tick + period_ns s)) w) as H0. destruct stop2; [done|].
  pose proof (take_sample_related s (u64 (sequence + 1)) w _ H0) as H1.
  destruct (take_sample _ _ _) as [[[[sampled new] r] s'] w1]. cbn [snd] in H1.
  destruct (monotonic_ns w1) as [t1 w2] eqn:E1. destruct (monotonic_ns w2) as [t2 w3] eqn:E2.
  cbn. eapply clock_related; [|exact E2]. by eapply clock_related.
Qed.

Lemma sampler_init_related hz fake_ alloc w :
  R w (sampler_init hz fake_ alloc w : option (sampler_t V) * W).2.
Proof.
  assert (Hfin : forall w1 t1 w2 t2 w3, R w w1 -> monotonic_ns w1 = (t1, w2) ->
    monotonic_ns w2 = (t2, w3) -> R w w3).
  { intros w1 t1 w2 t2 w3 H1 E1 E2. eapply clock_related; [|exact E2]. by eapply clock_related. }
  unfold sampler_init. cbv zeta. destruct (negb _).
  { destruct (monotonic_ns w) as [t1 w1] eqn:E1. destruct (monotonic_ns w1) as [t2 w2] eqn:E2.
    by eapply Hfin. }
  destruct alloc as [name|]; [|done].
  unfold roadcast_source_session_init. cbn -[monotonic_ns roadcast_source_session_read merge_sampled_frames].
  destruct (monotonic_ns w) as [t w1] eqn:E1.
  pose proof (clock_related w w t w1 ltac:(done) E1) as H1.
  match goal with |- context [roadcast_source_session_read ?x zero_frames t w1] =>
    pose proof (session_read_related x zero_frames t w w1 H1) as H2;
    destruct (roadcast_source_session_read x zero_frames t w1) as [[[r se] fs] w2] end.
  destruct (monotonic_ns w2) as [t3 w3] eqn:E3. destruct (monotonic_ns w3) as [t4 w4] eqn:E4.
  by eapply Hfin.
Qed.
End Transparency.

(** ** Properties of the sampler *)

(** C28: the record of a frame is the history of its samples: after any sequence
    of samples since the source connected, the bytes are those of the last
    available sample, [first_observed_ns] and [last_change_ns] are the times of
    the first and last change of the bytes (0 without one), and the frame is
    UNAVAILABLE exactly when the last sample was, VALID exactly when it has
    changed, NEVER_OBSERVED otherwise. *)
Theorem frame_history (f s0 s : roadcast_frame_t) (t t0 : Z)
    (samples : list (roadcast_frame_t * Z)) :
  Forall (fun x => x.2 <> 0) (samples ++ [(s, t)]) ->
  let f0 := merge_frame f s0 t0 true in
  let times := change_times (data f0) (samples ++ [(s, t)]) in
  let f' := merge_history f0 (samples ++ [(s, t)]) in
  data f' = last_bytes (data f0) (samples ++ [(s, t)])
  /\ first_observed_ns f' = hd 0 times /\ last_change_ns f' = List.last times 0
  /\ state f' = (if state s =? ROADCAST_OBSERVATION_UNAVAILABLE
                 then ROADCAST_OBSERVATION_UNAVAILABLE
                 else match times with
                      | [] => ROADCAST_OBSERVATION_NEVER_OBSERVED
                      | _ :: _ => ROADCAST_OBSERVATION_VALID
                      end).
Proof.
  intros Ht f0 times f'.
  destruct (merge_history_facts (samples ++ [(s, t)]) f0 Ht) as (Hd & Hfo & Hlc).
  split; [done|]. split; [done|]. split; [done|].
  assert (Hst : f' = merge_frame (merge_history f0 samples) s t false)
    by (unfold f', merge_history; by rewrite fold_left_app).
  pose proof (merge_frame_fields (merge_history f0 samples) s t) as Hm. cbn zeta in Hm.
  rewrite <- Hst in Hm. destruct (state s =? _); [by destruct Hm|].
  destruct Hm as (_ & _ & _ & ->). fold f' in Hfo.
  change (first_observed_ns f0 =? 0) with true in Hfo. cbn match in Hfo.
  rewrite Hfo. fold times. assert (Htimes : Forall (fun t => t <> 0) times)
    by (by apply change_times_nonzero).
  destruct times as [|t1 ts]; [done|]. inversion_clear Htimes. cbn [hd].
  by destruct (Z.eqb_spec t1 0).
Qed.

Definition demo_sample (st b : Z) : roadcast_frame_t := mk_frame 0x85 st (repeat b 8) 0 0.

Lemma frame_history_witness :
  let f' := merge_history (merge_frame zero_frame (demo_sample 1 7) 10 true)
              ([(demo_sample 1 7, 20); (demo_sample 1 8, 30); (demo_sample 0 0, 40)]
                 ++ [(demo_sample 1 7, 50)]) in
  first_observed_ns f' = 30 /\ last_change_ns f' = 50 /\ state f' = ROADCAST_OBSERVATION_VALID.
Proof.
  pose proof (frame_history zero_frame (demo_sample 1 7) (demo_sample 1 7) 50 10
    [(demo_sample 1 7, 20); (demo_sample 1 8, 30); (demo_sample 0 0, 40)]) as H.
  destruct H as (_ & H1 & H2 & H3); [repeat constructor; cbn; lia|].
  cbn zeta. split; [exact H1|]. split; [exact H2|exact H3].
Defined.

(** C29: one iteration of the sampling thread always publishes: a well-formed
    frame set with the ids of the catalog, under the next sequence number, with
    no sequence number skipped; and when the source is unavailable, not one
    published frame is presented as available. *)
Theorem sampler_publishes `{CatalogOk} {V W} `{S : !VhalSource V W} `{!VhalSourceOk S}
    `{K : !Clock W} `{!ClockOk K} (s : sampler_t V) (sequence next_tick : Z) (w : W) :
  sampler_ok s ->
  exists s' next_tick' w',
    sampler_iteration false false s sequence next_tick w
    = (Some (s', u64 (sequence + 1), next_tick'), w')
    /\ sampler_ok s' /\ published s' = working s'
    /\ published_sequence s' = u64 (sequence + 1)
    /\ (source_state s' = ROADCAST_SOURCE_STATE_UNAVAILABLE ->
        Forall (fun f => state f = ROADCAST_OBSERVATION_UNAVAILABLE) (published s')).
Proof.
  intros Hok. destruct (sampler_iteration_spec s sequence next_tick w Hok)
    as (s' & nt & w' & H1 & H2 & H3 & H4 & H5 & _). by exists s', nt, w'.
Qed.

(** A clock that ticks at every reading. *)
#[local] Instance counting_clock : Clock (list Z) := {|
  monotonic_ns w := (1 + zlen w mod 1000, 0 :: w);
  sleep_until _ w := w;
|}.

#[local] Instance counting_clock_ok : ClockOk counting_clock.
Proof.
  split. intros w. cbn. pose proof (Z.mod_pos_bound (zlen w) 1000). lia.
Qed.

Definition demo_sampler : sampler_t unit :=
  mk_sampler 0 0 ROADCAST_SOURCE_STATE_AVAILABLE (roadcast_source_session_init (Some EmptyString)).2
    (mark_unavailable []) (mark_unavailable []) 0 0 16666666 0.

Lemma sampler_publishes_witness :
  exists s' nt w', sampler_iteration false false demo_sampler 7 100 [-1]
                   = (Some (s', 8, nt), w')
    /\ published_sequence s' = 8
    /\ source_state s' = ROADCAST_SOURCE_STATE_UNAVAILABLE.
Proof.
  destruct (sampler_publishes demo_sampler 7 100 [-1]) as (s' & nt & w' & H1 & _ & _ & H2 & _).
  - destruct (unavailable_frames []) as [(H1 & H2 & _) _].
    unfold sampler_ok. split_and!; try done. all: apply session_init_ok.
  - exists s', nt, w'. split; [exact H1|]. split; [exact H2|].
    vm_compute in H1. injection H1 as <- _ _. reflexivity.
Defined.
