(* ===== verification/PosixClock.v ===== *)
(** * The daemon's clock: [monotonic_ns] and [sleep_until] of src/roadcastd.c

    The two functions against the system calls [clock_gettime] and [nanosleep],
    as an instance of the class [Clock] that the rest of the library is proved
    against, and the pace of the sampling thread on it. *)

From Stdlib Require Import String.
From S2P Require Import Prelude Wire CatalogDefs CatalogData Catalog SourceSession Sampler.

(** [clock_gettime] on CLOCK_MONOTONIC gives seconds and nanoseconds; [nanosleep]
    gives [None] when it slept to the end and [errno] otherwise. *)
Class Time (W : Type) := {
  clock_gettime : W -> Z * Z * W;
  nanosleep : Z -> Z -> W -> option Z * W;
}.

Section Clock.
Context {W : Type} `{T : !Time W}.
Implicit Types w : W.

Definition posix_monotonic_ns w : Z * W :=
  let '(tv_sec, tv_nsec, w) := clock_gettime w in
  (u64 (u64 (u64 tv_sec * 1000000000) + u64 tv_nsec), w).

(** The loop of [sleep_until]; [Fail] when it runs out of fuel. *)
Fixpoint sleep_loop (n : nat) (deadline_ns : Z) w : res W :=
  match n with
  | O => Fail
  | S n =>
      let '(now, w) := posix_monotonic_ns w in
      if deadline_ns <=? now then Ok w
      else
        let remaining := u64 (deadline_ns - now) in
        let '(result, w) := nanosleep (remaining / 1000000000) (remaining mod 1000000000) w in
        match result with
        | None => Ok w
        | Some errno => if errno =? EINTR then sleep_loop n deadline_ns w else Ok w
        end
  end.

(** With fuel for a world that interrupts less often than [n] times. *)
Definition posix_sleep_until (n : nat) (deadline_ns : Z) w : W :=
  match sleep_loop n deadline_ns w with Ok w' => w' | _ => w end.

Definition posix_clock (n : nat) : Clock W := {|
  monotonic_ns := posix_monotonic_ns;
  sleep_until := posix_sleep_until n;
|}.
End Clock.

(** ** What the code relies on *)

(** CLOCK_MONOTONIC does not go back and its nanoseconds fit in 64 bits; a sleep
    that is not interrupted takes at least as long as asked; signals interrupt a
    bounded number of sleeps. *)
Class TimeOk {W} (T : Time W) := {
  now : W -> Z;
  interruptions : W -> nat;
  now_range w : 0 < now w < 2 ^ 64;
  clock_gettime_ok w :
    let '(s, ns, w') := clock_gettime w in
    0 <= s /\ 0 <= ns < 1000000000 /\ s * 1000000000 + ns = now w'
    /\ now w <= now w' /\ (interruptions w' <= interruptions w)%nat;
  nanosleep_later s ns w :
    now w <= now (nanosleep s ns w).2
    /\ (interruptions (nanosleep s ns w).2 <= interruptions w)%nat;
  nanosleep_ok s ns w :
    0 <= s -> 0 <= ns < 1000000000 -> now w + (s * 1000000000 + ns) < 2 ^ 64 ->
    let '(r, w') := nanosleep s ns w in
    match r with
    | None => now w + (s * 1000000000 + ns) <= now w'
    | Some e => e = EINTR /\ (interruptions w' < interruptions w)%nat
    end;
}.

(** Time passes between two worlds. *)
Definition later {W} `{TimeOk W} (w w' : W) : Prop :=
  now w <= now w' /\ (interruptions w' <= interruptions w)%nat.

#[export] Instance later_preorder {W} `{HT : TimeOk W} : PreOrder (later (W := W)).
Proof. split; [by split|]. intros w1 w2 w3 [H1 H2] [H3 H4]. split; lia. Qed.

Section ClockFacts.
Context {W : Type} `{T : !Time W} `{HT : !TimeOk T}.
Implicit Types w : W.

Lemma posix_monotonic_ns_ok w :
  let '(t, w') := posix_monotonic_ns w in t = now w' /\ later w w'.
Proof.
  unfold posix_monotonic_ns. pose proof (clock_gettime_ok w) as H.
  destruct (clock_gettime w) as [[s ns] w']. destruct H as (H1 & H2 & H3 & H4).
  pose proof (now_range w') as Hr. rewrite (u64_id s) by (unfold is_u64; lia).
  rewrite (u64_id ns), (u64_id (s * 1000000000)) by (unfold is_u64; lia).
  rewrite u64_id by (unfold is_u64; lia). by split.
Qed.

#[export] Instance posix_clock_ok n : ClockOk (posix_clock n).
Proof.
  split. intros w. cbn. pose proof (posix_monotonic_ns_ok w) as H.
  destruct (posix_monotonic_ns w) as [t w']. destruct H as [-> _]. apply now_range.
Qed.

(** The loop ends, at the deadline or after it. *)
Lemma sleep_loop_ok n : forall deadline w, is_u64 deadline -> (interruptions w < n)%nat ->
  exists w', sleep_loop n deadline w = Ok w' /\ deadline <= now w' /\ later w w'.
Proof.
  induction n as [|n IH]; intros deadline w Hd Hn; [lia|]. cbn [sleep_loop].
  pose proof (posix_monotonic_ns_ok w) as H. destruct (posix_monotonic_ns w) as [t w1].
  destruct H as [-> H1]. destruct (Z.leb_spec deadline (now w1)) as [Hle|Hgt]; [by exists w1|].
  pose proof (now_range w1) as Hr. unfold is_u64 in Hd.
  rewrite u64_id by (unfold is_u64; lia).
  assert (Hd1 : 0 < deadline - now w1 /\ now w1 + (deadline - now w1) < 2 ^ 64) by lia.
  assert (Hd2 : deadline = now w1 + (deadline - now w1)) by lia.
  generalize dependent (deadline - now w1). intros d [Hd1 Hd3] Hd2.
  pose proof (Z.div_mod d 1000000000 ltac:(lia)) as Hdm.
  pose proof (Z.mod_pos_bound d 1000000000 ltac:(lia)) as Hm.
  pose proof (Z.div_pos d 1000000000 ltac:(lia) ltac:(lia)) as Hp.
  pose proof (nanosleep_later (d / 1000000000) (d mod 1000000000) w1) as Hl.
  assert (Hfit : now w1 + (d / 1000000000 * 1000000000 + d mod 1000000000) < 2 ^ 64) by lia.
  pose proof (nanosleep_ok _ _ w1 Hp Hm Hfit) as Hs.
  destruct (nanosleep _ _ w1) as [[e|] w2]; cbn [snd] in *.
  - destruct Hs as [-> Hi]. change (EINTR =? EINTR) with true. cbn iota.
    destruct H1 as [H1 H1']. destruct (IH deadline w2 Hd ltac:(lia)) as (w' & E & Hw & Hlat).
    exists w'. split; [exact E|]. split; [exact Hw|]. etrans; [|exact Hlat]. by split; lia.
  - exists w2. split; [done|]. split; [lia|]. by etrans.
Qed.

Lemma sleep_loop_later n : forall deadline w w', sleep_loop n deadline w = Ok w' -> later w w'.
Proof.
  induction n as [|n IH]; intros deadline w w' Hrun; [done|]. cbn [sleep_loop] in Hrun.
  pose proof (posix_monotonic_ns_ok w) as H. destruct (posix_monotonic_ns w) as [t w1].
  destruct H as [_ H1]. destruct (deadline <=? t); [by injection Hrun as <-|].
  match type of Hrun with context [nanosleep ?s ?ns w1] => pose proof (nanosleep_later s ns w1) as H2 end.
  destruct (nanosleep _ _ w1) as [[e|] w2]; cbn [snd] in *.
  - destruct (e =? EINTR); [|injection Hrun as <-; by etrans].
    etrans; [exact H1|]. etrans; [exact H2|by eapply IH].
  - injection Hrun as <-. by etrans.
Qed.

Lemma posix_sleep_later n deadline w : later w (posix_sleep_until n deadline w).
Proof.
  unfold posix_sleep_until. destruct (sleep_loop n deadline w) as [w'| |] eqn:E; [|done..].
  by eapply sleep_loop_later.
Qed.
End ClockFacts.

(** ** The pace of the sampling thread *)

(** The calls of the source take time and give none back. *)
Class Forward {V W} `{TimeOk W} (S : VhalSource V W) : Prop := {
  forward_open v p w : later w (roadcast_vhal_open v p w).2;
  forward_read v fs w : later w (roadcast_vhal_read v fs w).2;
  forward_close v w : later w (roadcast_vhal_close v w).2;
}.

(** The loop of [sampler_thread_main] while no stop is requested: [n] turns, with
    the locals [sequence] and [next_tick]. *)
Fixpoint sampler_turns `{Catalog} {V W} `{S : !VhalSource V W} `{K : !Clock W} (n : nat)
    (s : sampler_t V) (sequence next_tick : Z) (w : W) : option (sampler_t V * Z * Z) * W :=
  match n with
  | O => (Some (s, sequence, next_tick), w)
  | S n =>
      match sampler_iteration false false s sequence next_tick w with
      | (Some (s, sequence, next_tick), w) => sampler_turns n s sequence next_tick w
      | (None, w) => (None, w)
      end
  end.

Section Pace.
Context `{HC : Catalog} {V W : Type} `{S : !VhalSource V W} `{T : !Time W} `{HT : !TimeOk T}
  `{HF : !Forward S}.
Variable fuel : nat.
#[local] Instance this_clock : Clock W := posix_clock fuel.
Implicit Types (s : sampler_t V) (w : W).

#[local] Instance later_transparent : Transparent (later (W := W)).
Proof.
  split; [apply _|..]; intros.
  - cbn. pose proof (posix_monotonic_ns_ok w) as H. by destruct (posix_monotonic_ns w), H.
  - apply posix_sleep_later.
  - apply forward_open.
  - apply forward_read.
  - apply forward_close.
Qed.

Lemma take_sample_period s sequence w :
  period_ns (take_sample s sequence w).1.2 = period_ns s.
Proof.
  unfold take_sample. destruct (negb _); [done|]. destruct (monotonic_ns w) as [t w1].
  destruct (roadcast_source_session_read _ _ _ _) as [[[r se] fs] w2]. cbn.
  unfold count_result. destruct (r =? -1); [done|]. by destruct (0 <? r).
Qed.

(** One turn: the sample is taken and published after the deadline of the turn,
    and the next deadline is not before it. *)
Lemma iteration_pace s sequence next_tick w :
  (interruptions w < fuel)%nat -> 0 <= next_tick <= now w -> 0 <= period_ns s ->
  exists s' next_tick' w',
    sampler_iteration false false s sequence next_tick w
    = (Some (s', u64 (sequence + 1), next_tick'), w')
    /\ later w w' /\ period_ns s' = period_ns s /\ 0 <= next_tick' <= now w'
    /\ (next_tick + period_ns s < 2 ^ 64 ->
        next_tick + period_ns s <= published_timestamp_ns s'
        /\ next_tick + period_ns s <= next_tick').
Proof.
  intros Hf Hn Hp. pose proof (sampler_iteration_related (R := later) false false s sequence
    next_tick w) as Hall.
  unfold sampler_iteration in *.
  destruct (sleep_loop_ok fuel (u64 (next_tick + period_ns s)) w) as (w1 & E1 & Hdead & _);
    [apply u64_range|done|].
  assert (Es : sleep_until (u64 (next_tick + period_ns s)) w = w1)
    by (cbn; unfold posix_sleep_until; by rewrite E1).
  rewrite Es in Hall |- *. pose proof (take_sample_period s (u64 (sequence + 1)) w1) as Hper.
  pose proof (take_sample_related (R := later) s (u64 (sequence + 1)) w1 w1 ltac:(done)) as H2.
  destruct (take_sample _ _ w1) as [[[[sampled new] r] s1] w2]. cbn [fst snd] in Hper, H2.
  pose proof (posix_monotonic_ns_ok w2) as H3. cbn [monotonic_ns this_clock posix_clock] in *.
  destruct (posix_monotonic_ns w2) as [t w3]. destruct H3 as [-> [H3 _]].
  pose proof (posix_monotonic_ns_ok w3) as H4.
  destruct (posix_monotonic_ns w3) as [t4 w4]. destruct H4 as [-> [H4 _]].
  destruct H2 as [H2 _].
  pose proof (u64_range (next_tick + period_ns s)) as Hu. unfold is_u64 in Hu.
  do 3 eexists. split; [reflexivity|]. split; [exact Hall|]. cbn. split; [done|].
  pose proof (now_range w4) as Hr.
  split; [destruct (_ <? now w4); lia|]. intros Hno.
  rewrite (u64_id (next_tick + period_ns s)) in Hdead |- * by (unfold is_u64; lia). split; [lia|].
  clear - Hdead H2 H3 H4. case_match; lia.
Qed.

Lemma turns_pace n : forall s sequence next_tick w,
  (interruptions w < fuel)%nat -> 0 <= next_tick <= now w -> 0 <= period_ns s -> is_u64 sequence ->
  exists s' next_tick' w',
    sampler_turns n s sequence next_tick w
    = (Some (s', u64 (sequence + Z.of_nat n), next_tick'), w')
    /\ later w w'
    /\ (now w' + period_ns s < 2 ^ 64 -> (0 < n)%nat ->
        next_tick + Z.of_nat n * period_ns s <= published_timestamp_ns s').
Proof.
  induction n as [|n IH]; intros s sequence next_tick w Hf Hn Hp Hseq.
  { exists s, next_tick, w. rewrite Z.add_0_r, u64_id by done. by split_and!; [| |lia]. }
  destruct (iteration_pace s sequence next_tick w Hf Hn Hp) as (s1 & t1 & w1 & E1 & L1 & P1 & R1 & H1).
  destruct (IH s1 (u64 (sequence + 1)) t1 w1) as (s2 & t2 & w2 & E2 & L2 & H2);
    [destruct L1; lia|done|lia|apply u64_range|].
  exists s2, t2, w2. cbn [sampler_turns]. rewrite E1. split; [|split; [by etrans|]].
  - assert (Hseq' : u64 (u64 (sequence + 1) + Z.of_nat n) = u64 (sequence + Z.of_nat (Datatypes.S n))).
    { unfold u64. rewrite Zplus_mod_idemp_l. f_equal. lia. }
    by rewrite E2, Hseq'.
  - intros Hno _. destruct L1 as [L1 _], L2 as [L2 _]. destruct H1 as [H1 H1']; [lia|].
    rewrite P1 in H2. destruct n as [|n]; [|specialize (H2 Hno ltac:(lia)); lia].
    cbn in E2. injection E2 as <- _ _ _. lia.
Qed.

End Pace.

(** C30: the pace of the sampling thread.  However often its sleeps are interrupted
    and however long the source takes, [n] turns of the thread return, the sequence
    number has advanced by [n], and the last of them published its sample at least
    [n] periods after the tick it started from: no turn is early and no tick is
    handed out twice, so the daemon never samples faster than its rate. *)
Theorem sampler_keeps_pace `{Catalog} {V W : Type} `{S : !VhalSource V W} `{T : !Time W}
    `{HT : !TimeOk T} `{HF : !Forward S} (fuel n : nat) (s : sampler_t V)
    (sequence next_tick : Z) (w : W) :
  (interruptions w < fuel)%nat -> 0 <= next_tick <= now w -> 0 <= period_ns s -> is_u64 sequence ->
  exists s' next_tick' w',
    sampler_turns (K := posix_clock fuel) n s sequence next_tick w
    = (Some (s', u64 (sequence + Z.of_nat n), next_tick'), w')
    /\ (now w' + period_ns s < 2 ^ 64 -> (0 < n)%nat ->
        next_tick + Z.of_nat n * period_ns s <= published_timestamp_ns s').
Proof.
  intros Hf Hn Hp Hseq.
  destruct (turns_pace fuel n s sequence next_tick w Hf Hn Hp Hseq) as (s' & t' & w' & H1 & _ & H2).
  by exists s', t', w'.
Qed.

(** ** A concrete clock *)

(** The time, and how many sleeps are still going to be interrupted. *)
Record timer_t := mk_timer { t_ns : Z; t_signals : nat }.

Definition timer_now (w : timer_t) : Z := Z.max 1 (Z.min UINT64_MAX (t_ns w)).

#[export] Instance timer_time : Time timer_t := {|
  clock_gettime w := (timer_now w / 1000000000, timer_now w mod 1000000000, w);
  nanosleep s ns w :=
    match t_signals w with
    | S k => (Some EINTR, mk_timer (t_ns w) k)
    | O => (None, mk_timer (timer_now w + Z.max 0 (s * 1000000000 + ns)) 0)
    end;
|}.

#[export, program] Instance timer_time_ok : TimeOk timer_time := {
  now := timer_now;
  interruptions := t_signals;
}.
Next Obligation. intros w. unfold timer_now, UINT64_MAX. lia. Qed.
Next Obligation.
  intros w. cbn. assert (Hn : 0 < timer_now w) by (unfold timer_now; lia).
  pose proof (Z.div_mod (timer_now w) 1000000000 ltac:(lia)).
  pose proof (Z.mod_pos_bound (timer_now w) 1000000000 ltac:(lia)).
  pose proof (Z.div_pos (timer_now w) 1000000000 ltac:(lia) ltac:(lia)). split_and!; lia.
Qed.
Next Obligation.
  intros s ns w. cbn. destruct (t_signals w) eqn:E; cbn; rewrite ?E; unfold timer_now; cbn; lia.
Qed.
Next Obligation.
  intros s ns w Hs Hns Hfit. cbn. destruct (t_signals w) eqn:E; [|split; [done|cbn; lia]].
  unfold timer_now, UINT64_MAX in *. cbn. lia.
Qed.

#[export] Instance timer_vhal : VhalSource unit timer_t := {|
  vhal_zero := tt;
  roadcast_vhal_open v _ w := (-1, v, w);
  roadcast_vhal_read v _ w := (-1, v, mark_unavailable [], w);
  roadcast_vhal_close v w := (v, w);
|}.

#[export] Instance timer_forward : Forward timer_vhal.
Proof. by split. Qed.

(** Three turns of 100 ms with two interrupted sleeps. *)
Lemma sampler_keeps_pace_witness :
  let s := mk_sampler 0 0 ROADCAST_SOURCE_STATE_AVAILABLE
    (roadcast_source_session_init (Some String.EmptyString)).2
    (mark_unavailable []) (mark_unavailable []) 0 0 100000000 1 in
  exists s' t' w',
    sampler_turns (K := posix_clock 3) 3 s 0 5000 (mk_timer 5000 2) = (Some (s', 3, t'), w')
    /\ 300005000 <= published_timestamp_ns s'.
Proof.
  intros s.
  destruct (sampler_keeps_pace 3 3 s 0 5000 (mk_timer 5000 2)) as (s' & t' & w' & H1 & H2).
  - cbn. lia.
  - vm_compute. split; discriminate.
  - cbn. lia.
  - unfold is_u64. lia.
  - exists s', t', w'. split; [exact H1|]. apply H2; [|lia].
    assert (Hw : w' = (sampler_turns (K := posix_clock 3) 3 s 0 5000 (mk_timer 5000 2)).2)
      by (rewrite H1; reflexivity).
    rewrite Hw. vm_compute. reflexivity.
Defined.
