(* ===== verification/ServerDefs.v ===== *)
(** * The daemon's state: src/roadcastd.c, constants and structures

    The client and server structures, the part of libuv the daemon calls as the
    interface [Uv], and the state monad in which the handlers of ServerOps.v are
    written. *)

From S2P Require Import Prelude Wire CatalogDefs Catalog SourceSession Sampler.

Definition MAX_CLIENTS : Z := 16.
Definition MAX_CLIENTS_PER_UID : Z := 8.
Definition CLIENT_INPUT_CAP : Z := 4096.
Definition CLIENT_MESSAGE_CAP : Z := 2048.
Definition HELLO_TIMEOUT_NS : Z := 2000000000.
Definition SETUP_TIMEOUT_NS : Z := 10000000000.
Definition PAYLOAD_CAP : Z := CLIENT_MESSAGE_CAP - ROADCAST_HEADER_SIZE.

Definition SIGNALS_PER_MESSAGE : Z :=
  (CLIENT_MESSAGE_CAP - ROADCAST_HEADER_SIZE - ROADCAST_BATCH_PREFIX_SIZE)
  / ROADCAST_SIGNAL_WIRE_SIZE.
Definition FRAMES_PER_MESSAGE : Z :=
  (CLIENT_MESSAGE_CAP - ROADCAST_HEADER_SIZE - ROADCAST_BATCH_PREFIX_SIZE)
  / ROADCAST_FRAME_WIRE_SIZE.

Definition FRAME_BATCH_CHUNKS `{Catalog} : Z :=
  (FRAME_COUNT + FRAMES_PER_MESSAGE - 1) / FRAMES_PER_MESSAGE.
Definition SIGNAL_BATCH_CHUNKS `{Catalog} : Z :=
  (SIGNAL_COUNT + SIGNALS_PER_MESSAGE - 1) / SIGNALS_PER_MESSAGE.
Definition CLIENT_QUEUE_SLOTS `{Catalog} : Z := FRAME_BATCH_CHUNKS + SIGNAL_BATCH_CHUNKS + 1.

Record output_slot_t := mk_slot {
  slot_length : Z;
  in_use : Z;
  slot_data : list Z;
}.

#[export] Instance eta_slot : Eta output_slot_t := fun s =>
  mk_slot (slot_length s) (in_use s) (slot_data s).

(** [catchup_frame_indices] and [catchup_signal_indices] hold the entries of the
    arrays below their counts, the only ones the code reads. *)
Record roadcast_client_t := mk_client {
  active : Z;
  closing : Z;
  greeted : Z;
  subscribed : Z;
  needs_resync : Z;
  resync_queued : Z;
  input : list Z;
  input_length : Z;
  output : list output_slot_t;
  pending_bytes : Z;
  dropped_batches : Z;
  hello_deadline_ns : Z;
  setup_deadline_ns : Z;
  peer_uid : Z;
  peer_pid : Z;
  snapshot_frames : list roadcast_frame_t;
  snapshot_signals : list roadcast_signal_value_t;
  snapshot_sample_sequence : Z;
  snapshot_change_sequence : Z;
  snapshot_timestamp_ns : Z;
  snapshot_next_frame_index : Z;
  snapshot_next_index : Z;
  catchup_frame_indices : list Z;
  catchup_signal_indices : list Z;
  catchup_frame_count : Z;
  catchup_frame_offset : Z;
  catchup_signal_count : Z;
  catchup_signal_offset : Z;
  catchup_sample_sequence : Z;
  catchup_change_sequence : Z;
  catchup_timestamp_ns : Z;
  snapshot_active : Z;
  snapshot_frames_complete : Z;
  snapshot_complete : Z;
  catchup_active : Z;
  catchup_waiting_for_capacity : Z;
  catchup_resumption_reported : Z;
}.

#[export] Instance eta_client : Eta roadcast_client_t := fun c =>
  mk_client (active c) (closing c) (greeted c) (subscribed c) (needs_resync c)
    (resync_queued c) (input c) (input_length c) (output c) (pending_bytes c)
    (dropped_batches c) (hello_deadline_ns c) (setup_deadline_ns c) (peer_uid c) (peer_pid c)
    (snapshot_frames c) (snapshot_signals c) (snapshot_sample_sequence c)
    (snapshot_change_sequence c) (snapshot_timestamp_ns c) (snapshot_next_frame_index c)
    (snapshot_next_index c) (catchup_frame_indices c) (catchup_signal_indices c)
    (catchup_frame_count c) (catchup_frame_offset c) (catchup_signal_count c)
    (catchup_signal_offset c) (catchup_sample_sequence c) (catchup_change_sequence c)
    (catchup_timestamp_ns c) (snapshot_active c) (snapshot_frames_complete c)
    (snapshot_complete c) (catchup_active c) (catchup_waiting_for_capacity c)
    (catchup_resumption_reported c).

Record stats_t := mk_stats {
  ticks : Z;
  changed_frames : Z;
  stats_coalesced_samples : Z;
  queue_drops : Z;
  source_errors_at_start : Z;
  fallback_batches_at_start : Z;
  hello_timeouts : Z;
  setup_timeouts : Z;
  peer_limit_rejections : Z;
  serialized_chunks : Z;
}.

#[export] Instance eta_stats : Eta stats_t := fun s =>
  mk_stats (ticks s) (changed_frames s) (stats_coalesced_samples s) (queue_drops s)
    (source_errors_at_start s) (fallback_batches_at_start s) (hello_timeouts s)
    (setup_timeouts s) (peer_limit_rejections s) (serialized_chunks s).

(** The server without its client array and its sampler. *)
Record roadcast_server_t := mk_server {
  sv_frames : list roadcast_frame_t;
  sv_signals : list roadcast_signal_value_t;
  sample_sequence : Z;
  change_sequence : Z;
  sample_timestamp_ns : Z;
  coalesced_samples : Z;
  heartbeat_previous_sequence : Z;
  heartbeat_previous_ns : Z;
  effective_hz_millihz : Z;
  hz : Z;
  client_queue_slots : Z;
  stats : stats_t;
  shutting_down : Z;
}.

#[export] Instance eta_server : Eta roadcast_server_t := fun s =>
  mk_server (sv_frames s) (sv_signals s) (sample_sequence s) (change_sequence s)
    (sample_timestamp_ns s) (coalesced_samples s) (heartbeat_previous_sequence s)
    (heartbeat_previous_ns s) (effective_hz_millihz s) (hz s) (client_queue_slots s)
    (stats s) (shutting_down s).

(** ** Zeroed structures: [memset(client, 0, sizeof( *client))] *)

Definition zero_value : roadcast_signal_value_t := mk_value 0 0 0 0 0 0.

Definition zero_slot : output_slot_t :=
  mk_slot 0 0 (repeat 0 (Z.to_nat CLIENT_MESSAGE_CAP)).

Definition zero_client `{Catalog} : roadcast_client_t :=
  mk_client 0 0 0 0 0 0 (repeat 0 (Z.to_nat CLIENT_INPUT_CAP)) 0
    (repeat zero_slot (Z.to_nat CLIENT_QUEUE_SLOTS)) 0 0 0 0 0 0
    zero_frames (repeat zero_value (length SIGNALS)) 0 0 0 0 0 [] [] 0 0 0 0 0 0 0
    0 0 0 0 0 0.

(** ** libuv

    A stream is named by the slot of its client in the server's array.
    [uv_write] queues the bytes and returns its result; its callback is a later
    event.  [getsockopt_peercred] gives the user, the process and the length of
    the answer; [calloc_stream] is a stream on the heap, for a connection that is
    turned away.  The handles of the server itself have names of their own. *)

Definition CLIENT_SOCKET_SEND_BUFFER : Z := 16384.
Definition UCRED_SIZE : Z := 12.

Inductive server_handle :=
  | listener | sample_notification | heartbeat_timer | stats_timer | sigint_handle | sigterm_handle.

Class Uv (W : Type) := {
  uv_write : Z -> list Z -> W -> Z * W;
  uv_stream_get_write_queue_size : Z -> W -> Z;
  uv_read_stop : Z -> W -> W;
  uv_close : Z -> W -> W;
  uv_pipe_init : Z -> W -> Z * W;
  uv_accept : Z -> W -> Z * W;
  uv_read_start : Z -> W -> Z * W;
  uv_fileno : Z -> W -> option Z * W;
  getsockopt_peercred : Z -> W -> option (Z * Z * Z) * W;
  setsockopt_sndbuf : Z -> Z -> W -> W;
  calloc_stream : W -> option Z * W;
  free_stream : Z -> W -> W;
  handle_is_closing : server_handle -> W -> bool;
  handle_close : server_handle -> W -> W;
  handle_stop : server_handle -> W -> W;
  pthread_join : W -> W;
}.

(** The contract the daemon relies on: the stream carries the bytes of the
    successful writes in order, nothing else the daemon does puts bytes on it,
    a write queue is smaller than the address space, and reading the clock does
    not change it.  [failures] counts the writes that a stream has refused; the
    other calls a handler of a client makes do not add to it. *)
Class UvOk {W} (U : Uv W) (K : Clock W) := {
  sent : W -> Z -> list (list Z);
  sent_write_ok c bytes w :
    0 <= (uv_write c bytes w).1 ->
    sent (uv_write c bytes w).2 c = sent w c ++ [bytes];
  sent_write_err c bytes w :
    (uv_write c bytes w).1 < 0 -> sent (uv_write c bytes w).2 c = sent w c;
  sent_write_other c c' bytes w : c' <> c -> sent (uv_write c bytes w).2 c' = sent w c';
  failures : W -> Z -> nat;
  failures_write_ok c bytes w :
    0 <= (uv_write c bytes w).1 -> failures (uv_write c bytes w).2 c = failures w c;
  failures_write_err c bytes w :
    (uv_write c bytes w).1 < 0 -> failures (uv_write c bytes w).2 c = S (failures w c);
  failures_clock c w : failures (monotonic_ns w).2 c = failures w c;
  failures_read_stop c c' w : failures (uv_read_stop c w) c' = failures w c';
  failures_close c c' w : failures (uv_close c w) c' = failures w c';
  sent_clock c w : sent (monotonic_ns w).2 c = sent w c;
  sent_read_stop c c' w : sent (uv_read_stop c w) c' = sent w c';
  sent_close c c' w : sent (uv_close c w) c' = sent w c';
  sent_pipe_init c c' w : sent (uv_pipe_init c w).2 c' = sent w c';
  sent_accept c c' w : sent (uv_accept c w).2 c' = sent w c';
  sent_read_start c c' w : sent (uv_read_start c w).2 c' = sent w c';
  sent_fileno c c' w : sent (uv_fileno c w).2 c' = sent w c';
  sent_peercred fd c w : sent (getsockopt_peercred fd w).2 c = sent w c;
  sent_sndbuf fd n c w : sent (setsockopt_sndbuf fd n w) c = sent w c;
  sent_calloc c w : sent (calloc_stream w).2 c = sent w c;
  sent_free r c w : sent (free_stream r w) c = sent w c;
  sent_handle_close h c w : sent (handle_close h w) c = sent w c;
  sent_handle_stop h c w : sent (handle_stop h w) c = sent w c;
  sent_join c w : sent (pthread_join w) c = sent w c;
  queue_size_range c w : 0 <= uv_stream_get_write_queue_size c w < 2 ^ 62;
  queue_size_clock c w :
    uv_stream_get_write_queue_size c (monotonic_ns w).2 = uv_stream_get_write_queue_size c w;
  uv_clock_range :: ClockOk K;
}.

(** ** The handler monad

    A handler runs on one client of the array: [cid] is its slot, the address of
    its structure.  Its server and the outside world are threaded through.  [UB]
    is undefined behaviour; [Fail] is a loop that ran out of fuel. *)

Record ctx (W : Type) := mk_ctx {
  cid : Z;
  cl : roadcast_client_t;
  sv : roadcast_server_t;
  env : W;
}.
Arguments mk_ctx {W}.
Arguments cid {W}.
Arguments cl {W}.
Arguments sv {W}.
Arguments env {W}.

#[export] Instance eta_ctx {W} : Eta (ctx W) := fun s =>
  mk_ctx (cid s) (cl s) (sv s) (env s).

Definition M (W A : Type) : Type := ctx W -> res (A * ctx W).

#[export] Instance M_ret {W} : MRet (M W) := fun A a s => Ok (a, s).
#[export] Instance M_bind {W} : MBind (M W) := fun A B f m s =>
  match m s with
  | Ok (a, s') => f a s'
  | Fail => Fail
  | UB => UB
  end.

Section Monad.
Context {W : Type}.

Definition getc : M W roadcast_client_t := fun s => Ok (cl s, s).
Definition gets : M W roadcast_server_t := fun s => Ok (sv s, s).
Definition modc (f : roadcast_client_t -> roadcast_client_t) : M W unit :=
  fun s => Ok (tt, s <| cl := f (cl s) |>).
Definition mods (f : roadcast_server_t -> roadcast_server_t) : M W unit :=
  fun s => Ok (tt, s <| sv := f (sv s) |>).

(** A call to the outside world on the client's stream. *)
Definition call {A} (f : Z -> W -> A * W) : M W A :=
  fun s => let '(a, w) := f (cid s) (env s) in Ok (a, s <| env := w |>).
Definition ask {A} (f : Z -> W -> A) : M W A := fun s => Ok (f (cid s) (env s), s).
Definition act (f : Z -> W -> W) : M W unit := fun s => Ok (tt, s <| env := f (cid s) (env s) |>).

(** A memory access: it succeeds or is undefined. *)
Definition mem {A} (m : res A) : M W A := fun s =>
  match m with Ok a => Ok (a, s) | _ => UB end.

(** An encoder: [None] when it returns 0. *)
Definition enc {A} (m : res A) : M W (option A) := fun s =>
  match m with Ok a => Ok (Some a, s) | Fail => Ok (None, s) | UB => UB end.

(** A loop without fuel left. *)
Definition out_of_fuel {A} : M W A := fun _ => Fail.
End Monad.

(** ** Equations of the monad *)

Section Equations.
Context {W A B : Type}.
Implicit Types s : ctx W.

Lemma run_getc (k : roadcast_client_t -> M W B) s : (getc ≫= k) s = k (cl s) s.
Proof. done. Qed.
Lemma run_mem (m : res A) (k : A -> M W B) a s : m = Ok a -> (mem m ≫= k) s = k a s.
Proof. by intros ->. Qed.
Lemma run_enc_ok (m : res A) (k : option A -> M W B) a s :
  m = Ok a -> (enc m ≫= k) s = k (Some a) s.
Proof. by intros ->. Qed.
Lemma run_enc_fail (m : res A) (k : option A -> M W B) s :
  m = Fail -> (enc m ≫= k) s = k None s.
Proof. by intros ->. Qed.
Lemma run_bind (m : M W A) (k : A -> M W B) a s s' :
  m s = Ok (a, s') -> (m ≫= k) s = k a s'.
Proof. intros H. unfold mbind, M_bind. by rewrite H. Qed.
End Equations.

(** ** Weakest preconditions: the handler returns, and then [Q] holds *)

Definition wp {W A} (m : M W A) (Q : A -> ctx W -> Prop) (s : ctx W) : Prop :=
  match m s with Ok (a, s') => Q a s' | _ => False end.

Section Wp.
Context {W : Type}.
Implicit Types s : ctx W.

Lemma wp_ret {A} (a : A) Q s : Q a s -> wp (mret a) Q s.
Proof. done. Qed.

Lemma wp_bind {A B} (m : M W A) (f : A -> M W B) Q s :
  wp m (fun a s' => wp (f a) Q s') s -> wp (m ≫= f) Q s.
Proof. unfold wp, mbind, M_bind. destruct (m s) as [[a s']| |]; done. Qed.

Lemma wp_mono {A} (m : M W A) (P Q : A -> ctx W -> Prop) s :
  wp m P s -> (forall a s', P a s' -> Q a s') -> wp m Q s.
Proof. unfold wp. destruct (m s) as [[a s']| |]; auto. Qed.

Lemma wp_getc Q i c v (w : W) : Q c (mk_ctx i c v w) -> wp getc Q (mk_ctx i c v w).
Proof. done. Qed.
Lemma wp_gets Q i c v (w : W) : Q v (mk_ctx i c v w) -> wp gets Q (mk_ctx i c v w).
Proof. done. Qed.
Lemma wp_modc f Q i c v (w : W) : Q tt (mk_ctx i (f c) v w) -> wp (modc f) Q (mk_ctx i c v w).
Proof. done. Qed.
Lemma wp_mods f Q i c v (w : W) : Q tt (mk_ctx i c (f v) w) -> wp (mods f) Q (mk_ctx i c v w).
Proof. done. Qed.
Lemma wp_call {A} (f : Z -> W -> A * W) Q i c v w :
  Q (f i w).1 (mk_ctx i c v (f i w).2) -> wp (call f) Q (mk_ctx i c v w).
Proof. unfold wp, call. cbn [cid env]. by destruct (f i w). Qed.
Lemma wp_ask {A} (f : Z -> W -> A) Q i c v w :
  Q (f i w) (mk_ctx i c v w) -> wp (ask f) Q (mk_ctx i c v w).
Proof. done. Qed.
Lemma wp_act f Q i c v (w : W) :
  Q tt (mk_ctx i c v (f i w)) -> wp (act f) Q (mk_ctx i c v w).
Proof. done. Qed.
Lemma wp_mem {A} (m : res A) (a : A) Q s : m = Ok a -> Q a s -> wp (mem m) Q s.
Proof. by intros ->. Qed.
Lemma wp_enc_ok {A} (m : res A) (a : A) Q s : m = Ok a -> Q (Some a) s -> wp (enc m) Q s.
Proof. by intros ->. Qed.

(** A handler is a function: what holds of its result for every [x] holds for all
    of them at once. *)
Lemma wp_all {A X} (m : M W A) P (pre : X -> Prop) (Q : X -> A -> ctx W -> Prop) s :
  wp m P s -> (forall x, pre x -> wp m (Q x) s) ->
  wp m (fun a s' => P a s' /\ forall x, pre x -> Q x a s') s.
Proof. unfold wp. destruct (m s) as [[a s']| |]; [|done..]. auto. Qed.

(** From a weakest precondition to the run. *)
Lemma wp_run {A} (m : M W A) Q s :
  wp m Q s -> exists a s', m s = Ok (a, s') /\ Q a s'.
Proof. unfold wp. destruct (m s) as [[a s']| |]; [|done..]. eauto. Qed.
End Wp.

(** Steps through a handler up to the next call of another one. *)
Ltac wp_step :=
  lazymatch goal with
  | |- wp (_ ≫= _) _ _ => apply wp_bind
  | |- wp (mret _) _ _ => apply wp_ret
  | |- wp getc _ _ => apply wp_getc
  | |- wp gets _ _ => apply wp_gets
  | |- wp (modc _) _ _ => apply wp_modc
  | |- wp (mods _) _ _ => apply wp_mods
  | |- wp (call _) _ _ => apply wp_call
  | |- wp (ask _) _ _ => apply wp_ask
  | |- wp (act _) _ _ => apply wp_act
  end.

Ltac wp_steps := repeat (wp_step; cbv beta iota zeta).
