(* ===== verification/ServerOps.v ===== *)
(** * The daemon's handlers for one client: src/roadcastd.c

    Output queue, snapshots, subscription catch-up, commands and input framing,
    in the order of the source.  A C [int] result is the value of the handler; a
    message that cannot be queued is -1. *)

From S2P Require Import Prelude Wire CatalogDefs Catalog SourceSession Sampler ServerDefs.

Section Ops.
Context `{Catalog} {W : Type} `{K : !Clock W} `{U : !Uv W}.

(** [if (c) return a; k] *)
Notation "'return_if' c 'then' a ;; k" := (if c then mret a else k)
  (at level 100, c at level 99, a at level 99, k at level 200).

(** ** Closing *)

Definition client_close : M W unit :=
  client ← getc;
  if (active client =? 0) || negb (closing client =? 0) then mret tt
  else
    modc (fun c => c <| active := 0 |>);;
    modc (fun c => c <| closing := 1 |>);;
    act uv_read_stop;;
    act uv_close.

(** ** The output queue *)

Fixpoint find_slot (out : list output_slot_t) (n : nat) (i : Z) : res (option Z) :=
  match n with
  | O => Ok None
  | S n' => s ← rd out i; if in_use s =? 0 then Ok (Some i) else find_slot out n' (i + 1)
  end.

Definition find_output_slot : M W (option Z) :=
  client ← getc;
  server ← gets;
  mem (find_slot (output client) (Z.to_nat (client_queue_slots server)) 0).

Definition queue_byte_limit (server : roadcast_server_t) : Z :=
  u32 (client_queue_slots server * CLIENT_MESSAGE_CAP).

(** The overflow branch: the batch is dropped and the client must resync. *)
Definition drop_batch : M W unit :=
  modc (fun c => c <| dropped_batches := u64 (dropped_batches c + 1) |>);;
  mods (fun s => s <| stats := (stats s) <| queue_drops := u64 (queue_drops (stats s) + 1) |> |>);;
  modc (fun c => c <| needs_resync := 1 |>);;
  modc (fun c => c <| subscribed := 0 |>);;
  now ← call (fun _ => monotonic_ns);
  modc (fun c => c <| setup_deadline_ns := u64 (now + SETUP_TIMEOUT_NS) |>).

Definition client_queue_message (type_ sequence_ timestamp_ns_ : Z) (payload : list Z)
    (payload_length droppable : Z) : M W Z :=
  client ← getc;
  server ← gets;
  return_if (active client =? 0) || (ROADCAST_MAX_PAYLOAD <? payload_length)
            || (CLIENT_MESSAGE_CAP <? ROADCAST_HEADER_SIZE + payload_length) then -1;;
  let message_length := ROADCAST_HEADER_SIZE + payload_length in
  libuv_pending ← ask uv_stream_get_write_queue_size;
  slot ← find_output_slot;
  let overflow := (queue_byte_limit server <? sz (pending_bytes client + message_length))
                  || (queue_byte_limit server <? sz (libuv_pending + message_length)) in
  match slot with
  | Some i =>
      if overflow then
        return_if droppable =? 0 then -1;;
        drop_batch;;
        mret 0
      else
        let header := mk_header ROADCAST_PROTOCOL_VERSION type_ 0 (u32 payload_length)
                        sequence_ timestamp_ns_ in
        slot ← mem (rd (output client) i);
        data ← mem (roadcast_encode_header (slot_data slot) header);
        data ← (if payload_length =? 0 then mret data
                else bytes ← mem (slice payload 0 payload_length);
                     mem (blit data ROADCAST_HEADER_SIZE bytes));
        output' ← mem (wr (output client) i (mk_slot message_length 1 data));
        modc (fun c => c <| output := output' |>);;
        modc (fun c => c <| pending_bytes := sz (pending_bytes c + message_length) |>);;
        buffer ← mem (slice data 0 message_length);
        result ← call (fun c => uv_write c buffer);
        if result <? 0 then
          modc (fun c => c <| pending_bytes := sz (pending_bytes c - message_length) |>);;
          output' ← mem (wr output' i (mk_slot 0 0 data));
          modc (fun c => c <| output := output' |>);;
          mret (-1)
        else mret 0
  | None =>
      return_if droppable =? 0 then -1;;
      drop_batch;;
      mret 0
  end.

Definition maybe_queue_resync : M W unit :=
  client ← getc;
  server ← gets;
  if (active client =? 0) || (greeted client =? 0) || (needs_resync client =? 0)
     || negb (resync_queued client =? 0) || negb (pending_bytes client =? 0)
  then mret tt
  else
    r ← client_queue_message ROADCAST_MSG_RESYNC_REQUIRED (change_sequence server)
          (sample_timestamp_ns server) [] 0 0;
    if r <? 0 then client_close
    else modc (fun c => c <| resync_queued := 1 |>).

Definition client_has_output_capacity : M W bool :=
  client ← getc;
  server ← gets;
  libuv_pending ← ask uv_stream_get_write_queue_size;
  slot ← find_output_slot;
  mret (match slot with Some _ => true | None => false end
        && (sz (pending_bytes client + CLIENT_MESSAGE_CAP) <=? queue_byte_limit server)
        && (sz (libuv_pending + CLIENT_MESSAGE_CAP) <=? queue_byte_limit server)).

(** ** Snapshots *)

Definition begin_snapshot : M W unit :=
  server ← gets;
  modc (fun c => c <| snapshot_frames := sv_frames server |>);;
  modc (fun c => c <| snapshot_signals := sv_signals server |>);;
  modc (fun c => c <| snapshot_sample_sequence := sample_sequence server |>);;
  modc (fun c => c <| snapshot_change_sequence := change_sequence server |>);;
  modc (fun c => c <| snapshot_timestamp_ns := sample_timestamp_ns server |>);;
  modc (fun c => c <| snapshot_next_frame_index := 0 |>);;
  modc (fun c => c <| snapshot_next_index := 0 |>);;
  modc (fun c => c <| snapshot_active := 1 |>);;
  modc (fun c => c <| snapshot_frames_complete := 0 |>);;
  modc (fun c => c <| snapshot_complete := 0 |>);;
  now ← call (fun _ => monotonic_ns);
  modc (fun c => c <| setup_deadline_ns := u64 (now + SETUP_TIMEOUT_NS) |>);;
  modc (fun c => c <| needs_resync := 0 |>);;
  modc (fun c => c <| resync_queued := 0 |>).

(** A zeroed stack buffer of the size of a payload; its contents are overwritten
    or not read. *)
Definition payload_buffer : list Z := repeat 0 (Z.to_nat PAYLOAD_CAP).

Definition queue_frame_snapshot_chunk (start_index : Z) : M W Z :=
  client ← getc;
  (if (start_index =? 0) && (snapshot_active client =? 0) then begin_snapshot else mret tt);;
  client ← getc;
  return_if (snapshot_active client =? 0) || negb (snapshot_frames_complete client =? 0)
            || negb (start_index =? snapshot_next_frame_index client)
            || (FRAME_COUNT <=? start_index) then -1;;
  let count := Z.min (FRAME_COUNT - start_index) FRAMES_PER_MESSAGE in
  encoded ← enc (roadcast_encode_frame_batch payload_buffer PAYLOAD_CAP
                   (snapshot_sample_sequence client) FRAME_COUNT start_index
                   (drop (Z.to_nat start_index) (snapshot_frames client)) None count);
  match encoded with
  | None => mret (-1)
  | Some (length_, payload) =>
      result ← client_queue_message ROADCAST_MSG_SNAPSHOT (snapshot_change_sequence client)
                 (snapshot_timestamp_ns client) payload length_ 0;
      return_if result <? 0 then result;;
      modc (fun c => c <| snapshot_next_frame_index :=
                            u32 (snapshot_next_frame_index c + count) |>);;
      client ← getc;
      (if snapshot_next_frame_index client =? FRAME_COUNT
       then modc (fun c => c <| snapshot_frames_complete := 1 |>) else mret tt);;
      mret result
  end.

Definition queue_signal_snapshot_chunk (start_index : Z) : M W Z :=
  client ← getc;
  return_if (snapshot_active client =? 0) || (snapshot_frames_complete client =? 0)
            || negb (start_index =? snapshot_next_index client)
            || (SIGNAL_COUNT <=? start_index) then -1;;
  let count := Z.min (SIGNAL_COUNT - start_index) SIGNALS_PER_MESSAGE in
  let indices := map (fun i => u32 (start_index + i)) (seqZ 0 count) in
  encoded ← enc (roadcast_encode_signal_batch payload_buffer PAYLOAD_CAP
                   (snapshot_sample_sequence client) SIGNAL_COUNT start_index
                   (snapshot_signals client) (Some indices) count);
  match encoded with
  | None => mret (-1)
  | Some (length_, payload) =>
      result ← client_queue_message ROADCAST_MSG_SIGNAL_SNAPSHOT_CHUNK
                 (snapshot_change_sequence client) (snapshot_timestamp_ns client)
                 payload length_ 0;
      return_if result <? 0 then result;;
      modc (fun c => c <| snapshot_next_index := u32 (snapshot_next_index c + count) |>);;
      client ← getc;
      (if snapshot_next_index client =? SIGNAL_COUNT then
         modc (fun c => c <| snapshot_active := 0 |>);;
         modc (fun c => c <| snapshot_complete := 1 |>)
       else mret tt);;
      mret 0
  end.

Definition queue_schema_chunk (start_index : Z) : M W Z :=
  server ← gets;
  encoded ← enc (roadcast_encode_schema_chunk payload_buffer PAYLOAD_CAP start_index);
  match encoded with
  | None => mret (-1)
  | Some (length_, encoded_count, payload) =>
      return_if (length_ =? 0) || (encoded_count =? 0) then -1;;
      client_queue_message ROADCAST_MSG_SCHEMA_CHUNK (change_sequence server)
        (sample_timestamp_ns server) payload length_ 0
  end.

(** ** Subscription catch-up *)

(** The comparison of frames: state and bytes, not the times. *)
Definition frame_differs (a b : roadcast_frame_t) : bool :=
  negb (state a =? state b) || negb (bool_decide (data a = data b)).

Definition signal_differs (a b : roadcast_signal_value_t) : bool :=
  negb (raw a =? raw b) || negb (sig_state a =? sig_state b)
  || negb (sig_first_observed_ns a =? sig_first_observed_ns b)
  || negb (sig_last_change_ns a =? sig_last_change_ns b).

(** The indices, from [i], at which two arrays differ. *)
Fixpoint changed_indices {A} (differs : A -> A -> bool) (i : Z) (xs ys : list A) : list Z :=
  match xs, ys with
  | x :: xs', y :: ys' =>
      (if differs x y then [i] else []) ++ changed_indices differs (i + 1) xs' ys'
  | _, _ => []
  end.

Definition begin_catchup_round : M W unit :=
  server ← gets;
  client ← getc;
  let frame_indices :=
    changed_indices frame_differs 0 (sv_frames server) (snapshot_frames client) in
  let signal_indices :=
    changed_indices signal_differs 0 (sv_signals server) (snapshot_signals client) in
  modc (fun c => c <| catchup_frame_offset := 0 |>);;
  modc (fun c => c <| catchup_frame_indices := frame_indices |>);;
  modc (fun c => c <| catchup_frame_count := zlen frame_indices |>);;
  modc (fun c => c <| catchup_signal_offset := 0 |>);;
  modc (fun c => c <| catchup_signal_indices := signal_indices |>);;
  modc (fun c => c <| catchup_signal_count := zlen signal_indices |>);;
  modc (fun c => c <| snapshot_frames := sv_frames server |>);;
  modc (fun c => c <| snapshot_signals := sv_signals server |>);;
  modc (fun c => c <| catchup_sample_sequence := sample_sequence server |>);;
  modc (fun c => c <| catchup_change_sequence := change_sequence server |>);;
  modc (fun c => c <| catchup_timestamp_ns := sample_timestamp_ns server |>).

(** The three branches of the loop body; [None] continues the loop. *)
Definition catchup_send_frames : M W (option Z) :=
  client ← getc;
  let count := Z.min (catchup_frame_count client - catchup_frame_offset client)
                     FRAMES_PER_MESSAGE in
  encoded ← enc (roadcast_encode_frame_batch payload_buffer PAYLOAD_CAP
                   (catchup_sample_sequence client) FRAME_COUNT UINT32_MAX
                   (snapshot_frames client)
                   (Some (drop (Z.to_nat (catchup_frame_offset client))
                            (catchup_frame_indices client))) count);
  match encoded with
  | None => mret (Some (-1))
  | Some (length_, payload) =>
      r ← client_queue_message ROADCAST_MSG_UPDATE_BATCH (catchup_change_sequence client)
            (catchup_timestamp_ns client) payload length_ 0;
      return_if r <? 0 then Some (-1);;
      modc (fun c => c <| catchup_frame_offset := catchup_frame_offset c + count |>);;
      mret None
  end.

Definition catchup_send_signals : M W (option Z) :=
  client ← getc;
  let count := Z.min (catchup_signal_count client - catchup_signal_offset client)
                     SIGNALS_PER_MESSAGE in
  encoded ← enc (roadcast_encode_signal_batch payload_buffer PAYLOAD_CAP
                   (catchup_sample_sequence client) SIGNAL_COUNT UINT32_MAX
                   (snapshot_signals client)
                   (Some (drop (Z.to_nat (catchup_signal_offset client))
                            (catchup_signal_indices client))) count);
  match encoded with
  | None => mret (Some (-1))
  | Some (length_, payload) =>
      r ← client_queue_message ROADCAST_MSG_SIGNAL_UPDATE_BATCH
            (catchup_change_sequence client) (catchup_timestamp_ns client) payload length_ 0;
      return_if r <? 0 then Some (-1);;
      modc (fun c => c <| catchup_signal_offset := catchup_signal_offset c + count |>);;
      mret None
  end.

Definition catchup_next_round : M W (option Z) :=
  begin_catchup_round;;
  client ← getc;
  server ← gets;
  return_if negb (catchup_frame_count client =? 0) || negb (catchup_signal_count client =? 0)
    then None;;
  result ← client_queue_message ROADCAST_MSG_SUBSCRIBED (change_sequence server)
             (sample_timestamp_ns server) [] 0 0;
  return_if result <? 0 then Some result;;
  modc (fun c => c <| catchup_active := 0 |>);;
  modc (fun c => c <| subscribed := 1 |>);;
  modc (fun c => c <| setup_deadline_ns := 0 |>);;
  mret None.

Definition catchup_body : M W (option Z) :=
  client ← getc;
  if catchup_frame_offset client <? catchup_frame_count client then catchup_send_frames
  else if catchup_signal_offset client <? catchup_signal_count client
  then catchup_send_signals
  else catchup_next_round.

(** [client->active && client->catchup_active && client_has_output_capacity()] *)
Definition catchup_continues : M W bool :=
  client ← getc;
  if (active client =? 0) || (catchup_active client =? 0) then mret false
  else client_has_output_capacity.

Fixpoint catchup_loop (fuel : nat) : M W (option Z) :=
  match fuel with
  | O => out_of_fuel
  | S fuel =>
      go ← catchup_continues;
      if (go : bool) then
        r ← catchup_body;
        match r with
        | Some result => mret (Some result)
        | None => catchup_loop fuel
        end
      else mret None
  end.

(** Two iterations per output slot and three more always suffice. *)
Definition catchup_fuel : nat := 2 * Z.to_nat CLIENT_QUEUE_SLOTS + 3.

Definition drive_subscription_catchup : M W Z :=
  client ← getc;
  (if negb (catchup_waiting_for_capacity client =? 0) then
     room ← client_has_output_capacity;
     if (room : bool) then
       modc (fun c => c <| catchup_waiting_for_capacity := 0 |>);;
       client ← getc;
       if catchup_resumption_reported client =? 0
       then modc (fun c => c <| catchup_resumption_reported := 1 |>)
       else mret tt
     else mret tt
   else mret tt);;
  r ← catchup_loop catchup_fuel;
  match r with
  | Some result => mret result
  | None =>
      client ← getc;
      (if negb (active client =? 0) && negb (catchup_active client =? 0) then
         room ← client_has_output_capacity;
         if (room : bool) then mret tt
         else modc (fun c => c <| catchup_waiting_for_capacity := 1 |>)
       else mret tt);;
      mret 0
  end.

Definition queue_subscription_catchup : M W Z :=
  modc (fun c => c <| catchup_active := 1 |>);;
  begin_catchup_round;;
  drive_subscription_catchup.

(** The write callback of output slot [i]. *)
Definition on_client_write (i status : Z) : M W unit :=
  client ← getc;
  slot ← mem (rd (output client) i);
  (if slot_length slot <=? pending_bytes client
   then modc (fun c => c <| pending_bytes := pending_bytes c - slot_length slot |>)
   else modc (fun c => c <| pending_bytes := 0 |>));;
  output' ← mem (wr (output client) i (mk_slot 0 0 (slot_data slot)));
  modc (fun c => c <| output := output' |>);;
  if status <? 0 then client_close
  else
    client ← getc;
    r ← (if negb (catchup_active client =? 0) then drive_subscription_catchup else mret 0);
    if r <? 0 then client_close else maybe_queue_resync.

(** ** Commands *)

Definition with_index_request (payload : list Z) (len : Z) (k : Z -> M W Z) : M W Z :=
  client ← getc;
  return_if greeted client =? 0 then -1;;
  request ← enc (roadcast_decode_index_request payload len);
  match request with
  | None => mret (-1)
  | Some start_index => k start_index
  end.

Definition process_hello (payload : list Z) (len : Z) : M W Z :=
  client ← getc;
  server ← gets;
  return_if negb (greeted client =? 0) then -1;;
  hello ← enc (roadcast_decode_hello payload len);
  match hello with
  | None => mret (-1)
  | Some (min_version, max_version, client_capabilities) =>
      return_if (ROADCAST_PROTOCOL_VERSION <? min_version)
                || (max_version <? ROADCAST_PROTOCOL_VERSION) then -1;;
      '(length_, welcome) ← mem (roadcast_encode_welcome
        (repeat 0 (Z.to_nat ROADCAST_WELCOME_SIZE))
        (mk_welcome (hz server) FRAME_COUNT SIGNAL_COUNT
           (CLIENT_INPUT_CAP - ROADCAST_HEADER_SIZE) (CLIENT_MESSAGE_CAP - ROADCAST_HEADER_SIZE)
           (Z.lor ROADCAST_CAP_RAW_CAN ROADCAST_CAP_DECODED_CAN)
           ROADCAST_SCHEMA_VERSION SCHEMA_HASH));
      r ← client_queue_message ROADCAST_MSG_WELCOME (change_sequence server)
            (sample_timestamp_ns server) welcome length_ 0;
      return_if r <? 0 then -1;;
      modc (fun c => c <| greeted := 1 |>);;
      modc (fun c => c <| hello_deadline_ns := 0 |>);;
      now ← call (fun _ => monotonic_ns);
      modc (fun c => c <| setup_deadline_ns := u64 (now + SETUP_TIMEOUT_NS) |>);;
      mret 0
  end.

Definition process_command (header : roadcast_header_t) (payload : list Z) : M W Z :=
  client ← getc;
  server ← gets;
  return_if negb (version header =? ROADCAST_PROTOCOL_VERSION) || negb (flags header =? 0)
    then -1;;
  if type header =? ROADCAST_MSG_HELLO then process_hello payload (payload_bytes header)
  else if type header =? ROADCAST_MSG_GET_SNAPSHOT then
    with_index_request payload (payload_bytes header) queue_frame_snapshot_chunk
  else if type header =? ROADCAST_MSG_SUBSCRIBE_ALL then
    return_if (greeted client =? 0) || negb (payload_bytes header =? 0)
              || negb (needs_resync client =? 0) || (snapshot_complete client =? 0) then -1;;
    queue_subscription_catchup
  else if type header =? ROADCAST_MSG_PING then
    return_if (greeted client =? 0) || negb (payload_bytes header =? 0) then -1;;
    client_queue_message ROADCAST_MSG_PONG (change_sequence server)
      (sample_timestamp_ns server) [] 0 0
  else if type header =? ROADCAST_MSG_GET_SCHEMA then
    with_index_request payload (payload_bytes header) queue_schema_chunk
  else if type header =? ROADCAST_MSG_GET_SIGNAL_SNAPSHOT then
    with_index_request payload (payload_bytes header) queue_signal_snapshot_chunk
  else mret (-1).

(** ** Input framing *)

(** The loop of [process_client_input]: [Some consumed] when it breaks, [None]
    when it returns -1.  A message takes at least a header, so the bytes in the
    buffer bound the iterations. *)
Fixpoint input_loop (fuel : nat) (consumed : Z) : M W (option Z) :=
  match fuel with
  | O => out_of_fuel
  | S fuel =>
      client ← getc;
      if input_length client - consumed <? ROADCAST_HEADER_SIZE then mret (Some consumed)
      else
        head ← mem (slice (input client) consumed ROADCAST_HEADER_SIZE);
        header ← enc (roadcast_decode_header head);
        match header with
        | None => mret None
        | Some header =>
            if CLIENT_INPUT_CAP - ROADCAST_HEADER_SIZE <? payload_bytes header then mret None
            else
              let message_length := ROADCAST_HEADER_SIZE + payload_bytes header in
              if input_length client - consumed <? message_length then mret (Some consumed)
              else
                payload ← mem (slice (input client) (consumed + ROADCAST_HEADER_SIZE)
                                 (payload_bytes header));
                r ← process_command header payload;
                if r <? 0 then mret None
                else input_loop fuel (consumed + message_length)
        end
  end.

Definition input_fuel : nat := Z.to_nat (CLIENT_INPUT_CAP / ROADCAST_HEADER_SIZE + 1).

Definition process_client_input : M W Z :=
  r ← input_loop input_fuel 0;
  match r with
  | None => mret (-1)
  | Some consumed =>
      (if negb (consumed =? 0) then
         client ← getc;
         rest ← mem (slice (input client) consumed (input_length client - consumed));
         input' ← mem (blit (input client) 0 rest);
         modc (fun c => c <| input := input' |>);;
         modc (fun c => c <| input_length := input_length c - consumed |>)
       else mret tt);;
      client ← getc;
      mret (if input_length client =? CLIENT_INPUT_CAP then -1 else 0)
  end.

(** The room [allocate_client_input] offers libuv: an offset and a length. *)
Definition allocate_client_input (client : roadcast_client_t) : Z * Z :=
  if (active client =? 0) || (CLIENT_INPUT_CAP <=? input_length client) then (0, 0)
  else (input_length client, CLIENT_INPUT_CAP - input_length client).

(** A read callback: libuv has stored [bytes] in the buffer it was offered, or
    failed with the negative [status]. *)
Definition on_client_read (status : Z) (bytes : list Z) : M W unit :=
  if status <? 0 then client_close
  else
    client ← getc;
    if zlen bytes =? 0 then mret tt
    else
      input' ← mem (blit (input client) (allocate_client_input client).1 bytes);
      modc (fun c => c <| input := input' |>);;
      modc (fun c => c <| input_length := input_length c + zlen bytes |>);;
      r ← process_client_input;
      if r <? 0 then client_close else mret tt.

Definition on_client_closed : M W unit := modc (fun _ => zero_client).
End Ops.
