(* ===== verification/ServerQueue.v ===== *)
(** * The output queue of a client: invariant and contract

    [client_queue_message] either refuses a message, drops it and marks the
    client for resynchronization, or hands exactly one slot with exactly the
    message to libuv.  The invariants here are shared by every handler. *)

From S2P Require Import Prelude Wire CatalogDefs Catalog SourceSession Sampler ServerDefs.
From S2P Require Import ServerOps.

(** ** Invariants *)

Definition slot_ok (s : output_slot_t) : Prop :=
  zlen (slot_data s) = CLIENT_MESSAGE_CAP
  /\ ((in_use s = 0 /\ slot_length s = 0)
      \/ (in_use s = 1 /\ ROADCAST_HEADER_SIZE <= slot_length s <= CLIENT_MESSAGE_CAP)).

Definition slot_free (s : output_slot_t) : Z := if in_use s =? 0 then 1 else 0.

(** The free slots among the [n] the queue may use. *)
Definition free_slots (n : Z) (out : list output_slot_t) : Z :=
  sumZ slot_free (take (Z.to_nat n) out).

Definition queue_ok `{Catalog} (slots : Z) (c : roadcast_client_t) : Prop :=
  zlen (output c) = CLIENT_QUEUE_SLOTS /\ Forall slot_ok (output c)
  /\ pending_bytes c = sumZ slot_length (output c)
  /\ 0 <= pending_bytes c <= slots * CLIENT_MESSAGE_CAP.

Definition signals_ok `{Catalog} (values : list roadcast_signal_value_t) : Prop :=
  zlen values = SIGNAL_COUNT /\ Forall value_ok values.

Definition server_ok `{Catalog} (s : roadcast_server_t) : Prop :=
  1 <= client_queue_slots s <= CLIENT_QUEUE_SLOTS
  /\ frames_ok (sv_frames s) /\ map can_id (sv_frames s) = CAN_IDS
  /\ signals_ok (sv_signals s)
  /\ is_u64 (sample_sequence s) /\ is_u64 (change_sequence s)
  /\ is_u64 (sample_timestamp_ns s) /\ is_u32 (hz s).

Lemma queue_slots_bound `{CatalogOk} : 0 < CLIENT_QUEUE_SLOTS <= 4096.
Proof.
  pose proof catalog_frames_bound. pose proof catalog_signals_bound.
  pose proof catalog_nonempty as [? ?].
  unfold CLIENT_QUEUE_SLOTS, FRAME_BATCH_CHUNKS, SIGNAL_BATCH_CHUNKS, UINT16_MAX in *.
  change FRAMES_PER_MESSAGE with 71. change SIGNALS_PER_MESSAGE with 49.
  Z.div_mod_to_equations. lia.
Qed.

Section QueueFacts.
Context `{HC : CatalogOk}.

Lemma queue_limit_exact s :
  server_ok s -> queue_byte_limit s = client_queue_slots s * CLIENT_MESSAGE_CAP.
Proof.
  intros [Hs _]. pose proof queue_slots_bound. unfold queue_byte_limit.
  apply u32_id. unfold is_u32, CLIENT_MESSAGE_CAP. lia.
Qed.

(** The search returns the first free slot, if there is one. *)
Lemma find_slot_spec out : forall n i,
  0 <= i -> i + Z.of_nat n <= zlen out ->
  exists r, find_slot out n i = Ok r /\
    match r with
    | Some j => i <= j < i + Z.of_nat n
                /\ exists s, out !! Z.to_nat j = Some s /\ in_use s = 0
    | None => forall j s, i <= j < i + Z.of_nat n -> out !! Z.to_nat j = Some s -> in_use s <> 0
    end.
Proof.
  induction n as [|n IH]; intros i Hi Hn; cbn [find_slot].
  { exists None. split; [done|]. lia. }
  destruct (rd_ok out i) as (s & -> & Hs); [lia|]. rewrite bind_ok.
  destruct (Z.eqb_spec (in_use s) 0).
  { exists (Some i). split; [done|]. split; [lia|]. eauto. }
  destruct (IH (i + 1)) as (r & -> & Hr); [lia..|]. exists r. split; [done|].
  destruct r as [j|]; [destruct Hr; split; [lia|done]|].
  intros j s' Hj Hs'. destruct (decide (j = i)) as [->|]; [congruence|].
  apply (Hr j); [lia|done].
Qed.

Lemma free_slots_use n out i s s' :
  (Z.to_nat i < Z.to_nat n)%nat -> out !! Z.to_nat i = Some s -> in_use s = 0 -> in_use s' = 1 ->
  free_slots n (<[Z.to_nat i := s']> out) = free_slots n out - 1.
Proof.
  intros Hi Hs Hu Hu'. unfold free_slots. rewrite take_insert_lt by done.
  rewrite (sumZ_insert slot_free _ _ s s') by (by rewrite lookup_take_lt).
  unfold slot_free. rewrite Hu, Hu'. cbn. lia.
Qed.

Lemma free_slots_same n out i s s' :
  out !! Z.to_nat i = Some s -> in_use s' = in_use s ->
  free_slots n (<[Z.to_nat i := s']> out) = free_slots n out.
Proof.
  intros Hs Hu. unfold free_slots. destruct (decide (Z.to_nat i < Z.to_nat n)%nat).
  - rewrite take_insert_lt by done.
    rewrite (sumZ_insert slot_free _ _ s s') by (by rewrite lookup_take_lt).
    unfold slot_free. rewrite Hu. lia.
  - by rewrite take_insert_ge by lia.
Qed.

Lemma free_slots_range n out :
  0 <= n -> n <= zlen out -> 0 <= free_slots n out <= n.
Proof.
  intros Hn Hl. unfold free_slots.
  pose proof (sumZ_bounds slot_free (take (Z.to_nat n) out) 0 1) as Hb.
  rewrite zlen_take in Hb by lia.
  assert (Forall (fun x => 0 <= slot_free x <= 1) (take (Z.to_nat n) out)) as Hf.
  { apply Forall_true. intros s. unfold slot_free. destruct (_ =? _); lia. }
  specialize (Hb Hf). lia.
Qed.
End QueueFacts.

(** ** The contract of [client_queue_message] *)

Definition message_bytes (type_ sequence_ timestamp_ns_ : Z) (payload : list Z) : list Z :=
  header_bytes (mk_header ROADCAST_PROTOCOL_VERSION type_ 0 (zlen payload) sequence_
                  timestamp_ns_) ++ payload.

(** Only the queue of the client has changed. *)
Definition queue_frame (c c' : roadcast_client_t) : Prop :=
  c' = c <| output := output c' |> <| pending_bytes := pending_bytes c' |>.

(** The client has been marked for resynchronization. *)
Definition dropped (c c' : roadcast_client_t) : Prop :=
  c' = c <| dropped_batches := u64 (dropped_batches c + 1) |> <| needs_resync := 1 |>
         <| subscribed := 0 |> <| setup_deadline_ns := setup_deadline_ns c' |>.

Definition count_drop (s : roadcast_server_t) : roadcast_server_t :=
  s <| stats := (stats s) <| queue_drops := u64 (queue_drops (stats s) + 1) |> |>.

Section Contract.
Context `{HC : CatalogOk} {W : Type} `{K : !Clock W} `{U : !Uv W} `{HU : !UvOk U K}.
Implicit Types s : ctx W.

(** The bytes on the stream of the client. *)
Definition stream s : list (list Z) := sent (env s) (cid s).

(** Nothing happened to the other streams. *)
Definition others s s' : Prop := forall c, c <> cid s -> sent (env s') c = sent (env s) c.

(** The writes of the client that have failed; a write of it fails between [s] and [s']. *)
Definition failed_writes s : nat := failures (env s) (cid s).
Definition write_fails s s' : Prop := (failed_writes s < failed_writes s')%nat.

Definition free s : Z := free_slots (client_queue_slots (sv s)) (output (cl s)).

(** The queue has room for a message of [n] bytes. *)
Definition room s (n : Z) : Prop :=
  0 < free s
  /\ pending_bytes (cl s) + n <= client_queue_slots (sv s) * CLIENT_MESSAGE_CAP
  /\ uv_stream_get_write_queue_size (cid s) (env s) + n
     <= client_queue_slots (sv s) * CLIENT_MESSAGE_CAP.

Definition ctx_queue_ok s : Prop :=
  server_ok (sv s) /\ queue_ok (client_queue_slots (sv s)) (cl s).

(** Why a message is refused: the client is gone, the message is too long, it
    must not be dropped and there is no room, or libuv refuses the write. *)
Definition refused (bytes : list Z) (droppable : Z) s s' : Prop :=
  active (cl s) = 0 \/ CLIENT_MESSAGE_CAP < zlen bytes
  \/ (droppable = 0 /\ ~ room s (zlen bytes))
  \/ ((uv_write (cid s) bytes (env s)).1 < 0 /\ write_fails s s').

Definition queue_post (bytes : list Z) (droppable : Z) s (r : Z) s' : Prop :=
  cid s' = cid s /\ others s s' /\ ctx_queue_ok s' /\ (failed_writes s <= failed_writes s')%nat /\
  ((r = -1 /\ refused bytes droppable s s' /\ sv s' = sv s /\ queue_frame (cl s) (cl s') /\ stream s' = stream s
    /\ pending_bytes (cl s') = pending_bytes (cl s) /\ free s' = free s)
   \/ (r = 0 /\ sv s' = sv s /\ queue_frame (cl s) (cl s') /\ active (cl s) <> 0
       /\ stream s' = stream s ++ [bytes] /\ room s (zlen bytes)
       /\ pending_bytes (cl s') = pending_bytes (cl s) + zlen bytes /\ free s' = free s - 1)
   \/ (r = 0 /\ droppable <> 0 /\ sv s' = count_drop (sv s) /\ dropped (cl s) (cl s')
       /\ stream s' = stream s /\ ~ room s (zlen bytes))).

Lemma find_output_slot_wp (Q : option Z -> ctx W -> Prop) s :
  ctx_queue_ok s ->
  (forall i slot, 0 <= i < client_queue_slots (sv s) ->
     output (cl s) !! Z.to_nat i = Some slot -> in_use slot = 0 -> 0 < free s -> Q (Some i) s) ->
  (free s = 0 -> Q None s) ->
  wp find_output_slot Q s.
Proof.
  intros [[Hslots _] (Hlen & Hall & _)] Hsome Hnone.
  destruct (find_slot_spec (output (cl s)) (Z.to_nat (client_queue_slots (sv s))) 0)
    as (r & Hr & Hspec); [lia..|].
  unfold wp, find_output_slot, mbind, M_bind, getc, gets, mem. rewrite Hr. destruct r as [i|].
  - destruct Hspec as (Hi & slot & Hslot & Hu). apply (Hsome i slot); try done; try lia.
    unfold free, free_slots.
    pose proof (sumZ_lookup slot_free (take (Z.to_nat (client_queue_slots (sv s))) (output (cl s)))
      (Z.to_nat i) slot) as Hsum.
    assert (slot_free slot = 1) as E by (unfold slot_free; by rewrite Hu).
    rewrite E in Hsum. enough (1 <= sumZ slot_free
      (take (Z.to_nat (client_queue_slots (sv s))) (output (cl s)))) by lia. apply Hsum.
    + apply Forall_true. intros x. unfold slot_free. destruct (_ =? _); lia.
    + by rewrite lookup_take_lt by lia.
  - apply Hnone. unfold free, free_slots.
    pose proof (sumZ_bounds slot_free
      (take (Z.to_nat (client_queue_slots (sv s))) (output (cl s))) 0 0) as Hb.
    enough (Forall (fun x => 0 <= slot_free x <= 0)
      (take (Z.to_nat (client_queue_slots (sv s))) (output (cl s)))) as Hz by (specialize (Hb Hz); lia).
    apply Forall_lookup_2. intros k x Hx. apply lookup_take_Some in Hx as [Hx Hk].
    assert (in_use x <> 0) as Hne by (apply (Hspec (Z.of_nat k)); [lia|by rewrite Nat2Z.id]).
    unfold slot_free. destruct (Z.eqb_spec (in_use x) 0); [done|lia].
Qed.

Lemma drop_batch_wp bytes droppable s :
  ctx_queue_ok s -> droppable <> 0 -> ~ room s (zlen bytes) ->
  wp drop_batch (fun _ s' => queue_post bytes droppable s 0 s') s.
Proof.
  destruct s as [id c v w]. intros Hok Hd Hroom. unfold drop_batch. wp_steps.
  unfold queue_post.
  split; [done|]. split.
  { intros c' _. cbn. apply sent_clock. }
  split; [exact Hok|]. split; [unfold failed_writes; cbn; by rewrite failures_clock|]. right. right.
  split_and!; try done. unfold stream. cbn. apply sent_clock.
Qed.

(** The slot a queued message fills: header and payload at the front. *)
Lemma fill_slot data type_ sequence_ timestamp_ns_ payload len :
  zlen data = CLIENT_MESSAGE_CAP -> 0 <= len <= zlen payload -> len <= PAYLOAD_CAP ->
  let bytes := message_bytes type_ sequence_ timestamp_ns_ (take (Z.to_nat len) payload) in
  exists data1,
    roadcast_encode_header data
      (mk_header ROADCAST_PROTOCOL_VERSION type_ 0 (u32 len) sequence_ timestamp_ns_) = Ok data1
    /\ (if len =? 0 then Ok data1
        else b ← slice payload 0 len; blit data1 ROADCAST_HEADER_SIZE b)
       = Ok (bytes ++ drop (length bytes) data).
Proof.
  intros Hd Hl Hcap bytes. unfold PAYLOAD_CAP, CLIENT_MESSAGE_CAP, ROADCAST_HEADER_SIZE in *.
  rewrite encode_header_blit, u32_id by (unfold is_u32; lia).
  assert (Hb : bytes = header_bytes (mk_header ROADCAST_PROTOCOL_VERSION type_ 0 len sequence_
    timestamp_ns_) ++ take (Z.to_nat len) payload).
  { unfold bytes, message_bytes. by rewrite zlen_take by lia. }
  clearbody bytes. subst bytes. set (hb := header_bytes _).
  assert (zlen hb = 32) as Hh by done.
  assert (zlen (hb ++ take (Z.to_nat len) payload) = 32 + len) as Hlen
    by (rewrite zlen_app, zlen_take, Hh; lia).
  rewrite <- blit_start by lia. rewrite <- (blit_blit data 0 hb), Hh.
  destruct (blit data 0 hb) as [d1| |] eqn:E; [|rewrite blit_ok in E by lia; done..].
  exists d1. split; [done|]. rewrite !bind_ok.
  destruct (Z.eqb_spec len 0) as [->|].
  - apply blit_length in E. change (take (Z.to_nat 0) payload) with (@nil Z).
    rewrite blit_nil; [done|]. unfold zlen in *. lia.
  - by rewrite slice_start, bind_ok by lia.
Qed.

Lemma zlen_message t q ts payload :
  zlen (message_bytes t q ts payload) = ROADCAST_HEADER_SIZE + zlen payload.
Proof. unfold message_bytes. by rewrite zlen_app. Qed.

(** Replacing a slot keeps the queue consistent. *)
Lemma queue_ok_insert slots c i x y p :
  queue_ok slots c -> output c !! i = Some x -> slot_ok y ->
  p = pending_bytes c - slot_length x + slot_length y ->
  0 <= p <= slots * CLIENT_MESSAGE_CAP ->
  queue_ok slots (c <| output := <[i := y]> (output c) |> <| pending_bytes := p |>).
Proof.
  intros (Hl & Hf & Hp & _) Hi Hs1 Hpeq Hr. unfold queue_ok. cbn. split_and!; try lia.
  - by rewrite zlen_insert.
  - by apply Forall_insert.
  - rewrite (sumZ_insert _ _ _ x) by done. lia.
Qed.

Lemma client_queue_message_wp type_ sequence_ timestamp_ns_ payload len droppable s :
  ctx_queue_ok s -> 0 <= len <= zlen payload ->
  wp (client_queue_message type_ sequence_ timestamp_ns_ payload len droppable)
    (queue_post (message_bytes type_ sequence_ timestamp_ns_ (take (Z.to_nat len) payload))
       droppable s) s.
Proof.
  intros Hok Hlen. pose proof Hok as [Hsv Hq].
  set (bytes := message_bytes _ _ _ _).
  assert (Hbytes : zlen bytes = ROADCAST_HEADER_SIZE + len)
    by (unfold bytes; rewrite zlen_message, zlen_take; lia).
  assert (Hrefuse : refused bytes droppable s s -> queue_post bytes droppable s (-1) s).
  { intros Hr. unfold queue_post. split_and!; try done. left. by destruct s as [? []]. }
  destruct s as [id c v w]. unfold client_queue_message. wp_steps.
  unfold refused in Hrefuse. cbn [cl cid env] in Hrefuse.
  destruct (Z.eqb_spec (active c) 0) as [|Hact]; [wp_steps; apply Hrefuse; by left|].
  destruct (Z.ltb_spec ROADCAST_MAX_PAYLOAD len) as [Hmax|];
    [wp_steps; apply Hrefuse; right; left; rewrite Hbytes;
     unfold ROADCAST_MAX_PAYLOAD, CLIENT_MESSAGE_CAP, ROADCAST_HEADER_SIZE in *; lia|].
  destruct (Z.ltb_spec CLIENT_MESSAGE_CAP (ROADCAST_HEADER_SIZE + len)) as [|Hcap];
    [wp_steps; apply Hrefuse; right; left; by rewrite Hbytes|].
  cbn [orb]. wp_steps. set (pend := uv_stream_get_write_queue_size id w).
  pose proof (queue_size_range id w) as Huv. fold pend in Huv.
  pose proof queue_slots_bound as Hqs. pose proof Hsv as [Hslots _]. pose proof Hq as (Hol & Hall & Hpb & Hpr).
  cbn [cl sv] in *.
  rewrite queue_limit_exact by done.
  assert (ROADCAST_HEADER_SIZE = 32) as Hhs by done.
  assert (CLIENT_MESSAGE_CAP = 2048) as Hmc by done.
  rewrite !sz_id by lia.
  assert (Hroom : ~ (0 < free (mk_ctx id c v w)
    /\ pending_bytes c + (ROADCAST_HEADER_SIZE + len) <= client_queue_slots v * CLIENT_MESSAGE_CAP
    /\ pend + (ROADCAST_HEADER_SIZE + len) <= client_queue_slots v * CLIENT_MESSAGE_CAP) ->
    ~ room (mk_ctx id c v w) (zlen bytes)) by (unfold room; by rewrite Hbytes).
  apply find_output_slot_wp; [done| |].
  2: { intros Hfree. pose proof (Hroom ltac:(lia)) as Hno.
       destruct (Z.eqb_spec droppable 0); wp_steps; [apply Hrefuse; auto|].
       eapply wp_mono; [by apply (drop_batch_wp bytes droppable)|].
       intros ? s' Hs'. by wp_steps. }
  intros i slot Hi Hslot Hu Hfree. cbn [cl sv] in *.
  destruct (_ || _) eqn:Hover.
  { assert (Hno : ~ room (mk_ctx id c v w) (zlen bytes)).
    { apply Hroom. apply orb_true_iff in Hover as [Ho|Ho]; apply Z.ltb_lt in Ho; lia. }
    destruct (Z.eqb_spec droppable 0); wp_steps; [apply Hrefuse; auto|].
    eapply wp_mono; [by apply (drop_batch_wp bytes droppable)|].
    intros ? s' Hs'. by wp_steps. }
  split_bools.
  assert (Hslotok : slot_ok slot) by (by eapply Forall_lookup_1 in Hslot).
  destruct Hslotok as [Hdata [[_ Hsl]|[Hbad _]]]; [|lia].
  destruct (fill_slot (slot_data slot) type_ sequence_ timestamp_ns_ payload len)
    as (d1 & Henc & Hfill); [done|lia|unfold PAYLOAD_CAP; lia|]. fold bytes in Hfill.
  set (data := bytes ++ drop (length bytes) (slot_data slot)) in *.
  assert (Hd : zlen data = CLIENT_MESSAGE_CAP).
  { unfold data. unfold zlen in *. rewrite length_app, length_drop. lia. }
  assert (Hrd : rd (output c) i = Ok slot)
    by (rewrite <- (Z2Nat.id i) by lia; by apply rd_Some).
  wp_steps. apply (wp_mem _ _ _ _ Hrd). wp_steps. apply (wp_mem _ _ _ _ Henc). wp_steps.
  apply wp_mono with (P := fun d s' => d = data /\ s' = mk_ctx id c v w).
  { destruct (len =? 0); [injection Hfill as ->; by apply wp_ret|].
    destruct (slice payload 0 len) as [b| |] eqn:Hb; [|done..]. rewrite bind_ok in Hfill.
    apply wp_bind. apply (wp_mem _ _ _ _ eq_refl). by apply (wp_mem _ _ _ _ Hfill). }
  intros d s' [-> ->]. wp_steps.
  apply (wp_mem _ _ _ _ (wr_ok (output c) i _ ltac:(lia))). wp_steps.
  apply (wp_mem _ bytes).
  { rewrite slice_start by lia. f_equal. unfold data. rewrite <- Hbytes. unfold zlen. rewrite Nat2Z.id. apply take_app_length. }
  clearbody data bytes.
  wp_steps. destruct (uv_write id bytes w) as [result w'] eqn:Hw. cbn [fst snd].
  assert (Hoth : forall c', c' <> id -> sent w' c' = sent w c').
  { intros c' Hc'. pose proof (sent_write_other id c' bytes w Hc') as Ho. by rewrite Hw in Ho. }
  destruct (Z.ltb_spec result 0) as [Hres|Hres]; wp_steps.
  - eapply wp_mem; [apply wr_ok; rewrite zlen_insert; lia|]. wp_steps.
    rewrite list_insert_insert_eq.
    set (c' := _ <| output := _ |>).
    assert (Hc' : c' = c <| output := <[Z.to_nat i := mk_slot 0 0 data]> (output c) |>
                         <| pending_bytes := pending_bytes c |>).
    { unfold c', set. cbn.
      rewrite (sz_id (pending_bytes c + _)), sz_id by lia. f_equal. lia. }
    assert (Hqok : queue_ok (client_queue_slots v) c').
    { rewrite Hc'. apply queue_ok_insert with (x := slot); try done; [|cbn; lia].
      split; [done|]. left. done. }
    pose proof (failures_write_err id bytes w) as Hfl. rewrite Hw in Hfl. specialize (Hfl Hres). cbn [snd] in Hfl.
    unfold queue_post. split_and!; try done; [unfold failed_writes; cbn; lia|].
    left. rewrite Hc'. split_and!; try done.
    + right. right. right. unfold write_fails, failed_writes. cbn. rewrite Hw. split; [done|lia].
    + unfold stream. cbn. pose proof (sent_write_err id bytes w) as He. rewrite Hw in He. by apply He.
    + unfold free. cbn. by apply free_slots_same with slot.
  - set (c' := _ <| pending_bytes := _ |>).
    assert (Hc' : c' = c <| output := <[Z.to_nat i := mk_slot (ROADCAST_HEADER_SIZE + len) 1 data]> (output c) |>
                         <| pending_bytes := pending_bytes c + (ROADCAST_HEADER_SIZE + len) |>).
    { unfold c'. cbn. by rewrite sz_id by lia. }
    assert (Hqok : queue_ok (client_queue_slots v) c').
    { rewrite Hc'. apply queue_ok_insert with (x := slot); try done; [|cbn; lia|lia].
      split; [done|]. right. cbn. split; [done|lia]. }
    pose proof (failures_write_ok id bytes w) as Hfl. rewrite Hw in Hfl. specialize (Hfl Hres). cbn [snd] in Hfl.
    unfold queue_post. split_and!; try done; [unfold failed_writes; cbn; lia|].
    right. left. rewrite Hc'. split_and!; try done; cbn [cl].
    + unfold stream. cbn. pose proof (sent_write_ok id bytes w) as He. rewrite Hw in He. by apply He.
    + unfold room. rewrite Hbytes. done.
    + cbn. lia.
    + unfold free. cbn. by apply free_slots_use with slot; [lia|..].
Qed.

(** ** When a message cannot be sent *)

Definition cannot_send s s' : Prop :=
  active (cl s) = 0 \/ ~ room s CLIENT_MESSAGE_CAP \/ write_fails s s'.

Lemma room_mono s n m : n <= m -> room s m -> room s n.
Proof. intros Hnm (H1 & H2 & H3). split_and!; [done|lia|lia]. Qed.

Lemma refused_cannot_send bytes s s' :
  zlen bytes <= CLIENT_MESSAGE_CAP -> refused bytes 0 s s' -> cannot_send s s'.
Proof.
  intros Hb [H|[H|[[_ H]|[_ H]]]]; [by left|lia| |by right; right].
  right. left. intros Hr. apply H. by eapply room_mono.
Qed.

(** A queue with nothing in flight has room for any message. *)
Lemma idle_room s :
  ctx_queue_ok s -> pending_bytes (cl s) = 0 ->
  uv_stream_get_write_queue_size (cid s) (env s) = 0 -> room s CLIENT_MESSAGE_CAP.
Proof.
  intros [[Hsl _] (Hl & Hall & Hp & _)] Hp0 Huv. unfold room. rewrite Hp0, Huv.
  unfold CLIENT_MESSAGE_CAP. split_and!; [|lia..].
  destruct (output (cl s)) as [|x out] eqn:Eo; [unfold zlen in Hl; cbn in Hl; lia|].
  assert (Hnn : Forall (fun x => 0 <= slot_length x) (x :: out)).
  { revert Hall. apply Forall_impl. intros y [_ [[? ?]|[? ?]]]; unfold ROADCAST_HEADER_SIZE in *; lia. }
  assert (Hx : slot_length x <= 0) by (rewrite <- Hp0, Hp; by apply (sumZ_lookup _ _ 0)).
  inversion_clear Hall as [|? ? [_ [[Hu _]|[_ Hu]]] _]; [|unfold ROADCAST_HEADER_SIZE in Hu; lia].
  unfold free. rewrite Eo. unfold free_slots.
  destruct (Z.to_nat (client_queue_slots (sv s))) as [|n] eqn:En; [lia|]. cbn [take].
  enough (slot_free x <= sumZ slot_free (x :: take n out)) by (unfold slot_free in * at 1; rewrite Hu in *; cbn in *; lia).
  apply (sumZ_lookup _ _ 0); [|done]. apply Forall_true. intros y. unfold slot_free. destruct (_ =? _); lia.
Qed.
End Contract.
