(* ===== verification/ServerClient.v ===== *)
(** * One client of the daemon: invariant, snapshots and framing

    Every handler of ServerOps.v returns, has defined behaviour and preserves
    the invariant of its client; the lemmas here also say what each of them puts
    on the client's stream. *)

From S2P Require Import Prelude Wire CatalogDefs Catalog SourceSession Sampler ServerDefs.
From S2P Require Import ServerOps ServerQueue.

(** The fields of a client other than its output queue. *)
Record data_ok `{Catalog} (c : roadcast_client_t) : Prop := {
  do_input : zlen (input c) = CLIENT_INPUT_CAP /\ bytes_ok (input c);
  do_input_length : 0 <= input_length c <= CLIENT_INPUT_CAP;
  do_frames : frames_ok (snapshot_frames c);
  do_signals : signals_ok (snapshot_signals c);
  do_snapshot_sequence : is_u64 (snapshot_sample_sequence c)
    /\ is_u64 (snapshot_change_sequence c) /\ is_u64 (snapshot_timestamp_ns c);
  do_catchup_sequence : is_u64 (catchup_sample_sequence c)
    /\ is_u64 (catchup_change_sequence c) /\ is_u64 (catchup_timestamp_ns c);
  do_next_frame : 0 <= snapshot_next_frame_index c <= FRAME_COUNT;
  do_next_signal : 0 <= snapshot_next_index c <= SIGNAL_COUNT;
  do_frames_complete : snapshot_active c <> 0 ->
    (snapshot_frames_complete c <> 0 <-> snapshot_next_frame_index c = FRAME_COUNT);
  do_active_page : snapshot_active c <> 0 -> snapshot_next_index c < SIGNAL_COUNT;
  do_frame_indices : Forall (fun i => 0 <= i < FRAME_COUNT) (catchup_frame_indices c);
  do_frame_count : catchup_frame_count c = zlen (catchup_frame_indices c);
  do_frame_offset : 0 <= catchup_frame_offset c <= catchup_frame_count c;
  do_signal_indices : Forall (fun i => 0 <= i < SIGNAL_COUNT) (catchup_signal_indices c);
  do_signal_count : catchup_signal_count c = zlen (catchup_signal_indices c);
  do_signal_offset : 0 <= catchup_signal_offset c <= catchup_signal_count c;
  do_ids : snapshot_active c <> 0 \/ snapshot_complete c <> 0 \/ catchup_active c <> 0 ->
    map can_id (snapshot_frames c) = CAN_IDS;
  do_greeted : greeted c = 0 ->
    subscribed c = 0 /\ catchup_active c = 0 /\ snapshot_active c = 0
    /\ snapshot_complete c = 0 /\ needs_resync c = 0;
  do_closing : active c <> 0 -> closing c = 0;
}.

Definition ctx_ok `{Catalog} {W} (s : ctx W) : Prop :=
  ctx_queue_ok s /\ data_ok (cl s).

(** Rebuilds the invariant after an update of fields it does not read, or whose
    facts are at hand. *)
Ltac data_ok_tac H := destruct H; constructor; try assumption; cbn; try done; try lia.

(** The connection and its input buffer are untouched. *)
Definition same_conn (c c' : roadcast_client_t) : Prop :=
  input c' = input c /\ input_length c' = input_length c
  /\ active c' = active c /\ closing c' = closing c /\ peer_uid c' = peer_uid c.

(** The connection still has its owner, if it is still open. *)
Definition same_owner (c c' : roadcast_client_t) : Prop :=
  peer_uid c' = peer_uid c /\ (active c' <> 0 -> active c <> 0).

Lemma same_conn_owner c c' : same_conn c c' -> same_owner c c'.
Proof. intros (_ & _ & Ha & _ & Hu). split; [done|]. by rewrite Ha. Qed.

Lemma same_owner_trans c1 c2 c3 : same_owner c1 c2 -> same_owner c2 c3 -> same_owner c1 c3.
Proof. intros [E1 H1] [E2 H2]. split; [congruence|auto]. Qed.

Section ClientFacts.
Context `{HC : CatalogOk} {W : Type} `{K : !Clock W} `{U : !Uv W} `{HU : !UvOk U K}.
Implicit Types s : ctx W.

Lemma data_ok_queue_frame c c' : queue_frame c c' -> data_ok c -> data_ok c'.
Proof. intros -> H. data_ok_tac H. Qed.

Lemma data_ok_dropped c c' : greeted c <> 0 -> dropped c c' -> data_ok c -> data_ok c'.
Proof. intros Hg -> H. data_ok_tac H. Qed.

Lemma zero_client_data_ok : data_ok zero_client.
Proof.
  constructor; cbn; try done; try lia; try apply Forall_nil_2.
  - split; [by rewrite zlen_repeat|]. apply Forall_forall. intros x Hx.
    apply repeat_spec in Hx as ->. unfold is_u8. lia.
  - apply zero_frames_ok.
  - split; [by rewrite zlen_repeat|]. apply Forall_forall. intros x Hx.
    apply repeat_spec in Hx as ->. unfold value_ok. concrete.
  - pose proof catalog_nonempty. lia.
  - pose proof catalog_nonempty. lia.
Qed.

Lemma zero_client_queue_ok slots : 0 <= slots -> queue_ok slots zero_client.
Proof.
  intros Hs. pose proof queue_slots_bound. unfold queue_ok. cbn -[repeat]. split_and!; try lia.
  - rewrite zlen_repeat. lia.
  - apply Forall_forall. intros x Hx. apply repeat_spec in Hx as ->.
    split; [done|]. by left.
  - rewrite sumZ_repeat. done.
  - unfold CLIENT_MESSAGE_CAP. lia.
Qed.

(** ** Closing *)

Lemma client_close_wp (Q : unit -> ctx W -> Prop) s :
  ctx_ok s ->
  (forall s', cid s' = cid s -> sv s' = sv s -> others s s' -> stream s' = stream s ->
     ctx_ok s' -> same_owner (cl s) (cl s') -> active (cl s') = 0 -> Q tt s') ->
  (active (cl s) <> 0 -> closing (cl s) <> 0 -> Q tt s) ->
  wp client_close Q s.
Proof.
  destruct s as [id c v w]. intros [Hq Hd] HQ HQ'. unfold client_close. wp_steps.
  destruct (Z.eqb_spec (active c) 0) as [Ha|Ha]; cbn [orb].
  { apply wp_ret. apply HQ; done. }
  destruct (Z.eqb_spec (closing c) 0) as [Hc|Hc]; cbn [negb]; wp_steps.
  - apply HQ; try done.
    + intros c' Hc'. cbn. by rewrite sent_close, sent_read_stop.
    + unfold stream. cbn. by rewrite sent_close, sent_read_stop.
    + split; [exact Hq|]. data_ok_tac Hd.
  - by apply HQ'.
Qed.

(** ** Batches in a payload buffer *)

(** What an encoder leaves in the buffer. *)
Definition filled (bytes : list Z) : Z * list Z :=
  (zlen bytes, bytes ++ drop (length bytes) payload_buffer).

Lemma zlen_payload_buffer : zlen payload_buffer = PAYLOAD_CAP.
Proof. done. Qed.

Lemma filled_take bytes :
  zlen bytes <= PAYLOAD_CAP ->
  0 <= (filled bytes).1 <= zlen (filled bytes).2
  /\ take (Z.to_nat (filled bytes).1) (filled bytes).2 = bytes.
Proof.
  intros Hb. cbn [filled fst snd]. rewrite zlen_app.
  pose proof (zlen_nonneg bytes). pose proof (zlen_nonneg (drop (length bytes) payload_buffer)).
  split; [lia|]. unfold zlen. rewrite Nat2Z.id. apply take_app_length.
Qed.

Lemma encode_frames_filled frames indices (b : batch_t roadcast_frame_t) :
  selects_frames frames indices (batch_items b) -> Forall frame_ok (batch_items b) ->
  zlen (batch_items b) <= FRAMES_PER_MESSAGE ->
  roadcast_encode_frame_batch payload_buffer PAYLOAD_CAP (batch_sample_sequence b)
    (batch_total_count b) (batch_start_index b) frames indices (zlen (batch_items b))
  = Ok (filled (frame_batch_bytes b)) /\ zlen (frame_batch_bytes b) <= PAYLOAD_CAP.
Proof.
  intros Hsel Hok Hn.
  assert (Hd : Forall (fun f => zlen (data f) = 8) (batch_items b))
    by (revert Hok; apply Forall_impl; by intros f (_ & _ & ? & _)).
  change FRAMES_PER_MESSAGE with 71 in Hn.
  assert (Hsz : zlen (frame_batch_bytes b) <= PAYLOAD_CAP).
  { rewrite zlen_frame_batch by done. unfold ROADCAST_BATCH_PREFIX_SIZE, ROADCAST_FRAME_WIRE_SIZE.
    change PAYLOAD_CAP with 2016. lia. }
  split; [|done]. rewrite encode_frame_batch_blit by (done || unfold UINT16_MAX; lia). cbn zeta.
  destruct (Z.ltb_spec PAYLOAD_CAP (zlen (frame_batch_bytes b))); [lia|].
  by rewrite blit_start by (rewrite zlen_payload_buffer; lia).
Qed.

Lemma encode_signals_filled signals indices (b : batch_t roadcast_signal_update_t) :
  selects_signals signals indices (batch_items b) ->
  zlen (batch_items b) <= SIGNALS_PER_MESSAGE ->
  roadcast_encode_signal_batch payload_buffer PAYLOAD_CAP (batch_sample_sequence b)
    (batch_total_count b) (batch_start_index b) signals indices (zlen (batch_items b))
  = Ok (filled (signal_batch_bytes b)) /\ zlen (signal_batch_bytes b) <= PAYLOAD_CAP.
Proof.
  intros Hsel Hn. change SIGNALS_PER_MESSAGE with 49 in Hn.
  assert (Hsz : zlen (signal_batch_bytes b) <= PAYLOAD_CAP).
  { rewrite zlen_signal_batch. unfold ROADCAST_BATCH_PREFIX_SIZE, ROADCAST_SIGNAL_WIRE_SIZE.
    change PAYLOAD_CAP with 2016. lia. }
  split; [|done]. rewrite encode_signal_batch_blit by (done || unfold UINT16_MAX; lia). cbn zeta.
  destruct (Z.ltb_spec PAYLOAD_CAP (zlen (signal_batch_bytes b))); [lia|].
  by rewrite blit_start by (rewrite zlen_payload_buffer; lia).
Qed.

(** The pages of a snapshot. *)
Definition frame_page (c : roadcast_client_t) (start_index : Z) : batch_t roadcast_frame_t :=
  mk_batch (snapshot_sample_sequence c) FRAME_COUNT start_index
    (take (Z.to_nat FRAMES_PER_MESSAGE) (drop (Z.to_nat start_index) (snapshot_frames c))).

Definition number_from (i : Z) (vs : list roadcast_signal_value_t)
  : list roadcast_signal_update_t :=
  imap (fun k v => mk_update (i + Z.of_nat k) v) vs.

Definition signal_page (c : roadcast_client_t) (start_index : Z)
  : batch_t roadcast_signal_update_t :=
  mk_batch (snapshot_sample_sequence c) SIGNAL_COUNT start_index
    (number_from start_index
       (take (Z.to_nat SIGNALS_PER_MESSAGE) (drop (Z.to_nat start_index) (snapshot_signals c)))).

Lemma page_size {A} (l : list A) n start :
  0 <= n -> 0 <= start <= zlen l ->
  zlen (take (Z.to_nat n) (drop (Z.to_nat start) l)) = Z.min (zlen l - start) n.
Proof. intros Hn Hs. unfold zlen in *. rewrite length_take, length_drop. lia. Qed.

Lemma encode_frame_page c start_index :
  frames_ok (snapshot_frames c) -> 0 <= start_index <= FRAME_COUNT ->
  let b := frame_page c start_index in
  roadcast_encode_frame_batch payload_buffer PAYLOAD_CAP (snapshot_sample_sequence c)
    FRAME_COUNT start_index (drop (Z.to_nat start_index) (snapshot_frames c)) None
    (Z.min (FRAME_COUNT - start_index) FRAMES_PER_MESSAGE)
  = Ok (filled (frame_batch_bytes b)) /\ zlen (frame_batch_bytes b) <= PAYLOAD_CAP.
Proof.
  intros [Hl Hf] Hs b.
  assert (Hn : zlen (batch_items b) = Z.min (FRAME_COUNT - start_index) FRAMES_PER_MESSAGE)
    by (cbn [b frame_page batch_items]; rewrite page_size, Hl by (done || lia); done).
  rewrite <- Hn. apply (encode_frames_filled _ _ b).
  - intros k f Hk. cbn [b frame_page batch_items] in Hk.
    apply lookup_take_Some in Hk as [Hk _]. by apply rd_Some.
  - by apply Forall_take, Forall_drop.
  - rewrite Hn. lia.
Qed.

Lemma number_from_lookup i vs k u :
  number_from i vs !! k = Some u ->
  exists v, vs !! k = Some v /\ u = mk_update (i + Z.of_nat k) v.
Proof.
  unfold number_from. rewrite list_lookup_imap. destruct (vs !! k) as [v|]; [|done].
  intros [= <-]. eauto.
Qed.

Lemma zlen_number_from i vs : zlen (number_from i vs) = zlen vs.
Proof. unfold zlen, number_from. by rewrite length_imap. Qed.

Lemma encode_signal_page c start_index :
  signals_ok (snapshot_signals c) -> 0 <= start_index <= SIGNAL_COUNT ->
  let b := signal_page c start_index in
  let count := Z.min (SIGNAL_COUNT - start_index) SIGNALS_PER_MESSAGE in
  roadcast_encode_signal_batch payload_buffer PAYLOAD_CAP (snapshot_sample_sequence c)
    SIGNAL_COUNT start_index (snapshot_signals c)
    (Some (map (fun i => u32 (start_index + i)) (seqZ 0 count))) count
  = Ok (filled (signal_batch_bytes b)) /\ zlen (signal_batch_bytes b) <= PAYLOAD_CAP.
Proof.
  intros [Hl Hf] Hs b count.
  pose proof catalog_signals_bound as Hsb. unfold UINT16_MAX in Hsb.
  assert (Hn : zlen (batch_items b) = count).
  { cbn [b signal_page batch_items].
    rewrite zlen_number_from, page_size, Hl by (done || lia). done. }
  rewrite <- Hn. apply (encode_signals_filled _ _ b).
  - intros k u Hk. apply lookup_lt_Some in Hk as Hkl. cbn [b signal_page batch_items] in Hk.
    apply number_from_lookup in Hk as (v & Hv & ->).
    apply lookup_take_Some in Hv as [Hv _]. rewrite lookup_drop in Hv.
    assert (Hix : rd (map (fun i => u32 (start_index + i)) (seqZ 0 (zlen (batch_items b)))) (Z.of_nat k)
              = Ok (start_index + Z.of_nat k)).
    { apply rd_Some. rewrite list_lookup_fmap, lookup_seqZ_lt by (unfold zlen; lia). cbn.
      apply lookup_lt_Some in Hv. unfold zlen in Hl. f_equal. apply u32_id. unfold is_u32. lia. }
    rewrite Hix, bind_ok.
    replace (start_index + Z.of_nat k) with (Z.of_nat (Z.to_nat start_index + k)) by lia.
    by rewrite (rd_Some _ _ _ Hv).
  - rewrite Hn. lia.
Qed.

(** ** Replies

    A handler step that touches only this client: its queue, its stream, and the
    fields the client's own structure. *)

Definition local_step s s' : Prop :=
  cid s' = cid s /\ sv s' = sv s /\ others s s' /\ ctx_ok s' /\ same_conn (cl s) (cl s')
  /\ (failed_writes s <= failed_writes s')%nat.

Lemma same_conn_queue_frame c c' : queue_frame c c' -> same_conn c c'.
Proof. intros ->. done. Qed.

Lemma local_step_refl s : ctx_ok s -> local_step s s.
Proof. done. Qed.

Lemma local_step_trans s1 s2 s3 : local_step s1 s2 -> local_step s2 s3 -> local_step s1 s3.
Proof.
  intros (H1 & H2 & H3 & _ & Ha & Hfa) (H4 & H5 & H6 & H7 & Hb & Hfb).
  split_and!; try congruence; [| |lia].
  - intros c Hc. rewrite H6 by congruence. by apply H3.
  - destruct Ha as (? & ? & ? & ? & ?), Hb as (? & ? & ? & ? & ?). split_and!; congruence.
Qed.

(** A message that is not droppable is refused or queued. *)
Lemma reply_wp t q ts payload len (Q : Z -> ctx W -> Prop) s :
  ctx_ok s -> 0 <= len <= zlen payload -> len <= PAYLOAD_CAP ->
  (forall s', local_step s s' -> queue_frame (cl s) (cl s') -> stream s' = stream s ->
     cannot_send s s' -> Q (-1) s') ->
  (forall s', local_step s s' -> queue_frame (cl s) (cl s') ->
     stream s' = stream s ++ [message_bytes t q ts (take (Z.to_nat len) payload)] ->
     active (cl s) <> 0 -> free s' = free s - 1 -> Q 0 s') ->
  wp (client_queue_message t q ts payload len 0) Q s.
Proof.
  intros [Hq Hd] Hlen Hcap Hfail Hsent.
  eapply wp_mono; [by apply client_queue_message_wp|].
  intros r s' (Hid & Hoth & Hok & Hfw & [H1|[H1|H1]]).
  - destruct H1 as (-> & Hno & Hsv & Hf & Hst & _). apply Hfail; try done.
    + split_and!; try done; [|by apply same_conn_queue_frame].
      split; [done|]. by eapply data_ok_queue_frame.
    + apply refused_cannot_send in Hno; [done|]. rewrite zlen_message, zlen_take by lia.
      unfold PAYLOAD_CAP in Hcap. lia.
  - destruct H1 as (-> & Hsv & Hf & Hact & Hst & _ & _ & Hfree). apply Hsent; try done.
    split_and!; try done; [|by apply same_conn_queue_frame].
    split; [done|]. by eapply data_ok_queue_frame.
  - by destruct H1 as (_ & Hbad & _).
Qed.

(** The client after [begin_snapshot], with its setup deadline at [dl]. *)
Definition begun (v : roadcast_server_t) (dl : Z) (c : roadcast_client_t) : roadcast_client_t :=
  c <| snapshot_frames := sv_frames v |> <| snapshot_signals := sv_signals v |>
    <| snapshot_sample_sequence := sample_sequence v |>
    <| snapshot_change_sequence := change_sequence v |>
    <| snapshot_timestamp_ns := sample_timestamp_ns v |>
    <| snapshot_next_frame_index := 0 |> <| snapshot_next_index := 0 |>
    <| snapshot_active := 1 |> <| snapshot_frames_complete := 0 |> <| snapshot_complete := 0 |>
    <| setup_deadline_ns := dl |> <| needs_resync := 0 |> <| resync_queued := 0 |>.

Lemma begin_snapshot_wp (Q : unit -> ctx W -> Prop) s :
  ctx_ok s -> greeted (cl s) <> 0 ->
  (forall s' dl, local_step s s' -> stream s' = stream s -> cl s' = begun (sv s) dl (cl s) ->
     (forall s2, cannot_send s' s2 -> cannot_send s s2) -> Q tt s') ->
  wp begin_snapshot Q s.
Proof.
  destruct s as [id c v w]. intros [[Hsv Hq] Hd] Hg HQ. unfold begin_snapshot. wp_steps.
  eapply HQ; [|unfold stream; cbn; apply sent_clock|reflexivity|].
  - split_and!; try done; [intros c' _; cbn; apply sent_clock|
      |unfold failed_writes; cbn; by rewrite failures_clock].
    destruct Hsv as (? & ? & ? & ? & ? & ? & ? & ?).
    pose proof catalog_nonempty as [? ?].
    split; [done|]. data_ok_tac Hd.
  - unfold cannot_send, room, free, write_fails, failed_writes. cbn. intros s2.
    by rewrite queue_size_clock, failures_clock.
Qed.

(** The frame page a request may ask for: the first page starts a snapshot
    unless one is under way; otherwise the pages are read in order. *)
Definition next_frame_page (c : roadcast_client_t) (start_index : Z) : bool :=
  negb (snapshot_active c =? 0) && (snapshot_frames_complete c =? 0)
  && (start_index =? snapshot_next_frame_index c) && (start_index <? FRAME_COUNT).

Definition frame_page_due (c : roadcast_client_t) (start_index : Z) : bool :=
  (start_index =? 0) && (snapshot_active c =? 0) || next_frame_page c start_index.

(** Where the page at [start_index] leaves the snapshot. *)
Definition frame_page_sent (count : Z) (c : roadcast_client_t) : roadcast_client_t :=
  let next := u32 (snapshot_next_frame_index c + count) in
  let c := c <| snapshot_next_frame_index := next |> in
  if next =? FRAME_COUNT then c <| snapshot_frames_complete := 1 |> else c.

Definition frame_page_message (c : roadcast_client_t) (start_index : Z) : list Z :=
  message_bytes ROADCAST_MSG_SNAPSHOT (snapshot_change_sequence c) (snapshot_timestamp_ns c)
    (frame_batch_bytes (frame_page c start_index)).

Lemma frame_page_sent_ok start_index c :
  data_ok c -> snapshot_active c <> 0 -> snapshot_frames_complete c = 0 ->
  start_index = snapshot_next_frame_index c -> start_index < FRAME_COUNT ->
  data_ok (frame_page_sent (Z.min (FRAME_COUNT - start_index) FRAMES_PER_MESSAGE) c).
Proof.
  intros Hd Ha Hc -> Hlt. pose proof catalog_frames_bound as Hb. unfold UINT16_MAX in Hb.
  pose proof (do_next_frame c Hd). pose proof (do_frames_complete c Hd Ha) as Hfc.
  change FRAMES_PER_MESSAGE with 71. unfold frame_page_sent. cbn zeta.
  rewrite u32_id by (unfold is_u32; lia).
  destruct (Z.eqb_spec (snapshot_next_frame_index c
    + Z.min (FRAME_COUNT - snapshot_next_frame_index c) 71) FRAME_COUNT); data_ok_tac Hd.
Qed.

Lemma queue_frame_snapshot_chunk_wp start_index (Q : Z -> ctx W -> Prop) s :
  ctx_ok s -> greeted (cl s) <> 0 -> 0 <= start_index ->
  (frame_page_due (cl s) start_index = false -> Q (-1) s) ->
  (forall s', local_step s s' -> stream s' = stream s ->
     frame_page_due (cl s) start_index = true -> cannot_send s s' ->
     greeted (cl s') = greeted (cl s) -> Q (-1) s') ->
  (forall c1 s', local_step s s' -> frame_page_due (cl s) start_index = true ->
     (c1 = cl s \/ (start_index = 0 /\ snapshot_active (cl s) = 0
                    /\ exists dl, c1 = begun (sv s) dl (cl s))) ->
     snapshot_active c1 <> 0 -> snapshot_frames_complete c1 = 0 ->
     start_index = snapshot_next_frame_index c1 -> start_index < FRAME_COUNT ->
     stream s' = stream s ++ [frame_page_message c1 start_index] ->
     queue_frame (frame_page_sent (Z.min (FRAME_COUNT - start_index) FRAMES_PER_MESSAGE) c1)
       (cl s') -> Q 0 s') ->
  wp (queue_frame_snapshot_chunk start_index) Q s.
Proof.
  intros Hok Hg Hs0 Hbad Hfail Hsent. unfold queue_frame_snapshot_chunk.
  apply wp_bind. destruct s as [id c v w]. apply wp_getc. cbv beta. apply wp_bind.
  set (s := mk_ctx id c v w) in *.
  apply wp_mono with (P := fun _ s1 => local_step s s1 /\ stream s1 = stream s
    /\ (s1 = s \/ (start_index = 0 /\ snapshot_active c = 0
                    /\ exists dl, cl s1 = begun v dl c))
    /\ (forall s2, cannot_send s1 s2 -> cannot_send s s2)
    /\ frame_page_due c start_index = next_frame_page (cl s1) start_index).
  { unfold frame_page_due.
    destruct (Z.eqb_spec start_index 0) as [H0|], (Z.eqb_spec (snapshot_active c) 0) as [Ha|];
      cbn [andb]; try (apply wp_ret; split_and!; by auto using local_step_refl).
    apply begin_snapshot_wp; [done..|]. intros s' dl H1 H2 H3 H4.
    split; [exact H1|]. split; [exact H2|]. split; [right; eauto|]. split; [exact H4|].
    rewrite H3, H0. unfold next_frame_page. cbn. pose proof catalog_nonempty as [? ?].
    symmetry. apply Z.ltb_lt. lia. }
  intros [] s1 (Hl1 & Hst1 & Hc1 & Hcs & Hdue).
  assert (Hno : next_frame_page (cl s1) start_index = false -> Q (-1) s1).
  { intros Hn. destruct Hc1 as [->|(-> & Ha & dl & E)]; [by apply Hbad; cbn [s cl]; rewrite Hdue|].
    exfalso. revert Hn. rewrite <- Hdue. unfold frame_page_due. by rewrite Ha. }
  assert (Hc : cl s1 = c \/ (start_index = 0 /\ snapshot_active c = 0
                    /\ exists dl, cl s1 = begun v dl c))
    by (destruct Hc1 as [->|Hc1]; [by left|by right]).
  clear Hc1. rename Hc into Hc1. destruct s1 as [id1 c1 v1 w1]. wp_steps.
  cbn [cl] in Hno, Hdue. unfold next_frame_page in Hno, Hdue.
  destruct Hl1 as (E1 & E2 & Hoth1 & Hok1 & Hin1 & Hfw1). cbn in E1, E2, Hc1. subst id1 v1.
  set (s1 := mk_ctx id c1 v w1) in *.
  assert (Hl1 : local_step s s1) by done.
  destruct (Z.eqb_spec (snapshot_active c1) 0); [wp_steps; by apply Hno|].
  destruct (Z.eqb_spec (snapshot_frames_complete c1) 0); [|wp_steps; by apply Hno].
  destruct (Z.eqb_spec start_index (snapshot_next_frame_index c1)) as [Hnext|];
    [|wp_steps; by apply Hno].
  destruct (Z.leb_spec FRAME_COUNT start_index) as [Hge|Hlt].
  { wp_steps. apply Hno. cbn. apply Z.ltb_ge. lia. }
  rewrite (proj2 (Z.ltb_lt _ _) Hlt) in Hdue. cbn [andb negb] in Hdue.
  cbn [orb negb]. wp_steps. pose proof Hok1 as [_ Hd1]. cbn [s1 cl] in Hd1.
  destruct (encode_frame_page c1 start_index (do_frames c1 Hd1)) as [Henc Hsz]; [lia|].
  apply (wp_enc_ok _ _ _ _ Henc). destruct (filled_take _ Hsz) as [Hfl Hft].
  cbn [filled fst snd] in Hfl, Hft. cbn [filled]. wp_steps.
  apply reply_wp; [done|done|done| |].
  { intros s2 Hl2 Hf2 Hst2 Hc2. wp_steps.
    apply Hfail; [exact (local_step_trans _ _ _ Hl1 Hl2)|exact (eq_trans Hst2 Hst1)|exact Hdue
      |exact (Hcs _ Hc2)|]. rewrite Hf2. cbn. destruct Hc1 as [->|(_ & _ & dl & ->)]; done. }
  rewrite Hft. fold (frame_page_message c1 start_index).
  intros s2 Hl2 Hf2 Hst2 _ _. destruct s2 as [id2 c2 v2 w2].
  pose proof Hl2 as (E1 & E2 & Hoth2 & [Hq2 Hd2] & Hin2 & Hfw2). cbn in E1, E2. subst id2 v2.
  change (cl s1) with c1 in Hf2. cbn [cl] in Hf2.
  cbn [Z.ltb Z.compare]. wp_steps.
  set (count := Z.min _ _) in *.
  apply wp_mono with (P := fun _ s3 => s3 = mk_ctx id (frame_page_sent count c2) v w2).
  { unfold frame_page_sent. cbn. destruct (_ =? FRAME_COUNT); wp_steps; done. }
  intros [] s3 ->. wp_steps.
  apply (Hsent c1); try done.
  - eapply local_step_trans; [exact Hl1|]. eapply local_step_trans; [exact Hl2|].
    split_and!; try done;
      [split|by unfold frame_page_sent; cbn; destruct (_ =? FRAME_COUNT)].
    + unfold ctx_queue_ok. cbn. split; [apply Hq2|]. unfold frame_page_sent.
      cbn. destruct (_ =? FRAME_COUNT); apply Hq2.
    + cbn. rewrite Hf2. apply (data_ok_queue_frame (frame_page_sent count c1)).
      { unfold frame_page_sent. cbn. by destruct (_ =? FRAME_COUNT). }
      apply frame_page_sent_ok; done || lia.
  - unfold stream in *. cbn in Hst1, Hst2 |- *. congruence.
  - cbn. rewrite Hf2. unfold frame_page_sent. cbn. by destruct (_ =? FRAME_COUNT).
Qed.

(** Signal pages follow the last frame page, in order. *)
Definition signal_page_due (c : roadcast_client_t) (start_index : Z) : bool :=
  negb (snapshot_active c =? 0) && negb (snapshot_frames_complete c =? 0)
  && (start_index =? snapshot_next_index c) && (start_index <? SIGNAL_COUNT).

Definition signal_page_sent (count : Z) (c : roadcast_client_t) : roadcast_client_t :=
  let next := u32 (snapshot_next_index c + count) in
  let c := c <| snapshot_next_index := next |> in
  if next =? SIGNAL_COUNT then c <| snapshot_active := 0 |> <| snapshot_complete := 1 |> else c.

Definition signal_page_message (c : roadcast_client_t) (start_index : Z) : list Z :=
  message_bytes ROADCAST_MSG_SIGNAL_SNAPSHOT_CHUNK (snapshot_change_sequence c)
    (snapshot_timestamp_ns c) (signal_batch_bytes (signal_page c start_index)).

Lemma signal_page_sent_ok start_index c :
  data_ok c -> snapshot_active c <> 0 -> greeted c <> 0 ->
  start_index = snapshot_next_index c -> start_index < SIGNAL_COUNT ->
  data_ok (signal_page_sent (Z.min (SIGNAL_COUNT - start_index) SIGNALS_PER_MESSAGE) c).
Proof.
  intros Hd Ha Hg -> Hlt. pose proof catalog_signals_bound as Hb. unfold UINT16_MAX in Hb.
  pose proof (do_next_signal c Hd).
  change SIGNALS_PER_MESSAGE with 49. unfold signal_page_sent. cbn zeta.
  rewrite u32_id by (unfold is_u32; lia).
  destruct (Z.eqb_spec (snapshot_next_index c
    + Z.min (SIGNAL_COUNT - snapshot_next_index c) 49) SIGNAL_COUNT); data_ok_tac Hd; auto.
Qed.

Lemma queue_signal_snapshot_chunk_wp start_index (Q : Z -> ctx W -> Prop) s :
  ctx_ok s -> greeted (cl s) <> 0 -> 0 <= start_index ->
  (signal_page_due (cl s) start_index = false -> Q (-1) s) ->
  (forall s', local_step s s' -> stream s' = stream s ->
     signal_page_due (cl s) start_index = true -> cannot_send s s' ->
     greeted (cl s') = greeted (cl s) -> Q (-1) s') ->
  (forall s', local_step s s' -> signal_page_due (cl s) start_index = true ->
     snapshot_active (cl s) <> 0 -> snapshot_frames_complete (cl s) <> 0 ->
     start_index = snapshot_next_index (cl s) -> start_index < SIGNAL_COUNT ->
     stream s' = stream s ++ [signal_page_message (cl s) start_index] ->
     queue_frame (signal_page_sent (Z.min (SIGNAL_COUNT - start_index) SIGNALS_PER_MESSAGE) (cl s))
       (cl s') -> Q 0 s') ->
  wp (queue_signal_snapshot_chunk start_index) Q s.
Proof.
  intros Hok Hg Hs0 Hno Hfail Hsent. unfold queue_signal_snapshot_chunk.
  destruct s as [id c v w]. wp_steps. set (s := mk_ctx id c v w) in *.
  assert (Hrefl : local_step s s) by done. cbn [s cl] in Hg, Hsent, Hno, Hfail.
  unfold signal_page_due in Hsent, Hno, Hfail.
  destruct (Z.eqb_spec (snapshot_active c) 0) as [|Ha]; [wp_steps; by apply Hno|].
  destruct (Z.eqb_spec (snapshot_frames_complete c) 0); [wp_steps; by apply Hno|].
  destruct (Z.eqb_spec start_index (snapshot_next_index c)) as [Hnext|];
    [|wp_steps; by apply Hno].
  destruct (Z.leb_spec SIGNAL_COUNT start_index) as [Hge|Hlt].
  { wp_steps. apply Hno. cbn. apply Z.ltb_ge. lia. }
  rewrite (proj2 (Z.ltb_lt _ _) Hlt) in Hsent, Hfail.
  cbn [orb negb]. wp_steps. pose proof Hok as [_ Hd]. cbn [s cl] in Hd.
  destruct (encode_signal_page c start_index (do_signals c Hd)) as [Henc Hsz]; [lia|].
  apply (wp_enc_ok _ _ _ _ Henc). destruct (filled_take _ Hsz) as [Hfl Hft].
  cbn [filled fst snd] in Hfl, Hft. cbn [filled]. wp_steps.
  apply reply_wp; [done|done|done| |].
  { intros s2 Hl2 Hf2 Hst2 Hc2. wp_steps. apply Hfail; try done. by rewrite Hf2. }
  rewrite Hft. fold (signal_page_message c start_index).
  intros s2 Hl2 Hf2 Hst2 _ _. destruct s2 as [id2 c2 v2 w2].
  pose proof Hl2 as (E1 & E2 & Hoth2 & [Hq2 Hd2] & Hin2 & Hfw2). cbn in E1, E2. subst id2 v2.
  change (cl s) with c in Hf2. cbn [cl] in Hf2.
  cbn [Z.ltb Z.compare]. wp_steps.
  set (count := Z.min _ _) in *.
  apply wp_mono with (P := fun _ s3 => s3 = mk_ctx id (signal_page_sent count c2) v w2).
  { unfold signal_page_sent. cbn. destruct (_ =? SIGNAL_COUNT); wp_steps; done. }
  intros [] s3 ->. wp_steps.
  apply Hsent; try done.
  - eapply local_step_trans; [exact Hl2|].
    split_and!; try done;
      [split|by unfold signal_page_sent; cbn; destruct (_ =? SIGNAL_COUNT)].
    + unfold ctx_queue_ok. cbn. split; [apply Hq2|]. unfold signal_page_sent.
      cbn. destruct (_ =? SIGNAL_COUNT); apply Hq2.
    + cbn. rewrite Hf2. apply (data_ok_queue_frame (signal_page_sent count c)).
      { unfold signal_page_sent. cbn. by destruct (_ =? SIGNAL_COUNT). }
      by apply signal_page_sent_ok.
  - cbn. rewrite Hf2. unfold signal_page_sent. cbn. by destruct (_ =? SIGNAL_COUNT).
Qed.

Lemma queue_schema_chunk_wp start_index (Q : Z -> ctx W -> Prop) s :
  ctx_ok s -> 0 <= start_index ->
  (SIGNAL_COUNT <= start_index -> Q (-1) s) ->
  (forall s', local_step s s' -> stream s' = stream s -> queue_frame (cl s) (cl s') ->
     start_index < SIGNAL_COUNT -> cannot_send s s' -> Q (-1) s') ->
  (forall s', local_step s s' -> start_index < SIGNAL_COUNT -> queue_frame (cl s) (cl s') ->
     stream s' = stream s ++ [message_bytes ROADCAST_MSG_SCHEMA_CHUNK (change_sequence (sv s))
       (sample_timestamp_ns (sv s)) (schema_chunk_bytes (schema_page PAYLOAD_CAP start_index))] ->
     Q 0 s') ->
  wp (queue_schema_chunk start_index) Q s.
Proof.
  intros Hok Hs0 Hno Hfail Hsent. unfold queue_schema_chunk. destruct s as [id c v w].
  wp_steps. set (s := mk_ctx id c v w) in *.
  pose proof (encode_schema_chunk_spec payload_buffer PAYLOAD_CAP start_index
    ltac:(by rewrite zlen_payload_buffer) ltac:(done) Hs0) as Henc. cbn zeta in Henc.
  set (page := schema_page PAYLOAD_CAP start_index) in *.
  destruct (Z.leb_spec SIGNAL_COUNT start_index) as [Hge|Hlt].
  { specialize (Hno Hge). cbn in Henc. rewrite orb_true_r in Henc. cbn in Henc.
    unfold wp, mbind, M_bind, enc. rewrite Henc. exact Hno. }
  assert (Hprog : 0 < zlen (chunk_entries page)).
  { apply schema_page_progress; [lia|]. vm_compute. discriminate. }
  destruct (Z.eqb_spec (zlen (chunk_entries page)) 0); [lia|].
  change (PAYLOAD_CAP <? ROADCAST_SCHEMA_CHUNK_PREFIX_SIZE) with false in Henc.
  cbn [orb] in Henc.
  assert (Hsz : zlen (schema_chunk_bytes page) <= PAYLOAD_CAP).
  { rewrite zlen_schema_chunk_bytes. unfold page, schema_page. cbn [chunk_entries].
    pose proof (fitting_room (entries_from start_index (drop (Z.to_nat start_index) SIGNALS))
      (PAYLOAD_CAP - ROADCAST_SCHEMA_CHUNK_PREFIX_SIZE) ltac:(done)).
    unfold PAYLOAD_CAP, ROADCAST_SCHEMA_CHUNK_PREFIX_SIZE, CLIENT_MESSAGE_CAP,
      ROADCAST_HEADER_SIZE in *. lia. }
  rewrite blit_start, bind_ok in Henc by (rewrite zlen_payload_buffer; lia).
  unfold mret, res_ret in Henc. apply (wp_enc_ok _ _ _ _ Henc).
  destruct (filled_take _ Hsz) as [Hfl Hft]. cbn [filled fst snd] in Hfl, Hft. wp_steps.
  pose proof (zlen_schema_chunk_bytes page) as Hzl. unfold ROADCAST_SCHEMA_CHUNK_PREFIX_SIZE in Hzl.
  pose proof (zlen_nonneg (concat (map schema_entry_bytes (chunk_entries page)))).
  destruct (Z.eqb_spec (zlen (schema_chunk_bytes page)) 0); [lia|].
  destruct (Z.eqb_spec (zlen (chunk_entries page)) 0); [lia|]. cbn [orb]. wp_steps.
  apply reply_wp; [done|done|done| |].
  - intros s2 Hl2 Hf2 Hst2 Hc2. by apply Hfail.
  - rewrite Hft. intros s2 Hl2 Hf2 Hst2 _ _. by apply Hsent.
Qed.
End ClientFacts.
