(* ===== verification/Replica.v ===== *)
(** * The state a client reconstructs from its stream

    A replica is what the messages of a stream, decoded with the decoders of
    protocol.c, make of the frames and signals of the catalog: snapshot pages
    and updates overwrite the items they carry, every other message leaves them
    alone.  [synced] says how far a replica has caught up with a state of the
    server. *)

From S2P Require Import Prelude Wire CatalogDefs Catalog SourceSession Sampler ServerDefs.
From S2P Require Import ServerOps ServerQueue ServerClient.

Record replica := mk_replica {
  rep_frames : list roadcast_frame_t;
  rep_signals : list roadcast_signal_value_t;
}.

(** A frame record replaces the frame with its id. *)
Definition apply_frame (fs : list roadcast_frame_t) (f : roadcast_frame_t)
  : list roadcast_frame_t :=
  map (fun g => if can_id g =? can_id f then f else g) fs.

(** A signal record replaces the signal with its index. *)
Definition apply_signal (vs : list roadcast_signal_value_t) (u : roadcast_signal_update_t)
  : list roadcast_signal_value_t :=
  <[Z.to_nat (upd_index u) := upd_value u]> vs.

Definition carries_frames (t : Z) : bool :=
  (t =? ROADCAST_MSG_SNAPSHOT) || (t =? ROADCAST_MSG_UPDATE_BATCH).
Definition carries_signals (t : Z) : bool :=
  (t =? ROADCAST_MSG_SIGNAL_SNAPSHOT_CHUNK) || (t =? ROADCAST_MSG_SIGNAL_UPDATE_BATCH).

Definition apply_message (r : replica) (bytes : list Z) : replica :=
  let head := take (Z.to_nat ROADCAST_HEADER_SIZE) bytes in
  let payload := drop (Z.to_nat ROADCAST_HEADER_SIZE) bytes in
  match roadcast_decode_header head with
  | Ok h =>
      if carries_frames (type h) then
        match roadcast_decode_frame_batch payload (payload_bytes h) UINT16_MAX with
        | Ok b => mk_replica (fold_left apply_frame (batch_items b) (rep_frames r)) (rep_signals r)
        | _ => r
        end
      else if carries_signals (type h) then
        match roadcast_decode_signal_batch payload (payload_bytes h) UINT16_MAX with
        | Ok b => mk_replica (rep_frames r) (fold_left apply_signal (batch_items b) (rep_signals r))
        | _ => r
        end
      else r
  | _ => r
  end.

(** ** Messages of the server, applied *)

Lemma decode_message_header t q ts payload :
  is_u16 t -> is_u64 q -> is_u64 ts -> zlen payload <= PAYLOAD_CAP ->
  let bytes := message_bytes t q ts payload in
  roadcast_decode_header (take (Z.to_nat ROADCAST_HEADER_SIZE) bytes)
  = Ok (mk_header ROADCAST_PROTOCOL_VERSION t 0 (zlen payload) q ts)
  /\ drop (Z.to_nat ROADCAST_HEADER_SIZE) bytes = payload.
Proof.
  intros Ht Hq Hts Hp bytes. pose proof (zlen_nonneg payload).
  change PAYLOAD_CAP with 2016 in Hp. unfold bytes, message_bytes.
  set (h := mk_header _ _ _ _ _ _).
  assert (Hl : length (header_bytes h) = Z.to_nat ROADCAST_HEADER_SIZE) by done.
  rewrite <- Hl, take_app_length, drop_app_length. split; [|done].
  rewrite (decode_header_has _ h); [| |apply has_self].
  - cbn [h payload_bytes]. unfold ROADCAST_MAX_PAYLOAD.
    destruct (Z.ltb_spec 65536 (zlen payload)); [lia|done].
  - unfold header_ok, h, ROADCAST_PROTOCOL_VERSION. cbn.
    unfold is_u16, is_u32, is_u64 in *. split_and!; lia.
Qed.

Lemma apply_frames_message r t q ts (b : batch_t roadcast_frame_t) :
  carries_frames t = true -> is_u64 q -> is_u64 ts -> batch_ok frame_ok b ->
  zlen (frame_batch_bytes b) <= PAYLOAD_CAP ->
  apply_message r (message_bytes t q ts (frame_batch_bytes b))
  = mk_replica (fold_left apply_frame (batch_items b) (rep_frames r)) (rep_signals r).
Proof.
  intros Ht Hq Hts Hb Hp. pose proof Hb as (_ & _ & _ & Hn & _).
  assert (Ht16 : is_u16 t).
  { unfold carries_frames in Ht. apply orb_true_iff in Ht as [Ht|Ht]; apply Z.eqb_eq in Ht as ->;
      by vm_compute. }
  destruct (decode_message_header t q ts (frame_batch_bytes b)) as [Hh Hd]; [done..|].
  unfold apply_message. cbn zeta. rewrite Hh, Hd. cbn [type payload_bytes]. rewrite Ht.
  rewrite (decode_frame_batch_has _ _ _ b) by (done || apply has_self).
  by destruct (Z.ltb_spec UINT16_MAX (zlen (batch_items b))); [lia|].
Qed.

Lemma apply_signals_message r t q ts (b : batch_t roadcast_signal_update_t) :
  carries_signals t = true -> is_u64 q -> is_u64 ts -> batch_ok update_ok b ->
  zlen (signal_batch_bytes b) <= PAYLOAD_CAP ->
  apply_message r (message_bytes t q ts (signal_batch_bytes b))
  = mk_replica (rep_frames r) (fold_left apply_signal (batch_items b) (rep_signals r)).
Proof.
  intros Ht Hq Hts Hb Hp. pose proof Hb as (_ & _ & _ & Hn & _).
  assert (is_u16 t /\ carries_frames t = false) as [Ht16 Hnf].
  { unfold carries_signals in Ht. apply orb_true_iff in Ht as [Ht|Ht]; apply Z.eqb_eq in Ht as ->;
      by vm_compute. }
  destruct (decode_message_header t q ts (signal_batch_bytes b)) as [Hh Hd]; [done..|].
  unfold apply_message. cbn zeta. rewrite Hh, Hd. cbn [type payload_bytes]. rewrite Hnf, Ht.
  rewrite (decode_signal_batch_has _ _ _ b) by (done || apply has_self).
  by destruct (Z.ltb_spec UINT16_MAX (zlen (batch_items b))); [lia|].
Qed.

(** Messages without data leave the replica alone. *)
Lemma apply_other_message r t q ts payload :
  carries_frames t = false -> carries_signals t = false ->
  is_u16 t -> is_u64 q -> is_u64 ts -> zlen payload <= PAYLOAD_CAP ->
  apply_message r (message_bytes t q ts payload) = r.
Proof.
  intros Hf Hs Ht Hq Hts Hp.
  destruct (decode_message_header t q ts payload) as [Hh Hd]; [done..|].
  unfold apply_message. cbn zeta. rewrite Hh. cbn [type]. by rewrite Hf, Hs.
Qed.

(** ** Catching up *)

Lemma frame_differs_false a b :
  frame_differs a b = false <-> state a = state b /\ data a = data b.
Proof.
  unfold frame_differs. rewrite orb_false_iff, !negb_false_iff, Z.eqb_eq, bool_decide_eq_true.
  done.
Qed.

Lemma signal_differs_false a b :
  signal_differs a b = false
  <-> raw a = raw b /\ sig_state a = sig_state b
      /\ sig_first_observed_ns a = sig_first_observed_ns b
      /\ sig_last_change_ns a = sig_last_change_ns b.
Proof.
  unfold signal_differs. rewrite !orb_false_iff, !negb_false_iff, !Z.eqb_eq. tauto.
Qed.

(** Two arrays of the same length agree outside the indices [todo]. *)
Definition synced {A} (differs : A -> A -> bool) (todo : list Z) (xs ys : list A) : Prop :=
  length xs = length ys
  /\ forall k x y, xs !! k = Some x -> ys !! k = Some y ->
       Z.of_nat k ∉ todo -> differs x y = false.

Lemma changed_indices_spec {A} (differs : A -> A -> bool) xs : forall ys i j,
  length xs = length ys ->
  j ∈ changed_indices differs i xs ys <->
  exists k x y, j = i + Z.of_nat k /\ xs !! k = Some x /\ ys !! k = Some y
    /\ differs x y = true.
Proof.
  induction xs as [|x xs IH]; intros [|y ys] i j Hl; cbn [changed_indices]; try done.
  { split; [by intros ?%elem_of_nil|]. by intros (k & ? & ? & _ & Hk & _). }
  injection Hl as Hl. rewrite elem_of_app, (IH ys (i + 1) j Hl). split.
  - intros [Hj|(k & x' & y' & -> & H1 & H2 & H3)].
    + destruct (differs x y) eqn:E; [|by apply elem_of_nil in Hj].
      apply list_elem_of_singleton in Hj as ->. exists 0%nat, x, y. split_and!; try done. lia.
    + exists (S k), x', y'. split_and!; try done. lia.
  - intros (k & x' & y' & -> & H1 & H2 & H3). destruct k as [|k]; cbn in H1, H2.
    + left. injection H1 as ->. injection H2 as ->. rewrite H3.
      apply list_elem_of_singleton. lia.
    + right. exists k, x', y'. split_and!; try done. lia.
Qed.

Lemma changed_indices_range {A} (differs : A -> A -> bool) xs ys :
  length xs = length ys ->
  Forall (fun j => 0 <= j < zlen xs) (changed_indices differs 0 xs ys).
Proof.
  intros Hl. apply Forall_forall. intros j Hj. apply list_elem_of_In in Hj.
  apply changed_indices_spec in Hj as (k & x & y & -> & H1 & _); [|done].
  apply lookup_lt_Some in H1. unfold zlen. lia.
Qed.

Lemma changed_indices_ge {A} (differs : A -> A -> bool) xs : forall ys i j,
  j ∈ changed_indices differs i xs ys -> i <= j.
Proof.
  induction xs as [|x xs IH]; intros [|y ys] i j Hj; cbn [changed_indices] in Hj;
    try by apply elem_of_nil in Hj.
  apply elem_of_app in Hj as [Hj|Hj]; [|apply IH in Hj; lia].
  destruct (differs x y); [apply list_elem_of_singleton in Hj as ->; lia|by apply elem_of_nil in Hj].
Qed.

Lemma changed_indices_NoDup {A} (differs : A -> A -> bool) xs : forall ys i,
  NoDup (changed_indices differs i xs ys).
Proof.
  induction xs as [|x xs IH]; intros [|y ys] i; cbn [changed_indices]; try apply NoDup_nil_2.
  destruct (differs x y); cbn [app]; [|apply IH]. apply NoDup_cons_2; [|apply IH].
  intros Hj. apply changed_indices_ge in Hj. lia.
Qed.

(** A new round: what agreed with the old snapshot agrees with the new one
    outside the indices at which the two differ. *)
Lemma synced_next_round {A} (differs : A -> A -> bool) (R old new : list A) :
  (forall x y z, differs x y = false -> differs z y = false -> differs x z = false) ->
  synced differs [] R old -> length new = length old ->
  synced differs (changed_indices differs 0 new old) R new.
Proof.
  intros Htrans [Hl Hs] Hn. split; [congruence|]. intros k x z Hx Hz Hk.
  destruct (lookup_lt_is_Some_2 old k) as [y Hy]; [apply lookup_lt_Some in Hx; lia|].
  apply Htrans with y.
  - apply (Hs k x y Hx Hy), not_elem_of_nil.
  - destruct (differs z y) eqn:E; [|done]. destruct Hk.
    apply changed_indices_spec; [done|]. exists k, z, y. split_and!; done || lia.
Qed.

Lemma frame_differs_trans x y z :
  frame_differs x y = false -> frame_differs z y = false -> frame_differs x z = false.
Proof. rewrite !frame_differs_false. intuition congruence. Qed.

Lemma signal_differs_trans x y z :
  signal_differs x y = false -> signal_differs z y = false -> signal_differs x z = false.
Proof. rewrite !signal_differs_false. intuition congruence. Qed.

Lemma synced_refl {A} (differs : A -> A -> bool) todo xs :
  (forall x, differs x x = false) -> synced differs todo xs xs.
Proof. intros H. split; [done|]. intros k x y Hx Hy _. rewrite Hx in Hy. injection Hy as ->. done. Qed.

Lemma frame_differs_refl x : frame_differs x x = false.
Proof. by apply frame_differs_false. Qed.

Lemma signal_differs_refl x : signal_differs x x = false.
Proof. by apply signal_differs_false. Qed.

#[export] Hint Resolve frame_differs_refl signal_differs_refl synced_refl : roadcast.

(** The items at the given indices. *)
Definition pick {A} (xs : list A) (L : list Z) : list A :=
  omap (fun i => xs !! Z.to_nat i) L.

Definition pick_updates (vs : list roadcast_signal_value_t) (L : list Z)
  : list roadcast_signal_update_t :=
  omap (fun i => mk_update i <$> vs !! Z.to_nat i) L.

Definition in_range {A} (xs : list A) (L : list Z) : Prop := Forall (fun i => 0 <= i < zlen xs) L.

Lemma in_range_cons {A} (xs : list A) i L :
  in_range xs (i :: L) -> exists x, xs !! Z.to_nat i = Some x /\ 0 <= i /\ in_range xs L.
Proof.
  intros H. inversion_clear H as [|? ? Hi HL].
  destruct (lookup_lt_is_Some_2 xs (Z.to_nat i)) as [x Hx]; [unfold zlen in *; lia|].
  exists x. split_and!; done || lia.
Qed.

Lemma pick_cons {A} (xs : list A) i L x :
  xs !! Z.to_nat i = Some x -> pick xs (i :: L) = x :: pick xs L.
Proof. intros Hx. unfold pick. cbn. by rewrite Hx. Qed.

Lemma pick_updates_cons vs i L v :
  vs !! Z.to_nat i = Some v -> pick_updates vs (i :: L) = mk_update i v :: pick_updates vs L.
Proof. intros Hv. unfold pick_updates. cbn. by rewrite Hv. Qed.

Lemma pick_lookup {A} (xs : list A) L : in_range xs L -> forall k x,
  pick xs L !! k = Some x -> exists i, L !! k = Some i /\ 0 <= i /\ xs !! Z.to_nat i = Some x.
Proof.
  induction L as [|i L IH]; intros HL k x Hk; [done|].
  apply in_range_cons in HL as (x0 & Hx0 & Hi & HL). rewrite (pick_cons _ _ _ _ Hx0) in Hk.
  destruct k as [|k]; cbn in Hk |- *; [|by apply IH]. injection Hk as ->. eauto.
Qed.

Lemma pick_updates_lookup vs L : in_range vs L -> forall k u,
  pick_updates vs L !! k = Some u ->
  exists i v, L !! k = Some i /\ 0 <= i /\ vs !! Z.to_nat i = Some v /\ u = mk_update i v.
Proof.
  induction L as [|i L IH]; intros HL k u Hk; [done|].
  apply in_range_cons in HL as (v & Hv & Hi & HL). rewrite (pick_updates_cons _ _ _ _ Hv) in Hk.
  destruct k as [|k]; cbn in Hk |- *; [|by apply IH]. injection Hk as <-. eauto 10.
Qed.

Lemma zlen_pick {A} (xs : list A) L : in_range xs L -> zlen (pick xs L) = zlen L.
Proof.
  induction L as [|i L IH]; intros HL; [done|].
  apply in_range_cons in HL as (x & Hx & _ & HL). rewrite (pick_cons _ _ _ _ Hx), !zlen_cons.
  by rewrite IH.
Qed.

Lemma zlen_pick_updates vs L : in_range vs L -> zlen (pick_updates vs L) = zlen L.
Proof.
  induction L as [|i L IH]; intros HL; [done|].
  apply in_range_cons in HL as (x & Hx & _ & HL).
  rewrite (pick_updates_cons _ _ _ _ Hx), !zlen_cons. by rewrite IH.
Qed.

Section Apply.
Context `{HC : CatalogOk}.

Lemma apply_frame_ids fs f :
  map can_id (apply_frame fs f) = map can_id fs.
Proof.
  unfold apply_frame. rewrite map_map. apply map_ext. intros g.
  by destruct (Z.eqb_spec (can_id g) (can_id f)).
Qed.

(** A frame record of the catalog lands at its own index only. *)
Lemma apply_frame_lookup fs gs i g :
  map can_id fs = CAN_IDS -> map can_id gs = CAN_IDS -> gs !! i = Some g ->
  forall k, apply_frame fs g !! k = if decide (k = i) then (fun _ => g) <$> fs !! k else fs !! k.
Proof.
  intros Hfs Hgs Hi k. unfold apply_frame. rewrite list_lookup_fmap.
  destruct (fs !! k) as [f|] eqn:Hk; [|by destruct (decide (k = i))]. cbn.
  assert (Hidk : CAN_IDS !! k = Some (can_id f))
    by (rewrite <- Hfs, list_lookup_fmap, Hk; done).
  assert (Hidi : CAN_IDS !! i = Some (can_id g))
    by (rewrite <- Hgs, list_lookup_fmap, Hi; done).
  destruct (decide (k = i)) as [->|Hne].
  - rewrite Hidk in Hidi. injection Hidi as ->. by rewrite Z.eqb_refl.
  - destruct (Z.eqb_spec (can_id f) (can_id g)) as [E|]; [|done]. destruct Hne.
    rewrite E in Hidk. by eapply NoDup_lookup; [apply catalog_can_ids_distinct|..].
Qed.

Lemma synced_apply_frames gs rest L : forall fs,
  map can_id fs = CAN_IDS -> map can_id gs = CAN_IDS -> in_range gs L ->
  synced frame_differs (L ++ rest) fs gs ->
  let fs' := fold_left apply_frame (pick gs L) fs in
  synced frame_differs rest fs' gs /\ map can_id fs' = CAN_IDS.
Proof.
  induction L as [|i L IH]; intros fs Hfs Hgs HL Hs; [done|].
  apply in_range_cons in HL as (g & Hg & Hi & HL). rewrite (pick_cons _ _ _ _ Hg).
  cbn [fold_left]. apply IH; try done; [by rewrite apply_frame_ids|].
  destruct Hs as [Hl Hs]. split.
  { rewrite <- Hl. unfold apply_frame. apply length_map. }
  intros k x y Hx Hy Hk. rewrite (apply_frame_lookup fs gs _ g) in Hx by done.
  destruct (decide (k = Z.to_nat i)) as [->|Hne].
  - rewrite Hg in Hy. injection Hy as ->. destruct (fs !! Z.to_nat i); [|done].
    injection Hx as <-. by apply frame_differs_false.
  - apply (Hs k); try done. cbn [app]. rewrite not_elem_of_cons. split; [lia|done].
Qed.

Lemma synced_apply_signals gs rest L : forall vs,
  in_range gs L -> synced signal_differs (L ++ rest) vs gs ->
  synced signal_differs rest (fold_left apply_signal (pick_updates gs L) vs) gs.
Proof.
  induction L as [|i L IH]; intros vs HL Hs; [done|].
  apply in_range_cons in HL as (g & Hg & Hi & HL). rewrite (pick_updates_cons _ _ _ _ Hg).
  cbn [fold_left]. apply IH; try done. destruct Hs as [Hl Hs]. unfold apply_signal. cbn.
  split; [by rewrite length_insert|]. intros k x y Hx Hy Hk.
  destruct (decide (k = Z.to_nat i)) as [->|Hne].
  - rewrite Hg in Hy. injection Hy as ->. apply lookup_lt_Some in Hg.
    rewrite list_lookup_insert_eq in Hx by lia. injection Hx as <-. by apply signal_differs_false.
  - rewrite list_lookup_insert_ne in Hx by done. apply (Hs k); try done.
    cbn [app]. rewrite not_elem_of_cons. split; [lia|done].
Qed.

(** The batches that carry picked items. *)
Definition frame_delta (sequence_ : Z) (gs : list roadcast_frame_t) (L : list Z)
  : batch_t roadcast_frame_t := mk_batch sequence_ FRAME_COUNT UINT32_MAX (pick gs L).

Definition signal_delta (sequence_ : Z) (gs : list roadcast_signal_value_t) (L : list Z)
  : batch_t roadcast_signal_update_t := mk_batch sequence_ SIGNAL_COUNT UINT32_MAX (pick_updates gs L).

Lemma frame_delta_ok q gs L :
  is_u64 q -> frames_ok gs -> in_range gs L -> zlen L <= UINT16_MAX ->
  batch_ok frame_ok (frame_delta q gs L).
Proof.
  intros Hq [Hl Hf] HL Hn. pose proof catalog_frames_bound as Hb.
  unfold batch_ok, page_ok, frame_delta. cbn. rewrite zlen_pick by done.
  unfold is_u32, UINT16_MAX, UINT32_MAX in *. pose proof (zlen_nonneg gs).
  split_and!; try done; try lia.
  apply Forall_lookup_2. intros k f Hk. apply pick_lookup in Hk as (i & _ & _ & Hk); [|done].
  by eapply Forall_lookup_1 in Hk.
Qed.

Lemma signal_delta_ok q gs L :
  is_u64 q -> signals_ok gs -> in_range gs L -> zlen L <= UINT16_MAX ->
  batch_ok update_ok (signal_delta q gs L).
Proof.
  intros Hq [Hl Hf] HL Hn. pose proof catalog_signals_bound as Hb.
  unfold batch_ok, page_ok, signal_delta. cbn. rewrite zlen_pick_updates by done.
  unfold is_u32, UINT16_MAX, UINT32_MAX in *. pose proof (zlen_nonneg gs).
  split_and!; try done; try lia.
  apply Forall_lookup_2. intros k u Hk.
  apply pick_updates_lookup in Hk as (i & v & _ & Hi & Hk & ->); [|done].
  split; [|by eapply Forall_lookup_1 in Hk]. apply lookup_lt_Some in Hk.
  unfold is_u32, zlen in *. cbn. lia.
Qed.

(** Encoding the picked items. *)
Lemma encode_frame_delta q gs L n :
  frames_ok gs -> in_range gs L -> n = Z.min (zlen L) FRAMES_PER_MESSAGE ->
  let b := frame_delta q gs (take (Z.to_nat n) L) in
  roadcast_encode_frame_batch payload_buffer PAYLOAD_CAP q FRAME_COUNT UINT32_MAX gs (Some L) n
  = Ok (filled (frame_batch_bytes b)) /\ zlen (frame_batch_bytes b) <= PAYLOAD_CAP.
Proof.
  intros [Hl Hf] HL Hn b. pose proof (zlen_nonneg L).
  assert (HL' : in_range gs (take (Z.to_nat n) L)) by (by apply Forall_take).
  assert (Hnb : zlen (batch_items b) = n).
  { cbn [b frame_delta batch_items]. rewrite zlen_pick, zlen_take; [done| |done].
    change FRAMES_PER_MESSAGE with 71 in Hn. lia. }
  rewrite <- Hnb. apply (encode_frames_filled gs (Some L) b).
  - intros k f Hk. apply pick_lookup in Hk as (i & Hi & Hi0 & Hf'); [|done].
    apply lookup_take_Some in Hi as [Hi _]. rewrite (rd_Some _ _ _ Hi), bind_ok.
    rewrite <- (Z2Nat.id i) by done. by apply rd_Some.
  - apply Forall_lookup_2. intros k f Hk. apply pick_lookup in Hk as (i & _ & _ & Hk); [|done].
    by eapply Forall_lookup_1 in Hk.
  - lia.
Qed.

Lemma encode_signal_delta q gs L n :
  signals_ok gs -> in_range gs L -> n = Z.min (zlen L) SIGNALS_PER_MESSAGE ->
  let b := signal_delta q gs (take (Z.to_nat n) L) in
  roadcast_encode_signal_batch payload_buffer PAYLOAD_CAP q SIGNAL_COUNT UINT32_MAX gs (Some L) n
  = Ok (filled (signal_batch_bytes b)) /\ zlen (signal_batch_bytes b) <= PAYLOAD_CAP.
Proof.
  intros [Hl Hf] HL Hn b. pose proof (zlen_nonneg L).
  assert (HL' : in_range gs (take (Z.to_nat n) L)) by (by apply Forall_take).
  assert (Hnb : zlen (batch_items b) = n).
  { cbn [b signal_delta batch_items]. rewrite zlen_pick_updates, zlen_take; [done| |done].
    change SIGNALS_PER_MESSAGE with 49 in Hn. lia. }
  rewrite <- Hnb. apply (encode_signals_filled gs (Some L) b).
  - intros k u Hk. apply pick_updates_lookup in Hk as (i & v & Hi & Hi0 & Hv & ->); [|done].
    apply lookup_take_Some in Hi as [Hi _]. rewrite (rd_Some _ _ _ Hi), bind_ok.
    pose proof (rd_Some _ _ _ Hv) as Hrd. rewrite Z2Nat.id in Hrd by done. by rewrite Hrd.
  - lia.
Qed.
(** ** Live messages

    What the server sends to a subscriber that is up to date: updates of frames
    and signals of the catalog, and heartbeats. *)
Inductive live_message : list Z -> Prop :=
  | live_frames q ts (b : batch_t roadcast_frame_t) :
      is_u64 q -> is_u64 ts -> batch_ok frame_ok b -> batch_total_count b = FRAME_COUNT ->
      batch_start_index b = UINT32_MAX -> Forall (fun f => can_id f ∈ CAN_IDS) (batch_items b) ->
      zlen (batch_items b) <= FRAME_COUNT -> zlen (frame_batch_bytes b) <= PAYLOAD_CAP ->
      live_message (message_bytes ROADCAST_MSG_UPDATE_BATCH q ts (frame_batch_bytes b))
  | live_signals q ts (b : batch_t roadcast_signal_update_t) :
      is_u64 q -> is_u64 ts -> batch_ok update_ok b -> batch_total_count b = SIGNAL_COUNT ->
      batch_start_index b = UINT32_MAX ->
      Forall (fun u => upd_index u < SIGNAL_COUNT) (batch_items b) ->
      zlen (signal_batch_bytes b) <= PAYLOAD_CAP ->
      live_message (message_bytes ROADCAST_MSG_SIGNAL_UPDATE_BATCH q ts (signal_batch_bytes b))
  | live_heartbeat q ts h :
      is_u64 q -> is_u64 ts -> heartbeat_ok h -> hb_change_sequence h = q ->
      live_message (message_bytes ROADCAST_MSG_HEARTBEAT q ts (heartbeat_bytes h)).

(** The sequence in the header of a message. *)
Definition message_sequence (bytes : list Z) : Z :=
  match roadcast_decode_header (take (Z.to_nat ROADCAST_HEADER_SIZE) bytes) with
  | Ok h => sequence h
  | _ => 0
  end.

Lemma message_sequence_bytes t q ts payload :
  is_u16 t -> is_u64 q -> is_u64 ts -> zlen payload <= PAYLOAD_CAP ->
  message_sequence (message_bytes t q ts payload) = q.
Proof.
  intros Ht Hq Hts Hp. destruct (decode_message_header t q ts payload) as [Hh _]; [done..|].
  unfold message_sequence. cbn zeta in Hh. by rewrite Hh.
Qed.

(** A stream without gaps: every message has the sequence before it or the next
    one, and the last sequence is [q']. *)
Fixpoint in_sequence (q : Z) (ms : list (list Z)) (q' : Z) : Prop :=
  match ms with
  | [] => q' = q
  | m :: ms =>
      (message_sequence m = q \/ message_sequence m = u64 (q + 1))
      /\ in_sequence (message_sequence m) ms q'
  end.

Lemma in_sequence_app ms1 ms2 : forall q1 q2 q3,
  in_sequence q1 ms1 q2 -> in_sequence q2 ms2 q3 -> in_sequence q1 (ms1 ++ ms2) q3.
Proof.
  induction ms1 as [|m ms1 IH]; intros q1 q2 q3 H1 H2; cbn [in_sequence app] in *; [by subst q2|].
  destruct H1 as [Hm H1]. split; [done|]. by eapply IH.
Qed.

Lemma in_sequence_same q ms : Forall (fun m => message_sequence m = q) ms -> in_sequence q ms q.
Proof. induction 1 as [|m ms <- _ IH]; cbn [in_sequence]; [done|]. by split; [left|]. Qed.

(** The messages of one update. *)
Lemma in_sequence_step q ms :
  Forall (fun m => message_sequence m = u64 (q + 1)) ms -> ms <> [] -> in_sequence q ms (u64 (q + 1)).
Proof.
  intros Hms Hne. destruct ms as [|m ms]; [done|]. inversion_clear Hms as [|? ? Hm Hms'].
  cbn [in_sequence]. split; [by right|]. rewrite Hm. by apply in_sequence_same.
Qed.

Lemma frame_delta_live q ts seq_ gs L :
  is_u64 q -> is_u64 ts -> is_u64 seq_ -> frames_ok gs -> map can_id gs = CAN_IDS ->
  in_range gs L -> zlen L <= UINT16_MAX -> zlen L <= FRAME_COUNT ->
  zlen (frame_batch_bytes (frame_delta seq_ gs L)) <= PAYLOAD_CAP ->
  live_message (message_bytes ROADCAST_MSG_UPDATE_BATCH q ts
    (frame_batch_bytes (frame_delta seq_ gs L))).
Proof.
  intros Hq Hts Hseq Hf Hids HL Hn Hfc Hsz.
  apply live_frames; try done; [by apply frame_delta_ok| |by cbn [frame_delta batch_items]; rewrite zlen_pick].
  apply Forall_lookup_2. intros k f Hk. apply pick_lookup in Hk as (i & _ & _ & Hk); [|done].
  rewrite <- Hids. apply list_elem_of_lookup. exists (Z.to_nat i). by rewrite list_lookup_fmap, Hk.
Qed.

Lemma signal_delta_live q ts seq_ gs L :
  is_u64 q -> is_u64 ts -> is_u64 seq_ -> signals_ok gs -> in_range gs L -> zlen L <= UINT16_MAX ->
  zlen (signal_batch_bytes (signal_delta seq_ gs L)) <= PAYLOAD_CAP ->
  live_message (message_bytes ROADCAST_MSG_SIGNAL_UPDATE_BATCH q ts
    (signal_batch_bytes (signal_delta seq_ gs L))).
Proof.
  intros Hq Hts Hseq Hf HL Hn Hsz. apply live_signals; try done; [by apply signal_delta_ok|].
  apply Forall_lookup_2. intros k u Hk.
  apply pick_updates_lookup in Hk as (i & v & _ & Hi & Hk & ->); [|done]. cbn.
  apply lookup_lt_Some in Hk. destruct Hf as [Hl _]. unfold zlen in Hl. lia.
Qed.

Lemma be32_u32 v : be32 (u32 v) = be32 v.
Proof.
  unfold be32, u32, u8. rewrite !shiftr_div by lia.
  rewrite !(field_mod v 32) by lia. f_equal. f_equal. f_equal. f_equal.
  pose proof (field_mod v 32 0 8 ltac:(lia) ltac:(lia) ltac:(lia)) as H.
  by rewrite Z.pow_0_r, !Z.div_1_r in H.
Qed.

Lemma be64_u64 v : be64 (u64 v) = be64 v.
Proof.
  unfold be64. rewrite !be32_u32, <- (be32_u32 (Z.shiftr (u64 v) 32)), <- (be32_u32 (Z.shiftr v 32)).
  rewrite <- (be32_u32 (u64 v)), <- (be32_u32 v). f_equal; f_equal; unfold u32, u64.
  - rewrite !shiftr_div by lia. by rewrite (field_mod v 64) by lia.
  - pose proof (field_mod v 64 0 32 ltac:(lia) ltac:(lia) ltac:(lia)) as H.
    by rewrite Z.pow_0_r, !Z.div_1_r in H.
Qed.

(** A heartbeat carries its counters modulo their width. *)
Lemma heartbeat_live q ts h :
  is_u64 q -> is_u64 ts -> hb_change_sequence h = q ->
  0 <= hb_source_state h <= ROADCAST_SOURCE_STATE_DEGRADED ->
  live_message (message_bytes ROADCAST_MSG_HEARTBEAT q ts (heartbeat_bytes h)).
Proof.
  intros Hq Hts Hc Hs.
  set (h' := mk_heartbeat (u64 (hb_sample_sequence h)) q (u64 (hb_dropped_batches h))
    (u64 (hb_coalesced_samples h)) (u32 (hb_effective_hz_millihz h)) (hb_source_state h)).
  assert (heartbeat_bytes h = heartbeat_bytes h') as ->.
  { unfold heartbeat_bytes, h'. cbn [hb_sample_sequence hb_change_sequence hb_dropped_batches
      hb_coalesced_samples hb_effective_hz_millihz hb_source_state].
    by rewrite !be64_u64, be32_u32, Hc. }
  apply live_heartbeat; try done. unfold heartbeat_ok, h'. cbn.
  split_and!; try done; try apply u64_range; try apply u32_range; lia.
Qed.
End Apply.
