(* ===== verification/ServerCatchup.v ===== *)
(** * Subscription catch-up: src/roadcastd.c, [begin_catchup_round] to
      [queue_subscription_catchup]

    The catch-up loop terminates whatever libuv answers, and when it reports
    SUBSCRIBED, the messages on the stream have turned a replica that agreed with
    the client's snapshot into one that agrees with the server. *)

From S2P Require Import Prelude Wire CatalogDefs Catalog SourceSession Sampler ServerDefs.
From S2P Require Import ServerOps ServerQueue ServerClient Replica.

Section Catchup.
Context `{HC : CatalogOk} {W : Type} `{K : !Clock W} `{U : !Uv W} `{HU : !UvOk U K}.
Implicit Types s : ctx W.

(** The replica after the messages from position [base] of the stream. *)
Definition replica_of (R0 : replica) (base : nat) s : replica :=
  fold_left apply_message (drop base (stream s)) R0.

Lemma replica_of_snoc R0 base s s' m :
  (base <= length (stream s))%nat -> stream s' = stream s ++ [m] ->
  replica_of R0 base s' = apply_message (replica_of R0 base s) m.
Proof.
  intros Hb Hs. unfold replica_of. rewrite Hs, drop_app_le by done. apply fold_left_app.
Qed.

Definition frames_todo (c : roadcast_client_t) : list Z :=
  drop (Z.to_nat (catchup_frame_offset c)) (catchup_frame_indices c).
Definition signals_todo (c : roadcast_client_t) : list Z :=
  drop (Z.to_nat (catchup_signal_offset c)) (catchup_signal_indices c).

(** The replica agrees with the client's snapshot except for what is still to be
    sent. *)
Definition following (R : replica) (c : roadcast_client_t) : Prop :=
  map can_id (snapshot_frames c) = CAN_IDS /\ map can_id (rep_frames R) = CAN_IDS
  /\ synced frame_differs (frames_todo c) (rep_frames R) (snapshot_frames c)
  /\ synced signal_differs (signals_todo c) (rep_signals R) (snapshot_signals c).

(** The replica agrees with the server. *)
Definition agrees (R : replica) (v : roadcast_server_t) : Prop :=
  map can_id (rep_frames R) = CAN_IDS
  /\ synced frame_differs [] (rep_frames R) (sv_frames v)
  /\ synced signal_differs [] (rep_signals R) (sv_signals v).

Lemma following_same_data R c c' :
  snapshot_frames c' = snapshot_frames c -> snapshot_signals c' = snapshot_signals c ->
  catchup_frame_offset c' = catchup_frame_offset c ->
  catchup_frame_indices c' = catchup_frame_indices c ->
  catchup_signal_offset c' = catchup_signal_offset c ->
  catchup_signal_indices c' = catchup_signal_indices c ->
  following R c -> following R c'.
Proof.
  intros E1 E2 E3 E4 E5 E6. unfold following, frames_todo, signals_todo.
  by rewrite E1, E2, E3, E4, E5, E6.
Qed.

Lemma following_queue_frame R c c' : queue_frame c c' -> following R c -> following R c'.
Proof. intros ->. by apply following_same_data. Qed.

(** ** Capacity *)

Lemma client_has_output_capacity_wp (Q : bool -> ctx W -> Prop) s :
  ctx_queue_ok s ->
  (forall b : bool, (if b then room s CLIENT_MESSAGE_CAP else ~ room s CLIENT_MESSAGE_CAP) ->
     Q b s) ->
  wp client_has_output_capacity Q s.
Proof.
  intros Hok HQ. destruct s as [id c v w]. unfold client_has_output_capacity. wp_steps.
  pose proof Hok as [Hsv (_ & _ & _ & Hpr)]. pose proof (queue_size_range id w) as Huv.
  pose proof queue_slots_bound. pose proof Hsv as [Hsl _]. cbn [sv cl] in *.
  assert (CLIENT_MESSAGE_CAP = 2048) as Hc by done.
  rewrite queue_limit_exact, !sz_id by (done || lia).
  apply find_output_slot_wp; [done| |].
  - intros i slot _ _ _ Hf. wp_steps. apply HQ. cbn [andb].
    unfold room. cbn [cl cid env sv].
    destruct (Z.leb_spec (pending_bytes c + CLIENT_MESSAGE_CAP)
      (client_queue_slots v * CLIENT_MESSAGE_CAP)); cbn [andb]; [|lia].
    destruct (Z.leb_spec (uv_stream_get_write_queue_size id w + CLIENT_MESSAGE_CAP)
      (client_queue_slots v * CLIENT_MESSAGE_CAP)); [done|lia].
  - intros Hf. wp_steps. apply HQ. cbn [andb]. unfold room. lia.
Qed.

(** ** The branches of the loop *)

(** The rest of the round after [count] frames. *)
Lemma frames_todo_advance c count :
  0 <= catchup_frame_offset c -> 0 <= count ->
  frames_todo c = take (Z.to_nat count) (frames_todo c)
                  ++ drop (Z.to_nat (catchup_frame_offset c + count)) (catchup_frame_indices c).
Proof.
  intros Ho Hn. unfold frames_todo at 1. rewrite Z2Nat.inj_add by done.
  rewrite <- drop_drop. symmetry. apply take_drop.
Qed.

Lemma signals_todo_advance c count :
  0 <= catchup_signal_offset c -> 0 <= count ->
  signals_todo c = take (Z.to_nat count) (signals_todo c)
                   ++ drop (Z.to_nat (catchup_signal_offset c + count)) (catchup_signal_indices c).
Proof.
  intros Ho Hn. unfold signals_todo at 1. rewrite Z2Nat.inj_add by done.
  rewrite <- drop_drop. symmetry. apply take_drop.
Qed.

Lemma zlen_frames_todo c :
  data_ok c -> zlen (frames_todo c) = catchup_frame_count c - catchup_frame_offset c.
Proof.
  intros Hd. pose proof (do_frame_count c Hd). pose proof (do_frame_offset c Hd).
  unfold frames_todo, zlen in *. rewrite length_drop. lia.
Qed.

Lemma zlen_signals_todo c :
  data_ok c -> zlen (signals_todo c) = catchup_signal_count c - catchup_signal_offset c.
Proof.
  intros Hd. pose proof (do_signal_count c Hd). pose proof (do_signal_offset c Hd).
  unfold signals_todo, zlen in *. rewrite length_drop. lia.
Qed.

Lemma frames_todo_range c : data_ok c -> in_range (snapshot_frames c) (frames_todo c).
Proof.
  intros Hd. destruct (do_frames c Hd) as [Hl _]. unfold in_range. rewrite Hl.
  apply Forall_drop, (do_frame_indices c Hd).
Qed.

Lemma signals_todo_range c : data_ok c -> in_range (snapshot_signals c) (signals_todo c).
Proof.
  intros Hd. destruct (do_signals c Hd) as [Hl _]. unfold in_range. rewrite Hl.
  apply Forall_drop, (do_signal_indices c Hd).
Qed.

(** Applying the next frame batch of the round. *)
Lemma following_send_frames R c count :
  data_ok c -> following R c ->
  count = Z.min (catchup_frame_count c - catchup_frame_offset c) FRAMES_PER_MESSAGE ->
  let b := frame_delta (catchup_sample_sequence c) (snapshot_frames c)
             (take (Z.to_nat count) (frames_todo c)) in
  zlen (frame_batch_bytes b) <= PAYLOAD_CAP ->
  following
    (apply_message R (message_bytes ROADCAST_MSG_UPDATE_BATCH (catchup_change_sequence c)
       (catchup_timestamp_ns c) (frame_batch_bytes b)))
    (c <| catchup_frame_offset := catchup_frame_offset c + count |>).
Proof.
  intros Hd (Hi1 & Hi2 & Hf & Hs) Hcount b Hsz.
  pose proof (do_frame_offset c Hd). destruct (do_catchup_sequence c Hd) as (? & ? & ?).
  pose proof (zlen_frames_todo c Hd) as Hz.
  change FRAMES_PER_MESSAGE with 71 in Hcount.
  assert (Hr : in_range (snapshot_frames c) (take (Z.to_nat count) (frames_todo c)))
    by (apply Forall_take, frames_todo_range, Hd).
  rewrite apply_frames_message; [|done..| |done].
  2: { apply frame_delta_ok; [done|apply do_frames, Hd|done|].
       rewrite zlen_take by lia. unfold UINT16_MAX. lia. }
  rewrite (frames_todo_advance c count) in Hf by lia.
  destruct (synced_apply_frames _ _ _ _ Hi2 Hi1 Hr Hf) as [Hf' Hids].
  split_and!; done.
Qed.

Lemma following_send_signals R c count :
  data_ok c -> following R c ->
  count = Z.min (catchup_signal_count c - catchup_signal_offset c) SIGNALS_PER_MESSAGE ->
  let b := signal_delta (catchup_sample_sequence c) (snapshot_signals c)
             (take (Z.to_nat count) (signals_todo c)) in
  zlen (signal_batch_bytes b) <= PAYLOAD_CAP ->
  following
    (apply_message R (message_bytes ROADCAST_MSG_SIGNAL_UPDATE_BATCH (catchup_change_sequence c)
       (catchup_timestamp_ns c) (signal_batch_bytes b)))
    (c <| catchup_signal_offset := catchup_signal_offset c + count |>).
Proof.
  intros Hd (Hi1 & Hi2 & Hf & Hs) Hcount b Hsz.
  pose proof (do_signal_offset c Hd). destruct (do_catchup_sequence c Hd) as (? & ? & ?).
  pose proof (zlen_signals_todo c Hd) as Hz.
  change SIGNALS_PER_MESSAGE with 49 in Hcount.
  assert (Hr : in_range (snapshot_signals c) (take (Z.to_nat count) (signals_todo c)))
    by (apply Forall_take, signals_todo_range, Hd).
  rewrite apply_signals_message; [|done..| |done].
  2: { apply signal_delta_ok; [done|apply do_signals, Hd|done|].
       rewrite zlen_take by lia. unfold UINT16_MAX. lia. }
  rewrite (signals_todo_advance c count) in Hs by lia.
  pose proof (synced_apply_signals _ _ _ _ Hr Hs) as Hs'.
  split_and!; done.
Qed.

(** ** The loop *)

Context (R0 : replica) (base : nat).

(** The catch-up is under way. *)
Definition chasing s : Prop :=
  ctx_ok s /\ (base <= length (stream s))%nat /\ greeted (cl s) <> 0
  /\ catchup_active (cl s) <> 0 /\ following (replica_of R0 base s) (cl s).

(** It has ended with SUBSCRIBED. *)
Definition caught_up s : Prop :=
  catchup_active (cl s) = 0 /\ subscribed (cl s) = 1 /\ setup_deadline_ns (cl s) = 0
  /\ agrees (replica_of R0 base s) (sv s).

Definition sending (c : roadcast_client_t) : bool :=
  (catchup_frame_offset c <? catchup_frame_count c)
  || (catchup_signal_offset c <? catchup_signal_count c).

(** A message takes a free slot, and a new round is followed by a message. *)
Definition measure s : Z := 2 * free s + (if sending (cl s) then 0 else 1).

Definition grows s s' : Prop := exists ms, stream s' = stream s ++ ms.

(** Catch-up messages are not droppable: they never demand a resynchronization. *)
Definition keeps_sync s s' : Prop := needs_resync (cl s') = needs_resync (cl s).

Definition body_post s (r : option Z) s' : Prop :=
  local_step s s' /\ grows s s' /\ keeps_sync s s'
  /\ match r with
     | Some x => x = -1 /\ write_fails s s'
     | None => (chasing s' /\ measure s' < measure s) \/ caught_up s'
     end.

(** The client may be sent a message; a refusal is then a failed write. *)
Definition can_send s : Prop := active (cl s) <> 0 /\ room s CLIENT_MESSAGE_CAP.

Lemma can_send_fails s s' : can_send s -> cannot_send s s' -> write_fails s s'.
Proof. intros [H1 H2] [H|[H|H]]; done. Qed.

Lemma grows_refl s s' : stream s' = stream s -> grows s s'.
Proof. intros H. exists []. by rewrite app_nil_r. Qed.

Lemma grows_snoc s s' m : stream s' = stream s ++ [m] -> grows s s'.
Proof. intros H. by exists [m]. Qed.

Lemma grows_trans s1 s2 s3 : grows s1 s2 -> grows s2 s3 -> grows s1 s3.
Proof. intros [m1 H1] [m2 H2]. exists (m1 ++ m2). by rewrite H2, H1, (assoc_L (++)). Qed.

Lemma length_stream_grows s s' : grows s s' -> (length (stream s) <= length (stream s'))%nat.
Proof. intros [ms ->]. rewrite length_app. lia. Qed.

Lemma catchup_send_frames_wp s :
  chasing s -> can_send s -> catchup_frame_offset (cl s) < catchup_frame_count (cl s) ->
  wp catchup_send_frames (body_post s) s.
Proof.
  intros (Hok & Hbase & Hg & Hca & Hfol) Hcan Hlt. unfold catchup_send_frames.
  destruct s as [id c v w]. wp_steps. set (s := mk_ctx id c v w) in *. cbn [s cl] in Hlt, Hg, Hca.
  pose proof Hok as [_ Hd]. cbn [s cl] in Hd, Hfol.
  set (count := Z.min _ _).
  pose proof (zlen_frames_todo c Hd) as Hz.
  destruct (encode_frame_delta (catchup_sample_sequence c) (snapshot_frames c) (frames_todo c) count)
    as [Henc Hsz]; [apply do_frames, Hd|by apply frames_todo_range|by rewrite Hz|].
  apply (wp_enc_ok _ _ _ _ Henc). destruct (filled_take _ Hsz) as [Hfl Hft].
  cbn [filled fst snd] in Hfl, Hft. cbn [filled]. wp_steps.
  apply reply_wp; [done|done|done| |].
  { intros s1 Hl1 Hf1 Hst1 Hno. wp_steps.
    split_and!; [done|by apply grows_refl|unfold keeps_sync; by rewrite Hf1|lia|by apply can_send_fails]. }
  rewrite Hft. intros s1 Hl1 Hf1 Hst1 _ Hfree. cbn [Z.ltb Z.compare].
  pose proof (grows_snoc _ _ _ Hst1) as Hgr. pose proof (length_stream_grows _ _ Hgr) as Hls.
  pose proof (following_send_frames _ c count Hd Hfol eq_refl Hsz) as Hfol'.
  rewrite <- (replica_of_snoc R0 base s s1) in Hfol' by done.
  destruct s1 as [id1 c1 v1 w1]. pose proof Hl1 as (E1 & E2 & Hoth & Hok1 & Hin1 & Hfw1).
  cbn in E1, E2, Hf1, Hfree. subst id1 v1. wp_steps.
  pose proof (do_frame_offset c Hd) as Hoff. change FRAMES_PER_MESSAGE with 71 in *.
  assert (Hcount : 0 < count) by lia.
  set (s2 := mk_ctx id _ v w1).
  assert (Hfree2 : free s2 = free s - 1) by (unfold s2, free in *; cbn in *; done).
  assert (Hok2 : ctx_ok s2).
  { destruct Hok1 as [Hq1 Hd1]. split; [exact Hq1|]. cbn. rewrite Hf1. data_ok_tac Hd. }
  assert (Hfol2 : following (replica_of R0 base s2) (cl s2)).
  { revert Hfol'. cbn. rewrite Hf1. by apply following_same_data. }
  assert (Hms : measure s2 < measure s).
  { unfold measure. rewrite Hfree2. unfold sending at 2. cbn [s cl].
    destruct (Z.ltb_spec (catchup_frame_offset c) (catchup_frame_count c)); [|lia]. cbn [orb].
    destruct (sending (cl s2)); lia. }
  split_and!; [done|done|unfold keeps_sync; cbn; by rewrite Hf1|].
  left. split; [|done]. split_and!; try done.
  - exact (Nat.le_trans _ _ _ Hbase Hls).
  - cbn. by rewrite Hf1.
  - cbn. by rewrite Hf1.
Qed.

Lemma catchup_send_signals_wp s :
  chasing s -> can_send s -> catchup_signal_offset (cl s) < catchup_signal_count (cl s) ->
  wp catchup_send_signals (body_post s) s.
Proof.
  intros (Hok & Hbase & Hg & Hca & Hfol) Hcan Hlt. unfold catchup_send_signals.
  destruct s as [id c v w]. wp_steps. set (s := mk_ctx id c v w) in *. cbn [s cl] in Hlt, Hg, Hca.
  pose proof Hok as [_ Hd]. cbn [s cl] in Hd, Hfol.
  set (count := Z.min _ _).
  pose proof (zlen_signals_todo c Hd) as Hz.
  destruct (encode_signal_delta (catchup_sample_sequence c) (snapshot_signals c)
    (signals_todo c) count)
    as [Henc Hsz]; [apply do_signals, Hd|by apply signals_todo_range|by rewrite Hz|].
  apply (wp_enc_ok _ _ _ _ Henc). destruct (filled_take _ Hsz) as [Hfl Hft].
  cbn [filled fst snd] in Hfl, Hft. cbn [filled]. wp_steps.
  apply reply_wp; [done|done|done| |].
  { intros s1 Hl1 Hf1 Hst1 Hno. wp_steps.
    split_and!; [done|by apply grows_refl|unfold keeps_sync; by rewrite Hf1|lia|by apply can_send_fails]. }
  rewrite Hft. intros s1 Hl1 Hf1 Hst1 _ Hfree. cbn [Z.ltb Z.compare].
  pose proof (grows_snoc _ _ _ Hst1) as Hgr. pose proof (length_stream_grows _ _ Hgr) as Hls.
  pose proof (following_send_signals _ c count Hd Hfol eq_refl Hsz) as Hfol'.
  rewrite <- (replica_of_snoc R0 base s s1) in Hfol' by done.
  destruct s1 as [id1 c1 v1 w1]. pose proof Hl1 as (E1 & E2 & Hoth & Hok1 & Hin1 & Hfw1).
  cbn in E1, E2, Hf1, Hfree. subst id1 v1. wp_steps.
  pose proof (do_signal_offset c Hd) as Hoff. change SIGNALS_PER_MESSAGE with 49 in *.
  assert (Hcount : 0 < count) by lia.
  set (s2 := mk_ctx id _ v w1).
  assert (Hfree2 : free s2 = free s - 1) by (unfold s2, free in *; cbn in *; done).
  assert (Hok2 : ctx_ok s2).
  { destruct Hok1 as [Hq1 Hd1]. split; [exact Hq1|]. cbn. rewrite Hf1. data_ok_tac Hd. }
  assert (Hfol2 : following (replica_of R0 base s2) (cl s2)).
  { revert Hfol'. cbn. rewrite Hf1. by apply following_same_data. }
  assert (Hms : measure s2 < measure s).
  { unfold measure. rewrite Hfree2. unfold sending at 2. cbn [s cl].
    destruct (Z.ltb_spec (catchup_signal_offset c) (catchup_signal_count c)); [|lia].
    rewrite orb_true_r. destruct (sending (cl s2)); lia. }
  split_and!; [done|done|unfold keeps_sync; cbn; by rewrite Hf1|].
  left. split; [|done]. split_and!; try done.
  - exact (Nat.le_trans _ _ _ Hbase Hls).
  - cbn. by rewrite Hf1.
  - cbn. by rewrite Hf1.
Qed.

(** The client at the start of a round. *)
Definition round_begun (v : roadcast_server_t) (c : roadcast_client_t) : roadcast_client_t :=
  let fi := changed_indices frame_differs 0 (sv_frames v) (snapshot_frames c) in
  let si := changed_indices signal_differs 0 (sv_signals v) (snapshot_signals c) in
  c <| catchup_frame_offset := 0 |> <| catchup_frame_indices := fi |>
    <| catchup_frame_count := zlen fi |>
    <| catchup_signal_offset := 0 |> <| catchup_signal_indices := si |>
    <| catchup_signal_count := zlen si |>
    <| snapshot_frames := sv_frames v |> <| snapshot_signals := sv_signals v |>
    <| catchup_sample_sequence := sample_sequence v |>
    <| catchup_change_sequence := change_sequence v |>
    <| catchup_timestamp_ns := sample_timestamp_ns v |>.

Lemma round_begun_ok v c : server_ok v -> data_ok c -> data_ok (round_begun v c).
Proof.
  intros (_ & [Hl1 Hf1] & Hids & [Hl2 Hf2] & ? & ? & ? & _) Hd.
  destruct (do_frames c Hd) as [Hl3 _]. destruct (do_signals c Hd) as [Hl4 _].
  pose proof (changed_indices_range frame_differs (sv_frames v) (snapshot_frames c)
    ltac:(unfold zlen in *; lia)) as R1. rewrite Hl1 in R1.
  pose proof (changed_indices_range signal_differs (sv_signals v) (snapshot_signals c)
    ltac:(unfold zlen in *; lia)) as R2. rewrite Hl2 in R2.
  pose proof (zlen_nonneg (changed_indices frame_differs 0 (sv_frames v) (snapshot_frames c))).
  pose proof (zlen_nonneg (changed_indices signal_differs 0 (sv_signals v) (snapshot_signals c))).
  destruct Hd. by constructor.
Qed.

(** A replica that agrees with the old snapshot follows the new round. *)
Lemma round_begun_following R v c :
  server_ok v -> data_ok c -> following R c -> sending c = false ->
  following R (round_begun v c).
Proof.
  intros (_ & [Hl1 _] & Hids & [Hl2 _] & _) Hd (Hi1 & Hi2 & Hf & Hs) Hsend.
  destruct (do_frames c Hd) as [Hl3 _]. destruct (do_signals c Hd) as [Hl4 _].
  pose proof (zlen_frames_todo c Hd) as Hz1. pose proof (zlen_signals_todo c Hd) as Hz2.
  pose proof (do_frame_offset c Hd). pose proof (do_signal_offset c Hd).
  unfold sending in Hsend. split_bools.
  assert (frames_todo c = []) as E1 by (apply length_zero_iff_nil; unfold zlen in *; lia).
  assert (signals_todo c = []) as E2 by (apply length_zero_iff_nil; unfold zlen in *; lia).
  rewrite E1 in Hf. rewrite E2 in Hs. split_and!; try done.
  - apply synced_next_round; [apply frame_differs_trans|done|]. cbn. unfold zlen in *. lia.
  - apply synced_next_round; [apply signal_differs_trans|done|]. cbn. unfold zlen in *. lia.
Qed.

Lemma begin_catchup_round_wp (Q : unit -> ctx W -> Prop) s :
  Q tt (s <| cl := round_begun (sv s) (cl s) |>) -> wp begin_catchup_round Q s.
Proof.
  destruct s as [id c v w]. intros HQ. unfold begin_catchup_round. wp_steps. exact HQ.
Qed.

Lemma synced_nil_agrees R v c :
  following R (round_begun v c) -> sending (round_begun v c) = false -> agrees R v.
Proof.
  intros (_ & Hi & Hf & Hs) Hsend. unfold sending, round_begun in Hsend. cbn in Hsend.
  apply orb_false_iff in Hsend as [H1 H2]. apply Z.ltb_ge in H1, H2.
  unfold frames_todo, signals_todo, round_begun in Hf, Hs. cbn in Hf, Hs.
  set (fi := changed_indices frame_differs _ _ _) in *.
  set (si := changed_indices signal_differs _ _ _) in *.
  assert (fi = []) as E1 by (apply length_zero_iff_nil; unfold zlen in *; lia).
  assert (si = []) as E2 by (apply length_zero_iff_nil; unfold zlen in *; lia).
  rewrite E1 in Hf. rewrite E2 in Hs. by split_and!.
Qed.

Lemma sending_counts v c :
  sending (round_begun v c)
  = negb (catchup_frame_count (round_begun v c) =? 0)
    || negb (catchup_signal_count (round_begun v c) =? 0).
Proof.
  unfold sending, round_begun. cbn.
  set (fi := changed_indices frame_differs _ _ _). set (si := changed_indices signal_differs _ _ _).
  pose proof (zlen_nonneg fi). pose proof (zlen_nonneg si).
  destruct (Z.ltb_spec 0 (zlen fi)), (Z.eqb_spec (zlen fi) 0),
    (Z.ltb_spec 0 (zlen si)), (Z.eqb_spec (zlen si) 0); try done; lia.
Qed.

Lemma data_ok_subscribed c :
  data_ok c -> greeted c <> 0 ->
  data_ok (c <| catchup_active := 0 |> <| subscribed := 1 |> <| setup_deadline_ns := 0 |>).
Proof. intros Hd Hg. data_ok_tac Hd. tauto. Qed.

Lemma catchup_next_round_wp s :
  chasing s -> can_send s -> sending (cl s) = false -> wp catchup_next_round (body_post s) s.
Proof.
  intros (Hok & Hbase & Hg & Hca & Hfol) Hcan Hsend. unfold catchup_next_round. apply wp_bind.
  apply begin_catchup_round_wp. destruct s as [id c v w].
  set (s := mk_ctx id c v w) in *. cbn [s cl sv] in *.
  change (s <| cl := round_begun v c |>) with (mk_ctx id (round_begun v c) v w).
  set (s1 := mk_ctx id (round_begun v c) v w). wp_steps.
  pose proof Hok as [[Hsv Hq] Hd]. cbn [s cl sv] in Hsv, Hq, Hd.
  pose proof (round_begun_ok v c Hsv Hd) as Hd1.
  pose proof (round_begun_following _ v c Hsv Hd Hfol Hsend) as Hfol1.
  assert (Hl1 : local_step s s1) by (by split_and!).
  rewrite <- sending_counts. destruct (sending (round_begun v c)) eqn:Hcounts; wp_steps.
  { split_and!; [done|by apply grows_refl|done|]. left. split.
    - by split_and!.
    - unfold measure. cbn [s s1 cl]. rewrite Hsend, Hcounts.
      change (free (mk_ctx id (round_begun v c) v w)) with (free s). lia. }
  apply reply_wp; [apply Hl1|done|done| |].
  { intros s2 Hl2 Hf2 Hst2 Hno. wp_steps.
    split_and!; [exact (local_step_trans _ _ _ Hl1 Hl2)|by apply grows_refl| |lia|].
    { unfold keeps_sync. by rewrite Hf2. }
    exact (can_send_fails s s2 Hcan Hno). }
  intros s2 Hl2 Hf2 Hst2 _ _. cbn [Z.ltb Z.compare].
  assert (Hr : replica_of R0 base s2 = replica_of R0 base s1).
  { rewrite (replica_of_snoc R0 base s1 s2 _) with (2 := Hst2) by exact Hbase.
    destruct Hsv as (_ & _ & _ & _ & _ & ? & ? & _).
    by apply apply_other_message. }
  destruct s2 as [id2 c2 v2 w2]. pose proof Hl2 as (E1 & E2 & Hoth & Hok2 & Hin2 & Hfw2).
  cbn in E1, E2. subst id2 v2. change (cl s1) with (round_begun v c) in Hf2. cbn [cl] in Hf2.
  wp_steps. split_and!.
  - eapply local_step_trans; [exact Hl1|]. eapply local_step_trans; [exact Hl2|].
    split_and!; try done. destruct Hok2 as [Hq2 Hd2]. split; [exact Hq2|].
    apply data_ok_subscribed; [exact Hd2|]. by rewrite Hf2.
  - by eapply grows_snoc.
  - unfold keeps_sync. cbn. by rewrite Hf2.
  - right. split_and!; try done.
    change (replica_of R0 base (mk_ctx id (c2 <| catchup_active := 0 |> <| subscribed := 1 |>
      <| setup_deadline_ns := 0 |>) v w2)) with (replica_of R0 base (mk_ctx id c2 v w2)).
    rewrite Hr. cbn [sv]. change (replica_of R0 base s1) with (replica_of R0 base s).
    by apply synced_nil_agrees with c.
Qed.

Lemma catchup_body_wp s : chasing s -> can_send s -> wp catchup_body (body_post s) s.
Proof.
  intros Hch Hcan. unfold catchup_body. destruct s as [id c v w]. wp_steps.
  set (s := mk_ctx id c v w) in *.
  destruct (Z.ltb_spec (catchup_frame_offset c) (catchup_frame_count c)) as [|H1].
  { by apply catchup_send_frames_wp. }
  destruct (Z.ltb_spec (catchup_signal_offset c) (catchup_signal_count c)) as [|H2].
  { by apply catchup_send_signals_wp. }
  apply catchup_next_round_wp; [done..|]. unfold sending, s. cbn [cl].
  by rewrite (proj2 (Z.ltb_ge _ _) H1), (proj2 (Z.ltb_ge _ _) H2).
Qed.

(** The catch-up is under way and waits for output capacity. *)
Definition stalled s : Prop :=
  chasing s /\ (active (cl s) = 0 \/ ~ room s CLIENT_MESSAGE_CAP).

(** What the loop and its callers promise. *)
Definition loop_post s (r : option Z) s' : Prop :=
  local_step s s' /\ grows s s' /\ keeps_sync s s'
  /\ match r with
     | Some x => x = -1 /\ write_fails s s'
     | None => stalled s' \/ caught_up s'
     end.

Lemma catchup_stops_wp fuel s :
  ctx_ok s -> catchup_active (cl s) = 0 ->
  wp (catchup_loop (S fuel)) (fun r s' => r = None /\ s' = s) s.
Proof.
  intros Hok Hca. cbn [catchup_loop]. apply wp_bind. unfold catchup_continues.
  destruct s as [id c v w]. cbn in Hca. wp_steps. rewrite Hca, orb_true_r. wp_steps. done.
Qed.

Lemma catchup_loop_wp fuel : forall s,
  chasing s -> measure s + 1 <= Z.of_nat fuel -> wp (catchup_loop fuel) (loop_post s) s.
Proof.
  induction fuel as [|fuel IH]; intros s Hch Hm.
  { pose proof Hch as ([Hq _] & _). unfold measure, free in Hm.
    destruct Hq as [[Hsl _] [Hl _]].
    pose proof (free_slots_range (client_queue_slots (sv s)) (output (cl s))).
    destruct (sending (cl s)); lia. }
  cbn [catchup_loop]. apply wp_bind. unfold catchup_continues.
  pose proof Hch as (Hok & _ & _ & Hca & _).
  destruct s as [id c v w]. wp_steps. set (s := mk_ctx id c v w) in *. cbn [s cl] in Hca.
  assert (Hexit : active c = 0 \/ ~ room s CLIENT_MESSAGE_CAP -> loop_post s None s).
  { intros Hst. split_and!; [done|by apply grows_refl|done|by left]. }
  destruct (Z.eqb_spec (active c) 0); cbn [orb]; [wp_steps; auto|].
  destruct (Z.eqb_spec (catchup_active c) 0); [done|].
  apply client_has_output_capacity_wp; [apply Hok|]. intros b Hb.
  destruct b; [|wp_steps; auto]. pose proof Hb as [Hfree _].
  apply wp_bind. eapply wp_mono; [by apply catchup_body_wp|].
  intros r s1 (Hl1 & Hg1 & Hk1 & Hr). destruct r as [x|]; [by wp_steps|].
  destruct Hr as [[Hch1 Hm1]|Hdone].
  - eapply wp_mono; [apply IH; [done|lia]|]. intros r2 s2 (Hl2 & Hg2 & Hk2 & Hr2).
    split_and!; [by eapply local_step_trans|by eapply grows_trans|exact (eq_trans Hk2 Hk1)|].
    destruct r2 as [x|]; [|done]. destruct Hr2 as [-> Hw]. split; [done|].
    destruct Hl1 as (_ & _ & _ & _ & _ & Hfw). unfold write_fails in *. lia.
  - destruct fuel as [|fuel].
    { unfold measure in Hm. destruct (sending (cl s)); lia. }
    eapply wp_mono; [apply catchup_stops_wp; [apply Hl1|apply Hdone]|].
    intros r2 s2 [-> ->]. split_and!; [done|done|done|by right].
Qed.

(** The fuel of the model covers every start of the loop. *)
Lemma catchup_fuel_enough s : ctx_ok s -> measure s + 1 <= Z.of_nat catchup_fuel.
Proof.
  intros [[[Hsl _] [Hl _]] _]. pose proof queue_slots_bound.
  pose proof (free_slots_range (client_queue_slots (sv s)) (output (cl s))).
  unfold measure, free, catchup_fuel. destruct (sending (cl s)); lia.
Qed.

(** What a run of the catch-up promises to its caller. *)
Definition drive_post s (r : Z) s' : Prop :=
  local_step s s' /\ grows s s' /\ keeps_sync s s'
  /\ ((r = -1 /\ write_fails s s') \/ (r = 0 /\ (stalled s' \/ caught_up s'))).

Lemma drive_post_range s r s' : drive_post s r s' -> -1 <= r <= 0.
Proof. intros (_ & _ & _ & [[-> _]|[-> _]]); lia. Qed.

(** The flags that only steer the log line. *)
Definition same_but_flags (c c' : roadcast_client_t) : Prop :=
  c' = c <| catchup_waiting_for_capacity := catchup_waiting_for_capacity c' |>
         <| catchup_resumption_reported := catchup_resumption_reported c' |>.

Lemma flags_step id c c' v (w : W) :
  same_but_flags c c' -> ctx_ok (mk_ctx id c v w) ->
  local_step (mk_ctx id c v w) (mk_ctx id c' v w).
Proof.
  intros -> [Hq Hd]. split_and!; try done. split; [exact Hq|]. data_ok_tac Hd.
Qed.

Lemma flags_chasing id c c' v (w : W) :
  same_but_flags c c' -> chasing (mk_ctx id c v w) -> chasing (mk_ctx id c' v w).
Proof.
  intros Hs (Hok & Hb & Hg & Hca & Hf). destruct (flags_step id c c' v w Hs Hok) as (_ & _ & _ & Hok' & _).
  rewrite Hs in *. split_and!; try done.
Qed.

Lemma flags_stalled id c c' v (w : W) :
  same_but_flags c c' -> stalled (mk_ctx id c v w) -> stalled (mk_ctx id c' v w).
Proof.
  intros Hs [Hch Hst]. split; [by eapply flags_chasing|]. rewrite Hs. exact Hst.
Qed.

Lemma flags_caught_up id c c' v (w : W) :
  same_but_flags c c' -> caught_up (mk_ctx id c v w) -> caught_up (mk_ctx id c' v w).
Proof. intros ->. done. Qed.

Lemma drive_subscription_catchup_wp s :
  chasing s -> wp drive_subscription_catchup (drive_post s) s.
Proof.
  intros Hch. unfold drive_subscription_catchup. destruct s as [id c v w]. wp_steps.
  set (s := mk_ctx id c v w) in *. pose proof Hch as (Hok & _).
  apply wp_mono with (P := fun _ s1 => exists c1, s1 = mk_ctx id c1 v w /\ same_but_flags c c1).
  { assert (Hsame : exists c1, s = mk_ctx id c1 v w /\ same_but_flags c c1)
      by (exists c; split; [done|by destruct c]).
    destruct (negb _); [|by wp_steps]. apply wp_bind.
    apply client_has_output_capacity_wp; [apply Hok|]. intros b _. destruct b; [|by wp_steps].
    wp_steps. destruct (catchup_resumption_reported _ =? 0); wp_steps; eexists; split; try reflexivity. }
  intros [] s1 (c1 & -> & Hs1). cbv beta. apply wp_bind.
  pose proof (flags_step id c c1 v w Hs1 Hok) as Hl1.
  pose proof (flags_chasing id c c1 v w Hs1 Hch) as Hch1.
  eapply wp_mono; [apply catchup_loop_wp; [done|by apply catchup_fuel_enough, Hl1]|].
  intros r s2 (Hl2 & Hg2 & Hk2 & Hr). pose proof (local_step_trans _ _ _ Hl1 Hl2) as Hl12.
  assert (Hk12 : keeps_sync s s2) by (unfold keeps_sync; rewrite Hk2; cbn; by rewrite Hs1).
  destruct r as [x|].
  { wp_steps. split_and!; try done. left. exact Hr. }
  destruct s2 as [id2 c2 v2 w2]. pose proof Hl2 as (E1 & E2 & _ & Hok2 & _). cbn in E1, E2.
  subst id2 v2. set (s2 := mk_ctx id c2 v w2) in *. wp_steps.
  apply wp_mono with (P := fun _ s3 => exists c3, s3 = mk_ctx id c3 v w2 /\ same_but_flags c2 c3).
  { assert (Hsame : exists c3, s2 = mk_ctx id c3 v w2 /\ same_but_flags c2 c3)
      by (exists c2; split; [done|by destruct c2]).
    destruct (_ && _); [|by wp_steps]. apply wp_bind.
    apply client_has_output_capacity_wp; [apply Hok2|]. intros b _.
    destruct b; [by wp_steps|]. wp_steps. eexists. split; reflexivity. }
  intros [] s3 (c3 & -> & Hs3). wp_steps.
  split_and!; try done.
  - eapply local_step_trans; [exact Hl12|]. by apply flags_step.
  - unfold keeps_sync in *. cbn. by rewrite Hs3.
  - right. split; [done|].
    destruct Hr as [Hr|Hr]; [left; by eapply flags_stalled|right; by eapply flags_caught_up].
Qed.

(** A subscription starts from a replica that agrees with the client's snapshot. *)
Definition at_snapshot s : Prop :=
  ctx_ok s /\ (base <= length (stream s))%nat /\ greeted (cl s) <> 0
  /\ let R := replica_of R0 base s in
     map can_id (snapshot_frames (cl s)) = CAN_IDS /\ map can_id (rep_frames R) = CAN_IDS
     /\ synced frame_differs [] (rep_frames R) (snapshot_frames (cl s))
     /\ synced signal_differs [] (rep_signals R) (snapshot_signals (cl s)).

Lemma queue_subscription_catchup_wp s :
  at_snapshot s -> wp queue_subscription_catchup (drive_post s) s.
Proof.
  intros (Hok & Hb & Hg & Hi1 & Hi2 & Hf & Hs). unfold queue_subscription_catchup.
  destruct s as [id c v w]. apply wp_bind, wp_modc. apply wp_bind, begin_catchup_round_wp.
  set (s := mk_ctx id c v w) in *. cbn [s cl] in *.
  set (c0 := c <| catchup_active := 1 |>).
  change ((mk_ctx id c0 v w) <| cl := round_begun v c0 |>) with (mk_ctx id (round_begun v c0) v w).
  pose proof Hok as [[Hsv Hq] Hd]. cbn in Hsv, Hq, Hd.
  assert (Hd0 : data_ok c0) by (data_ok_tac Hd).
  pose proof (round_begun_ok v c0 Hsv Hd0) as Hd1.
  set (s1 := mk_ctx id (round_begun v c0) v w) in *.
  assert (Hok1 : ctx_ok s1) by (split; [split; [exact Hsv|exact Hq]|done]).
  assert (Hl1 : local_step s s1) by (split_and!; done).
  eapply wp_mono.
  { apply drive_subscription_catchup_wp. split_and!; try done.
    destruct Hsv as (_ & [Hl3 _] & Hids & [Hl4 _] & _).
    destruct (do_frames c Hd) as [Hl5 _]. destruct (do_signals c Hd) as [Hl6 _].
    split_and!; try done.
    - apply (synced_next_round frame_differs _ (snapshot_frames c) (sv_frames v));
        [apply frame_differs_trans|done|unfold zlen in *; lia].
    - apply (synced_next_round signal_differs _ (snapshot_signals c) (sv_signals v));
        [apply signal_differs_trans|done|unfold zlen in *; lia]. }
  intros r s2 (Hl2 & Hg2 & Hk2 & Hr). split_and!; done.
Qed.
End Catchup.
