(* ===== verification/ServerInput.v ===== *)
(** * Commands, write callbacks and input framing of a client

    [process_command] answers or refuses every command; [process_client_input]
    cuts the byte stream into the same messages however it is delivered. *)

From S2P Require Import Prelude Wire CatalogDefs Catalog SourceSession Sampler ServerDefs.
From S2P Require Import ServerOps ServerQueue ServerClient Replica ServerCatchup.

Section Input.
Context `{HC : CatalogOk} {W : Type} `{K : !Clock W} `{U : !Uv W} `{HU : !UvOk U K}.
Implicit Types s : ctx W.

(** A handler that touches only its client and adds to its stream; it may close
    the connection. *)
Definition progress s s' : Prop :=
  (cid s' = cid s /\ sv s' = sv s /\ others s s' /\ ctx_ok s'
   /\ input (cl s') = input (cl s) /\ input_length (cl s') = input_length (cl s)
   /\ same_owner (cl s) (cl s'))
  /\ grows s s'.

(** One that does not close it. *)
Definition commanded s s' : Prop := local_step s s' /\ grows s s'.

Lemma commanded_progress s s' : commanded s s' -> progress s s'.
Proof.
  intros [(? & ? & ? & ? & Hc & _) ?]. pose proof (same_conn_owner _ _ Hc).
  destruct Hc as (? & ? & _). split; [split_and!|]; done.
Qed.

Lemma commanded_refl s : ctx_ok s -> commanded s s.
Proof. intros H. split; [by apply local_step_refl|by apply grows_refl]. Qed.

Lemma commanded_trans s1 s2 s3 : commanded s1 s2 -> commanded s2 s3 -> commanded s1 s3.
Proof.
  intros [H1 H2] [H3 H4]. split; [by eapply local_step_trans|by eapply grows_trans].
Qed.

Lemma progress_refl s : ctx_ok s -> progress s s.
Proof. intros H. by apply commanded_progress, commanded_refl. Qed.

Lemma progress_trans s1 s2 s3 : progress s1 s2 -> progress s2 s3 -> progress s1 s3.
Proof.
  intros [(E1 & E2 & H3 & _ & E3 & E4 & O1) G1] [(E5 & E6 & H6 & H7 & E7 & E8 & O2) G2].
  split; [|by eapply grows_trans]. split_and!; try congruence.
  - intros c Hc. rewrite H6 by congruence. by apply H3.
  - by eapply same_owner_trans.
Qed.

Lemma hang_up_wp s :
  ctx_ok s ->
  wp client_close (fun _ s' => progress s s' /\ failed_writes s' = failed_writes s
    /\ (closing (cl s) = 0 -> active (cl s') = 0)) s.
Proof.
  intros Hok. unfold client_close. destruct s as [id c v w]. wp_steps.
  destruct (Z.eqb_spec (active c) 0), (Z.eqb_spec (closing c) 0); cbn [orb negb]; wp_steps.
  1, 2, 4: split_and!; [by apply progress_refl|done|done].
  assert (Hsent : forall i, sent (uv_close id (uv_read_stop id w)) i = sent w i)
    by (intros i; by rewrite sent_close, sent_read_stop).
  assert (Hfw : failures (uv_close id (uv_read_stop id w)) id = failures w id)
    by (by rewrite failures_close, failures_read_stop).
  destruct Hok as [Hq Hd]. split_and!; [|exact Hfw|done]. split; [|by apply grows_refl, Hsent].
  split_and!; try done; [intros ? _; apply Hsent|].
  split; [exact Hq|]. data_ok_tac Hd.
Qed.

Lemma close_progress_wp s : ctx_ok s -> wp client_close (fun _ s' => progress s s') s.
Proof. intros Hok. eapply wp_mono; [by apply hang_up_wp|]. by intros ? s' [? _]. Qed.

(** ** Catch-up without a replica at hand *)

Lemma drive_progress_wp s :
  ctx_ok s -> greeted (cl s) <> 0 -> catchup_active (cl s) <> 0 ->
  wp drive_subscription_catchup (fun r s' => commanded s s' /\ -1 <= r <= 0) s.
Proof.
  intros Hok Hg Hca. pose proof Hok as [_ Hd].
  set (R := mk_replica (snapshot_frames (cl s)) (snapshot_signals (cl s))).
  assert (Hids : map can_id (snapshot_frames (cl s)) = CAN_IDS) by (apply (do_ids _ Hd); auto).
  eapply wp_mono; [apply (drive_subscription_catchup_wp R (length (stream s)))|].
  - split_and!; try done. unfold replica_of. rewrite drop_ge by lia. cbn [fold_left].
    split_and!; auto with roadcast.
  - intros r s' Hp. pose proof (drive_post_range _ _ _ _ _ Hp). by destruct Hp as (? & ? & _).
Qed.

Lemma subscribe_progress_wp s :
  ctx_ok s -> greeted (cl s) <> 0 -> snapshot_complete (cl s) <> 0 ->
  wp queue_subscription_catchup (fun r s' => commanded s s' /\ -1 <= r <= 0) s.
Proof.
  intros Hok Hg Hsc. pose proof Hok as [_ Hd].
  set (R := mk_replica (snapshot_frames (cl s)) (snapshot_signals (cl s))).
  assert (Hids : map can_id (snapshot_frames (cl s)) = CAN_IDS) by (apply (do_ids _ Hd); auto).
  eapply wp_mono; [apply (queue_subscription_catchup_wp R (length (stream s)))|].
  - unfold at_snapshot, replica_of. rewrite drop_ge by lia. cbn [fold_left].
    split_and!; auto with roadcast.
  - intros r s' Hp. pose proof (drive_post_range _ _ _ _ _ Hp). by destruct Hp as (? & ? & _).
Qed.

(** A reply, when only progress matters. *)
Lemma reply_progress_wp t q ts payload len s :
  ctx_ok s -> 0 <= len <= zlen payload -> len <= PAYLOAD_CAP ->
  wp (client_queue_message t q ts payload len 0)
    (fun r s' => commanded s s' /\ -1 <= r <= 0 /\ queue_frame (cl s) (cl s')
       /\ (r < 0 -> stream s' = stream s)
       /\ (0 <= r -> stream s'
                     = stream s ++ [message_bytes t q ts (take (Z.to_nat len) payload)])) s.
Proof.
  intros Hok Hlen Hcap. apply reply_wp; [done..| |].
  - intros s' Hl Hf Hst _. split_and!; try done; try lia. split; [done|by apply grows_refl].
  - intros s' Hl Hf Hst _ _. split_and!; try done; try lia. split; [done|by eapply grows_snoc].
Qed.

(** ** Write callbacks *)

Lemma maybe_queue_resync_wp s :
  ctx_ok s -> wp maybe_queue_resync (fun _ s' => progress s s') s.
Proof.
  intros Hok. unfold maybe_queue_resync. destruct s as [id c v w]. wp_steps.
  destruct (_ || _ || _ || _ || _); wp_steps; [by apply progress_refl|].
  eapply wp_mono; [by apply reply_progress_wp|]. intros r s1 (Hp & Hr & _).
  apply commanded_progress in Hp. destruct (Z.ltb_spec r 0).
  - eapply wp_mono; [apply close_progress_wp, Hp|]. intros ? s2 Hp2. by eapply progress_trans.
  - destruct s1 as [id1 c1 v1 w1]. wp_steps. eapply progress_trans; [exact Hp|].
    destruct Hp as [(_ & _ & _ & [Hq Hd] & _) _]. split; [|by apply grows_refl].
    split_and!; try done. split; [exact Hq|]. data_ok_tac Hd.
Qed.

(** The callback of a completed or failed write frees its slot and returns its
    bytes to the budget; a slot in use is always covered by [pending_bytes]. *)
Definition freed (i : Z) (slot : output_slot_t) (c : roadcast_client_t) : roadcast_client_t :=
  c <| output := <[Z.to_nat i := mk_slot 0 0 (slot_data slot)]> (output c) |>
    <| pending_bytes := pending_bytes c - slot_length slot |>.

(** What the callback does once the slot is free. *)
Definition after_write (status : Z) : M W unit :=
  if status <? 0 then client_close
  else
    client ← getc;
    r ← (if negb (catchup_active client =? 0) then drive_subscription_catchup else mret 0);
    if r <? 0 then client_close else maybe_queue_resync.

Lemma on_client_write_frees i status slot (Q : unit -> ctx W -> Prop) id c v w :
  ctx_ok (mk_ctx id c v w) -> 0 <= i -> output c !! Z.to_nat i = Some slot -> in_use slot = 1 ->
  (ctx_ok (mk_ctx id (freed i slot c) v w) -> wp (after_write status) Q (mk_ctx id (freed i slot c) v w)) ->
  wp (on_client_write i status) Q (mk_ctx id c v w).
Proof.
  intros [[Hsv Hq] Hd] Hi Hslot Hu HQ. cbn [cl sv] in Hsv, Hq, Hd.
  pose proof Hq as (Hol & Hall & Hpb & Hpr).
  assert (Hso : slot_ok slot) by (by eapply Forall_lookup_1 in Hslot).
  assert (Hle : 0 <= slot_length slot <= pending_bytes c).
  { rewrite Hpb. split; [destruct Hso as [_ [[? ?]|[? ?]]]; unfold ROADCAST_HEADER_SIZE in *; lia|].
    eapply sumZ_lookup; [|exact Hslot]. revert Hall. apply Forall_impl.
    intros x [_ [[? ?]|[? ?]]]; unfold ROADCAST_HEADER_SIZE in *; lia. }
  unfold on_client_write. wp_steps.
  apply (wp_mem _ slot). { rewrite <- (Z2Nat.id i) by done. by apply rd_Some. }
  wp_steps. destruct (Z.leb_spec (slot_length slot) (pending_bytes c)); [|lia]. wp_steps.
  apply lookup_lt_Some in Hslot as Hlt.
  eapply wp_mem; [apply wr_ok; unfold zlen; lia|]. wp_steps.
  apply HQ. split; [split; [done|]|].
  - apply queue_ok_insert with (x := slot); try done; [|cbn; lia|cbn; lia].
    destruct Hso as [Hsd _]. split; [done|]. by left.
  - cbn. data_ok_tac Hd.
Qed.

Lemma freed_progress i slot id c v (w : W) :
  ctx_ok (mk_ctx id (freed i slot c) v w) ->
  progress (mk_ctx id c v w) (mk_ctx id (freed i slot c) v w).
Proof. intros Hok. split; [|by apply grows_refl]. split_and!; done. Qed.

Lemma after_write_wp status s :
  ctx_ok s -> wp (after_write status) (fun _ s' => progress s s') s.
Proof.
  intros Hok. unfold after_write. destruct (status <? 0); [by apply close_progress_wp|].
  apply wp_bind. destruct s as [id c v w]. apply wp_getc. apply wp_bind.
  set (s := mk_ctx id c v w) in *.
  apply wp_mono with (P := fun _ s2 => progress s s2).
  { destruct (Z.eqb_spec (catchup_active c) 0); cbn [negb].
    - wp_steps. by apply progress_refl.
    - eapply wp_mono; [apply drive_progress_wp; [done| |done]|intros ? ? []; by apply commanded_progress].
      cbn. intros Hg0. destruct Hok as [_ Hd]. destruct (do_greeted c Hd Hg0) as (_ & ? & _). congruence. }
  intros r s2 Hp2. destruct (r <? 0).
  - eapply wp_mono; [apply close_progress_wp, Hp2|]. intros ? s3 Hp3. by eapply progress_trans.
  - eapply wp_mono; [apply maybe_queue_resync_wp, Hp2|]. intros ? s3 Hp3. by eapply progress_trans.
Qed.

Lemma on_client_write_wp i status slot s :
  ctx_ok s -> 0 <= i -> output (cl s) !! Z.to_nat i = Some slot -> in_use slot = 1 ->
  wp (on_client_write i status) (fun _ s' => progress s s') s.
Proof.
  intros Hok Hi Hslot Hu. destruct s as [id c v w].
  apply on_client_write_frees with slot; [done..|]. intros Hok1.
  eapply wp_mono; [by apply after_write_wp|]. intros ? s' Hp.
  eapply progress_trans; [by apply freed_progress|done].
Qed.

(** ** Resuming a catch-up *)

Lemma no_resync_wp s :
  needs_resync (cl s) = 0 -> wp maybe_queue_resync (fun _ s' => s' = s) s.
Proof.
  intros Hn. unfold maybe_queue_resync. destruct s as [id c v w]. cbn in Hn. wp_steps.
  rewrite Hn, orb_true_r. by apply wp_ret.
Qed.

(** When a write completes, a catch-up that waited goes on where it stopped. *)
Lemma on_client_write_resumes i status slot R0 base s :
  chasing R0 base s -> needs_resync (cl s) = 0 -> 0 <= status ->
  0 <= i -> output (cl s) !! Z.to_nat i = Some slot -> in_use slot = 1 ->
  wp (on_client_write i status)
    (fun _ s' => progress s s' /\
       (stalled R0 base s' \/ caught_up R0 base s'
        \/ (write_fails s s' /\ (closing (cl s) = 0 -> active (cl s') = 0)))) s.
Proof.
  intros Hch Hn Hst Hi Hslot Hu. destruct s as [id c v w]. pose proof Hch as (Hok & Hb & Hg & Hca & Hf).
  apply on_client_write_frees with slot; [done..|]. intros Hok1. cbn [cl] in *.
  set (s1 := mk_ctx id (freed i slot c) v w) in *. pose proof (freed_progress _ _ _ _ _ _ Hok1) as Hp1.
  assert (Hch1 : chasing R0 base s1).
  { by split_and!. }
  unfold after_write. destruct (Z.ltb_spec status 0); [lia|]. apply wp_bind. unfold s1.
  apply wp_getc. change (catchup_active (freed i slot c)) with (catchup_active c).
  rewrite (proj2 (Z.eqb_neq _ _) Hca). cbn [negb]. apply wp_bind. fold s1.
  eapply wp_mono; [by apply drive_subscription_catchup_wp|].
  intros r s2 (Hl2 & Hg2 & Hk2 & Hr). assert (Hp2 : progress s1 s2) by (by apply commanded_progress).
  pose proof (progress_trans _ _ _ Hp1 Hp2) as Hp12.
  destruct Hr as [[-> Hw]|[-> Hr]]; cbn [Z.ltb Z.compare].
  - eapply wp_mono; [apply hang_up_wp, Hp2|]. intros ? s3 (Hp3 & Hfw & Hcl).
    split; [by eapply progress_trans|]. right; right. split.
    + change (write_fails s1 s3). unfold write_fails in *. by rewrite Hfw.
    + intros Hz. apply Hcl. destruct Hl2 as (_ & _ & _ & _ & (_ & _ & _ & Hc2 & _) & _). by rewrite Hc2.
  - eapply wp_mono; [apply no_resync_wp; unfold keeps_sync in Hk2; by rewrite Hk2|].
    intros ? s3 ->. split; [done|]. destruct Hr; auto.
Qed.

(** ** Commands *)

Definition welcome_message (v : roadcast_server_t) : list Z :=
  message_bytes ROADCAST_MSG_WELCOME (change_sequence v) (sample_timestamp_ns v)
    (welcome_bytes (mk_welcome (hz v) FRAME_COUNT SIGNAL_COUNT
       (CLIENT_INPUT_CAP - ROADCAST_HEADER_SIZE) (CLIENT_MESSAGE_CAP - ROADCAST_HEADER_SIZE)
       (Z.lor ROADCAST_CAP_RAW_CAN ROADCAST_CAP_DECODED_CAN) ROADCAST_SCHEMA_VERSION SCHEMA_HASH)).

(** The protocol, without queues and buffers: what a command of a client in state
    [c] is answered with, and the state it leaves. *)
Inductive answer :=
  | Reject
  | Reply (bytes : list Z) (after : roadcast_client_t)
  | Subscribe.

Definition indexed (c : roadcast_client_t) (payload : list Z) (k : Z -> answer) : answer :=
  if greeted c =? 0 then Reject
  else match roadcast_decode_index_request payload (zlen payload) with
       | Ok start_index => k start_index
       | _ => Reject
       end.

Definition answer_hello (v : roadcast_server_t) (c : roadcast_client_t) (payload : list Z)
  : answer :=
  match roadcast_decode_hello payload (zlen payload) with
  | Ok (min_version, max_version, _) =>
      if (greeted c =? 0) && (min_version <=? ROADCAST_PROTOCOL_VERSION)
         && (ROADCAST_PROTOCOL_VERSION <=? max_version)
      then Reply (welcome_message v) (c <| greeted := 1 |> <| hello_deadline_ns := 0 |>)
      else Reject
  | _ => Reject
  end.

Definition answer_frame_page (v : roadcast_server_t) (c : roadcast_client_t) (i : Z) : answer :=
  if frame_page_due c i then
    let c1 := if snapshot_active c =? 0 then begun v (setup_deadline_ns c) c else c in
    Reply (frame_page_message c1 i)
      (frame_page_sent (Z.min (FRAME_COUNT - i) FRAMES_PER_MESSAGE) c1)
  else Reject.

Definition answer_signal_page (c : roadcast_client_t) (i : Z) : answer :=
  if signal_page_due c i then
    Reply (signal_page_message c i)
      (signal_page_sent (Z.min (SIGNAL_COUNT - i) SIGNALS_PER_MESSAGE) c)
  else Reject.

Definition answer_schema_page (v : roadcast_server_t) (c : roadcast_client_t) (i : Z) : answer :=
  if i <? SIGNAL_COUNT then
    Reply (message_bytes ROADCAST_MSG_SCHEMA_CHUNK (change_sequence v) (sample_timestamp_ns v)
             (schema_chunk_bytes (schema_page PAYLOAD_CAP i))) c
  else Reject.

Definition answer_to (v : roadcast_server_t) (c : roadcast_client_t) (h : roadcast_header_t)
    (payload : list Z) : answer :=
  if negb (version h =? ROADCAST_PROTOCOL_VERSION) || negb (flags h =? 0) then Reject
  else if type h =? ROADCAST_MSG_HELLO then answer_hello v c payload
  else if type h =? ROADCAST_MSG_GET_SNAPSHOT then indexed c payload (answer_frame_page v c)
  else if type h =? ROADCAST_MSG_SUBSCRIBE_ALL then
    if negb (greeted c =? 0) && (zlen payload =? 0) && (needs_resync c =? 0)
       && negb (snapshot_complete c =? 0) then Subscribe else Reject
  else if type h =? ROADCAST_MSG_PING then
    if negb (greeted c =? 0) && (zlen payload =? 0) then
      Reply (message_bytes ROADCAST_MSG_PONG (change_sequence v) (sample_timestamp_ns v) []) c
    else Reject
  else if type h =? ROADCAST_MSG_GET_SCHEMA then indexed c payload (answer_schema_page v c)
  else if type h =? ROADCAST_MSG_GET_SIGNAL_SNAPSHOT then
    indexed c payload (answer_signal_page c)
  else Reject.

(** The state of the protocol is [c] up to the queue and the setup deadline. *)
Definition moved (c c' : roadcast_client_t) : Prop :=
  c' = c <| output := output c' |> <| pending_bytes := pending_bytes c' |>
         <| setup_deadline_ns := setup_deadline_ns c' |>.

(** A handler that gives the answer [a]: a rejected command changes nothing, an
    answer is sent unless the client cannot be sent to, and a subscription runs
    the catch-up. *)
Definition answered (a : answer) s (r : Z) s' : Prop :=
  commanded s s' /\ -1 <= r <= 0
  /\ match a with
     | Reject => r = -1 /\ s' = s
     | Reply m c => (r = 0 /\ stream s' = stream s ++ [m] /\ moved c (cl s'))
                    \/ (r = -1 /\ stream s' = stream s /\ cannot_send s s'
                        /\ greeted (cl s') = greeted (cl s))
     | Subscribe => forall R0 base, at_snapshot R0 base s -> drive_post R0 base s r s'
     end.

Lemma rejected_ok s : ctx_ok s -> answered Reject s (-1) s.
Proof. intros Hok. split_and!; [by apply commanded_refl|lia..|done]. Qed.

Lemma sent_ok m c s s' :
  local_step s s' -> stream s' = stream s ++ [m] -> moved c (cl s') ->
  answered (Reply m c) s 0 s'.
Proof.
  intros Hl Hst Hm. split_and!; [split; [done|by eapply grows_snoc]|lia..|by left].
Qed.

Lemma unsent_ok m c s s' :
  local_step s s' -> stream s' = stream s -> cannot_send s s' -> greeted (cl s') = greeted (cl s) ->
  answered (Reply m c) s (-1) s'.
Proof.
  intros Hl Hst Hc Hg. split_and!; [split; [done|by apply grows_refl]|lia..|by right].
Qed.

Lemma queue_frame_moved c c' : queue_frame c c' -> moved c c'.
Proof. intros ->. done. Qed.

Lemma enc_decode_wp {A} (m : res A) (Q : option A -> ctx W -> Prop) s :
  no_ub m -> (m = Fail -> Q None s) -> (forall a, m = Ok a -> Q (Some a) s) -> wp (enc m) Q s.
Proof. intros Hu H1 H2. unfold wp, enc. destruct m; [by apply H2|by apply H1|by destruct Hu]. Qed.

Lemma exact_no_ub {A} (m : res A) ok (f : A -> list Z) p : decodes_exactly m ok f p -> no_ub m.
Proof. by destruct m. Qed.

Lemma data_ok_greet c dl :
  data_ok c -> data_ok (c <| greeted := 1 |> <| hello_deadline_ns := 0 |> <| setup_deadline_ns := dl |>).
Proof. intros Hd. data_ok_tac Hd. Qed.

Lemma process_hello_wp payload s :
  ctx_ok s -> bytes_ok payload ->
  wp (process_hello payload (zlen payload)) (answered (answer_hello (sv s) (cl s) payload) s) s.
Proof.
  intros Hok Hb. unfold process_hello. destruct s as [id c v w]. wp_steps. cbn [cl sv].
  set (s := mk_ctx id c v w) in *. pose proof (rejected_ok s Hok) as Href.
  pose proof (decode_hello_exact payload Hb) as Hex. unfold answer_hello.
  destruct (Z.eqb_spec (greeted c) 0) as [Hg|]; cbn [negb andb]; wp_steps.
  2: { by destruct (roadcast_decode_hello _ _) as [[[? ?] ?]| |]. }
  apply enc_decode_wp; [by eapply exact_no_ub|intros ->; by wp_steps|].
  intros [[mn mx] caps] ->. rewrite !Z.ltb_antisym.
  destruct (mn <=? _), (_ <=? mx); cbn [negb orb andb]; wp_steps; try exact Href.
  eapply wp_mem.
  { rewrite encode_welcome_blit, blit_full by done. reflexivity. }
  cbv beta iota. wp_steps. change ROADCAST_WELCOME_SIZE with 36.
  set (wb := welcome_bytes _). assert (Hwb : zlen wb = 36) by done.
  apply reply_wp; [done|rewrite Hwb; lia|done| |].
  { intros s1 Hl1 Hf1 Hst1 Hno. wp_steps. apply unsent_ok; try done. by rewrite Hf1. }
  assert (Htk : take (Z.to_nat 36) wb = wb) by done. rewrite Htk.
  intros [id1 c1 v1 w1] (E1 & E2 & Hoth & [Hq1 Hd1] & Hin & Hfw) Hf Hst _ _. cbn [Z.ltb Z.compare].
  cbn in E1, E2, Hf. subst id1 v1. wp_steps. apply sent_ok.
  - split_and!; try done.
    + intros i Hi. cbn. rewrite sent_clock. by apply Hoth.
    + split; [exact Hq1|]. by apply data_ok_greet.
    + unfold failed_writes in *. cbn in *. by rewrite failures_clock.
  - unfold stream in *. cbn in *. by rewrite sent_clock.
  - cbn. rewrite Hf. done.
Qed.

Lemma with_index_request_wp payload (k : Z -> M W Z) (a : Z -> answer) s :
  ctx_ok s -> bytes_ok payload ->
  (forall i, 0 <= i -> greeted (cl s) <> 0 -> wp (k i) (answered (a i) s) s) ->
  wp (with_index_request payload (zlen payload) k) (answered (indexed (cl s) payload a) s) s.
Proof.
  intros Hok Hb Hk. unfold with_index_request. destruct s as [id c v w]. wp_steps. cbn [cl].
  set (s := mk_ctx id c v w) in *. pose proof (rejected_ok s Hok) as Href. unfold indexed.
  destruct (Z.eqb_spec (greeted c) 0) as [|Hg]; wp_steps; [exact Href|].
  pose proof (decode_index_request_exact payload Hb) as Hex.
  apply enc_decode_wp; [by eapply exact_no_ub|intros ->; by wp_steps|].
  intros i Hi. rewrite Hi in *. destruct Hex as [[Hi0 _] _]. by apply Hk.
Qed.

Lemma answer_frame_page_wp i s :
  ctx_ok s -> greeted (cl s) <> 0 -> 0 <= i ->
  wp (queue_frame_snapshot_chunk i) (answered (answer_frame_page (sv s) (cl s) i) s) s.
Proof.
  intros Hok Hg Hi. unfold answer_frame_page. apply queue_frame_snapshot_chunk_wp; try done.
  - intros ->. by apply rejected_ok.
  - intros s' Hl Hst -> Hno Hgr. by apply unsent_ok.
  - intros c1 s' Hl -> Hc1 Ha Hfc Hn Hlt Hst Hf.
    assert (Hm : exists dl, c1 = (if snapshot_active (cl s) =? 0
      then begun (sv s) (setup_deadline_ns (cl s)) (cl s) else cl s) <| setup_deadline_ns := dl |>).
    { destruct Hc1 as [E|(_ & E & dl & ->)].
      - exists (setup_deadline_ns (cl s)). rewrite <- E, (proj2 (Z.eqb_neq _ _) Ha). by destruct c1.
      - exists dl. by rewrite E. }
    destruct Hm as [dl Hm]. set (c0 := if snapshot_active (cl s) =? 0 then _ else _) in *.
    apply sent_ok; [done|by rewrite Hst, Hm|]. rewrite Hf, Hm. unfold frame_page_sent. cbn.
    by destruct (_ =? FRAME_COUNT).
Qed.

Lemma answer_signal_page_wp i s :
  ctx_ok s -> greeted (cl s) <> 0 -> 0 <= i ->
  wp (queue_signal_snapshot_chunk i) (answered (answer_signal_page (cl s) i) s) s.
Proof.
  intros Hok Hg Hi. unfold answer_signal_page. apply queue_signal_snapshot_chunk_wp; try done.
  - intros ->. by apply rejected_ok.
  - intros s' Hl Hst -> Hno Hgr. by apply unsent_ok.
  - intros s' Hl -> _ _ _ _ Hst Hf. apply sent_ok; [done..|]. by apply queue_frame_moved.
Qed.

Lemma answer_schema_page_wp i s :
  ctx_ok s -> 0 <= i ->
  wp (queue_schema_chunk i) (answered (answer_schema_page (sv s) (cl s) i) s) s.
Proof.
  intros Hok Hi. unfold answer_schema_page. apply queue_schema_chunk_wp; try done.
  - intros Hge. rewrite (proj2 (Z.ltb_ge _ _) Hge). by apply rejected_ok.
  - intros s' Hl Hst Hf Hlt Hno. rewrite (proj2 (Z.ltb_lt _ _) Hlt).
    apply unsent_ok; try done. by rewrite Hf.
  - intros s' Hl Hlt Hf Hst. rewrite (proj2 (Z.ltb_lt _ _) Hlt).
    apply sent_ok; [done..|]. by apply queue_frame_moved.
Qed.

Lemma answer_subscribe_wp s :
  ctx_ok s -> greeted (cl s) <> 0 -> snapshot_complete (cl s) <> 0 ->
  wp queue_subscription_catchup (answered Subscribe s) s.
Proof.
  intros Hok Hg Hsc. pose proof (subscribe_progress_wp s Hok Hg Hsc) as Hp.
  eapply wp_mono.
  { apply (wp_all _ _ (fun x => at_snapshot x.1 x.2 s) (fun x => drive_post x.1 x.2 s) s Hp).
    intros [R0 base]. apply queue_subscription_catchup_wp. }
  intros r s' [[Hpr Hr] Hall]. split_and!; [done|lia..|]. intros R0 base. apply (Hall (R0, base)).
Qed.

Lemma answer_ping_wp s :
  ctx_ok s ->
  let m := message_bytes ROADCAST_MSG_PONG (change_sequence (sv s)) (sample_timestamp_ns (sv s)) [] in
  wp (client_queue_message ROADCAST_MSG_PONG (change_sequence (sv s))
        (sample_timestamp_ns (sv s)) [] 0 0) (answered (Reply m (cl s)) s) s.
Proof.
  intros Hok m. apply reply_wp; [done..| |].
  - intros s' Hl Hf Hst Hno. apply unsent_ok; try done. by rewrite Hf.
  - intros s' Hl Hf Hst _ _. apply sent_ok; [done..|]. by apply queue_frame_moved.
Qed.

(** [process_command] implements the protocol. *)
Lemma process_command_wp h payload s :
  ctx_ok s -> bytes_ok payload -> payload_bytes h = zlen payload ->
  wp (process_command h payload) (answered (answer_to (sv s) (cl s) h payload) s) s.
Proof.
  intros Hok Hb Hlen. unfold process_command. destruct s as [id c v w]. wp_steps. cbn [cl sv].
  set (s := mk_ctx id c v w) in *. pose proof (rejected_ok s Hok) as Href.
  rewrite Hlen. unfold answer_to. destruct (_ || _); wp_steps; [exact Href|].
  destruct (type h =? ROADCAST_MSG_HELLO); [by apply process_hello_wp|].
  destruct (type h =? ROADCAST_MSG_GET_SNAPSHOT).
  { apply with_index_request_wp; [done..|]. intros i Hi Hg. exact (answer_frame_page_wp i s Hok Hg Hi). }
  destruct (type h =? ROADCAST_MSG_SUBSCRIBE_ALL).
  { destruct (Z.eqb_spec (greeted c) 0) as [|Hg]; wp_steps; [exact Href|]. cbn [orb negb andb].
    destruct (zlen payload =? 0); cbn [negb andb]; wp_steps; [|exact Href].
    destruct (needs_resync c =? 0); cbn [negb andb]; wp_steps; [|exact Href].
    destruct (Z.eqb_spec (snapshot_complete c) 0); wp_steps; [exact Href|].
    by apply (answer_subscribe_wp s). }
  destruct (type h =? ROADCAST_MSG_PING).
  { destruct (Z.eqb_spec (greeted c) 0) as [|Hg]; wp_steps; [exact Href|]. cbn [orb negb andb].
    destruct (zlen payload =? 0); cbn [negb andb]; wp_steps; [|exact Href].
    exact (answer_ping_wp s Hok). }
  destruct (type h =? ROADCAST_MSG_GET_SCHEMA).
  { apply with_index_request_wp; [done..|]. intros i Hi Hg. exact (answer_schema_page_wp i s Hok Hi). }
  destruct (type h =? ROADCAST_MSG_GET_SIGNAL_SNAPSHOT).
  { apply with_index_request_wp; [done..|]. intros i Hi Hg. exact (answer_signal_page_wp i s Hok Hg Hi). }
  wp_steps. exact Href.
Qed.
End Input.
