(* ===== verification/Framing.v ===== *)
(** * Input framing, specified

    The messages of a byte string: [parse] cuts off complete messages until the
    bytes run out, which leaves the rest, or a header is unacceptable, which
    leaves nothing.  Cutting a stream in other places gives the same messages. *)

From S2P Require Import Prelude Wire CatalogDefs Catalog SourceSession Sampler ServerDefs.
From S2P Require Import ServerOps ServerQueue ServerClient Replica ServerCatchup ServerInput.

Definition message : Type := roadcast_header_t * list Z.

Fixpoint parse (fuel : nat) (b : list Z) : list message * option (list Z) :=
  match fuel with
  | O => ([], None)
  | S fuel =>
      if zlen b <? ROADCAST_HEADER_SIZE then ([], Some b)
      else
        match roadcast_decode_header (take (Z.to_nat ROADCAST_HEADER_SIZE) b) with
        | Ok h =>
            if CLIENT_INPUT_CAP - ROADCAST_HEADER_SIZE <? payload_bytes h then ([], None)
            else if zlen b <? ROADCAST_HEADER_SIZE + payload_bytes h then ([], Some b)
            else
              let body := drop (Z.to_nat ROADCAST_HEADER_SIZE) b in
              let '(ms, r) := parse fuel (drop (Z.to_nat (payload_bytes h)) body) in
              ((h, take (Z.to_nat (payload_bytes h)) body) :: ms, r)
        | _ => ([], None)
        end
  end.

(** The messages of [b] and what is left of it. *)
Definition messages (b : list Z) : list message * option (list Z) := parse (S (length b)) b.

(** The messages of a stream delivered in chunks, [pending] bytes waiting. *)
Fixpoint deliver (pending : list Z) (chunks : list (list Z)) : list message * option (list Z) :=
  match chunks with
  | [] => ([], Some pending)
  | chunk :: chunks =>
      let '(ms, r) := messages (pending ++ chunk) in
      match r with
      | None => (ms, None)
      | Some rest => let '(ms', r') := deliver rest chunks in (ms ++ ms', r')
      end
  end.

(** ** Facts *)

Lemma header_of_prefix b h :
  bytes_ok b -> ROADCAST_HEADER_SIZE <= zlen b ->
  roadcast_decode_header (take (Z.to_nat ROADCAST_HEADER_SIZE) b) = Ok h ->
  is_u32 (payload_bytes h).
Proof.
  intros Hb Hl Hd.
  pose proof (decode_header_exact (take (Z.to_nat ROADCAST_HEADER_SIZE) b)) as Hex.
  rewrite Hd in Hex. destruct Hex as [[Hok _] _].
  - by apply Forall_take.
  - apply zlen_take. unfold ROADCAST_HEADER_SIZE in *. lia.
  - by destruct Hok as (_ & _ & _ & ? & _).
Qed.

Lemma parse_fuel f1 : forall f2 b,
  bytes_ok b -> (length b < f1)%nat -> (length b < f2)%nat -> parse f1 b = parse f2 b.
Proof.
  induction f1 as [|f1 IH]; intros [|f2] b Hb H1 H2; try lia. cbn [parse].
  destruct (Z.ltb_spec (zlen b) ROADCAST_HEADER_SIZE); [done|].
  destruct (roadcast_decode_header _) as [h| |] eqn:Hd; [|done..].
  destruct (_ <? payload_bytes h); [done|].
  destruct (_ <? _); [done|]. cbn zeta.
  pose proof (header_of_prefix b h Hb ltac:(done) Hd) as [Hp _].
  rewrite (IH f2); [done|..].
  - by apply Forall_drop, Forall_drop.
  - rewrite !length_drop. unfold ROADCAST_HEADER_SIZE, zlen in *. lia.
  - rewrite !length_drop. unfold ROADCAST_HEADER_SIZE, zlen in *. lia.
Qed.

(** Bytes that arrive later extend the messages. *)
Lemma parse_app fuel : forall a b,
  bytes_ok a -> bytes_ok b -> (length a < fuel)%nat ->
  messages (a ++ b)
  = let '(ms, r) := parse fuel a in
    match r with
    | None => (ms, None)
    | Some rest => let '(ms', r') := messages (rest ++ b) in (ms ++ ms', r')
    end.
Proof.
  induction fuel as [|fuel IH]; intros a b Ha Hb Hf; [lia|]. cbn [parse].
  destruct (Z.ltb_spec (zlen a) ROADCAST_HEADER_SIZE) as [|Hl].
  { by destruct (messages (a ++ b)). }
  assert (Htk : take (Z.to_nat ROADCAST_HEADER_SIZE) (a ++ b)
                = take (Z.to_nat ROADCAST_HEADER_SIZE) a)
    by (apply take_app_le; unfold zlen, ROADCAST_HEADER_SIZE in *; lia).
  unfold messages at 1. cbn [parse]. rewrite zlen_app, Htk. pose proof (zlen_nonneg b).
  destruct (Z.ltb_spec (zlen a + zlen b) ROADCAST_HEADER_SIZE); [lia|].
  destruct (roadcast_decode_header _) as [h| |] eqn:Hd; [|done..].
  destruct (_ <? payload_bytes h) eqn:Hcap; [done|].
  pose proof (header_of_prefix a h Ha Hl Hd) as [Hp _].
  destruct (Z.ltb_spec (zlen a) (ROADCAST_HEADER_SIZE + payload_bytes h)) as [Hshort|Hlong].
  { unfold messages. cbn [parse]. rewrite zlen_app, Htk.
    destruct (Z.ltb_spec (zlen a + zlen b) ROADCAST_HEADER_SIZE); [lia|].
    rewrite Hd, Hcap.
    destruct (zlen a + zlen b <? ROADCAST_HEADER_SIZE + payload_bytes h); [done|]. cbn zeta.
    by destruct (parse _ _) as [ms [r|]]. }
  destruct (Z.ltb_spec (zlen a + zlen b) (ROADCAST_HEADER_SIZE + payload_bytes h)); [lia|].
  cbn zeta. unfold ROADCAST_HEADER_SIZE, zlen in *.
  rewrite (drop_app_le a) by lia. rewrite drop_app_le, take_app_le by (rewrite length_drop; lia).
  set (a' := drop (Z.to_nat (payload_bytes h)) (drop (Z.to_nat 32) a)).
  assert (Ha' : bytes_ok a') by (by apply Forall_drop, Forall_drop).
  assert (Hla' : (length a' < length a)%nat) by (unfold a'; rewrite !length_drop; lia).
  rewrite (parse_fuel _ (S (length (a' ++ b)))); [|by apply Forall_app|rewrite !length_app; lia..].
  fold (messages (a' ++ b)). rewrite (IH a' b) by (done || lia).
  destruct (parse fuel a') as [ms [rest|]]; [|done].
  by destruct (messages (rest ++ b)) as [ms' r'].
Qed.

Lemma parse_rest_ok fuel : forall b ms rest,
  bytes_ok b -> parse fuel b = (ms, Some rest) -> bytes_ok rest.
Proof.
  induction fuel as [|fuel IH]; intros b ms rest Hb H; cbn [parse] in H; [done|].
  destruct (_ <? _); [by injection H as <- <-|].
  destruct (roadcast_decode_header _) as [h| |]; [|done..].
  destruct (_ <? _); [done|]. destruct (_ <? _); [by injection H as <- <-|]. cbn zeta in H.
  destruct (parse fuel _) as [ms' r'] eqn:E. injection H as <- ->.
  eapply IH; [|exact E]. by apply Forall_drop, Forall_drop.
Qed.

(** What is left holds no complete message, and fits the input buffer. *)
Lemma messages_rest fuel : forall b ms rest,
  bytes_ok b -> (length b < fuel)%nat -> parse fuel b = (ms, Some rest) ->
  messages rest = ([], Some rest) /\ zlen rest < CLIENT_INPUT_CAP /\ zlen rest <= zlen b.
Proof.
  induction fuel as [|fuel IH]; intros b ms rest Hb Hf H; [lia|]. cbn [parse] in H.
  destruct (Z.ltb_spec (zlen b) ROADCAST_HEADER_SIZE) as [Hs|Hs].
  { injection H as <- <-. unfold messages. cbn [parse].
    destruct (Z.ltb_spec (zlen b) ROADCAST_HEADER_SIZE); [|lia].
    unfold ROADCAST_HEADER_SIZE, CLIENT_INPUT_CAP in *. split_and!; done || lia. }
  destruct (roadcast_decode_header _) as [h| |] eqn:Hd; [|done..].
  destruct (Z.ltb_spec (CLIENT_INPUT_CAP - ROADCAST_HEADER_SIZE) (payload_bytes h)) as [|Hcap];
    [done|].
  pose proof (header_of_prefix b h Hb Hs Hd) as [Hp _].
  destruct (Z.ltb_spec (zlen b) (ROADCAST_HEADER_SIZE + payload_bytes h)) as [Hl|Hl].
  { injection H as <- <-. split; [|lia]. unfold messages. cbn [parse].
    destruct (Z.ltb_spec (zlen b) ROADCAST_HEADER_SIZE); [lia|]. rewrite Hd.
    destruct (Z.ltb_spec (CLIENT_INPUT_CAP - ROADCAST_HEADER_SIZE) (payload_bytes h)); [lia|].
    by destruct (Z.ltb_spec (zlen b) (ROADCAST_HEADER_SIZE + payload_bytes h)); [|lia]. }
  cbn zeta in H. set (b' := drop _ _) in H.
  assert (Hl' : zlen b' = zlen b - ROADCAST_HEADER_SIZE - payload_bytes h).
  { unfold b', zlen, ROADCAST_HEADER_SIZE in *. rewrite !length_drop. lia. }
  destruct (parse fuel b') as [ms' r'] eqn:E. injection H as <- ->.
  apply IH in E as (H1 & H2 & H3).
  - unfold ROADCAST_HEADER_SIZE in *. split_and!; done || lia.
  - by apply Forall_drop, Forall_drop.
  - unfold ROADCAST_HEADER_SIZE, zlen in *. lia.
Qed.

(** What is left is a suffix. *)
Lemma parse_suffix fuel : forall b ms rest,
  parse fuel b = (ms, Some rest) -> exists p, b = p ++ rest.
Proof.
  induction fuel as [|fuel IH]; intros b ms rest H; cbn [parse] in H; [done|].
  destruct (_ <? _); [injection H as <- <-; by exists []|].
  destruct (roadcast_decode_header _) as [h| |]; [|done..].
  destruct (_ <? _); [done|]. destruct (_ <? _); [injection H as <- <-; by exists []|].
  cbn zeta in H. destruct (parse fuel _) as [ms' r'] eqn:E. injection H as <- ->.
  apply IH in E as [p Hp]. rewrite drop_drop in Hp.
  exists (take (Z.to_nat ROADCAST_HEADER_SIZE + Z.to_nat (payload_bytes h)) b ++ p).
  by rewrite <- (assoc_L (++)), <- Hp, take_drop.
Qed.

(** The messages of a delivered stream are those of its concatenation. *)
Lemma deliver_concat chunks : forall pending,
  bytes_ok pending -> Forall bytes_ok chunks ->
  messages pending = ([], Some pending) ->
  deliver pending chunks = messages (pending ++ concat chunks).
Proof.
  induction chunks as [|chunk chunks IH]; intros pending Hp Hcs Hrest; cbn [deliver concat].
  { by rewrite app_nil_r. }
  inversion_clear Hcs as [|? ? Hc Hcs'].
  assert (Hpc : bytes_ok (pending ++ chunk)) by (by apply Forall_app).
  assert (Hcc : bytes_ok (concat chunks)) by (by apply Forall_concat).
  rewrite (assoc_L (++)), (parse_app (S (length (pending ++ chunk))) (pending ++ chunk) (concat chunks))
    by (done || lia).
  fold (messages (pending ++ chunk)).
  destruct (messages (pending ++ chunk)) as [ms [rest|]] eqn:E; [|done].
  rewrite IH; [done| |done|].
  - by apply (parse_rest_ok _ _ _ _ Hpc E).
  - by destruct (messages_rest _ _ _ _ Hpc (Nat.lt_succ_diag_r _) E).
Qed.

(** ** The input loop runs the commands of the buffer *)

Section Run.
Context `{HC : CatalogOk} {W : Type} `{K : !Clock W} `{U : !Uv W} `{HU : !UvOk U K}.
Implicit Types s : ctx W.

(** The commands in order, up to the first that is refused. *)
Fixpoint run_commands (ms : list message) : M W bool :=
  match ms with
  | [] => mret true
  | (h, payload) :: ms =>
      r ← process_command h payload;
      if r <? 0 then mret false else run_commands ms
  end.

(** The bytes of the buffer from [consumed] on. *)
Definition window (c : roadcast_client_t) (consumed : Z) : list Z :=
  take (Z.to_nat (input_length c - consumed)) (drop (Z.to_nat consumed) (input c)).

Lemma zlen_window c consumed :
  data_ok c -> 0 <= consumed <= input_length c ->
  zlen (window c consumed) = input_length c - consumed /\ bytes_ok (window c consumed).
Proof.
  intros Hd Hc. destruct (do_input c Hd) as [Hl Hb]. pose proof (do_input_length c Hd).
  split; [|by apply Forall_take, Forall_drop].
  unfold window, zlen in *. rewrite length_take, length_drop. lia.
Qed.

Lemma window_slice c consumed off n :
  data_ok c -> 0 <= consumed -> 0 <= off -> 0 <= n -> consumed + off + n <= input_length c ->
  slice (input c) (consumed + off) n
  = Ok (take (Z.to_nat n) (drop (Z.to_nat off) (window c consumed))).
Proof.
  intros Hd Hc Ho Hn Hle. destruct (do_input c Hd) as [Hl _]. pose proof (do_input_length c Hd).
  unfold slice. destruct (Z.ltb_spec (consumed + off) 0); [lia|].
  destruct (Z.ltb_spec n 0); [lia|].
  destruct (Z.ltb_spec (zlen (input c)) (consumed + off + n)); [lia|]. cbn [orb]. f_equal.
  unfold window.
  replace (Z.to_nat (input_length c - consumed))
    with (Z.to_nat off + Z.to_nat (input_length c - (consumed + off)))%nat by lia.
  rewrite <- take_drop_commute, drop_drop, take_take.
  f_equal; [lia|f_equal; lia].
Qed.

Lemma window_next c consumed n :
  0 <= consumed -> 0 <= n -> consumed + n <= input_length c ->
  drop (Z.to_nat n) (window c consumed) = window c (consumed + n).
Proof.
  intros Hc Hn Hle. unfold window.
  replace (Z.to_nat (input_length c - consumed))
    with (Z.to_nat n + Z.to_nat (input_length c - (consumed + n)))%nat by lia.
  rewrite <- take_drop_commute, drop_drop. f_equal. f_equal. lia.
Qed.

(** The result of the loop for the messages [p]. *)
Definition loop_result (total : Z) (p : list message * option (list Z)) : M W (option Z) :=
  ok ← run_commands p.1;
  mret (if (ok : bool) then match p.2 with
                            | Some rest => Some (total - zlen rest)
                            | None => None
                            end
        else None).

Lemma input_loop_run fuel : forall consumed s,
  ctx_ok s -> 0 <= consumed <= input_length (cl s) ->
  (input_length (cl s) - consumed) / ROADCAST_HEADER_SIZE < Z.of_nat fuel ->
  input_loop fuel consumed s
  = loop_result (input_length (cl s)) (messages (window (cl s) consumed)) s.
Proof.
  induction fuel as [|fuel IH]; intros consumed s Hok Hc Hf.
  { assert (0 <= (input_length (cl s) - consumed) / ROADCAST_HEADER_SIZE)
      by (apply Z.div_pos; [lia|done]). lia. }
  pose proof Hok as [_ Hd]. destruct (zlen_window (cl s) consumed Hd Hc) as [Hzl Hb].
  set (B := window (cl s) consumed) in *.
  unfold messages. cbn [input_loop parse]. rewrite run_getc.
  rewrite Hzl. destruct (Z.ltb_spec (input_length (cl s) - consumed) ROADCAST_HEADER_SIZE) as [|Hh].
  { change (Ok (Some consumed, s) = Ok (Some (input_length (cl s) - zlen B), s)).
    do 3 f_equal. lia. }
  assert (Hhead : slice (input (cl s)) consumed ROADCAST_HEADER_SIZE
                  = Ok (take (Z.to_nat ROADCAST_HEADER_SIZE) B)).
  { rewrite <- (Z.add_0_r consumed). rewrite window_slice; [done|done|..];
      unfold ROADCAST_HEADER_SIZE in *; lia. }
  rewrite (run_mem _ _ _ _ Hhead).
  pose proof (decode_header_exact (take (Z.to_nat ROADCAST_HEADER_SIZE) B)) as Hex.
  specialize (Hex (Forall_take _ _ _ Hb) ltac:(apply zlen_take; unfold ROADCAST_HEADER_SIZE in *; lia)).
  destruct (roadcast_decode_header _) as [h| |] eqn:Hdec; [|done|by destruct Hex].
  rewrite (run_enc_ok _ _ h) by done. clear Hex.
  pose proof (header_of_prefix B h Hb ltac:(lia) Hdec) as [Hp _].
  destruct (_ <? payload_bytes h) eqn:Hcap; [done|]. cbn zeta.
  destruct (Z.ltb_spec (input_length (cl s) - consumed) (ROADCAST_HEADER_SIZE + payload_bytes h)).
  { change (Ok (Some consumed, s) = Ok (Some (input_length (cl s) - zlen B), s)).
    do 3 f_equal. lia. }
  assert (Hpay : slice (input (cl s)) (consumed + ROADCAST_HEADER_SIZE) (payload_bytes h)
    = Ok (take (Z.to_nat (payload_bytes h)) (drop (Z.to_nat ROADCAST_HEADER_SIZE) B)))
    by (apply window_slice; done || unfold ROADCAST_HEADER_SIZE in *; lia).
  rewrite (run_mem _ _ _ _ Hpay).
  set (payload := take (Z.to_nat (payload_bytes h)) _) in *.
  set (B' := drop (Z.to_nat (payload_bytes h)) _).
  assert (HB' : B' = window (cl s) (consumed + (ROADCAST_HEADER_SIZE + payload_bytes h))).
  { unfold B'. rewrite drop_drop, <- window_next by (unfold ROADCAST_HEADER_SIZE in *; lia).
    f_equal. unfold ROADCAST_HEADER_SIZE. lia. }
  assert (Hplen : payload_bytes h = zlen payload).
  { unfold payload. symmetry. apply zlen_take. unfold zlen in *. rewrite length_drop.
    unfold ROADCAST_HEADER_SIZE in *. lia. }
  assert (Hpb : bytes_ok payload) by (by apply Forall_take, Forall_drop).
  assert (HbB' : bytes_ok B') by (by apply Forall_drop, Forall_drop).
  assert (Hlen' : (length B' < length B)%nat).
  { unfold B', ROADCAST_HEADER_SIZE, zlen in *. rewrite !length_drop. lia. }
  rewrite (parse_fuel (length B) (S (length B')) B') by (done || lia). fold (messages B').
  destruct (wp_run _ _ _ (process_command_wp h payload s Hok Hpb Hplen))
    as (r & s' & Hrun & [(E1 & E2 & _ & Hok' & (Ein & Eil & _) & _) _] & Hr & _).
  rewrite (run_bind _ _ _ _ _ Hrun).
  assert (Hwin : forall k, window (cl s') k = window (cl s) k)
    by (intros k; unfold window; by rewrite Ein, Eil).
  destruct (messages B') as [ms rest] eqn:Em. unfold loop_result. cbn [fst snd run_commands].
  destruct (Z.ltb_spec r 0) as [|Hr0].
  { unfold mbind at 1, M_bind at 1. rewrite (run_bind _ _ _ _ _ Hrun).
    by destruct (Z.ltb_spec r 0); [|lia]. }
  rewrite IH; [|done|rewrite Eil; unfold ROADCAST_HEADER_SIZE in *; lia|].
  - rewrite Eil, Hwin, <- HB', Em. unfold loop_result. cbn [fst snd].
    unfold mbind at 2, M_bind at 2. rewrite (run_bind _ _ _ _ _ Hrun).
    by destruct (Z.ltb_spec r 0); [lia|].
  - rewrite Eil. unfold ROADCAST_HEADER_SIZE in *. Z.div_mod_to_equations. lia.
Qed.

(** The messages of a byte string are what [process_command] expects. *)
Definition message_ok (m : message) : Prop :=
  bytes_ok m.2 /\ payload_bytes m.1 = zlen m.2.

Lemma parse_messages_ok fuel : forall b,
  bytes_ok b -> Forall message_ok (parse fuel b).1.
Proof.
  induction fuel as [|fuel IH]; intros b Hb; cbn [parse]; [constructor|].
  destruct (Z.ltb_spec (zlen b) ROADCAST_HEADER_SIZE) as [|Hl]; [constructor|].
  destruct (roadcast_decode_header _) as [h| |] eqn:Hd; [|constructor..].
  destruct (_ <? payload_bytes h); [constructor|].
  destruct (Z.ltb_spec (zlen b) (ROADCAST_HEADER_SIZE + payload_bytes h)); [constructor|].
  pose proof (header_of_prefix b h Hb Hl Hd) as [Hp _]. cbn zeta.
  specialize (IH (drop (Z.to_nat (payload_bytes h)) (drop (Z.to_nat ROADCAST_HEADER_SIZE) b))).
  destruct (parse fuel _) as [ms r]. cbn [fst] in *. constructor.
  - split; [by apply Forall_take, Forall_drop|]. cbn [fst snd]. symmetry. apply zlen_take.
    unfold zlen in *. rewrite length_drop. unfold ROADCAST_HEADER_SIZE in *. lia.
  - apply IH. by apply Forall_drop, Forall_drop.
Qed.

Lemma run_commands_wp ms : forall s,
  ctx_ok s -> Forall message_ok ms -> wp (run_commands ms) (fun _ s' => commanded s s') s.
Proof.
  induction ms as [|[h payload] ms IH]; intros s Hok Hms; cbn [run_commands].
  { apply wp_ret. by apply commanded_refl. }
  inversion_clear Hms as [|? ? [Hb Hl] Hms']. cbn in Hb, Hl. apply wp_bind.
  eapply wp_mono; [by apply process_command_wp|]. intros r s1 (Hp & _).
  destruct (r <? 0); [by apply wp_ret|].
  eapply wp_mono; [apply IH; [apply Hp|done]|]. intros ? s2 Hp2. by eapply commanded_trans.
Qed.

(** The input buffer after a read callback stored [bytes]. *)
Definition received (c : roadcast_client_t) (bytes : list Z) : roadcast_client_t :=
  c <| input := take (Z.to_nat (input_length c)) (input c) ++ bytes
                ++ drop (Z.to_nat (input_length c) + length bytes) (input c) |>
    <| input_length := input_length c + zlen bytes |>.

Lemma received_ok c bytes :
  data_ok c -> bytes_ok bytes -> zlen bytes <= CLIENT_INPUT_CAP - input_length c ->
  data_ok (received c bytes) /\ window (received c bytes) 0 = window c 0 ++ bytes.
Proof.
  intros Hd Hb Hl. destruct (do_input c Hd) as [Hil Hib]. pose proof (do_input_length c Hd).
  pose proof (zlen_nonneg bytes). split.
  - assert (zlen (input (received c bytes)) = CLIENT_INPUT_CAP /\ bytes_ok (input (received c bytes))).
    { cbn. split.
      - unfold zlen in *. rewrite !length_app, length_take, length_drop. lia.
      - apply Forall_app. split; [by apply Forall_take|]. apply Forall_app.
        split; [done|by apply Forall_drop]. }
    assert (0 <= input_length (received c bytes) <= CLIENT_INPUT_CAP) by (cbn; lia).
    destruct Hd. by constructor.
  - unfold window, received. cbn. rewrite !Z.sub_0_r, !drop_0.
    rewrite (assoc_L (++)), take_app_le by (rewrite length_app, length_take; unfold zlen in *; lia).
    apply take_ge. rewrite length_app, length_take. unfold zlen in *. lia.
Qed.

(** Dropping the consumed bytes leaves the rest at the front of the buffer. *)
Lemma consume_wp consumed rest s :
  ctx_ok s -> 0 <= consumed <= input_length (cl s) -> window (cl s) consumed = rest ->
  zlen rest < CLIENT_INPUT_CAP ->
  wp ((if negb (consumed =? 0) then
         client ← getc;
         rest ← mem (slice (input client) consumed (input_length client - consumed));
         input' ← mem (blit (input client) 0 rest);
         modc (fun c => c <| input := input' |>);;
         modc (fun c => c <| input_length := input_length c - consumed |>)
       else mret tt);;
      client ← getc;
      mret (if input_length client =? CLIENT_INPUT_CAP then -1 else 0))
    (fun r s' => r = 0 /\ cid s' = cid s /\ sv s' = sv s /\ env s' = env s /\ ctx_ok s'
       /\ window (cl s') 0 = rest
       /\ cl s' = (cl s) <| input := input (cl s') |> <| input_length := zlen rest |>) s.
Proof.
  intros Hok Hc Hwin Hr. destruct s as [id c v w]. cbn [cl] in Hc, Hwin.
  pose proof Hok as [Hq Hd]. cbn [cl] in Hd.
  destruct (zlen_window c consumed Hd Hc) as [Hzl Hb]. rewrite Hwin in Hzl, Hb.
  destruct (do_input c Hd) as [Hil Hib]. pose proof (do_input_length c Hd) as Hilr. apply wp_bind.
  destruct (Z.eqb_spec consumed 0) as [->|Hne]; cbn [negb].
  { wp_steps. destruct (Z.eqb_spec (input_length c) CLIENT_INPUT_CAP); [lia|].
    split_and!; try done. cbn. rewrite Hzl, Z.sub_0_r. by destruct c. }
  assert (Hslice : slice (input c) consumed (input_length c - consumed) = Ok rest).
  { rewrite <- (Z.add_0_r consumed) at 1. rewrite window_slice by (done || lia).
    rewrite drop_0, Hwin. f_equal. apply take_ge. unfold zlen in Hzl. lia. }
  wp_steps. apply (wp_mem _ _ _ _ Hslice). wp_steps.
  eapply wp_mem; [apply blit_start; lia|]. wp_steps.
  set (c' := c <| input := _ |> <| input_length := _ |>).
  assert (Hc' : input_length c' = zlen rest) by (cbn; lia).
  rewrite Hc'. destruct (Z.eqb_spec (zlen rest) CLIENT_INPUT_CAP); [lia|].
  split_and!; try done.
  - split; [exact Hq|]. cbn [cl].
    assert (zlen (input c') = CLIENT_INPUT_CAP /\ bytes_ok (input c')).
    { cbn. split.
      - unfold zlen in *. rewrite length_app, length_drop. lia.
      - apply Forall_app. split; [done|by apply Forall_drop]. }
    assert (0 <= input_length c' <= CLIENT_INPUT_CAP) by lia.
    destruct Hd. by constructor.
  - cbn [cl]. unfold window. rewrite Hc', Z.sub_0_r, drop_0. cbn.
    unfold zlen. rewrite Nat2Z.id. apply take_app_length.
  - cbn [cl]. rewrite Hzl. done.
Qed.

(** Only the input buffer has changed. *)
Definition refilled s s' : Prop :=
  cid s' = cid s /\ sv s' = sv s /\ env s' = env s
  /\ cl s' = (cl s) <| input := input (cl s') |> <| input_length := input_length (cl s') |>.

(** The outcome of reading the bytes [b]: the commands [p.1] have run, and
    either the rest waits in the buffer or the connection is closed. *)
Definition read_outcome (p : list message * option (list Z)) s s' : Prop :=
  exists ok s1, run_commands p.1 s = Ok (ok, s1) /\ commanded s s1 /\
    match ok, p.2 with
    | true, Some rest =>
        refilled s1 s' /\ window (cl s') 0 = rest /\ input_length (cl s') < CLIENT_INPUT_CAP
    | _, _ => active (cl s') = 0
    end.

Lemma input_fuel_enough c :
  data_ok c -> (input_length c - 0) / ROADCAST_HEADER_SIZE < Z.of_nat input_fuel.
Proof.
  intros Hd. pose proof (do_input_length c Hd) as Hl. unfold CLIENT_INPUT_CAP in Hl.
  change (Z.of_nat input_fuel) with 129. unfold ROADCAST_HEADER_SIZE.
  Z.div_mod_to_equations. lia.
Qed.

Lemma process_client_input_wp s :
  ctx_ok s ->
  wp process_client_input
    (fun r s' => let p := messages (window (cl s) 0) in
       exists ok s1, run_commands p.1 s = Ok (ok, s1) /\ commanded s s1 /\
         cid s' = cid s /\ sv s' = sv s /\ env s' = env s1 /\ ctx_ok s' /\
         match ok, p.2 with
         | true, Some rest =>
             r = 0 /\ window (cl s') 0 = rest /\ input_length (cl s') < CLIENT_INPUT_CAP
             /\ cl s' = (cl s1) <| input := input (cl s') |> <| input_length := zlen rest |>
         | _, _ => r = -1 /\ s' = s1
         end) s.
Proof.
  intros Hok. pose proof Hok as [_ Hd]. pose proof (do_input_length (cl s) Hd) as Hil.
  destruct (zlen_window (cl s) 0 Hd) as [Hzl Hb]; [lia|].
  set (b := window (cl s) 0) in *.
  destruct (wp_run _ _ _ (run_commands_wp (messages b).1 s Hok (parse_messages_ok _ b Hb)))
    as (ok & s1 & Hrun & Hp).
  assert (Hloop := input_loop_run input_fuel 0 s Hok ltac:(lia) (input_fuel_enough _ Hd)).
  fold b in Hloop. unfold loop_result in Hloop. rewrite (run_bind _ _ _ _ _ Hrun) in Hloop.
  unfold process_client_input. apply wp_bind. unfold wp at 1. rewrite Hloop. cbv beta iota.
  unfold mret at 1, M_ret at 1. cbn zeta.
  pose proof Hp as [(E1 & E2 & Hoth & Hok1 & (Ein & Eil & _) & _) _].
  destruct (messages b) as [ms [rest|]] eqn:Em; cbn [fst snd] in *; cycle 1.
  { destruct ok; apply wp_ret; eauto 15. }
  destruct ok; [|apply wp_ret; eauto 15].
  destruct (messages_rest _ _ _ _ Hb (Nat.lt_succ_diag_r _) Em) as (_ & Hrest & Hle).
  pose proof (zlen_nonneg rest). rewrite Hzl, Z.sub_0_r in Hle.
  assert (Hwin : window (cl s1) (input_length (cl s) - zlen rest) = rest).
  { assert (Hw : window (cl s1) (input_length (cl s) - zlen rest)
                 = window (cl s) (0 + (input_length (cl s) - zlen rest)))
      by (unfold window; by rewrite Ein, Eil).
    rewrite Hw, <- window_next by lia. fold b.
    destruct (parse_suffix _ _ _ _ Em) as [p Hpb]. rewrite Hpb, zlen_app in Hzl.
    rewrite Hpb. replace (Z.to_nat (input_length (cl s) - zlen rest)) with (length p)
      by (unfold zlen in *; lia). apply drop_app_length. }
  eapply wp_mono; [apply (consume_wp _ rest s1 Hok1); [rewrite Eil; lia|done|done]|].
  intros r s' (-> & C1 & C2 & C3 & C4 & C5 & C6). exists true, s1.
  split_and!; try done; try congruence. rewrite C6. cbn. lia.
Qed.

Lemma close_closes_wp s :
  ctx_ok s ->
  wp client_close (fun _ s' => progress s s' /\ (closing (cl s) = 0 -> active (cl s') = 0)) s.
Proof.
  intros Hok. pose proof (close_progress_wp s Hok) as Hp. unfold wp in *.
  destruct (client_close s) as [[[] s']| |] eqn:E; [|done..]. split; [done|].
  destruct s as [id c v w]. unfold client_close, mbind, M_bind, getc in E. cbn [cl] in E.
  destruct (Z.eqb_spec (active c) 0), (Z.eqb_spec (closing c) 0); cbn in E;
    injection E as <-; cbn; auto; done.
Qed.

Lemma on_client_read_spec status bytes s :
  ctx_ok s -> active (cl s) <> 0 -> closing (cl s) = 0 ->
  input_length (cl s) < CLIENT_INPUT_CAP -> 0 <= status ->
  bytes_ok bytes -> 0 < zlen bytes <= CLIENT_INPUT_CAP - input_length (cl s) ->
  wp (on_client_read status bytes)
    (fun _ s' => ctx_ok s' /\ cid s' = cid s /\ sv s' = sv s /\ others s s'
       /\ same_owner (cl s) (cl s') /\
       read_outcome (messages (window (cl s) 0 ++ bytes))
         (s <| cl := received (cl s) bytes |>) s') s.
Proof.
  intros Hok Ha Hcl Hil Hst Hb Hl. destruct s as [id c v w]. cbn [cl] in *.
  pose proof Hok as [Hq Hd]. cbn [cl] in Hd. pose proof (do_input_length c Hd).
  destruct (do_input c Hd) as [Hcap _].
  unfold on_client_read. destruct (Z.ltb_spec status 0); [lia|]. wp_steps.
  destruct (Z.eqb_spec (zlen bytes) 0); [lia|]. unfold allocate_client_input.
  destruct (Z.eqb_spec (active c) 0); [done|].
  destruct (Z.leb_spec CLIENT_INPUT_CAP (input_length c)); [lia|]. cbn [orb fst]. wp_steps.
  eapply wp_mem; [apply blit_ok; [lia|rewrite Hcap; lia]|]. wp_steps.
  destruct (received_ok c bytes Hd Hb ltac:(lia)) as [Hd1 Hw1].
  change (mk_ctx id (_ <| input_length := _ |>) v w) with (mk_ctx id (received c bytes) v w).
  set (s0 := mk_ctx id (received c bytes) v w).
  change (_ <| cl := received c bytes |>) with s0.
  assert (Hok0 : ctx_ok s0) by (split; [exact Hq|exact Hd1]).
  eapply wp_mono; [by apply process_client_input_wp|]. cbn zeta.
  change (window (cl s0) 0) with (window (received c bytes) 0). rewrite Hw1.
  intros r s1 (ok & s2 & Hrun & Hp & C1 & C2 & C3 & Hok1 & Hpost).
  assert (Hoth : others s0 s1).
  { destruct Hp as [(_ & _ & Ho & _) _]. intros k Hk. rewrite C3. by apply Ho. }
  destruct (messages (window c 0 ++ bytes)) as [ms rest] eqn:Em. cbn [fst snd] in *.
  assert (Hown : same_owner c (cl s2)).
  { destruct Hp as [(_ & _ & _ & _ & Hc & _) _]. by apply same_conn_owner in Hc. }
  assert (Hclose : r = -1 /\ s1 = s2 -> (ok = false \/ rest = None) ->
    wp (if r <? 0 then client_close else mret tt) (fun _ s' => ctx_ok s' /\ cid s' = id /\ sv s' = v
      /\ others (mk_ctx id c v w) s' /\ same_owner c (cl s') /\ read_outcome (ms, rest) s0 s') s1).
  { intros [-> ->] Hcase. cbn. eapply wp_mono; [by apply close_closes_wp|].
    intros ? s' [[(D1 & D2 & D3 & D4 & _ & _ & D5) _] Hclosed]. split_and!; try done; try congruence.
    - rewrite D1, C1. done.
    - rewrite D2, C2. done.
    - intros k Hk. rewrite D3 by (rewrite C1; done). by apply Hoth.
    - by eapply same_owner_trans.
    - exists ok, s2. split_and!; try done.
      assert (Hcl2 : closing (cl s2) = 0)
        by (destruct Hp as [(_ & _ & _ & _ & (_ & _ & _ & E & _) & _) _]; by rewrite E).
      specialize (Hclosed Hcl2). destruct Hcase as [->| ->]; [done|by destruct ok]. }
  destruct ok; [destruct rest as [rest|]|]; [|by apply Hclose; auto..].
  destruct Hpost as (-> & P1 & P2 & P3). change (0 <? 0) with false. cbv iota. apply wp_ret.
  split_and!; try done.
  { rewrite P3. done. }
  exists true, s2. cbn [fst snd]. split_and!; try done.
  destruct Hp as [(E1 & E2 & _) _]. unfold refilled. split_and!; try congruence.
  rewrite P3 at 1. f_equal. rewrite P3. done.
Qed.

(** ** A stream of reads *)

(** The commands [ms] have run in order, the buffer being refilled in between. *)
Inductive executes : list message -> ctx W -> ctx W -> Prop :=
  | executes_nil s s' : refilled s s' -> executes [] s s'
  | executes_cons h payload ms s s1 r s2 s3 :
      refilled s s1 -> process_command h payload s1 = Ok (r, s2) -> 0 <= r ->
      executes ms s2 s3 -> executes ((h, payload) :: ms) s s3.

(** Some command of [ms] is refused after the ones before it have run. *)
Definition refusal (ms : list message) s : Prop :=
  exists ms1 h payload ms2 s1 r s2, ms = ms1 ++ (h, payload) :: ms2 /\ executes ms1 s s1
    /\ process_command h payload s1 = Ok (r, s2) /\ r < 0.

(** libuv offers the callback no more bytes than the buffer has room for. *)
Fixpoint fits (pending : list Z) (chunks : list (list Z)) : bool :=
  match chunks with
  | [] => true
  | chunk :: chunks =>
      (0 <? zlen chunk) && (zlen chunk <=? CLIENT_INPUT_CAP - zlen pending)
      && match (messages (pending ++ chunk)).2 with
         | Some rest => fits rest chunks
         | None => true
         end
  end.

(** The read callbacks of a stream; a closed client gets none. *)
Fixpoint read_all (chunks : list (list Z)) : M W unit :=
  match chunks with
  | [] => mret tt
  | chunk :: chunks =>
      client ← getc;
      if active client =? 0 then mret tt
      else on_client_read (zlen chunk) chunk;; read_all chunks
  end.

Lemma refilled_refl s : refilled s s.
Proof. by destruct s as [id [] v w]. Qed.

Lemma refilled_trans s1 s2 s3 : refilled s1 s2 -> refilled s2 s3 -> refilled s1 s3.
Proof.
  intros (E1 & E2 & E3 & E4) (E5 & E6 & E7 & E8). unfold refilled. split_and!; try congruence.
  rewrite E8, E4. done.
Qed.

Lemma executes_refilled_l ms s s1 s2 : refilled s s1 -> executes ms s1 s2 -> executes ms s s2.
Proof.
  intros Hr Hx. destruct Hx; [apply executes_nil; by eapply refilled_trans|].
  eapply executes_cons; [by eapply refilled_trans|done..].
Qed.

Lemma executes_app ms1 ms2 s s1 s2 :
  executes ms1 s s1 -> executes ms2 s1 s2 -> executes (ms1 ++ ms2) s s2.
Proof.
  intros Hx1 Hx2. induction Hx1; [by eapply executes_refilled_l|].
  eapply executes_cons; eauto.
Qed.

Lemma run_commands_executes ms : forall s ok s',
  run_commands ms s = Ok (ok, s') ->
  if (ok : bool) then executes ms s s' else refusal ms s.
Proof.
  induction ms as [|[h payload] ms IH]; intros s ok s' H; cbn [run_commands] in H.
  { injection H as <- <-. apply executes_nil, refilled_refl. }
  unfold mbind, M_bind in H.
  destruct (process_command h payload s) as [[r s1]| |] eqn:E; [|done..].
  destruct (Z.ltb_spec r 0) as [Hr|Hr].
  { injection H as <- <-. exists [], h, payload, ms, s, r, s1. split_and!; try done.
    apply executes_nil, refilled_refl. }
  apply IH in H. destruct ok.
  - eapply executes_cons; [apply refilled_refl|done..].
  - destruct H as (ms1 & h' & p' & ms2 & s2 & r' & s3 & -> & Hx & Hc & Hr').
    exists ((h, payload) :: ms1), h', p', ms2, s2, r', s3. split_and!; try done.
    eapply executes_cons; [apply refilled_refl|done..].
Qed.

Lemma refusal_app_l ms1 ms2 s : refusal ms1 s -> refusal (ms1 ++ ms2) s.
Proof.
  intros (a & h & p & b & s1 & r & s2 & -> & H). exists a, h, p, (b ++ ms2), s1, r, s2.
  split; [|done]. by rewrite <- (assoc_L (++)).
Qed.

Lemma refusal_app_r ms1 ms2 s s1 : executes ms1 s s1 -> refusal ms2 s1 -> refusal (ms1 ++ ms2) s.
Proof.
  intros Hx (a & h & p & b & s2 & r & s3 & -> & Hx2 & H).
  exists (ms1 ++ a), h, p, b, s2, r, s3. split; [by rewrite <- (assoc_L (++))|].
  split; [by eapply executes_app|done].
Qed.

(** What the stream [bytes] leads to. *)
Definition stream_outcome (bytes : list Z) s s' : Prop :=
  let '(ms, rest) := messages bytes in
  (active (cl s') <> 0 /\ executes ms s s' /\ rest = Some (window (cl s') 0))
  \/ (active (cl s') = 0 /\ (refusal ms s \/ (rest = None /\ exists s1, executes ms s s1))).

Lemma refilled_received c bytes id v (w : W) :
  refilled (mk_ctx id c v w) (mk_ctx id (received c bytes) v w).
Proof. by unfold refilled. Qed.

Lemma read_all_wp chunks : forall s,
  ctx_ok s -> active (cl s) <> 0 -> closing (cl s) = 0 ->
  input_length (cl s) < CLIENT_INPUT_CAP -> Forall bytes_ok chunks ->
  fits (window (cl s) 0) chunks = true ->
  messages (window (cl s) 0) = ([], Some (window (cl s) 0)) ->
  wp (read_all chunks)
    (fun _ s' => ctx_ok s' /\ stream_outcome (window (cl s) 0 ++ concat chunks) s s') s.
Proof.
  induction chunks as [|chunk chunks IH]; intros s Hok Ha Hcl Hil Hb Hfit Hrest.
  { cbn [read_all concat]. apply wp_ret. split; [done|]. rewrite app_nil_r.
    unfold stream_outcome. rewrite Hrest. left. split_and!; try done.
    apply executes_nil, refilled_refl. }
  inversion_clear Hb as [|? ? Hbc Hbcs]. cbn [read_all concat].
  cbn [fits] in Hfit. apply andb_prop in Hfit as [Hfit Hnext].
  apply andb_prop in Hfit as [Hf1 Hf2]. apply Z.ltb_lt in Hf1. apply Z.leb_le in Hf2.
  pose proof Hok as [_ Hd]. pose proof (do_input_length _ Hd) as Hilr.
  destruct (zlen_window (cl s) 0 Hd ltac:(lia)) as [Hzw Hbw]. rewrite Hzw in Hf2.
  apply wp_bind. destruct s as [id c v w]. apply wp_getc. cbn [cl] in *.
  destruct (Z.eqb_spec (active c) 0); [done|]. apply wp_bind.
  eapply wp_mono; [apply on_client_read_spec; try done; cbn [cl]; lia|].
  set (s := mk_ctx id c v w). intros [] s1 (Hok1 & E1 & E2 & _ & _ & Hout).
  assert (Hpc : bytes_ok (window c 0 ++ chunk)) by (by apply Forall_app).
  rewrite (assoc_L (++)). unfold stream_outcome.
  rewrite (parse_app (S (length (window c 0 ++ chunk))) (window c 0 ++ chunk) (concat chunks))
    by (done || lia || by apply Forall_concat).
  fold (messages (window c 0 ++ chunk)). change (cl s) with c in Hout.
  set (s0 := mk_ctx id (received c chunk) v w) in *.
  assert (Href : refilled s s0) by apply refilled_received.
  destruct Hout as (ok & s2 & Hrun & Hcmd & Hout). change (s <| cl := _ |>) with s0 in *.
  destruct (messages (window c 0 ++ chunk)) as [ms rest] eqn:Em. cbn [fst snd] in *.
  assert (Hclosed : active (cl s1) = 0 -> ok = false \/ rest = None ->
    wp (read_all chunks) (fun _ s' => ctx_ok s' /\
      let '(ms0, rest0) := match rest with
                           | Some rest => let '(ms', r') := messages (rest ++ concat chunks) in (ms ++ ms', r')
                           | None => (ms, None) end in
      (active (cl s') <> 0 /\ executes ms0 s s' /\ rest0 = Some (window (cl s') 0))
      \/ (active (cl s') = 0 /\ (refusal ms0 s \/ (rest0 = None /\ exists s1, executes ms0 s s1)))) s1).
  { intros Ha1 Hcase.
    apply wp_mono with (P := fun _ s' => s' = s1).
    { destruct chunks as [|b bs]; cbn [read_all]; [by apply wp_ret|]. apply wp_bind.
      destruct s1 as [i1 c1 v1 w1]. apply wp_getc. cbn [cl] in Ha1. rewrite Ha1. by apply wp_ret. }
    intros [] s' ->. split; [done|].
    apply run_commands_executes in Hrun. destruct ok.
    - destruct Hcase as [?| ->]; [done|]. right. split; [done|]. right. split; [done|].
      exists s2. by eapply executes_refilled_l.
    - assert (Hrf : refusal ms s).
      { destruct Hrun as (a & h & p & b & s3 & r & s4 & -> & Hx & Hrr).
        exists a, h, p, b, s3, r, s4. split; [done|]. split; [by eapply executes_refilled_l|done]. }
      destruct rest as [rest|]; [|right; by auto].
      destruct (messages (rest ++ _)) as [ms' r']. right. split; [done|]. left.
      by apply refusal_app_l. }
  destruct ok; [destruct rest as [rest|]|]; [|by apply Hclosed; auto..].
  destruct Hout as (Hr1 & Hwin & Hil1).
  pose proof Hr1 as (_ & _ & _ & Ecl). destruct Hcmd as [(_ & _ & _ & _ & (_ & _ & Eact & Eclo & _) & _) _].
  apply run_commands_executes in Hrun.
  assert (Hx : executes ms s s1).
  { eapply executes_refilled_l; [exact Href|]. rewrite <- (app_nil_r ms).
    eapply executes_app; [exact Hrun|]. by apply executes_nil. }
  destruct (messages_rest _ _ _ _ Hpc (Nat.lt_succ_diag_r _) Em) as (Hm & _).
  eapply wp_mono.
  { apply IH; try done.
    - rewrite Ecl. cbn. by rewrite Eact.
    - rewrite Ecl. cbn. by rewrite Eclo.
    - by rewrite Hwin.
    - by rewrite Hwin. }
  intros [] s' [Hok' Ho]. split; [done|]. rewrite Hwin in Ho. unfold stream_outcome in Ho.
  destruct (messages (rest ++ concat chunks)) as [ms' r'].
  destruct Ho as [(Ha' & Hx' & Hr')|(Ha' & [Hrf|(Hr' & s3 & Hx')])].
  - left. split_and!; try done. by eapply executes_app.
  - right. split; [done|]. left. by eapply refusal_app_r.
  - right. split; [done|]. right. split; [done|]. exists s3. by eapply executes_app.
Qed.
End Run.
