(* ===== verification/Host.v ===== *)
(** * A concrete host for the daemon

    An event loop that keeps the bytes written to each stream and a clock that
    advances when it is read.  It satisfies the contract of ServerDefs.v, so the
    theorems proved against the contract apply to it; the states here are the
    ones the examples start from. *)

From S2P Require Import Prelude Wire CatalogDefs Catalog SourceSession Sampler ServerDefs.
From S2P Require Import ServerOps ServerQueue ServerClient.

Record host_t := mk_host {
  host_now : Z;
  host_log : list (Z * list Z);
  host_peers : list (Z * Z);
}.

#[export] Instance eta_host : Eta host_t := fun h =>
  mk_host (host_now h) (host_log h) (host_peers h).

#[export] Instance host_clock : Clock host_t := {|
  monotonic_ns h := (1 + host_now h mod 2 ^ 62, h <| host_now := host_now h + 1 |>);
  sleep_until _ h := h;
|}.

#[export] Instance host_uv : Uv host_t := {|
  uv_write c bytes h := (0, h <| host_log := host_log h ++ [(c, bytes)] |>);
  uv_stream_get_write_queue_size _ _ := 0;
  uv_read_stop _ h := h;
  uv_close _ h := h;
  uv_pipe_init _ h := (0, h);
  uv_accept _ h := (0, h);
  uv_read_start _ h := (0, h);
  uv_fileno c h := (Some (10 + c), h);
  getsockopt_peercred _ h :=
    (match host_peers h with (uid, pid) :: _ => Some (uid, pid, UCRED_SIZE) | [] => None end,
     h <| host_peers := tail (host_peers h) |>);
  setsockopt_sndbuf _ _ h := h;
  calloc_stream h := (Some 100, h);
  free_stream _ h := h;
  handle_is_closing _ _ := false;
  handle_close _ h := h;
  handle_stop _ h := h;
  pthread_join h := h;
|}.

Definition host_sent (h : host_t) (c : Z) : list (list Z) :=
  map snd (List.filter (fun m => fst m =? c) (host_log h)).

#[export] Instance host_clock_ok : ClockOk host_clock.
Proof.
  constructor. intros h. cbn [monotonic_ns host_clock fst].
  pose proof (Z.mod_pos_bound (host_now h) (2 ^ 62)). lia.
Qed.

Lemma host_sent_log n l l' p c :
  host_sent (mk_host n (l ++ l') p) c
  = map snd (List.filter (fun m => fst m =? c) l) ++ map snd (List.filter (fun m => fst m =? c) l').
Proof. unfold host_sent. cbn. by rewrite filter_app, map_app. Qed.

#[export] Program Instance host_uv_ok : UvOk host_uv host_clock := {|
  sent := host_sent;
  failures _ _ := 0%nat;
|}.
Next Obligation.
  intros c bytes [n l p] _. cbn -[host_sent]. unfold set. cbn -[host_sent].
  rewrite host_sent_log. cbn. by rewrite Z.eqb_refl.
Qed.
Next Obligation. intros c bytes [n l p] H. cbn in H. lia. Qed.
Next Obligation.
  intros c c' bytes [n l p] Hc. cbn -[host_sent]. unfold set. cbn -[host_sent].
  rewrite host_sent_log. cbn. rewrite (proj2 (Z.eqb_neq c c')) by done.
  apply app_nil_r.
Qed.
Solve All Obligations with (intros; cbn; done || lia).

(** ** States of the daemon *)

Definition demo_stats : stats_t := mk_stats 0 0 0 0 0 0 0 0 0 0.

(** The daemon before the source has delivered anything. *)
Definition demo_server : roadcast_server_t :=
  mk_server initialize_fake_frames (repeat zero_value (length SIGNALS)) 1 0 1000 0 0 0 60000 60
    CLIENT_QUEUE_SLOTS demo_stats 0.

Lemma zero_values_ok : signals_ok (repeat zero_value (length SIGNALS)).
Proof. apply (do_signals _ zero_client_data_ok). Qed.

Lemma demo_server_ok : server_ok demo_server.
Proof.
  pose proof queue_slots_bound as [? ?].
  assert (Hf : frames_ok initialize_fake_frames).
  { apply catalog_map_ok. intros id Hid. unfold frame_ok, bytes_ok. concrete. }
  assert (Hids : map can_id initialize_fake_frames = CAN_IDS)
    by (unfold initialize_fake_frames; rewrite map_map; apply map_id).
  unfold server_ok, demo_server. cbn -[CLIENT_QUEUE_SLOTS initialize_fake_frames repeat].
  split_and!; try done; try lia; try (unfold is_u64, is_u32; lia); apply zero_values_ok.
Qed.

(** A client that has just connected, one that has been greeted, and one whose
    snapshot is complete. *)
Definition demo_client : roadcast_client_t := zero_client <| active := 1 |>.
Definition greeted_client : roadcast_client_t := demo_client <| greeted := 1 |>.
Definition ready_client : roadcast_client_t :=
  greeted_client <| snapshot_frames := sv_frames demo_server |> <| snapshot_complete := 1 |>.

Definition demo_host : host_t := mk_host 0 [] [].
Definition demo_ctx (c : roadcast_client_t) : ctx host_t := mk_ctx 3 c demo_server demo_host.

Lemma demo_ctx_ok c :
  In c [demo_client; greeted_client; ready_client] -> ctx_ok (demo_ctx c).
Proof.
  pose proof zero_client_data_ok as Hd. pose proof demo_server_ok as Hsv.
  pose proof Hsv as (_ & Hf & Hids & _). pose proof queue_slots_bound as [Hs _].
  pose proof (zero_client_queue_ok CLIENT_QUEUE_SLOTS (Z.lt_le_incl _ _ Hs)) as Hq.
  intros Hc. repeat destruct Hc as [<-|Hc]; [..|done];
    (split; [by split|]); cbn; data_ok_tac Hd.
Qed.
