(* ===== verification/ServerTheorems.v ===== *)
(** * What the daemon promises to one client

    The theorems about the handlers of ServerOps.v, stated for every catalog,
    host and client state that satisfies the invariants, each with an instance on
    the concrete host of Host.v. *)

From S2P Require Import Prelude Wire CatalogDefs Catalog SourceSession Sampler ServerDefs.
From S2P Require Import ServerOps ServerQueue ServerClient Replica ServerCatchup ServerInput.
From S2P Require Import Framing Host.

Section Theorems.
Context `{HC : CatalogOk} {W : Type} `{K : !Clock W} `{U : !Uv W} `{HU : !UvOk U K}.
Implicit Types s : ctx W.

(** C20: queueing a message has exactly three outcomes.  It is refused, with
    the stream unchanged, when the client is gone, the message is longer than a
    slot, it must not be dropped and there is no room, or libuv refuses the write;
    it is queued, when there is room, and then exactly its header and payload
    follow on the stream and one slot and its bytes are accounted for; or, if it
    may be dropped and there is no room, the client is marked for
    resynchronization and unsubscribed.  The pending bytes never exceed the
    configured slots, and no access leaves a buffer. *)
Theorem queue_message_contract type_ sequence_ timestamp_ns_ payload len droppable s :
  ctx_queue_ok s -> 0 <= len <= zlen payload ->
  exists r s',
    client_queue_message type_ sequence_ timestamp_ns_ payload len droppable s = Ok (r, s')
    /\ queue_post (message_bytes type_ sequence_ timestamp_ns_ (take (Z.to_nat len) payload))
         droppable s r s'.
Proof. intros Hok Hlen. by apply wp_run, client_queue_message_wp. Qed.

(** C4: the subscription catch-up terminates and is correct.  If the replica
    built from the stream agrees with the client's snapshot when SUBSCRIBE_ALL
    arrives, then after the handler either a write has failed, or the catch-up
    waits for output capacity with the replica following what is still to be
    sent, or SUBSCRIBED has been sent and the replica agrees with the server. *)
Theorem subscription_converges R0 base s :
  at_snapshot R0 base s ->
  exists r s', queue_subscription_catchup s = Ok (r, s') /\ drive_post R0 base s r s'.
Proof. intros Hs. by apply wp_run, queue_subscription_catchup_wp. Qed.

(** C27: a catch-up that waits is never lost.  While it waits on an open
    connection, bytes are in flight; and when one of its writes completes, the
    handler frees the slot and goes on: the catch-up waits for capacity again,
    has ended with SUBSCRIBED sent and the replica in agreement, or one of the
    writes of this very run has failed and the connection has been closed. *)
Theorem catchup_resumes R0 base i status slot s :
  stalled R0 base s -> active (cl s) <> 0 -> needs_resync (cl s) = 0 -> 0 <= status ->
  0 <= i -> output (cl s) !! Z.to_nat i = Some slot -> in_use slot = 1 ->
  (0 < pending_bytes (cl s) \/ 0 < uv_stream_get_write_queue_size (cid s) (env s))
  /\ exists s', on_client_write i status s = Ok (tt, s') /\ progress s s'
       /\ (stalled R0 base s' \/ caught_up R0 base s'
           \/ (write_fails s s' /\ (closing (cl s) = 0 -> active (cl s') = 0))).
Proof.
  intros [Hch Hst] Ha Hn Hs Hi Hslot Hu. pose proof Hch as ([Hq _] & _). split.
  - destruct Hst as [?|Hno]; [done|].
    pose proof Hq as (_ & _ & _ & _ & Hp). pose proof (queue_size_range (cid s) (env s)).
    destruct (decide (pending_bytes (cl s) = 0)); [|lia].
    destruct (decide (uv_stream_get_write_queue_size (cid s) (env s) = 0)); [|lia].
    by destruct Hno; apply idle_room.
  - destruct (wp_run _ _ _ (on_client_write_resumes i status slot R0 base s Hch Hn Hs Hi Hslot Hu))
      as ([] & s' & Hrun & Hp). eauto.
Qed.

(** C13: [process_command] implements the protocol: a command the protocol
    rejects returns -1 and changes nothing at all; a command with a reply sends
    exactly that reply and moves the client to the state the protocol says, unless
    the client cannot be sent to; and SUBSCRIBE_ALL runs the catch-up. *)
Theorem process_command_implements_protocol h payload s :
  ctx_ok s -> bytes_ok payload -> payload_bytes h = zlen payload ->
  exists r s', process_command h payload s = Ok (r, s')
    /\ answered (answer_to (sv s) (cl s) h payload) s r s'.
Proof. intros Hok Hb Hl. by apply wp_run, process_command_wp. Qed.

(** A HELLO the daemon accepts: a command of the right version without flags
    whose payload is a HELLO with a range of versions that contains the daemon's. *)
Definition acceptable_hello (h : roadcast_header_t) (payload : list Z) : Prop :=
  version h = ROADCAST_PROTOCOL_VERSION /\ flags h = 0 /\ type h = ROADCAST_MSG_HELLO
  /\ exists min_version max_version capabilities,
       roadcast_decode_hello payload (zlen payload) = Ok (min_version, max_version, capabilities)
       /\ min_version <= ROADCAST_PROTOCOL_VERSION <= max_version.

Lemma answer_before_greeting v c h payload :
  greeted c = 0 ->
  (acceptable_hello h payload
   /\ answer_to v c h payload
      = Reply (welcome_message v) (c <| greeted := 1 |> <| hello_deadline_ns := 0 |>))
  \/ (~ acceptable_hello h payload /\ answer_to v c h payload = Reject).
Proof.
  intros Hg. unfold answer_to, answer_hello, acceptable_hello, indexed. rewrite Hg. cbn [negb andb Z.eqb].
  destruct (Z.eqb_spec (version h) ROADCAST_PROTOCOL_VERSION); cbn [negb orb]; [|right; split; [by intros [? _]|done]].
  destruct (Z.eqb_spec (flags h) 0); cbn [negb]; [|right; split; [by intros (_ & ? & _)|done]].
  destruct (Z.eqb_spec (type h) ROADCAST_MSG_HELLO).
  2: { right. split; [by intros (_ & _ & ? & _)|].
       repeat (match goal with |- context [if ?b then _ else _] => destruct b end); done. }
  destruct (roadcast_decode_hello _ _) as [[[mn mx] caps]| |];
    [|right; split; [by intros (_ & _ & _ & ? & ? & ? & [=] & _)|done]..].
  destruct (Z.leb_spec mn ROADCAST_PROTOCOL_VERSION), (Z.leb_spec ROADCAST_PROTOCOL_VERSION mx); cbn [andb].
  1: left; split; [|done]; split_and!; [done..|]; by exists mn, mx, caps.
  all: right; split; [|done]; intros (_ & _ & _ & mn' & mx' & caps' & [= <- <- <-] & ?); lia.
Qed.

(** C35: before the greeting the daemon accepts exactly a HELLO of its version
    without flags whose range of versions contains it: it answers that with one
    WELCOME and the client is greeted, unless it cannot be sent to (it is closed,
    the queue has no room, or the write of the WELCOME fails), when the command
    fails without a byte and the client stays ungreeted.  Every other command is
    refused and nothing at all changes. *)
Theorem hello_comes_first h payload s :
  ctx_ok s -> bytes_ok payload -> payload_bytes h = zlen payload -> greeted (cl s) = 0 ->
  exists r s', process_command h payload s = Ok (r, s') /\
    ((acceptable_hello h payload /\ r = 0 /\ greeted (cl s') = 1 /\ hello_deadline_ns (cl s') = 0
      /\ stream s' = stream s ++ [welcome_message (sv s)])
     \/ (acceptable_hello h payload /\ r = -1 /\ cannot_send s s' /\ stream s' = stream s
         /\ greeted (cl s') = 0)
     \/ (~ acceptable_hello h payload /\ r = -1 /\ s' = s)).
Proof.
  intros Hok Hb Hl Hg.
  destruct (wp_run _ _ _ (process_command_wp h payload s Hok Hb Hl)) as (r & s' & Hrun & Hp).
  exists r, s'. split; [done|]. destruct Hp as (_ & _ & Ha).
  destruct (answer_before_greeting (sv s) (cl s) h payload Hg) as [[Hacc E]|[Hacc E]];
    rewrite E in Ha; [|right; right; by destruct Ha].
  destruct Ha as [(-> & Hst & Hm)|(-> & Hst & Hno & Hgr)].
  - left. split_and!; try done; by rewrite Hm.
  - right; left. split_and!; try done; by rewrite Hgr.
Qed.

(** C15: the daemon runs the commands of the byte stream, however libuv cuts it
    into reads.  While the connection stays open, the commands that have run are
    exactly the messages of the bytes received, in order, and the input buffer
    holds the bytes of the incomplete message at the end; the connection is closed
    only when a command is refused or a header is unacceptable, after exactly the
    commands before it. *)
Theorem reads_run_messages chunks s :
  ctx_ok s -> active (cl s) <> 0 -> closing (cl s) = 0 -> input_length (cl s) = 0 ->
  Forall bytes_ok chunks -> fits [] chunks = true ->
  exists s', read_all chunks s = Ok (tt, s') /\ ctx_ok s'
    /\ stream_outcome (concat chunks) s s'.
Proof.
  intros Hok Ha Hc Hil Hb Hf.
  assert (Hw : window (cl s) 0 = []) by (unfold window; by rewrite Hil).
  destruct (wp_run (read_all chunks) (fun _ s' => ctx_ok s' /\ stream_outcome (concat chunks) s s') s)
    as ([] & s' & Hrun & Hs'); [|by exists s'].
  pose proof (read_all_wp chunks s) as H. rewrite Hw in H. apply H; try done.
  by rewrite Hil.
Qed.
End Theorems.

(** ** Instances on the concrete host *)

Lemma demo_room c :
  In c [demo_client; greeted_client; ready_client] -> room (demo_ctx c) CLIENT_MESSAGE_CAP.
Proof.
  intros Hc. apply idle_room; [apply (demo_ctx_ok c Hc)| |done].
  by repeat destruct Hc as [<-|Hc].
Qed.

Lemma demo_sends c bytes :
  In c [demo_client; greeted_client; ready_client] -> zlen bytes <= CLIENT_MESSAGE_CAP ->
  forall s', ~ refused bytes 0 (demo_ctx c) s'.
Proof.
  intros Hc Hb s' [H|[H|[[_ H]|[H _]]]].
  - by repeat destruct Hc as [<-|Hc].
  - lia.
  - apply H. eapply room_mono; [exact Hb|by apply demo_room].
  - cbn in H. lia.
Qed.

(** A PONG goes out on an idle connection. *)
Lemma queue_message_contract_witness :
  exists s', client_queue_message ROADCAST_MSG_PONG 5 7 [] 0 0 (demo_ctx demo_client) = Ok (0, s')
    /\ stream s' = [message_bytes ROADCAST_MSG_PONG 5 7 []].
Proof.
  assert (Hin : In demo_client [demo_client; greeted_client; ready_client]) by (by left).
  destruct (queue_message_contract ROADCAST_MSG_PONG 5 7 [] 0 0 (demo_ctx demo_client))
    as (r & s' & Hrun & (_ & _ & _ & _ & [H|[H|H]])).
  - apply (demo_ctx_ok demo_client Hin).
  - done.
  - destruct H as (_ & Hr & _). exfalso. revert Hr. by apply demo_sends.
  - destruct H as (-> & _ & _ & _ & Hst & _). exists s'. split; [exact Hrun|exact Hst].
  - by destruct H as (_ & Hd & _).
Defined.

(** A client whose snapshot is complete subscribes. *)
Definition ready_replica : replica :=
  mk_replica (sv_frames demo_server) (sv_signals demo_server).

Lemma ready_at_snapshot : at_snapshot ready_replica 0 (demo_ctx ready_client).
Proof.
  pose proof demo_server_ok as (_ & _ & Hids & _).
  split; [apply demo_ctx_ok; right; right; by left|]. split; [cbn; lia|]. split; [done|].
  change (replica_of ready_replica 0 (demo_ctx ready_client)) with ready_replica.
  split; [exact Hids|]. split; [exact Hids|]. auto with roadcast.
Qed.

Lemma subscription_converges_witness :
  exists s', queue_subscription_catchup (demo_ctx ready_client) = Ok (0, s')
    /\ (stalled ready_replica 0 s' \/ caught_up ready_replica 0 s').
Proof.
  destruct (subscription_converges ready_replica 0 (demo_ctx ready_client) ready_at_snapshot)
    as (r & s' & Hrun & (_ & _ & _ & [[_ Hw]|[-> H]])).
  - unfold write_fails, failed_writes in Hw. cbn in Hw. lia.
  - exists s'. split; [exact Hrun|exact H].
Defined.

(** A PING is answered, and a PING before the greeting is not. *)
Definition ping : roadcast_header_t := mk_header ROADCAST_PROTOCOL_VERSION ROADCAST_MSG_PING 0 0 0 0.

Lemma process_command_implements_protocol_witness :
  exists r s', process_command ping [] (demo_ctx greeted_client) = Ok (r, s')
    /\ answered (Reply (message_bytes ROADCAST_MSG_PONG 0 1000 []) greeted_client)
         (demo_ctx greeted_client) r s'.
Proof.
  apply (process_command_implements_protocol ping [] (demo_ctx greeted_client)).
  - apply demo_ctx_ok. right. by left.
  - constructor.
  - reflexivity.
Defined.

(** An acceptable HELLO on the concrete host, which accepts every write. *)
Definition hello : roadcast_header_t :=
  mk_header ROADCAST_PROTOCOL_VERSION ROADCAST_MSG_HELLO 0 8 0 0.

Lemma hello_comes_first_witness :
  exists s', process_command hello (hello_bytes (3, 3, 3)) (demo_ctx demo_client) = Ok (0, s')
    /\ stream s' = [welcome_message demo_server].
Proof.
  destruct (hello_comes_first hello (hello_bytes (3, 3, 3)) (demo_ctx demo_client)) as (r & s' & Hrun & H).
  - apply demo_ctx_ok. by left.
  - vm_compute. repeat constructor; discriminate.
  - reflexivity.
  - reflexivity.
  - destruct H as [(_ & -> & _ & _ & H)|[(_ & _ & Hno & _)|(Hno & _)]].
    + exists s'. split; [exact Hrun|exact H].
    + exfalso. destruct Hno as [H|[H|H]]; [discriminate H| |unfold write_fails, failed_writes in H; cbn in H; lia].
      apply H, demo_room. by left.
    + exfalso. apply Hno. split; [reflexivity|]. split; [reflexivity|]. split; [reflexivity|].
      exists 3, 3, 3. split; [vm_compute; reflexivity|unfold ROADCAST_PROTOCOL_VERSION; lia].
Defined.

(** The bytes of a PING in two reads. *)
Lemma reads_run_messages_witness :
  exists s', read_all [take 20 (header_bytes ping); drop 20 (header_bytes ping)]
               (demo_ctx greeted_client) = Ok (tt, s')
    /\ ctx_ok s' /\ stream_outcome (header_bytes ping) (demo_ctx greeted_client) s'.
Proof.
  apply (reads_run_messages [take 20 (header_bytes ping); drop 20 (header_bytes ping)]
           (demo_ctx greeted_client)).
  - apply demo_ctx_ok. right. by left.
  - discriminate.
  - reflexivity.
  - reflexivity.
  - apply Forall_cons_2; [apply Forall_take|apply Forall_cons_2; [apply Forall_drop|constructor]];
      vm_compute; repeat constructor; discriminate.
  - vm_compute. reflexivity.
Defined.

(** A catch-up that waits: the only slot of the queue is in use. *)
Definition busy_slot : output_slot_t := zero_slot <| slot_length := 2048 |> <| in_use := 1 |>.
Definition chasing_client : roadcast_client_t := ready_client <| catchup_active := 1 |>.
Definition busy_client : roadcast_client_t :=
  chasing_client <| output := <[0%nat := busy_slot]> (output chasing_client) |>
    <| pending_bytes := 2048 |>.
Definition busy_ctx : ctx host_t :=
  mk_ctx 3 busy_client (demo_server <| client_queue_slots := 1 |>) demo_host.

Lemma busy_stalled : stalled ready_replica 0 busy_ctx.
Proof.
  pose proof demo_server_ok as (Hsl & Hsv).
  assert (Hok : ctx_ok (demo_ctx ready_client)) by (apply demo_ctx_ok; right; right; by left).
  destruct Hok as [[_ Hq] Hd]. pose proof Hsv as (_ & Hids & _).
  assert (Hq1 : queue_ok 1 busy_client).
  { unfold busy_client. apply queue_ok_insert with (x := zero_slot).
    - pose proof (zero_client_queue_ok 1 ltac:(done)) as (H1 & H2 & H3 & H4).
      split; [exact H1|]. split; [exact H2|]. split; [exact H3|exact H4].
    - change (repeat zero_slot 20 !! 0%nat = Some zero_slot). reflexivity.
    - split; [done|]. right. split; [done|]. done.
    - reflexivity.
    - done. }
  split; [|right].
  - split; [split; [split; [split; [cbn; unfold CLIENT_QUEUE_SLOTS in *; lia|exact Hsv]|exact Hq1]|]|].
    { cbn. data_ok_tac Hd. }
    split; [cbn; lia|]. split; [done|]. split; [done|].
    change (replica_of ready_replica 0 busy_ctx) with ready_replica.
    split; [exact Hids|]. split; [exact Hids|].
    change (frames_todo busy_client) with (@nil Z).
    change (signals_todo busy_client) with (@nil Z). auto with roadcast.
  - intros (Hfree & _). vm_compute in Hfree. done.
Qed.

Lemma catchup_resumes_witness :
  exists s', on_client_write 0 0 busy_ctx = Ok (tt, s')
    /\ (stalled ready_replica 0 s' \/ caught_up ready_replica 0 s').
Proof.
  destruct (catchup_resumes ready_replica 0 0 0 busy_slot busy_ctx) as (_ & s' & Hrun & _ & H).
  - apply busy_stalled.
  - discriminate.
  - reflexivity.
  - reflexivity.
  - reflexivity.
  - reflexivity.
  - reflexivity.
  - exists s'. split; [exact Hrun|]. destruct H as [H|[H|[Hw _]]]; [by left|by right|].
    exfalso. unfold write_fails, failed_writes in Hw. cbn in Hw. lia.
Defined.
