(* ===== verification/DaemonOps.v ===== *)
(** * The event loop of the daemon: src/roadcastd.c, from [find_available_client]

    Accepting connections, distributing samples, heartbeats, statistics and
    shutdown.  Unlike the handlers of ServerOps.v these act on the whole client
    array: [at_client] runs a handler on one element of it. *)

From Stdlib Require Import String.
From S2P Require Import Prelude Wire CatalogDefs Catalog SourceSession Sampler ServerDefs.
From S2P Require Import ServerOps.

(** The fields of the server and of the sampler that only the start and the end
    of the process touch. *)
Record process_t := mk_process {
  socket_path : list Z;
  listener_initialized : Z;
  async_initialized : Z;
  heartbeat_initialized : Z;
  stats_initialized : Z;
  sigint_initialized : Z;
  sigterm_initialized : Z;
  thread_started : Z;
  stop_requested : bool;
}.

#[export] Instance eta_process : Eta process_t := fun p =>
  mk_process (socket_path p) (listener_initialized p) (async_initialized p)
    (heartbeat_initialized p) (stats_initialized p) (sigint_initialized p)
    (sigterm_initialized p) (thread_started p) (stop_requested p).

(** The state of the process: the server without its array, the array, the
    sampler with the two locals of its thread, and the outside world. *)
Record daemon (V W : Type) := mk_daemon {
  server : roadcast_server_t;
  clients : list roadcast_client_t;
  sampler : sampler_t V;
  process : process_t;
  thread_sequence : Z;
  thread_next_tick : Z;
  world : W;
}.
Arguments mk_daemon {V W}.
Arguments server {V W}.
Arguments clients {V W}.
Arguments sampler {V W}.
Arguments process {V W}.
Arguments thread_sequence {V W}.
Arguments thread_next_tick {V W}.
Arguments world {V W}.

#[export] Instance eta_daemon {V W} : Eta (daemon V W) := fun d =>
  mk_daemon (server d) (clients d) (sampler d) (process d) (thread_sequence d)
    (thread_next_tick d) (world d).

Section DaemonOps.
Context `{Catalog} {V W : Type} `{K : !Clock W} `{U : !Uv W} `{S : !VhalSource V W}.
Implicit Types d : daemon V W.

(** ** Handlers on the array *)

Definition at_client {A} (i : Z) (m : M W A) d : res (A * daemon V W) :=
  client ← rd (clients d) i;
  '(a, s) ← m (mk_ctx i client (server d) (world d));
  clients' ← wr (clients d) i (cl s);
  mret (a, d <| server := sv s |> <| clients := clients' |> <| world := env s |>).

(** [for (size_t i = 0; i < MAX_CLIENTS; i++)] *)
Definition each_client (m : M W unit) d : res (daemon V W) :=
  loop (Z.to_nat MAX_CLIENTS) 0 (fun i d => '(_, d) ← at_client i m d; mret d) d.

Definition active_client_count d : Z :=
  sumZ (fun c => if active c =? 0 then 0 else 1) (clients d).

(** ** Connections *)

Fixpoint find_available_client (cs : list roadcast_client_t) (n : nat) (i : Z) : res (option Z) :=
  match n with
  | O => Ok None
  | Datatypes.S n =>
      client ← rd cs i;
      if (active client =? 0) && (closing client =? 0) then Ok (Some i)
      else find_available_client cs n (i + 1)
  end.

Definition active_clients_for_uid (cs : list roadcast_client_t) (uid : Z) : Z :=
  sumZ (fun c => if negb (active c =? 0) && (peer_uid c =? uid) then 1 else 0) cs.

Definition read_peer_credentials : M W (option (Z * Z)) :=
  descriptor ← call uv_fileno;
  match descriptor with
  | None => mret None
  | Some fd =>
      credentials ← call (fun _ => getsockopt_peercred fd);
      match credentials with
      | Some (uid, pid, length_) =>
          if negb (length_ =? UCRED_SIZE) then mret None else mret (Some (uid, pid))
      | None => mret None
      end
  end.

(** Room for the output in the kernel. *)
Definition set_send_buffer : M W unit :=
  descriptor ← call uv_fileno;
  match descriptor with
  | Some fd => act (fun _ => setsockopt_sndbuf fd CLIENT_SOCKET_SEND_BUFFER)
  | None => mret tt
  end.

(** A connection that finds no free element is accepted only to be closed; its
    stream is freed when it has been closed. *)
Definition reject_connection (w : W) : W :=
  let '(rejected, w) := calloc_stream w in
  match rejected with
  | None => w
  | Some r =>
      let '(result, w) := uv_pipe_init r w in
      if result <? 0 then free_stream r w
      else
        let '(result, w) := uv_accept r w in
        if result <? 0 then uv_close r w else uv_close r w
  end.

Definition on_rejected_client_closed (r : Z) d : daemon V W :=
  d <| world := free_stream r (world d) |>.

(** The connection on a free element; [cs] is the array with it zeroed. *)
Definition accept_client (cs : list roadcast_client_t) : M W unit :=
  modc (fun _ => zero_client);;
  result ← call uv_pipe_init;
  if result <? 0 then mret tt
  else
    result ← call uv_accept;
    if result <? 0 then
      act uv_close;;
      modc (fun c => c <| closing := 1 |>)
    else
      credentials ← read_peer_credentials;
      match credentials with
      | Some (uid, pid) =>
          if MAX_CLIENTS_PER_UID <=? active_clients_for_uid cs uid then
            mods (fun s => s <| stats := (stats s) <| peer_limit_rejections :=
                    u64 (peer_limit_rejections (stats s) + 1) |> |>);;
            modc (fun c => c <| active := 1 |>);;
            client_close
          else
            modc (fun c => c <| peer_uid := uid |>);;
            modc (fun c => c <| peer_pid := pid |>);;
            now ← call (fun _ => monotonic_ns);
            modc (fun c => c <| hello_deadline_ns := u64 (now + HELLO_TIMEOUT_NS) |>);;
            modc (fun c => c <| setup_deadline_ns := u64 (now + SETUP_TIMEOUT_NS) |>);;
            modc (fun c => c <| active := 1 |>);;
            set_send_buffer;;
            result ← call uv_read_start;
            if result <? 0 then client_close else mret tt
      | None =>
          mods (fun s => s <| stats := (stats s) <| peer_limit_rejections :=
                  u64 (peer_limit_rejections (stats s) + 1) |> |>);;
          modc (fun c => c <| active := 1 |>);;
          client_close
      end.

Definition on_connection (status : Z) d : res (daemon V W) :=
  if (status <? 0) || negb (shutting_down (server d) =? 0) then mret d
  else
    client ← find_available_client (clients d) (Z.to_nat MAX_CLIENTS) 0;
    match client with
    | None => mret (d <| world := reject_connection (world d) |>)
    | Some i =>
        '(_, d) ← at_client i (accept_client (<[Z.to_nat i := zero_client]> (clients d))) d;
        mret d
    end.

(** ** Distribution of samples *)

Definition reconcile_signal (timestamp_ns_ : Z) (latest canonical : roadcast_signal_value_t)
  : roadcast_signal_value_t :=
  if sig_state latest =? ROADCAST_OBSERVATION_UNAVAILABLE then
    if negb (sig_first_observed_ns canonical =? 0) then
      latest <| sig_first_observed_ns := sig_first_observed_ns canonical |>
             <| sig_last_change_ns := sig_last_change_ns canonical |>
             <| raw := raw canonical |> <| physical := physical canonical |>
    else latest <| sig_first_observed_ns := 0 |> <| sig_last_change_ns := 0 |>
  else if negb (sig_first_observed_ns canonical =? 0) then
    let latest := latest <| sig_first_observed_ns := sig_first_observed_ns canonical |> in
    if (raw latest =? raw canonical) && (sig_state latest =? sig_state canonical)
    then latest <| sig_last_change_ns := sig_last_change_ns canonical |>
    else latest <| sig_last_change_ns := timestamp_ns_ |>
  else if sig_state latest =? ROADCAST_OBSERVATION_VALID then
    latest <| sig_first_observed_ns := timestamp_ns_ |> <| sig_last_change_ns := timestamp_ns_ |>
  else latest <| sig_first_observed_ns := 0 |> <| sig_last_change_ns := 0 |>.

Definition reconcile_signal_timestamps (latest canonical : list roadcast_signal_value_t)
    (timestamp_ns_ : Z) : list roadcast_signal_value_t :=
  zip_with (reconcile_signal timestamp_ns_) latest canonical.

(** Signals of frames that have not changed keep their values. *)
Definition redecode_signal (latest : list roadcast_frame_t) (frame_changed : list bool) (i : Z)
    (values : list roadcast_signal_value_t) : res (list roadcast_signal_value_t) :=
  def ← rd SIGNALS i;
  changed ← rd frame_changed (frame_index def);
  if negb changed then mret values
  else
    frame ← rd latest (frame_index def);
    v ← rd values i;
    raw_ ← roadcast_decode_signal_raw def (data frame);
    physical_ ← roadcast_decode_signal_physical def raw_;
    wr values i (v <| raw := raw_ |> <| physical := physical_ |> <| sig_state := state frame |>
                   <| calibrated := def_calibrated def |>).

Definition reflag_signal (frame_changed : list bool) (i : Z)
    (values : list roadcast_signal_value_t) : res (list roadcast_signal_value_t) :=
  def ← rd SIGNALS i;
  let inv := def_invalid_signal_index def in
  if inv =? UINT32_MAX then mret values
  else
    own ← rd frame_changed (frame_index def);
    go ← (if (own : bool) then mret true
          else inv_def ← rd SIGNALS inv; rd frame_changed (frame_index inv_def));
    if negb go then mret values
    else
      v ← rd values i;
      if negb (sig_state v =? ROADCAST_OBSERVATION_VALID) then mret values
      else
        flag ← rd values inv;
        if negb (raw flag =? 0)
        then wr values i (v <| sig_state := ROADCAST_OBSERVATION_INVALID |>)
        else mret values.

Definition redecode_signals (latest old : list roadcast_frame_t)
    (values : list roadcast_signal_value_t) (timestamp_ns_ : Z)
  : res (list roadcast_signal_value_t) :=
  let frame_changed := zip_with frame_differs latest old in
  latest_signals ← loop (length SIGNALS) 0 (redecode_signal latest frame_changed) values;
  latest_signals ← loop (length SIGNALS) 0 (reflag_signal frame_changed) latest_signals;
  mret (reconcile_signal_timestamps latest_signals values timestamp_ns_).

(** A chunk is the length of its payload and the payload; the length is 0 when
    the encoder fails.  More chunks than the array holds is undefined. *)
Definition chunk_of (encoded : res (Z * list Z)) : res (Z * list Z) :=
  match encoded with
  | Ok chunk => Ok chunk
  | Fail => Ok (0, payload_buffer)
  | UB => UB
  end.

Fixpoint frame_chunks (fuel : nat) (frames : list roadcast_frame_t) (sequence_ : Z)
    (changed : list Z) (frame_offset num_frame_chunks : Z) : res (list (Z * list Z)) :=
  if frame_offset <? zlen changed then
    match fuel with
    | O => Fail
    | Datatypes.S fuel =>
        let chunk_count := Z.min (zlen changed - frame_offset) FRAMES_PER_MESSAGE in
        if FRAME_BATCH_CHUNKS <=? num_frame_chunks then UB
        else
          chunk ← chunk_of (roadcast_encode_frame_batch payload_buffer PAYLOAD_CAP sequence_
                              FRAME_COUNT UINT32_MAX frames
                              (Some (drop (Z.to_nat frame_offset) changed)) chunk_count);
          chunks ← frame_chunks fuel frames sequence_ changed (frame_offset + chunk_count)
                     (num_frame_chunks + 1);
          mret (chunk :: chunks)
    end
  else mret [].

Fixpoint signal_chunks (fuel : nat) (signals : list roadcast_signal_value_t) (sequence_ : Z)
    (changed : list Z) (signal_offset num_signal_chunks : Z) : res (list (Z * list Z)) :=
  if signal_offset <? zlen changed then
    match fuel with
    | O => Fail
    | Datatypes.S fuel =>
        let chunk_count := Z.min (zlen changed - signal_offset) SIGNALS_PER_MESSAGE in
        if SIGNAL_BATCH_CHUNKS <=? num_signal_chunks then UB
        else
          chunk ← chunk_of (roadcast_encode_signal_batch payload_buffer PAYLOAD_CAP sequence_
                              SIGNAL_COUNT UINT32_MAX signals
                              (Some (drop (Z.to_nat signal_offset) changed)) chunk_count);
          chunks ← signal_chunks fuel signals sequence_ changed (signal_offset + chunk_count)
                     (num_signal_chunks + 1);
          mret (chunk :: chunks)
    end
  else mret [].

(** The two inner loops of the broadcast: a failed chunk closes the client. *)
Fixpoint send_chunks (type_ timestamp_ns_ : Z) (chunks : list (Z * list Z)) : M W unit :=
  match chunks with
  | [] => mret tt
  | (length_, payload) :: chunks =>
      client ← getc;
      server ← gets;
      if (active client =? 0) || negb (needs_resync client =? 0) then mret tt
      else
        r ← (if length_ =? 0 then mret (-1)
             else client_queue_message type_ (change_sequence server) timestamp_ns_
                    payload length_ 1);
        if r <? 0 then client_close else send_chunks type_ timestamp_ns_ chunks
  end.

Definition wants_updates (client : roadcast_client_t) : bool :=
  negb (active client =? 0) && negb (subscribed client =? 0) && (needs_resync client =? 0).

Definition broadcast (timestamp_ns_ : Z) (fcs scs : list (Z * list Z)) : M W unit :=
  client ← getc;
  if negb (wants_updates client) then mret tt
  else
    send_chunks ROADCAST_MSG_UPDATE_BATCH timestamp_ns_ fcs;;
    client ← getc;
    if (active client =? 0) || negb (needs_resync client =? 0) then mret tt
    else send_chunks ROADCAST_MSG_SIGNAL_UPDATE_BATCH timestamp_ns_ scs.

(** The sample counters. *)
Definition count_sample (sequence_ timestamp_ns_ : Z) (s : roadcast_server_t) : roadcast_server_t :=
  let elapsed_ticks := u64 (sequence_ - sample_sequence s) in
  s <| sample_sequence := sequence_ |> <| sample_timestamp_ns := timestamp_ns_ |>
    <| stats := (stats s) <| ticks := u64 (ticks (stats s) + elapsed_ticks) |>
         <| stats_coalesced_samples :=
              u64 (stats_coalesced_samples (stats s) + (elapsed_ticks - 1)) |> |>
    <| coalesced_samples := u64 (coalesced_samples s + (elapsed_ticks - 1)) |>.

Definition count_chunks (n : Z) (s : roadcast_server_t) : roadcast_server_t :=
  s <| stats := (stats s) <| serialized_chunks := u64 (serialized_chunks (stats s) + n) |> |>.

Definition distribute_latest_sample d : res (daemon V W) :=
  let '(latest, sequence_, timestamp_ns_) := sampler_read_latest (sampler d) in
  let s := server d in
  if sequence_ <=? sample_sequence s then mret d
  else
    let changed := changed_indices frame_differs 0 latest (sv_frames s) in
    if zlen changed =? 0 then
      mret (d <| server := count_sample sequence_ timestamp_ns_ (s <| sv_frames := latest |>) |>)
    else
      latest_signals ← redecode_signals latest (sv_frames s) (sv_signals s) timestamp_ns_;
      let changed_signals := changed_indices signal_differs 0 latest_signals (sv_signals s) in
      let s := count_sample sequence_ timestamp_ns_
                 (s <| sv_frames := latest |> <| sv_signals := latest_signals |>) in
      let s := s <| stats := (stats s) <| changed_frames :=
                      u64 (changed_frames (stats s) + zlen changed) |> |> in
      if (zlen changed =? 0) && (zlen changed_signals =? 0) then mret (d <| server := s |>)
      else
        let s := s <| change_sequence := u64 (change_sequence s + 1) |> in
        if negb (existsb wants_updates (clients d)) then mret (d <| server := s |>)
        else
          fcs ← frame_chunks (length changed) (sv_frames s) sequence_ changed 0 0;
          let s := count_chunks (zlen fcs) s in
          scs ← signal_chunks (length changed_signals) (sv_signals s) sequence_ changed_signals 0 0;
          let s := count_chunks (zlen scs) s in
          each_client (broadcast timestamp_ns_ fcs scs) (d <| server := s |>).

Definition on_sample_notification d : res (daemon V W) := distribute_latest_sample d.

(** ** Heartbeats *)

Definition heartbeat_client (now source_state_ : Z) : M W unit :=
  client ← getc;
  server ← gets;
  if negb (active client =? 0) && (greeted client =? 0) && (hello_deadline_ns client <=? now) then
    mods (fun s => s <| stats := (stats s) <| hello_timeouts :=
                          u64 (hello_timeouts (stats s) + 1) |> |>);;
    client_close
  else if negb (active client =? 0) && negb (greeted client =? 0) && (subscribed client =? 0)
          && negb (setup_deadline_ns client =? 0) && (setup_deadline_ns client <=? now) then
    mods (fun s => s <| stats := (stats s) <| setup_timeouts :=
                          u64 (setup_timeouts (stats s) + 1) |> |>);;
    client_close
  else if (active client =? 0) || (greeted client =? 0) || (subscribed client =? 0)
          || negb (needs_resync client =? 0) then mret tt
  else
    '(length_, payload) ← mem (roadcast_encode_heartbeat
      (repeat 0 (Z.to_nat ROADCAST_HEARTBEAT_SIZE))
      (mk_heartbeat (sample_sequence server) (change_sequence server) (dropped_batches client)
         (coalesced_samples server) (effective_hz_millihz server) source_state_));
    r ← client_queue_message ROADCAST_MSG_HEARTBEAT (change_sequence server)
          (sample_timestamp_ns server) payload length_ 1;
    if r <? 0 then client_close else mret tt.

(** The sampling rate since the last heartbeat, in mHz. *)
Definition measure_rate (now : Z) (s : roadcast_server_t) : roadcast_server_t :=
  let s := if negb (heartbeat_previous_ns s =? 0) && (heartbeat_previous_ns s <? now) then
             let elapsed_ns := u64 (now - heartbeat_previous_ns s) in
             let elapsed_samples := u64 (sample_sequence s - heartbeat_previous_sequence s) in
             s <| effective_hz_millihz := u32 (u64 (elapsed_samples * 1000000000000) / elapsed_ns) |>
           else s in
  s <| heartbeat_previous_ns := now |> <| heartbeat_previous_sequence := sample_sequence s |>.

Definition on_heartbeat d : res (daemon V W) :=
  let '(now, w) := monotonic_ns (world d) in
  let d := d <| world := w |> in
  each_client (heartbeat_client now (source_state (sampler d)))
    (d <| server := measure_rate now (server d) |>).

(** ** Statistics and shutdown *)

(** The counters restart; the report itself is text on stderr. *)
Definition on_stats d : daemon V W :=
  d <| server := (server d) <| stats :=
         mk_stats 0 0 0 0 (source_errors (sampler d)) (fallback_batches (sampler d)) 0 0 0 0 |> |>.

Definition sampler_stop d : daemon V W :=
  let d := d <| process := (process d) <| stop_requested := true |> |> in
  if negb (thread_started (process d) =? 0) then
    d <| world := pthread_join (world d) |>
      <| process := (process d) <| thread_started := 0 |> |>
  else d.

Definition close_handle (h : server_handle) (w : W) : W :=
  if handle_is_closing h w then w else handle_close h w.

(** The handles that have been initialized; the timers and the signal handles
    are stopped first. *)
Definition close_server_handles (p : process_t) (w : W) : W :=
  let w := if negb (listener_initialized p =? 0) then close_handle listener w else w in
  let w := if negb (async_initialized p =? 0) then close_handle sample_notification w else w in
  let w := if negb (heartbeat_initialized p =? 0)
           then close_handle heartbeat_timer (handle_stop heartbeat_timer w) else w in
  let w := if negb (stats_initialized p =? 0)
           then close_handle stats_timer (handle_stop stats_timer w) else w in
  let w := if negb (sigint_initialized p =? 0)
           then close_handle sigint_handle (handle_stop sigint_handle w) else w in
  if negb (sigterm_initialized p =? 0)
  then close_handle sigterm_handle (handle_stop sigterm_handle w) else w.

Definition server_shutdown d : res (daemon V W) :=
  if negb (shutting_down (server d) =? 0) then mret d
  else
    let d := d <| server := (server d) <| shutting_down := 1 |> |> in
    let d := sampler_stop d in
    d ← each_client client_close d;
    mret (d <| world := close_server_handles (process d) (world d) |>).

Definition on_signal d : res (daemon V W) := server_shutdown d.

(** ** The sampling thread and the start of the process *)

(** A turn of the thread; it ends at either test of [stop_requested]. *)
Definition thread_step d : daemon V W :=
  let stop := stop_requested (process d) in
  match sampler_iteration stop stop (sampler d) (thread_sequence d) (thread_next_tick d) (world d) with
  | (Some (sampler', sequence_, next_tick), w) =>
      d <| sampler := sampler' |> <| thread_sequence := sequence_ |>
        <| thread_next_tick := next_tick |> <| world := w |>
  | (None, w) => d <| world := w |>
  end.

Definition initial_signal (timestamp_ns_ : Z) (v : roadcast_signal_value_t)
  : roadcast_signal_value_t :=
  if sig_state v =? ROADCAST_OBSERVATION_VALID
  then v <| sig_first_observed_ns := timestamp_ns_ |> <| sig_last_change_ns := timestamp_ns_ |>
  else v <| sig_first_observed_ns := 0 |> <| sig_last_change_ns := 0 |>.

(** What [memset] leaves. *)
Definition zero_process : process_t :=
  mk_process (repeat 0 (Z.to_nat SUN_PATH_SIZE)) 0 0 0 0 0 0 0 false.

(** [main] up to the event loop, for options in range; [None] when the sampler
    cannot be initialized. *)
Definition daemon_init (hz_ fake_ slots : Z) (alloc : option string) (w : W)
  : res (option (daemon V W)) :=
  match sampler_init hz_ fake_ alloc w with
  | (None, _) => mret None
  | (Some sampler, w) =>
      let '(frames, sequence_, timestamp_ns_) := sampler_read_latest sampler in
      signals ← roadcast_decode_signals frames;
      mret (Some (mk_daemon
        (mk_server frames (map (initial_signal timestamp_ns_) signals) sequence_ 0 timestamp_ns_
           0 0 0 (u32 (hz_ * 1000)) hz_ slots
           (mk_stats 0 0 0 0 (source_errors sampler) (fallback_batches sampler) 0 0 0 0) 0)
        (repeat zero_client (Z.to_nat MAX_CLIENTS)) sampler zero_process sequence_ 0 w))
  end.
End DaemonOps.
