(* ===== verification/Distribute.v ===== *)
(** * Incremental decoding: src/roadcastd.c, [distribute_latest_sample]

    The daemon decodes only the signals of the frames that changed.  The result
    is what a full decoding gives, and a signal whose frame did not change is not
    touched. *)

From S2P Require Import Prelude Wire CatalogDefs Catalog SourceSession Sampler ServerDefs.
From S2P Require Import ServerOps ServerQueue ServerClient Replica DaemonOps.

Section Redecode.
Context `{HC : CatalogOk}.
Context (latest old : list roadcast_frame_t) (Hl : frames_ok latest) (Ho : frames_ok old).

(** The frame of the signal has changed. *)
Definition signal_changed (d : roadcast_signal_definition_t) : bool :=
  frame_differs (frame_of latest d) (frame_of old d).

(** The freshly decoded value, before its times are reconciled. *)
Definition fresh (d : roadcast_signal_definition_t) (v : roadcast_signal_value_t)
  : roadcast_signal_value_t :=
  if signal_changed d then
    let s := signal_spec latest d in
    mk_value (raw s) (physical s) (sig_first_observed_ns v) (sig_last_change_ns v) (sig_state s)
      (calibrated s)
  else v.

(** The same before the validity flags. *)
Definition unflagged (d : roadcast_signal_definition_t) (v : roadcast_signal_value_t)
  : roadcast_signal_value_t :=
  if signal_changed d then
    let s := base_value latest d in
    mk_value (raw s) (physical s) (sig_first_observed_ns v) (sig_last_change_ns v) (sig_state s)
      (calibrated s)
  else v.

Definition by_definition (f : roadcast_signal_definition_t -> roadcast_signal_value_t ->
    roadcast_signal_value_t) (k : nat) (v : roadcast_signal_value_t) : roadcast_signal_value_t :=
  match SIGNALS !! k with Some d => f d v | None => v end.

Lemma frame_changed_read d :
  d ∈ SIGNALS -> rd (zip_with frame_differs latest old) (frame_index d) = Ok (signal_changed d).
Proof.
  intros Hd. destruct (definition_frame d) as [Hi _]; [by apply definition_ok_facts|].
  destruct Hl as [Hl1 _], Ho as [Ho1 _]. unfold zlen in *.
  destruct (lookup_lt_is_Some_2 latest (Z.to_nat (frame_index d))) as [f Hf]; [lia|].
  destruct (lookup_lt_is_Some_2 old (Z.to_nat (frame_index d))) as [g Hg]; [lia|].
  rewrite <- (Z2Nat.id (frame_index d)) at 1 by lia. apply rd_Some.
  rewrite lookup_zip_with, Hf. cbn. rewrite Hg. cbn.
  unfold signal_changed, frame_of. by rewrite Hf, Hg.
Qed.

Lemma redecode_loop values :
  length values = length SIGNALS ->
  loop (length SIGNALS) 0 (redecode_signal latest (zip_with frame_differs latest old)) values
  = Ok (imap (by_definition unflagged) values).
Proof.
  intros Hv. rewrite <- Hv. apply loop_pointwise. intros k v l' Hk Hll Hge _.
  destruct (lookup_lt_is_Some_2 SIGNALS k) as [d Hd]; [apply lookup_lt_Some in Hk; lia|].
  assert (Hin : d ∈ SIGNALS) by (by eapply list_elem_of_lookup_2).
  assert (Hv' : l' !! k = Some v) by (by rewrite Hge).
  unfold redecode_signal. rewrite (rd_Some _ _ _ Hd), bind_ok, frame_changed_read, bind_ok by done.
  unfold by_definition, unflagged. rewrite Hd. destruct (signal_changed d); cbn [negb].
  2: { by rewrite list_insert_id. }
  destruct (frame_of_ok latest Hl d Hin) as [Hr (_ & _ & Hlen & Hb & _)].
  pose proof (definition_ok_facts d Hin) as Hok.
  rewrite Hr, bind_ok, (rd_Some _ _ _ Hv'), bind_ok.
  destruct (decode_raw_value d (data (frame_of latest d))) as [-> Hrange]; [done..|].
  rewrite bind_ok, decode_physical_value by (done || by definition_facts Hok). rewrite bind_ok.
  rewrite wr_ok by (apply lookup_lt_Some in Hv'; unfold zlen; lia). by rewrite Nat2Z.id.
Qed.

(** The flag of a signal of a changed frame has just been decoded. *)
Lemma reflag_flag values (l' : list roadcast_signal_value_t) d flag :
  length values = length SIGNALS -> d ∈ SIGNALS -> signal_changed d = true ->
  def_invalid_signal_index d <> UINT32_MAX ->
  SIGNALS !! Z.to_nat (def_invalid_signal_index d) = Some flag ->
  (forall k u, l' !! k = Some u -> exists u0, imap (by_definition unflagged) values !! k = Some u0
                                              /\ raw u = raw u0) ->
  forall u, l' !! Z.to_nat (def_invalid_signal_index d) = Some u ->
  negb (raw u =? 0) = flagged latest d.
Proof.
  intros Hlen Hd Hch Hne Hflag Hraw u Hu.
  destruct (definition_index d (definition_ok_facts d Hd) Hne) as (flag' & Hf' & _ & Hfi).
  rewrite Hflag in Hf'. injection Hf' as <-.
  destruct (Hraw _ _ Hu) as (u0 & Hu0 & ->). rewrite list_lookup_imap in Hu0.
  destruct (values !! Z.to_nat (def_invalid_signal_index d)) as [v|]; [|done].
  injection Hu0 as <-. unfold by_definition, unflagged. rewrite Hflag.
  assert (signal_changed flag = true) as -> by (unfold signal_changed, frame_of in *; by rewrite Hfi).
  cbn. unfold flagged. destruct (Z.eqb_spec (def_invalid_signal_index d) UINT32_MAX); [done|].
  by rewrite Hflag.
Qed.
(** What the second loop does to one signal. *)
Definition flag_step (d : roadcast_signal_definition_t) (v : roadcast_signal_value_t)
  : roadcast_signal_value_t :=
  if signal_changed d && (sig_state v =? ROADCAST_OBSERVATION_VALID) && flagged latest d
  then v <| sig_state := ROADCAST_OBSERVATION_INVALID |> else v.

Lemma flag_step_raw d v : raw (flag_step d v) = raw v.
Proof. unfold flag_step. by destruct (_ && _ && _). Qed.

Lemma fresh_flag_step d v : flag_step d (unflagged d v) = fresh d v.
Proof.
  unfold flag_step, unflagged, fresh. destruct (signal_changed d); [|done]. cbn [andb].
  unfold signal_spec. cbn -[ROADCAST_OBSERVATION_VALID ROADCAST_OBSERVATION_INVALID].
  by destruct (_ && flagged latest d).
Qed.

Lemma reflag_loop values :
  length values = length SIGNALS ->
  loop (length SIGNALS) 0 (reflag_signal (zip_with frame_differs latest old))
    (imap (by_definition unflagged) values)
  = Ok (imap (by_definition fresh) values).
Proof.
  intros Hv. set (l := imap (by_definition unflagged) values).
  assert (Hll : length l = length SIGNALS) by (unfold l; by rewrite length_imap).
  rewrite <- Hll, (loop_pointwise (by_definition flag_step)).
  { f_equal. unfold l. apply list_eq. intros k. rewrite !list_lookup_imap.
    destruct (values !! k) as [v|]; [|done]. cbn. f_equal. unfold by_definition.
    destruct (SIGNALS !! k); [apply fresh_flag_step|done]. }
  intros k v l' Hk Hlen Hge Hlt.
  destruct (lookup_lt_is_Some_2 SIGNALS k) as [d Hd]; [apply lookup_lt_Some in Hk; lia|].
  assert (Hin : d ∈ SIGNALS) by (by eapply list_elem_of_lookup_2).
  assert (Hv' : l' !! k = Some v) by (by rewrite Hge).
  assert (Hraw : forall j u, l' !! j = Some u -> exists u0, l !! j = Some u0 /\ raw u = raw u0).
  { intros j u Hu. destruct (decide (j < k)%nat) as [Hj|Hj]; [|exists u; by rewrite <- Hge by lia].
    rewrite Hlt in Hu by done. destruct (l !! j) as [u0|]; [|done]. injection Hu as <-.
    exists u0. split; [done|]. unfold by_definition. destruct (SIGNALS !! j); [apply flag_step_raw|done]. }
  unfold reflag_signal. rewrite (rd_Some _ _ _ Hd), bind_ok. cbn zeta.
  unfold by_definition, flag_step. rewrite Hd.
  assert (Hsame : mret l' = Ok (<[k := v]> l')) by (by rewrite list_insert_id).
  destruct (Z.eqb_spec (def_invalid_signal_index d) UINT32_MAX) as [E|Hne].
  { unfold flagged. rewrite E, Z.eqb_refl, andb_false_r. exact Hsame. }
  destruct (definition_index d (definition_ok_facts d Hin) Hne) as (flag & Hflag & Hi & Hfi).
  rewrite frame_changed_read, bind_ok by done. destruct (signal_changed d) eqn:Hch; cycle 1.
  { pose proof (rd_Some _ _ _ Hflag) as R. rewrite Z2Nat.id in R by lia. rewrite R, bind_ok.
    rewrite frame_changed_read by (by eapply list_elem_of_lookup_2).
    assert (signal_changed flag = false) as ->
      by (unfold signal_changed, frame_of in *; by rewrite Hfi).
    exact Hsame. }
  unfold mret at 1, res_ret at 1. rewrite bind_ok. cbn [negb andb].
  rewrite (rd_Some _ _ _ Hv'), bind_ok.
  destruct (sig_state v =? ROADCAST_OBSERVATION_VALID); cbn [negb andb]; [|exact Hsame].
  destruct (lookup_lt_is_Some_2 l' (Z.to_nat (def_invalid_signal_index d))) as [u Hu].
  { apply lookup_lt_Some in Hflag. lia. }
  pose proof (rd_Some _ _ _ Hu) as R. rewrite Z2Nat.id in R by lia. rewrite R, bind_ok.
  rewrite (reflag_flag values l' d flag Hv Hin Hch Hne Hflag Hraw u Hu).
  destruct (flagged latest d); [|exact Hsame].
  rewrite wr_ok by (apply lookup_lt_Some in Hv'; unfold zlen; lia). by rewrite Nat2Z.id.
Qed.

(** The value of a signal after the sample at [t]. *)
Definition redecoded (t : Z) (d : roadcast_signal_definition_t) (v : roadcast_signal_value_t)
  : roadcast_signal_value_t := reconcile_signal t (fresh d v) v.

Lemma redecode_signals_spec values t :
  length values = length SIGNALS ->
  redecode_signals latest old values t = Ok (imap (by_definition (redecoded t)) values).
Proof.
  intros Hv. unfold redecode_signals. cbn zeta.
  rewrite redecode_loop, bind_ok, reflag_loop, bind_ok by done. unfold mret, res_ret. f_equal.
  unfold reconcile_signal_timestamps. apply list_eq. intros k.
  rewrite lookup_zip_with, !list_lookup_imap. destruct (values !! k) as [v|] eqn:Hk; [|done]. cbn.
  destruct (lookup_lt_is_Some_2 SIGNALS k) as [d Hd]; [apply lookup_lt_Some in Hk; lia|].
  unfold by_definition. by rewrite Hd.
Qed.
End Redecode.

(** ** The signals track the frames *)

(** State and calibration are those of a full decoding; so are the values, except
    that an unavailable signal keeps the last one. *)
Definition tracks `{Catalog} (frames : list roadcast_frame_t) (d : roadcast_signal_definition_t)
    (v : roadcast_signal_value_t) : Prop :=
  calibrated v = def_calibrated d /\ sig_state v = sig_state (signal_spec frames d)
  /\ (sig_state v <> ROADCAST_OBSERVATION_UNAVAILABLE ->
      raw v = raw (signal_spec frames d) /\ physical v = physical (signal_spec frames d)).

(** A signal without a first observation has no change and is not valid. *)
Definition stamped (v : roadcast_signal_value_t) : Prop :=
  sig_first_observed_ns v = 0 ->
  sig_last_change_ns v = 0 /\ sig_state v <> ROADCAST_OBSERVATION_VALID.

Definition tracking `{Catalog} (frames : list roadcast_frame_t)
    (values : list roadcast_signal_value_t) : Prop :=
  length values = length SIGNALS
  /\ forall k d v, SIGNALS !! k = Some d -> values !! k = Some v ->
       tracks frames d v /\ stamped v /\ value_ok v.

Section Tracking.
Context `{HC : CatalogOk}.
Context (latest old : list roadcast_frame_t) (Hl : frames_ok latest) (Ho : frames_ok old).

Lemma spec_unchanged d :
  d ∈ SIGNALS -> signal_changed latest old d = false ->
  sig_state (signal_spec latest d) = sig_state (signal_spec old d)
  /\ raw (signal_spec latest d) = raw (signal_spec old d)
  /\ physical (signal_spec latest d) = physical (signal_spec old d).
Proof.
  intros Hd Hch. unfold signal_changed in Hch. apply frame_differs_false in Hch as [Hst Hda].
  assert (Hraw : raw_of latest d = raw_of old d) by (unfold raw_of; by rewrite Hda).
  assert (Hfl : flagged latest d = flagged old d).
  { unfold flagged. destruct (Z.eqb_spec (def_invalid_signal_index d) UINT32_MAX) as [|Hne]; [done|].
    destruct (definition_index d (definition_ok_facts d Hd) Hne) as (flag & -> & _ & Hfi).
    unfold raw_of, frame_of in *. by rewrite Hfi, Hda. }
  unfold signal_spec, base_value. cbn zeta. rewrite Hfl, Hraw. cbn. rewrite Hst.
  by destruct (_ && flagged old d).
Qed.

Lemma spec_calibrated frames d : calibrated (signal_spec frames d) = def_calibrated d.
Proof. unfold signal_spec. cbn zeta. by destruct (_ && _). Qed.

Lemma fresh_tracks d v :
  d ∈ SIGNALS -> tracks old d v -> tracks latest d (fresh latest old d v).
Proof.
  intros Hd (H1 & H2 & H3). unfold fresh, tracks.
  destruct (signal_changed latest old d) eqn:Hch.
  - cbn. rewrite spec_calibrated. done.
  - destruct (spec_unchanged d Hd Hch) as (-> & -> & ->). done.
Qed.

Lemma fresh_value_ok d v :
  d ∈ SIGNALS -> value_ok v -> value_ok (fresh latest old d v).
Proof.
  intros Hd Hv. unfold fresh. destruct (signal_changed latest old d); [|done].
  pose proof (signal_spec_ok latest Hl d Hd) as Hs. destruct Hv, Hs. unfold value_ok. cbn. tauto.
Qed.

(** Reconciling changes the times only, except that an unavailable signal takes
    the last value. *)
Lemma reconcile_fields t a c :
  sig_state (reconcile_signal t a c) = sig_state a
  /\ calibrated (reconcile_signal t a c) = calibrated a
  /\ (sig_state a <> ROADCAST_OBSERVATION_UNAVAILABLE ->
      raw (reconcile_signal t a c) = raw a /\ physical (reconcile_signal t a c) = physical a).
Proof.
  unfold reconcile_signal. destruct (Z.eqb_spec (sig_state a) ROADCAST_OBSERVATION_UNAVAILABLE).
  - by destruct (negb _).
  - destruct (negb _); [destruct (_ && _)|destruct (_ =? _)]; done.
Qed.

Lemma reconcile_stamped t a c : t <> 0 -> stamped (reconcile_signal t a c).
Proof.
  intros Ht. unfold stamped, reconcile_signal.
  destruct (Z.eqb_spec (sig_state a) ROADCAST_OBSERVATION_UNAVAILABLE) as [E|].
  - destruct (Z.eqb_spec (sig_first_observed_ns c) 0); cbn; [|done]. rewrite E. done.
  - destruct (Z.eqb_spec (sig_first_observed_ns c) 0); cbn [negb].
    + destruct (Z.eqb_spec (sig_state a) ROADCAST_OBSERVATION_VALID); cbn; done.
    + destruct (_ && _); done.
Qed.

Lemma reconcile_value_ok t a c :
  is_u64 t -> value_ok a -> value_ok c -> value_ok (reconcile_signal t a c).
Proof.
  intros Ht Ha Hc. unfold value_ok in *. unfold reconcile_signal.
  assert (is_u64 0) by (unfold is_u64; lia).
  destruct (_ =? ROADCAST_OBSERVATION_UNAVAILABLE); [by destruct (negb _); cbn; tauto|].
  destruct (negb _); [destruct (_ && _)|destruct (_ =? _)]; cbn; tauto.
Qed.

(** A signal whose frame has not changed is not touched. *)
Lemma redecoded_unchanged t d v :
  stamped v -> signal_changed latest old d = false -> redecoded latest old t d v = v.
Proof.
  intros Hs Hch. unfold redecoded, fresh. rewrite Hch. unfold reconcile_signal.
  destruct v as [r p f l st cal]. unfold stamped in Hs. cbn in Hs. cbn [sig_state sig_first_observed_ns].
  destruct (st =? ROADCAST_OBSERVATION_UNAVAILABLE).
  - destruct (Z.eqb_spec f 0) as [->|]; cbn [negb]; [|done]. by destruct Hs as [-> _].
  - destruct (Z.eqb_spec f 0) as [->|]; cbn [negb].
    + destruct Hs as [-> Hs]; [done|]. destruct (Z.eqb_spec st ROADCAST_OBSERVATION_VALID); done.
    + cbn. by rewrite !Z.eqb_refl.
Qed.

(** The first observation is set once. *)
Lemma redecoded_first_kept t d v :
  sig_first_observed_ns v <> 0 ->
  sig_first_observed_ns (redecoded latest old t d v) = sig_first_observed_ns v.
Proof.
  intros Hf. unfold redecoded, reconcile_signal. apply Z.eqb_neq in Hf. rewrite Hf. cbn [negb].
  destruct (_ =? ROADCAST_OBSERVATION_UNAVAILABLE); [done|]. by destruct (_ && _).
Qed.

Lemma redecoded_tracks t d v :
  d ∈ SIGNALS -> 0 < t < 2 ^ 64 -> tracks old d v -> value_ok v ->
  let v' := redecoded latest old t d v in tracks latest d v' /\ stamped v' /\ value_ok v'.
Proof.
  intros Hd Ht Htr Hv v'. unfold v', redecoded.
  destruct (fresh_tracks d v Hd Htr) as (H1 & H2 & H3).
  destruct (reconcile_fields t (fresh latest old d v) v) as (E1 & E2 & E3). split_and!.
  - unfold tracks. rewrite E1, E2. split_and!; try done. intros Hn. destruct (E3 Hn) as [-> ->]. auto.
  - apply reconcile_stamped. lia.
  - apply reconcile_value_ok; [unfold is_u64; lia|by apply fresh_value_ok|done].
Qed.

Lemma redecode_tracking t values :
  0 < t < 2 ^ 64 -> tracking old values ->
  exists values', redecode_signals latest old values t = Ok values' /\ tracking latest values'
    /\ signals_ok values'
    /\ forall k d v v', SIGNALS !! k = Some d -> values !! k = Some v -> values' !! k = Some v' ->
         v' = redecoded latest old t d v.
Proof.
  intros Ht [Hlen Hv]. eexists. split; [by apply redecode_signals_spec|].
  assert (Hall : forall k d v v', SIGNALS !! k = Some d -> values !! k = Some v ->
    imap (by_definition (redecoded latest old t)) values !! k = Some v' ->
    v' = redecoded latest old t d v).
  { intros k d v v' Hd Hk Hv'. rewrite list_lookup_imap, Hk in Hv'. injection Hv' as <-.
    unfold by_definition. by rewrite Hd. }
  assert (Hone : forall k d v', SIGNALS !! k = Some d ->
    imap (by_definition (redecoded latest old t)) values !! k = Some v' ->
    tracks latest d v' /\ stamped v' /\ value_ok v').
  { intros k d v' Hd Hv'. destruct (lookup_lt_is_Some_2 values k) as [v Hk];
      [apply lookup_lt_Some in Hd; lia|].
    rewrite (Hall k d v v' Hd Hk Hv'). destruct (Hv k d v Hd Hk) as (H1 & H2 & H3).
    apply redecoded_tracks; try done. by eapply list_elem_of_lookup_2. }
  split; [|split; [split|exact Hall]].
  - split; [by rewrite length_imap|]. done.
  - unfold zlen, SIGNAL_COUNT. rewrite length_imap. unfold zlen. lia.
  - apply Forall_lookup_2. intros k v' Hk.
    destruct (lookup_lt_is_Some_2 SIGNALS k) as [d Hd].
    { apply lookup_lt_Some in Hk. rewrite length_imap in Hk. lia. }
    by destruct (Hone k d v' Hd Hk) as (_ & _ & ?).
Qed.
End Tracking.
