(* ===== verification/Broadcast.v ===== *)
(** * Broadcasting an update: src/roadcastd.c, the loops of
      [distribute_latest_sample]

    The chunks are the changed items in order, every chunk fits a message and
    all of them fit their array; a subscriber receives all of them, or is marked
    for resynchronization, or is closed; and a replica that agreed with the
    server before the update agrees with it after all chunks. *)

From S2P Require Import Prelude Wire CatalogDefs Catalog SourceSession Sampler ServerDefs.
From S2P Require Import ServerOps ServerQueue ServerClient Replica ServerCatchup ServerInput.
From S2P Require Import DaemonOps.

(** ** Chunks *)

(** A list cut into pieces of [n]. *)
Fixpoint slices {A} (fuel n : nat) (l : list A) : list (list A) :=
  match fuel, l with
  | S fuel, _ :: _ => take n l :: slices fuel n (drop n l)
  | _, _ => []
  end.

Lemma slices_nil {A} fuel n : slices fuel n (@nil A) = [].
Proof. by destruct fuel. Qed.

Lemma slices_S {A} fuel n (l : list A) :
  l <> [] -> slices (S fuel) n l = take n l :: slices fuel n (drop n l).
Proof. by destruct l. Qed.

Lemma slices_concat {A} fuel n : forall l : list A,
  (0 < n)%nat -> (length l <= fuel)%nat -> concat (slices fuel n l) = l.
Proof.
  induction fuel as [|fuel IH]; intros l Hn Hl.
  { destruct l; [done|cbn in Hl; lia]. }
  destruct l as [|x l]; [done|]. cbn [slices concat]. rewrite IH; [apply take_drop|done|].
  rewrite length_drop. cbn in *. lia.
Qed.

Lemma slices_size {A} fuel n : forall l : list A,
  (0 < n)%nat -> Forall (fun p => (0 < length p <= n)%nat) (slices fuel n l).
Proof.
  induction fuel as [|fuel IH]; intros [|x l] Hn; cbn [slices]; try constructor; [|by apply IH].
  rewrite length_take. cbn. lia.
Qed.

Lemma slices_forall {A} (P : A -> Prop) fuel n : forall l,
  Forall P l -> Forall (Forall P) (slices fuel n l).
Proof.
  induction fuel as [|fuel IH]; intros [|x l] Hl; cbn [slices]; try constructor.
  - by apply Forall_take.
  - by apply IH, Forall_drop.
Qed.

Lemma length_changed_indices {A} (differs : A -> A -> bool) xs : forall ys i,
  (length (changed_indices differs i xs ys) <= length xs)%nat.
Proof.
  induction xs as [|x xs IH]; intros [|y ys] i; cbn [changed_indices length]; try lia.
  rewrite length_app. specialize (IH ys (i + 1)). destruct (differs x y); cbn; lia.
Qed.

Section Chunks.
Context `{HC : CatalogOk}.

Definition frame_payload (q : Z) (fs : list roadcast_frame_t) (L : list Z) : list Z :=
  frame_batch_bytes (frame_delta q fs L).
Definition signal_payload (q : Z) (vs : list roadcast_signal_value_t) (L : list Z) : list Z :=
  signal_batch_bytes (signal_delta q vs L).

Lemma frame_chunks_spec q fs changed : forall fuel off num,
  frames_ok fs -> in_range fs changed -> zlen changed <= FRAME_COUNT ->
  0 <= off -> 0 <= num -> (off = num * FRAMES_PER_MESSAGE \/ zlen changed <= off) ->
  (length changed - Z.to_nat off <= fuel)%nat ->
  frame_chunks fuel fs q changed off num
  = Ok (map (fun L => filled (frame_payload q fs L))
          (slices fuel (Z.to_nat FRAMES_PER_MESSAGE) (drop (Z.to_nat off) changed))).
Proof.
  change FRAMES_PER_MESSAGE with 71.
  induction fuel as [|fuel IH]; intros off num Hf Hr Hc Ho Hn Hon Hfuel; cbn [frame_chunks].
  all: destruct (Z.ltb_spec off (zlen changed)) as [Hlt|Hge].
  { unfold zlen in Hlt. lia. }
  { rewrite drop_ge by (unfold zlen in Hge; lia). done. }
  2: { rewrite drop_ge by (unfold zlen in Hge; lia). done. }
  cbn zeta. change FRAMES_PER_MESSAGE with 71 in *.
  destruct (Z.leb_spec FRAME_BATCH_CHUNKS num) as [Hbad|_].
  { exfalso. unfold FRAME_BATCH_CHUNKS in Hbad. change FRAMES_PER_MESSAGE with 71 in Hbad.
    destruct Hon as [->|?]; [|lia]. Z.div_mod_to_equations. lia. }
  set (L := drop (Z.to_nat off) changed).
  assert (HL : zlen L = zlen changed - off) by (unfold L, zlen in *; rewrite length_drop; lia).
  assert (HrL : in_range fs L) by (by apply Forall_drop).
  destruct (encode_frame_delta q fs L (Z.min (zlen changed - off) 71) Hf HrL) as [-> _];
    [by rewrite HL|]. cbn [chunk_of]. rewrite bind_ok.
  rewrite IH; try done; try (unfold zlen in *; lia).
  rewrite bind_ok. unfold mret, res_ret. f_equal.
  rewrite slices_S by (intros E; rewrite E in HL; unfold zlen in *; cbn in HL; lia).
  assert (Htk : take (Z.to_nat (Z.min (zlen changed - off) 71)) L = take (Z.to_nat 71) L).
  { destruct (decide (71 <= zlen changed - off)).
    - by replace (Z.min (zlen changed - off) 71) with 71 by lia.
    - rewrite !take_ge; [done|unfold zlen in *; lia..]. }
  rewrite Htk. cbn [map]. do 3 f_equal. unfold L. rewrite drop_drop.
  destruct (decide (71 <= zlen changed - off)).
  - replace (Z.to_nat (off + Z.min (zlen changed - off) 71)) with (Z.to_nat off + Z.to_nat 71)%nat
      by lia. done.
  - rewrite !drop_ge; [done|unfold zlen in *; lia..].
Qed.

Lemma signal_chunks_spec q vs changed : forall fuel off num,
  signals_ok vs -> in_range vs changed -> zlen changed <= SIGNAL_COUNT ->
  0 <= off -> 0 <= num -> (off = num * SIGNALS_PER_MESSAGE \/ zlen changed <= off) ->
  (length changed - Z.to_nat off <= fuel)%nat ->
  signal_chunks fuel vs q changed off num
  = Ok (map (fun L => filled (signal_payload q vs L))
          (slices fuel (Z.to_nat SIGNALS_PER_MESSAGE) (drop (Z.to_nat off) changed))).
Proof.
  change SIGNALS_PER_MESSAGE with 49.
  induction fuel as [|fuel IH]; intros off num Hf Hr Hc Ho Hn Hon Hfuel; cbn [signal_chunks].
  all: destruct (Z.ltb_spec off (zlen changed)) as [Hlt|Hge].
  { unfold zlen in Hlt. lia. }
  { rewrite drop_ge by (unfold zlen in Hge; lia). done. }
  2: { rewrite drop_ge by (unfold zlen in Hge; lia). done. }
  cbn zeta. change SIGNALS_PER_MESSAGE with 49 in *.
  destruct (Z.leb_spec SIGNAL_BATCH_CHUNKS num) as [Hbad|_].
  { exfalso. unfold SIGNAL_BATCH_CHUNKS in Hbad. change SIGNALS_PER_MESSAGE with 49 in Hbad.
    destruct Hon as [->|?]; [|lia]. Z.div_mod_to_equations. lia. }
  set (L := drop (Z.to_nat off) changed).
  assert (HL : zlen L = zlen changed - off) by (unfold L, zlen in *; rewrite length_drop; lia).
  assert (HrL : in_range vs L) by (by apply Forall_drop).
  destruct (encode_signal_delta q vs L (Z.min (zlen changed - off) 49) Hf HrL) as [-> _];
    [by rewrite HL|]. cbn [chunk_of]. rewrite bind_ok.
  rewrite IH; try done; try (unfold zlen in *; lia).
  rewrite bind_ok. unfold mret, res_ret. f_equal.
  rewrite slices_S by (intros E; rewrite E in HL; unfold zlen in *; cbn in HL; lia).
  assert (Htk : take (Z.to_nat (Z.min (zlen changed - off) 49)) L = take (Z.to_nat 49) L).
  { destruct (decide (49 <= zlen changed - off)).
    - by replace (Z.min (zlen changed - off) 49) with 49 by lia.
    - rewrite !take_ge; [done|unfold zlen in *; lia..]. }
  rewrite Htk. cbn [map]. do 3 f_equal. unfold L. rewrite drop_drop.
  destruct (decide (49 <= zlen changed - off)).
  - replace (Z.to_nat (off + Z.min (zlen changed - off) 49)) with (Z.to_nat off + Z.to_nat 49)%nat
      by lia. done.
  - rewrite !drop_ge; [done|unfold zlen in *; lia..].
Qed.
End Chunks.

(** ** One subscriber *)

(** A handler of the event loop may count in the statistics. *)
Definition server_same (v v' : roadcast_server_t) : Prop := v' = v <| stats := stats v' |>.

Lemma server_same_refl v : server_same v v.
Proof. by destruct v. Qed.

Lemma server_same_trans v1 v2 v3 : server_same v1 v2 -> server_same v2 v3 -> server_same v1 v3.
Proof. intros H1 H2. rewrite H1 in H2. rewrite H2. done. Qed.

Section Subscriber.
Context `{HC : CatalogOk} {W : Type} `{K : !Clock W} `{U : !Uv W} `{HU : !UvOk U K}.
Implicit Types s : ctx W.

Lemma server_same_ok v v' : server_same v v' -> server_ok v -> server_ok v'.
Proof. intros ->. done. Qed.

(** A handler of the loop on one client: it touches nothing else but the
    statistics, and only adds to the client's stream. *)
Definition serviced s s' : Prop :=
  cid s' = cid s /\ server_same (sv s) (sv s') /\ others s s' /\ ctx_ok s' /\ grows s s'
  /\ same_owner (cl s) (cl s').

Lemma serviced_refl s : ctx_ok s -> serviced s s.
Proof.
  intros Hok. unfold serviced. split; [done|]. split; [apply server_same_refl|].
  split; [done|]. split; [done|]. split; [by apply grows_refl|done].
Qed.

Lemma serviced_trans s1 s2 s3 : serviced s1 s2 -> serviced s2 s3 -> serviced s1 s3.
Proof.
  intros (E1 & V1 & O1 & _ & G1 & S1) (E2 & V2 & O2 & H2 & G2 & S2).
  unfold serviced. split_and!; try done.
  - congruence.
  - by eapply server_same_trans.
  - intros c Hc. rewrite O2 by congruence. by apply O1.
  - by eapply grows_trans.
  - by eapply same_owner_trans.
Qed.

Lemma close_wp s :
  ctx_ok s -> wp client_close (fun _ s' => serviced s s' /\ stream s' = stream s
                                           /\ active (cl s') = 0) s.
Proof.
  intros Hok. apply client_close_wp; [done| |].
  - intros s' E1 E2 Ho Hs Hok' Hown Ha. split; [|done].
    unfold serviced. rewrite E2. split_and!; try done; [apply server_same_refl|by apply grows_refl].
  - intros Ha Hc. destruct Hok as [_ Hd]. by destruct Hc; apply (do_closing _ Hd).
Qed.

(** The client may receive updates. *)
Definition subscriber s : Prop :=
  ctx_ok s /\ active (cl s) <> 0 /\ subscribed (cl s) <> 0 /\ needs_resync (cl s) = 0.

(** The client no longer receives updates. *)
Definition cut_off s : Prop := active (cl s) = 0 \/ (needs_resync (cl s) = 1 /\ subscribed (cl s) = 0).

(** All of [ms] has been sent, or the client has been cut off after some. *)
Definition updated (ms : list (list Z)) s s' : Prop :=
  (stream s' = stream s ++ ms /\ queue_frame (cl s) (cl s') /\ sv s' = sv s)
  \/ (cut_off s' /\ exists ms', ms' `prefix_of` ms /\ stream s' = stream s ++ ms').

Lemma send_chunks_stops t ts chunks s :
  active (cl s) = 0 \/ needs_resync (cl s) <> 0 ->
  wp (send_chunks t ts chunks) (fun _ s' => s' = s) s.
Proof.
  intros H. destruct chunks as [|[n p] chunks]; cbn [send_chunks]; [by apply wp_ret|].
  destruct s as [id c v w]. wp_steps. cbn in H.
  destruct (Z.eqb_spec (active c) 0); [by apply wp_ret|].
  destruct (Z.eqb_spec (needs_resync c) 0); [by destruct H|by apply wp_ret].
Qed.

(** One droppable message to a client that is greeted. *)
Lemma droppable_wp t q ts payload len s :
  ctx_ok s -> greeted (cl s) <> 0 -> 0 <= len <= zlen payload ->
  wp (client_queue_message t q ts payload len 1)
    (fun r s' => serviced s s' /\
       let m := message_bytes t q ts (take (Z.to_nat len) payload) in
       ((r = -1 /\ refused m 1 s s' /\ stream s' = stream s)
        \/ (r = 0 /\ stream s' = stream s ++ [m] /\ queue_frame (cl s) (cl s') /\ sv s' = sv s
            /\ room s (zlen m))
        \/ (r = 0 /\ stream s' = stream s /\ dropped (cl s) (cl s') /\ ~ room s (zlen m)))) s.
Proof.
  intros [Hq Hd] Hg Hlen. eapply wp_mono; [by apply client_queue_message_wp|].
  intros r s' (E1 & Ho & Hq' & _ & Hr). cbn zeta.
  destruct Hr as [(-> & Hno & Hv & Hf & Hst & _)|[(-> & Hv & Hf & _ & Hst & Hrm & _)|(-> & _ & Hv & Hdr & Hst & Hrm)]].
  - split; [|left; done]. unfold serviced. rewrite Hv.
    split_and!; try done; [apply server_same_refl| |by apply grows_refl
      |by apply same_conn_owner, same_conn_queue_frame].
    split; [done|]. by eapply data_ok_queue_frame.
  - split; [|right; left; done]. unfold serviced. rewrite Hv.
    split_and!; try done; [apply server_same_refl| |by eapply grows_snoc
      |by apply same_conn_owner, same_conn_queue_frame].
    split; [done|]. by eapply data_ok_queue_frame.
  - split; [|right; right; done]. unfold serviced. rewrite Hv.
    split_and!; try done; [|by apply grows_refl|rewrite Hdr; done].
    split; [done|]. by eapply data_ok_dropped.
Qed.

Lemma send_chunks_wp t ts ps : forall s,
  subscriber s -> Forall (fun p => 0 < zlen p <= PAYLOAD_CAP) ps ->
  wp (send_chunks t ts (map filled ps))
    (fun _ s' => serviced s s' /\
       updated (map (message_bytes t (change_sequence (sv s)) ts) ps) s s') s.
Proof.
  induction ps as [|p ps IH]; intros s (Hok & Ha & Hsub & Hn) Hps; cbn [map send_chunks].
  { apply wp_ret. split; [by apply serviced_refl|]. left. rewrite app_nil_r.
    split_and!; try done. by destruct (cl s). }
  inversion_clear Hps as [|? ? Hp Hps']. cbn [filled].
  destruct s as [id c v w]. wp_steps. set (s := mk_ctx id c v w) in *. cbn [s cl] in Ha, Hsub, Hn.
  rewrite (proj2 (Z.eqb_neq _ _) Ha), Hn. cbn [orb negb Z.eqb]. apply wp_bind.
  destruct (Z.eqb_spec (zlen p) 0); [lia|].
  destruct (filled_take p) as [Hfl Hft]; [lia|]. cbn [filled fst snd] in Hfl, Hft.
  assert (Hg : greeted c <> 0).
  { intros Hg. destruct Hok as [_ Hd]. destruct (do_greeted c Hd Hg) as [? _]. done. }
  eapply wp_mono; [by apply droppable_wp|]. rewrite Hft. cbn zeta.
  intros r s1 [Hs1 Hr]. set (m := message_bytes t (change_sequence v) ts p) in *.
  set (ms := map (message_bytes t (change_sequence v) ts) ps) in *.
  change (map (message_bytes t (change_sequence (sv s)) ts) ps) with ms.
  change (message_bytes t (change_sequence (sv s)) ts p) with m.
  pose proof Hs1 as (E1 & V1 & O1 & Hok1 & G1 & S1).
  destruct Hr as [(-> & _ & Hst)|[(-> & Hst & Hf & Hv & _)|(-> & Hst & Hdr & _)]].
  - cbn [Z.ltb Z.compare]. eapply wp_mono; [by apply close_wp|]. intros ? s2 (Hs2 & Hst2 & Ha2).
    split; [by eapply serviced_trans|]. right. split; [by left|]. exists []. split; [by apply prefix_nil|].
    rewrite app_nil_r. congruence.
  - cbn [Z.ltb Z.compare]. eapply wp_mono; [apply IH; [|done]|].
    { unfold subscriber. rewrite Hf. done. }
    intros ? s2 [Hs2 Hu]. split; [by eapply serviced_trans|]. rewrite Hv in Hu. fold ms in Hu.
    change (change_sequence (sv s)) with (change_sequence v) in Hu. fold ms in Hu.
    destruct Hu as [(Hst2 & Hf2 & Hv2)|(Hc2 & ms' & Hpre & Hst2)].
    + left. rewrite Hst2, Hst, <- (assoc_L (++)). split_and!; try done; [|congruence].
      unfold queue_frame in *. rewrite Hf2, Hf. done.
    + right. split; [done|]. exists (m :: ms'). split; [by apply prefix_cons|].
      by rewrite Hst2, Hst, <- (assoc_L (++)).
  - cbn [Z.ltb Z.compare]. eapply wp_mono.
    { apply send_chunks_stops. right. rewrite Hdr. done. }
    intros ? s2 ->. split; [done|]. right. split; [right; rewrite Hdr; done|].
    exists []. split; [by apply prefix_nil|]. by rewrite app_nil_r.
Qed.

Lemma broadcast_wp ts fps sps s :
  ctx_ok s -> Forall (fun p => 0 < zlen p <= PAYLOAD_CAP) fps ->
  Forall (fun p => 0 < zlen p <= PAYLOAD_CAP) sps ->
  let q := change_sequence (sv s) in
  wp (broadcast ts (map filled fps) (map filled sps))
    (fun _ s' => serviced s s' /\
       if wants_updates (cl s)
       then updated (map (message_bytes ROADCAST_MSG_UPDATE_BATCH q ts) fps
                     ++ map (message_bytes ROADCAST_MSG_SIGNAL_UPDATE_BATCH q ts) sps) s s'
       else s' = s) s.
Proof.
  intros Hok Hf Hsp q. unfold broadcast. destruct s as [id c v w]. wp_steps. cbn [cl].
  set (s := mk_ctx id c v w) in *. destruct (wants_updates c) eqn:Hw; cbn [negb].
  2: { apply wp_ret. split; [by apply serviced_refl|done]. }
  unfold wants_updates in Hw. apply andb_prop in Hw as [Hw H3]. apply andb_prop in Hw as [H1 H2].
  apply negb_true_iff, Z.eqb_neq in H1, H2. apply Z.eqb_eq in H3.
  assert (Hsub : subscriber s) by done.
  apply wp_bind. eapply wp_mono; [by apply send_chunks_wp|].
  intros ? s1 [Hs1 Hu]. change (change_sequence (sv s)) with q in Hu.
  set (fms := map _ fps) in *.
  set (sms := map (message_bytes ROADCAST_MSG_SIGNAL_UPDATE_BATCH q ts) sps).
  pose proof Hs1 as (E1 & V1 & O1 & Hok1 & G1 & S1).
  assert (Hdone : cut_off s1 -> (exists ms', ms' `prefix_of` fms /\ stream s1 = stream s ++ ms') ->
    updated (fms ++ sms) s s1).
  { intros Hc (ms' & Hpre & Hst). right. split; [done|]. exists ms'. split; [|done].
    by apply prefix_app_r. }
  apply wp_bind. destruct s1 as [id1 c1 v1 w1]. apply wp_getc. set (s1 := mk_ctx id1 c1 v1 w1) in *.
  destruct Hu as [(Hst & Hq & Hv)|[Hc Hpre]].
  - cbn in Hq, Hv. subst v1.
    assert (Ha1 : active c1 = active c /\ needs_resync c1 = needs_resync c
                  /\ subscribed c1 = subscribed c) by (rewrite Hq; done).
    destruct Ha1 as (A1 & A2 & A3). rewrite A1, A2, (proj2 (Z.eqb_neq _ _) H1), H3.
    cbn [orb negb Z.eqb]. eapply wp_mono; [apply send_chunks_wp; [|done]|].
    { split; [done|]. cbn. rewrite A1, A2, A3. done. }
    intros ? s2 [Hs2 Hu2]. split; [by eapply serviced_trans|].
    change (change_sequence (sv s1)) with q in Hu2. fold sms in Hu2.
    destruct Hu2 as [(Hst2 & Hq2 & Hv2)|(Hc2 & ms' & Hpre & Hst2)].
    + left. rewrite Hst2, Hst, <- (assoc_L (++)). split_and!; try done.
      unfold queue_frame in *. cbn in *. rewrite Hq2, Hq. done.
    + right. split; [done|]. exists (fms ++ ms'). split; [by apply prefix_app|].
      by rewrite Hst2, Hst, <- (assoc_L (++)).
  - specialize (Hdone Hc Hpre).
    assert (Hstop : (active c1 =? 0) || negb (needs_resync c1 =? 0) = true).
    { destruct Hc as [Hc|[Hc _]]; cbn in Hc; rewrite Hc; [done|by rewrite orb_true_r]. }
    rewrite Hstop. by apply wp_ret.
Qed.
End Subscriber.

(** ** The replica of a subscriber *)

Section Replicas.
Context `{HC : CatalogOk}.

Lemma frame_payload_size q fs L :
  frames_ok fs -> in_range fs L -> zlen L <= FRAMES_PER_MESSAGE ->
  0 < zlen (frame_payload q fs L) <= PAYLOAD_CAP.
Proof.
  intros Hf HL Hn. pose proof (zlen_nonneg L).
  destruct (encode_frame_delta q fs L (zlen L) Hf HL) as [_ Hs]; [lia|].
  unfold zlen in Hs at 2. rewrite Nat2Z.id, take_ge in Hs by lia.
  split; [|exact Hs]. unfold frame_payload, frame_batch_bytes.
  rewrite zlen_app, zlen_batch_prefix. pose proof (zlen_nonneg (concat (map frame_bytes (batch_items (frame_delta q fs L))))).
  unfold ROADCAST_BATCH_PREFIX_SIZE. lia.
Qed.

Lemma signal_payload_size q vs L :
  signals_ok vs -> in_range vs L -> zlen L <= SIGNALS_PER_MESSAGE ->
  0 < zlen (signal_payload q vs L) <= PAYLOAD_CAP.
Proof.
  intros Hf HL Hn. pose proof (zlen_nonneg L).
  destruct (encode_signal_delta q vs L (zlen L) Hf HL) as [_ Hs]; [lia|].
  unfold zlen in Hs at 2. rewrite Nat2Z.id, take_ge in Hs by lia.
  split; [|exact Hs]. unfold signal_payload, signal_batch_bytes.
  rewrite zlen_app, zlen_batch_prefix. pose proof (zlen_nonneg (concat (map signal_bytes (batch_items (signal_delta q vs L))))).
  unfold ROADCAST_BATCH_PREFIX_SIZE. lia.
Qed.

Definition frame_messages (q ts seq_ : Z) (fs : list roadcast_frame_t) (Ls : list (list Z))
  : list (list Z) :=
  map (message_bytes ROADCAST_MSG_UPDATE_BATCH q ts) (map (frame_payload seq_ fs) Ls).

Definition signal_messages (q ts seq_ : Z) (vs : list roadcast_signal_value_t)
    (Ls : list (list Z)) : list (list Z) :=
  map (message_bytes ROADCAST_MSG_SIGNAL_UPDATE_BATCH q ts) (map (signal_payload seq_ vs) Ls).

Context (q ts seq_ : Z) (Hq : is_u64 q) (Hts : is_u64 ts) (Hseq : is_u64 seq_).

Lemma apply_frame_pieces fs Ls : forall R,
  frames_ok fs -> map can_id fs = CAN_IDS -> map can_id (rep_frames R) = CAN_IDS ->
  Forall (in_range fs) Ls -> Forall (fun L => zlen L <= FRAMES_PER_MESSAGE) Ls ->
  synced frame_differs (concat Ls) (rep_frames R) fs ->
  let R' := fold_left apply_message (frame_messages q ts seq_ fs Ls) R in
  synced frame_differs [] (rep_frames R') fs /\ map can_id (rep_frames R') = CAN_IDS
  /\ rep_signals R' = rep_signals R.
Proof.
  induction Ls as [|L Ls IH]; intros R Hf Hi Hr HLs Hn Hs; [done|].
  inversion_clear HLs as [|? ? HL HLs']. inversion_clear Hn as [|? ? HnL Hn'].
  cbn [frame_messages map fold_left concat] in *.
  destruct (frame_payload_size seq_ fs L Hf HL HnL) as [_ Hsz].
  change (frame_payload seq_ fs L) with (frame_batch_bytes (frame_delta seq_ fs L)) in *.
  rewrite apply_frames_message; [|done..| |done].
  2: { apply frame_delta_ok; try done. change FRAMES_PER_MESSAGE with 71 in HnL.
       unfold UINT16_MAX. lia. }
  cbn [frame_delta batch_items].
  destruct (synced_apply_frames fs (concat Ls) L (rep_frames R) Hr Hi HL Hs) as [Hs' Hr'].
  exact (IH (mk_replica (fold_left apply_frame (pick fs L) (rep_frames R)) (rep_signals R))
    Hf Hi Hr' HLs' Hn' Hs').
Qed.

Lemma apply_signal_pieces vs Ls : forall R,
  signals_ok vs -> Forall (in_range vs) Ls -> Forall (fun L => zlen L <= SIGNALS_PER_MESSAGE) Ls ->
  synced signal_differs (concat Ls) (rep_signals R) vs ->
  let R' := fold_left apply_message (signal_messages q ts seq_ vs Ls) R in
  synced signal_differs [] (rep_signals R') vs /\ rep_frames R' = rep_frames R.
Proof.
  induction Ls as [|L Ls IH]; intros R Hf HLs Hn Hs; [done|].
  inversion_clear HLs as [|? ? HL HLs']. inversion_clear Hn as [|? ? HnL Hn'].
  cbn [signal_messages map fold_left concat] in *.
  destruct (signal_payload_size seq_ vs L Hf HL HnL) as [_ Hsz].
  change (signal_payload seq_ vs L) with (signal_batch_bytes (signal_delta seq_ vs L)) in *.
  rewrite apply_signals_message; [|done..| |done].
  2: { apply signal_delta_ok; try done. change SIGNALS_PER_MESSAGE with 49 in HnL.
       unfold UINT16_MAX. lia. }
  cbn [signal_delta batch_items].
  pose proof (synced_apply_signals vs (concat Ls) L (rep_signals R) HL Hs) as Hs'.
  exact (IH (mk_replica (rep_frames R) (fold_left apply_signal (pick_updates vs L) (rep_signals R)))
    Hf HLs' Hn' Hs').
Qed.

Lemma frame_messages_live fs Ls :
  frames_ok fs -> map can_id fs = CAN_IDS -> Forall (in_range fs) Ls ->
  Forall (fun L => zlen L <= FRAMES_PER_MESSAGE) Ls -> Forall (fun L => zlen L <= FRAME_COUNT) Ls ->
  Forall live_message (frame_messages q ts seq_ fs Ls).
Proof.
  intros Hf Hi HLs Hn Hfc. unfold frame_messages. apply Forall_map, Forall_map, Forall_lookup_2.
  intros k L Hk. pose proof (Forall_lookup_1 _ _ _ _ HLs Hk) as HL.
  pose proof (Forall_lookup_1 _ _ _ _ Hn Hk) as HnL. cbv beta in HnL.
  destruct (frame_payload_size seq_ fs L Hf HL HnL) as [_ Hsz].
  pose proof (Forall_lookup_1 _ _ _ _ Hfc Hk) as HfcL. cbv beta in HfcL.
  apply frame_delta_live; try done. change FRAMES_PER_MESSAGE with 71 in HnL. unfold UINT16_MAX. lia.
Qed.

Lemma signal_messages_live vs Ls :
  signals_ok vs -> Forall (in_range vs) Ls ->
  Forall (fun L => zlen L <= SIGNALS_PER_MESSAGE) Ls ->
  Forall live_message (signal_messages q ts seq_ vs Ls).
Proof.
  intros Hf HLs Hn. unfold signal_messages. apply Forall_map, Forall_map, Forall_lookup_2.
  intros k L Hk. pose proof (Forall_lookup_1 _ _ _ _ HLs Hk) as HL.
  pose proof (Forall_lookup_1 _ _ _ _ Hn Hk) as HnL. cbv beta in HnL.
  destruct (signal_payload_size seq_ vs L Hf HL HnL) as [_ Hsz].
  apply signal_delta_live; try done. change SIGNALS_PER_MESSAGE with 49 in HnL. unfold UINT16_MAX. lia.
Qed.

Lemma frame_messages_sequence fs Ls :
  frames_ok fs -> Forall (in_range fs) Ls -> Forall (fun L => zlen L <= FRAMES_PER_MESSAGE) Ls ->
  Forall (fun m => message_sequence m = q) (frame_messages q ts seq_ fs Ls).
Proof.
  intros Hf HLs Hn. unfold frame_messages. apply Forall_map, Forall_map, Forall_lookup_2.
  intros k L Hk. apply message_sequence_bytes; try done.
  apply frame_payload_size; [done|exact (Forall_lookup_1 _ _ _ _ HLs Hk)|exact (Forall_lookup_1 _ _ _ _ Hn Hk)].
Qed.

Lemma signal_messages_sequence vs Ls :
  signals_ok vs -> Forall (in_range vs) Ls -> Forall (fun L => zlen L <= SIGNALS_PER_MESSAGE) Ls ->
  Forall (fun m => message_sequence m = q) (signal_messages q ts seq_ vs Ls).
Proof.
  intros Hf HLs Hn. unfold signal_messages. apply Forall_map, Forall_map, Forall_lookup_2.
  intros k L Hk. apply message_sequence_bytes; try done.
  apply signal_payload_size; [done|exact (Forall_lookup_1 _ _ _ _ HLs Hk)|exact (Forall_lookup_1 _ _ _ _ Hn Hk)].
Qed.

(** The pieces of the changed indices. *)
Definition pieces (n : Z) (L : list Z) : list (list Z) := slices (length L) (Z.to_nat n) L.

Lemma pieces_ok {A} (xs : list A) n L :
  0 < n -> in_range xs L ->
  concat (pieces n L) = L /\ Forall (in_range xs) (pieces n L)
  /\ Forall (fun p => zlen p <= n) (pieces n L).
Proof.
  intros Hn HL. unfold pieces. split_and!.
  - apply slices_concat; lia.
  - by apply slices_forall.
  - pose proof (slices_size (length L) (Z.to_nat n) L ltac:(lia)) as H. revert H.
    apply Forall_impl. intros p Hp. unfold zlen. lia.
Qed.

Lemma pieces_short {A} (xs : list A) n L :
  0 < n -> in_range xs L -> Forall (fun p => zlen p <= zlen L) (pieces n L).
Proof.
  intros Hn HL. destruct (pieces_ok xs n L Hn HL) as [E _]. apply Forall_lookup_2. intros k p Hk.
  apply list_elem_of_lookup_2, list_elem_of_split in Hk as (l1 & l2 & Hl). rewrite Hl, concat_app in E.
  cbn [concat] in E. rewrite <- E, !zlen_app. pose proof (zlen_nonneg (concat l1)).
  pose proof (zlen_nonneg (concat l2)). lia.
Qed.

(** A replica that agreed with the old state agrees with the new one after the
    messages of the update. *)
Lemma update_agrees R old new :
  frames_ok (sv_frames new) -> map can_id (sv_frames new) = CAN_IDS -> signals_ok (sv_signals new) ->
  frames_ok (sv_frames old) -> signals_ok (sv_signals old) ->
  agrees R old ->
  let fi := changed_indices frame_differs 0 (sv_frames new) (sv_frames old) in
  let si := changed_indices signal_differs 0 (sv_signals new) (sv_signals old) in
  agrees (fold_left apply_message
            (frame_messages q ts seq_ (sv_frames new) (pieces FRAMES_PER_MESSAGE fi)
             ++ signal_messages q ts seq_ (sv_signals new) (pieces SIGNALS_PER_MESSAGE si)) R) new.
Proof.
  intros Hf Hi Hs [Hfo _] [Hso _] (Hr & Hfr & Hsr) fi si.
  pose proof Hf as [Hfl _]. pose proof Hs as [Hsl _]. unfold zlen in *.
  assert (Hfi : in_range (sv_frames new) fi) by (apply changed_indices_range; lia).
  assert (Hsi : in_range (sv_signals new) si) by (apply changed_indices_range; lia).
  destruct (pieces_ok (sv_frames new) FRAMES_PER_MESSAGE fi) as (F1 & F2 & F3); [done..|].
  destruct (pieces_ok (sv_signals new) SIGNALS_PER_MESSAGE si) as (S1 & S2 & S3); [done..|].
  rewrite fold_left_app.
  destruct (apply_frame_pieces (sv_frames new) (pieces FRAMES_PER_MESSAGE fi) R) as (A1 & A2 & A3);
    try done.
  { rewrite F1. apply synced_next_round with (old := sv_frames old);
      [apply frame_differs_trans|done|lia]. }
  destruct (apply_signal_pieces (sv_signals new) (pieces SIGNALS_PER_MESSAGE si)
    (fold_left apply_message (frame_messages q ts seq_ (sv_frames new) (pieces FRAMES_PER_MESSAGE fi)) R))
    as (B1 & B2); try done.
  { rewrite S1, A3. apply synced_next_round with (old := sv_signals old);
      [apply signal_differs_trans|done|lia]. }
  unfold agrees. rewrite B2. done.
Qed.
End Replicas.
