(* ===== verification/Daemon.v ===== *)
(** * The daemon as a whole: invariant and events

    The state of the process is well formed after every event, every event
    handler returns without undefined behaviour, and what an event does to one
    client does not reach the others. *)

From Stdlib Require Import String.
From S2P Require Import Prelude Wire CatalogDefs Catalog SourceSession Sampler ServerDefs.
From S2P Require Import ServerOps ServerQueue ServerClient Replica ServerCatchup ServerInput.
From S2P Require Import Framing DaemonOps Distribute Broadcast.

Definition client_ok `{Catalog} (v : roadcast_server_t) (c : roadcast_client_t) : Prop :=
  queue_ok (client_queue_slots v) c /\ data_ok c.

Section Array.
Context `{HC : CatalogOk} {V W : Type} `{K : !Clock W} `{U : !Uv W} `{HU : !UvOk U K}.
Implicit Types d : daemon V W.

(** The client array is well formed. *)
Definition array_ok d : Prop :=
  server_ok (server d) /\ zlen (clients d) = MAX_CLIENTS
  /\ Forall (client_ok (server d)) (clients d).

(** A client of the array as the context of its handlers. *)
Definition view d (i : nat) (c : roadcast_client_t) : ctx W :=
  mk_ctx (Z.of_nat i) c (server d) (world d).

Lemma view_ok d i c : array_ok d -> clients d !! i = Some c -> ctx_ok (view d i c).
Proof.
  intros (Hs & _ & Hall) Hi. destruct (Forall_lookup_1 _ _ _ _ Hall Hi) as [Hq Hd].
  by split.
Qed.

Definition updated_at d (i : nat) (s : ctx W) : daemon V W :=
  d <| server := sv s |> <| clients := <[i := cl s]> (clients d) |> <| world := env s |>.

Lemma at_client_run {A} (m : M W A) Q d i c :
  clients d !! i = Some c -> wp m Q (view d i c) ->
  exists a s, at_client (Z.of_nat i) m d = Ok (a, updated_at d i s) /\ Q a s.
Proof.
  intros Hi Hwp. destruct (wp_run _ _ _ Hwp) as (a & s & Hrun & HQ). exists a, s.
  split; [|done]. unfold at_client. rewrite (rd_Some _ _ _ Hi), bind_ok.
  unfold view in Hrun. rewrite Hrun, bind_ok.
  rewrite wr_ok by (apply lookup_lt_Some in Hi; unfold zlen; lia). rewrite bind_ok, Nat2Z.id.
  done.
Qed.

Lemma client_ok_same v v' c : server_same v v' -> client_ok v c -> client_ok v' c.
Proof. intros ->. done. Qed.

(** A handler that serves one client keeps the array well formed. *)
Lemma updated_at_ok d i s :
  array_ok d -> server_same (server d) (sv s) -> ctx_ok s -> array_ok (updated_at d i s).
Proof.
  intros (Hs & Hl & Hall) Hv [[Hsv Hq] Hd]. unfold array_ok, updated_at. cbn.
  split_and!; [done|by rewrite zlen_insert|]. apply Forall_insert; [|by split].
  revert Hall. apply Forall_impl. intros c0. by apply client_ok_same.
Qed.

(** What a pass over the array did to the client [i]. *)
Definition served (Q : ctx W -> ctx W -> Prop) d d' (i : nat) : Prop :=
  forall c, clients d !! i = Some c ->
  exists s s', cid s = Z.of_nat i /\ cl s = c /\ stream s = sent (world d) (Z.of_nat i)
    /\ ctx_ok s /\ server_same (server d) (sv s)
    /\ clients d' !! i = Some (cl s') /\ stream s' = sent (world d') (Z.of_nat i)
    /\ serviced s s' /\ Q s s'.

(** The rest of the process. *)
Definition same_rest d d' : Prop :=
  server_same (server d) (server d')
  /\ d' = d <| server := server d' |> <| clients := clients d' |> <| world := world d' |>.

Lemma each_client_run m (Q : ctx W -> ctx W -> Prop) d :
  array_ok d ->
  (forall s, ctx_ok s -> server_same (server d) (sv s) ->
     wp m (fun _ s' => serviced s s' /\ Q s s') s) ->
  exists d', each_client m d = Ok d' /\ array_ok d' /\ same_rest d d'
    /\ forall i, served Q d d' i.
Proof.
  intros Hok Hm. unfold each_client.
  destruct (loop_total (fun j d' => array_ok d' /\ same_rest d d'
      /\ (forall i, (i < Z.to_nat j)%nat -> served Q d d' i)
      /\ (forall i, (Z.to_nat j <= i)%nat -> clients d' !! i = clients d !! i
                    /\ sent (world d') (Z.of_nat i) = sent (world d) (Z.of_nat i)))
    (fun i d => '(_, d) ← at_client i m d; mret d) (Z.to_nat MAX_CLIENTS) 0 d)
    as (d' & Hrun & Hok' & Hrest & Hdone & Hleft).
  - split; [done|]. split; [split; [apply server_same_refl|by destruct d]|].
    split; [intros i Hi; lia|done].
  - intros j d1 Hj (Hok1 & [Hv1 Hd1] & Hdone & Hleft).
    pose proof Hok as (_ & Hlen & _).
    destruct (lookup_lt_is_Some_2 (clients d) (Z.to_nat j)) as [c Hc].
    { unfold zlen in Hlen. change MAX_CLIENTS with 16 in *. lia. }
    destruct (Hleft (Z.to_nat j) ltac:(lia)) as [Hc1 Hst1]. rewrite Hc in Hc1.
    pose proof (view_ok _ _ _ Hok1 Hc1) as Hctx.
    destruct (at_client_run m _ d1 (Z.to_nat j) c Hc1 (Hm _ Hctx Hv1)) as ([] & s' & Hrun & Hs & HQ).
    rewrite Z2Nat.id in Hrun by lia. rewrite Hrun, bind_ok. exists (updated_at d1 (Z.to_nat j) s').
    split; [done|]. pose proof Hs as (Hid & Hvs & Hoth & _). cbn in Hid.
    assert (Hsent : forall i, i <> Z.to_nat j ->
      sent (env s') (Z.of_nat i) = sent (world d1) (Z.of_nat i)).
    { intros i Hi. apply (Hoth (Z.of_nat i)). cbn. lia. }
    split; [apply updated_at_ok; [done|exact Hvs|apply Hs]|]. split; [|split].
    + split; [eapply server_same_trans; [exact Hv1|exact Hvs]|]. rewrite Hd1. done.
    + intros i Hi c0 Hc0. apply lookup_lt_Some in Hc1 as Hlt.
      destruct (decide (i = Z.to_nat j)) as [->|Hne].
      * rewrite Hc in Hc0. injection Hc0 as <-.
        exists (view d1 (Z.to_nat j) c), s'. cbn. rewrite list_lookup_insert_eq by done.
        split_and!; try done. unfold stream. by rewrite Hid.
      * destruct (Hdone i ltac:(lia) c0 Hc0) as (s1 & s2 & H1 & H2 & H3 & H4 & H5 & H6 & H7 & H8 & H9).
        exists s1, s2. split_and!; try done; cbn.
        -- by rewrite list_lookup_insert_ne by done.
        -- by rewrite Hsent.
    + intros i Hi. cbn. rewrite list_lookup_insert_ne by lia. rewrite Hsent by lia.
      apply Hleft. lia.
  - exists d'. split; [exact Hrun|]. split_and!; try done. intros i.
    destruct (decide (i < Z.to_nat MAX_CLIENTS)%nat); [by apply Hdone|].
    intros c Hc. apply lookup_lt_Some in Hc. destruct Hok as (_ & Hl & _).
    unfold zlen in Hl. change MAX_CLIENTS with 16 in *. lia.
Qed.
End Array.

(** ** Distribution of a sample *)

Section Distribution.
Context `{HC : CatalogOk} {V W : Type} `{K : !Clock W} `{U : !Uv W} `{HU : !UvOk U K}.
Implicit Types d : daemon V W.

(** What the sampler publishes. *)
Definition publication_ok (sm : sampler_t V) : Prop :=
  frames_ok (published sm) /\ map can_id (published sm) = CAN_IDS
  /\ is_u64 (published_sequence sm) /\ 0 < published_timestamp_ns sm < 2 ^ 64.

(** What a distribution did to the client [i]: nothing, unless it is subscribed;
    then it was cut off, or a replica of it that agreed with the server before
    agrees with it after the messages it was sent. *)
Definition distributed d d' (i : nat) : Prop :=
  forall c, clients d !! i = Some c ->
  exists c' ms, clients d' !! i = Some c'
    /\ sent (world d') (Z.of_nat i) = sent (world d) (Z.of_nat i) ++ ms
    /\ same_owner c c'
    /\ (wants_updates c = false -> c' = c /\ ms = [])
    /\ (wants_updates c = true ->
        (active c' = 0 \/ (needs_resync c' = 1 /\ subscribed c' = 0))
        \/ (queue_frame c c' /\ Forall live_message ms
            /\ in_sequence (change_sequence (server d)) ms (change_sequence (server d'))
            /\ forall R, agrees R (server d) ->
              agrees (fold_left apply_message ms R) (server d'))).

Lemma queue_frame_refl c : queue_frame c c.
Proof. by destruct c. Qed.

(** Nothing was sent, and the new state is no different. *)
Lemma distributed_quiet d v i :
  (existsb wants_updates (clients d) = false
   \/ (change_sequence v = change_sequence (server d)
       /\ forall R, agrees R (server d) -> agrees R v)) ->
  distributed d (d <| server := v |>) i.
Proof.
  intros Hq c Hc. exists c, []. rewrite app_nil_r. split_and!; try done.
  intros Hw. assert (E : existsb wants_updates (clients d) = true).
  { apply existsb_exists. exists c. split; [|done]. eapply list_elem_of_In, list_elem_of_lookup_2, Hc. }
  rewrite E in Hq. destruct Hq as [|[Hqs Hq]]; [done|].
  right. split; [apply queue_frame_refl|]. split; [done|]. split; [exact Hqs|]. intros R HR. by apply Hq.
Qed.

Lemma unchanged_synced {A} (differs : A -> A -> bool) (R old new : list A) :
  (forall x y z, differs x y = false -> differs z y = false -> differs x z = false) ->
  changed_indices differs 0 new old = [] -> length new = length old ->
  synced differs [] R old -> synced differs [] R new.
Proof.
  intros Ht Hc Hl Hs. pose proof (synced_next_round differs R old new Ht Hs Hl) as H.
  by rewrite Hc in H.
Qed.

(** The state after the sample. *)
Record sampled (sm : sampler_t V) (old new : roadcast_server_t) : Prop := {
  sd_frames : sv_frames new = published sm;
  sd_tracking : tracking (sv_frames new) (sv_signals new);
  sd_ok : server_ok new;
  sd_sequence : sample_sequence new = published_sequence sm;
  sd_change : change_sequence new = change_sequence old
              \/ change_sequence new = u64 (change_sequence old + 1);
}.

Lemma tracking_same frames frames' values :
  frames_ok frames -> frames_ok frames' ->
  changed_indices frame_differs 0 frames' frames = [] ->
  tracking frames values -> tracking frames' values.
Proof.
  intros [Hl1 _] [Hl2 _] Hc [Hl Hv]. split; [done|]. intros k d v Hd Hk.
  destruct (Hv k d v Hd Hk) as ((T1 & T2 & T3) & Hs & Ho). split_and!; try done.
  assert (Hin : d ∈ SIGNALS) by (by eapply list_elem_of_lookup_2).
  assert (Hch : signal_changed frames' frames d = false).
  { destruct (definition_frame d) as [Hi _]; [by apply definition_ok_facts|].
    unfold zlen in *.
    destruct (lookup_lt_is_Some_2 frames' (Z.to_nat (frame_index d))) as [f' Hf']; [lia|].
    destruct (lookup_lt_is_Some_2 frames (Z.to_nat (frame_index d))) as [f Hf]; [lia|].
    unfold signal_changed, frame_of. rewrite Hf', Hf. cbn.
    destruct (frame_differs f' f) eqn:E; [|done]. exfalso.
    assert (frame_index d ∈ changed_indices frame_differs 0 frames' frames) as Hbad.
    { apply changed_indices_spec; [lia|]. exists (Z.to_nat (frame_index d)), f', f.
      split_and!; done || lia. }
    rewrite Hc in Hbad. by apply elem_of_nil in Hbad. }
  destruct (spec_unchanged frames' frames d Hin Hch) as (E1 & E2 & E3).
  unfold tracks. by rewrite E1, E2, E3.
Qed.

Lemma broadcast_run d v old fi si seq_ ts :
  array_ok (d <| server := v |>) -> frames_ok (sv_frames old) -> signals_ok (sv_signals old) ->
  fi = changed_indices frame_differs 0 (sv_frames v) (sv_frames old) ->
  si = changed_indices signal_differs 0 (sv_signals v) (sv_signals old) ->
  server d = old -> is_u64 seq_ -> is_u64 ts ->
  fi <> [] -> change_sequence v = u64 (change_sequence old + 1) ->
  exists d', each_client (broadcast ts
      (map (fun L => filled (frame_payload seq_ (sv_frames v) L)) (pieces FRAMES_PER_MESSAGE fi))
      (map (fun L => filled (signal_payload seq_ (sv_signals v) L)) (pieces SIGNALS_PER_MESSAGE si)))
      (d <| server := v |>) = Ok d'
    /\ array_ok d' /\ same_rest (d <| server := v |>) d' /\ forall i, distributed d d' i.
Proof.
  intros Hok Hfo Hso -> -> Hold Hseq Hts Hne Hstep.
  pose proof Hok as ((_ & Hf & Hids & Hs & _ & Hcs & _) & _). cbn in Hf, Hids, Hs, Hcs.
  set (fi := changed_indices frame_differs 0 _ _). set (si := changed_indices signal_differs 0 _ _).
  pose proof Hf as [Hfl _]. pose proof Hs as [Hsl _]. pose proof Hfo as [Hfol _]. pose proof Hso as [Hsol _].
  assert (Hfi : in_range (sv_frames v) fi) by (apply changed_indices_range; unfold zlen in *; lia).
  assert (Hsi : in_range (sv_signals v) si) by (apply changed_indices_range; unfold zlen in *; lia).
  destruct (pieces_ok (sv_frames v) FRAMES_PER_MESSAGE fi) as (_ & F2 & F3); [done..|].
  destruct (pieces_ok (sv_signals v) SIGNALS_PER_MESSAGE si) as (_ & S2 & S3); [done..|].
  set (fps := map (frame_payload seq_ (sv_frames v)) (pieces FRAMES_PER_MESSAGE fi)).
  set (sps := map (signal_payload seq_ (sv_signals v)) (pieces SIGNALS_PER_MESSAGE si)).
  assert (Hfp : Forall (fun p => 0 < zlen p <= PAYLOAD_CAP) fps).
  { apply Forall_map, Forall_forall. intros L HL. apply frame_payload_size; [done|..].
    - by apply (proj1 (Forall_forall _ _) F2).
    - by apply (proj1 (Forall_forall _ _) F3). }
  assert (Hsp : Forall (fun p => 0 < zlen p <= PAYLOAD_CAP) sps).
  { apply Forall_map, Forall_forall. intros L HL. apply signal_payload_size; [done|..].
    - by apply (proj1 (Forall_forall _ _) S2).
    - by apply (proj1 (Forall_forall _ _) S3). }
  set (fms := map (message_bytes ROADCAST_MSG_UPDATE_BATCH (change_sequence v) ts) fps).
  set (sms := map (message_bytes ROADCAST_MSG_SIGNAL_UPDATE_BATCH (change_sequence v) ts) sps).
  destruct (each_client_run (broadcast ts (map filled fps) (map filled sps))
    (fun s s' => if wants_updates (cl s) then updated (fms ++ sms) s s' else s' = s)
    (d <| server := v |>) Hok) as (d' & Hrun & Hok' & Hrest & Hserved).
  { intros s Hs0 Hsame. cbn in Hsame.
    assert (Hcseq : change_sequence (sv s) = change_sequence v) by (rewrite Hsame; done).
    eapply wp_mono; [by apply (broadcast_wp ts fps sps s)|]. intros ? s'. by rewrite Hcseq. }
  exists d'. rewrite <- !(map_map (frame_payload seq_ (sv_frames v)) filled),
    <- !(map_map (signal_payload seq_ (sv_signals v)) filled).
  split; [exact Hrun|]. split; [done|]. split; [done|]. intros i c Hc.
  destruct (Hserved i c Hc) as (s & s' & Hid & Hcl & Hst & _ & Hsame & Hc' & Hst' & Hsv & Hu).
  pose proof Hsv as (Hid' & _ & _ & _ & _ & Hown). rewrite Hcl in Hu, Hown. cbn in Hst.
  destruct Hrest as [Hv' _]. cbn in Hv'.
  destruct (wants_updates c) eqn:Hw.
  - destruct Hu as [(Hst2 & Hq & _)|(Hcut & ms & _ & Hst2)].
    + exists (cl s'), (fms ++ sms). split; [done|]. split; [congruence|]. split; [done|].
      split; [done|]. intros _. right. rewrite <- Hcl. split; [done|]. split.
      { apply Forall_app. split.
        - apply (frame_messages_live (change_sequence v) ts seq_ Hcs Hts Hseq); try done.
          pose proof (length_changed_indices frame_differs (sv_frames v) (sv_frames old) 0) as Hfn.
          assert (Hfz : zlen fi <= FRAME_COUNT) by (unfold zlen, fi in *; lia).
          eapply Forall_impl; [|exact (pieces_short (sv_frames v) FRAMES_PER_MESSAGE fi ltac:(done) Hfi)].
          intros L HL. cbv beta in HL |- *. lia.
        - by apply (signal_messages_live (change_sequence v) ts seq_ Hcs Hts Hseq). }
      assert (Hv2 : change_sequence (server d') = u64 (change_sequence (server d) + 1))
        by (rewrite Hv', Hold; exact Hstep).
      split.
      { rewrite Hv2. apply in_sequence_step.
        - rewrite Hold, <- Hstep. apply Forall_app. split.
          + by apply (frame_messages_sequence (change_sequence v) ts seq_ Hcs Hts).
          + by apply (signal_messages_sequence (change_sequence v) ts seq_ Hcs Hts).
        - intros E. apply app_eq_nil in E as [E _]. apply map_eq_nil, map_eq_nil in E.
          destruct (pieces_ok (sv_frames v) FRAMES_PER_MESSAGE fi) as [F1 _]; [done..|].
          rewrite E in F1. by apply Hne. }
      intros R HR. rewrite Hv'. rewrite Hold in HR.
      assert (is_u64 (change_sequence v)) by done.
      exact (update_agrees (change_sequence v) ts seq_ Hcs Hts Hseq R old v Hf Hids Hs Hfo Hso HR).
    + exists (cl s'), ms. split; [done|]. split; [congruence|]. split; [done|]. split; [done|].
      intros _. left. exact Hcut.
  - subst s'. exists c, []. rewrite app_nil_r. rewrite Hcl in Hc', Hown.
    split; [done|]. split; [congruence|]. done.
Qed.

(** The process outside the client array and the streams. *)
Definition same_process d d' : Prop :=
  sampler d' = sampler d /\ thread_sequence d' = thread_sequence d
  /\ thread_next_tick d' = thread_next_tick d /\ process d' = process d.

Lemma same_rest_process d d' : same_rest d d' -> same_process d d'.
Proof. intros [_ ->]. done. Qed.

Lemma array_ok_server d v :
  array_ok d -> server_ok v -> client_queue_slots v = client_queue_slots (server d) ->
  array_ok (d <| server := v |>).
Proof.
  intros (_ & Hl & Hall) Hv Hq. split_and!; [done|done|]. revert Hall. apply Forall_impl.
  intros c [H1 H2]. split; [|done]. cbn. by rewrite Hq.
Qed.

(** The part of the distribution after the signals have been decoded. *)
Lemma distribute_changed d v seq_ ts :
  let fi := changed_indices frame_differs 0 (sv_frames v) (sv_frames (server d)) in
  let si := changed_indices signal_differs 0 (sv_signals v) (sv_signals (server d)) in
  array_ok d -> array_ok (d <| server := v |>) -> is_u64 seq_ -> is_u64 ts ->
  fi <> [] -> change_sequence v = u64 (change_sequence (server d) + 1) ->
  exists d',
    (if negb (existsb wants_updates (clients d)) then mret (d <| server := v |>)
     else
       fcs ← frame_chunks (length fi) (sv_frames v) seq_ fi 0 0;
       let s := count_chunks (zlen fcs) v in
       scs ← signal_chunks (length si) (sv_signals s) seq_ si 0 0;
       let s := count_chunks (zlen scs) s in
       each_client (broadcast ts fcs scs) (d <| server := s |>)) = Ok d'
    /\ array_ok d' /\ server_same v (server d') /\ same_process d d'
    /\ forall i, distributed d d' i.
Proof.
  intros fi si Hd Hok Hseq Hts Hne Hstep.
  destruct (existsb wants_updates (clients d)) eqn:Hsub; cbn [negb].
  2: { exists (d <| server := v |>). split; [done|]. split; [done|].
       split; [apply server_same_refl|]. split; [done|]. intros i.
       apply distributed_quiet. by left. }
  pose proof Hd as ((_ & Hfo & _ & Hso & _) & _).
  pose proof Hok as ((_ & Hf & _ & Hs & _) & _). cbn in Hf, Hs.
  pose proof Hf as [Hfl _]. pose proof Hs as [Hsl _].
  pose proof Hfo as [Hfol _]. pose proof Hso as [Hsol _]. unfold zlen in Hfl, Hsl, Hfol, Hsol.
  assert (Hfi : in_range (sv_frames v) fi) by (apply changed_indices_range; lia).
  assert (Hsi : in_range (sv_signals v) si) by (apply changed_indices_range; lia).
  pose proof (length_changed_indices frame_differs (sv_frames v) (sv_frames (server d)) 0) as Hfn.
  pose proof (length_changed_indices signal_differs (sv_signals v) (sv_signals (server d)) 0) as Hsn.
  fold fi in Hfn. fold si in Hsn.
  rewrite (frame_chunks_spec seq_ (sv_frames v) fi) by (try done; unfold zlen; lia).
  rewrite bind_ok. cbn zeta.
  change (sv_signals (count_chunks _ v)) with (sv_signals v).
  rewrite (signal_chunks_spec seq_ (sv_signals v) si) by (try done; unfold zlen; lia).
  rewrite bind_ok.
  set (fcs := map (fun L => filled (frame_payload seq_ (sv_frames v) L)) (pieces FRAMES_PER_MESSAGE fi)).
  set (scs := map (fun L => filled (signal_payload seq_ (sv_signals v) L))
                (pieces SIGNALS_PER_MESSAGE si)).
  set (v' := count_chunks (zlen scs) (count_chunks (zlen fcs) v)).
  destruct (broadcast_run d v' (server d) fi si seq_ ts) as (d' & Hrun & Hok' & Hrest & Hall);
    try done.
  exists d'. split; [exact Hrun|]. split; [done|]. split.
  - destruct Hrest as [Hv _]. cbn in Hv. eapply server_same_trans; [|exact Hv]. done.
  - split; [|done]. exact (same_rest_process _ _ Hrest).
Qed.

(** What one sample does to the whole process. *)
Record sample_run d d' : Prop := {
  sr_array : array_ok d';
  sr_process : same_process d d';
  sr_tracking : tracking (sv_frames (server d')) (sv_signals (server d'));
  sr_old : published_sequence (sampler d) <= sample_sequence (server d) -> d' = d;
  sr_new : sample_sequence (server d) < published_sequence (sampler d) ->
           sampled (sampler d) (server d) (server d');
  sr_shutdown : shutting_down (server d') = shutting_down (server d);
  sr_clients : forall i, distributed d d' i;
}.

Lemma sampled_same sm v v1 v2 : server_same v1 v2 -> sampled sm v v1 -> sampled sm v v2.
Proof. intros -> []. by split. Qed.

Lemma distribute_run d :
  array_ok d -> tracking (sv_frames (server d)) (sv_signals (server d)) ->
  publication_ok (sampler d) ->
  exists d', distribute_latest_sample d = Ok d' /\ sample_run d d'.
Proof.
  intros Hok Htr (Hf & Hids & Hseq & Hts). unfold distribute_latest_sample, sampler_read_latest.
  pose proof Hok as ((Hslots & Hfo & Hido & Hso & _ & Hcs & _ & Hhz) & _).
  assert (Hts' : is_u64 (published_timestamp_ns (sampler d))) by (unfold is_u64; lia).
  set (latest := published (sampler d)) in *. set (seq_ := published_sequence (sampler d)) in *.
  set (ts := published_timestamp_ns (sampler d)) in *. cbn zeta.
  destruct (Z.leb_spec seq_ (sample_sequence (server d))) as [Hle|Hgt].
  { exists d. split; [done|]. split; try done; [lia|]. intros i.
    pose proof (distributed_quiet d (server d) i (or_intror (conj eq_refl (fun R HR => HR)))) as H.
    by destruct d. }
  pose proof Hfo as [Hfol _]. pose proof Hf as [Hfl _]. unfold zlen in Hfol, Hfl.
  destruct (Z.eqb_spec (zlen (changed_indices frame_differs 0 latest (sv_frames (server d)))) 0)
    as [Hz|Hz].
  - unfold zlen in Hz. assert (Hnil := nil_length_inv _ ltac:(apply (Nat2Z.inj _ 0), Hz)).
    set (v := count_sample seq_ ts ((server d) <| sv_frames := latest |>)).
    assert (Htr' : tracking latest (sv_signals (server d))) by (by eapply tracking_same).
    assert (Hv : server_ok v) by (unfold server_ok, v; cbn; split_and!; done || lia).
    exists (d <| server := v |>). split; [done|]. split; try done.
    + exact (array_ok_server d v Hok Hv eq_refl).
    + lia.
    + intros _. split; try done. by left.
    + intros i. apply distributed_quiet. right. split; [done|]. intros R (H1 & H2 & H3).
      split_and!; [done| |done]. cbn.
      apply unchanged_synced with (old := sv_frames (server d)); try done; [apply frame_differs_trans|lia].
  - destruct (redecode_tracking latest (sv_frames (server d)) Hf Hfo ts (sv_signals (server d)) Hts Htr)
      as (values & -> & Htr' & Hs & _).
    rewrite bind_ok. cbn zeta.
    set (fi := changed_indices frame_differs 0 latest (sv_frames (server d))) in *.
    set (si := changed_indices signal_differs 0 values (sv_signals (server d))).
    destruct (Z.eqb_spec (zlen fi) 0); [done|]. cbn [andb].
    set (v1 := count_sample seq_ ts ((server d) <| sv_frames := latest |> <| sv_signals := values |>)).
    set (v := (v1 <| stats := (stats v1) <| changed_frames :=
                   u64 (changed_frames (stats v1) + zlen fi) |> |>)
              <| change_sequence := u64 (change_sequence v1 + 1) |>).
    assert (Hv : server_ok v) by (unfold server_ok, v; cbn; split_and!; done || lia || apply u64_range).
    destruct (distribute_changed d v seq_ ts) as (d' & Hrun & Hok' & Hsame & Hproc & Hall); try done.
    { exact (array_ok_server d v Hok Hv eq_refl). }
    { intros E. apply n. unfold fi. change latest with (sv_frames v). by rewrite E. }
    exists d'. split; [exact Hrun|].
    assert (Hsm : sampled (sampler d) (server d) v) by (split; try done; by right).
    split; try done; [by rewrite Hsame|lia| |by rewrite Hsame]. intros _. by eapply sampled_same.
Qed.
End Distribution.
