(* ===== verification/Heartbeat.v ===== *)
(** * Heartbeats, connections and shutdown: one client

    What the event loop's handlers that are not driven by the client do to one
    element of the client array. *)

From S2P Require Import Prelude Wire CatalogDefs Catalog SourceSession Sampler ServerDefs.
From S2P Require Import ServerOps ServerQueue ServerClient Replica ServerCatchup ServerInput.
From S2P Require Import DaemonOps Broadcast.

(** The client has missed the deadline of its handshake or of its setup. *)
Definition timed_out (now : Z) (c : roadcast_client_t) : Prop :=
  active c <> 0
  /\ ((greeted c = 0 /\ hello_deadline_ns c <= now)
      \/ (greeted c <> 0 /\ subscribed c = 0 /\ setup_deadline_ns c <> 0
          /\ setup_deadline_ns c <= now)).

Section Heartbeat.
Context `{HC : CatalogOk} {W : Type} `{K : !Clock W} `{U : !Uv W} `{HU : !UvOk U K}.
Implicit Types s : ctx W.

Definition heartbeat_message (v : roadcast_server_t) (c : roadcast_client_t) (st : Z) : list Z :=
  message_bytes ROADCAST_MSG_HEARTBEAT (change_sequence v) (sample_timestamp_ns v)
    (heartbeat_bytes (mk_heartbeat (sample_sequence v) (change_sequence v) (dropped_batches c)
       (coalesced_samples v) (effective_hz_millihz v) st)).

(** A heartbeat closes the client that timed out, sends the heartbeat to a
    subscriber or cuts it off, and leaves the others alone. *)
Definition heartbeaten (now st : Z) s s' : Prop :=
  (timed_out now (cl s) -> active (cl s') = 0 /\ stream s' = stream s)
  /\ (~ timed_out now (cl s) -> wants_updates (cl s) = true ->
      updated [heartbeat_message (sv s) (cl s) st] s s')
  /\ (~ timed_out now (cl s) -> wants_updates (cl s) = false -> s' = s).

(** Closing the client after counting the reason. *)
Lemma count_close_wp (f : stats_t -> stats_t) s :
  ctx_ok s ->
  wp (mods (fun v => v <| stats := f (stats v) |>);; client_close)
    (fun _ s' => serviced s s' /\ stream s' = stream s /\ active (cl s') = 0) s.
Proof.
  intros [[Hs Hq] Hd]. destruct s as [id c v w]. wp_steps.
  set (s1 := mk_ctx id c _ w). assert (Hok1 : ctx_ok s1) by (split; [split; [exact Hs|exact Hq]|exact Hd]).
  eapply wp_mono; [by apply close_wp|]. intros ? s' (Hsv & Hst & Ha). split; [|done].
  destruct Hsv as (E1 & E2 & E3 & E4 & E5 & E6). unfold serviced. split_and!; try done.
Qed.

Lemma encode_heartbeat_bytes h :
  roadcast_encode_heartbeat (repeat 0 (Z.to_nat ROADCAST_HEARTBEAT_SIZE)) h
  = Ok (ROADCAST_HEARTBEAT_SIZE, heartbeat_bytes h).
Proof.
  rewrite encode_heartbeat_blit, blit_ok by (by vm_compute). done.
Qed.

Lemma heartbeat_client_wp now st s :
  ctx_ok s ->
  wp (heartbeat_client now st) (fun _ s' => serviced s s' /\ heartbeaten now st s s') s.
Proof.
  intros Hok. unfold heartbeat_client. destruct s as [id c v w]. wp_steps.
  set (s := mk_ctx id c v w) in *.
  assert (Hclose : forall f, timed_out now c ->
    wp (mods (fun v => v <| stats := f (stats v) |>);; client_close)
      (fun _ s' => serviced s s' /\ heartbeaten now st s s') s).
  { intros f Ht. eapply wp_mono; [by apply count_close_wp|]. intros ? s' (H1 & H2 & H3).
    split; [done|]. by repeat split. }
  destruct (negb (active c =? 0) && (greeted c =? 0) && (hello_deadline_ns c <=? now)) eqn:E1.
  { apply (Hclose (fun x => x <| hello_timeouts := u64 (hello_timeouts x + 1) |>)).
    destruct (Z.eqb_spec (active c) 0), (Z.eqb_spec (greeted c) 0),
      (Z.leb_spec (hello_deadline_ns c) now); try done. split; [done|]. by left. }
  destruct (negb (active c =? 0) && negb (greeted c =? 0) && (subscribed c =? 0)
    && negb (setup_deadline_ns c =? 0) && (setup_deadline_ns c <=? now)) eqn:E2.
  { apply (Hclose (fun x => x <| setup_timeouts := u64 (setup_timeouts x + 1) |>)).
    destruct (Z.eqb_spec (active c) 0), (Z.eqb_spec (greeted c) 0), (Z.eqb_spec (subscribed c) 0),
      (Z.eqb_spec (setup_deadline_ns c) 0), (Z.leb_spec (setup_deadline_ns c) now); try done.
    split; [done|]. by right. }
  assert (Hnt : ~ timed_out now c).
  { intros [Ha Ht]. apply Z.eqb_neq in Ha. rewrite Ha in E1, E2.
    destruct Ht as [(Hg & Hh)|(Hg & Hs & Hz & Hd)].
    - apply Z.eqb_eq in Hg. apply Z.leb_le in Hh. by rewrite Hg, Hh in E1.
    - apply Z.eqb_neq in Hg, Hz. apply Z.eqb_eq in Hs. apply Z.leb_le in Hd.
      by rewrite Hg, Hs, Hz, Hd in E2. }
  destruct ((active c =? 0) || (greeted c =? 0) || (subscribed c =? 0)
    || negb (needs_resync c =? 0)) eqn:E3.
  { apply wp_ret. split; [by apply serviced_refl|]. split_and!; try done. intros _ Hw.
    exfalso. unfold wants_updates in Hw. cbn in Hw. destruct Hok as [_ Hd].
    destruct (Z.eqb_spec (active c) 0), (Z.eqb_spec (subscribed c) 0),
      (Z.eqb_spec (needs_resync c) 0); try done.
    destruct (Z.eqb_spec (greeted c) 0) as [Hg|]; [|done]. by destruct (do_greeted c Hd Hg). }
  assert (Hw : wants_updates c = true /\ greeted c <> 0).
  { unfold wants_updates. destruct (Z.eqb_spec (active c) 0), (Z.eqb_spec (greeted c) 0),
      (Z.eqb_spec (subscribed c) 0), (Z.eqb_spec (needs_resync c) 0); done. }
  destruct Hw as [Hw Hg].
  apply wp_bind. eapply wp_mem; [apply encode_heartbeat_bytes|]. cbv beta iota. apply wp_bind.
  set (h := mk_heartbeat _ _ _ _ _ _).
  eapply wp_mono; [apply droppable_wp; [done|done|by vm_compute]|].
  change (take (Z.to_nat ROADCAST_HEARTBEAT_SIZE) (heartbeat_bytes h)) with (heartbeat_bytes h).
  cbn zeta. intros r s1 [Hs1 Hr]. change (message_bytes _ _ _ _) with (heartbeat_message v c st) in Hr.
  assert (Hpost : forall s', updated [heartbeat_message v c st] s s' -> heartbeaten now st s s').
  { intros s' Hu. split_and!; try done. intros _ Hw'. change (cl s) with c in Hw'. congruence. }
  destruct Hr as [(-> & _ & Hst)|[(-> & Hst & Hf & Hv & _)|(-> & Hst & Hdr & _)]].
  - change (-1 <? 0) with true. cbv iota. eapply wp_mono; [apply close_wp; apply Hs1|].
    intros ? s2 (Hs2 & Hst2 & Ha2). split; [by eapply serviced_trans|]. apply Hpost. right.
    split; [by left|]. exists []. split; [by apply prefix_nil|]. rewrite app_nil_r. congruence.
  - change (0 <? 0) with false. cbv iota. apply wp_ret. split; [done|]. apply Hpost. left. done.
  - change (0 <? 0) with false. cbv iota. apply wp_ret. split; [done|]. apply Hpost. right.
    split; [right; rewrite Hdr; done|]. exists []. split; [by apply prefix_nil|]. by rewrite app_nil_r.
Qed.

(** ** New connections *)

(** An accepted client: nothing but its owner and its deadlines are set. *)
Definition greeting_due (c : roadcast_client_t) : Prop :=
  c = zero_client <| peer_uid := peer_uid c |> <| peer_pid := peer_pid c |>
        <| hello_deadline_ns := hello_deadline_ns c |>
        <| setup_deadline_ns := setup_deadline_ns c |> <| active := 1 |>.

(** The outcome of a connection on a free element of the array: nobody is let in,
    or one more client of a user that had fewer than the limit. *)
Definition admitted (cs : list roadcast_client_t) s s' : Prop :=
  cid s' = cid s /\ server_same (sv s) (sv s') /\ others s s' /\ ctx_ok s'
  /\ stream s' = stream s
  /\ (active (cl s') = 0
      \/ (greeting_due (cl s')
          /\ active_clients_for_uid cs (peer_uid (cl s')) < MAX_CLIENTS_PER_UID)).

Lemma admitted_closed cs s s1 s2 :
  cid s1 = cid s -> server_same (sv s) (sv s1) -> others s s1 -> stream s1 = stream s ->
  serviced s1 s2 -> stream s2 = stream s1 -> active (cl s2) = 0 -> admitted cs s s2.
Proof.
  intros E1 E2 E3 E4 (F1 & F2 & F3 & F4 & _) F5 F6. unfold admitted. split_and!; try done.
  - congruence.
  - by eapply server_same_trans.
  - intros k Hk. rewrite F3 by congruence. by apply E3.
  - congruence.
  - by left.
Qed.

(** The calls on the descriptor of the stream put nothing on any stream. *)
Lemma credentials_wp id c v w Q :
  (forall r w', (forall k, sent w' k = sent w k) -> Q r (mk_ctx id c v w')) ->
  wp read_peer_credentials Q (mk_ctx id c v w).
Proof.
  intros HQ. unfold read_peer_credentials. wp_steps.
  set (w1 := (uv_fileno id w).2). assert (H1 : forall k, sent w1 k = sent w k) by (intros k; apply sent_fileno).
  destruct (uv_fileno id w).1 as [fd|]; [|by apply wp_ret, HQ]. wp_steps.
  set (w2 := (getsockopt_peercred fd w1).2).
  assert (H2 : forall k, sent w2 k = sent w k) by (intros k; unfold w2; by rewrite sent_peercred).
  destruct (getsockopt_peercred fd w1).1 as [[[uid pid] len]|]; [destruct (negb _)|];
    by apply wp_ret, HQ.
Qed.

Lemma send_buffer_wp id c v w Q :
  (forall w', (forall k, sent w' k = sent w k) -> Q tt (mk_ctx id c v w')) ->
  wp set_send_buffer Q (mk_ctx id c v w).
Proof.
  intros HQ. unfold set_send_buffer. wp_steps.
  set (w1 := (uv_fileno id w).2). assert (H1 : forall k, sent w1 k = sent w k) by (intros k; apply sent_fileno).
  destruct (uv_fileno id w).1 as [fd|]; wp_steps; apply HQ; [|done].
  intros k. by rewrite sent_sndbuf.
Qed.

Lemma reject_connection_quiet w k : sent (reject_connection w) k = sent w k.
Proof.
  unfold reject_connection. pose proof (sent_calloc k w) as H1.
  destruct (calloc_stream w) as [[r|] w1]; cbn [snd] in H1; [|done].
  pose proof (sent_pipe_init r k w1) as H2. destruct (uv_pipe_init r w1) as [rc w2]. cbn [snd] in H2.
  destruct (rc <? 0); [by rewrite sent_free, H2|].
  pose proof (sent_accept r k w2) as H3. destruct (uv_accept r w2) as [rc' w3]. cbn [snd] in H3.
  destruct (rc' <? 0); by rewrite sent_close, H3, H2.
Qed.

Lemma accept_client_wp cs s :
  server_ok (sv s) -> wp (accept_client cs) (fun _ s' => admitted cs s s') s.
Proof.
  intros Hv. pose proof Hv as ((Hslots & _) & _).
  assert (Hok : forall id c v (w : W), server_same (sv s) v -> data_ok c ->
    output c = output zero_client -> pending_bytes c = 0 -> ctx_ok (mk_ctx id c v w)).
  { intros id c v w Hsame Hd Ho Hp. split; [|done]. split; cbn [sv cl].
    - by eapply server_same_ok.
    - pose proof (zero_client_queue_ok (client_queue_slots v)) as Hq. unfold queue_ok in *.
      rewrite Ho, Hp. apply Hq. rewrite Hsame. cbn. lia. }
  pose proof zero_client_data_ok as Hz.
  unfold accept_client. destruct s as [id c v w]. cbn [sv] in Hv, Hok. wp_steps.
  set (w1 := (uv_pipe_init id w).2). set (s := mk_ctx id c v w).
  assert (Hsent1 : forall k, sent w1 k = sent w k) by (intros k; apply sent_pipe_init).
  assert (Hsame : server_same v v) by apply server_same_refl.
  destruct (_ <? 0).
  { apply wp_ret. unfold admitted. split_and!; try done; [intros k _; apply Hsent1| |apply Hsent1|by left].
    by apply Hok. }
  wp_steps. set (w2 := (uv_accept id w1).2).
  assert (Hsent2 : forall k, sent w2 k = sent w k)
    by (intros k; unfold w2; rewrite sent_accept; apply Hsent1).
  destruct (_ <? 0).
  { wp_steps. unfold admitted. cbn. split_and!; try done.
    - intros k _. cbn. rewrite sent_close. apply Hsent2.
    - apply Hok; try done. data_ok_tac Hz.
    - unfold stream. cbn. rewrite sent_close. apply Hsent2.
    - by left. }
  apply wp_bind, credentials_wp. intros credentials w3 Hs3.
  assert (Hsent3 : forall k, sent w3 k = sent w k) by (intros k; by rewrite Hs3).
  (* turned away: the client is marked active only to be closed *)
  assert (Hreject : wp (
      mods (fun v => v <| stats := (stats v) <| peer_limit_rejections :=
              u64 (peer_limit_rejections (stats v) + 1) |> |>);;
      modc (fun c => c <| active := 1 |>);; client_close)
      (fun _ s' => admitted cs s s') (mk_ctx id zero_client v w3)).
  { wp_steps. set (s1 := mk_ctx id _ _ w3).
    assert (Hok1 : ctx_ok s1) by (apply Hok; try done; data_ok_tac Hz).
    eapply wp_mono; [by apply close_wp|]. intros ? s2 (H1 & H2 & H3).
    apply (admitted_closed cs s s1 s2); try done; [intros k _; apply Hsent3|apply Hsent3]. }
  destruct credentials as [[uid pid]|]; [|exact Hreject].
  destruct (Z.leb_spec MAX_CLIENTS_PER_UID (active_clients_for_uid cs uid)); [exact Hreject|].
  wp_steps. set (w4 := (monotonic_ns w3).2). set (now := (monotonic_ns w3).1).
  set (c1 := _ <| active := 1 |>). apply send_buffer_wp. intros w5 Hs5.
  wp_steps. set (w6 := (uv_read_start id w5).2).
  assert (Hsent6 : forall k, sent w6 k = sent w k).
  { intros k. unfold w6. rewrite sent_read_start, Hs5. unfold w4. rewrite sent_clock. apply Hsent3. }
  assert (Hok6 : ctx_ok (mk_ctx id c1 v w6)) by (apply Hok; try done; data_ok_tac Hz).
  destruct (_ <? 0).
  - eapply wp_mono; [by apply close_wp|]. intros ? s2 (H1 & H2 & H3).
    eapply admitted_closed; [..|exact H1|exact H2|exact H3]; try done;
      [intros k _; apply Hsent6|apply Hsent6].
  - apply wp_ret. unfold admitted. split_and!; try done; [intros k _; apply Hsent6|apply Hsent6|].
    right. by split.
Qed.
End Heartbeat.
