(* ===== verification/Events.v ===== *)
(** * The events of the daemon

    The daemon as a transition system: an event of the loop or a turn of the
    sampling thread, when it can happen, and its handler. *)

From Stdlib Require Import String.
From S2P Require Import Prelude Wire CatalogDefs Catalog SourceSession Sampler ServerDefs.
From S2P Require Import ServerOps ServerQueue ServerClient Replica ServerCatchup ServerInput.
From S2P Require Import Framing DaemonOps Distribute Broadcast Daemon Heartbeat.

Inductive event :=
  | Connection (status : Z)
  | Received (i : nat) (status : Z) (bytes : list Z)
  | Written (i : nat) (slot status : Z)
  | Closed (i : nat)
  | RejectedClosed (r : Z)
  | SampleNotification
  | HeartbeatTimer
  | StatsTimer
  | Signal
  | SamplerTurn.

(** The sampling thread does not touch the streams of the clients. *)
Class Apart {V W} `{K : Clock W} {U : Uv W} (S : VhalSource V W) (HU : UvOk U K) : Prop := {
  sent_sleep c t w : sent (sleep_until t w) c = sent w c;
  sent_vhal_open c v p w : sent (roadcast_vhal_open v p w).2 c = sent w c;
  sent_vhal_read c v fs w : sent (roadcast_vhal_read v fs w).2 c = sent w c;
  sent_vhal_close c v w : sent (roadcast_vhal_close v w).2 c = sent w c;
}.

Section Events.
Context `{Catalog} {V W : Type} `{K : !Clock W} `{U : !Uv W} `{S : !VhalSource V W}.
Implicit Types d : daemon V W.

Definition handle (e : event) d : res (daemon V W) :=
  match e with
  | Connection status => on_connection status d
  | Received i status bytes => '(_, d) ← at_client (Z.of_nat i) (on_client_read status bytes) d; mret d
  | Written i slot status => '(_, d) ← at_client (Z.of_nat i) (on_client_write slot status) d; mret d
  | Closed i => '(_, d) ← at_client (Z.of_nat i) on_client_closed d; mret d
  | RejectedClosed r => mret (on_rejected_client_closed r d)
  | SampleNotification => on_sample_notification d
  | HeartbeatTimer => on_heartbeat d
  | StatsTimer => mret (on_stats d)
  | Signal => on_signal d
  | SamplerTurn => mret (thread_step d)
  end.

(** libuv reads into the space the buffer has, completes the writes it was given,
    and closes the streams it was asked to close. *)
Definition enabled (e : event) d : Prop :=
  match e with
  | Received i status bytes =>
      exists c, clients d !! i = Some c /\ active c <> 0
        /\ (status < 0 \/ (status = zlen bytes /\ bytes_ok bytes
                           /\ zlen bytes <= CLIENT_INPUT_CAP - input_length c))
  | Written i slot _ =>
      exists c o, clients d !! i = Some c /\ 0 <= slot /\ output c !! Z.to_nat slot = Some o
        /\ in_use o = 1
  | Closed i => exists c, clients d !! i = Some c /\ closing c <> 0
  | _ => True
  end.

(** A run of the daemon. *)
Inductive steps : daemon V W -> list event -> daemon V W -> Prop :=
  | steps_nil d : steps d [] d
  | steps_cons d e d1 es d2 :
      enabled e d -> handle e d = Ok d1 -> steps d1 es d2 -> steps d (e :: es) d2.
End Events.

(** ** The users behind the connections *)

Definition owner_le (c c' : roadcast_client_t) : Prop :=
  active c' <> 0 -> active c <> 0 /\ peer_uid c' = peer_uid c.

Lemma same_owner_le c c' : same_owner c c' -> owner_le c c'.
Proof. intros [H1 H2] Ha. auto. Qed.

Lemma active_clients_le cs cs' uid :
  Forall2 owner_le cs cs' -> active_clients_for_uid cs' uid <= active_clients_for_uid cs uid.
Proof.
  unfold active_clients_for_uid. induction 1 as [|c c' cs cs' Ho _ IH]; [done|].
  rewrite !sumZ_cons. unfold owner_le in Ho.
  destruct (Z.eqb_spec (active c') 0); cbn [negb andb].
  - destruct (_ && _); lia.
  - destruct Ho as [Ha Hu]; [done|]. apply Z.eqb_neq in Ha. rewrite Ha, Hu. cbn [negb andb].
    destruct (_ =? uid); lia.
Qed.

Lemma inactive_le cs cs' :
  Forall2 owner_le cs cs' -> Forall (fun c => active c = 0) cs -> Forall (fun c => active c = 0) cs'.
Proof.
  induction 1 as [|c c' cs cs' Ho _ IH]; intros Hall; [constructor|].
  inversion_clear Hall as [|? ? Ha Hall']. constructor; [|auto].
  destruct (Z.eq_dec (active c') 0); [done|]. by destruct Ho.
Qed.

Lemma owner_le_refl c : owner_le c c.
Proof. done. Qed.

Lemma owner_le_insert cs i c c' :
  cs !! i = Some c -> owner_le c c' -> Forall2 owner_le cs (<[i := c']> cs).
Proof.
  intros Hi Ho. rewrite <- (list_insert_id cs i c Hi) at 1.
  apply Forall2_insert; [|done]. apply Forall_Forall2_diag, Forall_true. done.
Qed.

(** ** The invariant of the process *)

Record daemon_ok `{Catalog} {V W} `{S : !VhalSource V W} `{HS : !VhalSourceOk S} (d : daemon V W)
  : Prop := {
  ok_array : array_ok d;
  ok_tracking : tracking (sv_frames (server d)) (sv_signals (server d));
  ok_sampler : sampler_ok (sampler d);
  ok_publication : publication_ok (sampler d);
  ok_source_state : 0 <= source_state (sampler d) <= ROADCAST_SOURCE_STATE_DEGRADED;
  ok_thread : published_sequence (sampler d) = thread_sequence d;
  ok_users : forall uid, active_clients_for_uid (clients d) uid <= MAX_CLIENTS_PER_UID;
  ok_shutdown : shutting_down (server d) <> 0 -> Forall (fun c => active c = 0) (clients d);
}.

(** ** What an event does to one client *)

Definition cut (c : roadcast_client_t) : Prop :=
  active c = 0 \/ (needs_resync c = 1 /\ subscribed c = 0).

(** A subscriber that is up to date. *)
Definition live (c : roadcast_client_t) : Prop := wants_updates c = true /\ catchup_active c = 0.

Section Effects.
Context `{HC : CatalogOk} {V W : Type} `{K : !Clock W} `{U : !Uv W} `{HU : !UvOk U K}
  `{S : !VhalSource V W} `{HS : !VhalSourceOk S}.
Implicit Types d : daemon V W.

(** If the client [i] is live, it is cut off, or it stays live and the messages
    it is sent carry a replica from the old state of the server to the new one. *)
Definition follows d d' (i : nat) : Prop :=
  forall c, clients d !! i = Some c -> live c ->
  exists c' ms, clients d' !! i = Some c'
    /\ sent (world d') (Z.of_nat i) = sent (world d) (Z.of_nat i) ++ ms
    /\ (cut c' \/ (live c' /\ Forall live_message ms
          /\ in_sequence (change_sequence (server d)) ms (change_sequence (server d'))
          /\ forall R, agrees R (server d) -> agrees (fold_left apply_message ms R) (server d'))).

(** A shutdown is not undone. *)
Definition stays_down d d' : Prop :=
  shutting_down (server d) <> 0 -> shutting_down (server d') <> 0.

Lemma stays_down_eq d d' :
  shutting_down (server d') = shutting_down (server d) -> stays_down d d'.
Proof. unfold stays_down. by intros ->. Qed.

Lemma follows_refl d i : follows d d i.
Proof.
  intros c Hc Hl. exists c, []. rewrite app_nil_r. split; [done|]. split; [done|]. right. split_and!; done.
Qed.

(** Nothing happened to the client and nothing that it follows. *)
Lemma follows_still d d' i :
  clients d' !! i = clients d !! i ->
  sent (world d') (Z.of_nat i) = sent (world d) (Z.of_nat i) ->
  sv_frames (server d') = sv_frames (server d) -> sv_signals (server d') = sv_signals (server d) ->
  change_sequence (server d') = change_sequence (server d) ->
  follows d d' i.
Proof.
  intros Hc Hs Hf Hv Hq c Hi Hl. exists c, []. rewrite app_nil_r, Hc. split_and!; auto.
  right. split; [done|]. split; [done|]. split; [done|]. intros R. unfold agrees. cbn. by rewrite Hf, Hv.
Qed.

Lemma ok_loop d d' :
  daemon_ok d -> array_ok d' -> tracking (sv_frames (server d')) (sv_signals (server d')) ->
  same_process d d' -> Forall2 owner_le (clients d) (clients d') ->
  shutting_down (server d') = shutting_down (server d) -> daemon_ok d'.
Proof.
  intros [H1 H2 H3 H4 H5 H6 H7 H8] A T (P1 & P2 & P3) O Hsd.
  split; rewrite ?P1, ?P2; try done.
  - intros uid. specialize (H7 uid). pose proof (active_clients_le _ _ uid O). lia.
  - rewrite Hsd. intros Hne. by eapply inactive_le, H8.
Qed.

(** ** Handlers of one client *)

Lemma at_client_effect {A} (m : M W A) d i c (Q : A -> ctx W -> Prop) :
  daemon_ok d -> clients d !! i = Some c ->
  wp m (fun a s' => (cid s' = Z.of_nat i /\ server_same (server d) (sv s') /\ others (view d i c) s'
                     /\ ctx_ok s' /\ owner_le c (cl s')) /\ Q a s') (view d i c) ->
  exists a s', at_client (Z.of_nat i) m d = Ok (a, updated_at d i s') /\ daemon_ok (updated_at d i s')
    /\ stays_down d (updated_at d i s')
    /\ (forall j, j <> i -> follows d (updated_at d i s') j) /\ Q a s'.
Proof.
  intros Hok Hc Hwp.
  destruct (at_client_run m _ d i c Hc Hwp) as (a & s' & Hrun & (Hid & Hv & Hoth & Hctx & Hown) & HQ).
  exists a, s'. split; [exact Hrun|]. split; [|split; [|split; [|exact HQ]]].
  - apply (ok_loop d); try done.
    + by apply updated_at_ok; [apply ok_array|..].
    + unfold updated_at. cbn. rewrite Hv. apply (ok_tracking d Hok).
    + by eapply owner_le_insert.
    + unfold updated_at. cbn. by rewrite Hv.
  - apply stays_down_eq. unfold updated_at. cbn. by rewrite Hv.
  - intros j Hj. apply follows_still; unfold updated_at; cbn.
    + by rewrite list_lookup_insert_ne.
    + apply (Hoth (Z.of_nat j)). cbn. lia.
    + by rewrite Hv.
    + by rewrite Hv.
    + by rewrite Hv.
Qed.

Lemma progress_effect i d c s' :
  progress (view d i c) s' ->
  cid s' = Z.of_nat i /\ server_same (server d) (sv s') /\ others (view d i c) s'
  /\ ctx_ok s' /\ owner_le c (cl s').
Proof.
  intros [(E1 & E2 & E3 & E4 & _ & _ & E5) _]. cbn in *. rewrite E2. split_and!; try done;
    [apply server_same_refl|by apply same_owner_le].
Qed.

Lemma received_run d i status bytes :
  daemon_ok d -> enabled (Received i status bytes) d ->
  exists d', handle (Received i status bytes) d = Ok d' /\ daemon_ok d' /\ stays_down d d'
    /\ forall j, j <> i -> follows d d' j.
Proof.
  intros Hok (c & Hc & Ha & Hcase). pose proof (view_ok d i c (ok_array d Hok) Hc) as Hctx.
  assert (Hcl : closing c = 0) by (destruct Hctx as [_ Hd]; by apply (do_closing c Hd)).
  assert (Hwp : wp (on_client_read status bytes) (fun _ s' => (cid s' = Z.of_nat i
    /\ server_same (server d) (sv s') /\ others (view d i c) s' /\ ctx_ok s' /\ owner_le c (cl s'))
    /\ True) (view d i c)).
  { destruct (Z.ltb_spec status 0) as [Hneg|Hpos].
    { unfold on_client_read. rewrite (proj2 (Z.ltb_lt _ _) Hneg).
      eapply wp_mono; [by apply close_progress_wp|]. intros ? s' Hp. split; [|done].
      by apply progress_effect. }
    destruct Hcase as [?|(-> & Hb & Hl)]; [lia|].
    destruct (Z.eqb_spec (zlen bytes) 0) as [Hz|Hz].
    { unfold on_client_read. rewrite Hz. cbn [Z.ltb Z.compare]. apply wp_bind. apply wp_getc.
      cbn [Z.eqb]. apply wp_ret. split; [|done]. by apply progress_effect, progress_refl. }
    eapply wp_mono; [apply on_client_read_spec; try done; cbn [cl view]; lia|].
    intros ? s' (H1 & H2 & H3 & H4 & H5 & _). split; [|done]. cbn in H3. rewrite H3.
    split_and!; try done; [apply server_same_refl|by apply same_owner_le]. }
  destruct (at_client_effect _ d i c _ Hok Hc Hwp) as (a & s' & Hrun & Hok' & Hsd & Hf & _).
  exists (updated_at d i s'). cbn [handle]. rewrite Hrun. done.
Qed.

Lemma written_run d i slot status :
  daemon_ok d -> enabled (Written i slot status) d ->
  exists d', handle (Written i slot status) d = Ok d' /\ daemon_ok d' /\ stays_down d d'
    /\ forall j, follows d d' j.
Proof.
  intros Hok (c & o & Hc & Hs & Ho & Hu). pose proof (view_ok d i c (ok_array d Hok) Hc) as Hctx.
  assert (Hwp : wp (on_client_write slot status) (fun _ s' => progress (view d i c) s'
    /\ (live c -> cut (cl s') \/ (live (cl s') /\ stream s' = stream (view d i c)))) (view d i c)).
  { pose proof (on_client_write_wp slot status o (view d i c) Hctx Hs Ho Hu) as H1.
    destruct (decide (live c)) as [Hl|Hn].
    2: { eapply wp_mono; [exact H1|]. intros ? s' Hp. by split. }
    apply on_client_write_frees with o; try done. intros Hok1. destruct Hl as [Hw Hca].
    unfold after_write. destruct (status <? 0).
    - eapply wp_mono; [by apply close_closes_wp|]. intros ? s' [Hp Hcl]. split.
      + eapply progress_trans; [by apply freed_progress|exact Hp].
      + intros _. left. left. apply Hcl. cbn. destruct Hctx as [_ Hd]. apply (do_closing c Hd).
        unfold wants_updates in Hw. by destruct (Z.eqb_spec (active c) 0).
    - wp_steps. cbn [catchup_active freed set]. cbn. rewrite Hca. cbn [Z.eqb negb]. wp_steps.
      cbn [Z.ltb Z.compare]. eapply wp_mono; [apply no_resync_wp|].
      + cbn. unfold wants_updates in Hw. destruct (Z.eqb_spec (needs_resync c) 0); [done|].
        by rewrite andb_false_r in Hw.
      + intros ? s' ->. split; [by apply freed_progress|]. intros _. right. done. }
  destruct (at_client_effect (on_client_write slot status) d i c (fun _ s' =>
    progress (view d i c) s' /\ (live c -> cut (cl s') \/ (live (cl s') /\ stream s' = stream (view d i c))))
    Hok Hc) as (a & s' & Hrun & Hok' & Hsd & Hf & Hp & Hl).
  { eapply wp_mono; [exact Hwp|]. intros ? s' [Hp Hl]. split; [by apply progress_effect|done]. }
  exists (updated_at d i s'). cbn [handle]. rewrite Hrun. split; [done|]. split; [done|].
  split; [done|]. intros j. destruct (decide (j = i)) as [->|]; [|by apply Hf].
  destruct Hp as [(Hid & Hv & _) [ms Hst]]. unfold stream in Hst, Hl. rewrite Hid in Hst, Hl.
  cbn in Hst, Hl, Hv. intros c0 Hc0 Hl0. rewrite Hc in Hc0. injection Hc0 as <-.
  apply lookup_lt_Some in Hc as Hlt.
  destruct (Hl Hl0) as [Hcut|[Hl' Hsame]].
  - exists (cl s'), ms. unfold updated_at. cbn. rewrite list_lookup_insert_eq by done. auto.
  - exists (cl s'), []. unfold updated_at. cbn. rewrite list_lookup_insert_eq, app_nil_r, Hv by done.
    auto 10.
Qed.

Lemma closed_run d i :
  daemon_ok d -> enabled (Closed i) d ->
  exists d', handle (Closed i) d = Ok d' /\ daemon_ok d' /\ stays_down d d'
    /\ forall j, follows d d' j.
Proof.
  intros Hok (c & Hc & Hcl). pose proof (view_ok d i c (ok_array d Hok) Hc) as [[Hs _] Hd].
  destruct (at_client_effect on_client_closed d i c
    (fun _ s' => s' = mk_ctx (Z.of_nat i) zero_client (server d) (world d)) Hok Hc)
    as ([] & s' & Hrun & Hok' & Hsd & Hf & ->).
  { unfold on_client_closed, view. apply wp_modc. split; [|done]. split_and!; try done.
    - apply server_same_refl.
    - split; [split; [exact Hs|]|apply zero_client_data_ok]. apply zero_client_queue_ok.
      destruct Hs as ((? & _) & _). cbn in *. lia. }
  eexists. cbn [handle]. rewrite Hrun. split; [done|]. split; [done|]. split; [done|].
  intros j. destruct (decide (j = i)) as [->|]; [|by apply Hf].
  intros c0 Hc0 [Hw _]. rewrite Hc in Hc0. injection Hc0 as <-. exfalso.
  unfold wants_updates in Hw. destruct (Z.eqb_spec (active c) 0); [done|].
  by apply Hcl, (do_closing c Hd).
Qed.

(** ** Passes over all clients *)

Lemma owners_pass d d' :
  array_ok d -> array_ok d' ->
  (forall i c, clients d !! i = Some c -> exists c', clients d' !! i = Some c' /\ owner_le c c') ->
  Forall2 owner_le (clients d) (clients d').
Proof.
  intros (_ & Hl & _) (_ & Hl' & _) H. apply Forall2_same_length_lookup. split.
  - unfold zlen in *. lia.
  - intros i c c' Hc Hc'. destruct (H i c Hc) as (c2 & Hc2 & Ho). by simplify_eq.
Qed.

Lemma served_owners Q d d' :
  array_ok d -> array_ok d' -> (forall i, served Q d d' i) ->
  Forall2 owner_le (clients d) (clients d').
Proof.
  intros H1 H2 Hs. apply owners_pass; [done..|]. intros i c Hc.
  destruct (Hs i c Hc) as (s & s' & _ & <- & _ & _ & _ & Hc' & _ & Hsv & _).
  exists (cl s'). split; [done|]. by apply same_owner_le, Hsv.
Qed.

Lemma sample_notification_run d :
  daemon_ok d ->
  exists d', handle SampleNotification d = Ok d' /\ daemon_ok d' /\ stays_down d d'
    /\ (forall j, follows d d' j) /\ sample_run d d'.
Proof.
  intros Hok. pose proof (ok_array d Hok) as Ha.
  destruct (distribute_run d Ha (ok_tracking d Hok) (ok_publication d Hok)) as (d' & Hrun & Hs).
  exists d'. split; [exact Hrun|]. pose proof Hs as [S1 S2 S3 _ _ S4 S5].
  split; [|split; [by apply stays_down_eq|split; [|done]]].
  - apply (ok_loop d); try done. apply owners_pass; [done..|]. intros i c Hc.
    destruct (S5 i c Hc) as (c' & ms & Hc' & _ & Ho & _). exists c'. split; [done|].
    by apply same_owner_le.
  - intros j c Hc [Hw Hca]. destruct (S5 j c Hc) as (c' & ms & Hc' & Hst & _ & _ & Hu).
    exists c', ms. split; [done|]. split; [done|].
    destruct (Hu Hw) as [Hcut|(Hq & Hlm & Hseq & HR)]; [by left|]. right. split; [|done].
    unfold live, wants_updates in *. rewrite Hq. done.
Qed.

Lemma measure_rate_same now v :
  let v' := measure_rate now v in
  sv_frames v' = sv_frames v /\ sv_signals v' = sv_signals v
  /\ client_queue_slots v' = client_queue_slots v /\ shutting_down v' = shutting_down v
  /\ change_sequence v' = change_sequence v /\ sample_timestamp_ns v' = sample_timestamp_ns v
  /\ (server_ok v -> server_ok v').
Proof. unfold measure_rate. destruct (_ && _); cbn; split_and!; done. Qed.

(** What a heartbeat at [now] does to the client [i]. *)
Definition beaten (now : Z) d d' (i : nat) : Prop :=
  served (heartbeaten now (source_state (sampler d)))
    (d <| server := measure_rate now (server d) |> <| world := (monotonic_ns (world d)).2 |>) d' i.

Lemma heartbeat_run d :
  daemon_ok d ->
  exists d', handle HeartbeatTimer d = Ok d' /\ daemon_ok d' /\ stays_down d d'
    /\ (forall j, follows d d' j) /\ forall i, beaten (monotonic_ns (world d)).1 d d' i.
Proof.
  intros Hok. pose proof (ok_array d Hok) as Ha. pose proof Ha as (Hsv & _).
  cbn [handle]. unfold on_heartbeat. destruct (monotonic_ns (world d)) as [now w] eqn:Ec. cbn [fst].
  assert (Hw : forall k, sent w k = sent (world d) k).
  { intros k. pose proof (sent_clock k (world d)) as H. by rewrite Ec in H. }
  set (v := measure_rate now (server d)).
  destruct (measure_rate_same now (server d)) as (M1 & M2 & M3 & M4 & M5 & M6 & M7).
  fold v in M1, M2, M3, M4, M5, M6, M7.
  set (d1 := d <| server := v |> <| world := w |>).
  assert (Ha1 : array_ok d1) by exact (array_ok_server d v Ha (M7 Hsv) M3).
  destruct (each_client_run (heartbeat_client now (source_state (sampler d)))
    (heartbeaten now (source_state (sampler d))) d1 Ha1) as (d' & Hrun & Ha' & [Hv Hrest] & Hs).
  { intros s Hs _. by apply heartbeat_client_wp. }
  assert (Ef : sv_frames (server d') = sv_frames (server d)) by (rewrite Hv; exact M1).
  assert (Es : sv_signals (server d') = sv_signals (server d)) by (rewrite Hv; exact M2).
  assert (Ed : shutting_down (server d') = shutting_down (server d)) by (rewrite Hv; exact M4).
  exists d'. split; [exact Hrun|]. split; [|split; [by apply stays_down_eq|split]].
  - apply (ok_loop d); try done.
    + rewrite Ef, Es. apply (ok_tracking d Hok).
    + by rewrite Hrest.
    + exact (served_owners _ d1 d' Ha1 Ha' Hs).
  - intros j c Hc Hl. destruct (Hs j c Hc) as (s & s' & Hid & Hcl & Hst & Hctx & Hvs & Hc' & Hst' & Hsvd & Hh).
    pose proof Hsvd as (Hid' & _).
    cbn in Hst. rewrite Hw in Hst. destruct Hh as (H1 & H2 & H3). rewrite Hcl in H1, H2, H3.
    assert (Hsame : forall R, agrees R (server d) -> agrees R (server d')).
    { intros R. unfold agrees. by rewrite Ef, Es. }
    exists (cl s'). destruct (decide (timed_out now c)) as [Ht|Ht].
    { destruct (H1 Ht) as [Hact Hsm]. exists []. rewrite app_nil_r. split; [done|].
      split; [congruence|]. left. by left. }
    destruct Hl as [Hw1 Hca]. destruct (H2 Ht Hw1) as [(Hst2 & Hq & _)|(Hcut & ms & _ & Hst2)].
    + eexists [_]. split; [done|]. split; [rewrite <- Hst', Hst2, <- Hst; reflexivity|].
      right. split; [unfold live, wants_updates in *; rewrite Hq, Hcl; done|].
      assert (U1 : is_u64 (change_sequence (sv s))).
      { rewrite Hvs. change (is_u64 (change_sequence v)). rewrite M5. apply Hsv. }
      assert (U2 : is_u64 (sample_timestamp_ns (sv s))).
      { rewrite Hvs. change (is_u64 (sample_timestamp_ns v)). rewrite M6. apply Hsv. }
      split.
      { constructor; [|done]. apply heartbeat_live; try done. apply (ok_source_state d Hok). }
      split.
      { assert (Eq : change_sequence (server d') = change_sequence (server d)) by (rewrite Hv; exact M5).
        rewrite Eq. apply in_sequence_same. constructor; [|done]. unfold heartbeat_message.
        rewrite message_sequence_bytes by (done || by vm_compute). rewrite Hvs. exact M5. }
      intros R HR. cbn [fold_left]. unfold heartbeat_message.
      rewrite apply_other_message; [by apply Hsame|by vm_compute..|exact U1|exact U2|by vm_compute].
    + exists ms. split; [done|]. split; [congruence|]. by left.
  - unfold beaten. rewrite Ec. exact Hs.
Qed.

Lemma close_handle_quiet h w k : sent (close_handle h w) k = sent w k.
Proof. unfold close_handle. destruct (handle_is_closing h w); [done|apply sent_handle_close]. Qed.

Lemma close_handles_quiet p w k : sent (close_server_handles p w) k = sent w k.
Proof.
  unfold close_server_handles. cbv zeta.
  repeat match goal with
  | |- context [if negb (?x =? 0) then _ else _] => destruct (negb (x =? 0))
  end; by rewrite ?close_handle_quiet, ?sent_handle_stop, ?close_handle_quiet, ?sent_handle_stop,
    ?close_handle_quiet, ?sent_handle_stop, ?close_handle_quiet, ?sent_handle_stop, ?close_handle_quiet.
Qed.

Lemma sampler_stop_quiet d k : sent (world (sampler_stop d)) k = sent (world d) k.
Proof. unfold sampler_stop. destruct (negb _); [apply sent_join|done]. Qed.

Lemma signal_run d :
  daemon_ok d ->
  exists d', handle Signal d = Ok d' /\ daemon_ok d' /\ stays_down d d'
    /\ (forall j, follows d d' j) /\ shutting_down (server d') <> 0
    /\ Forall (fun c => active c = 0) (clients d').
Proof.
  intros Hok. pose proof (ok_array d Hok) as Ha. cbn [handle]. unfold on_signal, server_shutdown.
  destruct (Z.eqb_spec (shutting_down (server d)) 0) as [Hz|Hz]; cbn [negb].
  2: { exists d. split; [done|]. split; [done|]. split; [by apply stays_down_eq|].
       split; [intros j; apply follows_refl|]. split; [done|]. by apply (ok_shutdown d Hok). }
  set (v := (server d) <| shutting_down := 1 |>).
  set (d1 := sampler_stop (d <| server := v |>)).
  assert (Hd1 : server d1 = v /\ clients d1 = clients d /\ sampler d1 = sampler d
                /\ thread_sequence d1 = thread_sequence d)
    by (unfold d1, sampler_stop; by destruct (negb _)).
  destruct Hd1 as (E1 & E2 & E3 & E4).
  assert (Ha1 : array_ok d1).
  { pose proof (array_ok_server d v Ha (proj1 Ha) eq_refl) as H1. unfold array_ok in *.
    rewrite E1, E2. exact H1. }
  destruct (each_client_run client_close (fun _ s' => active (cl s') = 0) d1 Ha1)
    as (d' & Hrun & Ha' & [Hv Hrest] & Hs).
  { intros s Hs _. eapply wp_mono; [by apply close_wp|]. by intros ? s' (H1 & _ & H2). }
  rewrite E1 in Hv. set (d2 := d' <| world := close_server_handles (process d') (world d') |>).
  assert (Hall : Forall (fun c => active c = 0) (clients d2)).
  { apply Forall_lookup_2. intros i c' Hc'.
    destruct (lookup_lt_is_Some_2 (clients d1) i) as [c Hc].
    { apply lookup_lt_Some in Hc'. destruct Ha1 as (_ & L1 & _), Ha' as (_ & L2 & _).
      unfold zlen in *. cbn in Hc'. lia. }
    destruct (Hs i c Hc) as (s & s' & _ & _ & _ & _ & _ & Hc2 & _ & _ & Hact).
    cbn in Hc'. by simplify_eq. }
  assert (Hsd : shutting_down (server d2) = 1) by (cbn; rewrite Hv; done).
  exists d2. split.
  { change ((d' ← each_client client_close d1;
             mret (d' <| world := close_server_handles (process d') (world d') |>)) = Ok d2). by rewrite Hrun. }
  assert (Hf : forall j, follows d d2 j).
  { intros j c Hc _. rewrite <- E2 in Hc.
    destruct (Hs j c Hc) as (s & s' & _ & _ & Hst & _ & _ & Hc2 & Hst' & Hsv & Hact).
    unfold d1 in Hst. rewrite sampler_stop_quiet in Hst. cbn in Hst.
    destruct Hsv as (_ & _ & _ & _ & [ms Hg] & _). exists (cl s'), ms. split; [done|].
    split; [|left; by left]. cbn. rewrite close_handles_quiet. congruence. }
  split; [|split; [intros _; by rewrite Hsd|split; [done|split; [by rewrite Hsd|done]]]].
  assert (sampler d2 = sampler d /\ thread_sequence d2 = thread_sequence d) as [Esm Eth]
    by (unfold d2; rewrite Hrest; cbn; by rewrite E3, E4).
  destruct Hok as [_ T S1 P SS Th Us _]. split; rewrite ?Esm, ?Eth; try done.
  - unfold d2. cbn. rewrite Hv. exact T.
  - intros uid. pose proof (active_clients_le _ _ uid (served_owners _ d1 d' Ha1 Ha' Hs)) as Hle.
    specialize (Us uid). rewrite E2 in Hle. unfold d2. cbn in *. lia.
Qed.

Lemma stats_run d :
  daemon_ok d ->
  exists d', handle StatsTimer d = Ok d' /\ daemon_ok d' /\ stays_down d d'
    /\ forall j, follows d d' j.
Proof.
  intros Hok. exists (on_stats d). split; [done|].
  split; [|split; [by apply stays_down_eq|intros j; by apply follows_still]].
  destruct Hok. by split.
Qed.

(** ** Connections *)

Lemma find_available_spec cs n : forall i,
  0 <= i -> i + Z.of_nat n <= zlen cs ->
  exists r, find_available_client cs n i = Ok r
    /\ match r with
       | Some j => exists c, 0 <= j /\ cs !! Z.to_nat j = Some c /\ active c = 0 /\ closing c = 0
       | None => forall j c, i <= Z.of_nat j < i + Z.of_nat n -> cs !! j = Some c ->
                             active c <> 0 \/ closing c <> 0
       end.
Proof.
  induction n as [|n IH]; intros i Hi Hn; cbn [find_available_client].
  { exists None. split; [done|]. lia. }
  destruct (lookup_lt_is_Some_2 cs (Z.to_nat i)) as [c Hc]; [unfold zlen in Hn; lia|].
  pose proof (rd_Some _ _ _ Hc) as R. rewrite Z2Nat.id in R by lia. rewrite R, bind_ok.
  destruct (Z.eqb_spec (active c) 0) as [Ha|Ha], (Z.eqb_spec (closing c) 0) as [Hcl|Hcl]; cbn [andb].
  { exists (Some i). split; [done|]. by exists c. }
  all: destruct (IH (i + 1)) as (r & -> & Hr); [lia|lia|]; exists r; split; [done|];
    destruct r as [j|]; [done|]; intros j c' Hj Hc';
    (destruct (decide (j = Z.to_nat i)) as [->|]; [simplify_eq; auto|apply (Hr j c'); [lia|done]]).
Qed.

Lemma users_admitted cs i c0 c uid :
  cs !! i = Some c0 ->
  (forall uid, active_clients_for_uid cs uid <= MAX_CLIENTS_PER_UID) ->
  active c = 0 \/ active_clients_for_uid (<[i := zero_client]> cs) (peer_uid c) < MAX_CLIENTS_PER_UID ->
  active_clients_for_uid (<[i := c]> cs) uid <= MAX_CLIENTS_PER_UID.
Proof.
  intros Hi Hall Hc.
  assert (Hle : forall u, active_clients_for_uid (<[i := zero_client]> cs) u <= MAX_CLIENTS_PER_UID).
  { intros u. specialize (Hall u).
    pose proof (active_clients_le cs (<[i := zero_client]> cs) u
      (owner_le_insert cs i c0 zero_client Hi ltac:(done))). lia. }
  specialize (Hle uid).
  set (one u x := if negb (active x =? 0) && (peer_uid x =? u) then 1 else 0).
  assert (E : forall x u, active_clients_for_uid (<[i := x]> cs) u
    = active_clients_for_uid cs u - one u c0 + one u x) by (intros x u; by apply sumZ_insert).
  rewrite E in Hc, Hle |- *. change (one _ zero_client) with 0 in Hle, Hc. unfold one in *.
  destruct (Z.eqb_spec (active c) 0) as [|Ha]; cbn [negb andb]; [lia|].
  destruct Hc as [|Hc]; [done|]. destruct (Z.eqb_spec (peer_uid c) uid) as [<-|]; lia.
Qed.

(** A free element of the array does not count. *)
Lemma users_free cs i c uid :
  cs !! i = Some c -> active c = 0 ->
  active_clients_for_uid (<[i := zero_client]> cs) uid = active_clients_for_uid cs uid.
Proof.
  intros Hi Ha. unfold active_clients_for_uid. rewrite (sumZ_insert _ _ _ _ _ Hi), Ha. cbn. lia.
Qed.

(** The ways a connection can go. *)
Inductive admission (status : Z) d d' : Prop :=
  | ignored : (status < 0 \/ shutting_down (server d) <> 0) -> d' = d -> admission status d d'
  | full : 0 <= status -> shutting_down (server d) = 0 ->
      Forall (fun c => active c <> 0 \/ closing c <> 0) (clients d) ->
      d' = d <| world := reject_connection (world d) |> -> admission status d d'
  | seated i c c' : 0 <= status -> shutting_down (server d) = 0 ->
      clients d !! i = Some c -> active c = 0 -> closing c = 0 ->
      clients d' = <[i := c']> (clients d) -> server_same (server d) (server d') ->
      same_process d d' ->
      (forall k, sent (world d') k = sent (world d) k) ->
      (active c' = 0 \/ (greeting_due c' /\
         active_clients_for_uid (clients d) (peer_uid c') < MAX_CLIENTS_PER_UID)) ->
      client_ok (server d') c' -> admission status d d'.

Lemma connection_admission d status :
  array_ok d -> exists d', on_connection status d = Ok d' /\ admission status d d'.
Proof.
  intros Ha. pose proof Ha as (Hsv & Hlen & Hall). unfold on_connection.
  destruct (Z.ltb_spec status 0) as [Hneg|Hpos]; cbn [orb].
  { exists d. split; [done|]. by apply ignored; [left|]. }
  destruct (Z.eqb_spec (shutting_down (server d)) 0) as [Hz|Hz]; cbn [negb].
  2: { exists d. split; [done|]. by apply ignored; [right|]. }
  destruct (find_available_spec (clients d) (Z.to_nat MAX_CLIENTS) 0) as (r & -> & Hr);
    [done|rewrite Hlen; done|]. rewrite bind_ok. destruct r as [i|].
  2: { eexists. split; [reflexivity|]. apply full; try done. apply Forall_lookup_2.
       intros j c Hj. apply (Hr j c); [|done]. apply lookup_lt_Some in Hj. unfold zlen in Hlen.
       change MAX_CLIENTS with 16 in *. lia. }
  destruct Hr as (c & Hi & Hc & Hact & Hcl).
  set (cs := <[Z.to_nat i := zero_client]> (clients d)).
  destruct (at_client_run (accept_client cs) (fun _ s' => admitted cs (view d (Z.to_nat i) c) s')
    d (Z.to_nat i) c Hc) as (a & s' & Hrun & Hid & Hv & Hoth & [Hctx Hdata] & Hst & Hadm);
    [by apply accept_client_wp|].
  rewrite Z2Nat.id in Hrun by done. rewrite Hrun, bind_ok. eexists. split; [reflexivity|].
  apply (seated _ _ _ (Z.to_nat i) c (cl s')); try done.
  - intros k. unfold updated_at. cbn. destruct (decide (k = i)) as [->|Hk].
    + unfold stream in Hst. cbn in Hid, Hst. rewrite Hid in Hst. rewrite Z2Nat.id in Hst by done. done.
    + apply (Hoth k). cbn. lia.
  - destruct Hadm as [|[Hg Hu]]; [by left|]. right. split; [done|].
    unfold cs in Hu. by rewrite (users_free _ _ _ _ Hc Hact) in Hu.
  - split; [apply Hctx|done].
Qed.

Lemma connection_run d status :
  daemon_ok d ->
  exists d', handle (Connection status) d = Ok d' /\ daemon_ok d' /\ stays_down d d'
    /\ forall j, follows d d' j.
Proof.
  intros Hok. pose proof (ok_array d Hok) as Ha. pose proof Ha as (Hsv & Hlen & Hall).
  destruct (connection_admission d status Ha) as (d' & Hrun & Hadm). exists d'. split; [exact Hrun|].
  destruct Hadm as [_ ->|_ _ _ ->|i c c' _ Hz Hc Hact Hcl Hcs Hv (P1 & P2 & P3) Hsent Hadm Hcok].
  - split; [done|]. split; [by apply stays_down_eq|]. intros j. apply follows_refl.
  - split; [by destruct Hok; split|]. split; [by apply stays_down_eq|].
    intros j. apply follows_still; try done. apply reject_connection_quiet.
  - split; [|split; [by intros ?|]].
    + destruct Hok as [_ T S1 P SS Th Us _]. split; rewrite ?P1, ?P2; try done.
      * split; [by eapply server_same_ok|]. rewrite Hcs. split; [by rewrite zlen_insert|].
        apply Forall_insert; [|done]. revert Hall. apply Forall_impl. intros c0. by apply client_ok_same.
      * rewrite Hv. exact T.
      * intros uid. rewrite Hcs. apply users_admitted with c; [done..|].
        destruct Hadm as [|[_ Hu]]; [by left|right]. by rewrite (users_free _ _ _ _ Hc Hact).
      * rewrite Hv. done.
    + intros j. destruct (decide (j = i)) as [->|Hne].
      * intros c0 Hc0 [Hw _]. simplify_eq. unfold wants_updates in Hw. by rewrite Hact in Hw.
      * apply follows_still; [rewrite Hcs; by rewrite list_lookup_insert_ne|done|by rewrite Hv..].
Qed.
End Effects.

(** ** The sampling thread *)

Section Thread.
Context `{HC : CatalogOk} {V W : Type} `{K : !Clock W} `{U : !Uv W} `{HU : !UvOk U K}
  `{S : !VhalSource V W} `{HS : !VhalSourceOk S} `{HA : !Apart S HU}.
Implicit Types (d : daemon V W) (w : W).

#[local] Instance sent_transparent k : Transparent (fun w w' => sent w' k = sent w k).
Proof.
  split; intros; [split; [by intros ?|intros ? ? ? H1 H2; by rewrite H2, H1]|..].
  - apply sent_clock.
  - apply sent_sleep.
  - apply sent_vhal_open.
  - apply sent_vhal_read.
  - apply sent_vhal_close.
Qed.

Lemma thread_quiet d k : sent (world (thread_step d)) k = sent (world d) k.
Proof.
  unfold thread_step. cbv zeta.
  set (stop := stop_requested (process d)).
  pose proof (sampler_iteration_related (R := fun w w' => sent w' k = sent w k) stop stop (sampler d)
    (thread_sequence d) (thread_next_tick d) (world d)) as Hq.
  by destruct (sampler_iteration _ _ _ _ _ _) as [[[[? ?] ?]|] ?].
Qed.

Lemma sampler_turn_run d :
  daemon_ok d ->
  exists d', handle SamplerTurn d = Ok d' /\ daemon_ok d' /\ stays_down d d'
    /\ forall j, follows d d' j.
Proof.
  intros Hok. exists (thread_step d). split; [done|].
  pose proof (thread_quiet d) as Hq. unfold thread_step in *. cbv zeta in *.
  destruct (stop_requested (process d)).
  { split; [by destruct Hok|]. split; [by apply stays_down_eq|]. intros j. by apply follows_still. }
  destruct (sampler_iteration_spec (sampler d) (thread_sequence d) (thread_next_tick d) (world d)
    (ok_sampler d Hok)) as (s' & nt & w' & Hrun & Hs & Hpub & Hseq & _ & Hts & Hst).
  rewrite Hrun in *. split; [|split; [by apply stays_down_eq|]].
  - destruct Hok. pose proof Hs as (_ & _ & _ & Hp1 & Hp2). split; try done.
    split; [done|]. split; [done|]. split; [|exact Hts]. cbn. rewrite Hseq. apply u64_range.
  - intros j. by apply follows_still.
Qed.

(** Every event that can happen is handled, and the process stays well formed. *)
Lemma event_run e d :
  daemon_ok d -> enabled e d ->
  exists d', handle e d = Ok d' /\ daemon_ok d' /\ stays_down d d'
    /\ forall j, (forall status bytes, e <> Received j status bytes) -> follows d d' j.
Proof.
  intros Hok He. destruct e.
  - destruct (connection_run d status Hok) as (d' & ? & ? & ? & ?). eauto 10.
  - destruct (received_run d i status bytes Hok He) as (d' & ? & ? & ? & Hf). exists d'.
    split; [done|]. split; [done|]. split; [done|]. intros j Hj. apply Hf. intros ->. by eapply Hj.
  - destruct (written_run d i slot status Hok He) as (d' & ? & ? & ? & ?). eauto 10.
  - destruct (closed_run d i Hok He) as (d' & ? & ? & ? & ?). eauto 10.
  - exists (on_rejected_client_closed r d). split; [done|]. split; [by destruct Hok|].
    split; [by apply stays_down_eq|]. intros j _. apply follows_still; try done. apply sent_free.
  - destruct (sample_notification_run d Hok) as (d' & ? & ? & ? & ? & _). eauto 10.
  - destruct (heartbeat_run d Hok) as (d' & ? & ? & ? & ? & _). eauto 10.
  - destruct (stats_run d Hok) as (d' & ? & ? & ? & ?). eauto 10.
  - destruct (signal_run d Hok) as (d' & ? & ? & ? & ? & _). eauto 10.
  - destruct (sampler_turn_run d Hok) as (d' & ? & ? & ? & ?). eauto 10.
Qed.
End Thread.

(** ** The start of the process *)

Section Start.
Context `{HC : CatalogOk} {V W : Type} `{K : !Clock W} `{U : !Uv W} `{HU : !UvOk U K}
  `{S : !VhalSource V W} `{HS : !VhalSourceOk S} `{HA : !Apart S HU}.

Lemma initial_tracking frames t :
  frames_ok frames -> 0 < t < 2 ^ 64 ->
  tracking frames (map (initial_signal t) (map (signal_spec frames) SIGNALS)).
Proof.
  intros Hf Ht. split; [by rewrite !length_map|]. intros k d v Hd Hv.
  rewrite !list_lookup_fmap, Hd in Hv. injection Hv as <-.
  assert (Hin : d ∈ SIGNALS) by (by eapply list_elem_of_lookup_2).
  pose proof (signal_spec_ok frames Hf d Hin) as Hok.
  pose proof (spec_calibrated frames d) as Hc.
  assert (is_u64 t /\ is_u64 0) as [H1 H2] by (unfold is_u64; lia).
  unfold initial_signal, tracks, stamped, value_ok in *.
  destruct (Z.eqb_spec (sig_state (signal_spec frames d)) ROADCAST_OBSERVATION_VALID);
    cbn; (split; [done|split; [intros Hz; try lia; done|tauto]]).
Qed.

Lemma tracking_signals_ok frames values : tracking frames values -> signals_ok values.
Proof.
  intros [Hl Hv]. split; [unfold zlen, SIGNAL_COUNT, zlen; lia|]. apply Forall_lookup_2.
  intros k v Hk. destruct (lookup_lt_is_Some_2 SIGNALS k) as [d Hd].
  { apply lookup_lt_Some in Hk. lia. }
  by destruct (Hv k d v Hd Hk) as (_ & _ & ?).
Qed.

Lemma daemon_init_ok hz_ fake_ slots alloc (w : W) :
  1 <= hz_ <= 240 -> 1 <= slots <= CLIENT_QUEUE_SLOTS -> (fake_ <> 0 \/ alloc <> None) ->
  exists d : daemon V W, daemon_init hz_ fake_ slots alloc w = Ok (Some d) /\ daemon_ok d.
Proof.
  intros Hhz Hslots Halloc. unfold daemon_init.
  pose proof (sampler_init_spec hz_ fake_ alloc w) as Hi.
  destruct (sampler_init hz_ fake_ alloc w) as [[sm|] w1]; [|by destruct Hi, Halloc].
  destruct Hi as (Hsm & Hseq & Hts & Hst). pose proof Hsm as (_ & _ & _ & Hp & Hids).
  unfold sampler_read_latest. rewrite decode_signals_spec, bind_ok by done.
  eexists. split; [reflexivity|].
  pose proof (initial_tracking (published sm) (published_timestamp_ns sm) Hp Hts) as Htr.
  pose proof (tracking_signals_ok _ _ Htr) as Hso.
  assert (is_u64 0) by (unfold is_u64; lia).
  split; cbn -[repeat zero_client Z.pow]; try done.
  - split; cbn -[repeat zero_client]; [|split].
    + unfold server_ok. cbn [sv_frames sv_signals client_queue_slots sample_sequence change_sequence
        sample_timestamp_ns hz]. rewrite Hseq. unfold is_u64, is_u32 in *. split_and!; try done; lia.
    + unfold zlen. by rewrite repeat_length.
    + apply Forall_forall. intros c Hc. apply repeat_spec in Hc as ->.
      split; [apply zero_client_queue_ok; cbn; lia|apply zero_client_data_ok].
  - unfold publication_ok. rewrite Hseq. done.
Qed.

(** ** Runs *)

Lemma steps_ok es : forall d d' : daemon V W, steps d es d' -> daemon_ok d -> daemon_ok d'.
Proof.
  induction es as [|e es IH]; intros d d' Hs Hok;
    inversion Hs as [|? ? d1 ? ? He Hh Hs1]; subst; [done|].
  destruct (event_run e d Hok He) as (d1' & Hrun & Hok1 & _).
  rewrite Hh in Hrun. injection Hrun as <-. by eapply IH.
Qed.

Lemma steps_down es : forall d d' : daemon V W,
  steps d es d' -> daemon_ok d -> shutting_down (server d) <> 0 -> shutting_down (server d') <> 0.
Proof.
  induction es as [|e es IH]; intros d d' Hs Hok Hsd;
    inversion Hs as [|? ? d1 ? ? He Hh Hs1]; subst; [done|].
  destruct (event_run e d Hok He) as (d1' & Hrun & Hok1 & Hd & _).
  rewrite Hh in Hrun. injection Hrun as <-. eapply IH; eauto.
Qed.

(** The client [i] follows the server from the message [base] of its stream on. *)
Definition in_step (R0 : replica) (base : nat) (d : daemon V W) (i : nat) : Prop :=
  exists c, clients d !! i = Some c /\ live c
    /\ (base <= length (sent (world d) (Z.of_nat i)))%nat
    /\ agrees (fold_left apply_message (drop base (sent (world d) (Z.of_nat i))) R0) (server d).

Definition cut_at (d : daemon V W) (i : nat) : Prop :=
  exists c, clients d !! i = Some c /\ cut c.

(** No bytes from the client [i] arrive. *)
Definition silent (i : nat) (es : list event) : Prop :=
  Forall (fun e => forall status bytes, e <> Received i status bytes) es.

(** Along a run the messages of a live client carry a replica from the first
    state of the server to the last one, unless the client is cut off. *)
Lemma steps_follow i es : forall d d' c,
  steps d es d' -> daemon_ok d -> silent i es -> clients d !! i = Some c -> live c ->
  (exists c' ms, clients d' !! i = Some c' /\ live c'
     /\ sent (world d') (Z.of_nat i) = sent (world d) (Z.of_nat i) ++ ms
     /\ Forall live_message ms
     /\ in_sequence (change_sequence (server d)) ms (change_sequence (server d'))
     /\ forall R, agrees R (server d) -> agrees (fold_left apply_message ms R) (server d'))
  \/ exists es1 d1 es2, es = es1 ++ es2 /\ steps d es1 d1 /\ cut_at d1 i.
Proof.
  induction es as [|e es IH]; intros d d' c Hs Hok Hsil Hc Hl;
    inversion Hs as [|? ? d1 ? ? Hen Hh Hs1]; subst.
  { left. exists c, []. rewrite app_nil_r. split_and!; done. }
  inversion_clear Hsil as [|? ? He Hsil'].
  destruct (event_run e d Hok Hen) as (d1' & Hrun & Hok1 & _ & Hf).
  rewrite Hh in Hrun. injection Hrun as <-.
  destruct (Hf i He c Hc Hl) as (c1 & ms1 & Hc1 & Hst1 & [Hcut|(Hl1 & Hm1 & Hq1 & HR1)]).
  { right. exists [e], d1, es. split; [done|]. split; [|by exists c1].
    econstructor; [done..|constructor]. }
  destruct (IH d1 d' c1) as [(c2 & ms2 & Hc2 & Hl2 & Hst2 & Hm2 & Hq2 & HR2)|(es1 & d2 & es2 & -> & Hs2 & Hcut)];
    try done.
  - left. exists c2, (ms1 ++ ms2). split_and!; try done.
    + by rewrite Hst2, Hst1, (assoc_L (++)).
    + by apply Forall_app.
    + by eapply in_sequence_app.
    + intros R HR. rewrite fold_left_app. by apply HR2, HR1.
  - right. exists (e :: es1), d2, es2. split; [done|]. split; [|done]. by econstructor.
Qed.

Lemma steps_in_step R0 base i es d d' :
  steps d es d' -> daemon_ok d -> silent i es -> in_step R0 base d i ->
  in_step R0 base d' i \/ exists es1 d1 es2, es = es1 ++ es2 /\ steps d es1 d1 /\ cut_at d1 i.
Proof.
  intros Hs Hok Hsil (c & Hc & Hl & Hb & Hag).
  destruct (steps_follow i es d d' c Hs Hok Hsil Hc Hl) as [(c' & ms & Hc' & Hl' & Hst & _ & _ & HR)|Hcut];
    [left|by right].
  exists c'. rewrite Hst. split; [done|]. split; [done|]. split; [rewrite length_app; lia|].
  rewrite drop_app_le, fold_left_app by done. by apply HR.
Qed.
End Start.
