(* ===== verification/DaemonTheorems.v ===== *)
(** * Properties of the daemon as a whole

    Safety of every run from the start of the process, the replicas of the
    subscribers across arbitrary events, the distribution of a sample, admission
    of connections, deadlines and shutdown. *)

From Stdlib Require Import String.
From S2P Require Import Prelude Wire CatalogDefs CatalogData Catalog SourceSession Sampler ServerDefs.
From S2P Require Import ServerOps ServerQueue ServerClient Replica ServerCatchup ServerInput.
From S2P Require Import Framing Host DaemonOps Distribute Broadcast Daemon Heartbeat Events.

Section Theorems.
Context `{HC : CatalogOk} {V W : Type} `{K : !Clock W} `{U : !Uv W} `{HU : !UvOk U K}
  `{S : !VhalSource V W} `{HS : !VhalSourceOk S} `{HA : !Apart S HU}.
Implicit Types d : daemon V W.

(** C3: a daemon started with options in range runs for ever: whatever events
    arrive in whatever order, every event that can happen is handled to its end,
    without undefined behaviour, and leaves the whole process well formed. *)
Theorem daemon_never_fails hz_ fake_ slots alloc (w : W) :
  1 <= hz_ <= 240 -> 1 <= slots <= CLIENT_QUEUE_SLOTS -> (fake_ <> 0 \/ alloc <> None) ->
  exists d0 : daemon V W, daemon_init hz_ fake_ slots alloc w = Ok (Some d0)
    /\ forall es d, steps d0 es d ->
         daemon_ok d /\ forall e, enabled e d -> exists d', handle e d = Ok d' /\ daemon_ok d'.
Proof.
  intros H1 H2 H3. destruct (daemon_init_ok hz_ fake_ slots alloc w H1 H2 H3) as (d0 & Hi & Hok0).
  exists d0. split; [exact Hi|]. intros es d Hs. pose proof (steps_ok es d0 d Hs Hok0) as Hok.
  split; [done|]. intros e He. destruct (event_run e d Hok He) as (d' & ? & ? & _). eauto.
Qed.

(** C1: a subscriber stays in agreement with the daemon: across any sequence of
    events in which the client itself sends nothing (samples, heartbeats, writes
    in any order, other clients coming, commanding and going), the replica built
    from the bytes on its stream agrees with the daemon's frames and signals,
    unless at some point the client was closed or marked for resynchronization. *)
Theorem subscriber_stays_in_step R0 base i d es d' :
  daemon_ok d -> in_step R0 base d i -> steps d es d' -> silent i es ->
  in_step R0 base d' i \/ exists es1 d1 es2, es = es1 ++ es2 /\ steps d es1 d1 /\ cut_at d1 i.
Proof. intros Hok Hin Hs Hsil. by apply (steps_in_step R0 base i es d d'). Qed.

(** C8: distributing a sample always returns.  A sample that is not newer is
    ignored.  A newer one becomes the state of the server: its frames, and signals
    that are what decoding those frames gives; a client that is not subscribed is
    not touched; a subscriber has been cut off, or has been sent messages that
    carry any replica in agreement with the old state to the new one. *)
Theorem sample_distribution d :
  daemon_ok d ->
  exists d', distribute_latest_sample d = Ok d'
    /\ (published_sequence (sampler d) <= sample_sequence (server d) -> d' = d)
    /\ (sample_sequence (server d) < published_sequence (sampler d) ->
        sv_frames (server d') = published (sampler d)
        /\ tracking (published (sampler d)) (sv_signals (server d'))
        /\ sample_sequence (server d') = published_sequence (sampler d))
    /\ (forall i, distributed d d' i).
Proof.
  intros Hok. destruct (distribute_run d (ok_array d Hok) (ok_tracking d Hok) (ok_publication d Hok))
    as (d' & Hrun & [_ _ _ Hold Hnew _ Hall]).
  exists d'. split; [exact Hrun|]. split; [exact Hold|]. split; [|exact Hall].
  intros Hlt. destruct (Hnew Hlt) as [E1 T _ E2 _]. rewrite <- E1. done.
Qed.

(** C16: the incremental decoding is equivalent to a full one.  After any change
    of the frames, every signal has the calibration flag and the state of a full
    decoding of the new frames and, unless it is unavailable, the same raw and
    physical value; a signal whose frame did not change is exactly as before; a
    signal's first observation is never moved once it is set. *)
Theorem incremental_decoding latest old values t :
  frames_ok latest -> frames_ok old -> 0 < t < 2 ^ 64 -> tracking old values ->
  exists values' full, redecode_signals latest old values t = Ok values'
    /\ roadcast_decode_signals latest = Ok full
    /\ forall k def v, SIGNALS !! k = Some def -> values !! k = Some v ->
       exists v' f, values' !! k = Some v' /\ full !! k = Some f
         /\ calibrated v' = calibrated f /\ sig_state v' = sig_state f
         /\ (sig_state f <> ROADCAST_OBSERVATION_UNAVAILABLE -> raw v' = raw f /\ physical v' = physical f)
         /\ (frame_differs (frame_of latest def) (frame_of old def) = false -> v' = v)
         /\ (sig_first_observed_ns v <> 0 -> sig_first_observed_ns v' = sig_first_observed_ns v).
Proof.
  intros Hl Ho Ht Htr.
  destruct (redecode_tracking latest old Hl Ho t values Ht Htr) as (values' & Hrun & Htr' & _ & Hone).
  exists values', (map (signal_spec latest) SIGNALS). split; [done|].
  split; [by apply decode_signals_spec|]. intros k def v Hd Hv.
  destruct (lookup_lt_is_Some_2 values' k) as [v' Hv'].
  { apply lookup_lt_Some in Hd. destruct Htr' as [-> _]. done. }
  exists v', (signal_spec latest def). split; [done|]. split; [by rewrite list_lookup_fmap, Hd|].
  destruct Htr' as [_ Htr']. destruct (Htr' k def v' Hd Hv') as ((T1 & T2 & T3) & _).
  destruct Htr as [_ Htr]. destruct (Htr k def v Hd Hv) as (_ & Hst & _).
  rewrite spec_calibrated. split; [done|]. split; [done|]. split; [by rewrite <- T2|].
  rewrite (Hone k def v v' Hd Hv Hv'). split; [intros Hch; by apply redecoded_unchanged|].
  intros Hfo. apply redecoded_first_kept, Hfo.
Qed.

(** C19: a connection is ignored on an error or during shutdown, turned away when
    no element of the array is free, and otherwise takes a free element and
    touches no other: it is closed again, or it is a fresh client that has to
    greet, of a user with fewer than eight open connections before.  So no user
    ever has more than eight, and nothing is sent to anybody. *)
Theorem connection_admits status d :
  daemon_ok d ->
  exists d', on_connection status d = Ok d' /\ admission status d d'
    /\ (forall uid, active_clients_for_uid (clients d') uid <= MAX_CLIENTS_PER_UID)
    /\ active_client_count d' <= MAX_CLIENTS.
Proof.
  intros Hok. destruct (connection_admission d status (ok_array d Hok)) as (d' & Hrun & Hadm).
  destruct (connection_run d status Hok) as (d1 & Hrun1 & Hok1 & _).
  cbn [handle] in Hrun1. rewrite Hrun in Hrun1. injection Hrun1 as <-.
  exists d'. split; [done|]. split; [done|]. split; [apply (ok_users d' Hok1)|].
  destruct (ok_array d' Hok1) as (_ & <- & _). unfold active_client_count.
  pose proof (sumZ_bounds (fun c => if active c =? 0 then 0 else 1) (clients d') 0 1) as Hb.
  destruct Hb as [_ Hb]; [|lia]. apply Forall_forall. intros c _. destruct (active c =? 0); lia.
Qed.

(** C23: a heartbeat closes exactly the clients that missed the deadline of their
    handshake or of their setup, without a byte; a subscriber is sent one heartbeat
    with the current counters, or is cut off; nobody else is touched. *)
Theorem heartbeat_enforces_deadlines d :
  daemon_ok d ->
  let now := (monotonic_ns (world d)).1 in
  exists d', on_heartbeat d = Ok d'
    /\ forall i c, clients d !! i = Some c ->
       exists c' ms, clients d' !! i = Some c'
         /\ sent (world d') (Z.of_nat i) = sent (world d) (Z.of_nat i) ++ ms
         /\ (timed_out now c -> active c' = 0 /\ ms = [])
         /\ (~ timed_out now c -> wants_updates c = true ->
             cut c' \/ (queue_frame c c' /\ ms = [heartbeat_message (measure_rate now (server d)) c
                                                    (source_state (sampler d))]))
         /\ (~ timed_out now c -> wants_updates c = false -> c' = c /\ ms = []).
Proof.
  intros Hok now. destruct (heartbeat_run d Hok) as (d' & Hrun & _ & _ & _ & Hb).
  exists d'. split; [exact Hrun|]. intros i c Hc.
  destruct (Hb i c Hc) as (s & s' & Hid & Hcl & Hst & _ & Hv & Hc' & Hst' & Hsv & H1 & H2 & H3).
  cbn in Hst, Hv. rewrite sent_clock in Hst. fold now in Hv, H1, H2, H3. rewrite Hcl in H1, H2, H3.
  assert (Hm : heartbeat_message (sv s) c (source_state (sampler d))
    = heartbeat_message (measure_rate now (server d)) c (source_state (sampler d)))
    by (rewrite Hv; done).
  rewrite Hm in H2. destruct Hsv as (_ & _ & _ & _ & [ms Hg] & _).
  assert (Hms : forall ms', stream s' = stream s ++ ms' -> ms = ms')
    by (intros ms' E; rewrite Hg in E; by apply app_inv_head in E).
  exists (cl s'), ms. split; [done|]. split; [congruence|]. split; [|split].
  - intros Ht. destruct (H1 Ht) as [Ha E]. split; [done|]. apply Hms. by rewrite app_nil_r.
  - intros Ht Hw. destruct (H2 Ht Hw) as [(E & Hq & _)|(Hcut & _)]; [right|by left].
    rewrite Hcl in Hq. split; [done|]. by apply Hms.
  - intros Ht Hw. pose proof (H3 Ht Hw) as ->. split; [done|]. apply Hms. by rewrite app_nil_r.
Qed.

(** C26: a termination signal closes every connection, and from then on, whatever
    happens, no connection is open again. *)
Theorem shutdown_is_final d :
  daemon_ok d ->
  exists d1, on_signal d = Ok d1
    /\ forall es d2, steps d1 es d2 ->
         shutting_down (server d2) <> 0 /\ Forall (fun c => active c = 0) (clients d2).
Proof.
  intros Hok. destruct (signal_run d Hok) as (d1 & Hrun & Hok1 & _ & _ & Hsd & Hall).
  exists d1. split; [exact Hrun|]. intros es d2 Hs.
  pose proof (steps_down es d1 d2 Hs Hok1 Hsd) as Hsd2. split; [done|].
  by apply (ok_shutdown d2 (steps_ok es d1 d2 Hs Hok1)).
Qed.
End Theorems.

(** ** Instances on the concrete host *)

(** A source that is never found; the fake sampler does not use it. *)
#[export] Instance host_vhal : VhalSource unit host_t := {|
  vhal_zero := tt;
  roadcast_vhal_open v _ h := (-1, v, h);
  roadcast_vhal_read v _ h := (-1, v, mark_unavailable [], h);
  roadcast_vhal_close v h := (v, h);
|}.

#[export, program] Instance host_vhal_ok : VhalSourceOk host_vhal := {
  vhal_ok := fun _ => True;
}.
Next Obligation. done. Qed.
Next Obligation. intros v p w _. cbn. lia. Qed.
Next Obligation. intros v fs w _ _. split; [lia|]. split; [done|]. apply unavailable_frames. Qed.
Next Obligation. done. Qed.

#[export] Instance host_apart : Apart host_vhal host_uv_ok.
Proof. by constructor. Qed.

(** A daemon on fake frames with one client. *)
Definition fake_sampler : sampler_t unit :=
  mk_sampler 0 0 ROADCAST_SOURCE_STATE_AVAILABLE (mk_session tt None 0 0 0 0)
    initialize_fake_frames initialize_fake_frames 1 1000 16666666 1.

Definition fake_signals : list roadcast_signal_value_t :=
  map (initial_signal 1000) (map (signal_spec initialize_fake_frames) SIGNALS).

Definition demo_daemon (c : roadcast_client_t) : daemon unit host_t :=
  mk_daemon (demo_server <| sv_signals := fake_signals |>)
    (c :: repeat zero_client 15) fake_sampler (mk_process (repeat 0 108) 1 1 1 1 1 1 1 false)
    1 5000 demo_host.

Lemma demo_daemon_ok c : client_ok demo_server c -> daemon_ok (demo_daemon c).
Proof.
  intros Hc. pose proof demo_server_ok as (Hslots & Hf & Hids & _ & Hrest).
  assert (Htr : tracking initialize_fake_frames fake_signals) by (by apply initial_tracking).
  pose proof (tracking_signals_ok _ _ Htr) as Hso.
  split; try done.
  - split; [|split; [done|]].
    + split_and!; try done; apply Hslots.
    + constructor; [exact Hc|]. apply Forall_forall. intros c0 Hc0. apply repeat_spec in Hc0 as ->.
      split; [apply zero_client_queue_ok; cbn; unfold CLIENT_QUEUE_SLOTS in *; lia|apply zero_client_data_ok].
  - intros uid. unfold demo_daemon, active_clients_for_uid. cbn [clients]. rewrite sumZ_cons.
    change (sumZ _ (repeat zero_client 15)) with 0. change MAX_CLIENTS_PER_UID with 8.
    destruct (_ && _); lia.
Qed.

Definition subscribed_client : roadcast_client_t := ready_client <| subscribed := 1 |>.

Lemma demo_clients_ok c :
  In c [demo_client; greeted_client; ready_client] -> client_ok demo_server c.
Proof. intros Hc. destruct (demo_ctx_ok c Hc) as [[_ Hq] Hd]. by split. Qed.

Lemma subscribed_client_ok : client_ok demo_server subscribed_client.
Proof.
  destruct (demo_clients_ok ready_client) as [Hq Hd]; [right; right; by left|].
  split; [exact Hq|]. unfold subscribed_client. data_ok_tac Hd.
Qed.

Lemma daemon_never_fails_witness :
  exists d0 : daemon unit host_t, daemon_init 60 1 20 None demo_host = Ok (Some d0)
    /\ daemon_ok d0 /\ exists d', handle SampleNotification d0 = Ok d'.
Proof.
  destruct (daemon_never_fails (V := unit) 60 1 20 None demo_host) as (d0 & Hi & H).
  - lia.
  - vm_compute. split; discriminate.
  - left. discriminate.
  - exists d0. split; [exact Hi|]. destruct (H [] d0) as [Hok He]; [constructor|].
    split; [exact Hok|]. destruct (He SampleNotification) as (d' & Hd & _); [exact I|].
    exists d'. exact Hd.
Defined.

(** The subscriber across a turn of the sampling thread and a report. *)
Lemma subscriber_stays_in_step_witness :
  let d := demo_daemon subscribed_client in
  let R := mk_replica initialize_fake_frames fake_signals in
  let d' := on_stats (thread_step d) in
  daemon_ok d /\ in_step R 0 d 0
  /\ (in_step R 0 d' 0
      \/ exists es1 d1 es2, [SamplerTurn; StatsTimer] = es1 ++ es2 /\ steps d es1 d1 /\ cut_at d1 0).
Proof.
  intros d R d'.
  assert (Hok : daemon_ok d) by apply demo_daemon_ok, subscribed_client_ok.
  assert (Hin : in_step R 0 d 0).
  { pose proof demo_server_ok as (_ & _ & Hids & _).
    exists subscribed_client. split; [reflexivity|]. split; [split; reflexivity|].
    split; [cbn; lia|]. split; [exact Hids|]. split; cbn; auto with roadcast. }
  split; [exact Hok|]. split; [exact Hin|].
  apply (subscriber_stays_in_step R 0 0 d [SamplerTurn; StatsTimer] d' Hok Hin).
  - apply steps_cons with (thread_step d); [exact I|reflexivity|].
    apply steps_cons with d'; [exact I|reflexivity|constructor].
  - repeat constructor; discriminate.
Defined.

Lemma sample_distribution_witness :
  let d := demo_daemon subscribed_client in
  exists d', distribute_latest_sample (thread_step d) = Ok d'
    /\ sv_frames (server d') = published (sampler (thread_step d))
    /\ sample_sequence (server d') = 2 /\ distributed (thread_step d) d' 0.
Proof.
  intros d. assert (Hok : daemon_ok d) by apply demo_daemon_ok, subscribed_client_ok.
  destruct (sampler_turn_run d Hok) as (d1 & Hd1 & Hok1 & _). injection Hd1 as <-.
  destruct (sample_distribution (thread_step d) Hok1) as (d' & Hrun & _ & Hnew & Hall).
  exists d'. split; [exact Hrun|]. destruct Hnew as (E1 & _ & E2).
  - reflexivity.
  - split; [exact E1|]. split; [exact E2|apply Hall].
Defined.

Lemma incremental_decoding_witness :
  exists values' full,
    redecode_signals (update_fake_frames initialize_fake_frames 7 false) initialize_fake_frames
      fake_signals 2000 = Ok values'
    /\ roadcast_decode_signals (update_fake_frames initialize_fake_frames 7 false) = Ok full.
Proof.
  destruct initial_fake_ok as [Hf _]. destruct (fake_sample_ok 7 false) as [Hf7 _].
  destruct (incremental_decoding (update_fake_frames initialize_fake_frames 7 false)
    initialize_fake_frames fake_signals 2000) as (values' & full & H1 & H2 & _).
  - exact Hf7.
  - exact Hf.
  - lia.
  - apply initial_tracking; [exact Hf|lia].
  - exists values', full. split; [exact H1|exact H2].
Defined.

Lemma connection_admits_witness :
  let d := demo_daemon demo_client in
  exists d', on_connection 0 d = Ok d' /\ admission 0 d d'
    /\ active_clients_for_uid (clients d') 0 <= 8.
Proof.
  intros d. assert (Hok : daemon_ok d) by (apply demo_daemon_ok, demo_clients_ok; by left).
  destruct (connection_admits 0 d Hok) as (d' & H1 & H2 & H3 & _).
  exists d'. split; [exact H1|]. split; [exact H2|apply H3].
Defined.

(** The client that has not greeted is past its deadline. *)
Lemma heartbeat_enforces_deadlines_witness :
  let d := demo_daemon demo_client in
  timed_out 1 demo_client
  /\ exists d' c', on_heartbeat d = Ok d' /\ clients d' !! 0%nat = Some c' /\ active c' = 0.
Proof.
  intros d. assert (Hok : daemon_ok d) by (apply demo_daemon_ok, demo_clients_ok; by left).
  assert (Ht : timed_out 1 demo_client)
    by (split; [discriminate|left; split; [reflexivity|cbn; lia]]).
  split; [exact Ht|].
  destruct (heartbeat_enforces_deadlines d Hok) as (d' & H1 & H2).
  destruct (H2 0%nat demo_client eq_refl) as (c' & ms & Hc & _ & Hclosed & _).
  exists d', c'. split; [exact H1|]. split; [exact Hc|]. apply Hclosed. exact Ht.
Defined.

Lemma shutdown_is_final_witness :
  let d := demo_daemon subscribed_client in
  exists d1, on_signal d = Ok d1 /\ Forall (fun c => active c = 0) (clients d1).
Proof.
  intros d. assert (Hok : daemon_ok d) by apply demo_daemon_ok, subscribed_client_ok.
  destruct (shutdown_is_final d Hok) as (d1 & H1 & H2). exists d1. split; [exact H1|].
  apply (H2 [] d1). constructor.
Defined.
