(* ===== verification/Harmless.v ===== *)
(** * What the events do to the rest of the process

    The handlers of the event loop act on the clients and on their streams.  A
    relation on worlds that the calls on streams respect holds across every event
    of the loop but the signal that shuts the daemon down, and no other event
    changes the marks of the process.  The same analysis shows that a handler
    that turns an open client into one that is not has closed its stream. *)

From Stdlib Require Import String.
From S2P Require Import Prelude Wire CatalogDefs Catalog SourceSession Sampler ServerDefs ServerOps.
From S2P Require Import DaemonOps Events.

(** [D w c]: the stream [c] has been closed.  It stays so under [R]. *)
Class Harmless {W} `{U : Uv W} `{K : Clock W} (R : W -> W -> Prop) (D : W -> Z -> Prop) : Prop := {
  harmless_preorder :: PreOrder R;
  harmless_done w w' c : R w w' -> D w c -> D w' c;
  harmless_clock w : R w (monotonic_ns w).2;
  harmless_write c bytes w : R w (uv_write c bytes w).2;
  harmless_read_stop c w : R w (uv_read_stop c w);
  harmless_close c w : R w (uv_close c w) /\ D (uv_close c w) c;
  harmless_accept c w : R w (uv_accept c w).2;
  harmless_read_start c w : R w (uv_read_start c w).2;
  harmless_fileno c w : R w (uv_fileno c w).2;
  harmless_peercred fd w : R w (getsockopt_peercred fd w).2;
  harmless_sndbuf fd n w : R w (setsockopt_sndbuf fd n w);
  harmless_calloc w : R w (calloc_stream w).2;
  harmless_free r w : R w (free_stream r w);
}.

(** A connection: its stream must not be left without being closed. *)
Definition is_open (c : roadcast_client_t) : Prop := active c <> 0 /\ closing c = 0.

Create HintDb mild.
Ltac harmless :=
  intros; first [apply harmless_clock|apply harmless_write|apply harmless_read_stop
    |exact (proj1 (harmless_close _ _))|apply harmless_accept|apply harmless_read_start
    |apply harmless_fileno|apply harmless_peercred|apply harmless_sndbuf].

Section Mild.
Context `{Catalog} {V W : Type} `{K : !Clock W} `{U : !Uv W} {R : W -> W -> Prop}
  {D : W -> Z -> Prop} `{HR : !Harmless R D}.
Implicit Types (d : daemon V W) (s : ctx W).

(** ** Handlers on one client *)

Definition mild {A} (m : M W A) : Prop := forall s,
  match m s with
  | Ok (_, s') => R (env s) (env s') /\ shutting_down (sv s') = shutting_down (sv s)
                  /\ cid s' = cid s
                  /\ (is_open (cl s) -> is_open (cl s') \/ D (env s') (cid s))
  | _ => True
  end.

Lemma mild_ret {A} (a : A) : mild (mret a).
Proof. intros s. split_and!; try done. by left. Qed.
Lemma mild_bind {A B} (m : M W A) (f : A -> M W B) :
  mild m -> (forall a, mild (f a)) -> mild (m ≫= f).
Proof.
  intros Hm Hf s. unfold mbind, M_bind. specialize (Hm s). destruct (m s) as [[a s']| |]; [|done..].
  specialize (Hf a s'). destruct (f a s') as [[b s'']| |]; [|done..].
  destruct Hm as (H1 & H2 & H3 & H4), Hf as (H5 & H6 & H7 & H8).
  split_and!; [by etrans|congruence..|]. intros [H9|H9]%H4.
  - rewrite <- H3. by apply H8.
  - right. by eapply harmless_done.
Qed.
(** A step that leaves the client alone. *)
Lemma mild_still s w : R (env s) w ->
  R (env s) w /\ shutting_down (sv s) = shutting_down (sv s) /\ cid s = cid s
  /\ (is_open (cl s) -> is_open (cl s) \/ D w (cid s)).
Proof. intros Hw. split_and!; try done. by left. Qed.
Lemma mild_call {A} (f : Z -> W -> A * W) : (forall c w, R w (f c w).2) -> mild (call f).
Proof.
  intros Hf s. unfold call. specialize (Hf (cid s) (env s)). destruct (f (cid s) (env s)) as [a w].
  exact (mild_still s w Hf).
Qed.
Lemma mild_act (f : Z -> W -> W) : (forall c w, R w (f c w)) -> mild (act f).
Proof. intros Hf s. exact (mild_still s _ (Hf _ _)). Qed.
Lemma mild_ask {A} (f : Z -> W -> A) : mild (ask f).
Proof. intros s. by apply mild_still. Qed.
Lemma mild_getc : mild getc.
Proof. intros s. by apply mild_still. Qed.
Lemma mild_gets : mild gets.
Proof. intros s. by apply mild_still. Qed.
Lemma mild_modc f : (forall c, is_open c -> is_open (f c)) -> mild (modc f).
Proof. intros Hf s. split_and!; try done. cbn. auto. Qed.
Lemma mild_modc_done f : (forall w c, D w c) -> mild (modc f).
Proof. intros HD s. split_and!; try done. cbn. auto. Qed.
Lemma mild_mods f : (forall v, shutting_down (f v) = shutting_down v) -> mild (mods f).
Proof. intros Hf s. split_and!; [done|apply Hf|done|by left]. Qed.
Lemma mild_mem {A} (m : res A) : mild (mem m).
Proof. intros s. unfold mem. destruct m; [by apply mild_still|done..]. Qed.
Lemma mild_enc {A} (m : res A) : mild (enc m).
Proof. intros s. unfold enc. destruct m; [by apply mild_still..|done]. Qed.
Lemma mild_fuel {A} : mild (@out_of_fuel W A).
Proof. by intros s. Qed.

(** Closing is the one way an open client stops being open. *)
Lemma mild_client_close : mild client_close.
Proof.
  intros s. unfold client_close, mbind, M_bind, getc. cbn.
  destruct (_ || _); [by apply mild_still|]. cbn.
  destruct (harmless_close (cid s) (uv_read_stop (cid s) (env s))) as [H1 H2].
  split_and!; try done; [|by right]. etrans; [|exact H1]. apply harmless_read_stop.
Qed.
End Mild.

#[export] Hint Resolve mild_ret mild_ask mild_getc mild_gets mild_mem mild_enc mild_fuel mild_client_close : mild.

(** The flags of the client are the old ones. *)
Ltac keep_open :=
  match goal with
  | Ho : is_open ?c |- is_open _ => first [exact Ho|unfold is_open in *; repeat case_match; exact Ho]
  end.

(** One step of a handler's body: a bind, a primitive, or a case distinction. *)
Ltac mild_step :=
  lazymatch goal with
  | |- mild (_ ≫= _) => apply mild_bind
  | |- mild (call _) => apply mild_call; harmless
  | |- mild (act _) => apply mild_act; harmless
  | |- mild (mods _) => apply mild_mods; intros ?
  | |- mild (modc _) => apply mild_modc; intros ? ?
  | |- is_open _ => keep_open
  | |- mild (match ?x with _ => _ end) => destruct x
  | |- forall _, _ => intros ?
  | |- mild (let _ := _ in _) => cbv zeta
  | |- _ => solve [eauto 3 with mild|reflexivity]
  end.
Ltac mild_tac := repeat mild_step.

Section Handlers.
Context `{Catalog} {V W : Type} `{K : !Clock W} `{U : !Uv W} `{S : !VhalSource V W}
  {R : W -> W -> Prop} {D : W -> Z -> Prop} `{HR : !Harmless R D}.
#[local] Abbreviation mild := (mild (R := R) (D := D)).

Lemma mild_find_output_slot : mild find_output_slot.
Proof. unfold find_output_slot. mild_tac. Qed.
Lemma mild_drop_batch : mild drop_batch.
Proof. unfold drop_batch. mild_tac. Qed.
Hint Resolve mild_find_output_slot mild_drop_batch : mild.
Lemma mild_queue_message t q ts p n dr : mild (client_queue_message t q ts p n dr).
Proof. unfold client_queue_message. mild_tac. Qed.
Hint Resolve mild_queue_message : mild.
Lemma mild_maybe_queue_resync : mild maybe_queue_resync.
Proof. unfold maybe_queue_resync. mild_tac. Qed.
Lemma mild_output_capacity : mild client_has_output_capacity.
Proof. unfold client_has_output_capacity. mild_tac. Qed.
Lemma mild_begin_snapshot : mild begin_snapshot.
Proof. unfold begin_snapshot. mild_tac. Qed.
Hint Resolve mild_maybe_queue_resync mild_output_capacity mild_begin_snapshot : mild.
Lemma mild_frame_chunk i : mild (queue_frame_snapshot_chunk i).
Proof. unfold queue_frame_snapshot_chunk. mild_tac. Qed.
Lemma mild_signal_chunk i : mild (queue_signal_snapshot_chunk i).
Proof. unfold queue_signal_snapshot_chunk. mild_tac. Qed.
Lemma mild_schema_chunk i : mild (queue_schema_chunk i).
Proof. unfold queue_schema_chunk. mild_tac. Qed.
Lemma mild_begin_catchup : mild begin_catchup_round.
Proof. unfold begin_catchup_round. mild_tac. Qed.
Lemma mild_catchup_frames : mild catchup_send_frames.
Proof. unfold catchup_send_frames. mild_tac. Qed.
Lemma mild_catchup_signals : mild catchup_send_signals.
Proof. unfold catchup_send_signals. mild_tac. Qed.
Hint Resolve mild_frame_chunk mild_signal_chunk mild_schema_chunk mild_begin_catchup
  mild_catchup_frames mild_catchup_signals : mild.
Lemma mild_catchup_next : mild catchup_next_round.
Proof. unfold catchup_next_round. mild_tac. Qed.
Hint Resolve mild_catchup_next : mild.
Lemma mild_catchup_body : mild catchup_body.
Proof. unfold catchup_body. mild_tac. Qed.
Lemma mild_catchup_continues : mild catchup_continues.
Proof. unfold catchup_continues. mild_tac. Qed.
Hint Resolve mild_catchup_body mild_catchup_continues : mild.
Lemma mild_catchup_loop n : mild (catchup_loop n).
Proof. induction n; cbn [catchup_loop]; mild_tac. Qed.
Hint Resolve mild_catchup_loop : mild.
Lemma mild_drive_catchup : mild drive_subscription_catchup.
Proof. unfold drive_subscription_catchup. mild_tac. Qed.
Hint Resolve mild_drive_catchup : mild.
Lemma mild_queue_catchup : mild queue_subscription_catchup.
Proof. unfold queue_subscription_catchup. mild_tac. Qed.
Hint Resolve mild_queue_catchup : mild.
Lemma mild_on_client_write i st : mild (on_client_write i st).
Proof. unfold on_client_write. mild_tac. Qed.
Lemma mild_index_request p n k : (forall i, mild (k i)) -> mild (with_index_request p n k).
Proof. intros Hk. unfold with_index_request. mild_tac. Qed.
Lemma mild_process_hello p n : mild (process_hello p n).
Proof. unfold process_hello. mild_tac. Qed.
Hint Resolve mild_index_request mild_process_hello : mild.
Lemma mild_process_command h p : mild (process_command h p).
Proof. unfold process_command. mild_tac. Qed.
Hint Resolve mild_process_command : mild.
Lemma mild_input_loop n : forall k, mild (input_loop n k).
Proof. induction n; intros k; cbn [input_loop]; mild_tac. Qed.
Hint Resolve mild_input_loop : mild.
Lemma mild_process_client_input : mild process_client_input.
Proof. unfold process_client_input. mild_tac. Qed.
Hint Resolve mild_process_client_input : mild.
Lemma mild_on_client_read st bytes : mild (on_client_read st bytes).
Proof. unfold on_client_read. mild_tac. Qed.
Lemma mild_credentials : mild read_peer_credentials.
Proof. unfold read_peer_credentials. mild_tac. Qed.
Lemma mild_send_buffer : mild set_send_buffer.
Proof. unfold set_send_buffer. mild_tac. Qed.
Hint Resolve mild_credentials mild_send_buffer : mild.
Lemma mild_send_chunks t ts cs : mild (send_chunks t ts cs).
Proof. induction cs as [|[n p] cs IH]; cbn [send_chunks]; mild_tac. Qed.
Hint Resolve mild_send_chunks : mild.
Lemma mild_broadcast ts fcs scs : mild (broadcast ts fcs scs).
Proof. unfold broadcast. mild_tac. Qed.
Lemma mild_heartbeat_client now st : mild (heartbeat_client now st).
Proof. unfold heartbeat_client. mild_tac. Qed.

(** ** Events *)

Implicit Types d : daemon V W.

(** The marks of the process, the sampler and the state of the shutdown are the
    same, and a client that was open is, or its stream has been closed. *)
Definition harmless_step d d' : Prop :=
  process d' = process d /\ sampler d' = sampler d
  /\ shutting_down (server d') = shutting_down (server d) /\ R (world d) (world d')
  /\ forall i c, clients d !! i = Some c -> is_open c ->
       (exists c', clients d' !! i = Some c' /\ is_open c') \/ D (world d') (Z.of_nat i).

(** The clients are untouched. *)
Lemma harmless_world d d' :
  process d' = process d -> sampler d' = sampler d -> clients d' = clients d ->
  shutting_down (server d') = shutting_down (server d) -> R (world d) (world d') -> harmless_step d d'.
Proof. intros H1 H2 H3 H4 H5. split_and!; try done. intros i c Hc Ho. left. exists c. by rewrite H3. Qed.

Lemma harmless_step_refl d : harmless_step d d.
Proof. by apply harmless_world. Qed.

Lemma harmless_step_trans d1 d2 d3 : harmless_step d1 d2 -> harmless_step d2 d3 -> harmless_step d1 d3.
Proof.
  intros (H1 & H2 & H3 & H4 & H5) (H6 & H7 & H8 & H9 & H10). split_and!; [congruence..|by etrans|].
  intros i c Hc Ho. destruct (H5 i c Hc Ho) as [(c' & Hc' & Ho')|Hd]; [by eapply H10|].
  right. by eapply harmless_done.
Qed.

Lemma at_client_harmless {A} i (m : M W A) d a d' :
  mild m -> at_client i m d = Ok (a, d') -> harmless_step d d'.
Proof.
  intros Hm. unfold at_client. destruct (rd (clients d) i) as [c| |] eqn:Ec; [|done..]. rewrite bind_ok.
  specialize (Hm (mk_ctx i c (server d) (world d))).
  destruct (m _) as [[a' s]| |]; [|done..]. rewrite bind_ok. cbn [env sv cid cl] in Hm.
  destruct Hm as (H1 & H2 & _ & H4). apply rd_inv in Ec as [Hi Ec].
  apply lookup_lt_Some in Ec as Hlt. rewrite wr_ok by (unfold zlen; lia).
  rewrite bind_ok. intros [= _ <-]. split_and!; try done. cbn. intros j c' Hc' Ho.
  destruct (decide (j = Z.to_nat i)) as [->|Hne].
  - rewrite list_lookup_insert_eq by done. simplify_eq. rewrite Z2Nat.id by lia.
    destruct (H4 Ho); [left|by right]. eauto.
  - left. exists c'. by rewrite list_lookup_insert_ne.
Qed.

Lemma each_client_harmless m d d' :
  mild m -> each_client m d = Ok d' -> harmless_step d d'.
Proof.
  intros Hm Hrun. unfold each_client in Hrun.
  refine (loop_inv (fun _ d' => harmless_step d d') _ _ _ _ _ (harmless_step_refl d) _ Hrun).
  intros i d1 d2 Hi H1 Hstep. destruct (at_client i m d1) as [[a d3]| |] eqn:E; [|done..].
  rewrite bind_ok in Hstep. injection Hstep as <-.
  eapply harmless_step_trans; [exact H1|]. by eapply at_client_harmless.
Qed.

Lemma at_client_event {A} i (m : M W A) d d' :
  mild m -> ('(_, d) ← at_client i m d; mret d) = Ok d' -> harmless_step d d'.
Proof.
  intros Hm H1. destruct (at_client i m d) as [[a d1]| |] eqn:E; [|done..]. rewrite bind_ok in H1.
  injection H1 as <-. by eapply at_client_harmless.
Qed.

Lemma distribute_harmless d d' : distribute_latest_sample d = Ok d' -> harmless_step d d'.
Proof.
  unfold distribute_latest_sample. destruct (sampler_read_latest _) as [[latest q] ts].
  assert (Hsame : forall v, shutting_down v = shutting_down (server d) ->
    harmless_step d (d <| server := v |>)) by (intros v Hv; by apply harmless_world).
  destruct (_ <=? _); [intros [= <-]; apply harmless_step_refl|]. cbv zeta.
  destruct (_ =? 0); [intros [= <-]; by apply Hsame|].
  destruct (redecode_signals _ _ _ _) as [sigs| |]; [|done..]. rewrite bind_ok.
  destruct (_ && _); [intros [= <-]; by apply Hsame|].
  destruct (negb _); [intros [= <-]; by apply Hsame|].
  destruct (frame_chunks _ _ _ _ _ _) as [fcs| |]; [|done..]. rewrite bind_ok.
  destruct (signal_chunks _ _ _ _ _ _) as [scs| |]; [|done..]. rewrite bind_ok.
  intros Hrun. apply each_client_harmless in Hrun; [|apply mild_broadcast].
  eapply harmless_step_trans; [|exact Hrun]. by apply Hsame.
Qed.

Lemma heartbeat_harmless d d' : on_heartbeat d = Ok d' -> harmless_step d d'.
Proof.
  unfold on_heartbeat. pose proof (harmless_clock (world d)) as Hc.
  destruct (monotonic_ns (world d)) as [now w]. intros Hrun.
  apply each_client_harmless in Hrun; [|apply mild_heartbeat_client].
  eapply harmless_step_trans; [|exact Hrun]. apply harmless_world; try done.
  cbn. unfold measure_rate. by destruct (_ && _).
Qed.

Lemma event_harmless e d d' :
  match e with Connection _ | Closed _ | Signal | SamplerTurn => False | _ => True end ->
  handle e d = Ok d' -> harmless_step d d'.
Proof.
  intros He. destruct e; cbn [handle]; try done.
  - apply at_client_event, mild_on_client_read.
  - apply at_client_event, mild_on_client_write.
  - intros [= <-]. apply harmless_world; try done. apply harmless_free.
  - apply distribute_harmless.
  - apply heartbeat_harmless.
  - intros [= <-]. by apply harmless_world.
Qed.

(** ** Connections *)

(** For what the calls leave alone whether or not a stream has been closed. *)
Context (HD : forall w c, D w c) (Hinit : forall c w, R w (uv_pipe_init c w).2).

Lemma closed_harmless i d d' : handle (Closed i) d = Ok d' -> harmless_step d d'.
Proof. apply at_client_event, mild_modc_done, HD. Qed.

Lemma mild_accept_client cs : mild (accept_client cs).
Proof.
  unfold accept_client.
  repeat first [apply mild_modc_done, HD|apply mild_call, Hinit|mild_step].
Qed.

Lemma reject_harmless w : R w (reject_connection w).
Proof.
  unfold reject_connection. pose proof (harmless_calloc w) as H1.
  destruct (calloc_stream w) as [[r|] w1]; cbn [snd] in H1; [|done].
  pose proof (Hinit r w1) as H2. destruct (uv_pipe_init r w1) as [rc w2]. cbn [snd] in H2.
  destruct (rc <? 0); [etrans; [|apply harmless_free]; by etrans|].
  pose proof (harmless_accept r w2) as H3. destruct (uv_accept r w2) as [rc' w3]. cbn [snd] in H3.
  assert (H4 : R w w3) by (etrans; [by etrans|done]).
  destruct (rc' <? 0); (etrans; [exact H4|exact (proj1 (harmless_close _ _))]).
Qed.

Lemma connection_harmless status d d' :
  handle (Connection status) d = Ok d' -> harmless_step d d'.
Proof.
  cbn [handle]. unfold on_connection. destruct (_ || _); [intros [= <-]; apply harmless_step_refl|].
  destruct (find_available_client _ _ _) as [[i|]| |]; [| |done..]; rewrite bind_ok.
  - apply at_client_event, mild_accept_client.
  - intros [= <-]. apply harmless_world; try done. apply reject_harmless.
Qed.
End Handlers.

(** A turn of the sampling thread. *)
Lemma thread_related `{Catalog} {V W : Type} `{K : !Clock W} `{U : !Uv W} `{S : !VhalSource V W}
    {R : W -> W -> Prop} `{HT : !Transparent R} (d : daemon V W) :
  process (thread_step d) = process d /\ server (thread_step d) = server d
  /\ clients (thread_step d) = clients d /\ R (world d) (world (thread_step d)).
Proof.
  unfold thread_step. set (stop := stop_requested (process d)).
  pose proof (sampler_iteration_related (R := R) stop stop (sampler d) (thread_sequence d)
    (thread_next_tick d) (world d)) as Hq.
  by destruct (sampler_iteration _ _ _ _ _ _) as [[[[? ?] ?]|] ?].
Qed.
