(* ===== verification/ClientDefs.v ===== *)
(** * The client library's state: src/client.c, structures and interface

    The client structure, the part of the operating system the library calls as
    the interface [Socket], and the state monad in which ClientOps.v is written.
    The cache lock makes the reader thread's updates and the application's reads
    atomic, so a call of the interface sees the state between two updates. *)

From Stdlib Require Import String.
From S2P Require Import Prelude Wire CatalogDefs Catalog SourceSession Sampler.

Definition CLIENT_READ_TIMEOUT_MS : Z := 3000.
Definition CLIENT_SETUP_TIMEOUT_MS : Z := 10000.
Definition CLIENT_MAX_FRAMES : Z := 65535.
Definition CLIENT_MAX_SIGNALS : Z := 100000.
Definition CAN_ID_LOOKUP_CAP : Z := 2048.

Definition ROADCAST_CLIENT_OK : Z := 0.
Definition ROADCAST_CLIENT_ERR_ARGUMENT : Z := -1.
Definition ROADCAST_CLIENT_ERR_SOCKET : Z := -2.
Definition ROADCAST_CLIENT_ERR_HANDSHAKE : Z := -3.
Definition ROADCAST_CLIENT_ERR_PROTOCOL : Z := -4.
Definition ROADCAST_CLIENT_ERR_SCHEMA : Z := -5.
Definition ROADCAST_CLIENT_ERR_SNAPSHOT : Z := -6.
Definition ROADCAST_CLIENT_ERR_MEMORY : Z := -7.
Definition ROADCAST_CLIENT_ERR_THREAD : Z := -8.

(** [struct roadcast_client] of the library.  A buffer is the list of its
    elements; a buffer that has not been allocated is empty. *)
Record client_t := mk_cc {
  cc_fd : Z;
  cc_reader_started : Z;
  cc_payload : list Z;
  cc_payload_capacity : Z;
  cc_frame_scratch : list roadcast_frame_t;
  cc_frame_scratch_capacity : Z;
  cc_signal_scratch : list roadcast_signal_update_t;
  cc_signal_scratch_capacity : Z;
  cc_schema : list roadcast_schema_entry_t;
  cc_frames : list roadcast_frame_t;
  cc_signals : list roadcast_signal_value_t;
  cc_can_id_to_index : list Z;
  cc_hz : Z;
  cc_frame_count : Z;
  cc_signal_count : Z;
  cc_schema_version : Z;
  cc_schema_hash : Z;
  cc_max_request_payload : Z;
  cc_max_response_payload : Z;
  cc_sample_sequence : Z;
  cc_change_sequence : Z;
  cc_sample_timestamp_ns : Z;
  cc_dropped_batches : Z;
  cc_coalesced_samples : Z;
  cc_resynchronizations : Z;
  cc_effective_hz_millihz : Z;
  cc_source_state : Z;
  cc_connected : Z;
}.

#[export] Instance eta_cc : Eta client_t := fun c =>
  mk_cc (cc_fd c) (cc_reader_started c) (cc_payload c) (cc_payload_capacity c)
    (cc_frame_scratch c) (cc_frame_scratch_capacity c) (cc_signal_scratch c)
    (cc_signal_scratch_capacity c) (cc_schema c) (cc_frames c) (cc_signals c)
    (cc_can_id_to_index c) (cc_hz c) (cc_frame_count c) (cc_signal_count c)
    (cc_schema_version c) (cc_schema_hash c) (cc_max_request_payload c)
    (cc_max_response_payload c) (cc_sample_sequence c) (cc_change_sequence c)
    (cc_sample_timestamp_ns c) (cc_dropped_batches c) (cc_coalesced_samples c)
    (cc_resynchronizations c) (cc_effective_hz_millihz c) (cc_source_state c) (cc_connected c).

Record synchronization_t := mk_sync {
  sy_frames : list roadcast_frame_t;
  sy_signals : list roadcast_signal_value_t;
  sy_sample_sequence : Z;
  sy_change_sequence : Z;
  sy_sample_timestamp_ns : Z;
}.

#[export] Instance eta_sync : Eta synchronization_t := fun s =>
  mk_sync (sy_frames s) (sy_signals s) (sy_sample_sequence s) (sy_change_sequence s)
    (sy_sample_timestamp_ns s).

Record roadcast_client_status_t := mk_status {
  st_hz : Z;
  st_frame_count : Z;
  st_signal_count : Z;
  st_schema_version : Z;
  st_schema_hash : Z;
  st_sample_sequence : Z;
  st_change_sequence : Z;
  st_sample_timestamp_ns : Z;
  st_dropped_batches : Z;
  st_coalesced_samples : Z;
  st_resynchronizations : Z;
  st_effective_hz_millihz : Z;
  st_source_state : Z;
  st_connected : Z;
}.

(** ** The operating system

    A call on the descriptor is done, interrupted (EINTR), would block (EAGAIN,
    EWOULDBLOCK; EINPROGRESS for [connect]) or fails for another reason.
    [Done []] of [sock_recv] is the end of the stream.  [poll] is ready, with
    the requested event or with an error event, or times out, is interrupted or
    fails. *)

Inductive io (A : Type) :=
  | Done (a : A)
  | Interrupted
  | WouldBlock
  | Broken.
Arguments Done {A} _.
Arguments Interrupted {A}.
Arguments WouldBlock {A}.
Arguments Broken {A}.

Inductive poll_result :=
  | PollReady (requested error : bool)
  | PollTimeout
  | PollInterrupted
  | PollFailed.

Inductive direction := POLLIN | POLLOUT.

(** [sys_alloc], [sys_mutex] and [sys_thread] tell whether the next allocation,
    mutex initialization or thread creation succeeds; [sock_stop_requested] is
    the flag another thread sets. *)
Class Socket (W : Type) := {
  sock_socket : W -> Z * W;
  sock_fcntl : Z -> Z -> Z -> W -> Z * W;
  sock_connect : Z -> list Z -> Z -> W -> io unit * W;
  sock_error : Z -> W -> Z * W;
  sock_send : Z -> list Z -> W -> io Z * W;
  sock_recv : Z -> Z -> W -> io (list Z) * W;
  sock_poll : Z -> direction -> Z -> W -> poll_result * W;
  sock_shutdown : Z -> W -> W;
  sock_close : Z -> W -> W;
  sock_stop_requested : W -> bool * W;
  sys_alloc : W -> bool * W;
  sys_mutex : W -> bool * W;
  sys_thread : W -> bool * W;
}.

(** ** The monad of the library's functions *)

Record cctx (W : Type) := mk_cctx {
  me : client_t;
  cenv : W;
}.
Arguments mk_cctx {W}.
Arguments me {W}.
Arguments cenv {W}.

#[export] Instance eta_cctx {W} : Eta (cctx W) := fun s => mk_cctx (me s) (cenv s).

(** [Fail] is a loop that ran out of fuel, [UB] undefined behaviour. *)
Definition CM (W A : Type) : Type := cctx W -> res (A * cctx W).

#[export] Instance CM_ret {W} : MRet (CM W) := fun A a s => Ok (a, s).
#[export] Instance CM_bind {W} : MBind (CM W) := fun A B f m s =>
  match m s with
  | Ok (a, s') => f a s'
  | Fail => Fail
  | UB => UB
  end.

Section Monad.
Context {W : Type}.

Definition getm : CM W client_t := fun s => Ok (me s, s).
Definition modm (f : client_t -> client_t) : CM W unit := fun s => Ok (tt, s <| me := f (me s) |>).
Definition sys {A} (f : W -> A * W) : CM W A :=
  fun s => let '(a, w) := f (cenv s) in Ok (a, s <| cenv := w |>).
Definition sys_ (f : W -> W) : CM W unit := fun s => Ok (tt, s <| cenv := f (cenv s) |>).

(** A memory access. *)
Definition memm {A} (m : res A) : CM W A := fun s =>
  match m with Ok a => Ok (a, s) | _ => UB end.

(** A decoder: [None] when it returns -1. *)
Definition dec {A} (m : res A) : CM W (option A) := fun s =>
  match m with Ok a => Ok (Some a, s) | Fail => Ok (None, s) | UB => UB end.

Definition no_fuel {A} : CM W A := fun _ => Fail.
End Monad.

(** The cast to [int]. *)
Definition i32 (x : Z) : Z := (x + 2 ^ 31) mod 2 ^ 32 - 2 ^ 31.
