(* ===== verification/ClientOps.v ===== *)
(** * The client library: src/client.c

    Sockets, messages, the schema and snapshot downloads, the subscription, the
    reader thread and the application interface, in the order of the source.  A
    C [int] result is the value of the function.  A decoder is given the bytes of
    the message and not the stale ones behind them in the buffer; what a decoder
    that fails has written is not represented, because every caller gives up its
    target.  [fuel] bounds each loop that only the peer or the kernel can end. *)

From Stdlib Require Import String.
From S2P Require Import Prelude Text Wire CatalogDefs Catalog SourceSession Sampler ClientDefs.

(** [if (c) return a; k] *)
Notation "'return_when' c 'then' a ;; k" := (if c then mret a else k)
  (at level 100, c at level 99, a at level 99, k at level 200).

(** ** Addresses *)

(** The path and the length of the address; [name] is the string without its
    terminator. *)
Definition fill_unix_address (name : list Z) : res (list Z * Z) :=
  let path := repeat 0 (Z.to_nat SUN_PATH_SIZE) in
  let length_ := zlen name in
  reject_if ((length_ =? 0) || (SUN_PATH_SIZE <=? length_));;
  first ← rd name 0;
  if first =? 64 then
    path ← wr path 0 0;
    rest ← slice name 1 (length_ - 1);
    path ← blit path 1 rest;
    mret (path, SUN_PATH_OFFSET + length_)
  else
    path ← blit path 0 (name ++ [0]);
    mret (path, SUN_PATH_OFFSET + length_ + 1).

Section Sdk.
Context {W : Type} `{K : !Clock W} `{N : !Socket W} (fuel : nat).

(** ** Sockets *)

Fixpoint wait_loop (n : nat) (fd : Z) (events : direction) (deadline_ns : Z) : CM W Z :=
  match n with
  | O => no_fuel
  | S n =>
      now ← sys monotonic_ns;
      return_when deadline_ns <=? now then -1;;
      let remaining_ns := u64 (deadline_ns - now) in
      let timeout_ms := i32 (u64 (remaining_ns + 999999) / 1000000) in
      return_when timeout_ms <=? 0 then -1;;
      result ← sys (sock_poll fd events timeout_ms);
      match result with
      | PollReady requested error =>
          return_when requested then 0;;
          return_when error then -1;;
          mret 0
      | PollInterrupted => wait_loop n fd events deadline_ns
      | PollTimeout | PollFailed => mret (-1)
      end
  end.

Definition wait_descriptor (fd : Z) (events : direction) (deadline_ns : Z) : CM W Z :=
  wait_loop fuel fd events deadline_ns.

Definition set_nonblocking (fd : Z) : CM W Z :=
  flags ← sys (sock_fcntl fd F_GETFL 0);
  return_when flags <? 0 then -1;;
  sys (sock_fcntl fd F_SETFL (Z.lor flags O_NONBLOCK)).

Definition connect_socket (socket_name : list Z) (deadline_ns : Z) : CM W Z :=
  fd ← sys sock_socket;
  return_when fd <? 0 then -1;;
  r ← set_nonblocking fd;
  if r <? 0 then sys_ (sock_close fd);; mret (-1)
  else
    address ← dec (fill_unix_address socket_name);
    match address with
    | None => sys_ (sock_close fd);; mret (-1)
    | Some (path, length_) =>
        rc ← sys (sock_connect fd path length_);
        match rc with
        | Done _ => mret fd
        | WouldBlock =>
            r ← wait_descriptor fd POLLOUT deadline_ns;
            if r <? 0 then sys_ (sock_close fd);; mret (-1)
            else
              so_error ← sys (sock_error fd);
              if negb (so_error =? 0) then sys_ (sock_close fd);; mret (-1)
              else mret fd
        | Interrupted | Broken => sys_ (sock_close fd);; mret (-1)
        end
    end.

Fixpoint write_loop (n : nat) (fd : Z) (data : list Z) (deadline_ns : Z) : CM W Z :=
  if zlen data =? 0 then mret 0
  else
    match n with
    | O => no_fuel
    | S n =>
        written ← sys (sock_send fd data);
        match written with
        | Done count =>
            if 0 <? count then write_loop n fd (drop (Z.to_nat count) data) deadline_ns
            else mret (-1)
        | Interrupted => write_loop n fd data deadline_ns
        | WouldBlock =>
            r ← wait_descriptor fd POLLOUT deadline_ns;
            return_when r <? 0 then -1;;
            write_loop n fd data deadline_ns
        | Broken => mret (-1)
        end
    end.

Definition write_all (fd : Z) (data : list Z) (deadline_ns : Z) : CM W Z :=
  write_loop fuel fd data deadline_ns.

(** The deadline of one operation within the limit of its caller. *)
Definition operation_deadline (max_deadline_ns : Z) : CM W Z :=
  now ← sys monotonic_ns;
  let op_deadline_ns := u64 (now + CLIENT_READ_TIMEOUT_MS * 1000000) in
  mret (if negb (max_deadline_ns =? 0)
        then (if max_deadline_ns <? op_deadline_ns then max_deadline_ns else op_deadline_ns)
        else op_deadline_ns).

Definition send_message (type_ : Z) (payload : list Z) (payload_length max_deadline_ns : Z)
  : CM W Z :=
  client ← getm;
  return_when cc_max_request_payload client <? payload_length then -1;;
  deadline_ns ← operation_deadline max_deadline_ns;
  now ← sys monotonic_ns;
  header_bytes ← memm (roadcast_encode_header (repeat 0 (Z.to_nat ROADCAST_HEADER_SIZE))
                         (mk_header ROADCAST_PROTOCOL_VERSION type_ 0 (u32 payload_length) 0 now));
  r ← write_all (cc_fd client) header_bytes deadline_ns;
  return_when r <? 0 then -1;;
  if negb (payload_length =? 0) then
    bytes ← memm (slice payload 0 payload_length);
    r ← write_all (cc_fd client) bytes deadline_ns;
    return_when r <? 0 then -1;;
    mret 0
  else mret 0.

(** The result, and the bytes that have been written to [output]. *)
Fixpoint read_loop (n : nat) (fd length_ deadline_ns : Z) (output : list Z) : CM W (Z * list Z) :=
  if length_ =? 0 then mret (0, output)
  else
    match n with
    | O => no_fuel
    | S n =>
        count ← sys (sock_recv fd length_);
        match count with
        | Done bytes =>
            if zlen bytes =? 0 then mret (-1, output)
            else read_loop n fd (sz (length_ - zlen bytes)) deadline_ns (output ++ bytes)
        | Interrupted => read_loop n fd length_ deadline_ns output
        | WouldBlock =>
            r ← wait_descriptor fd POLLIN deadline_ns;
            if r <? 0 then mret (-1, output) else read_loop n fd length_ deadline_ns output
        | Broken => mret (-1, output)
        end
    end.

Definition read_exact (length_ deadline_ns : Z) : CM W (Z * list Z) :=
  client ← getm;
  read_loop fuel (cc_fd client) length_ deadline_ns [].

(** [None] is -1. *)
Definition read_message (max_deadline_ns : Z) : CM W (option roadcast_header_t) :=
  deadline_ns ← operation_deadline max_deadline_ns;
  '(r, bytes) ← read_exact ROADCAST_HEADER_SIZE deadline_ns;
  return_when r <? 0 then None;;
  header_bytes ← memm (blit (repeat 0 (Z.to_nat ROADCAST_HEADER_SIZE)) 0 bytes);
  header ← dec (roadcast_decode_header header_bytes);
  match header with
  | None => mret None
  | Some header =>
      client ← getm;
      return_when negb (version header =? ROADCAST_PROTOCOL_VERSION)
                  || negb (flags header =? 0)
                  || (cc_payload_capacity client <? payload_bytes header) then None;;
      if negb (payload_bytes header =? 0) then
        '(r, bytes) ← read_exact (payload_bytes header) deadline_ns;
        payload' ← memm (blit (cc_payload client) 0 bytes);
        modm (fun c => c <| cc_payload := payload' |>);;
        return_when r <? 0 then None;;
        mret (Some header)
      else mret (Some header)
  end.

(** The message in the buffer. *)
Definition message_payload (header : roadcast_header_t) : CM W (list Z) :=
  client ← getm;
  memm (slice (cc_payload client) 0 (payload_bytes header)).

(** A request for the page that starts at [next_index], and its reply. *)
Definition request_page (request_type reply_type next_index deadline_ns : Z)
  : CM W (option (roadcast_header_t * list Z)) :=
  '(_, request) ← memm (roadcast_encode_index_request
                          (repeat 0 (Z.to_nat ROADCAST_SCHEMA_REQUEST_SIZE)) next_index);
  r ← send_message request_type request ROADCAST_SCHEMA_REQUEST_SIZE deadline_ns;
  return_when r <? 0 then None;;
  header ← read_message deadline_ns;
  match header with
  | None => mret None
  | Some header =>
      return_when negb (type header =? reply_type) then None;;
      payload ← message_payload header;
      mret (Some (header, payload))
  end.

(** ** The schema *)

Fixpoint schema_loop (n : nat) (next_index deadline_ns : Z) : CM W Z :=
  client ← getm;
  if next_index <? cc_signal_count client then
    match n with
    | O => no_fuel
    | S n =>
        page ← request_page ROADCAST_MSG_GET_SCHEMA ROADCAST_MSG_SCHEMA_CHUNK next_index deadline_ns;
        match page with
        | None => mret (-1)
        | Some (header, payload) =>
            client ← getm;
            chunk ← dec (roadcast_decode_schema_chunk payload (payload_bytes header)
                           (cc_signal_count client - next_index));
            match chunk with
            | None => mret (-1)
            | Some chunk =>
                schema' ← memm (blit (cc_schema client) next_index (chunk_entries chunk));
                modm (fun c => c <| cc_schema := schema' |>);;
                return_when negb (chunk_schema_version chunk =? cc_schema_version client)
                            || negb (chunk_schema_hash chunk =? cc_schema_hash client)
                            || negb (chunk_total_count chunk =? cc_signal_count client)
                            || negb (chunk_start_index chunk =? next_index)
                            || (zlen (chunk_entries chunk) =? 0) then -1;;
                schema_loop n (u32 (next_index + zlen (chunk_entries chunk))) deadline_ns
            end
        end
    end
  else mret 0.

Definition request_schema (deadline_ns : Z) : CM W Z :=
  client ← getm;
  schema_loop (Z.to_nat (cc_signal_count client)) 0 deadline_ns.

(** ** Snapshots *)

Fixpoint frame_loop (n : nat) (next_index deadline_ns : Z) (sync : synchronization_t)
  : CM W (Z * synchronization_t) :=
  client ← getm;
  if next_index <? cc_frame_count client then
    match n with
    | O => no_fuel
    | S n =>
        page ← request_page ROADCAST_MSG_GET_SNAPSHOT ROADCAST_MSG_SNAPSHOT next_index deadline_ns;
        match page with
        | None => mret (-1, sync)
        | Some (header, payload) =>
            client ← getm;
            batch ← dec (roadcast_decode_frame_batch payload (payload_bytes header)
                           (cc_frame_count client - next_index));
            match batch with
            | None => mret (-1, sync)
            | Some b =>
                frames' ← memm (blit (sy_frames sync) next_index (batch_items b));
                let sync := sync <| sy_frames := frames' |> in
                return_when negb (batch_total_count b =? cc_frame_count client)
                            || negb (batch_start_index b =? next_index)
                            || (zlen (batch_items b) =? 0) then (-1, sync);;
                if next_index =? 0 then
                  frame_loop n (u32 (next_index + zlen (batch_items b))) deadline_ns
                    (sync <| sy_sample_sequence := batch_sample_sequence b |>
                          <| sy_change_sequence := sequence header |>
                          <| sy_sample_timestamp_ns := timestamp_ns header |>)
                else
                  return_when negb (batch_sample_sequence b =? sy_sample_sequence sync)
                              || negb (sequence header =? sy_change_sequence sync)
                              || negb (timestamp_ns header =? sy_sample_timestamp_ns sync)
                  then (-1, sync);;
                  frame_loop n (u32 (next_index + zlen (batch_items b))) deadline_ns sync
            end
        end
    end
  else mret (0, sync).

(** [table[id] = i] for every frame [i] with an id the table covers. *)
Definition index_frame (frames : list roadcast_frame_t) (i : Z) (table : list Z) : res (list Z) :=
  frame ← rd frames i;
  if can_id frame <? CAN_ID_LOOKUP_CAP then wr table (can_id frame) (u16 i) else mret table.

Definition request_frame_snapshot (sync : synchronization_t) (deadline_ns : Z)
  : CM W (Z * synchronization_t) :=
  client ← getm;
  '(r, sync) ← frame_loop (Z.to_nat (cc_frame_count client)) 0 deadline_ns sync;
  return_when r <? 0 then (-1, sync);;
  client ← getm;
  table ← memm (loop (Z.to_nat (cc_frame_count client)) 0 (index_frame (sy_frames sync))
                  (cc_can_id_to_index client));
  modm (fun c => c <| cc_can_id_to_index := table |>);;
  mret (0, sync).

(** The loop over the updates of a page. *)
Fixpoint store_page (updates : list roadcast_signal_update_t) (next_index signal_count i : Z)
    (signals : list roadcast_signal_value_t) : res (Z * list roadcast_signal_value_t) :=
  match updates with
  | [] => mret (0, signals)
  | update :: updates =>
      if negb (upd_index update =? next_index + i) || (signal_count <=? upd_index update)
      then mret (-1, signals)
      else
        signals ← wr signals (upd_index update) (upd_value update);
        store_page updates next_index signal_count (i + 1) signals
  end.

Fixpoint signal_loop (n : nat) (next_index deadline_ns : Z) (sync : synchronization_t)
  : CM W (Z * synchronization_t) :=
  client ← getm;
  if next_index <? cc_signal_count client then
    match n with
    | O => no_fuel
    | S n =>
        page ← request_page ROADCAST_MSG_GET_SIGNAL_SNAPSHOT ROADCAST_MSG_SIGNAL_SNAPSHOT_CHUNK
                 next_index deadline_ns;
        match page with
        | None => mret (-1, sync)
        | Some (header, payload) =>
            return_when negb (sequence header =? sy_change_sequence sync)
                        || negb (timestamp_ns header =? sy_sample_timestamp_ns sync)
            then (-1, sync);;
            client ← getm;
            batch ← dec (roadcast_decode_signal_batch payload (payload_bytes header)
                           (cc_signal_scratch_capacity client));
            match batch with
            | None => mret (-1, sync)
            | Some b =>
                scratch ← memm (blit (cc_signal_scratch client) 0 (batch_items b));
                modm (fun c => c <| cc_signal_scratch := scratch |>);;
                return_when negb (batch_sample_sequence b =? sy_sample_sequence sync)
                            || negb (batch_total_count b =? cc_signal_count client)
                            || negb (batch_start_index b =? next_index)
                            || (zlen (batch_items b) =? 0) then (-1, sync);;
                updates ← memm (slice scratch 0 (zlen (batch_items b)));
                '(r, signals') ← memm (store_page updates next_index (cc_signal_count client) 0
                                         (sy_signals sync));
                let sync := sync <| sy_signals := signals' |> in
                return_when r <? 0 then (-1, sync);;
                signal_loop n (u32 (next_index + zlen (batch_items b))) deadline_ns sync
            end
        end
    end
  else mret (0, sync).

Definition request_signal_snapshot (sync : synchronization_t) (deadline_ns : Z)
  : CM W (Z * synchronization_t) :=
  client ← getm;
  signal_loop (Z.to_nat (cc_signal_count client)) 0 deadline_ns sync.

(** ** Updates *)

(** The sample sequence and the count; [None] is -1. *)
Definition decode_frame_batch (header : roadcast_header_t) : CM W (option (Z * Z)) :=
  client ← getm;
  payload ← message_payload header;
  batch ← dec (roadcast_decode_frame_batch payload (payload_bytes header)
                 (cc_frame_scratch_capacity client));
  match batch with
  | None => mret None
  | Some b =>
      scratch ← memm (blit (cc_frame_scratch client) 0 (batch_items b));
      modm (fun c => c <| cc_frame_scratch := scratch |>);;
      return_when negb (batch_total_count b =? cc_frame_count client)
                  || negb (batch_start_index b =? UINT32_MAX) then None;;
      mret (Some (batch_sample_sequence b, zlen (batch_items b)))
  end.

(** The loop writes through [sync], up to the first record it refuses. *)
Fixpoint store_frames (scratch : list roadcast_frame_t) (table : list Z) (frame_count : Z)
    (frames : list roadcast_frame_t) : res (Z * list roadcast_frame_t) :=
  match scratch with
  | [] => mret (0, frames)
  | frame :: scratch =>
      target ← (if can_id frame <? CAN_ID_LOOKUP_CAP then rd table (can_id frame)
                else mret UINT16_MAX);
      if frame_count <=? target then mret (-1, frames)
      else
        frames ← wr frames target frame;
        store_frames scratch table frame_count frames
  end.

Definition apply_decoded_frames (sync : synchronization_t) (header : roadcast_header_t)
    (sample_sequence_ frame_count : Z) : CM W (Z * synchronization_t) :=
  client ← getm;
  scratch ← memm (slice (cc_frame_scratch client) 0 frame_count);
  '(r, frames') ← memm (store_frames scratch (cc_can_id_to_index client) (cc_frame_count client)
                          (sy_frames sync));
  let sync := sync <| sy_frames := frames' |> in
  return_when r <? 0 then (-1, sync);;
  mret (0, sync <| sy_sample_sequence := sample_sequence_ |>
                <| sy_change_sequence := sequence header |>
                <| sy_sample_timestamp_ns := timestamp_ns header |>).

Definition apply_frame_batch (sync : synchronization_t) (header : roadcast_header_t)
  : CM W (Z * synchronization_t) :=
  decoded ← decode_frame_batch header;
  match decoded with
  | None => mret (-1, sync)
  | Some (sample_sequence_, frame_count) =>
      apply_decoded_frames sync header sample_sequence_ frame_count
  end.

Definition decode_signal_batch (header : roadcast_header_t) : CM W (option (Z * Z)) :=
  client ← getm;
  payload ← message_payload header;
  batch ← dec (roadcast_decode_signal_batch payload (payload_bytes header)
                 (cc_signal_scratch_capacity client));
  match batch with
  | None => mret None
  | Some b =>
      scratch ← memm (blit (cc_signal_scratch client) 0 (batch_items b));
      modm (fun c => c <| cc_signal_scratch := scratch |>);;
      return_when negb (batch_total_count b =? cc_signal_count client)
                  || negb (batch_start_index b =? UINT32_MAX) then None;;
      mret (Some (batch_sample_sequence b, zlen (batch_items b)))
  end.

Fixpoint store_signals (updates : list roadcast_signal_update_t) (signal_count : Z)
    (signals : list roadcast_signal_value_t) : res (Z * list roadcast_signal_value_t) :=
  match updates with
  | [] => mret (0, signals)
  | update :: updates =>
      if signal_count <=? upd_index update then mret (-1, signals)
      else
        signals ← wr signals (upd_index update) (upd_value update);
        store_signals updates signal_count signals
  end.

Definition apply_decoded_signals (sync : synchronization_t) (header : roadcast_header_t)
    (sample_sequence_ update_count : Z) : CM W (Z * synchronization_t) :=
  client ← getm;
  updates ← memm (slice (cc_signal_scratch client) 0 update_count);
  '(r, signals') ← memm (store_signals updates (cc_signal_count client) (sy_signals sync));
  let sync := sync <| sy_signals := signals' |> in
  return_when r <? 0 then (-1, sync);;
  mret (0, sync <| sy_sample_sequence := sample_sequence_ |>
                <| sy_change_sequence := sequence header |>
                <| sy_sample_timestamp_ns := timestamp_ns header |>).

Definition apply_signal_batch (sync : synchronization_t) (header : roadcast_header_t)
  : CM W (Z * synchronization_t) :=
  decoded ← decode_signal_batch header;
  match decoded with
  | None => mret (-1, sync)
  | Some (sample_sequence_, update_count) =>
      apply_decoded_signals sync header sample_sequence_ update_count
  end.

(** ** Subscribing *)

Fixpoint subscription_loop (n : nat) (sync : synchronization_t) (deadline_ns : Z)
  : CM W (Z * synchronization_t) :=
  match n with
  | O => no_fuel
  | S n =>
      header ← read_message deadline_ns;
      match header with
      | None => mret (-1, sync)
      | Some header =>
          if type header =? ROADCAST_MSG_SUBSCRIBED then
            mret (0, sync <| sy_change_sequence := sequence header |>
                          <| sy_sample_timestamp_ns := timestamp_ns header |>)
          else if type header =? ROADCAST_MSG_UPDATE_BATCH then
            '(r, sync) ← apply_frame_batch sync header;
            return_when r <? 0 then (-1, sync);;
            subscription_loop n sync deadline_ns
          else if type header =? ROADCAST_MSG_SIGNAL_UPDATE_BATCH then
            '(r, sync) ← apply_signal_batch sync header;
            return_when r <? 0 then (-1, sync);;
            subscription_loop n sync deadline_ns
          else mret (-1, sync)
      end
  end.

Definition complete_subscription (sync : synchronization_t) (deadline_ns : Z)
  : CM W (Z * synchronization_t) :=
  r ← send_message ROADCAST_MSG_SUBSCRIBE_ALL [] 0 deadline_ns;
  return_when r <? 0 then (-1, sync);;
  subscription_loop fuel sync deadline_ns.

(** [None] when an allocation fails. *)
Definition initialize_synchronization : CM W (option synchronization_t) :=
  client ← getm;
  frames_ok_ ← sys sys_alloc;
  signals_ok_ ← sys sys_alloc;
  if negb frames_ok_ || negb signals_ok_ then mret None
  else mret (Some (mk_sync (repeat zero_frame (Z.to_nat (cc_frame_count client)))
                     (repeat (mk_value 0 0 0 0 0 0) (Z.to_nat (cc_signal_count client))) 0 0 0)).

Definition synchronize (sync : synchronization_t) (deadline_ns : Z)
  : CM W (Z * synchronization_t) :=
  '(r, sync) ← request_frame_snapshot sync deadline_ns;
  return_when r <? 0 then (-1, sync);;
  '(r, sync) ← request_signal_snapshot sync deadline_ns;
  return_when r <? 0 then (-1, sync);;
  '(r, sync) ← complete_subscription sync deadline_ns;
  return_when r <? 0 then (-1, sync);;
  mret (0, sync).

Definition commit_synchronization (sync : synchronization_t) : CM W unit :=
  client ← getm;
  frames' ← memm (slice (sy_frames sync) 0 (cc_frame_count client));
  frames' ← memm (blit (cc_frames client) 0 frames');
  signals' ← memm (slice (sy_signals sync) 0 (cc_signal_count client));
  signals' ← memm (blit (cc_signals client) 0 signals');
  table ← memm (loop (Z.to_nat (cc_frame_count client)) 0 (index_frame frames')
                  (repeat UINT16_MAX (Z.to_nat CAN_ID_LOOKUP_CAP)));
  modm (fun c => c <| cc_frames := frames' |> <| cc_signals := signals' |>
    <| cc_sample_sequence := sy_sample_sequence sync |>
    <| cc_change_sequence := sy_change_sequence sync |>
    <| cc_sample_timestamp_ns := sy_sample_timestamp_ns sync |>
    <| cc_connected := 1 |> <| cc_can_id_to_index := table |>).

Definition resynchronize : CM W Z :=
  now ← sys monotonic_ns;
  let resync_deadline_ns := u64 (now + CLIENT_SETUP_TIMEOUT_MS * 1000000) in
  sync ← initialize_synchronization;
  match sync with
  | None => mret (-1)
  | Some sync =>
      '(result, sync) ← synchronize sync resync_deadline_ns;
      if result =? 0 then
        commit_synchronization sync;;
        modm (fun c => c <| cc_resynchronizations := u64 (cc_resynchronizations c + 1) |>);;
        mret result
      else mret result
  end.

(** ** The reader thread *)

(** The cache as a [synchronization_t]: its arrays are those of the client. *)
Definition cache_of (c : client_t) : synchronization_t :=
  mk_sync (cc_frames c) (cc_signals c) (cc_sample_sequence c) (cc_change_sequence c)
    (cc_sample_timestamp_ns c).

(** What an update through [cache_of] leaves in the client: the arrays in any
    case, the counters when it succeeds. *)
Definition commit_live (result : Z) (sync : synchronization_t) : CM W Z :=
  modm (fun c => c <| cc_frames := sy_frames sync |> <| cc_signals := sy_signals sync |>);;
  if result =? 0 then
    modm (fun c => c <| cc_sample_sequence := sy_sample_sequence sync |>
      <| cc_change_sequence := sy_change_sequence sync |>
      <| cc_sample_timestamp_ns := sy_sample_timestamp_ns sync |>);;
    mret result
  else mret result.

Definition apply_live_frame_batch (header : roadcast_header_t) : CM W Z :=
  decoded ← decode_frame_batch header;
  match decoded with
  | None => mret (-1)
  | Some (sample_sequence_, frame_count) =>
      client ← getm;
      '(result, sync) ← apply_decoded_frames (cache_of client) header sample_sequence_ frame_count;
      commit_live result sync
  end.

Definition apply_live_signal_batch (header : roadcast_header_t) : CM W Z :=
  decoded ← decode_signal_batch header;
  match decoded with
  | None => mret (-1)
  | Some (sample_sequence_, update_count) =>
      client ← getm;
      '(result, sync) ← apply_decoded_signals (cache_of client) header sample_sequence_ update_count;
      commit_live result sync
  end.

Definition apply_heartbeat (header : roadcast_header_t) : CM W Z :=
  payload ← message_payload header;
  heartbeat ← dec (roadcast_decode_heartbeat payload (payload_bytes header));
  match heartbeat with
  | None => mret (-1)
  | Some h =>
      return_when negb (hb_change_sequence h =? sequence header) then -1;;
      modm (fun c => c <| cc_sample_sequence := hb_sample_sequence h |>
        <| cc_change_sequence := hb_change_sequence h |>
        <| cc_sample_timestamp_ns := timestamp_ns header |>
        <| cc_dropped_batches := hb_dropped_batches h |>
        <| cc_coalesced_samples := hb_coalesced_samples h |>
        <| cc_effective_hz_millihz := hb_effective_hz_millihz h |>
        <| cc_source_state := hb_source_state h |>);;
      mret 0
  end.

Definition mark_disconnected : CM W unit := modm (fun c => c <| cc_connected := 0 |>).

Definition dispatch (header : roadcast_header_t) : CM W Z :=
  if type header =? ROADCAST_MSG_UPDATE_BATCH then apply_live_frame_batch header
  else if type header =? ROADCAST_MSG_SIGNAL_UPDATE_BATCH then apply_live_signal_batch header
  else if type header =? ROADCAST_MSG_HEARTBEAT then apply_heartbeat header
  else if type header =? ROADCAST_MSG_RESYNC_REQUIRED then
    if payload_bytes header =? 0 then resynchronize else mret (-1)
  else mret (-1).

(** One message; -1 leaves the loop. *)
Definition reader_iteration : CM W Z :=
  header ← read_message 0;
  match header with
  | None => mret (-1)
  | Some header => dispatch header
  end.

Fixpoint reader_loop (n : nat) : CM W unit :=
  match n with
  | O => no_fuel
  | S n =>
      stop ← sys sock_stop_requested;
      if (stop : bool) then mret tt
      else
        result ← reader_iteration;
        if result <? 0 then mret tt else reader_loop n
  end.

Definition reader_thread_main : CM W unit := reader_loop fuel;; mark_disconnected.

(** ** Connecting *)

Definition perform_handshake (deadline_ns : Z) : CM W Z :=
  '(hello_length, hello) ← memm (roadcast_encode_hello (repeat 0 8));
  r ← send_message ROADCAST_MSG_HELLO hello hello_length deadline_ns;
  return_when r <? 0 then -1;;
  header ← read_message deadline_ns;
  match header with
  | None => mret (-1)
  | Some header =>
      return_when negb (type header =? ROADCAST_MSG_WELCOME) then -1;;
      payload ← message_payload header;
      welcome ← dec (roadcast_decode_welcome payload (payload_bytes header));
      match welcome with
      | None => mret (-1)
      | Some w =>
          modm (fun c => c <| cc_hz := wel_hz w |> <| cc_frame_count := wel_frame_count w |>
            <| cc_signal_count := wel_signal_count w |>
            <| cc_max_request_payload := wel_max_request_payload w |>
            <| cc_max_response_payload := wel_max_response_payload w |>
            <| cc_schema_version := wel_schema_version w |>
            <| cc_schema_hash := wel_schema_hash w |>);;
          return_when (Z.land (wel_capabilities w) ROADCAST_CAP_RAW_CAN =? 0)
            || (Z.land (wel_capabilities w) ROADCAST_CAP_DECODED_CAN =? 0)
            || (wel_frame_count w =? 0) || (CLIENT_MAX_FRAMES <? wel_frame_count w)
            || (wel_signal_count w =? 0) || (CLIENT_MAX_SIGNALS <? wel_signal_count w)
            || (wel_max_request_payload w <? 8)
            || (wel_max_response_payload w <? ROADCAST_WELCOME_SIZE)
            || (ROADCAST_MAX_PAYLOAD <? wel_max_response_payload w) then -1;;
          mret 0
      end
  end.

Definition zero_entry : roadcast_schema_entry_t := mk_entry 0 0 0 0 0 0 0 0 0 0 [] [].
Definition zero_update : roadcast_signal_update_t := mk_update 0 (mk_value 0 0 0 0 0 0).

(** The allocations after the handshake; -1 when one fails. *)
Definition allocate_buffers : CM W Z :=
  client ← getm;
  payload_ok ← sys sys_alloc;
  return_when negb payload_ok then -1;;
  let limit := cc_max_response_payload client in
  let frame_capacity := (limit - ROADCAST_BATCH_PREFIX_SIZE) / ROADCAST_FRAME_WIRE_SIZE in
  let signal_capacity := (limit - ROADCAST_BATCH_PREFIX_SIZE) / ROADCAST_SIGNAL_WIRE_SIZE in
  (* [realloc] keeps the bytes both sizes hold *)
  modm (fun c => c <| cc_payload := take (Z.to_nat limit) (cc_payload c)
                        ++ repeat 0 (Z.to_nat limit - length (cc_payload c)) |>
    <| cc_payload_capacity := limit |>);;
  schema_ok ← sys sys_alloc;
  frames_ok_ ← sys sys_alloc;
  signals_ok_ ← sys sys_alloc;
  frame_scratch_ok ← sys sys_alloc;
  signal_scratch_ok ← sys sys_alloc;
  return_when negb (schema_ok && frames_ok_ && signals_ok_ && frame_scratch_ok
                    && signal_scratch_ok) then -1;;
  modm (fun c => c <| cc_schema := repeat zero_entry (Z.to_nat (cc_signal_count c)) |>
    <| cc_frames := repeat zero_frame (Z.to_nat (cc_frame_count c)) |>
    <| cc_signals := repeat (mk_value 0 0 0 0 0 0) (Z.to_nat (cc_signal_count c)) |>
    <| cc_frame_scratch_capacity := frame_capacity |>
    <| cc_signal_scratch_capacity := signal_capacity |>
    <| cc_frame_scratch := repeat zero_frame (Z.to_nat frame_capacity) |>
    <| cc_signal_scratch := repeat zero_update (Z.to_nat signal_capacity) |>);;
  mret 0.

(** The part of [roadcast_client_connect] from the handshake to the reader
    thread: 0 or the error. *)
Definition setup_client (setup_deadline_ns : Z) : CM W Z :=
  r ← perform_handshake setup_deadline_ns;
  return_when r <? 0 then ROADCAST_CLIENT_ERR_HANDSHAKE;;
  r ← allocate_buffers;
  return_when r <? 0 then ROADCAST_CLIENT_ERR_MEMORY;;
  r ← request_schema setup_deadline_ns;
  return_when r <? 0 then ROADCAST_CLIENT_ERR_SCHEMA;;
  sync ← initialize_synchronization;
  match sync with
  | None => mret ROADCAST_CLIENT_ERR_MEMORY
  | Some sync =>
      '(r, sync) ← synchronize sync setup_deadline_ns;
      return_when r <? 0 then ROADCAST_CLIENT_ERR_SNAPSHOT;;
      commit_synchronization sync;;
      thread_ok ← sys sys_thread;
      return_when negb thread_ok then ROADCAST_CLIENT_ERR_THREAD;;
      modm (fun c => c <| cc_reader_started := 1 |>);;
      mret ROADCAST_CLIENT_OK
  end.

(** The part between the creation of the structure and the label [fail]. *)
Definition connect_client (socket_name : list Z) : CM W Z :=
  now ← sys monotonic_ns;
  let setup_deadline_ns := u64 (now + CLIENT_SETUP_TIMEOUT_MS * 1000000) in
  fd ← connect_socket socket_name setup_deadline_ns;
  modm (fun c => c <| cc_fd := fd |>);;
  return_when fd <? 0 then ROADCAST_CLIENT_ERR_SOCKET;;
  setup_client setup_deadline_ns.

(** The descriptor is closed; the rest is memory. *)
Definition roadcast_client_close (client : client_t) (w : W) : W :=
  let w := if 0 <=? cc_fd client then sock_shutdown (cc_fd client) w else w in
  if 0 <=? cc_fd client then sock_close (cc_fd client) w else w.

(** The structure as [calloc] and the first assignments leave it. *)
Definition new_client : client_t :=
  mk_cc (-1) 0 (repeat 0 (Z.to_nat ROADCAST_WELCOME_SIZE)) ROADCAST_WELCOME_SIZE [] 0 [] 0 [] [] []
    (repeat UINT16_MAX (Z.to_nat CAN_ID_LOOKUP_CAP)) 0 0 0 0 0 8 0 0 0 0 0 0 0 0 0 0.

(** The error and the client; [None] is the null pointer. *)
Definition roadcast_client_connect (socket_name : option (list Z)) (w : W)
  : res (Z * option client_t * W) :=
  match socket_name with
  | None | Some [] => mret (ROADCAST_CLIENT_ERR_ARGUMENT, None, w)
  | Some socket_name =>
      let '(client_ok, w) := sys_alloc w in
      if negb client_ok then mret (ROADCAST_CLIENT_ERR_MEMORY, None, w)
      else
        let '(payload_ok, w) := sys_alloc w in
        if negb payload_ok then mret (ROADCAST_CLIENT_ERR_MEMORY, None, w)
        else
          let '(mutex_ok, w) := sys_mutex w in
          if negb mutex_ok then mret (ROADCAST_CLIENT_ERR_MEMORY, None, w)
          else
            '(failure, s) ← connect_client socket_name (mk_cctx new_client w);
            if failure =? ROADCAST_CLIENT_OK then mret (failure, Some (me s), cenv s)
            else mret (failure, None, roadcast_client_close (me s) (cenv s))
  end.
End Sdk.

(** ** The application interface *)

Section Interface.
Implicit Types client : client_t.

Definition roadcast_client_status client : roadcast_client_status_t :=
  mk_status (cc_hz client) (cc_frame_count client) (cc_signal_count client)
    (cc_schema_version client) (cc_schema_hash client) (cc_sample_sequence client)
    (cc_change_sequence client) (cc_sample_timestamp_ns client) (cc_dropped_batches client)
    (cc_coalesced_samples client) (cc_resynchronizations client)
    (cc_effective_hz_millihz client) (cc_source_state client) (cc_connected client).

(** [None] is the null pointer. *)
Definition roadcast_client_schema_at client (index_ : Z) : res (option roadcast_schema_entry_t) :=
  if cc_signal_count client <=? index_ then mret None
  else entry ← rd (cc_schema client) index_; mret (Some entry).

(** The first entry at [i] or later that satisfies [test]. *)
Fixpoint find_entry (test : roadcast_schema_entry_t -> bool)
    (schema : list roadcast_schema_entry_t) (n : nat) (i : Z) : res Z :=
  match n with
  | O => mret (-1)
  | S n =>
      entry ← rd schema i;
      if test entry then mret i else find_entry test schema n (i + 1)
  end.

Definition roadcast_client_find_signal client (name_ : list Z) : res Z :=
  find_entry (fun entry => bool_decide (c_string (name entry) = c_string name_))
    (cc_schema client) (Z.to_nat (cc_signal_count client)) 0.

Definition roadcast_client_find_signal_by_stable_id client (stable_id_ : Z) : res Z :=
  find_entry (fun entry => stable_id entry =? stable_id_) (cc_schema client)
    (Z.to_nat (cc_signal_count client)) 0.

(** The result, and the values that have been copied before it. *)
Fixpoint roadcast_client_read_signals client (indices : list Z)
  : res (Z * list roadcast_signal_value_t) :=
  match indices with
  | [] => mret (ROADCAST_CLIENT_OK, [])
  | i :: indices =>
      if cc_signal_count client <=? i then mret (ROADCAST_CLIENT_ERR_ARGUMENT, [])
      else
        value ← rd (cc_signals client) i;
        '(r, values) ← roadcast_client_read_signals client indices;
        mret (r, value :: values)
  end.

Definition roadcast_client_read_signal client (index_ : Z)
  : res (Z * list roadcast_signal_value_t) :=
  roadcast_client_read_signals client [index_].

(** [None] is ROADCAST_CLIENT_ERR_ARGUMENT. *)
Definition roadcast_client_read_frame client (can_id_ : Z) : res (option roadcast_frame_t) :=
  target ← (if can_id_ <? CAN_ID_LOOKUP_CAP then rd (cc_can_id_to_index client) can_id_
            else mret UINT16_MAX);
  if target <? cc_frame_count client then
    frame ← rd (cc_frames client) target; mret (Some frame)
  else mret None.

Definition roadcast_client_read_all client (capacity : Z)
  : res (Z * list roadcast_signal_value_t) :=
  if capacity <? cc_signal_count client then mret (ROADCAST_CLIENT_ERR_ARGUMENT, [])
  else
    values ← slice (cc_signals client) 0 (cc_signal_count client);
    mret (cc_signal_count client, values).

Definition INT64_MAX : Z := 2 ^ 63 - 1.

Definition roadcast_client_sample_age_ns {W : Type} {K : Clock W} client (w : W) : Z * W :=
  let timestamp_ns_ := cc_sample_timestamp_ns client in
  let '(now, w) := monotonic_ns w in
  if (cc_connected client =? 0) || (timestamp_ns_ =? 0) || (now <? timestamp_ns_) then (-1, w)
  else
    let age := u64 (now - timestamp_ns_) in
    ((if INT64_MAX <? age then INT64_MAX else age), w).

Definition roadcast_client_error_string (error : Z) : string :=
  if error =? ROADCAST_CLIENT_OK then "ok"
  else if error =? ROADCAST_CLIENT_ERR_ARGUMENT then "invalid argument"
  else if error =? ROADCAST_CLIENT_ERR_SOCKET then "socket connection failed"
  else if error =? ROADCAST_CLIENT_ERR_HANDSHAKE then "protocol handshake failed"
  else if error =? ROADCAST_CLIENT_ERR_PROTOCOL then "malformed protocol message"
  else if error =? ROADCAST_CLIENT_ERR_SCHEMA then "schema discovery failed"
  else if error =? ROADCAST_CLIENT_ERR_SNAPSHOT then "snapshot or subscription failed"
  else if error =? ROADCAST_CLIENT_ERR_MEMORY then "native allocation failed"
  else if error =? ROADCAST_CLIENT_ERR_THREAD then "reader thread creation failed"
  else "unknown client error".
End Interface.
