(* ===== verification/ClientIo.v ===== *)
(** * Transport of the client library: src/client.c, [wait_descriptor] to
      [read_message]

    The contract of the socket, and what the loops around it guarantee: a
    message is sent or received whole and in order however the kernel cuts it,
    or the operation fails after a prefix. *)

From S2P Require Import Prelude Wire CatalogDefs Catalog SourceSession Sampler.
From S2P Require Import ClientDefs ClientOps.

(** What the library relies on: [received] and [transmitted] are the bytes that
    went through the descriptor; [recv] delivers at most what it was asked for,
    [send] accepts a prefix of what it was given, and nothing else moves bytes.
    [descriptors] are the open ones.  [budget] bounds the calls that move bytes,
    wait or are interrupted: the peer and the kernel do not keep the library busy
    for ever. *)
Class SocketOk {W} (N : Socket W) (K : Clock W) := {
  received : W -> list Z;
  transmitted : W -> list Z;
  descriptors : W -> list Z;
  budget : W -> nat;
  moves (w w' : W) (out inn : list Z) : Prop :=
    transmitted w' = transmitted w ++ out /\ received w' = received w ++ inn
    /\ (budget w' <= budget w)%nat;
  traffic (w w' : W) (out inn : list Z) : Prop :=
    moves w w' out inn /\ descriptors w' = descriptors w;
  sock_recv_ok fd n w : 0 < n ->
    match sock_recv fd n w with
    | (Done bs, w') => zlen bs <= n /\ bytes_ok bs /\ traffic w w' [] bs
                       /\ (bs <> [] -> (budget w' < budget w)%nat)
    | (Interrupted, w') | (WouldBlock, w') => traffic w w' [] [] /\ (budget w' < budget w)%nat
    | (Broken, w') => traffic w w' [] []
    end;
  sock_send_ok fd data w :
    match sock_send fd data w with
    | (Done n, w') => n <= zlen data /\ traffic w w' (take (Z.to_nat n) data) []
                      /\ (0 < n -> (budget w' < budget w)%nat)
    | (Interrupted, w') | (WouldBlock, w') => traffic w w' [] [] /\ (budget w' < budget w)%nat
    | (Broken, w') => traffic w w' [] []
    end;
  sock_poll_ok fd e t w :
    traffic w (sock_poll fd e t w).2 [] []
    /\ ((sock_poll fd e t w).1 = PollInterrupted -> (budget (sock_poll fd e t w).2 < budget w)%nat);
  sock_clock_ok w : traffic w (monotonic_ns w).2 [] [];
  sock_socket_ok w :
    moves w (sock_socket w).2 [] []
    /\ descriptors (sock_socket w).2
       = (if 0 <=? (sock_socket w).1 then [(sock_socket w).1] else []) ++ descriptors w
    /\ (sock_socket w).1 ∉ descriptors w;
  sock_fcntl_ok fd cmd arg w : traffic w (sock_fcntl fd cmd arg w).2 [] [];
  sock_connect_ok fd a l w : traffic w (sock_connect fd a l w).2 [] [];
  sock_error_ok fd w : traffic w (sock_error fd w).2 [] [];
  sock_shutdown_ok fd w : traffic w (sock_shutdown fd w) [] [];
  sock_close_ok fd w :
    moves w (sock_close fd w) [] []
    /\ descriptors (sock_close fd w) = filter (fun d => d <> fd) (descriptors w);
  sock_stop_ok w : traffic w (sock_stop_requested w).2 [] [];
  sys_alloc_ok w : traffic w (sys_alloc w).2 [] [];
  sys_mutex_ok w : traffic w (sys_mutex w).2 [] [];
  sys_thread_ok w : traffic w (sys_thread w).2 [] [];
  socket_clock :: ClockOk K;
}.

(** ** Weakest preconditions: the function returns, and then [Q] holds *)

Definition cwp {W A} (m : CM W A) (Q : A -> cctx W -> Prop) (s : cctx W) : Prop :=
  match m s with Ok (a, s') => Q a s' | _ => False end.

Section Wp.
Context {W : Type}.
Implicit Types s : cctx W.

Lemma cwp_ret {A} (a : A) Q s : Q a s -> cwp (mret a) Q s.
Proof. done. Qed.
Lemma cwp_bind {A B} (m : CM W A) (f : A -> CM W B) Q s :
  cwp m (fun a s' => cwp (f a) Q s') s -> cwp (m ≫= f) Q s.
Proof. unfold cwp, mbind, CM_bind. destruct (m s) as [[a s']| |]; done. Qed.
Lemma cwp_mono {A} (m : CM W A) (P Q : A -> cctx W -> Prop) s :
  cwp m P s -> (forall a s', P a s' -> Q a s') -> cwp m Q s.
Proof. unfold cwp. destruct (m s) as [[a s']| |]; auto. Qed.
Lemma cwp_getm Q c (w : W) : Q c (mk_cctx c w) -> cwp getm Q (mk_cctx c w).
Proof. done. Qed.
Lemma cwp_modm f Q c (w : W) : Q tt (mk_cctx (f c) w) -> cwp (modm f) Q (mk_cctx c w).
Proof. done. Qed.
Lemma cwp_sys {A} (f : W -> A * W) Q c w :
  Q (f w).1 (mk_cctx c (f w).2) -> cwp (sys f) Q (mk_cctx c w).
Proof. unfold cwp, sys. cbn [cenv]. by destruct (f w). Qed.
Lemma cwp_sys_ (f : W -> W) Q c w : Q tt (mk_cctx c (f w)) -> cwp (sys_ f) Q (mk_cctx c w).
Proof. done. Qed.
Lemma cwp_memm {A} (m : res A) (a : A) Q s : m = Ok a -> Q a s -> cwp (memm m) Q s.
Proof. by intros ->. Qed.
Lemma cwp_dec {A} (m : res A) Q s :
  no_ub m -> (forall a, m = Ok a -> Q (Some a) s) -> (m = Fail -> Q None s) -> cwp (dec m) Q s.
Proof. intros Hm H1 H2. unfold cwp, dec. destruct m; [by apply H1|by apply H2|done]. Qed.
Lemma cwp_run {A} (m : CM W A) Q s : cwp m Q s -> exists a s', m s = Ok (a, s') /\ Q a s'.
Proof. unfold cwp. destruct (m s) as [[a s']| |]; [|done..]. eauto. Qed.
End Wp.

Ltac cwp_step :=
  lazymatch goal with
  | |- cwp (_ ≫= _) _ _ => apply cwp_bind
  | |- cwp (mret _) _ _ => apply cwp_ret
  | |- cwp getm _ _ => apply cwp_getm
  | |- cwp (modm _) _ _ => apply cwp_modm
  | |- cwp (sys _) _ _ => apply cwp_sys
  | |- cwp (sys_ _) _ _ => apply cwp_sys_
  end.
Ltac cwp_steps := cbv beta iota zeta; repeat (cwp_step; cbv beta iota zeta).

Section Io.
Context {W : Type} `{K : !Clock W} `{N : !Socket W} `{HN : !SocketOk N K} (fuel : nat).
Implicit Types (s : cctx W) (w : W).

(** ** Traffic *)

Lemma traffic_refl w : traffic w w [] [].
Proof. unfold traffic, moves. rewrite !app_nil_r. split_and!; auto. Qed.

Lemma traffic_trans w1 w2 w3 o1 i1 o2 i2 :
  traffic w1 w2 o1 i1 -> traffic w2 w3 o2 i2 -> traffic w1 w3 (o1 ++ o2) (i1 ++ i2).
Proof.
  intros [(A1 & A2 & A3) A4] [(B1 & B2 & B3) B4]. unfold traffic, moves.
  rewrite B1, B2, A1, A2, !(assoc_L (++)). split_and!; auto; [lia|congruence].
Qed.

Lemma traffic_quiet_l w1 w2 w3 o i :
  traffic w1 w2 [] [] -> traffic w2 w3 o i -> traffic w1 w3 o i.
Proof. apply (traffic_trans w1 w2 w3 [] [] o i). Qed.

Lemma traffic_quiet_r w1 w2 w3 o i :
  traffic w1 w2 o i -> traffic w2 w3 [] [] -> traffic w1 w3 o i.
Proof.
  intros H1 H2. pose proof (traffic_trans w1 w2 w3 o i [] [] H1 H2) as H.
  by rewrite !app_nil_r in H.
Qed.

Lemma traffic_budget w w' o i : traffic w w' o i -> (budget w' <= budget w)%nat.
Proof. by intros [(_ & _ & ?) _]. Qed.

(** ** Waiting *)

Lemma wait_loop_wp n fd e deadline : forall c w (Q : Z -> cctx W -> Prop),
  (budget w < n)%nat ->
  (forall r w', -1 <= r <= 0 -> traffic w w' [] [] -> Q r (mk_cctx c w')) ->
  cwp (wait_loop n fd e deadline) Q (mk_cctx c w).
Proof.
  induction n as [|n IH]; intros c w Q Hn HQ; [lia|]. cbn [wait_loop]. cwp_steps.
  pose proof (sock_clock_ok w) as Hc. set (w1 := (monotonic_ns w).2) in *.
  destruct (_ <=? _); [apply cwp_ret; apply HQ; [lia|done]|].
  destruct (_ <=? _); [apply cwp_ret; apply HQ; [lia|done]|]. cwp_steps.
  match goal with |- context [sock_poll fd e ?t w1] =>
    destruct (sock_poll_ok fd e t w1) as [Hp Hi]; set (r := (sock_poll fd e t w1).1) in *;
    set (w2 := (sock_poll fd e t w1).2) in * end.
  pose proof (traffic_quiet_l _ _ _ _ _ Hc Hp) as Hq.
  pose proof (traffic_budget _ _ _ _ Hc). pose proof (traffic_budget _ _ _ _ Hp).
  destruct r as [req err| | |]; try (apply cwp_ret; apply HQ; [lia|done]).
  - destruct req, err; apply cwp_ret; (apply HQ; [lia|done]).
  - apply IH; [specialize (Hi eq_refl); lia|]. intros r w' Hr Ht. apply HQ; [done|].
    by eapply traffic_quiet_l.
Qed.

Lemma wait_descriptor_wp fd e deadline c w (Q : Z -> cctx W -> Prop) :
  (budget w < fuel)%nat ->
  (forall r w', -1 <= r <= 0 -> traffic w w' [] [] -> Q r (mk_cctx c w')) ->
  cwp (wait_descriptor fuel fd e deadline) Q (mk_cctx c w).
Proof. apply wait_loop_wp. Qed.

(** ** Sending and receiving *)

Lemma write_loop_wp n fd deadline : forall data c w (Q : Z -> cctx W -> Prop),
  (budget w < n)%nat -> (budget w < fuel)%nat ->
  (forall w', traffic w w' data [] -> Q 0 (mk_cctx c w')) ->
  (forall w' sent_, sent_ `prefix_of` data -> traffic w w' sent_ [] -> Q (-1) (mk_cctx c w')) ->
  cwp (write_loop fuel n fd data deadline) Q (mk_cctx c w).
Proof.
  induction n as [|n IH]; intros data c w Q Hn Hf Hok Hbad; [lia|]. cbn [write_loop].
  destruct (Z.eqb_spec (zlen data) 0) as [Hz|Hz].
  { apply cwp_ret. unfold zlen in Hz. assert (data = []) as -> by (apply nil_length_inv; lia).
    apply Hok, traffic_refl. }
  assert (Hfail : forall w', traffic w w' [] [] -> Q (-1) (mk_cctx c w')).
  { intros w' Ht. eapply Hbad; [apply prefix_nil|done]. }
  cwp_steps. pose proof (sock_send_ok fd data w) as Hs.
  destruct (sock_send fd data w) as [[count| | |] w1]; cbn [fst snd].
  - destruct Hs as (Hle & Ht & Hb). destruct (Z.ltb_spec 0 count) as [Hc|Hc].
    + specialize (Hb Hc). apply IH; [lia|lia| |].
      * intros w' Ht'. apply Hok. pose proof (traffic_trans _ _ _ _ _ _ _ Ht Ht') as H.
        by rewrite take_drop in H.
      * intros w' sent_ Hpre Ht'. eapply Hbad; [|exact (traffic_trans _ _ _ _ _ _ _ Ht Ht')].
        rewrite <- (take_drop (Z.to_nat count) data) at 2. by apply prefix_app.
    + apply cwp_ret. apply Hfail. by replace (Z.to_nat count) with 0%nat in Ht by lia.
  - destruct Hs as [Ht Hb]. apply IH; [lia|lia| |].
    + intros w' Ht'. apply Hok. by eapply traffic_quiet_l.
    + intros w' sent_ Hpre Ht'. eapply Hbad; [done|]. by eapply traffic_quiet_l.
  - destruct Hs as [Ht Hb]. cwp_steps. apply wait_descriptor_wp; [lia|]. intros r w2 Hr Ht2.
    pose proof (traffic_quiet_l _ _ _ _ _ Ht Ht2) as Ht3. pose proof (traffic_budget _ _ _ _ Ht2).
    destruct (r <? 0); [apply cwp_ret; by apply Hfail|]. apply IH; [lia|lia| |].
    + intros w' Ht'. apply Hok. by eapply traffic_quiet_l.
    + intros w' sent_ Hpre Ht'. eapply Hbad; [done|]. by eapply traffic_quiet_l.
  - cwp_steps. by apply Hfail.
Qed.

Lemma read_loop_wp n fd deadline : forall len out c w (Q : Z * list Z -> cctx W -> Prop),
  (budget w < n)%nat -> (budget w < fuel)%nat -> 0 <= len < 2 ^ 64 ->
  (forall w' bs, zlen bs = len -> bytes_ok bs -> traffic w w' [] bs ->
     (0 < len -> (budget w' < budget w)%nat) -> Q (0, out ++ bs) (mk_cctx c w')) ->
  (forall w' bs, zlen bs < len -> traffic w w' [] bs -> Q (-1, out ++ bs) (mk_cctx c w')) ->
  cwp (read_loop fuel n fd len deadline out) Q (mk_cctx c w).
Proof.
  induction n as [|n IH]; intros len out c w Q Hn Hf Hlen Hok Hbad; [lia|]. cbn [read_loop].
  destruct (Z.eqb_spec len 0) as [->|Hz].
  { apply cwp_ret. rewrite <- (app_nil_r out). apply Hok; [done|by apply Forall_nil|apply traffic_refl|lia]. }
  assert (Hfail : forall w', traffic w w' [] [] -> Q (-1, out) (mk_cctx c w')).
  { intros w' Ht. rewrite <- (app_nil_r out). apply Hbad; [unfold zlen; cbn; lia|done]. }
  cwp_steps. pose proof (sock_recv_ok fd len w ltac:(lia)) as Hs.
  destruct (sock_recv fd len w) as [[bs| | |] w1]; cbn [fst snd].
  - destruct Hs as (Hle & Hbs & Ht & Hb). pose proof (zlen_nonneg bs).
    destruct (Z.eqb_spec (zlen bs) 0) as [Hz0|Hz0].
    { apply cwp_ret. unfold zlen in Hz0. assert (bs = []) as -> by (apply nil_length_inv; lia).
      by apply Hfail. }
    assert (bs <> []) as Hne by (by intros ->). specialize (Hb Hne).
    assert (Hsz : sz (len - zlen bs) = len - zlen bs) by (unfold sz; rewrite Z.mod_small; lia).
    rewrite Hsz. apply IH; [lia|lia|lia| |].
    + intros w' bs' Hl Hb' Ht' _. rewrite <- (assoc_L (++)). apply Hok.
      * rewrite zlen_app. lia.
      * by apply Forall_app.
      * exact (traffic_trans _ _ _ _ _ _ _ Ht Ht').
      * intros _. apply traffic_budget in Ht'. lia.
    + intros w' bs' Hl Ht'. rewrite <- (assoc_L (++)). apply Hbad.
      * rewrite zlen_app. lia.
      * exact (traffic_trans _ _ _ _ _ _ _ Ht Ht').
  - destruct Hs as [Ht Hb]. apply IH; [lia|lia|lia| |].
    + intros w' bs' Hl Hb' Ht' _. apply Hok; [done..|by eapply traffic_quiet_l|].
      apply traffic_budget in Ht'. lia.
    + intros w' bs' Hl Ht'. apply Hbad; [done|]. by eapply traffic_quiet_l.
  - destruct Hs as [Ht Hb]. cwp_steps. apply wait_descriptor_wp; [lia|]. intros r w2 Hr Ht2.
    pose proof (traffic_quiet_l _ _ _ _ _ Ht Ht2) as Ht3. pose proof (traffic_budget _ _ _ _ Ht2).
    destruct (r <? 0); [apply cwp_ret; by apply Hfail|]. apply IH; [lia|lia|lia| |].
    + intros w' bs' Hl Hb' Ht' _. apply Hok; [done..|by eapply traffic_quiet_l|].
      apply traffic_budget in Ht'. lia.
    + intros w' bs' Hl Ht'. apply Hbad; [done|]. by eapply traffic_quiet_l.
  - cwp_steps. by apply Hfail.
Qed.
(** ** Messages *)

Definition moved w w' : Prop := exists out inn, traffic w w' out inn.

Lemma moved_refl w : moved w w.
Proof. exists [], []. apply traffic_refl. Qed.

Lemma moved_trans w1 w2 w3 : moved w1 w2 -> moved w2 w3 -> moved w1 w3.
Proof.
  intros (o1 & i1 & H1) (o2 & i2 & H2). exists (o1 ++ o2), (i1 ++ i2).
  exact (traffic_trans _ _ _ _ _ _ _ H1 H2).
Qed.

Lemma moved_traffic w w' o i : traffic w w' o i -> moved w w'.
Proof. intros H. by exists o, i. Qed.

Lemma moved_budget w w' : moved w w' -> (budget w' <= budget w)%nat.
Proof. intros (o & i & H). by eapply traffic_budget. Qed.

Lemma moved_descriptors w w' : moved w w' -> descriptors w' = descriptors w.
Proof. by intros (o & i & _ & H). Qed.

Lemma operation_deadline_wp d c w (Q : Z -> cctx W -> Prop) :
  (forall r w', traffic w w' [] [] -> Q r (mk_cctx c w')) ->
  cwp (operation_deadline d) Q (mk_cctx c w).
Proof. intros HQ. unfold operation_deadline. cwp_steps. apply HQ, sock_clock_ok. Qed.

(** The wire form of a message. *)
Definition wire (m : roadcast_header_t * list Z) : list Z := header_bytes m.1 ++ m.2.

Definition request (type_ : Z) (payload : list Z) (now : Z) : roadcast_header_t * list Z :=
  (mk_header ROADCAST_PROTOCOL_VERSION type_ 0 (zlen payload) 0 now, payload).

Lemma send_message_wp type_ payload len d c w (Q : Z -> cctx W -> Prop) :
  (budget w < fuel)%nat -> len = zlen payload -> len < 2 ^ 32 ->
  (forall w' now, len <= cc_max_request_payload c -> is_u64 now ->
     traffic w w' (wire (request type_ payload now)) [] -> Q 0 (mk_cctx c w')) ->
  (forall w', moved w w' -> Q (-1) (mk_cctx c w')) ->
  cwp (send_message fuel type_ payload len d) Q (mk_cctx c w).
Proof.
  intros Hf -> Hlen Hok Hbad. unfold send_message. pose proof (zlen_nonneg payload). cwp_steps.
  destruct (Z.ltb_spec (cc_max_request_payload c) (zlen payload)) as [|Hmax].
  { apply cwp_ret, Hbad, moved_refl. }
  apply cwp_bind, operation_deadline_wp. intros deadline w1 T1. cwp_steps.
  pose proof (sock_clock_ok w1) as T2. pose proof (clock_range w1) as Hnow.
  set (now := (monotonic_ns w1).1) in *. set (w2 := (monotonic_ns w1).2) in *.
  pose proof (traffic_quiet_l _ _ _ _ _ T1 T2) as T.
  pose proof (traffic_budget _ _ _ _ T) as B.
  rewrite u32_id by width_lia.
  eapply cwp_memm; [rewrite encode_header_blit; by apply blit_full|]. cwp_steps.
  apply write_loop_wp; [lia..| |].
  2: { intros w' sent_ _ T'. cwp_steps. apply Hbad. eapply moved_traffic.
       exact (traffic_quiet_l _ _ _ _ _ T T'). }
  intros w3 T3. cbn [Z.ltb Z.compare]. pose proof (traffic_budget _ _ _ _ T3).
  pose proof (traffic_quiet_l _ _ _ _ _ T T3) as T4.
  destruct (Z.eqb_spec (zlen payload) 0) as [Hz|Hz]; cbn [negb].
  { apply cwp_ret, (Hok w3 now); [lia|unfold is_u64; lia|]. unfold wire. cbn [request fst snd].
    unfold zlen in Hz. assert (payload = []) as -> by (apply nil_length_inv; lia).
    by rewrite app_nil_r. }
  apply cwp_bind. eapply cwp_memm; [by apply (has_slice _ _ payload); [apply has_self|]|].
  apply cwp_bind, write_loop_wp; [lia..| |].
  - intros w' T5. cbn [Z.ltb Z.compare]. apply cwp_ret, (Hok w' now); [lia|unfold is_u64; lia|].
    exact (traffic_trans _ _ _ _ _ _ _ T4 T5).
  - intros w' sent_ _ T5. cbn [Z.ltb Z.compare]. apply cwp_ret, Hbad. eapply moved_traffic.
    exact (traffic_trans _ _ _ _ _ _ _ T4 T5).
Qed.

(** A message the library accepts into a payload buffer of [capacity] bytes. *)
Definition message_ok (capacity : Z) (m : roadcast_header_t * list Z) : Prop :=
  header_ok m.1 /\ version m.1 = ROADCAST_PROTOCOL_VERSION /\ flags m.1 = 0
  /\ payload_bytes m.1 <= capacity /\ payload_bytes m.1 <= ROADCAST_MAX_PAYLOAD
  /\ zlen m.2 = payload_bytes m.1 /\ bytes_ok m.2.

(** The bytes end before a message does. *)
Definition incomplete (capacity : Z) (bs : list Z) : Prop :=
  forall m, message_ok capacity m -> ~ wire m `prefix_of` bs.

Lemma zlen_header_bytes h : zlen (header_bytes h) = ROADCAST_HEADER_SIZE.
Proof. done. Qed.

Lemma prefix_zlen {A} (l k : list A) : l `prefix_of` k -> zlen l <= zlen k.
Proof. intros [r ->]. rewrite zlen_app. pose proof (zlen_nonneg r). lia. Qed.

(** A message determines its header. *)
Lemma wire_header m h bs capacity :
  message_ok capacity m -> header_ok h -> payload_bytes h <= ROADCAST_MAX_PAYLOAD ->
  wire m `prefix_of` header_bytes h ++ bs -> m.1 = h /\ m.2 `prefix_of` bs.
Proof.
  intros (Hm & _ & _ & _ & Hmax & _) Hh Hp [r E]. unfold wire in E. rewrite <- (assoc_L (++)) in E.
  apply app_inj_1 in E as [E1 E2]; [|done]. split; [|by exists r].
  pose proof (decode_header_has (header_bytes m.1) m.1 Hm (has_self _)) as D1.
  pose proof (decode_header_has (header_bytes h) h Hh (has_self _)) as D2. rewrite E1 in D2.
  destruct (Z.ltb_spec ROADCAST_MAX_PAYLOAD (payload_bytes m.1)); [lia|].
  destruct (Z.ltb_spec ROADCAST_MAX_PAYLOAD (payload_bytes h)); [lia|]. congruence.
Qed.

Lemma incomplete_header capacity bs : zlen bs < ROADCAST_HEADER_SIZE -> incomplete capacity bs.
Proof.
  intros Hl m _ Hp%prefix_zlen. unfold wire in Hp.
  rewrite zlen_app, zlen_header_bytes in Hp. pose proof (zlen_nonneg m.2). lia.
Qed.

Lemma incomplete_undecoded capacity bs :
  zlen bs = ROADCAST_HEADER_SIZE -> roadcast_decode_header bs = Fail -> incomplete capacity bs.
Proof.
  intros Hl Hd m Hm [r E]. pose proof Hm as (Hh & _ & _ & _ & Hmax & _).
  unfold wire in E. rewrite E, (decode_header_has _ m.1 Hh) in Hd.
  - destruct (Z.ltb_spec ROADCAST_MAX_PAYLOAD (payload_bytes m.1)); [lia|done].
  - exists [], (m.2 ++ r). by rewrite <- (assoc_L (++)).
Qed.

Lemma incomplete_payload capacity h bs :
  header_ok h -> payload_bytes h <= ROADCAST_MAX_PAYLOAD ->
  (version h <> ROADCAST_PROTOCOL_VERSION \/ flags h <> 0 \/ capacity < payload_bytes h
   \/ zlen bs < payload_bytes h) ->
  incomplete capacity (header_bytes h ++ bs).
Proof.
  intros Hh Hp Hcase m Hm Hpre. destruct (wire_header m h bs capacity Hm Hh Hp Hpre) as [<- Hp2].
  apply prefix_zlen in Hp2. destruct Hm as (_ & Hv & Hf & Hc & _ & Hl & _). lia.
Qed.

Lemma read_message_wp d c w (Q : option roadcast_header_t -> cctx W -> Prop) :
  (budget w < fuel)%nat -> zlen (cc_payload c) = cc_payload_capacity c ->
  (forall h p buf w', message_ok (cc_payload_capacity c) (h, p) ->
     traffic w w' [] (wire (h, p)) -> (budget w' < budget w)%nat ->
     zlen buf = zlen (cc_payload c) -> slice buf 0 (payload_bytes h) = Ok p ->
     Q (Some h) (mk_cctx (c <| cc_payload := buf |>) w')) ->
  (forall buf bs w', traffic w w' [] bs -> incomplete (cc_payload_capacity c) bs ->
     zlen buf = zlen (cc_payload c) -> Q None (mk_cctx (c <| cc_payload := buf |>) w')) ->
  cwp (read_message fuel d) Q (mk_cctx c w).
Proof.
  intros Hf Hcap Hok Hbad. unfold read_message.
  assert (Hsame : c <| cc_payload := cc_payload c |> = c) by by destruct c.
  assert (Hno : forall bs w', traffic w w' [] bs -> incomplete (cc_payload_capacity c) bs ->
    cwp (mret None) Q (mk_cctx c w')).
  { intros bs w' T Hi. apply cwp_ret. rewrite <- Hsame. by eapply Hbad. }
  apply cwp_bind, operation_deadline_wp. intros deadline w1 T1. unfold read_exact. cwp_steps.
  pose proof (traffic_budget _ _ _ _ T1).
  apply read_loop_wp; [lia|lia|by vm_compute|..].
  2: { intros w' bs Hl T2. cwp_steps. cbn [Z.ltb Z.compare].
       eapply Hno; [exact (traffic_quiet_l _ _ _ _ _ T1 T2)|by apply incomplete_header]. }
  intros w2 bs Hl Hb T2 B2. cbn [app]. cwp_steps. cbn [Z.ltb Z.compare].
  pose proof (traffic_quiet_l _ _ _ _ _ T1 T2) as T3. specialize (B2 ltac:(by vm_compute)).
  apply cwp_bind. eapply cwp_memm.
  { apply blit_full. rewrite repeat_length. unfold zlen in Hl. rewrite <- Hl. lia. }
  apply cwp_bind.
  pose proof (decode_header_exact bs Hb Hl) as Hx. unfold decodes_exactly in Hx.
  apply cwp_dec; [by intros E; rewrite E in Hx|..].
  2: { intros E. eapply Hno; [exact T3|by apply incomplete_undecoded]. }
  intros h E. rewrite E in Hx. destruct Hx as [[Hh Hp] ->]. cwp_steps.
  rewrite <- (app_nil_r (header_bytes h)) in T3. pose proof Hh as (_ & _ & _ & H32 & _).
  destruct (Z.eqb_spec (version h) ROADCAST_PROTOCOL_VERSION) as [Hv|];
    [|eapply Hno; [exact T3|apply incomplete_payload; auto]].
  destruct (Z.eqb_spec (flags h) 0) as [Hfl|];
    [|eapply Hno; [exact T3|apply incomplete_payload; auto]].
  destruct (Z.ltb_spec (cc_payload_capacity c) (payload_bytes h)) as [|Hpc];
    [eapply Hno; [exact T3|apply incomplete_payload; auto]|]. cbn [negb orb].
  destruct (Z.eqb_spec (payload_bytes h) 0) as [Hz|Hz]; cbn [negb].
  { apply cwp_ret. rewrite <- Hsame. apply Hok with (p := []); [|exact T3|lia|done|].
    - unfold message_ok. cbn [fst snd]. rewrite Hz. split_and!; try done; [lia|by apply Forall_nil].
    - pose proof (zlen_nonneg (cc_payload c)). by rewrite Hz, slice_start by lia. }
  rewrite app_nil_r in T3. cwp_steps. apply read_loop_wp; [lia|lia|unfold is_u32 in *; lia|..].
  - intros w4 p Hlp Hbp T4 B4. cbn [app]. cwp_steps.
    pose proof (blit_start (cc_payload c) p ltac:(lia)) as Eb.
    eapply cwp_memm; [exact Eb|]. cwp_steps. cbn [Z.ltb Z.compare]. apply cwp_ret.
    apply Hok with (p := p).
    + unfold message_ok. cbn [fst snd]. split_and!; done || lia.
    + exact (traffic_trans _ _ _ _ _ _ _ T3 T4).
    + apply traffic_budget in T4. lia.
    + apply blit_length in Eb. unfold zlen. by rewrite Eb.
    + apply has_slice; [|done]. by eapply has_prefix.
  - intros w4 p Hlp T4. cbn [app]. cwp_steps.
    pose proof (blit_start (cc_payload c) p ltac:(lia)) as Eb.
    eapply cwp_memm; [exact Eb|]. cwp_steps. cbn [Z.ltb Z.compare]. apply cwp_ret.
    eapply Hbad; [exact (traffic_trans _ _ _ _ _ _ _ T3 T4)|apply incomplete_payload; auto|].
    apply blit_length in Eb. unfold zlen. by rewrite Eb.
Qed.
End Io.
