(* ===== verification/ClientCache.v ===== *)
(** * The cache of the client library, without its machinery

    What the library's arrays mean: frames are found by CAN id, signals by index,
    a message of updates replaces the items it names or is refused as a whole, a
    download is a sequence of pages with one stamp.  The lemmas connect this
    vocabulary with the lookup table and the copying loops of src/client.c. *)

From S2P Require Import Prelude Wire CatalogDefs Catalog SourceSession Sampler ServerDefs.
From S2P Require Import ServerOps ServerQueue ServerClient Replica ClientDefs ClientOps ClientIo.

(** ** Frames by id *)

(** The last position at which the array has the id. *)
Fixpoint position (id : Z) (fs : list roadcast_frame_t) : option nat :=
  match fs with
  | [] => None
  | f :: fs =>
      match position id fs with
      | Some i => Some (S i)
      | None => if can_id f =? id then Some 0%nat else None
      end
  end.

Lemma position_snoc id fs f :
  position id (fs ++ [f]) = if can_id f =? id then Some (length fs) else position id fs.
Proof.
  induction fs as [|g fs IH]; cbn [app position length]; [done|].
  rewrite IH. by destruct (can_id f =? id).
Qed.

Lemma position_Some id fs i :
  position id fs = Some i -> exists f, fs !! i = Some f /\ can_id f = id.
Proof.
  revert i. induction fs as [|g fs IH]; intros i H; cbn [position] in H; [done|].
  destruct (position id fs) as [j|].
  - injection H as <-. by apply IH.
  - destruct (Z.eqb_spec (can_id g) id) as [E|]; [|done]. injection H as <-. by exists g.
Qed.

Lemma position_None id fs : position id fs = None <-> id ∉ map can_id fs.
Proof.
  induction fs as [|g fs IH]; cbn [position map].
  { split; [|done]. intros _. apply not_elem_of_nil. }
  rewrite not_elem_of_cons, <- IH. destruct (position id fs) as [j|].
  - split; [done|]. by intros [_ ?].
  - destruct (Z.eqb_spec (can_id g) id) as [E|E]; split; try done.
    intros [E' _]. congruence.
Qed.

Lemma position_ids id fs gs : map can_id fs = map can_id gs -> position id fs = position id gs.
Proof.
  revert gs. induction fs as [|f fs IH]; intros [|g gs] H; try done.
  injection H as Hid H. cbn [position]. by rewrite (IH gs H), Hid.
Qed.

Lemma position_lt id fs i : position id fs = Some i -> (i < length fs)%nat.
Proof. intros (f & H & _)%position_Some. by eapply lookup_lt_Some. Qed.

(** ** The lookup table *)

(** [t] has the positions of the ids of [fs]; the other entries are those of
    [t0]. *)
Definition table_over (t0 : list Z) (fs : list roadcast_frame_t) (t : list Z) : Prop :=
  zlen t = CAN_ID_LOOKUP_CAP
  /\ forall id, 0 <= id < CAN_ID_LOOKUP_CAP ->
       t !! Z.to_nat id = match position id fs with
                          | Some i => Some (Z.of_nat i)
                          | None => t0 !! Z.to_nat id
                          end.

Definition empty_table : list Z := repeat UINT16_MAX (Z.to_nat CAN_ID_LOOKUP_CAP).

(** The table of an array: the position of each id, or UINT16_MAX. *)
Definition table_for (fs : list roadcast_frame_t) (t : list Z) : Prop :=
  table_over empty_table fs t.

Lemma lookup_repeat {A} (x : A) n i : (i < n)%nat -> repeat x n !! i = Some x.
Proof.
  revert i. induction n as [|n IH]; intros [|i] H; cbn; try lia; [done|]. apply IH. lia.
Qed.

Lemma Forall_repeat {A} (P : A -> Prop) x n : P x -> Forall P (repeat x n).
Proof. intros H. induction n; cbn; auto. Qed.

Lemma empty_table_lookup id :
  0 <= id < CAN_ID_LOOKUP_CAP -> empty_table !! Z.to_nat id = Some UINT16_MAX.
Proof.
  intros H. unfold empty_table. apply lookup_repeat. unfold CAN_ID_LOOKUP_CAP in *. lia.
Qed.

Lemma table_for_lookup fs t id :
  table_for fs t -> 0 <= id < CAN_ID_LOOKUP_CAP ->
  rd t id = Ok (match position id fs with Some i => Z.of_nat i | None => UINT16_MAX end).
Proof.
  intros [_ H] Hid. rewrite <- (Z2Nat.id id) at 1 by lia. apply rd_Some. rewrite (H id Hid).
  destruct (position id fs); [done|]. by apply empty_table_lookup.
Qed.

Lemma table_over_ids t0 fs gs t :
  map can_id fs = map can_id gs -> table_over t0 fs t -> table_over t0 gs t.
Proof.
  intros E [Hl H]. split; [done|]. intros id Hid. rewrite (H id Hid).
  by rewrite (position_ids id fs gs E).
Qed.

(** A table over that of an array with the same ids is the table. *)
Lemma table_over_same t0 fs gs t :
  table_for fs t0 -> map can_id fs = map can_id gs -> table_over t0 gs t -> table_for gs t.
Proof.
  intros [_ H0] E [Hl H]. split; [done|]. intros id Hid. rewrite (H id Hid), (H0 id Hid).
  rewrite (position_ids id fs gs E). by destruct (position id gs).
Qed.

Definition u16s (t : list Z) : Prop := Forall is_u16 t.

Lemma table_over_u16 t0 fs t :
  u16s t0 -> zlen fs <= CLIENT_MAX_FRAMES -> table_over t0 fs t -> u16s t.
Proof.
  intros H0 Hn [Hl H]. apply Forall_lookup. intros i x Hi.
  pose proof (lookup_lt_Some _ _ _ Hi). unfold zlen in Hl.
  specialize (H (Z.of_nat i) ltac:(lia)). rewrite Nat2Z.id, Hi in H.
  destruct (position _ fs) as [j|] eqn:E.
  - injection H as ->. apply position_lt in E. unfold CLIENT_MAX_FRAMES, zlen, is_u16 in *. lia.
  - symmetry in H. by eapply (Forall_lookup_1 is_u16 t0).
Qed.

Lemma index_frames fs t0 n :
  zlen t0 = CAN_ID_LOOKUP_CAP -> n = zlen fs -> n <= CLIENT_MAX_FRAMES -> Forall frame_ok fs ->
  exists t, loop (Z.to_nat n) 0 (index_frame fs) t0 = Ok t /\ table_over t0 fs t.
Proof.
  intros Hl -> Hn Hok.
  destruct (loop_total (fun j t => table_over t0 (take (Z.to_nat j) fs) t)
              (index_frame fs) (Z.to_nat (zlen fs)) 0 t0) as (t & -> & Ht).
  - split; [done|]. done.
  - intros j t Hj [Ht1 Ht2]. destruct (rd_ok fs j ltac:(lia)) as (f & Hf & Hlk).
    unfold index_frame. rewrite Hf, bind_ok.
    assert (E : take (Z.to_nat (j + 1)) fs = take (Z.to_nat j) fs ++ [f]).
    { replace (Z.to_nat (j + 1)) with (S (Z.to_nat j)) by lia. by apply take_S_r. }
    assert (Hpos : forall id, position id (take (Z.to_nat (j + 1)) fs)
      = if can_id f =? id then Some (Z.to_nat j) else position id (take (Z.to_nat j) fs)).
    { intros id. rewrite E, position_snoc, length_take.
      apply lookup_lt_Some in Hlk. by replace (Z.to_nat j `min` length fs)%nat with (Z.to_nat j) by lia. }
    assert (Hid : is_u16 (can_id f)).
    { eapply (Forall_lookup_1 frame_ok fs) in Hlk as [? _]; [|done]. done. }
    destruct (Z.ltb_spec (can_id f) CAN_ID_LOOKUP_CAP) as [Hc|Hc].
    + rewrite wr_ok by (unfold is_u16 in Hid; lia). eexists. split; [done|].
      split; [by rewrite zlen_insert|]. intros id Hi. rewrite Hpos.
      destruct (Z.eqb_spec (can_id f) id) as [->|Hne].
      * rewrite list_lookup_insert_eq by (unfold zlen in Ht1; lia). f_equal.
        rewrite u16_id; [lia|]. unfold is_u16, CLIENT_MAX_FRAMES in *. lia.
      * rewrite list_lookup_insert_ne by (unfold is_u16 in Hid; lia). by apply Ht2.
    + eexists. split; [done|]. split; [done|]. intros id Hi. rewrite Hpos.
      destruct (Z.eqb_spec (can_id f) id) as [Heq|Hne]; [lia|by apply Ht2].
  - exists t. split; [done|]. by replace (take (Z.to_nat (0 + Z.of_nat (Z.to_nat (zlen fs)))) fs)
      with fs in Ht by (symmetry; apply take_ge; unfold zlen; lia).
Qed.

(** ** Updates *)

(** The frame replaces the one with its id. *)
Definition replace_frame (fs : list roadcast_frame_t) (f : roadcast_frame_t)
  : option (list roadcast_frame_t) :=
  if can_id f <? CAN_ID_LOOKUP_CAP then
    i ← position (can_id f) fs; Some (<[i := f]> fs)
  else None.

Fixpoint replace_frames (fs items : list roadcast_frame_t) : option (list roadcast_frame_t) :=
  match items with
  | [] => Some fs
  | f :: items => fs' ← replace_frame fs f; replace_frames fs' items
  end.

Definition replace_signal (vs : list roadcast_signal_value_t) (u : roadcast_signal_update_t)
  : option (list roadcast_signal_value_t) :=
  if upd_index u <? zlen vs then Some (<[Z.to_nat (upd_index u) := upd_value u]> vs) else None.

Fixpoint replace_signals (vs : list roadcast_signal_value_t)
    (items : list roadcast_signal_update_t) : option (list roadcast_signal_value_t) :=
  match items with
  | [] => Some vs
  | u :: items => vs' ← replace_signal vs u; replace_signals vs' items
  end.

Lemma replace_frame_ids fs f fs' :
  replace_frame fs f = Some fs' -> map can_id fs' = map can_id fs.
Proof.
  unfold replace_frame. destruct (_ <? _); [|done].
  destruct (position (can_id f) fs) as [i|] eqn:E; [|done]. cbn. intros [= <-].
  apply position_Some in E as (g & Hg & Hid).
  change (map can_id (<[i := f]> fs)) with (can_id <$> <[i := f]> fs).
  rewrite list_fmap_insert. apply list_insert_id. by rewrite list_lookup_fmap, Hg, <- Hid.
Qed.

Lemma replace_frames_ids items : forall fs fs',
  replace_frames fs items = Some fs' -> map can_id fs' = map can_id fs.
Proof.
  induction items as [|f items IH]; intros fs fs' H; cbn in H; [by injection H as <-|].
  destruct (replace_frame fs f) as [gs|] eqn:E; [|done]. cbn in H.
  rewrite (IH _ _ H). by eapply replace_frame_ids.
Qed.

(** With distinct ids it is the update of the replica. *)
Lemma replace_frame_apply fs f fs' :
  NoDup (map can_id fs) -> replace_frame fs f = Some fs' -> fs' = apply_frame fs f.
Proof.
  intros Hnd. unfold replace_frame. destruct (_ <? _); [|done].
  destruct (position (can_id f) fs) as [i|] eqn:E; [|done]. cbn. intros [= <-].
  apply position_Some in E as (g & Hg & Hid). apply list_eq. intros k. unfold apply_frame.
  rewrite list_lookup_fmap. destruct (decide (i = k)) as [->|Hne].
  - rewrite list_lookup_insert_eq by (by eapply lookup_lt_Some). rewrite Hg. cbn.
    by rewrite Hid, Z.eqb_refl.
  - rewrite list_lookup_insert_ne by done. destruct (fs !! k) as [g'|] eqn:Hk; [|done]. cbn.
    destruct (Z.eqb_spec (can_id g') (can_id f)) as [E|]; [|done]. destruct Hne.
    apply (NoDup_lookup (map can_id fs) i k (can_id g)); [done|..]; rewrite list_lookup_fmap.
    + by rewrite Hg.
    + rewrite Hk. cbn. congruence.
Qed.

Lemma replace_frames_apply items : forall fs fs',
  NoDup (map can_id fs) -> replace_frames fs items = Some fs' ->
  fs' = fold_left apply_frame items fs.
Proof.
  induction items as [|f items IH]; intros fs fs' Hnd H; cbn in H |- *; [by injection H as <-|].
  destruct (replace_frame fs f) as [gs|] eqn:E; [|done]. cbn in H.
  pose proof (replace_frame_apply _ _ _ Hnd E) as ->. apply IH; [|done].
  by rewrite (replace_frame_ids _ _ _ E).
Qed.

Lemma replace_signals_apply items : forall vs vs',
  replace_signals vs items = Some vs' -> vs' = fold_left apply_signal items vs.
Proof.
  induction items as [|u items IH]; intros vs vs' H; cbn in H |- *; [by injection H as <-|].
  unfold replace_signal in H. destruct (_ <? _); [|done]. by apply IH.
Qed.

(** ** The copying loops *)

Definition status (r : Z) : Prop := r = 0 \/ r = -1.

Lemma store_frames_safe items t fc : forall fs,
  Forall frame_ok items -> u16s t -> zlen t = CAN_ID_LOOKUP_CAP -> zlen fs = fc ->
  fc <= CLIENT_MAX_FRAMES -> Forall frame_ok fs ->
  exists r fs', store_frames items t fc fs = Ok (r, fs') /\ status r /\ zlen fs' = fc
    /\ Forall frame_ok fs'.
Proof.
  induction items as [|f items IH]; intros fs Hi Ht Hl Hf Hn Hok; cbn [store_frames].
  { exists 0, fs. split; [done|]. unfold status. auto. }
  inversion_clear Hi as [|? ? Hf1 Hi']. pose proof Hf1 as (Hid & _). unfold is_u16 in Hid.
  assert (exists target, (if can_id f <? CAN_ID_LOOKUP_CAP then rd t (can_id f)
     else mret UINT16_MAX) = Ok target /\ 0 <= target) as (target & -> & Ht0).
  { destruct (Z.ltb_spec (can_id f) CAN_ID_LOOKUP_CAP); [|by exists UINT16_MAX].
    destruct (rd_ok t (can_id f) ltac:(lia)) as (x & -> & Hx). exists x. split; [done|].
    eapply (Forall_lookup_1 is_u16 t) in Hx; [|done]. unfold is_u16 in Hx. lia. }
  rewrite bind_ok. destruct (Z.leb_spec fc target) as [|Hlt].
  { exists (-1), fs. split; [done|]. unfold status. auto. }
  rewrite wr_ok by lia. rewrite bind_ok. apply IH; try done; [by rewrite zlen_insert|].
  by apply Forall_insert.
Qed.

(** The table finds the frame with the id. *)
Lemma store_frames_replace items t fc : forall fs,
  Forall frame_ok items -> table_for fs t -> zlen fs = fc -> fc <= CLIENT_MAX_FRAMES ->
  exists r fs', store_frames items t fc fs = Ok (r, fs')
    /\ match replace_frames fs items with
       | Some gs => r = 0 /\ fs' = gs
       | None => r = -1
       end.
Proof.
  induction items as [|f items IH]; intros fs Hi Ht Hf Hn; cbn [store_frames replace_frames].
  { by exists 0, fs. }
  inversion_clear Hi as [|? ? Hf1 Hi']. destruct Hf1 as (Hid & _). unfold is_u16 in Hid.
  unfold replace_frame at 1. destruct (Z.ltb_spec (can_id f) CAN_ID_LOOKUP_CAP) as [Hc|Hc].
  - rewrite (table_for_lookup fs t) by (done || lia). rewrite bind_ok.
    destruct (position (can_id f) fs) as [i|] eqn:E; cbn [mbind option_bind].
    + apply position_lt in E as Hlt. destruct (Z.leb_spec fc (Z.of_nat i)); [unfold zlen in *; lia|].
      rewrite wr_ok, bind_ok, Nat2Z.id by (unfold zlen in *; lia).
      assert (Hr : replace_frame fs f = Some (<[i := f]> fs)).
      { unfold replace_frame. destruct (Z.ltb_spec (can_id f) CAN_ID_LOOKUP_CAP); [|lia].
        by rewrite E. }
      apply IH; try done; [|by rewrite zlen_insert].
      eapply table_over_ids; [|done]. symmetry. by eapply replace_frame_ids.
    + destruct (Z.leb_spec fc UINT16_MAX) as [|Hx]; [by exists (-1), fs|].
      unfold UINT16_MAX, CLIENT_MAX_FRAMES in *. lia.
  - cbn [mbind option_bind]. cbn. destruct (Z.leb_spec fc UINT16_MAX) as [|Hx]; [by exists (-1), fs|].
    unfold UINT16_MAX, CLIENT_MAX_FRAMES in *. lia.
Qed.

Lemma store_signals_replace items sc : forall vs,
  Forall update_ok items -> zlen vs = sc -> Forall value_ok vs ->
  exists r vs', store_signals items sc vs = Ok (r, vs') /\ status r /\ zlen vs' = sc
    /\ Forall value_ok vs'
    /\ match replace_signals vs items with
       | Some ws => r = 0 /\ vs' = ws
       | None => r = -1
       end.
Proof.
  induction items as [|u items IH]; intros vs Hi Hv Hok; cbn [store_signals replace_signals].
  { exists 0, vs. split; [done|]. unfold status. auto. }
  inversion_clear Hi as [|? ? Hu Hi']. destruct Hu as [Hx Hval]. unfold is_u32 in Hx.
  unfold replace_signal at 1. rewrite Hv, Z.ltb_antisym.
  destruct (Z.leb_spec sc (upd_index u)) as [|Hlt]; cbn [negb mbind option_bind].
  { exists (-1), vs. split; [done|]. unfold status. auto. }
  rewrite wr_ok, bind_ok by lia. apply IH; [done|by rewrite zlen_insert|by apply Forall_insert].
Qed.

(** A page of signals: the indices count up from [k]. *)
Lemma store_page_spec k sc items : forall i vs,
  Forall update_ok items -> zlen vs = sc -> Forall value_ok vs -> 0 <= k + i ->
  k + i + zlen items <= sc ->
  exists r vs', store_page items k sc i vs = Ok (r, vs') /\ status r /\ zlen vs' = sc
    /\ Forall value_ok vs'
    /\ (r = 0 -> map upd_index items = seqZ (k + i) (zlen items)
        /\ vs' = take (Z.to_nat (k + i)) vs ++ map upd_value items
                 ++ drop (Z.to_nat (k + i + zlen items)) vs).
Proof.
  induction items as [|u items IH]; intros i vs Hi Hv Hok H0 Hb; cbn [store_page].
  { exists 0, vs. split; [done|]. split; [by left|]. split_and!; try done. intros _. split; [done|].
    cbn [map app]. change (zlen []) with 0. by rewrite Z.add_0_r, take_drop. }
  inversion_clear Hi as [|? ? Hu Hi']. destruct Hu as [_ Hval]. rewrite zlen_cons in *.
  pose proof (zlen_nonneg items).
  destruct (Z.eqb_spec (upd_index u) (k + i)) as [E|]; cbn [negb orb].
  2: { exists (-1), vs. split; [done|]. split; [by right|]. split_and!; done. }
  destruct (Z.leb_spec sc (upd_index u)) as [|Hlt]; [lia|].
  rewrite wr_ok, bind_ok by lia. rewrite E.
  destruct (IH (i + 1) (<[Z.to_nat (k + i) := upd_value u]> vs)) as (r & vs' & -> & Hr & Hl & Hf & Hx);
    [done|by rewrite zlen_insert|by apply Forall_insert|lia|lia|].
  exists r, vs'. split; [done|]. split_and!; try done. intros Hr0. specialize (Hx Hr0) as [Hm Hx]. split.
  - cbn [map]. rewrite E, Hm. rewrite (seqZ_cons (k + i)) by lia. unfold Z.succ, Z.pred.
    f_equal. f_equal; lia.
  - rewrite Hx. cbn [map]. replace (Z.to_nat (k + (i + 1))) with (S (Z.to_nat (k + i))) by lia.
    rewrite drop_insert_lt by lia. rewrite (take_S_r _ _ (upd_value u)).
    + rewrite take_insert_ge, <- (assoc_L (++)) by lia. cbn [app].
      do 3 f_equal. f_equal. lia.
    + rewrite list_lookup_insert_eq; [done|]. unfold zlen in *. lia.
Qed.

(** ** Messages of updates *)

Definition msg : Type := roadcast_header_t * list Z.

Definition wires (ms : list msg) : list Z := concat (map wire ms).

Lemma wires_app ms ns : wires (ms ++ ns) = wires ms ++ wires ns.
Proof. unfold wires. by rewrite map_app, concat_app. Qed.

(** A batch outside any download, for a catalog of [total] items. *)
Definition delta {A} (b : batch_t A) (total : Z) : bool :=
  (batch_total_count b =? total) && (batch_start_index b =? UINT32_MAX).

Definition stamp_sync (s : synchronization_t) (sample : Z) (h : roadcast_header_t)
  : synchronization_t :=
  s <| sy_sample_sequence := sample |> <| sy_change_sequence := sequence h |>
    <| sy_sample_timestamp_ns := timestamp_ns h |>.

(** What a message of updates makes of the cache; [None]: it is refused. *)
Definition update_cache (s : synchronization_t) (m : msg) : option synchronization_t :=
  if type m.1 =? ROADCAST_MSG_UPDATE_BATCH then
    match roadcast_decode_frame_batch m.2 (zlen m.2) UINT16_MAX with
    | Ok b =>
        if delta b (zlen (sy_frames s)) then
          fs ← replace_frames (sy_frames s) (batch_items b);
          Some (stamp_sync (s <| sy_frames := fs |>) (batch_sample_sequence b) m.1)
        else None
    | _ => None
    end
  else if type m.1 =? ROADCAST_MSG_SIGNAL_UPDATE_BATCH then
    match roadcast_decode_signal_batch m.2 (zlen m.2) UINT16_MAX with
    | Ok b =>
        if delta b (zlen (sy_signals s)) then
          vs ← replace_signals (sy_signals s) (batch_items b);
          Some (stamp_sync (s <| sy_signals := vs |>) (batch_sample_sequence b) m.1)
        else None
    | _ => None
    end
  else None.

Fixpoint update_all (s : synchronization_t) (ms : list msg) : option synchronization_t :=
  match ms with
  | [] => Some s
  | m :: ms => s' ← update_cache s m; update_all s' ms
  end.

(** The capacity the library computes from the payload limit never refuses a
    batch that fits into the payload. *)
Lemma decode_frames_capacity p cap :
  bytes_ok p -> zlen p < ROADCAST_BATCH_PREFIX_SIZE + ROADCAST_FRAME_WIRE_SIZE * (cap + 1) ->
  roadcast_decode_frame_batch p (zlen p) cap
  = roadcast_decode_frame_batch p (zlen p) UINT16_MAX.
Proof.
  intros Hb Hl. pose proof (decode_frame_batch_exact p UINT16_MAX Hb) as Hx.
  pose proof (decode_frame_batch_exact p cap Hb) as Hy. unfold decodes_exactly in Hx, Hy.
  destruct (roadcast_decode_frame_batch p (zlen p) UINT16_MAX) as [b| |]; [|..|done].
  - destruct Hx as [[Hok _] ->]. rewrite zlen_frame_batch in Hl.
    + rewrite (decode_frame_batch_has _ _ cap b Hok (has_self _) eq_refl).
      unfold ROADCAST_BATCH_PREFIX_SIZE, ROADCAST_FRAME_WIRE_SIZE in Hl.
      by destruct (Z.ltb_spec cap (zlen (batch_items b))); [lia|].
    + pose proof Hok as (_ & _ & _ & _ & _ & Hi). revert Hi. apply Forall_impl.
      by intros f (_ & _ & ? & _).
  - destruct (roadcast_decode_frame_batch p (zlen p) cap) as [b| |]; [|done|done].
    destruct Hy as [[Hok _] E]. destruct (Hx b); [|done]. split; [done|]. by destruct Hok as (_ & _ & _ & ? & _).
Qed.

Lemma decode_signals_capacity p cap :
  bytes_ok p -> zlen p < ROADCAST_BATCH_PREFIX_SIZE + ROADCAST_SIGNAL_WIRE_SIZE * (cap + 1) ->
  roadcast_decode_signal_batch p (zlen p) cap
  = roadcast_decode_signal_batch p (zlen p) UINT16_MAX.
Proof.
  intros Hb Hl. pose proof (decode_signal_batch_exact p UINT16_MAX Hb) as Hx.
  pose proof (decode_signal_batch_exact p cap Hb) as Hy. unfold decodes_exactly in Hx, Hy.
  destruct (roadcast_decode_signal_batch p (zlen p) UINT16_MAX) as [b| |]; [|..|done].
  - destruct Hx as [[Hok _] ->]. rewrite zlen_signal_batch in Hl.
    rewrite (decode_signal_batch_has _ _ cap b Hok (has_self _) eq_refl).
    unfold ROADCAST_BATCH_PREFIX_SIZE, ROADCAST_SIGNAL_WIRE_SIZE in Hl.
    by destruct (Z.ltb_spec cap (zlen (batch_items b))); [lia|].
  - destruct (roadcast_decode_signal_batch p (zlen p) cap) as [b| |]; [|done|done].
    destruct Hy as [[Hok _] E]. destruct (Hx b); [|done]. split; [done|]. by destruct Hok as (_ & _ & _ & ? & _).
Qed.

(** ** Downloads

    The requests [outs] and the replies [ms] that bring the items from [k] up to
    [total]: every request asks for the next missing item, every reply continues
    there and carries the same stamp. *)

Inductive pages {A} (encode : batch_t A -> list Z) (item_ok : A -> Prop) (ask reply total : Z)
    (at_ : Z * Z * Z) : Z -> list A -> list msg -> list msg -> Prop :=
  | pages_end : pages encode item_ok ask reply total at_ total [] [] []
  | pages_next k now h b rest outs ms :
      is_u64 now -> type h = reply -> batch_ok item_ok b -> batch_total_count b = total ->
      batch_start_index b = k -> batch_items b <> [] ->
      at_ = (batch_sample_sequence b, sequence h, timestamp_ns h) ->
      pages encode item_ok ask reply total at_ (k + zlen (batch_items b)) rest outs ms ->
      pages encode item_ok ask reply total at_ k (batch_items b ++ rest)
        (request ask (be32 k) now :: outs) ((h, encode b) :: ms).

Definition frame_pages : Z -> Z * Z * Z -> Z -> list roadcast_frame_t -> list msg -> list msg -> Prop :=
  pages frame_batch_bytes frame_ok ROADCAST_MSG_GET_SNAPSHOT ROADCAST_MSG_SNAPSHOT.

Definition signal_pages
  : Z -> Z * Z * Z -> Z -> list roadcast_signal_update_t -> list msg -> list msg -> Prop :=
  pages signal_batch_bytes update_ok ROADCAST_MSG_GET_SIGNAL_SNAPSHOT
    ROADCAST_MSG_SIGNAL_SNAPSHOT_CHUNK.

(** The same for the schema. *)
Inductive chunks (schema_version schema_hash total : Z)
  : Z -> list roadcast_schema_entry_t -> list msg -> list msg -> Prop :=
  | chunks_end : chunks schema_version schema_hash total total [] [] []
  | chunks_next k now h c rest outs ms :
      is_u64 now -> type h = ROADCAST_MSG_SCHEMA_CHUNK -> schema_chunk_ok c ->
      chunk_schema_version c = schema_version -> chunk_schema_hash c = schema_hash ->
      chunk_total_count c = total -> chunk_start_index c = k -> chunk_entries c <> [] ->
      chunks schema_version schema_hash total (k + zlen (chunk_entries c)) rest outs ms ->
      chunks schema_version schema_hash total k (chunk_entries c ++ rest)
        (request ROADCAST_MSG_GET_SCHEMA (be32 k) now :: outs) ((h, schema_chunk_bytes c) :: ms).

Lemma pages_zlen {A} (encode : batch_t A -> list Z) item_ok ask reply total at_ k items outs ms :
  pages encode item_ok ask reply total at_ k items outs ms -> zlen items = total - k.
Proof.
  induction 1 as [|k now h b rest outs ms _ _ _ _ _ _ _ _ IH]; [unfold zlen; cbn; lia|].
  rewrite zlen_app. lia.
Qed.

Lemma pages_items_ok {A} (encode : batch_t A -> list Z) item_ok ask reply total at_ k items outs ms :
  pages encode item_ok ask reply total at_ k items outs ms -> Forall item_ok items.
Proof.
  induction 1 as [|k now h b rest outs ms _ _ Hb _ _ _ _ _ IH]; [constructor|].
  apply Forall_app. split; [|done]. by destruct Hb as (_ & _ & _ & _ & _ & ?).
Qed.

Lemma chunks_zlen v hash total k es outs ms :
  chunks v hash total k es outs ms -> zlen es = total - k.
Proof.
  induction 1 as [|k now h c rest outs ms _ _ _ _ _ _ _ _ _ IH]; [unfold zlen; cbn; lia|].
  rewrite zlen_app. lia.
Qed.

(** A schema of [total] entries from index [k] on. *)
Definition schema_ok (total k : Z) (es : list roadcast_schema_entry_t) : Prop :=
  forall i e, es !! i = Some e -> schema_entry_ok total k (Z.of_nat i) e.

Lemma chunks_schema_ok v hash total k es outs ms :
  chunks v hash total k es outs ms -> schema_ok total k es.
Proof.
  induction 1 as [|k now h c rest outs ms _ _ Hc _ _ Ht Hs _ _ IH]; intros i e Hi; [done|].
  destruct Hc as (_ & _ & _ & _ & _ & _ & Hc). rewrite Ht, Hs in Hc.
  apply lookup_app_Some in Hi as [Hi|[Hge Hi]]; [by apply Hc|].
  specialize (IH _ _ Hi). unfold schema_entry_ok in *. unfold zlen in IH.
  replace (k + Z.of_nat i) with (k + Z.of_nat (length (chunk_entries c))
    + Z.of_nat (i - length (chunk_entries c))) by lia. done.
Qed.
