(* ===== verification/ClientSync.v ===== *)
(** * Downloads of the client library: src/client.c, [request_schema] to
      [commit_synchronization]

    The invariant of the library's buffers, and what the downloads and the
    subscription leave for whatever the peer sends: they return, access no memory
    outside the buffers, and when they succeed the arrays are what the stream
    carried. *)

From S2P Require Import Prelude Wire CatalogDefs Catalog SourceSession Sampler.
From S2P Require Import ClientDefs ClientOps ClientIo ClientCache.

(** ** Buffers *)

Record buffers_ok (c : client_t) : Prop := mk_buffers_ok {
  bo_payload : zlen (cc_payload c) = cc_payload_capacity c;
  bo_limit : ROADCAST_WELCOME_SIZE <= cc_payload_capacity c <= ROADCAST_MAX_PAYLOAD;
  bo_frame_scratch : zlen (cc_frame_scratch c) = cc_frame_scratch_capacity c;
  bo_frame_capacity : cc_frame_scratch_capacity c
    = (cc_payload_capacity c - ROADCAST_BATCH_PREFIX_SIZE) / ROADCAST_FRAME_WIRE_SIZE;
  bo_signal_scratch : zlen (cc_signal_scratch c) = cc_signal_scratch_capacity c;
  bo_signal_capacity : cc_signal_scratch_capacity c
    = (cc_payload_capacity c - ROADCAST_BATCH_PREFIX_SIZE) / ROADCAST_SIGNAL_WIRE_SIZE;
  bo_frame_count : 0 < cc_frame_count c <= CLIENT_MAX_FRAMES;
  bo_signal_count : 0 < cc_signal_count c <= CLIENT_MAX_SIGNALS;
  bo_schema : zlen (cc_schema c) = cc_signal_count c;
  bo_frames : zlen (cc_frames c) = cc_frame_count c;
  bo_signals : zlen (cc_signals c) = cc_signal_count c;
  bo_table : zlen (cc_can_id_to_index c) = CAN_ID_LOOKUP_CAP;
  bo_table_u16 : u16s (cc_can_id_to_index c);
}.

(** The client without the arrays a download works on. *)
Definition core (c : client_t) : client_t :=
  c <| cc_payload := [] |> <| cc_frame_scratch := [] |> <| cc_signal_scratch := [] |>
    <| cc_schema := [] |> <| cc_can_id_to_index := [] |>.

(** Only those arrays differ, and the working buffers keep their sizes. *)
Definition same (c c' : client_t) : Prop :=
  core c' = core c /\ zlen (cc_payload c') = zlen (cc_payload c)
  /\ zlen (cc_frame_scratch c') = zlen (cc_frame_scratch c)
  /\ zlen (cc_signal_scratch c') = zlen (cc_signal_scratch c).

(** Only the contents of the working buffers differ. *)
Definition kept (c c' : client_t) : Prop :=
  same c c' /\ cc_schema c' = cc_schema c /\ cc_can_id_to_index c' = cc_can_id_to_index c.

Lemma same_refl c : same c c.
Proof. by split_and!. Qed.

Lemma same_sym c c' : same c c' -> same c' c.
Proof. intros (? & ? & ? & ?). by split_and!. Qed.

Lemma same_trans c1 c2 c3 : same c1 c2 -> same c2 c3 -> same c1 c3.
Proof. intros (? & ? & ? & ?) (? & ? & ? & ?). unfold same. split_and!; congruence. Qed.

Lemma kept_refl c : kept c c.
Proof. split; [apply same_refl|done]. Qed.

Lemma kept_trans c1 c2 c3 : kept c1 c2 -> kept c2 c3 -> kept c1 c3.
Proof.
  intros (H1 & ? & ?) (H2 & ? & ?). split; [exact (same_trans _ _ _ H1 H2)|]. split; congruence.
Qed.

Lemma kept_payload_buffer c buf :
  zlen buf = zlen (cc_payload c) -> kept c (c <| cc_payload := buf |>).
Proof. intros H. split; [|done]. by split_and!. Qed.

Lemma kept_frame_buffer c buf :
  zlen buf = zlen (cc_frame_scratch c) -> kept c (c <| cc_frame_scratch := buf |>).
Proof. intros H. split; [|done]. by split_and!. Qed.

Lemma kept_signal_buffer c buf :
  zlen buf = zlen (cc_signal_scratch c) -> kept c (c <| cc_signal_scratch := buf |>).
Proof. intros H. split; [|done]. by split_and!. Qed.

(** A field outside those arrays. *)
Lemma same_field {A} (f : client_t -> A) c c' :
  same c c' -> (forall c, f (core c) = f c) -> f c' = f c.
Proof. intros (E & _) Hf. by rewrite <- (Hf c'), <- (Hf c), E. Qed.

(** Rewrites every such field of [c'] to that of [c]. *)
Ltac same_fields H :=
  lazymatch type of H with
  | same ?c ?c' =>
      repeat match goal with
      | |- context [?f c'] =>
          lazymatch f with
          | cc_payload => fail | cc_frame_scratch => fail | cc_signal_scratch => fail
          | cc_schema => fail | cc_can_id_to_index => fail
          | _ => rewrite (same_field f c c' H (fun _ => eq_refl))
          end
      end
  end.

Lemma same_buffers c c' :
  same c c' -> buffers_ok c -> zlen (cc_schema c') = zlen (cc_schema c) ->
  zlen (cc_can_id_to_index c') = zlen (cc_can_id_to_index c) -> u16s (cc_can_id_to_index c') ->
  buffers_ok c'.
Proof.
  intros Hk Hb Hs Ht Hu. pose proof Hk as (_ & Hp & Hf & Hg).
  destruct Hb. constructor; same_fields Hk; congruence || done.
Qed.

Lemma kept_buffers c c' : kept c c' -> buffers_ok c -> buffers_ok c'.
Proof.
  intros (H & E1 & E2) Hb. apply (same_buffers c c' H Hb); rewrite ?E1, ?E2; done || apply Hb.
Qed.

Lemma blit_zlen {A} (buf buf' : list A) off bs : blit buf off bs = Ok buf' -> zlen buf' = zlen buf.
Proof. intros H. unfold zlen. by rewrite (blit_length _ _ _ _ H). Qed.

Section Sync.
Context {W : Type} `{K : !Clock W} `{N : !Socket W} `{HN : !SocketOk N K} (fuel : nat).
Implicit Types (s : cctx W) (w : W).

(** ** One page *)

Lemma message_payload_wp h p c w (Q : list Z -> cctx W -> Prop) :
  slice (cc_payload c) 0 (payload_bytes h) = Ok p ->
  Q p (mk_cctx c w) -> cwp (message_payload h) Q (mk_cctx c w).
Proof. intros Hs HQ. unfold message_payload. cwp_steps. by eapply cwp_memm. Qed.

Lemma request_page_wp ask reply k d c w (Q : option (roadcast_header_t * list Z) -> cctx W -> Prop) :
  (budget w < fuel)%nat -> buffers_ok c ->
  (forall h p now c' w', kept c c' -> message_ok (cc_payload_capacity c) (h, p) ->
     type h = reply -> is_u64 now -> (budget w' < budget w)%nat ->
     traffic w w' (wire (request ask (be32 k) now)) (wire (h, p)) ->
     Q (Some (h, p)) (mk_cctx c' w')) ->
  (forall c' w', kept c c' -> moved w w' -> Q None (mk_cctx c' w')) ->
  cwp (request_page fuel ask reply k d) Q (mk_cctx c w).
Proof.
  intros Hf Hc Hok Hbad. unfold request_page.
  apply cwp_bind. eapply cwp_memm; [rewrite encode_index_request_blit, blit_full; done|].
  cwp_steps. apply send_message_wp; [done|done|by vm_compute| |].
  2: { intros w' Hm. cbn [Z.ltb Z.compare]. apply cwp_ret, Hbad; [apply kept_refl|done]. }
  intros w1 now Hmax Hnow T1. cbn [Z.ltb Z.compare]. apply cwp_bind.
  pose proof (traffic_budget _ _ _ _ T1).
  apply read_message_wp; [lia|apply Hc| |].
  2: { intros buf bs w' Hm%moved_traffic _ Hl. cwp_steps. apply Hbad; [by apply kept_payload_buffer|].
       eapply moved_trans; [by eapply moved_traffic|done]. }
  intros h p buf w2 Hm T2 B2 Hl Hs. pose proof (traffic_trans _ _ _ _ _ _ _ T1 T2) as T3.
  rewrite app_nil_r in T3. destruct (Z.eqb_spec (type h) reply) as [Ht|]; cbn [negb].
  - apply cwp_bind. eapply message_payload_wp; [exact Hs|]. cwp_steps.
    eapply Hok; [by apply kept_payload_buffer|done|done|exact Hnow|lia|exact T3].
  - apply cwp_ret, Hbad; [by apply kept_payload_buffer|by eapply moved_traffic].
Qed.

(** ** The schema *)

Lemma schema_loop_wp n d : forall k c w (Q : Z -> cctx W -> Prop),
  (budget w < fuel)%nat -> buffers_ok c -> 0 <= k <= cc_signal_count c ->
  cc_signal_count c - k <= Z.of_nat n ->
  (forall c' w' es outs ms, same c c' -> cc_can_id_to_index c' = cc_can_id_to_index c ->
     cc_schema c' = take (Z.to_nat k) (cc_schema c) ++ es ->
     chunks (cc_schema_version c) (cc_schema_hash c) (cc_signal_count c) k es outs ms ->
     traffic w w' (wires outs) (wires ms) -> Q 0 (mk_cctx c' w')) ->
  (forall c' w', same c c' -> moved w w' -> Q (-1) (mk_cctx c' w')) ->
  cwp (schema_loop fuel n k d) Q (mk_cctx c w).
Proof.
  induction n as [|n IH]; intros k c w Q Hf Hc Hk Hn Hok Hbad; cbn [schema_loop]; cwp_steps.
  all: destruct (Z.ltb_spec k (cc_signal_count c)) as [Hlt|Hge]; try lia.
  1,3: apply cwp_ret; assert (k = cc_signal_count c) as -> by lia;
    eapply (Hok c w [] [] []); [apply same_refl|done| |constructor|apply traffic_refl];
    rewrite app_nil_r, take_ge by (destruct Hc; unfold zlen in *; lia); done.
  cwp_steps. apply request_page_wp; [done|done| |].
  2: { intros c' w' [Hk' _] Hm. apply cwp_ret. by apply Hbad. }
  intros h p now c1 w1 [Hk1 [Hs1 Ht1]] Hm Ht Hnow B1 T1. cwp_steps.
  pose proof Hm as (_ & _ & _ & _ & Hmax & Hlp & Hbp). cbn [fst snd] in Hlp, Hbp, Hmax.
  same_fields Hk1. rewrite <- Hlp.
  assert (Hp64 : zlen p < 2 ^ 64) by (unfold ROADCAST_MAX_PAYLOAD in Hmax; lia).
  pose proof (decode_schema_chunk_exact p (cc_signal_count c - k) Hbp Hp64) as Hx.
  unfold decodes_exactly in Hx. apply cwp_dec; [by intros E; rewrite E in Hx| |].
  2: { intros _. apply cwp_ret, Hbad; [done|by eapply moved_traffic]. }
  intros ch E. rewrite E in Hx. destruct Hx as [[Hch Hcap] Hpe]. subst p. rewrite Hs1.
  pose proof (bo_schema c Hc) as Hls. pose proof (zlen_nonneg (chunk_entries ch)).
  pose proof (blit_ok (cc_schema c) k (chunk_entries ch) ltac:(lia) ltac:(lia)) as Eb.
  apply cwp_bind. eapply cwp_memm; [exact Eb|]. apply blit_zlen in Eb. cwp_steps.
  set (es' := take (Z.to_nat k) (cc_schema c) ++ _) in *.
  assert (Hk2 : same c (c1 <| cc_schema := es' |>)) by exact Hk1.
  destruct (Z.eqb_spec (chunk_schema_version ch) (cc_schema_version c)) as [H1|];
  destruct (Z.eqb_spec (chunk_schema_hash ch) (cc_schema_hash c)) as [H2|];
  destruct (Z.eqb_spec (chunk_total_count ch) (cc_signal_count c)) as [H3|];
  destruct (Z.eqb_spec (chunk_start_index ch) k) as [H4|];
  destruct (Z.eqb_spec (zlen (chunk_entries ch)) 0) as [H5|H5]; cbn [negb orb];
  try (apply cwp_ret, Hbad; [exact Hk2|by eapply moved_traffic]).
  assert (Hsc : cc_signal_count c <= CLIENT_MAX_SIGNALS) by apply Hc.
  unfold CLIENT_MAX_SIGNALS in Hsc. rewrite u32_id by (unfold is_u32; lia).
  pose proof (traffic_budget _ _ _ _ T1).
  apply IH; [lia| |cbn; same_fields Hk1; lia..| |].
  - apply (same_buffers _ _ Hk2 Hc); cbn; rewrite ?Ht1; done || apply Hc.
  - cbn. same_fields Hk1. intros c' w' es outs ms Hk3 Ht3 Hs3 Hcs T2.
    apply (Hok c' w' (chunk_entries ch ++ es) (request ROADCAST_MSG_GET_SCHEMA (be32 k) now :: outs)
             ((h, schema_chunk_bytes ch) :: ms)).
    + exact (same_trans _ _ _ Hk2 Hk3).
    + congruence.
    + rewrite Hs3. unfold es'. rewrite (assoc_L (++) (take _ _)), take_app_length', <- (assoc_L (++)); [done|].
      rewrite length_app, length_take. unfold zlen in *. lia.
    + apply chunks_next; try done. by intros E0; rewrite E0 in H5.
    + exact (traffic_trans _ _ _ _ _ _ _ T1 T2).
  - intros c' w' Hk3 Hm'. apply Hbad; [exact (same_trans _ _ _ Hk2 Hk3)|].
    eapply moved_trans; [by eapply moved_traffic|done].
Qed.
Lemma request_schema_wp d c w (Q : Z -> cctx W -> Prop) :
  (budget w < fuel)%nat -> buffers_ok c ->
  (forall c' w' outs ms, same c c' -> cc_can_id_to_index c' = cc_can_id_to_index c ->
     chunks (cc_schema_version c) (cc_schema_hash c) (cc_signal_count c) 0 (cc_schema c') outs ms ->
     traffic w w' (wires outs) (wires ms) -> Q 0 (mk_cctx c' w')) ->
  (forall c' w', same c c' -> moved w w' -> Q (-1) (mk_cctx c' w')) ->
  cwp (request_schema fuel d) Q (mk_cctx c w).
Proof.
  intros Hf Hc Hok Hbad. pose proof (bo_signal_count c Hc).
  unfold request_schema. cwp_steps. apply schema_loop_wp; [done|done|lia|lia| |done].
  intros c' w' es outs ms Hs Ht E Hcs T. assert (cc_schema c' = es) as <- by exact E. by eapply Hok.
Qed.

(** ** Snapshots *)

(** The arrays of a synchronization fit the client. *)
Definition sync_ok (c : client_t) (sy : synchronization_t) : Prop :=
  zlen (sy_frames sy) = cc_frame_count c /\ zlen (sy_signals sy) = cc_signal_count c
  /\ Forall frame_ok (sy_frames sy) /\ Forall value_ok (sy_signals sy).

Definition sync_stamp (sy : synchronization_t) : Z * Z * Z :=
  (sy_sample_sequence sy, sy_change_sequence sy, sy_sample_timestamp_ns sy).

Lemma sync_ok_same c c' sy : same c c' -> sync_ok c sy -> sync_ok c' sy.
Proof. intros H (? & ? & ? & ?). unfold sync_ok. same_fields H. by split_and!. Qed.

(** What page [b] at [k] leaves in the frames. *)
Lemma page_frames_ok c sy k (items : list roadcast_frame_t) fs :
  sync_ok c sy -> Forall frame_ok items -> blit (sy_frames sy) k items = Ok fs ->
  sync_ok c (sy <| sy_frames := fs |>).
Proof.
  intros (H1 & H2 & H3 & H4) Hi Hb. split_and!; try done; cbn [sy_frames set].
  - apply blit_zlen in Hb. congruence.
  - unfold blit in Hb. destruct (_ || _); [done|]. injection Hb as <-.
    apply Forall_app. split; [by apply Forall_take|]. apply Forall_app. split; [done|].
    by apply Forall_drop.
Qed.

Lemma page_in_range {A} (item_ok : A -> Prop) (b : batch_t A) total k :
  batch_ok item_ok b -> batch_total_count b = total -> batch_start_index b = k ->
  k < UINT32_MAX -> k + zlen (batch_items b) <= total.
Proof. intros (_ & _ & _ & _ & Hp & _) E1 E2 Hk. unfold page_ok in Hp. lia. Qed.

Lemma frame_loop_wp n d : forall k sy c w (Q : Z * synchronization_t -> cctx W -> Prop),
  (budget w < fuel)%nat -> buffers_ok c -> sync_ok c sy -> 0 <= k <= cc_frame_count c ->
  cc_frame_count c - k <= Z.of_nat n ->
  (forall c' w' sy' items outs ms, kept c c' -> sync_ok c sy' ->
     sy_frames sy' = take (Z.to_nat k) (sy_frames sy) ++ items -> sy_signals sy' = sy_signals sy ->
     (0 < k -> sync_stamp sy' = sync_stamp sy) ->
     frame_pages (cc_frame_count c) (sync_stamp sy') k items outs ms ->
     traffic w w' (wires outs) (wires ms) -> Q (0, sy') (mk_cctx c' w')) ->
  (forall c' w' sy', kept c c' -> sync_ok c sy' -> moved w w' -> Q (-1, sy') (mk_cctx c' w')) ->
  cwp (frame_loop fuel n k d sy) Q (mk_cctx c w).
Proof.
  induction n as [|n IH]; intros k sy c w Q Hf Hc Hsy Hk Hn Hok Hbad; cbn [frame_loop]; cwp_steps.
  all: destruct (Z.ltb_spec k (cc_frame_count c)) as [Hlt|Hge]; try lia.
  1,3: apply cwp_ret; assert (k = cc_frame_count c) as -> by lia;
    eapply (Hok c w sy [] [] []); [apply kept_refl|done| |done|done|constructor|apply traffic_refl];
    rewrite app_nil_r, take_ge by (destruct Hsy; unfold zlen in *; lia); done.
  cwp_steps. apply request_page_wp; [done|done| |].
  2: { intros c' w' Hk' Hm. apply cwp_ret. by apply Hbad. }
  intros h p now c1 w1 Hk1 Hm Ht Hnow B1 T1. cwp_steps. pose proof Hk1 as [Hs1 _].
  pose proof Hm as (_ & _ & _ & _ & _ & Hlp & Hbp). cbn [fst snd] in Hlp, Hbp.
  same_fields Hs1. rewrite <- Hlp.
  pose proof (decode_frame_batch_exact p (cc_frame_count c - k) Hbp) as Hx.
  unfold decodes_exactly in Hx. apply cwp_dec; [by intros E; rewrite E in Hx| |].
  2: { intros _. apply cwp_ret, Hbad; [done|done|by eapply moved_traffic]. }
  intros b E. rewrite E in Hx. destruct Hx as [[Hb Hcap] ->]. clear E.
  pose proof Hb as (_ & _ & _ & _ & _ & Hitems). pose proof Hsy as (Hlf & _).
  pose proof (zlen_nonneg (batch_items b)).
  pose proof (blit_ok (sy_frames sy) k (batch_items b) ltac:(lia) ltac:(lia)) as Eb.
  apply cwp_bind. eapply cwp_memm; [exact Eb|]. cwp_steps.
  pose proof (page_frames_ok c sy k _ _ Hsy Hitems Eb) as Hsy1. clear Eb.
  set (fs' := take (Z.to_nat k) (sy_frames sy) ++ _) in *.
  assert (Hno : forall r sy', r = -1 -> sync_ok c sy' -> cwp (mret (r, sy')) Q (mk_cctx c1 w1)).
  { intros r sy' -> Hs'. apply cwp_ret, Hbad; [done|done|by eapply moved_traffic]. }
  destruct (Z.eqb_spec (batch_total_count b) (cc_frame_count c)) as [H1|]; [|by apply Hno].
  destruct (Z.eqb_spec (batch_start_index b) k) as [H2|]; [|by apply Hno].
  destruct (Z.eqb_spec (zlen (batch_items b)) 0) as [H3|H3]; [by apply Hno|]. cbn [negb orb].
  pose proof (bo_frame_count c Hc) as Hfc. unfold CLIENT_MAX_FRAMES in Hfc.
  rewrite u32_id by (unfold is_u32; lia). pose proof (traffic_budget _ _ _ _ T1).
  assert (Hlen : length (take (Z.to_nat k) (sy_frames sy) ++ batch_items b)
     = Z.to_nat (k + zlen (batch_items b))).
  { rewrite length_app, length_take. unfold zlen in *. lia. }
  assert (Hnext : forall sy1, sync_ok c sy1 -> sy_frames sy1 = fs' -> sy_signals sy1 = sy_signals sy ->
    sync_stamp sy1 = (batch_sample_sequence b, sequence h, timestamp_ns h) ->
    (0 < k -> sync_stamp sy1 = sync_stamp sy) ->
    cwp (frame_loop fuel n (k + zlen (batch_items b)) d sy1) Q (mk_cctx c1 w1)).
  { intros sy1 Hok1 Ef Es Est Hst.
    apply IH; [lia|by eapply kept_buffers|by eapply sync_ok_same|same_fields Hs1; lia..| |].
    - same_fields Hs1. intros c' w' sy' items outs ms Hk2 Hok2 Ef2 Es2 Hst2 Hp T2.
      apply (Hok c' w' sy' (batch_items b ++ items)
               (request ROADCAST_MSG_GET_SNAPSHOT (be32 k) now :: outs) ((h, frame_batch_bytes b) :: ms)).
      + exact (kept_trans _ _ _ Hk1 Hk2).
      + exact Hok2.
      + rewrite Ef2, Ef. unfold fs'. rewrite (assoc_L (++) (take _ _)), take_app_length', <- (assoc_L (++)); done.
      + congruence.
      + intros Hk0. rewrite Hst2 by lia. by apply Hst.
      + apply pages_next; try done; [by intros E0; rewrite E0 in H3|]. by rewrite Hst2 by lia.
      + exact (traffic_trans _ _ _ _ _ _ _ T1 T2).
    - intros c' w' sy' Hk2 Hok2 Hm2. apply Hbad; [exact (kept_trans _ _ _ Hk1 Hk2)| |].
      + exact (sync_ok_same _ _ _ (same_sym _ _ Hs1) Hok2).
      + eapply moved_trans; [by eapply moved_traffic|done]. }
  destruct (Z.eqb_spec k 0) as [->|Hk0].
  - apply Hnext; [exact Hsy1|done..|lia].
  - cbn [set sy_sample_sequence sy_change_sequence sy_sample_timestamp_ns].
    destruct (Z.eqb_spec (batch_sample_sequence b) (sy_sample_sequence sy)) as [E1|]; [|by apply Hno].
    destruct (Z.eqb_spec (sequence h) (sy_change_sequence sy)) as [E2|]; [|by apply Hno].
    destruct (Z.eqb_spec (timestamp_ns h) (sy_sample_timestamp_ns sy)) as [E3|]; [|by apply Hno].
    cbn [negb orb]. apply Hnext; [exact Hsy1|done|done| |done]. unfold sync_stamp. cbn. congruence.
Qed.
Lemma request_frame_snapshot_wp d sy c w (Q : Z * synchronization_t -> cctx W -> Prop) :
  (budget w < fuel)%nat -> buffers_ok c -> sync_ok c sy ->
  (forall c' w' sy' outs ms, same c c' -> buffers_ok c' -> cc_schema c' = cc_schema c ->
     table_over (cc_can_id_to_index c) (sy_frames sy') (cc_can_id_to_index c') ->
     sync_ok c sy' -> sy_signals sy' = sy_signals sy ->
     frame_pages (cc_frame_count c) (sync_stamp sy') 0 (sy_frames sy') outs ms ->
     traffic w w' (wires outs) (wires ms) -> Q (0, sy') (mk_cctx c' w')) ->
  (forall c' w' sy', kept c c' -> sync_ok c sy' -> moved w w' -> Q (-1, sy') (mk_cctx c' w')) ->
  cwp (request_frame_snapshot fuel sy d) Q (mk_cctx c w).
Proof.
  intros Hf Hc Hsy Hok Hbad. pose proof (bo_frame_count c Hc) as Hfc.
  unfold request_frame_snapshot. cwp_steps. apply frame_loop_wp; [done|done|done|lia|lia| |].
  2: { intros c' w' sy' Hk Hs Hm. cwp_steps. cbn [Z.ltb Z.compare]. apply cwp_ret. by apply Hbad. }
  intros c' w' sy' items outs ms Hk Hsy' Ef Es _ Hp T. cwp_steps. cbn [Z.ltb Z.compare]. cwp_steps.
  assert (sy_frames sy' = items) as <- by exact Ef. pose proof Hk as (Hs & Esc & Et).
  pose proof Hsy' as (Hl & _ & Hfo & _). same_fields Hs. rewrite Et.
  destruct (index_frames (sy_frames sy') (cc_can_id_to_index c) (cc_frame_count c))
    as (t & Hloop & Hover); [apply Hc|done|lia|done|].
  eapply cwp_memm; [exact Hloop|]. cwp_steps.
  assert (Hu : u16s t).
  { eapply table_over_u16; [apply (bo_table_u16 c Hc)| |exact Hover]. lia. }
  apply (Hok _ _ _ outs ms); try done.
  apply (same_buffers c); [exact Hs|exact Hc|cbn; by rewrite Esc|cbn|exact Hu].
  destruct Hover as [-> _]. symmetry. apply Hc.
Qed.

(** The items of the signal pages are the values in the order of their indices. *)
Definition numbered (k : Z) (us : list roadcast_signal_update_t) : Prop :=
  map upd_index us = seqZ k (zlen us).

Lemma numbered_app k us vs :
  numbered k us -> numbered (k + zlen us) vs -> numbered k (us ++ vs).
Proof.
  unfold numbered. intros H1 H2. rewrite map_app, zlen_app, H1, H2.
  rewrite seqZ_app; [done|apply zlen_nonneg..].
Qed.

Lemma signal_loop_wp n d : forall k sy c w (Q : Z * synchronization_t -> cctx W -> Prop),
  (budget w < fuel)%nat -> buffers_ok c -> sync_ok c sy -> 0 <= k <= cc_signal_count c ->
  cc_signal_count c - k <= Z.of_nat n ->
  (forall c' w' us outs ms, kept c c' ->
     let sy' := sy <| sy_signals := take (Z.to_nat k) (sy_signals sy) ++ map upd_value us |> in
     sync_ok c sy' -> numbered k us ->
     signal_pages (cc_signal_count c) (sync_stamp sy) k us outs ms ->
     traffic w w' (wires outs) (wires ms) -> Q (0, sy') (mk_cctx c' w')) ->
  (forall c' w' sy', kept c c' -> sync_ok c sy' -> moved w w' -> Q (-1, sy') (mk_cctx c' w')) ->
  cwp (signal_loop fuel n k d sy) Q (mk_cctx c w).
Proof.
  induction n as [|n IH]; intros k sy c w Q Hf Hc Hsy Hk Hn Hok Hbad; cbn [signal_loop]; cwp_steps.
  all: destruct (Z.ltb_spec k (cc_signal_count c)) as [Hlt|Hge]; try lia.
  1,3: apply cwp_ret; assert (k = cc_signal_count c) as -> by lia;
    specialize (Hok c w [] [] [] (kept_refl c)); cbn [map] in Hok;
    rewrite app_nil_r, take_ge in Hok by (destruct Hsy as (? & ? & _); unfold zlen in *; lia);
    replace (sy <| sy_signals := sy_signals sy |>) with sy in Hok by (by destruct sy);
    apply Hok; [done|done|constructor|apply traffic_refl].
  cwp_steps. apply request_page_wp; [done|done| |].
  2: { intros c' w' Hk' Hm. apply cwp_ret. by apply Hbad. }
  intros h p now c1 w1 Hk1 Hm Ht Hnow B1 T1. cwp_steps. pose proof Hk1 as [Hs1 _].
  assert (Hno : forall c' sy', kept c c' -> sync_ok c sy' ->
    cwp (mret (-1, sy')) Q (mk_cctx c' w1)).
  { intros c' sy' Hk' Hs'. apply cwp_ret, Hbad; [done|done|by eapply moved_traffic]. }
  destruct (Z.eqb_spec (sequence h) (sy_change_sequence sy)) as [E1|]; [|by apply Hno].
  destruct (Z.eqb_spec (timestamp_ns h) (sy_sample_timestamp_ns sy)) as [E2|]; [|by apply Hno].
  cbn [negb orb]. cwp_steps.
  pose proof Hm as (_ & _ & _ & _ & _ & Hlp & Hbp). cbn [fst snd] in Hlp, Hbp.
  same_fields Hs1. rewrite <- Hlp.
  pose proof (decode_signal_batch_exact p (cc_signal_scratch_capacity c) Hbp) as Hx.
  unfold decodes_exactly in Hx. apply cwp_dec; [by intros E; rewrite E in Hx| |].
  2: { intros _. by apply Hno. }
  intros b E. rewrite E in Hx. destruct Hx as [[Hb Hcap] ->]. clear E.
  pose proof Hb as (_ & _ & _ & _ & _ & Hitems). pose proof Hsy as (_ & Hls & _ & Hvo).
  pose proof (zlen_nonneg (batch_items b)).
  assert (Hsc : zlen (cc_signal_scratch c1) = cc_signal_scratch_capacity c).
  { destruct Hs1 as (_ & _ & _ & ->). apply Hc. }
  pose proof (blit_start (cc_signal_scratch c1) (batch_items b) ltac:(lia)) as Eb.
  apply cwp_bind. eapply cwp_memm; [exact Eb|]. apply blit_zlen in Eb. cwp_steps.
  assert (Hk2 : kept c (c1 <| cc_signal_scratch := batch_items b
      ++ drop (length (batch_items b)) (cc_signal_scratch c1) |>)).
  { eapply kept_trans; [exact Hk1|]. by apply kept_signal_buffer. }
  destruct (Z.eqb_spec (batch_sample_sequence b) (sy_sample_sequence sy)) as [E3|]; [|by apply Hno].
  destruct (Z.eqb_spec (batch_total_count b) (cc_signal_count c)) as [H1|]; [|by apply Hno].
  destruct (Z.eqb_spec (batch_start_index b) k) as [H2|]; [|by apply Hno].
  destruct (Z.eqb_spec (zlen (batch_items b)) 0) as [H3|H3]; [by apply Hno|]. cbn [negb orb].
  pose proof (bo_signal_count c Hc) as Hfc. unfold CLIENT_MAX_SIGNALS in Hfc.
  pose proof (page_in_range _ b _ k Hb H1 H2 ltac:(unfold UINT32_MAX; lia)) as Hin.
  apply cwp_bind. eapply cwp_memm.
  { apply (has_slice _ _ (batch_items b)); [by eapply has_prefix|done]. }
  destruct (store_page_spec k (cc_signal_count c) (batch_items b) 0 (sy_signals sy))
    as (r & vs & Est & Hr & Hlv & Hvs & Hr0); [done|done|done|lia|lia|].
  apply cwp_bind. eapply cwp_memm; [exact Est|]. cbv beta iota.
  assert (Hsy1 : sync_ok c (sy <| sy_signals := vs |>)) by (destruct Hsy as (? & ? & ? & ?); by split_and!).
  destruct Hr as [->| ->]; cbn [Z.ltb Z.compare]; [|by apply Hno].
  destruct (Hr0 eq_refl) as [Hnum Hvs']. rewrite Z.add_0_r in Hnum, Hvs'.
  rewrite u32_id by (unfold is_u32; lia). pose proof (traffic_budget _ _ _ _ T1).
  pose proof Hk2 as [Hs2 _].
  apply IH; [lia|by eapply kept_buffers|by eapply sync_ok_same|same_fields Hs2; cbn; same_fields Hs1; lia..| |].
  - intros c' w' us outs ms Hk3 sy' Hsy' Hnum' Hp T2.
    assert (Esy : sy' = sy <| sy_signals := take (Z.to_nat k) (sy_signals sy)
                              ++ map upd_value (batch_items b ++ us) |>).
    { unfold sy'. cbn [set sy_signals]. rewrite Hvs', map_app, !(assoc_L (++)).
      rewrite take_app_length'; [done|]. rewrite length_app, length_take, length_map. unfold zlen in *. lia. }
    rewrite Esy. apply (Hok c' w' (batch_items b ++ us)
      (request ROADCAST_MSG_GET_SIGNAL_SNAPSHOT (be32 k) now :: outs) ((h, signal_batch_bytes b) :: ms)).
    + exact (kept_trans _ _ _ Hk2 Hk3).
    + cbv zeta. rewrite <- Esy. exact (sync_ok_same _ _ _ (same_sym _ _ Hs2) Hsy').
    + by apply numbered_app.
    + apply pages_next; try done; [by intros E0; rewrite E0 in H3|unfold sync_stamp; congruence|].
      rewrite (same_field cc_signal_count _ _ Hs2 (fun _ => eq_refl)) in Hp. exact Hp.
    + exact (traffic_trans _ _ _ _ _ _ _ T1 T2).
  - intros c' w' sy' Hk3 Hok2 Hm2. apply Hbad; [exact (kept_trans _ _ _ Hk2 Hk3)| |].
    + exact (sync_ok_same _ _ _ (same_sym _ _ Hs2) Hok2).
    + eapply moved_trans; [by eapply moved_traffic|done].
Qed.

Lemma request_signal_snapshot_wp d sy c w (Q : Z * synchronization_t -> cctx W -> Prop) :
  (budget w < fuel)%nat -> buffers_ok c -> sync_ok c sy ->
  (forall c' w' us outs ms, kept c c' ->
     let sy' := sy <| sy_signals := map upd_value us |> in sync_ok c sy' -> numbered 0 us ->
     signal_pages (cc_signal_count c) (sync_stamp sy) 0 us outs ms ->
     traffic w w' (wires outs) (wires ms) -> Q (0, sy') (mk_cctx c' w')) ->
  (forall c' w' sy', kept c c' -> sync_ok c sy' -> moved w w' -> Q (-1, sy') (mk_cctx c' w')) ->
  cwp (request_signal_snapshot fuel sy d) Q (mk_cctx c w).
Proof.
  intros Hf Hc Hsy Hok Hbad. pose proof (bo_signal_count c Hc).
  unfold request_signal_snapshot. cwp_steps. by apply signal_loop_wp; [done|done|done|lia|lia| |].
Qed.
End Sync.
