(* ===== verification/ClientLive.v ===== *)
(** * Updates of the client library: src/client.c, [decode_frame_batch] to
      [reader_thread_main]

    For whatever the peer sends, the library applies a message of update_all as
    [update_cache] says or refuses it, a synchronization leaves a complete and
    consistent copy, and the reader thread ends with the client disconnected and
    its arrays intact. *)

From S2P Require Import Prelude Wire CatalogDefs Catalog SourceSession Sampler.
From S2P Require Import ClientDefs ClientOps ClientIo ClientCache ClientSync.

(** ** Decoding into the scratch buffers *)

Lemma frame_capacity_enough c n :
  buffers_ok c -> n <= cc_payload_capacity c ->
  n < ROADCAST_BATCH_PREFIX_SIZE + ROADCAST_FRAME_WIRE_SIZE * (cc_frame_scratch_capacity c + 1).
Proof.
  intros Hc Hn. rewrite (bo_frame_capacity c Hc).
  unfold ROADCAST_BATCH_PREFIX_SIZE, ROADCAST_FRAME_WIRE_SIZE. div_lia.
Qed.

Lemma signal_capacity_enough c n :
  buffers_ok c -> n <= cc_payload_capacity c ->
  n < ROADCAST_BATCH_PREFIX_SIZE + ROADCAST_SIGNAL_WIRE_SIZE * (cc_signal_scratch_capacity c + 1).
Proof.
  intros Hc Hn. rewrite (bo_signal_capacity c Hc).
  unfold ROADCAST_BATCH_PREFIX_SIZE, ROADCAST_SIGNAL_WIRE_SIZE. div_lia.
Qed.

Section Live.
Context {W : Type} `{K : !Clock W} `{N : !Socket W} `{HN : !SocketOk N K} (fuel : nat).
Implicit Types (s : cctx W) (w : W).

(** The message [m] is in the payload buffer. *)
Definition holds_message (c : client_t) (m : msg) : Prop :=
  message_ok (cc_payload_capacity c) m /\ slice (cc_payload c) 0 (payload_bytes m.1) = Ok m.2.

Lemma decode_frame_batch_wp h p c w (Q : option (Z * Z) -> cctx W -> Prop) :
  buffers_ok c -> holds_message c (h, p) ->
  (forall b buf, zlen buf = zlen (cc_frame_scratch c) -> batch_ok frame_ok b ->
     roadcast_decode_frame_batch p (zlen p) UINT16_MAX = Ok b -> delta b (cc_frame_count c) = true ->
     slice buf 0 (zlen (batch_items b)) = Ok (batch_items b) ->
     Q (Some (batch_sample_sequence b, zlen (batch_items b)))
       (mk_cctx (c <| cc_frame_scratch := buf |>) w)) ->
  (forall buf, zlen buf = zlen (cc_frame_scratch c) ->
     (forall b, roadcast_decode_frame_batch p (zlen p) UINT16_MAX = Ok b ->
        delta b (cc_frame_count c) = false) ->
     Q None (mk_cctx (c <| cc_frame_scratch := buf |>) w)) ->
  cwp (decode_frame_batch h) Q (mk_cctx c w).
Proof.
  intros Hc [(_ & _ & _ & Hcap & _ & Hlp & Hbp) Hsl] Hok Hbad. cbn [fst snd] in *.
  unfold decode_frame_batch. cwp_steps. eapply message_payload_wp; [exact Hsl|]. cwp_steps.
  rewrite <- Hlp. rewrite decode_frames_capacity; [|done|apply frame_capacity_enough; [done|lia]].
  pose proof (decode_frame_batch_exact p UINT16_MAX Hbp) as Hx. unfold decodes_exactly in Hx.
  pose proof (frame_capacity_enough c (zlen p) Hc ltac:(lia)) as Henough.
  apply cwp_dec; [by intros E; rewrite E in Hx| |].
  2: { intros E. apply cwp_ret. replace c with (c <| cc_frame_scratch := cc_frame_scratch c |>)
         by (by destruct c). apply Hbad; [done|]. intros b Hb. by rewrite E in Hb. }
  intros b E. rewrite E in Hx. destruct Hx as [[Hb _] ->].
  assert (Hfit : zlen (batch_items b) <= zlen (cc_frame_scratch c)).
  { rewrite zlen_frame_batch in Henough.
    - rewrite (bo_frame_scratch c Hc).
      unfold ROADCAST_BATCH_PREFIX_SIZE, ROADCAST_FRAME_WIRE_SIZE in *. lia.
    - destruct Hb as (_ & _ & _ & _ & _ & Hi). revert Hi. apply Forall_impl. by intros f (_ & _ & ? & _). }
  pose proof (blit_start (cc_frame_scratch c) (batch_items b) Hfit) as Eb.
  apply cwp_bind. eapply cwp_memm; [exact Eb|]. apply blit_zlen in Eb. cwp_steps.
  assert (Ed : delta b (cc_frame_count c)
     = negb (negb (batch_total_count b =? cc_frame_count c) || negb (batch_start_index b =? UINT32_MAX))).
  { unfold delta. by rewrite negb_orb, !negb_involutive. }
  destruct (negb (batch_total_count b =? _) || _).
  - apply cwp_ret, Hbad; [done|]. intros b' Hb'. rewrite E in Hb'. by injection Hb' as <-.
  - apply cwp_ret, Hok; try done. apply has_slice; [by eapply has_prefix|done].
Qed.

Lemma decode_signal_batch_wp h p c w (Q : option (Z * Z) -> cctx W -> Prop) :
  buffers_ok c -> holds_message c (h, p) ->
  (forall b buf, zlen buf = zlen (cc_signal_scratch c) -> batch_ok update_ok b ->
     roadcast_decode_signal_batch p (zlen p) UINT16_MAX = Ok b -> delta b (cc_signal_count c) = true ->
     slice buf 0 (zlen (batch_items b)) = Ok (batch_items b) ->
     Q (Some (batch_sample_sequence b, zlen (batch_items b)))
       (mk_cctx (c <| cc_signal_scratch := buf |>) w)) ->
  (forall buf, zlen buf = zlen (cc_signal_scratch c) ->
     (forall b, roadcast_decode_signal_batch p (zlen p) UINT16_MAX = Ok b ->
        delta b (cc_signal_count c) = false) ->
     Q None (mk_cctx (c <| cc_signal_scratch := buf |>) w)) ->
  cwp (decode_signal_batch h) Q (mk_cctx c w).
Proof.
  intros Hc [(_ & _ & _ & Hcap & _ & Hlp & Hbp) Hsl] Hok Hbad. cbn [fst snd] in *.
  unfold decode_signal_batch. cwp_steps. eapply message_payload_wp; [exact Hsl|]. cwp_steps.
  rewrite <- Hlp. rewrite decode_signals_capacity; [|done|apply signal_capacity_enough; [done|lia]].
  pose proof (decode_signal_batch_exact p UINT16_MAX Hbp) as Hx. unfold decodes_exactly in Hx.
  pose proof (signal_capacity_enough c (zlen p) Hc ltac:(lia)) as Henough.
  apply cwp_dec; [by intros E; rewrite E in Hx| |].
  2: { intros E. apply cwp_ret. replace c with (c <| cc_signal_scratch := cc_signal_scratch c |>)
         by (by destruct c). apply Hbad; [done|]. intros b Hb. by rewrite E in Hb. }
  intros b E. rewrite E in Hx. destruct Hx as [[Hb _] ->].
  assert (Hfit : zlen (batch_items b) <= zlen (cc_signal_scratch c)).
  { rewrite zlen_signal_batch in Henough. rewrite (bo_signal_scratch c Hc).
    unfold ROADCAST_BATCH_PREFIX_SIZE, ROADCAST_SIGNAL_WIRE_SIZE in *. lia. }
  pose proof (blit_start (cc_signal_scratch c) (batch_items b) Hfit) as Eb.
  apply cwp_bind. eapply cwp_memm; [exact Eb|]. apply blit_zlen in Eb. cwp_steps.
  assert (Ed : delta b (cc_signal_count c)
     = negb (negb (batch_total_count b =? cc_signal_count c) || negb (batch_start_index b =? UINT32_MAX))).
  { unfold delta. by rewrite negb_orb, !negb_involutive. }
  destruct (negb (batch_total_count b =? _) || _).
  - apply cwp_ret, Hbad; [done|]. intros b' Hb'. rewrite E in Hb'. by injection Hb' as <-.
  - apply cwp_ret, Hok; try done. apply has_slice; [by eapply has_prefix|done].
Qed.

(** ** Applying a message to a synchronization *)

(** The result of applying the message to [sy]. *)
Definition applies (c : client_t) (sy : synchronization_t) (m : msg) (r : Z)
    (sy' : synchronization_t) : Prop :=
  status r /\ sync_ok c sy'
  /\ (table_for (sy_frames sy) (cc_can_id_to_index c) ->
      match update_cache sy m with Some sy1 => r = 0 /\ sy' = sy1 | None => r = -1 end).

Lemma apply_decoded_frames_wp sy h p b c w (Q : Z * synchronization_t -> cctx W -> Prop) :
  buffers_ok c -> sync_ok c sy -> type h = ROADCAST_MSG_UPDATE_BATCH -> batch_ok frame_ok b ->
  roadcast_decode_frame_batch p (zlen p) UINT16_MAX = Ok b -> delta b (cc_frame_count c) = true ->
  slice (cc_frame_scratch c) 0 (zlen (batch_items b)) = Ok (batch_items b) ->
  (forall r sy', applies c sy (h, p) r sy' -> Q (r, sy') (mk_cctx c w)) ->
  cwp (apply_decoded_frames sy h (batch_sample_sequence b) (zlen (batch_items b))) Q (mk_cctx c w).
Proof.
  intros Hc (Hl1 & Hl2 & Hf & Hv) Ht Hb Hd Hdelta Hs HQ. unfold apply_decoded_frames. cwp_steps.
  eapply cwp_memm; [exact Hs|]. pose proof Hb as (_ & _ & _ & _ & _ & Hi).
  pose proof (bo_frame_count c Hc) as Hfc.
  destruct (store_frames_safe (batch_items b) (cc_can_id_to_index c) (cc_frame_count c) (sy_frames sy))
    as (r & fs & Est & Hr & Hlf & Hfo); [done|apply Hc|apply Hc|done|lia|done|].
  apply cwp_bind. eapply cwp_memm; [exact Est|]. cbv beta iota.
  assert (Hap : applies c sy (h, p) r (if r <? 0 then sy <| sy_frames := fs |>
    else stamp_sync (sy <| sy_frames := fs |>) (batch_sample_sequence b) h)).
  { split; [done|]. split; [by destruct (r <? 0); split_and!|]. intros Htab.
    destruct (store_frames_replace (batch_items b) (cc_can_id_to_index c) (cc_frame_count c)
      (sy_frames sy)) as (r' & fs' & Est' & Hrep); [done|done|done|lia|].
    rewrite Est in Est'. injection Est' as <- <-. unfold update_cache. cbn [fst snd].
    rewrite Ht, Hd, Hl1, Hdelta. cbn [Z.eqb Pos.eqb].
    destruct (replace_frames (sy_frames sy) (batch_items b)) as [gs|]; [|done].
    by destruct Hrep as [-> ->]. }
  destruct Hr as [->| ->]; apply cwp_ret, HQ; exact Hap.
Qed.

Lemma apply_decoded_signals_wp sy h p b c w (Q : Z * synchronization_t -> cctx W -> Prop) :
  buffers_ok c -> sync_ok c sy -> type h = ROADCAST_MSG_SIGNAL_UPDATE_BATCH ->
  batch_ok update_ok b ->
  roadcast_decode_signal_batch p (zlen p) UINT16_MAX = Ok b -> delta b (cc_signal_count c) = true ->
  slice (cc_signal_scratch c) 0 (zlen (batch_items b)) = Ok (batch_items b) ->
  (forall r sy', applies c sy (h, p) r sy' -> Q (r, sy') (mk_cctx c w)) ->
  cwp (apply_decoded_signals sy h (batch_sample_sequence b) (zlen (batch_items b))) Q (mk_cctx c w).
Proof.
  intros Hc (Hl1 & Hl2 & Hf & Hv) Ht Hb Hd Hdelta Hs HQ. unfold apply_decoded_signals. cwp_steps.
  eapply cwp_memm; [exact Hs|]. pose proof Hb as (_ & _ & _ & _ & _ & Hi).
  destruct (store_signals_replace (batch_items b) (cc_signal_count c) (sy_signals sy))
    as (r & vs & Est & Hr & Hlv & Hvo & Hrep); [done|done|done|].
  apply cwp_bind. eapply cwp_memm; [exact Est|]. cbv beta iota.
  assert (Hap : applies c sy (h, p) r (if r <? 0 then sy <| sy_signals := vs |>
    else stamp_sync (sy <| sy_signals := vs |>) (batch_sample_sequence b) h)).
  { split; [done|]. split; [by destruct (r <? 0); split_and!|]. intros _.
    unfold update_cache. cbn [fst snd]. rewrite Ht, Hd, Hl2, Hdelta. cbn [Z.eqb Pos.eqb].
    destruct (replace_signals (sy_signals sy) (batch_items b)) as [gs|]; [|done].
    by destruct Hrep as [-> ->]. }
  destruct Hr as [->| ->]; apply cwp_ret, HQ; exact Hap.
Qed.

(** A batch the decoder or the page check refuses. *)
Lemma refused_frames c sy h p :
  sync_ok c sy -> type h = ROADCAST_MSG_UPDATE_BATCH ->
  (forall b, roadcast_decode_frame_batch p (zlen p) UINT16_MAX = Ok b ->
     delta b (cc_frame_count c) = false) ->
  update_cache sy (h, p) = None.
Proof.
  intros (Hl & _) Ht Hd. unfold update_cache. cbn [fst snd]. rewrite Ht, Hl. cbn [Z.eqb Pos.eqb].
  destruct (roadcast_decode_frame_batch p (zlen p) UINT16_MAX) as [b| |]; [|done..].
  by rewrite (Hd b eq_refl).
Qed.

Lemma refused_signals c sy h p :
  sync_ok c sy -> type h = ROADCAST_MSG_SIGNAL_UPDATE_BATCH ->
  (forall b, roadcast_decode_signal_batch p (zlen p) UINT16_MAX = Ok b ->
     delta b (cc_signal_count c) = false) ->
  update_cache sy (h, p) = None.
Proof.
  intros (_ & Hl & _) Ht Hd. unfold update_cache. cbn [fst snd]. rewrite Ht, Hl. cbn [Z.eqb Pos.eqb].
  destruct (roadcast_decode_signal_batch p (zlen p) UINT16_MAX) as [b| |]; [|done..].
  by rewrite (Hd b eq_refl).
Qed.

Lemma refused_applies c sy m : sync_ok c sy -> update_cache sy m = None -> applies c sy m (-1) sy.
Proof. intros Hs Hu. split; [by right|]. split; [done|]. by rewrite Hu. Qed.

(** [apply_frame_batch] and [apply_signal_batch]. *)
Lemma apply_frame_batch_wp sy h p c w (Q : Z * synchronization_t -> cctx W -> Prop) :
  buffers_ok c -> sync_ok c sy -> type h = ROADCAST_MSG_UPDATE_BATCH -> holds_message c (h, p) ->
  (forall c' r sy', kept c c' -> applies c sy (h, p) r sy' -> Q (r, sy') (mk_cctx c' w)) ->
  cwp (apply_frame_batch sy h) Q (mk_cctx c w).
Proof.
  intros Hc Hsy Ht Hm HQ. unfold apply_frame_batch. apply cwp_bind.
  eapply (decode_frame_batch_wp h p c w); [done|done| |].
  - intros b buf Hl Hb Hd Hdelta Hs. apply (apply_decoded_frames_wp sy h p b); try done.
    + eapply kept_buffers; [by apply kept_frame_buffer|done].
    + intros r sy' Ha. apply HQ; [by apply kept_frame_buffer|exact Ha].
  - intros buf Hl Hd. apply cwp_ret, HQ; [by apply kept_frame_buffer|].
    apply refused_applies; [done|by eapply refused_frames].
Qed.

Lemma apply_signal_batch_wp sy h p c w (Q : Z * synchronization_t -> cctx W -> Prop) :
  buffers_ok c -> sync_ok c sy -> type h = ROADCAST_MSG_SIGNAL_UPDATE_BATCH ->
  holds_message c (h, p) ->
  (forall c' r sy', kept c c' -> applies c sy (h, p) r sy' -> Q (r, sy') (mk_cctx c' w)) ->
  cwp (apply_signal_batch sy h) Q (mk_cctx c w).
Proof.
  intros Hc Hsy Ht Hm HQ. unfold apply_signal_batch. apply cwp_bind.
  eapply (decode_signal_batch_wp h p c w); [done|done| |].
  - intros b buf Hl Hb Hd Hdelta Hs. apply (apply_decoded_signals_wp sy h p b); try done.
    + eapply kept_buffers; [by apply kept_signal_buffer|done].
    + intros r sy' Ha. apply HQ; [by apply kept_signal_buffer|exact Ha].
  - intros buf Hl Hd. apply cwp_ret, HQ; [by apply kept_signal_buffer|].
    apply refused_applies; [done|by eapply refused_signals].
Qed.
(** ** The subscription *)

Lemma update_cache_ids sy m sy' :
  update_cache sy m = Some sy' -> map can_id (sy_frames sy') = map can_id (sy_frames sy).
Proof.
  unfold update_cache. destruct (_ =? _).
  - destruct (roadcast_decode_frame_batch _ _ _) as [b| |]; [|done..]. destruct (delta _ _); [|done].
    destruct (replace_frames _ _) as [fs|] eqn:E; [|done]. intros [= <-].
    by apply replace_frames_ids in E.
  - destruct (_ =? _); [|done]. destruct (roadcast_decode_signal_batch _ _ _) as [b| |]; [|done..].
    destruct (delta _ _); [|done]. destruct (replace_signals _ _) as [vs|]; [|done]. by intros [= <-].
Qed.

Lemma update_all_ids ms : forall sy sy',
  update_all sy ms = Some sy' -> map can_id (sy_frames sy') = map can_id (sy_frames sy).
Proof.
  induction ms as [|m ms IH]; intros sy sy' H; cbn in H; [by injection H as <-|].
  destruct (update_cache sy m) as [sy1|] eqn:E; [|done]. cbn in H.
  rewrite (IH _ _ H). by eapply update_cache_ids.
Qed.

(** What the acknowledgement of the subscription leaves. *)
Definition acknowledged (sy : synchronization_t) (h : roadcast_header_t) : synchronization_t :=
  sy <| sy_change_sequence := sequence h |> <| sy_sample_timestamp_ns := timestamp_ns h |>.

Lemma sync_ok_acknowledged c sy h : sync_ok c sy -> sync_ok c (acknowledged sy h).
Proof. intros (? & ? & ? & ?). by split_and!. Qed.

Lemma subscription_loop_wp n d : forall sy c w (Q : Z * synchronization_t -> cctx W -> Prop),
  (budget w < n)%nat -> (budget w < fuel)%nat -> buffers_ok c -> sync_ok c sy ->
  (forall c' w' sy' ups m, kept c c' -> sync_ok c sy' ->
     (table_for (sy_frames sy) (cc_can_id_to_index c) -> update_all sy ups = Some sy') ->
     type m.1 = ROADCAST_MSG_SUBSCRIBED -> traffic w w' [] (wires (ups ++ [m])) ->
     Q (0, acknowledged sy' m.1) (mk_cctx c' w')) ->
  (forall c' w' sy', kept c c' -> moved w w' -> Q (-1, sy') (mk_cctx c' w')) ->
  cwp (subscription_loop fuel n sy d) Q (mk_cctx c w).
Proof.
  induction n as [|n IH]; intros sy c w Q Hn Hf Hc Hsy Hok Hbad; [lia|]. cbn [subscription_loop].
  apply cwp_bind, read_message_wp; [done|apply Hc| |].
  2: { intros buf bs w' Hm%moved_traffic _ Hl. apply cwp_ret, Hbad; [by apply kept_payload_buffer|done]. }
  intros h p buf w1 Hm T1 B1 Hl Hs. set (c1 := c <| cc_payload := buf |>) in *.
  pose proof (kept_payload_buffer c buf Hl) as Hk1. fold c1 in Hk1.
  assert (Hc1 : buffers_ok c1) by (by eapply kept_buffers).
  assert (Hh : holds_message c1 (h, p)) by done.
  assert (Hsy1 : sync_ok c1 sy) by done.
  (* after the update the loop goes on *)
  assert (Hgo : forall c2 r sy2, kept c1 c2 -> applies c1 sy (h, p) r sy2 ->
    cwp (if r <? 0 then mret (-1, sy2) else subscription_loop fuel n sy2 d) Q (mk_cctx c2 w1)).
  { intros c2 r sy2 Hk2 (Hr & Hsy2 & Hup). pose proof (kept_trans _ _ _ Hk1 Hk2) as Hk3.
    destruct Hr as [->| ->]; cbn [Z.ltb Z.compare].
    2: { apply cwp_ret, Hbad; [done|by eapply moved_traffic]. }
    pose proof Hk3 as (Hs3 & _ & Ht3).
    apply IH; [lia|lia|by eapply kept_buffers|by eapply sync_ok_same| |].
    - intros c' w' sy' ups m Hk4 Hsy' Hups Hty T2. rewrite Ht3 in Hups.
      apply (Hok c' w' sy' ((h, p) :: ups) m); [exact (kept_trans _ _ _ Hk3 Hk4)
        |exact (sync_ok_same _ _ _ (same_sym _ _ Hs3) Hsy')| |done|].
      + intros Htab. specialize (Hup Htab). cbn [update_all].
        destruct (update_cache sy (h, p)) as [sy3|] eqn:E; [|lia]. destruct Hup as [_ ->]. cbn.
        apply Hups. eapply table_over_ids; [|exact Htab]. symmetry. by eapply update_cache_ids.
      + exact (traffic_trans _ _ _ _ _ _ _ T1 T2).
    - intros c' w' sy' Hk4 Hm4. apply Hbad; [exact (kept_trans _ _ _ Hk3 Hk4)|].
      eapply moved_trans; [by eapply moved_traffic|done]. }
  destruct (Z.eqb_spec (type h) ROADCAST_MSG_SUBSCRIBED) as [Ht|_].
  { apply cwp_ret. apply (Hok c1 w1 sy [] (h, p)); try done.
    unfold wires. cbn [map concat app]. by rewrite app_nil_r. }
  destruct (Z.eqb_spec (type h) ROADCAST_MSG_UPDATE_BATCH) as [Ht|_].
  { apply cwp_bind. by apply (apply_frame_batch_wp sy h p c1). }
  destruct (Z.eqb_spec (type h) ROADCAST_MSG_SIGNAL_UPDATE_BATCH) as [Ht|_].
  { apply cwp_bind. by apply (apply_signal_batch_wp sy h p c1). }
  apply cwp_ret, Hbad; [done|by eapply moved_traffic].
Qed.

(** ** Synchronization *)

(** The state the pages carried. *)
Definition snapshot (at_ : Z * Z * Z) (fs : list roadcast_frame_t)
    (us : list roadcast_signal_update_t) : synchronization_t :=
  mk_sync fs (map upd_value us) at_.1.1 at_.1.2 at_.2.

(** The transcript of a synchronization: the pages of the frames and of the
    signals under one stamp, the updates, the acknowledgement.  The updates go to
    the frames with their ids when the entries of the old table [t0] agree with
    the snapshot. *)
Inductive transcript (fc sc : Z) (t0 : list Z)
  : synchronization_t -> list msg -> list msg -> Prop :=
  | transcript_intro fs us at_ outs1 ms1 outs2 ms2 ups sy now m :
      frame_pages fc at_ 0 fs outs1 ms1 -> signal_pages sc at_ 0 us outs2 ms2 ->
      numbered 0 us ->
      ((forall t, table_over t0 fs t -> table_for fs t) ->
       update_all (snapshot at_ fs us) ups = Some sy) ->
      is_u64 now -> type m.1 = ROADCAST_MSG_SUBSCRIBED ->
      transcript fc sc t0 (acknowledged sy m.1)
        (outs1 ++ outs2 ++ [request ROADCAST_MSG_SUBSCRIBE_ALL [] now])
        (ms1 ++ ms2 ++ ups ++ [m]).

Lemma wires_one m : wires [m] = wire m.
Proof. unfold wires. cbn [map concat]. by rewrite app_nil_r. Qed.

Lemma synchronize_wp d sy c w (Q : Z * synchronization_t -> cctx W -> Prop) :
  (budget w < fuel)%nat -> buffers_ok c -> sync_ok c sy ->
  (forall c' w' sy' outs ms, same c c' -> buffers_ok c' -> cc_schema c' = cc_schema c ->
     sync_ok c' sy' ->
     transcript (cc_frame_count c) (cc_signal_count c) (cc_can_id_to_index c) sy' outs ms ->
     traffic w w' (wires outs) (wires ms) -> Q (0, sy') (mk_cctx c' w')) ->
  (forall c' w' sy', same c c' -> buffers_ok c' -> cc_schema c' = cc_schema c -> moved w w' ->
     Q (-1, sy') (mk_cctx c' w')) ->
  cwp (synchronize fuel sy d) Q (mk_cctx c w).
Proof.
  intros Hf Hc Hsy Hok Hbad. unfold synchronize.
  assert (Hno : forall c1 c2 w1 w2 sy', same c c1 -> buffers_ok c1 -> cc_schema c1 = cc_schema c ->
    kept c1 c2 -> moved w w1 -> moved w1 w2 -> cwp (mret (-1, sy')) Q (mk_cctx c2 w2)).
  { intros c1 c2 w1 w2 sy' H1 H2 H3 Hk Hm1 Hm2. pose proof Hk as (Hs & Es & _). apply cwp_ret, Hbad.
    - exact (same_trans _ _ _ H1 Hs).
    - by eapply kept_buffers.
    - congruence.
    - by eapply moved_trans. }
  apply cwp_bind, request_frame_snapshot_wp; [done..| |].
  2: { intros c' w' sy' Hk _ Hm. cbn [Z.ltb Z.compare].
       by eapply (Hno c c' w w'); [apply same_refl|..|apply moved_refl|]. }
  intros c1 w1 sy1 outs1 ms1 Hs1 Hc1 Es1 Htab1 Hsy1 _ Hp1 T1. cbn [Z.ltb Z.compare].
  pose proof (traffic_budget _ _ _ _ T1). pose proof (moved_traffic _ _ _ _ T1) as M1.
  assert (Hsy1' : sync_ok c1 sy1) by (by eapply sync_ok_same).
  apply cwp_bind, request_signal_snapshot_wp; [lia|done|done| |].
  2: { intros c' w' sy' Hk _ Hm. cbn [Z.ltb Z.compare]. by eapply (Hno c1 c' w1 w'). }
  intros c2 w2 us outs2 ms2 Hk2 sy2 Hsy2 Hnum Hp2 T2. cbn [Z.ltb Z.compare].
  pose proof (traffic_budget _ _ _ _ T2). pose proof (moved_traffic _ _ _ _ T2) as M2.
  apply cwp_bind. unfold complete_subscription. apply cwp_bind, send_message_wp; [lia|done|by vm_compute| |].
  2: { intros w' Hm. cwp_steps. eapply (Hno c1 c2 w1 w'); [done..|]. by eapply moved_trans. }
  intros w3 now _ Hnow T3. cbn [Z.ltb Z.compare].
  pose proof (traffic_budget _ _ _ _ T3). pose proof (moved_traffic _ _ _ _ T3) as M3.
  pose proof Hk2 as (Hs2 & Es2 & Et2).
  apply subscription_loop_wp; [lia|lia|by eapply kept_buffers|exact (sync_ok_same _ _ _ Hs2 Hsy2)| |].
  2: { intros c' w' sy' Hk Hm. cwp_steps. eapply (Hno c1 c' w1 w'); [done..| |done|].
       - exact (kept_trans _ _ _ Hk2 Hk).
       - eapply moved_trans; [exact M2|]. by eapply moved_trans. }
  intros c4 w4 sy4 ups m Hk4 Hsy4 Hups Hty T4. cwp_steps. cbn [Z.ltb Z.compare]. apply cwp_ret.
  pose proof (kept_trans _ _ _ Hk2 Hk4) as Hk5. pose proof Hk5 as (Hs5 & Es5 & _).
  apply (Hok c4 w4 _ (outs1 ++ outs2 ++ [request ROADCAST_MSG_SUBSCRIBE_ALL [] now])
           (ms1 ++ ms2 ++ ups ++ [m])).
  - exact (same_trans _ _ _ Hs1 Hs5).
  - by eapply kept_buffers.
  - congruence.
  - apply sync_ok_acknowledged. destruct Hk4 as [Hs4 _]. exact (sync_ok_same _ _ _ Hs4 Hsy4).
  - eapply (transcript_intro _ _ _ (sy_frames sy1) us (sync_stamp sy1)); try done.
    + rewrite <- (same_field cc_signal_count _ _ Hs1 (fun _ => eq_refl)). exact Hp2.
    + intros Hold. apply Hups. rewrite Et2. by apply Hold.
  - rewrite !wires_app, wires_one. rewrite wires_app in T4.
    pose proof (traffic_trans _ _ _ _ _ _ _ T3 T4) as T5. rewrite app_nil_r in T5.
    exact (traffic_trans _ _ _ _ _ _ _ T1 (traffic_trans _ _ _ _ _ _ _ T2 T5)).
Qed.

(** ** Committing *)

Definition committed (c : client_t) (sy : synchronization_t) (t : list Z) : client_t :=
  c <| cc_frames := sy_frames sy |> <| cc_signals := sy_signals sy |>
    <| cc_sample_sequence := sy_sample_sequence sy |>
    <| cc_change_sequence := sy_change_sequence sy |>
    <| cc_sample_timestamp_ns := sy_sample_timestamp_ns sy |>
    <| cc_connected := 1 |> <| cc_can_id_to_index := t |>.

(** The client an application may use. *)
Record client_ok (c : client_t) : Prop := mk_client_ok {
  co_buffers : buffers_ok c;
  co_frames : Forall frame_ok (cc_frames c);
  co_signals : Forall value_ok (cc_signals c);
  co_schema : schema_ok (cc_signal_count c) 0 (cc_schema c);
  co_table : table_for (cc_frames c) (cc_can_id_to_index c);
}.

Lemma slice_all {A} (l : list A) n : n = zlen l -> slice l 0 n = Ok l.
Proof. intros ->. apply has_slice; [apply has_self|done]. Qed.

Lemma commit_synchronization_wp sy c w (Q : unit -> cctx W -> Prop) :
  buffers_ok c -> sync_ok c sy -> schema_ok (cc_signal_count c) 0 (cc_schema c) ->
  (forall t, client_ok (committed c sy t) -> Q tt (mk_cctx (committed c sy t) w)) ->
  cwp (commit_synchronization sy) Q (mk_cctx c w).
Proof.
  intros Hc (Hl1 & Hl2 & Hf & Hv) Hsch HQ. unfold commit_synchronization. cwp_steps.
  pose proof (bo_frame_count c Hc) as Hfc.
  eapply cwp_memm; [by apply slice_all|]. apply cwp_bind. eapply cwp_memm.
  { apply blit_full. pose proof (bo_frames c Hc). unfold zlen in *. lia. }
  apply cwp_bind. eapply cwp_memm; [by apply slice_all|]. apply cwp_bind. eapply cwp_memm.
  { apply blit_full. pose proof (bo_signals c Hc). unfold zlen in *. lia. }
  destruct (index_frames (sy_frames sy) empty_table (cc_frame_count c)) as (t & Ht & Htab);
    [by vm_compute|done|lia|done|].
  apply cwp_bind. eapply cwp_memm; [exact Ht|]. cwp_steps. apply (HQ t).
  assert (Hu : u16s t).
  { eapply table_over_u16; [|by rewrite Hl1; apply Hfc|exact Htab].
    unfold empty_table, u16s. apply Forall_repeat. by vm_compute. }
  constructor; try done. destruct Hc. constructor; try done. by destruct Htab.
Qed.

Lemma initialize_synchronization_wp c w (Q : option synchronization_t -> cctx W -> Prop) :
  buffers_ok c ->
  (forall sy w', sync_ok c sy -> traffic w w' [] [] -> Q (Some sy) (mk_cctx c w')) ->
  (forall w', traffic w w' [] [] -> Q None (mk_cctx c w')) ->
  cwp initialize_synchronization Q (mk_cctx c w).
Proof.
  intros Hc Hok Hbad. unfold initialize_synchronization. cwp_steps.
  pose proof (sys_alloc_ok w) as T1. set (w1 := (sys_alloc w).2) in *.
  pose proof (sys_alloc_ok w1) as T2. pose proof (traffic_quiet_l _ _ _ _ _ T1 T2) as T.
  destruct (negb _ || negb _); apply cwp_ret; [by apply Hbad|]. apply Hok; [|done].
  pose proof (bo_frame_count c Hc). pose proof (bo_signal_count c Hc).
  split_and!; cbn [sy_frames sy_signals]; rewrite ?zlen_repeat; try lia.
  - apply Forall_repeat. unfold frame_ok, zero_frame. cbn. split_and!; try by vm_compute.
    by apply (Forall_repeat is_u8 0 8).
  - apply Forall_repeat. by vm_compute.
Qed.
(** The arrays are intact and hold decoded values; the table may be that of an
    abandoned snapshot. *)
Record client_safe (c : client_t) : Prop := mk_client_safe {
  cs_buffers : buffers_ok c;
  cs_frames : Forall frame_ok (cc_frames c);
  cs_signals : Forall value_ok (cc_signals c);
  cs_schema : schema_ok (cc_signal_count c) 0 (cc_schema c);
}.

Lemma client_ok_safe c : client_ok c -> client_safe c.
Proof. by intros []. Qed.

Lemma same_safe c c' :
  same c c' -> buffers_ok c' -> cc_schema c' = cc_schema c -> client_safe c -> client_safe c'.
Proof. intros Hs Hb Es []. constructor; rewrite ?Es; same_fields Hs; done. Qed.

Lemma kept_safe c c' : kept c c' -> client_safe c -> client_safe c'.
Proof.
  intros Hk Hc. pose proof Hk as (Hs & Es & _). eapply same_safe; try done.
  eapply kept_buffers; [done|apply Hc].
Qed.

Lemma kept_ok c c' : kept c c' -> client_ok c -> client_ok c'.
Proof.
  intros Hk Hc. pose proof (kept_safe _ _ Hk (client_ok_safe _ Hc)) as []. destruct Hk as (Hs & _ & Et).
  constructor; try done. rewrite Et. same_fields Hs. apply Hc.
Qed.

Lemma cache_sync_ok c : client_safe c -> sync_ok c (cache_of c).
Proof. intros []. destruct cs_buffers0. by split_and!. Qed.

Definition resynchronized (c : client_t) (sy : synchronization_t) (t : list Z) : client_t :=
  (committed c sy t) <| cc_resynchronizations := u64 (cc_resynchronizations c + 1) |>.

Lemma client_ok_counter c n : client_ok c -> client_ok (c <| cc_resynchronizations := n |>).
Proof. intros [[] ? ? ? ?]. constructor; [by constructor|done..]. Qed.

Lemma resynchronize_wp c w (Q : Z -> cctx W -> Prop) :
  (budget w < fuel)%nat -> client_safe c ->
  (forall c1 w' sy t outs ms, same c c1 -> cc_schema c1 = cc_schema c ->
     transcript (cc_frame_count c) (cc_signal_count c) (cc_can_id_to_index c) sy outs ms ->
     client_ok (resynchronized c1 sy t) -> traffic w w' (wires outs) (wires ms) ->
     Q 0 (mk_cctx (resynchronized c1 sy t) w')) ->
  (forall c' w', same c c' -> cc_schema c' = cc_schema c -> client_safe c' -> moved w w' ->
     Q (-1) (mk_cctx c' w')) ->
  cwp (resynchronize fuel) Q (mk_cctx c w).
Proof.
  intros Hf Hc Hok Hbad. unfold resynchronize. cwp_steps. pose proof (sock_clock_ok w) as T1.
  set (w1 := (monotonic_ns w).2) in *. pose proof (traffic_budget _ _ _ _ T1).
  apply initialize_synchronization_wp; [apply Hc| |].
  2: { intros w' T2. apply cwp_ret, Hbad; [apply same_refl|done..|]. eapply moved_traffic.
       exact (traffic_quiet_l _ _ _ _ _ T1 T2). }
  intros sy w2 Hsy T2. pose proof (traffic_quiet_l _ _ _ _ _ T1 T2) as T3.
  pose proof (traffic_budget _ _ _ _ T2).
  apply cwp_bind, synchronize_wp; [lia|apply Hc|done| |].
  2: { intros c' w' sy' Hs Hb Es Hm. cbn [Z.eqb]. apply cwp_ret, Hbad; [done|done| |].
       - eapply same_safe; done.
       - eapply moved_trans; [by eapply moved_traffic|done]. }
  intros c1 w3 sy1 outs ms Hs Hb Es Hsy1 Htr T4. cbn [Z.eqb]. cwp_steps.
  assert (Hsch : schema_ok (cc_signal_count c1) 0 (cc_schema c1)).
  { rewrite Es. same_fields Hs. apply Hc. }
  apply commit_synchronization_wp; [done|done|done|]. intros t Ht. cwp_steps.
  apply (Hok c1 w3 sy1 t outs ms Hs Es Htr).
  - by apply client_ok_counter.
  - exact (traffic_quiet_l _ _ _ _ _ T3 T4).
Qed.

(** ** Live messages *)

Definition with_cache (c : client_t) (sy : synchronization_t) : client_t :=
  c <| cc_frames := sy_frames sy |> <| cc_signals := sy_signals sy |>
    <| cc_sample_sequence := sy_sample_sequence sy |>
    <| cc_change_sequence := sy_change_sequence sy |>
    <| cc_sample_timestamp_ns := sy_sample_timestamp_ns sy |>.

Definition with_heartbeat (c : client_t) (h : roadcast_header_t) (b : heartbeat_t) : client_t :=
  c <| cc_sample_sequence := hb_sample_sequence b |>
    <| cc_change_sequence := hb_change_sequence b |>
    <| cc_sample_timestamp_ns := timestamp_ns h |>
    <| cc_dropped_batches := hb_dropped_batches b |>
    <| cc_coalesced_samples := hb_coalesced_samples b |>
    <| cc_effective_hz_millihz := hb_effective_hz_millihz b |>
    <| cc_source_state := hb_source_state b |>.

(** What a live message makes of the client; [None]: the connection ends. *)
Definition live_client (c : client_t) (m : msg) : option client_t :=
  if type m.1 =? ROADCAST_MSG_HEARTBEAT then
    match roadcast_decode_heartbeat m.2 (zlen m.2) with
    | Ok b => if hb_change_sequence b =? sequence m.1 then Some (with_heartbeat c m.1 b) else None
    | _ => None
    end
  else sy ← update_cache (cache_of c) m; Some (with_cache c sy).

(** The outcome of a live message. *)
Definition dispatched (c : client_t) (m : msg) (r : Z) (c' : client_t) : Prop :=
  match live_client c m with
  | Some c1 => r = 0 /\ kept c1 c' /\ client_ok c'
  | None => r = -1 /\ client_safe c'
  end.

Lemma commit_live_wp r sy m c0 c w (Q : Z -> cctx W -> Prop) :
  client_ok c0 -> kept c0 c -> applies c (cache_of c) m r sy ->
  (type m.1 =? ROADCAST_MSG_HEARTBEAT) = false ->
  (forall r c', dispatched c0 m r c' -> Q r (mk_cctx c' w)) ->
  cwp (commit_live r sy) Q (mk_cctx c w).
Proof.
  intros Hc0 Hk (Hr & Hsy & Hup) Ht HQ. unfold commit_live. cwp_steps.
  pose proof (kept_ok _ _ Hk Hc0) as Hc. specialize (Hup (co_table c Hc)).
  pose proof Hk as [Hs _]. assert (Ecache : cache_of c = cache_of c0).
  { unfold cache_of. same_fields Hs. done. }
  pose proof Hsy as (Hl1 & Hl2 & Hf & Hv).
  assert (Hbuf : buffers_ok (c <| cc_frames := sy_frames sy |> <| cc_signals := sy_signals sy |>)).
  { destruct (co_buffers c Hc). by constructor. }
  destruct Hr as [->| ->]; cbn [Z.eqb].
  - cwp_steps. apply HQ. unfold dispatched, live_client. rewrite Ht, <- Ecache.
    destruct (update_cache (cache_of c) m) as [sy1|] eqn:E; [|lia]. destruct Hup as [_ ->]. cbn [mbind option_bind].
    split; [done|]. split.
    + destruct Hs as (Ec & ? & ? & ?). destruct Hk as (_ & Es & Et). split; [split_and!; try done|done].
      exact (f_equal (fun c => core (with_cache c sy1)) Ec).
    + constructor; try done; [destruct Hbuf; by constructor|apply Hc|].
      eapply table_over_ids; [|exact (co_table c Hc)]. symmetry. exact (update_cache_ids _ _ _ E).
  - apply cwp_ret, HQ. unfold dispatched, live_client. rewrite Ht, <- Ecache.
    destruct (update_cache (cache_of c) m) as [sy1|]; [lia|]. split; [done|]. constructor; try done. apply Hc.
Qed.

Lemma apply_live_frame_batch_wp h p c w (Q : Z -> cctx W -> Prop) :
  client_ok c -> holds_message c (h, p) -> type h = ROADCAST_MSG_UPDATE_BATCH ->
  (forall r c', dispatched c (h, p) r c' -> Q r (mk_cctx c' w)) ->
  cwp (apply_live_frame_batch h) Q (mk_cctx c w).
Proof.
  intros Hc Hm Ht HQ. unfold apply_live_frame_batch. apply cwp_bind.
  pose proof (cache_sync_ok c (client_ok_safe c Hc)) as Hsy.
  apply (decode_frame_batch_wp h p c w); [apply Hc|done| |].
  - intros b buf Hl Hb Hd Hdelta Hs. cwp_steps.
    pose proof (kept_frame_buffer c buf Hl) as Hk.
    apply (apply_decoded_frames_wp _ h p b); try done; [eapply kept_buffers; [done|apply Hc]|].
    intros r sy' Ha. cbv beta iota. apply (commit_live_wp r sy' (h, p) c); try done. cbn [fst]. by rewrite Ht.
  - intros buf Hl Hd. apply cwp_ret, HQ. unfold dispatched, live_client. cbn [fst]. rewrite Ht. cbn [Z.eqb Pos.eqb].
    rewrite (refused_frames c _ h p) by done. split; [done|].
    eapply kept_safe; [by apply kept_frame_buffer|by apply client_ok_safe].
Qed.

Lemma apply_live_signal_batch_wp h p c w (Q : Z -> cctx W -> Prop) :
  client_ok c -> holds_message c (h, p) -> type h = ROADCAST_MSG_SIGNAL_UPDATE_BATCH ->
  (forall r c', dispatched c (h, p) r c' -> Q r (mk_cctx c' w)) ->
  cwp (apply_live_signal_batch h) Q (mk_cctx c w).
Proof.
  intros Hc Hm Ht HQ. unfold apply_live_signal_batch. apply cwp_bind.
  pose proof (cache_sync_ok c (client_ok_safe c Hc)) as Hsy.
  apply (decode_signal_batch_wp h p c w); [apply Hc|done| |].
  - intros b buf Hl Hb Hd Hdelta Hs. cwp_steps.
    pose proof (kept_signal_buffer c buf Hl) as Hk.
    apply (apply_decoded_signals_wp _ h p b); try done; [eapply kept_buffers; [done|apply Hc]|].
    intros r sy' Ha. cbv beta iota. apply (commit_live_wp r sy' (h, p) c); try done. cbn [fst]. by rewrite Ht.
  - intros buf Hl Hd. apply cwp_ret, HQ. unfold dispatched, live_client. cbn [fst]. rewrite Ht. cbn [Z.eqb Pos.eqb].
    rewrite (refused_signals c _ h p) by done. split; [done|].
    eapply kept_safe; [by apply kept_signal_buffer|by apply client_ok_safe].
Qed.

Lemma apply_heartbeat_wp h p c w (Q : Z -> cctx W -> Prop) :
  client_ok c -> holds_message c (h, p) -> type h = ROADCAST_MSG_HEARTBEAT ->
  (forall r c', dispatched c (h, p) r c' -> Q r (mk_cctx c' w)) ->
  cwp (apply_heartbeat h) Q (mk_cctx c w).
Proof.
  intros Hc [(_ & _ & _ & _ & _ & Hlp & Hbp) Hs] Ht HQ. cbn [fst snd] in *.
  unfold apply_heartbeat. apply cwp_bind. eapply message_payload_wp; [exact Hs|].
  pose proof (decode_heartbeat_exact p Hbp) as Hx. unfold decodes_exactly in Hx.
  assert (Hlive : forall r c', match live_client c (h, p) with
      | Some c1 => r = 0 /\ c' = c1 | None => r = -1 /\ c' = c end -> Q r (mk_cctx c' w)).
  { intros r c' Hl. apply HQ. unfold dispatched. destruct (live_client c (h, p)) as [c1|] eqn:E.
    - destruct Hl as [-> ->]. split; [done|]. split; [apply kept_refl|]. revert E. unfold live_client. cbn [fst snd].
      rewrite Ht, Z.eqb_refl. destruct (roadcast_decode_heartbeat _ _); [|done..].
      destruct (_ =? _); [|done]. intros [= <-]. destruct Hc as [Hb ? ? ? ?]. constructor; try done.
      destruct Hb. by constructor.
    - destruct Hl as [-> ->]. split; [done|]. by apply client_ok_safe. }
  revert Hlive. unfold live_client. cbn [fst snd]. rewrite Ht, Z.eqb_refl. intros Hlive.
  apply cwp_bind. rewrite <- Hlp. apply cwp_dec; [by intros E; rewrite E in Hx| |].
  - intros b E. rewrite E in Hlive. destruct (hb_change_sequence b =? sequence h); cbn [negb].
    + cwp_steps. by apply Hlive.
    + apply cwp_ret. by apply Hlive.
  - intros E. rewrite E in Hlive. apply cwp_ret. by apply Hlive.
Qed.
(** ** The reader thread *)

(** One message taken in: a live message, or RESYNC_REQUIRED and the
    synchronization it starts. *)
Inductive absorbs (c : client_t) : list msg -> list msg -> client_t -> Prop :=
  | absorbs_live m c1 c' :
      message_ok (cc_payload_capacity c) m -> type m.1 <> ROADCAST_MSG_RESYNC_REQUIRED ->
      live_client c m = Some c1 -> kept c1 c' ->
      absorbs c [] [m] c'
  | absorbs_resync m c1 sy t outs ms :
      message_ok (cc_payload_capacity c) m ->
      type m.1 = ROADCAST_MSG_RESYNC_REQUIRED -> payload_bytes m.1 = 0 ->
      same c c1 -> cc_schema c1 = cc_schema c ->
      transcript (cc_frame_count c) (cc_signal_count c) (cc_can_id_to_index c) sy outs ms ->
      absorbs c outs (m :: ms) (resynchronized c1 sy t).

(** A run of the reader. *)
Inductive absorbs_all (c : client_t) : list msg -> list msg -> client_t -> Prop :=
  | absorbs_none : absorbs_all c [] [] c
  | absorbs_more outs ms c1 outs' ms' c' :
      absorbs c outs ms c1 -> absorbs_all c1 outs' ms' c' ->
      absorbs_all c (outs ++ outs') (ms ++ ms') c'.

Lemma dispatch_live_wp m c w (Q : Z -> cctx W -> Prop) :
  client_ok c -> holds_message c m -> type m.1 <> ROADCAST_MSG_RESYNC_REQUIRED ->
  (forall r c', dispatched c m r c' -> Q r (mk_cctx c' w)) ->
  cwp (dispatch fuel m.1) Q (mk_cctx c w).
Proof.
  destruct m as [h p]. cbn [fst]. intros Hc Hm Hnr HQ. unfold dispatch.
  destruct (Z.eqb_spec (type h) ROADCAST_MSG_UPDATE_BATCH) as [Ht|H1];
    [by apply (apply_live_frame_batch_wp h p)|].
  destruct (Z.eqb_spec (type h) ROADCAST_MSG_SIGNAL_UPDATE_BATCH) as [Ht|H2];
    [by apply (apply_live_signal_batch_wp h p)|].
  destruct (Z.eqb_spec (type h) ROADCAST_MSG_HEARTBEAT) as [Ht|H3];
    [by apply (apply_heartbeat_wp h p)|].
  destruct (Z.eqb_spec (type h) ROADCAST_MSG_RESYNC_REQUIRED); [done|].
  apply cwp_ret, HQ. unfold dispatched, live_client, update_cache. cbn [fst snd].
  rewrite (proj2 (Z.eqb_neq _ _) H1), (proj2 (Z.eqb_neq _ _) H2), (proj2 (Z.eqb_neq _ _) H3).
  cbn [mbind option_bind]. split; [done|]. by apply client_ok_safe.
Qed.

Lemma live_client_payload c buf m :
  live_client (c <| cc_payload := buf |>) m = (fun c' => c' <| cc_payload := buf |>) <$> live_client c m.
Proof.
  unfold live_client. destruct (_ =? _).
  - destruct (roadcast_decode_heartbeat _ _); [|done..]. by destruct (_ =? _).
  - change (cache_of (c <| cc_payload := buf |>)) with (cache_of c).
    by destruct (update_cache (cache_of c) m).
Qed.

Lemma live_client_keeps_payload c m c' : live_client c m = Some c' -> cc_payload c' = cc_payload c.
Proof.
  unfold live_client. destruct (_ =? _).
  - destruct (roadcast_decode_heartbeat _ _); [|done..]. destruct (_ =? _); [|done]. by intros [= <-].
  - destruct (update_cache (cache_of c) m); [|done]. by intros [= <-].
Qed.

(** How the reader thread stops after [inn]: in the middle of a message, or with a
    message it refuses or whose synchronization fails. *)
Inductive gives_up (c : client_t) (inn : list Z) (c' : client_t) : Prop :=
  | gives_up_reading : incomplete (cc_payload_capacity c) inn -> kept c c' -> gives_up c inn c'
  | gives_up_message m rest :
      message_ok (cc_payload_capacity c) m -> inn = wire m ++ rest ->
      type m.1 = ROADCAST_MSG_RESYNC_REQUIRED \/ live_client c m = None ->
      client_safe c' -> gives_up c inn c'.

Lemma reader_iteration_wp c w (Q : Z -> cctx W -> Prop) :
  (budget w < fuel)%nat -> client_ok c ->
  (forall c' w' outs ms, client_ok c' -> absorbs c outs ms c' ->
     traffic w w' (wires outs) (wires ms) -> (budget w' < budget w)%nat -> Q 0 (mk_cctx c' w')) ->
  (forall c' w' out inn, traffic w w' out inn -> gives_up c inn c' -> Q (-1) (mk_cctx c' w')) ->
  cwp (reader_iteration fuel) Q (mk_cctx c w).
Proof.
  intros Hf Hc Hok Hbad. unfold reader_iteration.
  apply cwp_bind, read_message_wp; [done|apply Hc| |].
  2: { intros buf bs w' T Hi Hl. apply cwp_ret. eapply Hbad; [exact T|].
       apply gives_up_reading; [done|by apply kept_payload_buffer]. }
  intros h p buf w1 Hm T1 B1 Hl Hs. pose proof (kept_payload_buffer c buf Hl) as Hk1.
  set (c1 := c <| cc_payload := buf |>) in *. pose proof (kept_ok _ _ Hk1 Hc) as Hc1.
  assert (Hstop : forall c' out inn w', traffic w1 w' out inn ->
    type h = ROADCAST_MSG_RESYNC_REQUIRED \/ live_client c (h, p) = None ->
    client_safe c' -> Q (-1) (mk_cctx c' w')).
  { intros c' out inn w' T Hwhy Hsafe. eapply Hbad; [exact (traffic_trans _ _ _ _ _ _ _ T1 T)|].
    by apply (gives_up_message _ _ _ (h, p) inn). }
  destruct (decide (type h = ROADCAST_MSG_RESYNC_REQUIRED)) as [Ht|Hnt].
  - unfold dispatch. rewrite Ht. cbn [Z.eqb Pos.eqb].
    change (cwp (if payload_bytes h =? 0 then resynchronize fuel else mret (-1)) Q (mk_cctx c1 w1)).
    destruct (Z.eqb_spec (payload_bytes h) 0) as [Hz|].
    2: { apply cwp_ret. eapply Hstop; [apply traffic_refl|by left|by apply client_ok_safe]. }
    apply resynchronize_wp; [lia|by apply client_ok_safe| |].
    + intros c2 w2 sy t outs ms Hs2 Es2 Htr Hc2 T2.
      apply (Hok _ w2 outs ((h, p) :: ms) Hc2).
      * eapply absorbs_resync; [done..|exact (same_trans _ _ _ (proj1 Hk1) Hs2)|done|exact Htr].
      * exact (traffic_trans _ _ _ _ _ _ _ T1 T2).
      * apply traffic_budget in T2. lia.
    + intros c' w' _ _ Hsafe (out & inn & T). eapply Hstop; [exact T|by left|done].
  - apply (dispatch_live_wp (h, p) c1); [done|done|done|]. intros r c' Hl'. unfold dispatched in Hl'.
    unfold c1 in Hl'. rewrite live_client_payload in Hl'.
    destruct (live_client c (h, p)) as [c2|] eqn:E; cbn in Hl'.
    + destruct Hl' as (-> & Hk2 & Hc2). apply (Hok c' w1 [] [(h, p)] Hc2); [|by rewrite wires_one|lia].
      eapply absorbs_live; [done|done|exact E|]. eapply kept_trans; [|exact Hk2].
      apply kept_payload_buffer. by rewrite (live_client_keeps_payload _ _ _ E).
    + destruct Hl' as [-> Hsafe]. eapply Hstop; [apply traffic_refl|by right|done].
Qed.

(** The outcome of the loop: it took in [ms], and then stopped between two
    messages because it was told to, or gave up. *)
Definition reads_until w c w' c' : Prop :=
  exists c1 w1 outs ms out inn,
    absorbs_all c outs ms c1 /\ client_ok c1 /\ traffic w w1 (wires outs) (wires ms)
    /\ traffic w1 w' out inn /\ (inn = [] /\ c' = c1 \/ gives_up c1 inn c').

Lemma reader_loop_wp n : forall c w (Q : unit -> cctx W -> Prop),
  (budget w < n)%nat -> (budget w < fuel)%nat -> client_ok c ->
  (forall c' w', reads_until w c w' c' -> Q tt (mk_cctx c' w')) ->
  cwp (reader_loop fuel n) Q (mk_cctx c w).
Proof.
  induction n as [|n IH]; intros c w Q Hn Hf Hc HQ; [lia|]. cbn [reader_loop]. cwp_steps.
  pose proof (sock_stop_ok w) as T1. set (w1 := (sock_stop_requested w).2) in *.
  pose proof (traffic_budget _ _ _ _ T1).
  destruct (sock_stop_requested w).1.
  { apply cwp_ret, HQ. exists c, w1, [], [], [], []. split; [constructor|]. split_and!; try done.
    - apply traffic_refl.
    - by left. }
  apply cwp_bind, reader_iteration_wp; [lia|done| |].
  - intros c' w' outs ms Hc' Ha T2 B2. cbn [Z.ltb Z.compare]. apply IH; [lia|lia|done|].
    intros c3 w3 (c2 & w2 & outs' & ms' & out & inn & Hall & Hc2 & T3 & T4 & Hend).
    apply HQ. exists c2, w2, (outs ++ outs'), (ms ++ ms'), out, inn. split_and!; try done.
    + by eapply absorbs_more.
    + rewrite !wires_app. exact (traffic_quiet_l _ _ _ _ _ T1 (traffic_trans _ _ _ _ _ _ _ T2 T3)).
  - intros c' w' out inn T2 Hg. cbn [Z.ltb Z.compare]. apply cwp_ret, HQ.
    exists c, w1, [], [], out, inn. split; [constructor|]. split_and!; try done. by right.
Qed.

Lemma reads_until_safe w c w' c' : reads_until w c w' c' -> client_safe c'.
Proof.
  intros (c1 & w1 & outs & ms & out & inn & _ & Hc1 & _ & _ & Hend).
  apply client_ok_safe in Hc1. destruct Hend as [[_ ->]|[_ Hk|m rest _ _ _ Hs]]; [done| |done].
  by eapply kept_safe.
Qed.
End Live.
