(* ===== verification/ClientConnect.v ===== *)
(** * Connecting: src/client.c, [fill_unix_address], [connect_socket],
      [perform_handshake], [roadcast_client_connect] and [roadcast_client_close]

    Whatever the peer and the operating system do, connecting returns; it returns
    a client with its invariant and the data the stream carried, or an error with
    every descriptor it opened closed again. *)

From S2P Require Import Prelude Wire CatalogDefs Catalog SourceSession Sampler.
From S2P Require Import ClientDefs ClientOps ClientIo ClientCache ClientSync ClientLive.

(** ** Addresses *)

(** The bytes [connect] is given: an abstract name without its ['@'], a path with
    its terminator. *)
Definition address_path (name : list Z) : list Z :=
  match name with
  | b :: rest => if b =? 64 then 0 :: rest else name ++ [0]
  | [] => []
  end.

Lemma fill_unix_address_spec name :
  fill_unix_address name
  = if (zlen name =? 0) || (SUN_PATH_SIZE <=? zlen name) then Fail
    else Ok (address_path name
               ++ repeat 0 (Z.to_nat SUN_PATH_SIZE - length (address_path name)),
             SUN_PATH_OFFSET + zlen (address_path name)).
Proof.
  unfold fill_unix_address.
  destruct ((zlen name =? 0) || (SUN_PATH_SIZE <=? zlen name)) eqn:G; [done|].
  rewrite reject_false. apply orb_false_iff in G as [G1 G2].
  apply Z.eqb_neq in G1. apply Z.leb_gt in G2. unfold SUN_PATH_SIZE in G2.
  destruct name as [|b rest]; [done|]. rewrite zlen_cons in G1, G2.
  change (rd (b :: rest) 0) with (Ok b). rewrite bind_ok. unfold address_path.
  pose proof (zlen_nonneg rest).
  assert (Hdrop : forall n, drop n (repeat 0 (Z.to_nat SUN_PATH_SIZE)) = repeat 0 (Z.to_nat SUN_PATH_SIZE - n)).
  { intros n. generalize (Z.to_nat SUN_PATH_SIZE) as k.
    induction n as [|n IH]; intros [|k]; cbn; done || apply IH. }
  destruct (b =? 64).
  - change (wr (repeat 0 (Z.to_nat SUN_PATH_SIZE)) 0 0) with (Ok (repeat 0 (Z.to_nat SUN_PATH_SIZE))).
    rewrite bind_ok, zlen_cons.
    rewrite (has_slice (b :: rest) 1 rest) by (lia || by exists [b], []; rewrite app_nil_r).
    rewrite bind_ok, blit_ok by (rewrite ?zlen_repeat; unfold SUN_PATH_SIZE; lia).
    rewrite bind_ok, Hdrop, zlen_cons. done.
  - rewrite blit_start.
    + rewrite bind_ok, Hdrop. unfold mret, res_ret. f_equal. f_equal. rewrite zlen_app. change (zlen [0]) with 1. lia.
    + rewrite zlen_app, zlen_cons, zlen_repeat. change (zlen [0]) with 1. unfold SUN_PATH_SIZE. lia.
Qed.

Section Connect.
Context {W : Type} `{K : !Clock W} `{N : !Socket W} `{HN : !SocketOk N K} (fuel : nat).
Implicit Types (s : cctx W) (w : W).

Lemma moves_trans w1 w2 w3 o1 i1 o2 i2 :
  moves w1 w2 o1 i1 -> moves w2 w3 o2 i2 -> moves w1 w3 (o1 ++ o2) (i1 ++ i2).
Proof.
  intros (A1 & A2 & A3) (B1 & B2 & B3). unfold moves.
  rewrite B1, B2, A1, A2, !(assoc_L (++)). split_and!; done || lia.
Qed.

(** [ds] are the descriptors that were opened and not closed. *)
Definition opens w w' (ds : list Z) : Prop :=
  moves w w' [] [] /\ descriptors w' = ds ++ descriptors w.

Lemma opens_traffic w w1 w2 ds : opens w w1 ds -> traffic w1 w2 [] [] -> opens w w2 ds.
Proof.
  intros [H1 H2] [H3 H4]. split; [exact (moves_trans _ _ _ _ _ _ _ H1 H3)|congruence].
Qed.

Lemma filter_fresh fd (ds : list Z) : fd ∉ ds -> filter (fun d => d <> fd) (fd :: ds) = ds.
Proof.
  intros H. rewrite filter_cons_False by (intros E; by apply E).
  induction ds as [|d ds IH]; [done|]. apply not_elem_of_cons in H as [Hne H].
  rewrite filter_cons_True by (intros E; by apply Hne). by rewrite IH.
Qed.

Lemma set_nonblocking_wp fd c w (Q : Z -> cctx W -> Prop) :
  (forall r w', traffic w w' [] [] -> Q r (mk_cctx c w')) ->
  cwp (set_nonblocking fd) Q (mk_cctx c w).
Proof.
  intros HQ. unfold set_nonblocking. cwp_steps. pose proof (sock_fcntl_ok fd F_GETFL 0 w) as T1.
  destruct (_ <? 0); [by apply cwp_ret, HQ|]. apply cwp_sys, HQ.
  eapply traffic_quiet_l; [exact T1|apply sock_fcntl_ok].
Qed.

Lemma connect_socket_wp name d c w (Q : Z -> cctx W -> Prop) :
  (budget w < fuel)%nat ->
  (forall fd w', 0 <= fd -> fd ∉ descriptors w -> opens w w' [fd] -> Q fd (mk_cctx c w')) ->
  (forall w', opens w w' [] -> Q (-1) (mk_cctx c w')) ->
  cwp (connect_socket fuel name d) Q (mk_cctx c w).
Proof.
  intros Hf Hok Hbad. unfold connect_socket. cwp_steps.
  destruct (sock_socket_ok w) as (M1 & D1 & Hfresh).
  set (fd := (sock_socket w).1) in *. set (w1 := (sock_socket w).2) in *.
  assert (B1 : (budget w1 <= budget w)%nat) by (by destruct M1 as (_ & _ & ?)).
  destruct (Z.ltb_spec fd 0) as [Hneg|Hpos].
  { apply cwp_ret, Hbad. destruct (Z.leb_spec 0 fd); [lia|]. by split. }
  destruct (Z.leb_spec 0 fd) as [_|]; [|lia]. assert (O1 : opens w w1 [fd]) by (by split).
  assert (Hclose : forall w', traffic w1 w' [] [] ->
    cwp (sys_ (sock_close fd);; mret (-1)) Q (mk_cctx c w')).
  { intros w' T. cwp_steps. apply Hbad. destruct (sock_close_ok fd w') as [M2 D2].
    destruct (opens_traffic _ _ _ _ O1 T) as [M3 D3]. split.
    - exact (moves_trans _ _ _ _ _ _ _ M3 M2).
    - rewrite D2, D3. by apply filter_fresh. }
  assert (Hfd : forall w', traffic w1 w' [] [] -> Q fd (mk_cctx c w')).
  { intros w' T. by apply Hok; [| |eapply opens_traffic]. }
  cwp_steps. apply set_nonblocking_wp. intros r w2 T2.
  destruct (r <? 0); [by apply Hclose|]. apply cwp_bind, cwp_dec.
  { rewrite fill_unix_address_spec. by destruct (_ || _). }
  2: { intros _. by apply Hclose. }
  intros [path len] _. cwp_steps.
  pose proof (sock_connect_ok fd path len w2) as T3.
  pose proof (traffic_quiet_l _ _ _ _ _ T2 T3) as T4. pose proof (traffic_budget _ _ _ _ T4).
  set (w3 := (sock_connect fd path len w2).2) in *.
  destruct (sock_connect fd path len w2).1.
  - apply cwp_ret. by apply Hfd.
  - by apply Hclose.
  - apply cwp_bind, wait_descriptor_wp; [lia|]. intros r' w4 _ T5.
    pose proof (traffic_quiet_l _ _ _ _ _ T4 T5) as T6.
    destruct (r' <? 0); [by apply Hclose|]. cwp_steps.
    pose proof (traffic_quiet_l _ _ _ _ _ T6 (sock_error_ok fd w4)) as T7.
    destruct (negb _); [by apply Hclose|]. apply cwp_ret. by apply Hfd.
  - by apply Hclose.
Qed.

(** ** The handshake *)

Definition hello : list Z :=
  hello_bytes (ROADCAST_PROTOCOL_VERSION, ROADCAST_PROTOCOL_VERSION,
               Z.lor ROADCAST_CAP_RAW_CAN ROADCAST_CAP_DECODED_CAN).

(** The WELCOME messages the library accepts. *)
Definition welcome_fits (wel : welcome_t) : Prop :=
  Z.testbit (wel_capabilities wel) 0 = true /\ Z.testbit (wel_capabilities wel) 1 = true
  /\ 0 < wel_frame_count wel <= CLIENT_MAX_FRAMES
  /\ 0 < wel_signal_count wel <= CLIENT_MAX_SIGNALS
  /\ 8 <= wel_max_request_payload wel
  /\ ROADCAST_WELCOME_SIZE <= wel_max_response_payload wel <= ROADCAST_MAX_PAYLOAD.

Definition welcomed (c : client_t) (wel : welcome_t) : client_t :=
  c <| cc_hz := wel_hz wel |> <| cc_frame_count := wel_frame_count wel |>
    <| cc_signal_count := wel_signal_count wel |>
    <| cc_max_request_payload := wel_max_request_payload wel |>
    <| cc_max_response_payload := wel_max_response_payload wel |>
    <| cc_schema_version := wel_schema_version wel |> <| cc_schema_hash := wel_schema_hash wel |>.

Lemma land_bit x n : 0 <= n -> (Z.land x (Z.shiftl 1 n) =? 0) = negb (Z.testbit x n).
Proof.
  intros Hn. assert (E : Z.land x (Z.shiftl 1 n) = if Z.testbit x n then Z.shiftl 1 n else 0).
  { apply Z.bits_inj'. intros k Hk. rewrite Z.land_spec, Z.shiftl_spec by done.
    destruct (decide (k = n)) as [->|Hne].
    - rewrite Z.sub_diag, andb_true_r. destruct (Z.testbit x n); [|by rewrite Z.bits_0].
      by rewrite Z.shiftl_spec, Z.sub_diag.
    - assert (Hz : Z.testbit 1 (k - n) = false).
      { destruct (Z.lt_ge_cases (k - n) 0); [by apply Z.testbit_neg_r|].
        rewrite Z.bits_above_log2; [done|lia|]. change (Z.log2 1) with 0. lia. }
      rewrite Hz, andb_false_r. destruct (Z.testbit x n); [|by rewrite Z.bits_0].
      by rewrite Z.shiftl_spec. }
  rewrite E. destruct (Z.testbit x n); [|done]. apply Z.eqb_neq.
  rewrite Z.shiftl_mul_pow2 by done. pose proof (Z.pow_pos_nonneg 2 n). lia.
Qed.

Lemma perform_handshake_wp d c w (Q : Z -> cctx W -> Prop) :
  (budget w < fuel)%nat -> zlen (cc_payload c) = cc_payload_capacity c ->
  (forall w' h wel buf now, type h = ROADCAST_MSG_WELCOME -> welcome_ok wel -> welcome_fits wel ->
     is_u64 now -> zlen buf = zlen (cc_payload c) ->
     traffic w w' (wire (request ROADCAST_MSG_HELLO hello now)) (wire (h, welcome_bytes wel)) ->
     Q 0 (mk_cctx (welcomed (c <| cc_payload := buf |>) wel) w')) ->
  (forall c' w', moved w w' -> cc_fd c' = cc_fd c -> Q (-1) (mk_cctx c' w')) ->
  cwp (perform_handshake fuel d) Q (mk_cctx c w).
Proof.
  intros Hf Hcap Hok Hbad. unfold perform_handshake. apply cwp_bind.
  eapply cwp_memm; [rewrite encode_hello_blit, blit_full; done|]. cwp_steps.
  apply send_message_wp; [done|done|by vm_compute| |].
  2: { intros w' Hm. apply cwp_ret. by apply Hbad. }
  intros w1 now _ Hnow T1. cbn [Z.ltb Z.compare]. pose proof (traffic_budget _ _ _ _ T1).
  apply cwp_bind, read_message_wp; [lia|done| |].
  2: { intros buf bs w' Hm%moved_traffic _ _. apply cwp_ret, Hbad; [|done].
       eapply moved_trans; [by eapply moved_traffic|done]. }
  intros h p buf w2 Hm T2 _ Hl Hs.
  pose proof (traffic_trans _ _ _ _ _ _ _ T1 T2) as T3. rewrite app_nil_r in T3.
  assert (Hno : forall c', cc_fd c' = cc_fd c -> cwp (mret (-1)) Q (mk_cctx c' w2)).
  { intros c' E. apply cwp_ret, Hbad; [by eapply moved_traffic|done]. }
  destruct (Z.eqb_spec (type h) ROADCAST_MSG_WELCOME) as [Ht|]; cbn [negb]; [|by apply Hno].
  apply cwp_bind. eapply message_payload_wp; [exact Hs|]. apply cwp_bind.
  destruct Hm as (_ & _ & _ & _ & _ & Hlp & Hbp). cbn [fst snd] in *. rewrite <- Hlp.
  pose proof (decode_welcome_exact p Hbp) as Hx. unfold decodes_exactly in Hx.
  apply cwp_dec; [by intros E; rewrite E in Hx| |by intros _; apply Hno].
  intros wel E. rewrite E in Hx. destruct Hx as [Hwel ->]. cwp_steps.
  unfold ROADCAST_CAP_RAW_CAN, ROADCAST_CAP_DECODED_CAN. rewrite !land_bit by lia.
  destruct (Z.testbit (wel_capabilities wel) 0) eqn:C0; [|by apply Hno].
  destruct (Z.testbit (wel_capabilities wel) 1) eqn:C1; [|by apply Hno].
  destruct (Z.eqb_spec (wel_frame_count wel) 0); [by apply Hno|].
  destruct (Z.ltb_spec CLIENT_MAX_FRAMES (wel_frame_count wel)); [by apply Hno|].
  destruct (Z.eqb_spec (wel_signal_count wel) 0); [by apply Hno|].
  destruct (Z.ltb_spec CLIENT_MAX_SIGNALS (wel_signal_count wel)); [by apply Hno|].
  destruct (Z.ltb_spec (wel_max_request_payload wel) 8); [by apply Hno|].
  destruct (Z.ltb_spec (wel_max_response_payload wel) ROADCAST_WELCOME_SIZE); [by apply Hno|].
  destruct (Z.ltb_spec ROADCAST_MAX_PAYLOAD (wel_max_response_payload wel)); [by apply Hno|].
  cbn [negb orb]. apply cwp_ret. apply (Hok w2 h wel buf now); try done.
  pose proof Hwel as (_ & Hu1 & Hu2 & _). unfold is_u32 in Hu1, Hu2. unfold welcome_fits.
  split_and!; done || lia.
Qed.
(** ** Buffers *)

Definition allocated (c : client_t) : client_t :=
  let limit := cc_max_response_payload c in
  let frame_capacity := (limit - ROADCAST_BATCH_PREFIX_SIZE) / ROADCAST_FRAME_WIRE_SIZE in
  let signal_capacity := (limit - ROADCAST_BATCH_PREFIX_SIZE) / ROADCAST_SIGNAL_WIRE_SIZE in
  c <| cc_payload := take (Z.to_nat limit) (cc_payload c)
                       ++ repeat 0 (Z.to_nat limit - length (cc_payload c)) |>
    <| cc_payload_capacity := limit |>
    <| cc_schema := repeat zero_entry (Z.to_nat (cc_signal_count c)) |>
    <| cc_frames := repeat zero_frame (Z.to_nat (cc_frame_count c)) |>
    <| cc_signals := repeat (mk_value 0 0 0 0 0 0) (Z.to_nat (cc_signal_count c)) |>
    <| cc_frame_scratch_capacity := frame_capacity |>
    <| cc_signal_scratch_capacity := signal_capacity |>
    <| cc_frame_scratch := repeat zero_frame (Z.to_nat frame_capacity) |>
    <| cc_signal_scratch := repeat zero_update (Z.to_nat signal_capacity) |>.

Lemma allocated_ok c :
  ROADCAST_WELCOME_SIZE <= cc_max_response_payload c <= ROADCAST_MAX_PAYLOAD ->
  0 < cc_frame_count c <= CLIENT_MAX_FRAMES -> 0 < cc_signal_count c <= CLIENT_MAX_SIGNALS ->
  zlen (cc_can_id_to_index c) = CAN_ID_LOOKUP_CAP -> u16s (cc_can_id_to_index c) ->
  buffers_ok (allocated c).
Proof.
  intros Hl Hf Hs Ht Hu. unfold ROADCAST_WELCOME_SIZE in Hl.
  assert (0 <= (cc_max_response_payload c - ROADCAST_BATCH_PREFIX_SIZE) / ROADCAST_FRAME_WIRE_SIZE).
  { apply Z.div_pos; unfold ROADCAST_BATCH_PREFIX_SIZE, ROADCAST_FRAME_WIRE_SIZE; lia. }
  assert (0 <= (cc_max_response_payload c - ROADCAST_BATCH_PREFIX_SIZE) / ROADCAST_SIGNAL_WIRE_SIZE).
  { apply Z.div_pos; unfold ROADCAST_BATCH_PREFIX_SIZE, ROADCAST_SIGNAL_WIRE_SIZE; lia. }
  constructor; cbn [allocated set cc_payload cc_payload_capacity cc_frame_scratch cc_frame_scratch_capacity
    cc_signal_scratch cc_signal_scratch_capacity cc_frame_count cc_signal_count cc_schema cc_frames
    cc_signals cc_can_id_to_index]; try (exact Hu || done || (rewrite zlen_repeat; lia)).
  rewrite zlen_app, zlen_repeat. unfold zlen. rewrite length_take. lia.
Qed.

Lemma allocate_buffers_wp c w (Q : Z -> cctx W -> Prop) :
  (forall w', traffic w w' [] [] -> Q 0 (mk_cctx (allocated c) w')) ->
  (forall c' w', traffic w w' [] [] -> cc_fd c' = cc_fd c -> Q (-1) (mk_cctx c' w')) ->
  cwp allocate_buffers Q (mk_cctx c w).
Proof.
  intros Hok Hbad. unfold allocate_buffers. cwp_steps.
  pose proof (sys_alloc_ok w) as T1. set (w1 := (sys_alloc w).2) in *.
  destruct (negb (sys_alloc w).1); [apply cwp_ret; by apply Hbad|]. cwp_steps.
  pose proof (traffic_quiet_l _ _ _ _ _ T1 (sys_alloc_ok w1)) as T2. set (w2 := (sys_alloc w1).2) in *.
  pose proof (traffic_quiet_l _ _ _ _ _ T2 (sys_alloc_ok w2)) as T3. set (w3 := (sys_alloc w2).2) in *.
  pose proof (traffic_quiet_l _ _ _ _ _ T3 (sys_alloc_ok w3)) as T4. set (w4 := (sys_alloc w3).2) in *.
  pose proof (traffic_quiet_l _ _ _ _ _ T4 (sys_alloc_ok w4)) as T5. set (w5 := (sys_alloc w4).2) in *.
  pose proof (traffic_quiet_l _ _ _ _ _ T5 (sys_alloc_ok w5)) as T6. set (w6 := (sys_alloc w5).2) in *.
  destruct (negb (_ && _)); [apply cwp_ret; by apply Hbad|]. cwp_steps. by apply Hok.
Qed.

(** ** The client *)

(** The welcome message the client was opened with. *)
Definition describes (wel : welcome_t) (c : client_t) : Prop :=
  cc_hz c = wel_hz wel /\ cc_frame_count c = wel_frame_count wel
  /\ cc_signal_count c = wel_signal_count wel
  /\ cc_max_request_payload c = wel_max_request_payload wel
  /\ cc_max_response_payload c = wel_max_response_payload wel
  /\ cc_schema_version c = wel_schema_version wel /\ cc_schema_hash c = wel_schema_hash wel.

(** The conversation that opened the client: the handshake, the schema and the
    synchronization; the schema and the cache are what the replies carried. *)
Inductive opened (c : client_t) : list msg -> list msg -> Prop :=
  | opened_intro now h wel outs1 ms1 outs2 ms2 :
      is_u64 now -> type h = ROADCAST_MSG_WELCOME -> welcome_ok wel -> welcome_fits wel ->
      describes wel c ->
      chunks (wel_schema_version wel) (wel_schema_hash wel) (wel_signal_count wel) 0
        (cc_schema c) outs1 ms1 ->
      transcript (wel_frame_count wel) (wel_signal_count wel) empty_table (cache_of c) outs2 ms2 ->
      opened c (request ROADCAST_MSG_HELLO hello now :: outs1 ++ outs2)
        ((h, welcome_bytes wel) :: ms1 ++ ms2).

(** The descriptors after a call that leaves [fd] to the client. *)
Definition holds_descriptor w w' (fd : Z) : Prop :=
  descriptors w' = (if 0 <=? fd then [fd] else []) ++ descriptors w
  /\ (0 <= fd -> fd ∉ descriptors w).

Definition setup_error (e : Z) : Prop :=
  e = ROADCAST_CLIENT_ERR_SOCKET \/ e = ROADCAST_CLIENT_ERR_HANDSHAKE
  \/ e = ROADCAST_CLIENT_ERR_SCHEMA \/ e = ROADCAST_CLIENT_ERR_SNAPSHOT
  \/ e = ROADCAST_CLIENT_ERR_MEMORY \/ e = ROADCAST_CLIENT_ERR_THREAD.
Lemma client_ok_started c n : client_ok c -> client_ok (c <| cc_reader_started := n |>).
Proof. intros [[] ? ? ? ?]. constructor; [by constructor|done..]. Qed.

(** [setup_client] on the structure [c] as [roadcast_client_connect] made it. *)
Lemma setup_client_wp d c w (Q : Z -> cctx W -> Prop) :
  (budget w < fuel)%nat -> zlen (cc_payload c) = cc_payload_capacity c ->
  cc_can_id_to_index c = empty_table ->
  (forall c' w' outs ms, client_ok c' -> cc_connected c' = 1 -> cc_reader_started c' = 1 ->
     cc_fd c' = cc_fd c -> opened c' outs ms -> traffic w w' (wires outs) (wires ms) ->
     Q 0 (mk_cctx c' w')) ->
  (forall e c' w', setup_error e -> cc_fd c' = cc_fd c -> moved w w' -> Q e (mk_cctx c' w')) ->
  cwp (setup_client fuel d) Q (mk_cctx c w).
Proof.
  intros Hf Hcap Hempty Hok Hbad. unfold setup_client.
  assert (Hfail : forall e c' w', setup_error e -> cc_fd c' = cc_fd c -> moved w w' ->
    cwp (mret e) Q (mk_cctx c' w')) by (intros; apply cwp_ret; by apply Hbad).
  apply cwp_bind, perform_handshake_wp; [done|done| |].
  2: { intros c' w' Hm E. apply (Hfail _ c'); [by right; left|done|done]. }
  intros w2 h wel buf now Hh Hwel Hfits Hnow Hl T2. cbn [Z.ltb Z.compare].
  set (c2 := welcomed (c <| cc_payload := buf |>) wel). pose proof (traffic_budget _ _ _ _ T2).
  apply cwp_bind, allocate_buffers_wp.
  2: { intros c' w' T3 E. apply (Hfail _ c'); [unfold setup_error; auto 10|done|].
       eapply moved_trans; by eapply moved_traffic. }
  intros w3 T3. cbn [Z.ltb Z.compare]. set (c3 := allocated c2). pose proof (traffic_budget _ _ _ _ T3).
  pose proof (traffic_quiet_r _ _ _ _ _ T2 T3) as T23.
  assert (Hc3 : buffers_ok c3).
  { pose proof Hfits as (_ & _ & ? & ? & _ & ?). apply allocated_ok; try done; cbn; rewrite Hempty; [done|].
    apply Forall_repeat. by vm_compute. }
  apply cwp_bind, request_schema_wp; [lia|done| |].
  2: { intros c' w' Hs Hm. apply (Hfail _ c'); [unfold setup_error; auto 10| |].
       - by rewrite (same_field cc_fd _ _ Hs (fun _ => eq_refl)).
       - eapply moved_trans; [by eapply moved_traffic|done]. }
  intros c4 w4 outs1 ms1 Hs4 Et4 Hchunks T4. cbn [Z.ltb Z.compare]. pose proof (traffic_budget _ _ _ _ T4).
  pose proof (traffic_trans _ _ _ _ _ _ _ T23 T4) as T24.
  assert (Hc4 : buffers_ok c4).
  { apply (same_buffers _ _ Hs4 Hc3); rewrite ?Et4; [|done|apply Hc3].
    rewrite (chunks_zlen _ _ _ _ _ _ _ Hchunks), (bo_schema c3 Hc3). lia. }
  apply cwp_bind, initialize_synchronization_wp; [done| |].
  2: { intros w' T5. apply (Hfail _ c4); [unfold setup_error; auto 10| |].
       - by rewrite (same_field cc_fd _ _ Hs4 (fun _ => eq_refl)).
       - eapply moved_trans; by eapply moved_traffic. }
  intros sy0 w5 Hsy0 T5. pose proof (traffic_quiet_r _ _ _ _ _ T24 T5) as T25.
  pose proof (traffic_budget _ _ _ _ T5). apply cwp_bind, synchronize_wp; [lia|done|done| |].
  2: { intros c' w' sy' Hs _ _ Hm. apply (Hfail _ c'); [unfold setup_error; auto 10| |].
       - by rewrite (same_field cc_fd _ _ (same_trans _ _ _ Hs4 Hs) (fun _ => eq_refl)).
       - eapply moved_trans; [by eapply moved_traffic|done]. }
  intros c6 w6 sy outs2 ms2 Hs6 Hc6 Es6 Hsy Htr T6. cbn [Z.ltb Z.compare].
  pose proof (traffic_trans _ _ _ _ _ _ _ T25 T6) as T26. pose proof (same_trans _ _ _ Hs4 Hs6) as Hs.
  apply cwp_bind, commit_synchronization_wp; [done|done| |].
  { rewrite Es6, (same_field cc_signal_count _ _ Hs (fun _ => eq_refl)). by eapply chunks_schema_ok. }
  intros t Hct. cwp_steps. pose proof (sys_thread_ok w6) as T7.
  assert (Efd : cc_fd c6 = cc_fd c) by exact (same_field cc_fd _ _ Hs (fun _ => eq_refl)).
  destruct (negb _).
  { apply (Hfail _ (committed c6 sy t)); [unfold setup_error; auto 10|done|].
    eapply moved_trans; by eapply moved_traffic. }
  cwp_steps. apply client_ok_started with (n := 1) in Hct.
  eapply (Hok _ _ (request ROADCAST_MSG_HELLO hello now :: outs1 ++ outs2)
           ((h, welcome_bytes wel) :: ms1 ++ ms2) Hct); [done|done|done| |].
  - assert (Hd : describes wel c6) by (unfold describes; same_fields Hs; done).
    apply opened_intro; [done|done|done|done|exact Hd| |].
    + cbn. rewrite Es6. exact Hchunks.
    + rewrite Et4, (same_field cc_frame_count _ _ Hs4 (fun _ => eq_refl)),
        (same_field cc_signal_count _ _ Hs4 (fun _ => eq_refl)) in Htr.
      change (cc_can_id_to_index c3) with (cc_can_id_to_index c) in Htr. rewrite Hempty in Htr.
      by destruct sy.
  - apply (fun T => traffic_quiet_r _ _ _ _ _ T T7).
    change (traffic w w6 (wire (request ROADCAST_MSG_HELLO hello now) ++ wires (outs1 ++ outs2))
      (wire (h, welcome_bytes wel) ++ wires (ms1 ++ ms2))).
    rewrite !wires_app, !(assoc_L (++)). exact T26.
Qed.

(** The outcome of [roadcast_client_connect]. *)
Definition connects (w : W) (error : Z) (client : option client_t) (w' : W) : Prop :=
  match client with
  | Some c =>
      error = ROADCAST_CLIENT_OK /\ client_ok c /\ cc_connected c = 1 /\ cc_reader_started c = 1
      /\ (exists outs ms, opened c outs ms /\ moves w w' (wires outs) (wires ms))
      /\ descriptors w' = cc_fd c :: descriptors w
      /\ 0 <= cc_fd c /\ cc_fd c ∉ descriptors w
  | None => (error = ROADCAST_CLIENT_ERR_ARGUMENT \/ setup_error error)
            /\ descriptors w' = descriptors w
  end.

Lemma connect_client_wp name w (Q : Z -> cctx W -> Prop) :
  (budget w < fuel)%nat ->
  (forall c' w', connects w ROADCAST_CLIENT_OK (Some c') w' -> Q 0 (mk_cctx c' w')) ->
  (forall e c' w', setup_error e -> holds_descriptor w w' (cc_fd c') -> Q e (mk_cctx c' w')) ->
  cwp (connect_client fuel name) Q (mk_cctx new_client w).
Proof.
  intros Hf Hok Hbad. unfold connect_client. cwp_steps. pose proof (sock_clock_ok w) as T0.
  set (w0 := (monotonic_ns w).2) in *. pose proof (traffic_budget _ _ _ _ T0) as B0.
  destruct T0 as [M0 D0].
  assert (O0 : forall w' ds, opens w0 w' ds -> opens w w' ds).
  { intros w' ds [M D]. split; [|by rewrite <- D0]. exact (moves_trans _ _ _ _ _ _ _ M0 M). }
  apply connect_socket_wp; [lia| |].
  2: { intros w' O. cwp_steps. cbn [Z.ltb Z.compare]. apply cwp_ret, Hbad; [by left|].
       apply O0 in O as [_ D]. split; [exact D|]. cbn. lia. }
  intros fd w1 Hfd Hfresh O1. rewrite D0 in Hfresh. apply O0 in O1 as [M1 D1].
  assert (B1 : (budget w1 <= budget w)%nat) by (by destruct M1 as (_ & _ & ?)).
  cwp_steps. destruct (Z.ltb_spec fd 0); [lia|].
  apply setup_client_wp; [lia|done|done| |].
  - intros c' w' outs ms Hc Hcon Hst Efd Hop T. apply Hok. split_and!; try done.
    + exists outs, ms. split; [done|]. destruct T as [M _]. exact (moves_trans _ _ _ _ _ _ _ M1 M).
    + destruct T as [_ ->]. rewrite D1, Efd. done.
    + by rewrite Efd.
    + by rewrite Efd.
  - intros e c' w' He Efd Hm. apply Hbad; [done|]. split; [|by rewrite Efd].
    rewrite (moved_descriptors _ _ Hm), D1, Efd. cbn.
    by destruct (Z.leb_spec 0 fd); [|lia].
Qed.

Lemma close_descriptors c w w' :
  holds_descriptor w w' (cc_fd c) -> descriptors (roadcast_client_close c w') = descriptors w.
Proof.
  intros [D Hfresh]. unfold roadcast_client_close. destruct (Z.leb_spec 0 (cc_fd c)) as [H|H]; [|done].
  destruct (sock_close_ok (cc_fd c) (sock_shutdown (cc_fd c) w')) as [_ ->].
  destruct (sock_shutdown_ok (cc_fd c) w') as [_ ->]. rewrite D. by apply filter_fresh, Hfresh.
Qed.

Lemma connect_outcome name w :
  (budget w < fuel)%nat ->
  exists error client w',
    roadcast_client_connect fuel name w = Ok (error, client, w') /\ connects w error client w'.
Proof.
  intros Hf. unfold roadcast_client_connect.
  assert (Hmem : forall e w', e = ROADCAST_CLIENT_ERR_MEMORY -> traffic w w' [] [] ->
    exists error client w'', mret (e, None, w') = Ok (error, client, w'')
      /\ connects w error client w'').
  { intros e w' -> [_ D]. do 3 eexists. split; [done|]. split; [|done]. unfold setup_error. auto 10. }
  destruct name as [[|b name]|]; try (do 3 eexists; split; [done|]; split; [by left|done]).
  pose proof (sys_alloc_ok w) as T1. destruct (sys_alloc w) as [b1 w1]. cbn [snd] in T1.
  destruct b1; cbn [negb]; [|by apply Hmem].
  pose proof (traffic_quiet_l _ _ _ _ _ T1 (sys_alloc_ok w1)) as T2.
  destruct (sys_alloc w1) as [b2 w2]. cbn [snd] in T2. destruct b2; cbn [negb]; [|by apply Hmem].
  pose proof (traffic_quiet_l _ _ _ _ _ T2 (sys_mutex_ok w2)) as T3.
  destruct (sys_mutex w2) as [b3 w3]. cbn [snd] in T3. destruct b3; cbn [negb]; [|by apply Hmem].
  pose proof (traffic_budget _ _ _ _ T3) as B3. destruct T3 as [M3 D3].
  set (Q := fun (e : Z) (s : cctx W) => exists error client w',
    (if e =? ROADCAST_CLIENT_OK then mret (e, Some (me s), cenv s)
     else mret (e, None, roadcast_client_close (me s) (cenv s))) = Ok (error, client, w')
    /\ connects w error client w').
  assert (H : cwp (connect_client fuel (b :: name)) Q (mk_cctx new_client w3)).
  { apply connect_client_wp; [lia| |].
    - intros c' w' Hc. do 3 eexists. split; [done|].
      destruct Hc as (? & ? & ? & ? & (outs & ms & Hop & M) & D & ? & ?). split_and!; try done.
      + exists outs, ms. split; [done|]. exact (moves_trans _ _ _ _ _ _ _ M3 M).
      + cbn [cenv me]. by rewrite D, D3.
      + cbn [cenv me]. by rewrite <- D3.
    - intros e c' w' He Hh. unfold Q. cbn [me cenv].
      assert (e <> ROADCAST_CLIENT_OK) as Hne.
      { unfold setup_error in He. intros ->. by decompose sum He. }
      rewrite (proj2 (Z.eqb_neq _ _) Hne). do 3 eexists. split; [done|]. split; [by right|].
      rewrite (close_descriptors _ _ _ Hh). done. }
  apply cwp_run in H as (e & s & E & H). rewrite E. exact H.
Qed.
End Connect.
