(* ===== verification/ClientFollows.v ===== *)
(** * The client library against the daemon

    The messages the daemon sends to a subscriber are accepted by the library,
    and the cache it keeps agrees with the daemon's state: the theorems on the
    daemon's stream (Events.v) and on the reader thread (ClientLive.v) compose. *)

From S2P Require Import Prelude Wire CatalogDefs CatalogData Catalog SourceSession Sampler.
From S2P Require Import ServerDefs ServerOps ServerQueue ServerClient Replica ServerCatchup.
From S2P Require Import ServerInput DaemonOps Distribute Broadcast Daemon Heartbeat Events.
From S2P Require Import ClientDefs ClientOps ClientIo ClientCache ClientSync ClientLive.

(** The ids of the catalog are within the library's lookup table. *)
Class CatalogIndexed (C : Catalog) : Prop :=
  catalog_indexed : Forall (fun id => id < CAN_ID_LOOKUP_CAP) CAN_IDS.

#[export] Instance generated_catalog_indexed : CatalogIndexed generated_catalog.
Proof.
  assert (H : forallb (fun id => id <? CAN_ID_LOOKUP_CAP) (@CAN_IDS generated_catalog) = true)
    by (vm_compute; reflexivity).
  unfold CatalogIndexed. apply Forall_forall. intros id Hid.
  by apply Z.ltb_lt, (proj1 (forallb_forall _ _) H).
Qed.

(** ** Encodings are bytes *)

Ltac bytes_tac :=
  unfold bytes_ok; rewrite ?Forall_app, ?Forall_singleton; split_and!;
  try apply be16_u8; try apply be32_u8; try apply be64_u8; try done;
  try (unfold is_u8; lia).

Lemma frame_bytes_ok f : frame_ok f -> bytes_ok (frame_bytes f).
Proof.
  intros (_ & Hs & _ & Hd & _). unfold frame_bytes, ROADCAST_OBSERVATION_VALID in *. bytes_tac.
Qed.

Lemma signal_bytes_ok u : update_ok u -> bytes_ok (signal_bytes u).
Proof.
  intros (_ & _ & _ & _ & _ & Hs & Hc). unfold signal_bytes, ROADCAST_OBSERVATION_INVALID in *.
  destruct (calibrated (upd_value u) =? 0); bytes_tac.
Qed.

Lemma concat_bytes_ok {A} (enc : A -> list Z) items :
  Forall (fun x => bytes_ok (enc x)) items -> bytes_ok (concat (map enc items)).
Proof. induction 1; cbn; [by apply Forall_nil|]. by apply Forall_app. Qed.

Lemma frame_batch_bytes_ok b : batch_ok frame_ok b -> bytes_ok (frame_batch_bytes b).
Proof.
  intros (_ & _ & _ & _ & _ & Hi). unfold frame_batch_bytes, batch_prefix_bytes. bytes_tac.
  apply concat_bytes_ok. revert Hi. apply Forall_impl, frame_bytes_ok.
Qed.

Lemma signal_batch_bytes_ok b : batch_ok update_ok b -> bytes_ok (signal_batch_bytes b).
Proof.
  intros (_ & _ & _ & _ & _ & Hi). unfold signal_batch_bytes, batch_prefix_bytes. bytes_tac.
  apply concat_bytes_ok. revert Hi. apply Forall_impl, signal_bytes_ok.
Qed.

Lemma heartbeat_bytes_ok h : heartbeat_ok h -> bytes_ok (heartbeat_bytes h).
Proof.
  intros (_ & _ & _ & _ & _ & Hs). unfold heartbeat_bytes, ROADCAST_SOURCE_STATE_DEGRADED in *.
  change [0; 0; 0] with ([0] ++ [0] ++ [0]). bytes_tac.
Qed.

(** ** Updates keep the invariant *)

Lemma replace_frames_ok items : forall fs fs',
  Forall frame_ok items -> replace_frames fs items = Some fs' -> Forall frame_ok fs ->
  Forall frame_ok fs' /\ zlen fs' = zlen fs.
Proof.
  induction items as [|f items IH]; intros fs fs' Hi H Hf; cbn in H; [by injection H as <-|].
  inversion_clear Hi as [|? ? Hf1 Hi']. unfold replace_frame in H.
  destruct (_ <? _); [|done]. destruct (position _ _) as [i|]; [|done]. cbn in H.
  destruct (IH _ _ Hi' H) as [H1 H2]; [by apply Forall_insert|]. by rewrite H2, zlen_insert.
Qed.

Lemma replace_signals_ok items : forall vs vs',
  Forall update_ok items -> replace_signals vs items = Some vs' -> Forall value_ok vs ->
  Forall value_ok vs' /\ zlen vs' = zlen vs.
Proof.
  induction items as [|u items IH]; intros vs vs' Hi H Hv; cbn in H; [by injection H as <-|].
  inversion_clear Hi as [|? ? Hu Hi']. unfold replace_signal in H. destruct (_ <? _); [|done]. cbn in H.
  destruct (IH _ _ Hi' H) as [H1 H2]; [apply Forall_insert; [done|apply Hu]|].
  by rewrite H2, zlen_insert.
Qed.

Lemma update_cache_ok c sy m sy' :
  sync_ok c sy -> bytes_ok m.2 -> update_cache sy m = Some sy' -> sync_ok c sy'.
Proof.
  intros (Hl1 & Hl2 & Hf & Hv) Hb. unfold update_cache. destruct (_ =? _).
  - pose proof (decode_frame_batch_exact m.2 UINT16_MAX Hb) as Hx. unfold decodes_exactly in Hx.
    destruct (roadcast_decode_frame_batch _ _ _) as [b| |]; [|done..]. destruct (delta _ _); [|done].
    destruct (replace_frames _ _) as [fs|] eqn:E; [|done]. intros [= <-].
    destruct Hx as [[(_ & _ & _ & _ & _ & Hi) _] _].
    destruct (replace_frames_ok _ _ _ Hi E Hf) as [H1 H2]. split_and!; try done. cbn. congruence.
  - destruct (_ =? _); [|done].
    pose proof (decode_signal_batch_exact m.2 UINT16_MAX Hb) as Hx. unfold decodes_exactly in Hx.
    destruct (roadcast_decode_signal_batch _ _ _) as [b| |]; [|done..]. destruct (delta _ _); [|done].
    destruct (replace_signals _ _) as [vs|] eqn:E; [|done]. intros [= <-].
    destruct Hx as [[(_ & _ & _ & _ & _ & Hi) _] _].
    destruct (replace_signals_ok _ _ _ Hi E Hv) as [H1 H2]. split_and!; try done. cbn. congruence.
Qed.

Lemma live_client_ok c m c' :
  client_ok c -> bytes_ok m.2 -> live_client c m = Some c' -> client_ok c'.
Proof.
  intros Hc Hb. pose proof Hc as [[] ? ? ? ?]. unfold live_client. destruct (_ =? _).
  - destruct (roadcast_decode_heartbeat _ _); [|done..]. destruct (_ =? _); [|done]. intros [= <-].
    constructor; [by constructor|done..].
  - destruct (update_cache (cache_of c) m) as [sy|] eqn:E; [|done]. intros [= <-].
    pose proof (update_cache_ok c _ _ _ (cache_sync_ok c (client_ok_safe c Hc)) Hb E) as (? & ? & ? & ?).
    constructor; [by constructor|done..|].
    eapply table_over_ids; [|done]. symmetry. exact (update_cache_ids _ _ _ E).
Qed.

(** ** A client of this catalog *)

Definition replica_of (c : client_t) : replica := mk_replica (cc_frames c) (cc_signals c).

Section Follows.
Context `{HC : CatalogOk} `{HI : !CatalogIndexed C}.

(** The client has the frames and signals of the catalog, and a payload buffer for
    every message of the daemon. *)
Definition mirrors (c : client_t) : Prop :=
  client_ok c /\ map can_id (cc_frames c) = CAN_IDS /\ cc_signal_count c = SIGNAL_COUNT
  /\ PAYLOAD_CAP <= cc_payload_capacity c.

Lemma mirrors_frame_count c : mirrors c -> zlen (cc_frames c) = FRAME_COUNT.
Proof.
  intros (_ & Hids & _). apply (f_equal length) in Hids. rewrite length_map in Hids.
  unfold zlen, FRAME_COUNT, zlen in *. lia.
Qed.

Lemma replace_frames_catalog items : forall fs,
  map can_id fs = CAN_IDS -> Forall frame_ok items ->
  Forall (fun f => can_id f ∈ CAN_IDS) items ->
  replace_frames fs items = Some (fold_left apply_frame items fs).
Proof.
  induction items as [|f items IH]; intros fs Hids Hok Hin; cbn; [done|].
  inversion_clear Hok as [|? ? Hf Hok']. inversion_clear Hin as [|? ? Hid Hin'].
  destruct (replace_frame fs f) as [gs|] eqn:E; cbn.
  - rewrite (IH gs); [|by rewrite (replace_frame_ids _ _ _ E)|done|done].
    rewrite <- (replace_frame_apply _ _ _ ltac:(rewrite Hids; apply catalog_can_ids_distinct) E). done.
  - exfalso. unfold replace_frame in E.
    pose proof (proj1 (Forall_forall _ _) HI (can_id f) (proj1 (list_elem_of_In _ _) Hid)) as Hlt. cbv beta in Hlt.
    destruct (Z.ltb_spec (can_id f) CAN_ID_LOOKUP_CAP); [|lia].
    destruct (position (can_id f) fs) as [i|] eqn:Ep; [done|].
    apply position_None in Ep. by rewrite Hids in Ep.
Qed.

Lemma replace_signals_total items : forall vs,
  Forall (fun u => upd_index u < zlen vs) items ->
  replace_signals vs items = Some (fold_left apply_signal items vs).
Proof.
  induction items as [|u items IH]; intros vs Hi; cbn [replace_signals fold_left]; [done|].
  inversion_clear Hi as [|? ? Hu Hi']. unfold replace_signal.
  destruct (Z.ltb_spec (upd_index u) (zlen vs)); [|lia]. cbn [mbind option_bind]. apply IH.
  revert Hi'. apply Forall_impl. intros v Hv. unfold apply_signal. by rewrite zlen_insert.
Qed.

Lemma server_message_ok c t q ts p :
  mirrors c -> is_u16 t -> is_u64 q -> is_u64 ts -> zlen p <= PAYLOAD_CAP -> bytes_ok p ->
  message_ok (cc_payload_capacity c)
    (mk_header ROADCAST_PROTOCOL_VERSION t 0 (zlen p) q ts, p).
Proof.
  intros (_ & _ & _ & Hcap) Ht Hq Hts Hp Hb. pose proof (zlen_nonneg p).
  change PAYLOAD_CAP with 2016 in *. unfold message_ok, header_ok. cbn [fst snd version type flags
    payload_bytes sequence timestamp_ns].
  split_and!; try done; unfold is_u16, is_u32, is_u64, ROADCAST_PROTOCOL_VERSION, ROADCAST_MAX_PAYLOAD in *; lia.
Qed.

Lemma mirrors_live c m c' :
  mirrors c -> bytes_ok m.2 -> live_client c m = Some c' -> mirrors c'.
Proof.
  intros (Hc & Hids & Hs & Hcap) Hb Hl. pose proof (live_client_ok c m c' Hc Hb Hl) as Hc'.
  split; [done|]. revert Hl. unfold live_client. destruct (_ =? _).
  - destruct (roadcast_decode_heartbeat _ _); [|done..]. destruct (_ =? _); [|done]. by intros [= <-].
  - destruct (update_cache (cache_of c) m) as [sy|] eqn:E; [|done]. intros [= <-]. cbn.
    by rewrite (update_cache_ids _ _ _ E).
Qed.

(** The library takes every live message, and its cache follows the replica. *)
Lemma live_message_taken c bytes :
  mirrors c -> live_message bytes ->
  exists m c', wire m = bytes /\ message_ok (cc_payload_capacity c) m
    /\ type m.1 <> ROADCAST_MSG_RESYNC_REQUIRED /\ live_client c m = Some c' /\ mirrors c'
    /\ replica_of c' = apply_message (replica_of c) bytes.
Proof.
  intros Hm Hlive. pose proof (mirrors_frame_count c Hm) as Hfc. pose proof Hm as (Hc & Hids & Hsc & _).
  pose proof (bo_signals c (co_buffers c Hc)) as Hls.
  destruct Hlive as [q ts b Hq Hts Hb Ht Hst Hin _ Hsz|q ts b Hq Hts Hb Ht Hst Hin Hsz|q ts h Hq Hts Hh Hqe].
  - pose proof (frame_batch_bytes_ok b Hb) as Hby.
    pose proof (server_message_ok c ROADCAST_MSG_UPDATE_BATCH q ts _ Hm ltac:(by vm_compute) Hq Hts Hsz Hby) as Hok.
    set (m := (mk_header _ _ _ _ _ _, _)) in Hok.
    assert (E : live_client c m = Some (with_cache c (stamp_sync ((cache_of c)
      <| sy_frames := fold_left apply_frame (batch_items b) (cc_frames c) |>) (batch_sample_sequence b) m.1))).
    { unfold live_client, update_cache. cbn [m fst snd type]. cbn [Z.eqb].
      rewrite (decode_frame_batch_has _ _ UINT16_MAX b Hb (has_self _) eq_refl).
      destruct (Z.ltb_spec UINT16_MAX (zlen (batch_items b))); [destruct Hb as (_ & _ & _ & ? & _); lia|].
      unfold delta. cbn [cache_of sy_frames]. rewrite Ht, Hst, Hfc, !Z.eqb_refl. cbn [andb].
      destruct Hb as (_ & _ & _ & _ & _ & Hi). by rewrite (replace_frames_catalog _ _ Hids Hi Hin). }
    eexists m, _. split; [done|]. split; [done|]. split; [by vm_compute|]. split; [exact E|].
    split; [exact (mirrors_live c m _ Hm Hby E)|]. by rewrite apply_frames_message.
  - pose proof (signal_batch_bytes_ok b Hb) as Hby.
    pose proof (server_message_ok c ROADCAST_MSG_SIGNAL_UPDATE_BATCH q ts _ Hm ltac:(by vm_compute) Hq Hts Hsz Hby) as Hok.
    set (m := (mk_header _ _ _ _ _ _, _)) in Hok.
    assert (E : live_client c m = Some (with_cache c (stamp_sync ((cache_of c)
      <| sy_signals := fold_left apply_signal (batch_items b) (cc_signals c) |>) (batch_sample_sequence b) m.1))).
    { unfold live_client, update_cache. cbn [m fst snd type]. cbn [Z.eqb].
      rewrite (decode_signal_batch_has _ _ UINT16_MAX b Hb (has_self _) eq_refl).
      destruct (Z.ltb_spec UINT16_MAX (zlen (batch_items b))); [destruct Hb as (_ & _ & _ & ? & _); lia|].
      unfold delta. cbn [cache_of sy_signals]. rewrite Ht, Hst, Hls, Hsc, !Z.eqb_refl. cbn [andb].
      rewrite replace_signals_total; [done|]. by rewrite Hls, Hsc. }
    eexists m, _. split; [done|]. split; [done|]. split; [by vm_compute|]. split; [exact E|].
    split; [exact (mirrors_live c m _ Hm Hby E)|]. by rewrite apply_signals_message.
  - pose proof (heartbeat_bytes_ok h Hh) as Hby.
    assert (Hsz : zlen (heartbeat_bytes h) <= PAYLOAD_CAP) by (change (40 <= PAYLOAD_CAP); by vm_compute).
    pose proof (server_message_ok c ROADCAST_MSG_HEARTBEAT q ts _ Hm ltac:(by vm_compute) Hq Hts Hsz Hby) as Hok.
    set (m := (mk_header _ _ _ _ _ _, _)) in Hok.
    assert (E : live_client c m = Some (with_heartbeat c m.1 h)).
    { unfold live_client. change (type m.1 =? ROADCAST_MSG_HEARTBEAT) with true. cbv iota.
      change m.2 with (heartbeat_bytes h). rewrite (decode_heartbeat_bytes h Hh), Hqe.
      change (sequence m.1) with q. by rewrite Z.eqb_refl. }
    eexists m, _. split; [done|]. split; [done|]. split; [by vm_compute|]. split; [exact E|].
    split; [exact (mirrors_live c m _ Hm Hby E)|].
    by rewrite apply_other_message by (done || by vm_compute).
Qed.
(** ** The reader on the daemon's stream *)

Lemma wire_unique capacity m n r :
  message_ok capacity m -> message_ok capacity n -> wire m `prefix_of` wire n ++ r -> m = n.
Proof.
  intros Hm Hn Hp. pose proof Hn as (Hh & _ & _ & _ & Hmax & Hl & _).
  unfold wire in Hp at 2. rewrite <- (assoc_L (++)) in Hp.
  destruct (wire_header m n.1 (n.2 ++ r) capacity Hm Hh Hmax Hp) as [E [r' Ep]].
  destruct Hm as (_ & _ & _ & _ & _ & Hl' & _). rewrite E in Hl'.
  apply app_inj_1 in Ep as [Ep _]; [|unfold zlen in *; lia]. destruct m, n. cbn in *. congruence.
Qed.

Lemma wire_not_nil m r : wire m ++ r <> [].
Proof. done. Qed.

Lemma mirrors_kept c c' : kept c c' -> mirrors c -> mirrors c'.
Proof.
  intros Hk (Hc & Hids & Hs & Hp). pose proof (kept_ok _ _ Hk Hc) as Hc'. destruct Hk as [Hsame _].
  unfold mirrors. same_fields Hsame. done.
Qed.

Lemma replica_of_kept c c' : kept c c' -> replica_of c' = replica_of c.
Proof. intros [Hs _]. unfold replica_of. same_fields Hs. done. Qed.

(** The next message of the stream is the one the library takes. *)
Lemma next_message c m bs :
  mirrors c -> Forall live_message bs -> message_ok (cc_payload_capacity c) m ->
  wire m `prefix_of` concat bs ->
  exists b bs' c', bs = b :: bs' /\ wire m = b /\ type m.1 <> ROADCAST_MSG_RESYNC_REQUIRED
    /\ live_client c m = Some c' /\ mirrors c' /\ replica_of c' = apply_message (replica_of c) b.
Proof.
  intros Hc Hbs Hm Hp. destruct Hbs as [|b bs Hb Hbs].
  { destruct Hp as [r E]. by destruct (wire_not_nil m r). }
  destruct (live_message_taken c b Hc Hb) as (n & c' & Hw & Hn & Ht & Hl & Hmir & Hr).
  cbn [concat] in Hp. rewrite <- Hw in Hp. pose proof (wire_unique _ _ _ _ Hm Hn Hp) as ->.
  exists b, bs, c'. done.
Qed.

Lemma absorbs_follow c outs ms c1 :
  absorbs_all c outs ms c1 -> mirrors c -> forall bs, Forall live_message bs ->
  wires ms `prefix_of` concat bs ->
  exists done_ rest, bs = done_ ++ rest /\ wires ms = concat done_ /\ mirrors c1
    /\ replica_of c1 = fold_left apply_message done_ (replica_of c).
Proof.
  induction 1 as [c|c outs ms c2 outs' ms' c3 Ha _ IH]; intros Hc bs Hbs Hp.
  { by exists [], bs. }
  rewrite wires_app in Hp. destruct Ha as [m c4 c2 Hm Hnt Hl Hk|m c4 sy t outs ms Hm Ht _ _ _ _].
  - rewrite wires_one in Hp.
    destruct (next_message c m bs) as (b & bs' & c5 & -> & Hw & _ & Hl' & Hmir & Hr); try done.
    { destruct Hp as [r ->]. exists (wires ms' ++ r). by rewrite (assoc_L (++)). }
    rewrite Hl in Hl'. injection Hl' as <-. inversion_clear Hbs as [|? ? _ Hbs'].
    destruct (IH (mirrors_kept _ _ Hk Hmir) bs' Hbs') as (done_ & rest & -> & Hd & Hmir3 & Hr3).
    { cbn [concat] in Hp. rewrite Hw in Hp. by apply prefix_app_inv in Hp. }
    exists (b :: done_), rest. rewrite wires_app, wires_one, Hd, Hw, Hr3, (replica_of_kept _ _ Hk), Hr.
    done.
  - destruct (next_message c m bs) as (b & bs' & c5 & -> & _ & Hnt & _); try done.
    destruct Hp as [r ->]. exists (wires ms ++ wires ms' ++ r).
    change (wires (m :: ms)) with (wire m ++ wires ms). by rewrite <- !(assoc_L (++)).
Qed.

Section Reader.
Context {W : Type} `{K : !Clock W} `{N : !Socket W} `{HN : !SocketOk N K}.

Lemma reads_follow w c w' c' bs :
  reads_until w c w' c' -> mirrors c -> Forall live_message bs ->
  received w' = received w ++ concat bs ->
  replica_of c' = fold_left apply_message bs (replica_of c).
Proof.
  intros (c1 & w1 & outs & ms & out & inn & Hall & Hc1 & T1 & T2 & Hend) Hc Hbs Hr.
  destruct T1 as [(_ & R1 & _) _]. destruct T2 as [(_ & R2 & _) _].
  rewrite R2, R1, <- (assoc_L (++)) in Hr. apply app_inv_head in Hr.
  destruct (absorbs_follow c outs ms c1 Hall Hc bs Hbs) as (done_ & rest & -> & Hw & Hmir & Hrep).
  { by exists inn. }
  rewrite concat_app, Hw in Hr. apply app_inv_head in Hr. apply Forall_app in Hbs as [_ Hrest].
  assert (rest = [] /\ replica_of c' = replica_of c1) as [-> ->]; [|by rewrite app_nil_r].
  destruct Hend as [[-> ->]|[Hi Hk|m r Hm Hin Hwhy _]].
  - split; [|done]. destruct Hrest as [|b rest Hb _]; [done|].
    destruct (live_message_taken c1 b Hmir Hb) as (n & _ & <- & _).
    by destruct (wire_not_nil n (concat rest)).
  - split; [|by apply replica_of_kept]. destruct Hrest as [|b rest Hb _]; [done|].
    destruct (live_message_taken c1 b Hmir Hb) as (n & _ & Hn & Hok & _). destruct (Hi n Hok).
    exists (concat rest). cbn [concat] in Hr. by rewrite Hn.
  - exfalso. destruct (next_message c1 m rest) as (b & bs' & c5 & -> & _ & Hnt & Hl & _); try done.
    + exists r. by rewrite <- Hr, Hin.
    + destruct Hwhy as [Ht|Hnone]; [done|congruence].
Qed.
End Reader.
End Follows.
