(* ===== verification/ClientPace.v ===== *)
(** * How long the client library and the tool wait

    The readings of the clock, the waits and the sends of a run in order, and what
    src/client.c never does: ask the kernel to wait past the deadline it was
    given, whatever the peer does. *)

From S2P Require Import Prelude Wire CatalogDefs Catalog SourceSession Sampler ClientDefs ClientOps.

(** ** What is recorded *)

(** A reading of the clock, a [poll] with its timeout in milliseconds, a [send]. *)
Inductive tick :=
  | Reading (now : Z)
  | Wait (timeout_ms : Z)
  | Sending.

(** What the record of a run is: [clock_gettime], [poll] and [send] add to it,
    no other call does. *)
Class TicksOk {W} (N : Socket W) (K : Clock W) := {
  ticks : W -> list tick;
  ticks_clock w : ticks (monotonic_ns w).2 = ticks w ++ [Reading (monotonic_ns w).1];
  ticks_poll fd e ms w : ticks (sock_poll fd e ms w).2 = ticks w ++ [Wait ms];
  ticks_send fd data w : ticks (sock_send fd data w).2 = ticks w ++ [Sending];
  ticks_recv fd n w : ticks (sock_recv fd n w).2 = ticks w;
  ticks_socket w : ticks (sock_socket w).2 = ticks w;
  ticks_fcntl fd cmd arg w : ticks (sock_fcntl fd cmd arg w).2 = ticks w;
  ticks_connect fd a l w : ticks (sock_connect fd a l w).2 = ticks w;
  ticks_error fd w : ticks (sock_error fd w).2 = ticks w;
  ticks_shutdown fd w : ticks (sock_shutdown fd w) = ticks w;
  ticks_close fd w : ticks (sock_close fd w) = ticks w;
  ticks_stop w : ticks (sock_stop_requested w).2 = ticks w;
  ticks_alloc w : ticks (sys_alloc w).2 = ticks w;
  ticks_mutex w : ticks (sys_mutex w).2 = ticks w;
  ticks_thread w : ticks (sys_thread w).2 = ticks w;
}.

(** When the waits end at the latest: each starts at the last reading before it. *)
Fixpoint wait_ends (now : Z) (tr : list tick) : list Z :=
  match tr with
  | [] => []
  | Reading t :: tr => wait_ends t tr
  | Wait ms :: tr => now + ms * 1000000 :: wait_ends now tr
  | Sending :: tr => wait_ends now tr
  end.

Fixpoint last_reading (now : Z) (tr : list tick) : Z :=
  match tr with
  | [] => now
  | Reading t :: tr => last_reading t tr
  | _ :: tr => last_reading now tr
  end.

Lemma wait_ends_app tr1 : forall now tr2,
  wait_ends now (tr1 ++ tr2) = wait_ends now tr1 ++ wait_ends (last_reading now tr1) tr2.
Proof.
  induction tr1 as [|[t|ms|] tr1 IH]; intros now tr2; cbn; [done|by rewrite IH..].
Qed.

(** A run that starts with a reading asks for no wait that ends [limit] after it
    or later, but for the rounding up to a millisecond, as long as the clock has
    not wrapped around by then. *)
Definition punctual (limit : Z) (tr : list tick) : Prop :=
  match tr with
  | [] => True
  | Reading start :: tr =>
      start + limit < 2 ^ 64 ->
      Forall (fun e => e < start + limit + 1000000) (wait_ends start tr)
  | _ => False
  end.

Create HintDb paced.

Section Paced.
Context {W : Type} `{K : !Clock W} `{N : !Socket W} `{HT : !TicksOk N K} (limit : Z).
Implicit Types s : cctx W.

(** The waits of [m] end before the limit, and the result satisfies [P]. *)
Definition paced_to {A} (P : A -> Prop) (m : CM W A) : Prop := forall s,
  match m s with
  | Ok (a, s') => P a /\ exists tr, ticks (cenv s') = ticks (cenv s) ++ tr
      /\ forall now, Forall (fun e => e < limit + 1000000) (wait_ends now tr)
  | _ => True
  end.
Definition paced {A} (m : CM W A) : Prop := paced_to (fun _ => True) m.

Lemma paced_still {A} (P : A -> Prop) (m : CM W A) :
  (forall s, match m s with Ok (a, s') => P a /\ ticks (cenv s') = ticks (cenv s) | _ => True end) ->
  paced_to P m.
Proof.
  intros Hm s. specialize (Hm s). destruct (m s) as [[a s']| |]; [|done..]. destruct Hm as [Ha E].
  split; [done|]. exists []. rewrite app_nil_r. split; [done|]. intros now. constructor.
Qed.
Lemma paced_bind_to {A B} (P : A -> Prop) (m : CM W A) (f : A -> CM W B) :
  paced_to P m -> (forall a, P a -> paced (f a)) -> paced (m ≫= f).
Proof.
  intros Hm Hf s. unfold mbind, CM_bind. specialize (Hm s). destruct (m s) as [[a s1]| |]; [|done..].
  destruct Hm as (Ha & tr1 & E1 & H1). specialize (Hf a Ha s1).
  destruct (f a s1) as [[b s2]| |]; [|done..]. destruct Hf as (Hb & tr2 & E2 & H2).
  split; [done|]. exists (tr1 ++ tr2). split; [by rewrite E2, E1, (assoc_L (++))|].
  intros now. rewrite wait_ends_app. by apply Forall_app.
Qed.
Lemma paced_bind {A B} (m : CM W A) (f : A -> CM W B) :
  paced m -> (forall a, paced (f a)) -> paced (m ≫= f).
Proof. intros Hm Hf. eapply paced_bind_to; [exact Hm|]. intros a _. apply Hf. Qed.
Lemma paced_ret {A} (a : A) : paced (mret a).
Proof. by apply paced_still. Qed.
Lemma paced_getm : paced getm.
Proof. by apply paced_still. Qed.
Lemma paced_modm f : paced (modm f).
Proof. by apply paced_still. Qed.
Lemma paced_sys {A} (f : W -> A * W) : (forall w, ticks (f w).2 = ticks w) -> paced (sys f).
Proof. intros Hf. apply paced_still. intros s. unfold sys. specialize (Hf (cenv s)). by destruct (f (cenv s)). Qed.
Lemma paced_sys_ (f : W -> W) : (forall w, ticks (f w) = ticks w) -> paced (sys_ f).
Proof. intros Hf. apply paced_still. intros s. by split; [|apply Hf]. Qed.
Lemma paced_memm {A} (m : res A) : paced (memm m).
Proof. apply paced_still. intros s. unfold memm. by destruct m. Qed.
Lemma paced_dec {A} (m : res A) : paced (dec m).
Proof. apply paced_still. intros s. unfold dec. by destruct m. Qed.
Lemma paced_no_fuel {A} : paced (@no_fuel W A).
Proof. by intros s. Qed.

Lemma paced_clock : paced (sys monotonic_ns).
Proof.
  intros s. unfold sys. pose proof (ticks_clock (cenv s)) as E. destruct (monotonic_ns (cenv s)) as [t w].
  split; [done|]. exists [Reading t]. split; [exact E|]. intros now. constructor.
Qed.
Lemma paced_send fd data : paced (sys (sock_send fd data)).
Proof.
  intros s. unfold sys. pose proof (ticks_send fd data (cenv s)) as E.
  destruct (sock_send fd data (cenv s)) as [r w].
  split; [done|]. exists [Sending]. split; [exact E|]. intros now. constructor.
Qed.
End Paced.

#[export] Hint Resolve paced_ret paced_getm paced_modm paced_memm paced_dec paced_no_fuel
  paced_clock paced_send : paced.

(** One step of a function's body: a bind, a case distinction or a primitive. *)
Ltac paced_step :=
  lazymatch goal with
  | |- paced _ (_ ≫= _) => apply paced_bind
  | |- paced _ (match ?x with _ => _ end) => destruct x
  | |- forall _, _ => intros ?
  | |- paced _ (let _ := _ in _) => cbv zeta
  | |- paced _ (sys_ _) => apply paced_sys_; intros ?; first [apply ticks_close|apply ticks_shutdown]
  | |- _ => first
      [ solve [auto 2 with paced]
      | apply paced_sys; intros ?; first [apply ticks_recv|apply ticks_socket|apply ticks_fcntl
          |apply ticks_connect|apply ticks_error|apply ticks_stop|apply ticks_alloc
          |apply ticks_mutex|apply ticks_thread] ]
  end.
Ltac paced_tac := repeat paced_step.

Section Setup.
Context {W : Type} `{K : !Clock W} `{N : !Socket W} `{HT : !TicksOk N K} `{HK : !ClockOk K}
  (limit : Z) (fuel : nat).
#[local] Abbreviation paced := (paced (W := W) limit).

(** Each wait starts with a reading, and is cut at the deadline. *)
Lemma wait_loop_paced n fd e d : d <= limit -> paced (wait_loop n fd e d).
Proof.
  intros Hd. induction n as [|n IH]; cbn [wait_loop]; [apply paced_no_fuel|].
  intros s. unfold mbind, CM_bind, sys.
  pose proof (ticks_clock (cenv s)) as E1. pose proof (clock_range (cenv s)) as Hr.
  destruct (monotonic_ns (cenv s)) as [now w1]. cbn [fst snd] in *.
  assert (Hnow : exists tr, ticks w1 = ticks (cenv s) ++ tr
    /\ forall t, Forall (fun e => e < limit + 1000000) (wait_ends t tr)).
  { exists [Reading now]. split; [done|]. intros t. constructor. }
  destruct (Z.leb_spec d now); [by split|]. cbv zeta.
  match goal with |- context [i32 ?x <=? 0] => set (ms := i32 x) end.
  destruct (Z.leb_spec ms 0); [by split|]. cbn [cenv set]. pose proof (ticks_poll fd e ms w1) as E2.
  destruct (sock_poll fd e ms w1) as [r w2]. cbn [snd] in E2.
  assert (Hms : now + ms * 1000000 < limit + 1000000).
  { assert (H1 : u64 (d - now) <= d - now) by (apply Z.mod_le; lia).
    assert (H2 : 0 <= u64 (d - now)) by (apply Z.mod_pos_bound; lia).
    assert (H3 : u64 (u64 (d - now) + 999999) <= u64 (d - now) + 999999) by (apply Z.mod_le; lia).
    assert (H4 : 0 <= u64 (u64 (d - now) + 999999)) by (apply Z.mod_pos_bound; lia).
    set (x := u64 (u64 (d - now) + 999999)) in *.
    assert (H5 : ms <= x / 1000000).
    { unfold ms, i32. pose proof (Z.div_pos x 1000000 H4 ltac:(lia)).
      pose proof (Z.mod_le (x / 1000000 + 2 ^ 31) (2 ^ 32)). lia. }
    pose proof (Z.mul_div_le x 1000000). lia. }
  assert (Hpoll : exists tr, ticks w2 = ticks (cenv s) ++ tr
    /\ forall t, Forall (fun e => e < limit + 1000000) (wait_ends t tr)).
  { exists [Reading now; Wait ms]. rewrite E2, E1, <- (assoc_L (++)). split; [done|].
    intros t. by repeat constructor. }
  destruct r as [req err| | |]; try (by split); [by destruct req, err|].
  specialize (IH (mk_cctx (me s) w2)). cbn [cenv] in IH.
  change (s <| cenv := w1 |> <| cenv := w2 |>) with (mk_cctx (me s) w2).
  destruct (wait_loop n fd e d _) as [[a s']| |]; [|done..]. destruct IH as (_ & tr2 & E3 & H3).
  destruct Hpoll as (tr1 & E4 & H4). split; [done|]. exists (tr1 ++ tr2).
  split; [by rewrite E3, E4, (assoc_L (++))|]. intros t. rewrite wait_ends_app. by apply Forall_app.
Qed.

Lemma wait_descriptor_paced fd e d : d <= limit -> paced (wait_descriptor fuel fd e d).
Proof. apply wait_loop_paced. Qed.
Hint Resolve wait_descriptor_paced : paced.

Lemma connect_socket_paced name d : d <= limit -> paced (connect_socket fuel name d).
Proof. intros Hd. unfold connect_socket, set_nonblocking. paced_tac. Qed.
Lemma write_loop_paced n fd d : d <= limit -> forall data, paced (write_loop fuel n fd data d).
Proof. intros Hd. induction n as [|n IH]; intros data; cbn [write_loop]; paced_tac. Qed.
Lemma write_all_paced fd data d : d <= limit -> paced (write_all fuel fd data d).
Proof. intros Hd. by apply write_loop_paced. Qed.
Lemma read_loop_paced n fd d : d <= limit -> forall l out, paced (read_loop fuel n fd l d out).
Proof. intros Hd. induction n as [|n IH]; intros l out; cbn [read_loop]; paced_tac. Qed.
Lemma read_exact_paced l d : d <= limit -> paced (read_exact fuel l d).
Proof. intros Hd. pose proof read_loop_paced. unfold read_exact. paced_tac. Qed.
Hint Resolve write_all_paced read_exact_paced : paced.

(** The deadline of an operation is not after that of its caller; 0 stands for
    none. *)
Definition within (d : Z) : Prop := d <= limit /\ (d = 0 -> 2 ^ 64 <= limit).

Lemma operation_deadline_paced d :
  within d -> paced_to limit (fun r => r <= limit) (operation_deadline (W := W) d).
Proof.
  intros [Hd Hz] s. unfold operation_deadline, mbind, CM_bind, sys.
  pose proof (ticks_clock (cenv s)) as E. destruct (monotonic_ns (cenv s)) as [now w].
  split; [|exists [Reading now]; split; [exact E|]; intros t; constructor].
  destruct (Z.eqb_spec d 0) as [E0|_]; cbn [negb].
  { unfold u64. pose proof (Z.mod_pos_bound (now + CLIENT_READ_TIMEOUT_MS * 1000000) (2 ^ 64) ltac:(lia)).
    specialize (Hz E0). lia. }
  match goal with |- context [d <? ?x] => destruct (Z.ltb_spec d x); lia end.
Qed.

Lemma send_message_paced t p n d : within d -> paced (send_message fuel t p n d).
Proof.
  intros Hd. unfold send_message. apply paced_bind; [apply paced_getm|intros client].
  paced_step; [apply paced_ret|]. eapply paced_bind_to; [by apply operation_deadline_paced|].
  intros dl Hdl. paced_tac.
Qed.
Lemma read_message_paced d : within d -> paced (read_message fuel d).
Proof.
  intros Hd. unfold read_message. eapply paced_bind_to; [by apply operation_deadline_paced|].
  intros dl Hdl. paced_tac.
Qed.
Lemma message_payload_paced h : paced (message_payload h).
Proof. unfold message_payload. paced_tac. Qed.
Hint Resolve send_message_paced read_message_paced message_payload_paced : paced.

Context (d : Z) (Hd : within d).

Lemma request_page_paced q r i : paced (request_page fuel q r i d).
Proof. unfold request_page. paced_tac. Qed.
Hint Resolve request_page_paced : paced.
Lemma schema_loop_paced n : forall i, paced (schema_loop fuel n i d).
Proof. induction n as [|n IH]; intros; cbn [schema_loop]; paced_tac. Qed.
Lemma frame_loop_paced n : forall i sy, paced (frame_loop fuel n i d sy).
Proof. induction n as [|n IH]; intros; cbn [frame_loop]; paced_tac. Qed.
Lemma signal_loop_paced n : forall i sy, paced (signal_loop fuel n i d sy).
Proof. induction n as [|n IH]; intros; cbn [signal_loop]; paced_tac. Qed.
Hint Resolve schema_loop_paced frame_loop_paced signal_loop_paced : paced.
Lemma apply_frame_batch_paced sy h : paced (apply_frame_batch sy h).
Proof. unfold apply_frame_batch, decode_frame_batch, apply_decoded_frames. paced_tac. Qed.
Lemma apply_signal_batch_paced sy h : paced (apply_signal_batch sy h).
Proof. unfold apply_signal_batch, decode_signal_batch, apply_decoded_signals. paced_tac. Qed.
Hint Resolve apply_frame_batch_paced apply_signal_batch_paced : paced.
Lemma subscription_loop_paced n : forall sy, paced (subscription_loop fuel n sy d).
Proof. induction n as [|n IH]; intros; cbn [subscription_loop]; paced_tac. Qed.
Hint Resolve subscription_loop_paced : paced.
Lemma synchronize_paced sy : paced (synchronize fuel sy d).
Proof.
  unfold synchronize, request_frame_snapshot, request_signal_snapshot, complete_subscription.
  paced_tac.
Qed.
Hint Resolve synchronize_paced : paced.
Lemma setup_client_paced : paced (setup_client fuel d).
Proof.
  unfold setup_client, perform_handshake, allocate_buffers, request_schema,
    initialize_synchronization, commit_synchronization. paced_tac.
Qed.
End Setup.

(** The whole of the connection. *)
Section Connect.
Context {W : Type} `{K : !Clock W} `{N : !Socket W} `{HT : !TicksOk N K} `{HK : !ClockOk K} (fuel : nat).

Lemma setup_limit start :
  0 < start -> exists limit, within limit (u64 (start + CLIENT_SETUP_TIMEOUT_MS * 1000000))
    /\ (start + CLIENT_SETUP_TIMEOUT_MS * 1000000 < 2 ^ 64 ->
        limit = start + CLIENT_SETUP_TIMEOUT_MS * 1000000).
Proof.
  intros Hs. unfold within, CLIENT_SETUP_TIMEOUT_MS. set (x := start + 10000 * 1000000).
  destruct (Z.ltb_spec x (2 ^ 64)) as [Hx|Hx].
  - exists x. unfold u64. rewrite Z.mod_small by (unfold x in *; lia). unfold x in *. lia.
  - exists (2 ^ 64). unfold u64. pose proof (Z.mod_pos_bound x (2 ^ 64) ltac:(lia)). lia.
Qed.

Lemma connect_client_punctual name (s : cctx W) :
  match connect_client fuel name s with
  | Ok (_, s') => exists tr, ticks (cenv s') = ticks (cenv s) ++ tr
      /\ punctual (CLIENT_SETUP_TIMEOUT_MS * 1000000) tr
  | _ => True
  end.
Proof.
  unfold connect_client. unfold mbind at 1, CM_bind at 1, sys at 1.
  pose proof (ticks_clock (cenv s)) as E. pose proof (clock_range (cenv s)) as Hr.
  destruct (monotonic_ns (cenv s)) as [start w]. cbn [fst snd] in *. cbv beta iota zeta.
  destruct (setup_limit start ltac:(lia)) as (limit & Hlim & Heq).
  match goal with |- context [?m (s <| cenv := w |>)] => assert (Hm : paced limit m) end.
  { apply paced_bind; [apply connect_socket_paced, Hlim|]. intros fd.
    apply paced_bind; [apply paced_modm|]. intros _. case_match; [apply paced_ret|].
    by apply setup_client_paced. }
  specialize (Hm (s <| cenv := w |>)).
  match goal with |- context [?m (s <| cenv := w |>)] => destruct (m (s <| cenv := w |>)) as [[r s']| |] end;
    [|done..].
  destruct Hm as (_ & tr & E1 & H1). exists (Reading start :: tr). split.
  - rewrite E1. cbn. by rewrite E, <- (assoc_L (++)).
  - intros Hlt. specialize (H1 start). by rewrite (Heq Hlt) in H1.
Qed.

Lemma connect_punctual name (w : W) :
  match roadcast_client_connect fuel name w with
  | Ok (_, _, w') => exists tr, ticks w' = ticks w ++ tr
      /\ punctual (CLIENT_SETUP_TIMEOUT_MS * 1000000) tr
  | _ => True
  end.
Proof.
  assert (Hno : forall w', ticks w' = ticks w -> exists tr, ticks w' = ticks w ++ tr
    /\ punctual (CLIENT_SETUP_TIMEOUT_MS * 1000000) tr).
  { intros w' E. exists []. by rewrite app_nil_r. }
  unfold roadcast_client_connect. destruct name as [[|b name]|]; [by apply Hno| |by apply Hno].
  pose proof (ticks_alloc w) as E1. destruct (sys_alloc w) as [[|] w1]; cbn [negb snd] in *; [|by apply Hno].
  pose proof (ticks_alloc w1) as E2. destruct (sys_alloc w1) as [[|] w2]; cbn [negb snd] in *;
    [|apply Hno; congruence].
  pose proof (ticks_mutex w2) as E3. destruct (sys_mutex w2) as [[|] w3]; cbn [negb snd] in *;
    [|apply Hno; congruence].
  pose proof (connect_client_punctual (b :: name) (mk_cctx new_client w3)) as H.
  destruct (connect_client _ _ _) as [[failure s]| |]; [|done..]. rewrite bind_ok.
  cbn [cenv] in H. rewrite E3, E2, E1 in H. destruct (failure =? _); [exact H|].
  unfold roadcast_client_close. cbn [mret res_ret].
  destruct (0 <=? _); [|exact H]. by rewrite ticks_close, ticks_shutdown.
Qed.
End Connect.
