(* ===== verification/ClientHost.v ===== *)
(** * A scripted socket

    An instance of the socket interface that satisfies its contract: the peer's
    bytes are a list, delivered in pieces of at most seven bytes, after which the
    stream ends; everything sent is accepted at once; every reading of the clock
    takes the same time.  It shows that the hypotheses on the operating system can
    hold, and runs the library on concrete conversations. *)

From S2P Require Import Prelude Wire CatalogDefs Catalog SourceSession Sampler.
From S2P Require Import ClientDefs ClientOps ClientIo ClientCache ClientSync ClientLive.
From S2P Require Import ClientPace.

Record script := mk_script {
  sc_incoming : list Z;
  sc_received : list Z;
  sc_sent : list Z;
  sc_fds : list Z;
  sc_budget : nat;
  sc_clock : Z;
  sc_tick : Z;
  sc_ticks : list tick;
}.

#[export] Instance eta_script : Eta script := fun s =>
  mk_script (sc_incoming s) (sc_received s) (sc_sent s) (sc_fds s) (sc_budget s) (sc_clock s)
    (sc_tick s) (sc_ticks s).

Definition piece : nat := 7.

#[export] Instance script_clock : Clock script := {
  monotonic_ns s :=
    let now := 1 + Z.abs (sc_clock s) mod 2 ^ 63 in
    (now, s <| sc_clock := sc_clock s + sc_tick s |> <| sc_ticks := sc_ticks s ++ [Reading now] |>);
  sleep_until _ s := s;
}.

#[export] Instance script_socket : Socket script := {
  sock_socket s :=
    let fd := 1 + fold_right Z.max 2 (sc_fds s) in (fd, s <| sc_fds := fd :: sc_fds s |>);
  sock_fcntl _ _ _ s := (0, s);
  sock_connect _ _ _ s := (Done tt, s);
  sock_error _ s := (0, s);
  sock_send _ data s :=
    let s := s <| sc_ticks := sc_ticks s ++ [Sending] |> in
    match sc_budget s with
    | O => (Broken, s)
    | S n => (Done (zlen data), s <| sc_sent := sc_sent s ++ data |> <| sc_budget := n |>)
    end;
  sock_recv _ n s :=
    match sc_budget s with
    | O => (Broken, s)
    | S b =>
        let got := take (Z.to_nat n `min` piece) (sc_incoming s) in
        (Done (map u8 got),
         s <| sc_incoming := drop (length got) (sc_incoming s) |>
           <| sc_received := sc_received s ++ map u8 got |> <| sc_budget := b |>)
    end;
  sock_poll _ _ ms s :=
    (match sc_incoming s with [] => PollTimeout | _ => PollReady true false end,
     s <| sc_ticks := sc_ticks s ++ [Wait ms] |>);
  sock_shutdown _ s := s;
  sock_close fd s := s <| sc_fds := filter (fun d => d <> fd) (sc_fds s) |>;
  sock_stop_requested s := (false, s);
  sys_alloc s := (true, s);
  sys_mutex s := (true, s);
  sys_thread s := (true, s);
}.

Lemma max_fresh l : forall x, x ∈ l -> x < 1 + fold_right Z.max 2 l.
Proof.
  induction l as [|y l IH]; intros x Hx; [by apply elem_of_nil in Hx|]. cbn.
  apply elem_of_cons in Hx as [->|Hx]; [lia|]. specialize (IH x Hx). lia.
Qed.

Ltac quiet := cbn; rewrite ?app_nil_r; split_and!; (done || lia).

#[export, program] Instance script_socket_ok : SocketOk script_socket script_clock := {
  received := sc_received;
  transmitted := sc_sent;
  descriptors := sc_fds;
  budget := sc_budget;
}.
Next Obligation.
  intros fd n w Hn. cbn. destruct (sc_budget w) as [|b] eqn:Eb; cbn.
  { quiet. }
  split_and!; rewrite ?app_nil_r, ?Eb; try done; try lia.
  - unfold zlen. rewrite length_map, length_take. lia.
  - apply Forall_map, Forall_forall. intros x _. apply u8_range.
Qed.
Next Obligation.
  intros fd data w. cbn. destruct (sc_budget w) as [|b] eqn:Eb; cbn.
  { quiet. }
  split_and!; rewrite ?app_nil_r, ?Eb; try done; try lia.
  rewrite take_ge; [done|]. unfold zlen. lia.
Qed.
Next Obligation.
  intros fd e t w. cbn. rewrite !app_nil_r. split; [split_and!; done || lia|].
  by destruct (sc_incoming w).
Qed.
Next Obligation. intros. quiet. Qed.
Next Obligation.
  intros w. cbn. rewrite !app_nil_r. split_and!; try (done || lia).
  - assert (H : 2 <= fold_right Z.max 2 (sc_fds w)) by (induction (sc_fds w); cbn; lia).
    destruct (fold_right Z.max 2 (sc_fds w)); try lia; done.
  - intros Hin. pose proof (max_fresh _ _ Hin). lia.
Qed.
Next Obligation. intros. quiet. Qed.
Next Obligation. intros. quiet. Qed.
Next Obligation. intros. quiet. Qed.
Next Obligation. intros. quiet. Qed.
Next Obligation. intros. quiet. Qed.
Next Obligation. intros. quiet. Qed.
Next Obligation. intros. quiet. Qed.
Next Obligation. intros. quiet. Qed.
Next Obligation. intros. quiet. Qed.
Next Obligation.
  split. intros w. cbn. pose proof (Z.mod_pos_bound (Z.abs (sc_clock w)) (2 ^ 63) ltac:(lia)). lia.
Qed.

#[export, program] Instance script_ticks : TicksOk script_socket script_clock := {
  ticks := sc_ticks;
}.
Solve All Obligations with (intros; cbn; try done; by repeat case_match).
