(* ===== verification/ClientTheorems.v ===== *)
(** * The client library: theorems

    The claims on src/client.c, with a concrete conversation for each: connecting,
    the reader thread, live messages, the reader on the daemon's stream, and the
    application interface. *)

From Stdlib Require Import String.
From S2P Require Import Prelude Text Wire CatalogDefs CatalogData Catalog SourceSession Sampler.
From S2P Require Import ServerDefs ServerOps ServerQueue ServerClient Replica ServerCatchup.
From S2P Require Import ServerInput Host ServerTheorems DaemonOps Distribute Broadcast Daemon.
From S2P Require Import Heartbeat Events DaemonTheorems ClientDefs ClientOps ClientIo ClientCache.
From S2P Require Import ClientSync ClientLive ClientConnect ClientFollows ClientPace ClientHost.

(** ** Connecting and reading *)

Section Library.
Context {W : Type} `{K : !Clock W} `{N : !Socket W} `{HN : !SocketOk N K}.



(** C21: a live message is applied exactly as [live_client] says or refused: an
    update replaces the frames with the ids, or the signals with the indices, it
    names, and sets the counters; a heartbeat sets the counters and the state of
    the source; anything else, an unknown id or index, or a batch for another
    catalog is refused, and then the reader ends.  The invariant is kept. *)
Theorem live_message_dispatched (fuel : nat) c m (w : W) :
  client_ok c -> message_ok (cc_payload_capacity c) m ->
  slice (cc_payload c) 0 (payload_bytes m.1) = Ok m.2 ->
  type m.1 <> ROADCAST_MSG_RESYNC_REQUIRED ->
  exists r c', dispatch fuel m.1 (mk_cctx c w) = Ok (r, mk_cctx c' w)
    /\ match live_client c m with
       | Some c1 => r = 0 /\ kept c1 c' /\ client_ok c'
       | None => r = -1 /\ client_safe c'
       end.
Proof.
  intros Hc Hm Hs Ht.
  assert (H : cwp (dispatch fuel m.1) (fun r s => exists c', s = mk_cctx c' w /\ dispatched c m r c')
    (mk_cctx c w)).
  { apply dispatch_live_wp; [done|done|done|]. intros r c' Hd. by exists c'. }
  apply cwp_run in H as (r & s & Hrun & c' & -> & Hd). by exists r, c'.
Qed.

(** C24: a resynchronization returns.  When it succeeds, the cache is one
    consistent snapshot with the updates up to SUBSCRIBED, the lookup table is
    that of its frames, the resynchronization is counted, the invariant holds
    and nothing else but the working buffers differs.  When it fails, the frames,
    signals, counters and schema are the old ones, and so is every other field
    but the contents of the working buffers and of the lookup table, which keeps
    its size: [request_frame_snapshot] indexes the new pages into the shared table. *)
Theorem resynchronize_returns (fuel : nat) c (w : W) :
  client_ok c -> (budget w < fuel)%nat ->
  exists r c' w', resynchronize fuel (mk_cctx c w) = Ok (r, mk_cctx c' w')
    /\ ((r = 0 /\ client_ok c' /\ cc_connected c' = 1
         /\ (exists c1 sy t, same c c1 /\ cc_schema c1 = cc_schema c /\ c' = resynchronized c1 sy t)
         /\ exists outs ms,
              transcript (cc_frame_count c) (cc_signal_count c) (cc_can_id_to_index c) (cache_of c')
                outs ms
              /\ transmitted w' = transmitted w ++ wires outs
              /\ received w' = received w ++ wires ms)
        \/ (r = -1 /\ client_safe c' /\ same c c' /\ cc_schema c' = cc_schema c)).
Proof.
  intros Hc Hf.
  assert (H : cwp (resynchronize fuel) (fun r s => (r = 0 /\ client_ok (me s)
    /\ cc_connected (me s) = 1
    /\ (exists c1 sy t, same c c1 /\ cc_schema c1 = cc_schema c /\ me s = resynchronized c1 sy t)
    /\ exists outs ms,
         transcript (cc_frame_count c) (cc_signal_count c) (cc_can_id_to_index c) (cache_of (me s))
           outs ms
         /\ transmitted (cenv s) = transmitted w ++ wires outs
         /\ received (cenv s) = received w ++ wires ms)
      \/ (r = -1 /\ client_safe (me s) /\ same c (me s) /\ cc_schema (me s) = cc_schema c))
    (mk_cctx c w)).
  { apply resynchronize_wp; [done|by apply client_ok_safe| |].
    - intros c1 w' sy t outs ms Hs Es Htr Hok [(T1 & T2 & _) _]. left. split; [done|]. split; [exact Hok|].
      split; [done|]. split; [by exists c1, sy, t|]. exists outs, ms. split; [|done]. by destruct sy.
    - intros c' w' Hs Es Hsafe _. by right. }
  apply cwp_run in H as (r & [c' w'] & Hrun & H). by exists r, c', w'.
Qed.
End Library.

(** ** The library on the daemon's stream *)

Section Composition.
Context `{HC : CatalogOk} `{HI : !CatalogIndexed C} {V W : Type} `{K : !Clock W} `{U : !Uv W}
  `{HU : !UvOk U K} `{S : !VhalSource V W} `{HS : !VhalSourceOk S} `{HA : !Apart S HU}.
Context {X : Type} `{KX : !Clock X} `{N : !Socket X} `{HN : !SocketOk N KX}.

(** C2: library and daemon together.  Let the client's cache agree with the
    daemon when it is a live subscriber in slot [i].  Across any events of the
    daemon in which the client sends nothing, either the daemon cuts the client
    off, or the library's reader thread, when it has received what the daemon has
    sent since, holds a cache that agrees with the daemon's new state. *)
Theorem library_follows_daemon (fuel : nat) (d d' : daemon V W) es i slot c (w : X) :
  daemon_ok d -> clients d !! i = Some slot -> live slot ->
  mirrors c -> agrees (replica_of c) (server d) ->
  steps d es d' -> silent i es -> (budget w < fuel)%nat ->
  (exists s', reader_thread_main fuel (mk_cctx c w) = Ok (tt, s')
     /\ forall bs, sent (world d') (Z.of_nat i) = sent (world d) (Z.of_nat i) ++ bs ->
          received (cenv s') = received w ++ concat bs ->
          agrees (replica_of (me s')) (server d'))
  \/ exists es1 d1 es2, es = es1 ++ es2 /\ steps d es1 d1 /\ cut_at d1 i.
Proof.
  intros Hok Hslot Hlive Hc Hag Hs Hsil Hf.
  destruct (steps_follow i es d d' slot Hs Hok Hsil Hslot Hlive)
    as [(slot' & ms & _ & _ & Hst & Hms & _ & HR)|Hcut]; [left|by right].
  assert (H : cwp (reader_thread_main fuel) (fun _ s => exists c', reads_until w c (cenv s) c'
    /\ replica_of (me s) = replica_of c') (mk_cctx c w)).
  { unfold reader_thread_main. apply cwp_bind, reader_loop_wp; [done|done|apply Hc|]. intros c' w' Hr.
    unfold mark_disconnected. cwp_steps. by exists c'. }
  apply cwp_run in H as ([] & s' & Hrun & c' & Hr & E). exists s'. split; [exact Hrun|].
  intros bs Hbs Hrec. rewrite Hst in Hbs. apply app_inv_head in Hbs as <-.
  rewrite E, (reads_follow w c (cenv s') c' ms Hr Hc Hms Hrec). by apply HR.
Qed.
End Composition.

(** ** The application interface *)

(** C37: on a client whose lookup table belongs to its cache (the invariant after
    a connection, a live message or a successful resynchronization, but not after
    one that failed), reading a frame by its CAN id returns the frame that the
    lookup finds, the last one of the cache with that id; the argument error is
    returned exactly when the cache has no such frame or the id is 2048 or more,
    outside the lookup table. *)
Theorem read_frame_by_id c id :
  client_ok c -> 0 <= id ->
  match roadcast_client_read_frame c id with
  | Ok (Some f) => exists i, position id (cc_frames c) = Some i /\ cc_frames c !! i = Some f
                             /\ can_id f = id
                             /\ id < CAN_ID_LOOKUP_CAP
  | Ok None => CAN_ID_LOOKUP_CAP <= id \/ id ∉ map can_id (cc_frames c)
  | _ => False
  end.
Proof.
  intros Hc Hid. unfold roadcast_client_read_frame. pose proof (co_buffers c Hc) as Hb.
  pose proof (bo_frames c Hb) as Hl. pose proof (bo_frame_count c Hb) as Hfc.
  assert (Hmax : (UINT16_MAX <? cc_frame_count c) = false).
  { apply Z.ltb_ge. unfold CLIENT_MAX_FRAMES, UINT16_MAX in *. lia. }
  destruct (Z.ltb_spec id CAN_ID_LOOKUP_CAP) as [Hlt|Hge].
  - rewrite (table_for_lookup _ _ _ (co_table c Hc)) by lia. rewrite bind_ok.
    destruct (position id (cc_frames c)) as [i|] eqn:E.
    + destruct (position_Some _ _ _ E) as (f & Hf & Hid'). pose proof (lookup_lt_Some _ _ _ Hf).
      destruct (Z.ltb_spec (Z.of_nat i) (cc_frame_count c)); [|unfold zlen in *; lia].
      rewrite (rd_Some _ _ _ Hf), bind_ok. exists i. by split_and!.
    + rewrite Hmax. right. by apply position_None.
  - rewrite bind_ok, Hmax. by left.
Qed.

(** The first entry that satisfies the test. *)
Lemma find_entry_spec test schema n : forall i,
  0 <= i -> i + Z.of_nat n = zlen schema ->
  exists r, find_entry test schema n i = Ok r
    /\ ((r = -1 /\ forall j e, i <= Z.of_nat j -> schema !! j = Some e -> test e = false)
        \/ exists e, i <= r < zlen schema /\ schema !! Z.to_nat r = Some e /\ test e = true
             /\ forall j e', i <= Z.of_nat j < r -> schema !! j = Some e' -> test e' = false).
Proof.
  induction n as [|n IH]; intros i Hi Hn; cbn [find_entry].
  { exists (-1). split; [done|]. left. split; [done|]. intros j e Hj He.
    apply lookup_lt_Some in He. unfold zlen in Hn. lia. }
  destruct (rd_ok schema i ltac:(lia)) as (e & -> & He). rewrite bind_ok.
  assert (Hhere : forall j e', Z.of_nat j = i -> schema !! j = Some e' -> e' = e).
  { intros j e' Hj He'. replace (Z.to_nat i) with j in He by lia. congruence. }
  destruct (test e) eqn:Ht.
  { exists i. split; [done|]. right. exists e. split_and!; try done; try lia. }
  destruct (IH (i + 1) ltac:(lia) ltac:(lia)) as (r & Hr & Hcase). exists r. split; [done|].
  destruct Hcase as [[-> Hno]|(e1 & Hr1 & He1 & Ht1 & Hno)]; [left|right].
  - split; [done|]. intros j e' Hj He'. destruct (decide (Z.of_nat j = i)) as [Hji|Hne].
    + by rewrite (Hhere j e' Hji He').
    + apply (Hno j); [lia|done].
  - exists e1. split_and!; try done; try lia. intros j e' Hj He'.
    destruct (decide (Z.of_nat j = i)) as [Hji|Hne].
    + by rewrite (Hhere j e' Hji He').
    + apply (Hno j); [lia|done].
Qed.

(** Looking a signal up by its name returns the first entry of the schema
    with that name, or -1 when there is none; the result is the entry's own index,
    and reading the signal at it succeeds. *)
Theorem signal_lookup c nm :
  client_ok c ->
  exists r, roadcast_client_find_signal c nm = Ok r
    /\ ((r = -1 /\ forall j e, cc_schema c !! j = Some e -> c_string (name e) <> c_string nm)
        \/ exists e v, 0 <= r < cc_signal_count c /\ cc_schema c !! Z.to_nat r = Some e
             /\ c_string (name e) = c_string nm /\ index e = r
             /\ (forall j e', Z.of_nat j < r -> cc_schema c !! j = Some e' ->
                   c_string (name e') <> c_string nm)
             /\ cc_signals c !! Z.to_nat r = Some v
             /\ roadcast_client_read_signal c r = Ok (ROADCAST_CLIENT_OK, [v])).
Proof.
  intros Hc. pose proof (co_buffers c Hc) as Hb. pose proof (bo_signal_count c Hb) as Hsc.
  unfold CLIENT_MAX_SIGNALS in Hsc. unfold roadcast_client_find_signal.
  destruct (find_entry_spec (fun e => bool_decide (c_string (name e) = c_string nm)) (cc_schema c)
    (Z.to_nat (cc_signal_count c)) 0) as (r & -> & Hr); [lia|rewrite (bo_schema c Hb); lia|].
  exists r. split; [done|]. destruct Hr as [[-> Hno]|(e & Hr & He & Ht & Hno)]; [left|right].
  - split; [done|]. intros j e He. apply (bool_decide_eq_false_1 _), (Hno j); [lia|done].
  - rewrite (bo_schema c Hb) in Hr.
    destruct (rd_ok (cc_signals c) r ltac:(rewrite (bo_signals c Hb); lia)) as (v & Hv & Hlk).
    exists e, v. split_and!; try done; try lia.
    + by apply bool_decide_eq_true_1 in Ht.
    + destruct (co_schema c Hc _ _ He) as (_ & -> & _). rewrite u32_id; unfold is_u32; lia.
    + intros j e' Hj He'. apply (bool_decide_eq_false_1 _), (Hno j); [lia|done].
    + unfold roadcast_client_read_signal. cbn [roadcast_client_read_signals].
      destruct (Z.leb_spec (cc_signal_count c) r); [lia|]. by rewrite Hv.
Qed.

(** Reading several signals copies the values at the indices in order, up
    to the first index outside the catalog: the call succeeds exactly when there
    is none.  Reading all signals succeeds exactly when the caller's array is
    large enough, and copies the whole cache. *)
Theorem read_signals_copies c indices capacity :
  client_ok c -> Forall (fun i => 0 <= i) indices ->
  (exists r vs, roadcast_client_read_signals c indices = Ok (r, vs)
     /\ vs = pick (cc_signals c) (take (length vs) indices)
     /\ match indices !! length vs with
        | None => r = ROADCAST_CLIENT_OK
        | Some i => r = ROADCAST_CLIENT_ERR_ARGUMENT /\ cc_signal_count c <= i
        end)
  /\ roadcast_client_read_all c capacity
     = Ok (if capacity <? cc_signal_count c then (ROADCAST_CLIENT_ERR_ARGUMENT, [])
           else (cc_signal_count c, cc_signals c)).
Proof.
  intros Hc Hi. pose proof (co_buffers c Hc) as Hb. pose proof (bo_signals c Hb) as Hl. split.
  - induction Hi as [|i indices Hi0 _ IH]; cbn [roadcast_client_read_signals].
    { by exists ROADCAST_CLIENT_OK, []. }
    destruct (Z.leb_spec (cc_signal_count c) i) as [Hge|Hlt].
    { by exists ROADCAST_CLIENT_ERR_ARGUMENT, []. }
    destruct (rd_ok (cc_signals c) i ltac:(lia)) as (v & -> & Hv). rewrite bind_ok.
    destruct IH as (r & vs & -> & Hvs & Hr). rewrite bind_ok. exists r, (v :: vs).
    split; [done|]. split; [|exact Hr]. cbn [length take].
    by rewrite (pick_cons _ _ _ _ Hv), <- Hvs.
  - unfold roadcast_client_read_all. destruct (_ <? _); [done|]. by rewrite slice_all.
Qed.

(** The age of the sample is -1 when the client is disconnected, has no
    sample or the sample is from the future; otherwise it is the time since the
    sample, without wrap-around, limited to INT64_MAX. *)
Theorem sample_age_exact {W : Type} {K : Clock W} (HK : ClockOk K) c (w : W) :
  is_u64 (cc_sample_timestamp_ns c) ->
  let now := (monotonic_ns w).1 in
  let age := (roadcast_client_sample_age_ns c w).1 in
  (age = -1 <-> cc_connected c = 0 \/ cc_sample_timestamp_ns c = 0 \/ now < cc_sample_timestamp_ns c)
  /\ (age <> -1 -> age = Z.min (now - cc_sample_timestamp_ns c) INT64_MAX).
Proof.
  intros Ht now age. pose proof (clock_range w) as Hn. unfold age, roadcast_client_sample_age_ns.
  unfold is_u64 in Ht. unfold now in *. destruct (monotonic_ns w) as [t w']. cbn [fst] in *.
  destruct (Z.eqb_spec (cc_connected c) 0); cbn [orb fst]; [split; [tauto|done]|].
  destruct (Z.eqb_spec (cc_sample_timestamp_ns c) 0); cbn [orb fst]; [split; [tauto|done]|].
  destruct (Z.ltb_spec t (cc_sample_timestamp_ns c)); cbn [orb fst]; [split; [tauto|done]|].
  rewrite u64_id by (unfold is_u64; lia). unfold INT64_MAX.
  destruct (Z.ltb_spec (2 ^ 63 - 1) (t - cc_sample_timestamp_ns c)); split; try lia.
Qed.

(** The socket address.  A name that is empty or does not fit is refused;
    otherwise the 108 bytes of the path hold the name (with the leading ['@']
    replaced by a zero for an abstract socket) followed by zeros only, and the
    length covers the name and, for a path, its terminator. *)
Theorem socket_address name :
  match fill_unix_address name with
  | Ok (path, len) =>
      0 < zlen name < SUN_PATH_SIZE /\ zlen path = SUN_PATH_SIZE
      /\ len = SUN_PATH_OFFSET + zlen (address_path name)
      /\ len <= SUN_PATH_OFFSET + SUN_PATH_SIZE
      /\ exists zeros, path = address_path name ++ zeros /\ Forall (fun b => b = 0) zeros
  | Fail => zlen name = 0 \/ SUN_PATH_SIZE <= zlen name
  | UB => False
  end.
Proof.
  rewrite fill_unix_address_spec. pose proof (zlen_nonneg name).
  destruct (Z.eqb_spec (zlen name) 0); cbn [orb]; [by left|].
  destruct (Z.leb_spec SUN_PATH_SIZE (zlen name)); [by right|].
  assert (Hl : zlen (address_path name) <= SUN_PATH_SIZE).
  { destruct name as [|b rest]; [done|]. unfold address_path. rewrite zlen_cons in *.
    destruct (b =? 64); unfold zlen in *; rewrite ?length_app; cbn [length]; lia. }
  split; [lia|]. split.
  { rewrite zlen_app, zlen_repeat. unfold zlen, SUN_PATH_SIZE in *. lia. }
  split; [done|]. split; [lia|]. eexists. split; [done|]. by apply Forall_repeat.
Qed.

(** ** A conversation *)

Definition say (t : Z) (payload : list Z) : msg :=
  (mk_header ROADCAST_PROTOCOL_VERSION t 0 (zlen payload) 9 77, payload).

Definition sdk_frames : list roadcast_frame_t :=
  [mk_frame 0x85 2 (repeat 1 8) 5 6; mk_frame 0x1a0 2 (repeat 2 8) 5 7].

Definition sdk_values : list roadcast_signal_value_t :=
  [mk_value 3 0 5 6 2 1; mk_value 4 0 5 7 2 0].

Definition sdk_entry (i : Z) (nm : list Z) : roadcast_schema_entry_t :=
  mk_entry (100 + i) i UINT32_MAX 0x85 ROADCAST_ITEM_CAN_SIGNAL ROADCAST_SOURCE_RAW_CAN 8 0 0 0 nm [].

Definition sdk_welcome : welcome_t := mk_welcome 60 2 2 8 200 3 1 4242.

(** What a server with two frames and two signals sends to a client that connects:
    the frames and the signals in two pages each, and one update. *)
Definition sdk_replies : list msg :=
  [ say ROADCAST_MSG_WELCOME (welcome_bytes sdk_welcome);
    say ROADCAST_MSG_SCHEMA_CHUNK
      (schema_chunk_bytes (mk_schema_chunk 1 2 0 4242 [sdk_entry 0 [65]; sdk_entry 1 [66]]));
    say ROADCAST_MSG_SNAPSHOT (frame_batch_bytes (mk_batch 8 2 0 (take 1 sdk_frames)));
    say ROADCAST_MSG_SNAPSHOT (frame_batch_bytes (mk_batch 8 2 1 (drop 1 sdk_frames)));
    say ROADCAST_MSG_SIGNAL_SNAPSHOT_CHUNK
      (signal_batch_bytes (mk_batch 8 2 0 [mk_update 0 (mk_value 0 0 0 0 0 0)]));
    say ROADCAST_MSG_SIGNAL_SNAPSHOT_CHUNK
      (signal_batch_bytes (mk_batch 8 2 1 [mk_update 1 (mk_value 4 0 5 7 2 0)]));
    say ROADCAST_MSG_SIGNAL_UPDATE_BATCH
      (signal_batch_bytes (mk_batch 9 2 UINT32_MAX [mk_update 0 (mk_value 3 0 5 6 2 1)]));
    say ROADCAST_MSG_SUBSCRIBED [] ].

(** Then a live update, a heartbeat, and a resynchronization. *)
Definition sdk_update : msg :=
  say ROADCAST_MSG_UPDATE_BATCH
    (frame_batch_bytes (mk_batch 10 2 UINT32_MAX [mk_frame 0x1a0 2 (repeat 9 8) 5 70])).

Definition sdk_world (incoming : list Z) : script := mk_script incoming [] [] [] 400 50 0 [].

Definition sdk_name : list Z := [64; 114; 111; 97; 100].

Definition sdk_connection : res (Z * option client_t * script) :=
  roadcast_client_connect 500 (Some sdk_name) (sdk_world (wires sdk_replies)).

Definition sdk_client : client_t :=
  match sdk_connection with Ok (_, Some c, _) => c | _ => new_client end.

Lemma sdk_connected :
  match sdk_connection with
  | Ok (e, Some c, _) => (e =? 0) && bool_decide (cc_frames c = sdk_frames)
                         && bool_decide (cc_signals c = sdk_values)
  | _ => false
  end = true.
Proof. vm_compute. reflexivity. Qed.

Lemma sdk_client_ok : client_ok sdk_client.
Proof.
  destruct (connect_outcome 500 (Some sdk_name) (sdk_world (wires sdk_replies)))
    as (e & oc & w' & Hrun & H); [cbn; lia|].
  pose proof sdk_connected as Hc. unfold sdk_client. unfold sdk_connection in *. rewrite Hrun in Hc |- *.
  destruct oc as [c|]; [|discriminate Hc]. destruct H as (_ & H & _). exact H.
Qed.


Lemma bytes_ok_check l : forallb (fun b => (0 <=? b) && (b <? 256)) l = true -> bytes_ok l.
Proof.
  intros H. apply Forall_forall. intros b Hb. rewrite forallb_forall in H. specialize (H b Hb).
  apply andb_prop in H as [H1 H2]. unfold is_u8. lia.
Qed.

Lemma say_ok capacity t p :
  is_u16 t -> zlen p <= capacity -> zlen p <= ROADCAST_MAX_PAYLOAD -> bytes_ok p ->
  message_ok capacity (say t p).
Proof.
  intros Ht Hc Hp Hb. pose proof (zlen_nonneg p). unfold message_ok, header_ok, say.
  cbn [fst snd version type flags payload_bytes sequence timestamp_ns].
  split_and!; try done; unfold is_u32, ROADCAST_MAX_PAYLOAD in *; lia.
Qed.


Definition sdk_payload : list Z := sdk_update.2 ++ repeat 0 (Z.to_nat (200 - zlen sdk_update.2)).

Definition sdk_loaded : client_t := sdk_client <| cc_payload := sdk_payload |>.

Lemma sdk_loaded_ok : client_ok sdk_loaded.
Proof.
  assert (H : (zlen sdk_payload =? zlen (cc_payload sdk_client)) = true) by (vm_compute; reflexivity).
  apply Z.eqb_eq in H. unfold sdk_loaded. generalize sdk_payload, H. clear H.
  generalize sdk_client, sdk_client_ok. intros c Hc buf H.
  eapply kept_ok; [|exact Hc]. by apply kept_payload_buffer.
Qed.

Lemma sdk_update_ok : message_ok (cc_payload_capacity sdk_loaded) sdk_update.
Proof.
  assert (H : (cc_payload_capacity sdk_loaded =? 200) = true) by (vm_compute; reflexivity).
  apply Z.eqb_eq in H. rewrite H. unfold sdk_update. assert (H1 : (zlen (frame_batch_bytes (mk_batch 10 2 UINT32_MAX [mk_frame 0x1a0 2 (repeat 9 8) 5 70])) <=? 200) = true) by (vm_compute; reflexivity).
  apply Z.leb_le in H1.
  apply say_ok; [by unfold is_u16, ROADCAST_MSG_UPDATE_BATCH; lia|exact H1|unfold ROADCAST_MAX_PAYLOAD; lia|].
  apply bytes_ok_check. vm_compute. reflexivity.
Qed.

Lemma live_message_dispatched_witness :
  exists c1 c', live_client sdk_loaded sdk_update = Some c1
    /\ dispatch 500 sdk_update.1 (mk_cctx sdk_loaded (sdk_world []))
       = Ok (0, mk_cctx c' (sdk_world [])) /\ kept c1 c' /\ client_ok c'.
Proof.
  assert (Hs : slice (cc_payload sdk_loaded) 0 (payload_bytes sdk_update.1) = Ok sdk_update.2)
    by (vm_compute; reflexivity).
  assert (Hl : match live_client sdk_loaded sdk_update with Some _ => true | None => false end = true)
    by (vm_compute; reflexivity).
  destruct (live_message_dispatched 500 sdk_loaded sdk_update (sdk_world []) sdk_loaded_ok
    sdk_update_ok Hs) as (r & c' & Hrun & H); [by vm_compute|].
  destruct (live_client sdk_loaded sdk_update) as [c1|]; [|discriminate Hl].
  destruct H as (-> & Hk & Hok). exists c1, c'. split; [reflexivity|].
  split; [exact Hrun|]. split; [exact Hk|exact Hok].
Defined.

Lemma resynchronize_returns_witness :
  exists c' w', resynchronize 500 (mk_cctx sdk_client (sdk_world (wires (drop 2 sdk_replies))))
    = Ok (0, mk_cctx c' w') /\ client_ok c'.
Proof.
  destruct (resynchronize_returns 500 sdk_client (sdk_world (wires (drop 2 sdk_replies))) sdk_client_ok)
    as (r & c' & w' & Hrun & H); [cbn; lia|].
  assert (Hr : match resynchronize 500 (mk_cctx sdk_client (sdk_world (wires (drop 2 sdk_replies)))) with
    | Ok (r, _) => r =? 0 | _ => false end = true) by (vm_compute; reflexivity).
  rewrite Hrun in Hr. apply Z.eqb_eq in Hr. subst r.
  destruct H as [(_ & Hok & _)|[H _]]; [|discriminate H]. exists c', w'. split; [exact Hrun|exact Hok].
Defined.

Lemma read_frame_by_id_witness :
  client_ok sdk_client
  /\ roadcast_client_read_frame sdk_client 0x1a0 = Ok (Some (mk_frame 0x1a0 2 (repeat 2 8) 5 7))
  /\ exists i, position 0x1a0 (cc_frames sdk_client) = Some i.
Proof.
  assert (Hf : bool_decide (cc_frames sdk_client = sdk_frames)
               && match roadcast_client_read_frame sdk_client 0x1a0 with
                  | Ok (Some f) => bool_decide (f = mk_frame 0x1a0 2 (repeat 2 8) 5 7)
                  | _ => false end = true) by (vm_compute; reflexivity).
  apply andb_prop in Hf as [_ Hf].
  pose proof (read_frame_by_id sdk_client 0x1a0 sdk_client_ok ltac:(lia)) as H.
  destruct (roadcast_client_read_frame sdk_client 0x1a0) as [[f|]| |]; try discriminate Hf.
  apply bool_decide_eq_true_1 in Hf. destruct H as (i & Hi & _).
  split; [exact sdk_client_ok|]. split; [by rewrite Hf|]. exists i. exact Hi.
Defined.

Lemma signal_lookup_witness :
  client_ok sdk_client
  /\ roadcast_client_find_signal sdk_client [66; 0; 7] = Ok 1
  /\ exists v, roadcast_client_read_signal sdk_client 1 = Ok (ROADCAST_CLIENT_OK, [v]).
Proof.
  assert (Hf : match roadcast_client_find_signal sdk_client [66; 0; 7] with
               | Ok r => r =? 1 | _ => false end = true) by (vm_compute; reflexivity).
  destruct (signal_lookup sdk_client [66; 0; 7] sdk_client_ok) as (r & Hrun & H).
  rewrite Hrun in Hf. apply Z.eqb_eq in Hf. subst r. split; [exact sdk_client_ok|].
  split; [exact Hrun|]. destruct H as [[H _]|(e & v & _ & _ & _ & _ & _ & _ & Hv)]; [discriminate H|].
  exists v. exact Hv.
Defined.

Lemma read_signals_copies_witness :
  client_ok sdk_client
  /\ exists r vs, roadcast_client_read_signals sdk_client [1; 0; 5] = Ok (r, vs)
       /\ vs = pick (cc_signals sdk_client) (take (length vs) [1; 0; 5]).
Proof.
  destruct (read_signals_copies sdk_client [1; 0; 5] 2 sdk_client_ok) as [(r & vs & H1 & H2 & _) _].
  { repeat constructor; lia. }
  split; [exact sdk_client_ok|]. exists r, vs. split; [exact H1|exact H2].
Defined.

Lemma sample_age_exact_witness :
  (roadcast_client_sample_age_ns (new_client <| cc_connected := 1 |> <| cc_sample_timestamp_ns := 20 |>)
     (sdk_world [])).1 = 31.
Proof.
  set (c := new_client <| cc_connected := 1 |> <| cc_sample_timestamp_ns := 20 |>).
  destruct (sample_age_exact _ c (sdk_world [])) as [[H1 H2] H3]; [by vm_compute|].
  rewrite H3; [by vm_compute|]. intros E. destruct (H1 E) as [H|[H|H]]; by vm_compute in H.
Defined.

(** ** Two observations *)

(** A snapshot with the frames in another order, after which the stream ends. *)
Definition sdk_reordered : list msg :=
  [ say ROADCAST_MSG_SNAPSHOT (frame_batch_bytes (mk_batch 8 2 0 (rev sdk_frames))) ].

(** A resynchronization that fails leaves the lookup table of its snapshot: the
    frame that is then read for 0x85 has another id. *)
Example abandoned_resynchronization :
  match resynchronize 500 (mk_cctx sdk_client (sdk_world (wires sdk_reordered))) with
  | Ok (r, s) =>
      (r =? -1) && bool_decide (cc_frames (me s) = sdk_frames)
      && match roadcast_client_read_frame (me s) 0x85 with
         | Ok (Some f) => can_id f =? 0x1a0
         | _ => false
         end
  | _ => false
  end = true.
Proof. vm_compute. reflexivity. Qed.

(** The deadline is looked at only when a call would block: a message is read
    after a deadline that has passed. *)
Example expired_deadline_read :
  match read_message 500 1 (mk_cctx sdk_client (sdk_world (wire sdk_update))) with
  | Ok (Some h, s) => (type h =? ROADCAST_MSG_UPDATE_BATCH) && (1 <? (monotonic_ns (cenv s)).1)
  | _ => false
  end = true.
Proof. vm_compute. reflexivity. Qed.

(** ** A client of the daemon *)

Section Mirror.
Context `{HC : CatalogOk} `{HI : !CatalogIndexed C}.

Definition plain_entry (i : nat) : roadcast_schema_entry_t :=
  mk_entry 0 (u32 (Z.of_nat i)) UINT32_MAX 0 ROADCAST_ITEM_CAN_SIGNAL ROADCAST_SOURCE_RAW_CAN 8 0 0 0 [] [].

(** A client whose cache is [fs] and [vs]. *)
Definition mirror (fs : list roadcast_frame_t) (vs : list roadcast_signal_value_t) : client_t :=
  mk_cc 3 1 (repeat 0 4096) 4096 (repeat zero_frame 145) 145 (repeat zero_update 101) 101
    (map plain_entry (seq 0 (length vs))) fs vs
    (match loop (length fs) 0 (index_frame fs) empty_table with Ok t => t | _ => [] end)
    60 FRAME_COUNT SIGNAL_COUNT 1 SCHEMA_HASH 8 4096 0 0 1 0 0 0 0 0 1.

Lemma mirror_mirrors fs vs :
  frames_ok fs -> map can_id fs = CAN_IDS -> signals_ok vs -> mirrors (mirror fs vs).
Proof.
  intros [Hfl Hf] Hids [Hvl Hv]. pose proof catalog_frames_bound as Hb1.
  pose proof catalog_signals_bound as Hb2. pose proof catalog_nonempty as [Hn1 Hn2].
  unfold UINT16_MAX in *.
  destruct (index_frames fs empty_table (zlen fs)) as (t & Hloop & Htab);
    [by vm_compute|done|unfold CLIENT_MAX_FRAMES; lia|done|].
  replace (Z.to_nat (zlen fs)) with (length fs) in Hloop by (unfold zlen; lia).
  split; [|done]. unfold mirror. rewrite Hloop.
  constructor; [constructor| | | |]; cbn [cc_payload cc_payload_capacity cc_frame_scratch
    cc_frame_scratch_capacity cc_signal_scratch cc_signal_scratch_capacity cc_frame_count
    cc_signal_count cc_schema cc_frames cc_signals cc_can_id_to_index]; try done.
  - unfold CLIENT_MAX_SIGNALS. lia.
  - unfold zlen in *. by rewrite length_map, length_seq.
  - by destruct Htab.
  - eapply table_over_u16; [|by rewrite Hfl; unfold CLIENT_MAX_FRAMES; lia|exact Htab].
    unfold empty_table. apply Forall_repeat. by vm_compute.
  - intros i e He. rewrite list_lookup_fmap in He. destruct (seq 0 _ !! i) as [j|] eqn:Hj; [|done].
    apply lookup_seq in Hj as [-> _]. cbn in He. injection He as <-.
    unfold schema_entry_ok, plain_entry. cbn. split_and!; try done; try (by right); try apply Forall_nil_2.
Qed.
End Mirror.

(** A connection that breaks at once. *)
Definition broken_world : script := mk_script [] [] [] [] 0 50 0 [].

Lemma broken_reader c :
  reader_thread_main 500 (mk_cctx c broken_world)
  = Ok (tt, mk_cctx (c <| cc_connected := 0 |>) (broken_world <| sc_ticks := [Reading 51] |>)).
Proof. reflexivity. Qed.

Lemma library_follows_daemon_witness :
  let d := demo_daemon subscribed_client in
  let c := mirror initialize_fake_frames fake_signals in
  let d' := on_stats (thread_step d) in
  mirrors c
  /\ ((exists s', reader_thread_main 500 (mk_cctx c broken_world) = Ok (tt, s')
         /\ agrees (replica_of (me s')) (server d'))
      \/ exists es1 d1 es2, [SamplerTurn; StatsTimer] = es1 ++ es2 /\ steps d es1 d1 /\ cut_at d1 0).
Proof.
  intros d c d'. assert (Hok : daemon_ok d) by apply demo_daemon_ok, subscribed_client_ok.
  pose proof demo_server_ok as (_ & Hf & Hids & _).
  assert (Hs : signals_ok fake_signals) by (destruct (ok_array d Hok) as ((_ & _ & _ & Hs & _) & _); exact Hs).
  assert (Hc : mirrors c) by exact (mirror_mirrors _ _ Hf Hids Hs). split; [exact Hc|].
  assert (Hag : agrees (replica_of c) (server d)).
  { split; [exact Hids|]. split; cbn; auto with roadcast. }
  destruct (library_follows_daemon 500 d d' [SamplerTurn; StatsTimer] 0 subscribed_client c broken_world
    Hok eq_refl) as [(s' & Hrun & H)|H]; try assumption.
  - split; reflexivity.
  - apply steps_cons with (thread_step d); [exact I|reflexivity|].
    apply steps_cons with d'; [exact I|reflexivity|constructor].
  - repeat constructor; discriminate.
  - cbn; lia.
  - left. exists s'. split; [exact Hrun|]. apply (H []); [reflexivity|].
    rewrite broken_reader in Hrun. injection Hrun as <-. reflexivity.
  - right. exact H.
Defined.
