(* ===== verification/ClientSteady.v ===== *)
(** * What the reader thread never touches

    The descriptor, the schema and the counts of the catalog are set while the
    client connects; no function of the reader changes them, whatever it receives
    and however it ends. *)

From S2P Require Import Prelude Wire CatalogDefs Catalog SourceSession Sampler ClientDefs ClientOps.

Definition fixed (c c' : client_t) : Prop :=
  cc_fd c' = cc_fd c /\ cc_schema c' = cc_schema c /\ cc_frame_count c' = cc_frame_count c
  /\ cc_signal_count c' = cc_signal_count c.

#[export] Instance fixed_preorder : PreOrder fixed.
Proof.
  split; [by repeat split|]. intros c1 c2 c3 (A1 & A2 & A3 & A4) (B1 & B2 & B3 & B4).
  repeat split; congruence.
Qed.

Create HintDb steady.

Section Steady.
Context {W : Type}.
Implicit Types s : cctx W.

Definition steady {A} (m : CM W A) : Prop := forall s,
  match m s with Ok (_, s') => fixed (me s) (me s') | _ => True end.

Lemma steady_ret {A} (a : A) : steady (mret a).
Proof. intros s. by repeat split. Qed.
Lemma steady_bind {A B} (m : CM W A) (f : A -> CM W B) :
  steady m -> (forall a, steady (f a)) -> steady (m ≫= f).
Proof.
  intros Hm Hf s. unfold mbind, CM_bind. specialize (Hm s). destruct (m s) as [[a s']| |]; [|done..].
  specialize (Hf a s'). destruct (f a s') as [[b s'']| |]; [|done..]. by etrans.
Qed.
Lemma steady_getm : steady getm.
Proof. intros s. by repeat split. Qed.
Lemma steady_modm f : (forall c, fixed c (f c)) -> steady (modm f).
Proof. intros Hf s. apply Hf. Qed.
Lemma steady_sys {A} (f : W -> A * W) : steady (sys f).
Proof. intros s. unfold sys. destruct (f (cenv s)). by repeat split. Qed.
Lemma steady_sys_ (f : W -> W) : steady (sys_ f).
Proof. intros s. by repeat split. Qed.
Lemma steady_memm {A} (m : res A) : steady (memm m).
Proof. intros s. unfold memm. destruct m; by repeat split. Qed.
Lemma steady_dec {A} (m : res A) : steady (dec m).
Proof. intros s. unfold dec. destruct m; by repeat split. Qed.
Lemma steady_no_fuel {A} : steady (@no_fuel W A).
Proof. by intros s. Qed.
End Steady.

#[export] Hint Resolve steady_ret steady_getm steady_sys steady_sys_ steady_memm steady_dec
  steady_no_fuel : steady.

(** One step of a function's body: a bind, a case distinction or a primitive. *)
Ltac steady_step :=
  lazymatch goal with
  | |- steady (_ ≫= _) => apply steady_bind
  | |- steady (modm _) => apply steady_modm; intros ?; by repeat split
  | |- steady (match ?x with _ => _ end) => destruct x
  | |- forall _, _ => intros ?
  | |- steady (let _ := _ in _) => cbv zeta
  | |- _ => solve [auto 2 with steady]
  end.
Ltac steady_tac := repeat steady_step.

Section Reader.
Context {W : Type} `{K : !Clock W} `{N : !Socket W} (fuel : nat).

Lemma wait_loop_steady n : forall fd e d, steady (W := W) (wait_loop n fd e d).
Proof. induction n as [|n IH]; intros; cbn [wait_loop]; steady_tac. Qed.
Lemma wait_descriptor_steady fd e d : steady (W := W) (wait_descriptor fuel fd e d).
Proof. apply wait_loop_steady. Qed.
Hint Resolve wait_descriptor_steady : steady.
Lemma write_loop_steady n : forall fd data d, steady (W := W) (write_loop fuel n fd data d).
Proof. induction n as [|n IH]; intros; cbn [write_loop]; steady_tac. Qed.
Lemma write_all_steady fd data d : steady (W := W) (write_all fuel fd data d).
Proof. apply write_loop_steady. Qed.
Lemma operation_deadline_steady d : steady (W := W) (operation_deadline d).
Proof. unfold operation_deadline. steady_tac. Qed.
Hint Resolve write_all_steady operation_deadline_steady : steady.
Lemma send_message_steady t p n d : steady (W := W) (send_message fuel t p n d).
Proof. unfold send_message. steady_tac. Qed.
Lemma read_loop_steady n : forall fd l d out, steady (W := W) (read_loop fuel n fd l d out).
Proof. induction n as [|n IH]; intros; cbn [read_loop]; steady_tac. Qed.
Hint Resolve send_message_steady read_loop_steady : steady.
Lemma read_exact_steady l d : steady (W := W) (read_exact fuel l d).
Proof. unfold read_exact. steady_tac. Qed.
Hint Resolve read_exact_steady : steady.
Lemma read_message_steady d : steady (W := W) (read_message fuel d).
Proof. unfold read_message. steady_tac. Qed.
Lemma message_payload_steady h : steady (W := W) (message_payload h).
Proof. unfold message_payload. steady_tac. Qed.
Hint Resolve read_message_steady message_payload_steady : steady.
Lemma request_page_steady q r i d : steady (W := W) (request_page fuel q r i d).
Proof. unfold request_page. steady_tac. Qed.
Hint Resolve request_page_steady : steady.

Lemma frame_loop_steady n : forall i d sy, steady (W := W) (frame_loop fuel n i d sy).
Proof. induction n as [|n IH]; intros; cbn [frame_loop]; steady_tac. Qed.
Lemma signal_loop_steady n : forall i d sy, steady (W := W) (signal_loop fuel n i d sy).
Proof. induction n as [|n IH]; intros; cbn [signal_loop]; steady_tac. Qed.
Hint Resolve frame_loop_steady signal_loop_steady : steady.
Lemma decode_frame_batch_steady h : steady (W := W) (decode_frame_batch h).
Proof. unfold decode_frame_batch. steady_tac. Qed.
Lemma decode_signal_batch_steady h : steady (W := W) (decode_signal_batch h).
Proof. unfold decode_signal_batch. steady_tac. Qed.
Lemma apply_decoded_frames_steady sy h q n : steady (W := W) (apply_decoded_frames sy h q n).
Proof. unfold apply_decoded_frames. steady_tac. Qed.
Lemma apply_decoded_signals_steady sy h q n : steady (W := W) (apply_decoded_signals sy h q n).
Proof. unfold apply_decoded_signals. steady_tac. Qed.
Hint Resolve decode_frame_batch_steady decode_signal_batch_steady apply_decoded_frames_steady
  apply_decoded_signals_steady : steady.
Lemma apply_frame_batch_steady sy h : steady (W := W) (apply_frame_batch sy h).
Proof. unfold apply_frame_batch. steady_tac. Qed.
Lemma apply_signal_batch_steady sy h : steady (W := W) (apply_signal_batch sy h).
Proof. unfold apply_signal_batch. steady_tac. Qed.
Hint Resolve apply_frame_batch_steady apply_signal_batch_steady : steady.
Lemma subscription_loop_steady n : forall sy d, steady (W := W) (subscription_loop fuel n sy d).
Proof. induction n as [|n IH]; intros; cbn [subscription_loop]; steady_tac. Qed.
Hint Resolve subscription_loop_steady : steady.
Lemma synchronize_steady sy d : steady (W := W) (synchronize fuel sy d).
Proof.
  unfold synchronize, request_frame_snapshot, request_signal_snapshot, complete_subscription.
  steady_tac.
Qed.
Hint Resolve synchronize_steady : steady.
Lemma resynchronize_steady : steady (W := W) (resynchronize fuel).
Proof. unfold resynchronize, initialize_synchronization, commit_synchronization. steady_tac. Qed.
Hint Resolve resynchronize_steady : steady.
Lemma dispatch_steady h : steady (W := W) (dispatch fuel h).
Proof.
  unfold dispatch, apply_live_frame_batch, apply_live_signal_batch, apply_heartbeat, commit_live.
  steady_tac.
Qed.
Hint Resolve dispatch_steady : steady.
Lemma mark_disconnected_steady : steady (W := W) mark_disconnected.
Proof. unfold mark_disconnected. steady_tac. Qed.
Lemma reader_iteration_steady : steady (W := W) (reader_iteration fuel).
Proof. unfold reader_iteration. steady_tac. Qed.
Hint Resolve reader_iteration_steady mark_disconnected_steady : steady.
Lemma reader_loop_steady n : steady (W := W) (reader_loop fuel n).
Proof. induction n as [|n IH]; cbn [reader_loop]; steady_tac. Qed.
Lemma reader_thread_main_steady : steady (W := W) (reader_thread_main fuel).
Proof. pose proof (reader_loop_steady fuel). unfold reader_thread_main. steady_tac. Qed.
End Reader.
