(* ===== verification/SmokeOps.v ===== *)
(** * The smoke test of the client library: src/roadcast_client_smoke.c

    [main] of a program on the library's interface, while the library's reader
    thread runs beside it.  The cache lock makes a message that the reader takes
    in and a call of the interface atomic, so between two calls the reader has
    taken any number of turns: [turns k] of them before call [k]. *)

From Stdlib Require Import String.
From S2P Require Import Prelude Effect Text Wire CatalogDefs Catalog SourceSession Sampler.
From S2P Require Import ClientDefs ClientOps.

(** [nanosleep(&delay, &delay)]: [None], or [errno] and the time that is left. *)
Class Nanosleep (W : Type) := nanosleep_rest : Z -> Z -> W -> option (Z * (Z * Z)) * W.

(** A line of output, with the values it shows; [Complaint] is the fixed part of a
    message on the error output. *)
Inductive smoke_line :=
  | Complaint (text : string)
  | Connect_failed (reason : string)
  | Sdk_line (status : roadcast_client_status_t)
  | Value_line (signal_name : list Z) (index : Z) (value : roadcast_signal_value_t)
  | Frame_line (frame : roadcast_frame_t)
  | Closing_line (status : roadcast_client_status_t) (age_ns : Z).

(** The reader thread: in its loop, behind the loop, or ended. *)
Inductive reader_t := Running | Leaving | Ended.

(** The process: what it has printed, the client with the outside world, and the
    reader thread. *)
Record smoke (W : Type) := mk_smoke {
  sm_lines : list smoke_line;
  sm_client : cctx W;
  sm_reader : reader_t;
}.
Arguments mk_smoke {W}.
Arguments sm_lines {W}.
Arguments sm_client {W}.
Arguments sm_reader {W}.

#[export] Instance eta_smoke {W} : Eta (smoke W) := fun s =>
  mk_smoke (sm_lines s) (sm_client s) (sm_reader s).

Definition parse_seconds (text : list Z) : option Z :=
  let '(value, end_, overflow) := strtoull text in
  if overflow || negb (bool_decide (end_ = [])) || (value =? 0) || (60 <? value)
  then None else Some value.

Section Smoke.
Context {W : Type} `{K : !Clock W} `{N : !Socket W} `{L : !Nanosleep W}.
Variables (fuel : nat) (turns : nat -> nat).

Definition say_line (l : smoke_line) : OM (smoke W) unit := fun s =>
  Ok (tt, s <| sm_lines := sm_lines s ++ [l] |>).

(** A function of the library. *)
Definition in_client {A} (m : CM W A) : OM (smoke W) A := fun s =>
  match m (sm_client s) with
  | Ok (a, c) => Ok (a, s <| sm_client := c |>)
  | Fail => Fail
  | UB => UB
  end.

Definition set_reader (r : reader_t) : OM (smoke W) unit := fun s => Ok (tt, s <| sm_reader := r |>).

(** ** The reader thread *)

(** One turn of the loop of [reader_thread_main], or what follows the loop. *)
Definition reader_turn : OM (smoke W) unit :=
  reader ← oget sm_reader;
  match reader with
  | Running =>
      stop ← in_client (sys sock_stop_requested);
      result ← (if (stop : bool) then mret (-1) else in_client (reader_iteration fuel));
      if result <? 0 then set_reader Leaving else mret tt
  | Leaving => in_client mark_disconnected;; set_reader Ended
  | Ended => mret tt
  end.

Fixpoint reader_turns (n : nat) : OM (smoke W) unit :=
  match n with
  | O => mret tt
  | S n => reader_turn;; reader_turns n
  end.

(** Call [k] of the interface. *)
Definition call_api {A} (k : nat) (f : client_t -> res A) : OM (smoke W) A :=
  reader_turns (turns k);;
  client ← oget (fun s => me (sm_client s));
  omem (f client).

Definition when_open (fd : Z) (f : W -> W) : OM (smoke W) unit :=
  if 0 <=? fd then in_client (sys_ f) else mret tt.

(** [roadcast_client_close]: the thread is joined when it has run to its end. *)
Definition close_client : OM (smoke W) unit :=
  fd ← oget (fun s => cc_fd (me (sm_client s)));
  when_open fd (sock_shutdown fd);;
  reader ← oget sm_reader;
  match reader with
  | Running => in_client (reader_thread_main fuel)
  | Leaving => in_client mark_disconnected
  | Ended => mret tt
  end;;
  set_reader Ended;;
  when_open fd (sock_close fd).

(** ** [main] *)

Fixpoint sleep_rest (n : nat) (tv_sec tv_nsec : Z) : CM W unit :=
  match n with
  | O => no_fuel
  | S n =>
      result ← sys (nanosleep_rest tv_sec tv_nsec);
      match result with
      | Some (errno, (tv_sec, tv_nsec)) =>
          if errno =? EINTR then sleep_rest n tv_sec tv_nsec else mret tt
      | None => mret tt
      end
  end.

Definition complain (text : string) : OM (smoke W) Z :=
  say_line (Complaint text);; close_client;; mret 1.

(** From the frames on. *)
Definition check_frames (entry : roadcast_schema_entry_t) (status : roadcast_client_status_t)
    (age_ns : Z) : OM (smoke W) Z :=
  frame ← call_api 4 (fun client => roadcast_client_read_frame client (entry_can_id entry));
  if negb (match frame with Some f => can_id f =? entry_can_id entry | None => false end)
  then complain "raw frame is unavailable"
  else
    frame ← call_api 5 (fun client => roadcast_client_read_frame client 0xffff);
    match frame with
    | Some _ => complain "unknown CAN id was accepted"
    | None =>
        frame ← call_api 6 (fun client => roadcast_client_read_frame client (entry_can_id entry));
        match frame with
        | None => complain "raw frame reread failed"
        | Some frame =>
            say_line (Frame_line frame);;
            say_line (Closing_line status age_ns);;
            close_client;;
            mret 0
        end
    end.

(** From the sleep on. *)
Definition check_values (signal_name : list Z) (seconds index : Z)
    (entry : roadcast_schema_entry_t) : OM (smoke W) Z :=
  in_client (sleep_rest fuel seconds 0);;
  reader_turns (turns 1);;
  client ← oget (fun s => me (sm_client s));
  age_ns ← in_client (sys (roadcast_client_sample_age_ns client));
  '(result, values) ← call_api 2 (fun client => roadcast_client_read_signal client index);
  if result <? 0 then complain "client cache is unavailable"
  else
    status ← call_api 3 (fun client => mret (roadcast_client_status client));
    if (st_connected status =? 0) || (age_ns <? 0) then complain "client cache is unavailable"
    else
      value ← omem (rd values 0);
      say_line (Value_line signal_name index value);;
      check_frames entry status age_ns.

(** From the connected client on; [roadcast_client_status] cannot fail on a client
    that is not null. *)
Definition smoke_session (signal_name : list Z) (seconds : Z) : OM (smoke W) Z :=
  status ← call_api 0 (fun client => mret (roadcast_client_status client));
  say_line (Sdk_line status);;
  client ← oget (fun s => me (sm_client s));
  index ← omem (roadcast_client_find_signal client signal_name);
  if index <? 0 then complain "signal not found"
  else
    entry ← omem (roadcast_client_schema_at client index);
    match entry with
    | None => complain "stable signal lookup failed"
    | Some entry =>
        stable ← omem (roadcast_client_find_signal_by_stable_id client (stable_id entry));
        if negb (stable =? index) then complain "stable signal lookup failed"
        else check_values signal_name seconds index entry
    end.

(** From the connection on. *)
Definition smoke_run (socket_name signal_name : list Z) (seconds : Z) (w : W)
  : res (Z * list smoke_line * W) :=
  '(error, client, w) ← roadcast_client_connect fuel (Some socket_name) w;
  match client with
  | None => mret (1, [Connect_failed (roadcast_client_error_string error)], w)
  | Some client =>
      '(code, s) ← smoke_session signal_name seconds (mk_smoke [] (mk_cctx client w) Running);
      mret (code, sm_lines s, cenv (sm_client s))
  end.

(** The exit code, the output and the world; [args] are the arguments after the
    program's name. *)
Definition smoke_main (args : list (list Z)) (w : W) : res (Z * list smoke_line * W) :=
  match args with
  | [socket_name] => smoke_run socket_name (c_bytes "ESC_VehicleSpeed") 2 w
  | [socket_name; signal_name] => smoke_run socket_name signal_name 2 w
  | [socket_name; signal_name; text] =>
      match parse_seconds text with
      | Some seconds => smoke_run socket_name signal_name seconds w
      | None => mret (2, [Complaint "invalid duration"], w)
      end
  | _ => mret (2, [Complaint "usage"], w)
  end.
End Smoke.
