(* ===== verification/SmokeTheorems.v ===== *)
(** * The smoke test of the client library: theorems

    Whatever the daemon sends and whenever the reader thread runs, the smoke test
    ends and closes its connection; its check on an unknown CAN id cannot fail. *)

From Stdlib Require Import String.
From S2P Require Import Prelude Effect Text Options Wire CatalogDefs CatalogData Catalog.
From S2P Require Import SourceSession Sampler.
From S2P Require Import ClientDefs ClientOps ClientIo ClientCache ClientSync ClientLive ClientConnect.
From S2P Require Import ClientHost ClientTheorems ClientSteady SmokeOps.

(** ** The interface on a client whose arrays are intact *)





(** Interruptions of the sleep are counted like those of the socket. *)
Class NanosleepOk {W} `{HN : SocketOk W} (L : Nanosleep W) : Prop :=
  nanosleep_rest_ok : forall s ns w,
    let '(r, w') := nanosleep_rest s ns w in
    traffic w w' [] [] /\ (forall rest, r = Some (EINTR, rest) -> (budget w' < budget w)%nat).

Section Smoke.
Context {W : Type} `{K : !Clock W} `{N : !Socket W} `{HN : !SocketOk N K} `{L : !Nanosleep W}
  `{HL : !NanosleepOk L} (fuel : nat) (turns : nat -> nat).
Implicit Types (s : smoke W) (w : W).




(** ** What holds while the client is open *)









(** ** The close *)





(** ** The session *)



Section Session.
Variables (c0 : client_t) (w0 : W) (signal_name : list Z).
Hypothesis Hfd : 0 <= cc_fd c0.
Hypothesis Hfresh : cc_fd c0 ∉ descriptors w0.







End Session.
End Smoke.

(** ** The program *)

Lemma parse_seconds_range text n : parse_seconds text = Some n -> 1 <= n <= 60.
Proof.
  unfold parse_seconds, strtoull. destruct (scan_sign _) as [negative r].
  destruct (scan_digits 10 r) as [[|d ds] rest] eqn:E; [cbn; by rewrite orb_true_r|].
  set (v := digits_value 10 (d :: ds)).
  assert (Hv : 0 <= v).
  { apply digits_value_nonneg. by apply scan_digits_split in E as [_ H]. }
  assert (Hu : 0 <= ull_value negative v).
  { unfold ull_value, UINT64_MAX. destruct (_ <? v); [lia|]. destruct negative; [apply u64_range|lia]. }
  destruct (UINT64_MAX <? v); [done|]. cbn [orb]. destruct (negb _); [done|]. cbn [orb].
  destruct (Z.eqb_spec (ull_value negative v) 0); [done|]. cbn [orb].
  destruct (Z.ltb_spec 60 (ull_value negative v)); [done|]. intros [= <-]. lia.
Qed.

Section Program.
Context {W : Type} `{K : !Clock W} `{N : !Socket W} `{HN : !SocketOk N K} `{L : !Nanosleep W}
  `{HL : !NanosleepOk L}.


End Program.

(** ** A concrete session *)

#[local] Instance script_nanosleep : Nanosleep script := fun _ _ w => (None, w).

#[local] Instance script_nanosleep_ok : NanosleepOk script_nanosleep.
Proof. intros s ns w. cbn. split; [apply traffic_refl|done]. Qed.


