(* ===== verification/SetupDefs.v ===== *)
(** * The start and the end of the daemon's process: interface

    The system calls, the thread and the libuv calls that src/roadcastd.c makes
    outside its event loop, with what they acquire and release. *)

From Stdlib Require Import String.
From S2P Require Import Prelude Effect Text Options Wire CatalogDefs Catalog SourceSession Sampler.
From S2P Require Import ServerDefs ServerOps DaemonOps Harmless.

Definition DEFAULT_DAEMON_SOCKET : list Z := c_bytes "@roadcast".
Definition DEFAULT_PROCESS : list Z := c_bytes "vehicle@2.0-service".
Definition DEFAULT_HZ : Z := 60.
Definition HEARTBEAT_INTERVAL_MS : Z := 1000.
Definition STATS_INTERVAL_MS : Z := 10000.

Definition EINVAL : Z := 22.
Definition ENAMETOOLONG : Z := 36.
Definition SIGINT : Z := 2.
Definition SIGTERM : Z := 15.

(** The local variables of [main] that the options set. *)
Record daemon_options_t := mk_daemon_options {
  dop_socket_name : list Z;
  dop_process_name : list Z;
  dop_hz : Z;
  dop_client_queue_slots : Z;
  dop_fake : Z;
}.

#[export] Instance eta_daemon_options : Eta daemon_options_t := fun o =>
  mk_daemon_options (dop_socket_name o) (dop_process_name o) (dop_hz o) (dop_client_queue_slots o)
    (dop_fake o).

(** What the process holds: a descriptor of its own, a socket's address (the bytes
    of its path), a name in the file system, the event loop, a handle on it, the
    stream of a connection on it, an open source with its descriptors, the sampling
    thread, the lock of the sampler. *)
Inductive resource :=
  | Descriptor (fd : Z)
  | Address (fd : Z) (path : list Z)
  | Bound (path : list Z)
  | Loop
  | Handle (h : server_handle)
  | Stream (c : Z)
  | Source
  | Thread
  | Mutex.

(** The calls.  [handle_init] is [uv_async_init], [uv_pipe_init],
    [uv_timer_init] or [uv_signal_init] by the kind of the handle, [handle_start]
    is [uv_listen], [uv_timer_start] or [uv_signal_start] with the backlog, the
    interval or the signal.  A loop that has not been initialized must not be
    used: [uv_run] and [uv_loop_close] may be undefined.  [uv_run] is the whole
    run of the loop with the events of [Events] left out. *)
Class Process (W : Type) := {
  sys_errno : W -> Z;
  set_errno : Z -> W -> W;
  sys_socket : W -> Z * W;
  sys_fcntl : Z -> Z -> Z -> W -> Z * W;
  sys_close : Z -> W -> W;
  sys_unlink : list Z -> W -> W;
  sys_bind : Z -> list Z -> Z -> W -> Z * W;
  sys_listen : Z -> Z -> W -> Z * W;
  sys_strdup : W -> bool * W;
  sys_setpriority : W -> Z * W;
  pthread_mutex_init : W -> Z * W;
  pthread_mutex_destroy : W -> W;
  pthread_create : W -> Z * W;
  uv_loop_init : W -> Z * W;
  uv_loop_close : W -> res (Z * W);
  uv_run : W -> res W;
  uv_pipe_open : Z -> W -> Z * W;
  handle_init : server_handle -> W -> Z * W;
  handle_start : server_handle -> Z -> W -> Z * W;
}.

(** The name that [bind] creates: none for an abstract address. *)
Definition bound_name (path : list Z) : option (list Z) :=
  match c_string path with [] => None | name => Some name end.

(** What [bind] of the socket [fd] to an address creates. *)
Definition bound_by (fd : Z) (path : list Z) (len : Z) (x : resource) : Prop :=
  x = Address fd (take (Z.to_nat (len - SUN_PATH_OFFSET)) path)
  \/ exists name, bound_name path = Some name /\ x = Bound name.

(** What the event loop leaves when the last of its handles is gone: not what its
    handles and streams hold. *)
Definition outlives_loop (o : resource -> Prop) (x : resource) : Prop :=
  match x with
  | Handle _ | Stream _ => False
  | Address fd _ => o (Descriptor fd)
  | _ => True
  end.

Definition keeps (o o' : resource -> Prop) : Prop := forall x, o' x <-> o x.
Definition gains (o o' : resource -> Prop) (r : resource) : Prop := forall x, o' x <-> o x \/ x = r.
Definition loses (o o' : resource -> Prop) (r : resource) : Prop := forall x, o' x <-> o x /\ x <> r.

(** What the code relies on: what each call acquires and releases, that a call
    that fails with [errno] sets it, and that the loop can be left when every
    handle and every stream on it has been closed, with all of them gone.  A
    socket that is handed over to a handle is the handle's from then on. *)
Class ProcessOk {W} (P : Process W) (U : Uv W) := {
  owns : W -> resource -> Prop;
  stream_closing : W -> Z -> Prop;
  set_errno_ok e w : sys_errno (set_errno e w) = e /\ keeps (owns w) (owns (set_errno e w));
  sys_socket_ok w :
    let '(fd, w') := sys_socket w in
    if fd <? 0 then 0 < sys_errno w' /\ keeps (owns w) (owns w')
    else gains (owns w) (owns w') (Descriptor fd);
  sys_fcntl_ok fd cmd arg w :
    let '(r, w') := sys_fcntl fd cmd arg w in
    (r < 0 -> 0 < sys_errno w') /\ keeps (owns w) (owns w');
  sys_close_ok fd w :
    (0 < sys_errno w -> 0 < sys_errno (sys_close fd w))
    /\ forall x, owns (sys_close fd w) x
         <-> owns w x /\ x <> Descriptor fd /\ forall path, x <> Address fd path;
  sys_unlink_ok path w : loses (owns w) (owns (sys_unlink path w)) (Bound path);
  sys_bind_ok fd path len w :
    let '(r, w') := sys_bind fd path len w in
    if r <? 0 then 0 < sys_errno w' /\ keeps (owns w) (owns w')
    else forall x, owns w' x <-> owns w x \/ bound_by fd path len x;
  sys_listen_ok fd n w :
    let '(r, w') := sys_listen fd n w in
    (r < 0 -> 0 < sys_errno w') /\ keeps (owns w) (owns w');
  sys_strdup_ok w : keeps (owns w) (owns (sys_strdup w).2);
  sys_setpriority_ok w :
    keeps (owns w) (owns (sys_setpriority w).2)
    /\ (forall h, handle_is_closing h (sys_setpriority w).2 = handle_is_closing h w)
    /\ forall c, stream_closing (sys_setpriority w).2 c <-> stream_closing w c;
  mutex_init_ok w :
    let '(e, w') := pthread_mutex_init w in
    if e =? 0 then gains (owns w) (owns w') Mutex else keeps (owns w) (owns w');
  mutex_destroy_ok w : loses (owns w) (owns (pthread_mutex_destroy w)) Mutex;
  thread_create_ok w :
    let '(e, w') := pthread_create w in
    if e =? 0 then gains (owns w) (owns w') Thread else keeps (owns w) (owns w');
  thread_join_ok w :
    loses (owns w) (owns (pthread_join w)) Thread
    /\ forall c, stream_closing (pthread_join w) c <-> stream_closing w c;
  uv_loop_init_ok w :
    let '(r, w') := uv_loop_init w in
    if r <? 0 then keeps (owns w) (owns w') else gains (owns w) (owns w') Loop;
  uv_loop_close_ok w : owns w Loop ->
    exists r w', uv_loop_close w = Ok (r, w')
      /\ if r <? 0 then keeps (owns w) (owns w') else loses (owns w) (owns w') Loop;
  uv_run_ok w : owns w Loop ->
    (forall h, owns w (Handle h) -> handle_is_closing h w = true) ->
    (forall c, owns w (Stream c) -> stream_closing w c) ->
    exists w', uv_run w = Ok w'
      /\ forall x, owns w' x <-> owns w x /\ outlives_loop (owns w) x;
  uv_pipe_open_ok fd w :
    let '(r, w') := uv_pipe_open fd w in
    if r <? 0 then keeps (owns w) (owns w') else loses (owns w) (owns w') (Descriptor fd);
  handle_init_ok h w :
    let '(r, w') := handle_init h w in
    if r <? 0 then keeps (owns w) (owns w') else gains (owns w) (owns w') (Handle h);
  handle_start_ok h n w : keeps (owns w) (owns (handle_start h n w).2);
  handle_stop_ok h w :
    keeps (owns w) (owns (handle_stop h w))
    /\ (forall h', handle_is_closing h' (handle_stop h w) = handle_is_closing h' w)
    /\ forall c, stream_closing (handle_stop h w) c <-> stream_closing w c;
  handle_close_ok h w :
    keeps (owns w) (owns (handle_close h w))
    /\ (forall h', handle_is_closing h' (handle_close h w) = true
                  <-> h' = h \/ handle_is_closing h' w = true)
    /\ forall c, stream_closing (handle_close h w) c <-> stream_closing w c;
}.

(** ** The streams and the source *)

Section Interplay.
Context {W : Type} `{HP : ProcessOk W}.
Implicit Types w : W.

(** What the calls on the streams of the clients and the clock leave alone:
    everything but the streams, and the handles that are closing. *)
Definition undisturbed w w' : Prop :=
  (forall x, (forall c, x <> Stream c) -> owns w' x <-> owns w x)
  /\ forall h, handle_is_closing h w' = handle_is_closing h w.

(** No new stream, and a stream that is closing stays so. *)
Definition tended w w' : Prop :=
  forall c, (owns w' (Stream c) -> owns w (Stream c)) /\ (stream_closing w c -> stream_closing w' c).

(** The same for the streams other than [c]. *)
Definition tended_but c w w' : Prop :=
  forall c', c' <> c ->
    (owns w' (Stream c') -> owns w (Stream c')) /\ (stream_closing w c' -> stream_closing w' c').

(** What the calls on the source leave alone: everything but the source. *)
Definition untouched w w' : Prop :=
  (forall x, x <> Source -> owns w' x <-> owns w x)
  /\ (forall h, handle_is_closing h w' = handle_is_closing h w)
  /\ forall c, stream_closing w' c <-> stream_closing w c.
End Interplay.

(** [uv_pipe_init] makes a stream, [uv_close] closes it, no other call on a stream
    does either. *)
Class StreamsOk {W} `{HP : ProcessOk W} (K : Clock W) : Prop := {
  streams_undisturbed :: Harmless undisturbed (fun _ _ => True);
  streams_tended :: Harmless tended stream_closing;
  stream_init_undisturbed c w : undisturbed w (uv_pipe_init c w).2;
  stream_init_ok c w :
    let '(r, w') := uv_pipe_init c w in
    if r <? 0 then tended w w' else owns w' (Stream c) /\ tended_but c w w';
}.

(** [roadcast_vhal_open] acquires the source when it succeeds, and
    [roadcast_vhal_close] releases the one that is open.  [source_open]: the
    state is that of an open source. *)
Class SourceOk {V W} `{HP : ProcessOk W} (S : VhalSource V W) (K : Clock W) := {
  source_open : V -> Prop;
  source_untouched :: Transparent untouched;
  source_sleep_ok t w : owns (sleep_until t w) Source -> owns w Source;
  source_open_ok v p w : ~ owns w Source ->
    let '(r, v', w') := roadcast_vhal_open v p w in
    if r <? 0 then ~ owns w' Source else owns w' Source /\ source_open v';
  source_read_ok v fs w :
    let '(_, v', _, w') := roadcast_vhal_read v fs w in
    (owns w' Source -> owns w Source) /\ (source_open v -> source_open v');
  source_close_ok v w : (owns w Source -> source_open v) ->
    ~ owns (roadcast_vhal_close v w).2 Source;
}.
