(* ===== verification/SetupOps.v ===== *)
(** * The start and the end of the daemon's process: src/roadcastd.c

    The socket, libuv's handles, the sampling thread, the options and [main], in
    the order of the source. *)

From Stdlib Require Import String Ascii.
From S2P Require Import Prelude Effect Text Options Wire CatalogDefs Catalog SourceSession Sampler.
From S2P Require Import ServerDefs ServerOps DaemonOps SetupDefs.

(** ** Options: the values, or the exit code *)

Section Options.
Context `{Catalog}.

Definition default_daemon_options : daemon_options_t :=
  mk_daemon_options DEFAULT_DAEMON_SOCKET DEFAULT_PROCESS DEFAULT_HZ CLIENT_QUEUE_SLOTS 0.

Fixpoint daemon_options (args : list (list Z)) (o : daemon_options_t) : daemon_options_t + Z :=
  match args with
  | [] => inl o
  | arg :: rest =>
      let number max set_ rest :=
        match rest with
        | value :: rest =>
            match parse_positive_int value 1 max with
            | Some n => daemon_options rest (set_ n)
            | None => inr 2
            end
        | [] => inr 2
        end in
      let text set_ rest :=
        match rest with
        | value :: rest => daemon_options rest (set_ value)
        | [] => inr 2
        end in
      if bool_decide (arg = c_bytes "--fake") then daemon_options rest (o <| dop_fake := 1 |>)
      else if bool_decide (arg = c_bytes "--fake-dense") then
        daemon_options rest (o <| dop_fake := 2 |>)
      else if bool_decide (arg = c_bytes "--hz") then number 240 (fun n => o <| dop_hz := n |>) rest
      else if bool_decide (arg = c_bytes "--socket") then
        text (fun v => o <| dop_socket_name := v |>) rest
      else if bool_decide (arg = c_bytes "--proc") then
        text (fun v => o <| dop_process_name := v |>) rest
      else if bool_decide (arg = c_bytes "--client-queue-slots") then
        number CLIENT_QUEUE_SLOTS (fun n => o <| dop_client_queue_slots := n |>) rest
      else if bool_decide (arg = c_bytes "--help") then inr 0
      else inr 2
  end.
End Options.

(** ** The address *)

(** The path and the length of the address and the new [filesystem_path], or
    [errno]. *)
Definition daemon_fill_unix_address (name filesystem_path : list Z)
  : res ((list Z * Z * list Z) + Z) :=
  let path := repeat 0 (Z.to_nat SUN_PATH_SIZE) in
  let length_ := zlen name in
  if length_ =? 0 then mret (inr EINVAL)
  else
    first ← rd name 0;
    if first =? 64 then
      if SUN_PATH_SIZE <=? length_ then mret (inr ENAMETOOLONG)
      else
        path ← wr path 0 0;
        rest ← slice name 1 (length_ - 1);
        path ← blit path 1 rest;
        mret (inl (path, SUN_PATH_OFFSET + length_, filesystem_path))
    else if (SUN_PATH_SIZE <=? length_) || (zlen filesystem_path <=? length_) then
      mret (inr ENAMETOOLONG)
    else
      path ← blit path 0 (name ++ [0]);
      filesystem_path ← blit filesystem_path 0 (name ++ [0]);
      mret (inl (path, SUN_PATH_OFFSET + length_ + 1, filesystem_path)).

(** How the process was left by the start: it has exited, or it is in the event
    loop. *)
Inductive outcome (V W : Type) :=
  | Exited (code : Z) (w : W)
  | Running (d : daemon V W).
Arguments Exited {V W}.
Arguments Running {V W}.

(** A Coq string with the bytes. *)
Definition text_of (bytes : list Z) : string :=
  string_of_list_ascii (map (fun b => ascii_of_N (Z.to_N b)) bytes).

Section Setup.
Context `{Catalog} {V W : Type} `{K : !Clock W} `{U : !Uv W} `{S : !VhalSource V W} `{P : !Process W}.
Implicit Types d : daemon V W.

(** ** The monad: the server and the outside world *)

Definition dsys {A} (f : W -> A * W) : OM (daemon V W) A := fun d =>
  let '(a, w) := f (world d) in Ok (a, d <| world := w |>).
Definition dsys_ (f : W -> W) : OM (daemon V W) unit := fun d =>
  Ok (tt, d <| world := f (world d) |>).
Definition dmodify (f : daemon V W -> daemon V W) : OM (daemon V W) unit := fun d =>
  Ok (tt, f d).
Definition dprocess (f : process_t -> process_t) : OM (daemon V W) unit := fun d =>
  Ok (tt, d <| process := f (process d) |>).

(** [result = m; if (result < 0) return result;] *)
Definition or_return (m : OM (daemon V W) Z) (k : OM (daemon V W) Z) : OM (daemon V W) Z :=
  result ← m; if result <? 0 then mret result else k.

(** ** The listener *)

Definition set_nonblocking_cloexec (fd : Z) : OM (daemon V W) Z :=
  flags ← dsys (sys_fcntl fd F_GETFL 0);
  if flags <? 0 then mret (-1)
  else
    r ← dsys (sys_fcntl fd F_SETFL (Z.lor flags O_NONBLOCK));
    if r <? 0 then mret (-1)
    else
      descriptor_flags ← dsys (sys_fcntl fd F_GETFD 0);
      if descriptor_flags <? 0 then mret (-1)
      else
        r ← dsys (sys_fcntl fd F_SETFD (Z.lor descriptor_flags FD_CLOEXEC));
        if r <? 0 then mret (-1) else mret 0.

(** [if (filesystem_path[0]) unlink(filesystem_path);] *)
Definition unlink_socket : OM (daemon V W) unit :=
  path ← oget (fun d => socket_path (process d));
  first ← omem (rd path 0);
  if negb (first =? 0) then dsys_ (sys_unlink (c_string path)) else mret tt.

(** From the socket on. *)
Definition bind_listener (path : list Z) (length_ : Z) : OM (daemon V W) Z :=
  fd ← dsys sys_socket;
  if fd <? 0 then mret (-1)
  else
    r ← set_nonblocking_cloexec fd;
    if r <? 0 then dsys_ (sys_close fd);; mret (-1)
    else
      unlink_socket;;
      r ← dsys (sys_bind fd path length_);
      r ← (if r <? 0 then mret r else dsys (sys_listen fd MAX_CLIENTS));
      if r <? 0 then
        saved_errno ← oget (fun d => sys_errno (world d));
        dsys_ (sys_close fd);;
        unlink_socket;;
        dsys_ (set_errno saved_errno);;
        mret (-1)
      else mret fd.

Definition open_listener (socket_name : list Z) : OM (daemon V W) Z :=
  path ← oget (fun d => socket_path (process d));
  address ← omem (daemon_fill_unix_address socket_name path);
  match address with
  | inr error => dsys_ (set_errno error);; mret (-1)
  | inl (path, length_, filesystem_path) =>
      dprocess (fun p => p <| socket_path := filesystem_path |>);;
      bind_listener path length_
  end.

(** ** libuv *)

(** A timer or a signal handle: initialized, marked as such, started. *)
Definition start_handle (h : server_handle) (mark : process_t -> process_t) (n : Z)
    (k : OM (daemon V W) Z) : OM (daemon V W) Z :=
  or_return (dsys (handle_init h))
    (dprocess mark;; or_return (dsys (handle_start h n)) k).

Definition initialize_libuv (socket_name : list Z) : OM (daemon V W) Z :=
  or_return (dsys uv_loop_init)
    (or_return (dsys (handle_init sample_notification))
      (dprocess (fun p => p <| async_initialized := 1 |>);;
       listener_fd ← open_listener socket_name;
       if listener_fd <? 0 then error ← oget (fun d => sys_errno (world d)); mret (- error)
       else
         result ← dsys (handle_init listener);
         if result <? 0 then dsys_ (sys_close listener_fd);; mret result
         else
           dprocess (fun p => p <| listener_initialized := 1 |>);;
           result ← dsys (uv_pipe_open listener_fd);
           if result <? 0 then dsys_ (sys_close listener_fd);; mret result
           else
             or_return (dsys (handle_start listener MAX_CLIENTS))
               (start_handle heartbeat_timer (fun p => p <| heartbeat_initialized := 1 |>)
                  HEARTBEAT_INTERVAL_MS
                 (start_handle stats_timer (fun p => p <| stats_initialized := 1 |>)
                    STATS_INTERVAL_MS
                   (start_handle sigint_handle (fun p => p <| sigint_initialized := 1 |>) SIGINT
                     (start_handle sigterm_handle (fun p => p <| sigterm_initialized := 1 |>) SIGTERM
                       (mret 0))))))).

(** ** The sampler *)

(** The thread starts with the sequence that has been published. *)
Definition sampler_start : OM (daemon V W) Z :=
  error ← dsys pthread_create;
  if negb (error =? 0) then dsys_ (set_errno error);; mret (-1)
  else
    dprocess (fun p => p <| thread_started := 1 |>);;
    next_tick ← dsys monotonic_ns;
    dmodify (fun d => d <| thread_sequence := published_sequence (sampler d) |>
                        <| thread_next_tick := next_tick |>);;
    mret 0.

Definition sampler_destroy d : daemon V W :=
  let d := sampler_stop d in
  let d :=
    if fake (sampler d) =? 0 then
      let '(session, w) := roadcast_source_session_close (sampler_source (sampler d)) (world d) in
      d <| sampler := (sampler d) <| sampler_source := session |> |> <| world := w |>
    else d in
  d <| world := pthread_mutex_destroy (world d) |>.

(** ** [main] *)

(** [sampler_init] and the server's first state; [None] when the sampler cannot
    be initialized. *)
Definition daemon_setup (o : daemon_options_t) (w : W) : res (option (daemon V W) * W) :=
  let '(error, w) := pthread_mutex_init w in
  if negb (error =? 0) then mret (None, set_errno error w)
  else
    let '(process_name, w) :=
      if dop_fake o =? 0 then
        let '(ok, w) := sys_strdup w in
        ((if ok : bool then Some (text_of (dop_process_name o)) else None), w)
      else (None, w) in
    d ← daemon_init (dop_hz o) (dop_fake o) (dop_client_queue_slots o) process_name w;
    match d with
    | Some d => mret (Some d, world d)
    | None => mret (None, pthread_mutex_destroy w)
    end.

(** From the shutdown on: the result of [uv_loop_close] and the world. *)
Definition tear_down d : res (Z * W) :=
  d ← server_shutdown d;
  w ← uv_run (world d);
  '(close_result, w) ← uv_loop_close w;
  '(_, d) ← unlink_socket (d <| world := w |>);
  mret (close_result, world (sampler_destroy d)).

(** [main] up to the event loop; [args] are the arguments after the program's
    name. *)
Definition daemon_main (args : list (list Z)) (w : W) : res (outcome V W) :=
  match daemon_options args default_daemon_options with
  | inr code => mret (Exited code w)
  | inl o =>
      '(d, w) ← daemon_setup o w;
      match d with
      | None => mret (Exited 1 w)
      | Some d =>
          '(result, d) ← initialize_libuv (dop_socket_name o) d;
          if result <? 0 then '(_, w) ← tear_down d; mret (Exited 1 w)
          else
            '(result, d) ← sampler_start d;
            if result <? 0 then '(_, w) ← tear_down d; mret (Exited 1 w)
            else if dop_fake o =? 0 then
              mret (Running (d <| world := (sys_setpriority (world d)).2 |>))
            else mret (Running d)
      end
  end.

(** [main] after the event loop. *)
Definition daemon_exit d : res (Z * W) :=
  '(close_result, w) ← tear_down d;
  mret (if close_result <? 0 then 1 else 0, w).
End Setup.
