(* ===== verification/SourceHeld.v ===== *)
(** * The source that the sampler holds

    Along the life of the sampler (src/roadcastd.c) and of its session
    (src/source_session.c) an open source is the session's, which knows that it is
    connected; so the end of the sampler closes it. *)

From Stdlib Require Import String.
From S2P Require Import Prelude Effect Text Options Wire CatalogDefs Catalog SourceSession Sampler.
From S2P Require Import ServerDefs ServerOps DaemonOps Harmless SetupDefs SetupOps.

Section Held.
Context `{Catalog} {V W : Type} `{U : !Uv W} `{P : !Process W} `{HP : !ProcessOk P U} `{K : !Clock W}
  `{S : !VhalSource V W} `{HK : !StreamsOk K} `{HF : !SourceOk S K}.
Implicit Types (s : roadcast_source_session_t V) (sm : sampler_t V) (d : daemon V W) (w : W).

Definition session_held s w : Prop :=
  owns w Source -> connected s <> 0 /\ source_open (vhal s).

Definition source_held sm w : Prop :=
  owns w Source -> fake sm = 0 /\ connected (sampler_source sm) <> 0
    /\ source_open (vhal (sampler_source sm)).

Lemma clock_source w : owns (monotonic_ns w).2 Source -> owns w Source.
Proof. by apply (harmless_clock (R := undisturbed) (D := fun _ _ => True)). Qed.

Lemma schedule_retry_held s now w :
  (owns w Source -> source_open (vhal s)) -> ~ owns (schedule_retry s now w).2 Source.
Proof.
  intros Hs. pose proof (source_close_ok (vhal s) w Hs) as Hc. unfold schedule_retry.
  by destruct (roadcast_vhal_close (vhal s) w).
Qed.

Lemma read_connected_held s fs now w :
  connected s <> 0 -> (owns w Source -> source_open (vhal s)) ->
  let '(_, s', _, w') := read_connected s fs now w in session_held s' w'.
Proof.
  intros Hc Hs. unfold read_connected. pose proof (source_read_ok (vhal s) fs w) as Hr.
  destruct (roadcast_vhal_read (vhal s) fs w) as [[[r v] fs'] w']. destruct Hr as [Hr1 Hr2].
  destruct (r <? 0); [|intros Ho; cbn; auto].
  match goal with |- context [schedule_retry ?x now w'] =>
    pose proof (schedule_retry_held x now w' ltac:(cbn; auto)) as Hn;
    by destruct (schedule_retry x now w') end.
Qed.

Lemma session_read_held s fs now w :
  session_held s w ->
  let '(_, s', _, w') := roadcast_source_session_read s fs now w in session_held s' w'.
Proof.
  intros Hs. unfold roadcast_source_session_read.
  destruct (Z.eqb_spec (connected s) 0) as [Hz|Hz]; [|apply read_connected_held; [done|by intros []%Hs]].
  destruct (_ <? _); [exact Hs|].
  assert (Hno : ~ owns w Source) by (intros []%Hs; done).
  pose proof (source_open_ok (vhal s) (default EmptyString (process_name s)) w Hno) as Ho.
  destruct (roadcast_vhal_open _ _ _) as [[rc v] w']. destruct (rc <? 0).
  - match goal with |- context [schedule_retry ?x now w'] =>
      pose proof (schedule_retry_held x now w' ltac:(done)) as Hn;
      by destruct (schedule_retry x now w') end.
  - apply read_connected_held; [done|]. intros _. apply Ho.
Qed.

(** The session keeps the name it was given. *)
Lemma retry_name s now w : process_name (schedule_retry s now w).1 = process_name s.
Proof. unfold schedule_retry. destruct (roadcast_vhal_close _ _). cbn. by destruct (_ <? _). Qed.

Lemma read_connected_name s fs now w :
  let '(_, s', _, _) := read_connected s fs now w in process_name s' = process_name s.
Proof.
  unfold read_connected. destruct (roadcast_vhal_read _ _ _) as [[[r v] fs'] w'].
  destruct (r <? 0); [|done].
  match goal with |- context [schedule_retry ?x now w'] =>
    pose proof (retry_name x now w') as Hn; by destruct (schedule_retry x now w') end.
Qed.

Lemma session_read_name s fs now w :
  let '(_, s', _, _) := roadcast_source_session_read s fs now w in process_name s' = process_name s.
Proof.
  unfold roadcast_source_session_read. destruct (_ =? 0); [|apply read_connected_name].
  destruct (_ <? _); [done|]. destruct (roadcast_vhal_open _ _ _) as [[rc v] w']. destruct (rc <? 0).
  - match goal with |- context [schedule_retry ?x now w'] =>
      pose proof (retry_name x now w') as Hn; by destruct (schedule_retry x now w') end.
  - match goal with |- context [read_connected ?x ?fs' now w'] =>
      exact (read_connected_name x fs' now w') end.
Qed.

Lemma session_close_held s w :
  (owns w Source -> source_open (vhal s)) -> ~ owns (roadcast_source_session_close s w).2 Source.
Proof.
  intros Hs. pose proof (source_close_ok (vhal s) w Hs) as Hc. unfold roadcast_source_session_close.
  by destruct (roadcast_vhal_close (vhal s) w).
Qed.

Lemma source_held_less sm w w' :
  (owns w' Source -> owns w Source) -> source_held sm w -> source_held sm w'.
Proof. intros Hw Hs Ho. auto. Qed.

Lemma take_sample_held sm sequence w :
  source_held sm w -> let '(_, _, _, sm', w') := take_sample sm sequence w in source_held sm' w'.
Proof.
  intros Hs. unfold take_sample. destruct (Z.eqb_spec (fake sm) 0) as [Hf|Hf]; cbn [negb]; [|exact Hs].
  pose proof (clock_source w) as Hk. destruct (monotonic_ns w) as [now w1].
  pose proof (session_read_held (sampler_source sm) zero_frames now w1) as Hr.
  destruct (roadcast_source_session_read _ _ _ _) as [[[r s'] fs] w2].
  assert (H2 : session_held s' w2) by (apply Hr; intros Ho; apply Hs; auto).
  intros Ho. destruct (H2 Ho). unfold count_result.
  destruct (r =? -1); [by split_and!|]. destruct (0 <? r); by split_and!.
Qed.

Lemma iteration_held stop1 stop2 sm sequence next_tick w :
  source_held sm w ->
  match sampler_iteration stop1 stop2 sm sequence next_tick w with
  | (Some (sm', _, _), w') => source_held sm' w'
  | (None, w') => source_held sm w'
  end.
Proof.
  intros Hs. unfold sampler_iteration. destruct stop1; [done|]. cbv zeta.
  apply (source_held_less sm _ (sleep_until (u64 (next_tick + period_ns sm)) w)) in Hs;
    [|apply source_sleep_ok].
  destruct stop2; [done|].
  pose proof (take_sample_held sm (u64 (sequence + 1)) _ Hs) as H1.
  destruct (take_sample _ _ _) as [[[[sampled new] r] sm'] w1].
  pose proof (clock_source w1) as Hk1. destruct (monotonic_ns w1) as [t1 w2].
  pose proof (clock_source w2) as Hk2. destruct (monotonic_ns w2) as [t2 w3].
  intros Ho. apply H1. auto.
Qed.

Lemma thread_held d :
  source_held (sampler d) (world d) -> source_held (sampler (thread_step d)) (world (thread_step d)).
Proof.
  intros Hs. unfold thread_step. set (stop := stop_requested (process d)).
  pose proof (iteration_held stop stop (sampler d) (thread_sequence d) (thread_next_tick d) (world d) Hs) as Hi.
  by destruct (sampler_iteration _ _ _ _ _ _) as [[[[? ?] ?]|] ?].
Qed.

Lemma sampler_init_held hz_ fake_ alloc w :
  ~ owns w Source ->
  match (sampler_init hz_ fake_ alloc w : option (sampler_t V) * W) with
  | (Some sm, w') => source_held sm w' /\ fake sm = fake_
      /\ (fake_ = 0 -> process_name (sampler_source sm) = alloc)
  | (None, w') => ~ owns w' Source
  end.
Proof.
  intros Hno. unfold sampler_init. cbv zeta.
  destruct (Z.eqb_spec fake_ 0) as [->|Hf]; cbn [negb].
  2: { pose proof (clock_source w) as Hk1. destruct (monotonic_ns w) as [t1 w1].
       pose proof (clock_source w1) as Hk2. destruct (monotonic_ns w1) as [t2 w2].
       split_and!; [|done|done]. intros Ho. exfalso. auto. }
  destruct alloc as [name|]; [|done].
  unfold roadcast_source_session_init. cbn -[monotonic_ns roadcast_source_session_read merge_sampled_frames].
  pose proof (clock_source w) as Hk. destruct (monotonic_ns w) as [t w1]. cbn [snd] in Hk.
  match goal with |- context [roadcast_source_session_read ?x zero_frames t w1] =>
    pose proof (session_read_held x zero_frames t w1 ltac:(intros Ho; exfalso; auto)) as H2;
    pose proof (session_read_name x zero_frames t w1) as Hn;
    destruct (roadcast_source_session_read x zero_frames t w1) as [[[r s'] fs] w2] end.
  pose proof (clock_source w2) as Hk1. destruct (monotonic_ns w2) as [t1 w3].
  pose proof (clock_source w3) as Hk2. destruct (monotonic_ns w3) as [t2 w4].
  cbn -[merge_sampled_frames] in *.
  split_and!.
  - intros Ho. assert (Ho2 : owns w2 Source) by auto. specialize (H2 Ho2).
    unfold count_result. destruct (r =? -1); [done|]. by destruct (0 <? r).
  - unfold count_result. destruct (r =? -1); [done|]. by destruct (0 <? r).
  - intros _. unfold count_result. destruct (r =? -1); [done|]. by destruct (0 <? r).
Qed.

End Held.
