(* ===== verification/Streams.v ===== *)
(** * The streams of the connections

    Every stream that the daemon has made (src/roadcastd.c) is that of an open
    client, or it has been closed: across every event, so that after a shutdown
    the event loop has none left to wait for. *)

From Stdlib Require Import String.
From S2P Require Import Prelude Effect Text Options Wire CatalogDefs Catalog SourceSession Sampler.
From S2P Require Import ServerDefs ServerOps DaemonOps Events Harmless SetupDefs.

Section Streams.
Context `{HC : CatalogOk} {V W : Type} `{U : !Uv W} `{P : !Process W} `{HP : !ProcessOk P U}
  `{K : !Clock W} `{S : !VhalSource V W} `{HS : !VhalSourceOk S} `{HK : !StreamsOk K}
  `{HF : !SourceOk S K}.
Implicit Types (d : daemon V W) (w : W) (s : ctx W).
#[local] Abbreviation mild := (mild (R := tended) (D := stream_closing)).

Definition attended d : Prop :=
  forall c, owns (world d) (Stream c) ->
    stream_closing (world d) c
    \/ exists i client, c = Z.of_nat i /\ clients d !! i = Some client /\ is_open client.

Lemma attended_harmless d d' :
  harmless_step (R := tended) (D := stream_closing) d d' -> attended d -> attended d'.
Proof.
  intros (_ & _ & _ & Hw & Hc) Hd c Ho. destruct (Hw c) as [H1 H2].
  destruct (Hd c (H1 Ho)) as [Hcl|(i & client & -> & Hi & Hop)]; [by left; apply H2|].
  destruct (Hc i client Hi Hop) as [(client' & Hi' & Hop')|Hcl]; [right|by left]. by exists i, client'.
Qed.

(** The clients are the same. *)
Lemma attended_world d d' : clients d' = clients d -> tended (world d) (world d') -> attended d -> attended d'.
Proof.
  intros E Hw Hd c Ho. destruct (Hw c) as [H1 H2]. rewrite E.
  destruct (Hd c (H1 Ho)) as [Hcl|Hex]; [by left; apply H2|by right].
Qed.

Lemma untouched_tended w w' : untouched w w' -> tended w w'.
Proof. intros (H1 & _ & H3) c. split; [by apply H1|by apply H3]. Qed.

Lemma attended_thread d : attended d -> attended (thread_step d).
Proof.
  destruct (thread_related (R := untouched) d) as (_ & _ & E & Hw). apply attended_world; [done|].
  by apply untouched_tended.
Qed.

(** No client is open: every stream has been closed. *)
Lemma attended_down d :
  attended d -> Forall (fun c => active c = 0) (clients d) ->
  forall c, owns (world d) (Stream c) -> stream_closing (world d) c.
Proof.
  intros Hd Hall c Ho. destruct (Hd c Ho) as [Hcl|(i & client & -> & Hi & Hop & _)]; [done|].
  by destruct (Hop (Forall_lookup_1 _ _ _ _ Hall Hi)).
Qed.

(** One client changes, and no stream but its own. *)
Lemma attended_insert d d' i client' :
  attended d -> clients d' = <[i := client']> (clients d) -> (i < length (clients d))%nat ->
  tended_but (Z.of_nat i) (world d) (world d') ->
  (owns (world d') (Stream (Z.of_nat i)) ->
   stream_closing (world d') (Z.of_nat i) \/ is_open client') -> attended d'.
Proof.
  intros Hd Ec Hi Hw Hown c Ho. destruct (decide (c = Z.of_nat i)) as [->|Hne].
  - destruct (Hown Ho) as [Hcl|Hop]; [by left|right]. exists i, client'. rewrite Ec.
    by rewrite list_lookup_insert_eq.
  - destruct (Hw c Hne) as [H1 H2]. destruct (Hd c (H1 Ho)) as [Hcl|(j & client & -> & Hj & Hop)];
      [left; by apply H2|right]. exists j, client. rewrite Ec, list_lookup_insert_ne by congruence. done.
Qed.

(** ** A stream whose client has gone *)

Lemma attended_closed i d d' :
  enabled (Closed i) d -> handle (Closed i) d = Ok d' -> attended d -> attended d'.
Proof.
  intros (client & Hi & Hcl) Hrun Hd. cbn [handle] in Hrun. unfold at_client in Hrun.
  rewrite (rd_Some _ _ _ Hi), bind_ok in Hrun. cbn [on_client_closed modc cl set] in Hrun.
  apply lookup_lt_Some in Hi as Hlt. unfold on_client_closed, modc in Hrun. rewrite bind_ok in Hrun.
  rewrite wr_ok in Hrun by (unfold zlen; lia). rewrite !bind_ok in Hrun. injection Hrun as <-.
  eapply (attended_insert d _ i); [done|cbn; by rewrite Nat2Z.id|done|done|]. cbn. intros Ho. left.
  destruct (Hd _ Ho) as [H|(j & client2 & Ej & Hj & _ & Hz)]; [done|].
  apply Nat2Z.inj in Ej as <-. by simplify_eq.
Qed.

(** ** A new connection *)

(** A step of the set-up that does not touch the state of the connection. *)
Definition calm {A} (m : M W A) : Prop := forall s,
  match m s with
  | Ok (_, s') => tended (env s) (env s') /\ cid s' = cid s /\ closing (cl s') = closing (cl s)
  | _ => True
  end.

(** The set-up of a connection: it is open, or its stream has been closed. *)
Definition settled {A} (m : M W A) : Prop := forall s, closing (cl s) = 0 ->
  match m s with
  | Ok (_, s') => tended (env s) (env s') /\ (is_open (cl s') \/ stream_closing (env s') (cid s))
  | _ => True
  end.

#[local] Instance tended_preorder : PreOrder tended := harmless_preorder.

Lemma calm_call {A} (f : Z -> W -> A * W) : (forall c w, tended w (f c w).2) -> calm (call f).
Proof.
  intros Hf s. unfold call. specialize (Hf (cid s) (env s)). by destruct (f (cid s) (env s)).
Qed.
Lemma calm_modc f : (forall c, closing (f c) = closing c) -> calm (modc f).
Proof. intros Hf s. cbn. by split_and!. Qed.
Lemma calm_mods f : calm (mods f).
Proof. intros s. by split_and!. Qed.
Lemma calm_ret {A} (a : A) : calm (mret a).
Proof. intros s. by split_and!. Qed.
Lemma calm_bind {A B} (m : M W A) (f : A -> M W B) : calm m -> (forall a, calm (f a)) -> calm (m ≫= f).
Proof.
  intros Hm Hf s. unfold mbind, M_bind. specialize (Hm s). destruct (m s) as [[a s1]| |]; [|done..].
  specialize (Hf a s1). destruct (f a s1) as [[b s2]| |]; [|done..].
  destruct Hm as (H1 & H2 & H3), Hf as (H4 & H5 & H6). split_and!; [by etrans|congruence..].
Qed.
Lemma settled_bind {A B} (m : M W A) (f : A -> M W B) :
  calm m -> (forall a, settled (f a)) -> settled (m ≫= f).
Proof.
  intros Hm Hf s Hs. unfold mbind, M_bind. specialize (Hm s). destruct (m s) as [[a s1]| |]; [|done..].
  destruct Hm as (H1 & H2 & H3). specialize (Hf a s1 ltac:(congruence)).
  destruct (f a s1) as [[b s2]| |]; [|done..]. destruct Hf as [H4 H5]. rewrite <- H2.
  split; [by etrans|done].
Qed.

(** From the moment it is active the connection is open, until it is closed. *)
Lemma settled_active (m : M W unit) : mild m -> settled (modc (fun c => c <| active := 1 |>);; m).
Proof.
  intros Hm s Hs. unfold mbind, M_bind, modc.
  specialize (Hm (s <| cl := (cl s) <| active := 1 |> |>)). cbv beta iota.
  destruct (m _) as [[a s']| |]; [|done..]. destruct Hm as (H1 & _ & _ & H4). split; [exact H1|].
  by apply H4.
Qed.

Lemma calm_credentials : calm read_peer_credentials.
Proof.
  unfold read_peer_credentials.
  repeat first [apply calm_bind|apply calm_call; harmless|apply calm_ret|case_match|intros ?].
Qed.

Lemma mild_ready : mild (
  set_send_buffer;; result ← call uv_read_start; if result <? 0 then client_close else mret tt).
Proof. pose proof streams_tended. unfold set_send_buffer. mild_tac. Qed.

Lemma accept_settled cs s :
  match accept_client cs s with
  | Ok (_, s') => tended_but (cid s) (env s) (env s')
      /\ (owns (env s') (Stream (cid s)) ->
          stream_closing (env s') (cid s) \/ is_open (cl s')
          \/ owns (env s) (Stream (cid s)) /\ tended (env s) (env s'))
  | _ => True
  end.
Proof.
  unfold accept_client. unfold mbind at 1, M_bind at 1, modc at 1. cbv beta iota.
  set (s0 := s <| cl := zero_client |>). unfold mbind at 1, M_bind at 1, call at 1.
  change (cid s0) with (cid s). change (env s0) with (env s).
  pose proof (stream_init_ok (cid s) (env s)) as Hi.
  destruct (uv_pipe_init (cid s) (env s)) as [r w]. destruct (Z.ltb_spec r 0) as [Hr|Hr].
  { split; [intros c _; apply Hi|].
    cbn. intros Ho. right. right. split; [by apply (Hi (cid s))|done]. }
  destruct Hi as [_ Hi]. set (s1 := s0 <| env := w |>).
  match goal with |- match ?m s1 with _ => _ end => enough (Hm : settled m) end.
  { specialize (Hm s1 eq_refl).
    match goal with |- match ?r with _ => _ end => destruct r as [[a s']| |] end; [|done..].
    destruct Hm as [Hw Hop]. split; [|intros _; tauto].
    intros c Hc. destruct (Hi c Hc) as [H1 H2], (Hw c) as [H3 H4]. cbn in *. auto. }
  apply settled_bind; [apply calm_call; harmless|]. intros r'. case_match.
  { intros s2 _. unfold mbind, M_bind, act, modc. cbn.
    destruct (harmless_close (R := tended) (D := stream_closing) (cid s2) (env s2)). auto. }
  apply settled_bind; [apply calm_credentials|]. intros [[uid pid]|].
  - case_match.
    + apply settled_bind; [apply calm_mods|]. intros _. apply settled_active, mild_client_close.
    + do 2 (apply settled_bind; [by apply calm_modc|intros _]).
      apply settled_bind; [apply calm_call; harmless|intros now].
      do 2 (apply settled_bind; [by apply calm_modc|intros _]).
      apply settled_active, mild_ready.
  - apply settled_bind; [apply calm_mods|]. intros _. apply settled_active, mild_client_close.
Qed.

(** A connection that is rejected is closed. *)
Lemma reject_attended w :
  exists c, tended_but c w (reject_connection w)
    /\ (owns (reject_connection w) (Stream c) ->
        stream_closing (reject_connection w) c
        \/ owns w (Stream c) /\ tended w (reject_connection w)).
Proof.
  assert (Hsame : forall w', tended w w' -> exists c, tended_but c w w'
    /\ (owns w' (Stream c) -> stream_closing w' c \/ owns w (Stream c) /\ tended w w')).
  { intros w' Hw. exists 0. split; [intros c _; apply Hw|]. intros Ho. right. split; [by apply (Hw 0)|done]. }
  unfold reject_connection. pose proof (harmless_calloc (R := tended) w) as H1.
  destruct (calloc_stream w) as [[r|] w1]; cbn [snd] in H1; [|by apply Hsame].
  pose proof (stream_init_ok r w1) as H2. destruct (uv_pipe_init r w1) as [rc w2].
  destruct (rc <? 0); [apply Hsame; etrans; [|apply harmless_free]; by etrans|].
  pose proof (harmless_accept (R := tended) r w2) as H3. destruct (uv_accept r w2) as [rc' w3].
  cbn [snd] in H3. destruct H2 as [_ H2].
  destruct (harmless_close (R := tended) (D := stream_closing) r w3) as [H4 H5].
  assert (H6 : tended_but r w (uv_close r w3)).
  { intros c Hc. destruct (H1 c), (H2 c Hc), (H3 c), (H4 c). auto 10. }
  exists r. destruct (rc' <? 0); auto.
Qed.

Lemma attended_connection status d d' :
  daemon_ok d -> handle (Connection status) d = Ok d' -> attended d -> attended d'.
Proof.
  intros Hok. cbn [handle]. unfold on_connection. destruct (_ || _); [by intros [= <-]|].
  destruct (find_available_client _ _ _) as [[i|]| |] eqn:Ef; [| |done..]; rewrite bind_ok.
  - unfold at_client.
    destruct (rd (clients d) i) as [client| |] eqn:Ec; [|done..]. rewrite bind_ok.
    pose proof (accept_settled (<[Z.to_nat i := zero_client]> (clients d))
      (mk_ctx i client (server d) (world d))) as Hacc.
    destruct (accept_client _ _) as [[a s]| |]; [|done..]. rewrite bind_ok.
    apply rd_inv in Ec as [Hi Ec]. apply lookup_lt_Some in Ec as Hlt.
    rewrite wr_ok by (unfold zlen; lia). rewrite !bind_ok. intros [= <-] Hd.
    cbn [cid env] in Hacc. destruct Hacc as [Hw Hown].
    assert (Ei : i = Z.of_nat (Z.to_nat i)) by lia.
    apply (attended_insert d _ (Z.to_nat i) (cl s)); rewrite <- ?Ei; try done. cbn.
    intros Ho. destruct (Hown Ho) as [H|[H|[H1 H2]]]; [by left|by right|left].
    destruct (Hd i H1) as [H|(j & client2 & Ej & Hj & Hop)]; [by apply (H2 i)|].
    exfalso. assert (j = Z.to_nat i) as -> by lia.
    destruct (find_available_spec (clients d) (Z.to_nat MAX_CLIENTS) 0) as (r & Er & Hr);
      [done|destruct (ok_array d Hok) as (_ & Hl & _); rewrite Hl; done|].
    rewrite Ef in Er. injection Er as <-. destruct Hr as (c0 & _ & Hc0 & Hz & _). simplify_eq.
    by apply Hop.
  - intros [= <-] Hd. destruct (reject_attended (world d)) as (c & Hw & Hown). intros c' Ho. cbn in *.
    destruct (decide (c' = c)) as [->|Hne].
    + destruct (Hown Ho) as [H|[H1 H2]]; [by left|].
      destruct (Hd c H1) as [H|H]; [left; by apply (H2 c)|by right].
    + destruct (Hw c' Hne) as [H1 H2]. destruct (Hd c' (H1 Ho)) as [H|H]; [left; auto|by right].
Qed.
End Streams.
