(* ===== verification/SetupStart.v ===== *)
(** * The start and the end of the daemon's process: what is acquired and released

    The address, the listener, libuv's handles and the way back: at every point
    of the start the process holds exactly what its marks say, so that the
    shutdown releases all of it. *)

From Stdlib Require Import String.
From S2P Require Import Prelude Effect Text Options Wire CatalogDefs Catalog SourceSession Sampler.
From S2P Require Import ServerDefs ServerOps ServerQueue ServerClient Replica ServerCatchup ServerInput.
From S2P Require Import Framing DaemonOps Distribute Broadcast Daemon Heartbeat Events.
From S2P Require Import ClientConnect SetupDefs SetupOps SourceHeld.

(** ** The address *)

Definition abstract_name (name : list Z) : bool :=
  match name with b :: _ => b =? 64 | [] => false end.

Lemma daemon_fill_unix_address_spec name fs :
  daemon_fill_unix_address name fs
  = if zlen name =? 0 then Ok (inr EINVAL)
    else if (SUN_PATH_SIZE <=? zlen name) || (negb (abstract_name name) && (zlen fs <=? zlen name))
    then Ok (inr ENAMETOOLONG)
    else Ok (inl (address_path name ++ repeat 0 (Z.to_nat SUN_PATH_SIZE - length (address_path name)),
                  SUN_PATH_OFFSET + zlen (address_path name),
                  if abstract_name name then fs
                  else (name ++ [0]) ++ drop (length (name ++ [0])) fs)).
Proof.
  unfold daemon_fill_unix_address. destruct (Z.eqb_spec (zlen name) 0) as [Hz|Hz]; [done|].
  pose proof (fill_unix_address_spec name) as Hspec. unfold ClientOps.fill_unix_address in Hspec.
  rewrite (proj2 (Z.eqb_neq _ _) Hz) in Hspec. cbn [orb] in Hspec.
  destruct name as [|b rest]; [done|]. change (rd (b :: rest) 0) with (Ok b) in *.
  rewrite bind_ok in Hspec. rewrite bind_ok. cbn [abstract_name]. unfold address_path in *. cbn iota in *.
  destruct (Z.leb_spec SUN_PATH_SIZE (zlen (b :: rest))) as [Hlong|Hshort]; cbn [orb].
  { by destruct (b =? 64). }
  rewrite reject_false in Hspec. destruct (b =? 64); cbn [negb andb].
  - destruct (wr _ 0 0) as [p1| |]; [|done..]. rewrite bind_ok in Hspec. rewrite bind_ok.
    destruct (slice _ 1 _) as [r| |]; [|done..]. rewrite bind_ok in Hspec. rewrite bind_ok.
    destruct (blit p1 1 r) as [p2| |]; [|done..]. rewrite bind_ok in Hspec. rewrite bind_ok.
    unfold mret, res_ret in *. by injection Hspec as ->.
  - destruct (Z.leb_spec (zlen fs) (zlen (b :: rest))) as [|Hfs]; [done|].
    destruct (blit (repeat 0 (Z.to_nat SUN_PATH_SIZE)) 0 _) as [p2| |]; [|done..]. rewrite bind_ok in Hspec. rewrite bind_ok.
    assert (Hp : p2 = ((b :: rest) ++ [0])
      ++ repeat 0 (Z.to_nat SUN_PATH_SIZE - length ((b :: rest) ++ [0]))) by (by injection Hspec as ->).
    rewrite blit_start by (rewrite zlen_app; change (zlen [0]) with 1; lia).
    rewrite bind_ok, Hp, zlen_app. change (zlen [0]) with 1. by rewrite Z.add_assoc.
Qed.

Lemma c_string_app_nul s rest : c_string (s ++ 0 :: rest) = c_string s.
Proof.
  induction s as [|b s IH]; [done|]. cbn [app c_string]. destruct (b =? 0); [done|]. by rewrite IH.
Qed.

(** The bytes of the path that the length says. *)
Lemma app_address name rest :
  take (Z.to_nat (SUN_PATH_OFFSET + zlen (address_path name) - SUN_PATH_OFFSET))
    (address_path name ++ rest) = address_path name.
Proof.
  replace (Z.to_nat _) with (length (address_path name)) by (unfold zlen; lia).
  apply take_app_length.
Qed.

(** The name in the address is the one kept for [unlink]. *)
Lemma daemon_address_ok name :
  let fs := repeat 0 (Z.to_nat SUN_PATH_SIZE) in
  exists r, daemon_fill_unix_address name fs = Ok r
    /\ match r with
       | inr e => 0 < e
       | inl (path, len, fs') => zlen fs' = SUN_PATH_SIZE /\ bound_name path = bound_name fs'
           /\ take (Z.to_nat (len - SUN_PATH_OFFSET)) path = address_path name
           /\ bound_name (address_path name) = bound_name path
       end.
Proof.
  intros fs. rewrite daemon_fill_unix_address_spec. destruct (_ =? 0) eqn:Ez; [by eexists|].
  destruct (_ || _) eqn:El; [by eexists|]. eexists. split; [done|]. cbn iota.
  apply Z.eqb_neq in Ez. rewrite app_address.
  destruct name as [|b rest]; [done|]. cbn [abstract_name] in *.
  unfold address_path. destruct (Z.eqb_spec b 64) as [->|Hb].
  - unfold fs. by rewrite zlen_repeat.
  - cbn [negb andb] in El. apply orb_false_iff in El as [E1 E2]. apply Z.leb_gt in E1, E2.
    unfold bound_name. rewrite <- !(assoc_L (++)).
    cbn [app]. change (b :: rest ++ ?l) with ((b :: rest) ++ l). rewrite !c_string_app_nul. split; [|done].
    rewrite zlen_app, !zlen_cons. unfold zlen, fs in *. rewrite length_drop, repeat_length.
    cbn [length] in *. rewrite length_app. cbn [length]. unfold SUN_PATH_SIZE in *. lia.
Qed.

Lemma bound_name_first path b :
  rd path 0 = Ok b -> bound_name path = if b =? 0 then None else Some (c_string path).
Proof.
  destruct path as [|c path]; [done|]. intros [= ->]. unfold bound_name. cbn [c_string].
  by destruct (b =? 0).
Qed.

(** ** The marks of the handles *)

Definition flag (h : server_handle) (p : process_t) : Z :=
  match h with
  | listener => listener_initialized p
  | sample_notification => async_initialized p
  | heartbeat_timer => heartbeat_initialized p
  | stats_timer => stats_initialized p
  | sigint_handle => sigint_initialized p
  | sigterm_handle => sigterm_initialized p
  end.

#[export] Instance handle_dec : EqDecision server_handle.
Proof. solve_decision. Defined.

#[export] Instance resource_dec : EqDecision resource.
Proof. solve_decision. Defined.

Definition all_handles : list server_handle :=
  [listener; sample_notification; heartbeat_timer; stats_timer; sigint_handle; sigterm_handle].

(** The function marks [h] and nothing else. *)
Definition marks (h : server_handle) (mark : process_t -> process_t) : Prop :=
  forall p, flag h (mark p) = 1 /\ (forall h', h' <> h -> flag h' (mark p) = flag h' p)
    /\ socket_path (mark p) = socket_path p /\ thread_started (mark p) = thread_started p
    /\ stop_requested (mark p) = stop_requested p.

Ltac prove_marks := intros p; split_and!; try done; intros []; done.

Section Start.
Context `{HC : CatalogOk} {V W : Type} `{K : !Clock W} `{U : !Uv W} `{HU : !UvOk U K}
  `{S : !VhalSource V W} `{HS : !VhalSourceOk S} `{P : !Process W} `{HP : !ProcessOk P U}
  `{HK : !StreamsOk K} `{HF : !SourceOk S K}.
Implicit Types (d : daemon V W) (w : W).

Lemma owp_dsys {A} (f : W -> A * W) Q d :
  Q (f (world d)).1 (d <| world := (f (world d)).2 |>) -> owp (dsys f) Q d.
Proof. unfold owp, dsys. by destruct (f (world d)). Qed.
Lemma owp_dsys_ (f : W -> W) Q d : Q tt (d <| world := f (world d) |>) -> owp (dsys_ f) Q d.
Proof. done. Qed.
Lemma owp_dprocess f Q d : Q tt (d <| process := f (process d) |>) -> owp (dprocess f) Q d.
Proof. done. Qed.

(** ** What the process holds during the start *)

(** [fd] is a descriptor that is not a handle's; [bound]: the address that a
    socket is bound to, with its name in the file system if it has one. *)
Record during d0 d (fd : option Z) (bound : option (list Z)) : Prop := {
  du_same : d = d0 <| process := process d |> <| world := world d |>;
  du_path : zlen (socket_path (process d)) = SUN_PATH_SIZE;
  du_thread : thread_started (process d) = 0 /\ stop_requested (process d) = false;
  du_owns : forall x, owns (world d) x ->
    match x with
    | Loop | Mutex | Address _ _ | Source => True
    | Handle h => flag h (process d) <> 0
    | Bound n => bound_name (socket_path (process d)) = Some n
    | Descriptor n => fd = Some n
    | Thread | Stream _ => False
    end;
  du_source : source_held (sampler d) (world d);
  du_loop : owns (world d) Loop;
  du_mutex : owns (world d) Mutex;
  du_handles : forall h, flag h (process d) <> 0 -> owns (world d) (Handle h);
  du_bound : forall a, bound = Some a -> (exists fd, owns (world d) (Address fd a))
    /\ forall n, bound_name a = Some n -> owns (world d) (Bound n);
}.

Lemma during_keeps d0 d fd b w :
  during d0 d fd b -> keeps (owns (world d)) (owns w) -> during d0 (d <| world := w |>) fd b.
Proof.
  intros [H1 H2 H3 H4 Hso H5 H6 H7 H8] Hk. unfold keeps in Hk.
  split; cbn; try done.
  - by rewrite H1 at 1.
  - intros x Hx. by apply H4, Hk.
  - eapply source_held_less; [|exact Hso]. apply Hk.
  - by apply Hk.
  - by apply Hk.
  - intros h Hh. by apply Hk, H7.
  - intros a [[fd' Ha] Hn]%H8. split; [exists fd'; by apply Hk|]. intros n Hb. by apply Hk, Hn.
Qed.

(** A new handle, marked. *)
Lemma during_handle d0 d fd b w h mark :
  during d0 d fd b -> gains (owns (world d)) (owns w) (Handle h) -> marks h mark ->
  during d0 (d <| world := w |> <| process := mark (process d) |>) fd b.
Proof.
  intros [H1 H2 H3 H4 Hso H5 H6 H7 H8] Hk Hm. unfold gains in Hk.
  destruct (Hm (process d)) as (M1 & M2 & M3 & M4 & M5).
  split; cbn; rewrite ?M3, ?M4, ?M5; try done.
  - by rewrite H1 at 1.
  - intros x [Hx| ->]%Hk; [|by rewrite M1]. specialize (H4 x Hx). destruct x as [| | | |h'| | | |]; try done.
    destruct (decide (h' = h)) as [->|Hne]; [by rewrite M1|by rewrite M2].
  - eapply source_held_less; [|exact Hso]. intros Hx. by apply Hk in Hx as [|].
  - apply Hk. by left.
  - apply Hk. by left.
  - intros h' Hf. apply Hk. destruct (decide (h' = h)) as [->|Hne]; [by right|left].
    apply H7. by rewrite M2 in Hf.
  - intros a [[fd' Ha] Hn]%H8. split; [exists fd'|intros n Hb]; apply Hk; left; auto.
Qed.

Lemma during_socket d0 d b w fd :
  during d0 d None b -> gains (owns (world d)) (owns w) (Descriptor fd) ->
  during d0 (d <| world := w |>) (Some fd) b.
Proof.
  intros [H1 H2 H3 H4 Hso H5 H6 H7 H8] Hk. unfold gains in Hk. split; cbn; try done.
  - by rewrite H1 at 1.
  - intros x [Hx| ->]%Hk; [|done]. specialize (H4 x Hx). by destruct x.
  - eapply source_held_less; [|exact Hso]. intros Hx. by apply Hk in Hx as [|].
  - apply Hk. by left.
  - apply Hk. by left.
  - intros h Hh. apply Hk. left. by apply H7.
  - intros a [[fd' Ha] Hn]%H8. split; [exists fd'|intros n Hb]; apply Hk; left; auto.
Qed.

Lemma during_forget d0 d fd b : during d0 d fd b -> during d0 d fd None.
Proof. by intros []; split. Qed.

(** The descriptor is handed over. *)
Lemma during_given d0 d b w fd :
  during d0 d (Some fd) b -> loses (owns (world d)) (owns w) (Descriptor fd) ->
  during d0 (d <| world := w |>) None b.
Proof.
  intros [H1 H2 H3 H4 Hso H5 H6 H7 H8] Hk. unfold loses in Hk. split; cbn; try done.
  - by rewrite H1 at 1.
  - intros x [Hx Hne]%Hk. specialize (H4 x Hx). destruct x; try done. congruence.
  - eapply source_held_less; [|exact Hso]. intros Hx. by apply Hk in Hx as [].
  - by apply Hk.
  - by apply Hk.
  - intros h Hh. apply Hk. split; [by apply H7|done].
  - intros a [[fd' Ha] Hn]%H8. split; [exists fd'|intros n Hb]; apply Hk; (split; [|done]); auto.
Qed.

(** The descriptor is closed, and its address gone. *)
Lemma during_close d0 d b fd :
  during d0 d (Some fd) b -> during d0 (d <| world := sys_close fd (world d) |>) None None.
Proof.
  destruct (sys_close_ok fd (world d)) as [_ Hk].
  intros [H1 H2 H3 H4 Hso H5 H6 H7 H8]. split; cbn; try done.
  - by rewrite H1 at 1.
  - intros x (Hx & Hne & _)%Hk. specialize (H4 x Hx). destruct x; try done. congruence.
  - eapply source_held_less; [|exact Hso]. intros Hx. by apply Hk in Hx as [].
  - by apply Hk.
  - by apply Hk.
  - intros h Hh. apply Hk. split; [by apply H7|done].
Qed.

Lemma during_unlink d0 d fd b w n :
  during d0 d fd b -> loses (owns (world d)) (owns w) (Bound n) -> during d0 (d <| world := w |>) fd None.
Proof.
  intros [H1 H2 H3 H4 Hso H5 H6 H7 H8] Hk. unfold loses in Hk. split; cbn; try done.
  - by rewrite H1 at 1.
  - intros x [Hx Hne]%Hk. by apply H4.
  - eapply source_held_less; [|exact Hso]. intros Hx. by apply Hk in Hx as [].
  - by apply Hk.
  - by apply Hk.
  - intros h Hh. apply Hk. split; [by apply H7|done].
Qed.

(** [bind] succeeds. *)
Lemma during_bound d0 d fd b path len w :
  during d0 d fd b -> bound_name path = bound_name (socket_path (process d)) ->
  bound_name (take (Z.to_nat (len - SUN_PATH_OFFSET)) path) = bound_name path ->
  forall fd', (forall x, owns w x <-> owns (world d) x \/ bound_by fd' path len x) ->
  during d0 (d <| world := w |>) fd (Some (take (Z.to_nat (len - SUN_PATH_OFFSET)) path)).
Proof.
  intros [H1 H2 H3 H4 Hso H5 H6 H7 H8] En Ea fd' Hk. split; cbn; try done.
  - by rewrite H1 at 1.
  - intros x [Hx|[->|(n & Hn & ->)]]%Hk; [by apply H4|done|congruence].
  - eapply source_held_less; [|exact Hso]. intros Hx. by apply Hk in Hx as [|[|(? & ? & ?)]].
  - apply Hk. by left.
  - apply Hk. by left.
  - intros h Hh. apply Hk. left. by apply H7.
  - intros a [= <-]. split; [exists fd'|intros n Hn]; apply Hk; right; [by left|right].
    exists n. by rewrite <- Ea.
Qed.

(** The path is filled in before anything is bound. *)
Lemma during_named d0 d fd path :
  during d0 d fd None -> bound_name (socket_path (process d)) = None -> zlen path = SUN_PATH_SIZE ->
  during d0 (d <| process := (process d) <| socket_path := path |> |>) fd None.
Proof.
  intros [H1 H2 H3 H4 Hso H5 H6 H7 H8] Hno Hp. split; cbn; try done.
  - by rewrite H1 at 1.
  - intros x Hx. specialize (H4 x Hx). destruct x; try done; congruence.
Qed.

(** ** The listener *)

Definition same_flags d d' : Prop := forall h, flag h (process d') = flag h (process d).

Lemma unlink_socket_wp Q d :
  zlen (socket_path (process d)) = SUN_PATH_SIZE ->
  Q tt (d <| world := match bound_name (socket_path (process d)) with
                      | Some n => sys_unlink n (world d)
                      | None => world d
                      end |>) -> owp unlink_socket Q d.
Proof.
  intros Hl HQ. unfold unlink_socket. owp_steps.
  destruct (rd_ok (socket_path (process d)) 0) as (b & Hb & _); [rewrite Hl; done|].
  eapply owp_mem; [exact Hb|]. rewrite (bound_name_first _ _ Hb) in HQ.
  destruct (b =? 0); cbn [negb]; [apply owp_ret; by destruct d|by apply owp_dsys_].
Qed.

Lemma unlink_socket_during d0 d fd b Q :
  during d0 d fd b ->
  (forall d', during d0 d' fd None -> process d' = process d -> Q tt d') -> owp unlink_socket Q d.
Proof.
  intros Hd HQ. apply unlink_socket_wp; [apply Hd|]. destruct (bound_name _) as [n|].
  - apply HQ; [|done]. eapply during_unlink; [exact Hd|apply sys_unlink_ok].
  - apply HQ; [|done]. apply (during_keeps _ _ _ _ (world d)) in Hd; [|done]. by eapply during_forget.
Qed.

Lemma set_nonblocking_cloexec_wp d0 d fd0 b fd Q :
  during d0 d fd0 b ->
  (forall d', during d0 d' fd0 b -> process d' = process d -> Q 0 d') ->
  (forall d', during d0 d' fd0 b -> process d' = process d -> 0 < sys_errno (world d') -> Q (-1) d') ->
  owp (set_nonblocking_cloexec fd) Q d.
Proof.
  intros Hd Hok Hbad. unfold set_nonblocking_cloexec.
  assert (Hcall : forall cmd arg (k : Z -> OM (daemon V W) Z) d1,
    during d0 d1 fd0 b -> process d1 = process d ->
    (forall r d', 0 <= r -> during d0 d' fd0 b -> process d' = process d -> owp (k r) Q d') ->
    owp (r ← dsys (sys_fcntl fd cmd arg); if r <? 0 then mret (-1) else k r) Q d1).
  { intros cmd arg k d1 H1 E1 Hk. apply owp_bind, owp_dsys. cbv beta.
    pose proof (sys_fcntl_ok fd cmd arg (world d1)) as Hf.
    destruct (sys_fcntl fd cmd arg (world d1)) as [r w]. destruct Hf as [He Hkeep]. cbn [fst snd].
    pose proof (during_keeps _ _ _ _ _ H1 Hkeep) as H2. destruct (Z.ltb_spec r 0) as [Hr|Hr].
    - apply owp_ret, Hbad; [exact H2|done|by apply He].
    - by apply Hk. }
  eapply Hcall; [done..|]. intros flags d1 _ H1 E1. cbv beta.
  apply (Hcall _ _ (fun _ => _)); [done..|]. intros _ d2 _ H2 E2. cbv beta.
  apply Hcall; [done..|]. intros fl d3 _ H3 E3. cbv beta.
  apply (Hcall _ _ (fun _ => _)); [done..|]. intros _ d4 _ H4 E4. by apply owp_ret, Hok.
Qed.

Lemma bind_listener_wp d0 d1 path len a Q :
  during d0 d1 None None -> bound_name path = bound_name (socket_path (process d1)) ->
  take (Z.to_nat (len - SUN_PATH_OFFSET)) path = a -> bound_name a = bound_name path ->
  (forall fd d', 0 <= fd -> during d0 d' (Some fd) (Some a) -> same_flags d1 d' -> Q fd d') ->
  (forall d', during d0 d' None None -> same_flags d1 d' -> 0 < sys_errno (world d') -> Q (-1) d') ->
  owp (bind_listener path len) Q d1.
Proof.
  intros H1 Hname Ha Hna Hok Hbad. unfold bind_listener.
  apply owp_bind, owp_dsys. cbv beta. pose proof (sys_socket_ok (world d1)) as Hs.
  destruct (sys_socket (world d1)) as [fd w]. cbn [fst snd] in *. destruct (Z.ltb_spec fd 0) as [Hfd|Hfd].
  { apply owp_ret. destruct Hs as [He Hk]. apply Hbad; [by eapply during_keeps|done|done]. }
  pose proof (during_socket _ _ _ _ _ H1 Hs) as H2.
  assert (Hclose : forall d3, during d0 d3 (Some fd) None -> same_flags d1 d3 ->
    0 < sys_errno (world d3) -> owp (dsys_ (sys_close fd);; mret (-1)) Q d3).
  { intros d3 H3 F3 He. apply owp_bind, owp_dsys_, owp_ret.
    apply Hbad; [by eapply during_close|done|]. by apply sys_close_ok. }
  apply owp_bind. eapply set_nonblocking_cloexec_wp; [exact H2|..].
  2: { intros d3 H3 E3 He. cbn [Z.ltb Z.compare]. apply Hclose; [done| |done].
       intros h. by rewrite E3. }
  intros d3 H3 E3. cbn [Z.ltb Z.compare]. apply owp_bind. eapply unlink_socket_during; [exact H3|].
  intros d4 H4 E4. apply owp_bind, owp_dsys. cbv beta.
  assert (F4 : process d4 = process d1) by (by rewrite E4, E3).
  pose proof (sys_bind_ok fd path len (world d4)) as Hb.
  destruct (sys_bind fd path len (world d4)) as [rb w4]. cbn [fst snd] in *.
  (* the way back *)
  assert (Hback : forall b d5, during d0 d5 (Some fd) b -> process d5 = process d1 ->
    0 < sys_errno (world d5) ->
    owp (saved_errno ← oget (fun d => sys_errno (world d)); dsys_ (sys_close fd);; unlink_socket;;
         dsys_ (set_errno saved_errno);; mret (-1)) Q d5).
  { intros b d5 H5 E5 He. apply owp_bind, owp_get. apply owp_bind, owp_dsys_.
    apply owp_bind. eapply unlink_socket_during.
    { by eapply during_close. }
    intros d6 H6 E6. apply owp_bind, owp_dsys_, owp_ret.
    destruct (set_errno_ok (sys_errno (world d5)) (world d6)) as [E Hk].
    apply Hbad; [by eapply during_keeps| |by cbn; rewrite E].
    intros h. cbn. rewrite E6. cbn. by rewrite E5. }
  destruct (Z.ltb_spec rb 0) as [Hrb|Hrb].
  { apply owp_bind, owp_ret. rewrite (proj2 (Z.ltb_lt rb 0) Hrb). destruct Hb as [He Hk].
    apply (Hback None); [by eapply during_keeps|done|done]. }
  assert (H5 : during d0 (d4 <| world := w4 |>) (Some fd) (Some a)).
  { rewrite <- Ha in Hna. rewrite <- Ha. apply (during_bound _ _ _ _ _ _ _ H4) with fd; [|done..].
    by rewrite F4. }
  apply owp_bind, owp_dsys. cbv beta.
  pose proof (sys_listen_ok fd MAX_CLIENTS (world (d4 <| world := w4 |>))) as Hli.
  destruct (sys_listen fd MAX_CLIENTS _) as [rl w5]. cbn [fst snd] in *. destruct Hli as [He Hk].
  pose proof (during_keeps _ _ _ _ _ H5 Hk) as H6. destruct (Z.ltb_spec rl 0) as [Hrl|Hrl].
  - apply (Hback (Some a)); [done|done|by apply He].
  - apply owp_ret, Hok; [done|done|]. intros h. cbn. by rewrite F4.
Qed.

Lemma open_listener_wp d0 d name Q :
  during d0 d None None -> socket_path (process d) = repeat 0 (Z.to_nat SUN_PATH_SIZE) ->
  (forall fd d', 0 <= fd -> during d0 d' (Some fd) (Some (address_path name)) -> same_flags d d' ->
     Q fd d') ->
  (forall d', during d0 d' None None -> same_flags d d' -> 0 < sys_errno (world d') -> Q (-1) d') ->
  owp (open_listener name) Q d.
Proof.
  intros Hd Hpath Hok Hbad. unfold open_listener. owp_steps. rewrite Hpath.
  destruct (daemon_address_ok name) as (r & Hr & Haddr). eapply owp_mem; [exact Hr|]. cbv beta.
  destruct r as [[[path len] fs]|e].
  2: { apply owp_bind, owp_dsys_, owp_ret. destruct (set_errno_ok e (world d)) as [E Hk].
       apply Hbad; [by eapply during_keeps|done|]. cbn. by rewrite E. }
  destruct Haddr as (Hfs & Hname & Htake & Hnamed). apply owp_bind, owp_dprocess.
  apply (bind_listener_wp d0 _ _ _ (address_path name)); [|exact Hname|exact Htake|exact Hnamed|..].
  - apply during_named; [done| |done]. rewrite Hpath. reflexivity.
  - intros fd d' Hfd H1 F1. apply Hok; [done|done|]. intros h. rewrite (F1 h). by destruct h.
  - intros d' H1 F1. apply Hbad; [done|]. intros h. rewrite (F1 h). by destruct h.
Qed.

(** ** libuv *)

Lemma or_return_wp (m k : OM (daemon V W) Z) Q d :
  owp m (fun r d' => if r <? 0 then Q r d' else owp k Q d') d -> owp (or_return m k) Q d.
Proof.
  intros H. apply owp_bind. eapply owp_mono; [exact H|]. intros r d' Hr. cbv beta in Hr.
  destruct (r <? 0); [by apply owp_ret|done].
Qed.

Section Handles.
Context (d0 : daemon V W) (Q : Z -> daemon V W -> Prop).
Context (Hbad : forall r d, r < 0 -> during d0 d None None -> Q r d).

Lemma start_wp b h n (k : OM (daemon V W) Z) d :
  during d0 d None b ->
  (forall d', during d0 d' None b -> process d' = process d -> owp k Q d') ->
  owp (or_return (dsys (handle_start h n)) k) Q d.
Proof.
  intros Hd Hk. apply or_return_wp, owp_dsys. cbv beta.
  pose proof (during_keeps _ _ _ _ _ Hd (handle_start_ok h n (world d))) as H1.
  destruct (Z.ltb_spec (handle_start h n (world d)).1 0); [|by apply Hk].
  apply Hbad; [done|by eapply during_forget].
Qed.

Lemma start_handle_wp b h mark n (k : OM (daemon V W) Z) d :
  during d0 d None b -> marks h mark ->
  (forall d', during d0 d' None b -> process d' = mark (process d) -> owp k Q d') ->
  owp (start_handle h mark n k) Q d.
Proof.
  intros Hd Hm Hk. unfold start_handle. apply or_return_wp, owp_dsys. cbv beta.
  pose proof (handle_init_ok h (world d)) as Hi.
  destruct (handle_init h (world d)) as [r w]. cbn [fst snd] in *.
  destruct (Z.ltb_spec r 0).
  { apply Hbad; [done|]. eapply during_forget. by eapply during_keeps. }
  apply owp_bind, owp_dprocess. eapply start_wp; [exact (during_handle _ _ _ _ _ _ _ Hd Hi Hm)|].
  intros d' H1 E1. by apply Hk.
Qed.

(** A listener that is not handed over is closed. *)
Lemma listener_handle_wp fd a (k : OM (daemon V W) Z) d :
  during d0 d (Some fd) (Some a) ->
  (forall d', during d0 d' None (Some a) ->
     process d' = (process d) <| listener_initialized := 1 |> -> owp k Q d') ->
  owp (result ← dsys (handle_init listener);
       if result <? 0 then dsys_ (sys_close fd);; mret result
       else
         dprocess (fun p => p <| listener_initialized := 1 |>);;
         result ← dsys (uv_pipe_open fd);
         if result <? 0 then dsys_ (sys_close fd);; mret result else k) Q d.
Proof.
  intros Hd Hk.
  assert (Hclose : forall r d1, r < 0 -> during d0 d1 (Some fd) (Some a) ->
    owp (dsys_ (sys_close fd);; mret r) Q d1).
  { intros r d1 Hr H1. apply owp_bind, owp_dsys_, owp_ret. apply Hbad; [done|].
    by eapply during_close. }
  apply owp_bind, owp_dsys. cbv beta. pose proof (handle_init_ok listener (world d)) as Hi.
  destruct (handle_init listener (world d)) as [r w]. cbn [fst snd] in *.
  destruct (Z.ltb_spec r 0); [by apply Hclose; [|eapply during_keeps]|].
  apply owp_bind, owp_dprocess.
  pose proof (during_handle _ _ _ _ _ listener (fun p => p <| listener_initialized := 1 |>) Hd Hi
    ltac:(prove_marks)) as H1.
  apply owp_bind, owp_dsys. cbv beta. cbn [world set].
  pose proof (uv_pipe_open_ok fd w) as Ho. destruct (uv_pipe_open fd w) as [r' w']. cbn [fst snd] in *.
  destruct (Z.ltb_spec r' 0).
  - apply Hclose; [done|]. apply (during_keeps _ _ _ _ w') in H1; [exact H1|done].
  - apply Hk; [|done]. exact (during_given _ _ _ w' _ H1 Ho).
Qed.
End Handles.

Lemma initialize_libuv_wp d name Q :
  process d = zero_process -> (forall x, owns (world d) x -> x = Mutex \/ x = Source) ->
  owns (world d) Mutex -> source_held (sampler d) (world d) ->
  (forall r d', r < 0 -> (uv_loop_init (world d)).1 < 0 -> Q r d') ->
  (forall r d', r < 0 -> during d d' None None -> Q r d') ->
  (forall d', during d d' None (Some (address_path name)) -> Forall (fun h => flag h (process d') = 1) all_handles -> Q 0 d') ->
  owp (initialize_libuv name) Q d.
Proof.
  intros Hp Ho Hm Hso Hloop Hbad Hok. unfold initialize_libuv. apply or_return_wp, owp_dsys. cbv beta.
  pose proof (uv_loop_init_ok (world d)) as Hl. destruct (uv_loop_init (world d)) as [r w].
  cbn [fst snd] in *. destruct (Z.ltb_spec r 0); [by apply Hloop|]. unfold gains in Hl.
  assert (Hd : during d (d <| world := w |>) None None).
  { split; cbn; rewrite ?Hp; try done.
    - destruct d. cbn in Hp. by subst.
    - intros x [[-> | ->]%Ho| ->]%Hl; done.
    - eapply source_held_less; [|exact Hso]. intros Hx. by apply Hl in Hx as [|].
    - apply Hl. by right.
    - apply Hl. by left.
    - by intros []. }
  assert (E1 : process (d <| world := w |>) = zero_process) by done.
  match goal with |- owp _ _ ?d1 =>
    change (during d d1 None None) in Hd; change (process d1 = zero_process) in E1;
    generalize dependent d1 end.
  intros d1 H1 E1.
  apply or_return_wp, owp_dsys. cbv beta. pose proof (handle_init_ok sample_notification (world d1)) as Hi.
  destruct (handle_init sample_notification (world d1)) as [r2 w2]. cbn [fst snd] in *.
  destruct (Z.ltb_spec r2 0); [by apply Hbad; [|eapply during_keeps]|].
  apply owp_bind, owp_dprocess.
  pose proof (during_handle _ _ _ _ _ sample_notification (fun p => p <| async_initialized := 1 |>) H1 Hi
    ltac:(prove_marks)) as H2.
  apply owp_bind. eapply open_listener_wp; [exact H2|cbn; by rewrite E1|..].
  2: { intros d3 H3 F3 He. cbn [Z.ltb Z.compare]. apply owp_bind, owp_get, owp_ret, Hbad; [lia|done]. }
  intros fd d3 Hfd H3 F3. rewrite (proj2 (Z.ltb_ge fd 0) Hfd).
  apply (listener_handle_wp d Q Hbad fd (address_path name)); [exact H3|]. intros d4 H4 E4.
  apply (start_wp d Q Hbad (Some (address_path name))); [exact H4|]. intros d5 H5 E5.
  apply (start_handle_wp d Q Hbad (Some (address_path name))); [exact H5|prove_marks|]. intros d6 H6 E6.
  apply (start_handle_wp d Q Hbad (Some (address_path name))); [exact H6|prove_marks|]. intros d7 H7 E7.
  apply (start_handle_wp d Q Hbad (Some (address_path name))); [exact H7|prove_marks|]. intros d8 H8 E8.
  apply (start_handle_wp d Q Hbad (Some (address_path name))); [exact H8|prove_marks|]. intros d9 H9 E9.
  apply owp_ret, Hok; [exact H9|]. specialize (F3 sample_notification). cbn in F3.
  rewrite E9, E8, E7, E6, E5, E4. repeat constructor. exact F3.
Qed.

(** ** The way back *)

(** [hs] are closing, what was closing still is, and the streams are the same. *)
Definition closes (hs : list server_handle) w w' : Prop :=
  keeps (owns w) (owns w')
  /\ (forall h, handle_is_closing h w = true \/ h ∈ hs -> handle_is_closing h w' = true)
  /\ forall c, stream_closing w' c <-> stream_closing w c.

Lemma closes_nil w : closes [] w w.
Proof. split_and!; [done| |done]. intros h [H|H]; [done|by apply elem_of_nil in H]. Qed.

Lemma closes_trans hs1 hs2 w1 w2 w3 : closes hs1 w1 w2 -> closes hs2 w2 w3 -> closes (hs1 ++ hs2) w1 w3.
Proof.
  intros (H1 & H2 & H3) (H4 & H5 & H6).
  split_and!; [intros x; by rewrite (H4 x)| |intros c; by rewrite (H6 c)].
  intros h [Hh|Hh]; apply H5; [auto|]. apply elem_of_app in Hh as [Hh|Hh]; auto.
Qed.

Lemma close_handle_closes h w : closes [h] w (close_handle h w).
Proof.
  unfold close_handle. destruct (handle_is_closing h w) eqn:E.
  - split_and!; [done| |done]. intros h' [Hh|Hh]; [done|]. by apply list_elem_of_singleton in Hh as ->.
  - destruct (handle_close_ok h w) as (Hk & Hc & Hs). split_and!; [done| |done].
    intros h' [Hh|Hh]; apply Hc; [auto|]. apply list_elem_of_singleton in Hh. auto.
Qed.

Lemma stop_handle_closes h w : closes [h] w (close_handle h (handle_stop h w)).
Proof.
  apply (closes_trans [] [h] _ (handle_stop h w)); [|apply close_handle_closes].
  destruct (handle_stop_ok h w) as (Hk & Hc & Hs). split_and!; [done| |done].
  intros h' [Hh|Hh]; [by rewrite Hc|by apply elem_of_nil in Hh].
Qed.

Lemma closes_marked hs w w1 w2 h (n : Z) :
  closes hs w w1 -> closes [h] w1 w2 ->
  closes (hs ++ if n =? 0 then [] else [h]) w (if negb (n =? 0) then w2 else w1).
Proof.
  intros H1 H2. destruct (n =? 0); cbn [negb]; [by rewrite app_nil_r|by eapply closes_trans].
Qed.

Lemma close_server_handles_ok p w :
  keeps (owns w) (owns (close_server_handles p w))
  /\ (forall h, flag h p <> 0 -> handle_is_closing h (close_server_handles p w) = true)
  /\ forall c, stream_closing (close_server_handles p w) c <-> stream_closing w c.
Proof.
  assert (H : exists hs, closes hs w (close_server_handles p w) /\ forall h, flag h p <> 0 -> h ∈ hs).
  { eexists. split.
    - unfold close_server_handles. cbv zeta.
      do 6 (eapply closes_marked; [|first [apply close_handle_closes|apply stop_handle_closes]]).
      apply closes_nil.
    - intros h Hf. rewrite !elem_of_app. apply Z.eqb_neq in Hf.
      destruct h; cbn in Hf; rewrite Hf, !list_elem_of_singleton; tauto. }
  destruct H as (hs & (Hk & Hc & Hs) & Hin). split; [exact Hk|]. split; [|exact Hs].
  intros h Hf. apply Hc. right. by apply Hin.
Qed.

Lemma sampler_stop_sampler d : sampler (sampler_stop d) = sampler d.
Proof. unfold sampler_stop. by destruct (negb _). Qed.

Lemma sampler_stop_owns d x :
  owns (world (sampler_stop d)) x ->
  owns (world d) x /\ (thread_started (process d) <> 0 -> x <> Thread).
Proof.
  unfold sampler_stop. cbn [process thread_started set].
  destruct (Z.eqb_spec (thread_started (process d)) 0) as [Ez|Ez]; cbn; [done|].
  by intros [H1 H2]%thread_join_ok.
Qed.

(** The end of the sampler releases its lock and its source. *)
Lemma sampler_destroy_owns d x :
  source_held (sampler d) (world d) -> owns (world (sampler_destroy d)) x ->
  owns (world d) x /\ x <> Mutex /\ x <> Source /\ (thread_started (process d) <> 0 -> x <> Thread).
Proof.
  intros Hso. unfold sampler_destroy. cbv zeta. intros [Hx Hm]%mutex_destroy_ok.
  assert (Hx1 : owns (world (sampler_stop d)) x /\ x <> Source).
  { rewrite sampler_stop_sampler in Hx. destruct (Z.eqb_spec (fake (sampler d)) 0) as [Ef|Ef].
    - pose proof (session_close_related (R := untouched) (sampler_source (sampler d)) _
        (world (sampler_stop d)) ltac:(done)) as [Hk _].
      pose proof (session_close_held (sampler_source (sampler d)) (world (sampler_stop d))) as Hc.
      destruct (roadcast_source_session_close _ _) as [s w]. cbn in *.
      assert (Hne : x <> Source).
      { intros ->. apply Hc; [|done]. intros [Ho _]%sampler_stop_owns. by apply Hso. }
      split; [|done]. by apply Hk.
    - split; [done|]. intros ->. apply sampler_stop_owns in Hx as [Ho _]. by apply Hso in Ho as []. }
  destruct Hx1 as [[H1 H2]%sampler_stop_owns H3]. done.
Qed.

(** [main] from the shutdown on: nothing is left but, when libuv refuses to close
    it, the loop. *)
Lemma tear_down_run d d1 :
  server_shutdown d = Ok d1 -> zlen (socket_path (process d1)) = SUN_PATH_SIZE ->
  owns (world d1) Loop -> source_held (sampler d1) (world d1) ->
  (forall h, owns (world d1) (Handle h) -> handle_is_closing h (world d1) = true) ->
  (forall c, owns (world d1) (Stream c) -> stream_closing (world d1) c) ->
  exists r w', tear_down d = Ok (r, w')
    /\ forall x, owns w' x ->
         (x = Loop -> r < 0) /\ x <> Mutex /\ x <> Source /\ outlives_loop (owns (world d1)) x
         /\ (forall n, bound_name (socket_path (process d1)) = Some n -> x <> Bound n)
         /\ (thread_started (process d1) <> 0 -> x <> Thread) /\ owns (world d1) x.
Proof.
  intros Hs Hp Hl Hso Hh Hst. unfold tear_down. rewrite Hs, bind_ok.
  destruct (uv_run_ok (world d1) Hl Hh Hst) as (w2 & -> & H2). rewrite bind_ok.
  assert (Hl2 : owns w2 Loop) by (apply H2; done).
  destruct (uv_loop_close_ok w2 Hl2) as (r & w3 & -> & H3). rewrite bind_ok.
  destruct (owp_run unlink_socket (fun _ d' => d' = d1 <| world := match bound_name (socket_path (process d1)) with
    | Some n => sys_unlink n w3 | None => w3 end |>) (d1 <| world := w3 |>)) as ([] & d4 & Hrun & E4).
  { by apply unlink_socket_wp. }
  rewrite Hrun, bind_ok. exists r, (world (sampler_destroy d4)). split; [done|].
  assert (Hx4 : forall x, owns (world d4) x -> (x = Loop -> r < 0) /\ outlives_loop (owns (world d1)) x
    /\ (forall n, bound_name (socket_path (process d1)) = Some n -> x <> Bound n) /\ owns (world d1) x).
  { intros x Hx. subst d4. cbn in Hx.
    assert (Hx3 : owns w3 x /\ forall n, bound_name (socket_path (process d1)) = Some n -> x <> Bound n).
    { destruct (bound_name _) as [n|] eqn:En; [|done]. apply sys_unlink_ok in Hx as [Hx Hne].
      split; [done|]. by intros n' [= <-]. }
    destruct Hx3 as [Hx3 Hb].
    assert (Hx2 : owns w2 x /\ (x = Loop -> r < 0)).
    { destruct (Z.ltb_spec r 0); [by apply H3 in Hx3|]. by apply H3 in Hx3 as []. }
    destruct Hx2 as [[Hx1 Hhx]%H2 Hlx]. by split_and!. }
  assert (Hso4 : source_held (sampler d4) (world d4)).
  { rewrite E4 at 1. eapply source_held_less; [|exact Hso]. apply (Hx4 Source). }
  intros x (Hx & Hm & Hsx & Ht)%sampler_destroy_owns; [|done].
  destruct (Hx4 x Hx) as (H5 & H6 & H7 & H8). rewrite E4 in Ht. by split_and!.
Qed.
End Start.
