(* ===== verification/Lifecycle.v ===== *)
(** * The life of the daemon's process

    What the process holds while it runs, across every event, and that the end of
    [main] releases it. *)

From Stdlib Require Import String.
From S2P Require Import Prelude Effect Text Options Wire CatalogDefs Catalog SourceSession Sampler.
From S2P Require Import ServerDefs ServerOps ServerQueue ServerClient Replica ServerCatchup ServerInput.
From S2P Require Import Framing DaemonOps Distribute Broadcast Daemon Heartbeat Events Harmless.
From S2P Require Import SetupDefs SetupOps SourceHeld Streams SetupStart.

Section Life.
Context `{HC : CatalogOk} {V W : Type} `{K : !Clock W} `{U : !Uv W} `{HU : !UvOk U K}
  `{S : !VhalSource V W} `{HS : !VhalSourceOk S} `{HA : !Apart S HU} `{P : !Process W}
  `{HP : !ProcessOk P U} `{HK : !StreamsOk K} `{HF : !SourceOk S K}.
Implicit Types (d : daemon V W) (w : W).

(** The process holds what its marks say, its open source is the sampler's, and
    every stream is an open client's or closed; once it is shutting down, the thread
    has been joined and the handles are closing. *)
Record holding d : Prop := {
  ho_path : zlen (socket_path (process d)) = SUN_PATH_SIZE;
  ho_owns : forall x, owns (world d) x ->
    match x with
    | Loop | Mutex | Address _ _ | Stream _ | Source => True
    | Handle h => flag h (process d) <> 0
    | Bound n => bound_name (socket_path (process d)) = Some n
    | Thread => thread_started (process d) <> 0
    | Descriptor _ => False
    end;
  ho_loop : owns (world d) Loop;
  ho_source : source_held (sampler d) (world d);
  ho_streams : attended d;
  ho_down : shutting_down (server d) <> 0 ->
    thread_started (process d) = 0
    /\ forall h, owns (world d) (Handle h) -> handle_is_closing h (world d) = true;
}.

(** Everything but the streams is left alone. *)
Lemma holding_undisturbed d d' :
  process d' = process d -> sampler d' = sampler d ->
  shutting_down (server d') = shutting_down (server d) -> undisturbed (world d) (world d') ->
  attended d' -> holding d -> holding d'.
Proof.
  intros E1 E2 E3 [Hk Hc] Ha [H1 H2 H3 Hso _ H4]. split; rewrite ?E1, ?E2, ?E3; try done.
  - intros x Hx. specialize (H2 x). destruct x; try done; by apply H2, Hk.
  - by apply Hk.
  - eapply source_held_less; [|exact Hso]. by apply Hk.
  - intros Hs. destruct (H4 Hs) as [H5 H6]. split; [done|]. intros h Hh. rewrite Hc. by apply H6, Hk.
Qed.

Lemma harmless_holding d d' :
  harmless_step (R := undisturbed) (D := fun _ _ => True) d d' -> attended d' -> holding d -> holding d'.
Proof. intros (E1 & E2 & E3 & Hu & _). by apply holding_undisturbed. Qed.

(** Everything but the source is left alone. *)
Lemma thread_holding d : holding d -> holding (thread_step d).
Proof.
  intros [H1 H2 H3 Hso Ha H4].
  destruct (thread_related (R := untouched) d) as (E1 & E2 & E3 & Hk & Hc & _).
  split; rewrite ?E1, ?E2; try done.
  - intros x Hx. specialize (H2 x). destruct x; try done; by apply H2, Hk.
  - by apply Hk.
  - by apply thread_held.
  - by apply attended_thread.
  - intros Hs. destruct (H4 Hs) as [H5 H6]. split; [done|]. intros h Hh. rewrite Hc. by apply H6, Hk.
Qed.

Lemma sampler_stop_holding d :
  holding d -> shutting_down (server d) = 0 ->
  holding (sampler_stop d) /\ thread_started (process (sampler_stop d)) = 0.
Proof.
  intros [H1 H2 H3 Hso Ha H4] Hz. unfold sampler_stop. cbn [process thread_started set].
  destruct (Z.eqb_spec (thread_started (process d)) 0) as [Ez|Ez]; cbn [negb].
  - split; [|exact Ez]. split; cbn; done.
  - destruct (thread_join_ok (world d)) as [Hl Hs]. split; [|done]. split; cbn; try done.
    + intros x [Hx Hne]%Hl. specialize (H2 x Hx). by destruct x.
    + by apply Hl.
    + eapply source_held_less; [|exact Hso]. by intros []%Hl.
    + apply (attended_world d); [done| |done]. intros c. split; [by intros []%Hl|by apply Hs].
Qed.

Lemma shutdown_holding d d' :
  server_shutdown d = Ok d' -> holding d -> holding d' /\ shutting_down (server d') <> 0.
Proof.
  unfold server_shutdown. intros Hrun Hd.
  destruct (Z.eqb_spec (shutting_down (server d)) 0) as [Hz|Hz]; cbn [negb] in Hrun.
  2: { injection Hrun as <-. done. }
  destruct (sampler_stop_holding d Hd Hz) as [H0 Ht0].
  set (d0 := sampler_stop (d <| server := (server d) <| shutting_down := 1 |> |>)) in *.
  assert (E0 : process d0 = process (sampler_stop d) /\ world d0 = world (sampler_stop d)
               /\ sampler d0 = sampler (sampler_stop d) /\ clients d0 = clients (sampler_stop d)
               /\ shutting_down (server d0) = 1).
  { unfold d0, sampler_stop. by destruct (negb _). }
  destruct E0 as (Ep & Ew & Esm & Ec & Es).
  destruct (each_client client_close d0) as [d1| |] eqn:E; [|done..].
  pose proof (each_client_harmless (R := tended) (D := stream_closing) _ _ _ mild_client_close E) as Ha.
  apply attended_harmless in Ha.
  2: { apply (attended_world (sampler_stop d)); [done|by rewrite Ew|apply H0]. }
  apply (each_client_harmless (R := undisturbed) (D := fun _ _ => True)) in E as (E1 & E2 & E3 & (Hk & Hc) & _);
    [|apply mild_client_close].
  rewrite bind_ok in Hrun. injection Hrun as <-.
  destruct (close_server_handles_ok (process d1) (world d1)) as (Hk2 & Hc2 & Hs2).
  destruct H0 as [H1 H2 H3 Hso _ _]. rewrite Ew in Hk. rewrite Ep in E1. rewrite Esm in E2.
  split; [|cbn; by rewrite E3, Es]. split; cbn [process world server sampler set].
  - by rewrite E1.
  - intros x Hx. rewrite E1. specialize (H2 x). destruct x; try done; by apply H2, Hk, Hk2.
  - by apply Hk2, Hk.
  - rewrite E2. eapply source_held_less; [|exact Hso]. intros Hx. by apply Hk, Hk2.
  - apply (attended_world d1); [done| |done]. intros c. split; [apply Hk2|apply Hs2].
  - intros _. rewrite E1. split; [done|]. intros h Hh. rewrite <- E1 in *. apply Hc2.
    by apply (H2 (Handle h)), Hk, Hk2.
Qed.

Lemma event_holding e d d' :
  daemon_ok d -> enabled e d -> handle e d = Ok d' -> holding d -> holding d'.
Proof.
  intros Hok Hen Hh Hd. pose proof (ho_streams d Hd) as Ha.
  assert (Hinit : forall c w, undisturbed w (uv_pipe_init c w).2) by apply stream_init_undisturbed.
  assert (Hother : match e with Connection _ | Closed _ | Signal | SamplerTurn => False | _ => True end ->
    holding d').
  { intros He. apply (harmless_holding d); [by eapply event_harmless| |done].
    eapply attended_harmless; [|exact Ha]. by eapply event_harmless. }
  destruct e; try by apply Hother.
  - apply (harmless_holding d); [by eapply connection_harmless| |done]. by eapply attended_connection.
  - apply (harmless_holding d); [by eapply closed_harmless| |done]. by eapply attended_closed.
  - by apply (shutdown_holding d).
  - cbn [handle] in Hh. injection Hh as <-. by apply thread_holding.
Qed.

Lemma steps_holding es : forall d d', steps d es d' -> daemon_ok d -> holding d -> holding d'.
Proof.
  induction es as [|e es IH]; intros d d' Hs Hok Hd; inversion Hs as [|? ? d1 ? ? Hen Hh Hs1]; subst; [done|].
  destruct (event_run e d Hok Hen) as (d1' & Hrun & Hok1 & _). rewrite Hh in Hrun. injection Hrun as <-.
  apply (IH d1); [done..|]. by apply (event_holding e d).
Qed.

(** The end of [main]: everything is released but, when libuv refuses to close it,
    the loop. *)
Lemma tear_down_holding d :
  daemon_ok d -> holding d ->
  exists r w', tear_down d = Ok (r, w') /\ forall x, owns w' x -> x = Loop /\ r < 0.
Proof.
  intros Hok Hd. destruct (signal_run d Hok) as (d1 & Hrun & Hok1 & _).
  destruct (shutdown_holding d d1 Hrun Hd) as [[H1 H2 H3 Hso Ha H4] Hs]. destruct (H4 Hs) as [H5 H6].
  pose proof (attended_down d1 Ha (ok_shutdown d1 Hok1 Hs)) as Hst.
  destruct (tear_down_run d d1 Hrun H1 H3 Hso H6 Hst) as (r & w' & E & Hleft).
  exists r, w'. split; [exact E|]. intros x Hx.
  destruct (Hleft x Hx) as (L1 & L2 & L3 & L4 & L5 & _ & L7). pose proof (H2 x L7) as Hx2.
  destruct x; try done; [by destruct (H2 (Descriptor fd) L4)|by destruct (L5 path)|split; [done|by apply L1]].
Qed.

(** ** The start *)

Lemma during_daemon_ok d0 d fd b : during d0 d fd b -> daemon_ok d0 -> daemon_ok d.
Proof. intros [E _ _ _ _ _ _ _ _] []. rewrite E. by split. Qed.

Lemma during_holding d0 d b :
  during d0 d None b -> shutting_down (server d0) = 0 -> holding d.
Proof.
  intros [E H2 [H3 H4] H5 Hso H6 H7 H8 H9] Hz. split; try done.
  - intros x Hx. specialize (H5 x Hx). by destruct x.
  - intros c Hc. by destruct (H5 (Stream c) Hc).
  - rewrite E. cbn. by rewrite Hz.
Qed.

(** The first state of the server. *)
Lemma daemon_init_details hz_ fake_ slots alloc w d :
  ~ owns w Source -> daemon_init hz_ fake_ slots alloc w = Ok (Some d) ->
  process d = zero_process /\ untouched w (world d) /\ source_held (sampler d) (world d)
  /\ shutting_down (server d) = 0 /\ hz (server d) = hz_ /\ client_queue_slots (server d) = slots
  /\ fake (sampler d) = fake_ /\ (fake_ = 0 -> process_name (sampler_source (sampler d)) = alloc).
Proof.
  intros Hno. unfold daemon_init.
  pose proof (sampler_init_related (R := untouched) (V := V) hz_ fake_ alloc w) as Hk.
  pose proof (sampler_init_held (V := V) hz_ fake_ alloc w Hno) as Hh.
  destruct (sampler_init _ _ _ _) as [[sm|] w1]; [|done]. cbn [snd] in Hk.
  destruct (sampler_read_latest sm) as [[fs q] ts].
  destruct (roadcast_decode_signals fs) as [vs| |]; [|done..]. rewrite bind_ok. intros [= <-].
  cbn. tauto.
Qed.

(** The daemon as the options say, before libuv is initialized. *)
Definition prepared (o : daemon_options_t) d : Prop :=
  hz (server d) = dop_hz o /\ client_queue_slots (server d) = dop_client_queue_slots o
  /\ fake (sampler d) = dop_fake o
  /\ (dop_fake o = 0 ->
      process_name (sampler_source (sampler d)) = Some (text_of (dop_process_name o))).

Lemma daemon_setup_run (o : daemon_options_t) w :
  1 <= dop_hz o <= 240 -> 1 <= dop_client_queue_slots o <= CLIENT_QUEUE_SLOTS ->
  (forall x, ~ owns w x) ->
  exists r w', daemon_setup o w = Ok (r, w')
    /\ match r with
       | None => forall x, ~ owns w' x
       | Some d => daemon_ok d /\ process d = zero_process /\ shutting_down (server d) = 0
                   /\ (forall x, owns (world d) x -> x = Mutex \/ x = Source)
                   /\ owns (world d) Mutex /\ source_held (sampler d) (world d) /\ prepared o d
       end.
Proof.
  intros Hhz Hslots Hw. unfold daemon_setup. pose proof (mutex_init_ok w) as Hm.
  destruct (pthread_mutex_init w) as [e w1]. destruct (Z.eqb_spec e 0) as [_|_]; cbn [negb].
  2: { do 2 eexists. split; [reflexivity|]. intros x Hx.
       destruct (set_errno_ok e w1) as [_ Hk]. apply (Hw x), Hm, Hk, Hx. }
  assert (Hw1 : forall x, owns w1 x <-> x = Mutex).
  { intros x. rewrite (Hm x). split; [intros [H|H]; [by apply Hw in H|done]|by right]. }
  set (named := if dop_fake o =? 0 then _ else _).
  assert (Hn : keeps (owns w1) (owns named.2)
    /\ (dop_fake o <> 0 \/ named.1 = Some (text_of (dop_process_name o)) \/ named.1 = None /\ dop_fake o = 0)).
  { unfold named. destruct (Z.eqb_spec (dop_fake o) 0) as [Ez|Ez]; [|by split; [|left]].
    pose proof (sys_strdup_ok w1) as Hk. destruct (sys_strdup w1) as [[|] w2];
      (split; [exact Hk|right]); [by left|by right]. }
  destruct named as [alloc w2]. cbn [fst snd] in Hn. destruct Hn as [Hk Hcase].
  assert (Hw2 : forall x, owns w2 x <-> x = Mutex) by (intros x; by rewrite (Hk x)).
  assert (Hno : ~ owns w2 Source) by (intros Ho; by apply Hw2 in Ho).
  destruct (decide (dop_fake o <> 0 \/ alloc <> None)) as [Hgood|Hbad].
  - destruct (daemon_init_ok (V := V) (dop_hz o) (dop_fake o) (dop_client_queue_slots o) alloc w2 Hhz Hslots Hgood)
      as (d & Hi & Hok).
    rewrite Hi, bind_ok. exists (Some d), (world d). split; [done|].
    destruct (daemon_init_details _ _ _ _ _ _ Hno Hi) as (D1 & (D2 & _) & D3 & D4 & D5 & D6 & D7 & D8).
    unfold prepared. split_and!; try done.
    + intros x Hx. destruct (decide (x = Source)) as [->|Hne]; [by right|left]. by apply Hw2, D2.
    + by apply D2, Hw2.
    + intros Ef. rewrite (D8 Ef). destruct Hcase as [?|[?|[? _]]]; [done|done|].
      destruct Hgood; congruence.
  - assert (dop_fake o = 0 /\ alloc = None) as [Ef ->].
    { destruct (decide (dop_fake o = 0)), alloc; try done; exfalso; apply Hbad; auto. }
    assert (Hi : daemon_init (V := V) (dop_hz o) (dop_fake o) (dop_client_queue_slots o) None w2 = Ok None)
      by (unfold daemon_init, sampler_init; by rewrite Ef).
    rewrite Hi, bind_ok.
    do 2 eexists. split; [reflexivity|]. intros x [Hx Hne]%mutex_destroy_ok. by apply Hw2 in Hx.
Qed.
End Life.
