(* ===== verification/DaemonArgs.v ===== *)
(** * The command line of the daemon: [main] of src/roadcastd.c

    What the words mean, said without the parser, and that the parser reads them
    so. *)

From Stdlib Require Import String.
From S2P Require Import Prelude Effect Text Options Wire CatalogDefs Catalog SourceSession Sampler.
From S2P Require Import ServerDefs ServerOps ServerQueue DaemonOps SetupDefs SetupOps.

Section Args.
Context `{HC : CatalogOk}.

(** The settings of a command line, with the words that write each of them. *)
Inductive setting :=
  | Fake
  | FakeDense
  | Hz (n : Z)
  | Socket (name : list Z)
  | Proc (name : list Z)
  | Slots (n : Z).

Definition setting_words (s : setting) (words : list (list Z)) : Prop :=
  match s with
  | Fake => words = [c_bytes "--fake"]
  | FakeDense => words = [c_bytes "--fake-dense"]
  | Hz n => exists v, numeral v n /\ 1 <= n <= 240 /\ words = [c_bytes "--hz"; v]
  | Socket name => words = [c_bytes "--socket"; name]
  | Proc name => words = [c_bytes "--proc"; name]
  | Slots n => exists v, numeral v n /\ 1 <= n <= CLIENT_QUEUE_SLOTS
                 /\ words = [c_bytes "--client-queue-slots"; v]
  end.

Definition with_setting (o : daemon_options_t) (s : setting) : daemon_options_t :=
  match s with
  | Fake => o <| dop_fake := 1 |>
  | FakeDense => o <| dop_fake := 2 |>
  | Hz n => o <| dop_hz := n |>
  | Socket name => o <| dop_socket_name := name |>
  | Proc name => o <| dop_process_name := name |>
  | Slots n => o <| dop_client_queue_slots := n |>
  end.

(** The words are settings, which make [o] of [o0]: a later one wins. *)
Inductive settings (o0 : daemon_options_t) : list (list Z) -> daemon_options_t -> Prop :=
  | settings_none : settings o0 [] o0
  | settings_more s words rest o :
      setting_words s words -> settings (with_setting o0 s) rest o -> settings o0 (words ++ rest) o.

(** The words are settings and then a request for the help. *)
Definition help_requested (o0 : daemon_options_t) (args : list (list Z)) : Prop :=
  exists words rest o, args = words ++ c_bytes "--help" :: rest /\ settings o0 words o.

(** ** The parser *)

(** Distinct words of the command line. *)
Ltac decide_words :=
  repeat first
    [ rewrite bool_decide_eq_true_2 by reflexivity
    | rewrite bool_decide_eq_false_2 by (intros E; vm_compute in E; congruence) ].

Lemma slots_small : CLIENT_QUEUE_SLOTS < LONG_MAX.
Proof. pose proof queue_slots_bound. unfold LONG_MAX. lia. Qed.

Lemma hz_numeral v n : parse_positive_int v 1 240 = Some n <-> numeral v n /\ 1 <= n <= 240.
Proof. by apply parse_positive_int_exact. Qed.

Lemma slots_numeral v n :
  parse_positive_int v 1 CLIENT_QUEUE_SLOTS = Some n <-> numeral v n /\ 1 <= n <= CLIENT_QUEUE_SLOTS.
Proof. apply parse_positive_int_exact; [done|apply slots_small]. Qed.

Lemma parse_setting s words rest o :
  setting_words s words -> daemon_options (words ++ rest) o = daemon_options rest (with_setting o s).
Proof.
  destruct s; cbn [setting_words with_setting].
  all: try (intros ->; cbn [app daemon_options]; by decide_words).
  - intros (v & H1 & H2 & ->). cbn [app daemon_options]. decide_words.
    by rewrite (proj2 (hz_numeral v n) (conj H1 H2)).
  - intros (v & H1 & H2 & ->). cbn [app daemon_options]. decide_words.
    by rewrite (proj2 (slots_numeral v n) (conj H1 H2)).
Qed.

Lemma parse_help rest o : daemon_options (c_bytes "--help" :: rest) o = inr 0.
Proof. cbn [daemon_options]. by decide_words. Qed.

(** What a command line starts with. *)
Lemma first_words args :
  args = []
  \/ (exists s words rest, setting_words s words /\ words <> [] /\ args = words ++ rest)
  \/ (exists rest, args = c_bytes "--help" :: rest)
  \/ forall o, daemon_options args o = inr 2.
Proof.
  destruct args as [|arg rest]; [by left|right].
  assert (Htext : forall option_ set_, (forall v, setting_words (set_ v) [option_; v]) ->
    arg = option_ ->
    (exists s words rest', setting_words s words /\ words <> [] /\ arg :: rest = words ++ rest')
    \/ rest = []).
  { intros option_ set_ Hset ->. destruct rest as [|v rest]; [by right|left].
    by exists (set_ v), [option_; v], rest. }
  assert (Hnum : forall max option_ set_,
    (forall v n, parse_positive_int v 1 max = Some n -> setting_words (set_ n) [option_; v]) ->
    arg = option_ ->
    (exists s words rest', setting_words s words /\ words <> [] /\ arg :: rest = words ++ rest')
    \/ rest = [] \/ exists v rest', rest = v :: rest' /\ parse_positive_int v 1 max = None).
  { intros max option_ set_ Hset ->. destruct rest as [|v rest]; [by right; left|].
    destruct (parse_positive_int v 1 max) as [n|] eqn:E; [left|by right; right; exists v, rest].
    by exists (set_ n), [option_; v], rest; split; [apply Hset|]. }
  destruct (decide (arg = c_bytes "--fake")) as [->|N1]; [left; by exists Fake, [c_bytes "--fake"], rest|].
  destruct (decide (arg = c_bytes "--fake-dense")) as [->|N2];
    [left; by exists FakeDense, [c_bytes "--fake-dense"], rest|].
  destruct (decide (arg = c_bytes "--hz")) as [E3|N3].
  { destruct (Hnum 240 _ Hz ltac:(intros v n [? ?]%hz_numeral; by exists v) E3) as [H|Hno]; [by left|right; right].
    intros o. subst arg. cbn [daemon_options]. decide_words. by destruct Hno as [->|(v & rest' & -> & ->)]. }
  destruct (decide (arg = c_bytes "--socket")) as [E4|N4].
  { destruct (Htext _ Socket ltac:(done) E4) as [H| ->]; [by left|right; right].
    intros o. subst arg. cbn [daemon_options]. by decide_words. }
  destruct (decide (arg = c_bytes "--proc")) as [E5|N5].
  { destruct (Htext _ Proc ltac:(done) E5) as [H| ->]; [by left|right; right].
    intros o. subst arg. cbn [daemon_options]. by decide_words. }
  destruct (decide (arg = c_bytes "--client-queue-slots")) as [E6|N6].
  { destruct (Hnum CLIENT_QUEUE_SLOTS _ Slots ltac:(intros v n [? ?]%slots_numeral; by exists v) E6)
      as [H|Hno]; [by left|right; right].
    intros o. subst arg. cbn [daemon_options]. decide_words. by destruct Hno as [->|(v & rest' & -> & ->)]. }
  destruct (decide (arg = c_bytes "--help")) as [->|N7]; [right; left; by exists rest|].
  right; right. intros o. cbn [daemon_options]. by rewrite !bool_decide_eq_false_2 by done.
Qed.

Lemma settings_parsed o0 args o : settings o0 args o -> daemon_options args o0 = inl o.
Proof. induction 1 as [o0|o0 s words rest o Hs _ IH]; [done|]. by rewrite (parse_setting _ _ _ _ Hs). Qed.

Lemma help_parsed o0 args : help_requested o0 args -> daemon_options args o0 = inr 0.
Proof.
  intros (words & rest & o & -> & Hs).
  induction Hs as [o0|o0 s ws rest' o Hs _ IH]; [apply parse_help|].
  by rewrite <- (assoc_L (++)), (parse_setting _ _ _ _ Hs).
Qed.

Lemma daemon_options_cases n : forall args o0, (length args <= n)%nat ->
  (exists o, settings o0 args o) \/ help_requested o0 args \/ daemon_options args o0 = inr 2.
Proof.
  induction n as [|n IH]; intros args o0 Hl;
    destruct (first_words args) as [->|[(s & words & rest & Hs & Hne & ->)|[[rest ->]|H2]]].
  all: try (left; exists o0; constructor).
  all: try (right; left; exists [], rest, o0; split; [done|constructor]).
  all: try (right; right; apply H2).
  all: rewrite length_app in Hl; destruct words as [|w ws]; [done|]; cbn [length] in Hl; try lia.
  destruct (IH rest (with_setting o0 s)) as [[o Ho]|[(words' & rest' & o & -> & Ho)|H2]]; [lia|..].
  - left. exists o. by econstructor.
  - right. left. exists ((w :: ws) ++ words'), rest', o. rewrite (assoc_L (++)). split; [done|].
    by econstructor.
  - right. right. by rewrite (parse_setting _ _ _ _ Hs).
Qed.

(** The parser returns what the settings make, 0 for the help and 2 for anything
    else. *)
Lemma daemon_options_exact args o0 :
  match daemon_options args o0 with
  | inl o => settings o0 args o
  | inr code =>
      (forall o, ~ settings o0 args o)
      /\ (code = 0 /\ help_requested o0 args \/ code = 2 /\ ~ help_requested o0 args)
  end.
Proof.
  destruct (daemon_options_cases (length args) args o0) as [[o Ho]|[Hh|H2]]; [done|..].
  - by rewrite (settings_parsed _ _ _ Ho).
  - rewrite (help_parsed _ _ Hh). split; [|by left]. intros o Ho%settings_parsed.
    by rewrite (help_parsed _ _ Hh) in Ho.
  - rewrite H2. split; [intros o Ho%settings_parsed; congruence|]. right. split; [done|].
    intros Hh%help_parsed. congruence.
Qed.

(** The options of the settings are in range when the first ones are. *)
Definition daemon_options_in_range (o : daemon_options_t) : Prop :=
  1 <= dop_hz o <= 240 /\ 1 <= dop_client_queue_slots o <= CLIENT_QUEUE_SLOTS
  /\ 0 <= dop_fake o <= 2.

Lemma settings_range o0 args o :
  settings o0 args o -> daemon_options_in_range o0 -> daemon_options_in_range o.
Proof.
  induction 1 as [o0|o0 s words rest o Hs _ IH]; [done|]. intros Ho. apply IH.
  unfold daemon_options_in_range in *. destruct s; cbn in *; try lia; destruct Hs as (v & _ & Hr & _); lia.
Qed.

Lemma default_daemon_options_ok : daemon_options_in_range default_daemon_options.
Proof.
  pose proof queue_slots_bound as [H _]. unfold daemon_options_in_range. cbn. unfold DEFAULT_HZ. lia.
Qed.
End Args.
