(* ===== verification/SetupHost.v ===== *)
(** * A concrete process for the daemon

    The event loop of [Host] with the things the process holds, the handles and the
    streams that are closing and [errno], and a source that can be opened and has
    nothing to say.  [uv_loop_init] can be made to fail.  It satisfies the contracts
    of [SetupDefs], so the theorems on [main] apply. *)

From Stdlib Require Import String.
From S2P Require Import Prelude Effect Text Options Wire CatalogDefs CatalogData Catalog SourceSession.
From S2P Require Import Sampler ServerDefs ServerOps ServerQueue ServerClient Replica ServerCatchup.
From S2P Require Import ServerInput Framing Host DaemonOps Distribute Broadcast Daemon Heartbeat Events.
From S2P Require Import DaemonTheorems Harmless SetupDefs SetupOps SourceHeld SetupStart.

Record machine := mk_machine {
  m_base : host_t;
  m_owned : list resource;
  m_closing : list server_handle;
  m_gone : list Z;
  m_errno : Z;
  m_loop_result : Z;
}.

#[export] Instance eta_machine : Eta machine := fun m =>
  mk_machine (m_base m) (m_owned m) (m_closing m) (m_gone m) (m_errno m) (m_loop_result m).

Definition on_base {A} (f : host_t -> A * host_t) (m : machine) : A * machine :=
  let '(a, h) := f (m_base m) in (a, m <| m_base := h |>).
Definition on_base_ (f : host_t -> host_t) (m : machine) : machine := m <| m_base := f (m_base m) |>.
Definition gain (x : resource) (m : machine) : machine := m <| m_owned := x :: m_owned m |>.
Definition lose (x : resource) (m : machine) : machine :=
  m <| m_owned := List.filter (fun y => negb (bool_decide (y = x))) (m_owned m) |>.
(** What the loop leaves. *)
Definition outlives (m : machine) (x : resource) : bool :=
  match x with
  | Handle _ | Stream _ => false
  | Address fd _ => bool_decide (Descriptor fd ∈ m_owned m)
  | _ => true
  end.
Definition not_of (fd : Z) (x : resource) : bool :=
  match x with Descriptor fd' | Address fd' _ => negb (fd' =? fd) | _ => true end.

#[export] Instance machine_clock : Clock machine := {|
  monotonic_ns := on_base monotonic_ns;
  sleep_until t m := m;
|}.

#[export] Instance machine_uv : Uv machine := {|
  uv_write c bytes := on_base (uv_write c bytes);
  uv_stream_get_write_queue_size _ _ := 0;
  uv_read_stop _ m := m;
  uv_close c m := m <| m_gone := c :: m_gone m |>;
  uv_pipe_init c m :=
    let '(r, m) := on_base (uv_pipe_init c) m in
    (r, if r <? 0 then m
        else gain (Stream c) (m <| m_gone := List.filter (fun c' => negb (c' =? c)) (m_gone m) |>));
  uv_accept c := on_base (uv_accept c);
  uv_read_start c := on_base (uv_read_start c);
  uv_fileno c := on_base (uv_fileno c);
  getsockopt_peercred fd := on_base (getsockopt_peercred fd);
  setsockopt_sndbuf _ _ m := m;
  calloc_stream := on_base calloc_stream;
  free_stream _ m := m;
  handle_is_closing h m := bool_decide (h ∈ m_closing m);
  handle_close h m := m <| m_closing := h :: m_closing m |>;
  handle_stop _ m := m;
  pthread_join := lose Thread;
|}.

#[export] Instance machine_process : Process machine := {|
  sys_errno := m_errno;
  set_errno e m := m <| m_errno := e |>;
  sys_socket m := (7, gain (Descriptor 7) m);
  sys_fcntl _ _ _ m := (0, m);
  sys_close fd m := m <| m_owned := List.filter (not_of fd) (m_owned m) |>;
  sys_unlink path := lose (Bound path);
  sys_bind fd path len m :=
    let m := gain (Address fd (take (Z.to_nat (len - SUN_PATH_OFFSET)) path)) m in
    (0, match bound_name path with Some name => gain (Bound name) m | None => m end);
  sys_listen _ _ m := (0, m);
  sys_strdup m := (true, m);
  sys_setpriority m := (0, m);
  pthread_mutex_init m := (0, gain Mutex m);
  pthread_mutex_destroy := lose Mutex;
  pthread_create m := (0, gain Thread m);
  uv_loop_init m := (m_loop_result m, if m_loop_result m <? 0 then m else gain Loop m);
  uv_loop_close m := if bool_decide (Loop ∈ m_owned m) then Ok (0, lose Loop m) else UB;
  uv_run m :=
    if bool_decide (Loop ∈ m_owned m)
    then Ok (m <| m_owned := List.filter (outlives m) (m_owned m) |>)
    else UB;
  uv_pipe_open fd m := (0, lose (Descriptor fd) m);
  handle_init h m := (0, gain (Handle h) m);
  handle_start _ _ m := (0, m);
|}.

(** The state says whether the source is open. *)
#[export] Instance machine_vhal : VhalSource bool machine := {|
  vhal_zero := false;
  roadcast_vhal_open _ _ m := (0, true, gain Source m);
  roadcast_vhal_read v _ m := (0, v, mark_unavailable [], m);
  roadcast_vhal_close v m := (false, if v then lose Source m else m);
|}.

(** ** The contracts *)

Lemma gain_gains x m : gains (fun y => In y (m_owned m)) (fun y => In y (m_owned (gain x m))) x.
Proof. intros y. cbn. split; [intros [<-|H]; auto|intros [H| ->]; auto]. Qed.

Lemma lose_loses x m : loses (fun y => In y (m_owned m)) (fun y => In y (m_owned (lose x m))) x.
Proof.
  intros y. cbn. rewrite filter_In. split; intros [H1 H2]; (split; [done|]).
  - intros ->. by rewrite bool_decide_eq_true_2 in H2.
  - by rewrite bool_decide_eq_false_2.
Qed.

#[export] Program Instance machine_uv_ok : UvOk machine_uv machine_clock := {|
  sent m c := host_sent (m_base m) c;
  failures _ _ := 0%nat;
|}.
Next Obligation. intros c bytes m H. exact (sent_write_ok c bytes (m_base m) H). Qed.
Next Obligation. intros c bytes m H. exact (sent_write_err c bytes (m_base m) H). Qed.
Next Obligation. intros c c' bytes m Hc. exact (sent_write_other c c' bytes (m_base m) Hc). Qed.
Next Obligation. intros c bytes m _. reflexivity. Qed.
Next Obligation. intros c bytes m H. exfalso. destruct m as [[]]. cbn in H. lia. Qed.
Solve All Obligations with (intros; try reflexivity).
Next Obligation. intros c m. cbn. lia. Qed.
Next Obligation.
  split. intros m. cbn [monotonic_ns machine_clock]. unfold on_base.
  pose proof (clock_range (m_base m)) as H. by destruct (monotonic_ns (m_base m)).
Qed.

#[export, program] Instance machine_vhal_ok : VhalSourceOk machine_vhal := {
  vhal_ok := fun _ => True;
}.
Next Obligation. done. Qed.
Next Obligation. intros v p w _. cbn. lia. Qed.
Next Obligation. intros v fs w _ _. split; [lia|]. split; [done|]. apply unavailable_frames. Qed.
Next Obligation. done. Qed.

#[export] Instance machine_apart : Apart machine_vhal machine_uv_ok.
Proof. constructor; try done. intros c v m. by destruct v. Qed.

Lemma not_of_iff fd x :
  not_of fd x = true <-> x <> Descriptor fd /\ forall path, x <> Address fd path.
Proof.
  split.
  - intros E. split; [intros ->|intros path ->]; cbn in E; by rewrite Z.eqb_refl in E.
  - intros [H1 H2]. destruct x as [fd'|fd' path| | | | | | |]; try done; cbn;
      destruct (Z.eqb_spec fd' fd) as [->|]; try done; by destruct (H2 path).
Qed.

Lemma outlives_iff m x :
  outlives m x = true <-> outlives_loop (fun y => In y (m_owned m)) x.
Proof. destruct x; try done. cbn. by rewrite bool_decide_eq_true, list_elem_of_In. Qed.

#[export] Program Instance machine_process_ok : ProcessOk machine_process machine_uv := {|
  owns m x := In x (m_owned m);
  stream_closing m c := In c (m_gone m);
|}.
Solve All Obligations with
  (intros; cbn;
   try (by repeat first [exact (gain_gains _ _)|exact (lose_loses _ _)|split|intros ?])).
Next Obligation.
  intros fd m. cbn. split; [done|]. intros x. by rewrite filter_In, not_of_iff.
Qed.
Next Obligation.
  intros fd path len m. cbn. intros x. unfold bound_by. destruct (bound_name path) as [n|]; cbn.
  - split; [intros [<-|[<-|H]]; [right; right; by exists n|right; by left|by left]|].
    intros [H|[->|(n' & [= <-] & ->)]]; auto.
  - split; [intros [<-|H]; [right; by left|by left]|]. intros [H|[->|(n & ? & _)]]; [auto..|done].
Qed.
Next Obligation. intros m. cbn. destruct (m_loop_result m <? 0); [done|apply gain_gains]. Qed.
Next Obligation.
  intros m Hm. cbn in *. rewrite bool_decide_eq_true_2 by by apply list_elem_of_In.
  do 2 eexists. split; [done|]. apply lose_loses.
Qed.
Next Obligation.
  intros m Hm _ _. cbn in *. rewrite bool_decide_eq_true_2 by by apply list_elem_of_In.
  eexists. split; [done|]. intros x. cbn. by rewrite filter_In, outlives_iff.
Qed.
Next Obligation.
  intros h m. cbn. split; [done|]. split; [|done]. intros h'. by rewrite !bool_decide_eq_true, elem_of_cons.
Qed.

#[export] Instance machine_undisturbed_preorder : PreOrder (undisturbed (W := machine)).
Proof.
  split; [done|]. intros m1 m2 m3 [H1 H2] [H3 H4]. split.
  - intros x Hx. by rewrite (H3 x Hx), (H1 x Hx).
  - intros h. by rewrite H4, H2.
Qed.

#[export] Instance machine_tended_preorder : PreOrder (tended (W := machine)).
Proof.
  split; [done|]. intros m1 m2 m3 H1 H2 c. destruct (H1 c), (H2 c). auto.
Qed.

Lemma machine_init c m :
  uv_pipe_init c m = (0, gain (Stream c) (m <| m_gone := List.filter (fun c' => negb (c' =? c)) (m_gone m) |>)).
Proof. by destruct m. Qed.

#[export] Instance machine_streams : StreamsOk (W := machine) machine_clock.
Proof.
  split.
  - split; [apply _|done|..]; intros; by repeat split.
  - split; [apply _|intros m m' c Hm; apply Hm|..]; intros; try (by repeat split).
    split; [|by left]. intros c'. split; [done|]. by right.
  - intros c m. rewrite machine_init. split; [|done]. intros x Hx. cbn.
    split; [intros [<-|H]; [by destruct (Hx c)|done]|by right].
  - intros c m. rewrite machine_init. cbn [Z.ltb Z.compare]. split; [by left|].
    intros c' Hc. cbn. split; [by intros [[= ->]|H]|]. intros H. apply filter_In.
    split; [done|]. by rewrite (proj2 (Z.eqb_neq c' c)).
Qed.

Lemma gain_untouched m : untouched m (gain Source m).
Proof. split_and!; try done. intros x Hx. cbn. split; [by intros [<-|H]|by right]. Qed.

Lemma lose_untouched m : untouched m (lose Source m).
Proof.
  split_and!; try done. intros x Hx. rewrite (lose_loses Source m x). tauto.
Qed.

#[export, program] Instance machine_source : SourceOk (W := machine) machine_vhal machine_clock := {
  source_open v := v = true;
}.
Next Obligation.
  split; intros.
  - split; [done|]. intros m1 m2 m3 (H1 & H2 & H3) (H4 & H5 & H6). split_and!.
    + intros x Hx. by rewrite (H4 x Hx), (H1 x Hx).
    + intros h. by rewrite H5, H2.
    + intros c. by rewrite (H6 c), (H3 c).
  - by split.
  - by split.
  - apply gain_untouched.
  - by split.
  - cbn. destruct v; [apply lose_untouched|by split].
Qed.
Next Obligation. done. Qed.
Next Obligation. intros v p w Hw. cbn. split; [by left|done]. Qed.
Next Obligation. done. Qed.
Next Obligation.
  intros v w Hw. cbn. destruct v.
  - intros H. by apply (lose_loses Source w) in H as [].
  - intros H. by apply Hw in H.
Qed.
