(* ===== verification/SetupTheorems.v ===== *)
(** * The start and the end of the daemon's process: theorems

    The claims on [main] of src/roadcastd.c and the functions around it: what the
    options can be, that a start either leaves a daemon that is up or leaves
    nothing behind, and that the end releases what the start acquired, with a
    concrete process for each. *)

From Stdlib Require Import String.
From S2P Require Import Prelude Effect Text Options Wire CatalogDefs CatalogData Catalog SourceSession.
From S2P Require Import Sampler ServerDefs ServerOps ServerQueue ServerClient Replica ServerCatchup.
From S2P Require Import ServerInput Framing Host DaemonOps Distribute Broadcast Daemon Heartbeat Events.
From S2P Require Import ClientConnect DaemonTheorems Harmless SetupDefs SetupOps SourceHeld Streams.
From S2P Require Import SetupStart Lifecycle DaemonArgs SetupHost.

(** ** [main] *)

Section Main.
Context `{HC : CatalogOk} {V W : Type} `{K : !Clock W} `{U : !Uv W} `{HU : !UvOk U K}
  `{S : !VhalSource V W} `{HS : !VhalSourceOk S} `{HA : !Apart S HU} `{P : !Process W}
  `{HP : !ProcessOk P U} `{HK : !StreamsOk K} `{HF : !SourceOk S K}.
Implicit Types (d : daemon V W) (w : W).

(** The daemon is up: well formed, with the options it was given, every handle
    initialized, the thread running, and a socket bound to its address, in the file
    system too if the address is a name there. *)
Definition up (o : daemon_options_t) d : Prop :=
  daemon_ok d /\ holding d /\ prepared o d
  /\ Forall (fun h => flag h (process d) = 1) all_handles
  /\ (forall h, owns (world d) (Handle h))
  /\ thread_started (process d) = 1 /\ owns (world d) Thread
  /\ (exists fd, owns (world d) (Address fd (address_path (dop_socket_name o))))
  /\ (forall n, bound_name (address_path (dop_socket_name o)) = Some n -> owns (world d) (Bound n)).

(** The loop of libuv could not be initialized. *)
Definition loop_refused (args : list (list Z)) w : Prop :=
  exists o d w1, settings default_daemon_options args o
    /\ daemon_setup o w = Ok (Some d, w1) /\ (uv_loop_init (world d)).1 < 0.

(** The start ends with what is said about it, or in the case [loop_refused]. *)
Definition start_outcome (args : list (list Z)) w (r : res (outcome V W)) : Prop :=
  match r with
  | Ok (Exited code w') =>
      (code = 0 /\ w' = w /\ help_requested default_daemon_options args)
      \/ (code = 2 /\ w' = w /\ (forall o, ~ settings default_daemon_options args o)
          /\ ~ help_requested default_daemon_options args)
      \/ (code = 1 /\ (exists o, settings default_daemon_options args o)
          /\ (loop_refused args w \/ forall x, owns w' x -> x = Loop))
  | Ok (Running d) => exists o, settings default_daemon_options args o /\ up o d
  | _ => loop_refused args w
  end.

Lemma abandoned d0 d b :
  during d0 d None b -> daemon_ok d0 -> shutting_down (server d0) = 0 ->
  exists r w', tear_down d = Ok (r, w') /\ forall x, owns w' x -> x = Loop.
Proof.
  intros Hd Hok Hz.
  destruct (tear_down_holding d (during_daemon_ok _ _ _ _ Hd Hok) (during_holding _ _ _ Hd Hz))
    as (r & w' & Hrun & Hx). exists r, w'. split; [exact Hrun|]. intros x H. by apply Hx.
Qed.

(** The thread is started last. *)
Lemma thread_start_ok o d0 d :
  during d0 d None (Some (address_path (dop_socket_name o))) ->
  Forall (fun h => flag h (process d) = 1) all_handles ->
  daemon_ok d0 -> shutting_down (server d0) = 0 -> prepared o d0 ->
  owp sampler_start (fun r d' => if r <? 0 then during d0 d' None (Some (address_path (dop_socket_name o)))
                                 else up o d') d.
Proof.
  intros Hd Hall Hok Hz Hpre. unfold sampler_start. apply owp_bind, owp_dsys. cbv beta.
  pose proof (thread_create_ok (world d)) as Ht. destruct (pthread_create (world d)) as [e w].
  cbn [fst snd] in *. destruct (Z.eqb_spec e 0) as [_|_]; cbn [negb].
  2: { apply owp_bind, owp_dsys_, owp_ret. cbn [Z.ltb Z.compare].
       eapply during_keeps; [by eapply during_keeps|]. by destruct (set_errno_ok e w). }
  apply owp_bind, owp_dprocess, owp_bind, owp_dsys. cbv beta. cbn [world set].
  pose proof (harmless_clock (R := undisturbed) (D := fun _ _ => True) w) as [Hk _].
  pose proof (harmless_clock (R := tended) (D := stream_closing) w) as Hst.
  destruct (monotonic_ns w) as [now w']. cbn [fst snd] in *. apply owp_bind, owp_ret.
  cbn [Z.ltb Z.compare].
  destruct Hd as [E H2 [H3 H4] H5 Hso H6 H7 H8 H9].
  assert (Hno : forall c, ~ owns w' (Stream c)).
  { intros c Hc. apply (Hst c), Ht in Hc as [Hc|]; [|done]. by apply H5 in Hc. }
  assert (Hown : forall x, owns w' x <-> owns (world d) x \/ x = Thread).
  { intros x. rewrite <- (Ht x). destruct x; try by apply Hk. split; [intros Hc; by apply Hno in Hc|].
    intros [Hc|]%Ht; [|done]. by apply H5 in Hc. }
  assert (Es : server d = server d0) by (by rewrite E).
  assert (Em : sampler d = sampler d0) by (by rewrite E).
  destruct (H9 _ eq_refl) as [[fd Hfd] Hn].
  unfold up, prepared. split; [|split].
  - rewrite E. destruct Hok. by split.
  - split; cbn; try done.
    + intros x [Hx| ->]%Hown; [|done]. specialize (H5 x Hx). by destruct x.
    + apply Hown. by left.
    + eapply source_held_less; [|exact Hso]. by intros [|]%Hown.
    + intros c Hc. by apply Hno in Hc.
    + by rewrite Es, Hz.
  - cbn. rewrite Es, Em. split_and!; try apply Hpre; try done.
    + intros h. apply Hown. left. apply H8.
      assert (Hin : In h all_handles) by (destruct h; cbn; tauto).
      rewrite List.Forall_forall in Hall. specialize (Hall h Hin). cbv beta in Hall. lia.
    + apply Hown. by right.
    + exists fd. apply Hown. by left.
    + intros n Hbn. apply Hown. left. by apply Hn.
Qed.

Lemma up_setpriority o d : up o d -> up o (d <| world := (sys_setpriority (world d)).2 |>).
Proof.
  intros (H1 & [P1 P2 P3 P4 P5 P6] & H3 & H4 & H5 & H6 & H7 & [fd H8] & H9).
  destruct (sys_setpriority_ok (world d)) as (Hk & Hc & Hs). split; [destruct H1; by split|split].
  - split; cbn; try done.
    + intros x Hx. specialize (P2 x). destruct x; try done; by apply P2, Hk.
    + by apply Hk.
    + eapply source_held_less; [|exact P4]. apply Hk.
    + apply (attended_world d); [done| |done]. intros c. split; [apply Hk|apply Hs].
    + intros Hd. destruct (P6 Hd) as [Q1 Q2]. split; [done|]. intros h Hh. rewrite Hc. by apply Q2, Hk.
  - cbn. split_and!; try done.
    + intros h. by apply Hk.
    + by apply Hk.
    + exists fd. by apply Hk.
    + intros n Hn. by apply Hk, H9.
Qed.

Lemma main_outcome args w :
  (forall x, ~ owns w x) -> start_outcome args w (daemon_main args w).
Proof.
  intros Hw. unfold daemon_main. pose proof (daemon_options_exact args default_daemon_options) as Hs.
  destruct (daemon_options args default_daemon_options) as [o|code] eqn:Eo.
  2: { cbn. tauto. }
  destruct (settings_range _ _ _ Hs default_daemon_options_ok) as (Hhz & Hslots & _).
  destruct (daemon_setup_run o w Hhz Hslots Hw) as (r & w1 & Hset & Hd). rewrite Hset, bind_ok.
  assert (Hone : forall w', loop_refused args w \/ (forall x, owns w' x -> x = Loop) ->
    start_outcome args w (Ok (Exited 1 w'))) by (intros w' H; right; right; eauto).
  destruct r as [d|].
  2: { apply Hone. right. intros x Hx. by apply Hd in Hx. }
  destruct Hd as (Hok & Hp & Hz & Hown & Hm & Hso & Hpre).
  assert (Hrun : owp (initialize_libuv (dop_socket_name o)) (fun r d' =>
    (r < 0 /\ (uv_loop_init (world d)).1 < 0) \/ (r < 0 /\ during d d' None None)
    \/ (r = 0 /\ during d d' None (Some (address_path (dop_socket_name o)))
        /\ Forall (fun h => flag h (process d') = 1) all_handles)) d).
  { apply initialize_libuv_wp; auto 10. }
  destruct (owp_run _ _ _ Hrun) as (r & d1 & -> & Hcase). rewrite bind_ok.
  destruct Hcase as [[Hr Hl]|[[Hr Hd1]|(-> & Hd1 & Hall)]].
  - rewrite (proj2 (Z.ltb_lt r 0) Hr).
    assert (Href : loop_refused args w) by (by exists o, d, w1).
    destruct (tear_down d1) as [[r2 w2]| |]; [|exact Href..]. apply Hone. by left.
  - rewrite (proj2 (Z.ltb_lt r 0) Hr). destruct (abandoned d d1 _ Hd1 Hok Hz) as (r2 & w2 & -> & Hx).
    apply Hone. by right.
  - cbn [Z.ltb Z.compare].
    destruct (owp_run _ _ _ (thread_start_ok o d d1 Hd1 Hall Hok Hz Hpre)) as (r & d2 & -> & H2).
    rewrite bind_ok. destruct (r <? 0).
    + destruct (abandoned d d2 _ H2 Hok Hz) as (r2 & w2 & -> & Hx). apply Hone. by right.
    + destruct (_ =? 0); exists o; (split; [exact Hs|]); [by apply up_setpriority|exact H2].
Qed.

(** C14: the start of the daemon from a process that holds nothing.  A command
    line that asks for the help after valid settings exits with 0, and one that is
    neither settings nor that exits with 2, both before anything is acquired.
    Settings are the words of [settings]: --fake, --fake-dense, --hz with a numeral
    from 1 to 240, --socket, --proc, --client-queue-slots with a numeral from 1 to
    the capacity, the last of a kind wins.  With settings, every failure exits with
    1 and leaves at most the event loop that libuv refused to close: no descriptor,
    no bound name or address, no source, no stream or handle, no thread, no lock.
    Otherwise the daemon is up: well formed, with the rate, the queue slots and the
    kind of source of the settings and, for the real source, their process name;
    every handle of libuv is initialized, the sampling thread runs, and a socket is
    bound to the address that the settings' socket name writes (the one a client
    connects to), in the file system too if it is a name there.  The one exception
    is an event loop that cannot be initialized. *)
Theorem daemon_starts args w :
  (forall x, ~ owns w x) -> start_outcome args w (daemon_main args w).
Proof. apply main_outcome. Qed.

(** C7: the whole life of the process.  Once the daemon is up, whatever events
    arrive in whatever order, it stays well formed, and whenever the event loop is
    left [main] runs to its end: it stops the thread, closes every client's stream,
    every handle and the source, unlinks the socket and destroys the lock.  The run
    of the loop that waits for the closes returns because every handle and every
    stream on it is closing.  Exit code 0 leaves nothing of what the process holds
    (descriptors, addresses, bound names, the loop, its handles and streams, the
    source, the thread, the lock), exit code 1 the event loop that libuv refused to
    close and nothing else. *)
Theorem daemon_ends args w d es d' :
  (forall x, ~ owns w x) -> daemon_main args w = Ok (Running d) -> steps d es d' ->
  daemon_ok d'
  /\ exists code w', daemon_exit d' = Ok (code, w')
     /\ (code = 0 /\ (forall x, ~ owns w' x) \/ code = 1 /\ forall x, owns w' x -> x = Loop).
Proof.
  intros Hw Hrun Hs. pose proof (main_outcome args w Hw) as Hout. rewrite Hrun in Hout.
  destruct Hout as (o & _ & Hok & Hho & _).
  pose proof (steps_ok es d d' Hs Hok) as Hok'. split; [exact Hok'|].
  destruct (tear_down_holding d' Hok' (steps_holding es d d' Hs Hok Hho)) as (r & w' & Htear & Hx).
  unfold daemon_exit. rewrite Htear, bind_ok. do 2 eexists. split; [reflexivity|].
  destruct (Z.ltb_spec r 0) as [Hr|Hr]; [right|left]; (split; [done|]); intros x Hown.
  - by apply Hx.
  - destruct (Hx x Hown). lia.
Qed.
End Main.

(** ** Instances on the concrete process *)

Definition fresh_machine (loop_result : Z) : machine :=
  mk_machine (mk_host 0 [] []) [] [] [] 0 loop_result.

Definition demo_args : list (list Z) :=
  [c_bytes "--fake"; c_bytes "--hz"; c_bytes "20"; c_bytes "--socket"; c_bytes "/run/roadcast"].

(** With the source of a process. *)
Definition source_args : list (list Z) := [c_bytes "--proc"; c_bytes "vehicle"; c_bytes "--hz"; c_bytes "20"].

#[local] Abbreviation started := (daemon_main (V := bool) demo_args (fresh_machine 0)).
#[local] Abbreviation connected_start := (daemon_main (V := bool) source_args (fresh_machine 0)).

(** The daemon with these options, running. *)
Definition demo_started : option (daemon bool machine) :=
  match started with Ok (Running d) => Some d | _ => None end.

Definition is_source (x : resource) : bool := match x with Source => true | _ => false end.

Lemma started_running : exists d, connected_start = Ok (Running d) /\ In Source (m_owned (world d)).
Proof.
  assert (H : match connected_start with
              | Ok (Running d) => existsb is_source (m_owned (world d))
              | _ => false
              end = true) by (vm_compute; reflexivity).
  destruct connected_start as [[|d]| |]; [discriminate| |discriminate..]. exists d.
  split; [reflexivity|]. apply existsb_exists in H as (x & Hx & Hs). by destruct x.
Qed.

Lemma daemon_starts_witness :
  start_outcome demo_args (fresh_machine 0) started
  /\ match demo_started with
     | Some d => hz (server d) = 20 /\ In (Bound (c_bytes "/run/roadcast")) (m_owned (world d))
                 /\ In (Address 7 (address_path (c_bytes "/run/roadcast"))) (m_owned (world d))
     | None => False
     end.
Proof.
  split; [apply (daemon_starts demo_args (fresh_machine 0)); intros x [] |].
  vm_compute. auto 20.
Defined.

(** The source is open; a connection, a notification, the signal, and the end. *)
Lemma daemon_ends_witness :
  exists d d', connected_start = Ok (Running d) /\ owns (world d) Source
    /\ steps d [Connection 0; SampleNotification; Signal] d'
    /\ exists code w', daemon_exit d' = Ok (code, w')
       /\ (code = 0 /\ (forall x, ~ owns w' x) \/ code = 1 /\ forall x, owns w' x -> x = Loop).
Proof.
  assert (Hfresh : forall x, ~ owns (fresh_machine 0) x) by (intros x []).
  destruct started_running as (d & Hd & Hsource).
  pose proof (fun es d2 Hs => daemon_ends source_args (fresh_machine 0) d es d2 Hfresh Hd Hs) as Hend.
  assert (Hok : daemon_ok d) by exact (proj1 (Hend [] d (steps_nil d))).
  destruct (event_run (Connection 0) d Hok) as (d0 & H0 & Hok0 & _); [exact I|].
  destruct (event_run SampleNotification d0 Hok0) as (d1 & H1 & Hok1 & _); [exact I|].
  destruct (event_run Signal d1 Hok1) as (d2 & H2 & _); [exact I|].
  assert (Hs : steps d [Connection 0; SampleNotification; Signal] d2).
  { apply steps_cons with d0; [exact I|exact H0|]. apply steps_cons with d1; [exact I|exact H1|].
    apply steps_cons with d2; [exact I|exact H2|]. constructor. }
  exists d, d2. split; [exact Hd|]. split; [exact Hsource|]. split; [exact Hs|]. exact (proj2 (Hend _ d2 Hs)).
Defined.

(** A loop that cannot be initialized is run and closed all the same. *)
Example unusable_loop : daemon_main demo_args (fresh_machine (-12)) = UB (A := outcome bool machine).
Proof. vm_compute. reflexivity. Qed.
