(* ===== verification/CtlDefs.v ===== *)
(** * The command line tool's state: src/roadcastctl.c, structures and output

    The catalog the tool downloads, the options, the lines it prints and the
    world it runs in: the socket of [ClientDefs] and the output so far.  A line
    is recorded with the values it shows; the conversions of [printf] to text are
    not modelled. *)

From Stdlib Require Import String.
From S2P Require Import Prelude Effect Text Wire CatalogDefs SourceSession ClientDefs.

Definition DEFAULT_SOCKET : list Z := c_bytes "@roadcast".
Definition DEFAULT_SECONDS : Z := 10.
Definition READ_TIMEOUT_MS : Z := 3000.
Definition SCHEMA_CHUNK_ENTRY_CAP : Z := 64.
Definition SIGNAL_CHUNK_UPDATE_CAP : Z := 128.

(** [client_catalog_t]; the arrays have [ct_signal_count] elements, [ct_filter]
    is [None] for a null pointer. *)
Record client_catalog_t := mk_catalog {
  ct_schema : list roadcast_schema_entry_t;
  ct_signals : list roadcast_signal_value_t;
  ct_matches : list Z;
  ct_signal_count : Z;
  ct_filter : option (list Z);
}.

#[export] Instance eta_catalog : Eta client_catalog_t := fun c =>
  mk_catalog (ct_schema c) (ct_signals c) (ct_matches c) (ct_signal_count c) (ct_filter c).

(** The local variables of [main] that the options set. *)
Record ctl_options_t := mk_ctl_options {
  op_socket_name : list Z;
  op_signal_filter : option (list Z);
  op_seconds : Z;
  op_stall_seconds : Z;
  op_pause_seconds : Z;
  op_subscribe_delay_seconds : Z;
}.

#[export] Instance eta_ctl_options : Eta ctl_options_t := fun o =>
  mk_ctl_options (op_socket_name o) (op_signal_filter o) (op_seconds o) (op_stall_seconds o)
    (op_pause_seconds o) (op_subscribe_delay_seconds o).

(** The local variables of the loop of [main]. *)
Record stream_t := mk_stream {
  ts_catalog : client_catalog_t;
  ts_sample_sequence : Z;
  ts_change_sequence : Z;
  ts_report_started : Z;
  ts_frame_batches : Z;
  ts_signal_batches : Z;
  ts_changed_frames : Z;
  ts_changed_signals : Z;
  ts_sequence_gaps : Z;
  ts_resyncs : Z;
  ts_last_sample_sequence : Z;
  ts_last_change_sequence : Z;
}.

#[export] Instance eta_stream : Eta stream_t := fun s =>
  mk_stream (ts_catalog s) (ts_sample_sequence s) (ts_change_sequence s) (ts_report_started s)
    (ts_frame_batches s) (ts_signal_batches s) (ts_changed_frames s) (ts_changed_signals s)
    (ts_sequence_gaps s) (ts_resyncs s) (ts_last_sample_sequence s) (ts_last_change_sequence s).

(** A line of output.  [Diagnostic] is the fixed part of a message on the error
    output; [Stream_line] has the time since the last report in nanoseconds and
    the counts that are divided by it. *)
Inductive line :=
  | Usage
  | Diagnostic (text : string)
  | Welcome_line (hz frame_count signal_count max_request max_response capabilities : Z)
  | Schema_entry_line (entry : roadcast_schema_entry_t)
  | Schema_line (schema_version signal_count schema_hash : Z)
  | Snapshot_line (frame_count signal_count sample_sequence change_sequence : Z)
  | Signal_line (prefix : string) (index : Z) (entry : roadcast_schema_entry_t)
      (value : roadcast_signal_value_t)
  | Stalling_line (seconds : Z)
  | Pausing_line (seconds : Z)
  | Stream_line (elapsed_ns frame_batches signal_batches changed_frames changed_signals
      sample_sequence gaps resyncs : Z)
  | Summary_line (gaps resyncs : Z).

(** [sleep]. *)
Class Sleep (W : Type) := sleep_seconds : Z -> W -> W.

(** The world of the tool: what it has printed, and the rest. *)
Record tty (W : Type) := mk_tty {
  tty_lines : list line;
  tty_world : W;
}.
Arguments mk_tty {W}.
Arguments tty_lines {W}.
Arguments tty_world {W}.

Section Tty.
Context {W : Type}.

Definition tsys {A} (f : W -> A * W) : OM (tty W) A := fun s =>
  let '(a, w) := f (tty_world s) in Ok (a, mk_tty (tty_lines s) w).
Definition tsys_ (f : W -> W) : OM (tty W) unit := fun s =>
  Ok (tt, mk_tty (tty_lines s) (f (tty_world s))).
Definition print_line (l : line) : OM (tty W) unit := fun s =>
  Ok (tt, mk_tty (tty_lines s ++ [l]) (tty_world s)).
End Tty.
