(* ===== verification/CtlOps.v ===== *)
(** * The command line tool: src/roadcastctl.c

    Sockets, messages, the schema and snapshot downloads, the subscription, the
    options and the loop of [main], in the order of the source.  Functions of the
    same name as in src/client.c have the prefix [ctl_].  A C [int] result is the
    value of the function, or [None] for -1 where there is more to return.  A
    payload is returned as the bytes of the message in the buffer.  [fuel] bounds
    each loop that only the peer or the kernel can end. *)

From Stdlib Require Import String.
From S2P Require Import Prelude Effect Text Options Wire CatalogDefs Catalog SourceSession Sampler.
From S2P Require Import ClientDefs ClientOps CtlDefs.

(** The path and the length of the address, as in src/client.c. *)
Definition ctl_fill_unix_address (name : list Z) : res (list Z * Z) :=
  let path := repeat 0 (Z.to_nat SUN_PATH_SIZE) in
  let length_ := zlen name in
  reject_if ((length_ =? 0) || (SUN_PATH_SIZE <=? length_));;
  first ← rd name 0;
  if first =? 64 then
    path ← wr path 0 0;
    rest ← slice name 1 (length_ - 1);
    path ← blit path 1 rest;
    mret (path, SUN_PATH_OFFSET + length_)
  else
    path ← blit path 0 (name ++ [0]);
    mret (path, SUN_PATH_OFFSET + length_ + 1).

(** Whether a string of the catalog contains the filter. *)
Definition matches_filter (filter : option (list Z)) (name : list Z) : bool :=
  match filter with Some f => strstr (c_string name) f | None => false end.

(** The elements that [calloc] leaves. *)
Definition zero_schema_entry : roadcast_schema_entry_t := mk_entry 0 0 0 0 0 0 0 0 0 0 [] [].
Definition zero_signal_value : roadcast_signal_value_t := mk_value 0 0 0 0 0 0.

Definition observe_change_sequence (sequence_ last_sequence gap_count : Z) : Z * Z :=
  if sequence_ =? last_sequence then (last_sequence, gap_count)
  else
    let gap_count :=
      if negb (last_sequence =? 0) && negb (sequence_ =? u64 (last_sequence + 1))
      then u64 (gap_count + 1) else gap_count in
    (sequence_, gap_count).

(** ** Options: the values, or the exit code; every exit prints the usage *)

Definition default_options : ctl_options_t :=
  mk_ctl_options DEFAULT_SOCKET None DEFAULT_SECONDS 0 0 0.

Fixpoint parse_options (args : list (list Z)) (o : ctl_options_t) : ctl_options_t + Z :=
  match args with
  | [] => inl o
  | arg :: rest =>
      let number set_ rest :=
        match rest with
        | value :: rest =>
            match parse_positive_int value 1 3600 with
            | Some n => parse_options rest (set_ n)
            | None => inr 2
            end
        | [] => inr 2
        end in
      if bool_decide (arg = c_bytes "--socket") then
        match rest with
        | value :: rest => parse_options rest (o <| op_socket_name := value |>)
        | [] => inr 2
        end
      else if bool_decide (arg = c_bytes "--seconds") then
        number (fun n => o <| op_seconds := n |>) rest
      else if bool_decide (arg = c_bytes "--signal") then
        match rest with
        | value :: rest => parse_options rest (o <| op_signal_filter := Some value |>)
        | [] => inr 2
        end
      else if bool_decide (arg = c_bytes "--stall-after-subscribe") then
        number (fun n => o <| op_stall_seconds := n |>) rest
      else if bool_decide (arg = c_bytes "--pause-after-subscribe") then
        number (fun n => o <| op_pause_seconds := n |>) rest
      else if bool_decide (arg = c_bytes "--delay-before-subscribe") then
        number (fun n => o <| op_subscribe_delay_seconds := n |>) rest
      else if bool_decide (arg = c_bytes "--help") then inr 0
      else inr 2
  end.

Definition ctl_options (args : list (list Z)) : ctl_options_t + Z :=
  match parse_options args default_options with
  | inl o =>
      if negb (op_stall_seconds o =? 0) && negb (op_pause_seconds o =? 0) then inr 2 else inl o
  | inr code => inr code
  end.

Section Ctl.
Context `{Catalog} {W : Type} `{K : !Clock W} `{N : !Socket W} `{SL : !Sleep W} (fuel : nat).

(** ** Sockets *)

Definition ctl_connect_socket (socket_name : list Z) : OM (tty W) Z :=
  fd ← tsys sock_socket;
  if fd <? 0 then mret (-1)
  else
    address ← odec (ctl_fill_unix_address socket_name);
    match address with
    | None => tsys_ (sock_close fd);; mret (-1)
    | Some (path, length_) =>
        rc ← tsys (sock_connect fd path length_);
        match rc with
        | Done _ => mret fd
        | _ => tsys_ (sock_close fd);; mret (-1)
        end
    end.

Fixpoint ctl_write_loop (n : nat) (fd : Z) (data : list Z) : OM (tty W) Z :=
  if zlen data =? 0 then mret 0
  else
    match n with
    | O => out_of_fuel
    | S n =>
        written ← tsys (sock_send fd data);
        match written with
        | Done count =>
            if 0 <? count then ctl_write_loop n fd (drop (Z.to_nat count) data) else mret (-1)
        | Interrupted => ctl_write_loop n fd data
        | WouldBlock | Broken => mret (-1)
        end
    end.

Definition ctl_write_all (fd : Z) (data : list Z) : OM (tty W) Z := ctl_write_loop fuel fd data.

Definition ctl_send_message (fd type_ : Z) (payload : list Z) (payload_length : Z) : OM (tty W) Z :=
  if ROADCAST_MAX_PAYLOAD <? payload_length then mret (-1)
  else
    now ← tsys monotonic_ns;
    header_bytes ← omem (roadcast_encode_header (repeat 0 (Z.to_nat ROADCAST_HEADER_SIZE))
                           (mk_header ROADCAST_PROTOCOL_VERSION type_ 0 (u32 payload_length) 0 now));
    r ← ctl_write_all fd header_bytes;
    if r <? 0 then mret (-1)
    else if negb (payload_length =? 0) then
      bytes ← omem (slice payload 0 payload_length);
      r ← ctl_write_all fd bytes;
      if r <? 0 then mret (-1) else mret 0
    else mret 0.

(** The result, and the bytes that have been written to [out]. *)
Fixpoint ctl_read_loop (n : nat) (fd length_ timeout_ms : Z) (out : list Z)
  : OM (tty W) (Z * list Z) :=
  if length_ =? 0 then mret (0, out)
  else
    match n with
    | O => out_of_fuel
    | S n =>
        result ← tsys (sock_poll fd POLLIN timeout_ms);
        match result with
        | PollInterrupted => ctl_read_loop n fd length_ timeout_ms out
        | PollTimeout | PollFailed => mret (-1, out)
        | PollReady _ error =>
            if (error : bool) then mret (-1, out)
            else
              count ← tsys (sock_recv fd length_);
              match count with
              | Done bytes =>
                  if zlen bytes =? 0 then mret (-1, out)
                  else ctl_read_loop n fd (sz (length_ - zlen bytes)) timeout_ms (out ++ bytes)
              | Interrupted => ctl_read_loop n fd length_ timeout_ms out
              | WouldBlock | Broken => mret (-1, out)
              end
        end
    end.

Definition ctl_read_exact (fd length_ timeout_ms : Z) : OM (tty W) (Z * list Z) :=
  ctl_read_loop fuel fd length_ timeout_ms [].

(** The payload buffer is the [ROADCAST_MAX_PAYLOAD] bytes of [main]. *)
Definition ctl_read_message (fd timeout_ms : Z) : OM (tty W) (option (roadcast_header_t * list Z)) :=
  '(r, bytes) ← ctl_read_exact fd ROADCAST_HEADER_SIZE timeout_ms;
  if r <? 0 then mret None
  else
    header_bytes ← omem (blit (repeat 0 (Z.to_nat ROADCAST_HEADER_SIZE)) 0 bytes);
    header ← odec (roadcast_decode_header header_bytes);
    match header with
    | None => mret None
    | Some header =>
        if negb (version header =? ROADCAST_PROTOCOL_VERSION)
           || (ROADCAST_MAX_PAYLOAD <? payload_bytes header) then mret None
        else if negb (payload_bytes header =? 0) then
          '(r, bytes) ← ctl_read_exact fd (payload_bytes header) timeout_ms;
          payload ← omem (blit (repeat 0 (Z.to_nat ROADCAST_MAX_PAYLOAD)) 0 bytes);
          if r <? 0 then mret None
          else
            bytes ← omem (slice payload 0 (payload_bytes header));
            mret (Some (header, bytes))
        else mret (Some (header, []))
    end.

(** A request for the page that starts at [next_index], and its reply. *)
Definition ctl_request_page (fd request_type reply_type next_index : Z)
  : OM (tty W) (option (roadcast_header_t * list Z)) :=
  '(_, request) ← omem (roadcast_encode_index_request
                          (repeat 0 (Z.to_nat ROADCAST_SCHEMA_REQUEST_SIZE)) next_index);
  r ← ctl_send_message fd request_type request ROADCAST_SCHEMA_REQUEST_SIZE;
  if r <? 0 then mret None
  else
    message ← ctl_read_message fd READ_TIMEOUT_MS;
    match message with
    | None => mret None
    | Some (header, payload) =>
        if negb (type header =? reply_type) then mret None else mret (Some (header, payload))
    end.

(** ** The schema *)

(** The entries of a page, stored and printed from the [i]-th on. *)
Fixpoint store_entries (entries : list roadcast_schema_entry_t) (next_index i : Z)
    (catalog : client_catalog_t) : OM (tty W) client_catalog_t :=
  match entries with
  | [] => mret catalog
  | entry :: entries =>
      schema' ← omem (wr (ct_schema catalog) (next_index + i) entry);
      let catalog := catalog <| ct_schema := schema' |> in
      if matches_filter (ct_filter catalog) (name entry) then
        matches' ← omem (wr (ct_matches catalog) (next_index + i) 1);
        print_line (Schema_entry_line entry);;
        store_entries entries next_index (i + 1) (catalog <| ct_matches := matches' |>)
      else store_entries entries next_index (i + 1) catalog
  end.

Fixpoint ctl_schema_loop (n : nat) (fd expected_version expected_hash next_index : Z)
    (catalog : client_catalog_t) : OM (tty W) (option client_catalog_t) :=
  if next_index <? ct_signal_count catalog then
    match n with
    | O => out_of_fuel
    | S n =>
        page ← ctl_request_page fd ROADCAST_MSG_GET_SCHEMA ROADCAST_MSG_SCHEMA_CHUNK next_index;
        match page with
        | None => mret None
        | Some (header, payload) =>
            chunk ← odec (roadcast_decode_schema_chunk payload (payload_bytes header)
                            SCHEMA_CHUNK_ENTRY_CAP);
            match chunk with
            | None => mret None
            | Some chunk =>
                if negb (chunk_schema_version chunk =? expected_version)
                   || negb (chunk_schema_hash chunk =? expected_hash)
                   || negb (chunk_total_count chunk =? ct_signal_count catalog)
                   || negb (chunk_start_index chunk =? next_index)
                   || (zlen (chunk_entries chunk) =? 0) then mret None
                else
                  catalog ← store_entries (chunk_entries chunk) next_index 0 catalog;
                  ctl_schema_loop n fd expected_version expected_hash
                    (u32 (next_index + zlen (chunk_entries chunk))) catalog
            end
        end
    end
  else mret (Some catalog).

Definition ctl_request_schema (fd expected_version expected_hash : Z) (catalog : client_catalog_t)
  : OM (tty W) (option client_catalog_t) :=
  catalog ← ctl_schema_loop (Z.to_nat (ct_signal_count catalog)) fd expected_version expected_hash 0
              catalog;
  match catalog with
  | None => mret None
  | Some catalog =>
      print_line (Schema_line expected_version (ct_signal_count catalog) expected_hash);;
      mret (Some catalog)
  end.

(** ** Snapshots; the sequences are [(sample_sequence, change_sequence)] *)

Fixpoint ctl_frame_loop (n : nat) (fd next_index : Z) (sequences : Z * Z)
  : OM (tty W) (option (Z * Z)) :=
  if next_index <? FRAME_COUNT then
    match n with
    | O => out_of_fuel
    | S n =>
        page ← ctl_request_page fd ROADCAST_MSG_GET_SNAPSHOT ROADCAST_MSG_SNAPSHOT next_index;
        match page with
        | None => mret None
        | Some (header, payload) =>
            batch ← odec (roadcast_decode_frame_batch payload (payload_bytes header) FRAME_COUNT);
            match batch with
            | None => mret None
            | Some b =>
                if negb (batch_total_count b =? FRAME_COUNT)
                   || negb (batch_start_index b =? next_index)
                   || (zlen (batch_items b) =? 0)
                   || (negb (next_index =? 0)
                       && (negb (batch_sample_sequence b =? sequences.1)
                           || negb (sequence header =? sequences.2))) then mret None
                else
                  ctl_frame_loop n fd (u32 (next_index + zlen (batch_items b)))
                    (if next_index =? 0 then (batch_sample_sequence b, sequence header)
                     else sequences)
            end
        end
    end
  else mret (Some sequences).

Definition ctl_request_frame_snapshot (fd : Z) (sequences : Z * Z) : OM (tty W) (option (Z * Z)) :=
  ctl_frame_loop (Z.to_nat FRAME_COUNT) fd 0 sequences.

Definition print_signal_value (catalog : client_catalog_t) (index_ : Z) (prefix : string)
  : OM (tty W) unit :=
  entry ← omem (rd (ct_schema catalog) index_);
  value ← omem (rd (ct_signals catalog) index_);
  print_line (Signal_line prefix index_ entry value).

(** The updates of a page, from the [i]-th on; [None] is -1. *)
Fixpoint ctl_store_page (updates : list roadcast_signal_update_t) (next_index i : Z)
    (catalog : client_catalog_t) : OM (tty W) (option client_catalog_t) :=
  match updates with
  | [] => mret (Some catalog)
  | update :: updates =>
      if negb (upd_index update =? next_index + i) || (ct_signal_count catalog <=? upd_index update)
      then mret None
      else
        signals' ← omem (wr (ct_signals catalog) (upd_index update) (upd_value update));
        ctl_store_page updates next_index (i + 1) (catalog <| ct_signals := signals' |>)
  end.

Fixpoint ctl_signal_loop (n : nat) (fd next_index expected_sample_sequence expected_change_sequence : Z)
    (catalog : client_catalog_t) : OM (tty W) (option client_catalog_t) :=
  if next_index <? ct_signal_count catalog then
    match n with
    | O => out_of_fuel
    | S n =>
        page ← ctl_request_page fd ROADCAST_MSG_GET_SIGNAL_SNAPSHOT ROADCAST_MSG_SIGNAL_SNAPSHOT_CHUNK
                 next_index;
        match page with
        | None => mret None
        | Some (header, payload) =>
            if negb (sequence header =? expected_change_sequence) then mret None
            else
              batch ← odec (roadcast_decode_signal_batch payload (payload_bytes header)
                              SIGNAL_CHUNK_UPDATE_CAP);
              match batch with
              | None => mret None
              | Some b =>
                  if negb (batch_sample_sequence b =? expected_sample_sequence)
                     || negb (batch_total_count b =? ct_signal_count catalog)
                     || negb (batch_start_index b =? next_index)
                     || (zlen (batch_items b) =? 0) then mret None
                  else
                    catalog ← ctl_store_page (batch_items b) next_index 0 catalog;
                    match catalog with
                    | None => mret None
                    | Some catalog =>
                        ctl_signal_loop n fd (u32 (next_index + zlen (batch_items b)))
                          expected_sample_sequence expected_change_sequence catalog
                    end
              end
        end
    end
  else mret (Some catalog).

(** [for (i...) if (catalog->matches[i]) print_signal_value(catalog, i, "signal");] *)
Definition print_match (catalog : client_catalog_t) (i : Z) : OM (tty W) unit :=
  m ← omem (rd (ct_matches catalog) i);
  if negb (m =? 0) then print_signal_value catalog i "signal" else mret tt.

Fixpoint print_matches (catalog : client_catalog_t) (n : nat) (i : Z) : OM (tty W) unit :=
  match n with
  | O => mret tt
  | S n => print_match catalog i;; print_matches catalog n (i + 1)
  end.

Definition ctl_request_signal_snapshot (fd expected_sample_sequence expected_change_sequence : Z)
    (catalog : client_catalog_t) : OM (tty W) (option client_catalog_t) :=
  catalog ← ctl_signal_loop (Z.to_nat (ct_signal_count catalog)) fd 0 expected_sample_sequence
              expected_change_sequence catalog;
  match catalog with
  | None => mret None
  | Some catalog =>
      print_line (Snapshot_line FRAME_COUNT (ct_signal_count catalog) expected_sample_sequence
                    expected_change_sequence);;
      (match ct_filter catalog with
       | Some _ => print_matches catalog (Z.to_nat (ct_signal_count catalog)) 0
       | None => mret tt
       end);;
      mret (Some catalog)
  end.

Definition request_complete_snapshot (fd : Z) (catalog : client_catalog_t) (sequences : Z * Z)
  : OM (tty W) (option (client_catalog_t * (Z * Z))) :=
  sequences ← ctl_request_frame_snapshot fd sequences;
  match sequences with
  | None => mret None
  | Some (sample_sequence, change_sequence) =>
      catalog ← ctl_request_signal_snapshot fd sample_sequence change_sequence catalog;
      match catalog with
      | None => mret None
      | Some catalog => mret (Some (catalog, (sample_sequence, change_sequence)))
      end
  end.

(** ** The subscription *)

(** The updates of a batch; [None] is -1. *)
Fixpoint ctl_apply_updates (updates : list roadcast_signal_update_t) (catalog : client_catalog_t)
  : OM (tty W) (option client_catalog_t) :=
  match updates with
  | [] => mret (Some catalog)
  | update :: updates =>
      if ct_signal_count catalog <=? upd_index update then mret None
      else
        signals' ← omem (wr (ct_signals catalog) (upd_index update) (upd_value update));
        ctl_apply_updates updates (catalog <| ct_signals := signals' |>)
  end.

Fixpoint ctl_subscription_loop (n : nat) (fd : Z) (catalog : client_catalog_t) (sequences : Z * Z)
  : OM (tty W) (option (client_catalog_t * (Z * Z))) :=
  match n with
  | O => out_of_fuel
  | S n =>
      message ← ctl_read_message fd READ_TIMEOUT_MS;
      match message with
      | None => mret None
      | Some (header, payload) =>
          if type header =? ROADCAST_MSG_SUBSCRIBED then
            mret (Some (catalog, (sequences.1, sequence header)))
          else if type header =? ROADCAST_MSG_UPDATE_BATCH then
            batch ← odec (roadcast_decode_frame_batch payload (payload_bytes header) FRAME_COUNT);
            match batch with
            | None => mret None
            | Some b =>
                if negb (batch_total_count b =? FRAME_COUNT)
                   || negb (batch_start_index b =? UINT32_MAX) then mret None
                else ctl_subscription_loop n fd catalog (batch_sample_sequence b, sequences.2)
            end
          else if type header =? ROADCAST_MSG_SIGNAL_UPDATE_BATCH then
            batch ← odec (roadcast_decode_signal_batch payload (payload_bytes header)
                            SIGNAL_CHUNK_UPDATE_CAP);
            match batch with
            | None => mret None
            | Some b =>
                if negb (batch_total_count b =? ct_signal_count catalog)
                   || negb (batch_start_index b =? UINT32_MAX) then mret None
                else
                  catalog ← ctl_apply_updates (batch_items b) catalog;
                  match catalog with
                  | None => mret None
                  | Some catalog =>
                      ctl_subscription_loop n fd catalog (batch_sample_sequence b, sequences.2)
                  end
            end
          else mret None
      end
  end.

Definition ctl_complete_subscription (fd : Z) (catalog : client_catalog_t) (sequences : Z * Z)
  : OM (tty W) (option (client_catalog_t * (Z * Z))) :=
  r ← ctl_send_message fd ROADCAST_MSG_SUBSCRIBE_ALL [] 0;
  if r <? 0 then mret None else ctl_subscription_loop fuel fd catalog sequences.

(** ** The loop of [main]; [None] is the label [fail] *)

Definition fail_with {A} (text : string) : OM (tty W) (option A) :=
  print_line (Diagnostic text);; mret None.

(** A batch has been accepted. *)
Definition note_sequence (sequence_ sample_sequence : Z) (s : stream_t) : stream_t :=
  let '(last, gaps) :=
    observe_change_sequence sequence_ (ts_last_change_sequence s) (ts_sequence_gaps s) in
  s <| ts_last_change_sequence := last |> <| ts_sequence_gaps := gaps |>
    <| ts_sample_sequence := sample_sequence |> <| ts_last_sample_sequence := sample_sequence |>.

Definition stream_frames (header : roadcast_header_t) (payload : list Z) (s : stream_t)
  : OM (tty W) (option stream_t) :=
  batch ← odec (roadcast_decode_frame_batch payload (payload_bytes header) FRAME_COUNT);
  match batch with
  | None => fail_with "Malformed UPDATE_BATCH"
  | Some b =>
      if negb (batch_total_count b =? FRAME_COUNT) || negb (batch_start_index b =? UINT32_MAX)
      then fail_with "Invalid UPDATE_BATCH page metadata"
      else
        let s := note_sequence (sequence header) (batch_sample_sequence b) s in
        mret (Some (s <| ts_frame_batches := u64 (ts_frame_batches s + 1) |>
                      <| ts_changed_frames := u64 (ts_changed_frames s + zlen (batch_items b)) |>))
  end.

(** The updates of a batch, stored and printed. *)
Fixpoint stream_updates (updates : list roadcast_signal_update_t) (catalog : client_catalog_t)
  : OM (tty W) (option client_catalog_t) :=
  match updates with
  | [] => mret (Some catalog)
  | update :: updates =>
      let index_ := upd_index update in
      if ct_signal_count catalog <=? index_ then fail_with "Signal index outside schema"
      else
        signals' ← omem (wr (ct_signals catalog) index_ (upd_value update));
        let catalog := catalog <| ct_signals := signals' |> in
        m ← omem (rd (ct_matches catalog) index_);
        (if negb (m =? 0) then print_signal_value catalog index_ "update" else mret tt);;
        stream_updates updates catalog
  end.

Definition stream_signals (header : roadcast_header_t) (payload : list Z) (s : stream_t)
  : OM (tty W) (option stream_t) :=
  batch ← odec (roadcast_decode_signal_batch payload (payload_bytes header) SIGNAL_CHUNK_UPDATE_CAP);
  match batch with
  | None => fail_with "Malformed SIGNAL_UPDATE_BATCH"
  | Some b =>
      if negb (batch_total_count b =? ct_signal_count (ts_catalog s))
         || negb (batch_start_index b =? UINT32_MAX)
      then fail_with "Invalid SIGNAL_UPDATE_BATCH page metadata"
      else
        let s := note_sequence (sequence header) (batch_sample_sequence b) s in
        let s := s <| ts_signal_batches := u64 (ts_signal_batches s + 1) |>
                   <| ts_changed_signals := u64 (ts_changed_signals s + zlen (batch_items b)) |> in
        catalog ← stream_updates (batch_items b) (ts_catalog s);
        match catalog with
        | None => mret None
        | Some catalog => mret (Some (s <| ts_catalog := catalog |>))
        end
  end.

Definition stream_heartbeat (header : roadcast_header_t) (payload : list Z) (s : stream_t)
  : OM (tty W) (option stream_t) :=
  heartbeat ← odec (roadcast_decode_heartbeat payload (payload_bytes header));
  match heartbeat with
  | None => fail_with "Malformed HEARTBEAT"
  | Some h =>
      if negb (hb_change_sequence h =? sequence header)
      then fail_with "Inconsistent HEARTBEAT sequence"
      else mret (Some (note_sequence (hb_change_sequence h) (hb_sample_sequence h) s))
  end.

Definition stream_resync (fd : Z) (s : stream_t) : OM (tty W) (option stream_t) :=
  snapshot ← request_complete_snapshot fd (ts_catalog s) (ts_sample_sequence s, ts_change_sequence s);
  match snapshot with
  | None => fail_with "Resynchronization failed"
  | Some (catalog, sequences) =>
      subscribed ← ctl_complete_subscription fd catalog sequences;
      match subscribed with
      | None => fail_with "Resynchronization failed"
      | Some (catalog, (sample_sequence, change_sequence)) =>
          mret (Some (s <| ts_catalog := catalog |> <| ts_sample_sequence := sample_sequence |>
            <| ts_change_sequence := change_sequence |>
            <| ts_last_sample_sequence := sample_sequence |>
            <| ts_last_change_sequence := change_sequence |>
            <| ts_resyncs := u64 (ts_resyncs s + 1) |>))
      end
  end.

Definition stream_message (fd : Z) (header : roadcast_header_t) (payload : list Z) (s : stream_t)
  : OM (tty W) (option stream_t) :=
  if type header =? ROADCAST_MSG_UPDATE_BATCH then stream_frames header payload s
  else if type header =? ROADCAST_MSG_SIGNAL_UPDATE_BATCH then stream_signals header payload s
  else if type header =? ROADCAST_MSG_HEARTBEAT then stream_heartbeat header payload s
  else if type header =? ROADCAST_MSG_RESYNC_REQUIRED then stream_resync fd s
  else fail_with "Unexpected message type".

(** The report after a second. *)
Definition stream_report (s : stream_t) : OM (tty W) stream_t :=
  now ← tsys monotonic_ns;
  let elapsed := u64 (now - ts_report_started s) in
  if 1000000000 <=? elapsed then
    print_line (Stream_line elapsed (ts_frame_batches s) (ts_signal_batches s) (ts_changed_frames s)
                  (ts_changed_signals s) (ts_last_sample_sequence s) (ts_sequence_gaps s)
                  (ts_resyncs s));;
    mret (s <| ts_report_started := now |> <| ts_frame_batches := 0 |> <| ts_signal_batches := 0 |>
            <| ts_changed_frames := 0 |> <| ts_changed_signals := 0 |>)
  else mret s.

Fixpoint stream_loop (n : nat) (fd started seconds : Z) (s : stream_t)
  : OM (tty W) (option stream_t) :=
  now ← tsys monotonic_ns;
  if u64 (now - started) <? u64 (seconds * 1000000000) then
    match n with
    | O => out_of_fuel
    | S n =>
        message ← ctl_read_message fd READ_TIMEOUT_MS;
        match message with
        | None => fail_with "Read failed or heartbeat timed out"
        | Some (header, payload) =>
            r ← stream_message fd header payload s;
            match r with
            | None => mret None
            | Some s => s ← stream_report s; stream_loop n fd started seconds s
            end
        end
    end
  else mret (Some s).

(** From the clock reading before the loop on. *)
Definition ctl_stream (fd seconds : Z) (catalog : client_catalog_t) (sequences : Z * Z)
  : OM (tty W) Z :=
  started ← tsys monotonic_ns;
  r ← stream_loop fuel fd started seconds
        (mk_stream catalog sequences.1 sequences.2 started 0 0 0 0 0 0 sequences.1 sequences.2);
  match r with
  | None => mret 1
  | Some s => print_line (Summary_line (ts_sequence_gaps s) (ts_resyncs s));; mret 0
  end.

(** From the subscription on. *)
Definition ctl_subscribed (fd : Z) (o : ctl_options_t) (catalog : client_catalog_t)
    (sequences : Z * Z) : OM (tty W) Z :=
  if negb (op_stall_seconds o =? 0) then
    print_line (Stalling_line (op_stall_seconds o));;
    tsys_ (sleep_seconds (op_stall_seconds o));;
    mret 0
  else
    (if negb (op_pause_seconds o =? 0) then
       print_line (Pausing_line (op_pause_seconds o));;
       tsys_ (sleep_seconds (op_pause_seconds o))
     else mret tt);;
    ctl_stream fd (op_seconds o) catalog sequences.

(** The three arrays, when all allocations succeed. *)
Definition allocate_catalog (signal_count : Z) (filter : option (list Z))
  : OM (tty W) (option client_catalog_t) :=
  schema_ok ← tsys sys_alloc;
  signals_ok ← tsys sys_alloc;
  matches_ok ← tsys sys_alloc;
  if negb schema_ok || negb signals_ok || negb matches_ok then mret None
  else
    let n := Z.to_nat signal_count in
    mret (Some (mk_catalog (repeat zero_schema_entry n) (repeat zero_signal_value n) (repeat 0 n)
                  signal_count filter)).

(** From WELCOME on. *)
Definition ctl_welcomed (fd : Z) (o : ctl_options_t) (w : welcome_t) : OM (tty W) Z :=
  print_line (Welcome_line (wel_hz w) (wel_frame_count w) (wel_signal_count w)
                (wel_max_request_payload w) (wel_max_response_payload w) (wel_capabilities w));;
  catalog ← allocate_catalog (wel_signal_count w) (op_signal_filter o);
  catalog ← (match catalog with
             | None => mret None
             | Some catalog => ctl_request_schema fd (wel_schema_version w) (wel_schema_hash w) catalog
             end);
  match catalog with
  | None => print_line (Diagnostic "Schema discovery failed");; mret 1
  | Some catalog =>
      snapshot ← request_complete_snapshot fd catalog (0, 0);
      match snapshot with
      | None => print_line (Diagnostic "Snapshot or subscription failed");; mret 1
      | Some (catalog, sequences) =>
          (if negb (op_subscribe_delay_seconds o =? 0)
           then tsys_ (sleep_seconds (op_subscribe_delay_seconds o)) else mret tt);;
          subscribed ← ctl_complete_subscription fd catalog sequences;
          match subscribed with
          | None => print_line (Diagnostic "Snapshot or subscription failed");; mret 1
          | Some (catalog, sequences) => ctl_subscribed fd o catalog sequences
          end
      end
  end.

(** From the connection on; [main] closes the descriptor on every path. *)
Definition ctl_session (fd : Z) (o : ctl_options_t) : OM (tty W) Z :=
  '(hello_length, hello) ← omem (roadcast_encode_hello (repeat 0 8));
  r ← ctl_send_message fd ROADCAST_MSG_HELLO hello hello_length;
  reply ← (if r <? 0 then mret None else ctl_read_message fd READ_TIMEOUT_MS);
  match reply with
  | None => print_line (Diagnostic "HELLO failed");; mret 1
  | Some (header, payload) =>
      if negb (type header =? ROADCAST_MSG_WELCOME)
      then print_line (Diagnostic "HELLO failed");; mret 1
      else
        welcome ← odec (roadcast_decode_welcome payload (payload_bytes header));
        match welcome with
        | None => print_line (Diagnostic "Malformed or unsupported WELCOME");; mret 1
        | Some w =>
            if negb (wel_frame_count w =? FRAME_COUNT)
               || (Z.land (wel_capabilities w) ROADCAST_CAP_RAW_CAN =? 0)
               || (Z.land (wel_capabilities w) ROADCAST_CAP_DECODED_CAN =? 0)
            then print_line (Diagnostic "Malformed or unsupported WELCOME");; mret 1
            else ctl_welcomed fd o w
        end
  end.

(** [main]; [args] are the arguments after the program's name. *)
Definition ctl_main (args : list (list Z)) : OM (tty W) Z :=
  match ctl_options args with
  | inr code => print_line Usage;; mret code
  | inl o =>
      fd ← ctl_connect_socket (op_socket_name o);
      if fd <? 0 then print_line (Diagnostic "Failed to connect");; mret 1
      else
        payload_ok ← tsys sys_alloc;
        r ← (if negb payload_ok then mret 1 else ctl_session fd o);
        tsys_ (sock_close fd);;
        mret r
  end.
End Ctl.
