(* ===== verification/CtlIo.v ===== *)
(** * Transport of the command line tool: src/roadcastctl.c, [connect_socket] to
      [read_message]

    The loops around the socket return, and a message is sent or received whole
    and in order however the kernel cuts it.  The contract of the socket is the
    one of [ClientIo]. *)

From Stdlib Require Import String.
From S2P Require Import Prelude Effect Text Options Wire CatalogDefs Catalog SourceSession Sampler.
From S2P Require Import ClientDefs ClientOps ClientIo CtlDefs CtlOps.

(** Sleeping moves no bytes. *)
Class SleepOk {W} `{HN : SocketOk W} (SL : Sleep W) : Prop :=
  sleep_ok : forall n w, traffic w (sleep_seconds n w) [] [].

(** ** Weakest preconditions of the tool's primitives *)

Section Wp.
Context {W : Type}.
Implicit Types (ls : list line) (w : W).

Lemma owp_tsys {A} (f : W -> A * W) Q ls w :
  Q (f w).1 (mk_tty ls (f w).2) -> owp (tsys f) Q (mk_tty ls w).
Proof. unfold owp, tsys. cbn [tty_world tty_lines]. by destruct (f w). Qed.
Lemma owp_tsys_ (f : W -> W) Q ls w : Q tt (mk_tty ls (f w)) -> owp (tsys_ f) Q (mk_tty ls w).
Proof. done. Qed.
Lemma owp_print l Q ls w : Q tt (mk_tty (ls ++ [l]) w) -> owp (print_line l) Q (mk_tty ls w).
Proof. done. Qed.
Lemma owp_dec {A} (m : res A) Q (s : tty W) :
  no_ub m -> (forall a, m = Ok a -> Q (Some a) s) -> (m = Fail -> Q None s) -> owp (odec m) Q s.
Proof. intros Hm H1 H2. unfold owp, odec. destruct m; [by apply H1|by apply H2|done]. Qed.
End Wp.

Ltac ctl_step :=
  lazymatch goal with
  | |- owp (_ ≫= _) _ _ => apply owp_bind
  | |- owp (mret _) _ _ => apply owp_ret
  | |- owp (tsys _) _ _ => apply owp_tsys
  | |- owp (tsys_ _) _ _ => apply owp_tsys_
  | |- owp (print_line _) _ _ => apply owp_print
  end.
Ltac ctl_steps := cbv beta iota zeta; repeat (ctl_step; cbv beta iota zeta).

Section Io.
Context {W : Type} `{K : !Clock W} `{N : !Socket W} `{HN : !SocketOk N K} (fuel : nat).
Implicit Types (ls : list line) (w : W).

(** ** Sending and receiving *)

Lemma ctl_write_loop_wp n fd ls : forall data w (Q : Z -> tty W -> Prop),
  (budget w < n)%nat ->
  (forall w', traffic w w' data [] -> Q 0 (mk_tty ls w')) ->
  (forall w', moved w w' -> Q (-1) (mk_tty ls w')) ->
  owp (ctl_write_loop n fd data) Q (mk_tty ls w).
Proof.
  induction n as [|n IH]; intros data w Q Hn Hok Hbad; [lia|]. cbn [ctl_write_loop].
  destruct (Z.eqb_spec (zlen data) 0) as [Hz|Hz].
  { apply owp_ret. unfold zlen in Hz. assert (data = []) as -> by (apply nil_length_inv; lia).
    apply Hok, traffic_refl. }
  ctl_steps. pose proof (sock_send_ok fd data w) as Hs.
  destruct (sock_send fd data w) as [[count| | |] w1]; cbn [fst snd].
  - destruct Hs as (Hle & Ht & Hb). destruct (Z.ltb_spec 0 count) as [Hc|Hc].
    + specialize (Hb Hc). apply IH; [lia| |].
      * intros w' Ht'. apply Hok. pose proof (traffic_trans _ _ _ _ _ _ _ Ht Ht') as H.
        by rewrite take_drop in H.
      * intros w' Hm. apply Hbad. eapply moved_trans; [|exact Hm]. by eapply moved_traffic.
    + apply owp_ret, Hbad. by eapply moved_traffic.
  - destruct Hs as [Ht Hb]. apply IH; [lia| |].
    + intros w' Ht'. apply Hok. by eapply traffic_quiet_l.
    + intros w' Hm. apply Hbad. eapply moved_trans; [|exact Hm]. by eapply moved_traffic.
  - destruct Hs as [Ht Hb]. apply owp_ret, Hbad. by eapply moved_traffic.
  - apply owp_ret, Hbad. by eapply moved_traffic.
Qed.

Lemma ctl_read_loop_wp n fd t ls : forall len out w (Q : Z * list Z -> tty W -> Prop),
  (budget w < n)%nat -> 0 <= len < 2 ^ 64 ->
  (forall w' bs, zlen bs = len -> bytes_ok bs -> traffic w w' [] bs ->
     (0 < len -> (budget w' < budget w)%nat) -> Q (0, out ++ bs) (mk_tty ls w')) ->
  (forall w' bs, zlen bs < len -> traffic w w' [] bs -> Q (-1, out ++ bs) (mk_tty ls w')) ->
  owp (ctl_read_loop n fd len t out) Q (mk_tty ls w).
Proof.
  induction n as [|n IH]; intros len out w Q Hn Hlen Hok Hbad; [lia|]. cbn [ctl_read_loop].
  destruct (Z.eqb_spec len 0) as [->|Hz].
  { apply owp_ret. rewrite <- (app_nil_r out). apply Hok; [done|by apply Forall_nil|apply traffic_refl|lia]. }
  assert (Hfail : forall w', traffic w w' [] [] -> Q (-1, out) (mk_tty ls w')).
  { intros w' Ht. rewrite <- (app_nil_r out). apply Hbad; [unfold zlen; cbn; lia|done]. }
  ctl_steps. destruct (sock_poll_ok fd POLLIN t w) as [Hp Hi]. pose proof (traffic_budget _ _ _ _ Hp).
  destruct (sock_poll fd POLLIN t w) as [[requested [|]| | |] w0]; cbn [fst snd] in *;
    try (by apply owp_ret, Hfail).
  2: { apply IH; [specialize (Hi eq_refl); lia|lia| |].
    - intros w' bs Hl Hb Ht B. apply Hok; [done..|by eapply traffic_quiet_l|]. intros Hpos.
      specialize (B Hpos). lia.
    - intros w' bs Hl Ht. apply Hbad; [done|]. by eapply traffic_quiet_l. }
  ctl_steps. pose proof (sock_recv_ok fd len w0 ltac:(lia)) as Hs.
  destruct (sock_recv fd len w0) as [[bs| | |] w1]; cbn [fst snd].
  - destruct Hs as (Hle & Hbs & Ht0 & Hb). pose proof (traffic_quiet_l _ _ _ _ _ Hp Ht0) as Ht.
    pose proof (zlen_nonneg bs). destruct (Z.eqb_spec (zlen bs) 0) as [Hz0|Hz0].
    { apply owp_ret. unfold zlen in Hz0. assert (bs = []) as -> by (apply nil_length_inv; lia).
      by apply Hfail. }
    assert (bs <> []) as Hne by (by intros ->). specialize (Hb Hne).
    assert (Hsz : sz (len - zlen bs) = len - zlen bs) by (unfold sz; rewrite Z.mod_small; lia).
    rewrite Hsz. apply IH; [lia|lia| |].
    + intros w' bs' Hl Hb' Ht' _. rewrite <- (assoc_L (++)). apply Hok.
      * rewrite zlen_app. lia.
      * by apply Forall_app.
      * exact (traffic_trans _ _ _ _ _ _ _ Ht Ht').
      * intros _. apply traffic_budget in Ht'. lia.
    + intros w' bs' Hl Ht'. rewrite <- (assoc_L (++)). apply Hbad.
      * rewrite zlen_app. lia.
      * exact (traffic_trans _ _ _ _ _ _ _ Ht Ht').
  - destruct Hs as [Ht0 Hb]. pose proof (traffic_quiet_l _ _ _ _ _ Hp Ht0) as Ht. apply IH; [lia|lia| |].
    + intros w' bs' Hl Hb' Ht' _. apply Hok; [done..|by eapply traffic_quiet_l|].
      apply traffic_budget in Ht'. lia.
    + intros w' bs' Hl Ht'. apply Hbad; [done|]. by eapply traffic_quiet_l.
  - destruct Hs as [Ht _]. apply owp_ret, Hfail. by eapply traffic_quiet_l.
  - apply owp_ret, Hfail. by eapply traffic_quiet_l.
Qed.

(** ** Messages *)

Lemma ctl_send_message_wp fd type_ payload len ls w (Q : Z -> tty W -> Prop) :
  (budget w < fuel)%nat -> len = zlen payload -> len <= ROADCAST_MAX_PAYLOAD ->
  (forall r w', moved w w' -> Q r (mk_tty ls w')) ->
  owp (ctl_send_message fuel fd type_ payload len) Q (mk_tty ls w).
Proof.
  intros Hf -> Hlen HQ. unfold ctl_send_message. pose proof (zlen_nonneg payload).
  destruct (Z.ltb_spec ROADCAST_MAX_PAYLOAD (zlen payload)) as [|_]; [lia|]. ctl_steps.
  pose proof (sock_clock_ok w) as T. pose proof (traffic_budget _ _ _ _ T) as B.
  set (now := (monotonic_ns w).1) in *. set (w1 := (monotonic_ns w).2) in *.
  assert (Hmove : forall w', moved w1 w' -> moved w w').
  { intros w'. apply moved_trans. by eapply moved_traffic. }
  eapply owp_mem; [rewrite encode_header_blit; by apply blit_full|]. ctl_steps.
  unfold ctl_write_all. apply ctl_write_loop_wp; [lia| |].
  2: { intros w' Hm. ctl_steps. by apply HQ, Hmove. }
  intros w2 T2. cbn [Z.ltb Z.compare]. pose proof (traffic_budget _ _ _ _ T2).
  assert (M2 : moved w w2) by (by eapply Hmove, moved_traffic).
  destruct (Z.eqb_spec (zlen payload) 0) as [Hz|Hz]; cbn [negb]; [by apply owp_ret, HQ|].
  apply owp_bind. eapply owp_mem; [by apply (has_slice _ _ payload); [apply has_self|]|].
  apply owp_bind, ctl_write_loop_wp; [lia| |].
  - intros w' T5. apply owp_ret, HQ. eapply moved_trans; [exact M2|]. by eapply moved_traffic.
  - intros w' M3. apply owp_ret, HQ. by eapply moved_trans.
Qed.

(** A message the tool accepts. *)
Definition accepted (m : roadcast_header_t * list Z) : Prop :=
  header_ok m.1 /\ version m.1 = ROADCAST_PROTOCOL_VERSION /\ payload_bytes m.1 <= ROADCAST_MAX_PAYLOAD
  /\ zlen m.2 = payload_bytes m.1 /\ bytes_ok m.2.

Lemma ctl_read_message_wp fd t ls w (Q : option (roadcast_header_t * list Z) -> tty W -> Prop) :
  (budget w < fuel)%nat ->
  (forall h p w', accepted (h, p) -> traffic w w' [] (wire (h, p)) -> (budget w' < budget w)%nat ->
     Q (Some (h, p)) (mk_tty ls w')) ->
  (forall bs w', traffic w w' [] bs -> incomplete ROADCAST_MAX_PAYLOAD bs -> Q None (mk_tty ls w')) ->
  owp (ctl_read_message fuel fd t) Q (mk_tty ls w).
Proof.
  intros Hf Hok Hbad. unfold ctl_read_message, ctl_read_exact. ctl_steps.
  apply ctl_read_loop_wp; [lia|by vm_compute|..].
  2: { intros w' bs Hl T2. ctl_steps. cbn [Z.ltb Z.compare].
       eapply Hbad; [exact T2|by apply incomplete_header]. }
  intros w2 bs Hl Hb T B. cbn [app]. ctl_steps. cbn [Z.ltb Z.compare]. specialize (B ltac:(by vm_compute)).
  apply owp_bind. eapply owp_mem.
  { apply blit_full. rewrite repeat_length. unfold zlen in Hl. rewrite <- Hl. lia. }
  apply owp_bind. pose proof (decode_header_exact bs Hb Hl) as Hx. unfold decodes_exactly in Hx.
  apply owp_dec; [by intros E; rewrite E in Hx|..].
  2: { intros E. apply owp_ret. eapply Hbad; [exact T|by apply incomplete_undecoded]. }
  intros h E. rewrite E in Hx. destruct Hx as [[Hh Hp] ->]. ctl_steps.
  rewrite <- (app_nil_r (header_bytes h)) in T. pose proof Hh as (_ & _ & _ & H32 & _).
  destruct (Z.eqb_spec (version h) ROADCAST_PROTOCOL_VERSION) as [Hv|]; cbn [negb orb];
    [|apply owp_ret; eapply Hbad; [exact T|apply incomplete_payload; auto]].
  destruct (Z.ltb_spec ROADCAST_MAX_PAYLOAD (payload_bytes h)) as [|_]; [lia|].
  destruct (Z.eqb_spec (payload_bytes h) 0) as [Hz|Hz]; cbn [negb].
  { apply owp_ret. apply Hok; [|exact T|lia]. unfold accepted. cbn [fst snd]. rewrite Hz.
    split_and!; try done. by apply Forall_nil. }
  rewrite app_nil_r in T. ctl_steps.
  apply ctl_read_loop_wp; [lia|unfold is_u32 in *; lia|..].
  - intros w4 p Hlp Hbp T4 B4. cbn [app]. ctl_steps.
    pose proof (blit_start (repeat 0 (Z.to_nat ROADCAST_MAX_PAYLOAD)) p ltac:(rewrite Hlp; exact Hp)) as Eb.
    eapply owp_mem; [exact Eb|]. ctl_steps. cbn [Z.ltb Z.compare].
    apply owp_bind. eapply owp_mem.
    { apply has_slice; [|done]. by eapply has_prefix. }
    apply owp_ret, Hok.
    + unfold accepted. cbn [fst snd]. done.
    + exact (traffic_trans _ _ _ _ _ _ _ T T4).
    + apply traffic_budget in T4. lia.
  - intros w4 p Hlp T4. cbn [app]. ctl_steps.
    pose proof (blit_start (repeat 0 (Z.to_nat ROADCAST_MAX_PAYLOAD)) p
      ltac:(change (zlen p <= ROADCAST_MAX_PAYLOAD); lia)) as Eb.
    eapply owp_mem; [exact Eb|]. ctl_steps. cbn [Z.ltb Z.compare]. apply owp_ret.
    eapply Hbad; [exact (traffic_trans _ _ _ _ _ _ _ T T4)|apply incomplete_payload; auto].
Qed.
End Io.
