(* ===== verification/CtlPace.v ===== *)
(** * How long the command line tool waits

    Over the record of [ClientPace]: no wait of src/roadcastctl.c is asked to last
    longer than READ_TIMEOUT_MS, and but for the replies to its own requests the
    tool starts to wait for a message only within --seconds of the beginning of
    its stream. *)

From Stdlib Require Import String.
From S2P Require Import Prelude Effect Text Options Wire CatalogDefs Catalog SourceSession Sampler.
From S2P Require Import ClientDefs ClientOps ClientPace CtlDefs CtlOps.

(** Sleeping is not recorded. *)
Class SleepTicks {W} `{HT : TicksOk W} (SL : Sleep W) : Prop :=
  ticks_sleep : forall n w, ticks (sleep_seconds n w) = ticks w.

(** The last reading, and whether something has been sent since. *)
Definition moment : Type := Z * bool.

Fixpoint after (st : moment) (tr : list tick) : moment :=
  match tr with
  | [] => st
  | Reading t :: tr => after (t, false) tr
  | Sending :: tr => after (st.1, true) tr
  | Wait _ :: tr => after st tr
  end.

(** The readings from which the tool waits without having sent a request. *)
Fixpoint unasked (st : moment) (tr : list tick) : list Z :=
  match tr with
  | [] => []
  | Reading t :: tr => unasked (t, false) tr
  | Sending :: tr => unasked (st.1, true) tr
  | Wait _ :: tr => (if st.2 then [] else [st.1]) ++ unasked st tr
  end.

Definition brief (t : tick) : Prop :=
  match t with Wait ms => ms = READ_TIMEOUT_MS | _ => True end.

Lemma after_app tr1 : forall st tr2, after st (tr1 ++ tr2) = after (after st tr1) tr2.
Proof. induction tr1 as [|[t|ms|] tr1 IH]; intros st tr2; cbn; [done|apply IH..]. Qed.

Lemma unasked_app tr1 : forall st tr2,
  unasked st (tr1 ++ tr2) = unasked st tr1 ++ unasked (after st tr1) tr2.
Proof.
  induction tr1 as [|[t|ms|] tr1 IH]; intros st tr2; cbn; [done|apply IH| |apply IH].
  by rewrite IH, (assoc_L (++)).
Qed.

Section Tracks.
Context {W : Type} `{K : !Clock W} `{N : !Socket W} `{HT : !TicksOk N K} (ok : Z -> Prop).
Implicit Types s : tty W.

(** From the moment [st]: the waits of [m] are brief, those that are not for a
    reply start at a reading that is [ok], and the result and the moment after it
    satisfy [Q]. *)
Definition tracks {A} (st : moment) (m : OM (tty W) A) (Q : A -> moment -> Prop) : Prop := forall s,
  match m s with
  | Ok (a, s') => exists tr, ticks (tty_world s') = ticks (tty_world s) ++ tr
      /\ Forall brief tr /\ Forall ok (unasked st tr) /\ Q a (after st tr)
  | _ => True
  end.

Lemma tracks_bind {A B} st (m : OM (tty W) A) (f : A -> OM (tty W) B) P Q :
  tracks st m P -> (forall a st', P a st' -> tracks st' (f a) Q) -> tracks st (m ≫= f) Q.
Proof.
  intros Hm Hf s. unfold mbind, OM_bind. specialize (Hm s). destruct (m s) as [[a s1]| |]; [|done..].
  destruct Hm as (tr1 & E1 & H1 & H2 & H3). specialize (Hf a _ H3 s1).
  destruct (f a s1) as [[b s2]| |]; [|done..]. destruct Hf as (tr2 & E2 & H4 & H5 & H6).
  exists (tr1 ++ tr2). rewrite E2, E1, unasked_app, after_app, <- (assoc_L (++)).
  split_and!; [done|by apply Forall_app|by apply Forall_app|done].
Qed.
Lemma tracks_mono {A} st (m : OM (tty W) A) (P Q : A -> moment -> Prop) :
  tracks st m P -> (forall a st', P a st' -> Q a st') -> tracks st m Q.
Proof.
  intros Hm HPQ s. specialize (Hm s). destruct (m s) as [[a s1]| |]; [|done..].
  destruct Hm as (tr & H1 & H2 & H3 & H4). exists tr. split_and!; auto.
Qed.

Lemma tracks_ret {A} st (a : A) (Q : A -> moment -> Prop) : Q a st -> tracks st (mret a) Q.
Proof.
  intros HQ s. exists []. rewrite app_nil_r. split_and!; (done || constructor).
Qed.
Lemma tracks_mem {A B} st (m : res A) (f : A -> OM (tty W) B) Q :
  (forall a, m = Ok a -> tracks st (f a) Q) -> tracks st (omem m ≫= f) Q.
Proof.
  intros Hf s. unfold mbind, OM_bind, omem. destruct m as [a| |]; [|done..]. by apply Hf.
Qed.

(** [m] is not recorded. *)
Definition quiet {A} (m : OM (tty W) A) : Prop := forall s,
  match m s with Ok (_, s') => ticks (tty_world s') = ticks (tty_world s) | _ => True end.

Lemma quiet_tracks {A} st (m : OM (tty W) A) : quiet m -> tracks st m (fun _ st' => st' = st).
Proof.
  intros Hm s. specialize (Hm s). destruct (m s) as [[a s1]| |]; [|done..]. exists [].
  rewrite app_nil_r. split_and!; (done || constructor).
Qed.
Lemma quiet_ret {A} (a : A) : quiet (mret a).
Proof. by intros s. Qed.
Lemma quiet_bind {A B} (m : OM (tty W) A) (f : A -> OM (tty W) B) :
  quiet m -> (forall a, quiet (f a)) -> quiet (m ≫= f).
Proof.
  intros Hm Hf s. unfold mbind, OM_bind. specialize (Hm s). destruct (m s) as [[a s1]| |]; [|done..].
  specialize (Hf a s1). destruct (f a s1) as [[b s2]| |]; [|done..]. congruence.
Qed.
Lemma quiet_mem {A} (m : res A) : quiet (omem m).
Proof. intros s. unfold omem. by destruct m. Qed.
Lemma quiet_dec {A} (m : res A) : quiet (odec m).
Proof. intros s. unfold odec. by destruct m. Qed.
Lemma quiet_fuel {A} : quiet (@out_of_fuel (tty W) A).
Proof. by intros s. Qed.
Lemma quiet_print l : quiet (print_line l).
Proof. by intros s. Qed.
Lemma quiet_fail {A} text : quiet (fail_with (A := A) text).
Proof. by intros s. Qed.
Lemma quiet_sys {A} (f : W -> A * W) : (forall w, ticks (f w).2 = ticks w) -> quiet (tsys f).
Proof. intros Hf s. unfold tsys. specialize (Hf (tty_world s)). by destruct (f (tty_world s)). Qed.
Lemma quiet_sys_ (f : W -> W) : (forall w, ticks (f w) = ticks w) -> quiet (tsys_ f).
Proof. intros Hf s. apply Hf. Qed.

(** Whenever it starts, [m] waits for nothing that it has not asked for. *)
Definition prompt {A} (m : OM (tty W) A) : Prop := forall st, tracks st m (fun _ _ => True).

(** The same for what is run after a request. *)
Definition answered {A} (m : OM (tty W) A) : Prop :=
  forall n, tracks (n, true) m (fun _ st' => st' = (n, true)).

Lemma quiet_prompt {A} (m : OM (tty W) A) : quiet m -> prompt m.
Proof. intros Hm st. eapply tracks_mono; [by apply quiet_tracks|done]. Qed.
Lemma quiet_answered {A} (m : OM (tty W) A) : quiet m -> answered m.
Proof. intros Hm n. by apply quiet_tracks. Qed.
Lemma prompt_bind {A B} (m : OM (tty W) A) (f : A -> OM (tty W) B) :
  prompt m -> (forall a, prompt (f a)) -> prompt (m ≫= f).
Proof. intros Hm Hf st. eapply tracks_bind; [apply Hm|]. intros a st' _. apply Hf. Qed.
Lemma answered_bind {A B} (m : OM (tty W) A) (f : A -> OM (tty W) B) :
  answered m -> (forall a, answered (f a)) -> answered (m ≫= f).
Proof. intros Hm Hf n. eapply tracks_bind; [apply Hm|]. intros a st' ->. apply Hf. Qed.
Lemma prompt_clock : prompt (tsys monotonic_ns).
Proof.
  intros st s. unfold tsys. pose proof (ticks_clock (tty_world s)) as E.
  destruct (monotonic_ns (tty_world s)) as [t w]. exists [Reading t].
  split_and!; [exact E|by repeat constructor|constructor|done].
Qed.
End Tracks.

Create HintDb quiet.
#[export] Hint Resolve quiet_ret quiet_mem quiet_dec quiet_fuel quiet_print quiet_fail : quiet.

Ltac quiet_step :=
  lazymatch goal with
  | |- quiet (_ ≫= _) => apply quiet_bind
  | |- quiet (match ?x with _ => _ end) => destruct x
  | |- forall _, _ => intros ?
  | |- quiet (let _ := _ in _) => cbv zeta
  | |- quiet (tsys_ _) => apply quiet_sys_; intros ?; first [apply ticks_close|apply ticks_sleep]
  | |- _ => first
      [ solve [auto 2 with quiet]
      | apply quiet_sys; intros ?; first [apply ticks_recv|apply ticks_socket|apply ticks_connect
          |apply ticks_alloc] ]
  end.
Ltac quiet_tac := repeat quiet_step.

Section Tool.
Context `{Catalog} {W : Type} `{K : !Clock W} `{N : !Socket W} `{HT : !TicksOk N K}
  `{SL : !Sleep W} `{HSL : !SleepTicks SL} (fuel : nat) (ok : Z -> Prop).
#[local] Abbreviation tracks := (tracks (W := W) ok).
#[local] Abbreviation prompt := (prompt (W := W) ok).
#[local] Abbreviation answered := (answered (W := W) ok).

(** ** Requests and replies *)

Lemma send_tracks st fd data :
  tracks st (tsys (sock_send fd data)) (fun _ st' => st'.2 = true).
Proof.
  intros s. unfold tsys. pose proof (ticks_send fd data (tty_world s)) as E.
  destruct (sock_send fd data (tty_world s)) as [r w]. exists [Sending].
  split_and!; [exact E|by repeat constructor|constructor|done].
Qed.

Lemma clock_tracks st : tracks st (tsys monotonic_ns) (fun t st' => st' = (t, false)).
Proof.
  intros s. unfold tsys. pose proof (ticks_clock (tty_world s)) as E.
  destruct (monotonic_ns (tty_world s)) as [t w]. exists [Reading t].
  split_and!; [exact E|by repeat constructor|constructor|done].
Qed.

Lemma write_loop_tracks n fd : forall data st,
  tracks st (ctl_write_loop n fd data)
    (fun r st' => 0 <= r -> data <> [] \/ st.2 = true -> st'.2 = true).
Proof.
  induction n as [|n IH]; intros data st; cbn [ctl_write_loop];
    (destruct (Z.eqb_spec (zlen data) 0) as [Hz|Hz];
     [eapply tracks_mono; [apply quiet_tracks, quiet_ret|];
      intros r st' -> _ [Hne|Hs]; [by destruct data; unfold zlen in Hz; cbn in Hz|done]|]).
  { by intros s. }
  eapply tracks_bind; [apply send_tracks|]. intros r st1 Hst1.
  assert (Hagain : forall data', tracks st1 (ctl_write_loop n fd data')
    (fun r st' => 0 <= r -> data <> [] \/ st.2 = true -> st'.2 = true)).
  { intros data'. eapply tracks_mono; [apply IH|]. cbv beta. auto. }
  assert (Hstop : tracks st1 (mret (-1)) (fun r st' => 0 <= r -> data <> [] \/ st.2 = true -> st'.2 = true)).
  { eapply tracks_mono; [apply quiet_tracks, quiet_ret|]. intros r' st' -> _ _. done. }
  destruct r as [count| | |]; auto. destruct (0 <? count); auto.
Qed.

(** A request that has been sent: the next wait is for its reply. *)
Lemma send_message_tracks st fd t p n :
  tracks st (ctl_send_message fuel fd t p n) (fun r st' => 0 <= r -> st'.2 = true).
Proof.
  assert (Hbad : forall st', tracks st' (mret (-1)) (fun r st' => 0 <= r -> st'.2 = true))
    by (intros st'; by apply tracks_ret).
  unfold ctl_send_message. destruct (_ <? _); [apply Hbad|].
  eapply tracks_bind; [apply clock_tracks|]. intros now st1 _.
  apply tracks_mem. intros hdr Eh. rewrite encode_header_blit, blit_full in Eh by done. injection Eh as <-.
  eapply tracks_bind; [apply write_loop_tracks|]. intros r st2 Hr. cbv beta in Hr.
  destruct (Z.ltb_spec r 0) as [Hneg|Hpos]; [apply Hbad|].
  assert (H2 : st2.2 = true) by (apply Hr; [done|]; by left).
  destruct (negb _); [|by apply tracks_ret].
  apply tracks_mem. intros bytes _. eapply tracks_bind; [apply write_loop_tracks|]. intros r2 st3 Hr2.
  cbv beta in Hr2. destruct (Z.ltb_spec r2 0); [apply Hbad|]. apply tracks_ret. auto.
Qed.

(** Reading a message waits, for at most READ_TIMEOUT_MS each time. *)
Lemma read_loop_tracks n fd st : (st.2 = true \/ ok st.1) -> forall l out,
  tracks st (ctl_read_loop n fd l READ_TIMEOUT_MS out) (fun _ st' => st' = st).
Proof.
  intros Hst. induction n as [|n IH]; intros l out; cbn [ctl_read_loop];
    (destruct (l =? 0); [by apply tracks_ret|]); [by intros s|].
  apply (tracks_bind ok _ _ _ (fun _ st' => st' = st)).
  { intros s. unfold tsys. pose proof (ticks_poll fd POLLIN READ_TIMEOUT_MS (tty_world s)) as E.
    destruct (sock_poll _ _ _ _) as [r w]. exists [Wait READ_TIMEOUT_MS].
    split_and!; [exact E|by repeat constructor| |done]. cbn. rewrite app_nil_r.
    destruct st as [now [|]]; cbn in *; [constructor|]. destruct Hst as [|Hok]; [done|].
    by repeat constructor. }
  intros [req err| | |] st' ->; [|by apply tracks_ret|apply IH|by apply tracks_ret].
  destruct err; [by apply tracks_ret|].
  eapply tracks_bind; [apply quiet_tracks, quiet_sys; intros w; apply ticks_recv|].
  intros [bytes| | |] st' ->; [|apply IH|by apply tracks_ret..].
  destruct (_ =? 0); [by apply tracks_ret|apply IH].
Qed.

Lemma read_message_tracks fd st : (st.2 = true \/ ok st.1) ->
  tracks st (ctl_read_message fuel fd READ_TIMEOUT_MS) (fun _ st' => st' = st).
Proof.
  intros Hst. unfold ctl_read_message, ctl_read_exact.
  eapply tracks_bind; [by apply read_loop_tracks|]. intros [r bytes] st' ->.
  destruct (r <? 0); [by apply tracks_ret|].
  apply tracks_mem. intros hb _. eapply tracks_bind; [apply quiet_tracks, quiet_dec|]. intros h st' ->.
  destruct h as [h|]; [|by apply tracks_ret]. destruct (_ || _); [by apply tracks_ret|].
  destruct (negb _); [|by apply tracks_ret].
  eapply tracks_bind; [by apply read_loop_tracks|]. intros [r2 bytes2] st' ->.
  apply tracks_mem. intros payload _. destruct (r2 <? 0); [by apply tracks_ret|].
  apply tracks_mem. intros b _. by apply tracks_ret.
Qed.

Lemma read_message_answered fd : answered (ctl_read_message fuel fd READ_TIMEOUT_MS).
Proof. intros n. apply read_message_tracks. by left. Qed.

(** A conversation that begins with a request. *)
Lemma request_prompt {A} fd t p n (a : A) (k : OM (tty W) A) :
  answered k ->
  prompt (r ← ctl_send_message fuel fd t p n; if r <? 0 then mret a else k).
Proof.
  intros Hk st. eapply tracks_bind; [apply send_message_tracks|]. intros r [now asked] Hr. cbn in Hr.
  destruct (Z.ltb_spec r 0); [by apply tracks_ret|]. rewrite (Hr ltac:(lia)).
  eapply tracks_mono; [apply Hk|done].
Qed.

Lemma request_page_prompt fd q r i : prompt (ctl_request_page fuel fd q r i).
Proof.
  unfold ctl_request_page. apply prompt_bind; [apply quiet_prompt, quiet_mem|]. intros [n request].
  apply request_prompt, answered_bind; [apply read_message_answered|].
  intros reply. apply quiet_answered. quiet_tac.
Qed.
End Tool.

Create HintDb prompt.
#[export] Hint Resolve request_page_prompt prompt_clock : prompt.

(** One step of a conversation that begins with a request or is not recorded. *)
Ltac prompt_step :=
  lazymatch goal with
  | |- prompt _ (_ ≫= _) => apply prompt_bind
  | |- prompt _ (match ?x with _ => _ end) => destruct x
  | |- forall _, _ => intros ?
  | |- prompt _ (let _ := _ in _) => cbv zeta
  | |- _ => first [solve [auto 2 with prompt]|apply quiet_prompt; solve [quiet_tac]]
  end.
Ltac prompt_tac := repeat prompt_step.

Section Conversation.
Context `{Catalog} {W : Type} `{K : !Clock W} `{N : !Socket W} `{HT : !TicksOk N K}
  `{SL : !Sleep W} `{HSL : !SleepTicks SL} (fuel : nat).

(** ** What is not recorded *)

Lemma store_entries_quiet es : forall j i c, quiet (store_entries (W := W) es j i c).
Proof. induction es as [|e es IH]; intros j i c; cbn [store_entries]; quiet_tac. Qed.
Lemma store_page_quiet us : forall j i c, quiet (ctl_store_page (W := W) us j i c).
Proof. induction us as [|u us IH]; intros j i c; cbn [ctl_store_page]; quiet_tac. Qed.
Lemma apply_updates_quiet us : forall c, quiet (ctl_apply_updates (W := W) us c).
Proof. induction us as [|u us IH]; intros c; cbn [ctl_apply_updates]; quiet_tac. Qed.
Lemma print_value_quiet c i p : quiet (print_signal_value (W := W) c i p).
Proof. unfold print_signal_value. quiet_tac. Qed.
Hint Resolve store_entries_quiet store_page_quiet apply_updates_quiet print_value_quiet : quiet.
Lemma print_matches_quiet c n : forall i, quiet (print_matches (W := W) c n i).
Proof. unfold print_matches, print_match. induction n as [|n IH]; intros i; quiet_tac. Qed.
Lemma stream_updates_quiet us : forall c, quiet (stream_updates (W := W) us c).
Proof. induction us as [|u us IH]; intros c; cbn [stream_updates]; quiet_tac. Qed.
Hint Resolve print_matches_quiet stream_updates_quiet : quiet.

(** ** Snapshots and subscription *)

Context (ok : Z -> Prop).
#[local] Abbreviation prompt := (prompt (W := W) ok).
#[local] Abbreviation answered := (answered (W := W) ok).

Lemma ctl_schema_loop_prompt n fd v h : forall i c, prompt (ctl_schema_loop fuel n fd v h i c).
Proof. induction n as [|n IH]; intros i c; cbn [ctl_schema_loop]; prompt_tac. Qed.
Lemma ctl_frame_loop_prompt n fd : forall i q, prompt (ctl_frame_loop fuel n fd i q).
Proof. induction n as [|n IH]; intros i q; cbn [ctl_frame_loop]; prompt_tac. Qed.
Lemma ctl_signal_loop_prompt n fd : forall i s q c, prompt (ctl_signal_loop fuel n fd i s q c).
Proof. induction n as [|n IH]; intros i s q c; cbn [ctl_signal_loop]; prompt_tac. Qed.
Hint Resolve ctl_schema_loop_prompt ctl_frame_loop_prompt ctl_signal_loop_prompt : prompt.
Lemma schema_prompt fd v h c : prompt (ctl_request_schema fuel fd v h c).
Proof. unfold ctl_request_schema. prompt_tac. Qed.
Lemma snapshot_prompt fd c q : prompt (request_complete_snapshot fuel fd c q).
Proof.
  unfold request_complete_snapshot, ctl_request_frame_snapshot, ctl_request_signal_snapshot. prompt_tac.
Qed.

Lemma subscription_loop_answered n fd : forall c q, answered (ctl_subscription_loop fuel n fd c q).
Proof.
  induction n as [|n IH]; intros c q; cbn [ctl_subscription_loop]; [by intros m s|].
  apply answered_bind; [apply read_message_answered|]. intros [[header payload]|];
    [|apply quiet_answered; quiet_tac].
  destruct (_ =? _); [apply quiet_answered; quiet_tac|]. destruct (_ =? _).
  { apply answered_bind; [apply quiet_answered; quiet_tac|]. intros [b|]; [|apply quiet_answered; quiet_tac].
    destruct (_ || _); [apply quiet_answered; quiet_tac|apply IH]. }
  destruct (_ =? _); [|apply quiet_answered; quiet_tac].
  apply answered_bind; [apply quiet_answered; quiet_tac|]. intros [b|]; [|apply quiet_answered; quiet_tac].
  destruct (_ || _); [apply quiet_answered; quiet_tac|].
  apply answered_bind; [apply quiet_answered; quiet_tac|]. intros [c'|]; [apply IH|apply quiet_answered; quiet_tac].
Qed.
Lemma subscription_prompt fd c q : prompt (ctl_complete_subscription fuel fd c q).
Proof. apply request_prompt, subscription_loop_answered. Qed.
Hint Resolve schema_prompt snapshot_prompt subscription_prompt : prompt.

Lemma stream_message_prompt fd h p s : prompt (stream_message fuel fd h p s).
Proof.
  unfold stream_message, stream_frames, stream_signals, stream_heartbeat, stream_resync. prompt_tac.
Qed.
Lemma stream_report_prompt s : prompt (stream_report s).
Proof. unfold stream_report. prompt_tac. Qed.
End Conversation.

(** ** The stream, and the whole of the program *)

(** Within [seconds] of [started], on the 64-bit clock. *)
Definition in_window (started seconds now : Z) : Prop :=
  u64 (now - started) < u64 (seconds * 1000000000).

Section Program.
Context `{Catalog} {W : Type} `{K : !Clock W} `{N : !Socket W} `{HT : !TicksOk N K}
  `{SL : !Sleep W} `{HSL : !SleepTicks SL} (fuel : nat).
Hint Resolve schema_prompt snapshot_prompt subscription_prompt : prompt.

Lemma stream_loop_prompt n fd started seconds : forall s,
  prompt (W := W) (in_window started seconds) (stream_loop fuel n fd started seconds s).
Proof.
  induction n as [|n IH]; intros s st; cbn [stream_loop];
    (eapply tracks_bind; [apply clock_tracks|]; intros now st' ->;
     destruct (Z.ltb_spec (u64 (now - started)) (u64 (seconds * 1000000000))) as [Hin|];
       [|by apply tracks_ret]); [by intros s'|].
  eapply tracks_bind; [apply read_message_tracks; by right|]. intros [[header payload]|] st' ->.
  2: { by apply quiet_prompt, quiet_fail. }
  eapply tracks_bind; [apply stream_message_prompt|]. intros [s'|] st1 _; [|by apply tracks_ret].
  eapply tracks_bind; [apply stream_report_prompt|]. intros s2 st2 _. apply IH.
Qed.

(** Some window of [seconds] has the beginnings of all waits that are not for a
    reply. *)
Definition windowed {A} (seconds : Z) (m : OM (tty W) A) : Prop :=
  forall st s, match m s with
  | Ok (_, s') => exists tr started, ticks (tty_world s') = ticks (tty_world s) ++ tr
      /\ Forall brief tr /\ Forall (in_window started seconds) (unasked st tr)
  | _ => True
  end.

Lemma prompt_windowed {A} started seconds (m : OM (tty W) A) :
  prompt (in_window started seconds) m -> windowed seconds m.
Proof.
  intros Hm st s. specialize (Hm st s). destruct (m s) as [[a s']| |]; [|done..].
  destruct Hm as (tr & H1 & H2 & H3 & _). by exists tr, started.
Qed.

Lemma windowed_bind {A B} seconds (m : OM (tty W) A) (f : A -> OM (tty W) B) :
  prompt (fun _ => False) m -> (forall a, windowed seconds (f a)) -> windowed seconds (m ≫= f).
Proof.
  intros Hm Hf st s. unfold mbind, OM_bind. specialize (Hm st s). destruct (m s) as [[a s1]| |]; [|done..].
  destruct Hm as (tr1 & E1 & H1 & H2 & _). specialize (Hf a (after st tr1) s1).
  destruct (f a s1) as [[b s2]| |]; [|done..]. destruct Hf as (tr2 & started & E2 & H3 & H4).
  exists (tr1 ++ tr2), started. rewrite E2, E1, unasked_app, <- (assoc_L (++)).
  split_and!; [done|by apply Forall_app|]. apply Forall_app. split; [|done].
  revert H2. by apply List.Forall_impl.
Qed.

Lemma quiet_windowed {A} seconds (m : OM (tty W) A) : quiet m -> windowed seconds m.
Proof. intros Hm. by apply (prompt_windowed 0), quiet_prompt. Qed.

Lemma windowed_then {A B} seconds (m : OM (tty W) A) (f : A -> OM (tty W) B) :
  windowed seconds m -> (forall a, quiet (f a)) -> windowed seconds (m ≫= f).
Proof.
  intros Hm Hf st s. unfold mbind, OM_bind. specialize (Hm st s). destruct (m s) as [[a s1]| |]; [|done..].
  specialize (Hf a s1). destruct (f a s1) as [[b s2]| |]; [|done..].
  destruct Hm as (tr & started & E & H1 & H2). exists tr, started. by rewrite Hf.
Qed.

Lemma ctl_stream_windowed fd seconds c q : windowed seconds (ctl_stream fuel fd seconds c q).
Proof.
  unfold ctl_stream. apply windowed_bind; [apply prompt_clock|]. intros started.
  apply windowed_then; [by eapply prompt_windowed, stream_loop_prompt|]. intros r. quiet_tac.
Qed.

(** Binds nest to the right. *)
Lemma windowed_assoc {A B C} seconds (m : OM (tty W) A) (k : A -> OM (tty W) B) (g : B -> OM (tty W) C) :
  windowed seconds ((m ≫= k) ≫= g) -> windowed seconds (m ≫= fun a => k a ≫= g).
Proof.
  intros Hm st s. specialize (Hm st s). unfold mbind, OM_bind in *. by destruct (m s) as [[a s1]| |].
Qed.

Lemma subscribed_windowed fd o c q : windowed (op_seconds o) (ctl_subscribed fuel fd o c q).
Proof.
  unfold ctl_subscribed. destruct (negb _); [apply quiet_windowed; quiet_tac|].
  apply windowed_bind; [apply quiet_prompt; quiet_tac|]. intros _. apply ctl_stream_windowed.
Qed.

Lemma welcomed_windowed fd o wel : windowed (op_seconds o) (ctl_welcomed fuel fd o wel).
Proof.
  unfold ctl_welcomed, allocate_catalog.
  apply windowed_bind; [apply quiet_prompt, quiet_print|]. intros _.
  apply windowed_bind; [apply quiet_prompt; quiet_tac|]. intros c.
  apply windowed_bind; [destruct c; prompt_tac|]. intros [c'|]; [|apply quiet_windowed; quiet_tac].
  apply windowed_bind; [apply snapshot_prompt|]. intros [[c2 q2]|]; [|apply quiet_windowed; quiet_tac].
  apply windowed_bind; [apply quiet_prompt; quiet_tac|]. intros _.
  apply windowed_bind; [apply subscription_prompt|]. intros [[c3 q3]|]; [|apply quiet_windowed; quiet_tac].
  apply subscribed_windowed.
Qed.

Lemma session_windowed fd o : windowed (op_seconds o) (ctl_session fuel fd o).
Proof.
  unfold ctl_session. apply windowed_bind; [apply quiet_prompt, quiet_mem|]. intros [n hello].
  apply windowed_assoc. apply windowed_bind; [apply request_prompt, read_message_answered|].
  intros [[header payload]|]; [|apply quiet_windowed; quiet_tac].
  destruct (negb _); [apply quiet_windowed; quiet_tac|].
  apply windowed_bind; [apply quiet_prompt, quiet_dec|]. intros [wel|]; [|apply quiet_windowed; quiet_tac].
  destruct (_ || _); [apply quiet_windowed; quiet_tac|apply welcomed_windowed].
Qed.

Lemma main_windowed args :
  windowed (match ctl_options args with inl o => op_seconds o | inr _ => 0 end) (ctl_main fuel args).
Proof.
  unfold ctl_main. destruct (ctl_options args) as [o|code]; [|apply quiet_windowed; quiet_tac].
  unfold ctl_connect_socket. apply windowed_bind; [apply quiet_prompt; quiet_tac|]. intros fd.
  destruct (fd <? 0); [apply quiet_windowed; quiet_tac|].
  apply windowed_bind; [apply quiet_prompt; quiet_tac|]. intros payload_ok.
  apply windowed_then; [|intros r; quiet_tac].
  destruct (negb _); [apply quiet_windowed; quiet_tac|apply session_windowed].
Qed.
End Program.
