(* ===== verification/CtlSession.v ===== *)
(** * The command line tool's session: src/roadcastctl.c, [request_schema] to
      [main]

    Every function returns, stays inside the arrays of the catalog whatever the
    peer sends, and opens and closes nothing; [main] closes what it opened. *)

From Stdlib Require Import String.
From S2P Require Import Prelude Effect Text Options Wire CatalogDefs Catalog SourceSession Sampler.
From S2P Require Import ClientDefs ClientOps ClientIo ClientConnect CtlDefs CtlOps CtlIo.

(** The arrays have the size of the catalog. *)
Definition catalog_ok (c : client_catalog_t) : Prop :=
  is_u32 (ct_signal_count c) /\ zlen (ct_schema c) = ct_signal_count c
  /\ zlen (ct_signals c) = ct_signal_count c /\ zlen (ct_matches c) = ct_signal_count c.

(** The catalog keeps its size and its filter. *)
Definition same_shape (c c' : client_catalog_t) : Prop :=
  catalog_ok c' /\ ct_signal_count c' = ct_signal_count c /\ ct_filter c' = ct_filter c.

Lemma same_shape_refl c : catalog_ok c -> same_shape c c.
Proof. done. Qed.

Lemma same_shape_trans c1 c2 c3 : same_shape c1 c2 -> same_shape c2 c3 -> same_shape c1 c3.
Proof. intros (_ & H1 & H2) (H3 & H4 & H5). split; [done|]. by rewrite H4, H5. Qed.

Lemma wr_zlen {A} (l : list A) i x :
  0 <= i < zlen l -> exists l', wr l i x = Ok l' /\ zlen l' = zlen l.
Proof.
  intros Hi. exists (<[Z.to_nat i := x]> l). split; [by apply wr_ok|]. apply zlen_insert.
Qed.

(** One signal, stored. *)
Definition with_signal (c : client_catalog_t) (u : roadcast_signal_update_t) : client_catalog_t :=
  c <| ct_signals := <[Z.to_nat (upd_index u) := upd_value u]> (ct_signals c) |>.

Lemma with_signal_shape c u : catalog_ok c -> same_shape c (with_signal c u).
Proof.
  intros (H1 & H2 & H3 & H4). split; [|done]. split_and!; try done. cbn. by rewrite zlen_insert.
Qed.

Section Session.
Context `{HC : CatalogOk} {W : Type} `{K : !Clock W} `{N : !Socket W} `{HN : !SocketOk N K}
  `{SL : !Sleep W} `{HS : !SleepOk SL} (fuel : nat).
Implicit Types (ls : list line) (w : W) (c : client_catalog_t).

(** What any part of a session does: it moves bytes and prints lines. *)
Definition after ls w (s : tty W) : Prop :=
  moved w (tty_world s) /\ ls `prefix_of` tty_lines s.

Lemma after_refl ls w : after ls w (mk_tty ls w).
Proof. split; [apply moved_refl|done]. Qed.

Lemma after_trans ls w ls1 w1 s : after ls w (mk_tty ls1 w1) -> after ls1 w1 s -> after ls w s.
Proof.
  intros [H1 H2] [H3 H4]. split; [by eapply moved_trans|]. by etrans.
Qed.

Lemma after_quiet ls w w' : traffic w w' [] [] -> after ls w (mk_tty ls w').
Proof. intros H. split; [by eapply moved_traffic|done]. Qed.

Lemma after_moved ls w w' : moved w w' -> after ls w (mk_tty ls w').
Proof. by split. Qed.

Lemma after_line ls w l : after ls w (mk_tty (ls ++ [l]) w).
Proof. split; [apply moved_refl|by apply prefix_app_r]. Qed.

Lemma after_budget ls w ls' w' : after ls w (mk_tty ls' w') -> (budget w' <= budget w)%nat.
Proof. intros [H _]. by apply moved_budget in H. Qed.

(** [m] returns, and its result satisfies [P]. *)
Definition returns {A} (m : OM (tty W) A) (P : A -> Prop) ls w : Prop :=
  owp m (fun a s => after ls w s /\ P a) (mk_tty ls w).

Lemma returns_ret {A} (a : A) (P : A -> Prop) ls w : P a -> returns (mret a) P ls w.
Proof. intros H. split; [apply after_refl|done]. Qed.

Lemma returns_bind {A B} (m : OM (tty W) A) (f : A -> OM (tty W) B) (P : A -> Prop) (Q : B -> Prop) ls w :
  returns m P ls w ->
  (forall a ls1 w1, after ls w (mk_tty ls1 w1) -> (budget w1 <= budget w)%nat -> P a ->
     returns (f a) Q ls1 w1) ->
  returns (m ≫= f) Q ls w.
Proof.
  intros Hm Hf. apply owp_bind. eapply owp_mono; [exact Hm|]. intros a [ls1 w1] [Ha HP].
  eapply owp_mono; [exact (Hf a ls1 w1 Ha (after_budget _ _ _ _ Ha) HP)|]. intros b s [Ha2 HQ].
  split; [by eapply after_trans|done].
Qed.

Lemma returns_mono {A} (m : OM (tty W) A) (P Q : A -> Prop) ls w :
  returns m P ls w -> (forall a, P a -> Q a) -> returns m Q ls w.
Proof. intros H HPQ. eapply owp_mono; [exact H|]. intros a s [H1 H2]. auto. Qed.

Lemma returns_mem {A B} (m : res A) a (f : A -> OM (tty W) B) Q ls w :
  m = Ok a -> returns (f a) Q ls w -> returns (omem m ≫= f) Q ls w.
Proof. intros -> H. exact H. Qed.

Lemma returns_dec {A B} (m : res A) (f : option A -> OM (tty W) B) Q ls w :
  no_ub m -> (forall a, m = Ok a -> returns (f (Some a)) Q ls w) ->
  (m = Fail -> returns (f None) Q ls w) -> returns (odec m ≫= f) Q ls w.
Proof. intros Hm H1 H2. apply owp_bind, owp_dec; auto. Qed.

Lemma returns_print {B} l (f : unit -> OM (tty W) B) Q ls w :
  returns (f tt) Q (ls ++ [l]) w -> returns (print_line l ≫= f) Q ls w.
Proof.
  intros H. apply owp_bind, owp_print. eapply owp_mono; [exact H|]. intros b s [Ha' HQ].
  split; [|done]. eapply after_trans; [apply after_line|exact Ha'].
Qed.

Lemma returns_sys {A B} (f : W -> A * W) (g : A -> OM (tty W) B) Q ls w :
  traffic w (f w).2 [] [] ->
  ((budget (f w).2 <= budget w)%nat -> returns (g (f w).1) Q ls (f w).2) ->
  returns (tsys f ≫= g) Q ls w.
Proof.
  intros T H. apply owp_bind, owp_tsys. eapply owp_mono; [apply H; by eapply traffic_budget|].
  intros b s [Ha' HQ]. split; [|done]. eapply after_trans; [by apply after_quiet|exact Ha'].
Qed.

Lemma returns_fail {A} text ls w (P : option A -> Prop) : P None -> returns (fail_with text) P ls w.
Proof. intros H. unfold fail_with. by apply returns_print, returns_ret. Qed.

(** ** Pages *)

Lemma returns_send fd type_ payload len ls w :
  (budget w < fuel)%nat -> len = zlen payload -> len <= ROADCAST_MAX_PAYLOAD ->
  returns (ctl_send_message fuel fd type_ payload len) (fun _ => True) ls w.
Proof.
  intros Hf Hl Hm. apply ctl_send_message_wp; [done..|]. intros r w' M. split; [by apply after_moved|done].
Qed.

(** A message uses up some of the budget. *)
Lemma returns_read {B} fd t (f : option (roadcast_header_t * list Z) -> OM (tty W) B) Q ls w :
  (budget w < fuel)%nat ->
  (forall h p w1, accepted (h, p) -> (budget w1 < budget w)%nat -> returns (f (Some (h, p))) Q ls w1) ->
  (forall w1, (budget w1 <= budget w)%nat -> returns (f None) Q ls w1) ->
  returns (ctl_read_message fuel fd t ≫= f) Q ls w.
Proof.
  intros Hf Hok Hbad. apply owp_bind, ctl_read_message_wp; [done|..].
  - intros h p w1 Ha T Hb. eapply owp_mono; [by apply Hok|]. intros b s [Ha' HQ]. split; [|done].
    eapply after_trans; [by eapply after_moved, moved_traffic|exact Ha'].
  - intros bs w1 T _. eapply owp_mono; [apply Hbad; by eapply traffic_budget|]. intros b s [Ha' HQ].
    split; [|done]. eapply after_trans; [by eapply after_moved, moved_traffic|exact Ha'].
Qed.

Lemma returns_page fd ask reply k ls w :
  (budget w < fuel)%nat ->
  returns (ctl_request_page fuel fd ask reply k)
    (fun r => match r with Some m => accepted m /\ type m.1 = reply | None => True end) ls w.
Proof.
  intros Hf. unfold ctl_request_page.
  eapply returns_mem; [rewrite encode_index_request_blit, blit_full; done|]. cbv beta iota zeta.
  eapply returns_bind; [by apply returns_send|]. intros r ls1 w1 A1 B1 _.
  destruct (r <? 0); [by apply returns_ret|]. apply returns_read; [lia|..].
  - intros h p w2 Ha B2. destruct (Z.eqb_spec (type h) reply) as [Ht|]; by apply returns_ret.
  - intros w2 B2. by apply returns_ret.
Qed.

(** ** The schema *)

Lemma returns_store_entries es : forall k i c ls w,
  catalog_ok c -> 0 <= k + i -> k + i + zlen es <= ct_signal_count c ->
  returns (store_entries es k i c) (same_shape c) ls w.
Proof.
  induction es as [|e es IH]; intros k i c ls w Hc Hi Hn; cbn [store_entries].
  { by apply returns_ret, same_shape_refl. }
  rewrite zlen_cons in Hn. pose proof (zlen_nonneg es). pose proof Hc as (H1 & H2 & H3 & H4).
  destruct (wr_zlen (ct_schema c) (k + i) e) as (schema' & Es & Hs); [lia|].
  eapply returns_mem; [exact Es|]. set (c1 := c <| ct_schema := schema' |>).
  assert (Hc1 : same_shape c c1) by (split; [|done]; unfold catalog_ok, c1; cbn; lia || split_and!; try done; lia).
  cbv beta zeta. fold c1. destruct (matches_filter _ _).
  - destruct (wr_zlen (ct_matches c) (k + i) 1) as (matches' & Em & Hm); [lia|].
    eapply returns_mem; [exact Em|]. apply returns_print.
    assert (Hc2 : same_shape c (c1 <| ct_matches := matches' |>)).
    { split; [|done]. destruct Hc1 as [(? & ? & ? & ?) _]. split_and!; try done. cbn. lia. }
    eapply returns_mono; [apply IH; [apply Hc2|lia|cbn; lia]|]. intros c'. by apply same_shape_trans.
  - eapply returns_mono; [apply IH; [apply Hc1|lia|cbn; lia]|]. intros c'. by apply same_shape_trans.
Qed.

(** [None], or a catalog of the same shape. *)
Definition reshaped c (r : option client_catalog_t) : Prop :=
  match r with Some c' => same_shape c c' | None => True end.

Lemma reshaped_trans c1 c2 r : same_shape c1 c2 -> reshaped c2 r -> reshaped c1 r.
Proof. destruct r; [|done]. apply same_shape_trans. Qed.

Lemma returns_schema_loop fd v h n : forall k c ls w,
  (budget w < fuel)%nat -> catalog_ok c -> 0 <= k <= ct_signal_count c ->
  ct_signal_count c - k <= Z.of_nat n ->
  returns (ctl_schema_loop fuel n fd v h k c) (reshaped c) ls w.
Proof.
  induction n as [|n IH]; intros k c ls w Hf Hc Hk Hn; cbn [ctl_schema_loop].
  all: destruct (Z.ltb_spec k (ct_signal_count c)) as [Hlt|Hge]; try lia.
  1,3: by apply returns_ret, same_shape_refl.
  eapply returns_bind; [by apply returns_page|]. intros r ls1 w1 A1 B1 Hr.
  destruct r as [[hd p]|]; [|by apply returns_ret].
  destruct Hr as [(Hh & _ & Hmax & Hlp & Hbp) _]. cbn [fst snd] in *. rewrite <- Hlp.
  assert (Hp64 : zlen p < 2 ^ 64) by (unfold ROADCAST_MAX_PAYLOAD in Hmax; lia).
  pose proof (decode_schema_chunk_exact p SCHEMA_CHUNK_ENTRY_CAP Hbp Hp64) as Hx.
  unfold decodes_exactly in Hx. apply returns_dec; [by intros E; rewrite E in Hx| |by intros _; apply returns_ret].
  intros ch E. rewrite E in Hx. destruct Hx as [[Hch Hcap] _].
  destruct (Z.eqb_spec (chunk_total_count ch) (ct_signal_count c)) as [H3|];
  destruct (Z.eqb_spec (chunk_start_index ch) k) as [H4|];
  destruct (Z.eqb_spec (zlen (chunk_entries ch)) 0) as [H5|H5]; cbn [negb];
  rewrite ?orb_true_r; try by apply returns_ret.
  destruct (_ || _); [by apply returns_ret|].
  assert (Hfit : k + zlen (chunk_entries ch) <= ct_signal_count c).
  { destruct Hch as (_ & _ & _ & _ & _ & Hlen & _). lia. }
  pose proof (zlen_nonneg (chunk_entries ch)).
  eapply returns_bind; [apply returns_store_entries; [done|lia|lia]|].
  intros c1 ls2 w2 A2 B2 Hc1. pose proof Hc1 as (Hok1 & Hn1 & _).
  pose proof Hc as (Hu & _). rewrite u32_id by (unfold is_u32 in *; lia).
  eapply returns_mono; [apply IH; [lia|done|lia|lia]|]. intros r. by apply reshaped_trans.
Qed.

Lemma returns_schema fd v h c ls w :
  (budget w < fuel)%nat -> catalog_ok c ->
  returns (ctl_request_schema fuel fd v h c) (reshaped c) ls w.
Proof.
  intros Hf Hc. unfold ctl_request_schema. pose proof Hc as (Hu & _).
  eapply returns_bind; [apply returns_schema_loop; [done|done|unfold is_u32 in Hu; lia|unfold is_u32 in Hu; lia]|].
  intros r ls1 w1 A1 B1 Hr. destruct r as [c'|]; [|by apply returns_ret].
  by apply returns_print, returns_ret.
Qed.

(** ** Snapshots *)

(** A page that starts where it was asked for lies inside the catalog. *)
Lemma page_fits total start count k :
  page_ok total start count -> start = k -> k < total -> is_u32 total -> k + count <= total.
Proof.
  unfold page_ok, is_u32, UINT32_MAX. intros [H|[H1 H2]] <- Hk Hu; lia.
Qed.

Lemma returns_frame_loop fd n : forall k q ls w,
  (budget w < fuel)%nat -> 0 <= k <= FRAME_COUNT -> FRAME_COUNT - k <= Z.of_nat n ->
  returns (ctl_frame_loop fuel n fd k q) (fun _ => True) ls w.
Proof.
  pose proof catalog_frames_bound as Hfb. unfold UINT16_MAX in Hfb.
  induction n as [|n IH]; intros k q ls w Hf Hk Hn; cbn [ctl_frame_loop].
  all: destruct (Z.ltb_spec k FRAME_COUNT) as [Hlt|Hge]; try lia.
  1,3: by apply returns_ret.
  eapply returns_bind; [by apply returns_page|]. intros r ls1 w1 A1 B1 Hr.
  destruct r as [[hd p]|]; [|by apply returns_ret].
  destruct Hr as [(Hh & _ & Hmax & Hlp & Hbp) _]. cbn [fst snd] in *. rewrite <- Hlp.
  pose proof (decode_frame_batch_exact p FRAME_COUNT Hbp) as Hx. unfold decodes_exactly in Hx.
  apply returns_dec; [by intros E; rewrite E in Hx| |by intros _; apply returns_ret].
  intros b E. rewrite E in Hx. destruct Hx as [[(_ & _ & _ & _ & Hpage & _) _] _].
  destruct (Z.eqb_spec (batch_total_count b) FRAME_COUNT) as [H3|];
  destruct (Z.eqb_spec (batch_start_index b) k) as [H4|];
  destruct (Z.eqb_spec (zlen (batch_items b)) 0) as [H5|H5]; cbn [negb orb]; try by apply returns_ret.
  destruct (_ && _); [by apply returns_ret|].
  pose proof (zlen_nonneg (batch_items b)).
  assert (Hfit : k + zlen (batch_items b) <= FRAME_COUNT).
  { rewrite H3 in Hpage. eapply page_fits; [exact Hpage|done|done|unfold is_u32; lia]. }
  rewrite u32_id by (unfold is_u32; lia). apply IH; lia.
Qed.

Lemma returns_store_page us : forall k i c ls w,
  catalog_ok c -> 0 <= k + i -> returns (ctl_store_page us k i c) (reshaped c) ls w.
Proof.
  induction us as [|u us IH]; intros k i c ls w Hc Hi; cbn [ctl_store_page].
  { by apply returns_ret, same_shape_refl. }
  destruct (Z.eqb_spec (upd_index u) (k + i)) as [Hu|]; cbn [negb orb]; [|by apply returns_ret].
  destruct (Z.leb_spec (ct_signal_count c) (upd_index u)); [by apply returns_ret|].
  pose proof Hc as (_ & _ & Hls & _).
  eapply returns_mem; [apply wr_ok; lia|]. fold (with_signal c u).
  pose proof (with_signal_shape c u Hc) as Hc1.
  eapply returns_mono; [apply IH; [apply Hc1|lia]|]. intros r. by apply reshaped_trans.
Qed.

Lemma returns_signal_loop fd sq cq n : forall k c ls w,
  (budget w < fuel)%nat -> catalog_ok c -> 0 <= k <= ct_signal_count c ->
  ct_signal_count c - k <= Z.of_nat n ->
  returns (ctl_signal_loop fuel n fd k sq cq c) (reshaped c) ls w.
Proof.
  induction n as [|n IH]; intros k c ls w Hf Hc Hk Hn; cbn [ctl_signal_loop].
  all: destruct (Z.ltb_spec k (ct_signal_count c)) as [Hlt|Hge]; try lia.
  1,3: by apply returns_ret, same_shape_refl.
  eapply returns_bind; [by apply returns_page|]. intros r ls1 w1 A1 B1 Hr.
  destruct r as [[hd p]|]; [|by apply returns_ret].
  destruct Hr as [(Hh & _ & Hmax & Hlp & Hbp) _]. cbn [fst snd] in *. rewrite <- Hlp.
  destruct (negb _); [by apply returns_ret|].
  pose proof (decode_signal_batch_exact p SIGNAL_CHUNK_UPDATE_CAP Hbp) as Hx. unfold decodes_exactly in Hx.
  apply returns_dec; [by intros E; rewrite E in Hx| |by intros _; apply returns_ret].
  intros b E. rewrite E in Hx. destruct Hx as [[(_ & _ & _ & _ & Hpage & _) _] _].
  destruct (Z.eqb_spec (batch_total_count b) (ct_signal_count c)) as [H3|];
  destruct (Z.eqb_spec (batch_start_index b) k) as [H4|];
  destruct (Z.eqb_spec (zlen (batch_items b)) 0) as [H5|H5]; cbn [negb];
  rewrite ?orb_true_r; try by apply returns_ret.
  destruct (_ || _); [by apply returns_ret|].
  pose proof (zlen_nonneg (batch_items b)). pose proof Hc as (Hu & _).
  assert (Hfit : k + zlen (batch_items b) <= ct_signal_count c).
  { rewrite H3 in Hpage. by eapply page_fits. }
  eapply returns_bind; [apply returns_store_page; [done|lia]|].
  intros r ls2 w2 A2 B2 Hc1. destruct r as [c1|]; [|by apply returns_ret].
  pose proof Hc1 as (Hok1 & Hn1 & _). rewrite u32_id by (unfold is_u32 in *; lia).
  eapply returns_mono; [apply IH; [lia|done|lia|lia]|]. intros r. by apply reshaped_trans.
Qed.

Lemma returns_print_value c k prefix ls w :
  catalog_ok c -> 0 <= k < ct_signal_count c ->
  returns (print_signal_value c k prefix) (fun _ => True) ls w.
Proof.
  intros (_ & H1 & H2 & _) Hk. unfold print_signal_value.
  destruct (rd_ok (ct_schema c) k) as (e & He & _); [lia|]. eapply returns_mem; [exact He|].
  destruct (rd_ok (ct_signals c) k) as (v & Hv & _); [lia|]. eapply returns_mem; [exact Hv|].
  apply owp_print. split; [apply after_line|done].
Qed.

Lemma returns_print_matches c n : forall k ls w,
  catalog_ok c -> 0 <= k -> k + Z.of_nat n <= ct_signal_count c ->
  returns (print_matches c n k) (fun _ => True) ls w.
Proof.
  induction n as [|n IH]; intros k ls w Hc Hk Hn; cbn [print_matches]; [by apply returns_ret|].
  eapply returns_bind with (P := fun _ => True).
  - unfold print_match. pose proof Hc as (_ & _ & _ & H4).
    destruct (rd_ok (ct_matches c) k) as (m & Hm & _); [lia|]. eapply returns_mem; [exact Hm|].
    destruct (negb _); [apply returns_print_value; [done|lia]|by apply returns_ret].
  - intros _ ls1 w1 _ _ _. apply IH; [done|lia|lia].
Qed.

Lemma returns_signal_snapshot fd sq cq c ls w :
  (budget w < fuel)%nat -> catalog_ok c ->
  returns (ctl_request_signal_snapshot fuel fd sq cq c) (reshaped c) ls w.
Proof.
  intros Hf Hc. unfold ctl_request_signal_snapshot. pose proof Hc as (Hu & _). unfold is_u32 in Hu.
  eapply returns_bind; [apply returns_signal_loop; [done|done|lia|lia]|].
  intros r ls1 w1 A1 B1 Hr. destruct r as [c'|]; [|by apply returns_ret].
  apply returns_print. eapply returns_bind with (P := fun _ => True).
  - destruct (ct_filter c'); [|by apply returns_ret].
    apply returns_print_matches; [apply Hr|lia|]. destruct Hr as (_ & -> & _). lia.
  - intros _ ls2 w2 _ _ _. by apply returns_ret.
Qed.

(** [None], or a catalog of the same shape with sequences. *)
Definition resnapped c (r : option (client_catalog_t * (Z * Z))) : Prop :=
  match r with Some (c', _) => same_shape c c' | None => True end.

Lemma resnapped_trans c1 c2 r : same_shape c1 c2 -> resnapped c2 r -> resnapped c1 r.
Proof. destruct r as [[]|]; [|done]. apply same_shape_trans. Qed.

Lemma returns_snapshot fd c q ls w :
  (budget w < fuel)%nat -> catalog_ok c ->
  returns (request_complete_snapshot fuel fd c q) (resnapped c) ls w.
Proof.
  intros Hf Hc. unfold request_complete_snapshot. pose proof catalog_nonempty as [Hpos _].
  eapply returns_bind; [apply returns_frame_loop; [done|lia|lia]|].
  intros [[sq cq]|] ls1 w1 A1 B1 _; [|by apply returns_ret].
  eapply returns_bind; [apply returns_signal_snapshot; [lia|done]|].
  intros [c'|] ls2 w2 A2 B2 Hr; by apply returns_ret.
Qed.

(** ** The subscription *)

Lemma returns_apply_updates us : forall c ls w,
  catalog_ok c -> Forall (fun u => 0 <= upd_index u) us ->
  returns (ctl_apply_updates us c) (reshaped c) ls w.
Proof.
  induction us as [|u us IH]; intros c ls w Hc Hus; cbn [ctl_apply_updates].
  { by apply returns_ret, same_shape_refl. }
  inversion_clear Hus as [|? ? Hu Hus'].
  destruct (Z.leb_spec (ct_signal_count c) (upd_index u)); [by apply returns_ret|].
  pose proof Hc as (_ & _ & Hls & _). eapply returns_mem; [apply wr_ok; lia|]. fold (with_signal c u).
  pose proof (with_signal_shape c u Hc) as Hc1.
  eapply returns_mono; [apply IH; [apply Hc1|done]|]. intros r. by apply reshaped_trans.
Qed.

Lemma updates_nonneg b : batch_ok update_ok b -> Forall (fun u => 0 <= upd_index u) (batch_items b).
Proof. intros (_ & _ & _ & _ & _ & H). revert H. apply Forall_impl. intros u [[Hu _] _]. exact Hu. Qed.

Lemma returns_subscription_loop fd n : forall c q ls w,
  (budget w < n)%nat -> (budget w < fuel)%nat -> catalog_ok c ->
  returns (ctl_subscription_loop fuel n fd c q) (resnapped c) ls w.
Proof.
  induction n as [|n IH]; intros c q ls w Hn Hf Hc; [lia|]. cbn [ctl_subscription_loop].
  apply returns_read; [done| |by intros w1 _; apply returns_ret].
  intros h p w1 (Hh & _ & Hmax & Hlp & Hbp) B1. cbn [fst snd] in *. rewrite <- Hlp.
  destruct (_ =? ROADCAST_MSG_SUBSCRIBED); [by apply returns_ret, same_shape_refl|].
  destruct (_ =? ROADCAST_MSG_UPDATE_BATCH).
  { pose proof (decode_frame_batch_exact p FRAME_COUNT Hbp) as Hx. unfold decodes_exactly in Hx.
    apply returns_dec; [by intros E; rewrite E in Hx| |by intros _; apply returns_ret].
    intros b _. destruct (_ || _); [by apply returns_ret|]. apply IH; [lia|lia|done]. }
  destruct (_ =? ROADCAST_MSG_SIGNAL_UPDATE_BATCH); [|by apply returns_ret].
  pose proof (decode_signal_batch_exact p SIGNAL_CHUNK_UPDATE_CAP Hbp) as Hx. unfold decodes_exactly in Hx.
  apply returns_dec; [by intros E; rewrite E in Hx| |by intros _; apply returns_ret].
  intros b E. rewrite E in Hx. destruct Hx as [[Hb _] _].
  destruct (_ || _); [by apply returns_ret|].
  eapply returns_bind; [apply returns_apply_updates; [done|by apply updates_nonneg]|].
  intros [c1|] ls2 w2 A2 B2 Hc1; [|by apply returns_ret].
  eapply returns_mono; [apply IH; [lia|lia|apply Hc1]|]. intros r. by apply resnapped_trans.
Qed.

Lemma returns_subscription fd c q ls w :
  (budget w < fuel)%nat -> catalog_ok c ->
  returns (ctl_complete_subscription fuel fd c q) (resnapped c) ls w.
Proof.
  intros Hf Hc. unfold ctl_complete_subscription.
  eapply returns_bind; [apply returns_send; [done|done|by vm_compute]|]. intros r ls1 w1 A1 B1 _.
  destruct (r <? 0); [by apply returns_ret|]. apply returns_subscription_loop; [lia|lia|done].
Qed.

(** ** The loop *)

Definition stream_ok (s : stream_t) : Prop := catalog_ok (ts_catalog s).
Definition streamed (r : option stream_t) : Prop := match r with Some s => stream_ok s | None => True end.

Lemma note_sequence_catalog q sq s : ts_catalog (note_sequence q sq s) = ts_catalog s.
Proof. unfold note_sequence. by destruct (observe_change_sequence _ _ _). Qed.

Lemma returns_stream_updates us : forall c ls w,
  catalog_ok c -> Forall (fun u => 0 <= upd_index u) us ->
  returns (stream_updates us c) (reshaped c) ls w.
Proof.
  induction us as [|u us IH]; intros c ls w Hc Hus; cbn [stream_updates].
  { by apply returns_ret, same_shape_refl. }
  inversion_clear Hus as [|? ? Hu Hus'].
  destruct (Z.leb_spec (ct_signal_count c) (upd_index u)); [by apply returns_fail|].
  pose proof Hc as (_ & _ & Hls & Hlm). eapply returns_mem; [apply wr_ok; lia|].
  cbv zeta. fold (with_signal c u). pose proof (with_signal_shape c u Hc) as Hc1.
  destruct (rd_ok (ct_matches (with_signal c u)) (upd_index u)) as (m & Hm & _); [cbn; lia|].
  eapply returns_mem; [exact Hm|]. eapply returns_bind with (P := fun _ => True).
  { destruct (negb _); [|by apply returns_ret]. apply returns_print_value; [apply Hc1|cbn; lia]. }
  intros _ ls1 w1 _ _ _.
  eapply returns_mono; [apply IH; [apply Hc1|done]|]. intros r. by apply reshaped_trans.
Qed.

Lemma returns_stream_message fd h p s ls w :
  (budget w < fuel)%nat -> accepted (h, p) -> stream_ok s ->
  returns (stream_message fuel fd h p s) streamed ls w.
Proof.
  intros Hf (Hh & _ & Hmax & Hlp & Hbp) Hs. cbn [fst snd] in *. unfold stream_message.
  destruct (_ =? ROADCAST_MSG_UPDATE_BATCH).
  { unfold stream_frames. rewrite <- Hlp. pose proof (decode_frame_batch_exact p FRAME_COUNT Hbp) as Hx.
    unfold decodes_exactly in Hx.
    apply returns_dec; [by intros E; rewrite E in Hx| |by intros _; apply returns_fail].
    intros b _. destruct (_ || _); [by apply returns_fail|]. apply returns_ret.
    unfold streamed, stream_ok. cbn. by rewrite note_sequence_catalog. }
  destruct (_ =? ROADCAST_MSG_SIGNAL_UPDATE_BATCH).
  { unfold stream_signals. rewrite <- Hlp.
    pose proof (decode_signal_batch_exact p SIGNAL_CHUNK_UPDATE_CAP Hbp) as Hx. unfold decodes_exactly in Hx.
    apply returns_dec; [by intros E; rewrite E in Hx| |by intros _; apply returns_fail].
    intros b E. rewrite E in Hx. destruct Hx as [[Hb _] _]. destruct (_ || _); [by apply returns_fail|].
    cbv zeta. cbn [ts_catalog set]. rewrite note_sequence_catalog.
    eapply returns_bind; [apply returns_stream_updates; [done|by apply updates_nonneg]|].
    intros [c'|] ls1 w1 _ _ Hc; apply returns_ret; [|done]. apply Hc. }
  destruct (_ =? ROADCAST_MSG_HEARTBEAT).
  { unfold stream_heartbeat. rewrite <- Hlp. pose proof (decode_heartbeat_exact p Hbp) as Hx.
    unfold decodes_exactly in Hx.
    apply returns_dec; [by intros E; rewrite E in Hx| |by intros _; apply returns_fail].
    intros b _. destruct (negb _); [by apply returns_fail|]. apply returns_ret.
    unfold streamed, stream_ok. by rewrite note_sequence_catalog. }
  destruct (_ =? ROADCAST_MSG_RESYNC_REQUIRED); [|by apply returns_fail].
  unfold stream_resync. eapply returns_bind; [by apply returns_snapshot|].
  intros [[c1 q1]|] ls1 w1 _ B1 Hc1; [|by apply returns_fail].
  eapply returns_bind; [apply returns_subscription; [lia|apply Hc1]|].
  intros [[c2 [sq cq]]|] ls2 w2 _ B2 Hc2; [|by apply returns_fail]. apply returns_ret, Hc2.
Qed.

Lemma returns_report s ls w :
  stream_ok s -> returns (stream_report s) stream_ok ls w.
Proof.
  intros Hs. unfold stream_report. apply returns_sys; [apply sock_clock_ok|]. intros _.
  cbv zeta. destruct (_ <=? _); [|by apply returns_ret]. by apply returns_print, returns_ret.
Qed.

Lemma returns_stream_loop fd started seconds n : forall s ls w,
  (budget w < n)%nat -> (budget w < fuel)%nat -> stream_ok s ->
  returns (stream_loop fuel n fd started seconds s) streamed ls w.
Proof.
  induction n as [|n IH]; intros s ls w Hn Hf Hs; [lia|]. cbn [stream_loop].
  apply returns_sys; [apply sock_clock_ok|]. intros B0. destruct (_ <? _); [|by apply returns_ret].
  apply returns_read; [lia| |by intros w1 _; apply returns_fail].
  intros h p w1 Hm B1. eapply returns_bind; [apply returns_stream_message; [lia|done|done]|].
  intros [s1|] ls2 w2 _ B2 Hs1; [|by apply returns_ret].
  eapply returns_bind; [by apply returns_report|]. intros s2 ls3 w3 _ B3 Hs2. apply IH; [lia|lia|done].
Qed.

(** ** [main] *)

Definition exit_code (r : Z) : Prop := 0 <= r <= 1.

Lemma returns_stream fd seconds c q ls w :
  (budget w < fuel)%nat -> catalog_ok c -> returns (ctl_stream fuel fd seconds c q) exit_code ls w.
Proof.
  intros Hf Hc. unfold ctl_stream. apply returns_sys; [apply sock_clock_ok|]. intros B0.
  eapply returns_bind; [by apply returns_stream_loop; [lia|lia|]|].
  unfold exit_code. intros [s|] ls1 w1 _ _ _; [apply returns_print|]; apply returns_ret; lia.
Qed.

Lemma returns_sleep n ls w : returns (tsys_ (sleep_seconds n)) (fun _ => True) ls w.
Proof. apply owp_tsys_. split; [apply after_quiet, sleep_ok|done]. Qed.

Lemma returns_subscribed fd o c q ls w :
  (budget w < fuel)%nat -> catalog_ok c -> returns (ctl_subscribed fuel fd o c q) exit_code ls w.
Proof.
  intros Hf Hc. unfold ctl_subscribed. destruct (negb _).
  - apply returns_print. eapply returns_bind; [apply returns_sleep|]. intros [] ls1 w1 _ _ _.
    apply returns_ret. unfold exit_code. lia.
  - eapply returns_bind with (P := fun _ => True).
    + destruct (negb _); [|by apply returns_ret]. apply returns_print, returns_sleep.
    + intros _ ls1 w1 _ B1 _. apply returns_stream; [lia|done].
Qed.

Lemma returns_allocate n filter ls w :
  is_u32 n ->
  returns (allocate_catalog n filter) (fun r => match r with Some c => catalog_ok c | None => True end) ls w.
Proof.
  intros Hn. unfold allocate_catalog. repeat (apply returns_sys; [apply sys_alloc_ok|]; intros _).
  destruct (_ || _); apply returns_ret; [done|]. unfold is_u32 in Hn.
  unfold catalog_ok, is_u32, zlen. cbn. rewrite !repeat_length. lia.
Qed.

Lemma returns_welcomed fd o wel ls w :
  (budget w < fuel)%nat -> is_u32 (wel_signal_count wel) ->
  returns (ctl_welcomed fuel fd o wel) exit_code ls w.
Proof.
  intros Hf Hn. unfold ctl_welcomed. apply returns_print.
  eapply returns_bind; [by apply returns_allocate|]. intros a ls1 w1 _ B1 Ha.
  eapply returns_bind with (P := fun r => match r with Some c => catalog_ok c | None => True end).
  { destruct a as [c|]; [|by apply returns_ret].
    eapply returns_mono; [apply returns_schema; [lia|done]|]. intros [c'|]; [|done]. apply (proj1 (A := _)). }
  intros [c|] ls2 w2 _ B2 Hc; [|apply returns_print, returns_ret; unfold exit_code; lia].
  eapply returns_bind; [apply returns_snapshot; [lia|done]|].
  intros [[c1 q1]|] ls3 w3 _ B3 Hc1; [|apply returns_print, returns_ret; unfold exit_code; lia].
  eapply returns_bind with (P := fun _ => True).
  { destruct (negb _); [apply returns_sleep|by apply returns_ret]. }
  intros _ ls4 w4 _ B4 _. eapply returns_bind; [apply returns_subscription; [lia|apply Hc1]|].
  intros [[c2 q2]|] ls5 w5 _ B5 Hc2; [|apply returns_print, returns_ret; unfold exit_code; lia].
  apply returns_subscribed; [lia|apply Hc2].
Qed.

Lemma returns_session fd o ls w :
  (budget w < fuel)%nat -> returns (ctl_session fuel fd o) exit_code ls w.
Proof.
  intros Hf. unfold ctl_session.
  eapply returns_mem; [rewrite encode_hello_blit, blit_full; done|]. cbv beta iota zeta.
  eapply returns_bind; [by apply returns_send|]. intros r ls1 w1 _ B1 _.
  assert (Hfail : forall text ls w, returns (print_line (Diagnostic text);; mret 1) exit_code ls w).
  { intros text ls2 w2. apply returns_print, returns_ret. unfold exit_code. lia. }
  eapply returns_bind with (P := fun r => match r with Some m => accepted m | None => True end).
  { destruct (r <? 0); [by apply returns_ret|].
    eapply owp_mono; [apply ctl_read_message_wp with (Q := fun r s => after ls1 w1 s
      /\ match r with Some m => accepted m | None => True end); [lia|..]|done].
    - intros h p w2 Ha T _. split; [|done]. by eapply after_moved, moved_traffic.
    - intros bs w2 T _. split; [|done]. by eapply after_moved, moved_traffic. }
  intros [[h p]|] ls2 w2 _ B2 Hm; [|apply Hfail].
  destruct Hm as (Hh & _ & Hmax & Hlp & Hbp). cbn [fst snd] in *. destruct (negb _); [apply Hfail|].
  rewrite <- Hlp. pose proof (decode_welcome_exact p Hbp) as Hx. unfold decodes_exactly in Hx.
  apply returns_dec; [by intros E; rewrite E in Hx| |by intros _; apply Hfail].
  intros wel E. rewrite E in Hx. destruct Hx as [(_ & _ & Hn & _) _].
  destruct (_ || _); [apply Hfail|]. apply returns_welcomed; [lia|done].
Qed.

Lemma ctl_connect_socket_wp name ls w (Q : Z -> tty W -> Prop) :
  (forall fd w', 0 <= fd -> fd ∉ descriptors w -> opens w w' [fd] -> Q fd (mk_tty ls w')) ->
  (forall w', opens w w' [] -> Q (-1) (mk_tty ls w')) ->
  owp (ctl_connect_socket name) Q (mk_tty ls w).
Proof.
  intros Hok Hbad. unfold ctl_connect_socket. ctl_steps.
  destruct (sock_socket_ok w) as (M1 & D1 & Hfresh).
  set (fd := (sock_socket w).1) in *. set (w1 := (sock_socket w).2) in *.
  destruct (Z.ltb_spec fd 0) as [Hneg|Hpos].
  { apply owp_ret, Hbad. destruct (Z.leb_spec 0 fd); [lia|]. by split. }
  destruct (Z.leb_spec 0 fd) as [_|]; [|lia]. assert (O1 : opens w w1 [fd]) by (by split).
  assert (Hclose : forall w', traffic w1 w' [] [] ->
    owp (tsys_ (sock_close fd);; mret (-1)) Q (mk_tty ls w')).
  { intros w' T. ctl_steps. apply Hbad. destruct (sock_close_ok fd w') as [M2 D2].
    destruct (opens_traffic _ _ _ _ O1 T) as [M3 D3]. split.
    - exact (moves_trans _ _ _ _ _ _ _ M3 M2).
    - rewrite D2, D3. by apply filter_fresh. }
  apply owp_bind, owp_dec.
  { change (no_ub (fill_unix_address name)). rewrite fill_unix_address_spec. by destruct (_ || _). }
  2: { intros _. apply Hclose, traffic_refl. }
  intros [path len] _. ctl_steps. pose proof (sock_connect_ok fd path len w1) as T3.
  destruct (sock_connect fd path len w1) as [[|  | | ] w3]; cbn [fst snd] in *; try by apply Hclose.
  apply owp_ret. apply Hok; [done|done|]. by eapply opens_traffic.
Qed.

(** The program exits, and leaves nothing open. *)
Lemma ctl_main_wp args ls w :
  (budget w < fuel)%nat ->
  owp (ctl_main fuel args) (fun code s =>
    descriptors (tty_world s) = descriptors w /\ ls `prefix_of` tty_lines s
    /\ match ctl_options args with
       | inr c => code = c /\ s = mk_tty (ls ++ [Usage]) w
       | inl _ => exit_code code
       end) (mk_tty ls w).
Proof.
  intros Hf. unfold ctl_main. destruct (ctl_options args) as [o|code].
  2: { ctl_steps. split; [done|]. split; [by apply prefix_app_r|done]. }
  apply owp_bind, ctl_connect_socket_wp.
  2: { intros w' [_ D]. cbn [Z.ltb Z.compare]. ctl_steps. split; [exact D|].
       split; [by apply prefix_app_r|unfold exit_code; lia]. }
  intros fd w1 Hfd Hfresh O1. destruct (Z.ltb_spec fd 0); [lia|]. ctl_steps.
  assert (B1 : (budget w1 <= budget w)%nat) by (destruct O1 as [(_ & _ & ?) _]; done).
  pose proof (sys_alloc_ok w1) as T2. pose proof (traffic_budget _ _ _ _ T2).
  set (w2 := (sys_alloc w1).2) in *. pose proof (opens_traffic _ _ _ _ O1 T2) as [_ D2].
  assert (Hses : returns (if negb (sys_alloc w1).1 then mret 1 else ctl_session fuel fd o) exit_code ls w2).
  { destruct (negb _); [apply returns_ret; unfold exit_code; lia|]. apply returns_session. lia. }
  eapply owp_mono; [exact Hses|]. intros r [ls3 w3] [[M3 P3] Hr]. cbn [tty_world tty_lines] in *. ctl_steps.
  apply moved_descriptors in M3. destruct (sock_close_ok fd w3) as [_ D4].
  split; [|done]. cbn [tty_world]. rewrite D4, M3, D2. by apply filter_fresh.
Qed.
End Session.
