(* ===== verification/CtlFollows.v ===== *)
(** * The command line tool against the daemon

    The loop of the tool on the messages the daemon sends to a subscriber: every
    message is taken, no gap in the sequences is counted, and the signals the tool
    keeps are those of the daemon. *)

From Stdlib Require Import String.
From S2P Require Import Prelude Effect Text Options Wire CatalogDefs Catalog SourceSession Sampler.
From S2P Require Import ServerDefs ServerOps ServerQueue ServerClient Replica ServerCatchup.
From S2P Require Import ServerInput DaemonOps Distribute Broadcast Daemon Heartbeat Events.
From S2P Require Import ClientDefs ClientOps ClientIo ClientCache ClientFollows.
From S2P Require Import CtlDefs CtlOps CtlIo CtlSession.

Section Follows.
Context `{HC : CatalogOk}.
Implicit Types s : stream_t.

(** ** One message *)

Definition count_frames (n : Z) s : stream_t :=
  s <| ts_frame_batches := u64 (ts_frame_batches s + 1) |>
    <| ts_changed_frames := u64 (ts_changed_frames s + n) |>.

Definition count_signals (n : Z) s : stream_t :=
  s <| ts_signal_batches := u64 (ts_signal_batches s + 1) |>
    <| ts_changed_signals := u64 (ts_changed_signals s + n) |>.

(** What a message of updates or a heartbeat makes of the tool's state; [None]: it
    is refused. *)
Definition live_stream s (m : msg) : option stream_t :=
  if type m.1 =? ROADCAST_MSG_UPDATE_BATCH then
    match roadcast_decode_frame_batch m.2 (payload_bytes m.1) FRAME_COUNT with
    | Ok b =>
        if delta b FRAME_COUNT then
          Some (count_frames (zlen (batch_items b))
                  (note_sequence (sequence m.1) (batch_sample_sequence b) s))
        else None
    | _ => None
    end
  else if type m.1 =? ROADCAST_MSG_SIGNAL_UPDATE_BATCH then
    match roadcast_decode_signal_batch m.2 (payload_bytes m.1) SIGNAL_CHUNK_UPDATE_CAP with
    | Ok b =>
        if delta b (ct_signal_count (ts_catalog s)) then
          vs ← replace_signals (ct_signals (ts_catalog s)) (batch_items b);
          let s := count_signals (zlen (batch_items b))
                     (note_sequence (sequence m.1) (batch_sample_sequence b) s) in
          Some (s <| ts_catalog := (ts_catalog s) <| ct_signals := vs |> |>)
        else None
    | _ => None
    end
  else if type m.1 =? ROADCAST_MSG_HEARTBEAT then
    match roadcast_decode_heartbeat m.2 (payload_bytes m.1) with
    | Ok h =>
        if hb_change_sequence h =? sequence m.1
        then Some (note_sequence (hb_change_sequence h) (hb_sample_sequence h) s) else None
    | _ => None
    end
  else None.

Section Run.
Context {W : Type} `{K : !Clock W} `{N : !Socket W} `{HN : !SocketOk N K} `{SL : !Sleep W} (fuel : nat).
Implicit Types (ls : list line) (w : W).

(** Lines are printed and nothing else happens. *)
Definition printed ls w (t : tty W) : Prop := tty_world t = w /\ ls `prefix_of` tty_lines t.

Lemma owp_dec_ok {A B} (m : res A) a (f : option A -> OM (tty W) B) Q t :
  m = Ok a -> owp (f (Some a)) Q t -> owp (odec m ≫= f) Q t.
Proof. intros -> H. exact H. Qed.

Lemma print_value_run c k prefix ls w :
  catalog_ok c -> 0 <= k < ct_signal_count c ->
  owp (print_signal_value c k prefix) (fun _ => printed ls w) (mk_tty ls w).
Proof.
  intros (_ & H1 & H2 & _) Hk. unfold print_signal_value.
  destruct (rd_ok (ct_schema c) k) as (e & He & _); [lia|]. apply owp_bind. eapply owp_mem; [exact He|].
  destruct (rd_ok (ct_signals c) k) as (v & Hv & _); [lia|]. apply owp_bind. eapply owp_mem; [exact Hv|].
  apply owp_print. split; [done|by apply prefix_app_r].
Qed.

Lemma stream_updates_run us : forall c vs ls w,
  catalog_ok c -> Forall (fun u => 0 <= upd_index u) us ->
  replace_signals (ct_signals c) us = Some vs ->
  owp (stream_updates us c)
    (fun r t => r = Some (c <| ct_signals := vs |>) /\ printed ls w t) (mk_tty ls w).
Proof.
  induction us as [|u us IH]; intros c vs ls w Hc Hus H; cbn [stream_updates].
  { injection H as <-. apply owp_ret. split; [by destruct c|done]. }
  inversion_clear Hus as [|? ? Hu Hus']. pose proof Hc as (_ & _ & Hls & Hlm).
  cbn [replace_signals] in H. unfold replace_signal in H.
  destruct (Z.ltb_spec (upd_index u) (zlen (ct_signals c))) as [Hlt|]; [|done]. cbn [mbind option_bind] in H.
  destruct (Z.leb_spec (ct_signal_count c) (upd_index u)); [lia|].
  apply owp_bind. eapply owp_mem; [apply wr_ok; lia|]. cbv zeta. fold (with_signal c u).
  pose proof (with_signal_shape c u Hc) as [Hc1 _].
  destruct (rd_ok (ct_matches (with_signal c u)) (upd_index u)) as (m & Hm & _); [cbn; lia|].
  apply owp_bind. eapply owp_mem; [exact Hm|]. apply owp_bind.
  eapply owp_mono with (P := fun _ => printed ls w).
  { destruct (negb _); [|by apply owp_ret]. apply print_value_run; [done|cbn; lia]. }
  intros _ [ls1 w1] [Ew Hp]. cbn in Ew, Hp. subst w1.
  eapply owp_mono; [exact (IH (with_signal c u) vs ls1 w Hc1 Hus' H)|].
  intros r t [-> [Hw Hp']]. split; [done|]. split; [done|]. by etrans.
Qed.

Lemma stream_message_run fd h p s s' ls w :
  accepted (h, p) -> stream_ok s -> live_stream s (h, p) = Some s' ->
  owp (stream_message fuel fd h p s) (fun r t => r = Some s' /\ printed ls w t) (mk_tty ls w).
Proof.
  intros (Hh & _ & Hmax & Hlp & Hbp) Hs. cbn [fst snd] in *. unfold live_stream, stream_message. cbn [fst snd].
  destruct (_ =? ROADCAST_MSG_UPDATE_BATCH).
  { unfold stream_frames. destruct (roadcast_decode_frame_batch _ _ _) as [b| |] eqn:E; [|done..].
    unfold delta. intros Hl. apply owp_dec_ok with b; [done|]. cbv beta iota zeta.
    destruct (_ =? FRAME_COUNT); [|done]. destruct (_ =? UINT32_MAX); [|done].
    cbn [andb negb orb] in *. injection Hl as <-. by apply owp_ret. }
  destruct (_ =? ROADCAST_MSG_SIGNAL_UPDATE_BATCH).
  { unfold stream_signals. rewrite <- Hlp.
    pose proof (decode_signal_batch_exact p SIGNAL_CHUNK_UPDATE_CAP Hbp) as Hx. unfold decodes_exactly in Hx.
    destruct (roadcast_decode_signal_batch _ _ _) as [b| |] eqn:Ed; [|done..]. destruct Hx as [[Hb _] _].
    unfold delta. intros Hl. apply owp_dec_ok with b; [done|]. revert Hl. cbv beta iota zeta. destruct (Z.eqb_spec (batch_total_count b) (ct_signal_count (ts_catalog s))); [|done].
    destruct (_ =? UINT32_MAX); [|done]. cbn [andb].
    destruct (replace_signals _ _) as [vs|] eqn:E; [|done]. intros [= <-].
    cbn [negb orb].
    apply owp_bind. unfold count_signals. cbn [ts_catalog set]. rewrite !note_sequence_catalog.
    eapply owp_mono; [exact (stream_updates_run _ _ vs ls w Hs (updates_nonneg b Hb) E)|].
    intros r t [-> Hp]. by split. }
  destruct (_ =? ROADCAST_MSG_HEARTBEAT); [|done].
  unfold stream_heartbeat. destruct (roadcast_decode_heartbeat _ _) as [b| |] eqn:E; [|done..].
  intros Hl. apply owp_dec_ok with b; [done|]. cbv beta iota zeta.
  destruct (_ =? _); [|done]. injection Hl as <-. by apply owp_ret.
Qed.
End Run.

(** ** The messages of the daemon *)

(** The tool has the signals of the catalog. *)
Definition tool_mirrors s : Prop := stream_ok s /\ ct_signal_count (ts_catalog s) = SIGNAL_COUNT.

(** The same, but for the signals, the last sequence [q] and the counts of the
    report. *)
Definition advanced s (q : Z) s' : Prop :=
  tool_mirrors s' /\ ts_sequence_gaps s' = ts_sequence_gaps s /\ ts_resyncs s' = ts_resyncs s
  /\ ts_last_change_sequence s' = q.

Lemma note_sequence_next q sq s :
  q = ts_last_change_sequence s \/ q = u64 (ts_last_change_sequence s + 1) ->
  ts_sequence_gaps (note_sequence q sq s) = ts_sequence_gaps s
  /\ ts_resyncs (note_sequence q sq s) = ts_resyncs s
  /\ ts_last_change_sequence (note_sequence q sq s) = q.
Proof.
  intros Hq. unfold note_sequence, observe_change_sequence.
  destruct (Z.eqb_spec q (ts_last_change_sequence s)) as [->|Hne]; [done|].
  destruct Hq as [Hq|Hq]; [done|]. by rewrite <- Hq, Z.eqb_refl, andb_false_r.
Qed.

Lemma signal_batch_small b :
  batch_ok update_ok b -> zlen (signal_batch_bytes b) <= PAYLOAD_CAP ->
  zlen (batch_items b) <= SIGNAL_CHUNK_UPDATE_CAP.
Proof.
  intros _ Hsz. unfold signal_batch_bytes in Hsz. rewrite zlen_app, zlen_batch_prefix in Hsz.
  rewrite (zlen_concat _ ROADCAST_SIGNAL_WIRE_SIZE), zlen_map in Hsz.
  - change PAYLOAD_CAP with 2016 in Hsz.
    unfold ROADCAST_BATCH_PREFIX_SIZE, ROADCAST_SIGNAL_WIRE_SIZE, SIGNAL_CHUNK_UPDATE_CAP in *. lia.
  - apply Forall_map, Forall_forall. intros u _. apply zlen_signal_bytes.
Qed.

Lemma daemon_message_ok t q ts p :
  is_u16 t -> is_u64 q -> is_u64 ts -> zlen p <= PAYLOAD_CAP -> bytes_ok p ->
  message_ok ROADCAST_MAX_PAYLOAD (mk_header ROADCAST_PROTOCOL_VERSION t 0 (zlen p) q ts, p).
Proof.
  intros Ht Hq Hts Hp Hb. pose proof (zlen_nonneg p). change PAYLOAD_CAP with 2016 in Hp.
  unfold message_ok, header_ok. cbn [fst snd version type flags payload_bytes sequence timestamp_ns].
  split_and!; try done;
    unfold is_u16, is_u32, is_u64, ROADCAST_PROTOCOL_VERSION, ROADCAST_MAX_PAYLOAD in *; lia.
Qed.

(** The tool takes a live message, and its signals follow the replica. *)
Lemma live_message_streamed s R bytes :
  tool_mirrors s -> live_message bytes -> rep_signals R = ct_signals (ts_catalog s) ->
  message_sequence bytes = ts_last_change_sequence s
  \/ message_sequence bytes = u64 (ts_last_change_sequence s + 1) ->
  exists m s', wire m = bytes /\ message_ok ROADCAST_MAX_PAYLOAD m
    /\ live_stream s m = Some s' /\ advanced s (message_sequence bytes) s'
    /\ rep_signals (apply_message R bytes) = ct_signals (ts_catalog s').
Proof.
  intros Hm Hlive HR Hq. pose proof Hm as [Hs Hcount]. pose proof Hs as (Hs1 & Hs2 & Hs3 & Hs4).
  destruct Hlive as [q ts b Hq1 Hts Hb Ht Hst Hin Hfc Hsz|q ts b Hq1 Hts Hb Ht Hst Hin Hsz|q ts h Hq1 Hts Hh Hqe];
    revert Hq; rewrite message_sequence_bytes by (done || by vm_compute); intros Hq.
  - eexists (mk_header ROADCAST_PROTOCOL_VERSION ROADCAST_MSG_UPDATE_BATCH 0 (zlen (frame_batch_bytes b)) q ts,
      frame_batch_bytes b), _. split; [done|].
    split; [by apply daemon_message_ok; [by vm_compute| | | |apply frame_batch_bytes_ok]|]. split.
    { unfold live_stream. cbn [fst snd type payload_bytes sequence].
      rewrite (decode_frame_batch_has _ _ FRAME_COUNT b Hb (has_self _) eq_refl).
      destruct (Z.ltb_spec FRAME_COUNT (zlen (batch_items b))); [lia|].
      unfold delta. rewrite Ht, Hst, !Z.eqb_refl. cbn [andb]. reflexivity. }
    destruct (note_sequence_next q (batch_sample_sequence b) s Hq) as (N1 & N2 & N3).
    rewrite apply_frames_message by done. unfold advanced, tool_mirrors, stream_ok, count_frames.
    cbn. rewrite !note_sequence_catalog. done.
  - destruct (note_sequence_next q (batch_sample_sequence b) s Hq) as (N1 & N2 & N3).
    eexists (mk_header ROADCAST_PROTOCOL_VERSION ROADCAST_MSG_SIGNAL_UPDATE_BATCH 0
      (zlen (signal_batch_bytes b)) q ts, signal_batch_bytes b), _. split; [done|].
    split; [by apply daemon_message_ok; [by vm_compute| | | |apply signal_batch_bytes_ok]|]. split.
    { unfold live_stream. cbn [fst snd type payload_bytes sequence Z.eqb].
      rewrite (decode_signal_batch_has _ _ SIGNAL_CHUNK_UPDATE_CAP b Hb (has_self _) eq_refl).
      pose proof (signal_batch_small b Hb Hsz).
      destruct (Z.ltb_spec SIGNAL_CHUNK_UPDATE_CAP (zlen (batch_items b))); [lia|].
      unfold delta. rewrite Ht, Hst, Hcount, !Z.eqb_refl. cbn [andb].
      rewrite replace_signals_total by (by rewrite Hs3, Hcount). cbn [mbind option_bind]. reflexivity. }
    rewrite apply_signals_message by done. unfold advanced, tool_mirrors, stream_ok, count_signals.
    cbn. rewrite !note_sequence_catalog, <- HR. split; [|done]. split; [|done]. split; [|done].
    split_and!; try done. cbn. rewrite HR.
    assert (Hlen : forall us vs, zlen (fold_left apply_signal us vs) = zlen vs).
    { induction us as [|u us IH]; intros vs; cbn; [done|]. rewrite IH. apply zlen_insert. }
    by rewrite Hlen.
  - assert (Hsz : zlen (heartbeat_bytes h) <= PAYLOAD_CAP) by (change (40 <= PAYLOAD_CAP); by vm_compute).
    destruct (note_sequence_next q (hb_sample_sequence h) s Hq) as (N1 & N2 & N3).
    eexists (mk_header ROADCAST_PROTOCOL_VERSION ROADCAST_MSG_HEARTBEAT 0 (zlen (heartbeat_bytes h)) q ts,
      heartbeat_bytes h), _. split; [done|].
    split; [by apply daemon_message_ok; [by vm_compute| | | |apply heartbeat_bytes_ok]|]. split.
    { unfold live_stream.
      change (type _ =? ROADCAST_MSG_UPDATE_BATCH) with false.
      change (type _ =? ROADCAST_MSG_SIGNAL_UPDATE_BATCH) with false.
      change (type _ =? ROADCAST_MSG_HEARTBEAT) with true. cbn [fst snd payload_bytes sequence].
      rewrite (decode_heartbeat_bytes h Hh), Hqe, Z.eqb_refl. reflexivity. }
    rewrite apply_other_message by (done || by vm_compute).
    unfold advanced, tool_mirrors, stream_ok. rewrite !note_sequence_catalog. done.
Qed.

(** ** The loop on the daemon's stream *)

Lemma accepted_unique m n x r :
  accepted m -> message_ok ROADCAST_MAX_PAYLOAD n -> (wire m ++ x) `prefix_of` wire n ++ r ->
  m = n /\ x `prefix_of` r.
Proof.
  intros Hm Hn [y E]. pose proof Hm as (Hh & Hv & Hmax & Hl & Hb).
  assert (Hmn : m = n).
  { assert (Hp : wire n `prefix_of` header_bytes m.1 ++ (m.2 ++ x ++ y)).
    { exists r. rewrite E. unfold wire. by rewrite <- !(assoc_L (++)). }
    destruct (wire_header n m.1 _ _ Hn Hh Hmax Hp) as [E1 [z Ez]].
    destruct Hn as (_ & _ & _ & _ & _ & Hl' & _). rewrite E1 in Hl'.
    apply app_inj_1 in Ez as [Ez _]; [|unfold zlen in *; lia]. destruct m, n. cbn in *. congruence. }
  split; [done|]. subst n. rewrite <- (assoc_L (++)) in E. apply app_inv_head in E. by exists y.
Qed.

(** The next message of the stream is the one the tool takes. *)
Lemma next_streamed s R m x bs q' :
  tool_mirrors s -> Forall live_message bs -> in_sequence (ts_last_change_sequence s) bs q' ->
  rep_signals R = ct_signals (ts_catalog s) -> accepted m -> (wire m ++ x) `prefix_of` concat bs ->
  exists b bs' s1, bs = b :: bs' /\ wire m = b /\ live_stream s m = Some s1
    /\ advanced s (message_sequence b) s1
    /\ rep_signals (apply_message R b) = ct_signals (ts_catalog s1).
Proof.
  intros Hm Hbs Hq HR Hacc Hp. destruct Hbs as [|b bs Hb Hbs].
  { apply prefix_nil_inv in Hp. by destruct (wire_not_nil m x). }
  destruct (live_message_streamed s R b Hm Hb HR (proj1 Hq)) as (n & s1 & Hw & Hok & Hl & Hadv & HR').
  cbn [concat] in Hp. rewrite <- Hw in Hp. destruct (accepted_unique m n x (concat bs) Hacc Hok Hp) as [<- _].
  by exists b, bs, s1.
Qed.

Lemma owp_conj {X A} (m : OM X A) P Q t :
  owp m P t -> owp m Q t -> owp m (fun a t' => P a t' /\ Q a t') t.
Proof. unfold owp. destruct (m t) as [[a t']| |]; [|done..]. by split. Qed.

Section Loop.
Context {W : Type} `{K : !Clock W} `{N : !Socket W} `{HN : !SocketOk N K}
  `{SL : !Sleep W} `{HS : !SleepOk SL} (fuel : nat).
Implicit Types (ls : list line) (w : W).

Definition read_failed : line := Diagnostic "Read failed or heartbeat timed out".

(** The outcome of the loop, when it has received a part of the messages [bs]: it
    stopped between two of them with their effect and no gap counted, or a read
    failed. *)
Definition followed s w (bs : list (list Z)) (R : replica) (r : option stream_t) (t : tty W) : Prop :=
  forall got, received (tty_world t) = received w ++ got -> got `prefix_of` concat bs ->
  match r with
  | Some s' => exists bs1, bs1 `prefix_of` bs /\ got = concat bs1
      /\ in_sequence (ts_last_change_sequence s) bs1 (ts_last_change_sequence s')
      /\ advanced s (ts_last_change_sequence s') s'
      /\ rep_signals (fold_left apply_message bs1 R) = ct_signals (ts_catalog s')
  | None => exists before, tty_lines t = before ++ [read_failed]
  end.

(** The report touches nothing that follows the daemon. *)
Definition same_progress s s' : Prop :=
  ts_catalog s' = ts_catalog s /\ ts_sequence_gaps s' = ts_sequence_gaps s
  /\ ts_resyncs s' = ts_resyncs s /\ ts_last_change_sequence s' = ts_last_change_sequence s.

Lemma stream_report_run s ls w :
  owp (stream_report s) (fun s' t => same_progress s s' /\ traffic w (tty_world t) [] []) (mk_tty ls w).
Proof.
  unfold stream_report. ctl_steps. pose proof (sock_clock_ok w).
  destruct (_ <=? _); ctl_steps; by split.
Qed.

Lemma followed_next s s1 s2 w w2 m b bs R r t :
  wire m = b -> received w2 = received w ++ b ->
  (message_sequence b = ts_last_change_sequence s
   \/ message_sequence b = u64 (ts_last_change_sequence s + 1)) ->
  advanced s (message_sequence b) s1 -> same_progress s1 s2 ->
  (exists got, received (tty_world t) = received w2 ++ got) ->
  followed s2 w2 bs (apply_message R b) r t -> followed s w (b :: bs) R r t.
Proof.
  intros Hw Hrec Hseq ((_ & _) & Hg1 & Hr1 & Hl1) (_ & Hg2 & Hr2 & Hl2) [got2 Hgot2] Hf got Hgot Hp.
  assert (E : got = b ++ got2).
  { rewrite Hgot2, Hrec, <- (assoc_L (++)) in Hgot. by apply app_inv_head in Hgot. }
  subst got. cbn [concat] in Hp. apply prefix_app_inv in Hp. specialize (Hf got2 Hgot2 Hp).
  destruct r as [s'|]; [|done]. destruct Hf as (bs1 & Hpre & -> & Hq & (Ha1 & Ha2 & Ha3 & _) & HR).
  exists (b :: bs1). split; [by apply prefix_cons|]. split; [done|]. split.
  { cbn [in_sequence]. split; [done|]. by rewrite <- Hl1, <- Hl2. }
  split; [|done]. split; [done|]. split_and!; [congruence|congruence|done].
Qed.

Lemma same_progress_mirrors s1 s2 : same_progress s1 s2 -> tool_mirrors s1 -> tool_mirrors s2.
Proof. intros (E & _) [H1 H2]. unfold tool_mirrors, stream_ok. by rewrite E. Qed.

Lemma stream_loop_follows fd started seconds n : forall s ls w,
  (budget w < n)%nat -> (budget w < fuel)%nat -> stream_ok s ->
  owp (stream_loop fuel n fd started seconds s)
    (fun r t => forall bs q' R, tool_mirrors s -> Forall live_message bs ->
       in_sequence (ts_last_change_sequence s) bs q' -> rep_signals R = ct_signals (ts_catalog s) ->
       followed s w bs R r t) (mk_tty ls w).
Proof.
  induction n as [|n IH]; intros s ls w Hn Hf Hs; [lia|]. cbn [stream_loop]. ctl_steps.
  pose proof (sock_clock_ok w) as T0. pose proof (traffic_budget _ _ _ _ T0). set (w0 := (monotonic_ns w).2) in *.
  assert (R0 : received w0 = received w) by (destruct T0 as [(_ & E & _) _]; by rewrite app_nil_r in E).
  destruct (_ <? _).
  2: { apply owp_ret. intros bs q' R Hm _ _ HR got Hgot _. cbn in Hgot. rewrite R0 in Hgot.
       exists []. split; [apply prefix_nil|]. split; [by apply (app_inv_head (received w)); rewrite app_nil_r|].
       cbn. done. }
  ctl_steps. apply ctl_read_message_wp; [lia|..].
  2: { intros bs0 w1 _ _. ctl_steps. unfold fail_with. ctl_steps. intros bs q' R _ _ _ _ got _ _.
       by exists ls. }
  intros h p w1 Hacc T1 B1. cbv beta iota zeta.
  assert (R1 : received w1 = received w ++ wire (h, p)) by (destruct T1 as [(_ & E & _) _]; by rewrite E, R0).
  destruct (live_stream s (h, p)) as [s1|] eqn:El.
  - (* a live message *)
    apply owp_bind. eapply owp_mono.
    { apply owp_conj; [exact (stream_message_run fuel fd h p s s1 ls w1 Hacc Hs El)|].
      apply (returns_stream_message fuel fd h p s ls w1); [lia|done|done]. }
    intros r [ls1 w1'] [[-> [Ew _]] [_ Hs1]]. cbn in Ew, Hs1. subst w1'. apply owp_bind.
    eapply owp_mono; [exact (stream_report_run s1 ls1 w1)|]. intros s2 [ls2 w2] [Hsame T2]. cbn [tty_world] in T2.
    assert (R2 : received w2 = received w ++ wire (h, p)).
    { destruct T2 as [(_ & E & _) _]. by rewrite E, app_nil_r. }
    pose proof (traffic_budget _ _ _ _ T2).
    assert (Hs2 : stream_ok s2) by (unfold stream_ok; by rewrite (proj1 Hsame)).
    eapply owp_mono.
    { apply owp_conj; [apply (IH s2 ls2 w2); [lia|lia|done]|].
      apply (returns_stream_loop fuel fd started seconds n s2 ls2 w2); [lia|lia|done]. }
    intros r t [Hfol [[(o & inn & [(_ & Hin & _) _]) _] _]] bs q' R Hm Hbs Hq HR got Hgot Hp.
    assert (Egot : got = wire (h, p) ++ inn).
    { rewrite Hin, R2, <- (assoc_L (++)) in Hgot. by apply app_inv_head in Hgot. }
    destruct (next_streamed s R (h, p) inn bs q') as (b & bs' & s1' & -> & Hw & Hl & Hadv & HR');
      try done; [by rewrite <- Egot|].
    rewrite El in Hl. injection Hl as <-. inversion_clear Hbs as [|? ? Hb Hbs'].
    destruct Hq as [Hq1 Hq2].
    refine (followed_next s s1 s2 w w2 (h, p) b bs' R r t Hw _ Hq1 Hadv Hsame _ _ got Hgot Hp).
    + by rewrite R2, Hw.
    + by exists inn.
    + pose proof Hadv as (Hm1 & _ & _ & Hl1). pose proof Hsame as (Ec & _ & _ & Hl2).
      apply (Hfol bs' q'); [by eapply same_progress_mirrors|done| |by rewrite Ec].
      by rewrite Hl2, Hl1.
  - (* any other message does not come from the daemon *)
    eapply owp_mono.
    { apply (returns_bind (stream_message fuel fd h p s) _ streamed streamed);
        [apply returns_stream_message; [lia|done|done]|].
      intros [s1|] ls1 w2 _ B2 Hs1; [|by apply returns_ret].
      eapply returns_bind; [by apply returns_report|]. intros s2 ls3 w3 _ B3 Hs2.
      apply returns_stream_loop; [lia|lia|done]. }
    intros r t [[(o & inn & [(_ & Hin & _) _]) _] _] bs q' R Hm Hbs Hq HR got Hgot Hp. exfalso.
    assert (Egot : got = wire (h, p) ++ inn).
    { rewrite Hin, R1, <- (assoc_L (++)) in Hgot. by apply app_inv_head in Hgot. }
    destruct (next_streamed s R (h, p) inn bs q') as (b & bs' & s1' & _ & _ & Hl & _); try done;
      [by rewrite <- Egot|congruence].
Qed.
End Loop.
End Follows.
