(* ===== verification/CtlTheorems.v ===== *)
(** * The command line tool: theorems

    The claims on src/roadcastctl.c: the options, the program as a whole, and the
    program on the daemon's stream, with a concrete conversation. *)

From Stdlib Require Import String.
From S2P Require Import Prelude Effect Text Options Wire CatalogDefs CatalogData Catalog SourceSession.
From S2P Require Import Sampler ServerDefs ServerOps ServerQueue ServerClient Replica ServerCatchup.
From S2P Require Import ServerInput Host ServerTheorems DaemonOps Distribute Broadcast Daemon.
From S2P Require Import Heartbeat Events DaemonTheorems ClientDefs ClientOps ClientIo ClientCache.
From S2P Require Import ClientSync ClientFollows ClientPace ClientHost ClientTheorems.
From S2P Require Import CtlDefs CtlOps CtlIo CtlPace CtlSession CtlFollows.

(** ** The options *)

Definition options_in_range (o : ctl_options_t) : Prop :=
  1 <= op_seconds o <= 3600 /\ 0 <= op_stall_seconds o <= 3600 /\ 0 <= op_pause_seconds o <= 3600
  /\ 0 <= op_subscribe_delay_seconds o <= 3600
  /\ (op_stall_seconds o = 0 \/ op_pause_seconds o = 0).

(** An option with a number, left out when it is 0. *)
Definition timed_option (option_ : string) (n : Z) : list (list Z) :=
  if n =? 0 then [] else [c_bytes option_; decimal n].

(** A command line for the options. *)
Definition option_args (o : ctl_options_t) : list (list Z) :=
  [c_bytes "--socket"; op_socket_name o]
  ++ match op_signal_filter o with Some f => [c_bytes "--signal"; f] | None => [] end
  ++ timed_option "--seconds" (op_seconds o)
  ++ timed_option "--stall-after-subscribe" (op_stall_seconds o)
  ++ timed_option "--pause-after-subscribe" (op_pause_seconds o)
  ++ timed_option "--delay-before-subscribe" (op_subscribe_delay_seconds o).

Lemma parse_timed n : 1 <= n <= 3600 -> parse_positive_int (decimal n) 1 3600 = Some n.
Proof. intros Hn. apply parse_positive_int_decimal; unfold LONG_MIN, LONG_MAX; lia. Qed.

(** A timed option sets its field and nothing else. *)
Lemma parse_timed_option option_ set_ n rest o :
  0 <= n <= 3600 ->
  (forall value rest o, parse_options (c_bytes option_ :: value :: rest) o
     = match parse_positive_int value 1 3600 with
       | Some n => parse_options rest (set_ n o)
       | None => inr 2
       end) ->
  parse_options (timed_option option_ n ++ rest) o
  = parse_options rest (if n =? 0 then o else set_ n o).
Proof.
  intros Hn Hset. unfold timed_option. destruct (Z.eqb_spec n 0); [done|]. cbn [app].
  by rewrite Hset, parse_timed by lia.
Qed.

(** What the parser keeps. *)
Definition fields_in_range (o : ctl_options_t) : Prop :=
  1 <= op_seconds o <= 3600 /\ 0 <= op_stall_seconds o <= 3600 /\ 0 <= op_pause_seconds o <= 3600
  /\ 0 <= op_subscribe_delay_seconds o <= 3600.

Lemma parse_options_range n : forall args o, (length args <= n)%nat -> fields_in_range o ->
  match parse_options args o with
  | inl o' => fields_in_range o'
  | inr code => code = 2 \/ code = 0 /\ c_bytes "--help" ∈ args
  end.
Proof.
  induction n as [|n IH]; intros args o Hl Ho; destruct args as [|arg rest]; cbn [length] in Hl; try done;
    [lia|].
  assert (Hnum : forall set_, (forall k, 1 <= k <= 3600 -> fields_in_range (set_ k)) ->
    match (match rest with
      | value :: rest => match parse_positive_int value 1 3600 with
          | Some n => parse_options rest (set_ n) | None => inr 2 end
      | [] => inr 2 end) with
    | inl o' => fields_in_range o'
    | inr code => code = 2 \/ code = 0 /\ c_bytes "--help" ∈ arg :: rest
    end).
  { intros set_ Hset. destruct rest as [|value rest]; [by left|].
    destruct (parse_positive_int value 1 3600) as [k|] eqn:E; [|by left].
    apply parse_positive_int_range in E. specialize (IH rest (set_ k)). cbn [length] in Hl.
    destruct (parse_options rest (set_ k)); [apply IH; [lia|by apply Hset]|].
    destruct IH as [->|[-> Hin]]; [lia|by apply Hset|by left|right]. split; [done|]. by do 2 right. }
  assert (Hstr : forall set_, (forall v, fields_in_range (set_ v)) ->
    match (match rest with
      | value :: rest => parse_options rest (set_ value)
      | [] => inr 2 end) with
    | inl o' => fields_in_range o'
    | inr code => code = 2 \/ code = 0 /\ c_bytes "--help" ∈ arg :: rest
    end).
  { intros set_ Hset. destruct rest as [|value rest]; [by left|].
    specialize (IH rest (set_ value)). cbn [length] in Hl.
    destruct (parse_options rest (set_ value)); [apply IH; [lia|by apply Hset]|].
    destruct IH as [->|[-> Hin]]; [lia|by apply Hset|by left|right]. split; [done|]. by do 2 right. }
  cbn [parse_options].
  repeat (case_bool_decide; [first
    [ apply Hstr; intros ?; exact Ho
    | apply Hnum; intros ? ?; revert Ho; unfold fields_in_range; cbn; lia
    | subst arg; right; split; [done|by left] ]|]).
  by left.
Qed.

(** C40: the options.  What the tool accepts is in the documented ranges, with at
    most one of the two waits; every such choice of options has a command line
    that gives exactly it; a command line is refused with exit code 2, or with 0
    if it asks for help. *)
Theorem ctl_options_exact :
  (forall args, match ctl_options args with
     | inl o => options_in_range o
     | inr code => code = 2 \/ code = 0 /\ c_bytes "--help" ∈ args
     end)
  /\ (forall o, options_in_range o -> ctl_options (option_args o) = inl o).
Proof.
  split.
  - intros args. unfold ctl_options.
    pose proof (parse_options_range (length args) args default_options ltac:(lia)) as H.
    assert (Hd : fields_in_range default_options) by (unfold fields_in_range; cbn; unfold DEFAULT_SECONDS; lia).
    specialize (H Hd). destruct (parse_options args default_options) as [o|code]; [|exact H].
    unfold fields_in_range, options_in_range in *.
    destruct (Z.eqb_spec (op_stall_seconds o) 0), (Z.eqb_spec (op_pause_seconds o) 0); cbn [negb andb];
      first [by left|split_and!; lia].
  - intros o (Hs & Hst & Hp & Hd & Hor). unfold ctl_options, option_args.
    assert (E : forall rest o1, parse_options (c_bytes "--socket" :: op_socket_name o :: rest) o1
      = parse_options rest (o1 <| op_socket_name := op_socket_name o |>)) by done.
    cbn [app]. rewrite E.
    assert (Ef : forall rest o1, op_signal_filter o1 = None ->
      parse_options (match op_signal_filter o with Some f => [c_bytes "--signal"; f] | None => [] end ++ rest) o1
      = parse_options rest (o1 <| op_signal_filter := op_signal_filter o |>)).
    { intros rest o1 H1. destruct (op_signal_filter o) as [f|]; [done|]. cbn [app].
      destruct o1. cbn in H1. by subst. }
    rewrite Ef by done.
    rewrite (parse_timed_option "--seconds" (fun n o => o <| op_seconds := n |>)) by (done || lia).
    rewrite (parse_timed_option "--stall-after-subscribe" (fun n o => o <| op_stall_seconds := n |>))
      by (done || lia).
    rewrite (parse_timed_option "--pause-after-subscribe" (fun n o => o <| op_pause_seconds := n |>))
      by (done || lia).
    rewrite <- (app_nil_r (timed_option "--delay-before-subscribe" _)).
    rewrite (parse_timed_option "--delay-before-subscribe"
      (fun n o => o <| op_subscribe_delay_seconds := n |>)) by (done || lia).
    cbn [parse_options]. destruct o as [nm f s st p d]. cbn in *.
    destruct (Z.eqb_spec s 0); [lia|].
    destruct (Z.eqb_spec st 0), (Z.eqb_spec p 0), (Z.eqb_spec d 0); cbn; subst; cbn; try done;
      repeat match goal with H : ?n <> 0 |- context [?n =? 0] => rewrite (proj2 (Z.eqb_neq n 0) H) end;
      first [done|lia].
Qed.

(** ** The program *)

Lemma ctl_options_seconds args o : ctl_options args = inl o -> 1 <= op_seconds o <= 3600.
Proof.
  unfold ctl_options. pose proof (parse_options_range (length args) args default_options ltac:(lia)) as Hr.
  assert (Hd : fields_in_range default_options) by (unfold fields_in_range; cbn; unfold DEFAULT_SECONDS; lia).
  specialize (Hr Hd). destruct (parse_options args default_options) as [o'|c]; [|done].
  destruct (_ && _); [done|]. intros [= <-]. apply Hr.
Qed.

Section Program.
Context `{HC : CatalogOk} {W : Type} `{K : !Clock W} `{N : !Socket W} `{HN : !SocketOk N K}
  `{SL : !Sleep W} `{HS : !SleepOk SL}.

(** C11: the tool, with any arguments, against a peer that sends any bytes but not
    for ever.  The hypothesis is that the bytes the peer sends and the calls that
    the kernel interrupts are finitely many ([budget]); the code has no other bound
    on a peer that keeps sending updates before SUBSCRIBED.  Then the tool exits:
    it accesses no memory outside its buffers and its catalog, the exit code is 0,
    1 or 2, no descriptor is left open, and nothing that was printed is lost.  When
    the arguments are refused it prints the usage and does nothing else.  Against
    any peer no wait is asked to last longer than the read timeout of three
    seconds, and the tool starts to wait for a message that is not the reply to a
    request of its own only at readings of the clock within --seconds of one
    moment, the beginning of its stream. *)
Theorem ctl_returns `{HT : !TicksOk N K} `{HSL : !SleepTicks SL} (fuel : nat) (args : list (list Z)) (ls : list line) (w : W) :
  (budget w < fuel)%nat ->
  exists code ls' w',
    ctl_main fuel args (mk_tty ls w) = Ok (code, mk_tty ls' w')
    /\ descriptors w' = descriptors w
    /\ ls `prefix_of` ls'
    /\ match ctl_options args with
       | inr c => code = c /\ (c = 0 \/ c = 2) /\ ls' = ls ++ [Usage] /\ w' = w
       | inl _ => 0 <= code <= 1
       end
    /\ exists tr, ticks w' = ticks w ++ tr /\ Forall brief tr
         /\ forall o, ctl_options args = inl o -> exists started,
              Forall (fun now => u64 (now - started) < op_seconds o * 1000000000)
                (unasked (0, false) tr).
Proof.
  intros Hf. pose proof (main_windowed fuel args (0, false) (mk_tty ls w)) as Hp. revert Hp.
  destruct (owp_run _ _ _ (ctl_main_wp fuel args ls w Hf)) as (code & [ls' w'] & Hrun & D & P & H).
  rewrite Hrun. intros (tr & started & Etr & Hb & Hw). cbn [tty_world] in Etr.
  exists code, ls', w'. split; [done|]. split; [exact D|]. split; [exact P|].
  apply and_comm. split.
  { exists tr. split; [exact Etr|]. split; [exact Hb|]. intros o Eo. exists started. rewrite Eo in Hw.
    revert Hw. apply List.Forall_impl. intros now. unfold in_window, u64.
    destruct (ctl_options_seconds args o Eo). rewrite (Z.mod_small (op_seconds o * _)); lia. }
  unfold ctl_options in *. pose proof (parse_options_range (length args) args default_options ltac:(lia)) as Hr.
  assert (Hd : fields_in_range default_options) by (unfold fields_in_range; cbn; unfold DEFAULT_SECONDS; lia).
  specialize (Hr Hd). destruct (parse_options args default_options) as [o|c].
  - destruct (_ && _); [|exact H]. destruct H as [-> [= -> ->]]. tauto.
  - destruct H as [-> [= -> ->]]. tauto.
Qed.
End Program.

(** ** The tool on the daemon's stream *)

Lemma live_message_not_nil `{Catalog} b : live_message b -> b <> [].
Proof. by destruct 1. Qed.

(** A part of a list of messages that has all of their bytes has all of them. *)
Lemma prefix_concat_all `{Catalog} bs1 bs :
  Forall live_message bs -> bs1 `prefix_of` bs -> concat bs1 = concat bs -> bs1 = bs.
Proof.
  intros Hbs [rest ->] E. rewrite concat_app in E.
  assert (E0 : concat rest = []) by (apply (app_inv_head (concat bs1)); by rewrite app_nil_r).
  apply Forall_app in Hbs as [_ Hrest]. destruct Hrest as [|b rest Hb _]; [by rewrite app_nil_r|].
  cbn [concat] in E0. apply app_eq_nil in E0 as [-> _]. by apply live_message_not_nil in Hb.
Qed.

(** The messages determine the last sequence. *)
Lemma in_sequence_end ms : forall q q1 q2, in_sequence q ms q1 -> in_sequence q ms q2 -> q1 = q2.
Proof.
  induction ms as [|m ms IH]; intros q q1 q2 H1 H2; cbn [in_sequence] in *; [congruence|].
  eapply IH; [apply H1|apply H2].
Qed.

Section Composition.
Context `{HC : CatalogOk} {V W : Type} `{K : !Clock W} `{U : !Uv W} `{HU : !UvOk U K}
  `{S : !VhalSource V W} `{HS : !VhalSourceOk S} `{HA : !Apart S HU}.
Context {X : Type} `{KX : !Clock X} `{N : !Socket X} `{HN : !SocketOk N KX} `{SL : !Sleep X}
  `{HSL : !SleepOk SL}.

(** C6: tool and daemon together.  Let the tool be a live subscriber in slot [i]
    whose signals and last sequence agree with the daemon.  Across any events of
    the daemon in which the tool sends nothing, either the daemon cuts the tool
    off, or the tool's loop, which receives some part of what the daemon has sent
    since, returns: it has counted no gap and no resynchronization, and when the
    part is the whole, its signals and its last sequence agree with the daemon's
    new state; or a read has failed and it says so.  No message of the daemon is
    refused. *)
Theorem tool_follows_daemon (fuel : nat) (d d' : daemon V W) es i slot s fd started seconds ls (w : X) :
  daemon_ok d -> clients d !! i = Some slot -> live slot ->
  tool_mirrors s ->
  synced signal_differs [] (ct_signals (ts_catalog s)) (sv_signals (server d)) ->
  ts_last_change_sequence s = change_sequence (server d) ->
  steps d es d' -> silent i es -> (budget w < fuel)%nat ->
  (exists r ls' w', stream_loop fuel fuel fd started seconds s (mk_tty ls w) = Ok (r, mk_tty ls' w')
     /\ forall bs got,
          sent (world d') (Z.of_nat i) = sent (world d) (Z.of_nat i) ++ bs ->
          received w' = received w ++ got -> got `prefix_of` concat bs ->
          match r with
          | Some s' =>
              ts_sequence_gaps s' = ts_sequence_gaps s /\ ts_resyncs s' = ts_resyncs s
              /\ (got = concat bs ->
                    synced signal_differs [] (ct_signals (ts_catalog s')) (sv_signals (server d'))
                    /\ ts_last_change_sequence s' = change_sequence (server d'))
          | None => exists before, ls' = before ++ [read_failed]
          end)
  \/ exists es1 d1 es2, es = es1 ++ es2 /\ steps d es1 d1 /\ cut_at d1 i.
Proof.
  intros Hok Hslot Hlive Hm Hsig Hseq Hs Hsil Hf.
  destruct (steps_follow i es d d' slot Hs Hok Hsil Hslot Hlive)
    as [(slot' & ms & _ & _ & Hst & Hms & Hq & HR)|Hcut]; [left|by right].
  destruct (owp_run _ _ _ (stream_loop_follows fuel fd started seconds fuel s ls w Hf Hf (proj1 Hm)))
    as (r & [ls' w'] & Hrun & Hfol).
  exists r, ls', w'. split; [exact Hrun|]. intros bs got Hbs Hrec Hpre.
  rewrite Hst in Hbs. apply app_inv_head in Hbs as <-.
  set (R := mk_replica (sv_frames (server d)) (ct_signals (ts_catalog s))).
  rewrite <- Hseq in Hq. specialize (Hfol ms _ R Hm Hms Hq eq_refl got Hrec Hpre).
  destruct r as [s'|]; [|exact Hfol].
  destruct Hfol as (bs1 & Hp1 & -> & Hq1 & (_ & Hg & Hr & _) & Hsg).
  split; [exact Hg|]. split; [exact Hr|]. intros E.
  rewrite (prefix_concat_all _ _ Hms Hp1 E) in Hq1, Hsg.
  split; [|exact (in_sequence_end _ _ _ _ Hq1 Hq)]. rewrite <- Hsg. apply HR.
  destruct (ok_array d Hok) as ((_ & _ & Hids & _) & _). split; [exact Hids|]. split; [|exact Hsig].
  apply synced_refl. intros f. by apply frame_differs_false.
Qed.
End Composition.

(** ** A conversation *)

#[export] Instance script_sleep : Sleep script := fun _ s => s.

#[export] Instance script_sleep_ticks : SleepTicks script_sleep.
Proof. done. Qed.

#[export] Instance script_sleep_ok : SleepOk script_sleep.
Proof. intros n w. apply traffic_refl. Qed.

Lemma ctl_options_exact_witness :
  let o := mk_ctl_options [47; 116] (Some [65]) 7 0 5 3600 in
  options_in_range o /\ ctl_options (option_args o) = inl o.
Proof.
  intros o. assert (Ho : options_in_range o) by (unfold options_in_range; cbn; lia).
  split; [exact Ho|]. apply ctl_options_exact, Ho.
Defined.

(** A catalog of two frames and one signal, for the replies of [sdk_replies]. *)
Definition pair_catalog : Catalog := {|
  CAN_IDS := [0x85; 0x1a0];
  SIGNALS := [mk_def 1 "A" "" [mk_part 0 0 8] UINT32_MAX 0x85 0 1 8 0 0 0 0];
  SCHEMA_HASH := 4242;
|}.

Lemma pair_catalog_ok : CatalogOk pair_catalog.
Proof.
  split.
  - vm_compute. reflexivity.
  - vm_compute. reflexivity.
  - apply (bool_decide_eq_true_1 (NoDup (@CAN_IDS pair_catalog))). vm_compute. reflexivity.
  - vm_compute. discriminate.
  - vm_compute. discriminate.
  - split; vm_compute; reflexivity.
  - split; vm_compute; [discriminate|reflexivity].
Qed.

(** The tool connects, downloads the catalog and the values, shows the signals
    whose name contains "B", subscribes, takes an update of a frame and stops
    after its second. *)
Definition ctl_demo_args : list (list Z) :=
  map c_bytes ["--socket"; "@road"; "--signal"; "B"; "--seconds"; "1"]%string.

Definition ctl_demo_world : script :=
  mk_script (wires (sdk_replies ++ [sdk_update])) [] [] [] 400 50 600000000 [].

Definition ctl_demo_lines : list line :=
  [ Welcome_line 60 2 2 8 200 3;
    Schema_entry_line (sdk_entry 1 [66]);
    Schema_line 1 2 4242;
    Snapshot_line 2 2 8 9;
    Signal_line "signal" 1 (sdk_entry 1 [66]) (mk_value 4 0 5 7 2 0);
    Stream_line 1200000000 1 0 1 0 10 0 0;
    Summary_line 0 0 ].

#[local] Instance text_eq_dec : EqDecision string := string_dec.

#[export] Instance line_eq_dec : EqDecision line.
Proof. solve_decision. Defined.

Lemma ctl_returns_witness :
  exists w', @ctl_main pair_catalog script _ _ _ 500 ctl_demo_args (mk_tty [] ctl_demo_world)
             = Ok (0, mk_tty ctl_demo_lines w')
    /\ descriptors w' = [].
Proof.
  destruct (ctl_returns (HC := pair_catalog_ok) 500 ctl_demo_args [] ctl_demo_world)
    as (code & ls & w' & Hrun & Hd & _); [cbn; lia|].
  assert (Hr : match @ctl_main pair_catalog script _ _ _ 500 ctl_demo_args (mk_tty [] ctl_demo_world) with
    | Ok (r, s) => (r =? 0) && bool_decide (tty_lines s = ctl_demo_lines) | _ => false end = true)
    by (vm_compute; reflexivity).
  rewrite Hrun in Hr. apply andb_prop in Hr as [H1 H2]. apply Z.eqb_eq in H1. subst code.
  apply bool_decide_eq_true_1 in H2. cbn [tty_lines] in H2. subst ls.
  exists w'. split; [exact Hrun|exact Hd].
Defined.

(** The tool as a subscriber of [demo_daemon], and the heartbeat it is sent. *)
Definition demo_tool : stream_t :=
  let n := length (@SIGNALS generated_catalog) in
  mk_stream (mk_catalog (repeat zero_schema_entry n) fake_signals (repeat 0 n)
               (@SIGNAL_COUNT generated_catalog) None)
    1 0 50 0 0 0 0 0 0 1 0.

Definition beaten_daemon : daemon unit host_t :=
  match handle HeartbeatTimer (demo_daemon subscribed_client) with
  | Ok d' => d'
  | _ => demo_daemon subscribed_client
  end.

Definition beat : list (list Z) := sent (world beaten_daemon) 0.

Definition beat_world : script := mk_script (concat beat) [] [] [] 400 50 600000000 [].

Lemma beat_sent : (length beat =? 1)%nat = true.
Proof. vm_compute. reflexivity. Qed.

Lemma demo_tool_mirrors : tool_mirrors demo_tool.
Proof.
  assert (Hn : bool_decide (zlen fake_signals = @SIGNAL_COUNT generated_catalog) = true)
    by (vm_compute; reflexivity).
  apply bool_decide_eq_true_1 in Hn. pose proof (catalog_signals_bound (C := generated_catalog)) as Hb.
  pose proof (catalog_nonempty (C := generated_catalog)) as [_ H0]. unfold UINT16_MAX in Hb.
  split; [|reflexivity]. unfold stream_ok, catalog_ok, demo_tool.
  cbn [ts_catalog ct_signal_count ct_schema ct_signals ct_matches]. rewrite !zlen_repeat.
  unfold is_u32, SIGNAL_COUNT in *. split_and!; (done || lia).
Qed.

(** A run of one event stops before it or after it. *)
Lemma steps_one_event (d : daemon unit host_t) e d' es1 es2 d1 :
  handle e d = Ok d' -> [e] = es1 ++ es2 -> steps d es1 d1 -> d1 = d \/ d1 = d'.
Proof.
  intros Hh E Hs. destruct es1 as [|e1 es1]; [left; by inversion Hs|right].
  injection E as <- E. symmetry in E. apply app_eq_nil in E as [-> _].
  inversion Hs as [|? ? d2 ? ? _ Hh2 Hs2]. subst. rewrite Hh in Hh2. injection Hh2 as <-.
  by inversion Hs2.
Qed.

Lemma live_not_cut (d : daemon unit host_t) c :
  match clients d !! 0%nat with Some c => (active c =? 1) && (subscribed c =? 1) | None => false end = true ->
  clients d !! 0%nat = Some c -> ~ cut c.
Proof.
  intros H Hc. rewrite Hc in H. split_bools. unfold cut. lia.
Qed.

Lemma tool_follows_daemon_witness :
  tool_mirrors demo_tool
  /\ exists s' w', @stream_loop generated_catalog script _ _ 500 500 3 50 1 demo_tool (mk_tty [] beat_world)
       = Ok (Some s', mk_tty [] w')
     /\ synced signal_differs [] (ct_signals (ts_catalog s')) (sv_signals (server beaten_daemon))
     /\ ts_last_change_sequence s' = change_sequence (server beaten_daemon).
Proof.
  pose proof demo_tool_mirrors as Hm. split; [exact Hm|].
  set (d := demo_daemon subscribed_client).
  assert (Hok : daemon_ok d) by apply demo_daemon_ok, subscribed_client_ok.
  assert (Hh : handle HeartbeatTimer d = Ok beaten_daemon).
  { unfold beaten_daemon. fold d.
    assert (H : match handle HeartbeatTimer d with Ok _ => true | _ => false end = true)
      by (vm_compute; reflexivity).
    by destruct (handle HeartbeatTimer d). }
  assert (Hrun : match @stream_loop generated_catalog script _ _ 500 500 3 50 1 demo_tool
        (mk_tty [] beat_world) with
    | Ok (Some _, t) => bool_decide (tty_lines t = [])
                        && bool_decide (received (tty_world t) = concat beat)
    | _ => false end = true) by (vm_compute; reflexivity).
  destruct (tool_follows_daemon 500 d beaten_daemon [HeartbeatTimer] 0 subscribed_client demo_tool
    3 50 1 [] beat_world) as [(r & ls & w' & Hl & H)|(es1 & d1 & es2 & E & Hs & c & Hc & Hcut)].
  - exact Hok.
  - reflexivity.
  - split; reflexivity.
  - exact Hm.
  - exact (synced_refl signal_differs [] fake_signals signal_differs_refl).
  - reflexivity.
  - apply steps_cons with beaten_daemon; [exact I|exact Hh|constructor].
  - repeat constructor; discriminate.
  - cbn; lia.
  - rewrite Hl in Hrun. destruct r as [s'|]; [|discriminate Hrun].
    apply andb_prop in Hrun as [H1 H2]. apply bool_decide_eq_true_1 in H1, H2.
    cbn [tty_lines tty_world] in H1, H2. subst ls. exists s', w'. split; [exact Hl|].
    destruct (H beat (concat beat)) as (_ & _ & Hend); [reflexivity|exact H2|done|].
    by apply Hend.
  - exfalso. refine (live_not_cut d1 c _ Hc Hcut).
    destruct (steps_one_event d HeartbeatTimer beaten_daemon es1 es2 d1 Hh E Hs) as [->| ->];
      vm_compute; reflexivity.
Defined.
