(* ===== verification/VhalElf.v ===== *)
(** * The symbols of the VHAL executable: src/vhal_source.c,
      [roadcast_vhal_resolve_symbols]

    The parser of the executable's ELF tables, on the bytes of the mapped file.
    Every [memcpy] out of the mapping is a [slice] with its bounds, so that a
    malformed file that made the parser read outside the mapping would show as
    [UB].  [Fail] is the result -1. *)

From Stdlib Require Import String.
From S2P Require Import Prelude Text CatalogDefs Catalog.

(** ** The structures of <elf.h>, 64 bits, little-endian *)

Definition SIZEOF_Ehdr : Z := 64.
Definition SIZEOF_Phdr : Z := 56.
Definition SIZEOF_Shdr : Z := 64.
Definition SIZEOF_Sym : Z := 24.
Definition ELFMAG : list Z := [0x7f; 0x45; 0x4c; 0x46].
Definition ELFCLASS64 : Z := 2.
Definition ELFDATA2LSB : Z := 1.
Definition EV_CURRENT : Z := 1.
Definition PT_LOAD : Z := 1.
Definition SHT_SYMTAB : Z := 2.
Definition SHT_STRTAB : Z := 3.
Definition SHT_DYNSYM : Z := 11.
Definition SHN_UNDEF : Z := 0.

Record Elf64_Ehdr := mk_ehdr {
  e_version : Z;
  e_phoff : Z;
  e_shoff : Z;
  e_ehsize : Z;
  e_phentsize : Z;
  e_phnum : Z;
  e_shentsize : Z;
  e_shnum : Z;
}.

Record Elf64_Phdr := mk_phdr {
  p_type : Z;
  p_offset : Z;
  p_vaddr : Z;
}.

Record Elf64_Shdr := mk_shdr {
  sh_type : Z;
  sh_offset : Z;
  sh_size : Z;
  sh_link : Z;
  sh_entsize : Z;
}.

Record Elf64_Sym := mk_sym {
  st_name : Z;
  st_shndx : Z;
  st_value : Z;
}.

(** The field of [n] bytes at [off] of a structure. *)
Definition le_field (bs : list Z) (off n : nat) : Z := le_int (take n (drop off bs)).

(** [memcpy] of a structure out of the mapping. *)
Definition get_ehdr (map_ : list Z) (off : Z) : res Elf64_Ehdr :=
  bs ← slice map_ off SIZEOF_Ehdr;
  mret (mk_ehdr (le_field bs 20 4) (le_field bs 32 8) (le_field bs 40 8) (le_field bs 52 2)
          (le_field bs 54 2) (le_field bs 56 2) (le_field bs 58 2) (le_field bs 60 2)).

Definition get_phdr (map_ : list Z) (off : Z) : res Elf64_Phdr :=
  bs ← slice map_ off SIZEOF_Phdr;
  mret (mk_phdr (le_field bs 0 4) (le_field bs 8 8) (le_field bs 16 8)).

Definition get_shdr (map_ : list Z) (off : Z) : res Elf64_Shdr :=
  bs ← slice map_ off SIZEOF_Shdr;
  mret (mk_shdr (le_field bs 4 4) (le_field bs 24 8) (le_field bs 32 8) (le_field bs 40 4)
          (le_field bs 56 8)).

Definition get_sym (map_ : list Z) (off : Z) : res Elf64_Sym :=
  bs ← slice map_ off SIZEOF_Sym;
  mret (mk_sym (le_field bs 0 4) (le_field bs 6 2) (le_field bs 8 8)).

(** ** The parser *)

Definition checked_table (file_size offset count element_size : Z) : res unit :=
  reject_if ((element_size =? 0) || (file_size <? offset));;
  reject_if (sz (file_size - offset) / element_size <? count).

(** The name the executable gives the frame buffer of a CAN id:
    [snprintf(expected, 24, "MMI_Rx_%03X", id)]. *)
Definition expected_name (id : Z) : list Z := c_bytes "MMI_Rx_" ++ upper_hex 3 id.

(** The lowest loadable segment. *)
Definition best_load (map_ : list Z) (header : Elf64_Ehdr) (i : Z) (best : Z * Z) : res (Z * Z) :=
  program ← get_phdr map_ (e_phoff header + i * SIZEOF_Phdr);
  if (p_type program =? PT_LOAD) && (p_vaddr program <? best.1)
  then mret (p_vaddr program, p_offset program) else mret best.

(** The first section of type [ty] from index [i] on. *)
Fixpoint find_section (map_ : list Z) (shoff ty : Z) (n : nat) (i : Z) : res (option Elf64_Shdr) :=
  match n with
  | O => mret None
  | S n =>
      section ← get_shdr map_ (shoff + i * SIZEOF_Shdr);
      if sh_type section =? ty then mret (Some section)
      else find_section map_ shoff ty n (i + 1)
  end.

(** The name of a symbol, when it is defined and its name ends inside the string
    table. *)
Definition symbol_name (map_ : list Z) (strings : Elf64_Shdr) (sym : Elf64_Sym)
  : res (option (list Z)) :=
  if (st_shndx sym =? SHN_UNDEF) || (sh_size strings <=? st_name sym) then mret None
  else
    let max_name_len := sz (sh_size strings - st_name sym) in
    bs ← slice map_ (sh_offset strings + st_name sym) max_name_len;
    if bool_decide (0 ∈ bs) then mret (Some (c_string bs)) else mret None.

(** The inner loop: the first frame from index [i] on that has no value yet and
    the name of the symbol gets the value. *)
Fixpoint assign_symbol (ids : list Z) (i : Z) (name : list Z) (value : Z) (values : list Z)
  : res (option (list Z)) :=
  match ids with
  | [] => mret None
  | id :: ids =>
      v ← rd values i;
      if (v =? 0) && bool_decide (name = expected_name id) then
        values ← wr values i value; mret (Some values)
      else assign_symbol ids (i + 1) name value values
  end.

Section Resolve.
Context `{Catalog}.

(** The outer loop over the symbol table, [n] symbols from [symbol_index] on. *)
Fixpoint symbol_loop (map_ : list Z) (symbols strings : Elf64_Shdr) (n : nat) (symbol_index : Z)
    (values : list Z) (found : Z) : res (list Z) :=
  match n with
  | O => mret values
  | S n =>
      if found <? FRAME_COUNT then
        sym ← get_sym map_ (sh_offset symbols + symbol_index * SIZEOF_Sym);
        name ← symbol_name map_ strings sym;
        match name with
        | None => symbol_loop map_ symbols strings n (symbol_index + 1) values found
        | Some name =>
            assigned ← assign_symbol CAN_IDS 0 name (st_value sym) values;
            match assigned with
            | Some values => symbol_loop map_ symbols strings n (symbol_index + 1) values (sz (found + 1))
            | None => symbol_loop map_ symbols strings n (symbol_index + 1) values found
            end
        end
      else mret values
  end.

(** The body after the file is mapped: the symbol values by frame, the address
    and the file offset of the lowest loadable segment. *)
Definition resolve_mapped (map_ : list Z) (file_size : Z) : res (list Z * Z * Z) :=
  reject_if (file_size <? SIZEOF_Ehdr);;
  magic ← slice map_ 0 4;
  ident_class ← rd map_ 4;
  ident_data ← rd map_ 5;
  ident_version ← rd map_ 6;
  reject_if (negb (bool_decide (magic = ELFMAG)) || negb (ident_class =? ELFCLASS64)
             || negb (ident_data =? ELFDATA2LSB) || negb (ident_version =? EV_CURRENT));;
  header ← get_ehdr map_ 0;
  reject_if (negb (e_version header =? EV_CURRENT) || negb (e_ehsize header =? SIZEOF_Ehdr)
             || ((0 <? e_phnum header) && negb (e_phentsize header =? SIZEOF_Phdr))
             || ((0 <? e_shnum header) && negb (e_shentsize header =? SIZEOF_Shdr)));;
  checked_table file_size (e_phoff header) (e_phnum header) SIZEOF_Phdr;;
  checked_table file_size (e_shoff header) (e_shnum header) SIZEOF_Shdr;;
  '(best_vaddr, best_offset) ←
    loop (Z.to_nat (e_phnum header)) 0 (best_load map_ header) (UINT64_MAX, 0);
  reject_if (best_vaddr =? UINT64_MAX);;
  symtab ← find_section map_ (e_shoff header) SHT_SYMTAB (Z.to_nat (e_shnum header)) 0;
  found ← match symtab with
          | Some s => mret (Some s)
          | None => find_section map_ (e_shoff header) SHT_DYNSYM (Z.to_nat (e_shnum header)) 0
          end;
  match found with
  | None => Fail
  | Some symbols =>
      reject_if ((e_shnum header <=? sh_link symbols) || negb (sh_entsize symbols =? SIZEOF_Sym)
                 || negb (sh_size symbols mod SIZEOF_Sym =? 0));;
      checked_table file_size (sh_offset symbols) (sh_size symbols) 1;;
      strings ← get_shdr map_ (e_shoff header + sh_link symbols * SIZEOF_Shdr);
      reject_if (negb (sh_type strings =? SHT_STRTAB));;
      checked_table file_size (sh_offset strings) (sh_size strings) 1;;
      let symbol_count := sh_size symbols / SIZEOF_Sym in
      values ← symbol_loop map_ symbols strings (Z.to_nat symbol_count) 0
                 (repeat 0 (length CAN_IDS)) 0;
      mret (values, best_vaddr, best_offset)
  end.
End Resolve.

(** ** Reference definitions: what the tables of a file say *)

(** The [i]-th symbol: its name, if it counts, and its value. *)
Definition symbol_entry (map_ : list Z) (symbols strings : Elf64_Shdr) (i : Z)
  : res (option (list Z) * Z) :=
  sym ← get_sym map_ (sh_offset symbols + i * SIZEOF_Sym);
  name ← symbol_name map_ strings sym;
  mret (name, st_value sym).

(** The first value other than zero that a table gives a name, or zero. *)
Fixpoint symbol_value (table : list (option (list Z) * Z)) (name : list Z) : Z :=
  match table with
  | [] => 0
  | (n, v) :: table =>
      if bool_decide (n = Some name) && negb (v =? 0) then v else symbol_value table name
  end.

(** [segs] and [syms] are the segments and the symbols of the file: those of its
    symbol table, or those of its dynamic one when it has no other. *)
Definition elf_tables (map_ : list Z) (segs : list Elf64_Phdr) (syms : list (option (list Z) * Z))
  : Prop :=
  exists header k symbols strings,
    get_ehdr map_ 0 = Ok header
    /\ zlen segs = e_phnum header
    /\ (forall i p, segs !! i = Some p ->
          get_phdr map_ (e_phoff header + Z.of_nat i * SIZEOF_Phdr) = Ok p)
    /\ 0 <= k < e_shnum header /\ get_shdr map_ (e_shoff header + k * SIZEOF_Shdr) = Ok symbols
    /\ (sh_type symbols = SHT_SYMTAB
        \/ sh_type symbols = SHT_DYNSYM
           /\ forall j s, 0 <= j < e_shnum header ->
                get_shdr map_ (e_shoff header + j * SIZEOF_Shdr) = Ok s -> sh_type s <> SHT_SYMTAB)
    /\ get_shdr map_ (e_shoff header + sh_link symbols * SIZEOF_Shdr) = Ok strings
    /\ zlen syms = sh_size symbols / SIZEOF_Sym
    /\ (forall i e, syms !! i = Some e -> symbol_entry map_ symbols strings (Z.of_nat i) = Ok e).

(** [(v, o)] are the address and the offset of the first of the lowest loadable
    segments. *)
Definition lowest_segment (segs : list Elf64_Phdr) (v o : Z) : Prop :=
  exists k p, segs !! k = Some p /\ p_type p = PT_LOAD /\ p_vaddr p = v /\ p_offset p = o
    /\ forall j q, segs !! j = Some q -> p_type q = PT_LOAD ->
         v <= p_vaddr q /\ ((j < k)%nat -> v < p_vaddr q).

(** ** Fields are in range *)

Lemma le_int_range bs : bytes_ok bs -> 0 <= le_int bs < 2 ^ (8 * zlen bs).
Proof.
  induction 1 as [|b bs Hb _ IH]; cbn [le_int]; [done|].
  rewrite zlen_cons, Z.mul_add_distr_l, Z.pow_add_r by (pose proof (zlen_nonneg bs); lia).
  change (2 ^ (8 * 1)) with 256. change (2 ^ 8) with 256. unfold is_u8 in Hb. lia.
Qed.

Lemma le_field_range bs off n :
  bytes_ok bs -> 0 <= le_field bs off n < 2 ^ (8 * Z.of_nat n).
Proof.
  intros Hb. unfold le_field.
  assert (H : bytes_ok (take n (drop off bs))) by (by apply Forall_take, Forall_drop).
  pose proof (le_int_range _ H). split; [lia|].
  eapply Z.lt_le_trans; [apply H0|]. apply Z.pow_le_mono_r; [lia|].
  unfold zlen. rewrite length_take. lia.
Qed.

Lemma slice_bytes_ok bs off len m : bytes_ok bs -> slice bs off len = Ok m -> bytes_ok m.
Proof.
  intros Hb Hs. apply slice_inv in Hs as [(p & r & -> & _) _].
  unfold bytes_ok in *. rewrite !Forall_app in Hb. tauto.
Qed.

Section Ranges.
Context (map_ : list Z) (Hb : bytes_ok map_).

Lemma get_ehdr_ok off : 0 <= off -> off + SIZEOF_Ehdr <= zlen map_ ->
  exists h, get_ehdr map_ off = Ok h /\ 0 <= e_phoff h /\ 0 <= e_shoff h
    /\ is_u16 (e_phnum h) /\ is_u16 (e_shnum h).
Proof.
  intros H1 H2. destruct (slice_no_ub map_ off SIZEOF_Ehdr) as (bs & Hs & _); [done..|].
  pose proof (slice_bytes_ok _ _ _ _ Hb Hs) as Hbs. unfold get_ehdr. rewrite Hs, bind_ok.
  eexists. split; [done|]. cbn [e_phoff e_shoff e_phnum e_shnum]. unfold is_u16.
  pose proof (le_field_range bs 32 8 Hbs). pose proof (le_field_range bs 40 8 Hbs).
  pose proof (le_field_range bs 56 2 Hbs). pose proof (le_field_range bs 60 2 Hbs).
  change (8 * Z.of_nat 2) with 16 in *. lia.
Qed.

Lemma get_phdr_ok off : 0 <= off -> off + SIZEOF_Phdr <= zlen map_ ->
  exists p, get_phdr map_ off = Ok p /\ is_u64 (p_vaddr p) /\ is_u64 (p_offset p).
Proof.
  intros H1 H2. destruct (slice_no_ub map_ off SIZEOF_Phdr) as (bs & Hs & _); [done..|].
  pose proof (slice_bytes_ok _ _ _ _ Hb Hs) as Hbs. unfold get_phdr. rewrite Hs, bind_ok.
  eexists. split; [done|]. cbn [p_vaddr p_offset]. unfold is_u64.
  pose proof (le_field_range bs 8 8 Hbs). pose proof (le_field_range bs 16 8 Hbs).
  change (8 * Z.of_nat 8) with 64 in *. lia.
Qed.

Lemma get_shdr_ok off : 0 <= off -> off + SIZEOF_Shdr <= zlen map_ ->
  exists s, get_shdr map_ off = Ok s /\ is_u64 (sh_offset s) /\ is_u64 (sh_size s)
    /\ 0 <= sh_link s.
Proof.
  intros H1 H2. destruct (slice_no_ub map_ off SIZEOF_Shdr) as (bs & Hs & _); [done..|].
  pose proof (slice_bytes_ok _ _ _ _ Hb Hs) as Hbs. unfold get_shdr. rewrite Hs, bind_ok.
  eexists. split; [done|]. cbn [sh_offset sh_size sh_link]. unfold is_u64.
  pose proof (le_field_range bs 24 8 Hbs). pose proof (le_field_range bs 32 8 Hbs).
  pose proof (le_field_range bs 40 4 Hbs). change (8 * Z.of_nat 8) with 64 in *. lia.
Qed.

Lemma get_sym_ok off : 0 <= off -> off + SIZEOF_Sym <= zlen map_ ->
  exists s, get_sym map_ off = Ok s /\ 0 <= st_name s /\ is_u64 (st_value s).
Proof.
  intros H1 H2. destruct (slice_no_ub map_ off SIZEOF_Sym) as (bs & Hs & _); [done..|].
  pose proof (slice_bytes_ok _ _ _ _ Hb Hs) as Hbs. unfold get_sym. rewrite Hs, bind_ok.
  eexists. split; [done|]. cbn [st_name st_value]. unfold is_u64.
  pose proof (le_field_range bs 0 4 Hbs). pose proof (le_field_range bs 8 8 Hbs).
  change (8 * Z.of_nat 8) with 64 in *. lia.
Qed.

(** A table that passes the check lies inside the file. *)
Lemma checked_table_spec offset count size :
  zlen map_ < 2 ^ 63 -> 0 <= offset -> 0 < size ->
  match checked_table (zlen map_) offset count size with
  | Ok _ => offset + count * size <= zlen map_
  | Fail => True
  | UB => False
  end.
Proof.
  intros Hl Ho Hs. unfold checked_table.
  destruct (Z.eqb_spec size 0); [lia|]. destruct (Z.ltb_spec (zlen map_) offset) as [|Hle]; [done|].
  cbn [orb]. rewrite reject_false. rewrite sz_id by lia. unfold reject_if.
  destruct (Z.ltb_spec ((zlen map_ - offset) / size) count) as [|Hc]; [done|].
  pose proof (Z.mul_div_le (zlen map_ - offset) size Hs). nia.
Qed.

Lemma symbol_entry_ok symbols strings i n :
  is_u64 (sh_offset symbols) -> 0 <= i < n -> sh_offset symbols + n * SIZEOF_Sym <= zlen map_ ->
  is_u64 (sh_offset strings) -> is_u64 (sh_size strings) ->
  sh_offset strings + sh_size strings <= zlen map_ ->
  exists e, symbol_entry map_ symbols strings i = Ok e /\ is_u64 e.2.
Proof.
  intros H1 Hi H2 H3 H4 H5. unfold symbol_entry.
  destruct (get_sym_ok (sh_offset symbols + i * SIZEOF_Sym)) as (s & Hg & Hn & Hv).
  { unfold is_u64, SIZEOF_Sym in *. lia. }
  { unfold is_u64, SIZEOF_Sym in *. lia. }
  rewrite Hg, bind_ok. unfold symbol_name.
  destruct (_ || _) eqn:E; [by eexists|]. apply orb_false_iff in E as [_ E]. apply Z.leb_gt in E.
  unfold is_u64 in *. rewrite sz_id by lia.
  destruct (slice_no_ub map_ (sh_offset strings + st_name s) (sh_size strings - st_name s))
    as (bs & -> & _); [lia..|].
  rewrite bind_ok. destruct (bool_decide (0 ∈ bs)); by eexists.
Qed.
End Ranges.

(** ** Names *)

Lemma expected_name_inj a b : is_u64 a -> is_u64 b -> expected_name a = expected_name b -> a = b.
Proof. intros Ha Hb E. apply app_inv_head in E. by eapply upper_hex_inj. Qed.

#[local] Opaque expected_name.

Lemma symbol_value_snoc table n v name :
  symbol_value (table ++ [(n, v)]) name
  = if symbol_value table name =? 0 then (if bool_decide (n = Some name) then v else 0)
    else symbol_value table name.
Proof.
  induction table as [|[n' v'] table IH]; cbn [symbol_value app].
  - destruct (bool_decide (n = Some name)); cbn; [|done]. by destruct (Z.eqb_spec v 0).
  - destruct (bool_decide (n' = Some name)); cbn; [|done].
    destruct (Z.eqb_spec v' 0) as [|Hv]; cbn; [done|]. by rewrite (proj2 (Z.eqb_neq v' 0) Hv).
Qed.

Lemma symbol_value_app t1 t2 name :
  symbol_value t1 name <> 0 -> symbol_value (t1 ++ t2) name = symbol_value t1 name.
Proof.
  induction t1 as [|[n v] t1 IH]; cbn [symbol_value app]; [done|].
  by destruct (bool_decide (n = Some name) && negb (v =? 0)).
Qed.

(** The values other than zero. *)
Definition nonzero (vs : list Z) : Z := zlen (filter (fun v => v <> 0) vs).

Lemma nonzero_cons v vs : nonzero (v :: vs) = (if v =? 0 then 0 else 1) + nonzero vs.
Proof.
  unfold nonzero. rewrite filter_cons. destruct (Z.eqb_spec v 0), (decide (v <> 0)); try done.
  by rewrite zlen_cons.
Qed.

Lemma nonzero_le vs : 0 <= nonzero vs <= zlen vs.
Proof.
  induction vs as [|v vs IH]; [done|]. rewrite nonzero_cons, zlen_cons. destruct (v =? 0); lia.
Qed.

Lemma nonzero_full vs : nonzero vs = zlen vs -> Forall (fun v => v <> 0) vs.
Proof.
  induction vs as [|v vs IH]; [constructor|]. rewrite nonzero_cons, zlen_cons. intros H.
  pose proof (nonzero_le vs). destruct (Z.eqb_spec v 0); [lia|]. constructor; [done|]. apply IH. lia.
Qed.

Lemma rd_head {A} (x : A) l : rd (x :: l) 0 = Ok x.
Proof. done. Qed.

(** Whether one of the frames [ids] takes a symbol, and the values afterwards. *)
Lemma assign_symbol_spec name value (f : Z -> Z) ids : forall pre,
  NoDup ids -> Forall is_u64 ids ->
  let f' id := if bool_decide (name = expected_name id) && (f id =? 0) then value else f id in
  assign_symbol ids (zlen pre) name value (pre ++ map f ids)
  = Ok (if existsb (fun id => (f id =? 0) && bool_decide (name = expected_name id)) ids
        then Some (pre ++ map f' ids) else None)
  /\ (value <> 0 -> nonzero (map f' ids) = nonzero (map f ids)
       + if existsb (fun id => (f id =? 0) && bool_decide (name = expected_name id)) ids then 1 else 0)
  /\ (existsb (fun id => (f id =? 0) && bool_decide (name = expected_name id)) ids = false ->
      map f' ids = map f ids).
Proof.
  induction ids as [|id ids IH]; intros pre Hnd Hu f'; cbn [assign_symbol map existsb].
  { split_and!; [done|intros _; lia|done]. }
  inversion Hnd as [|? ? Hid Hnd']. inversion Hu as [|? ? Hu1 Hu2]. subst.
  rewrite rd_app_r with (k := 0) by lia. rewrite rd_head, bind_ok.
  destruct ((f id =? 0) && bool_decide (name = expected_name id)) eqn:E; cbn [orb].
  - apply andb_true_iff in E as [E1 E2]. apply bool_decide_eq_true in E2.
    assert (Hrest : map f' ids = map f ids).
    { apply map_ext_in. intros id' Hin. unfold f'. case_bool_decide as Hn; [|done].
      rewrite E2 in Hn. apply expected_name_inj in Hn; [|done|].
      - rewrite <- Hn in Hin. by apply list_elem_of_In in Hin.
      - rewrite Forall_forall in Hu2. by apply Hu2. }
    assert (Hhd : f' id = value).
    { unfold f'. rewrite E1. rewrite bool_decide_true by congruence. done. }
    rewrite Hrest, Hhd, !nonzero_cons, E1.
    rewrite wr_blit, (blit_app pre [f id] (map f ids) [value]) by done. split_and!; [done| |done].
    intros Hv. rewrite (proj2 (Z.eqb_neq value 0) Hv). lia.
  - assert (Hhd : f' id = f id).
    { unfold f'. by rewrite andb_comm, E. }
    destruct (IH (pre ++ [f id]) Hnd' Hu2) as (H1 & H2 & H3).
    rewrite zlen_app in H1. change (zlen [f id]) with 1 in H1. rewrite <- (assoc_L (++)) in H1.
    cbn [app] in H1. rewrite H1, Hhd, !nonzero_cons. fold f' in H2, H3 |- *. split_and!.
    + destruct (existsb _ ids); [|done]. by rewrite <- (assoc_L (++)).
    + intros Hv. specialize (H2 Hv). lia.
    + intros Hf. by rewrite H3.
Qed.

Section ResolveFacts.
Context `{HC : CatalogOk} (map_ : list Z) (Hb : bytes_ok map_).

Lemma can_ids_u64 : Forall is_u64 CAN_IDS.
Proof.
  apply Forall_forall. intros id Hid. pose proof catalog_can_ids as Hall.
  rewrite forallb_forall in Hall. specialize (Hall id Hid). split_bools. width_lia.
Qed.

(** The values of the frames under a table. *)
Definition frame_values (table : list (option (list Z) * Z)) : list Z :=
  map (fun id => symbol_value table (expected_name id)) CAN_IDS.

(** No symbol that is named after a frame has the value zero. *)
Definition frame_symbols_nonzero (table : list (option (list Z) * Z)) : Prop :=
  Forall (fun '(n, v) => v = 0 -> forall id, id ∈ CAN_IDS -> n <> Some (expected_name id)) table.

(** Whether the entry of a symbol is assigned to a frame after those of [table]:
    it has the name of a frame that has no value yet, or the value zero. *)
Definition taken (table : list (option (list Z) * Z)) (e : option (list Z) * Z) : bool :=
  existsb (fun id => (symbol_value table (expected_name id) =? 0)
                     && bool_decide (e.1 = Some (expected_name id))) CAN_IDS.

(** The assignments that the entries [rest] make after those of [table]. *)
Fixpoint assignments (table rest : list (option (list Z) * Z)) : Z :=
  match rest with
  | [] => 0
  | e :: rest => (if taken table e then 1 else 0) + assignments (table ++ [e]) rest
  end.

Lemma assignments_snoc e rest : forall table,
  assignments table (rest ++ [e]) = assignments table rest + if taken (table ++ rest) e then 1 else 0.
Proof.
  induction rest as [|e' rest IH]; intros table; cbn [assignments app]; [rewrite app_nil_r; lia|].
  rewrite IH, <- (assoc_L (++)). cbn [app]. lia.
Qed.

(** One symbol. *)
Lemma assign_symbol_step table n v :
  let values := frame_values (table ++ [(Some n, v)]) in
  assign_symbol CAN_IDS 0 n v (frame_values table)
  = Ok (if taken table (Some n, v) then Some values else None)
  /\ (v <> 0 -> nonzero values = nonzero (frame_values table) + if taken table (Some n, v) then 1 else 0)
  /\ (taken table (Some n, v) = false -> values = frame_values table).
Proof.
  intros values.
  assert (T : taken table (Some n, v)
    = existsb (fun id => (symbol_value table (expected_name id) =? 0)
                         && bool_decide (n = expected_name id)) CAN_IDS).
  { unfold taken. cbn [fst]. induction CAN_IDS as [|id ids IH]; [done|]. cbn [existsb]. rewrite IH.
    f_equal. f_equal. apply bool_decide_ext. naive_solver. }
  destruct (assign_symbol_spec n v (fun id => symbol_value table (expected_name id)) CAN_IDS []
    catalog_can_ids_distinct can_ids_u64) as (H1 & H2 & H3).
  assert (E : map (fun id => if bool_decide (n = expected_name id)
                && (symbol_value table (expected_name id) =? 0) then v
                else symbol_value table (expected_name id)) CAN_IDS
              = frame_values (table ++ [(Some n, v)])).
  { apply map_ext. intros id. cbn beta. rewrite symbol_value_snoc.
    rewrite (bool_decide_ext (Some n = Some (expected_name id)) (n = expected_name id)) by naive_solver.
    destruct (Z.eqb_spec (symbol_value table (expected_name id)) 0) as [E0|]; cbn.
    - rewrite andb_true_r, E0. done.
    - by rewrite andb_false_r. }
  cbn zeta in H2, H3. rewrite E in H1, H2, H3. rewrite <- T in H1, H2, H3. auto.
Qed.

Lemma unnamed_entry table v :
  taken table (None, v) = false /\ frame_values (table ++ [(None, v)]) = frame_values table.
Proof.
  split.
  - unfold taken. cbn [fst]. induction CAN_IDS as [|id ids IH]; [done|]. cbn [existsb].
    by rewrite IH, bool_decide_false, andb_false_r.
  - apply map_ext. intros id. cbn beta. rewrite symbol_value_snoc.
    destruct (Z.eqb_spec (symbol_value table (expected_name id)) 0) as [->|]; [|done].
    by rewrite bool_decide_false.
Qed.

(** The loop over the symbol table computes the values of the entries it looks
    at: all of them, unless as many assignments as there are frames come first. *)
Definition scanned (syms : list (option (list Z) * Z)) (k : nat) : Prop :=
  (length syms <= k)%nat \/ FRAME_COUNT <= assignments [] (take k syms).

Lemma symbol_loop_spec symbols strings n : forall rest table,
  length rest = n ->
  (forall i e, (table ++ rest) !! i = Some e -> symbol_entry map_ symbols strings (Z.of_nat i) = Ok e) ->
  0 <= assignments [] table ->
  exists k, scanned (table ++ rest) k /\
    symbol_loop map_ symbols strings n (zlen table) (frame_values table) (assignments [] table)
    = Ok (frame_values (take k (table ++ rest))).
Proof.
  induction n as [|n IH]; intros rest table Hl He Hpos; cbn [symbol_loop].
  { destruct rest; [|done]. rewrite app_nil_r. exists (length table).
    split; [by left|]. by rewrite firstn_all. }
  destruct rest as [|[nm v] rest]; [done|]. injection Hl as Hl.
  pose proof (He (length table) (nm, v)) as Hentry.
  rewrite lookup_app_r, Nat.sub_diag in Hentry by lia. specialize (Hentry eq_refl).
  set (table' := table ++ [(nm, v)]).
  assert (Ea : assignments [] table' = assignments [] table + if taken table (nm, v) then 1 else 0)
    by (unfold table'; by rewrite assignments_snoc).
  assert (Hstep : exists k, scanned (table ++ (nm, v) :: rest) k /\
    symbol_loop map_ symbols strings n (zlen table + 1) (frame_values table') (assignments [] table')
    = Ok (frame_values (take k (table ++ (nm, v) :: rest)))).
  { replace (zlen table + 1) with (zlen table') by apply zlen_app.
    rewrite (cons_middle (nm, v) table rest), (assoc_L (++) table [(nm, v)] rest) in He |- *.
    apply IH; [done|done|]. fold table'. destruct (taken _ _); lia. }
  destruct (Z.ltb_spec (assignments [] table) FRAME_COUNT) as [Hlt|Hge].
  - change (Z.of_nat (length table)) with (zlen table) in Hentry. unfold symbol_entry in Hentry.
    destruct (get_sym _ _) as [sym| |]; [|done..]. rewrite ?bind_ok in *.
    destruct (symbol_name _ _ _) as [name'| |]; [|done..]. rewrite ?bind_ok in *.
    unfold mret, res_ret in Hentry. injection Hentry as -> <-. rewrite Ea in Hstep.
    destruct nm as [name|].
    + destruct (assign_symbol_step table name (st_value sym)) as (-> & _ & Hsame). rewrite bind_ok.
      destruct (taken table (Some name, st_value sym)).
      * rewrite sz_id; [exact Hstep|]. pose proof catalog_frames_bound. width_lia.
      * unfold table' in Hstep. by rewrite (Hsame eq_refl), Z.add_0_r in Hstep.
    + destruct (unnamed_entry table (st_value sym)) as [E1 E2]. unfold table' in Hstep.
      by rewrite E1, E2, Z.add_0_r in Hstep.
  - exists (length table). unfold scanned. rewrite take_app_length. auto.
Qed.

(** When no symbol of a frame is zero, the entries left out do not matter. *)
Lemma assignments_nonzero table :
  frame_symbols_nonzero table -> assignments [] table = nonzero (frame_values table).
Proof.
  induction table as [|[nm v] table IH] using rev_ind; intros Hz.
  { unfold frame_values. induction CAN_IDS as [|id ids IH]; [done|]. cbn [map].
    rewrite nonzero_cons. exact IH. }
  apply Forall_app in Hz as [Hz Hv]. apply Forall_inv in Hv. rewrite assignments_snoc, IH by done. cbn [app].
  destruct nm as [n|]; [|by destruct (unnamed_entry table v) as [-> ->]; cbn; lia].
  destruct (assign_symbol_step table n v) as (_ & H1 & H2).
  destruct (taken table (Some n, v)) eqn:T; [|rewrite H2 by done; lia].
  rewrite H1; [done|]. intros Hv0. apply existsb_exists in T as (id & Hin & Hid).
  apply andb_true_iff in Hid as [_ Hid]. apply bool_decide_eq_true in Hid.
  by apply (Hv Hv0 id); [apply list_elem_of_In|].
Qed.

Lemma scanned_all syms k :
  frame_symbols_nonzero syms -> scanned syms k -> frame_values (take k syms) = frame_values syms.
Proof.
  intros Hz [Hk|Hk]; [by rewrite take_ge|].
  rewrite assignments_nonzero in Hk by (by apply Forall_take).
  pose proof (nonzero_le (frame_values (take k syms))) as Hnz.
  assert (Hlen : zlen (frame_values (take k syms)) = FRAME_COUNT) by apply zlen_map.
  assert (Hfull : Forall (fun x => x <> 0) (frame_values (take k syms))) by (apply nonzero_full; lia).
  apply map_ext_in. intros id Hid. rewrite <- (take_drop k syms) at 2. symmetry. apply symbol_value_app.
  rewrite Forall_forall in Hfull. apply Hfull, in_map_iff. by exists id.
Qed.

(** The loop never leaves its arrays, whatever the symbols are. *)
Lemma assign_symbol_total name v ids : forall i values,
  0 <= i -> i + zlen ids <= zlen values -> Forall is_u64 values -> is_u64 v ->
  exists r, assign_symbol ids i name v values = Ok r
    /\ match r with Some vs => zlen vs = zlen values /\ Forall is_u64 vs | None => True end.
Proof.
  induction ids as [|id ids IH]; intros i values Hi Hl Hu Hv; cbn [assign_symbol]; [by exists None|].
  rewrite zlen_cons in Hl. pose proof (zlen_nonneg ids).
  destruct (rd_ok values i) as (x & -> & _); [lia|]. rewrite bind_ok.
  destruct (_ && _); [|apply IH; auto; lia].
  unfold wr. destruct (Z.ltb_spec i 0), (Z.leb_spec (zlen values) i); try lia.
  cbn [orb]. rewrite bind_ok. eexists. split; [done|]. split.
  - unfold zlen. by rewrite length_insert.
  - by apply Forall_insert.
Qed.

Lemma symbol_loop_total symbols strings n : forall i found values,
  0 <= i -> is_u64 (sh_offset symbols) ->
  sh_offset symbols + (i + Z.of_nat n) * SIZEOF_Sym <= zlen map_ ->
  is_u64 (sh_offset strings) -> is_u64 (sh_size strings) ->
  sh_offset strings + sh_size strings <= zlen map_ ->
  zlen values = FRAME_COUNT -> Forall is_u64 values ->
  exists vs, symbol_loop map_ symbols strings n i values found = Ok vs
    /\ zlen vs = FRAME_COUNT /\ Forall is_u64 vs.
Proof.
  induction n as [|n IH]; intros i found values Hi H1 H2 H3 H4 H5 Hl Hu; cbn [symbol_loop]; [eauto|].
  destruct (found <? FRAME_COUNT); [|eauto].
  destruct (symbol_entry_ok map_ Hb symbols strings i (i + Z.of_nat (S n))) as ([nm v] & He & Hv);
    try done; [lia|]. unfold symbol_entry in He.
  destruct (get_sym _ _) as [sym| |]; [|done..]. rewrite ?bind_ok in *.
  destruct (symbol_name _ _ _) as [name'| |]; [|done..]. rewrite ?bind_ok in *.
  unfold mret, res_ret in He. injection He as -> <-. cbn [snd] in Hv.
  destruct nm as [name|]; [|apply IH; auto; lia].
  destruct (assign_symbol_total name (st_value sym) CAN_IDS 0 values) as (r & -> & Hr); try done.
  { rewrite Hl. unfold FRAME_COUNT. lia. }
  rewrite bind_ok. destruct r as [vs|]; [destruct Hr as [Hr1 Hr2]|]; apply IH; auto; lia.
Qed.

(** A table of results that are all there. *)
Lemma res_table {A} (f : Z -> res A) (P : A -> Prop) n :
  (forall i, 0 <= i < Z.of_nat n -> exists x, f i = Ok x /\ P x) ->
  exists l, length l = n /\ forall i x, l !! i = Some x -> f (Z.of_nat i) = Ok x /\ P x.
Proof.
  induction n as [|n IH]; intros Hf; [by exists []|].
  destruct IH as (l & Hl & H). { intros i Hi. apply Hf. lia. }
  destruct (Hf (Z.of_nat n) ltac:(lia)) as (x & Hx & Px). exists (l ++ [x]).
  split; [rewrite length_app; cbn; lia|]. intros i y Hy.
  apply lookup_app_Some in Hy as [Hy|[Hi Hy]]; [by apply H|].
  apply list_lookup_singleton_Some in Hy as [Hy <-]. by replace i with n by lia.
Qed.

Definition lowest_so_far (segs : list Elf64_Phdr) (i : Z) (best : Z * Z) : Prop :=
  (best.1 = UINT64_MAX
   /\ forall j q, Z.of_nat j < i -> segs !! j = Some q -> p_type q = PT_LOAD -> UINT64_MAX <= p_vaddr q)
  \/ exists k p, Z.of_nat k < i /\ segs !! k = Some p /\ p_type p = PT_LOAD /\ p_vaddr p = best.1 /\ p_offset p = best.2
       /\ best.1 < UINT64_MAX
       /\ forall j q, Z.of_nat j < i -> segs !! j = Some q -> p_type q = PT_LOAD ->
            best.1 <= p_vaddr q /\ ((j < k)%nat -> best.1 < p_vaddr q).

Lemma lowest_weaken segs k p best :
  segs !! k = Some p -> (p_type p = PT_LOAD -> best.1 <= p_vaddr p) ->
  lowest_so_far segs (Z.of_nat k) best -> lowest_so_far segs (Z.of_nat k + 1) best.
Proof.
  intros Hk Hp [[E H]|(k0 & p0 & H0 & H1 & H2 & H3 & H4 & H5 & H)]; [left|right].
  - split; [done|]. intros j q Hj Hq Hload. destruct (decide (j = k)) as [->|].
    + assert (q = p) as -> by congruence. specialize (Hp Hload). lia.
    + apply (H j); auto; lia.
  - exists k0, p0. split_and!; try done; [lia|]. intros j q Hj Hq Hload.
    destruct (decide (j = k)) as [->|]; [|apply H; auto; lia].
    assert (q = p) as -> by congruence. split; [auto|lia].
Qed.

Lemma lowest_step segs k p best :
  segs !! k = Some p -> is_u64 (p_vaddr p) -> lowest_so_far segs (Z.of_nat k) best ->
  lowest_so_far segs (Z.of_nat k + 1)
    (if (p_type p =? PT_LOAD) && (p_vaddr p <? best.1) then (p_vaddr p, p_offset p) else best).
Proof.
  intros Hk Hu Hbest.
  assert (Hcase : forall j q, Z.of_nat j < Z.of_nat k + 1 -> segs !! j = Some q ->
    Z.of_nat j < Z.of_nat k \/ j = k /\ q = p).
  { intros j q Hj Hq. destruct (decide (j = k)) as [->|]; [|left; lia]. right. split; congruence. }
  destruct (Z.eqb_spec (p_type p) PT_LOAD) as [Hty|Hty]; cbn [andb];
    [destruct (Z.ltb_spec (p_vaddr p) best.1) as [Hlt|Hge]|].
  - right. exists k, p. cbn [fst snd]. split_and!; try done; [lia| |].
    { destruct Hbest as [[E _]|(k0 & p0 & _ & _ & _ & _ & _ & H & _)]; width_lia. }
    intros j q Hj Hq Hload. destruct (Hcase j q Hj Hq) as [Hj'|[-> ->]]; [|split; lia].
    destruct Hbest as [[E H]|(k0 & p0 & _ & _ & _ & _ & _ & _ & H)]; specialize (H j q Hj' Hq Hload); lia.
  - by apply (lowest_weaken segs k p).
  - by apply (lowest_weaken segs k p).
Qed.

Lemma best_load_loop header segs :
  0 <= e_phoff header ->
  (forall i p, segs !! i = Some p ->
     get_phdr map_ (e_phoff header + Z.of_nat i * SIZEOF_Phdr) = Ok p /\ is_u64 (p_vaddr p)) ->
  exists best, loop (length segs) 0 (best_load map_ header) (UINT64_MAX, 0) = Ok best
    /\ lowest_so_far segs (zlen segs) best.
Proof.
  intros Ho Hs. apply (loop_total (lowest_so_far segs)).
  { left. split; [done|]. intros j q Hj. lia. }
  intros j best Hj Hbest.
  destruct (lookup_lt_is_Some_2 segs (Z.to_nat j)) as [p Hp]; [lia|].
  destruct (Hs _ _ Hp) as [Hg Hu]. pose proof (lowest_step segs (Z.to_nat j) p best Hp Hu) as Hl.
  rewrite Z2Nat.id in Hg, Hl by lia. unfold best_load. rewrite Hg, bind_ok.
  eexists. split; [|exact (Hl Hbest)]. by destruct (_ && _).
Qed.

Lemma find_section_spec shoff ty n : forall i,
  0 <= shoff -> 0 <= i -> shoff + (i + Z.of_nat n) * SIZEOF_Shdr <= zlen map_ ->
  exists r, find_section map_ shoff ty n i = Ok r
    /\ match r with
       | Some s => sh_type s = ty /\ exists k, i <= k < i + Z.of_nat n
                     /\ get_shdr map_ (shoff + k * SIZEOF_Shdr) = Ok s
       | None => forall k s, i <= k < i + Z.of_nat n ->
                   get_shdr map_ (shoff + k * SIZEOF_Shdr) = Ok s -> sh_type s <> ty
       end.
Proof.
  induction n as [|n IH]; intros i Hs Hi Hl; cbn [find_section].
  { exists None. split; [done|]. intros; lia. }
  destruct (get_shdr_ok map_ Hb (shoff + i * SIZEOF_Shdr)) as (s & Hg & _).
  { unfold SIZEOF_Shdr. lia. } { unfold SIZEOF_Shdr in *. lia. }
  rewrite Hg, bind_ok. destruct (Z.eqb_spec (sh_type s) ty) as [E|E].
  { exists (Some s). split; [done|]. split; [done|]. exists i. split; [lia|done]. }
  destruct (IH (i + 1)) as (r & -> & Hr); [done|lia|lia|]. exists r. split; [done|].
  destruct r as [s'|].
  - destruct Hr as (Hty & k & Hk & Hg'). split; [done|]. exists k. split; [lia|done].
  - intros k s' Hk Hg'. destruct (decide (k = i)) as [->|]; [congruence|]. apply (Hr k); [lia|done].
Qed.

(** The checks of the header. *)
Definition header_ok (h : Elf64_Ehdr) : Prop :=
  e_version h = EV_CURRENT /\ e_ehsize h = SIZEOF_Ehdr
  /\ (e_phnum h = 0 \/ e_phentsize h = SIZEOF_Phdr) /\ (e_shnum h = 0 \/ e_shentsize h = SIZEOF_Shdr).

(** What a successful run returns. *)
Definition resolved (segs : list Elf64_Phdr) (syms : list (option (list Z) * Z))
    (values : list Z) (v o : Z) : Prop :=
  lowest_segment segs v o /\ is_u64 v /\ is_u64 o
  /\ zlen values = FRAME_COUNT /\ Forall is_u64 values
  /\ (exists k, scanned syms k /\ values = frame_values (take k syms))
  /\ (frame_symbols_nonzero syms -> values = frame_values syms).

Lemma header_checks h :
  negb (e_version h =? EV_CURRENT) || negb (e_ehsize h =? SIZEOF_Ehdr)
  || ((0 <? e_phnum h) && negb (e_phentsize h =? SIZEOF_Phdr))
  || ((0 <? e_shnum h) && negb (e_shentsize h =? SIZEOF_Shdr)) = false ->
  is_u16 (e_phnum h) -> is_u16 (e_shnum h) -> header_ok h.
Proof.
  intros H H1 H2. split_bools. unfold header_ok. split_and!; try done.
  all: match goal with
       | H : (0 <? ?n) && _ = false |- ?n = 0 \/ _ =>
           apply andb_false_iff in H as [H|H]; split_bools; [left; width_lia|right; done]
       end.
Qed.

Lemma lowest_so_far_end segs best :
  lowest_so_far segs (zlen segs) best -> best.1 <> UINT64_MAX -> lowest_segment segs best.1 best.2.
Proof.
  intros [[E _]|(k & p & Hk & H1 & H2 & H3 & H4 & _ & H)] Hne; [done|].
  exists k, p. split_and!; try done. intros j q Hq Hload. apply H; [|done..].
  apply lookup_lt_Some in Hq. unfold zlen. lia.
Qed.

Lemma symtab_of shoff shnum r :
  0 <= shoff -> 0 <= shnum -> shoff + shnum * SIZEOF_Shdr <= zlen map_ ->
  (symtab ← find_section map_ shoff SHT_SYMTAB (Z.to_nat shnum) 0;
   match symtab with
   | Some s => mret (Some s)
   | None => find_section map_ shoff SHT_DYNSYM (Z.to_nat shnum) 0
   end) = r ->
  r = Ok None \/
  exists k s, r = Ok (Some s) /\ 0 <= k < shnum /\ get_shdr map_ (shoff + k * SIZEOF_Shdr) = Ok s
    /\ (sh_type s = SHT_SYMTAB
        \/ sh_type s = SHT_DYNSYM
           /\ forall j s', 0 <= j < shnum -> get_shdr map_ (shoff + j * SIZEOF_Shdr) = Ok s' ->
                sh_type s' <> SHT_SYMTAB).
Proof.
  intros Ho Hn Hl <-.
  assert (Hl' : shoff + (0 + Z.of_nat (Z.to_nat shnum)) * SIZEOF_Shdr <= zlen map_)
    by (by rewrite Z2Nat.id).
  destruct (find_section_spec shoff SHT_SYMTAB _ 0 Ho ltac:(lia) Hl') as (r1 & E1 & H1).
  destruct (find_section_spec shoff SHT_DYNSYM _ 0 Ho ltac:(lia) Hl') as (r2 & E2 & H2).
  rewrite E1, bind_ok, E2. clear E1 E2. rewrite Z2Nat.id in H1, H2 by lia. cbn [Z.add] in H1, H2.
  destruct r1 as [s|]; [|destruct r2 as [s|]; [|by left]]; right.
  - destruct H1 as (Hty & k & Hk & Hg). exists k, s. auto.
  - destruct H2 as (Hty & k & Hk & Hg). exists k, s. eauto 8.
Qed.

(** Reading the symbols of a checked pair of sections. *)
Lemma read_symbols symbols strings :
  zlen map_ < 2 ^ 63 -> is_u64 (sh_offset symbols) -> is_u64 (sh_size symbols) ->
  sh_size symbols mod SIZEOF_Sym = 0 -> sh_offset symbols + sh_size symbols <= zlen map_ ->
  is_u64 (sh_offset strings) -> is_u64 (sh_size strings) ->
  sh_offset strings + sh_size strings <= zlen map_ ->
  exists syms values,
    zlen syms = sh_size symbols / SIZEOF_Sym
    /\ (forall i e, syms !! i = Some e -> symbol_entry map_ symbols strings (Z.of_nat i) = Ok e)
    /\ symbol_loop map_ symbols strings (Z.to_nat (sh_size symbols / SIZEOF_Sym)) 0
         (repeat 0 (length CAN_IDS)) 0 = Ok values
    /\ zlen values = FRAME_COUNT /\ Forall is_u64 values
    /\ (exists k, scanned syms k /\ values = frame_values (take k syms))
    /\ (frame_symbols_nonzero syms -> values = frame_values syms).
Proof.
  intros Hm H1 H2 H3 H4 H5 H6 H7. set (n := sh_size symbols / SIZEOF_Sym).
  assert (Hn : sh_size symbols = n * SIZEOF_Sym).
  { pose proof (Z.div_mod (sh_size symbols) SIZEOF_Sym). unfold n, SIZEOF_Sym in *. lia. }
  assert (Hn0 : 0 <= n) by (unfold is_u64, SIZEOF_Sym in *; lia).
  destruct (res_table (symbol_entry map_ symbols strings) (fun e => is_u64 e.2) (Z.to_nat n))
    as (syms & Hls & Hs).
  { intros i Hi. apply (symbol_entry_ok map_ Hb symbols strings i n); try done; lia. }
  assert (Hrep : repeat 0 (length CAN_IDS) = frame_values []).
  { unfold frame_values. induction CAN_IDS as [|id ids IH]; [done|].
    cbn [length repeat map]. by rewrite IH. }
  destruct (symbol_loop_total symbols strings (Z.to_nat n) 0 0 (repeat 0 (length CAN_IDS)))
    as (values & Hv & Hlv & Huv); try done; try lia.
  { rewrite Z2Nat.id by lia. lia. }
  { unfold FRAME_COUNT, zlen. by rewrite repeat_length. }
  { apply Forall_forall. intros x Hx. apply repeat_spec in Hx as ->. done. }
  destruct (symbol_loop_spec symbols strings (Z.to_nat n) syms [] Hls) as (k & Hk & E);
    [intros i e He; by apply Hs|done|].
  change (zlen (@nil (option (list Z) * Z))) with 0 in E. cbn [app] in E, Hk. cbn [assignments] in E.
  rewrite <- Hrep, Hv in E. injection E as ->.
  exists syms, (frame_values (take k syms)). split_and!; try done; [unfold zlen; lia|by intros i e He; apply Hs| |].
  - by exists k.
  - intros Hz. by apply scanned_all.
Qed.

(** The parser stays inside the mapping, and what it returns is what the tables
    of the file say. *)
Lemma resolve_mapped_spec :
  zlen map_ < 2 ^ 63 ->
  match resolve_mapped map_ (zlen map_) with
  | Ok (values, v, o) =>
      (exists h, get_ehdr map_ 0 = Ok h /\ header_ok h)
      /\ exists segs syms, elf_tables map_ segs syms /\ resolved segs syms values v o
  | Fail => True
  | UB => False
  end.
Proof.
  intros Hm. unfold resolve_mapped.
  destruct (Z.ltb_spec (zlen map_) SIZEOF_Ehdr) as [|Hsize]; [done|]. rewrite reject_false.
  assert (Hsize' : 64 <= zlen map_) by exact Hsize.
  destruct (slice_no_ub map_ 0 4) as (magic & -> & _); [lia..|].
  destruct (rd_ok map_ 4) as (c & -> & _); [lia|]. destruct (rd_ok map_ 5) as (d & -> & _); [lia|].
  destruct (rd_ok map_ 6) as (ver & -> & _); [lia|]. rewrite !bind_ok.
  destruct (_ || _); [done|]. rewrite reject_false.
  destruct (get_ehdr_ok map_ Hb 0) as (h & Hh & Hph & Hsh & Hpn & Hsn); [lia|exact Hsize|].
  rewrite Hh, bind_ok. destruct (_ || _) eqn:Echk; [done|]. rewrite reject_false.
  pose proof (checked_table_spec map_ (e_phoff h) (e_phnum h) SIZEOF_Phdr Hm Hph ltac:(done)) as T1.
  destruct (checked_table _ (e_phoff h) _ _); [|done..]. rewrite bind_ok.
  pose proof (checked_table_spec map_ (e_shoff h) (e_shnum h) SIZEOF_Shdr Hm Hsh ltac:(done)) as T2.
  destruct (checked_table _ (e_shoff h) _ _); [|done..]. rewrite bind_ok. unfold is_u16 in Hpn, Hsn.
  destruct (res_table (fun i => get_phdr map_ (e_phoff h + i * SIZEOF_Phdr))
    (fun p => is_u64 (p_vaddr p) /\ is_u64 (p_offset p)) (Z.to_nat (e_phnum h))) as (segs & Hl & Hsegs).
  { intros i Hi. apply get_phdr_ok; [done|..]; unfold SIZEOF_Phdr in *; lia. }
  destruct (best_load_loop h segs Hph) as ([v o] & Hbest & Hlow).
  { intros i p Hp. by destruct (Hsegs i p Hp) as (? & ? & _). }
  rewrite Hl in Hbest. rewrite Hbest, bind_ok.
  destruct (Z.eqb_spec v UINT64_MAX) as [|Hv]; [done|]. rewrite reject_false.
  pose proof (lowest_so_far_end segs (v, o) Hlow Hv) as Hseg. cbn [fst snd] in Hseg.
  assert (Hhdr : header_ok h) by (by apply header_checks).
  assert (Hvo : is_u64 v /\ is_u64 o).
  { destruct Hseg as (k & p & Hp & _ & <- & <- & _). by destruct (Hsegs k p Hp). }
  rewrite <- bind_assoc.
  destruct (symtab_of (e_shoff h) (e_shnum h) _ Hsh ltac:(lia) T2 eq_refl)
    as [->|(k & symbols & -> & Hk & Hg & Hty)]; [done|]. rewrite bind_ok.
  match goal with |- context [reject_if ?b] => destruct b eqn:Esym end; [done|]. rewrite reject_false. split_bools.
  destruct (get_shdr_ok map_ Hb (e_shoff h + k * SIZEOF_Shdr)) as (s' & Hg' & S1 & S2 & S3);
    [unfold SIZEOF_Shdr in *; lia..|].
  assert (s' = symbols) as -> by congruence.
  pose proof (checked_table_spec map_ (sh_offset symbols) (sh_size symbols) 1 Hm (proj1 S1) ltac:(done)) as T3.
  destruct (checked_table _ (sh_offset symbols) _ _); [|done..]. rewrite bind_ok.
  destruct (get_shdr_ok map_ Hb (e_shoff h + sh_link symbols * SIZEOF_Shdr))
    as (strings & Hstr & R1 & R2 & _); [unfold SIZEOF_Shdr in *; lia..|]. rewrite Hstr, bind_ok.
  match goal with |- context [reject_if ?b] => destruct b end; [done|]. rewrite reject_false.
  pose proof (checked_table_spec map_ (sh_offset strings) (sh_size strings) 1 Hm (proj1 R1) ltac:(done)) as T4.
  destruct (checked_table _ (sh_offset strings) _ _); [|done..]. rewrite bind_ok.
  destruct (read_symbols symbols strings) as (syms & values & Y1 & Y2 & -> & Y3 & Y4 & Y5 & Y6); try done; try lia.
  rewrite bind_ok. split; [by exists h|]. exists segs, syms. split.
  - exists h, k, symbols, strings. split_and!; try done; try lia; [unfold zlen; lia|].
    intros i p Hp. by apply Hsegs.
  - destruct Hvo. done.
Qed.
End ResolveFacts.
