(* ===== verification/VhalDefs.v ===== *)
(** * The VHAL source: state and operating system, include/roadcast_vhal.h

    The source finds a process by its command line, reads the addresses of the
    frame buffers from its executable and its memory map, and copies the buffers
    out of its memory.  The operating system is the class [Os]: files of /proc,
    memory of another process, allocation and [errno]. *)

From S2P Require Import Prelude Effect Text CatalogDefs.

(** ** Data *)

(** A [struct iovec].  The base is [None] for a null pointer; a local one is the
    index of the frame whose data it points to, a remote one an address. *)
Record iovec (P : Type) := mk_iovec {
  iov_base : option P;
  iov_len : Z;
}.
Arguments mk_iovec {P}.
Arguments iov_base {P}.
Arguments iov_len {P}.

(** The two arrays are [None] before they are allocated. *)
Record roadcast_vhal_source_t := mk_source {
  pid : Z;
  mem_fd : Z;
  identity_fd : Z;
  start_time_ticks : Z;
  vm_readv_retry_ns : Z;
  addresses : list Z;
  local_iov : option (list (iovec Z));
  remote_iov : option (list (iovec Z));
  resolved_count : Z;
}.

#[export] Instance eta_source : Eta roadcast_vhal_source_t := fun s =>
  mk_source (pid s) (mem_fd s) (identity_fd s) (start_time_ticks s) (vm_readv_retry_ns s)
    (addresses s) (local_iov s) (remote_iov s) (resolved_count s).

Definition ESRCH : Z := 3.
Definition EIO : Z := 5.
Definition EPERM : Z := 1.
Definition ENOENT : Z := 2.
Definition ENOEXEC : Z := 8.
Definition ENOMEM : Z := 12.
Definition EACCES : Z := 13.
Definition EINVAL : Z := 22.
Definition ERANGE : Z := 34.
Definition ENOSYS : Z := 38.

(** ** The operating system

    A path and a name are strings without their terminator; a descriptor or a
    stream is negative when the call fails, and [None] is the result -1 or a null
    pointer.  A call that fails leaves its reason in [errno].
    [os_process_vm_readv] gets the addresses and the number of bytes at each; its
    result is the count and the bytes that were stored. *)
Class Os (W : Type) := {
  errno : W -> Z;
  set_errno : Z -> W -> W;
  os_opendir : list Z -> W -> Z * W;
  os_dirfd : Z -> W -> Z * W;
  os_readdir : Z -> W -> option (list Z) * W;
  os_closedir : Z -> W -> W;
  os_open : list Z -> W -> Z * W;
  os_openat : Z -> list Z -> W -> Z * W;
  os_read : Z -> Z -> W -> option (list Z) * W;
  os_pread : Z -> Z -> Z -> W -> option (list Z) * W;
  os_close : Z -> W -> W;
  os_readlink : list Z -> Z -> W -> option (list Z) * W;
  os_fopen : list Z -> W -> Z * W;
  os_fgets : Z -> Z -> W -> option (list Z) * W;
  os_fclose : Z -> W -> W;
  os_fstat_size : Z -> W -> option Z * W;
  os_mmap : Z -> Z -> W -> option (list Z) * W;
  os_munmap : W -> W;
  os_calloc : W -> bool * W;
  os_free : W -> W;
  os_clock : W -> (Z * Z) * W;
  os_process_vm_readv : Z -> list (option Z * Z) -> W -> (Z * list Z) * W;
}.
