(* ===== verification/VhalOps.v ===== *)
(** * The VHAL source: operations of src/vhal_source.c

    One definition per function, in the order of the file.  [fuel] bounds the
    loops that only the operating system can end: directory entries, lines of the
    memory map, and reads that a signal interrupts.  [snprintf] into the path
    buffers of 64 bytes never truncates: a path of /proc has at most 22 bytes. *)

From Stdlib Require Import String.
From S2P Require Import Prelude Effect Text Wire CatalogDefs Catalog SourceSession Sampler VhalElf VhalDefs.

Definition COMMAND_SIZE : Z := 4096.
Definition PATH_SIZE : Z := 4096.
Definition MAPS_LINE_SIZE : Z := 600.
Definition STAT_SIZE : Z := 2048.
Definition VM_READV_RETRY_NS : Z := 30000000000.

(** [%d]. *)
Definition print_d (x : Z) : list Z := if x <? 0 then 45 :: decimal (- x) else decimal x.

(** [snprintf(path, sizeof(path), "/proc/%d/<name>", pid)]. *)
Definition proc_path (pid_ : Z) (name : string) : list Z :=
  c_bytes "/proc/" ++ print_d pid_ ++ c_bytes "/" ++ c_bytes name.

(** A buffer of [capacity] bytes that holds [bs] and gets a terminator behind it. *)
Definition terminate (capacity : Z) (bs : list Z) : res (list Z) :=
  if capacity <=? zlen bs then UB else Ok (c_string bs).

(** The cast to [off_t]. *)
Definition s64 (x : Z) : Z := (x + 2 ^ 63) mod 2 ^ 64 - 2 ^ 63.

(** What one line of the memory map says: start, end, permissions, offset and
    the text the path is read from.  [path_offset] stays 0, the start of the
    line, when the scan ends before its [%n]. *)
Definition scan_maps_line (line : list Z) : option (Z * Z * list Z * Z * list Z) :=
  '(start, r) ← scan_hex line;
  r ← scan_char 45 r;
  '(end_, r) ← scan_hex r;
  '(permissions, r) ← scan_word (Some 7%nat) r;
  '(offset, r) ← scan_hex r;
  let path :=
    match scan_word None r with
    | Some (_, r) =>
        match scan_word None r with
        | Some (_, r) => skip_while isspace r
        | None => line
        end
    | None => line
    end in
  Some (start, end_, permissions, offset, path).

Definition mapped_path (path : list Z) : list Z :=
  take_until (fun c => c =? 10) (skip_while (fun c => c =? 32) path).

(** Skips [n] fields and the spaces before each. *)
Fixpoint skip_fields (n : nat) (cursor : list Z) : option (list Z) :=
  match n with
  | O => Some cursor
  | S n =>
      match skip_while (fun c => c =? 32) cursor with
      | [] => None
      | cursor => skip_fields n (skip_while (fun c => negb (c =? 32)) cursor)
      end
  end.

(** The text from field 22 of /proc/<pid>/stat on: the fields start after the
    last parenthesis. *)
Definition start_time_field (stat_text : list Z) : option (list Z) :=
  match strrchr stat_text 41 with
  | None => None
  | Some cursor =>
      cursor ← skip_fields 19 (tl cursor);
      Some (skip_while (fun c => c =? 32) cursor)
  end.

(** Whether [strtoull] read a whole field, and its value. *)
Definition start_time_value (cursor : list Z) : option Z :=
  let '(value, end_, overflow) := strtoull cursor in
  if overflow || bool_decide (end_ = cursor)
     || negb (match end_ with c :: _ => (c =? 32) || (c =? 10) | [] => false end)
  then None else Some value.

Section Vhal.
Context `{Catalog} {W : Type} `{OS : !Os W} (fuel : nat).
Implicit Types (source : roadcast_vhal_source_t) (frames : list roadcast_frame_t).

Definition put_errno (e : Z) : OM W unit := osys_ (set_errno e).

(** ** Finding the process *)

(** The loop over /proc; the result is the process found. *)
Fixpoint proc_loop (n : nat) (needle : list Z) (directory proc_fd : Z) : OM W Z :=
  match n with
  | O => out_of_fuel
  | S n =>
      entry ← osys (os_readdir directory);
      match entry with
      | None => mret (-1)
      | Some d_name =>
          let first := default 0 (head d_name) in
          if (first <? 48) || (57 <? first) then proc_loop n needle directory proc_fd
          else
            pid_fd ← osys (os_openat proc_fd d_name);
            if pid_fd <? 0 then proc_loop n needle directory proc_fd
            else
              fd ← osys (os_openat pid_fd (c_bytes "cmdline"));
              osys_ (os_close pid_fd);;
              if fd <? 0 then proc_loop n needle directory proc_fd
              else
                bytes ← osys (os_read fd (COMMAND_SIZE - 1));
                osys_ (os_close fd);;
                match bytes with
                | None | Some [] => proc_loop n needle directory proc_fd
                | Some bytes =>
                    command ← omem (terminate COMMAND_SIZE bytes);
                    if strstr command needle then omem (atoi d_name)
                    else proc_loop n needle directory proc_fd
                end
      end
  end.

Definition find_pid (needle : list Z) : OM W Z :=
  directory ← osys (os_opendir (c_bytes "/proc"));
  if directory <? 0 then mret (-1)
  else
    proc_fd ← osys (os_dirfd directory);
    if proc_fd <? 0 then osys_ (os_closedir directory);; mret (-1)
    else
      found ← proc_loop fuel needle directory proc_fd;
      osys_ (os_closedir directory);;
      mret found.

Definition read_executable_path (pid_ : Z) : OM W (option (list Z)) :=
  bytes ← osys (os_readlink (proc_path pid_ "exe") (PATH_SIZE - 1));
  match bytes with
  | None => mret None
  | Some bytes => out ← omem (terminate PATH_SIZE bytes); mret (Some out)
  end.

(** ** The memory map *)

Fixpoint maps_loop (n : nat) (maps : Z) (executable : list Z) (wanted_offset : Z)
  : OM W (option Z) :=
  match n with
  | O => out_of_fuel
  | S n =>
      line ← osys (os_fgets maps MAPS_LINE_SIZE);
      match line with
      | None => mret None
      | Some line =>
          match scan_maps_line (c_string line) with
          | None => maps_loop n maps executable wanted_offset
          | Some (start, _, _, offset, path) =>
              if (offset =? wanted_offset) && bool_decide (mapped_path path = executable)
              then mret (Some start)
              else maps_loop n maps executable wanted_offset
          end
      end
  end.

Definition find_mapping_base (pid_ : Z) (executable : list Z) (wanted_offset : Z)
  : OM W (option Z) :=
  maps ← osys (os_fopen (proc_path pid_ "maps"));
  if maps <? 0 then mret None
  else
    result ← maps_loop fuel maps executable wanted_offset;
    osys_ (os_fclose maps);;
    mret result.

Definition roadcast_vhal_resolve_symbols (executable : list Z) : OM W (option (list Z * Z * Z)) :=
  fd ← osys (os_open executable);
  if fd <? 0 then mret None
  else
    stat ← osys (os_fstat_size fd);
    let size := default 0 stat in
    if size <=? 0 then osys_ (os_close fd);; mret None
    else
      map_ ← osys (os_mmap fd size);
      osys_ (os_close fd);;
      match map_ with
      | None => mret None
      | Some map_ =>
          result ← odec (resolve_mapped map_ size);
          (match result with None => put_errno ENOEXEC | Some _ => mret tt end);;
          osys_ os_munmap;;
          mret result
      end.

Definition open_memory_fd (pid_ : Z) : OM W Z := osys (os_open (proc_path pid_ "mem")).

(** ** The identity of the process *)

(** [do count = pread(...); while (count < 0 && errno == EINTR);] *)
Fixpoint pread_loop (n : nat) (fd count offset : Z) : OM W (option (list Z)) :=
  match n with
  | O => out_of_fuel
  | S n =>
      bytes ← osys (os_pread fd count offset);
      match bytes with
      | Some bytes => mret (Some bytes)
      | None => e ← oget errno; if e =? EINTR then pread_loop n fd count offset else mret None
      end
  end.

Definition read_start_time (fd : Z) : OM W (option Z) :=
  bytes ← pread_loop fuel fd (STAT_SIZE - 1) 0;
  match bytes with
  | None => mret None
  | Some [] => put_errno ESRCH;; mret None
  | Some bytes =>
      stat_text ← omem (terminate STAT_SIZE bytes);
      match start_time_field stat_text with
      | None => put_errno EINVAL;; mret None
      | Some cursor =>
          put_errno 0;;
          match start_time_value cursor with
          | None => put_errno EINVAL;; mret None
          | Some value => mret (Some value)
          end
      end
  end.

Definition verify_identity source : OM W Z :=
  start_time ← (if identity_fd source <? 0 then mret None else read_start_time (identity_fd source));
  match start_time with
  | Some start_time =>
      if start_time =? start_time_ticks source then mret 0 else put_errno ESRCH;; mret (-1)
  | None => put_errno ESRCH;; mret (-1)
  end.

(** ** Reading the frames *)

Definition unavailable_frame (i : Z) frames : res (list roadcast_frame_t) :=
  id ← rd CAN_IDS i;
  frame ← rd frames i;
  wr frames i (frame <| can_id := id |> <| state := ROADCAST_OBSERVATION_UNAVAILABLE |>
                     <| data := repeat 0 8 |>).

Definition unavailable frames : OM W (Z * list roadcast_frame_t) :=
  frames ← omem (loop (Z.to_nat FRAME_COUNT) 0 unavailable_frame frames);
  mret (-1, frames).

(** The result, and the eight bytes of [data] after it. *)
Definition read_one source (address : Z) (data : list Z) : OM W (Z * list Z) :=
  if mem_fd source <? 0 then mret (-1, data)
  else
    bytes ← pread_loop fuel (mem_fd source) 8 (s64 address);
    match bytes with
    | None => mret (-1, data)
    | Some bytes =>
        let data := bytes ++ drop (length bytes) data in
        if negb (zlen bytes =? 8) then put_errno EIO;; mret (-1, data) else mret (0, data)
    end.

(** ** Closing and opening *)

Definition closed_source : roadcast_vhal_source_t :=
  mk_source 0 (-1) (-1) 0 0 (repeat 0 (length CAN_IDS)) None None 0.

Definition free_iov (iov : option (list (iovec Z))) : OM W unit :=
  match iov with Some _ => osys_ os_free | None => mret tt end.

Definition vhal_close source : OM W roadcast_vhal_source_t :=
  (if 0 <=? mem_fd source then osys_ (os_close (mem_fd source)) else mret tt);;
  (if 0 <=? identity_fd source then osys_ (os_close (identity_fd source)) else mret tt);;
  free_iov (local_iov source);;
  free_iov (remote_iov source);;
  mret closed_source.

(** The label [fail]. *)
Definition vhal_fail source : OM W (Z * roadcast_vhal_source_t) :=
  saved_errno ← oget errno;
  source ← vhal_close source;
  put_errno saved_errno;;
  mret (-1, source).

Definition calloc_iov : OM W (option (list (iovec Z))) :=
  ok ← osys os_calloc;
  mret (if (ok : bool) then Some (repeat (mk_iovec None 0) (length CAN_IDS)) else None).

(** A pointer to an address of the other process. *)
Definition pointer (address : Z) : option Z := if address =? 0 then None else Some address.

(** The array behind a pointer that must not be null. *)
Definition deref {A} (a : option A) : res A := match a with Some a => Ok a | None => UB end.

Definition resolve_address (symbol_values : list Z) (bias i : Z) source
  : res roadcast_vhal_source_t :=
  value ← rd symbol_values i;
  if value =? 0 then mret source
  else
    let address := u64 (bias + value) in
    addresses_ ← wr (addresses source) i address;
    remote ← deref (remote_iov source);
    remote ← wr remote (resolved_count source) (mk_iovec (pointer address) 8);
    mret (source <| addresses := addresses_ |> <| remote_iov := Some remote |>
                 <| resolved_count := sz (resolved_count source + 1) |>).

(** From the resolved symbols on. *)
Definition open_resolved source (symbol_values : list Z) (load_vaddr map_base : Z)
  : OM W (Z * roadcast_vhal_source_t) :=
  local ← calloc_iov;
  let source := source <| local_iov := local |> in
  remote ← calloc_iov;
  let source := source <| remote_iov := remote |> in
  match local, remote with
  | Some _, Some _ =>
      let bias := u64 (map_base - load_vaddr) in
      source ← omem (loop (Z.to_nat FRAME_COUNT) 0 (resolve_address symbol_values bias) source);
      if resolved_count source =? 0 then put_errno ENOENT;; vhal_fail source
      else
        fd ← open_memory_fd (pid source);
        let source := source <| mem_fd := fd |> in
        verified ← verify_identity source;
        if verified <? 0 then vhal_fail source else mret (0, source)
  | _, _ => put_errno ENOMEM;; vhal_fail source
  end.

(** [roadcast_vhal_open]; the old contents of the source are not looked at. *)
Definition vhal_open (process_name_ : list Z) : OM W (Z * roadcast_vhal_source_t) :=
  let source := closed_source in
  pid_ ← find_pid process_name_;
  let source := source <| pid := pid_ |> in
  if pid_ <? 0 then put_errno ESRCH;; mret (-1, source)
  else
    fd ← osys (os_open (proc_path pid_ "stat"));
    let source := source <| identity_fd := fd |> in
    if fd <? 0 then vhal_fail source
    else
      start_time ← read_start_time fd;
      match start_time with
      | None => vhal_fail source
      | Some start_time =>
          let source := source <| start_time_ticks := start_time |> in
          executable ← read_executable_path pid_;
          match executable with
          | None => vhal_fail source
          | Some executable =>
              symbols ← roadcast_vhal_resolve_symbols executable;
              match symbols with
              | None => vhal_fail source
              | Some (symbol_values, load_vaddr, load_offset) =>
                  base ← find_mapping_base pid_ executable load_offset;
                  base ← (match base with
                          | Some base => mret (Some base)
                          | None => find_mapping_base pid_ executable 0
                          end);
                  match base with
                  | None => vhal_fail source
                  | Some map_base => open_resolved source symbol_values load_vaddr map_base
                  end
              end
          end
      end.

(** ** Reading *)

(** The head of every frame, and the local vector: the state is the frames, the
    vector and its length. *)
Definition prepare_frame source (i : Z) (s : list roadcast_frame_t * option (list (iovec Z)) * Z)
  : res (list roadcast_frame_t * option (list (iovec Z)) * Z) :=
  let '(frames, local, resolved) := s in
  id ← rd CAN_IDS i;
  frame ← rd frames i;
  address ← rd (addresses source) i;
  let frame := frame <| can_id := id |> in
  let frame := frame <| state := if address =? 0 then ROADCAST_OBSERVATION_UNAVAILABLE
                                 else ROADCAST_OBSERVATION_NEVER_OBSERVED |> in
  if address =? 0 then
    frames ← wr frames i (frame <| data := repeat 0 8 |>);
    mret (frames, local, resolved)
  else
    frames ← wr frames i frame;
    vector ← deref local;
    vector ← wr vector resolved (mk_iovec (Some i) 8);
    mret (frames, Some vector, sz (resolved + 1)).

(** The kernel stores [bytes] through a vector, in order, as far as they go. *)
Fixpoint scatter (vector : list (iovec Z)) (bytes : list Z) frames : res (list roadcast_frame_t) :=
  match vector with
  | [] => mret frames
  | v :: vector =>
      let chunk := take (Z.to_nat (iov_len v)) bytes in
      match iov_base v with
      | None => match chunk with [] => scatter vector bytes frames | _ => UB end
      | Some i =>
          frame ← rd frames i;
          frames ← wr frames i (frame <| data := chunk ++ drop (length chunk) (data frame) |>);
          scatter vector (drop (length chunk) bytes) frames
      end
  end.

(** The first [n] entries of a vector that may be null when [n] is 0. *)
Definition entries (vector : option (list (iovec Z))) (n : Z) : res (list (iovec Z)) :=
  match vector with
  | Some vector => slice vector 0 n
  | None => if n =? 0 then Ok [] else UB
  end.

(** [do count = process_vm_readv(...); while (count < 0 && errno == EINTR);] *)
Fixpoint vm_readv_loop (n : nat) (pid_ : Z) (local remote : list (iovec Z)) frames
  : OM W (Z * list roadcast_frame_t) :=
  match n with
  | O => out_of_fuel
  | S n =>
      '(count, bytes) ← osys (os_process_vm_readv pid_ (map (fun v => (iov_base v, iov_len v)) remote));
      frames ← omem (scatter local bytes frames);
      e ← oget errno;
      if (count <? 0) && (e =? EINTR) then vm_readv_loop n pid_ local remote frames
      else mret (count, frames)
  end.

(** The attempt with one system call: the result of the read, or [None] when the
    read goes on with the memory file. *)
Definition read_vm source frames (resolved : Z)
  : OM W (option Z * roadcast_vhal_source_t * list roadcast_frame_t) :=
  '(tv_sec, tv_nsec) ← osys os_clock;
  let now_ns := u64 (tv_sec * 1000000000 + tv_nsec) in
  if now_ns <? vm_readv_retry_ns source then mret (None, source, frames)
  else
    local ← omem (entries (local_iov source) resolved);
    remote ← omem (entries (remote_iov source) resolved);
    '(count, frames) ← vm_readv_loop fuel (pid source) local remote frames;
    if count =? sz (resolved * 8) then
      verified ← verify_identity source;
      if verified <? 0 then
        '(r, frames) ← unavailable frames; mret (Some r, source, frames)
      else mret (Some 0, source, frames)
    else
      e ← oget errno;
      if (count <? 0) && (e =? ESRCH) then
        '(r, frames) ← unavailable frames; mret (Some r, source, frames)
      else if (count <? 0) && (e =? ENOSYS) then
        mret (None, source <| vm_readv_retry_ns := UINT64_MAX |>, frames)
      else if (count <? 0) && ((e =? EPERM) || (e =? EACCES)) then
        mret (None, source <| vm_readv_retry_ns := u64 (now_ns + VM_READV_RETRY_NS) |>, frames)
      else mret (None, source, frames).

(** The loop over the frames with the memory file; the second result is
    [failure_errno]. *)
Fixpoint read_frames source (n : nat) (i : Z) frames (failure_errno : Z)
  : OM W (list roadcast_frame_t * Z) :=
  match n with
  | O => mret (frames, failure_errno)
  | S n =>
      address ← omem (rd (addresses source) i);
      if address =? 0 then read_frames source n (i + 1) frames failure_errno
      else
        frame ← omem (rd frames i);
        '(r, data_) ← read_one source address (data frame);
        let frame := frame <| data := data_ |> in
        if r <? 0 then
          let frame := frame <| data := repeat 0 8 |> in
          frames ← omem (wr frames i (frame <| state := ROADCAST_OBSERVATION_UNAVAILABLE |>));
          e ← oget errno;
          read_frames source n (i + 1) frames (if failure_errno =? 0 then e else failure_errno)
        else
          frames ← omem (wr frames i frame);
          read_frames source n (i + 1) frames failure_errno
  end.

(** The attempt with the memory file. *)
Definition read_file source frames : OM W (Z * roadcast_vhal_source_t * list roadcast_frame_t) :=
  fd ← (if mem_fd source <? 0 then open_memory_fd (pid source) else mret (mem_fd source));
  let source := source <| mem_fd := fd |> in
  if fd <? 0 then '(r, frames) ← unavailable frames; mret (r, source, frames)
  else
    '(frames, failure_errno) ← read_frames source (Z.to_nat FRAME_COUNT) 0 frames 0;
    verified ← verify_identity source;
    if verified <? 0 then '(r, frames) ← unavailable frames; mret (r, source, frames)
    else if negb (failure_errno =? 0) then put_errno failure_errno;; mret (-1, source, frames)
    else mret (1, source, frames).

Definition vhal_read source frames : OM W (Z * roadcast_vhal_source_t * list roadcast_frame_t) :=
  '(frames, local, resolved) ←
    omem (loop (Z.to_nat FRAME_COUNT) 0 (prepare_frame source) (frames, local_iov source, 0));
  let source := source <| local_iov := local |> in
  '(result, source, frames) ← read_vm source frames resolved;
  match result with
  | Some r => mret (r, source, frames)
  | None => read_file source frames
  end.
End Vhal.
