(* ===== verification/VhalOs.v ===== *)
(** * The VHAL source: what it relies on

    The contract [OsOk] of the operating system and the rules for running the
    functions of [VhalOps] against it. *)

From Stdlib Require Import String.
From S2P Require Import Prelude Effect Text CatalogDefs VhalDefs.

(** Open files by kind. *)
Inductive handle := Fd (fd : Z) | Dir (dir : Z) | Stream (stream : Z).

#[export] Instance handle_eq_dec : EqDecision handle.
Proof. solve_decision. Defined.

(** What the calls did: opened a file by its name, absolute or at a directory,
    gave the descriptor of a directory, and delivered the target of a link, bytes
    of a file at an offset, a mapped file, a line of a stream, and memory of a
    process at a list of addresses. *)
Inductive delivery :=
  | Opened (h : handle) (directory : option Z) (name : list Z)
  | Descriptor (dir fd : Z)
  | Link (name bytes : list Z)
  | Bytes (fd offset : Z) (bytes : list Z)
  | Mapped (fd : Z) (bytes : list Z)
  | Line (stream : Z) (bytes : list Z)
  | Copied (pid_ : Z) (vector : list (option Z * Z)) (bytes : list Z).

Definition without (h : handle) (files : list (handle * list Z)) : list (handle * list Z) :=
  filter (fun e => e.1 <> h) files.

(** [files] are the open files with the names they were opened by, [blocks]
    counts allocations and mappings, [history] is what was opened and delivered, and [budget]
    bounds the directory entries, lines and interruptions that are still to come:
    /proc, a memory map and the signals of a call are finite.  A name in /proc
    that starts with a digit is the decimal number of a process. *)
Class OsOk {W} (OS : Os W) := {
  files : W -> list (handle * list Z);
  blocks : W -> Z;
  history : W -> list delivery;
  budget : W -> nat;
  effect (w w' : W) (fs : list (handle * list Z)) (n : Z) (h : list delivery) : Prop :=
    files w' = fs /\ blocks w' = n /\ history w' = history w ++ h /\ (budget w' <= budget w)%nat;
  quiet (w w' : W) : Prop := effect w w' (files w) (blocks w) [];
  opens (w : W) (h : handle) (ok : bool) (directory : option Z) (name : list Z) (w' : W) : Prop :=
    if ok then (h ∉ (files w).*1)
               /\ effect w w' ((h, name) :: files w) (blocks w) [Opened h directory name]
    else quiet w w';
  errno_set e w : errno (set_errno e w) = e;
  set_errno_ok e w : quiet w (set_errno e w);
  opendir_ok p w : let r := os_opendir p w in opens w (Dir r.1) (0 <=? r.1) None p r.2;
  dirfd_ok d w :
    let r := os_dirfd d w in
    effect w r.2 (files w) (blocks w) (if 0 <=? r.1 then [Descriptor d r.1] else []);
  readdir_ok d w :
    quiet w (os_readdir d w).2
    /\ forall name, (os_readdir d w).1 = Some name ->
         (budget (os_readdir d w).2 < budget w)%nat
         /\ ((Dir d, c_bytes "/proc") ∈ files w -> 48 <= default 0 (head name) <= 57 ->
             exists p, 0 <= p < 2 ^ 31 /\ name = decimal p);
  closedir_ok d w : effect w (os_closedir d w) (without (Dir d) (files w)) (blocks w) [];
  open_ok p w : let r := os_open p w in opens w (Fd r.1) (0 <=? r.1) None p r.2;
  openat_ok d p w : let r := os_openat d p w in opens w (Fd r.1) (0 <=? r.1) (Some d) p r.2;
  read_ok fd n w :
    match os_read fd n w with
    | (Some bs, w') => zlen bs <= n /\ bytes_ok bs /\ effect w w' (files w) (blocks w) [Bytes fd 0 bs]
    | (None, w') => quiet w w'
    end;
  pread_ok fd n off w :
    match os_pread fd n off w with
    | (Some bs, w') => zlen bs <= n /\ bytes_ok bs /\ effect w w' (files w) (blocks w) [Bytes fd off bs]
    | (None, w') => quiet w w' /\ errno w' <> 0 /\ (errno w' = EINTR -> (budget w' < budget w)%nat)
    end;
  close_ok fd w : effect w (os_close fd w) (without (Fd fd) (files w)) (blocks w) [];
  readlink_ok p n w :
    match os_readlink p n w with
    | (Some bs, w') => zlen bs <= n /\ bytes_ok bs /\ effect w w' (files w) (blocks w) [Link p bs]
    | (None, w') => quiet w w'
    end;
  fopen_ok p w : let r := os_fopen p w in opens w (Stream r.1) (0 <=? r.1) None p r.2;
  fgets_ok s n w :
    match os_fgets s n w with
    | (Some bs, w') => zlen bs < n /\ effect w w' (files w) (blocks w) [Line s bs]
                       /\ (budget w' < budget w)%nat
    | (None, w') => quiet w w'
    end;
  fclose_ok s w : effect w (os_fclose s w) (without (Stream s) (files w)) (blocks w) [];
  fstat_ok fd w :
    quiet w (os_fstat_size fd w).2 /\ forall n, (os_fstat_size fd w).1 = Some n -> n < 2 ^ 63;
  mmap_ok fd n w :
    match os_mmap fd n w with
    | (Some bs, w') => zlen bs = n /\ bytes_ok bs
                       /\ effect w w' (files w) (blocks w + 1) [Mapped fd bs]
    | (None, w') => quiet w w'
    end;
  munmap_ok w : effect w (os_munmap w) (files w) (blocks w - 1) [];
  calloc_ok w :
    effect w (os_calloc w).2 (files w) (blocks w + if (os_calloc w).1 then 1 else 0) [];
  free_ok w : effect w (os_free w) (files w) (blocks w - 1) [];
  clock_ok w : quiet w (os_clock w).2;
  vm_readv_ok p v w :
    match os_process_vm_readv p v w with
    | ((count, bs), w') =>
        bytes_ok bs /\ (count < 0 \/ count = zlen bs)
        /\ effect w w' (files w) (blocks w) (if count <? 0 then [] else [Copied p v bs])
        /\ (count < 0 -> errno w' = EINTR -> (budget w' < budget w)%nat)
    end;
}.

(** ** Effects compose *)

Section Effects.
Context {W : Type} `{OS : !Os W} `{HO : !OsOk OS}.
Implicit Types w : W.

Lemma without_fresh h (fs : list (handle * list Z)) : h ∉ fs.*1 -> without h fs = fs.
Proof.
  unfold without. induction fs as [|[h' p] fs IH]; intros Hn; [done|].
  rewrite fmap_cons, not_elem_of_cons in Hn. destruct Hn as [Hn1 Hn2]; cbn in Hn1.
  rewrite filter_cons_True by (intros E; cbn in E; congruence). by rewrite IH.
Qed.

Lemma without_cons h p (fs : list (handle * list Z)) : without h ((h, p) :: fs) = without h fs.
Proof. unfold without. by rewrite filter_cons_False by (cbn; auto). Qed.

Lemma without_opened h p (fs : list (handle * list Z)) : h ∉ fs.*1 -> without h ((h, p) :: fs) = fs.
Proof. intros H. by rewrite without_cons, without_fresh. Qed.

Lemma without_under h p h' (fs : list (handle * list Z)) :
  h <> h' -> without h' ((h, p) :: fs) = (h, p) :: without h' fs.
Proof. intros H. unfold without. by rewrite filter_cons_True by (intros E; cbn in E; congruence). Qed.

Lemma quiet_refl w : quiet w w.
Proof. unfold quiet, effect. by rewrite app_nil_r. Qed.

Lemma effect_trans w1 w2 w3 fs2 n2 h1 fs3 n3 h2 :
  effect w1 w2 fs2 n2 h1 -> effect w2 w3 fs3 n3 h2 -> effect w1 w3 fs3 n3 (h1 ++ h2).
Proof.
  unfold effect. intros (_ & _ & H1 & B1) (F & N & H2 & B2). split_and!; try done; [|lia].
  by rewrite H2, H1, (assoc_L (++)).
Qed.

(** A quiet step before or after another. *)
Lemma quiet_effect w1 w2 w3 fs n h : quiet w1 w2 -> effect w2 w3 fs n h -> effect w1 w3 fs n h.
Proof. intros H1 H2. exact (effect_trans _ _ _ _ _ [] _ _ _ H1 H2). Qed.

Lemma effect_quiet w1 w2 w3 fs n h : effect w1 w2 fs n h -> quiet w2 w3 -> effect w1 w3 fs n h.
Proof.
  intros H1 H2. pose proof (effect_trans _ _ _ _ _ _ _ _ _ H1 H2) as H. rewrite app_nil_r in H.
  destruct H1 as (<- & <- & _). exact H.
Qed.

Lemma quiet_trans w1 w2 w3 : quiet w1 w2 -> quiet w2 w3 -> quiet w1 w3.
Proof.
  intros H1 H2. apply (effect_quiet _ _ _ _ _ _ H1 H2).
Qed.

(** The files and the blocks are what they were. *)
Definition keeps w w' (h : list delivery) : Prop := effect w w' (files w) (blocks w) h.

Lemma keeps_trans w1 w2 w3 h1 h2 : keeps w1 w2 h1 -> keeps w2 w3 h2 -> keeps w1 w3 (h1 ++ h2).
Proof.
  intros H1 H2. pose proof (effect_trans _ _ _ _ _ _ _ _ _ H1 H2) as H.
  destruct H1 as (E1 & E2 & _). unfold keeps. by rewrite E1, E2 in H.
Qed.

Lemma keeps_quiet w1 w2 w3 h : keeps w1 w2 h -> quiet w2 w3 -> keeps w1 w3 h.
Proof. apply effect_quiet. Qed.

Lemma quiet_keeps w1 w2 w3 h : quiet w1 w2 -> keeps w2 w3 h -> keeps w1 w3 h.
Proof. intros H1 H2. exact (keeps_trans _ _ _ [] _ H1 H2). Qed.

(** A file that was opened, used and closed. *)
Lemma keeps_opened w1 w2 w3 w4 hd p h0 h :
  hd ∉ (files w1).*1 -> effect w1 w2 ((hd, p) :: files w1) (blocks w1) h0 -> keeps w2 w3 h ->
  effect w3 w4 (without hd (files w3)) (blocks w3) [] -> keeps w1 w4 (h0 ++ h).
Proof.
  intros Hf H1 H2 H3. pose proof (effect_trans _ _ _ _ _ _ _ _ _ H1 H2) as H12.
  pose proof (effect_trans _ _ _ _ _ _ _ _ _ H12 H3) as H. rewrite app_nil_r in H.
  destruct H1 as (E1 & E2 & _). destruct H2 as (E3 & E4 & _). unfold keeps.
  rewrite E3, E4, E1, E2, without_opened in H by done. exact H.
Qed.

Lemma keeps_budget w w' h : keeps w w' h -> (budget w' <= budget w)%nat.
Proof. unfold keeps, effect. tauto. Qed.

Lemma opens_true w hd (r : Z) directory name w' :
  opens w hd (0 <=? r) directory name w' -> r < 0 /\ quiet w w'
  \/ 0 <= r /\ (hd ∉ (files w).*1)
     /\ effect w w' ((hd, name) :: files w) (blocks w) [Opened hd directory name].
Proof. unfold opens. destruct (Z.leb_spec 0 r); [right|left]; tauto. Qed.
End Effects.

#[export] Hint Resolve quiet_refl : roadcast.
