(* ===== verification/VhalProc.v ===== *)
(** * The VHAL source: what it learns from /proc

    The texts of /proc/<pid>/stat and /proc/<pid>/maps as the kernel prints them,
    with the round trips of the parsers, and the functions that read /proc:
    [find_pid], [find_mapping_base], [roadcast_vhal_resolve_symbols] and the check
    of the identity. *)

From Stdlib Require Import String.
From S2P Require Import Prelude Effect Text Wire CatalogDefs Catalog SourceSession Sampler.
From S2P Require Import VhalElf VhalDefs VhalOps VhalOs.

(** ** The start time in /proc/<pid>/stat *)

(** What the parser makes of the bytes of the file. *)
Definition start_time_of (bytes : list Z) : option Z :=
  cursor ← start_time_field (c_string bytes); start_time_value cursor.

Definition spaced (fields : list (list Z)) : list Z := concat (map (fun f => 32 :: f) fields).

(** The text of the file: the process, the command in parentheses, fields 3 to 21,
    the start time, and the other fields. *)
Definition stat_text (pid_ : Z) (comm : list Z) (fields : list (list Z)) (start : Z)
    (others : list (list Z)) : list Z :=
  decimal pid_ ++ c_bytes " (" ++ comm ++ 41 :: spaced fields ++ 32 :: decimal start
    ++ spaced others ++ [10].

(** A field: not empty, without white space, parenthesis and terminator. *)
Definition plain_field (f : list Z) : Prop :=
  f <> [] /\ Forall (fun c => c <> 0 /\ c <> 10 /\ c <> 32 /\ c <> 41) f.

Lemma skip_fields_spaced fields rest :
  Forall plain_field fields ->
  match rest with c :: _ => c = 32 | [] => False end ->
  skip_fields (length fields) (spaced fields ++ rest) = Some rest.
Proof.
  intros Hf Hr. induction Hf as [|f fields [Hn Hp] _ IH]; [done|].
  destruct f as [|c f]; [done|]. pose proof (Forall_inv Hp) as (_ & _ & Hc & _).
  assert (E0 : skip_while (fun c => c =? 32) (spaced ((c :: f) :: fields) ++ rest)
               = (c :: f) ++ spaced fields ++ rest).
  { unfold spaced at 1. cbn [map concat]. rewrite <- (assoc_L (++)).
    change ((32 :: c :: f) ++ concat (map (fun f => 32 :: f) fields) ++ rest)
      with ([32] ++ (c :: f) ++ spaced fields ++ rest).
    rewrite skip_while_app by (by repeat constructor). apply skip_while_stop. by apply Z.eqb_neq. }
  assert (E1 : skip_while (fun c => negb (c =? 32)) ((c :: f) ++ spaced fields ++ rest)
               = spaced fields ++ rest).
  { rewrite skip_while_app.
    - destruct fields as [|f' fields]; [destruct rest as [|c' rest]; [done|]; by subst c'|done].
    - revert Hp. apply Forall_impl. intros x (_ & _ & Hx & _). by rewrite (proj2 (Z.eqb_neq x 32) Hx). }
  cbn [length skip_fields]. rewrite E0. cbn [app] in E1 |- *. rewrite E1. exact IH.
Qed.

Lemma spaced_free (P : Z -> Prop) fields :
  P 32 -> Forall plain_field fields -> (forall f c, plain_field f -> c ∈ f -> P c) ->
  Forall P (spaced fields).
Proof.
  intros H32 Hf Hp. induction Hf as [|f fields Hf0 _ IH]; [constructor|].
  unfold spaced. cbn [map concat app]. constructor; [done|]. apply Forall_app. split; [|exact IH].
  apply Forall_forall. intros c Hc. apply (Hp f); [done|]. by apply list_elem_of_In.
Qed.

Lemma plain_field_char f c : plain_field f -> c ∈ f -> c <> 0 /\ c <> 10 /\ c <> 32 /\ c <> 41.
Proof. intros [_ Hf] Hc. rewrite Forall_forall in Hf. apply Hf. by apply list_elem_of_In. Qed.

Lemma decimal_chars x : 0 <= x -> Forall (fun c => 48 <= c <= 57) (decimal x).
Proof.
  intros Hx. destruct (digits_of_ok 10 x ltac:(lia)) as [Hd _]. unfold decimal.
  apply Forall_map. revert Hd. apply Forall_impl. intros d Hd. unfold digit_char. 
  destruct (Z.ltb_spec d 10); lia.
Qed.

(** The parser finds field 22, whatever the command contains. *)
Lemma start_time_roundtrip pid_ comm fields start others :
  0 <= pid_ -> is_u64 start -> Forall (fun c => c <> 0) comm ->
  length fields = 19%nat -> Forall plain_field fields -> Forall plain_field others ->
  start_time_of (stat_text pid_ comm fields start others) = Some start.
Proof.
  intros Hp Hs Hc Hl Hf Ho. unfold start_time_of.
  assert (Hd : forall x (P : Z -> Prop), 0 <= x -> (forall c, 48 <= c <= 57 -> P c) -> Forall P (decimal x)).
  { intros x P Hx HP. generalize (decimal_chars x Hx). apply Forall_impl. exact HP. }
  assert (Hs0 : 0 <= start) by (unfold is_u64 in Hs; lia).
  set (tail := spaced fields ++ 32 :: decimal start ++ spaced others ++ [10]).
  assert (Htail : forall P : Z -> Prop, P 32 -> P 10 -> (forall c, 48 <= c <= 57 -> P c) ->
            (forall f c, plain_field f -> c ∈ f -> P c) -> Forall P tail).
  { intros P H1 H2 H3 H4. unfold tail. apply Forall_app. split; [by apply spaced_free|].
    constructor; [done|]. apply Forall_app. split; [by apply Hd|]. apply Forall_app.
    split; [by apply spaced_free|]. by constructor. }
  assert (Htext : stat_text pid_ comm fields start others
                  = (decimal pid_ ++ c_bytes " (" ++ comm) ++ 41 :: tail).
  { unfold stat_text, tail. by rewrite <- !(assoc_L (++)). }
  rewrite Htext, c_string_id; cycle 1.
  { apply Forall_app. split; [|constructor; [done|]].
    - apply Forall_app. split; [apply Hd; [done|lia]|]. apply Forall_app. split; [|done].
      repeat constructor; done.
    - apply Htail; try done; [lia|]. intros f c Hf' Hc'. by apply (plain_field_char f c). }
  unfold start_time_field. rewrite strrchr_last; cycle 1.
  { apply Htail; try done; [lia|]. intros f c Hf' Hc'. by apply (plain_field_char f c). }
  cbn [tl]. rewrite <- Hl. unfold tail at 1. rewrite skip_fields_spaced by done.
  cbn [mbind option_bind skip_while]. change (32 =? 32) with true. cbv iota.
  assert (Hskip : skip_while (fun c => c =? 32) (decimal start ++ spaced others ++ [10])
                  = decimal start ++ spaced others ++ [10]).
  { pose proof (decimal_chars start Hs0) as Hch. unfold decimal in *.
    destruct (digits_of_ok 10 start ltac:(lia)) as [_ Hn].
    destruct (digits_of 10 start) as [|d ds]; [done|]. cbn [map app] in *.
    apply skip_while_stop. apply Forall_inv in Hch. cbn beta in Hch. lia. }
  rewrite Hskip. unfold start_time_value. rewrite strtoull_decimal; [|done|].
  - cbn [orb]. rewrite bool_decide_false.
    + by destruct others.
    + intros E. apply (f_equal length) in E. rewrite !length_app in E.
      destruct (digits_of_ok 10 start ltac:(lia)) as [_ Hn]. unfold decimal in E.
      rewrite length_map in E. destruct (digits_of 10 start); [done|]. cbn in E. lia.
  - by destruct others.
Qed.

(** ** The lines of /proc/<pid>/maps *)

(** [base] of the mapping that a line describes, when it is the one looked for. *)
Definition base_of (executable : list Z) (wanted_offset : Z) (line : list Z) : option Z :=
  match scan_maps_line (c_string line) with
  | Some (start, _, _, offset, path) =>
      if (offset =? wanted_offset) && bool_decide (mapped_path path = executable)
      then Some start else None
  | None => None
  end.

(** A line as the kernel prints it; the path is padded with spaces. *)
Definition maps_line (start end_ : Z) (permissions : list Z) (offset : Z) (dev inode : list Z)
    (padding : nat) (path : list Z) : list Z :=
  hex 8 start ++ 45 :: hex 8 end_ ++ 32 :: permissions ++ 32 :: hex 8 offset ++ 32 :: dev
    ++ 32 :: inode ++ 32 :: repeat 32 padding ++ path ++ [10].

(** A token: not empty, without white space and terminator. *)
Definition word (w : list Z) : Prop :=
  w <> [] /\ Forall (fun c => isspace c = false /\ c <> 0) w.

Lemma word_unspaced w : word w -> Forall (fun c => isspace c = false) w.
Proof. intros [_ H]. revert H. apply Forall_impl. tauto. Qed.

Lemma hex_chars width x : Forall (fun c => c <> 0) (hex width x).
Proof.
  unfold hex. apply Forall_map.
  destruct (digits_of_ok 16 x ltac:(lia)) as [Hd Hn].
  destruct (pad_ok 16 width (digits_of 16 x) ltac:(lia) Hd Hn) as [Hp _]. revert Hp.
  apply Forall_impl. intros d Hd'. unfold digit_char. destruct (Z.ltb_spec d 10); lia.
Qed.

Lemma scan_hex_space s : scan_hex (32 :: s) = scan_hex s.
Proof. done. Qed.

Lemma scan_word_space n s : scan_word n (32 :: s) = scan_word n s.
Proof. done. Qed.

Lemma hex_stops_char c s :
  digit_value c = None -> c <> 120 -> c <> 88 -> hex_stops (c :: s).
Proof. intros H H1 H2. unfold hex_stops, stops. rewrite H. done. Qed.

Lemma scan_token n w rest :
  word w -> (n = None \/ n = Some 7%nat /\ (length w <= 7)%nat) ->
  scan_word n (32 :: w ++ 32 :: rest) = Some (w, 32 :: rest).
Proof.
  intros Hw Hn. pose proof (word_unspaced _ Hw) as Hs. destruct Hw as [Hne _].
  change (32 :: w ++ 32 :: rest) with ([32] ++ w ++ 32 :: rest).
  assert (Forall (fun c => isspace c = true) [32]) by (by repeat constructor).
  destruct Hn as [->|[-> Hl]]; [by apply scan_word_app|by apply scan_word_width].
Qed.

Lemma some_bind {A B} (a : A) (f : A -> option B) : (Some a ≫= f) = f a.
Proof. done. Qed.

(** Scanning what the kernel printed. *)
Lemma maps_line_scanned start end_ permissions offset dev inode padding path :
  is_u64 start -> is_u64 end_ -> is_u64 offset ->
  word permissions -> (length permissions <= 7)%nat -> word dev -> word inode ->
  match path with c :: _ => isspace c = false | [] => False end ->
  scan_maps_line (maps_line start end_ permissions offset dev inode padding path)
  = Some (start, end_, permissions, offset, path ++ [10]).
Proof.
  intros Hs He Ho Hp Hpl Hd Hi Hpath. unfold scan_maps_line, maps_line.
  rewrite scan_hex_printed, some_bind by (done || by apply hex_stops_char).
  cbn [scan_char]. change (45 =? 45) with true. cbn iota. rewrite some_bind.
  rewrite scan_hex_printed, some_bind by (done || by apply hex_stops_char).
  rewrite scan_token, some_bind by auto.
  rewrite scan_hex_space, scan_hex_printed, some_bind by (done || by apply hex_stops_char).
  cbv zeta. rewrite scan_token by auto. rewrite scan_token by auto.
  change (32 :: repeat 32 padding ++ path ++ [10]) with (repeat 32 (S padding) ++ path ++ [10]).
  rewrite skip_while_app.
  - destruct path as [|c path]; [done|]. cbn [app]. by rewrite skip_while_stop.
  - apply Forall_forall. intros c Hc. by apply repeat_spec in Hc as ->.
Qed.

Lemma mapped_path_line path :
  match path with c :: _ => isspace c = false | [] => False end ->
  Forall (fun c => c <> 10) path -> mapped_path (path ++ [10]) = path.
Proof.
  intros Hp Hn. unfold mapped_path. destruct path as [|c path]; [done|]. cbn [app].
  rewrite skip_while_stop.
  - change (c :: path ++ [10]) with ((c :: path) ++ [10]). apply take_until_app; [|done].
    revert Hn. apply Forall_impl. intros x Hx. by apply Z.eqb_neq.
  - apply Z.eqb_neq. intros ->. done.
Qed.

(** A line matches exactly when it maps the executable at the offset. *)
Lemma base_of_roundtrip executable wanted start end_ permissions offset dev inode padding path :
  is_u64 start -> is_u64 end_ -> is_u64 offset ->
  word permissions -> (length permissions <= 7)%nat -> word dev -> word inode ->
  match path with c :: _ => isspace c = false | [] => False end ->
  Forall (fun c => c <> 10 /\ c <> 0) path ->
  base_of executable wanted (maps_line start end_ permissions offset dev inode padding path)
  = if bool_decide (offset = wanted /\ path = executable) then Some start else None.
Proof.
  intros Hs He Ho Hp Hpl Hd Hi Hpath Hnl. unfold base_of. rewrite c_string_id; cycle 1.
  { assert (Hw : forall w, word w -> Forall (fun c => c <> 0) w).
    { intros w [_ Hw]. revert Hw. apply Forall_impl. tauto. }
    unfold maps_line. repeat (rewrite Forall_app || rewrite Forall_cons_iff).
    split_and!; auto using hex_chars; try done.
    - apply Forall_forall. intros c Hc. by apply repeat_spec in Hc as ->.
    - revert Hnl. apply Forall_impl. tauto. }
  rewrite maps_line_scanned by done. rewrite mapped_path_line; [|done|].
  - rewrite (bool_decide_ext (offset = wanted /\ path = executable)
      (Is_true ((offset =? wanted) && bool_decide (path = executable)))).
    + by destruct (_ && _).
    + rewrite andb_True, bool_decide_spec, Is_true_true, Z.eqb_eq. done.
  - revert Hnl. apply Forall_impl. tauto.
Qed.

(** ** Functions on /proc *)

Section Proc.
Context `{HC : CatalogOk} {W : Type} `{OS : !Os W} `{HO : !OsOk OS} (fuel : nat).
Implicit Types w : W.

Lemma put_errno_wp e (Q : unit -> W -> Prop) w :
  (forall w', quiet w w' -> errno w' = e -> Q tt w') -> owp (put_errno e) Q w.
Proof. intros HQ. unfold put_errno. owp_steps. apply HQ; [apply set_errno_ok|apply errno_set]. Qed.

Lemma terminate_ok capacity bs : zlen bs < capacity -> terminate capacity bs = Ok (c_string bs).
Proof. intros H. unfold terminate. by destruct (Z.leb_spec capacity (zlen bs)); [lia|]. Qed.

(** What a run of the loop over the directory of processes found: nothing, or a
    process: its directory was opened by its number and its command line in that
    directory, and what was read last is that file, which contains the name before
    the first terminator. *)
Definition found_process (needle : list Z) (proc_fd : Z) (h : list delivery) (r : Z) : Prop :=
  r = -1 \/ 0 <= r < 2 ^ 31 /\ exists h0 pid_fd fd bs,
    h = h0 ++ [Opened (Fd pid_fd) (Some proc_fd) (decimal r);
               Opened (Fd fd) (Some pid_fd) (c_bytes "cmdline"); Bytes fd 0 bs]
    /\ strstr (c_string bs) needle = true.

(** The same from the opening of /proc on. *)
Definition located (needle : list Z) (h : list delivery) (r : Z) : Prop :=
  r = -1 \/ exists dir proc_fd h1,
    h = [Opened (Dir dir) None (c_bytes "/proc"); Descriptor dir proc_fd] ++ h1
    /\ 0 <= r /\ found_process needle proc_fd h1 r.

Lemma proc_loop_wp n needle directory proc_fd : forall w (Q : Z -> W -> Prop),
  (Dir directory, c_bytes "/proc") ∈ files w -> (budget w < n)%nat ->
  (forall r w' h, keeps w w' h -> found_process needle proc_fd h r -> Q r w') ->
  owp (proc_loop n needle directory proc_fd) Q w.
Proof.
  induction n as [|n IH]; intros w Q Hdir Hb HQ; [lia|]. cbn [proc_loop]. owp_steps.
  destruct (readdir_ok directory w) as [Hq Hname]. set (w1 := (os_readdir directory w).2) in *.
  destruct ((os_readdir directory w).1) as [d_name|]; cycle 1.
  { owp_steps. apply (HQ _ _ []); [exact Hq|by left]. }
  destruct (Hname d_name eq_refl) as [Hb1 Hdigits].
  assert (Hagain : forall w2 h, keeps w1 w2 h -> owp (proc_loop n needle directory proc_fd) Q w2).
  { intros w2 h Hk. assert (Hk' := quiet_keeps _ _ _ _ Hq Hk). apply IH.
    - destruct Hk' as (-> & _). done.
    - pose proof (keeps_budget _ _ _ Hk). lia.
    - intros r w' h' Hk2 Hr. apply (HQ _ _ (h ++ h')); [by apply (keeps_trans _ w2)|].
      destruct Hr as [->|(Hr & h0 & pfd & fd & bs & -> & Hm)]; [by left|right]. split; [done|].
      exists (h ++ h0), pfd, fd, bs. by rewrite (assoc_L (++)). }
  cbv zeta. destruct (_ || _) eqn:Edigit; [exact (Hagain w1 [] (quiet_refl w1))|]. owp_steps.
  pose proof (openat_ok proc_fd d_name w1) as H1. cbn zeta in H1. apply opens_true in H1.
  set (pid_fd := (os_openat proc_fd d_name w1).1) in *. set (w2 := (os_openat proc_fd d_name w1).2) in *.
  destruct (Z.ltb_spec pid_fd 0) as [Hneg|Hpos].
  { destruct H1 as [[_ H1]|[H1 _]]; [exact (Hagain _ _ H1)|lia]. }
  destruct H1 as [[H1 _]|(_ & F1 & H1)]; [lia|]. owp_steps.
  pose proof (openat_ok pid_fd (c_bytes "cmdline") w2) as H2. cbn zeta in H2. apply opens_true in H2.
  set (fd := (os_openat pid_fd (c_bytes "cmdline") w2).1) in *.
  set (w3 := (os_openat pid_fd (c_bytes "cmdline") w2).2) in *.
  pose proof (close_ok pid_fd w3) as H3. set (w4 := os_close pid_fd w3) in *.
  destruct (Z.ltb_spec fd 0) as [Hneg2|Hpos2].
  { destruct H2 as [[_ H2]|[H2 _]]; [|lia]. eapply (Hagain w4). exact (keeps_opened _ _ _ _ _ _ _ _ F1 H1 H2 H3). }
  destruct H2 as [[H2 _]|(_ & F2 & H2)]; [lia|]. owp_steps.
  (* the directory of the process is closed under the open file *)
  assert (F3 : (Fd fd ∉ (files w1).*1) /\ fd <> pid_fd).
  { destruct H1 as (E & _). rewrite E in F2. cbn in F2. rewrite not_elem_of_cons in F2.
    split; [tauto|]. intros ->. tauto. }
  assert (H4 : effect w1 w4 ((Fd fd, c_bytes "cmdline") :: files w1) (blocks w1)
    [Opened (Fd pid_fd) (Some proc_fd) d_name; Opened (Fd fd) (Some pid_fd) (c_bytes "cmdline")]).
  { pose proof (effect_trans _ _ _ _ _ _ _ _ _ (effect_trans _ _ _ _ _ _ _ _ _ H1 H2) H3) as H.
    destruct H1 as (E1 & E2 & _), H2 as (E3 & E4 & _).
    rewrite E3, E4, E1, E2, without_under, without_opened in H; [exact H|done|]. intros [= E]. by apply F3. }
  pose proof (read_ok fd (COMMAND_SIZE - 1) w4) as H5.
  destruct (os_read fd (COMMAND_SIZE - 1) w4) as [got w5]. cbn [fst snd].
  pose proof (close_ok fd w5) as H6. set (w6 := os_close fd w5) in *.
  destruct got as [bs|]; cycle 1.
  { eapply (Hagain w6). exact (keeps_opened _ _ _ _ _ _ _ _ (proj1 F3) H4 H5 H6). }
  destruct H5 as (Hlen & _ & H5). pose proof (keeps_opened _ _ _ _ _ _ _ _ (proj1 F3) H4 H5 H6) as H7.
  destruct bs as [|b bs]; [exact (Hagain _ _ H7)|].
  apply owp_bind, (owp_mem _ (c_string (b :: bs))); [apply terminate_ok; unfold COMMAND_SIZE in *; lia|].
  destruct (strstr (c_string (b :: bs)) needle) eqn:Em; [|exact (Hagain _ _ H7)].
  destruct Hdigits as (p & Hp & ->); [done|split_bools; lia|].
  apply (owp_mem _ p); [by apply atoi_decimal|].
  eapply HQ; [exact (keeps_trans _ _ _ _ _ Hq H7)|].
  right. split; [done|]. by exists [], pid_fd, fd, (b :: bs).
Qed.

Lemma find_pid_wp needle w (Q : Z -> W -> Prop) :
  (budget w < fuel)%nat ->
  (forall r w' h, keeps w w' h -> located needle h r -> Q r w') ->
  owp (find_pid fuel needle) Q w.
Proof.
  intros Hb HQ. unfold find_pid. owp_steps.
  pose proof (opendir_ok (c_bytes "/proc") w) as H1. cbn zeta in H1. apply opens_true in H1.
  set (dir := (os_opendir (c_bytes "/proc") w).1) in *. set (w1 := (os_opendir (c_bytes "/proc") w).2) in *.
  destruct (Z.ltb_spec dir 0).
  { destruct H1 as [[_ H1]|[? _]]; [|lia]. owp_steps. apply (HQ _ _ []); [exact H1|by left]. }
  destruct H1 as [[? _]|(_ & F1 & H1)]; [lia|]. owp_steps.
  pose proof (dirfd_ok dir w1) as H2. cbn zeta in H2. set (w2 := (os_dirfd dir w1).2) in *.
  set (proc_fd := (os_dirfd dir w1).1) in *. destruct (Z.ltb_spec proc_fd 0).
  { owp_steps. eapply HQ; [exact (keeps_opened _ _ _ _ _ _ _ _ F1 H1 H2 (closedir_ok dir w2))|by left]. }
  rewrite (proj2 (Z.leb_le 0 proc_fd)) in H2 by done.
  owp_steps. pose proof H1 as (E1 & _ & _ & B1). pose proof H2 as (E2 & _ & _ & B2). apply proc_loop_wp.
  - rewrite E2, E1. by left.
  - lia.
  - intros r w3 h H3 Hr. owp_steps. eapply HQ.
    + apply (keeps_opened _ _ _ _ _ _ _ _ F1 H1 (keeps_trans _ _ _ _ _ H2 H3)), closedir_ok.
    + destruct (decide (r = -1)) as [->|Hne]; [by left|right]. exists dir, proc_fd, h.
      split; [done|]. split; [|done]. destruct Hr as [?|[? _]]; [done|lia].
Qed.

Lemma read_executable_path_wp p w (Q : option (list Z) -> W -> Prop) :
  (forall bs w', keeps w w' [Link (proc_path p "exe") bs] -> Q (Some (c_string bs)) w') ->
  (forall w', quiet w w' -> Q None w') -> owp (read_executable_path p) Q w.
Proof.
  intros HQ Hnone. unfold read_executable_path. owp_steps.
  pose proof (readlink_ok (proc_path p "exe") (PATH_SIZE - 1) w) as H1.
  destruct (os_readlink _ _ w) as [[bs|] w1]; cbn [fst snd]; [|owp_steps; by apply Hnone].
  destruct H1 as (Hl & _ & H1).
  apply owp_bind, (owp_mem _ (c_string bs)); [apply terminate_ok; unfold PATH_SIZE in *; lia|].
  owp_steps. by apply HQ.
Qed.

(** The first of [lines] with the mapping, which is the last line read; or none. *)
Definition searched (executable : list Z) (wanted : Z) (lines : list (list Z)) (r : option Z) : Prop :=
  match r with
  | Some start => exists before line, lines = before ++ [line]
      /\ base_of executable wanted line = Some start
      /\ Forall (fun l => base_of executable wanted l = None) before
  | None => Forall (fun l => base_of executable wanted l = None) lines
  end.

Lemma maps_loop_wp n maps executable wanted : forall w (Q : option Z -> W -> Prop),
  (budget w < n)%nat ->
  (forall r w' lines, keeps w w' (map (Line maps) lines) -> searched executable wanted lines r -> Q r w') ->
  owp (maps_loop n maps executable wanted) Q w.
Proof.
  induction n as [|n IH]; intros w Q Hb HQ; [lia|]. cbn [maps_loop]. owp_steps.
  pose proof (fgets_ok maps MAPS_LINE_SIZE w) as H1.
  destruct (os_fgets maps MAPS_LINE_SIZE w) as [[line|] w1]; cbn [fst snd]; cycle 1.
  { owp_steps. apply (HQ _ _ []); [exact H1|constructor]. }
  destruct H1 as (_ & H1 & Hb1).
  assert (Hagain : base_of executable wanted line = None ->
            owp (maps_loop n maps executable wanted) Q w1).
  { intros Hn. apply IH; [lia|]. intros r w' lines H2 Hr.
    apply (HQ _ _ (line :: lines)); [exact (keeps_trans _ _ _ _ _ H1 H2)|].
    destruct r as [start|]; [|by constructor].
    destruct Hr as (before & l & -> & Hl & Hf). exists (line :: before), l.
    split_and!; [done|done|by constructor]. }
  destruct (scan_maps_line (c_string line)) as [[[[[start e] p] off] path]|] eqn:Es; cycle 1.
  { apply Hagain. unfold base_of. by rewrite Es. }
  destruct ((off =? wanted) && bool_decide (mapped_path path = executable)) eqn:Em; cycle 1.
  { apply Hagain. unfold base_of. by rewrite Es, Em. }
  owp_steps. apply (HQ _ _ [line]); [exact H1|]. exists [], line. split_and!; [done| |constructor].
  unfold base_of. by rewrite Es, Em.
Qed.

(** A search of the memory map of a process: the file could not be opened, or its
    lines were read from the start. *)
Definition map_read (p : Z) (executable : list Z) (wanted : Z) (h : list delivery) (r : option Z) : Prop :=
  h = [] /\ r = None
  \/ exists s lines, h = Opened (Stream s) None (proc_path p "maps") :: map (Line s) lines
       /\ searched executable wanted lines r.

Lemma find_mapping_base_wp p executable wanted w (Q : option Z -> W -> Prop) :
  (budget w < fuel)%nat ->
  (forall r w' h, keeps w w' h -> map_read p executable wanted h r -> Q r w') ->
  owp (find_mapping_base fuel p executable wanted) Q w.
Proof.
  intros Hb HQ. unfold find_mapping_base. owp_steps.
  pose proof (fopen_ok (proc_path p "maps") w) as H1. cbn zeta in H1. apply opens_true in H1.
  set (maps := (os_fopen (proc_path p "maps") w).1) in *.
  set (w1 := (os_fopen (proc_path p "maps") w).2) in *.
  destruct (Z.ltb_spec maps 0).
  { destruct H1 as [[_ H1]|[? _]]; [|lia]. owp_steps. apply (HQ _ _ []); [exact H1|by left]. }
  destruct H1 as [[? _]|(_ & F1 & H1)]; [lia|]. owp_steps.
  pose proof H1 as (_ & _ & _ & B1). apply maps_loop_wp; [lia|]. intros r w2 lines H2 Hr. owp_steps.
  eapply HQ; [exact (keeps_opened _ _ _ _ _ _ _ _ F1 H1 H2 (fclose_ok maps w2))|].
  right. by exists maps, lines.
Qed.

(** What resolving the symbols of an executable returns: what is in its file. *)
Definition symbols_of (executable : list Z) (h : list delivery) (r : option (list Z * Z * Z)) : Prop :=
  match r with
  | Some (values, v, o) => exists fd map_ segs syms,
      h = [Opened (Fd fd) None executable; Mapped fd map_] /\ elf_tables map_ segs syms /\ resolved segs syms values v o
  | None => True
  end.

Lemma resolve_symbols_wp executable w (Q : option (list Z * Z * Z) -> W -> Prop) :
  (forall r w' h, keeps w w' h -> symbols_of executable h r -> Q r w') ->
  owp (roadcast_vhal_resolve_symbols executable) Q w.
Proof.
  intros HQ. unfold roadcast_vhal_resolve_symbols. owp_steps.
  pose proof (open_ok executable w) as H1. cbn zeta in H1. apply opens_true in H1.
  set (fd := (os_open executable w).1) in *. set (w1 := (os_open executable w).2) in *.
  destruct (Z.ltb_spec fd 0).
  { destruct H1 as [[_ H1]|[? _]]; [|lia]. owp_steps. by apply (HQ _ _ []). }
  destruct H1 as [[? _]|(_ & F1 & H1)]; [lia|]. owp_steps.
  destruct (fstat_ok fd w1) as [H2 Hsize]. set (w2 := (os_fstat_size fd w1).2) in *.
  assert (Hsz : default 0 (os_fstat_size fd w1).1 < 2 ^ 63).
  { destruct ((os_fstat_size fd w1).1) as [n|]; [by apply Hsize|done]. }
  set (size := default 0 _) in *. destruct (Z.leb_spec size 0).
  { owp_steps. eapply HQ; [exact (keeps_opened _ _ _ _ _ _ _ _ F1 H1 H2 (close_ok fd w2))|done]. }
  owp_steps. pose proof (mmap_ok fd size w2) as H3.
  destruct (os_mmap fd size w2) as [[map_|] w3]; cbn [fst snd]; cycle 1.
  { owp_steps. eapply HQ; [|done].
    exact (keeps_opened _ _ _ _ _ _ _ _ F1 H1 (quiet_trans _ _ _ H2 H3) (close_ok fd w3)). }
  destruct H3 as (Hl & Hbytes & H3).
  pose proof (close_ok fd w3) as H4. set (w4 := os_close fd w3) in *.
  set (h := [Opened (Fd fd) None executable; Mapped fd map_]).
  assert (H5 : effect w w4 (files w) (blocks w + 1) h).
  { pose proof (effect_trans _ _ _ _ _ _ _ _ _ (effect_trans _ _ _ _ _ _ _ _ _ H1
      (quiet_effect _ _ _ _ _ _ H2 H3)) H4) as H'.
    destruct H1 as (E1 & E2 & _), H2 as (E3 & E4 & _), H3 as (E5 & E6 & _).
    rewrite E5, E6, E3, E4, E1, E2, without_opened in H' by done. exact H'. }
  (* the mapping is released on both paths *)
  assert (Hdone : forall r w5, quiet w4 w5 -> symbols_of executable h r -> Q r (os_munmap w5)).
  { intros r w5 Hq Hr. apply (HQ r _ h); [|done].
    pose proof (effect_trans _ _ _ _ _ _ _ _ _ (effect_quiet _ _ _ _ _ _ H5 Hq) (munmap_ok w5)) as H'.
    destruct H5 as (E1 & E2 & _), Hq as (E3 & E4 & _).
    rewrite E3, E1, E4, E2, Z.add_simpl_r in H'. exact H'. }
  apply owp_bind. unfold odec, owp at 1.
  pose proof (resolve_mapped_spec map_ Hbytes ltac:(lia)) as Hres. rewrite <- Hl.
  destruct (resolve_mapped map_ (zlen map_)) as [[[values v] o]| |]; [| |done].
  - owp_steps. apply Hdone; [apply quiet_refl|].
    destruct Hres as (_ & segs & syms & Ht & Hr). by exists fd, map_, segs, syms.
  - owp_steps. apply put_errno_wp. intros w5 Hq _. owp_steps. by apply Hdone.
Qed.

(** ** The identity of the process *)

Lemma pread_loop_wp n fd count off : forall w (Q : option (list Z) -> W -> Prop),
  (budget w < n)%nat ->
  (forall bs w', keeps w w' [Bytes fd off bs] -> zlen bs <= count -> bytes_ok bs -> Q (Some bs) w') ->
  (forall w', quiet w w' -> errno w' <> 0 -> Q None w') ->
  owp (pread_loop n fd count off) Q w.
Proof.
  induction n as [|n IH]; intros w Q Hb Hsome Hnone; [lia|]. cbn [pread_loop]. owp_steps.
  pose proof (pread_ok fd count off w) as H1.
  destruct (os_pread fd count off w) as [[bs|] w1]; cbn [fst snd]; owp_steps.
  - apply Hsome; tauto.
  - destruct H1 as (H1 & He & Hb1). destruct (Z.eqb_spec (errno w1) EINTR) as [E|]; [|owp_steps; auto].
    specialize (Hb1 E). apply IH; [lia|..].
    + intros bs w' H2. apply Hsome. exact (quiet_keeps _ _ _ _ H1 H2).
    + intros w' H2. apply Hnone. exact (quiet_trans _ _ _ H1 H2).
Qed.

(** The deliveries of a check: at most one, of the file of the identity. *)
Definition identity_read (fd : Z) (h : list delivery) : Prop :=
  h = [] \/ exists bs, h = [Bytes fd 0 bs].

Lemma read_start_time_wp fd w (Q : option Z -> W -> Prop) :
  (budget w < fuel)%nat ->
  (forall v w' bs, keeps w w' [Bytes fd 0 bs] -> start_time_of bs = Some v -> Q (Some v) w') ->
  (forall w' h, keeps w w' h -> identity_read fd h -> Q None w') ->
  owp (read_start_time fuel fd) Q w.
Proof.
  intros Hb Hsome Hnone. unfold read_start_time. apply owp_bind, pread_loop_wp; [done| |].
  - intros bs w1 H1 Hl _. destruct bs as [|b bs].
    { apply owp_bind, put_errno_wp. intros w2 H2 _. owp_steps.
      apply (Hnone _ [Bytes fd 0 []]); [exact (keeps_quiet _ _ _ _ H1 H2)|right; by eexists]. }
    apply owp_bind, (owp_mem _ (c_string (b :: bs))); [apply terminate_ok; unfold STAT_SIZE in *; lia|].
    assert (Hfail : forall w2, quiet w1 w2 -> owp (put_errno EINVAL;; mret None) Q w2).
    { intros w2 H2. apply owp_bind, put_errno_wp. intros w3 H3 _. owp_steps.
      apply (Hnone _ [Bytes fd 0 (b :: bs)]); [|right; by eexists].
      exact (keeps_quiet _ _ _ _ H1 (quiet_trans _ _ _ H2 H3)). }
    destruct (start_time_field (c_string (b :: bs))) as [cursor|] eqn:Ef; [|apply Hfail, quiet_refl].
    apply owp_bind, put_errno_wp. intros w2 H2 _.
    destruct (start_time_value cursor) as [v|] eqn:Ev; [|by apply Hfail]. owp_steps.
    apply (Hsome v _ (b :: bs)); [exact (keeps_quiet _ _ _ _ H1 H2)|].
    unfold start_time_of. rewrite Ef. exact Ev.
  - intros w1 H1 _. owp_steps. apply (Hnone _ []); [exact H1|by left].
Qed.

(** The check succeeds only on a fresh read with the recorded start time. *)
Definition confirmed (s : roadcast_vhal_source_t) (h : list delivery) : Prop :=
  exists bs, h = [Bytes (identity_fd s) 0 bs] /\ start_time_of bs = Some (start_time_ticks s).

Lemma verify_identity_wp s w (Q : Z -> W -> Prop) :
  (budget w < fuel)%nat ->
  (forall w' h, keeps w w' h -> 0 <= identity_fd s -> confirmed s h -> Q 0 w') ->
  (forall w' h, keeps w w' h -> Q (-1) w') ->
  owp (verify_identity fuel s) Q w.
Proof.
  intros Hb Hok Hfail. unfold verify_identity.
  assert (Hno : forall w1 h, keeps w w1 h -> owp (put_errno ESRCH;; mret (-1)) Q w1).
  { intros w1 h H1. apply owp_bind, put_errno_wp. intros w2 H2 _. owp_steps.
    apply (Hfail _ h). exact (keeps_quiet _ _ _ _ H1 H2). }
  destruct (Z.ltb_spec (identity_fd s) 0).
  { owp_steps. exact (Hno w [] (quiet_refl w)). }
  apply owp_bind, read_start_time_wp; [done| |].
  - intros v w1 bs H1 Hv. destruct (Z.eqb_spec v (start_time_ticks s)) as [->|]; [|by apply (Hno w1 _ H1)].
    owp_steps. apply (Hok _ [Bytes (identity_fd s) 0 bs]); [done|done|by exists bs].
  - intros w1 h H1 _. by apply (Hno w1 h).
Qed.
End Proc.
