(* ===== verification/VhalOpen.v ===== *)
(** * The VHAL source: opening and closing

    What an open source is, that [vhal_open] either returns one or leaves nothing
    open or allocated, and that [vhal_close] releases all of it. *)

From Stdlib Require Import String.
From S2P Require Import Prelude Effect Text Wire CatalogDefs Catalog SourceSession Sampler.
From S2P Require Import VhalElf VhalDefs VhalOps VhalOs VhalProc.

Section Invariant.
Context `{HC : CatalogOk}.

(** A vector of the right length, or none when no frame needs it. *)
Definition vector_ok (addresses_ : list Z) (iov : option (list (iovec Z))) : Prop :=
  match iov with
  | Some vector => zlen vector = FRAME_COUNT
  | None => nonzero addresses_ = 0
  end.

(** What [vhal_read] and [vhal_close] rely on. *)
Definition source_ok (s : roadcast_vhal_source_t) : Prop :=
  zlen (addresses s) = FRAME_COUNT
  /\ vector_ok (addresses s) (local_iov s) /\ vector_ok (addresses s) (remote_iov s).

(** The remote vector starts with the addresses of the resolved frames. *)
Definition aligned (s : roadcast_vhal_source_t) : Prop :=
  match remote_iov s with
  | Some vector =>
      take (Z.to_nat (nonzero (addresses s))) vector
      = map (fun a => mk_iovec (Some a) 8) (filter (fun a => a <> 0) (addresses s))
  | None => True
  end.

Lemma nonzero_zeros n : nonzero (repeat 0 n) = 0.
Proof. induction n as [|n IH]; [done|]. cbn [repeat]. by rewrite nonzero_cons. Qed.

Lemma closed_source_ok : source_ok closed_source.
Proof.
  split_and!; [unfold FRAME_COUNT, zlen; cbn; by rewrite repeat_length|apply nonzero_zeros..].
Qed.

(** The addresses of the frames: the symbols moved by the bias of the mapping. *)
Definition address_of (bias value : Z) : Z := if value =? 0 then 0 else u64 (bias + value).

Lemma nonzero_app l k : nonzero (l ++ k) = nonzero l + nonzero k.
Proof. unfold nonzero. by rewrite list.filter_app, zlen_app. Qed.

(** The state of the loop over the symbols after [i] of them. *)
Definition resolving (values : list Z) (bias : Z) (s0 : roadcast_vhal_source_t) (i : Z)
    (s : roadcast_vhal_source_t) : Prop :=
  addresses s = map (address_of bias) (take (Z.to_nat i) values)
                ++ repeat 0 (length CAN_IDS - Z.to_nat i)
  /\ (exists vector, remote_iov s = Some vector /\ zlen vector = FRAME_COUNT
       /\ take (Z.to_nat (resolved_count s)) vector
          = map (fun a => mk_iovec (pointer a) 8)
              (map (fun v => u64 (bias + v)) (filter (fun v => v <> 0) (take (Z.to_nat i) values))))
  /\ resolved_count s = nonzero (take (Z.to_nat i) values)
  /\ pid s = pid s0 /\ mem_fd s = mem_fd s0 /\ identity_fd s = identity_fd s0
  /\ start_time_ticks s = start_time_ticks s0 /\ local_iov s = local_iov s0
  /\ vm_readv_retry_ns s = vm_readv_retry_ns s0.

Lemma resolve_address_step values bias s0 i s :
  zlen values = FRAME_COUNT -> 0 <= i < FRAME_COUNT -> resolving values bias s0 i s ->
  exists s', resolve_address values bias i s = Ok s' /\ resolving values bias s0 (i + 1) s'.
Proof.
  intros Hl Hi (Ha & (vector & Hv & Hvl & Htake) & Hc & Hrest).
  destruct (rd_ok values i) as (v & Hrd & Hlook); [lia|]. unfold resolve_address. rewrite Hrd, bind_ok.
  assert (Etake : take (Z.to_nat (i + 1)) values = take (Z.to_nat i) values ++ [v]).
  { replace (Z.to_nat (i + 1)) with (S (Z.to_nat i)) by lia. by apply take_S_r. }
  assert (Erep : repeat 0 (length CAN_IDS - Z.to_nat i)
                 = 0 :: repeat 0 (length CAN_IDS - Z.to_nat (i + 1))).
  { unfold FRAME_COUNT, zlen in Hi. replace (length CAN_IDS - Z.to_nat i)%nat
      with (S (length CAN_IDS - Z.to_nat (i + 1))) by lia. done. }
  assert (Hlen : zlen (map (address_of bias) (take (Z.to_nat i) values)) = i).
  { unfold zlen in *. rewrite length_map, length_take. lia. }
  destruct (Z.eqb_spec v 0) as [->|Hv0].
  - exists s. split; [done|]. unfold resolving. rewrite Etake, nonzero_app, list.filter_app, !map_app.
    rewrite <- !(assoc_L (++)). cbn [map]. split_and!; try apply Hrest.
    + by rewrite Ha, Erep.
    + exists vector. split_and!; try done. rewrite filter_cons_False by tauto. cbn [map filter].
      by rewrite app_nil_r.
    + rewrite Hc. change (nonzero [0]) with 0. lia.
  - pose proof (nonzero_le (take (Z.to_nat i) values)) as Hnz.
    assert (Hti : zlen (take (Z.to_nat i) values) = i).
    { unfold zlen in *. rewrite length_take. lia. }
    rewrite Ha, Erep, wr_blit.
    change (0 :: repeat 0 (length CAN_IDS - Z.to_nat (i + 1)))
      with ([0] ++ repeat 0 (length CAN_IDS - Z.to_nat (i + 1))).
    rewrite (blit_app (map (address_of bias) (take (Z.to_nat i) values)) [0]
         (repeat 0 (length CAN_IDS - Z.to_nat (i + 1))) [u64 (bias + v)]) by (done || by rewrite Hlen).
    rewrite bind_ok, Hv. cbn [deref]. rewrite bind_ok. unfold wr.
    destruct (Z.ltb_spec (resolved_count s) 0), (Z.leb_spec (zlen vector) (resolved_count s)); try lia.
    cbn [orb]. rewrite bind_ok. eexists. split; [done|].
    unfold resolving. cbn [addresses remote_iov resolved_count pid mem_fd identity_fd start_time_ticks
      local_iov vm_readv_retry_ns set]. split_and!; try apply Hrest.
    + rewrite Etake, map_app. cbn [map]. unfold address_of at 3.
      rewrite (proj2 (Z.eqb_neq v 0) Hv0). by rewrite <- (assoc_L (++)).
    + eexists. split; [done|]. split; [unfold zlen in *; by rewrite length_insert|].
      pose proof catalog_frames_bound. rewrite sz_id by width_lia.
      replace (Z.to_nat (resolved_count s + 1)) with (S (Z.to_nat (resolved_count s))) by lia.
      rewrite (take_S_r _ _ (mk_iovec (pointer (u64 (bias + v))) 8)).
      * rewrite take_insert_ge by done. rewrite Htake, Etake, list.filter_app, !map_app. f_equal.
        by rewrite filter_cons_True by done.
      * apply list_lookup_insert_eq. unfold zlen in *. lia.
    + pose proof catalog_frames_bound. rewrite sz_id by width_lia. rewrite Etake, nonzero_app, Hc.
      rewrite (nonzero_cons v []), (proj2 (Z.eqb_neq v 0) Hv0). done.
Qed.
End Invariant.

(** ** What a source holds *)

Definition held_files (s : roadcast_vhal_source_t) : list (handle * list Z) :=
  (if 0 <=? mem_fd s then [(Fd (mem_fd s), proc_path (pid s) "mem")] else [])
  ++ (if 0 <=? identity_fd s then [(Fd (identity_fd s), proc_path (pid s) "stat")] else []).

Definition held_blocks (s : roadcast_vhal_source_t) : Z :=
  (match local_iov s with Some _ => 1 | None => 0 end)
  + (match remote_iov s with Some _ => 1 | None => 0 end).

Section Open.
Context `{HC : CatalogOk} {W : Type} `{OS : !Os W} `{HO : !OsOk OS} (fuel : nat).
Implicit Types (w : W) (s : roadcast_vhal_source_t).

(** The files of a source are its own. *)
Definition fresh s w : Prop :=
  (0 <= identity_fd s -> Fd (identity_fd s) ∉ (files w).*1)
  /\ (0 <= mem_fd s -> (Fd (mem_fd s) ∉ (files w).*1) /\ mem_fd s <> identity_fd s).

(** [w'] is [w] with the files and blocks of [s], and [h] was delivered. *)
Definition holds s w w' (h : list delivery) : Prop :=
  fresh s w /\ effect w w' (held_files s ++ files w) (blocks w + held_blocks s) h.

Lemma holds_keeps s w w1 w2 h1 h2 : holds s w w1 h1 -> keeps w1 w2 h2 -> holds s w w2 (h1 ++ h2).
Proof.
  intros [Hf H1] H2. split; [done|]. pose proof (effect_trans _ _ _ _ _ _ _ _ _ H1 H2) as H.
  destruct H1 as (E1 & E2 & _). by rewrite E1, E2 in H.
Qed.

Lemma holds_quiet s w w1 w2 h : holds s w w1 h -> quiet w1 w2 -> holds s w w2 h.
Proof. intros H1 H2. pose proof (holds_keeps _ _ _ _ _ _ H1 H2) as H. by rewrite app_nil_r in H. Qed.

(** The same files and blocks, other fields. *)
Lemma holds_same s s' w w' h :
  pid s' = pid s -> mem_fd s' = mem_fd s -> identity_fd s' = identity_fd s ->
  local_iov s' = local_iov s -> remote_iov s' = remote_iov s -> holds s w w' h -> holds s' w w' h.
Proof.
  intros E1 E2 E3 E4 E5. unfold holds, fresh, held_files, held_blocks. by rewrite E1, E2, E3, E4, E5.
Qed.

Lemma close_fd_wp fd p (fs : list (handle * list Z)) w n h w' (Q : unit -> W -> Prop) :
  (0 <= fd -> Fd fd ∉ fs.*1) ->
  effect w w' ((if 0 <=? fd then [(Fd fd, p)] else []) ++ fs) n h ->
  (forall w2, effect w w2 fs n h -> Q tt w2) ->
  owp (if 0 <=? fd then osys_ (os_close fd) else mret tt) Q w'.
Proof.
  intros Hf H HQ. destruct (Z.leb_spec 0 fd); owp_steps; apply HQ; [|done].
  pose proof (effect_trans _ _ _ _ _ _ _ _ _ H (close_ok fd w')) as H2.
  destruct H as (E1 & E2 & _). cbn [app] in E1. rewrite E1, E2, without_opened, app_nil_r in H2 by auto.
  exact H2.
Qed.

Lemma free_iov_wp iov w fs n h w' (Q : unit -> W -> Prop) :
  effect w w' fs (n + match iov with Some _ => 1 | None => 0 end) h ->
  (forall w2, effect w w2 fs n h -> Q tt w2) -> owp (free_iov iov) Q w'.
Proof.
  intros H HQ. unfold free_iov. destruct iov; owp_steps; apply HQ; [|by rewrite Z.add_0_r in H].
  pose proof (effect_trans _ _ _ _ _ _ _ _ _ H (free_ok w')) as H2.
  destruct H as (E1 & E2 & _). by rewrite E1, E2, Z.add_simpl_r, app_nil_r in H2.
Qed.

(** Closing releases exactly what the source holds. *)
Lemma vhal_close_wp s w w' h (Q : roadcast_vhal_source_t -> W -> Prop) :
  holds s w w' h -> (forall w2, keeps w w2 h -> Q closed_source w2) -> owp (vhal_close s) Q w'.
Proof.
  intros [[F1 F2] H] HQ. unfold vhal_close, held_files, held_blocks in *.
  rewrite <- (assoc_L (++)) in H. apply owp_bind. eapply close_fd_wp; [|exact H|].
  { intros Hm. destruct (F2 Hm) as [G1 G2]. destruct (Z.leb_spec 0 (identity_fd s)); [|done]. cbn.
    rewrite not_elem_of_cons. split; [congruence|done]. }
  clear w' H. intros w' H. apply owp_bind. eapply close_fd_wp; [exact F1|exact H|].
  clear w' H. intros w' H. apply owp_bind.
  rewrite (Z.add_comm (match local_iov s with Some _ => 1 | None => 0 end)), Z.add_assoc in H.
  eapply free_iov_wp; [exact H|]. clear w' H. intros w' H. apply owp_bind.
  eapply free_iov_wp; [exact H|]. clear w' H. intros w' H. owp_steps. by apply HQ.
Qed.

Lemma vhal_fail_wp s w w' h (Q : Z * roadcast_vhal_source_t -> W -> Prop) :
  holds s w w' h -> (forall w2, keeps w w2 h -> Q (-1, closed_source) w2) -> owp (vhal_fail s) Q w'.
Proof.
  intros H HQ. unfold vhal_fail. owp_steps. eapply vhal_close_wp; [exact H|]. intros w2 H2.
  apply owp_bind, put_errno_wp. intros w3 H3 _. owp_steps. apply HQ. exact (keeps_quiet _ _ _ _ H2 H3).
Qed.

Lemma calloc_iov_wp w (Q : option (list (iovec Z)) -> W -> Prop) :
  (forall r w', effect w w' (files w) (blocks w + match r with Some _ => 1 | None => 0 end) [] ->
     match r with Some v => zlen v = FRAME_COUNT | None => True end -> Q r w') ->
  owp calloc_iov Q w.
Proof.
  intros HQ. unfold calloc_iov. owp_steps. apply HQ.
  - pose proof (calloc_ok w) as H. by destruct (os_calloc w).1.
  - destruct (os_calloc w).1; [|done]. unfold zlen, FRAME_COUNT. by rewrite repeat_length.
Qed.

(** ** Opening *)

(** The base of the mapping of the executable in the memory map of a process: at
    the offset looked for, or, when the map has none there, at the offset 0. *)
Definition mapped_at (p : Z) (executable : list Z) (o : Z) (h : list delivery) (base : Z) : Prop :=
  map_read p executable o h (Some base)
  \/ exists h1 h2, h = h1 ++ h2 /\ map_read p executable o h1 None
       /\ map_read p executable 0 h2 (Some base).

(** The memory file of the process of [s], when it could be opened. *)
Definition memory_opened s : list delivery :=
  if 0 <=? mem_fd s then [Opened (Fd (mem_fd s)) None (proc_path (pid s) "mem")] else [].

(** The trace of opening a source up to the last check of the identity.  The process
    is found by its command line; its start time is read from its stat file; the
    executable is the file that its exe link names; the base is that of the mapping
    of this file in its memory map; and the addresses are the symbols of the file,
    moved by the distance of the mapping from the lowest segment. *)
Definition opening (needle : list Z) s (h : list delivery) : Prop :=
  exists hp bs exe fd map_ hm segs syms values v o base,
    h = hp ++ [Opened (Fd (identity_fd s)) None (proc_path (pid s) "stat"); Bytes (identity_fd s) 0 bs;
               Link (proc_path (pid s) "exe") exe; Opened (Fd fd) None (c_string exe); Mapped fd map_]
           ++ hm ++ memory_opened s
    /\ located needle hp (pid s) /\ start_time_of bs = Some (start_time_ticks s)
    /\ elf_tables map_ segs syms /\ resolved segs syms values v o
    /\ mapped_at (pid s) (c_string exe) o hm base
    /\ addresses s = map (address_of (u64 (base - v))) values
    /\ (Forall (fun x => x <> 0 -> u64 (u64 (base - v) + x) <> 0) values -> aligned s).

Definition opened (needle : list Z) s w w' : Prop :=
  source_ok s /\ 0 <= pid s < 2 ^ 31 /\ 0 <= identity_fd s
  /\ exists h hc, holds s w w' (h ++ hc) /\ opening needle s h /\ confirmed s hc.

Lemma filter_addresses bias values :
  Forall (fun x => x <> 0 -> u64 (bias + x) <> 0) values ->
  filter (fun a => a <> 0) (map (address_of bias) values)
  = map (fun x => u64 (bias + x)) (filter (fun x => x <> 0) values).
Proof.
  induction 1 as [|x values Hx _ IH]; [done|]. cbn [map]. unfold address_of at 1.
  destruct (Z.eqb_spec x 0) as [->|Hx0].
  - by rewrite !filter_cons_False by tauto.
  - rewrite !filter_cons_True by auto. cbn [map]. by rewrite IH.
Qed.

Lemma pointers_of bias (values : list Z) :
  Forall (fun x => x <> 0 -> u64 (bias + x) <> 0) values ->
  map (fun a => mk_iovec (pointer a) 8) (map (fun v => u64 (bias + v)) (filter (fun v => v <> 0) values))
  = map (fun a => mk_iovec (Some a) 8) (filter (fun a => a <> 0) (map (address_of bias) values)).
Proof.
  intros H. rewrite filter_addresses by done. rewrite !map_map. apply map_ext_in. intros x Hx.
  apply list_elem_of_In, list_elem_of_filter in Hx as [Hx0 Hx]. rewrite Forall_forall in H.
  apply list_elem_of_In in Hx. specialize (H x Hx Hx0). unfold pointer.
  by rewrite (proj2 (Z.eqb_neq _ 0) H).
Qed.

(** The state after the loop over the symbols. *)
Lemma resolve_addresses values bias s :
  zlen values = FRAME_COUNT -> addresses s = repeat 0 (length CAN_IDS) -> resolved_count s = 0 ->
  match remote_iov s with Some v => zlen v = FRAME_COUNT | None => False end ->
  exists s', loop (Z.to_nat FRAME_COUNT) 0 (resolve_address values bias) s = Ok s'
    /\ addresses s' = map (address_of bias) values
    /\ (exists vector, remote_iov s' = Some vector /\ zlen vector = FRAME_COUNT)
    /\ (Forall (fun x => x <> 0 -> u64 (bias + x) <> 0) values -> aligned s')
    /\ pid s' = pid s /\ mem_fd s' = mem_fd s /\ identity_fd s' = identity_fd s
    /\ start_time_ticks s' = start_time_ticks s /\ local_iov s' = local_iov s.
Proof.
  intros Hl Ha Hc Hr. pose proof (proj1 catalog_nonempty) as Hpos.
  destruct (loop_total (resolving values bias s) (resolve_address values bias) (Z.to_nat FRAME_COUNT) 0 s)
    as (s' & Hrun & Hres).
  { unfold resolving. change (Z.to_nat 0) with 0%nat. rewrite take_0, Nat.sub_0_r. cbn [map app].
    destruct (remote_iov s) as [v|]; [|done]. rewrite Hc. split_and!; try done. by exists v. }
  { intros j t Hj. apply resolve_address_step; [done|lia]. }
  exists s'. split; [exact Hrun|]. rewrite Z.add_0_l, Z2Nat.id in Hres by lia.
  destruct Hres as (H1 & (vector & H2 & H3 & H4) & H5 & H6 & H7 & H8 & H9 & H10 & _).
  assert (Hall : take (Z.to_nat FRAME_COUNT) values = values) by (apply take_ge; unfold zlen in Hl; lia).
  rewrite Hall in H1, H4, H5. unfold FRAME_COUNT, zlen in H1. rewrite Nat2Z.id, Nat.sub_diag, app_nil_r in H1.
  split_and!; try done; [by exists vector|]. intros Hnw. unfold aligned. rewrite H2, H1.
  rewrite <- pointers_of by done.
  assert (E : nonzero (map (address_of bias) values) = nonzero values).
  { unfold nonzero. rewrite filter_addresses by done. apply zlen_map. }
  by rewrite E, <- H5, H4.
Qed.

(** A source before its vectors are allocated. *)
Definition unresolved s : Prop :=
  mem_fd s = -1 /\ addresses s = repeat 0 (length CAN_IDS) /\ local_iov s = None
  /\ remote_iov s = None /\ resolved_count s = 0.

Lemma holds_alloc s s' w0 w w' h :
  holds s w0 w h -> effect w w' (files w) (blocks w + (held_blocks s' - held_blocks s)) [] ->
  pid s' = pid s -> mem_fd s' = mem_fd s -> identity_fd s' = identity_fd s -> holds s' w0 w' h.
Proof.
  intros [Hf H] H2 E1 E2 E3. unfold holds, fresh, held_files in *. rewrite E1, E2, E3. split; [done|].
  pose proof (effect_trans _ _ _ _ _ _ _ _ _ H H2) as H3. destruct H as (F1 & F2 & _).
  rewrite F1, F2, app_nil_r in H3.
  by replace (blocks w0 + held_blocks s + (held_blocks s' - held_blocks s))
    with (blocks w0 + held_blocks s') in H3 by lia.
Qed.

Lemma holds_memory s w0 w w' h fd :
  mem_fd s < 0 -> holds s w0 w h -> opens w (Fd fd) (0 <=? fd) None (proc_path (pid s) "mem") w' ->
  holds (s <| mem_fd := fd |>) w0 w' (h ++ memory_opened (s <| mem_fd := fd |>)).
Proof.
  intros Hneg [[F1 F2] H] Ho. apply opens_true in Ho.
  assert (E : held_files s = if 0 <=? identity_fd s
                then [(Fd (identity_fd s), proc_path (pid s) "stat")] else []).
  { unfold held_files. by destruct (Z.leb_spec 0 (mem_fd s)); [lia|]. }
  rewrite E in H. pose proof H as (G1 & G2 & _).
  unfold holds, fresh, held_files, held_blocks, memory_opened.
  cbn [mem_fd identity_fd pid local_iov remote_iov set].
  destruct Ho as [[Hr Ho]|(Hr & Hn & Ho)].
  - destruct (Z.leb_spec 0 fd); [lia|]. split; [split; [done|lia]|].
    pose proof (effect_quiet _ _ _ _ _ _ H Ho) as H2. rewrite app_nil_r. exact H2.
  - destruct (Z.leb_spec 0 fd); [|lia]. rewrite G1, fmap_app, not_elem_of_app in Hn.
    destruct Hn as [Hn1 Hn2]. split.
    + split; [done|]. intros _. split; [done|]. intros ->.
      destruct (Z.leb_spec 0 (identity_fd s)); [|lia]. apply Hn1. by left.
    + pose proof (effect_trans _ _ _ _ _ _ _ _ _ H Ho) as H2. rewrite G1, G2 in H2. exact H2.
Qed.

Lemma open_resolved_wp values v base s w0 w h (Q : Z * roadcast_vhal_source_t -> W -> Prop) :
  (budget w < fuel)%nat -> zlen values = FRAME_COUNT -> unresolved s -> holds s w0 w h ->
  (forall s' w' hc, holds s' w0 w' ((h ++ memory_opened s') ++ hc) -> confirmed s' hc -> source_ok s' ->
     identity_fd s' = identity_fd s -> start_time_ticks s' = start_time_ticks s -> pid s' = pid s ->
     addresses s' = map (address_of (u64 (base - v))) values ->
     (Forall (fun x => x <> 0 -> u64 (u64 (base - v) + x) <> 0) values -> aligned s') -> Q (0, s') w') ->
  (forall w' h', keeps w0 w' h' -> Q (-1, closed_source) w') ->
  owp (open_resolved fuel s values v base) Q w.
Proof.
  intros Hb Hl (U1 & U2 & U3 & U4 & U5) H HQ Hfail. unfold open_resolved.
  assert (Hfail' : forall s1 w1 h1, holds s1 w0 w1 h1 -> owp (vhal_fail s1) Q w1).
  { intros s1 w1 h1 H1. eapply vhal_fail_wp; [exact H1|]. intros w2 H2. by apply (Hfail _ h1). }
  apply owp_bind, calloc_iov_wp. intros local w1 E1 L1. cbv zeta.
  apply owp_bind, calloc_iov_wp. intros remote w2 E2 L2. cbv zeta.
  set (s2 := s <| local_iov := local |> <| remote_iov := remote |>).
  assert (H2 : holds s2 w0 w2 h).
  { assert (H1 : holds (s <| local_iov := local |>) w0 w1 h).
    { apply (holds_alloc s _ _ w); try done. unfold held_blocks. cbn. rewrite U3, U4.
      replace (_ - (0 + 0)) with (match local with Some _ => 1 | None => 0 end) by (destruct local; lia).
      exact E1. }
    apply (holds_alloc (s <| local_iov := local |>) _ _ w1); try done. unfold held_blocks, s2. cbn.
    rewrite U4. replace (_ - _) with (match remote with Some _ => 1 | None => 0 end)
      by (destruct local, remote; lia). exact E2. }
  assert (Hnomem : owp (put_errno ENOMEM;; vhal_fail s2) Q w2).
  { apply owp_bind, put_errno_wp. intros w3 H3 _. apply (Hfail' _ _ h). by apply (holds_quiet _ _ w2). }
  destruct local as [lv|]; [|exact Hnomem]. destruct remote as [rv|]; [|exact Hnomem].
  destruct (resolve_addresses values (u64 (base - v)) s2) as
    (s3 & Hrun & A1 & (rv' & A2 & A3) & A4 & A5 & A6 & A7 & A8 & A9); try done.
  apply owp_bind, (owp_mem _ s3); [exact Hrun|].
  assert (H3 : holds s3 w0 w2 h).
  { unfold holds, fresh, held_files, held_blocks in *. rewrite A2, A5, A6, A7, A9. exact H2. }
  destruct (resolved_count s3 =? 0).
  { apply owp_bind, put_errno_wp. intros w3 Hq _. apply (Hfail' _ _ h). by apply (holds_quiet _ _ w2). }
  unfold open_memory_fd. owp_steps.
  pose proof (open_ok (proc_path (pid s3) "mem") w2) as Ho. cbn zeta in Ho.
  set (fd := (os_open (proc_path (pid s3) "mem") w2).1) in *.
  set (w3 := (os_open (proc_path (pid s3) "mem") w2).2) in *.
  assert (Hm3 : mem_fd s3 < 0) by (rewrite A6; change (mem_fd s2) with (mem_fd s); lia).
  pose proof (holds_memory s3 w0 w2 w3 h fd Hm3 H3 Ho) as H4.
  set (s4 := s3 <| mem_fd := fd |>) in *.
  assert (Hb3 : (budget w3 < fuel)%nat).
  { pose proof E1 as (_ & _ & _ & B1). pose proof E2 as (_ & _ & _ & B2).
    apply opens_true in Ho. destruct Ho as [[_ (_ & _ & _ & B3)]|(_ & _ & (_ & _ & _ & B3))]; lia. }
  apply verify_identity_wp; [done| |].
  - intros w4 hc H5 Hid Hcf. owp_steps. apply (HQ _ _ hc); try done.
    + by apply (holds_keeps _ _ w3).
    + unfold source_ok, vector_ok, s4. cbn [addresses local_iov remote_iov set]. rewrite A2, A9. cbn.
      split_and!; try done. rewrite A1. unfold zlen in *. by rewrite length_map.
  - intros w4 h' H5. cbn. eapply Hfail'. by apply (holds_keeps _ _ w3).
Qed.

(** Opening returns an open source, or releases everything it took. *)
Lemma vhal_open_wp needle w (Q : Z * roadcast_vhal_source_t -> W -> Prop) :
  (budget w < fuel)%nat ->
  (forall s w', opened needle s w w' -> Q (0, s) w') ->
  (forall s w' h, keeps w w' h -> mem_fd s = -1 -> identity_fd s = -1 -> local_iov s = None ->
     remote_iov s = None -> addresses s = repeat 0 (length CAN_IDS) -> Q (-1, s) w') ->
  owp (vhal_open fuel needle) Q w.
Proof.
  intros Hb Hok Hfail. unfold vhal_open. apply owp_bind, find_pid_wp; [done|].
  intros p w1 h1 H1 Hp. cbv zeta. pose proof (keeps_budget _ _ _ H1) as B1.
  destruct (Z.ltb_spec p 0) as [Hneg|Hp0].
  { apply owp_bind, put_errno_wp. intros w2 H2 _. owp_steps.
    eapply Hfail; [exact (keeps_quiet _ _ _ _ H1 H2)|done..]. }
  assert (Hp31 : p < 2 ^ 31) by (destruct Hp as [->|(? & ? & ? & _ & _ & [->|[? _]])]; lia).
  owp_steps.
  pose proof (open_ok (proc_path p "stat") w1) as Ho. cbn zeta in Ho.
  set (fd := (os_open (proc_path p "stat") w1).1) in *.
  set (w2 := (os_open (proc_path p "stat") w1).2) in *.
  set (s2 := closed_source <| pid := p |> <| identity_fd := fd |>).
  assert (B2 : (budget w2 <= budget w1)%nat).
  { apply opens_true in Ho. by destruct Ho as [[_ (_ & _ & _ & B3)]|(_ & _ & (_ & _ & _ & B3))]. }
  set (ho := if 0 <=? fd then [Opened (Fd fd) None (proc_path p "stat")] else []).
  assert (H2 : holds s2 w w2 (h1 ++ ho)).
  { unfold holds, fresh, held_files, held_blocks, ho. cbn. pose proof H1 as (G1 & G2 & _).
    apply opens_true in Ho. destruct Ho as [[Hr Ho]|(Hr & Hn & Ho)];
      (destruct (Z.leb_spec 0 fd); [|lia]) || (destruct (Z.leb_spec 0 fd); [lia|]).
    - split; [split; lia|]. rewrite Z.add_0_r, app_nil_r. exact (keeps_quiet _ _ _ _ H1 Ho).
    - rewrite G1 in Hn. split; [split; [done|lia]|]. rewrite Z.add_0_r.
      pose proof (effect_trans _ _ _ _ _ _ _ _ _ H1 Ho) as H'. by rewrite G1, G2 in H'. }
  assert (Hfail' : forall s' w' h', holds s' w w' h' -> owp (vhal_fail s') Q w').
  { intros s' w' h' H'. eapply vhal_fail_wp; [exact H'|]. intros w4 H4. by apply (Hfail _ _ h'). }
  unfold ho in H2. clear ho. destruct (Z.ltb_spec fd 0) as [|Hfd]; [by eapply Hfail'|].
  rewrite (proj2 (Z.leb_le 0 fd)) in H2 by done.
  apply owp_bind, read_start_time_wp; [lia| |]; cycle 1.
  { intros w3 h3 H3 _. eapply Hfail'. by apply (holds_keeps _ _ w2). }
  intros start w3 bs H3 Hstart. cbv zeta. pose proof (keeps_budget _ _ _ H3) as B3.
  set (s3 := s2 <| start_time_ticks := start |>). pose proof (holds_keeps _ _ _ _ _ _ H2 H3) as H3'.
  set (h3 := (h1 ++ _) ++ _) in *. assert (H4 : holds s3 w w3 h3) by (by apply (holds_same s2)).
  apply owp_bind, read_executable_path_wp; cycle 1.
  { intros w4 Hq. eapply Hfail'. by apply (holds_quiet _ _ w3). }
  intros exe w4 Hexe. pose proof (keeps_budget _ _ _ Hexe) as B4.
  pose proof (holds_keeps _ _ _ _ _ _ H4 Hexe) as H5.
  apply owp_bind, resolve_symbols_wp. intros syms w5 h5 H6 Hsyms. pose proof (keeps_budget _ _ _ H6) as B5.
  pose proof (holds_keeps _ _ _ _ _ _ H5 H6) as H7.
  destruct syms as [[[values v] o]|]; [|by eapply Hfail'].
  destruct Hsyms as (mfd & map_ & segs & syms & -> & Htables & Hres).
  (* the result of the two searches *)
  assert (Hnext : forall base w7 h7, keeps w5 w7 h7 -> mapped_at p (c_string exe) o h7 base ->
    owp (open_resolved fuel s3 values v base) Q w7).
  { intros base w7 h7 H10 Hmap. pose proof (keeps_budget _ _ _ H10) as B7.
    pose proof (holds_keeps _ _ _ _ _ _ H7 H10) as H12.
    eapply (open_resolved_wp values v base s3 w w7); [lia|apply Hres|done|exact H12|..].
    - intros s' w' hc G1 G2 G3 G4 G5 G6 G7 G8. apply Hok. unfold opened. rewrite G6, G4.
      split; [done|]. split; [by split|]. split; [done|].
      eexists _, hc. split; [exact G1|]. split; [|done].
      exists h1, bs, exe, mfd, map_, h7, segs, syms, values, v, o, base. rewrite G4, G5, G6.
      split_and!; try done. unfold h3. rewrite <- !(assoc_L (++)). cbn [app]. done.
    - intros w' h' G. by apply (Hfail _ _ h'). }
  apply owp_bind, find_mapping_base_wp; [lia|]. intros base1 w6 h6 H8 Hs1.
  pose proof (keeps_budget _ _ _ H8) as B6.
  destruct base1 as [base|]; [owp_steps; apply (Hnext base w6 h6); [done|by left]|].
  apply owp_bind, find_mapping_base_wp; [lia|]. intros base2 w7 h7 H10 Hs2.
  pose proof (keeps_trans _ _ _ _ _ H8 H10) as H11.
  destruct base2 as [base|]; [|eapply Hfail'; eapply holds_keeps; [exact H7|exact H11]].
  apply (Hnext base w7 (h6 ++ h7)); [done|]. right. by exists h6, h7.
Qed.
End Open.
