(* ===== verification/VhalRead.v ===== *)
(** * The VHAL source: reading

    [vhal_read] returns, stays inside its arrays, and hands out bytes of a frame
    only when they were read at the frame's address and the identity of the
    process was confirmed afterwards. *)

From Stdlib Require Import String.
From S2P Require Import Prelude Effect Text Wire CatalogDefs Catalog SourceSession Sampler.
From S2P Require Import VhalElf VhalDefs VhalOps VhalOs VhalProc VhalOpen.

(** ** The resolved frames *)

(** The indices of the addresses other than zero, counted from [i]. *)
Fixpoint resolved_from (i : Z) (addrs : list Z) : list Z :=
  match addrs with
  | [] => []
  | a :: addrs => if a =? 0 then resolved_from (i + 1) addrs else i :: resolved_from (i + 1) addrs
  end.

Lemma resolved_from_app as1 : forall i as2,
  resolved_from i (as1 ++ as2) = resolved_from i as1 ++ resolved_from (i + zlen as1) as2.
Proof.
  induction as1 as [|a as1 IH]; intros i as2; cbn [app resolved_from].
  - by rewrite Z.add_0_r.
  - rewrite IH, zlen_cons, Z.add_assoc. by destruct (a =? 0).
Qed.

Lemma resolved_from_zlen addrs : forall i, zlen (resolved_from i addrs) = nonzero addrs.
Proof.
  induction addrs as [|a addrs IH]; intros i; [done|]. cbn [resolved_from]. rewrite nonzero_cons.
  destruct (a =? 0); [apply IH|]. by rewrite zlen_cons, IH.
Qed.

(** The indices and the addresses go in step. *)
Lemma resolved_from_lookup addrs : forall i k j,
  resolved_from i addrs !! k = Some j ->
  i <= j /\ exists a, addrs !! Z.to_nat (j - i) = Some a /\ a <> 0
    /\ filter (fun a => a <> 0) addrs !! k = Some a.
Proof.
  induction addrs as [|a addrs IH]; intros i k j; cbn [resolved_from]; [done|].
  assert (Hshift : forall k', resolved_from (i + 1) addrs !! k' = Some j ->
    i <= j /\ exists a', (a :: addrs) !! Z.to_nat (j - i) = Some a' /\ a' <> 0
      /\ filter (fun a => a <> 0) addrs !! k' = Some a').
  { intros k' Hk. destruct (IH _ _ _ Hk) as (Hj & a' & H1 & H2 & H3). split; [lia|].
    exists a'. split_and!; try done.
    by replace (Z.to_nat (j - i)) with (S (Z.to_nat (j - (i + 1)))) by lia. }
  destruct (Z.eqb_spec a 0) as [E|E].
  - rewrite filter_cons_False by (by intros H). apply Hshift.
  - rewrite filter_cons_True by done. destruct k as [|k]; [|apply Hshift].
    intros [= <-]. split; [lia|]. exists a. by rewrite Z.sub_diag.
Qed.

Lemma resolved_from_in addrs i k a :
  addrs !! k = Some a -> a <> 0 -> exists n, resolved_from i addrs !! n = Some (i + Z.of_nat k).
Proof.
  revert i k. induction addrs as [|a' addrs IH]; intros i k Hk Ha; [done|]. cbn [resolved_from].
  destruct k as [|k]; cbn in Hk.
  - injection Hk as ->. rewrite (proj2 (Z.eqb_neq a 0) Ha). exists 0%nat. by rewrite Z.add_0_r.
  - destruct (IH (i + 1) k Hk Ha) as (n & Hn). replace (i + Z.of_nat (S k)) with (i + 1 + Z.of_nat k) by lia.
    destruct (a' =? 0); [by exists n|by exists (S n)].
Qed.

Lemma resolved_from_nodup addrs : forall i, NoDup (resolved_from i addrs).
Proof.
  induction addrs as [|a addrs IH]; intros i; cbn [resolved_from]; [constructor|].
  destruct (a =? 0); [apply IH|]. constructor; [|apply IH]. intros Hin.
  apply list_elem_of_lookup in Hin as [k Hk]. apply resolved_from_lookup in Hk as [H _]. lia.
Qed.

Definition local_entry (i : Z) : iovec Z := mk_iovec (Some i) 8.

(** ** Frames *)

Section Frames.
Context `{HC : CatalogOk}.
Implicit Types (frames : list roadcast_frame_t) (s : roadcast_vhal_source_t).

(** An array of frames of the catalog, the first [n] with the catalog's ids. *)
Definition named (n : Z) frames : Prop :=
  frames_ok frames /\ forall k f, Z.of_nat k < n -> frames !! k = Some f -> CAN_IDS !! k = Some (can_id f).

Lemma named_all frames : named FRAME_COUNT frames -> frames_ok frames /\ map can_id frames = CAN_IDS.
Proof.
  intros [[Hl Hf] Hn]. split; [done|]. apply list_eq. intros k.
  change (map can_id frames) with (can_id <$> frames). rewrite list_lookup_fmap.
  destruct (frames !! k) as [f|] eqn:E; cbn.
  - symmetry. apply Hn; [|done]. apply lookup_lt_Some in E. unfold zlen in Hl. lia.
  - symmetry. apply lookup_ge_None. apply lookup_ge_None in E. unfold FRAME_COUNT, zlen in Hl. lia.
Qed.

Definition absent (f : roadcast_frame_t) : Prop :=
  state f = ROADCAST_OBSERVATION_UNAVAILABLE /\ data f = repeat 0 8.

Lemma insert_frame_ok frames i (f : roadcast_frame_t) :
  frames_ok frames -> frame_ok f -> frames_ok (<[i := f]> frames).
Proof.
  intros [Hl Hf] H. split; [unfold zlen in *; by rewrite length_insert|]. by apply Forall_insert.
Qed.

Lemma frames_rd frames i :
  frames_ok frames -> 0 <= i < FRAME_COUNT ->
  exists f, rd frames i = Ok f /\ frames !! Z.to_nat i = Some f /\ frame_ok f.
Proof.
  intros [Hl Hf] Hi. destruct (rd_ok frames i) as (f & H1 & H2); [lia|]. exists f. split_and!; try done.
  by apply (Forall_lookup_1 _ _ _ _ Hf H2).
Qed.

Lemma frames_wr frames i f :
  frames_ok frames -> 0 <= i < FRAME_COUNT -> wr frames i f = Ok (<[Z.to_nat i := f]> frames).
Proof.
  intros [Hl _] Hi. unfold wr. by destruct (Z.ltb_spec i 0), (Z.leb_spec (zlen frames) i); try lia.
Qed.

Lemma ids_rd i : 0 <= i < FRAME_COUNT ->
  exists id, rd CAN_IDS i = Ok id /\ CAN_IDS !! Z.to_nat i = Some id /\ is_u16 id.
Proof.
  intros Hi. destruct (rd_ok CAN_IDS i Hi) as (id & H1 & H2). exists id. split_and!; try done.
  pose proof catalog_can_ids as H. rewrite forallb_forall in H.
  apply list_elem_of_lookup_2, list_elem_of_In in H2. specialize (H id H2). split_bools. done.
Qed.

Lemma zeros_ok : zlen (repeat 0 8) = 8 /\ bytes_ok (repeat 0 8).
Proof. split; [done|]. unfold bytes_ok. concrete. Qed.

(** A frame with other contents. *)
Lemma frame_contents f id st d :
  frame_ok f -> is_u16 id -> 0 <= st <= ROADCAST_OBSERVATION_VALID -> zlen d = 8 -> bytes_ok d ->
  frame_ok (f <| can_id := id |> <| state := st |> <| data := d |>).
Proof. intros (_ & _ & _ & _ & H1 & H2) Hid Hst Hl Hb. split_and!; try done; apply Hst. Qed.

(** Marking every frame unavailable. *)
Lemma unavailable_spec frames :
  frames_ok frames ->
  exists frames', loop (Z.to_nat FRAME_COUNT) 0 unavailable_frame frames = Ok frames'
    /\ named FRAME_COUNT frames' /\ Forall absent frames'.
Proof.
  intros Hf.
  destruct (loop_total (fun i fs => named i fs /\ forall k f, Z.of_nat k < i -> fs !! k = Some f -> absent f)
    unavailable_frame (Z.to_nat FRAME_COUNT) 0 frames) as (fs & Hrun & Hn & Ha).
  { split; [split; [done|]|]; intros; lia. }
  { intros j fs Hj [[Hfs Hn] Ha].
    destruct (ids_rd j) as (id & R1 & L1 & Hid); [lia|].
    destruct (frames_rd fs j Hfs) as (f & R2 & L2 & Hok); [lia|].
    unfold unavailable_frame. rewrite R1, bind_ok, R2, bind_ok, frames_wr by (done || lia).
    eexists. split; [done|].
    assert (Hcase : forall k f', Z.of_nat k < j + 1 ->
      <[Z.to_nat j := f <| can_id := id |> <| state := ROADCAST_OBSERVATION_UNAVAILABLE |>
                        <| data := repeat 0 8 |>]> fs !! k = Some f' ->
      Z.of_nat k < j /\ fs !! k = Some f'
      \/ k = Z.to_nat j /\ f' = f <| can_id := id |> <| state := ROADCAST_OBSERVATION_UNAVAILABLE |>
                                  <| data := repeat 0 8 |>).
    { intros k f' Hk Hl. apply list_lookup_insert_Some in Hl as [(<- & <- & _)|[Hne Hl]]; [by right|].
      left. split; [lia|done]. }
    split; [split; [|]|].
    - apply insert_frame_ok; [done|]. destruct zeros_ok. by apply frame_contents.
    - intros k f' Hk Hl. destruct (Hcase k f' Hk Hl) as [[H1 H2]|[-> ->]]; [by apply Hn|done].
    - intros k f' Hk Hl. destruct (Hcase k f' Hk Hl) as [[H1 H2]|[-> ->]]; [by apply (Ha k)|done]. }
  exists fs. split; [exact Hrun|]. rewrite Z.add_0_l, Z2Nat.id in Hn, Ha
    by (pose proof (proj1 catalog_nonempty); lia). split; [exact Hn|].
  apply Forall_lookup. intros k f Hk. apply (Ha k); [|done]. destruct Hn as [[Hl _] _].
  apply lookup_lt_Some in Hk. unfold zlen in Hl. lia.
Qed.

(** The first [n] frames as the source found their addresses. *)
Definition headed s (n : Z) frames : Prop :=
  named n frames /\ forall k f a, Z.of_nat k < n -> frames !! k = Some f -> addresses s !! k = Some a ->
    (a = 0 -> absent f) /\ (a <> 0 -> state f = ROADCAST_OBSERVATION_NEVER_OBSERVED).

Definition prepared s (n : Z) (st : list roadcast_frame_t * option (list (iovec Z)) * Z) : Prop :=
  let '(frames, local, resolved) := st in
  let indices := resolved_from 0 (take (Z.to_nat n) (addresses s)) in
  headed s n frames /\ resolved = zlen indices
  /\ match local with
     | Some vector => zlen vector = FRAME_COUNT /\ take (Z.to_nat resolved) vector = map local_entry indices
     | None => indices = []
     end.

Lemma headed_insert s n frames f f' a :
  0 <= n < FRAME_COUNT -> headed s n frames -> frames !! Z.to_nat n = Some f -> frame_ok f' ->
  addresses s !! Z.to_nat n = Some a -> CAN_IDS !! Z.to_nat n = Some (can_id f') ->
  (a = 0 -> absent f') -> (a <> 0 -> state f' = ROADCAST_OBSERVATION_NEVER_OBSERVED) ->
  headed s (n + 1) (<[Z.to_nat n := f']> frames).
Proof.
  intros Hn [[Hfs Hid] Hst] Hl Hok Ha Hid' H0 H1. split; [split; [by apply insert_frame_ok|]|].
  - intros k g Hk Hg. apply list_lookup_insert_Some in Hg as [(<- & <- & _)|[Hne Hg]]; [done|].
    apply Hid; [lia|done].
  - intros k g a' Hk Hg Ha'. apply list_lookup_insert_Some in Hg as [(<- & <- & _)|[Hne Hg]].
    + assert (a' = a) as -> by congruence. done.
    + apply (Hst k g a'); [lia|done..].
Qed.

Lemma prepare_frame_step s n st :
  zlen (addresses s) = FRAME_COUNT -> 0 <= n < FRAME_COUNT -> vector_ok (addresses s) st.1.2 ->
  prepared s n st ->
  exists st', prepare_frame s n st = Ok st' /\ prepared s (n + 1) st' /\ vector_ok (addresses s) st'.1.2
    /\ (st'.1.2 = None <-> st.1.2 = None).
Proof.
  destruct st as [[frames local] resolved]. cbn [fst snd]. intros Hla Hn Hv (Hh & Hr & Hlocal).
  pose proof Hh as [[Hfs _] _].
  destruct (ids_rd n Hn) as (id & R1 & L1 & Hid). destruct (frames_rd frames n Hfs Hn) as (f & R2 & L2 & Hok).
  destruct (rd_ok (addresses s) n) as (a & R3 & L3); [lia|].
  unfold prepare_frame. rewrite R1, bind_ok, R2, bind_ok, R3, bind_ok. cbv zeta.
  pose proof Hok as (_ & _ & Hd1 & Hd2 & _). destruct zeros_ok as [Z1 Z2].
  assert (Etake : take (Z.to_nat (n + 1)) (addresses s) = take (Z.to_nat n) (addresses s) ++ [a]).
  { replace (Z.to_nat (n + 1)) with (S (Z.to_nat n)) by lia. by apply take_S_r. }
  assert (Hti : zlen (take (Z.to_nat n) (addresses s)) = n).
  { unfold zlen in *. rewrite length_take. lia. }
  destruct (Z.eqb_spec a 0) as [Ea|Ea].
  - rewrite frames_wr, bind_ok by done. eexists. split; [done|]. split; [|by split].
    unfold prepared. rewrite Etake, resolved_from_app, Hti. cbn [resolved_from].
    rewrite Ea, Z.eqb_refl, app_nil_r. split_and!; [|done|done].
    apply (headed_insert s n frames f _ a); try done.
    by apply (frame_contents f id ROADCAST_OBSERVATION_UNAVAILABLE (repeat 0 8)).
  - assert (Hidx : resolved_from 0 (take (Z.to_nat (n + 1)) (addresses s))
                   = resolved_from 0 (take (Z.to_nat n) (addresses s)) ++ [n]).
    { rewrite Etake, resolved_from_app, Hti. cbn [resolved_from]. by rewrite (proj2 (Z.eqb_neq a 0) Ea). }
    set (indices := resolved_from 0 (take (Z.to_nat n) (addresses s))) in *.
    assert (Hrn : zlen indices <= n).
    { unfold indices. rewrite resolved_from_zlen. pose proof (nonzero_le (take (Z.to_nat n) (addresses s))). lia. }
    rewrite frames_wr, bind_ok by done.
    destruct local as [vector|]; cycle 1.
    { exfalso. cbn in Hv. pose proof (nonzero_le (drop (S (Z.to_nat n)) (addresses s))).
      pose proof (nonzero_le (take (Z.to_nat n) (addresses s))).
      rewrite <- (take_drop_middle _ _ _ L3), nonzero_app, nonzero_cons in Hv.
      rewrite (proj2 (Z.eqb_neq a 0) Ea) in Hv. lia. }
    destruct Hlocal as [Hvl Hpre]. cbn [deref]. rewrite bind_ok.
    pose proof (zlen_nonneg indices) as Hi0. pose proof catalog_frames_bound.
    rewrite wr_ok by lia. rewrite bind_ok. eexists. split; [done|]. split.
    + unfold prepared. rewrite Hidx. split_and!.
      * apply (headed_insert s n frames f _ a); try done.
        by apply (frame_contents f id ROADCAST_OBSERVATION_NEVER_OBSERVED (data f)).
      * rewrite zlen_app, sz_id by width_lia. change (zlen [n]) with 1. lia.
      * unfold zlen in *. by rewrite length_insert.
      * rewrite sz_id by width_lia. replace (Z.to_nat (resolved + 1)) with (S (Z.to_nat resolved)) by lia.
        rewrite (take_S_r _ _ (local_entry n)).
        -- rewrite take_insert_ge by done. by rewrite Hpre, map_app.
        -- apply list_lookup_insert_eq. unfold zlen in *. lia.
    + split; [|done]. cbn. unfold zlen in *. by rewrite length_insert.
Qed.

(** The head of the read: the frames, and the local vector with the resolved
    frames in order. *)
Lemma prepare_frames s frames :
  source_ok s -> frames_ok frames ->
  exists frames' local, loop (Z.to_nat FRAME_COUNT) 0 (prepare_frame s) (frames, local_iov s, 0)
      = Ok (frames', local, nonzero (addresses s))
    /\ headed s FRAME_COUNT frames' /\ vector_ok (addresses s) local /\ (local = None <-> local_iov s = None)
    /\ entries local (nonzero (addresses s)) = Ok (map local_entry (resolved_from 0 (addresses s))).
Proof.
  intros (Ha & Hl & _) Hf. pose proof (proj1 catalog_nonempty) as Hpos.
  destruct (loop_total (fun n st => prepared s n st /\ vector_ok (addresses s) st.1.2
      /\ (st.1.2 = None <-> local_iov s = None)) (prepare_frame s) (Z.to_nat FRAME_COUNT) 0
      (frames, local_iov s, 0)) as ([[fs local] r] & Hrun & Hp & Hv & Hnone).
  { split; [|split; [exact Hl|done]]. unfold prepared. change (Z.to_nat 0) with 0%nat. rewrite take_0. cbn [resolved_from].
    split_and!; [|done|].
    - split; [split; [done|]|]; intros; lia.
    - destruct (local_iov s); [|done]. by rewrite take_0. }
  { intros j st Hj (Hp & Hv & Hnone).
    destruct (prepare_frame_step s j st Ha ltac:(lia) Hv Hp) as (st' & H1 & H2 & H3 & H4).
    exists st'. split_and!; try done; tauto. }
  rewrite Z.add_0_l, Z2Nat.id in Hp by lia. unfold prepared in Hp.
  rewrite take_ge in Hp by (unfold zlen in Ha; lia). destruct Hp as (Hh & Hr & Hlocal).
  rewrite resolved_from_zlen in Hr. subst r. exists fs, local. split; [exact Hrun|]. split; [done|]. split; [done|]. split; [done|].
  pose proof (nonzero_le (addresses s)). destruct local as [v|]; cbn in *.
  - destruct Hlocal as [Hvl <-]. unfold slice.
    destruct (Z.ltb_spec (nonzero (addresses s)) 0), (Z.ltb_spec (zlen v) (0 + nonzero (addresses s))); try lia.
    done.
  - rewrite Hv, Hlocal. done.
Qed.

(** ** Storing through the vector *)

(** What stays when data is stored into resolved frames. *)
Lemma headed_store s frames j f d a :
  headed s FRAME_COUNT frames -> frames !! j = Some f -> addresses s !! j = Some a -> a <> 0 ->
  zlen d = 8 -> bytes_ok d -> headed s FRAME_COUNT (<[j := f <| data := d |>]> frames).
Proof.
  intros [[Hfs Hid] Hst] Hj Ha Ha0 Hd1 Hd2. pose proof Hfs as [Hl Hf].
  pose proof (Forall_lookup_1 _ _ _ _ Hf Hj) as (F1 & F2 & F3 & F4 & F5).
  assert (Hn : Z.of_nat j < FRAME_COUNT) by (apply lookup_lt_Some in Hj; unfold zlen in Hl; lia).
  split; [split; [by apply insert_frame_ok|]|].
  - intros k g Hk Hg. apply list_lookup_insert_Some in Hg as [(<- & <- & _)|[Hne Hg]].
    + by apply (Hid j f).
    + by apply Hid.
  - intros k g a' Hk Hg Ha'. apply list_lookup_insert_Some in Hg as [(<- & <- & _)|[Hne Hg]].
    + assert (a' = a) as -> by congruence. split; [done|]. intros _. by apply (Hst j f a).
    + by apply (Hst k g a').
Qed.

(** Whatever arrives, the frames stay well formed; when all bytes arrive, every
    frame of the vector gets its eight, and no other frame changes. *)
Lemma scatter_spec s indices : forall bytes frames,
  Forall (fun i => 0 <= i /\ exists a, addresses s !! Z.to_nat i = Some a /\ a <> 0) indices ->
  bytes_ok bytes -> zlen (addresses s) = FRAME_COUNT -> headed s FRAME_COUNT frames -> NoDup indices ->
  exists frames', scatter (map local_entry indices) bytes frames = Ok frames'
    /\ headed s FRAME_COUNT frames'
    /\ (forall k, Z.of_nat k ∉ indices -> frames' !! k = frames !! k)
    /\ (zlen bytes = 8 * zlen indices -> forall n i f, indices !! n = Some i ->
          frames' !! Z.to_nat i = Some f -> data f = take 8 (drop (8 * n) bytes)).
Proof.
  induction indices as [|i indices IH]; intros bytes frames Hi Hb Hla Hh Hnd; cbn [map scatter].
  { exists frames. split_and!; try done. }
  inversion Hi as [|? ? (Hi0 & a & Ha & Ha0) Hi']. inversion Hnd as [|? ? Hnin Hnd']. subst.
  cbn [local_entry iov_len iov_base]. change (Z.to_nat 8) with 8%nat.
  pose proof Hh as [[Hfs _] _].
  assert (Hrange : 0 <= i < FRAME_COUNT) by (apply lookup_lt_Some in Ha; unfold zlen in Hla; lia).
  destruct (frames_rd frames i Hfs Hrange) as (f & R & L & Hok). rewrite R, bind_ok, frames_wr, bind_ok by done.
  pose proof Hok as (_ & _ & Hd1 & Hd2 & _).
  set (chunk := take 8 bytes). set (d := chunk ++ drop (length chunk) (data f)).
  assert (Hchunk : (length chunk <= 8)%nat) by (unfold chunk; rewrite length_take; lia).
  assert (Hd : zlen d = 8 /\ bytes_ok d).
  { split; [unfold d, zlen in *; rewrite length_app, length_drop; lia|].
    apply Forall_app. split; [by apply Forall_take|by apply Forall_drop]. }
  destruct Hd as [Hdl Hdb].
  pose proof (headed_store s frames _ f d a Hh L Ha Ha0 Hdl Hdb) as Hh'.
  destruct (IH (drop (length chunk) bytes) _ Hi' (Forall_drop _ _ _ Hb) Hla Hh' Hnd')
    as (fs & Hrun & S1 & S2 & S3).
  exists fs. split; [exact Hrun|]. split; [exact S1|]. split.
  - intros k Hk. rewrite not_elem_of_cons in Hk. destruct Hk as [Hk1 Hk2]. rewrite S2 by done.
    apply list_lookup_insert_ne. lia.
  - intros Hlen n j g Hn Hg. rewrite zlen_cons in Hlen. pose proof (zlen_nonneg indices) as Hz.
    assert (Hc8 : length chunk = 8%nat) by (unfold chunk; rewrite length_take; unfold zlen in *; lia).
    destruct n as [|n].
    + injection Hn as <-. rewrite S2 in Hg by (by rewrite Z2Nat.id).
      rewrite list_lookup_insert_eq in Hg by (by eapply lookup_lt_Some).
      injection Hg as <-. cbn [data set]. unfold d. rewrite Hc8, Nat.mul_0_r, drop_0.
      rewrite drop_ge by (unfold zlen in Hd1; lia). apply app_nil_r.
    + cbn in Hn. rewrite (S3 ltac:(unfold zlen in *; rewrite length_drop; lia) n j g Hn Hg).
      rewrite drop_drop, Hc8. do 2 f_equal. lia.
Qed.
End Frames.

(** ** The system calls of a read *)

Section Read.
Context `{HC : CatalogOk} {W : Type} `{OS : !Os W} `{HO : !OsOk OS} (fuel : nat).
Implicit Types (w : W) (frames : list roadcast_frame_t) (s : roadcast_vhal_source_t).

Definition vector_of (iov : list (iovec Z)) : list (option Z * Z) :=
  map (fun v => (iov_base v, iov_len v)) iov.

(** The vector that the system call is given. *)
Definition requested s : list (option Z * Z) :=
  match remote_iov s with
  | Some v => vector_of (take (Z.to_nat (nonzero (addresses s))) v)
  | None => []
  end.

(** [d] was delivered as the eight bytes of frame [i] with address [a]: from the
    memory file at the address, or by the system call as those of the entry of the
    vector that belongs to the frame, which is the address when the source is
    [aligned]. *)
Definition observed s (h : list delivery) (i : nat) (a : Z) (d : list Z) : Prop :=
  Bytes (mem_fd s) (s64 a) d ∈ h
  \/ exists bytes k, Copied (pid s) (requested s) bytes ∈ h
       /\ resolved_from 0 (addresses s) !! k = Some (Z.of_nat i)
       /\ d = take 8 (drop (8 * k) bytes)
       /\ (aligned s -> requested s !! k = Some (Some a, 8)).

Lemma unavailable_wp frames w (Q : Z * list roadcast_frame_t -> W -> Prop) :
  frames_ok frames ->
  (forall frames', named FRAME_COUNT frames' -> Forall absent frames' -> Q (-1, frames') w) ->
  owp (unavailable frames) Q w.
Proof.
  intros Hf HQ. destruct (unavailable_spec frames Hf) as (fs & Hrun & H1 & H2). unfold unavailable.
  apply owp_bind, (owp_mem _ fs); [exact Hrun|]. owp_steps. by apply HQ.
Qed.

Lemma resolved_indices s : Forall (fun i => 0 <= i /\ exists a, addresses s !! Z.to_nat i = Some a /\ a <> 0)
  (resolved_from 0 (addresses s)).
Proof.
  apply Forall_lookup. intros k i Hk. apply resolved_from_lookup in Hk as (H1 & a & H2 & H3 & _).
  split; [lia|]. exists a. by replace (i - 0) with i in H2 by lia.
Qed.

Lemma vm_readv_loop_wp n s remote : forall frames w (Q : Z * list roadcast_frame_t -> W -> Prop),
  (budget w < n)%nat -> zlen (addresses s) = FRAME_COUNT -> headed s FRAME_COUNT frames ->
  (forall count frames' w' h, keeps w w' h -> headed s FRAME_COUNT frames' ->
     (0 <= count -> exists bytes, h = [Copied (pid s) (vector_of remote) bytes] /\ count = zlen bytes
        /\ (count = 8 * nonzero (addresses s) -> forall k i f, resolved_from 0 (addresses s) !! k = Some i ->
             frames' !! Z.to_nat i = Some f -> data f = take 8 (drop (8 * k) bytes))) ->
     Q (count, frames') w') ->
  owp (vm_readv_loop n (pid s) (map local_entry (resolved_from 0 (addresses s))) remote frames) Q w.
Proof.
  induction n as [|n IH]; intros frames w Q Hb Hla Hh HQ; [lia|]. cbn [vm_readv_loop].
  apply owp_bind, owp_sys. fold (vector_of remote).
  pose proof (vm_readv_ok (pid s) (vector_of remote) w) as H1.
  destruct (os_process_vm_readv (pid s) (vector_of remote) w) as [[count bytes] w1]. cbn [fst snd].
  destruct H1 as (Hbytes & Hcount & H1 & Hbudget).
  destruct (scatter_spec s (resolved_from 0 (addresses s)) bytes frames (resolved_indices s) Hbytes Hla Hh
    (resolved_from_nodup _ _)) as (fs & Hrun & Hh' & _ & Hdata).
  apply owp_bind, (owp_mem _ fs); [exact Hrun|]. owp_steps.
  destruct ((count <? 0) && (errno w1 =? EINTR)) eqn:E.
  - split_bools. destruct (Z.ltb_spec count 0); [|lia]. apply IH; [lia|done|done|].
    intros c fs' w' h G2 Hh2 Hc. apply (HQ c fs' w' h); [|done..].
    exact (keeps_trans _ _ _ _ _ H1 G2).
  - owp_steps. apply (HQ _ _ _ (if count <? 0 then [] else [Copied (pid s) (vector_of remote) bytes]));
      [exact H1|done|]. intros Hc. destruct (Z.ltb_spec count 0); [lia|]. exists bytes.
    split_and!; [done|lia|]. intros Hfull. apply Hdata. rewrite resolved_from_zlen. lia.
Qed.

Lemma read_one_wp s a d w (Q : Z * list Z -> W -> Prop) :
  (budget w < fuel)%nat -> 0 <= mem_fd s -> zlen d = 8 ->
  (forall bs w', keeps w w' [Bytes (mem_fd s) (s64 a) bs] -> zlen bs = 8 -> bytes_ok bs -> Q (0, bs) w') ->
  (forall d' w' h, keeps w w' h -> errno w' <> 0 -> Q (-1, d') w') ->
  owp (read_one fuel s a d) Q w.
Proof.
  intros Hb Hm Hd Hok Hfail. unfold read_one. destruct (Z.ltb_spec (mem_fd s) 0); [lia|].
  apply owp_bind, pread_loop_wp; [done| |].
  - intros bs w' H1 Hl Hbs. cbv zeta. destruct (Z.eqb_spec (zlen bs) 8) as [E|E]; cbn [negb].
    + owp_steps. rewrite drop_ge by (unfold zlen in *; lia). rewrite app_nil_r. by apply Hok.
    + apply owp_bind, put_errno_wp. intros w2 H2 He. owp_steps.
      apply (Hfail _ _ [Bytes (mem_fd s) (s64 a) bs]); [exact (keeps_quiet _ _ _ _ H1 H2)|].
      by rewrite He.
  - intros w' H1 He. owp_steps. by apply (Hfail _ _ []).
Qed.

(** The frames while the memory file is read: those before [n] are read or absent. *)
Definition reading s (h : list delivery) (n failure : Z) frames : Prop :=
  named FRAME_COUNT frames
  /\ forall k f a, frames !! k = Some f -> addresses s !! k = Some a ->
       (a = 0 -> absent f)
       /\ (a <> 0 -> n <= Z.of_nat k -> state f = ROADCAST_OBSERVATION_NEVER_OBSERVED)
       /\ (a <> 0 -> Z.of_nat k < n ->
            failure <> 0 /\ absent f
            \/ state f = ROADCAST_OBSERVATION_NEVER_OBSERVED /\ Bytes (mem_fd s) (s64 a) (data f) ∈ h).

Lemma reading_more s h h' n failure failure' frames :
  (failure <> 0 -> failure' <> 0) -> reading s h n failure frames -> reading s (h ++ h') n failure' frames.
Proof.
  intros Hf [H1 H2]. split; [done|]. intros k f a Hk Ha. destruct (H2 k f a Hk Ha) as (A1 & A2 & A3).
  split_and!; try done. intros Ha0 Hn. destruct (A3 Ha0 Hn) as [[? ?]|[? ?]]; [left; auto|right].
  split; [done|]. apply elem_of_app. by left.
Qed.

(** One frame done. *)
Lemma reading_step s h n failure frames f f' a :
  0 <= n -> reading s h n failure frames -> frames !! Z.to_nat n = Some f ->
  addresses s !! Z.to_nat n = Some a -> a <> 0 -> frame_ok f' -> can_id f' = can_id f ->
  failure <> 0 /\ absent f'
  \/ state f' = ROADCAST_OBSERVATION_NEVER_OBSERVED /\ Bytes (mem_fd s) (s64 a) (data f') ∈ h ->
  reading s h (n + 1) failure (<[Z.to_nat n := f']> frames).
Proof.
  intros Hn [[Hfs Hid] H] Hf Ha Ha0 Hok Hid' Hread. split; [split; [by apply insert_frame_ok|]|].
  - intros k g Hk Hg. apply list_lookup_insert_Some in Hg as [(<- & <- & _)|[Hne Hg]]; [|by apply Hid].
    rewrite Hid'. by apply Hid.
  - intros k g a' Hg Ha'. apply list_lookup_insert_Some in Hg as [(<- & <- & _)|[Hne Hg]].
    + assert (a' = a) as -> by congruence. split_and!; try done. intros _ Hk. lia.
    + destruct (H k g a' Hg Ha') as (A1 & A2 & A3). split_and!; [done|..].
      * intros Ha'0 Hk. apply A2; [done|lia].
      * intros Ha'0 Hk. apply A3; [done|lia].
Qed.

Lemma reading_skip s h n failure frames a :
  0 <= n -> reading s h n failure frames -> addresses s !! Z.to_nat n = Some a -> a = 0 ->
  reading s h (n + 1) failure frames.
Proof.
  intros Hn [H1 H] Ha Ha0. split; [done|]. intros k f a' Hk Ha'. destruct (H k f a' Hk Ha') as (A1 & A2 & A3).
  split_and!; [done|..]; intros Ha'0 Hkn.
  - apply A2; [done|lia].
  - apply A3; [done|]. destruct (decide (k = Z.to_nat n)) as [->|]; [congruence|lia].
Qed.

Lemma read_frames_wp s n : forall i frames failure w w0 h (Q : list roadcast_frame_t * Z -> W -> Prop),
  (budget w < fuel)%nat -> 0 <= mem_fd s -> zlen (addresses s) = FRAME_COUNT ->
  0 <= i -> i + Z.of_nat n = FRAME_COUNT -> keeps w0 w h -> reading s h i failure frames ->
  (forall frames' failure' w' h', keeps w0 w' h' -> reading s h' FRAME_COUNT failure' frames' ->
     Q (frames', failure') w') ->
  owp (read_frames fuel s n i frames failure) Q w.
Proof.
  induction n as [|n IH]; intros i frames failure w w0 h Q Hb Hm Hla Hi Hn Hk Hr HQ; cbn [read_frames].
  { owp_steps. replace FRAME_COUNT with i in HQ by lia. by apply (HQ _ _ _ h). }
  destruct (rd_ok (addresses s) i) as (a & R1 & L1); [lia|].
  apply owp_bind, (owp_mem _ a); [exact R1|].
  destruct (Z.eqb_spec a 0) as [Ha|Ha].
  { apply (IH _ _ _ _ w0 h); try done; try lia. by apply (reading_skip _ _ _ _ _ a). }
  pose proof Hr as [[Hfs _] Hall].
  destruct (frames_rd frames i Hfs) as (f & R2 & L2 & Hok); [lia|].
  pose proof Hok as (F1 & F2 & F3 & F4 & F5).
  destruct (Hall _ f a L2 L1) as (_ & Hst & _). specialize (Hst Ha ltac:(lia)).
  apply owp_bind, (owp_mem _ f); [exact R2|]. apply owp_bind, read_one_wp; [done|done|done| |].
  - intros bs w1 H1 Hl Hbs. cbv beta iota zeta. change (0 <? 0) with false. cbv iota.
    apply owp_bind, (owp_mem _ (<[Z.to_nat i := f <| data := bs |>]> frames)); [apply frames_wr; [done|lia]|].
    pose proof (keeps_budget _ _ _ H1). pose proof (keeps_trans _ _ _ _ _ Hk H1) as H2.
    eapply IH; [lia|done|done|lia|lia|exact H2| |exact HQ].
    apply (reading_step _ _ _ _ _ f _ a); try done.
    + by apply (reading_more s h _ i failure).
    + right. split; [exact Hst|]. apply elem_of_app. right. by left.
  - intros d' w1 h1 H1 He. cbv beta iota zeta. change (-1 <? 0) with true. cbv iota.
    apply owp_bind, (owp_mem _ (<[Z.to_nat i := f <| data := d' |> <| data := repeat 0 8 |>
      <| state := ROADCAST_OBSERVATION_UNAVAILABLE |>]> frames)); [apply frames_wr; [done|lia]|].
    apply owp_bind, owp_get.
    pose proof (keeps_budget _ _ _ H1). pose proof (keeps_trans _ _ _ _ _ Hk H1) as H2.
    eapply IH; [lia|done|done|lia|lia|exact H2| |exact HQ].
    destruct zeros_ok as [Z1 Z2]. apply (reading_step _ _ _ _ _ f _ a); try done.
    + apply (reading_more s h _ i failure); [|done]. by destruct (Z.eqb_spec failure 0).
    + left. split; [|done]. by destruct (Z.eqb_spec failure 0).
Qed.

(** ** One read *)

(** The same process and frames. *)
Definition same_source s s' : Prop :=
  pid s' = pid s /\ identity_fd s' = identity_fd s /\ start_time_ticks s' = start_time_ticks s
  /\ addresses s' = addresses s /\ remote_iov s' = remote_iov s.

Lemma remote_entries s :
  source_ok s ->
  exists remote, entries (remote_iov s) (nonzero (addresses s)) = Ok remote
    /\ vector_of remote = requested s
    /\ (aligned s -> remote_iov s <> None ->
        remote = map (fun a => mk_iovec (Some a) 8) (filter (fun a => a <> 0) (addresses s))).
Proof.
  intros (Ha & _ & Hr). pose proof (nonzero_le (addresses s)). unfold aligned, requested.
  destruct (remote_iov s) as [v|]; cbn -[vector_of] in *.
  - exists (take (Z.to_nat (nonzero (addresses s))) v). split; [apply slice_start; lia|done].
  - rewrite Hr. by exists [].
Qed.

(** The bytes of a full copy are those at the addresses. *)
Lemma copied_observed s remote bytes h f a i frames :
  source_ok s -> vector_of remote = requested s ->
  (aligned s -> remote_iov s <> None ->
     remote = map (fun a => mk_iovec (Some a) 8) (filter (fun a => a <> 0) (addresses s))) ->
  Copied (pid s) (requested s) bytes ∈ h ->
  (forall k i f, resolved_from 0 (addresses s) !! k = Some i -> frames !! Z.to_nat i = Some f ->
     data f = take 8 (drop (8 * k) bytes)) ->
  frames !! i = Some f -> addresses s !! i = Some a -> a <> 0 ->
  observed s h i a (data f).
Proof.
  intros (_ & _ & Hv) He Hr Hin Hdata Hf Ha Ha0. right.
  destruct (resolved_from_in (addresses s) 0 i a Ha Ha0) as (n & Hn). rewrite Z.add_0_l in Hn.
  exists bytes, n. split; [done|]. split; [done|].
  rewrite (Hdata n (Z.of_nat i) f Hn) by (by rewrite Nat2Z.id). split; [done|]. intros Hal. rewrite <- He.
  apply resolved_from_lookup in Hn as (_ & a' & H1 & H2 & H3).
  rewrite Z.sub_0_r, Nat2Z.id in H1. assert (a' = a) as -> by congruence.
  destruct (remote_iov s) as [v|].
  - rewrite (Hr Hal ltac:(done)). unfold vector_of. rewrite map_map. cbn [iov_base iov_len].
    change (map (fun x => (Some x, 8)) (filter (fun a => a <> 0) (addresses s)))
      with ((fun x => (Some x, 8)) <$> filter (fun a => a <> 0) (addresses s)).
    by rewrite list_lookup_fmap, H3.
  - exfalso. cbn in Hv. unfold nonzero in Hv. apply lookup_lt_Some in H3. unfold zlen in Hv. lia.
Qed.

Lemma read_vm_wp s frames w
    (Q : option Z * roadcast_vhal_source_t * list roadcast_frame_t -> W -> Prop) :
  (budget w < fuel)%nat -> source_ok s -> headed s FRAME_COUNT frames ->
  entries (local_iov s) (nonzero (addresses s)) = Ok (map local_entry (resolved_from 0 (addresses s))) ->
  (forall frames' w' h hc, keeps w w' (h ++ hc) -> headed s FRAME_COUNT frames' ->
     0 <= identity_fd s -> confirmed s hc ->
     (forall k f a, frames' !! k = Some f -> addresses s !! k = Some a -> a <> 0 ->
        observed s h k a (data f)) -> Q (Some 0, s, frames') w') ->
  (forall frames' w' h, keeps w w' h -> named FRAME_COUNT frames' -> Forall absent frames' ->
     Q (Some (-1), s, frames') w') ->
  (forall s' frames' w' h, keeps w w' h -> headed s FRAME_COUNT frames' ->
     s' = s \/ (exists t, s' = s <| vm_readv_retry_ns := t |>) -> Q (None, s', frames') w') ->
  owp (read_vm fuel s frames (nonzero (addresses s))) Q w.
Proof.
  intros Hb Hs Hh Hl Hdone Hgone Hnext. unfold read_vm. owp_steps.
  pose proof (clock_ok w) as H1. destruct (os_clock w) as [[sec nsec] w1]. cbn [fst snd] in *.
  destruct (_ <? _); [owp_steps; apply (Hnext _ _ _ []); auto|].
  destruct (remote_entries s Hs) as (remote & Hre & Hvec & Hal).
  apply owp_bind, (owp_mem _ (map local_entry (resolved_from 0 (addresses s)))); [exact Hl|].
  apply owp_bind, (owp_mem _ remote); [exact Hre|]. pose proof (keeps_budget _ _ _ H1) as B1.
  apply owp_bind, vm_readv_loop_wp; [lia|apply Hs|done|].
  intros count fs w2 h H2 Hh2 Hcount. cbv beta iota.
  pose proof (quiet_keeps _ _ _ _ H1 H2) as H3. pose proof (keeps_budget _ _ _ H3) as B2.
  assert (Habsent : forall w4 h4, keeps w w4 h4 ->
    owp ('(r, frames) ← unavailable fs; mret (Some r, s, frames)) Q w4).
  { intros w4 h4 H4. apply owp_bind, unavailable_wp; [apply Hh2|]. intros fs' Hn Ha. owp_steps.
    by apply (Hgone _ _ h4). }
  pose proof (nonzero_le (addresses s)) as Hnz. pose proof catalog_frames_bound as Hfc.
  destruct Hs as (Hla & Hlo & Hro). rewrite sz_id by width_lia.
  destruct (Z.eqb_spec count (nonzero (addresses s) * 8)) as [Ec|Ec].
  - destruct (Hcount ltac:(lia)) as (bytes & -> & _ & Hdata).
    apply owp_bind, verify_identity_wp; [lia| |].
    + intros w3 hc H4 Hid Hc. owp_steps. apply (Hdone _ _ [Copied (pid s) (vector_of remote) bytes] hc);
        try done; [exact (keeps_trans _ _ _ _ _ H3 H4)|].
      intros k f a Hk Ha Ha0.
      eapply (copied_observed s remote bytes _ f a k fs); try done; [rewrite Hvec; by left|apply Hdata; lia].
    + intros w3 h3 H4. change (-1 <? 0) with true. cbv iota. eapply Habsent.
      exact (keeps_trans _ _ _ _ _ H3 H4).
  - apply owp_bind, owp_get.
    destruct (_ && _); [by eapply Habsent|].
    destruct (_ && _); [owp_steps; apply (Hnext _ _ _ h); eauto|].
    destruct (_ && _); owp_steps; apply (Hnext _ _ _ h); eauto.
Qed.

(** What a frame holds after a read: nothing, or bytes read at its address. *)
Definition frame_read s (h : list delivery) (i : nat) (f : roadcast_frame_t) (a : Z) : Prop :=
  absent f
  \/ a <> 0 /\ state f = ROADCAST_OBSERVATION_NEVER_OBSERVED /\ observed s h i a (data f).

(** The result of a read that was delivered [h] and then [hc].  On success every
    resolved frame is read; a frame that is read comes with the identity of the
    process confirmed by the last delivery. *)
Record read_post s (r : Z) s' frames (h hc : list delivery) : Prop := {
  rp_same : same_source s s';
  rp_ok : source_ok s';
  rp_mem : 0 <= mem_fd s -> mem_fd s' = mem_fd s;
  rp_opened : mem_fd s < 0 -> 0 <= mem_fd s' -> Opened (Fd (mem_fd s')) None (proc_path (pid s) "mem") ∈ h;
  rp_range : -1 <= r <= 1;
  rp_named : named FRAME_COUNT frames;
  rp_frames : forall k f a, frames !! k = Some f -> addresses s !! k = Some a ->
    frame_read s' h k f a;
  rp_all : 0 <= r -> forall k f a, frames !! k = Some f -> addresses s !! k = Some a -> a <> 0 ->
    state f = ROADCAST_OBSERVATION_NEVER_OBSERVED;
  rp_confirmed :
    0 <= r \/ (exists k f, frames !! k = Some f /\ state f = ROADCAST_OBSERVATION_NEVER_OBSERVED) ->
    0 <= identity_fd s /\ confirmed s hc;
}.

(** A read that ended with no frame. *)
Lemma read_post_absent s s' frames h hc :
  same_source s s' -> source_ok s' -> (0 <= mem_fd s -> mem_fd s' = mem_fd s) ->
  (mem_fd s < 0 -> 0 <= mem_fd s' -> Opened (Fd (mem_fd s')) None (proc_path (pid s) "mem") ∈ h) ->
  named FRAME_COUNT frames -> Forall absent frames -> read_post s (-1) s' frames h hc.
Proof.
  intros H1 H2 H3 Ho H4 H5. constructor; try done; try lia.
  - intros k f a Hk _. left. by apply (Forall_lookup_1 _ _ _ _ H5 Hk).
  - intros [|(k & f & Hk & Hf)]; [lia|]. destruct (Forall_lookup_1 _ _ _ _ H5 Hk) as [E _]. by rewrite E in Hf.
Qed.

Lemma headed_reading s h frames : headed s FRAME_COUNT frames -> reading s h 0 0 frames.
Proof.
  intros [Hn H]. split; [done|]. intros k f a Hk Ha.
  assert (Hk' : Z.of_nat k < FRAME_COUNT).
  { destruct Hn as [[Hl _] _]. apply lookup_lt_Some in Hk. unfold zlen in Hl. lia. }
  destruct (H k f a Hk' Hk Ha) as [A1 A2]. split_and!; try done; [auto|lia].
Qed.

(** What a source holds goes on being accounted for. *)
Definition carries s w s' w' (h : list delivery) : Prop :=
  forall w0 h0, holds s w0 w h0 -> holds s' w0 w' (h0 ++ h).

Lemma carries_keeps s w s' w1 w2 h1 h2 : carries s w s' w1 h1 -> keeps w1 w2 h2 -> carries s w s' w2 (h1 ++ h2).
Proof.
  intros H1 H2 w0 h0 H0. rewrite (assoc_L (++)). apply (holds_keeps _ _ w1); [by apply H1|done].
Qed.

Lemma read_file_wp s frames w (Q : Z * roadcast_vhal_source_t * list roadcast_frame_t -> W -> Prop) :
  (budget w < fuel)%nat -> source_ok s -> headed s FRAME_COUNT frames ->
  (forall r s' frames' w' h hc, carries s w s' w' (h ++ hc) -> read_post s r s' frames' h hc ->
     Q (r, s', frames') w') ->
  owp (read_file fuel s frames) Q w.
Proof.
  intros Hb Hs Hh HQ. unfold read_file.
  assert (Hfile : forall fd w1 h1, carries s w (s <| mem_fd := fd |>) w1 h1 -> (budget w1 <= budget w)%nat ->
    (0 <= mem_fd s -> fd = mem_fd s) ->
    (mem_fd s < 0 -> 0 <= fd -> Opened (Fd fd) None (proc_path (pid s) "mem") ∈ h1) ->
    owp (if fd <? 0 then '(r, frames) ← unavailable frames; mret (r, s <| mem_fd := fd |>, frames)
         else
           '(frames, failure_errno) ← read_frames fuel (s <| mem_fd := fd |>) (Z.to_nat FRAME_COUNT) 0 frames 0;
           verified ← verify_identity fuel (s <| mem_fd := fd |>);
           if verified <? 0 then '(r, frames) ← unavailable frames; mret (r, s <| mem_fd := fd |>, frames)
           else if negb (failure_errno =? 0)
                then put_errno failure_errno;; mret (-1, s <| mem_fd := fd |>, frames)
                else mret (1, s <| mem_fd := fd |>, frames)) Q w1).
  { intros fd w1 h1 Hold1 B1 Hfd Hop. set (s1 := s <| mem_fd := fd |>) in *.
    assert (Hs1 : source_ok s1) by exact Hs. assert (Hsame : same_source s s1) by done.
    assert (Hgone : forall frames' w2 h, frames_ok frames' -> keeps w1 w2 h ->
      owp ('(r, frames) ← unavailable frames'; mret (r, s1, frames)) Q w2).
    { intros frames' w2 h Hf H2. apply owp_bind, unavailable_wp; [done|]. intros fs Hn Ha. owp_steps.
      apply (HQ (-1) s1 fs w2 (h1 ++ h) []).
      - rewrite app_nil_r. exact (carries_keeps _ _ _ _ _ _ _ Hold1 H2).
      - apply read_post_absent; try done. intros Hm Hf0. apply elem_of_app. left. by apply Hop. }
    destruct (Z.ltb_spec fd 0); [apply (Hgone _ _ []); [apply Hh|apply quiet_refl]|].
    pose proof (proj1 catalog_nonempty) as Hpos.
    apply owp_bind, (read_frames_wp s1 _ 0 frames 0 w1 w1 []); try done; try lia;
      [apply Hs|apply quiet_refl|by apply (headed_reading s1)|].
    intros fs failure w2 h H2 [Hn Hr]. pose proof (keeps_budget _ _ _ H2). cbv beta iota.
    apply owp_bind, verify_identity_wp; [lia| |].
    - intros w3 hc H3 Hid Hc. change (0 <? 0) with false. cbv iota.
      assert (Hpost : forall r, -1 <= r <= 1 -> (0 <= r -> failure = 0) -> read_post s r s1 fs (h1 ++ h) hc).
      { intros r Hr1 Hr2.
        assert (Hk : forall k f, fs !! k = Some f -> Z.of_nat k < FRAME_COUNT).
        { intros k f Hk. destruct Hn as [[Hl _] _]. apply lookup_lt_Some in Hk. unfold zlen in Hl. lia. }
        constructor; try done.
        - intros Hm Hf0. apply elem_of_app. left. by apply Hop.
        - intros k f a Hf Ha. destruct (Hr k f a Hf Ha) as (A1 & _ & A3).
          destruct (decide (a = 0)) as [E|E]; [left; auto|].
          destruct (A3 E (Hk k f Hf)) as [[_ ?]|[? ?]]; [by left|right]. split_and!; try done.
          left. apply elem_of_app. by right.
        - intros Hr0 k f a Hf Ha Ha0. destruct (Hr k f a Hf Ha) as (_ & _ & A3).
          destruct (A3 Ha0 (Hk k f Hf)) as [[? _]|[? _]]; [exfalso; auto|done]. }
      pose proof (carries_keeps _ _ _ _ _ _ _ (carries_keeps _ _ _ _ _ _ _ Hold1 H2) H3) as Hold3.
      destruct (Z.eqb_spec failure 0) as [E|E]; cbn [negb].
      + owp_steps. apply (HQ _ _ _ _ (h1 ++ h) hc); [exact Hold3|apply Hpost; [lia|done]].
      + apply owp_bind, put_errno_wp. intros w4 H4 _. owp_steps.
        apply (HQ _ _ _ _ (h1 ++ h) hc); [|apply Hpost; lia].
        rewrite <- (app_nil_r ((h1 ++ h) ++ hc)).
        exact (carries_keeps _ _ _ _ _ _ _ Hold3 H4).
    - intros w3 h3 H3. change (-1 <? 0) with true. cbv iota. apply (Hgone _ _ (h ++ h3)); [apply Hn|].
      exact (keeps_trans _ _ _ _ _ H2 H3). }
  destruct (Z.ltb_spec (mem_fd s) 0).
  - unfold open_memory_fd. owp_steps. pose proof (open_ok (proc_path (pid s) "mem") w) as Ho. cbn zeta in Ho.
    eapply Hfile.
    + intros w0 h0 Hold. by apply (holds_memory s w0 w).
    + apply opens_true in Ho. by destruct Ho as [[_ (_ & _ & _ & B)]|(_ & _ & (_ & _ & _ & B))].
    + lia.
    + intros _ Hf0. unfold memory_opened. cbn [mem_fd pid set]. rewrite (proj2 (Z.leb_le _ _) Hf0). by left.
  - owp_steps. apply (Hfile _ _ []); [|done|done|lia]. intros w0 h0 Hold. rewrite app_nil_r. by apply (holds_same s).
Qed.

(** A read returns, and its result is what [read_post] says. *)
Lemma vhal_read_wp s frames w (Q : Z * roadcast_vhal_source_t * list roadcast_frame_t -> W -> Prop) :
  (budget w < fuel)%nat -> source_ok s -> frames_ok frames ->
  (forall r s' frames' w' h hc, carries s w s' w' (h ++ hc) -> read_post s r s' frames' h hc ->
     Q (r, s', frames') w') ->
  owp (vhal_read fuel s frames) Q w.
Proof.
  intros Hb Hs Hf HQ. unfold vhal_read.
  destruct (prepare_frames s frames Hs Hf) as (fs & local & Hrun & Hh & Hv & Hnone & He).
  apply owp_bind, (owp_mem _ (fs, local, nonzero (addresses s))); [exact Hrun|]. cbv beta iota zeta.
  set (s1 := s <| local_iov := local |>).
  assert (Hs1 : source_ok s1) by (destruct Hs as (? & ? & ?); done).
  assert (Hold1 : carries s w s1 w []).
  { intros w0 h0. rewrite app_nil_r. unfold holds, fresh, held_files, held_blocks. cbn.
    destruct Hnone as [N1 N2].
    destruct local, (local_iov s); [done|by specialize (N2 eq_refl)|by specialize (N1 eq_refl)|done]. }
  assert (Hsame1 : same_source s s1) by done.
  apply owp_bind. change (nonzero (addresses s)) with (nonzero (addresses s1)).
  apply (read_vm_wp s1); [done|exact Hs1|exact Hh|exact He|..].
  - intros fs' w' h hc H1 [Hn Hst] Hid Hc Hobs. cbv beta iota. owp_steps.
    apply (HQ _ _ _ _ h hc); [exact (carries_keeps _ _ _ _ _ _ _ Hold1 H1)|].
    assert (Hk : forall k f, fs' !! k = Some f -> Z.of_nat k < FRAME_COUNT).
    { intros k f Hk. destruct Hn as [[Hl _] _]. apply lookup_lt_Some in Hk. unfold zlen in Hl. lia. }
    constructor; try done.
    + cbn. lia.
    + intros k f a Hf' Ha. destruct (Hst k f a (Hk k f Hf') Hf' Ha) as [A1 A2].
      destruct (decide (a = 0)) as [E|E]; [left; auto|right]. split_and!; auto.
    + intros _ k f a Hf' Ha Ha0. by apply (Hst k f a (Hk k f Hf') Hf' Ha).
  - intros fs' w' h H1 Hn Ha. cbv beta iota. owp_steps.
    apply (HQ _ _ _ _ h []); [rewrite app_nil_r; exact (carries_keeps _ _ _ _ _ _ _ Hold1 H1)|].
    apply read_post_absent; try done. cbn. lia.
  - intros s2 fs' w' h H1 Hh' Hs2. cbv beta iota.
    assert (Heq : source_ok s2 /\ headed s2 FRAME_COUNT fs' /\ carries s w s2 w' h /\ same_source s s2
                  /\ mem_fd s2 = mem_fd s).
    { pose proof (carries_keeps _ _ _ _ _ _ _ Hold1 H1) as Hold2.
      destruct Hs2 as [->|[t ->]]; [done|]. split_and!; try done; try apply Hs1. }
    destruct Heq as (G1 & G2 & G3 & (S1 & S2 & S3 & S4 & S5) & G5).
    apply (read_file_wp s2 fs' w'); try done; [pose proof (keeps_budget _ _ _ H1); lia|].
    intros r s' fs2 w2 h2 hc Hold3 [P1 P2 P3 P9 P4 P5 P6 P7 P8].
    apply (HQ _ _ _ _ (h ++ h2) hc).
    { intros w0 h0 Hold. specialize (Hold3 _ _ (G3 _ _ Hold)). by rewrite <- !(assoc_L (++)) in Hold3 |- *. }
    destruct P1 as (T1 & T2 & T3 & T4 & T5). rewrite S4 in P6, P7. rewrite G5 in P3. rewrite G5, S1 in P9.
    constructor; try done.
    + unfold same_source. rewrite T1, T2, T3, T4, T5. done.
    + intros Hm Hf0. apply elem_of_app. right. by apply P9.
    + intros k f a Hf' Ha. destruct (P6 k f a Hf' Ha) as [?|(Q1 & Q2 & Q3)]; [by left|right].
      split_and!; try done. destruct Q3 as [Hin|(b & n & Hin & Hrest)].
      * left. apply elem_of_app. by right.
      * right. exists b, n. split; [apply elem_of_app; by right|done].
    + unfold confirmed. rewrite <- S2, <- S3. exact P8.
Qed.
End Read.
