(* ===== verification/VhalInterface.v ===== *)
(** * The VHAL source behind the interface of the session

    The instance of [VhalSource] that the daemon is compiled with: the operations
    of [VhalOps] on the operating system, with the fuel its budget asks for.  The
    instance keeps the contract [VhalSourceOk], and the runs behind it are always
    defined, so that the default of the instance is never taken by a session. *)

From Stdlib Require Import String.
From S2P Require Import Prelude Text Wire CatalogDefs Catalog SourceSession Sampler ServerDefs.
From S2P Require Import ServerQueue DaemonOps Events Effect VhalElf VhalDefs VhalOps VhalOs VhalProc VhalOpen VhalRead.

(** What a run returns, and [default] if it were undefined. *)
Definition returned {A} (default : A) (m : res A) : A :=
  match m with Ok a => a | _ => default end.

Section Interface.
Context `{HC : CatalogOk} {W : Type} `{OS : !Os W} `{HO : !OsOk OS}.
Implicit Types (w : W) (s : roadcast_vhal_source_t).

#[export] Instance linux_vhal : VhalSource roadcast_vhal_source_t W := {|
  vhal_zero := closed_source;
  roadcast_vhal_open s name w :=
    let '((r, s), w) := returned ((-1, s), w) (vhal_open (S (budget w)) (c_string (c_bytes name)) w) in
    (r, s, w);
  roadcast_vhal_read s frames w :=
    let '((r, s, frames), w) :=
      returned ((-1, s, mark_unavailable frames), w) (vhal_read (S (budget w)) s frames w) in
    (r, s, frames, w);
  roadcast_vhal_close s w := returned (s, w) (vhal_close s w);
|}.

(** A source with [aligned] aside: what the session keeps between its calls. *)
Lemma opened_ok needle s w w' : opened needle s w w' -> source_ok s.
Proof. by intros (H & _). Qed.

Lemma unopened_ok s :
  local_iov s = None -> remote_iov s = None -> addresses s = repeat 0 (length CAN_IDS) -> source_ok s.
Proof.
  intros H1 H2 H3. unfold source_ok. rewrite H1, H2, H3. destruct closed_source_ok as (A1 & A2 & _). done.
Qed.

(** A frame that is read is never yet VALID: the sampler decides that. *)
Lemma read_post_sample s r s' frames h hc :
  source_ok s -> read_post s r s' frames h hc -> sample_ok frames.
Proof.
  intros (Ha & _) [_ _ _ _ _ Hn Hf _ _]. destruct (named_all frames Hn) as [Hok Hids].
  split_and!; [done|done|]. apply Forall_lookup. intros k f Hk.
  destruct (lookup_lt_is_Some_2 (addresses s) k) as [a Hak].
  { destruct Hok as [Hl _]. apply lookup_lt_Some in Hk. unfold zlen in *. lia. }
  destruct (Hf k f a Hk Hak) as [[E _]|(_ & E & _)]; rewrite E; done.
Qed.

(** The runs are defined: from a well formed source every operation returns, to a
    well formed source. *)
Lemma vhal_open_runs name w :
  exists r s w', vhal_open (S (budget w)) name w = Ok ((r, s), w') /\ -1 <= r <= 0 /\ source_ok s.
Proof.
  assert (H : owp (vhal_open (S (budget w)) name) (fun rs _ => -1 <= rs.1 <= 0 /\ source_ok rs.2) w).
  { apply vhal_open_wp; [lia|intros s w' H|intros s w' h _ _ _ H1 H2 H3]; (split; [cbn; lia|]).
    - by apply (opened_ok name s w w').
    - by apply unopened_ok. }
  apply owp_run in H as ([r s] & w' & H & H1 & H2). by exists r, s, w'.
Qed.

Lemma vhal_read_runs s frames w :
  source_ok s -> frames_ok frames ->
  exists r s' frames' w', vhal_read (S (budget w)) s frames w = Ok ((r, s', frames'), w')
    /\ -1 <= r <= 1 /\ source_ok s' /\ sample_ok frames'.
Proof.
  intros Hs Hf.
  assert (H : owp (vhal_read (S (budget w)) s frames)
    (fun rsf _ => -1 <= rsf.1.1 <= 1 /\ source_ok rsf.1.2 /\ sample_ok rsf.2) w).
  { apply vhal_read_wp; [lia|done..|]. intros r s' fs w' h hc _ Hp. cbn. split; [apply Hp|].
    split; [apply Hp|]. by apply (read_post_sample s r s' fs h hc). }
  apply owp_run in H as ([[r s'] fs] & w' & H & H1 & H2 & H3). by exists r, s', fs, w'.
Qed.

Lemma vhal_close_runs s w : exists w', vhal_close s w = Ok (closed_source, w').
Proof.
  unfold vhal_close, free_iov, mbind, OM_bind, mret, OM_ret, osys_.
  destruct (0 <=? mem_fd s), (0 <=? identity_fd s), (local_iov s), (remote_iov s); by eexists.
Qed.

#[export, program] Instance linux_vhal_ok : VhalSourceOk linux_vhal := {
  vhal_ok := source_ok;
}.
Next Obligation. apply closed_source_ok. Qed.
Next Obligation.
  intros s name w _. cbn. destruct (vhal_open_runs (c_string (c_bytes name)) w) as (r & s' & w' & -> & H).
  exact H.
Qed.
Next Obligation.
  intros s frames w Hs Hf. cbn. destruct (vhal_read_runs s frames w Hs Hf) as (r & s' & fs & w' & -> & H).
  exact H.
Qed.
Next Obligation.
  intros s w _. cbn. destruct (vhal_close_runs s w) as (w' & ->). apply closed_source_ok.
Qed.
End Interface.

(** ** Apart from the streams

    Where the files of the operating system are apart from the streams of the
    clients, so is the source. *)

Class OsApart {W} `{K : Clock W} {U : Uv W} (OS : Os W) (HU : UvOk U K) : Prop := {
  sent_clock_sleep c t w : sent (sleep_until t w) c = sent w c;
  sent_errno c e w : sent (set_errno e w) c = sent w c;
  sent_opendir c p w : sent (os_opendir p w).2 c = sent w c;
  sent_dirfd c d w : sent (os_dirfd d w).2 c = sent w c;
  sent_readdir c d w : sent (os_readdir d w).2 c = sent w c;
  sent_closedir c d w : sent (os_closedir d w) c = sent w c;
  sent_open c p w : sent (os_open p w).2 c = sent w c;
  sent_openat c d p w : sent (os_openat d p w).2 c = sent w c;
  sent_read c fd n w : sent (os_read fd n w).2 c = sent w c;
  sent_pread c fd n o w : sent (os_pread fd n o w).2 c = sent w c;
  sent_close c fd w : sent (os_close fd w) c = sent w c;
  sent_readlink c p n w : sent (os_readlink p n w).2 c = sent w c;
  sent_fopen c p w : sent (os_fopen p w).2 c = sent w c;
  sent_fgets c s n w : sent (os_fgets s n w).2 c = sent w c;
  sent_fclose c s w : sent (os_fclose s w) c = sent w c;
  sent_fstat c fd w : sent (os_fstat_size fd w).2 c = sent w c;
  sent_mmap c fd n w : sent (os_mmap fd n w).2 c = sent w c;
  sent_munmap c w : sent (os_munmap w) c = sent w c;
  sent_calloc c w : sent (os_calloc w).2 c = sent w c;
  sent_free c w : sent (os_free w) c = sent w c;
  sent_os_clock c w : sent (os_clock w).2 c = sent w c;
  sent_vm_readv c p v w : sent (os_process_vm_readv p v w).2 c = sent w c;
}.

Section Apart.
Context `{HC : CatalogOk} {W : Type} `{K : !Clock W} `{U : !Uv W} `{HU : !UvOk U K}
  `{OS : !Os W} `{HO : !OsOk OS} `{HA : !OsApart OS HU}.
Implicit Types (w : W) (s : roadcast_vhal_source_t).

(** A run that returns leaves the streams alone. *)
Definition silent_run {A} (m : OM W A) : Prop :=
  forall w a w' c, m w = Ok (a, w') -> sent w' c = sent w c.

Lemma silent_ret {A} (a : A) : silent_run (mret a).
Proof. intros w a' w' c [= <- <-]. done. Qed.
Lemma silent_bind {A B} (m : OM W A) (f : A -> OM W B) :
  silent_run m -> (forall a, silent_run (f a)) -> silent_run (m ≫= f).
Proof.
  intros Hm Hf w b w' c. unfold mbind, OM_bind. destruct (m w) as [[a w1]| |] eqn:E; [|done..].
  intros H. rewrite (Hf a w1 b w' c H). by apply (Hm w a).
Qed.
Lemma silent_sys {A} (f : W -> A * W) : (forall c w, sent (f w).2 c = sent w c) -> silent_run (osys f).
Proof. intros Hf w a w' c [= H]. rewrite <- (Hf c w). by rewrite H. Qed.
Lemma silent_sys_ (f : W -> W) : (forall c w, sent (f w) c = sent w c) -> silent_run (osys_ f).
Proof. intros Hf w a w' c [= _ <-]. apply Hf. Qed.
Lemma silent_get {A} (f : W -> A) : silent_run (oget f).
Proof. intros w a w' c [= _ <-]. done. Qed.
Lemma silent_mem {A} (m : res A) : silent_run (omem m).
Proof. intros w a w' c. unfold omem. destruct m; [|done..]. by intros [= _ <-]. Qed.
Lemma silent_dec {A} (m : res A) : silent_run (odec m).
Proof. intros w a w' c. unfold odec. destruct m; [| |done]; by intros [= _ <-]. Qed.
Lemma silent_fuel {A} : silent_run (@out_of_fuel W A).
Proof. done. Qed.
End Apart.

Create HintDb silent.
#[export] Hint Resolve silent_ret silent_bind silent_sys silent_sys_ silent_get silent_mem silent_dec
  silent_fuel : silent.
#[export] Hint Resolve sent_errno sent_opendir sent_dirfd sent_readdir sent_closedir sent_open sent_openat
  sent_read sent_pread sent_close sent_readlink sent_fopen sent_fgets sent_fclose sent_fstat sent_mmap
  sent_munmap sent_calloc sent_free sent_os_clock sent_vm_readv : silent.

(** Follows the structure of a computation. *)
Ltac silent :=
  repeat match goal with
  | |- silent_run (_ ≫= _) => apply silent_bind; [|intros ?]
  | |- silent_run (match ?x with _ => _ end) => destruct x
  | |- silent_run (let _ := _ in _) => cbv zeta
  | |- silent_run _ => solve [eauto with silent]
  end.

Section Silence.
Context `{HC : CatalogOk} {W : Type} `{K : !Clock W} `{U : !Uv W} `{HU : !UvOk U K}
  `{OS : !Os W} `{HO : !OsOk OS} `{HA : !OsApart OS HU}.

Lemma silent_proc_loop n needle d fd : silent_run (proc_loop n needle d fd).
Proof. induction n as [|n IH]; cbn [proc_loop]; silent. Qed.
Lemma silent_maps_loop n m e o : silent_run (maps_loop n m e o).
Proof. induction n as [|n IH]; cbn [maps_loop]; silent. Qed.
Lemma silent_pread_loop n fd c o : silent_run (pread_loop n fd c o).
Proof. induction n as [|n IH]; cbn [pread_loop]; silent. Qed.
Hint Resolve silent_proc_loop silent_maps_loop silent_pread_loop : silent.

Lemma silent_find_mapping_base n p e o : silent_run (find_mapping_base n p e o).
Proof. unfold find_mapping_base. silent. Qed.
Lemma silent_read_start_time n fd : silent_run (read_start_time n fd).
Proof. unfold read_start_time, put_errno. silent. Qed.
Hint Resolve silent_find_mapping_base silent_read_start_time : silent.
Lemma silent_verify_identity n s : silent_run (verify_identity n s).
Proof. unfold verify_identity, put_errno. silent. Qed.
Lemma silent_close s : silent_run (vhal_close s).
Proof. unfold vhal_close, free_iov. silent. Qed.
Hint Resolve silent_verify_identity silent_close : silent.
Lemma silent_fail s : silent_run (vhal_fail s).
Proof. unfold vhal_fail, put_errno. silent. Qed.
Hint Resolve silent_fail : silent.
Lemma silent_resolve e : silent_run (roadcast_vhal_resolve_symbols e).
Proof. unfold roadcast_vhal_resolve_symbols, put_errno. silent. Qed.
Lemma silent_open_resolved n s values v base : silent_run (open_resolved n s values v base).
Proof. unfold open_resolved, calloc_iov, open_memory_fd, put_errno. silent. Qed.
Hint Resolve silent_resolve silent_open_resolved : silent.
Lemma silent_open n needle : silent_run (vhal_open n needle).
Proof. unfold vhal_open, find_pid, read_executable_path, put_errno. silent. Qed.

Lemma silent_vm_readv_loop n p l r fs : silent_run (vm_readv_loop n p l r fs).
Proof. revert fs. induction n as [|n IH]; intros fs; cbn [vm_readv_loop]; silent. Qed.
Lemma silent_unavailable fs : silent_run (unavailable fs).
Proof. unfold unavailable. silent. Qed.
Lemma silent_read_frames n s m i fs e : silent_run (read_frames n s m i fs e).
Proof.
  revert i fs e. induction m as [|m IH]; intros i fs e; cbn [read_frames]; unfold read_one, put_errno; silent.
Qed.
Hint Resolve silent_vm_readv_loop silent_unavailable silent_read_frames : silent.
Lemma silent_read n s fs : silent_run (vhal_read n s fs).
Proof. unfold vhal_read, read_vm, read_file, open_memory_fd, put_errno. silent. Qed.

#[export] Instance linux_vhal_apart : Apart linux_vhal HU.
Proof.
  constructor.
  - apply sent_clock_sleep.
  - intros c s p w. cbn. pose proof (silent_open (S (budget w)) (c_string (c_bytes p)) w) as H.
    destruct (vhal_open _ _ w) as [[[r s'] w']| |]; cbn; [by apply (H (r, s'))|done..].
  - intros c s fs w. cbn. pose proof (silent_read (S (budget w)) s fs w) as H.
    destruct (vhal_read _ s fs w) as [[[[r s'] fs'] w']| |]; cbn; [by apply (H (r, s', fs'))|done..].
  - intros c s w. cbn. pose proof (silent_close s w) as H.
    destruct (vhal_close s w) as [[s' w']| |]; cbn; [by apply (H s')|done..].
Qed.
End Silence.
