(* ===== verification/VhalSession.v ===== *)
(** * The session on the VHAL source: nothing leaks

    What a session of [SourceSession] holds of the operating system when its
    source is [linux_vhal], over any sequence of reads. *)

From Stdlib Require Import String.
From S2P Require Import Prelude Effect Text Wire CatalogDefs Catalog SourceSession Sampler ServerDefs.
From S2P Require Import VhalElf VhalDefs VhalOps VhalOs VhalProc VhalOpen VhalRead VhalInterface.

Section Session.
Context `{HC : CatalogOk} {W : Type} `{OS : !Os W} `{HO : !OsOk OS}.
Implicit Types (w : W) (s : roadcast_vhal_source_t).

(** A source that holds nothing. *)
Definition idle s : Prop :=
  mem_fd s < 0 /\ identity_fd s < 0 /\ local_iov s = None /\ remote_iov s = None.

Lemma idle_holds s w w' h : idle s -> holds s w w' h <-> keeps w w' h.
Proof.
  intros (H1 & H2 & H3 & H4). unfold holds, fresh, held_files, held_blocks, keeps. rewrite H3, H4.
  destruct (Z.leb_spec 0 (mem_fd s)), (Z.leb_spec 0 (identity_fd s)); try lia. cbn [app].
  rewrite Z.add_0_r. split; [tauto|]. intros He. split; [split; lia|done].
Qed.

Lemma closed_idle : idle closed_source.
Proof. unfold idle. cbn. split_and!; done || lia. Qed.

Lemma holds_rebase s w0 w w' h0 h : keeps w0 w h0 -> holds s w w' h -> holds s w0 w' (h0 ++ h).
Proof.
  intros H0 [Hf H]. pose proof H0 as (E1 & E2 & _). split; [unfold fresh in *; by rewrite E1 in Hf|].
  rewrite E1, E2 in H. exact (effect_trans _ _ _ _ _ _ _ _ _ H0 H).
Qed.

(** What the session has of the operating system that it did not have in [w0]. *)
Definition session_holds w0 (session : roadcast_source_session_t roadcast_vhal_source_t) w : Prop :=
  session_ok session /\ (exists h, holds (vhal session) w0 w h) /\ (connected session = 0 -> idle (vhal session)).

Lemma close_run s w0 w h : holds s w0 w h ->
  exists w', vhal_close s w = Ok (closed_source, w') /\ keeps w0 w' h.
Proof.
  intros H. assert (Hw : owp (vhal_close s) (fun s' w' => s' = closed_source /\ keeps w0 w' h) w)
    by (by eapply vhal_close_wp; [exact H|]).
  apply owp_run in Hw as (s' & w' & Hrun & -> & Hk). by exists w'.
Qed.

Lemma open_run name w :
  exists r s w', vhal_open (S (budget w)) name w = Ok ((r, s), w')
    /\ (r = 0 /\ opened name s w w' \/ r = -1 /\ idle s /\ source_ok s /\ exists h, keeps w w' h).
Proof.
  assert (H : owp (vhal_open (S (budget w)) name) (fun rs w' =>
    rs.1 = 0 /\ opened name rs.2 w w'
    \/ rs.1 = -1 /\ idle rs.2 /\ source_ok rs.2 /\ exists h, keeps w w' h) w).
  { apply vhal_open_wp; [lia|intros s w' H|intros s w' h H H1 H2 H3 H4 H5]; [by left|right].
    cbn. split; [done|]. split; [unfold idle; rewrite H1, H2; split_and!; done || lia|].
    split; [by apply unopened_ok|by exists h]. }
  apply owp_run in H as ([r s] & w' & H & Hr). by exists r, s, w'.
Qed.

Lemma read_run s frames w :
  source_ok s -> frames_ok frames ->
  exists r s' frames' w' h hc, vhal_read (S (budget w)) s frames w = Ok ((r, s', frames'), w')
    /\ carries s w s' w' (h ++ hc) /\ read_post s r s' frames' h hc.
Proof.
  intros Hs Hf.
  assert (H : owp (vhal_read (S (budget w)) s frames) (fun rsf w' => exists h hc,
    carries s w rsf.1.2 w' (h ++ hc) /\ read_post s rsf.1.1 rsf.1.2 rsf.2 h hc) w).
  { apply vhal_read_wp; [lia|done..|]. intros r s' fs w' h hc H1 H2. by exists h, hc. }
  apply owp_run in H as ([[r s'] fs] & w' & H & h & hc & H1 & H2). by exists r, s', fs, w', h, hc.
Qed.

(** After a failure the source is closed and nothing is held. *)
Lemma retry_releases w0 session now w :
  session_ok session -> (exists h, holds (vhal session) w0 w h) ->
  let '(session', w') := schedule_retry session now w in session_holds w0 session' w'.
Proof.
  intros Hs [h Hh]. pose proof (schedule_retry_spec session now w Hs) as Hsp. cbn zeta in Hsp.
  destruct (close_run _ _ _ _ Hh) as (w' & Hrun & Hk). unfold schedule_retry in *.
  cbn [roadcast_vhal_close linux_vhal] in *. rewrite Hrun in *. cbn [returned fst] in *.
  destruct Hsp as (Hok & _). split; [exact Hok|]. cbn.
  split; [|intros _].
  - exists h. apply idle_holds; [|done]. destruct (_ <? _); apply closed_idle.
  - destruct (_ <? _); apply closed_idle.
Qed.

Lemma connected_releases w0 session frames now w :
  session_ok session -> frames_ok frames -> connected session = 1 ->
  (exists h, holds (vhal session) w0 w h) ->
  let '(_, session', _, w') := read_connected session frames now w in session_holds w0 session' w'.
Proof.
  intros Hs Hf Hc [h0 Hh]. pose proof (read_connected_spec session frames now w Hs Hf Hc) as Hsp.
  destruct (read_run (vhal session) frames w (proj1 Hs) Hf)
    as (r & s' & fs & w' & h & hc & Hrun & Hcar & Hpost).
  unfold read_connected in *. cbn [roadcast_vhal_read linux_vhal] in *. rewrite Hrun in *. cbn [returned] in *.
  assert (Hs1 : session_ok (session <| vhal := s' |>)) by (split; [apply Hpost|apply Hs]).
  destruct (r <? 0).
  - pose proof (retry_releases w0 (session <| vhal := s' |>) now w' Hs1
      (ex_intro _ _ (Hcar _ _ Hh))) as Hr.
    destruct (schedule_retry _ now w') as [session' w2]. exact Hr.
  - destruct Hsp as (Hok & _). split; [exact Hok|]. split; [exists (h0 ++ h ++ hc); by apply Hcar|].
    cbn. lia.
Qed.

Lemma session_read_holds w0 session frames now w :
  frames_ok frames -> session_holds w0 session w ->
  let '(_, session', _, w') := roadcast_source_session_read session frames now w in
  session_holds w0 session' w'.
Proof.
  intros Hf (Hs & Hh & Hidle). unfold roadcast_source_session_read.
  pose proof Hs as (Hv & Hd & Hc & Hrest).
  destruct (Z.eqb_spec (connected session) 0) as [E|E]; [|apply connected_releases; auto; lia].
  cbv zeta. destruct (now <? retry_at_ns session); [done|]. specialize (Hidle E). destruct Hh as [h0 Hh].
  apply (idle_holds _ _ _ _ Hidle) in Hh.
  destruct (open_run (c_string (c_bytes (default EmptyString (process_name session)))) w)
    as (r & s & w' & Hrun & Hr).
  cbn [roadcast_vhal_open linux_vhal]. rewrite Hrun. cbn [returned].
  destruct Hr as [[-> Ho]|(-> & Hi & Hok & h & Hk)].
  - change (0 <? 0) with false. cbv iota zeta. apply connected_releases.
    + unfold session_ok. cbn. split; [by apply (opened_ok _ _ _ _ Ho)|]. split; [exact Hd|].
      split; [lia|]. split; [apply u64_range|apply Hrest].
    + apply unavailable_frames.
    + done.
    + destruct Ho as (_ & _ & _ & h & hc & Hold & _). exists (h0 ++ h ++ hc). by apply (holds_rebase _ _ w).
  - change (-1 <? 0) with true. cbv iota zeta.
    pose proof (retry_releases w0 (session <| vhal := s |>) now w') as Hrel.
    destruct (schedule_retry (session <| vhal := s |>) now w') as [session' w2]. apply Hrel.
    + split; [exact Hok|apply Hs].
    + exists (h0 ++ h). apply (idle_holds s); [done|]. exact (keeps_trans _ _ _ _ _ Hh Hk).
Qed.

Lemma session_polls_hold w0 nows : forall session w,
  session_holds w0 session w ->
  let '(_, session', w') := session_polls session nows w in session_holds w0 session' w'.
Proof.
  induction nows as [|now nows IH]; intros session w Hh; cbn [session_polls]; [done|].
  pose proof (session_read_holds w0 session (repeat zero_frame (length CAN_IDS)) now w zero_frames_ok Hh) as H1.
  destruct (roadcast_source_session_read session _ now w) as [[[r session1] fs] w1].
  specialize (IH session1 w1 H1). destruct (session_polls session1 nows w1) as [[rs s2] w2]. exact IH.
Qed.

Lemma session_init_holds name w : session_holds w (roadcast_source_session_init name).2 w.
Proof.
  split; [apply session_init_ok|]. split; [|intros _; apply closed_idle].
  exists []. apply idle_holds; [apply closed_idle|apply quiet_refl].
Qed.

Lemma session_close_releases w0 session w :
  session_holds w0 session w -> exists h, keeps w0 (roadcast_source_session_close session w).2 h.
Proof.
  intros (_ & [h Hh] & _). destruct (close_run _ _ _ _ Hh) as (w' & Hrun & Hk). exists h.
  unfold roadcast_source_session_close. cbn [roadcast_vhal_close linux_vhal]. rewrite Hrun. exact Hk.
Qed.
End Session.
