(* ===== verification/VhalHost.v ===== *)
(** * A concrete operating system for the examples

    A box with one VHAL process: a list of processes, one executable image, one
    memory map, one stat text and a memory, which satisfies [OsOk]. *)

From Stdlib Require Import String.
From S2P Require Import Prelude Effect Text Wire CatalogDefs CatalogData Catalog SourceSession Sampler.
From S2P Require Import VhalElf VhalDefs VhalOps VhalOs VhalProc.

Record box := mk_box {
  bx_errno : Z;
  bx_files : list (handle * list Z);
  bx_blocks : Z;
  bx_history : list delivery;
  bx_budget : nat;
  bx_pids : list Z;
  bx_command : list Z;
  bx_exe : list Z;
  bx_image : list Z;
  bx_lines : list (list Z);
  bx_stat : list Z;
  bx_memory : list (Z * list Z);
}.

#[export] Instance eta_box : Eta box := fun b =>
  mk_box (bx_errno b) (bx_files b) (bx_blocks b) (bx_history b) (bx_budget b) (bx_pids b) (bx_command b)
    (bx_exe b) (bx_image b) (bx_lines b) (bx_stat b) (bx_memory b).

Definition number_of (h : handle) : Z := match h with Fd n | Dir n | Stream n => n end.

Definition next_number (fs : list (handle * list Z)) : Z :=
  1 + fold_right (fun e n => Z.max (number_of e.1) n) 2 fs.


Definition box_close (h : handle) (b : box) : box := b <| bx_files := without h (bx_files b) |>.

Definition box_deliver (d : delivery) (b : box) : box := b <| bx_history := bx_history b ++ [d] |>.

Definition box_open (kind : Z -> handle) (directory : option Z) (name : list Z) (b : box) : Z * box :=
  let n := next_number (bx_files b) in
  (n, box_deliver (Opened (kind n) directory name) (b <| bx_files := (kind n, name) :: bx_files b |>)).

(** At most [n] bytes, when [n] is not negative. *)
Definition box_bytes (fd off n : Z) (bytes : list Z) (b : box) : option (list Z) * box :=
  if n <? 0 then (None, b <| bx_errno := EINVAL |>)
  else let got := map u8 (take (Z.to_nat n) bytes) in (Some got, box_deliver (Bytes fd off got) b).

Definition box_memory (a : Z) (b : box) : option (list Z) :=
  match find (fun e => e.1 =? a) (bx_memory b) with Some e => Some e.2 | None => None end.

(** The bytes at a vector of addresses, if all are mapped. *)
Fixpoint box_gather (vector : list (option Z * Z)) (b : box) : option (list Z) :=
  match vector with
  | [] => Some []
  | (Some a, _) :: vector =>
      match box_memory a b, box_gather vector b with
      | Some bs, Some rest => Some (bs ++ rest)
      | _, _ => None
      end
  | _ => None
  end.

(** The name of a process in /proc. *)
Definition box_entry (p : Z) : list Z := decimal (p mod 2 ^ 31).
#[local] Opaque box_entry.

Lemma box_entry_ok p : exists q, 0 <= q < 2 ^ 31 /\ box_entry p = decimal q.
Proof. exists (p mod 2 ^ 31). split; [apply Z.mod_pos_bound; lia|exact eq_refl]. Qed.

#[export] Instance box_os : Os box := {
  errno := bx_errno;
  set_errno e b := b <| bx_errno := e |>;
  os_opendir p := box_open Dir None p;
  os_dirfd d b := (d, if 0 <=? d then box_deliver (Descriptor d d) b else b);
  os_readdir d b :=
    match bx_budget b, bx_pids b with
    | S n, p :: ps => (Some (box_entry p), b <| bx_budget := n |> <| bx_pids := ps |>)
    | _, _ => (None, b)
    end;
  os_closedir d := box_close (Dir d);
  os_open p := box_open Fd None p;
  os_openat d p := box_open Fd (Some d) p;
  os_read fd n b := box_bytes fd 0 n (bx_command b) b;
  os_pread fd n off b :=
    box_bytes fd off n (if off =? 0 then bx_stat b else default [] (box_memory off b)) b;
  os_close fd := box_close (Fd fd);
  os_readlink p n b :=
    if n <? 0 then (None, b)
    else let got := map u8 (take (Z.to_nat n) (bx_exe b)) in (Some got, box_deliver (Link p got) b);
  os_fopen p := box_open Stream None p;
  os_fgets s n b :=
    match bx_budget b, bx_lines b with
    | S k, l :: ls =>
        if zlen l <? n then (Some l, box_deliver (Line s l) (b <| bx_budget := k |> <| bx_lines := ls |>))
        else (None, b)
    | _, _ => (None, b)
    end;
  os_fclose s := box_close (Stream s);
  os_fstat_size fd b := (Some (zlen (bx_image b) mod 2 ^ 63), b);
  os_mmap fd n b :=
    if n =? zlen (bx_image b) then
      let image := map u8 (bx_image b) in
      (Some image, box_deliver (Mapped fd image) (b <| bx_blocks := bx_blocks b + 1 |>))
    else (None, b);
  os_munmap b := b <| bx_blocks := bx_blocks b - 1 |>;
  os_calloc b := (true, b <| bx_blocks := bx_blocks b + 1 |>);
  os_free b := b <| bx_blocks := bx_blocks b - 1 |>;
  os_clock b := ((1000, 0), b);
  os_process_vm_readv p v b :=
    match box_gather v b with
    | Some bs => let got := map u8 bs in ((zlen got, got), box_deliver (Copied p v got) b)
    | None => ((-1, []), b <| bx_errno := ESRCH |>)
    end;
}.

Lemma next_number_fresh (kind : Z -> handle) (fs : list (handle * list Z)) :
  (forall n, number_of (kind n) = n) -> kind (next_number fs) ∉ fs.*1.
Proof.
  intros Hk Hin. apply list_elem_of_fmap in Hin as ([h p] & E & Hin). cbn in E.
  assert (Hle : number_of h < next_number fs).
  { clear E. unfold next_number. revert Hin. induction fs as [|e fs IH]; intros Hin.
    - by apply elem_of_nil in Hin.
    - cbn [fold_right]. apply elem_of_cons in Hin as [<-|Hin]; cbn [fst]; [lia|]. specialize (IH Hin). lia. }
  rewrite <- E, Hk in Hle. lia.
Qed.

Lemma next_number_pos fs : 0 <= next_number fs.
Proof. unfold next_number. induction fs as [|e fs IH]; cbn [fold_right]; lia. Qed.

Lemma map_u8_ok bs : bytes_ok (map u8 bs).
Proof. apply Forall_map, Forall_forall. intros x _. apply u8_range. Qed.

Ltac calm := cbn; rewrite ?app_nil_r, ?Z.add_0_r; split_and!; (reflexivity || lia || done).

Lemma box_read_ok fd off n bytes b :
  match box_bytes fd off n bytes b with
  | (Some bs, b') => zlen bs <= n /\ bytes_ok bs
      /\ (bx_files b' = bx_files b /\ bx_blocks b' = bx_blocks b
          /\ bx_history b' = bx_history b ++ [Bytes fd off bs] /\ (bx_budget b' <= bx_budget b)%nat)
  | (None, b') =>
      (bx_files b' = bx_files b /\ bx_blocks b' = bx_blocks b
       /\ bx_history b' = bx_history b ++ [] /\ (bx_budget b' <= bx_budget b)%nat)
      /\ bx_errno b' = EINVAL
  end.
Proof.
  unfold box_bytes. destruct (Z.ltb_spec n 0); [calm|]. split; [|split; [apply map_u8_ok|calm]].
  rewrite zlen_map. unfold zlen. rewrite length_take. lia.
Qed.

#[export, program] Instance box_os_ok : OsOk box_os := {
  files := bx_files;
  blocks := bx_blocks;
  history := bx_history;
  budget := bx_budget;
}.
Next Obligation. done. Qed.
Next Obligation. intros. calm. Qed.
Next Obligation.
  intros p b. cbn. destruct (Z.leb_spec 0 (next_number (bx_files b))) as [|Hn].
  - split; [by apply next_number_fresh|calm].
  - pose proof (next_number_pos (bx_files b)). lia.
Qed.
Next Obligation. intros d b. cbn. destruct (0 <=? d); calm. Qed.
Next Obligation.
  intros d b. cbn. destruct (bx_budget b) as [|n] eqn:E; [split; [calm|done]|].
  destruct (bx_pids b) as [|p ps]; [split; [calm|done]|]. cbn. rewrite app_nil_r.
  split; [split_and!; (reflexivity || lia)|]. intros name [= <-]. split; [lia|]. intros _ _. apply box_entry_ok.
Qed.
Next Obligation. intros. calm. Qed.
Next Obligation.
  intros p b. cbn. destruct (Z.leb_spec 0 (next_number (bx_files b))) as [|Hn].
  - split; [by apply next_number_fresh|calm].
  - pose proof (next_number_pos (bx_files b)). lia.
Qed.
Next Obligation.
  intros d p b. cbn. destruct (Z.leb_spec 0 (next_number (bx_files b))) as [|Hn].
  - split; [by apply next_number_fresh|calm].
  - pose proof (next_number_pos (bx_files b)). lia.
Qed.
Next Obligation.
  intros fd n b. cbn. pose proof (box_read_ok fd 0 n (bx_command b) b) as H.
  destruct (box_bytes _ _ _ _ _) as [[bs|] b']; [exact H|apply H].
Qed.
Next Obligation.
  intros fd n off b. cbn.
  pose proof (box_read_ok fd off n (if off =? 0 then bx_stat b else default [] (box_memory off b)) b) as H.
  destruct (box_bytes _ _ _ _ _) as [[bs|] b']; [exact H|]. destruct H as [H ->]. done.
Qed.
Next Obligation. intros. calm. Qed.
Next Obligation.
  intros p n b. cbn. destruct (Z.ltb_spec n 0); [calm|]. cbn.
  split; [rewrite zlen_map; unfold zlen; rewrite length_take; lia|]. split; [apply map_u8_ok|calm].
Qed.
Next Obligation.
  intros p b. cbn. destruct (Z.leb_spec 0 (next_number (bx_files b))) as [|Hn].
  - split; [by apply next_number_fresh|calm].
  - pose proof (next_number_pos (bx_files b)). lia.
Qed.
Next Obligation.
  intros s n b. cbn. destruct (bx_budget b) as [|k] eqn:E; [calm|].
  destruct (bx_lines b) as [|l ls]; [calm|]. destruct (Z.ltb_spec (zlen l) n); [|calm].
  split; [done|]. cbn. split; [split_and!; (reflexivity || lia)|lia].
Qed.
Next Obligation. intros. calm. Qed.
Next Obligation.
  intros fd b. cbn. split; [calm|]. intros n [= <-]. apply Z.mod_pos_bound. lia.
Qed.
Next Obligation.
  intros fd n b. cbn. destruct (Z.eqb_spec n (zlen (bx_image b))) as [->|]; [|calm].
  split; [apply zlen_map|]. split; [apply map_u8_ok|calm].
Qed.
Next Obligation. intros. calm. Qed.
Next Obligation. intros. calm. Qed.
Next Obligation. intros. calm. Qed.
Next Obligation. intros. calm. Qed.
Next Obligation.
  intros p v b. cbn. destruct (box_gather v b) as [bs|].
  - pose proof (zlen_nonneg (map u8 bs)). destruct (Z.ltb_spec (zlen (map u8 bs)) 0); [lia|].
    split; [apply map_u8_ok|]. split; [by right|]. split; [calm|lia].
  - split; [constructor|]. split; [left; lia|]. split; [calm|done].
Qed.
