(* ===== verification/VhalTheorems.v ===== *)
(** * The VHAL source: theorems

    The claims on src/vhal_source.c, each with an example on the box of
    [VhalHost]. *)

From Stdlib Require Import String.
From S2P Require Import Prelude Effect Text Wire CatalogDefs CatalogData Catalog SourceSession Sampler ServerDefs.
From S2P Require Import VhalElf VhalDefs VhalOps VhalOs VhalProc VhalOpen VhalRead VhalInterface.
From S2P Require Import VhalSession VhalHost.

(** ** Opening and reading *)

Section Source.
Context `{HC : CatalogOk} {W : Type} `{OS : !Os W} `{HO : !OsOk OS}.

(** C10: opening the source always returns, whatever /proc and the executable
    contain, and accesses nothing outside its buffers.  On success the source
    holds exactly its identity file, at most its memory file and two vectors, and
    everything that was opened and read is the trace [opening]: its process was
    found by the command line in its directory of /proc; the start time is that of
    its stat file; its addresses are the symbols of the file that its exe link
    names, moved by the base that its memory map gives for this file; and the start
    time was confirmed in the stat file last of all.  On failure nothing is left
    open or allocated.  The fuel bounds the directory entries, the lines and the
    interruptions of /proc, which are finite ([budget]). *)
Theorem vhal_open_contract (fuel : nat) (name : list Z) (w : W) :
  (budget w < fuel)%nat ->
  exists r s w', vhal_open fuel name w = Ok ((r, s), w')
    /\ (r = 0 /\ opened name s w w'
        \/ r = -1 /\ idle s /\ source_ok s /\ exists h, keeps w w' h).
Proof.
  intros Hb.
  assert (H : owp (vhal_open fuel name) (fun rs w' =>
    rs.1 = 0 /\ opened name rs.2 w w'
    \/ rs.1 = -1 /\ idle rs.2 /\ source_ok rs.2 /\ exists h, keeps w w' h) w).
  { apply vhal_open_wp; [done|intros s w' H|intros s w' h H H1 H2 H3 H4 H5]; [by left|right].
    cbn. split; [done|]. split; [unfold idle; rewrite H1, H2; split_and!; done || lia|].
    split; [by apply unopened_ok|by exists h]. }
  apply owp_run in H as ([r s] & w' & H & Hr). by exists r, s, w'.
Qed.

(** C9: a read of the source always returns, stays inside its arrays and leaks
    nothing.  Every frame comes back either absent, or with eight bytes that were
    read in this call: from the memory file of the process at the frame's address,
    or by the system call as the entry of the frame in the vector of addresses.
    This entry is the frame's address for a source that is [aligned], as it is
    unless opening moved a symbol to the address 0, which is left out of the
    addresses but not of the vector.  If any frame has bytes, the identity of the
    process was confirmed after they were read; and a result of 0 or 1 means that
    every frame with an address has bytes. *)
Theorem vhal_read_contract (fuel : nat) s frames (w : W) :
  (budget w < fuel)%nat -> source_ok s -> frames_ok frames ->
  exists r s' frames' w' h hc, vhal_read fuel s frames w = Ok ((r, s', frames'), w')
    /\ carries s w s' w' (h ++ hc) /\ read_post s r s' frames' h hc.
Proof.
  intros Hb Hs Hf.
  assert (H : owp (vhal_read fuel s frames) (fun rsf w' => exists h hc,
    carries s w rsf.1.2 w' (h ++ hc) /\ read_post s rsf.1.1 rsf.1.2 rsf.2 h hc) w).
  { apply vhal_read_wp; [done..|]. intros r s' fs w' h hc H1 H2. by exists h, hc. }
  apply owp_run in H as ([[r s'] fs] & w' & H & h & hc & H1 & H2). by exists r, s', fs, w', h, hc.
Qed.

(** C38: a session on the source leaks nothing: after any reads at any times,
    successful or not, and the close, the open files and the allocations are
    what they were before the session. *)
Theorem vhal_session_releases (name : option string) (nows : list Z) (w : W) :
  let '(_, session, w1) := session_polls (roadcast_source_session_init name).2 nows w in
  session_ok session
  /\ files (roadcast_source_session_close session w1).2 = files w
  /\ blocks (roadcast_source_session_close session w1).2 = blocks w.
Proof.
  pose proof (session_polls_hold w nows _ w (session_init_holds name w)) as H.
  destruct (session_polls _ nows w) as [[rs session] w1]. split; [apply H|].
  destruct (session_close_releases w session w1 H) as (h & H1 & H2 & _). done.
Qed.
End Source.

(** ** Parsing *)


(** C39: the start time is found in the stat text of a process whatever its
    command is called, also with spaces and parentheses in the name: parsing
    returns the field that was printed. *)
Theorem start_time_parsed pid_ comm fields start others :
  0 <= pid_ -> is_u64 start -> Forall (fun c => c <> 0) comm ->
  length fields = 19%nat -> Forall plain_field fields -> Forall plain_field others ->
  start_time_of (stat_text pid_ comm fields start others) = Some start.
Proof. apply start_time_roundtrip. Qed.

(** A line of the memory map, as the kernel prints it, is recognised exactly
    when it maps the executable at the offset looked for, and then gives the
    start of the mapping. *)
Theorem maps_line_recognised executable wanted start end_ permissions offset dev inode padding path :
  is_u64 start -> is_u64 end_ -> is_u64 offset ->
  word permissions -> (length permissions <= 7)%nat -> word dev -> word inode ->
  match path with c :: _ => isspace c = false | [] => False end ->
  Forall (fun c => c <> 10 /\ c <> 0) path ->
  base_of executable wanted (maps_line start end_ permissions offset dev inode padding path)
  = if bool_decide (offset = wanted /\ path = executable) then Some start else None.
Proof. apply base_of_roundtrip. Qed.

(** ** An executable and a box *)

Definition le (n : nat) (v : Z) : list Z := le_bytes n v.

Definition image_header : list Z :=
  ELFMAG ++ [2; 1; 1] ++ repeat 0 9 ++ le 2 2 ++ le 2 183 ++ le 4 1 ++ le 8 0 ++ le 8 64 ++ le 8 120
  ++ le 4 0 ++ le 2 64 ++ le 2 56 ++ le 2 1 ++ le 2 64 ++ le 2 3 ++ le 2 0.

Definition image_segment : list Z := le 4 1 ++ le 4 5 ++ le 8 0x1000 ++ le 8 0x200000 ++ repeat 0 32.

Definition image_section (ty off size link entsize : Z) : list Z :=
  le 4 0 ++ le 4 ty ++ le 8 0 ++ le 8 0 ++ le 8 off ++ le 8 size ++ le 4 link ++ le 4 0 ++ le 8 0
  ++ le 8 entsize.

Definition image_symbol (name value : Z) : list Z :=
  le 4 name ++ [0; 0] ++ le 2 1 ++ le 8 value ++ le 8 8.

(** One segment, a symbol table with two frames, and its strings. *)
Definition demo_image : list Z :=
  image_header ++ image_segment
  ++ image_section 0 0 0 0 0 ++ image_section 2 312 72 2 24 ++ image_section 3 384 23 0 0
  ++ repeat 0 24 ++ image_symbol 1 0x200040 ++ image_symbol 12 0x200048
  ++ 0 :: c_bytes "MMI_Rx_085" ++ 0 :: c_bytes "MMI_Rx_0A6" ++ [0].

Definition demo_stat : list Z :=
  stat_text 42 (c_bytes "hal (x) y") (repeat (c_bytes "1") 19) 7777 [c_bytes "9"].

Definition demo_line : list Z :=
  maps_line 0x5555000000 0x5555002000 (c_bytes "r-xp") 0x1000 (c_bytes "fd:00") (c_bytes "77") 10
    (c_bytes "/vendor/hal").

Definition demo_box : box :=
  mk_box 0 [] 0 [] 9 [42] (c_bytes "vehicle.hal" ++ [0; 120]) (c_bytes "/vendor/hal") demo_image
    [c_bytes "garbage"; demo_line] demo_stat
    [(0x5555000040, [1; 2; 3; 4; 5; 6; 7; 8]); (0x5555000048, [9; 9; 9; 9; 9; 9; 9; 9])].

Lemma vhal_open_contract_witness :
  exists s w', vhal_open 10 (c_bytes "vehicle") demo_box = Ok ((0, s), w')
    /\ take 2 (addresses s) = [0x5555000040; 0x5555000048] /\ opened (c_bytes "vehicle") s demo_box w'.
Proof.
  destruct (vhal_open_contract 10 (c_bytes "vehicle") demo_box) as (r & s & w' & Hrun & Hr); [cbn; lia|].
  assert (E : match vhal_open 10 (c_bytes "vehicle") demo_box with
              | Ok ((r, s), _) => r = 0 /\ take 2 (addresses s) = [0x5555000040; 0x5555000048]
              | _ => False end) by (vm_compute; split; reflexivity).
  rewrite Hrun in E. destruct E as [-> E]. exists s, w'. split; [exact Hrun|]. split; [exact E|].
  destruct Hr as [[_ Hr]|[Hr _]]; [exact Hr|discriminate Hr].
Defined.

(** The source that is opened on the box, and the box then. *)
Definition demo_open : roadcast_vhal_source_t * box :=
  match vhal_open 10 (c_bytes "vehicle") demo_box with
  | Ok ((_, s), w) => (s, w)
  | _ => (closed_source, demo_box)
  end.

Lemma vhal_read_contract_witness :
  exists s' frames w' h hc,
    vhal_read 10 demo_open.1 (repeat zero_frame 111) demo_open.2 = Ok ((0, s', frames), w')
    /\ read_post demo_open.1 0 s' frames h hc
    /\ map data (take 3 frames) = [[1; 2; 3; 4; 5; 6; 7; 8]; repeat 9 8; repeat 0 8].
Proof.
  assert (Hs : source_ok demo_open.1).
  { split; [vm_compute; reflexivity|]. split; vm_compute; reflexivity. }
  destruct (vhal_read_contract 10 demo_open.1 (repeat zero_frame 111) demo_open.2)
    as (r & s' & fs & w' & h & hc & Hrun & _ & Hp).
  - apply Nat.ltb_lt. vm_compute. reflexivity.
  - exact Hs.
  - exact zero_frames_ok.
  - assert (E : match vhal_read 10 demo_open.1 (repeat zero_frame 111) demo_open.2 with
                | Ok ((r, _, fs), _) =>
                    r = 0 /\ map data (take 3 fs) = [[1; 2; 3; 4; 5; 6; 7; 8]; repeat 9 8; repeat 0 8]
                | _ => False end) by (vm_compute; split; reflexivity).
    rewrite Hrun in E. destruct E as [-> E]. exists s', fs, w', h, hc.
    split; [exact Hrun|]. split; [exact Hp|exact E].
Defined.

Lemma vhal_session_releases_witness :
  let '(rs, session, w1) :=
    session_polls (roadcast_source_session_init (Some "vehicle"%string)).2 [0; 1; 2000000000] demo_box in
  rs = [0; 0; 0]
  /\ files (roadcast_source_session_close session w1).2 = files demo_box.
Proof.
  pose proof (vhal_session_releases (Some "vehicle"%string) [0; 1; 2000000000] demo_box) as H.
  assert (E :
    (session_polls (roadcast_source_session_init (Some "vehicle"%string)).2 [0; 1; 2000000000] demo_box).1.1
    = [0; 0; 0]) by (vm_compute; reflexivity).
  destruct (session_polls _ _ demo_box) as [[rs session] w1]. split; [exact E|apply H].
Defined.


Lemma plain_digit : plain_field (c_bytes "1") /\ plain_field (c_bytes "9").
Proof. split; (split; [discriminate|]; repeat constructor; discriminate). Qed.

Lemma start_time_parsed_witness : start_time_of demo_stat = Some 7777.
Proof.
  apply (start_time_parsed 42 (c_bytes "hal (x) y") (repeat (c_bytes "1") 19) 7777 [c_bytes "9"]).
  - lia.
  - unfold is_u64. lia.
  - repeat constructor; discriminate.
  - reflexivity.
  - apply Forall_forall. intros f Hf. apply repeat_spec in Hf as ->. apply plain_digit.
  - constructor; [apply plain_digit|constructor].
Defined.

Lemma maps_line_recognised_witness :
  base_of (c_bytes "/vendor/hal") 0x1000 demo_line = Some 0x5555000000
  /\ base_of (c_bytes "/vendor/hal") 0 demo_line = None.
Proof.
  assert (Hw : forall w : list Z, forallb (fun c => negb (isspace c) && negb (c =? 0)) w = true -> w <> [] -> word w).
  { intros w Hw Hn. split; [exact Hn|]. apply Forall_forall. intros c Hc.
    pose proof (proj1 (forallb_forall _ _) Hw c Hc) as H. cbn beta in H. split_bools. split; assumption. }
  assert (Hp : Forall (fun c => c <> 10 /\ c <> 0) (c_bytes "/vendor/hal"))
    by (repeat constructor; discriminate).
  split;
    (unfold demo_line;
     rewrite (maps_line_recognised (c_bytes "/vendor/hal") _ 0x5555000000 0x5555002000 (c_bytes "r-xp") 0x1000
       (c_bytes "fd:00") (c_bytes "77") 10 (c_bytes "/vendor/hal"));
     [vm_compute; reflexivity|unfold is_u64; lia|unfold is_u64; lia|unfold is_u64; lia
     |apply Hw; [reflexivity|discriminate]|cbn; lia|apply Hw; [reflexivity|discriminate]
     |apply Hw; [reflexivity|discriminate]|reflexivity|exact Hp]).
Defined.
